(* ===== verification/_CoqProject ===== *)
-Q . S2P
Prelude.v
Allocram.v
NBuf.v
NBufProps.v
Baw.v
HalConsts.v
Hal.v
HalProps.v
Tasklet.v
Timer.v
Dma.v
DmaProps.v
DmaTx.v
DmaRx.v
DmaSample.v
HifPipes.v
UsbTypes.v
Hif.v
Io.v
Sflash.v
Printf.v
Cmnos.v
Dbg.v
UsbFifo.v
UsbCfg.v
UsbEp0.v
UsbProps.v
SflashProps.v
SflashSample.v
PrintfProps.v
CmnosProps.v
CmnosSample.v
DbgProps.v
DbgSample.v
UsbEp0Props.v
UsbDescr.v
Fwd.v
UsbIn.v
UsbOut.v
UsbSample.v
UsbDescrSample.v
FwdProps.v
RateTables.v
Htc.v
Wmi.v
TxTypes.v
TxEvent.v
TxPath.v
TxSample.v
TxProps.v
TxStatus.v
TxAggr.v
TxSched.v
TxInv.v
TxTyped.v
RateCtl.v
IfTypes.v
IfRecv.v
IfCmd.v
IfWmi.v
IfInit.v
IfTyped.v
IfSteps.v
IfHeap.v
IfRing.v
IfTrig.v
IfFrames.v
IfSend.v
IfStart.v
IfReturn.v
IfBoot.v
IfSample.v
RateSort.v
RateProps.v
RateFind.v
RateSearch.v
RateAssoc.v
HtcProps.v
HtcFlow.v
WmiProps.v
