(* ===== verification/Prelude.v ===== *)
(** * ath9k-htc target firmware: verification development (root file)

    The firmware runs on the CPU of a USB wireless adapter. The host driver downloads it,
    then sends it frames and commands over USB pipes; the firmware queues the frames per
    node and traffic identifier, aggregates them, hands them to the MAC, retries them and
    reports what became of them; received frames travel the other way. This library models
    that program, from the control endpoint that the host enumerates and the download of
    the image to the transmit path, the receive path and the rate control of the wireless
    core, and proves what makes each part correct. Paths below are under src/; "target/"
    abbreviates target_firmware/magpie_fw_dev/target/, "wlan/" target_firmware/wlan/ and
    "sboot/" sboot/magpie_1_1/sboot/.

    ** The parts and the files that model them

    Foundations.
    - [Prelude] (this file): machine words and their wrapping, bit operations and fields,
      the state monad with faults [M] every stateful function is written in, its
      weakest-precondition calculus, record updates, list and map lemmas, hint databases.
    - [Allocram]: the start-up allocator (sboot/cmnos/allocram). Its state is the pair of
      file-scope variables of the source.
    - [NBuf], [NBufProps]: buffers and descriptors (sboot/vbuf, sboot/vdesc), the
      adf_nbuf operations on them (target/adf/adf_nbuf.c) and the static pools
      (target/buf_pool/buf_pool_static.c). Pointers are addresses into two finite maps.
    - [Tasklet], [Timer]: the bottom halves and the timers of the boot ROM
      (sboot/cmnos/tasklet, sboot/cmnos/timer), over the classes [HasTasklets] and
      [HasTimers] that say where the client's state keeps them; what the functions they
      call may do is in [TaskletLaws] and [TimersLaws].

    USB and the host interface.
    - [Dma], [DmaProps], [DmaTx], [DmaRx], [DmaSample]: the descriptor queues shared with
      the USB DMA engine (sboot/dma_engine).
    - [HifPipes], [UsbTypes], [Hif]: sboot/hif/usb/src/HIF_usb.c over these queues with
      target/rompatch/HIF_usb_patch.c. The USB chip is the class [UsbIo]; the layer above
      is the class [HifClient]. [UsbFifo], [UsbProps]: the FIFO endpoints of commands and
      events (target/hif/usb_api_main_patch.c), with the class [UsbFifoLaws].
    - [UsbCfg], [UsbEp0], [UsbEp0Props], [UsbDescr]: the USB device (sboot/hif/usb/src:
      usb_table.c, usb_fifo.c, usb_api.c, with the functions that
      target/hif/usb_api_main_patch.c puts in their place): descriptor tables, endpoint set-up, the control endpoint with
      its data stages, requests and interrupt. The address the linker chooses is the class
      [UsbPlace]; [UsbEp0Laws] is the documented behaviour of the endpoint's registers.
    - [UsbIn], [UsbOut]: a command comes in, an event goes out, packet by packet.
      [UsbSample], [UsbDescrSample]: concrete chips and states for the witnesses.
    - [Fwd], [FwdProps]: the firmware download (sboot/fwd/fwd.c), the boot
      code's client of the HIF layer.

    Services of the boot ROM and the console.
    - [Io]: registers and memory as these see them: the classes [DevIo] (a read may change
      the device) and [CpuIo], and the record [svc] of device, memory and own state.
    - [Cmnos], [CmnosProps], [CmnosSample]: watchdog, clock with the target's functions in
      place of the ROM's (target/rompatch/cmnos_clock_patch.c), UART, EEPROM, patches
      stored in it, dispatch of interrupts (sboot/cmnos). The EEPROM is the class [Eeprom].
    - [Sflash], [SflashProps], [SflashSample]: the serial flash
      (target/cmnos/cmnos_sflash.c); controller and chip are the class [SpiFlash].
    - [Printf], [PrintfProps]: formatted output (target/cmnos/k2_fw_cmnos_printf.c).
    - [Dbg], [DbgProps], [DbgSample]: the debug console (target/cmnos/dbg_api.c) over the
      three above; the characters that arrive are the class [Uart].

    Messages.
    - [Htc], [HtcProps], [HtcFlow]: the host-target communication layer
      (target/htc/htc.c) with the receive handlers that target/init/init.c installs over
      it. The state is HTC_CONTEXT over the buffer heap and a byte memory; calls to the USB
      layer are recorded, in order, in [h_hif], and its answers are those of [HifPipes];
      the registered services are the class [HtcServices].
    - [Wmi], [WmiProps]: the command and event service (target/wmi/wmi_svc.c), a client of
      [Htc]: it discharges [HtcServices] from the class [WmiHandlers] of the handlers its
      dispatch tables name.

    The wireless core.
    - [HalConsts], [Hal], [HalProps]: the MAC layer (wlan/ar5416_hw.c, wlan/ah.c): transmit
      and receive descriptors as records of their words, and the register routines over an
      abstract chip, the class [Mmio] (a read or write may change the chip's state).
    - [Baw]: the block-ack window of a traffic identifier, the struct ath_atx_tid of
      wlan/if_athvar.h and the window code of wlan/if_owl.c.
    - [TxTypes], [TxPath]: the state of the wireless core (struct ath_softc_tgt, nodes,
      transmit buffers, queues) and every function of wlan/if_owl.c, one definition each,
      with the 802.11 helpers of wlan/ieee80211_output.c. Calls that leave towards the
      host are recorded, in order, in [sc_host]. [TxEvent]: wmi_event and wmi_cmd_rsp of
      wlan/if_ath.c down to the bytes given to HTC, with the part of the WMI service they
      use, shown to be that of [Wmi]. [TxProps], [TxStatus], [TxAggr],
      [TxSched], [TxInv], [TxTyped]: the theorems; [TxSample]: a small concrete state.
    - [RateTables], [RateCtl]: the rate tables (wlan/ar5416Phy.c, wlan/ar5416_phy.c) and
      rate control (wlan/ratectrl_11n_ln.c). The transmit path uses it through the class
      [RateControl] with its laws [RateControlLaws], the command handlers through
      [RateAdmin]; [ratectl_11n], [ratectl_laws] and [rateadmin_11n] discharge them. The
      clock is the class [MsClock]. [RateSort], [RateProps], [RateFind], [RateSearch],
      [RateAssoc]: the theorems.
    - [IfTypes], [IfRecv], [IfCmd], [IfWmi], [IfInit]: wlan/if_ath.c: its state over that
      of the transmit path; reception; commands, beacons, queues and interrupts; the
      command handlers and their table; attaching and the services. [IfTyped], [IfSteps]:
      the running target as a transition system. [IfHeap], [IfRing], [IfTrig],
      [IfFrames], [IfSend], [IfStart], [IfReturn], [IfBoot]: the invariant of the receive
      path and what each of its parts does; [IfSample]: a small concrete state.

    ** What the theorems show

    Reception ([IfFrames], [IfSend], [IfReturn], [IfStart], [IfBoot]): the ring of receive
    descriptors and the owners of each buffer form an invariant that start-up establishes
    from a fresh arena and that the interrupt handler, the tasklet and the return of frames
    keep, whatever the chip writes; the frames collected are those the chip completed,
    in order and up to the first it has not, each descriptor taken off the ring is again on
    it, on the list of idle ones or held back, and each frame goes to the host once, in
    order, with its time stamp extended to the 64-bit time nearest to the chip's clock.

    The running target ([IfSteps]): a step is what WMI, HTC and the main loop call, or what
    the chip, the bus and the host do in between. Along every run the typing of the state
    is kept (sequence numbers below 4096, positions inside their arrays, fields within
    their widths), and the messages handed to HTC as replies are, by their identifier and
    sequence number, those of the commands run, in order.

    USB ([UsbIn], [UsbOut], [UsbDescr], [FwdProps], [DmaTx], [DmaRx]): a command in full
    packets and a short last one reaches the layer above once with its bytes, the first
    of the queued events leaves with its bytes and the others wait, a request for a descriptor is served with the descriptor's
    bytes cut to what was asked, an image downloaded in segments is in memory with the CPU
    at its entry point exactly when its checksum is right; the DMA queues refine queues of
    buffers with their contents.

    Services ([CmnosProps], [SflashProps], [PrintfProps], [DbgProps]): a patch in the
    EEPROM is installed and entered exactly when its words cancel out and its code goes to
    the RAM; what is programmed into erased flash reads back and nothing else changes; a
    format prints its characters and the numerals of its numbers, padded as it says; a line
    typed at the console runs the command it names with its words, and what is printed as
    a hexadecimal number is read back as the same.

    The window ([Baw]): the ring, read as the set of sequence numbers in flight, is refined
    by every operation, and each of its loops ends. The transmit path: an aggregate is a
    prefix of the software queue, inside the window and within its limits; the entries of
    the status report, the schedule of TIDs, the recycling of buffers. Rate control: a
    node's record stays well formed through association, choice and report; a choice
    always answers with rates the hardware knows, each series no faster than the one before; the sort sorts. The MAC layer: each descriptor is completed once, what is
    written into it reads back, the time stamp is read atomically. HTC: credits are
    conserved when buffers go back and reported at the latest when all of an endpoint's are
    back, a trailer reports exactly the pending credits that
    fit, no more credits are assigned than exist, bad frames go where they should. WMI: a
    command reaches the first table that serves it, event buffers go home. Timers and
    tasklets: due timers fire once and in order, the list stays sorted. Buffers: queues
    are first-in first-out, pools are stacks, the head and tail operations undo each
    other, start-up blocks do not overlap.

    Some theorems state behaviour that is not what the code means to do; they say so in
    their comment ([ath_tgt_find_node_bound], [ath_tx_status_update_aggr_stale],
    [trailer_room_unclamped], [recv_before_setup_drops], [ath_lookup_rate_multicast],
    [adf_nbuf_dmamap_info_single], [adf_nbuf_push_head_wraps], [arm_again_cycles],
    [walk_cycle_ends_not], [printed_percent], [printed_bits], the theorems on overlong
    commands in [UsbIn], and those of [RateSearch]).

    ** Faults, fuel and effects

    A computation of [M] either returns or stops with a [fault]: a failed assertion, a
    null or wild pointer, an index out of range, a division by zero, a read of an
    uninitialised variable, an exhausted fuel, or a jump to the boot code, which does not
    come back. Loops that are not structural carry fuel. The window loops have
    [BAW_FUEL] = 128, the size of the ring; the credit loop has 32, the width of the map;
    walks along descriptors and buffers have as many turns as there are descriptors or
    buffers in the heap; walks along a software queue have its length plus one; the
    control endpoint waits [EP0_WAIT] = 65536 turns for the chip, as the source does; the
    copy and the checksum of a download take the number of their words; the UART is polled
    as often as the source says, 10000 times; a conversion has at most 33 digits, one more
    than the bits of a word; parsing a line takes no more turns than the line has places.
    Loops that the hardware ends take their fuel as an argument. The theorems about a loop prove that
    its fuel is enough where its list has no repetition.

    The code runs on one CPU without preemption between the functions modelled, so a
    function is a sequential computation; what the chip does meanwhile is in the state of
    [Mmio] and [UsbIo]. Debug prints and statistics that nothing reads are left out. What
    fresh memory holds is an argument of the definitions that read it.

    ** Not modelled

    Start-up and platform initialisation, PCI glue, PHY and clock set-up, the power and
    reset sequences of the two chips: register writes in a fixed order, without state of
    the program. The adaptation layer's wrappers, one line each, around the boot ROM's
    services. The main loop of the boot ROM, which fills the table of functions and calls
    the services in turn, and its exception dumps. The GMAC interface with its DMA
    library, which the USB build leaves out, and the boot ROM's older copies of HTC and of
    the pools, which the target's own replace. The host utilities, which convert files at build
    time. In the attach routine, rate control's tables come from [RateTables] as
    constants, not through the attachment that fills a structure with them. *)

From Stdlib Require Export ZArith Lia.
From stdpp Require Export prelude gmap.

#[global] Open Scope Z_scope.
#[export] Set Default Goal Selector "!".

(** ** Machine integers

    A C integer of width [w] is a [Z]; arithmetic is done in [Z] and every store
    into a variable of a narrower type wraps explicitly. *)
Definition u8 (x : Z) : Z := x mod 256.
Definition u16 (x : Z) : Z := x mod 65536.
Definition u32 (x : Z) : Z := x mod 4294967296.
Definition u64 (x : Z) : Z := x mod 18446744073709551616.
Definition s8 (x : Z) : Z := (x + 128) mod 256 - 128.
Definition s16 (x : Z) : Z := (x + 32768) mod 65536 - 32768.
Definition s32 (x : Z) : Z := (x + 2147483648) mod 4294967296 - 2147483648.

Definition in_u8 (x : Z) : Prop := 0 <= x < 256.
Definition in_u16 (x : Z) : Prop := 0 <= x < 65536.
Definition in_u32 (x : Z) : Prop := 0 <= x < 4294967296.

(** *** Wrapping is the identity in range *)
Create HintDb wrap.

Lemma u8_small x : 0 <= x < 256 → u8 x = x.
Proof. apply Z.mod_small. Qed.
Lemma u16_small x : 0 <= x < 65536 → u16 x = x.
Proof. apply Z.mod_small. Qed.
Lemma u32_small x : 0 <= x < 4294967296 → u32 x = x.
Proof. apply Z.mod_small. Qed.
Lemma s32_small x : -2147483648 <= x < 2147483648 → s32 x = x.
Proof. intros. unfold s32. rewrite Z.mod_small; lia. Qed.
Lemma s8_small x : -128 <= x < 128 → s8 x = x.
Proof. intros. unfold s8. rewrite Z.mod_small; lia. Qed.
Lemma s16_small x : -32768 <= x < 32768 → s16 x = x.
Proof. intros. unfold s16. rewrite Z.mod_small; lia. Qed.
#[export] Hint Rewrite u8_small u16_small u32_small s32_small s8_small s16_small
  using lia : wrap.

Lemma u8_range x : 0 <= u8 x < 256.
Proof. by apply Z.mod_pos_bound. Qed.
Lemma u16_range x : 0 <= u16 x < 65536.
Proof. by apply Z.mod_pos_bound. Qed.
Lemma u32_range x : 0 <= u32 x < 4294967296.
Proof. by apply Z.mod_pos_bound. Qed.
#[export] Hint Resolve u8_range u16_range u32_range : wrap.

(** Linear arithmetic with division and remainder by constants. *)
Ltac mlia := Z.div_mod_to_equations; lia.

Declare Scope c_scope.
Delimit Scope c_scope with c.
#[global] Open Scope c_scope.

Infix ".&" := Z.land (at level 40, left associativity) : c_scope.
Infix ".|" := Z.lor (at level 50, left associativity) : c_scope.
Infix ".<<" := Z.shiftl (at level 39, left associativity) : c_scope.
Infix ".>>" := Z.shiftr (at level 39, left associativity) : c_scope.
(** [x .&~ m] is the C expression [x & ~m] on unsigned words. *)
Infix ".&~" := Z.ldiff (at level 40, left associativity) : c_scope.

(** The truth value of the C condition [x & m]. *)
Definition tst (x m : Z) : bool := negb (x .& m =? 0).
(** The truth value of a C integer used as a condition. *)
Definition truthy (x : Z) : bool := negb (x =? 0).
Definition b2z (b : bool) : Z := if b then 1 else 0.
(** The C conditional expression [b ? x : 0]. *)
Definition ifbit (b : bool) (x : Z) : Z := if b then x else 0.

(** Register-field macros of the drivers: [SM(v, f)] and [MS(v, f)], where [f] is
    the mask and [s] the shift [f##_S]. *)
Definition SM (v f s : Z) : Z := u32 (v .<< s) .& f.
Definition MS (v f s : Z) : Z := (v .& f) .>> s.

(** ** Record update

    [r <| f := v |>] replaces one field; [r <| f ::= k |>] applies [k] to it. A record
    type opts in with an [EtaExp] instance that rebuilds it from its fields. *)
Class EtaExp (R : Type) := eta_exp : R -> R.
Class FieldUpd {R E : Type} (proj : R -> E) := field_upd : (E -> E) -> R -> R.
Arguments field_upd {R E} proj {_} _ _.

Ltac derive_field_upd :=
  lazymatch goal with
  | |- @FieldUpd ?R ?E ?proj =>
      let i := constr:(_ : EtaExp R) in
      let h := eval hnf in i in
      refine (fun (k : E -> E) (x : R) =>
        ltac:(let b := eval cbv beta in (h x) in
              lazymatch b with context [proj x] => idtac end;
              let p := eval pattern (proj x) in b in
              lazymatch p with
              | ?g _ => let t := eval cbv beta in (g (k (proj x))) in exact t
              end))
  end.
#[export] Hint Extern 1 (@FieldUpd _ _ _) => derive_field_upd : typeclass_instances.

Notation "r <| f ::= k |>" := (field_upd f k r)
  (at level 12, f at next level, left associativity, format "r  <| f  ::=  k |>") : c_scope.
Notation "r <| f := v |>" := (field_upd f (fun _ => v) r)
  (at level 12, f at next level, left associativity, format "r  <| f  :=  v |>") : c_scope.

(** ** Fallible stateful code

    A C routine over a state [S] is a function [S → outcome (A * S)]. A [Fault] is a
    point where the C code has no defined continuation: a failed assertion (which
    loops or traps on the target), a dereferenced null pointer, an index outside its
    array, a division by zero, the use of an uninitialised variable, a jump to the boot
    code, and, for loops that the model cuts at a fuel, an exhausted fuel. *)
Inductive fault :=
  AssertFailed | NullPointer | OutOfRange | DivByZero | UninitRead | Rebooted | OutOfFuel.
#[export] Instance fault_eq_dec : EqDecision fault.
Proof. solve_decision. Defined.

Inductive outcome (A : Type) := Ok (a : A) | Fault (f : fault).
Arguments Ok {A} a.
Arguments Fault {A} f.

Definition M (S A : Type) : Type := S → outcome (A * S).

#[export] Instance M_ret {S} : MRet (M S) := λ A a s, Ok (a, s).
#[export] Instance M_bind {S} : MBind (M S) := λ A B k m s,
  match m s with Ok (a, s') => k a s' | Fault f => Fault f end.

Definition fail {S A} (f : fault) : M S A := λ _, Fault f.
Definition get {S} : M S S := λ s, Ok (s, s).
Definition gets {S A} (f : S → A) : M S A := λ s, Ok (f s, s).
Definition modify {S} (f : S → S) : M S unit := λ s, Ok (tt, f s).
Definition assert_ {S} (b : bool) : M S unit :=
  if b then mret tt else fail AssertFailed.
Definition deref {S A} (o : option A) : M S A :=
  match o with Some a => mret a | None => fail NullPointer end.
Definition in_range {S A} (o : option A) : M S A :=
  match o with Some a => mret a | None => fail OutOfRange end.
Definition when {S} (b : bool) (m : M S unit) : M S unit := if b then m else mret tt.
Abbreviation unless b m := (when (negb b) m).

(** [for (x in l) body(x)] *)
Fixpoint for_each {S A} (l : list A) (body : A → M S unit) : M S unit :=
  match l with
  | [] => mret tt
  | x :: l' => body x ;; for_each l' body
  end.

(** [do { body } while (result)], cut at [fuel] iterations. *)
Fixpoint do_while {S} (fuel : nat) (body : M S bool) : M S unit :=
  match fuel with
  | O => fail OutOfFuel
  | S n => b ← body; if b : bool then do_while n body else mret tt
  end.

(** *** Total-correctness reasoning

    [wp m Q s]: [m] run from [s] does not fault and its result satisfies [Q]. *)
Definition wp {S A} (m : M S A) (Q : A → S → Prop) (s : S) : Prop :=
  match m s with Ok (a, s') => Q a s' | Fault _ => False end.

Section wp_rules.
Context {S : Type}.
Implicit Type s : S.

Lemma wp_ret {A} (a : A) Q s : Q a s → wp (mret a) Q s.
Proof. done. Qed.

Lemma wp_bind {A B} (m : M S A) (k : A → M S B) Q s :
  wp m (λ a, wp (k a) Q) s → wp (m ≫= k) Q s.
Proof. unfold wp, mbind, M_bind. by destruct (m s) as [[??]|]. Qed.

Lemma wp_bind_inv {A B} (m : M S A) (k : A → M S B) Q s :
  wp (m ≫= k) Q s → wp m (λ a, wp (k a) Q) s.
Proof. unfold wp, mbind, M_bind. by destruct (m s) as [[??]|]. Qed.

Lemma wp_mono {A} (m : M S A) (Q Q' : A → S → Prop) s :
  wp m Q s → (∀ a s', Q a s' → Q' a s') → wp m Q' s.
Proof. unfold wp. destruct (m s) as [[??]|]; eauto. Qed.

Lemma wp_run {A} (m : M S A) (Q : A → S → Prop) s :
  wp m Q s → ∃ a s', m s = Ok (a, s') ∧ Q a s'.
Proof. unfold wp. destruct (m s) as [[a s']|]; [eauto|done]. Qed.

Lemma wp_ok {A} (m : M S A) (Q : A → S → Prop) s a s' :
  m s = Ok (a, s') → wp m Q s ↔ Q a s'.
Proof. unfold wp. by intros ->. Qed.

Lemma wp_get (Q : S → S → Prop) s : Q s s → wp get Q s.
Proof. done. Qed.
Lemma wp_gets {A} (f : S → A) (Q : A → S → Prop) s : Q (f s) s → wp (gets f) Q s.
Proof. done. Qed.
Lemma wp_modify f (Q : unit → S → Prop) s : Q tt (f s) → wp (modify f) Q s.
Proof. done. Qed.
Lemma wp_assert b (Q : unit → S → Prop) s : b = true → Q tt s → wp (assert_ b) Q s.
Proof. by intros ->. Qed.
Lemma wp_deref {A} (o : option A) a (Q : A → S → Prop) s :
  o = Some a → Q a s → wp (deref o) Q s.
Proof. by intros ->. Qed.
Lemma wp_in_range {A} (o : option A) a (Q : A → S → Prop) s :
  o = Some a → Q a s → wp (in_range o) Q s.
Proof. by intros ->. Qed.
Lemma wp_when b m (Q : unit → S → Prop) s :
  (b = true → wp m Q s) → (b = false → Q tt s) → wp (when b m) Q s.
Proof. destruct b; intros H1 H2; [by apply H1|by apply H2]. Qed.

(** Loop invariant over a traversed list: [I done s]. *)
Lemma wp_for_each_acc {A} (I : list A → S → Prop) body l :
  (∀ dn x rest s, l = dn ++ x :: rest → I dn s → wp (body x) (λ _, I (dn ++ [x])) s) →
  ∀ s, I [] s → wp (for_each l body) (λ _, I l) s.
Proof.
  intros Hstep.
  enough (∀ rest dn s, l = dn ++ rest → I dn s → wp (for_each rest body) (λ _, I l) s)
    as H by (intros s Hs; by apply (H l [])).
  induction rest as [|x rest IH]; intros dn s Hl Hs; simpl.
  { apply wp_ret. by rewrite Hl, app_nil_r. }
  apply wp_bind. eapply wp_mono; [by apply (Hstep dn x rest)|].
  intros [] s' Hs'. apply (IH (dn ++ [x])); [|done].
  by rewrite <-app_assoc.
Qed.

Lemma wp_for_each {A} (I : S → Prop) (body : A → M S unit) l s :
  (∀ x s, x ∈ l → I s → wp (body x) (λ _, I) s) →
  I s → wp (for_each l body) (λ _, I) s.
Proof.
  intros Hstep Hs. apply (wp_for_each_acc (λ _, I)); [|done].
  intros dn x rest s' Hl ?. apply Hstep; [|done]. set_solver.
Qed.

(** Loop invariant with a decreasing measure: enough fuel never runs out. *)
Lemma wp_do_while (I : S → Prop) (mu : S → nat) body fuel s (Q : unit → S → Prop) :
  (∀ s, I s → wp body (λ b s', if b : bool then I s' ∧ (mu s' < mu s)%nat else Q tt s') s) →
  I s → (mu s < fuel)%nat → wp (do_while fuel body) Q s.
Proof.
  intros Hstep. revert s. induction fuel as [|fuel IH]; intros s Hs Hmu; [lia|].
  simpl. apply wp_bind. eapply wp_mono; [by apply Hstep|].
  intros [] s'; simpl; [|done]. intros [??]. apply IH; [done|lia].
Qed.
End wp_rules.

(** One step of symbolic execution of monadic code. *)
Ltac wp_step :=
  lazymatch goal with
  | |- wp (_ ≫= _) _ _ => apply wp_bind
  | |- wp (mret _) _ _ => apply wp_ret
  | |- wp get _ _ => apply wp_get
  | |- wp (gets _) _ _ => apply wp_gets
  | |- wp (modify _) _ _ => apply wp_modify
  end.
Ltac wp_steps := repeat (wp_step; cbv beta).

(** Expose the fields of updated records. *)
Ltac fields := unfold field_upd in *; cbn in *.

(** *** Running code step by step *)
Create HintDb run.

Lemma bind_ok {S A B} (m : M S A) (k : A → M S B) s a s' :
  m s = Ok (a, s') → (m ≫= k) s = k a s'.
Proof. unfold mbind, M_bind. by intros ->. Qed.
Lemma bind_fault {S A B} (m : M S A) (k : A → M S B) s f :
  m s = Fault f → (m ≫= k) s = Fault f.
Proof. unfold mbind, M_bind. by intros ->. Qed.
Lemma bind_inv {S A B} (m : M S A) (k : A → M S B) s b s'' :
  (m ≫= k) s = Ok (b, s'') → ∃ a s', m s = Ok (a, s') ∧ k a s' = Ok (b, s'').
Proof. unfold mbind, M_bind. destruct (m s) as [[a s']|] eqn:E; [eauto|done]. Qed.
(** A loop that does not look at what it runs over. *)
Lemma for_each_const {S A B} (m : M S unit) (l : list A) (l' : list B) s :
  length l = length l' → for_each l (λ _, m) s = for_each l' (λ _, m) s.
Proof.
  revert l' s. induction l as [|x l IH]; intros [|y l'] s Hl; [done|done|done|]. cbn [for_each]. unfold mbind, M_bind.
  destruct (m s) as [[[] s']|]; [|done]. apply IH. by injection Hl.
Qed.
Lemma bind_assoc {S A B C} (m : M S A) (f : A → M S B) (g : B → M S C) s :
  ((m ≫= f) ≫= g) s = (m ≫= λ a, f a ≫= g) s.
Proof. unfold mbind, M_bind. by destruct (m s) as [[??]|]. Qed.

Lemma run_get {S} (s : S) : get s = Ok (s, s). Proof. done. Qed.
Lemma run_gets {S A} (f : S → A) s : gets f s = Ok (f s, s). Proof. done. Qed.
Lemma run_modify {S} (f : S → S) s : modify f s = Ok (tt, f s). Proof. done. Qed.
Lemma run_ret {S A} (a : A) (s : S) : (mret a : M S A) s = Ok (a, s). Proof. done. Qed.
Lemma run_assert {S} b (s : S) : b = true → assert_ b s = Ok (tt, s).
Proof. by intros ->. Qed.
Lemma run_deref {S A} (o : option A) a (s : S) : o = Some a → deref o s = Ok (a, s).
Proof. by intros ->. Qed.
Lemma run_in_range {S A} (o : option A) a (s : S) : o = Some a → in_range o s = Ok (a, s).
Proof. by intros ->. Qed.
#[export] Hint Resolve run_get run_gets run_modify run_ret run_assert run_deref
  run_in_range : run.

(** Execute the leading steps whose outcome the [run] hints determine. *)
Ltac run_step :=
  first [ rewrite bind_assoc
        | erewrite bind_ok by (solve [eauto with run nocore]) ]; cbv beta.
Ltac run := repeat run_step.

(** *** Frames

    [keeps f m]: no successful run of [m] changes the part [f] of the state. *)
Definition keeps {S A X} (f : S → X) (m : M S A) : Prop :=
  ∀ s a s', m s = Ok (a, s') → f s' = f s.
Create HintDb keeps.

Section keeps_rules.
Context {S X : Type} (f : S → X).
Lemma keeps_ret {A} (a : A) : keeps f (mret a).
Proof. intros s b s' E. by injection E as -> ->. Qed.
Lemma keeps_bind {A B} (m : M S A) (k : A → M S B) :
  keeps f m → (∀ a, keeps f (k a)) → keeps f (m ≫= k).
Proof.
  intros Hm Hk s b s'' (a & s' & E1 & E2)%bind_inv. rewrite (Hk _ _ _ _ E2). by eapply Hm.
Qed.
Lemma keeps_get : keeps f get.
Proof. intros s b s' E. by injection E as -> ->. Qed.
Lemma keeps_gets {A} (g : S → A) : keeps f (gets g).
Proof. intros s b s' E. by injection E as <- <-. Qed.
Lemma keeps_modify g : (∀ s, f (g s) = f s) → keeps f (modify g).
Proof. intros Hg s b s' E. injection E as <- <-. apply Hg. Qed.
Lemma keeps_fail {A} e : keeps f (fail e : M S A).
Proof. by intros s b s'. Qed.
Lemma keeps_assert b : keeps f (assert_ b).
Proof. destruct b; [apply keeps_ret|apply keeps_fail]. Qed.
Lemma keeps_deref {A} (o : option A) : keeps f (deref o).
Proof. destruct o; [apply keeps_ret|apply keeps_fail]. Qed.
Lemma keeps_in_range {A} (o : option A) : keeps f (in_range o).
Proof. destruct o; [apply keeps_ret|apply keeps_fail]. Qed.
Lemma keeps_when b m : keeps f m → keeps f (when b m).
Proof. intros H. destruct b; [done|apply keeps_ret]. Qed.
Lemma keeps_for_each {A} (l : list A) body : (∀ x, keeps f (body x)) → keeps f (for_each l body).
Proof.
  intros H. induction l as [|x l IH]; cbn; [apply keeps_ret|]. by apply keeps_bind.
Qed.
End keeps_rules.
#[export] Hint Resolve keeps_ret keeps_get keeps_gets keeps_fail keeps_assert keeps_deref
  keeps_in_range : keeps.

(** Proves [keeps] of straight-line code from the [keeps] hints on what it calls. *)
Ltac keeps_step :=
  match goal with
  | |- keeps _ (_ ≫= _) => apply keeps_bind; [|intros ?]
  | |- keeps _ (when _ _) => apply keeps_when
  | |- keeps _ (for_each _ _) => apply keeps_for_each; intros ?
  | |- keeps _ (modify _) => apply keeps_modify; intros ?; reflexivity
  | |- keeps _ (match ?x with _ => _ end) => destruct x
  | |- keeps _ _ => solve [auto with keeps nocore]
  end.
Ltac keeps_tac := repeat keeps_step.

(** ** Linked lists through a partial "next" function; 0 is the null pointer. *)
Fixpoint lchain (nxt : Z → option Z) (p : Z) (l : list Z) : Prop :=
  match l with
  | [] => p = 0
  | a :: l' => p = a ∧ a ≠ 0 ∧ ∃ q, nxt a = Some q ∧ lchain nxt q l'
  end.

Lemma lchain_ext nxt nxt' p l :
  (∀ a, a ∈ l → nxt' a = nxt a) → lchain nxt p l → lchain nxt' p l.
Proof.
  revert p. induction l as [|a l IH]; intros p Hext; simpl; [done|].
  intros (-> & ? & q & Hq & Hl). split_and!; [done..|]. exists q. split.
  - rewrite Hext; [done|set_solver].
  - apply IH; [|done]. set_solver.
Qed.

Lemma lchain_app nxt p l1 l2 :
  lchain nxt p (l1 ++ l2) →
  ∃ q, lchain nxt q l2 ∧
       (∀ nxt' l2', (∀ a, a ∈ l1 → nxt' a = nxt a) → lchain nxt' q l2' → lchain nxt' p (l1 ++ l2')).
Proof.
  revert p. induction l1 as [|a l1 IH]; intros p; simpl.
  { intros. exists p. split; [done|]. intros nxt' l2' _. done. }
  intros (-> & ? & q & Hq & Hl). destruct (IH q Hl) as (r & Hr & Hre).
  exists r. split; [done|]. intros nxt' l2' Hext Hl2.
  split_and!; [done..|]. exists q. split.
  - rewrite Hext; [done|set_solver].
  - apply Hre; [|done]. set_solver.
Qed.

Lemma lchain_inj nxt p l l' : lchain nxt p l → lchain nxt p l' → l = l'.
Proof.
  revert p l'. induction l as [|a l IH]; intros p [|a' l']; simpl; try done.
  - by intros -> (<- & ? & _).
  - by intros (-> & ? & _) ->.
  - intros (-> & ? & q & Hq & Hl) (<- & _ & q' & Hq' & Hl'). simplify_eq.
    f_equal. by eapply IH.
Qed.

Lemma lchain_nonzero nxt p l a : lchain nxt p l → a ∈ l → a ≠ 0.
Proof.
  revert p. induction l as [|x l IH]; intros p; simpl; [set_solver|].
  intros (-> & ? & q & _ & Hl). inversion 1; subst; [done|eauto].
Qed.

Lemma lchain_some nxt p l a : lchain nxt p l → a ∈ l → is_Some (nxt a).
Proof.
  revert p. induction l as [|x l IH]; intros p; simpl; [set_solver|].
  intros (-> & ? & q & ? & Hl). inversion 1; subst; eauto.
Qed.

Lemma lchain_suffix nxt p l1 a l2 : lchain nxt p (l1 ++ a :: l2) → lchain nxt a (a :: l2).
Proof.
  revert p. induction l1 as [|x l1 IH]; intros p; cbn [app].
  - intros H. destruct H as (-> & ? & ?). simpl. eauto.
  - intros (-> & ? & q & _ & Hl). by eapply IH.
Qed.

Lemma lchain_NoDup nxt p l : lchain nxt p l → NoDup l.
Proof.
  revert p. induction l as [|a l IH]; intros p Hl; [constructor|].
  constructor.
  - intros (l1 & l2 & ->)%list_elem_of_split.
    assert (a :: l1 ++ a :: l2 = a :: l2) as Heq.
    { eapply (lchain_inj nxt a).
      - by apply (lchain_suffix nxt p []).
      - by apply (lchain_suffix nxt p (a :: l1)). }
    apply (f_equal length) in Heq. simpl in Heq. rewrite length_app in Heq. simpl in Heq. lia.
  - destruct Hl as (_ & _ & q & _ & Hl). by eapply IH.
Qed.

(** A chain through a finite map has no more links than the map has keys. *)
Lemma lchain_size {V} (m : gmap Z V) (f : V → Z) p l :
  lchain (λ a, f <$> m !! a) p l → (length l <= size m)%nat.
Proof.
  intros Hl. rewrite <-(size_dom m), <-(size_list_to_set (C:=gset Z) l)
    by by eapply lchain_NoDup.
  apply subseteq_size. intros a Ha%elem_of_list_to_set. apply elem_of_dom.
  destruct (lchain_some _ _ _ _ Hl Ha) as [q Hq]. by apply fmap_Some in Hq as (v & ? & _).
Qed.

(** ** Linked lists of named objects *)
Section ochain.
Context {K : Type}.
Implicit Types (nxt : K → option K) (p q : option K) (l : list K).

(** From [p] through [l] to [q]. *)
Fixpoint oseg nxt p l q : Prop :=
  match l with
  | [] => p = q
  | k :: l' => p = Some k ∧ oseg nxt (nxt k) l' q
  end.
Fixpoint ochain nxt p l : Prop :=
  match l with
  | [] => p = None
  | k :: l' => p = Some k ∧ ochain nxt (nxt k) l'
  end.
Lemma ochain_ext nxt nxt' p l :
  (∀ k, k ∈ l → nxt' k = nxt k) → ochain nxt p l → ochain nxt' p l.
Proof.
  revert p. induction l as [|k l IH]; intros p Hext; cbn; [done|]. intros [-> Hl]. split; [done|].
  rewrite Hext by set_solver. apply IH; [|done]. set_solver.
Qed.
Lemma ochain_app nxt p l1 l2 : ochain nxt p (l1 ++ l2) ↔ ∃ q, oseg nxt p l1 q ∧ ochain nxt q l2.
Proof.
  revert p. induction l1 as [|k l1 IH]; intros p; cbn; [naive_solver|].
  rewrite IH. naive_solver.
Qed.
Lemma oseg_ext nxt nxt' p l q :
  (∀ k, k ∈ l → nxt' k = nxt k) → oseg nxt p l q → oseg nxt' p l q.
Proof.
  revert p. induction l as [|k l IH]; intros p Hext; cbn; [done|]. intros [-> Hl]. split; [done|].
  rewrite Hext by set_solver. apply IH; [|done]. set_solver.
Qed.
End ochain.

(** *** Masks and shifts as remainders and products *)
Lemma land_mask x k : 0 <= k → x .& (2 ^ k - 1) = x mod 2 ^ k.
Proof. intros Hk. rewrite <-Z.land_ones by done. f_equal. rewrite Z.ones_equiv. lia. Qed.
Lemma lor_shiftl_add a b k : 0 <= k → 0 <= a < 2 ^ k → a .| b .<< k = a + b * 2 ^ k.
Proof.
  intros Hk Ha. assert (a .& (b .<< k) = 0) as H0.
  { apply Z.bits_inj'. intros n Hn. rewrite Z.land_spec, Z.shiftl_spec, Z.bits_0 by done.
    destruct (Z.ltb_spec n k); [by rewrite (Z.testbit_neg_r b), andb_false_r by lia|].
    rewrite Z.testbit_eqb by done. rewrite Z.div_small; [done|]. split; [lia|].
    eapply Z.lt_le_trans; [apply Ha|]. apply Z.pow_le_mono_r; lia. }
  rewrite <-Z.lxor_lor, <-Z.add_nocarry_lxor by done. by rewrite Z.shiftl_mul_pow2.
Qed.

Lemma land_le a b : 0 <= a → a .& b <= a.
Proof.
  intros Ha. apply Z.ldiff_le; [done|]. apply Z.bits_inj'. intros n Hn.
  rewrite Z.ldiff_spec, Z.land_spec, Z.bits_0. by destruct (Z.testbit a n), (Z.testbit b n).
Qed.

(** ** Register fields

    A field is a mask [f] of [w] ones shifted by [s]; [SM] writes it, [MS] reads it.
    The side conditions of these lemmas are closed equations between constants. *)
Create HintDb field.

Lemma MS_lor a b f s : MS (a .| b) f s = MS a f s .| MS b f s.
Proof. unfold MS. by rewrite Z.land_lor_distr_l, Z.shiftr_lor. Qed.
Lemma MS_0 f s : MS 0 f s = 0.
Proof. unfold MS. by rewrite Z.land_0_l, Z.shiftr_0_l. Qed.
Lemma MS_ifbit c m f s : m .& f = 0 → MS (ifbit c m) f s = 0.
Proof. intros H. destruct c; simpl; [|apply MS_0]. unfold MS. by rewrite H, Z.shiftr_0_l. Qed.
Lemma MS_const m f s : m .& f = 0 → MS m f s = 0.
Proof. intros H. unfold MS. by rewrite H, Z.shiftr_0_l. Qed.
Lemma MS_land_const x m f s : m .& f = 0 → MS (x .& m) f s = 0.
Proof. intros H. unfold MS. by rewrite <-Z.land_assoc, H, Z.land_0_r, Z.shiftr_0_l. Qed.
Lemma MS_SM_disjoint v f s f' s' : f' .& f = 0 → MS (SM v f' s') f s = 0.
Proof. intros H. unfold SM. by apply MS_land_const. Qed.
Lemma MS_ldiff_keep x m f s : m .& f = 0 → MS (x .&~ m) f s = MS x f s.
Proof.
  intros H. unfold MS. f_equal. apply Z.bits_inj'. intros n Hn.
  apply (f_equal (λ z, Z.testbit z n)) in H. revert H.
  rewrite !Z.land_spec, Z.ldiff_spec, Z.bits_0. by destruct (Z.testbit x n), (Z.testbit m n), (Z.testbit f n).
Qed.
Lemma MS_ldiff_drop x m f s : f .&~ m = 0 → MS (x .&~ m) f s = 0.
Proof.
  intros H. unfold MS. rewrite <-(Z.shiftr_0_l s). f_equal. apply Z.bits_inj'. intros n Hn.
  apply (f_equal (λ z, Z.testbit z n)) in H. revert H.
  rewrite Z.land_spec, !Z.ldiff_spec, Z.bits_0. by destruct (Z.testbit x n), (Z.testbit m n), (Z.testbit f n).
Qed.
Lemma MS_SM w v f s :
  f = Z.ones w .<< s → 0 <= w → 0 <= s → s + w <= 32 → 0 <= v < 2 ^ w → MS (SM v f s) f s = v.
Proof.
  intros -> Hw Hs Hsw Hv. unfold MS, SM, u32. change 4294967296 with (2 ^ 32).
  apply Z.bits_inj'. intros n Hn.
  rewrite Z.shiftr_spec, !Z.land_spec by lia.
  rewrite !Z.shiftl_spec by lia.
  replace (n + s - s) with n by lia.
  destruct (Z.ltb_spec n w).
  - rewrite Z.ones_spec_low by lia. rewrite Z.mod_pow2_bits_low by lia.
    rewrite Z.shiftl_spec by lia. replace (n + s - s) with n by lia. by rewrite !andb_true_r.
  - rewrite Z.ones_spec_high by lia. rewrite !andb_false_r.
    symmetry. rewrite Z.testbit_eqb by lia.
    rewrite Z.div_small; [done|]. split; [lia|].
    eapply Z.lt_le_trans; [apply Hv|]. apply Z.pow_le_mono_r; lia.
Qed.

(** Flags: a mask that a disjoint update leaves alone, sets or clears. *)
Lemma tst_lor a b m : tst (a .| b) m = tst a m || tst b m.
Proof.
  unfold tst. rewrite Z.land_lor_distr_l.
  destruct (Z.eqb_spec (a .& m .| b .& m) 0) as [E|E]; simpl.
  - apply Z.lor_eq_0_iff in E as [-> ->]. done.
  - destruct (Z.eqb_spec (a .& m) 0) as [E1|]; [|done].
    destruct (Z.eqb_spec (b .& m) 0) as [E2|]; [|done].
    rewrite E1, E2 in E. done.
Qed.
Lemma tst_ldiff_keep x c m : c .& m = 0 → tst (x .&~ c) m = tst x m.
Proof.
  intros H. unfold tst. f_equal. f_equal. apply Z.bits_inj'. intros n Hn.
  apply (f_equal (λ z, Z.testbit z n)) in H. revert H.
  rewrite !Z.land_spec, Z.ldiff_spec, Z.bits_0. by destruct (Z.testbit x n), (Z.testbit c n), (Z.testbit m n).
Qed.
Lemma tst_ldiff_drop x c m : m .&~ c = 0 → tst (x .&~ c) m = false.
Proof.
  intros H. unfold tst. replace (x .&~ c .& m) with 0; [done|].
  symmetry. apply Z.bits_inj'. intros n Hn.
  apply (f_equal (λ z, Z.testbit z n)) in H. revert H.
  rewrite Z.land_spec, !Z.ldiff_spec, Z.bits_0. by destruct (Z.testbit x n), (Z.testbit c n), (Z.testbit m n).
Qed.
Lemma tst_land_const x c m : c .& m = 0 → tst (x .& c) m = false.
Proof. intros H. unfold tst. by rewrite <-Z.land_assoc, H, Z.land_0_r. Qed.
Lemma tst_SM v f s m : f .& m = 0 → tst (SM v f s) m = false.
Proof. intros H. unfold SM. by apply tst_land_const. Qed.
Lemma tst_ifbit_same c m : m ≠ 0 → tst (ifbit c m) m = c.
Proof.
  intros H. unfold tst, ifbit. destruct c; rewrite ?Z.land_diag; [|done].
  by apply Z.eqb_neq in H as ->.
Qed.
Lemma tst_ifbit_other c m m' : m .& m' = 0 → tst (ifbit c m) m' = false.
Proof. intros H. unfold tst, ifbit. destruct c; [by rewrite H|done]. Qed.

(** Testing a word against a single bit. *)
Lemma tst_pow2 w k : 0 <= k → tst w (2 ^ k) = Z.testbit w k.
Proof.
  intros Hk. unfold tst. rewrite <-(Z.mul_1_l (2 ^ k)), <-Z.shiftl_mul_pow2 by done.
  destruct (Z.eqb_spec (w .& (1 .<< k)) 0) as [E|E]; simpl.
  - apply (f_equal (λ z, Z.testbit z k)) in E.
    rewrite Z.land_spec, Z.shiftl_spec, Z.sub_diag, Z.bits_0 in E by done.
    by rewrite andb_true_r in E.
  - destruct (Z.testbit w k) eqn:Hb; [done|]. destruct E. apply Z.bits_inj'. intros n Hn.
    rewrite Z.land_spec, Z.shiftl_spec, Z.bits_0 by done.
    destruct (decide (n = k)) as [->|Hnk]; [by rewrite Hb|].
    destruct (Z.ltb_spec n k); [by rewrite (Z.testbit_neg_r 1), andb_false_r by lia|].
    rewrite (Z.bits_above_log2 1), andb_false_r; simpl; [done|lia|lia].
Qed.
Lemma tst_comm x m : tst x m = tst m x.
Proof. unfold tst. by rewrite Z.land_comm. Qed.
Lemma u32_bit i : 0 <= i < 32 → u32 (1 .<< i) = 2 ^ i.
Proof.
  intros Hi. rewrite Z.shiftl_mul_pow2, Z.mul_1_l by lia. apply u32_small.
  split; [by apply Z.pow_nonneg|]. change 4294967296 with (2 ^ 32). apply Z.pow_lt_mono_r; lia.
Qed.
Lemma testbit_ldiff_pow2 w i j :
  0 <= i → 0 <= j → Z.testbit (w .&~ 2 ^ i) j = Z.testbit w j && negb (bool_decide (j = i)).
Proof.
  intros Hi Hj. rewrite Z.ldiff_spec. f_equal. f_equal. rewrite Z.pow2_bits_eqb by lia.
  case_bool_decide; lia.
Qed.

#[export] Hint Rewrite MS_lor MS_0 Z.lor_0_r Z.lor_0_l tst_lor orb_false_r orb_false_l : field.

(** Reads the fields and flags of a word built by the descriptor routines. Each rule is
    tried at every occurrence, since its side condition tells the fields apart. *)
Ltac closed := vm_compute; reflexivity.
Ltac field_step :=
  match goal with
  | |- context [MS (SM ?v ?f' ?s') ?f ?s] => rewrite (MS_SM_disjoint v f s f' s') by closed
  | |- context [MS (ifbit ?c ?m) ?f ?s] => rewrite (MS_ifbit c m f s) by closed
  | |- context [MS (?x .&~ ?m) ?f ?s] => rewrite (MS_ldiff_keep x m f s) by closed
  | |- context [MS (?x .&~ ?m) ?f ?s] => rewrite (MS_ldiff_drop x m f s) by closed
  | |- context [MS (?x .& ?m) ?f ?s] => rewrite (MS_land_const x m f s) by closed
  | |- context [tst (SM ?v ?f ?s) ?m] => rewrite (tst_SM v f s m) by closed
  | |- context [tst (ifbit ?c ?m) ?m] => rewrite (tst_ifbit_same c m) by (vm_compute; discriminate)
  | |- context [tst (ifbit ?c ?m) ?m'] => rewrite (tst_ifbit_other c m m') by closed
  | |- context [tst (?x .&~ ?c) ?m] => rewrite (tst_ldiff_keep x c m) by closed
  | |- context [tst (?x .&~ ?c) ?m] => rewrite (tst_ldiff_drop x c m) by closed
  | |- context [tst (?x .& ?c) ?m] => rewrite (tst_land_const x c m) by closed
  end.
Ltac field_read := autorewrite with field; repeat (field_step; autorewrite with field).
