(* ===== verification/Allocram.v ===== *)
(** * Startup-time RAM allocation (sboot/.../cmnos/allocram/src/cmnos_allocram.c)

    The arena is a bump pointer with a count of the bytes left; nothing is ever
    freed. The theorems show that the blocks handed out by a sequence of calls lie in
    the arena, do not overlap, and that no byte of the arena is lost. *)

From S2P Require Import Prelude.

(** The two file-scope variables of the module. *)
Record allocram := mk_allocram {
  allocram_current_addr : Z;
  allocram_remaining_bytes : Z;
}.
#[export] Instance eta_allocram : EtaExp allocram := λ a,
  mk_allocram (allocram_current_addr a) (allocram_remaining_bytes a).

(** [A_ROUND_UP(x, y)] on 32-bit unsigned operands. *)
Definition A_ROUND_UP (x y : Z) : Z := u32 (u32 (x + (y - 1)) `div` y * y).

Definition cmnos_allocram_init (arena_start arena_sz : Z) : M allocram Z :=
  modify (λ a, a <| allocram_current_addr := u32 arena_start |>
                 <| allocram_remaining_bytes := u32 arena_sz |>) ;;
  mret 0.

Definition cmnos_allocram (nbytes : Z) : M allocram Z :=
  ptr ← gets allocram_current_addr;
  let nbytes := A_ROUND_UP (u32 nbytes) 4 in
  rem ← gets allocram_remaining_bytes;
  (if nbytes <=? rem then
     modify (λ a, a <| allocram_remaining_bytes ::= λ r, u32 (r - nbytes) |>
                    <| allocram_current_addr ::= λ c, u32 (c + nbytes) |>)
   else assert_ false) ;;
  mret ptr.

(** A sequence of allocation requests; the results are the returned blocks. *)
Fixpoint allocram_seq (sizes : list Z) : M allocram (list (Z * Z)) :=
  match sizes with
  | [] => mret []
  | n :: sizes' =>
      p ← cmnos_allocram n;
      rest ← allocram_seq sizes';
      mret ((p, n) :: rest)
  end.

(** ** Properties *)

(** The arena does not wrap around the address space. *)
Definition arena_wf (a : allocram) : Prop :=
  0 <= allocram_current_addr a ∧ 0 <= allocram_remaining_bytes a ∧
  allocram_current_addr a + allocram_remaining_bytes a < 4294967296.

Definition arena_end (a : allocram) : Z :=
  allocram_current_addr a + allocram_remaining_bytes a.

(** Where a list of blocks lies: in order, without overlap, inside [[lo, hi)]. *)
Fixpoint blocks_within (lo hi : Z) (l : list (Z * Z)) : Prop :=
  match l with
  | [] => lo <= hi
  | (p, n) :: l' => lo <= p ∧ 0 <= n ∧ blocks_within (p + n) hi l'
  end.

(** What a sequence of requests takes from the arena. *)
Definition allocram_demand (sizes : list Z) : Z :=
  foldr (λ n acc, A_ROUND_UP n 4 + acc) 0 sizes.

Lemma A_ROUND_UP_4 x :
  0 <= x < 4294967293 → x <= A_ROUND_UP x 4 < x + 4 ∧ A_ROUND_UP x 4 mod 4 = 0.
Proof.
  intros Hx. unfold A_ROUND_UP. rewrite (u32_small (x + (4 - 1))) by lia.
  rewrite u32_small by (Z.div_mod_to_equations; lia).
  split; [Z.div_mod_to_equations; lia|]. by rewrite Z.mod_mul.
Qed.

(** One allocation: the block is the old front of the arena. *)
Lemma cmnos_allocram_ok a n :
  arena_wf a → 0 <= n < 4294967293 → A_ROUND_UP n 4 <= allocram_remaining_bytes a →
  cmnos_allocram n a =
    Ok (allocram_current_addr a,
        mk_allocram (allocram_current_addr a + A_ROUND_UP n 4)
                    (allocram_remaining_bytes a - A_ROUND_UP n 4)).
Proof.
  intros (Hc & Hr & He) Hn Hle. destruct (A_ROUND_UP_4 n Hn) as [? _].
  unfold cmnos_allocram, mbind, M_bind, gets, modify, mret, M_ret.
  rewrite (u32_small n) by lia.
  rewrite (proj2 (Z.leb_le _ _) Hle). fields. by autorewrite with wrap.
Qed.

Lemma cmnos_allocram_fail a n :
  0 <= n < 4294967293 → allocram_remaining_bytes a < A_ROUND_UP n 4 →
  cmnos_allocram n a = Fault AssertFailed.
Proof.
  intros Hn Hgt. unfold cmnos_allocram, mbind, M_bind, gets.
  rewrite (u32_small n) by lia. by rewrite (proj2 (Z.leb_gt _ _) Hgt).
Qed.

Lemma blocks_within_lo lo lo' hi l :
  lo <= lo' → blocks_within lo' hi l → blocks_within lo hi l.
Proof. destruct l as [|[p n] l]; simpl; intuition lia. Qed.

Lemma allocram_demand_nonneg sizes :
  Forall (λ n, 0 <= n < 4294967293) sizes → 0 <= allocram_demand sizes.
Proof.
  induction 1 as [|n l Hn _ IH]; simpl; [lia|].
  destruct (A_ROUND_UP_4 n Hn). lia.
Qed.

(** A sequence of allocation requests that fits in the arena always succeeds: the
    blocks have the requested sizes, lie inside the part of the arena it consumes, in
    order and without overlap, and the end of the arena does not move. *)
Theorem allocram_seq_disjoint sizes a :
  arena_wf a → Forall (λ n, 0 <= n < 4294967293) sizes →
  allocram_demand sizes <= allocram_remaining_bytes a →
  ∃ blocks a', allocram_seq sizes a = Ok (blocks, a') ∧
    arena_wf a' ∧ arena_end a' = arena_end a ∧ blocks.*2 = sizes ∧
    blocks_within (allocram_current_addr a) (allocram_current_addr a') blocks.
Proof.
  intros Hwf Hs. revert a Hwf.
  induction Hs as [|n sizes Hn Hs IH]; intros a Hwf Hfit.
  { exists [], a. simpl. auto with lia. }
  simpl in Hfit. destruct (A_ROUND_UP_4 n Hn) as [Hu _].
  pose proof (allocram_demand_nonneg sizes Hs).
  set (a1 := mk_allocram (allocram_current_addr a + A_ROUND_UP n 4)
                         (allocram_remaining_bytes a - A_ROUND_UP n 4)).
  destruct (IH a1) as (blocks & a' & Hrun & Hwf' & He & Hb & Hin).
  { unfold arena_wf, a1 in *. simpl. lia. }
  { unfold a1. simpl. lia. }
  exists ((allocram_current_addr a, n) :: blocks), a'. split.
  { cbn [allocram_seq]. unfold mbind, M_bind. rewrite cmnos_allocram_ok by (done || lia).
    fold a1. by rewrite Hrun. }
  unfold arena_end, a1 in *. simpl in *. split_and!; [done|lia|by f_equal|lia|lia|].
  eapply blocks_within_lo; [|done]. lia.
Qed.

(** A request larger than what is left stops the firmware, whatever the arena. *)
Theorem allocram_exhausted_stops a n rest :
  0 <= n < 4294967293 → allocram_remaining_bytes a < A_ROUND_UP n 4 →
  allocram_seq (n :: rest) a = Fault AssertFailed.
Proof.
  intros Hn Hgt. cbn [allocram_seq]. unfold mbind, M_bind.
  by rewrite cmnos_allocram_fail.
Qed.

Lemma allocram_exhausted_stops_witness :
  allocram_seq [9; 1] (mk_allocram 4096 8) = Fault AssertFailed.
Proof. apply (allocram_exhausted_stops (mk_allocram 4096 8) 9 [1]); [lia|reflexivity]. Defined.
