(* ===== verification/NBuf.v ===== *)
(** * Network buffers: VBUF/VDESC pools and the adf_nbuf interface

    Sources: sboot/.../vbuf/src/vbuf.c and vdesc/src/vdesc.c (the free lists of buffer
    headers and of data descriptors), target/adf/adf_nbuf.c (the buffer operations) and
    target/buf_pool/buf_pool_static.c (the static pools). An nbuf is a VBUF that points
    to a chain of VDESCs. Pointers are 32-bit addresses, 0 is NULL; the two kinds of
    objects live in two finite maps, and a lookup that fails is a null (or wild)
    pointer dereference. Objects come from the startup allocator of [Allocram]. *)

From S2P Require Import Prelude.
From S2P Require Export Allocram.

Definition MAX_HW_DESC_SIZE : nat := 20.
Definition MAX_BUF_CTX_LEN : nat := 20.
Definition VBUF_SIZE : Z := 32.
Definition VDESC_SIZE : Z := 36.
Definition ADF_OS_MAX_SCATTER : nat := 1.
Definition ADF_OS_MAX_SGLIST : nat := 4.
Definition POOL_ID_MAX : nat := 10.

(** [struct _VDESC] *)
Record VDESC := mk_VDESC {
  next_desc : Z; buf_addr : Z; buf_size : Z; data_offset : Z; data_size : Z;
  control : Z; hw_desc_buf : list Z;
}.
#[export] Instance eta_VDESC : EtaExp VDESC := λ d,
  mk_VDESC (next_desc d) (buf_addr d) (buf_size d) (data_offset d) (data_size d)
           (control d) (hw_desc_buf d).

(** [struct _VBUF] *)
Record VBUF := mk_VBUF {
  desc_list : Z; next_buf : Z; buf_length : Z; ctx : list Z;
}.
#[export] Instance eta_VBUF : EtaExp VBUF := λ b,
  mk_VBUF (desc_list b) (next_buf b) (buf_length b) (ctx b).

(** The heap of buffers with the contexts [g_vbufCtx], [g_vdescCtx] and [g_poolCtx]. *)
Record nb_state := mk_nb_state {
  nb_ram : allocram;
  vbufs : gmap Z VBUF;
  vdescs : gmap Z VDESC;
  free_buf_head : Z;
  nVbufNum : Z;
  free_vdesc_head : Z;
  bufQ : list Z;
}.
#[export] Instance eta_nb_state : EtaExp nb_state := λ s,
  mk_nb_state (nb_ram s) (vbufs s) (vdescs s) (free_buf_head s) (nVbufNum s)
              (free_vdesc_head s) (bufQ s).

Abbreviation NB := (M nb_state).

Definition A_ALLOCRAM (n : Z) : NB Z := λ s,
  match cmnos_allocram n (nb_ram s) with
  | Ok (p, a) => Ok (p, s <| nb_ram := a |>)
  | Fault f => Fault f
  end.

(** Field access through a pointer. *)
Definition rd_vbuf (p : Z) : NB VBUF := s ← get; deref (vbufs s !! p).
Definition upd_vbuf (p : Z) (f : VBUF → VBUF) : NB unit :=
  b ← rd_vbuf p; modify (λ s, s <| vbufs ::= <[p := f b]> |>).
Definition rd_vdesc (p : Z) : NB VDESC := s ← get; deref (vdescs s !! p).
Definition upd_vdesc (p : Z) (f : VDESC → VDESC) : NB unit :=
  d ← rd_vdesc p; modify (λ s, s <| vdescs ::= <[p := f d]> |>).

(** ** vbuf.c: the free list of buffer headers

    [junk] is what fresh RAM holds: the initialisation leaves the other fields alone. *)
Definition vbuf_new (junk : VBUF) (next : Z) : NB Z :=
  p ← A_ALLOCRAM VBUF_SIZE;
  modify (λ s, s <| vbufs ::= <[p := junk <| desc_list := 0 |> <| next_buf := next |>]> |>) ;;
  modify (λ s, s <| free_buf_head := p |>) ;;
  mret p.

Definition _vbuf_init (junk : VBUF) (nBuf : Z) : NB unit :=
  vbuf_new junk 0 ;;
  for_each (seq 1 (Z.to_nat nBuf - 1)) (λ _,
    h ← gets free_buf_head; vbuf_new junk h ;; mret tt) ;;
  modify (λ s, s <| nVbufNum := s32 nBuf |>).

Definition _vbuf_alloc_vbuf : NB Z :=
  allocBuf ← gets free_buf_head;
  if allocBuf =? 0 then mret 0 else
  modify (λ s, s <| nVbufNum ::= λ n, s32 (n - 1) |>) ;;
  b ← rd_vbuf allocBuf;
  modify (λ s, s <| free_buf_head := next_buf b |>) ;;
  upd_vbuf allocBuf (λ b, b <| next_buf := 0 |>) ;;
  mret allocBuf.

Definition _vbuf_free_vbuf (buf : Z) : NB unit :=
  h ← gets free_buf_head;
  upd_vbuf buf (λ b, b <| next_buf := h |>) ;;
  modify (λ s, s <| free_buf_head := buf |>) ;;
  modify (λ s, s <| nVbufNum ::= λ n, s32 (n + 1) |>).

(** ** vdesc.c: the free list of data descriptors *)
Definition vdesc_new (junk : VDESC) (next : Z) : NB Z :=
  p ← A_ALLOCRAM VDESC_SIZE;
  modify (λ s, s <| vdescs ::= <[p := junk <| next_desc := next |> <| control := 0 |>]> |>) ;;
  modify (λ s, s <| free_vdesc_head := p |>) ;;
  mret p.

Definition _vdesc_init (junk : VDESC) (nDesc : Z) : NB unit :=
  vdesc_new junk 0 ;;
  for_each (seq 1 (Z.to_nat nDesc - 1)) (λ _,
    h ← gets free_vdesc_head; vdesc_new junk h ;; mret tt).

Definition _vdesc_alloc_desc : NB Z :=
  allocDesc ← gets free_vdesc_head;
  if allocDesc =? 0 then mret 0 else
  d ← rd_vdesc allocDesc;
  modify (λ s, s <| free_vdesc_head := next_desc d |>) ;;
  upd_vdesc allocDesc (λ d, d <| next_desc := 0 |>) ;;
  mret allocDesc.

Definition _vdesc_get_hw_desc (desc : Z) : NB (list Z) :=
  d ← rd_vdesc desc; mret (hw_desc_buf d).

Definition _vdesc_swap_vdesc (dest src : Z) : NB unit :=
  d ← rd_vdesc dest; s ← rd_vdesc src;
  upd_vdesc dest (λ x, x <| buf_size := buf_size s |>) ;;
  upd_vdesc src (λ x, x <| buf_size := buf_size d |>) ;;
  upd_vdesc dest (λ x, x <| data_offset := data_offset s |>) ;;
  upd_vdesc src (λ x, x <| data_offset := data_offset d |>) ;;
  upd_vdesc dest (λ x, x <| data_size := data_size s |>) ;;
  upd_vdesc src (λ x, x <| data_size := data_size d |>) ;;
  upd_vdesc dest (λ x, x <| control := control s |>) ;;
  upd_vdesc src (λ x, x <| control := control d |>) ;;
  upd_vdesc dest (λ x, x <| buf_addr := buf_addr s |>) ;;
  upd_vdesc src (λ x, x <| buf_addr := buf_addr d |>).

(** ** adf_nbuf.c *)
Definition adf_nbuf_alloc (size reserve : Z) : NB Z :=
  buf ← _vbuf_alloc_vbuf;
  if buf =? 0 then mret 0 else
  desc ← _vdesc_alloc_desc;
  a ← A_ALLOCRAM size;
  upd_vdesc desc (λ d, d <| buf_addr := a |> <| buf_size := u16 size |> <| next_desc := 0 |>
                         <| data_offset := u16 reserve |> <| data_size := 0 |>
                         <| control := 0 |>) ;;
  upd_vbuf buf (λ b, b <| desc_list := desc |> <| buf_length := 0 |>) ;;
  mret buf.

Definition adf_nbuf_push_head (buf len : Z) : NB Z :=
  b ← rd_vbuf buf;
  upd_vdesc (desc_list b) (λ d, d <| data_offset ::= λ o, u16 (o - len) |>
                                  <| data_size ::= λ n, u16 (n + len) |>) ;;
  upd_vbuf buf (λ b, b <| buf_length ::= λ n, u16 (n + len) |>) ;;
  d ← rd_vdesc (desc_list b);
  mret (u32 (buf_addr d + data_offset d)).

Definition adf_nbuf_pull_head (buf len : Z) : NB Z :=
  b ← rd_vbuf buf;
  upd_vdesc (desc_list b) (λ d, d <| data_offset ::= λ o, u16 (o + len) |>
                                  <| data_size ::= λ n, u16 (n - len) |>) ;;
  upd_vbuf buf (λ b, b <| buf_length ::= λ n, u16 (n - len) |>) ;;
  d ← rd_vdesc (desc_list b);
  mret (u32 (buf_addr d + data_offset d)).

(** The walk to the end of a descriptor chain; the fuel is the number of descriptors
    that exist, which every acyclic chain respects. *)
Fixpoint vdesc_last (fuel : nat) (desc : Z) : NB Z :=
  match fuel with
  | O => fail OutOfFuel
  | S n => d ← rd_vdesc desc;
           if next_desc d =? 0 then mret desc else vdesc_last n (next_desc d)
  end.

Definition adf_nbuf_last (buf : Z) : NB Z :=
  b ← rd_vbuf buf; s ← get; vdesc_last (size (vdescs s)) (desc_list b).

Definition adf_nbuf_put_tail (buf len : Z) : NB Z :=
  last_desc ← adf_nbuf_last buf;
  d ← rd_vdesc last_desc;
  upd_vdesc last_desc (λ d, d <| data_size ::= λ n, u16 (n + len) |>) ;;
  upd_vbuf buf (λ b, b <| buf_length ::= λ n, u16 (n + len) |>) ;;
  mret (u32 (buf_addr d + data_offset d + data_size d)).

Definition adf_nbuf_trim_tail (buf len : Z) : NB unit :=
  last_desc ← adf_nbuf_last buf;
  assert_ (negb (buf =? 0)) ;;
  upd_vdesc last_desc (λ d, d <| data_size ::= λ n, u16 (n - len) |>) ;;
  upd_vbuf buf (λ b, b <| buf_length ::= λ n, u16 (n - len) |>).

(** One entry per descriptor of the chain, written at the indices [count], [count+1],
    ... of an array of [bound] entries. *)
Fixpoint vdesc_segs (fuel bound count : nat) (desc : Z) : NB (list (Z * Z)) :=
  if desc =? 0 then mret [] else
  match fuel with
  | O => fail OutOfFuel
  | S n =>
      d ← rd_vdesc desc;
      if (bound <=? count)%nat then fail OutOfRange else
      rest ← vdesc_segs n bound (S count) (next_desc d);
      mret ((u32 (buf_addr d + data_offset d), data_size d) :: rest)
  end.

Definition adf_nbuf_frag_info (buf : Z) : NB (list (Z * Z)) :=
  b ← rd_vbuf buf; s ← get;
  vdesc_segs (size (vdescs s)) ADF_OS_MAX_SGLIST 0 (desc_list b).

Definition adf_nbuf_get_priv (buf : Z) : NB (list Z) :=
  assert_ (negb (buf =? 0)) ;; b ← rd_vbuf buf; mret (ctx b).

Definition adf_nbuf_headroom (buf : Z) : NB Z :=
  b ← rd_vbuf buf; d ← rd_vdesc (desc_list b); mret (data_offset d).

Definition adf_nbuf_tailroom (buf : Z) : NB Z :=
  last_desc ← adf_nbuf_last buf;
  d ← rd_vdesc last_desc;
  mret (u32 (buf_size d - data_offset d - data_size d)).

Definition adf_nbuf_len (buf : Z) : NB Z := b ← rd_vbuf buf; mret (buf_length b).

Definition adf_nbuf_peek_header (buf : Z) : NB (Z * Z) :=
  b ← rd_vbuf buf; d ← rd_vdesc (desc_list b);
  mret (u32 (buf_addr d + data_offset d), data_size d).

(** *** Queues of nbufs, linked through [next_buf] *)
Record qhead := mk_qhead { q_head : Z; q_tail : Z; q_qlen : Z }.
#[export] Instance eta_qhead : EtaExp qhead := λ q,
  mk_qhead (q_head q) (q_tail q) (q_qlen q).

Definition adf_nbuf_queue_init : qhead := mk_qhead 0 0 0.
Definition adf_nbuf_queue_len (q : qhead) : Z := q_qlen q.
Definition adf_nbuf_queue_first (q : qhead) : Z := q_head q.
Definition adf_nbuf_is_queue_empty (q : qhead) : bool := q_qlen q =? 0.
Definition adf_nbuf_queue_next (buf : Z) : NB Z := b ← rd_vbuf buf; mret (next_buf b).

Definition adf_nbuf_queue_add (q : qhead) (buf : Z) : NB qhead :=
  upd_vbuf buf (λ b, b <| next_buf := 0 |>) ;;
  (if q_head q =? 0 then mret (q <| q_head := buf |>)
   else upd_vbuf (q_tail q) (λ b, b <| next_buf := buf |>) ;; mret q) ≫= λ q,
  mret (q <| q_qlen ::= λ n, u32 (n + 1) |> <| q_tail := buf |>).

Definition adf_nbuf_queue_remove (q : qhead) : NB (Z * qhead) :=
  if q_head q =? 0 then mret (0, q) else
  b ← rd_vbuf (q_head q);
  let q' := if q_head q =? q_tail q then q <| q_head := 0 |> <| q_tail := 0 |>
            else q <| q_head := next_buf b |> in
  upd_vbuf (q_head q) (λ b, b <| next_buf := 0 |>) ;;
  mret (q_head q, q' <| q_qlen ::= λ n, u32 (n - 1) |>).

(** *** DMA maps: the map remembers the mapped buffer *)
Definition adf_nbuf_map (buf : Z) : Z := buf.
Definition adf_nbuf_unmap : Z := 0.
Definition adf_nbuf_dmamap_info (bmap : Z) : NB (list (Z * Z)) :=
  b ← rd_vbuf bmap; s ← get;
  vdesc_segs (size (vdescs s)) ADF_OS_MAX_SCATTER 0 (desc_list b).

(** *** Joining the buffers of a queue into one, and splitting one into fragments *)
Fixpoint frm_frag_loop (fuel : nat) (q : qhead) (cnt total_len vdesc_prev : Z)
    : NB (qhead * Z * Z) :=
  match fuel with
  | O => fail OutOfFuel
  | S n =>
      '(buf_tmp, q) ← adf_nbuf_queue_remove q;
      if buf_tmp =? 0 then mret (q, cnt, total_len) else
      b ← rd_vbuf buf_tmp;
      (if vdesc_prev =? 0 then mret tt
       else upd_vdesc vdesc_prev (λ d, d <| next_desc := desc_list b |>)) ;;
      s ← get;
      vdesc_prev ← vdesc_last (size (vdescs s)) (desc_list b);
      upd_vbuf buf_tmp (λ b, b <| desc_list := 0 |> <| buf_length := 0 |>) ;;
      _vbuf_free_vbuf buf_tmp ;;
      frm_frag_loop n q (u32 (cnt + 1)) (u16 (total_len + buf_length b)) vdesc_prev
  end.

Definition adf_nbuf_create_frm_frag (q : qhead) : NB (Z * qhead) :=
  let len := adf_nbuf_queue_len q in
  buf_head ← _vbuf_alloc_vbuf;
  let buf_tmp := adf_nbuf_queue_first q in
  assert_ (negb (buf_head =? 0)) ;;
  assert_ (negb (buf_tmp =? 0)) ;;
  b ← rd_vbuf buf_tmp;
  upd_vbuf buf_head (λ h, h <| desc_list := desc_list b |>) ;;
  s ← get;
  '(q, cnt, total_len) ← frm_frag_loop (S (size (vbufs s))) q 0 0 0;
  assert_ (cnt =? len) ;;
  upd_vbuf buf_head (λ h, h <| buf_length := total_len |>) ;;
  mret (buf_head, q).

Fixpoint split_loop (fuel : nat) (desc_tmp : Z) (q : qhead) : NB qhead :=
  if desc_tmp =? 0 then mret q else
  match fuel with
  | O => fail OutOfFuel
  | S n =>
      buf_tmp ← _vbuf_alloc_vbuf;
      assert_ (negb (buf_tmp =? 0)) ;;
      d ← rd_vdesc desc_tmp;
      upd_vbuf buf_tmp (λ b, b <| desc_list := desc_tmp |> <| buf_length := data_size d |>
                               <| next_buf := 0 |>) ;;
      q ← adf_nbuf_queue_add q buf_tmp;
      d ← rd_vdesc desc_tmp;
      b ← rd_vbuf buf_tmp;
      upd_vdesc (desc_list b) (λ d, d <| next_desc := 0 |>) ;;
      split_loop n (next_desc d) q
  end.

Definition adf_nbuf_split_to_frag (buf : Z) : NB qhead :=
  b ← rd_vbuf buf; s ← get;
  q ← split_loop (size (vdescs s)) (desc_list b) adf_nbuf_queue_init;
  upd_vbuf buf (λ b, b <| desc_list := 0 |> <| buf_length := 0 |>) ;;
  _vbuf_free_vbuf buf ;;
  mret q.

(** ** buf_pool_static.c *)
Definition _buf_pool_static_init : NB unit :=
  modify (λ s, s <| bufQ := replicate POOL_ID_MAX 0 |>).

Definition rd_bufQ (poolId : nat) : NB Z := s ← get; in_range (bufQ s !! poolId).
Definition wr_bufQ (poolId : nat) (v : Z) : NB unit :=
  rd_bufQ poolId ;; modify (λ s, s <| bufQ ::= <[poolId := v]> |>).

(** One turn of the loop that fills a pool. *)
Definition pool_item (poolId : nat) (nSize : Z) : NB unit :=
  buf ← _vbuf_alloc_vbuf;
  desc ← _vdesc_alloc_desc;
  a ← A_ALLOCRAM nSize;
  upd_vdesc desc (λ d, d <| buf_addr := a |> <| buf_size := u16 nSize |>
                         <| data_offset := 0 |> <| data_size := 0 |>) ;;
  upd_vbuf buf (λ b, b <| buf_length := 0 |> <| desc_list := desc |>) ;;
  h ← rd_bufQ poolId;
  if h =? 0 then wr_bufQ poolId buf
  else upd_vbuf buf (λ b, b <| next_buf := h |>) ;; wr_bufQ poolId buf.
Definition _buf_pool_static_create_pool (poolId : nat) (nItems nSize : Z) : NB unit :=
  for_each (seq 0 (Z.to_nat nItems)) (λ _, pool_item poolId nSize).

Definition _buf_pool_static_alloc_buf (poolId : nat) (reserve : Z) : NB Z :=
  buf ← rd_bufQ poolId;
  if buf =? 0 then mret 0 else
  b ← rd_vbuf buf;
  wr_bufQ poolId (next_buf b) ;;
  upd_vbuf buf (λ b, b <| next_buf := 0 |>) ;;
  upd_vdesc (desc_list b) (λ d, d <| data_offset := u16 reserve |> <| data_size := 0 |>) ;;
  upd_vbuf buf (λ b, b <| buf_length := 0 |>) ;;
  mret buf.

Definition _buf_pool_static_alloc_buf_align (poolId : nat) (reserve align : Z) : NB Z :=
  _buf_pool_static_alloc_buf poolId reserve.

Definition _buf_pool_static_free_buf (poolId : nat) (buf : Z) : NB unit :=
  h ← rd_bufQ poolId;
  if h =? 0 then wr_bufQ poolId buf
  else upd_vbuf buf (λ b, b <| next_buf := h |>) ;; wr_bufQ poolId buf.

(** ** Running the field accessors *)
Lemma run_rd_vbuf s p b : vbufs s !! p = Some b → rd_vbuf p s = Ok (b, s).
Proof. intros H. unfold rd_vbuf. run. by rewrite H. Qed.
Lemma run_rd_vdesc s p d : vdescs s !! p = Some d → rd_vdesc p s = Ok (d, s).
Proof. intros H. unfold rd_vdesc. run. by rewrite H. Qed.
Lemma run_upd_vbuf s p b f :
  vbufs s !! p = Some b → upd_vbuf p f s = Ok (tt, s <| vbufs ::= <[p := f b]> |>).
Proof. intros H. unfold upd_vbuf. by erewrite bind_ok by by apply run_rd_vbuf. Qed.
Lemma run_upd_vdesc s p d f :
  vdescs s !! p = Some d → upd_vdesc p f s = Ok (tt, s <| vdescs ::= <[p := f d]> |>).
Proof. intros H. unfold upd_vdesc. by erewrite bind_ok by by apply run_rd_vdesc. Qed.

(** Solves the lookups that the accessors ask for. *)
Ltac nb_lookup :=
  first [ eassumption | cbn; simplify_map_eq; first [done | eassumption] ].
Ltac nb_step :=
  first
    [ run_step
    | erewrite bind_ok by (apply run_rd_vbuf; nb_lookup)
    | erewrite bind_ok by (apply run_rd_vdesc; nb_lookup)
    | erewrite bind_ok by (apply run_upd_vbuf; nb_lookup)
    | erewrite bind_ok by (apply run_upd_vdesc; nb_lookup) ]; cbv beta.
Ltac nb_run := repeat nb_step.

(** ** Single-buffer operations *)

(** [buf] is an nbuf whose first descriptor is [d]; the 16-bit fields are in range. *)
Definition nbuf_at (s : nb_state) (buf : Z) (b : VBUF) (d : VDESC) : Prop :=
  vbufs s !! buf = Some b ∧ vdescs s !! desc_list b = Some d ∧
  in_u16 (buf_length b) ∧ in_u16 (data_offset d) ∧ in_u16 (data_size d).

Lemma u16_add_sub x y : in_u16 x → u16 (u16 (x + y) - y) = x.
Proof.
  intros ?. unfold u16. rewrite Zminus_mod_idemp_l. replace (x + y - y) with x by lia.
  by apply Z.mod_small.
Qed.
Lemma u16_sub_add x y : in_u16 x → u16 (u16 (x - y) + y) = x.
Proof.
  intros ?. unfold u16. rewrite Zplus_mod_idemp_l. replace (x - y + y) with x by lia.
  by apply Z.mod_small.
Qed.

Lemma VDESC_eta d o n :
  o = data_offset d → n = data_size d →
  mk_VDESC (next_desc d) (buf_addr d) (buf_size d) o n (control d) (hw_desc_buf d) = d.
Proof. intros -> ->. by destruct d. Qed.
Lemma VBUF_eta b n :
  n = buf_length b → mk_VBUF (desc_list b) (next_buf b) n (ctx b) = b.
Proof. intros ->. by destruct b. Qed.
Lemma nb_state_eta s m1 m2 :
  m1 = vbufs s → m2 = vdescs s →
  mk_nb_state (nb_ram s) m1 m2 (free_buf_head s) (nVbufNum s) (free_vdesc_head s) (bufQ s) = s.
Proof. intros -> ->. by destruct s. Qed.

Lemma adf_nbuf_push_head_run s buf b d len :
  nbuf_at s buf b d →
  adf_nbuf_push_head buf len s =
    Ok (u32 (buf_addr d + u16 (data_offset d - len)),
        s <| vdescs ::= <[desc_list b := d <| data_offset := u16 (data_offset d - len) |>
                                           <| data_size := u16 (data_size d + len) |>]> |>
          <| vbufs ::= <[buf := b <| buf_length := u16 (buf_length b + len) |>]> |>).
Proof. intros (Hb & Hd & _). unfold adf_nbuf_push_head. nb_run. reflexivity. Qed.

Lemma adf_nbuf_pull_head_run s buf b d len :
  nbuf_at s buf b d →
  adf_nbuf_pull_head buf len s =
    Ok (u32 (buf_addr d + u16 (data_offset d + len)),
        s <| vdescs ::= <[desc_list b := d <| data_offset := u16 (data_offset d + len) |>
                                           <| data_size := u16 (data_size d - len) |>]> |>
          <| vbufs ::= <[buf := b <| buf_length := u16 (buf_length b - len) |>]> |>).
Proof. intros (Hb & Hd & _). unfold adf_nbuf_pull_head. nb_run. reflexivity. Qed.

(** Stripping the bytes that were just pushed at the head of a buffer restores the
    whole buffer heap, for every length, and returns the old data pointer: the
    convention by which HTC adds its header on the way down and removes it in the
    send-done path. *)
Theorem adf_nbuf_push_pull_roundtrip s buf b d len :
  nbuf_at s buf b d →
  (adf_nbuf_push_head buf len ;; adf_nbuf_pull_head buf len) s =
    Ok (u32 (buf_addr d + data_offset d), s).
Proof.
  intros Hat. erewrite bind_ok by by apply adf_nbuf_push_head_run.
  destruct Hat as (Hb & Hd & Hlen & Hoff & Hsz).
  erewrite adf_nbuf_pull_head_run.
  2: { split_and!; cbn; [by simplify_map_eq|by simplify_map_eq|apply u16_range..]. }
  fields. rewrite u16_sub_add by done. rewrite !insert_insert_eq. do 2 f_equal.
  apply nb_state_eta; apply insert_id.
  - rewrite Hb. f_equal. symmetry. apply VBUF_eta. by apply u16_add_sub.
  - rewrite Hd. f_equal. symmetry. apply VDESC_eta; [done|by apply u16_add_sub].
Qed.
