(* ===== verification/NBufProps.v ===== *)
(** * Properties of the network buffers

    Representation predicates tie the linked structures of [NBuf] to lists: a queue to the
    list of its buffers, a static pool to the list of its free buffers, an nbuf to the
    list of its descriptors. Each operation is shown to act on the list. *)

From S2P Require Import Prelude.
From S2P Require Import NBuf.

Definition vnext (s : nb_state) (a : Z) : option Z := next_buf <$> vbufs s !! a.
Definition dnext (s : nb_state) (a : Z) : option Z := next_desc <$> vdescs s !! a.

Lemma vnext_some s a b : vbufs s !! a = Some b → vnext s a = Some (next_buf b).
Proof. intros H. unfold vnext. by rewrite H. Qed.
Lemma vnext_insert_ne s a a' b : a ≠ a' → vnext (s <| vbufs ::= <[a' := b]> |>) a = vnext s a.
Proof. intros. unfold vnext. cbn. by rewrite lookup_insert_ne. Qed.
Lemma vnext_insert_eq s a b : vnext (s <| vbufs ::= <[a := b]> |>) a = Some (next_buf b).
Proof. unfold vnext. cbn. by rewrite lookup_insert_eq. Qed.

(** ** Free headers *)
Lemma vbuf_alloc_run n f fb : free_buf_head n = f → f ≠ 0 → vbufs n !! f = Some fb →
  _vbuf_alloc_vbuf n =
    Ok (f, n <| nVbufNum ::= λ x, s32 (x - 1) |> <| free_buf_head := next_buf fb |>
             <| vbufs ::= <[f := fb <| next_buf := 0 |>]> |>).
Proof.
  intros Hf Hz Hb. unfold _vbuf_alloc_vbuf. rewrite (bind_ok _ _ _ _ _ (run_gets _ _)), Hf.
  apply Z.eqb_neq in Hz. rewrite Hz. run. erewrite bind_ok by (apply run_rd_vbuf; exact Hb). run.
  erewrite bind_ok by (apply run_upd_vbuf; exact Hb). reflexivity.
Qed.
Lemma vdesc_alloc_run n d e : free_vdesc_head n = d → d ≠ 0 → vdescs n !! d = Some e →
  _vdesc_alloc_desc n =
    Ok (d, n <| free_vdesc_head := next_desc e |> <| vdescs ::= <[d := e <| next_desc := 0 |>]> |>).
Proof.
  intros Hf Hz Hb. unfold _vdesc_alloc_desc. rewrite (bind_ok _ _ _ _ _ (run_gets _ _)), Hf.
  apply Z.eqb_neq in Hz. rewrite Hz. erewrite bind_ok by (apply run_rd_vdesc; exact Hb). run.
  erewrite bind_ok by (apply run_upd_vdesc; exact Hb). reflexivity.
Qed.

(** ** Queues *)

(** The queue [q] holds the buffers [l], first to last. *)
Definition qrep (s : nb_state) (q : qhead) (l : list Z) : Prop :=
  lchain (vnext s) (q_head q) l ∧ (l = [] ∨ last l = Some (q_tail q)) ∧
  q_qlen q = Z.of_nat (length l) ∧ Z.of_nat (length l) < 4294967295.

Lemma lchain_snoc (nxt nxt' : Z → option Z) p l t a :
  lchain nxt p (l ++ [t]) → a ≠ 0 →
  (∀ x, x ∈ l → nxt' x = nxt x) → nxt' t = Some a → nxt' a = Some 0 →
  lchain nxt' p (l ++ [t; a]).
Proof.
  intros Hl Ha Hext Ht Hz. destruct (lchain_app _ _ _ _ Hl) as (q & Hq & Hre).
  apply Hre; [done|]. destruct Hq as (-> & ? & _). cbn.
  split_and!; [done..|]. exists a. split_and!; [done..|]. by exists 0.
Qed.

Lemma last_split {A} (l : list A) x : last l = Some x → ∃ l', l = l' ++ [x].
Proof. apply last_Some. Qed.

(** The buffers outside [l] and [buf] are untouched. *)
Definition others_kept (s s' : nb_state) (l : list Z) : Prop :=
  (∀ a, a ∉ l → vbufs s' !! a = vbufs s !! a) ∧ vdescs s' = vdescs s ∧ bufQ s' = bufQ s.

Lemma queue_add_spec s q l buf b :
  qrep s q l → vbufs s !! buf = Some b → buf ∉ l → buf ≠ 0 → Z.of_nat (length l) < 4294967294 →
  ∃ q' s', adf_nbuf_queue_add q buf s = Ok (q', s') ∧ qrep s' q' (l ++ [buf]) ∧
    others_kept s s' (buf :: l).
Proof.
  intros (Hl & Ht & Hlen & _) Hb Hin Hnz Hmax. unfold adf_nbuf_queue_add.
  erewrite bind_ok by by apply run_upd_vbuf.
  set (s1 := s <| vbufs ::= _ |>).
  assert (u32 (q_qlen q + 1) = Z.of_nat (length (l ++ [buf]))) as Hlen'
    by (rewrite Hlen, length_app; cbn [length]; rewrite u32_small by lia; lia).
  destruct (list_eq_nil_dec l) as [->|Hne].
  - cbn [lchain] in Hl. rewrite Hl. cbn [Z.eqb]. rewrite (bind_ok _ _ _ _ _ (run_ret _ _)).
    eexists _, s1. split; [reflexivity|]. split; [split_and!|].
    + cbn. split_and!; [done..|]. exists 0. split; [|done]. unfold s1. by rewrite vnext_insert_eq.
    + by right.
    + done.
    + cbn. lia.
    + split_and!; [|done..]. intros a Ha. cbn. rewrite lookup_insert_ne; [done|set_solver].
  - destruct Ht as [|Ht]; [done|]. destruct (last_split _ _ Ht) as (l0 & ->).
    assert (q_head q ≠ 0) as Hh.
    { destruct l0; cbn in Hl; destruct Hl as (-> & ? & _); done. }
    apply Z.eqb_neq in Hh as ->.
    assert (q_tail q ∈ l0 ++ [q_tail q]) as Htin by set_solver.
    destruct (lchain_some _ _ _ _ Hl Htin) as [n Hn]. unfold vnext in Hn.
    destruct (vbufs s !! q_tail q) as [tb|] eqn:Htb; [|done].
    assert (buf ≠ q_tail q) as Hbt by (intros ->; done).
    assert (vbufs s1 !! q_tail q = Some tb) as Htb1 by (unfold s1; cbn; by rewrite lookup_insert_ne).
    rewrite bind_assoc.
    erewrite bind_ok by by apply run_upd_vbuf. rewrite (bind_ok _ _ _ _ _ (run_ret _ _)).
    set (s2 := s1 <| vbufs ::= _ |>).
    eexists _, s2. split; [reflexivity|]. split; [split_and!|].
    + rewrite <-app_assoc. cbn [app]. eapply lchain_snoc; [exact Hl|done|..].
      * intros x Hx. unfold s2, s1. pose proof (lchain_NoDup _ _ _ Hl) as Hnd.
        apply NoDup_app in Hnd as (_ & Hd & _).
        rewrite !vnext_insert_ne; [done| |]; intros ->; [set_solver|]. eapply Hd; [done|set_solver].
      * unfold s2. by rewrite vnext_insert_eq.
      * unfold s2. rewrite vnext_insert_ne by done. unfold s1. by rewrite vnext_insert_eq.
    + right. by rewrite last_snoc.
    + done.
    + rewrite length_app. cbn. rewrite length_app in *. cbn in *. lia.
    + split_and!; [|done..]. intros a Ha. unfold s2, s1. cbn.
      rewrite !lookup_insert_ne; [done|set_solver|set_solver].
Qed.

Lemma queue_remove_spec s q a l :
  qrep s q (a :: l) →
  ∃ q' s', adf_nbuf_queue_remove q s = Ok ((a, q'), s') ∧ qrep s' q' l ∧
    others_kept s s' [a] ∧ vnext s' a = Some 0.
Proof.
  intros (Hl & Ht & Hlen & Hmax). pose proof (lchain_NoDup _ _ _ Hl) as Hnd.
  destruct Hl as (Hh & Hnz & n & Hn & Hl).
  destruct Ht as [|Ht]; [done|]. unfold vnext in Hn.
  destruct (vbufs s !! a) as [b|] eqn:Hb; [|done]. cbn in Hn. injection Hn as Hn.
  unfold adf_nbuf_queue_remove. rewrite Hh. apply Z.eqb_neq in Hnz as Hnz'. rewrite Hnz'.
  erewrite bind_ok by by apply run_rd_vbuf. erewrite bind_ok by by apply run_upd_vbuf.
  set (s1 := s <| vbufs ::= _ |>).
  eexists _, s1. split; [reflexivity|].
  assert (vnext s1 a = Some 0) as Hz by (unfold s1; by rewrite vnext_insert_eq).
  assert (others_kept s s1 [a]) as Hok.
  { split_and!; [|done..]. intros x Hx. cbn. rewrite lookup_insert_ne; [done|set_solver]. }
  split; [|split; [exact Hok|exact Hz]].
  assert (u32 (q_qlen q - 1) = Z.of_nat (length l)) as Hlen'
    by (rewrite Hlen; cbn [length] in *; rewrite u32_small by lia; lia).
  apply NoDup_cons in Hnd as [Hnin Hnd].
  destruct l as [|c l].
  - cbn in Ht. injection Ht as <-. rewrite Z.eqb_refl. split_and!; [done|by left|done|].
    cbn. lia.
  - assert (a ≠ q_tail q) as Hat.
    { intros ->. destruct (last_split (c :: l) (q_tail q)) as (l' & E).
      - by rewrite last_cons_cons in Ht.
      - rewrite E in Hnin. set_solver. }
    apply Z.eqb_neq in Hat as ->. split_and!.
    + cbn [q_head field_upd]. cbn. rewrite Hn.
      assert (lchain (vnext s1) n (c :: l)) as H; [|exact H].
      eapply lchain_ext; [|exact Hl]. intros x Hx. unfold s1. apply vnext_insert_ne.
      intros ->. done.
    + right. by rewrite last_cons_cons in Ht.
    + done.
    + cbn [length] in *. lia.
Qed.

(** The buffer queue is a first-in first-out queue: adding a buffer that is not in it
    appends it, removing takes the oldest one and detaches it, both keep the length count
    exact and touch no other buffer, and removing from an empty queue returns NULL and
    changes nothing. *)
Theorem adf_nbuf_queue_fifo s q l :
  qrep s q l → Z.of_nat (length l) < 4294967294 →
  (∀ buf b, vbufs s !! buf = Some b → buf ∉ l → buf ≠ 0 →
     ∃ q' s', adf_nbuf_queue_add q buf s = Ok (q', s') ∧ qrep s' q' (l ++ [buf]) ∧
              others_kept s s' (buf :: l)) ∧
  match l with
  | [] => adf_nbuf_queue_remove q s = Ok ((0, q), s)
  | a :: l' => ∃ q' s', adf_nbuf_queue_remove q s = Ok ((a, q'), s') ∧ qrep s' q' l' ∧
                 others_kept s s' [a] ∧ vnext s' a = Some 0
  end.
Proof.
  intros Hq Hmax. split.
  - intros. by eapply queue_add_spec.
  - destruct l as [|a l].
    + destruct Hq as (Hl & _). cbn in Hl. unfold adf_nbuf_queue_remove. by rewrite Hl.
    + by apply queue_remove_spec.
Qed.

(** ** Descriptor chains *)

(** [buf] is an nbuf [b] made of the descriptors [l]. *)
Definition nbuf_chain (s : nb_state) (buf : Z) (b : VBUF) (l : list Z) : Prop :=
  vbufs s !! buf = Some b ∧ lchain (dnext s) (desc_list b) l.

Lemma vdesc_last_spec s p l d fuel :
  lchain (dnext s) p (l ++ [d]) → (length l < fuel)%nat → vdesc_last fuel p s = Ok (d, s).
Proof.
  revert p fuel. induction l as [|a l IH]; intros p [|fuel] Hl Hf; cbn in *; try lia.
  - destruct Hl as (-> & ? & n & Hn & ->). unfold dnext in Hn.
    destruct (vdescs s !! d) as [x|] eqn:Hx; [|done]. cbn in Hn. injection Hn as Hn.
    erewrite bind_ok by by apply run_rd_vdesc. by rewrite Hn.
  - destruct Hl as (-> & ? & n & Hn & Hl). unfold dnext in Hn.
    destruct (vdescs s !! a) as [x|] eqn:Hx; [|done]. cbn in Hn. injection Hn as Hn.
    erewrite bind_ok by by apply run_rd_vdesc. rewrite Hn.
    assert (n ≠ 0) as Hnz%Z.eqb_neq.
    { destruct l; cbn in Hl; destruct Hl as (-> & ? & _); done. }
    rewrite Hnz. apply IH; [done|lia].
Qed.

Lemma adf_nbuf_last_spec s buf b l d :
  nbuf_chain s buf b (l ++ [d]) → adf_nbuf_last buf s = Ok (d, s).
Proof.
  intros [Hb Hl]. unfold adf_nbuf_last. erewrite bind_ok by by apply run_rd_vbuf.
  rewrite (bind_ok _ _ _ _ _ (run_get s)). eapply vdesc_last_spec; [done|].
  pose proof (lchain_size (vdescs s) next_desc _ _ Hl) as H. rewrite length_app in H. cbn in H. lia.
Qed.

(** Appending [len] bytes at the tail of a buffer, however many descriptors it has,
    returns the address just past its data, and trimming the same number restores the
    whole buffer heap: the convention by which HTC and WMI build messages. *)
Theorem adf_nbuf_put_trim_roundtrip s buf b l d dd len :
  nbuf_chain s buf b (l ++ [d]) → vdescs s !! d = Some dd → buf ≠ 0 →
  in_u16 (data_size dd) → in_u16 (buf_length b) →
  ∃ s', adf_nbuf_put_tail buf len s = Ok (u32 (buf_addr dd + data_offset dd + data_size dd), s') ∧
        adf_nbuf_trim_tail buf len s' = Ok (tt, s).
Proof.
  intros Hc Hd Hnz Hsz Hlen. pose proof Hc as [Hb Hl].
  unfold adf_nbuf_put_tail. erewrite bind_ok by by eapply adf_nbuf_last_spec.
  erewrite bind_ok by by apply run_rd_vdesc. erewrite bind_ok by by apply run_upd_vdesc.
  erewrite bind_ok by (apply run_upd_vbuf; exact Hb).
  eexists. split; [reflexivity|].
  set (s' := _ <| vbufs ::= _ |>).
  assert (nbuf_chain s' buf (b <| buf_length ::= λ n, u16 (n + len) |>) (l ++ [d])) as Hc'.
  { split; [cbn; by rewrite lookup_insert_eq|]. eapply lchain_ext; [|exact Hl].
    intros a _. unfold dnext, s'. cbn. destruct (decide (a = d)) as [->|].
    - by rewrite lookup_insert_eq, Hd.
    - by rewrite lookup_insert_ne. }
  unfold adf_nbuf_trim_tail. erewrite bind_ok by by eapply adf_nbuf_last_spec.
  apply Z.eqb_neq in Hnz as Hnz'. rewrite Hnz'. rewrite (bind_ok _ _ _ _ _ (run_assert true _ eq_refl)).
  erewrite bind_ok by (apply run_upd_vdesc; cbn; by rewrite lookup_insert_eq).
  erewrite run_upd_vbuf by (cbn; by rewrite lookup_insert_eq).
  unfold s'. fields. rewrite !insert_insert_eq. do 2 f_equal.
  apply nb_state_eta; apply insert_id.
  - rewrite Hb. f_equal. symmetry. apply VBUF_eta. by apply u16_add_sub.
  - rewrite Hd. f_equal. symmetry. apply VDESC_eta; [done|by apply u16_add_sub].
Qed.

(** A DMA map has room for one segment: mapping a buffer of one descriptor yields its
    address and length, and mapping a buffer of several descriptors writes past the end
    of the segment array. *)
Theorem adf_nbuf_dmamap_info_single s buf b l :
  nbuf_chain s buf b l →
  match l with
  | [] => adf_nbuf_dmamap_info buf s = Ok ([], s)
  | [d] => ∃ dd, vdescs s !! d = Some dd ∧
             adf_nbuf_dmamap_info buf s = Ok ([(u32 (buf_addr dd + data_offset dd), data_size dd)], s)
  | _ => adf_nbuf_dmamap_info buf s = Fault OutOfRange
  end.
Proof.
  intros [Hb Hl]. unfold adf_nbuf_dmamap_info. erewrite bind_ok by by apply run_rd_vbuf.
  rewrite (bind_ok _ _ _ _ _ (run_get s)). pose proof (lchain_size (vdescs s) next_desc _ _ Hl) as Hsz.
  destruct l as [|d l].
  { cbn in Hl. rewrite Hl. by destruct (size (vdescs s)). }
  destruct Hl as (-> & Hnz & n & Hn & Hl). unfold dnext in Hn.
  destruct (vdescs s !! d) as [dd|] eqn:Hd; [|done]. cbn in Hn. injection Hn as Hn.
  destruct (size (vdescs s)) as [|k]; [cbn in Hsz; lia|]. cbn [vdesc_segs].
  apply Z.eqb_neq in Hnz as ->. erewrite bind_ok by by apply run_rd_vdesc. cbn [Nat.leb ADF_OS_MAX_SCATTER].
  rewrite Hn. destruct l as [|d' l].
  - cbn in Hl. subst n. exists dd. split; [done|].
    rewrite Hl. by destruct k.
  - destruct Hl as (-> & Hnz' & n' & Hn' & _). unfold dnext in Hn'.
    destruct (vdescs s !! d') as [dd'|] eqn:Hd'; [|done].
    destruct k as [|k]; [cbn in Hsz; lia|].
    apply bind_fault. cbn [vdesc_segs]. apply Z.eqb_neq in Hnz' as ->.
    by erewrite bind_ok by by apply run_rd_vdesc.
Qed.

(** Reserving more bytes in front of a buffer than its head room is not refused: the
    data offset wraps around 65536 and the returned address lies outside the buffer. *)
Theorem adf_nbuf_push_head_wraps s buf b d len :
  nbuf_at s buf b d → data_offset d < len <= 65536 →
  0 <= buf_addr d → buf_addr d + buf_size d < 4294967296 - 65536 →
  in_u16 (buf_size d) → len - data_offset d <= 65536 - buf_size d →
  ∃ s', adf_nbuf_push_head buf len s = Ok (buf_addr d + 65536 + data_offset d - len, s') ∧
        buf_addr d + buf_size d <= buf_addr d + 65536 + data_offset d - len.
Proof.
  intros Hat Hlen Ha Hb Hs Hw. pose proof Hat as (_ & _ & _ & Ho & _).
  eexists. erewrite adf_nbuf_push_head_run by done. unfold in_u16 in *. split; [|lia].
  f_equal. f_equal. unfold u16. replace (data_offset d - len) with (65536 + data_offset d - len + -1 * 65536) by lia.
  rewrite Z.mod_add, Z.mod_small by lia. rewrite u32_small; lia.
Qed.

(** ** The static pools *)

(** Pool [id] has the free buffers [l], next to be handed out first. *)
Definition poolrep (s : nb_state) (id : nat) (l : list Z) : Prop :=
  ∃ h, bufQ s !! id = Some h ∧ lchain (vnext s) h l.

Lemma run_rd_bufQ s id h : bufQ s !! id = Some h → rd_bufQ id s = Ok (h, s).
Proof. intros H. unfold rd_bufQ. run. by rewrite H. Qed.
Lemma run_wr_bufQ s id h v :
  bufQ s !! id = Some h → wr_bufQ id v s = Ok (tt, s <| bufQ ::= <[id := v]> |>).
Proof. intros H. unfold wr_bufQ. by erewrite bind_ok by by apply run_rd_bufQ. Qed.

Lemma pool_alloc_spec s id a l b d reserve :
  poolrep s id (a :: l) → vbufs s !! a = Some b → vdescs s !! desc_list b = Some d →
  ∃ s', _buf_pool_static_alloc_buf id reserve s = Ok (a, s') ∧ poolrep s' id l ∧
    vbufs s' = <[a := b <| next_buf := 0 |> <| buf_length := 0 |>]> (vbufs s) ∧
    vdescs s' = <[desc_list b := d <| data_offset := u16 reserve |> <| data_size := 0 |>]> (vdescs s).
Proof.
  intros (h & Hh & Hl) Hb Hd. pose proof (lchain_NoDup _ _ _ Hl) as Hnd.
  destruct Hl as (-> & Hnz & n & Hn & Hl). rewrite (vnext_some _ _ _ Hb) in Hn.
  injection Hn as Hn. unfold _buf_pool_static_alloc_buf.
  erewrite bind_ok by by apply run_rd_bufQ. apply Z.eqb_neq in Hnz as Hnz'. rewrite Hnz'.
  erewrite bind_ok by by apply run_rd_vbuf. erewrite bind_ok by by eapply run_wr_bufQ.
  erewrite bind_ok by by (apply run_upd_vbuf; cbn; exact Hb).
  erewrite bind_ok by by (apply run_upd_vdesc; cbn; exact Hd).
  erewrite bind_ok by (apply run_upd_vbuf; cbn; by rewrite lookup_insert_eq).
  eexists. split; [reflexivity|]. split; [|split; cbn; [|done]].
  - exists n. cbn. split.
    + rewrite list_lookup_insert_eq; [by rewrite Hn|]. by eapply lookup_lt_Some.
    + eapply lchain_ext; [|exact Hl]. intros x Hx. apply NoDup_cons in Hnd as [Hnin _].
      unfold vnext. cbn. rewrite !lookup_insert_ne; [done| |]; intros ->; done.
  - by rewrite insert_insert_eq.
Qed.

Lemma pool_free_spec s id l buf b :
  poolrep s id l → vbufs s !! buf = Some b → next_buf b = 0 → buf ∉ l → buf ≠ 0 →
  ∃ s', _buf_pool_static_free_buf id buf s = Ok (tt, s') ∧ poolrep s' id (buf :: l) ∧
    (∃ n, vbufs s' = <[buf := b <| next_buf := n |>]> (vbufs s)) ∧ vdescs s' = vdescs s.
Proof.
  intros (h & Hh & Hl) Hb Hn Hin Hnz. unfold _buf_pool_static_free_buf.
  erewrite bind_ok by by apply run_rd_bufQ. pose proof (lookup_lt_Some _ _ _ Hh) as Hlt.
  destruct (Z.eqb_spec h 0) as [->|Hh0].
  - erewrite run_wr_bufQ by done. eexists. split; [reflexivity|].
    assert (l = []) as ->.
    { destruct l; [done|]. destruct Hl as (<- & ? & _). done. }
    split; [|split; [|done]].
    + exists buf. cbn. split; [by rewrite list_lookup_insert_eq|]. split_and!; [done..|].
      exists 0. split; [|done]. unfold vnext. cbn. by rewrite Hb, <-Hn.
    + exists 0. cbn. symmetry. apply insert_id. rewrite Hb, <-Hn. by destruct b.
  - erewrite bind_ok by by apply run_upd_vbuf. erewrite run_wr_bufQ by done.
    eexists. split; [reflexivity|]. split; [|split; [|done]].
    + exists buf. cbn. split; [by rewrite list_lookup_insert_eq|]. split_and!; [done..|].
      exists h. unfold vnext. cbn. rewrite lookup_insert_eq. split; [done|].
      eapply lchain_ext; [|exact Hl]. intros x Hx. unfold vnext.
      rewrite lookup_insert_ne; [done|]. intros ->. done.
    + by exists h.
Qed.

(** A static pool is a stack of free buffers. An empty one answers NULL and is left
    alone; otherwise the top buffer is handed out, empty, with the head room asked for.
    A buffer given back goes on top, so the next request gets the same buffer, reset, and
    leaves the pool as it was. *)
Theorem buf_pool_static_stack s id l :
  poolrep s id l →
  (l = [] → ∀ r, _buf_pool_static_alloc_buf id r s = Ok (0, s)) ∧
  (∀ buf b d r, vbufs s !! buf = Some b → vdescs s !! desc_list b = Some d →
     next_buf b = 0 → buf ∉ l → buf ≠ 0 →
     ∃ s' s'', _buf_pool_static_free_buf id buf s = Ok (tt, s') ∧ poolrep s' id (buf :: l) ∧
       _buf_pool_static_alloc_buf id r s' = Ok (buf, s'') ∧ poolrep s'' id l ∧
       vbufs s'' = <[buf := b <| buf_length := 0 |>]> (vbufs s) ∧
       vdescs s'' = <[desc_list b := d <| data_offset := u16 r |> <| data_size := 0 |>]> (vdescs s)).
Proof.
  intros Hp. split.
  - intros -> r. destruct Hp as (h & Hh & Hl). cbn in Hl. subst h.
    unfold _buf_pool_static_alloc_buf. by erewrite bind_ok by by apply run_rd_bufQ.
  - intros buf b d r Hb Hd Hn Hin Hnz.
    destruct (pool_free_spec s id l buf b) as (s' & E & Hp' & (n & Hv) & Hvd); [done..|].
    destruct (pool_alloc_spec s' id buf l (b <| next_buf := n |>) d r) as (s'' & E' & Hp'' & Hv' & Hvd').
    + done.
    + rewrite Hv. by rewrite lookup_insert_eq.
    + by rewrite Hvd.
    + exists s', s''. split_and!; [done..| |].
      * rewrite Hv', Hv, insert_insert_eq. f_equal. cbn. rewrite <-Hn. by destruct b.
      * by rewrite Hvd', Hvd.
Qed.

(** ** Instances *)

(** Three buffers, the first two linked in a queue, the first made of two descriptors;
    pool 3 holds the linked pair. *)
Definition vdesc_sample (next addr off size : Z) : VDESC := mk_VDESC next addr 1664 off size 0 [].
Definition heap_sample : nb_state := {|
  nb_ram := mk_allocram 0 0;
  vbufs := list_to_map [(100, mk_VBUF 200 132 60 []); (132, mk_VBUF 272 0 0 []);
                        (164, mk_VBUF 308 0 40 [])];
  vdescs := list_to_map [(200, vdesc_sample 236 5000 64 20); (236, vdesc_sample 0 7000 0 40);
                         (272, vdesc_sample 0 9000 8 0); (308, vdesc_sample 0 11000 16 40)];
  free_buf_head := 0; nVbufNum := 0; free_vdesc_head := 0;
  bufQ := [0; 0; 0; 100];
|}.

Lemma queue_sample : qrep heap_sample (mk_qhead 100 132 2) [100; 132].
Proof.
  split_and!; [|by right|done|done]. cbn. split_and!; [done..|]. exists 132.
  split_and!; [done..|]. by exists 0.
Qed.
Lemma pool_sample : poolrep heap_sample 3 [100; 132].
Proof.
  exists 100. split; [done|]. cbn. split_and!; [done..|]. exists 132.
  split_and!; [done..|]. by exists 0.
Qed.
Lemma chain_sample : nbuf_chain heap_sample 100 (mk_VBUF 200 132 60 []) [200; 236].
Proof.
  split; [done|]. cbn. split_and!; [done..|]. exists 236. split_and!; [done..|]. by exists 0.
Qed.

Lemma adf_nbuf_push_pull_roundtrip_witness :
  (adf_nbuf_push_head 164 8 ;; adf_nbuf_pull_head 164 8) heap_sample = Ok (11016, heap_sample).
Proof.
  apply (adf_nbuf_push_pull_roundtrip heap_sample 164 (mk_VBUF 308 0 40 []) (vdesc_sample 0 11000 16 40) 8).
  split_and!; [reflexivity|reflexivity|vm_compute; split; congruence..].
Defined.

