(* ===== verification/Baw.v ===== *)
(** * Block-ack window of a traffic identifier (target_firmware/wlan/if_owl.c, if_athvar.h)

    Every (node, TID) pair keeps a sliding window of the sequence numbers in flight: a
    ring of 128 bits in four words, its head aligned with [seq_start]. This file models
    the record and the operations that move the window, gives the window's abstract
    meaning (the set of sequence numbers in flight) and shows that each operation
    implements its effect on that set. The frame-level code is in [TxPath]. *)

From S2P Require Import Prelude.

Definition IEEE80211_SEQ_MAX : Z := 4096.
Definition IEEE80211_SEQ_SEQ_SHIFT : Z := 4.
Definition WME_NUM_TID : nat := 8.
Definition WME_BA_BMP_SIZE : Z := 64.
Definition WME_MAX_BA : Z := WME_BA_BMP_SIZE.
Definition ATH_TID_MAX_BUFS : Z := 2 * WME_MAX_BA.
Definition TX_BUF_BITMAP_SIZE : Z := 32.
Definition TID_CLEANUP_INPROGRES : Z := 1.
Definition TID_AGGR_ENABLED : Z := 2.
Definition TID_REINITIALIZE : Z := 4.

(** [ath_atx_tid_t]. [buf_q] lists the queued buffers by number; [paused] and [sched]
    only ever hold 0 or 1; [tid_an] is the node the TID belongs to. *)
Record ath_atx_tid := mk_tid {
  tidno : Z; seq_start : Z; seq_next : Z; baw_size : Z; baw_head : Z; baw_tail : Z;
  tx_buf_bitmap : list Z; buf_q : list nat; paused : bool; sched : bool; flag : Z;
  incomp : Z; tid_an : nat;
}.
#[export] Instance eta_tid : EtaExp ath_atx_tid := λ t,
  mk_tid (tidno t) (seq_start t) (seq_next t) (baw_size t) (baw_head t) (baw_tail t)
    (tx_buf_bitmap t) (buf_q t) (paused t) (sched t) (flag t) (incomp t) (tid_an t).

(** ** The macros of if_athvar.h *)

(** [INCR(_l, _sz)] on a 16-bit and on a 32-bit signed counter. *)
Definition INCR16 (l sz : Z) : Z := u16 (l + 1) .& (sz - 1).
Definition INCR32 (l sz : Z) : Z := s32 (l + 1) .& (sz - 1).
Definition SEQNO_FROM_BF_SEQNO (x : Z) : Z := x .>> IEEE80211_SEQ_SEQ_SHIFT.
Definition BAW_WITHIN (start bawsz seqno : Z) : bool := ((seqno - start) .& 4095) <? bawsz.
Definition ATH_BA_INDEX (st seq : Z) : Z := (seq - st) .& (IEEE80211_SEQ_MAX - 1).

(** The index of the word is below 4 whenever [i] is a ring position. *)
Definition bitmap_word (bm : list Z) (i : Z) : Z := default 0 (bm !! Z.to_nat (i .>> 5)).
Definition bitmap_bit (i : Z) : Z := u32 (1 .<< (i .& 31)).
Definition TX_BUF_BITMAP_SET (bm : list Z) (i : Z) : list Z :=
  <[Z.to_nat (i .>> 5) := bitmap_word bm i .| bitmap_bit i]> bm.
Definition TX_BUF_BITMAP_CLR (bm : list Z) (i : Z) : list Z :=
  <[Z.to_nat (i .>> 5) := bitmap_word bm i .&~ bitmap_bit i]> bm.
Definition TX_BUF_BITMAP_IS_SET (bm : list Z) (i : Z) : bool :=
  tst (bitmap_word bm i) (bitmap_bit i).

(** ** The operations *)

Definition owl_tgt_tid_init (tid : ath_atx_tid) : ath_atx_tid :=
  tid <| seq_start := 0 |> <| seq_next := 0 |> <| baw_size := WME_MAX_BA |>
      <| baw_head := 0 |> <| baw_tail := 0 |> <| paused := false |> <| flag := 0 |>
      <| sched := false |> <| buf_q := [] |>
      <| tx_buf_bitmap ::= λ bm, foldl TX_BUF_BITMAP_CLR bm (seqZ 0 ATH_TID_MAX_BUFS) |>.

(** One TID of [owl_tgt_node_init]: a TID whose frames are still in flight is only
    marked for a later initialisation. *)
Definition node_init_tid (an : nat) (no : Z) (tid : ath_atx_tid) : ath_atx_tid :=
  let tid := tid <| tidno := no |> <| tid_an := an |> in
  if tst (flag tid) TID_CLEANUP_INPROGRES
  then tid <| flag ::= λ f, f .| TID_REINITIALIZE |>
  else owl_tgt_tid_init tid.
Definition owl_tgt_node_init (an : nat) (tids : list ath_atx_tid) : list ath_atx_tid :=
  imap (λ i t, node_init_tid an (Z.of_nat i) t) tids.

Definition ath_tx_addto_baw (isretried : bool) (bf_seqno : Z) (tid : ath_atx_tid) : ath_atx_tid :=
  if isretried then tid else
  let index := ATH_BA_INDEX (seq_start tid) (SEQNO_FROM_BF_SEQNO bf_seqno) in
  let cindex := (baw_head tid + index) .& (ATH_TID_MAX_BUFS - 1) in
  let tid := tid <| tx_buf_bitmap ::= λ bm, TX_BUF_BITMAP_SET bm cindex |> in
  if index >=? ((baw_tail tid - baw_head tid) .& (ATH_TID_MAX_BUFS - 1))
  then tid <| baw_tail := INCR32 cindex ATH_TID_MAX_BUFS |>
  else tid.

(** The [while] of [ath_tx_update_baw]: skip the completed frames at the head. *)
Fixpoint baw_advance (fuel : nat) (tid : ath_atx_tid) : option ath_atx_tid :=
  if negb (baw_head tid =? baw_tail tid)
     && negb (TX_BUF_BITMAP_IS_SET (tx_buf_bitmap tid) (baw_head tid))
  then match fuel with
       | O => None
       | S n => baw_advance n (tid <| seq_start ::= λ s, INCR16 s IEEE80211_SEQ_MAX |>
                                   <| baw_head ::= λ h, INCR32 h ATH_TID_MAX_BUFS |>)
       end
  else Some tid.

Definition BAW_FUEL : nat := 128.

Definition ath_tx_update_baw (seqno : Z) (tid : ath_atx_tid) : option ath_atx_tid :=
  let index := ATH_BA_INDEX (seq_start tid) seqno in
  let cindex := (baw_head tid + index) .& (ATH_TID_MAX_BUFS - 1) in
  baw_advance BAW_FUEL (tid <| tx_buf_bitmap ::= λ bm, TX_BUF_BITMAP_CLR bm cindex |>).

(** The [while] of [ath_tgt_tx_cleanup]: close the window, counting the frames that the
    hardware still holds in [incomp]. *)
Fixpoint cleanup_window (fuel : nat) (tid : ath_atx_tid) : option ath_atx_tid :=
  if negb (baw_head tid =? baw_tail tid)
  then match fuel with
       | O => None
       | S n =>
         let tid := if TX_BUF_BITMAP_IS_SET (tx_buf_bitmap tid) (baw_head tid)
                    then tid <| incomp ::= λ n, s8 (n + 1) |>
                             <| flag ::= λ f, f .| TID_CLEANUP_INPROGRES |>
                             <| tx_buf_bitmap ::= λ bm, TX_BUF_BITMAP_CLR bm (baw_head tid) |>
                    else tid in
         cleanup_window n (tid <| baw_head ::= λ h, INCR32 h ATH_TID_MAX_BUFS |>
                               <| seq_start ::= λ s, INCR16 s IEEE80211_SEQ_MAX |>)
       end
  else Some tid.

(** [ath_tgt_tid_drain] after its frames are freed: the window is emptied in place. *)
Definition drain_window (tid : ath_atx_tid) : ath_atx_tid :=
  tid <| seq_next := seq_start tid |> <| baw_tail := baw_head tid |>.

(** ** Ring and bitmap arithmetic *)

Lemma land_4095 x : x .& 4095 = x mod 4096.
Proof. change 4095 with (Z.ones 12). by rewrite Z.land_ones. Qed.
Lemma land_127 x : x .& 127 = x mod 128.
Proof. change 127 with (Z.ones 7). by rewrite Z.land_ones. Qed.

Lemma INCR16_mod l : 0 <= l < 4096 → INCR16 l IEEE80211_SEQ_MAX = (l + 1) mod 4096.
Proof. intros. unfold INCR16. rewrite u16_small by lia. apply land_4095. Qed.
Lemma INCR32_mod l : 0 <= l < 128 → INCR32 l ATH_TID_MAX_BUFS = (l + 1) mod 128.
Proof. intros. unfold INCR32. rewrite s32_small by lia. apply land_127. Qed.

Lemma bitmap_bit_pow i : bitmap_bit i = 2 ^ (i mod 32).
Proof.
  unfold bitmap_bit. change 31 with (Z.ones 5). rewrite Z.land_ones by lia. change (2 ^ 5) with 32.
  pose proof (Z.mod_pos_bound i 32).
  rewrite Z.shiftl_mul_pow2, Z.mul_1_l by lia. apply u32_small.
  split; [by apply Z.pow_nonneg|]. change 4294967296 with (2 ^ 32).
  apply Z.pow_lt_mono_r; lia.
Qed.
Lemma shiftr_5 i : i .>> 5 = i `div` 32.
Proof. by rewrite Z.shiftr_div_pow2. Qed.

(** The bit of ring position [i]. *)
Lemma bitmap_is_set_testbit bm i :
  TX_BUF_BITMAP_IS_SET bm i = Z.testbit (default 0 (bm !! Z.to_nat (i `div` 32))) (i mod 32).
Proof.
  unfold TX_BUF_BITMAP_IS_SET, bitmap_word. rewrite bitmap_bit_pow, shiftr_5.
  apply tst_pow2. by apply Z.mod_pos_bound.
Qed.

Definition ring_pos (i : Z) : Prop := 0 <= i < 128.

Lemma ring_pos_word i : ring_pos i → (Z.to_nat (i `div` 32) < 4)%nat.
Proof. unfold ring_pos. intros. pose proof (Z.div_lt_upper_bound i 32 4). lia. Qed.
Lemma ring_pos_inj i j :
  ring_pos i → ring_pos j → Z.to_nat (i `div` 32) = Z.to_nat (j `div` 32) →
  i mod 32 = j mod 32 → i = j.
Proof.
  unfold ring_pos. intros. rewrite (Z.div_mod i 32), (Z.div_mod j 32) by lia.
  pose proof (Z.div_pos i 32). pose proof (Z.div_pos j 32). lia.
Qed.

Lemma bitmap_set_spec bm i j :
  length bm = 4%nat → ring_pos i → ring_pos j →
  TX_BUF_BITMAP_IS_SET (TX_BUF_BITMAP_SET bm i) j = bool_decide (i = j) || TX_BUF_BITMAP_IS_SET bm j.
Proof.
  intros Hl Hi Hj. rewrite !bitmap_is_set_testbit. unfold TX_BUF_BITMAP_SET.
  rewrite shiftr_5. unfold bitmap_word. rewrite shiftr_5, bitmap_bit_pow.
  pose proof (ring_pos_word i Hi). pose proof (Z.mod_pos_bound i 32). pose proof (Z.mod_pos_bound j 32).
  destruct (decide (Z.to_nat (i `div` 32) = Z.to_nat (j `div` 32))) as [E|E].
  - rewrite E, list_lookup_insert_eq by lia. simpl. rewrite Z.lor_spec, Z.pow2_bits_eqb by lia.
    rewrite orb_comm. f_equal. case_bool_decide; subst; [by apply Z.eqb_refl|].
    apply Z.eqb_neq. intros ?. by destruct (ring_pos_inj i j).
  - rewrite list_lookup_insert_ne by done. rewrite bool_decide_false by (intros ->; done). done.
Qed.

Lemma bitmap_clr_spec bm i j :
  length bm = 4%nat → ring_pos i → ring_pos j →
  TX_BUF_BITMAP_IS_SET (TX_BUF_BITMAP_CLR bm i) j =
    negb (bool_decide (i = j)) && TX_BUF_BITMAP_IS_SET bm j.
Proof.
  intros Hl Hi Hj. rewrite !bitmap_is_set_testbit. unfold TX_BUF_BITMAP_CLR.
  rewrite shiftr_5. unfold bitmap_word. rewrite shiftr_5, bitmap_bit_pow.
  pose proof (ring_pos_word i Hi). pose proof (Z.mod_pos_bound i 32). pose proof (Z.mod_pos_bound j 32).
  destruct (decide (Z.to_nat (i `div` 32) = Z.to_nat (j `div` 32))) as [E|E].
  - rewrite E, list_lookup_insert_eq by lia. simpl. rewrite Z.ldiff_spec, Z.pow2_bits_eqb by lia.
    rewrite andb_comm. f_equal. f_equal. case_bool_decide; subst; [by apply Z.eqb_refl|].
    apply Z.eqb_neq. intros ?. by destruct (ring_pos_inj i j).
  - rewrite list_lookup_insert_ne by done. rewrite bool_decide_false by (intros ->; done). done.
Qed.

Lemma length_bitmap_set bm i : length (TX_BUF_BITMAP_SET bm i) = length bm.
Proof. apply length_insert. Qed.
Lemma length_bitmap_clr bm i : length (TX_BUF_BITMAP_CLR bm i) = length bm.
Proof. apply length_insert. Qed.

(** ** The window and its meaning *)

Definition baw_len (t : ath_atx_tid) : Z := (baw_tail t - baw_head t) mod 128.
(** The bit of the frame [i] positions after [seq_start]. *)
Definition pending (t : ath_atx_tid) (i : Z) : bool :=
  TX_BUF_BITMAP_IS_SET (tx_buf_bitmap t) ((baw_head t + i) mod 128).
(** Sequence number [q] is in flight: sent or queued to the hardware, and not completed. *)
Definition in_flight (t : ath_atx_tid) (q : Z) : bool :=
  let i := (q - seq_start t) mod 4096 in (i <? baw_len t) && pending t i.

Definition is_seq (q : Z) : Prop := 0 <= q < 4096.

Record baw_wf (t : ath_atx_tid) : Prop := {
  wf_words : length (tx_buf_bitmap t) = 4%nat;
  wf_start : is_seq (seq_start t);
  wf_head : ring_pos (baw_head t);
  wf_tail : ring_pos (baw_tail t);
  wf_size : 0 <= baw_size t <= 64;
  wf_len : baw_len t <= baw_size t;
  wf_clear : ∀ i, baw_len t <= i < 128 → pending t i = false;
}.

Lemma baw_len_range t : 0 <= baw_len t < 128.
Proof. by apply Z.mod_pos_bound. Qed.

Lemma ring_pos_mod x : ring_pos (x mod 128).
Proof. by apply Z.mod_pos_bound. Qed.
#[export] Hint Resolve ring_pos_mod : core.

(** Two offsets inside the ring name the same bit only if they are equal. *)
Lemma ring_offset_eq h i j :
  0 <= i < 128 → 0 <= j < 128 → bool_decide ((h + i) mod 128 = (h + j) mod 128) = (i =? j).
Proof.
  intros. destruct (Z.eqb_spec i j) as [->|]; [by rewrite bool_decide_true|].
  apply bool_decide_false. mlia.
Qed.

Lemma ATH_BA_INDEX_mod st q : ATH_BA_INDEX st q = (q - st) mod 4096.
Proof. apply land_4095. Qed.

Lemma in_flight_lt t q : in_flight t q = true → (q - seq_start t) mod 4096 < baw_len t.
Proof. unfold in_flight. intros [?%Z.ltb_lt _]%andb_prop. done. Qed.

(** *** Adding a frame *)
Section addto.
Context (t : ath_atx_tid) (Hwf : baw_wf t) (sn : Z) (Hsn : is_seq (SEQNO_FROM_BF_SEQNO sn)).
Let q := SEQNO_FROM_BF_SEQNO sn.
Let i := (q - seq_start t) mod 4096.
Context (Hin : BAW_WITHIN (seq_start t) (baw_size t) q = true).

Lemma addto_offset : 0 <= i < baw_size t.
Proof using Hin.
  unfold BAW_WITHIN in Hin. apply Z.ltb_lt in Hin. rewrite land_4095 in Hin.
  split; [by apply Z.mod_pos_bound|done].
Qed.

Lemma addto_fields :
  let t' := ath_tx_addto_baw false sn t in
  seq_start t' = seq_start t ∧ baw_head t' = baw_head t ∧ baw_size t' = baw_size t ∧
  tx_buf_bitmap t' = TX_BUF_BITMAP_SET (tx_buf_bitmap t) ((baw_head t + i) mod 128) ∧
  ring_pos (baw_tail t') ∧ baw_len t' = Z.max (baw_len t) (i + 1).
Proof using Hwf Hin.
  pose proof addto_offset as Hi. destruct Hwf as [_ _ Hh Ht Hsz _ _].
  unfold ath_tx_addto_baw. rewrite ATH_BA_INDEX_mod. fold q i.
  change (ATH_TID_MAX_BUFS - 1) with 127. rewrite !land_127. fields.
  fold (baw_len t). destruct (Z.geb_spec i (baw_len t)) as [Hge|Hlt].
  - rewrite INCR32_mod by apply ring_pos_mod. fields. split_and!; [done..|].
    rewrite Z.max_r by lia. unfold baw_len, ring_pos in *. fields. mlia.
  - fields. split_and!; [done..|]. rewrite Z.max_l by lia. done.
Qed.

Lemma addto_pending j :
  0 <= j < 128 → pending (ath_tx_addto_baw false sn t) j = (j =? i) || pending t j.
Proof using Hwf Hin.
  intros Hj. destruct addto_fields as (_ & Hh & _ & Hb & _).
  pose proof addto_offset as Hi. destruct Hwf as [Hl _ _ _ Hsz _ _].
  unfold pending. rewrite Hb, Hh, bitmap_set_spec by auto.
  rewrite ring_offset_eq by lia. by rewrite Z.eqb_sym.
Qed.

Lemma addto_wf : baw_wf (ath_tx_addto_baw false sn t).
Proof using Hwf Hin.
  destruct addto_fields as (Hs & Hh & Hz & Hb & Ht & Hlen).
  pose proof addto_offset as Hi. pose proof (baw_len_range t).
  pose proof Hwf as [Hl Hst Hhd Htl Hsz Hle Hcl].
  split; rewrite ?Hs, ?Hh, ?Hz, ?Hb, ?length_bitmap_set; try done; [lia|].
  intros j Hj. rewrite Hlen in Hj. rewrite addto_pending by lia.
  rewrite Hcl by lia. rewrite orb_false_r. apply Z.eqb_neq. lia.
Qed.

Lemma addto_in_flight p :
  is_seq p → in_flight (ath_tx_addto_baw false sn t) p = (p =? q) || in_flight t p.
Proof using Hwf Hin Hsn.
  intros Hp. destruct addto_fields as (Hs & _ & _ & _ & _ & Hlen).
  pose proof addto_offset as Hi. pose proof (baw_len_range t).
  pose proof Hwf as [_ Hst _ _ Hsz Hle Hcl].
  unfold in_flight. rewrite Hs, Hlen. set (j := (p - seq_start t) mod 4096).
  assert ((p =? q) = (j =? i)) as Heq.
  { unfold is_seq in *. destruct (Z.eqb_spec p q) as [->|]; symmetry.
    - apply Z.eqb_refl.
    - apply Z.eqb_neq. subst i j. fold q in Hsn. mlia. }
  rewrite Heq. assert (0 <= j) by by apply Z.mod_pos_bound.
  destruct (Z.ltb_spec j (Z.max (baw_len t) (i + 1))) as [Hlt|Hge].
  - rewrite addto_pending by lia. destruct (Z.ltb_spec j (baw_len t)); simpl; [done|].
    rewrite Hcl by lia. done.
  - destruct (Z.ltb_spec j (baw_len t)); [lia|]. simpl.
    symmetry. rewrite orb_false_r. apply Z.eqb_neq. lia.
Qed.
End addto.

(** *** Completing a frame *)

(** One turn of the loop: the window's head, which is not in flight, is dropped. *)
Definition baw_skip (t : ath_atx_tid) : ath_atx_tid :=
  t <| seq_start ::= λ s, INCR16 s IEEE80211_SEQ_MAX |>
    <| baw_head ::= λ h, INCR32 h ATH_TID_MAX_BUFS |>.

Section skip.
Context (t : ath_atx_tid) (Hwf : baw_wf t) (Hne : baw_head t ≠ baw_tail t)
  (Hclr : pending t 0 = false).

Lemma skip_fields :
  seq_start (baw_skip t) = (seq_start t + 1) mod 4096 ∧
  baw_head (baw_skip t) = (baw_head t + 1) mod 128 ∧
  baw_len (baw_skip t) = baw_len t - 1 ∧ 0 < baw_len t.
Proof using Hwf Hne.
  destruct Hwf as [_ Hs Hh Ht _ _ _]. unfold baw_skip. fields.
  rewrite INCR16_mod, INCR32_mod by done. split_and!; [done..| |];
    unfold baw_len, ring_pos in *; fields; mlia.
Qed.

Lemma skip_pending i : 0 <= i < 127 → pending (baw_skip t) i = pending t (i + 1).
Proof using Hwf Hne.
  intros Hi. destruct skip_fields as (_ & Hh & _). unfold pending. rewrite Hh.
  change (tx_buf_bitmap (baw_skip t)) with (tx_buf_bitmap t). f_equal.
  destruct Hwf as [_ _ Hhd _ _ _ _]. unfold ring_pos in *. mlia.
Qed.

Lemma skip_pending_last : pending (baw_skip t) 127 = false.
Proof using Hwf Hne Hclr.
  destruct skip_fields as (_ & Hh & _). rewrite <-Hclr. unfold pending. rewrite Hh.
  change (tx_buf_bitmap (baw_skip t)) with (tx_buf_bitmap t). f_equal.
  destruct Hwf as [_ _ Hhd _ _ _ _]. unfold ring_pos in *. mlia.
Qed.

Lemma skip_wf : baw_wf (baw_skip t).
Proof using Hwf Hne Hclr.
  destruct skip_fields as (Hs & Hh & Hlen & Hpos).
  pose proof Hwf as [Hl Hst Hhd Htl Hsz Hle Hcl].
  split; rewrite ?Hs, ?Hh; auto.
  - by apply Z.mod_pos_bound.
  - rewrite Hlen. change (baw_size (baw_skip t)) with (baw_size t). lia.
  - intros i Hi. rewrite Hlen in Hi. destruct (decide (i = 127)) as [->|].
    + apply skip_pending_last.
    + rewrite skip_pending by lia. apply Hcl. lia.
Qed.

Lemma skip_in_flight p : is_seq p → in_flight (baw_skip t) p = in_flight t p.
Proof using Hwf Hne Hclr.
  intros Hp. destruct skip_fields as (Hs & _ & Hlen & Hpos).
  pose proof Hwf as [_ Hst _ _ Hsz Hle _]. pose proof (baw_len_range t).
  unfold in_flight. rewrite Hs, Hlen. set (j := (p - seq_start t) mod 4096).
  assert (0 <= j < 4096) by by apply Z.mod_pos_bound.
  destruct (decide (j = 0)) as [Hj|Hj].
  - rewrite Hj, Hclr, andb_false_r. apply andb_false_iff. left. apply Z.ltb_ge.
    unfold is_seq in *. subst j. mlia.
  - replace ((p - (seq_start t + 1) mod 4096) mod 4096) with (j - 1)
      by (unfold is_seq in *; subst j; mlia).
    destruct (Z.ltb_spec (j - 1) (baw_len t - 1)), (Z.ltb_spec j (baw_len t)); simpl; try lia.
    rewrite skip_pending by lia. by replace (j - 1 + 1) with j by lia.
Qed.
End skip.

Definition seq_add (s k : Z) : Z := (s + k) mod 4096.

(** What the loop achieves: the window starts at a frame in flight, or is empty. *)
Definition baw_advanced (t t' : ath_atx_tid) : Prop :=
  baw_wf t' ∧ (∀ p, is_seq p → in_flight t' p = in_flight t p) ∧
  (baw_len t' = 0 ∨ in_flight t' (seq_start t') = true) ∧
  (∃ k, 0 <= k <= baw_len t ∧ seq_start t' = seq_add (seq_start t) k ∧
        baw_len t' = baw_len t - k) ∧
  (∃ s h, t' = t <| seq_start := s |> <| baw_head := h |>).

Lemma baw_advance_spec fuel t :
  baw_wf t → (Z.to_nat (baw_len t) <= fuel)%nat →
  ∃ t', baw_advance fuel t = Some t' ∧ baw_advanced t t'.
Proof.
  revert t. induction fuel as [|fuel IH]; intros t Hwf Hfuel; simpl.
  all: pose proof Hwf as [Hl Hst Hhd Htl Hsz Hle Hcl]; pose proof (baw_len_range t).
  all: assert (TX_BUF_BITMAP_IS_SET (tx_buf_bitmap t) (baw_head t) = pending t 0) as Hp0
    by (unfold pending, ring_pos in *; f_equal; mlia); rewrite Hp0.
  all: destruct (Z.eqb_spec (baw_head t) (baw_tail t)) as [He|He]; simpl.
  1,3: eexists; split; [done|]; split_and!; auto;
    [left; unfold baw_len; rewrite He, Z.sub_diag; done
    |exists 0; unfold seq_add; rewrite Z.add_0_r, Z.mod_small, Z.sub_0_r by done; split_and!; lia || done
    |exists (seq_start t), (baw_head t); by destruct t].
  - exfalso. unfold baw_len, ring_pos in *. mlia.
  - destruct (pending t 0) eqn:Hp; simpl.
    + eexists; split; [done|]; split_and!; auto.
      * right. unfold in_flight. rewrite Z.sub_diag, Z.mod_0_l, Hp, andb_true_r by done.
        apply Z.ltb_lt. unfold baw_len, ring_pos in *. mlia.
      * exists 0; unfold seq_add; rewrite Z.add_0_r, Z.mod_small, Z.sub_0_r by done.
        split_and!; lia || done.
      * exists (seq_start t), (baw_head t). by destruct t.
    + fold (baw_skip t). destruct (skip_fields t Hwf He) as (Hs & Hh & Hlen & Hpos).
      destruct (IH (baw_skip t)) as (t' & Ht' & Hwf' & Hfl & Hhead & (k & Hk & Hks & Hkl) & s & h & ->).
      { by apply skip_wf. }
      { lia. }
      eexists; split; [exact Ht'|]. split_and!; [done| |done| |].
      * intros p Hpp. rewrite Hfl by done. by apply skip_in_flight.
      * exists (k + 1). rewrite Hks, Hkl, Hs, Hlen. unfold seq_add, is_seq in *.
        split_and!; [lia|lia| |lia]. mlia.
      * by exists s, h.
Qed.

Section complete.
Context (t : ath_atx_tid) (Hwf : baw_wf t) (q : Z) (Hq : is_seq q).
Let i := (q - seq_start t) mod 4096.
Context (Hi : i < 128).
Let t0 := t <| tx_buf_bitmap ::= λ bm, TX_BUF_BITMAP_CLR bm ((baw_head t + i) mod 128) |>.

Lemma complete_pending j : 0 <= j < 128 → pending t0 j = negb (j =? i) && pending t j.
Proof using Hwf Hi.
  intros Hj. assert (0 <= i) by by apply Z.mod_pos_bound.
  destruct Hwf as [Hl _ _ _ _ _ _]. unfold pending, t0. fields.
  rewrite bitmap_clr_spec by auto. rewrite ring_offset_eq by lia. by rewrite Z.eqb_sym.
Qed.
Lemma complete_wf : baw_wf t0.
Proof using Hwf Hi.
  pose proof Hwf as [Hl Hst Hhd Htl Hsz Hle Hcl]. pose proof (baw_len_range t).
  split; try done.
  - unfold t0; fields. by rewrite length_bitmap_clr.
  - intros j Hj. rewrite complete_pending by (unfold t0, baw_len in *; fields; lia).
    rewrite Hcl, andb_false_r; [done|]. unfold t0, baw_len in *; fields; lia.
Qed.
Lemma complete_in_flight p : is_seq p → in_flight t0 p = negb (p =? q) && in_flight t p.
Proof using Hwf Hi Hq.
  intros Hp. pose proof Hwf as [_ Hst _ _ _ _ _]. pose proof (baw_len_range t).
  unfold in_flight. change (seq_start t0) with (seq_start t).
  change (baw_len t0) with (baw_len t). set (j := (p - seq_start t) mod 4096).
  assert (0 <= j) by by apply Z.mod_pos_bound.
  assert ((p =? q) = (j =? i)) as ->.
  { unfold is_seq in *. destruct (Z.eqb_spec p q) as [->|]; symmetry.
    - apply Z.eqb_refl.
    - apply Z.eqb_neq. subst i j. mlia. }
  destruct (Z.ltb_spec j (baw_len t)); simpl; [|by rewrite andb_false_r].
  by rewrite complete_pending by lia.
Qed.

Lemma update_baw_spec :
  ∃ t', ath_tx_update_baw q t = Some t' ∧ baw_advanced t0 t'.
Proof using Hwf Hi.
  unfold ath_tx_update_baw. rewrite ATH_BA_INDEX_mod.
  change (ATH_TID_MAX_BUFS - 1) with 127. rewrite land_127.
  apply baw_advance_spec; [apply complete_wf|].
  pose proof (baw_len_range t0). unfold BAW_FUEL. lia.
Qed.
End complete.

(** *** Closing the window *)

(** How many frames of the window are in flight. *)
Definition pend_count (t : ath_atx_tid) : Z :=
  foldr (λ i n, b2z (pending t i) + n) 0 (seqZ 0 (baw_len t)).

Lemma pend_count_bounds t : 0 <= pend_count t <= baw_len t.
Proof.
  assert (∀ l, 0 <= foldr (λ i n, b2z (pending t i) + n) 0 l <= Z.of_nat (length l)) as H.
  { induction l as [|i l IH]; cbn [foldr length]; [done|]. destruct (pending t i); simpl; lia. }
  unfold pend_count. specialize (H (seqZ 0 (baw_len t))).
  rewrite length_seqZ in H. pose proof (baw_len_range t). lia.
Qed.

Lemma count_ext (f g : Z → bool) l :
  (∀ i, i ∈ l → f i = g i) →
  foldr (λ i a, b2z (f i) + a) 0 l = foldr (λ i a, b2z (g i) + a) 0 l.
Proof.
  induction l as [|i l IH]; intros H; cbn [foldr]; [done|].
  rewrite H by set_solver. f_equal. apply IH. set_solver.
Qed.

Lemma pend_count_head t :
  0 < baw_len t →
  pend_count t = b2z (pending t 0) +
    foldr (λ i a, b2z (pending t (1 + i)) + a) 0 (seqZ 0 (baw_len t - 1)).
Proof.
  intros H. unfold pend_count. rewrite seqZ_cons by lia. cbn [foldr]. f_equal.
  replace (Z.succ 0) with (1 + 0) by lia. replace (Z.pred (baw_len t)) with (baw_len t - 1) by lia.
  rewrite <-fmap_add_seqZ. by rewrite foldr_fmap.
Qed.

Lemma skip_count t :
  baw_wf t → baw_head t ≠ baw_tail t → pending t 0 = false →
  pend_count (baw_skip t) = pend_count t.
Proof.
  intros Hwf Hne Hz. destruct (skip_fields t Hwf Hne) as (_ & _ & Hlen & Hpos).
  pose proof (baw_len_range t). rewrite (pend_count_head t), Hz by done. cbn [b2z].
  rewrite Z.add_0_l. unfold pend_count. rewrite Hlen. apply count_ext.
  intros i Hi%elem_of_seqZ. rewrite skip_pending by (done || lia). by rewrite Z.add_comm.
Qed.

(** The window with the bit of its head cleared. *)
Definition clear_head (t : ath_atx_tid) : ath_atx_tid :=
  t <| tx_buf_bitmap ::= λ bm, TX_BUF_BITMAP_CLR bm (baw_head t) |>.

Lemma clear_head_spec t :
  baw_wf t → baw_head t ≠ baw_tail t →
  baw_wf (clear_head t) ∧ pending (clear_head t) 0 = false ∧
  pend_count t = b2z (pending t 0) + pend_count (clear_head t).
Proof.
  intros Hwf Hne. pose proof Hwf as [Hl Hst Hhd Htl Hsz Hle Hcl].
  assert ((seq_start t - seq_start t) mod 4096 = 0) as H0 by by rewrite Z.sub_diag.
  assert (clear_head t = t <| tx_buf_bitmap ::= λ bm, TX_BUF_BITMAP_CLR bm
            ((baw_head t + (seq_start t - seq_start t) mod 4096) mod 128) |>) as Ht0.
  { rewrite H0, Z.add_0_r, Z.mod_small by done. done. }
  assert (∀ j, 0 <= j < 128 → pending (clear_head t) j = negb (j =? 0) && pending t j) as Hp0.
  { intros j Hj. rewrite Ht0, complete_pending by (done || lia). by rewrite H0. }
  split_and!; [rewrite Ht0; apply complete_wf; [done|lia]|by rewrite Hp0|].
  destruct (skip_fields t Hwf Hne) as (_ & _ & _ & Hpos). pose proof (baw_len_range t).
  rewrite (pend_count_head t), (pend_count_head (clear_head t)) by done.
  rewrite (Hp0 0) by done. cbn [Z.eqb negb andb b2z]. rewrite Z.add_0_l. f_equal.
  change (baw_len (clear_head t)) with (baw_len t). apply count_ext.
  intros i Hi%elem_of_seqZ. rewrite Hp0 by lia. destruct (Z.eqb_spec (1 + i) 0); [lia|done].
Qed.

Definition window_closed (t t' : ath_atx_tid) : Prop :=
  baw_wf t' ∧ baw_len t' = 0 ∧ seq_start t' = seq_add (seq_start t) (baw_len t) ∧
  incomp t' = incomp t + pend_count t ∧
  flag t' = (if pend_count t =? 0 then flag t else flag t .| TID_CLEANUP_INPROGRES) ∧
  buf_q t' = buf_q t ∧ paused t' = paused t ∧ sched t' = sched t.

Lemma lor_idem_flag f m : f .| m .| m = f .| m.
Proof. by rewrite <-Z.lor_assoc, Z.lor_diag. Qed.

(** One turn of the cleanup loop. *)
Lemma cleanup_window_unfold n t :
  baw_wf t → baw_head t ≠ baw_tail t →
  cleanup_window (S n) t =
    cleanup_window n (if pending t 0
      then baw_skip (clear_head t) <| incomp ::= λ n, s8 (n + 1) |>
                        <| flag ::= λ f, f .| TID_CLEANUP_INPROGRES |>
      else baw_skip t).
Proof.
  intros Hwf Hne. destruct Hwf as [_ _ Hhd _ _ _ _]. cbn [cleanup_window].
  assert (TX_BUF_BITMAP_IS_SET (tx_buf_bitmap t) (baw_head t) = pending t 0) as ->
    by (unfold pending, ring_pos in *; f_equal; mlia).
  apply Z.eqb_neq in Hne as ->. simpl. by destruct (pending t 0).
Qed.

(** The counters do not take part in the window. *)
Lemma baw_wf_counters t n f : baw_wf t → baw_wf (t <| incomp := n |> <| flag := f |>).
Proof. intros [H1 H2 H3 H4 H5 H6 H7]. split; done. Qed.

Lemma cleanup_window_spec fuel t :
  baw_wf t → (Z.to_nat (baw_len t) <= fuel)%nat → 0 <= incomp t → incomp t + pend_count t <= 127 →
  ∃ t', cleanup_window fuel t = Some t' ∧ window_closed t t'.
Proof.
  revert t. induction fuel as [|fuel IH]; intros t Hwf Hfuel Hinc Hmax.
  all: pose proof Hwf as [Hl Hst Hhd Htl Hsz Hle Hcl]; pose proof (baw_len_range t).
  all: destruct (decide (baw_head t = baw_tail t)) as [He|He].
  1,3: exists t; assert (baw_len t = 0) as H0 by (unfold baw_len; by rewrite He, Z.sub_diag);
    assert (pend_count t = 0) as Hc by (pose proof (pend_count_bounds t); lia);
    split; [simpl; by rewrite He, Z.eqb_refl|]; unfold window_closed, seq_add;
    rewrite Hc, H0, !Z.add_0_r, Z.mod_small by done; by split_and!.
  { exfalso. unfold baw_len, ring_pos in *. mlia. }
  rewrite cleanup_window_unfold by done.
  destruct (pending t 0) eqn:Hp.
  - destruct (clear_head_spec t Hwf He) as (Hw0 & Hz & Hcnt). rewrite Hp in Hcnt. cbn [b2z] in Hcnt.
    destruct (skip_fields _ Hw0 He) as (Hs & _ & Hlen & _).
    pose proof (skip_count _ Hw0 He Hz) as Hsc.
    pose proof (pend_count_bounds (clear_head t)).
    set (u := baw_skip (clear_head t) <| incomp ::= λ n, s8 (n + 1) |> <| flag ::= λ f, f .| TID_CLEANUP_INPROGRES |>).
    assert (incomp u = incomp t + 1) as Hu by (unfold u; fields; apply s8_small; lia).
    change (pend_count u) with (pend_count (baw_skip (clear_head t))) in *.
    destruct (IH u) as (t' & Ht' & Hw & Hl0 & Hst' & Hin' & Hf' & Hq').
    + by apply baw_wf_counters, skip_wf.
    + change (baw_len u) with (baw_len (baw_skip (clear_head t))). rewrite Hlen.
      change (baw_len (clear_head t)) with (baw_len t). lia.
    + lia.
    + change (pend_count u) with (pend_count (baw_skip (clear_head t))). lia.
    + exists t'. split; [done|]. unfold window_closed.
      change (baw_len u) with (baw_len (baw_skip (clear_head t))) in *.
      change (pend_count u) with (pend_count (baw_skip (clear_head t))) in *.
      change (seq_start u) with (seq_start (baw_skip (clear_head t))) in *.
      change (flag u) with (flag t .| TID_CLEANUP_INPROGRES) in *.
      change (baw_len (clear_head t)) with (baw_len t) in *.
      change (seq_start (clear_head t)) with (seq_start t) in *.
      rewrite Hlen, Hs in Hst'. split_and!; [done|done| |lia| |by apply Hq'..].
      * rewrite Hst'. unfold seq_add. mlia.
      * rewrite Hf', lor_idem_flag. by destruct (Z.eqb_spec (pend_count (baw_skip (clear_head t))) 0),
          (Z.eqb_spec (pend_count t) 0); try lia.
  - destruct (skip_fields _ Hwf He) as (Hs & _ & Hlen & _).
    pose proof (skip_count _ Hwf He Hp) as Hsc.
    destruct (IH (baw_skip t)) as (t' & Ht' & Hw & Hl0 & Hst' & Hin' & Hf' & Hq').
    + by apply skip_wf.
    + lia.
    + done.
    + change (incomp (baw_skip t)) with (incomp t). lia.
    + exists t'. split; [done|]. unfold window_closed. rewrite Hsc in *. rewrite Hlen, Hs in Hst'.
      split_and!; [done|done| |done|done|by apply Hq'..].
      rewrite Hst'. unfold seq_add. mlia.
Qed.

(** ** Properties *)

(** C26: adding a frame inside the window implements set insertion: the invariant is kept,
    exactly the frame's sequence number joins the set in flight, the window does not
    move, and it never grows past the negotiated block-ack size. *)
Theorem ath_tx_addto_baw_refines t bf_seqno :
  baw_wf t → is_seq (SEQNO_FROM_BF_SEQNO bf_seqno) →
  BAW_WITHIN (seq_start t) (baw_size t) (SEQNO_FROM_BF_SEQNO bf_seqno) = true →
  let t' := ath_tx_addto_baw false bf_seqno t in
  baw_wf t' ∧ seq_start t' = seq_start t ∧ baw_len t' <= baw_size t' ∧
  (∀ p, is_seq p → in_flight t' p = (p =? SEQNO_FROM_BF_SEQNO bf_seqno) || in_flight t p).
Proof.
  intros Hwf Hs Hin t'. pose proof (addto_wf t Hwf bf_seqno Hin) as Hwf'.
  split_and!; [done| |apply Hwf'|].
  - apply (addto_fields t Hwf bf_seqno Hin).
  - intros p Hp. by apply addto_in_flight.
Qed.

(** C25: completing a frame implements set removal: the loop terminates within its fuel,
    exactly the frame's sequence number leaves the set in flight, the invariant is kept,
    and the window moves forward to the oldest frame still in flight (or is empty), by no
    more than its length. *)
Theorem ath_tx_update_baw_refines t q :
  baw_wf t → is_seq q → (q - seq_start t) mod 4096 < 128 →
  ∃ t', ath_tx_update_baw q t = Some t' ∧ baw_wf t' ∧
    (∀ p, is_seq p → in_flight t' p = negb (p =? q) && in_flight t p) ∧
    (baw_len t' = 0 ∨ in_flight t' (seq_start t') = true) ∧
    (∃ k, 0 <= k <= baw_len t ∧ seq_start t' = seq_add (seq_start t) k ∧
          baw_len t' = baw_len t - k).
Proof.
  intros Hwf Hq Hi. destruct (update_baw_spec t Hwf q Hi) as (t' & Ht' & Hw & Hfl & Hh & Hk & _).
  exists t'. split_and!; try done. intros p Hp.
  rewrite Hfl by done. by apply complete_in_flight.
Qed.

(** C35: the loop of [ath_tgt_tx_cleanup] terminates within 128 turns, leaves the window
    empty and well formed just after the last number it covered, counts in [incomp]
    exactly the frames that were in flight, and marks the TID as being cleaned up
    precisely when there was one. *)
Theorem cleanup_window_counts t :
  baw_wf t → 0 <= incomp t → incomp t + pend_count t <= 127 →
  ∃ t', cleanup_window BAW_FUEL t = Some t' ∧ baw_wf t' ∧ baw_len t' = 0 ∧
    seq_start t' = seq_add (seq_start t) (baw_len t) ∧
    incomp t' = incomp t + pend_count t ∧
    flag t' = (if pend_count t =? 0 then flag t else flag t .| TID_CLEANUP_INPROGRES) ∧
    buf_q t' = buf_q t.
Proof.
  intros Hwf H1 H2. pose proof (baw_len_range t).
  destruct (cleanup_window_spec BAW_FUEL t Hwf) as (t' & Ht' & Hc); [unfold BAW_FUEL; lia|done..|].
  exists t'. split; [done|]. destruct Hc as (? & ? & ? & ? & ? & ? & _). by split_and!.
Qed.

Lemma foldl_clr_spec l bm j :
  length bm = 4%nat → ring_pos j → Forall ring_pos l →
  length (foldl TX_BUF_BITMAP_CLR bm l) = 4%nat ∧
  TX_BUF_BITMAP_IS_SET (foldl TX_BUF_BITMAP_CLR bm l) j =
    negb (bool_decide (j ∈ l)) && TX_BUF_BITMAP_IS_SET bm j.
Proof.
  revert bm. induction l as [|i l IH]; intros bm Hl Hj Hf; simpl.
  { done. }
  apply Forall_cons in Hf as [Hi Hf]. destruct (IH (TX_BUF_BITMAP_CLR bm i)) as [IH1 IH2];
    [by rewrite length_bitmap_clr|done..|]. split; [done|].
  rewrite IH2, bitmap_clr_spec by done.
  destruct (decide (i = j)) as [->|Hij].
  - rewrite (bool_decide_true (j ∈ j :: l)) by constructor.
    rewrite (bool_decide_true (j = j)) by done. simpl. by rewrite andb_false_r.
  - rewrite (bool_decide_false (i = j)) by done. simpl. f_equal. f_equal.
    apply bool_decide_ext. rewrite elem_of_cons. split; [by right|by intros [->|?]].
Qed.

(** A freshly initialised TID is well formed, with an empty window starting at
    sequence number 0, nothing queued, and no bit of the ring left over from before. *)
Theorem owl_tgt_tid_init_wf t :
  length (tx_buf_bitmap t) = 4%nat →
  let t' := owl_tgt_tid_init t in
  baw_wf t' ∧ baw_len t' = 0 ∧ buf_q t' = [] ∧ (∀ p, in_flight t' p = false) ∧
  (∀ i, pending t' i = false).
Proof.
  intros Hl t'.
  assert (Forall ring_pos (seqZ 0 ATH_TID_MAX_BUFS)) as Hr.
  { apply Forall_forall. intros i Hi%elem_of_seqZ. exact Hi. }
  assert (length (tx_buf_bitmap t') = 4%nat) as Hl'.
  { destruct (foldl_clr_spec (seqZ 0 ATH_TID_MAX_BUFS) (tx_buf_bitmap t) 0) as [H _];
      [exact Hl|split; reflexivity || discriminate|exact Hr|exact H]. }
  assert (∀ i, pending t' i = false) as Hp.
  { intros i. pose proof (ring_pos_mod (0 + i)) as Hi.
    destruct (foldl_clr_spec (seqZ 0 ATH_TID_MAX_BUFS) (tx_buf_bitmap t) ((0 + i) mod 128))
      as [_ H]; [exact Hl|exact Hi|exact Hr|].
    rewrite bool_decide_true in H by (apply elem_of_seqZ; exact Hi). exact H. }
  assert (baw_len t' = 0) as H0 by reflexivity.
  split; [|split_and!; [exact H0|reflexivity| |exact Hp]].
  - split; [exact Hl'| | | | |rewrite H0; vm_compute; discriminate|intros i _; apply Hp];
      vm_compute; split; congruence.
  - intros p. unfold in_flight. by rewrite Hp, andb_false_r.
Qed.

(** *** Instances *)

(** A window that starts at 4094, so that it wraps, with three frames in flight. *)
Definition tid_sample : ath_atx_tid :=
  mk_tid 0 4094 1 64 126 1 [0; 0; 0; 3221225472] [] false false 2 0 0
    <| tx_buf_bitmap ::= λ bm, TX_BUF_BITMAP_SET bm 0 |>.
Lemma tid_sample_wf : baw_wf tid_sample.
Proof.
  split; [reflexivity|vm_compute; split; congruence..|vm_compute; congruence|].
  intros i Hi. assert (∀ j, j ∈ seqZ 3 125 → pending tid_sample j = false) as H.
  { apply Forall_forall. apply (bool_decide_unpack _). by vm_compute. }
  apply H, elem_of_seqZ. change (baw_len tid_sample) with 3 in Hi. lia.
Qed.

Lemma ath_tx_addto_baw_refines_witness :
  in_flight (ath_tx_addto_baw false (2 .<< 4) tid_sample) 2 = true ∧
  in_flight (ath_tx_addto_baw false (2 .<< 4) tid_sample) 1 = false.
Proof.
  destruct (ath_tx_addto_baw_refines tid_sample (2 .<< 4)) as (_ & _ & _ & H);
    [apply tid_sample_wf|vm_compute; split; congruence|reflexivity|].
  split; rewrite H; [reflexivity|vm_compute; split; congruence|reflexivity|vm_compute; split; congruence].
Defined.

Lemma ath_tx_update_baw_refines_witness :
  ∃ t', ath_tx_update_baw 4094 tid_sample = Some t' ∧ in_flight t' 4095 = true ∧
        in_flight t' 4094 = false.
Proof.
  destruct (ath_tx_update_baw_refines tid_sample 4094) as (t' & Ht' & _ & H & _);
    [apply tid_sample_wf|vm_compute; split; congruence|reflexivity|].
  exists t'. split; [exact Ht'|].
  split; rewrite H; [reflexivity|vm_compute; split; congruence|reflexivity|vm_compute; split; congruence].
Defined.

Lemma cleanup_window_counts_witness :
  ∃ t', cleanup_window BAW_FUEL tid_sample = Some t' ∧ incomp t' = 3 ∧ seq_start t' = 1.
Proof.
  destruct (cleanup_window_counts tid_sample) as (t' & Ht' & _ & _ & Hs & Hi & _);
    [apply tid_sample_wf|vm_compute; congruence|vm_compute; congruence|].
  exists t'. split; [exact Ht'|]. split; [rewrite Hi; reflexivity|rewrite Hs; reflexivity].
Defined.

