(* ===== verification/HalConsts.v ===== *)
(** * Constants of the wireless core

    Register offsets and fields (ar5416reg.h), descriptor fields (ar5416desc.h), HAL
    flags (ah.h, ah_desc.h), as the sources define them for the AR7010 (Magpie/Merlin)
    build: MAGPIE_MERLIN defined, AR9100 and AR5416_INT_MITIGATION not. *)

From S2P Require Import Prelude.

(** ** Descriptor words (ar5416desc.h) *)
Definition AR_FrameLen : Z := 0x00000fff.
Definition AR_VirtMoreFrag : Z := 0x00001000.
Definition AR_XmitPower : Z := 0x003f0000.
Definition AR_XmitPower_S : Z := 16.
Definition AR_RTSEnable : Z := 0x00400000.
Definition AR_VEOL : Z := 0x00800000.
Definition AR_ClrDestMask : Z := 0x01000000.
Definition AR_TxIntrReq : Z := 0x20000000.
Definition AR_DestIdxValid : Z := 0x40000000.
Definition AR_CTSEnable : Z := 0x80000000.
Definition AR_BufLen : Z := 0x00000fff.
Definition AR_TxMore : Z := 0x00001000.
Definition AR_DestIdx : Z := 0x000fe000.
Definition AR_DestIdx_S : Z := 13.
Definition AR_FrameType : Z := 0x00f00000.
Definition AR_FrameType_S : Z := 20.
Definition AR_NoAck : Z := 0x01000000.
Definition AR_ExtOnly : Z := 0x08000000.
Definition AR_ExtAndCtl : Z := 0x10000000.
Definition AR_MoreAggr : Z := 0x20000000.
Definition AR_IsAggr : Z := 0x40000000.
Definition AR_BurstDur : Z := 0x00007fff.
Definition AR_BurstDur_S : Z := 0.
Definition AR_DurUpdateEn : Z := 0x00008000.
Definition AR_XmitDataTries0 : Z := 0x000f0000.
Definition AR_XmitDataTries0_S : Z := 16.
Definition AR_XmitDataTries1 : Z := 0x00f00000.
Definition AR_XmitDataTries1_S : Z := 20.
Definition AR_XmitDataTries2 : Z := 0x0f000000.
Definition AR_XmitDataTries2_S : Z := 24.
Definition AR_XmitDataTries3 : Z := 0xf0000000.
Definition AR_XmitDataTries3_S : Z := 28.
Definition AR_XmitRate0 : Z := 0x000000ff.
Definition AR_XmitRate0_S : Z := 0.
Definition AR_XmitRate1 : Z := 0x0000ff00.
Definition AR_XmitRate1_S : Z := 8.
Definition AR_XmitRate2 : Z := 0x00ff0000.
Definition AR_XmitRate2_S : Z := 16.
Definition AR_XmitRate3 : Z := 0xff000000.
Definition AR_XmitRate3_S : Z := 24.
Definition AR_PacketDur0 : Z := 0x00007fff.
Definition AR_PacketDur0_S : Z := 0.
Definition AR_RTSCTSQual0 : Z := 0x00008000.
Definition AR_PacketDur1 : Z := 0x7fff0000.
Definition AR_PacketDur1_S : Z := 16.
Definition AR_RTSCTSQual1 : Z := 0x80000000.
Definition AR_PacketDur2 : Z := 0x00007fff.
Definition AR_PacketDur2_S : Z := 0.
Definition AR_RTSCTSQual2 : Z := 0x00008000.
Definition AR_PacketDur3 : Z := 0x7fff0000.
Definition AR_PacketDur3_S : Z := 16.
Definition AR_RTSCTSQual3 : Z := 0x80000000.
Definition AR_AggrLen : Z := 0x0000ffff.
Definition AR_AggrLen_S : Z := 0.
Definition AR_PadDelim : Z := 0x03fc0000.
Definition AR_PadDelim_S : Z := 18.
Definition AR_EncrType : Z := 0x1c000000.
Definition AR_EncrType_S : Z := 26.
Definition AR_2040_0 : Z := 0x00000001.
Definition AR_GI0 : Z := 0x00000002.
Definition AR_ChainSel0 : Z := 0x0000001c.
Definition AR_ChainSel0_S : Z := 2.
Definition AR_2040_1 : Z := 0x00000020.
Definition AR_GI1 : Z := 0x00000040.
Definition AR_ChainSel1 : Z := 0x00000380.
Definition AR_ChainSel1_S : Z := 7.
Definition AR_2040_2 : Z := 0x00000400.
Definition AR_GI2 : Z := 0x00000800.
Definition AR_ChainSel2 : Z := 0x00007000.
Definition AR_ChainSel2_S : Z := 12.
Definition AR_2040_3 : Z := 0x00008000.
Definition AR_GI3 : Z := 0x00010000.
Definition AR_ChainSel3 : Z := 0x000e0000.
Definition AR_ChainSel3_S : Z := 17.
Definition AR_RTSCTSRate : Z := 0x0ff00000.
Definition AR_RTSCTSRate_S : Z := 20.
Definition AR_STBC0 : Z := 0x10000000.
Definition AR_STBC1 : Z := 0x20000000.
Definition AR_STBC2 : Z := 0x40000000.
Definition AR_STBC3 : Z := 0x80000000.
Definition AR_TxRSSIAnt00 : Z := 0x000000ff.
Definition AR_TxRSSIAnt00_S : Z := 0.
Definition AR_TxRSSIAnt01 : Z := 0x0000ff00.
Definition AR_TxRSSIAnt01_S : Z := 8.
Definition AR_TxRSSIAnt02 : Z := 0x00ff0000.
Definition AR_TxRSSIAnt02_S : Z := 16.
Definition AR_TxBaStatus : Z := 0x40000000.
Definition AR_ExcessiveRetries : Z := 0x00000002.
Definition AR_FIFOUnderrun : Z := 0x00000004.
Definition AR_Filtered : Z := 0x00000008.
Definition AR_RTSFailCnt : Z := 0x000000f0.
Definition AR_RTSFailCnt_S : Z := 4.
Definition AR_DataFailCnt : Z := 0x00000f00.
Definition AR_DataFailCnt_S : Z := 8.
Definition AR_VirtRetryCnt : Z := 0x0000f000.
Definition AR_VirtRetryCnt_S : Z := 12.
Definition AR_TxDelimUnderrun : Z := 0x00010000.
Definition AR_TxDataUnderrun : Z := 0x00020000.
Definition AR_DescCfgErr : Z := 0x00040000.
Definition AR_TxTimerExpired : Z := 0x00080000.
Definition AR_TxRSSIAnt10 : Z := 0x000000ff.
Definition AR_TxRSSIAnt10_S : Z := 0.
Definition AR_TxRSSIAnt11 : Z := 0x0000ff00.
Definition AR_TxRSSIAnt11_S : Z := 8.
Definition AR_TxRSSIAnt12 : Z := 0x00ff0000.
Definition AR_TxRSSIAnt12_S : Z := 16.
Definition AR_TxRSSICombined : Z := 0xff000000.
Definition AR_TxRSSICombined_S : Z := 24.
Definition AR_TxDone : Z := 0x00000001.
Definition AR_SeqNum : Z := 0x00001ffe.
Definition AR_SeqNum_S : Z := 1.
Definition AR_TxOpExceeded : Z := 0x00020000.
Definition AR_FinalTxIdx : Z := 0x00600000.
Definition AR_FinalTxIdx_S : Z := 21.
Definition AR_RxIntrReq : Z := 0x00002000.
Definition AR_RxRSSIAnt00 : Z := 0x000000ff.
Definition AR_RxRSSIAnt00_S : Z := 0.
Definition AR_RxRSSIAnt01 : Z := 0x0000ff00.
Definition AR_RxRSSIAnt01_S : Z := 8.
Definition AR_RxRSSIAnt02 : Z := 0x00ff0000.
Definition AR_RxRSSIAnt02_S : Z := 16.
Definition AR_RxRate : Z := 0xff000000.
Definition AR_RxRate_S : Z := 24.
Definition AR_DataLen : Z := 0x00000fff.
Definition AR_RxMore : Z := 0x00001000.
Definition AR_GI : Z := 0x00000001.
Definition AR_2040 : Z := 0x00000002.
Definition AR_RxRSSIAnt10 : Z := 0x000000ff.
Definition AR_RxRSSIAnt10_S : Z := 0.
Definition AR_RxRSSIAnt11 : Z := 0x0000ff00.
Definition AR_RxRSSIAnt11_S : Z := 8.
Definition AR_RxRSSIAnt12 : Z := 0x00ff0000.
Definition AR_RxRSSIAnt12_S : Z := 16.
Definition AR_RxRSSICombined : Z := 0xff000000.
Definition AR_RxRSSICombined_S : Z := 24.
Definition AR_RxDone : Z := 0x00000001.
Definition AR_RxFrameOK : Z := 0x00000002.
Definition AR_CRCErr : Z := 0x00000004.
Definition AR_DecryptCRCErr : Z := 0x00000008.
Definition AR_PHYErr : Z := 0x00000010.
Definition AR_MichaelErr : Z := 0x00000020.
Definition AR_PreDelimCRCErr : Z := 0x00000040.
Definition AR_RxKeyIdxValid : Z := 0x00000100.
Definition AR_KeyIdx : Z := 0x0000fe00.
Definition AR_KeyIdx_S : Z := 9.
Definition AR_PHYErrCode : Z := 0x0000ff00.
Definition AR_PHYErrCode_S : Z := 8.
Definition AR_RxMoreAggr : Z := 0x00010000.
Definition AR_RxAggr : Z := 0x00020000.
Definition AR_PostDelimCRCErr : Z := 0x00040000.
Definition AR_DecryptBusyErr : Z := 0x40000000.

(** ** Registers (ar5416reg.h) *)
Definition AR_CR : Z := 0x0008.
Definition AR_CR_RXE : Z := 0x00000004.
Definition AR_CR_RXD : Z := 0x00000020.
Definition AR_RXDP : Z := 0x000c.
Definition AR_IER : Z := 0x0024.
Definition AR_IER_ENABLE : Z := 0x00000001.
Definition AR_IER_DISABLE : Z := 0x00000000.
Definition AR_TXCFG : Z := 0x0030.
Definition AR_FTRIG : Z := 0x000003f0.
Definition AR_FTRIG_S : Z := 4.
Definition AR_RXCFG : Z := 0x0034.
Definition AR_RXCFG_ZLFDMA : Z := 0x00000010.
Definition AR_IMR : Z := 0x00a0.
Definition AR_IMR_TXOK : Z := 0x00000040.
Definition AR_IMR_TXDESC : Z := 0x00000080.
Definition AR_IMR_TXERR : Z := 0x00000100.
Definition AR_IMR_TXEOL : Z := 0x00000400.
Definition AR_IMR_RXOK : Z := 0x00000001.
Definition AR_IMR_RXDESC : Z := 0x00000002.
Definition AR_IMR_RXERR : Z := 0x00000004.
Definition AR_IMR_BCNMISC : Z := 0x00800000.
Definition AR_ISR_RAC : Z := 0x00c0.
Definition AR_ISR_S0_S : Z := 0x00c4.
Definition AR_ISR_S1_S : Z := 0x00c8.
Definition AR_ISR_S2_S : Z := 0x00cc.
Definition AR_ISR_S2_GTT : Z := 0x00800000.
Definition AR_ISR_S2_CST : Z := 0x00400000.
Definition AR_ISR_RXOK : Z := 0x00000001.
Definition AR_ISR_RXERR : Z := 0x00000004.
Definition AR_ISR_TXOK : Z := 0x00000040.
Definition AR_ISR_TXDESC : Z := 0x00000080.
Definition AR_ISR_TXERR : Z := 0x00000100.
Definition AR_ISR_TXEOL : Z := 0x00000400.
Definition AR_ISR_BCNMISC : Z := 0x00800000.
Definition AR_ISR_S0_QCU_TXOK : Z := 0x000003ff.
Definition AR_ISR_S0_QCU_TXOK_S : Z := 0.
Definition AR_ISR_S0_QCU_TXDESC : Z := 0x03ff0000.
Definition AR_ISR_S0_QCU_TXDESC_S : Z := 16.
Definition AR_ISR_S1_QCU_TXERR : Z := 0x000003ff.
Definition AR_ISR_S1_QCU_TXERR_S : Z := 0.
Definition AR_ISR_S1_QCU_TXEOL : Z := 0x03ff0000.
Definition AR_ISR_S1_QCU_TXEOL_S : Z := 16.
Definition AR_Q0_TXDP : Z := 0x0800.
Definition AR_Q_TXE : Z := 0x0840.
Definition AR_Q_TXD : Z := 0x0880.
Definition AR_Q_TXD_M : Z := 0x000003ff.
Definition AR_Q0_STS : Z := 0x0a00.
Definition AR_Q_STS_PEND_FR_CNT : Z := 0x00000003.
Definition AR_NUM_QCU : Z := 10.
Definition AR_PCU_MISC : Z := 0x8120.
Definition AR_PCU_FORCE_QUIET_COLL : Z := 0x00040000.
Definition AR_PCU_CLEAR_VMF : Z := 0x01000000.
Definition AR_DIAG_SW : Z := 0x8048.
Definition AR_DIAG_RX_DIS : Z := 0x00000020.
Definition AR_DIAG_FORCE_CH_IDLE_HIGH : Z := 0x00400000.
Definition AR_D_GBL_IFS_MISC : Z := 0x10f0.
Definition AR_D_GBL_IFS_MISC_IGNORE_BACKOFF : Z := 0x10000000.
Definition AR_RX_FILTER : Z := 0x803c.
Definition AR_RX_COMPR_BAR : Z := 0x00000400.
Definition AR_PHY_ERR : Z := 0x810c.
Definition AR_PHY_ERR_RADAR : Z := 0x00000020.
Definition AR_PHY_ERR_OFDM_TIMING : Z := 0x00020000.
Definition AR_PHY_ERR_CCK_TIMING : Z := 0x02000000.
Definition AR_TSF_L32 : Z := 0x804c.
Definition AR_TSF_U32 : Z := 0x8050.
Definition AR_INTR_ASYNC_CAUSE : Z := 0x4038.
Definition AR_INTR_MAC_IRQ : Z := 0x00000002.
Definition AR_INTR_ASYNC_ENABLE : Z := 0x403c.
Definition AR_INTR_ASYNC_MASK : Z := 0x4030.
Definition AR_INTR_SYNC_CAUSE : Z := 0x4028.
Definition AR_INTR_SYNC_CAUSE_CLR : Z := 0x4028.
Definition AR_INTR_SYNC_ENABLE : Z := 0x402c.
Definition AR_INTR_SYNC_ALL : Z := 0x0003ffff.
Definition AR_INTR_SYNC_HOST1_FATAL : Z := 0x00000020.
Definition AR_INTR_SYNC_HOST1_PERR : Z := 0x00000040.
Definition AR_RTC_STATUS : Z := 0x7044.
Definition AR_RTC_STATUS_M : Z := 0x0000000f.
Definition AR_RTC_STATUS_ON : Z := 0x00000002.

(** ** HAL flags (ah.h, ah_desc.h) *)
Definition HAL_INT_RX : Z := 0x00000001.
Definition HAL_INT_RXDESC : Z := 0x00000002.
Definition HAL_INT_RXNOFRM : Z := 0x00000008.
Definition HAL_INT_RXEOL : Z := 0x00000010.
Definition HAL_INT_RXORN : Z := 0x00000020.
Definition HAL_INT_TX : Z := 0x00000040.
Definition HAL_INT_TXDESC : Z := 0x00000080.
Definition HAL_INT_TXURN : Z := 0x00000800.
Definition HAL_INT_MIB : Z := 0x00001000.
Definition HAL_INT_RXPHY : Z := 0x00004000.
Definition HAL_INT_RXKCM : Z := 0x00008000.
Definition HAL_INT_SWBA : Z := 0x00010000.
Definition HAL_INT_BMISS : Z := 0x00040000.
Definition HAL_INT_GPIO : Z := 0x01000000.
Definition HAL_INT_CST : Z := 0x02000000.
Definition HAL_INT_GTT : Z := 0x20000000.
Definition HAL_INT_GLOBAL : Z := 0x80000000.
Definition HAL_RX_FILTER_PHYERR : Z := 0x00000100.
Definition HAL_RX_FILTER_PHYRADAR : Z := 0x00002000.
Definition HAL_RATESERIES_RTS_CTS : Z := 0x0001.
Definition HAL_RATESERIES_2040 : Z := 0x0002.
Definition HAL_RATESERIES_HALFGI : Z := 0x0004.
Definition HAL_RATESERIES_STBC : Z := 0x0008.
Definition HAL_TXSTAT_ALTRATE : Z := 0x80.
Definition HAL_TXERR_XRETRY : Z := 0x01.
Definition HAL_TXERR_FILT : Z := 0x02.
Definition HAL_TXERR_FIFO : Z := 0x04.
Definition HAL_TXERR_XTXOP : Z := 0x08.
Definition HAL_TXERR_TIMER_EXPIRED : Z := 0x10.
Definition HAL_TX_BA : Z := 0x01.
Definition HAL_TX_DESC_CFG_ERR : Z := 0x04.
Definition HAL_TX_DATA_UNDERRUN : Z := 0x08.
Definition HAL_TX_DELIM_UNDERRUN : Z := 0x10.
Definition HAL_TX_SW_FILTERED : Z := 0x80.
Definition HAL_RXERR_CRC : Z := 0x01.
Definition HAL_RXERR_PHY : Z := 0x02.
Definition HAL_RXERR_DECRYPT : Z := 0x08.
Definition HAL_RXERR_MIC : Z := 0x10.
Definition HAL_RX_GI : Z := 0x04.
Definition HAL_RX_2040 : Z := 0x08.
Definition HAL_RX_DELIM_CRC_PRE : Z := 0x10.
Definition HAL_RX_DELIM_CRC_POST : Z := 0x20.
Definition HAL_RX_DECRYPT_BUSY : Z := 0x40.
Definition HAL_TXDESC_CLRDMASK : Z := 0x0001.
Definition HAL_TXDESC_NOACK : Z := 0x0002.
Definition HAL_TXDESC_RTSENA : Z := 0x0004.
Definition HAL_TXDESC_CTSENA : Z := 0x0008.
Definition HAL_TXDESC_INTREQ : Z := 0x0010.
Definition HAL_TXDESC_VEOL : Z := 0x0020.
Definition HAL_TXDESC_EXT_ONLY : Z := 0x0040.
Definition HAL_TXDESC_EXT_AND_CTL : Z := 0x0080.
Definition HAL_TXDESC_VMF : Z := 0x0100.
Definition HAL_RXDESC_INTREQ : Z := 0x0020.
Definition HAL_INT_COMMON : Z :=
  HAL_INT_RXNOFRM .| HAL_INT_RXDESC .| HAL_INT_RXEOL .| HAL_INT_RXORN .| HAL_INT_TXURN
  .| HAL_INT_TXDESC .| HAL_INT_MIB .| HAL_INT_RXPHY .| HAL_INT_RXKCM .| HAL_INT_SWBA
  .| HAL_INT_BMISS .| HAL_INT_GPIO.
Definition HAL_RXKEYIX_INVALID : Z := 255.
Definition HAL_TXKEYIX_INVALID : Z := 255.
Definition AR_INTR_SPURIOUS : Z := 0xffffffff.
Definition AR5416_LEGACY_CHAINMASK : Z := 1.
Definition MIN_TX_FIFO_THRESHOLD : Z := 1.
Definition MAX_TX_FIFO_THRESHOLD : Z := 4096 `div` 64 - 1.
Definition AR5416_ABORT_LOOPS : nat := 1000.
Definition ATH9K_HTC_MAX_TSF_READ : nat := 3.
Definition AR_QTXDP (i : Z) : Z := AR_Q0_TXDP + u32 (i .<< 2).
Definition AR_QSTS (i : Z) : Z := AR_Q0_STS + u32 (i .<< 2).
