(* ===== verification/Hal.v ===== *)
(** * Hardware layer (target_firmware/wlan/ar5416_hw.c and ah.c)

    Descriptors are records of their 32-bit words; the descriptor routines are pure
    functions on them. Routines that touch the chip run over a register interface,
    [Mmio]: hardware is not part of the repository, so reads and writes are parameters
    (a read may change the hardware state: the chip runs on its own). *)

From S2P Require Import Prelude.
From S2P Require Export HalConsts.

(** ** Status codes and rate tables (ah.h) *)
Inductive HAL_STATUS := HAL_OK | HAL_EINPROGRESS | HAL_EINVAL | HAL_ENOTSUPP.
#[export] Instance HAL_STATUS_eq_dec : EqDecision HAL_STATUS.
Proof. solve_decision. Defined.
(** The enumerators' values, for the places that use a status as a condition. *)
Definition HAL_STATUS_val (s : HAL_STATUS) : Z :=
  match s with HAL_OK => 0 | HAL_EINPROGRESS => 15 | HAL_EINVAL => 12 | HAL_ENOTSUPP => 13 end.

Inductive HAL_CAPABILITY_TYPE :=
  HAL_CAP_VEOL | HAL_CAP_BSSIDMASK | HAL_CAP_TSF_ADJUST | HAL_CAP_HT | HAL_CAP_RTS_AGGR_LIMIT.

Inductive phy_type := IEEE80211_T_CCK | IEEE80211_T_FH | IEEE80211_T_OFDM
                    | IEEE80211_T_TURBO | IEEE80211_T_HT.
#[export] Instance phy_type_eq_dec : EqDecision phy_type.
Proof. solve_decision. Defined.

(** One entry of [HAL_RATE_TABLE.info]; the fields the modelled code reads. *)
Record rate_info := mk_rate_info {
  ri_phy : phy_type; ri_rateKbps : Z; ri_rateCode : Z; ri_shortPreamble : Z;
  ri_controlRate : Z; ri_lpAckDuration : Z; ri_spAckDuration : Z;
}.
Definition HAL_RATE_TABLE := list rate_info.

Record HAL_CAPABILITIES := mk_caps { halBssIdMaskSupport : bool; halVEOLSupport : bool }.

(** [ath_hal_getcapability] (ah.c) *)
Definition ath_hal_getcapability (pCap : HAL_CAPABILITIES) (type : HAL_CAPABILITY_TYPE)
    : HAL_STATUS :=
  match type with
  | HAL_CAP_TSF_ADJUST => HAL_ENOTSUPP
  | HAL_CAP_BSSIDMASK => if halBssIdMaskSupport pCap then HAL_OK else HAL_ENOTSUPP
  | HAL_CAP_VEOL => if halVEOLSupport pCap then HAL_OK else HAL_ENOTSUPP
  | _ => HAL_EINVAL
  end.

(** [asf_howmany(x, y)] on 32-bit unsigned operands; [y = 0] traps. *)
Definition asf_howmany (x y : Z) : Z := u32 (x + (y - 1)) `div` y.

(** [ath_hal_computetxtime] (ah.c): [None] is the integer division by zero that the
    OFDM branch performs on a rate below 250 kb/s. *)
Definition ath_hal_computetxtime (pCap : HAL_CAPABILITIES) (ri : rate_info)
    (frameLen : Z) (shortPreamble : bool) : option Z :=
  let kbps := ri_rateKbps ri in
  if kbps =? 0 then Some 0 else
  match ri_phy ri with
  | IEEE80211_T_CCK =>
      let phyTime := 144 + 48 in
      let phyTime := if shortPreamble && truthy (ri_shortPreamble ri)
                     then phyTime .>> 1 else phyTime in
      let numBits := u32 (frameLen .<< 3) in
      let txTime := u32 (phyTime + u32 (numBits * 1000) `div` kbps) in
      let txTime := if decide (ath_hal_getcapability pCap HAL_CAP_HT = HAL_OK)
                    then txTime else u32 (txTime + 10) in
      Some (u16 txTime)
  | IEEE80211_T_OFDM =>
      let bitsPerSymbol := u32 (kbps * 4) `div` 1000 in
      if bitsPerSymbol =? 0 then None else
      let numBits := u32 (22 + u32 (frameLen .<< 3)) in
      let numSymbols := asf_howmany numBits bitsPerSymbol in
      let txTime := u32 (20 + numSymbols * 4) in
      let txTime := if decide (ath_hal_getcapability pCap HAL_CAP_HT = HAL_OK)
                    then txTime else u32 (txTime + 16) in
      Some (u16 txTime)
  | _ => Some 0
  end.

(** ** Transmit descriptors (ah_desc.h, ar5416desc.h) *)
Record ath_tx_status := mk_tx_status {
  ts_tstamp : Z; ts_seqnum : Z; ts_status : Z; ts_flags : Z; ts_rate : Z;
  ts_rssi_combined : Z; ts_rssi_ctl0 : Z; ts_rssi_ctl1 : Z; ts_rssi_ctl2 : Z;
  ts_rssi_ext0 : Z; ts_rssi_ext1 : Z; ts_rssi_ext2 : Z;
  ts_shortretry : Z; ts_longretry : Z; ts_virtcol : Z; ts_antenna : Z;
  ba_low : Z; ba_high : Z; evm0 : Z; evm1 : Z; evm2 : Z;
}.
#[export] Instance eta_tx_status : EtaExp ath_tx_status := λ t,
  mk_tx_status (ts_tstamp t) (ts_seqnum t) (ts_status t) (ts_flags t) (ts_rate t)
    (ts_rssi_combined t) (ts_rssi_ctl0 t) (ts_rssi_ctl1 t) (ts_rssi_ctl2 t)
    (ts_rssi_ext0 t) (ts_rssi_ext1 t) (ts_rssi_ext2 t)
    (ts_shortretry t) (ts_longretry t) (ts_virtcol t) (ts_antenna t)
    (ba_low t) (ba_high t) (evm0 t) (evm1 t) (evm2 t).

(** [struct ath_tx_desc] seen through [struct ar5416_desc_20]. [ds_link] holds the
    address of the next descriptor, 0 at the end of the list. *)
Record ath_tx_desc := mk_tx_desc {
  ds_link : Z; ds_data : Z; ds_ctl0 : Z; ds_ctl1 : Z; ds_ctl2 : Z; ds_ctl3 : Z;
  ds_ctl4 : Z; ds_ctl5 : Z; ds_ctl6 : Z; ds_ctl7 : Z;
  ds_txstatus0 : Z; ds_txstatus1 : Z; ds_txstatus2 : Z; ds_txstatus3 : Z;
  ds_txstatus4 : Z; ds_txstatus5 : Z; ds_txstatus6 : Z; ds_txstatus7 : Z;
  ds_txstatus8 : Z; ds_txstatus9 : Z;
  ds_txstat : ath_tx_status;
}.
#[export] Instance eta_tx_desc : EtaExp ath_tx_desc := λ d,
  mk_tx_desc (ds_link d) (ds_data d) (ds_ctl0 d) (ds_ctl1 d) (ds_ctl2 d) (ds_ctl3 d)
    (ds_ctl4 d) (ds_ctl5 d) (ds_ctl6 d) (ds_ctl7 d)
    (ds_txstatus0 d) (ds_txstatus1 d) (ds_txstatus2 d) (ds_txstatus3 d)
    (ds_txstatus4 d) (ds_txstatus5 d) (ds_txstatus6 d) (ds_txstatus7 d)
    (ds_txstatus8 d) (ds_txstatus9 d) (ds_txstat d).

(** [HAL_11N_RATE_SERIES] *)
Record rate_series := mk_rate_series {
  Tries : Z; Rate : Z; PktDuration : Z; ChSel : Z; RateFlags : Z;
}.
#[export] Instance eta_rate_series : EtaExp rate_series := λ r,
  mk_rate_series (Tries r) (Rate r) (PktDuration r) (ChSel r) (RateFlags r).

(** [isValidTxRate(_r)]: a bit per legacy rate code. *)
Definition VALID_TX_RATES : Z :=
  foldr Z.lor 0 (map (Z.shiftl 1)
    [0x0b; 0x0f; 0x0a; 0x0e; 0x09; 0x0d; 0x08; 0x0c; 0x1b; 0x1a; 0x1e; 0x19; 0x1d; 0x18; 0x1c]).
Definition isValidTxRate (r : Z) : bool := tst (u32 (1 .<< r)) VALID_TX_RATES.

Definition ar5416SetupTxDesc_20 (ds : ath_tx_desc) (pktLen hdrLen type txPower txRate0
    txTries0 keyIx flags rtsctsRate rtsctsDuration : Z) : ath_tx_desc * bool :=
  let RTSCTS := HAL_TXDESC_RTSENA .| HAL_TXDESC_CTSENA in
  let ads := ds <| ds_txstatus9 ::= λ w, w .&~ AR_TxDone |> in
  let txPower := if 63 <? txPower then 63 else txPower in
  let ads := ads <| ds_ctl0 :=
    (pktLen .& AR_FrameLen)
    .| u32 (txPower .<< AR_XmitPower_S)
    .| ifbit (tst flags HAL_TXDESC_VEOL) AR_VEOL
    .| ifbit (tst flags HAL_TXDESC_CLRDMASK) AR_ClrDestMask
    .| ifbit (tst flags HAL_TXDESC_INTREQ) AR_TxIntrReq |> in
  let ads := ads <| ds_ctl1 :=
    u32 (type .<< AR_FrameType_S) .| ifbit (tst flags HAL_TXDESC_NOACK) AR_NoAck |> in
  let ads := ads <| ds_ctl2 := SM txTries0 AR_XmitDataTries0 AR_XmitDataTries0_S |> in
  let ads := ads <| ds_ctl3 := u32 (txRate0 .<< AR_XmitRate0_S) |> in
  let ads := ads <| ds_ctl7 :=
    SM AR5416_LEGACY_CHAINMASK AR_ChainSel0 AR_ChainSel0_S
    .| SM AR5416_LEGACY_CHAINMASK AR_ChainSel1 AR_ChainSel1_S
    .| SM AR5416_LEGACY_CHAINMASK AR_ChainSel2 AR_ChainSel2_S
    .| SM AR5416_LEGACY_CHAINMASK AR_ChainSel3 AR_ChainSel3_S |> in
  let ads := if keyIx =? HAL_TXKEYIX_INVALID then ads else
    ads <| ds_ctl1 ::= λ w, w .| SM keyIx AR_DestIdx AR_DestIdx_S |>
        <| ds_ctl0 ::= λ w, w .| AR_DestIdxValid |> in
  if tst flags RTSCTS then
    if negb (isValidTxRate rtsctsRate) then (ads, false) else
    (ads <| ds_ctl0 ::= λ w, w .| (ifbit (tst flags HAL_TXDESC_CTSENA) AR_CTSEnable
                                   .| ifbit (tst flags HAL_TXDESC_RTSENA) AR_RTSEnable) |>
         <| ds_ctl2 ::= λ w, w .| SM rtsctsDuration AR_BurstDur AR_BurstDur_S |>
         <| ds_ctl3 ::= λ w, w .| u32 (rtsctsRate .<< AR_RTSCTSRate_S) |>, true)
  else (ads, true).

Definition ar5416FillTxDesc_20 (ds : ath_tx_desc) (segLen : Z) (firstSeg lastSeg : bool)
    (ds0 : ath_tx_desc) : ath_tx_desc :=
  let ads :=
    if firstSeg then
      ds <| ds_ctl1 ::= λ w, w .| (segLen .| (if lastSeg then 0 else AR_TxMore)) |>
    else if lastSeg then
      ds <| ds_ctl0 := 0 |> <| ds_ctl1 := segLen |>
         <| ds_ctl2 := ds_ctl2 ds0 |> <| ds_ctl3 := ds_ctl3 ds0 |>
    else
      ds <| ds_ctl0 := 0 |> <| ds_ctl1 := segLen .| AR_TxMore |>
         <| ds_ctl2 := 0 |> <| ds_ctl3 := 0 |> in
  ads <| ds_txstatus1 := 0 |> <| ds_txstatus0 := 0 |>.

Definition ar5416FillKeyTxDesc_20 (ds : ath_tx_desc) (keyType : Z) : ath_tx_desc :=
  ds <| ds_ctl6 := SM keyType AR_EncrType AR_EncrType_S |>.

Definition ar5416Set11nTxDesc_20 (ds : ath_tx_desc) (pktLen type txPower keyIx keyType
    flags : Z) : ath_tx_desc :=
  let txPower := if 63 <? txPower then 63 else txPower in
  let haskey := negb (keyIx =? HAL_TXKEYIX_INVALID) in
  ds <| ds_ctl0 :=
       (pktLen .& AR_FrameLen)
       .| ifbit (tst flags HAL_TXDESC_VMF) AR_VirtMoreFrag
       .| SM txPower AR_XmitPower AR_XmitPower_S
       .| ifbit (tst flags HAL_TXDESC_RTSENA) AR_RTSEnable
       .| ifbit (tst flags HAL_TXDESC_VEOL) AR_VEOL
       .| ifbit (tst flags HAL_TXDESC_CLRDMASK) AR_ClrDestMask
       .| ifbit (tst flags HAL_TXDESC_INTREQ) AR_TxIntrReq
       .| ifbit haskey AR_DestIdxValid
       .| ifbit (tst flags HAL_TXDESC_CTSENA) AR_CTSEnable |>
     <| ds_ctl1 :=
       ifbit haskey (SM keyIx AR_DestIdx AR_DestIdx_S)
       .| SM type AR_FrameType AR_FrameType_S
       .| ifbit (tst flags HAL_TXDESC_NOACK) AR_NoAck
       .| ifbit (tst flags HAL_TXDESC_EXT_ONLY) AR_ExtOnly
       .| ifbit (tst flags HAL_TXDESC_EXT_AND_CTL) AR_ExtAndCtl |>
     <| ds_ctl6 := SM keyType AR_EncrType AR_EncrType_S |>.

(** The [set11n...] macros of ar5416desc.h, with the fields of series [_index] passed. *)
Definition set11nTries (s : rate_series) (f sh : Z) : Z := SM (Tries s) f sh.
Definition set11nRate (s : rate_series) (f sh : Z) : Z := SM (Rate s) f sh.
Definition set11nPktDurRTSCTS (s : rate_series) (f sh qual : Z) : Z :=
  SM (PktDuration s) f sh .| ifbit (tst (RateFlags s) HAL_RATESERIES_RTS_CTS) qual.
Definition set11nRateFlags (s : rate_series) (b2040 gi stbc ch ch_s : Z) : Z :=
  ifbit (tst (RateFlags s) HAL_RATESERIES_2040) b2040
  .| ifbit (tst (RateFlags s) HAL_RATESERIES_HALFGI) gi
  .| ifbit (tst (RateFlags s) HAL_RATESERIES_STBC) stbc
  .| SM (ChSel s) ch ch_s.

Definition ar5416Set11nRateScenario_20 (ds : ath_tx_desc) (durUpdateEn : bool)
    (rtsctsRate : Z) (s0 s1 s2 s3 : rate_series) (flags : Z) : ath_tx_desc :=
  let ctl0 := ds_ctl0 ds in
  let ctl0 :=
    if tst flags (HAL_TXDESC_RTSENA .| HAL_TXDESC_CTSENA) then
      if tst flags HAL_TXDESC_RTSENA then (ctl0 .&~ AR_CTSEnable) .| AR_RTSEnable
      else (ctl0 .&~ AR_RTSEnable) .| AR_CTSEnable
    else ctl0 .&~ (AR_RTSEnable .| AR_CTSEnable) in
  ds <| ds_ctl0 := ctl0 |>
     <| ds_ctl2 := set11nTries s0 AR_XmitDataTries0 AR_XmitDataTries0_S
                   .| set11nTries s1 AR_XmitDataTries1 AR_XmitDataTries1_S
                   .| set11nTries s2 AR_XmitDataTries2 AR_XmitDataTries2_S
                   .| set11nTries s3 AR_XmitDataTries3 AR_XmitDataTries3_S
                   .| ifbit durUpdateEn AR_DurUpdateEn |>
     <| ds_ctl3 := set11nRate s0 AR_XmitRate0 AR_XmitRate0_S
                   .| set11nRate s1 AR_XmitRate1 AR_XmitRate1_S
                   .| set11nRate s2 AR_XmitRate2 AR_XmitRate2_S
                   .| set11nRate s3 AR_XmitRate3 AR_XmitRate3_S |>
     <| ds_ctl4 := set11nPktDurRTSCTS s0 AR_PacketDur0 AR_PacketDur0_S AR_RTSCTSQual0
                   .| set11nPktDurRTSCTS s1 AR_PacketDur1 AR_PacketDur1_S AR_RTSCTSQual1 |>
     <| ds_ctl5 := set11nPktDurRTSCTS s2 AR_PacketDur2 AR_PacketDur2_S AR_RTSCTSQual2
                   .| set11nPktDurRTSCTS s3 AR_PacketDur3 AR_PacketDur3_S AR_RTSCTSQual3 |>
     <| ds_ctl7 := set11nRateFlags s0 AR_2040_0 AR_GI0 AR_STBC0 AR_ChainSel0 AR_ChainSel0_S
                   .| set11nRateFlags s1 AR_2040_1 AR_GI1 AR_STBC1 AR_ChainSel1 AR_ChainSel1_S
                   .| set11nRateFlags s2 AR_2040_2 AR_GI2 AR_STBC2 AR_ChainSel2 AR_ChainSel2_S
                   .| set11nRateFlags s3 AR_2040_3 AR_GI3 AR_STBC3 AR_ChainSel3 AR_ChainSel3_S
                   .| SM rtsctsRate AR_RTSCTSRate AR_RTSCTSRate_S |>.

Definition ar5416Set11nAggrFirst_20 (ds : ath_tx_desc) (aggrLen numDelims : Z) : ath_tx_desc :=
  ds <| ds_ctl1 ::= λ w, w .| (AR_IsAggr .| AR_MoreAggr) |>
     <| ds_ctl6 ::= λ w, w .&~ (AR_AggrLen .| AR_PadDelim) |>
     <| ds_ctl6 ::= λ w, w .| (SM aggrLen AR_AggrLen AR_AggrLen_S
                               .| SM numDelims AR_PadDelim AR_PadDelim_S) |>.

Definition ar5416Set11nAggrMiddle_20 (ds : ath_tx_desc) (numDelims : Z) : ath_tx_desc :=
  ds <| ds_ctl1 ::= λ w, w .| (AR_IsAggr .| AR_MoreAggr) |>
     <| ds_ctl6 ::= λ w, (w .&~ AR_PadDelim) .| SM numDelims AR_PadDelim AR_PadDelim_S |>.

Definition ar5416Set11nAggrLast_20 (ds : ath_tx_desc) : ath_tx_desc :=
  ds <| ds_ctl1 ::= λ w, w .| AR_IsAggr |>
     <| ds_ctl1 ::= λ w, w .&~ AR_MoreAggr |>
     <| ds_ctl6 ::= λ w, w .&~ AR_PadDelim |>.

Definition ar5416Clr11nAggr_20 (ds : ath_tx_desc) : ath_tx_desc :=
  ds <| ds_ctl1 ::= λ w, w .&~ (AR_IsAggr .| AR_MoreAggr) |>.

Definition ar5416Set11nBurstDuration_20 (ds : ath_tx_desc) (burstDuration : Z) : ath_tx_desc :=
  ds <| ds_ctl2 ::= λ w, w .&~ AR_BurstDur |>
     <| ds_ctl2 ::= λ w, w .| SM burstDuration AR_BurstDur AR_BurstDur_S |>.

Definition ar5416Set11nVirtualMoreFrag_20 (ds : ath_tx_desc) (vmf : bool) : ath_tx_desc :=
  if vmf then ds <| ds_ctl0 ::= λ w, w .| AR_VirtMoreFrag |>
  else ds <| ds_ctl0 ::= λ w, w .&~ AR_VirtMoreFrag |>.

(** ** Receive descriptors *)
Record ath_rx_status := mk_rx_status {
  rs_tstamp : Z; rs_datalen : Z; rs_status : Z; rs_phyerr : Z;
  rs_rssi_combined : Z; rs_rssi_ctl0 : Z; rs_rssi_ctl1 : Z; rs_rssi_ctl2 : Z;
  rs_rssi_ext0 : Z; rs_rssi_ext1 : Z; rs_rssi_ext2 : Z;
  rs_keyix : Z; rs_rate : Z; rs_more : Z; rs_isaggr : Z; rs_moreaggr : Z; rs_flags : Z;
  rs_evm0 : Z; rs_evm1 : Z; rs_evm2 : Z;
}.
#[export] Instance eta_rx_status : EtaExp ath_rx_status := λ r,
  mk_rx_status (rs_tstamp r) (rs_datalen r) (rs_status r) (rs_phyerr r)
    (rs_rssi_combined r) (rs_rssi_ctl0 r) (rs_rssi_ctl1 r) (rs_rssi_ctl2 r)
    (rs_rssi_ext0 r) (rs_rssi_ext1 r) (rs_rssi_ext2 r)
    (rs_keyix r) (rs_rate r) (rs_more r) (rs_isaggr r) (rs_moreaggr r) (rs_flags r)
    (rs_evm0 r) (rs_evm1 r) (rs_evm2 r).

Record ath_rx_desc := mk_rx_desc {
  rx_ctl1 : Z;
  ds_rxstatus0 : Z; ds_rxstatus1 : Z; ds_rxstatus2 : Z; ds_rxstatus3 : Z;
  ds_rxstatus4 : Z; ds_rxstatus5 : Z; ds_rxstatus6 : Z; ds_rxstatus7 : Z;
  ds_rxstatus8 : Z;
}.
#[export] Instance eta_rx_desc : EtaExp ath_rx_desc := λ d,
  mk_rx_desc (rx_ctl1 d) (ds_rxstatus0 d) (ds_rxstatus1 d) (ds_rxstatus2 d)
    (ds_rxstatus3 d) (ds_rxstatus4 d) (ds_rxstatus5 d) (ds_rxstatus6 d)
    (ds_rxstatus7 d) (ds_rxstatus8 d).

Definition ar5416SetupRxDesc_20 (ds : ath_rx_desc) (size flags : Z) : ath_rx_desc :=
  let ads := ds <| rx_ctl1 := size .& AR_BufLen |> in
  let ads := if tst flags HAL_RXDESC_INTREQ
             then ads <| rx_ctl1 ::= λ w, w .| AR_RxIntrReq |> else ads in
  ads <| ds_rxstatus8 ::= λ w, w .&~ AR_RxDone |>.

(** The status the RX completion reads out of a finished descriptor (the second half
    of [ar5416ProcRxDescFast_20]); [old] supplies the fields the code leaves alone. *)
Definition rx_desc_status (ads : ath_rx_desc) (old : ath_rx_status) : ath_rx_status :=
  let st8 := ds_rxstatus8 ads in
  let r := old
    <| rs_status := 0 |> <| rs_flags := 0 |>
    <| rs_datalen := u16 (ds_rxstatus1 ads .& AR_DataLen) |>
    <| rs_tstamp := ds_rxstatus2 ads |>
    <| rs_rssi_combined := s8 (MS (ds_rxstatus4 ads) AR_RxRSSICombined AR_RxRSSICombined_S) |>
    <| rs_rssi_ctl0 := s8 (MS (ds_rxstatus0 ads) AR_RxRSSIAnt00 AR_RxRSSIAnt00_S) |>
    <| rs_rssi_ctl1 := s8 (MS (ds_rxstatus0 ads) AR_RxRSSIAnt01 AR_RxRSSIAnt01_S) |>
    <| rs_rssi_ctl2 := s8 (MS (ds_rxstatus0 ads) AR_RxRSSIAnt02 AR_RxRSSIAnt02_S) |>
    <| rs_rssi_ext0 := s8 (MS (ds_rxstatus4 ads) AR_RxRSSIAnt10 AR_RxRSSIAnt10_S) |>
    <| rs_rssi_ext1 := s8 (MS (ds_rxstatus4 ads) AR_RxRSSIAnt11 AR_RxRSSIAnt11_S) |>
    <| rs_rssi_ext2 := s8 (MS (ds_rxstatus4 ads) AR_RxRSSIAnt12 AR_RxRSSIAnt12_S) |>
    <| rs_keyix := if tst st8 AR_RxKeyIdxValid then u8 (MS st8 AR_KeyIdx AR_KeyIdx_S)
                   else HAL_RXKEYIX_INVALID |>
    <| rs_rate := u8 (MS (ds_rxstatus0 ads) AR_RxRate AR_RxRate_S) |>
    <| rs_more := b2z (tst (ds_rxstatus1 ads) AR_RxMore) |>
    <| rs_isaggr := b2z (tst st8 AR_RxAggr) |>
    <| rs_moreaggr := b2z (tst st8 AR_RxMoreAggr) |>
    <| rs_flags ::= λ w, w .| ifbit (tst (ds_rxstatus3 ads) AR_GI) HAL_RX_GI |>
    <| rs_flags ::= λ w, w .| ifbit (tst (ds_rxstatus3 ads) AR_2040) HAL_RX_2040 |>
    <| rs_flags ::= λ w, w .| ifbit (tst st8 AR_PreDelimCRCErr) HAL_RX_DELIM_CRC_PRE |>
    <| rs_flags ::= λ w, w .| ifbit (tst st8 AR_PostDelimCRCErr) HAL_RX_DELIM_CRC_POST |>
    <| rs_flags ::= λ w, w .| ifbit (tst st8 AR_DecryptBusyErr) HAL_RX_DECRYPT_BUSY |> in
  let r :=
    if negb (tst st8 AR_RxFrameOK) then
      if tst st8 AR_CRCErr then r <| rs_status ::= λ w, w .| HAL_RXERR_CRC |>
      else if tst st8 AR_PHYErr then
        r <| rs_status ::= λ w, w .| HAL_RXERR_PHY |>
          <| rs_phyerr := u8 (MS st8 AR_PHYErrCode AR_PHYErrCode_S) |>
      else if tst st8 AR_DecryptCRCErr then r <| rs_status ::= λ w, w .| HAL_RXERR_DECRYPT |>
      else if tst st8 AR_MichaelErr then r <| rs_status ::= λ w, w .| HAL_RXERR_MIC |>
      else r
    else r in
  r <| rs_evm0 := ds_rxstatus4 ads |> <| rs_evm1 := ds_rxstatus5 ads |>
    <| rs_evm2 := ds_rxstatus6 ads |>.

(** ** Register access *)
Class Mmio (HW : Type) := {
  hw_read : Z → HW → Z * HW;
  hw_write : Z → Z → HW → HW;
}.

(** The software state of [struct ath_hal_5416] that the routines keep, beside the chip. *)
Record ath_hal (HW : Type) := mk_hal {
  ah_maskReg : Z; ah_intrTxqs : Z; ah_caps : HAL_CAPABILITIES; ah_hw : HW;
}.
Arguments mk_hal {HW}.
Arguments ah_maskReg {HW}.
Arguments ah_intrTxqs {HW}.
Arguments ah_caps {HW}.
Arguments ah_hw {HW}.
#[export] Instance eta_hal HW : EtaExp (ath_hal HW) := λ a,
  mk_hal (ah_maskReg a) (ah_intrTxqs a) (ah_caps a) (ah_hw a).

Section hal.
Context {HW : Type} `{!Mmio HW}.
Abbreviation H := (M (ath_hal HW)).

Definition ioread32_mac (reg : Z) : H Z := λ a,
  let '(v, hw) := hw_read reg (ah_hw a) in Ok (v, a <| ah_hw := hw |>).
Definition iowrite32_mac (reg v : Z) : H unit := modify (λ a, a <| ah_hw ::= hw_write reg v |>).

Definition OS_REG_SET_BIT (reg f : Z) : H unit :=
  v ← ioread32_mac reg; iowrite32_mac reg (v .| f).
Definition OS_REG_CLR_BIT (reg f : Z) : H unit :=
  v ← ioread32_mac reg; iowrite32_mac reg (v .&~ f).

(** [for (i = 0; i < n; i++) { if (test) return TRUE; OS_DELAY(..); } return FALSE] *)
Fixpoint poll (n : nat) (test : H bool) : H bool :=
  match n with
  | O => mret false
  | S n => b ← test; if b : bool then mret true else poll n test
  end.

(** [ath_hal_wait] (ah.c): the HT capability selects the number of polls. *)
Definition ath_hal_wait (reg mask val : Z) : H bool :=
  caps ← gets ah_caps;
  poll (if decide (ath_hal_getcapability caps HAL_CAP_HT = HAL_OK)
        then Z.to_nat 100000 else Z.to_nat 1000)
    (v ← ioread32_mac reg; mret (v .& mask =? val)).

(** *** Interrupts *)
Definition ar5416IsInterruptPending : H bool :=
  host_isr ← ioread32_mac AR_INTR_ASYNC_CAUSE;
  mret (negb (host_isr =? AR_INTR_SPURIOUS) && tst host_isr AR_INTR_MAC_IRQ).

Definition ar5416GetPendingInterrupts : H (bool * Z) :=
  cause ← ioread32_mac AR_INTR_ASYNC_CAUSE;
  if negb (tst cause AR_INTR_MAC_IRQ) then mret (false, 0) else
  rtc ← ioread32_mac AR_RTC_STATUS;
  if negb (rtc .& AR_RTC_STATUS_M =? AR_RTC_STATUS_ON) then mret (false, 0) else
  isr ← ioread32_mac AR_ISR_RAC;
  if isr =? 0xffffffff then mret (false, 0) else
  let masked := isr .& HAL_INT_COMMON in
  masked ←
    (if tst isr AR_ISR_BCNMISC then
       s2_s ← ioread32_mac AR_ISR_S2_S;
       mret (masked .| ifbit (tst s2_s AR_ISR_S2_GTT) HAL_INT_GTT
                    .| ifbit (tst s2_s AR_ISR_S2_CST) HAL_INT_CST)
     else mret masked);
  let masked := masked .| ifbit (tst isr (AR_ISR_RXOK .| AR_ISR_RXERR)) HAL_INT_RX in
  masked ←
    (if tst isr (AR_ISR_TXOK .| AR_ISR_TXDESC .| AR_ISR_TXERR .| AR_ISR_TXEOL) then
       s0_s ← ioread32_mac AR_ISR_S0_S;
       s1_s ← ioread32_mac AR_ISR_S1_S;
       modify (λ a, a
         <| ah_intrTxqs ::= λ q, q .| MS s0_s AR_ISR_S0_QCU_TXOK AR_ISR_S0_QCU_TXOK_S |>
         <| ah_intrTxqs ::= λ q, q .| MS s0_s AR_ISR_S0_QCU_TXDESC AR_ISR_S0_QCU_TXDESC_S |>
         <| ah_intrTxqs ::= λ q, q .| MS s1_s AR_ISR_S1_QCU_TXERR AR_ISR_S1_QCU_TXERR_S |>
         <| ah_intrTxqs ::= λ q, q .| MS s1_s AR_ISR_S1_QCU_TXEOL AR_ISR_S1_QCU_TXEOL_S |>) ;;
       mret (masked .| HAL_INT_TX)
     else mret masked);
  sync_cause ← ioread32_mac AR_INTR_SYNC_CAUSE;
  let fatal_int := negb (sync_cause =? AR_INTR_SPURIOUS) &&
    tst sync_cause (AR_INTR_SYNC_HOST1_FATAL .| AR_INTR_SYNC_HOST1_PERR) in
  when fatal_int
    (iowrite32_mac AR_INTR_SYNC_CAUSE_CLR sync_cause ;;
     ioread32_mac AR_INTR_SYNC_CAUSE_CLR ;; mret tt) ;;
  mret (true, masked).

(** The value [ar5416SetInterrupts] programs into AR_IMR. *)
Definition imr_of_ints (ints : Z) : Z :=
  (ints .& HAL_INT_COMMON)
  .| ifbit (tst ints HAL_INT_TX) (AR_IMR_TXOK .| AR_IMR_TXDESC .| AR_IMR_TXERR .| AR_IMR_TXEOL)
  .| ifbit (tst ints HAL_INT_RX) (AR_IMR_RXERR .| (AR_IMR_RXOK .| AR_IMR_RXDESC))
  .| ifbit (tst ints (HAL_INT_GTT .| HAL_INT_CST)) AR_IMR_BCNMISC.

Definition ar5416SetInterrupts (ints : Z) : H Z :=
  omask ← gets ah_maskReg;
  when (tst omask HAL_INT_GLOBAL)
    (iowrite32_mac AR_IER AR_IER_DISABLE ;; ioread32_mac AR_IER ;; mret tt) ;;
  iowrite32_mac AR_IMR (imr_of_ints ints) ;;
  ioread32_mac AR_IMR ;;
  modify (λ a, a <| ah_maskReg := ints |>) ;;
  when (tst ints HAL_INT_GLOBAL)
    (iowrite32_mac AR_IER AR_IER_ENABLE ;; ioread32_mac AR_IER ;; mret tt) ;;
  iowrite32_mac AR_INTR_ASYNC_ENABLE AR_INTR_MAC_IRQ ;;
  iowrite32_mac AR_INTR_ASYNC_MASK AR_INTR_MAC_IRQ ;;
  iowrite32_mac AR_INTR_SYNC_ENABLE AR_INTR_SYNC_ALL ;;
  mret omask.

(** *** Time stamp *)
Fixpoint tsf_loop (n : nat) (tsf_lower tsf_upper1 tsf_upper2 : Z) : H (Z * Z) :=
  match n with
  | O => mret (tsf_lower, tsf_upper2)
  | S n =>
      tsf_lower ← ioread32_mac AR_TSF_L32;
      tsf_upper2 ← ioread32_mac AR_TSF_U32;
      if tsf_upper2 =? tsf_upper1 then mret (tsf_lower, tsf_upper2)
      else tsf_loop n tsf_lower tsf_upper2 tsf_upper2
  end.

Definition ar5416GetTsf64 : H Z :=
  tsf_upper1 ← ioread32_mac AR_TSF_U32;
  '(tsf_lower, tsf_upper2) ← tsf_loop ATH9K_HTC_MAX_TSF_READ 0 tsf_upper1 0;
  mret (u64 (tsf_upper2 .<< 32) .| tsf_lower).

(** *** Receive side *)
Definition ar5416SetRxDP (rxdp : Z) : H unit := iowrite32_mac AR_RXDP rxdp.

Definition ar5416StopDmaReceive : H bool :=
  iowrite32_mac AR_CR AR_CR_RXD ;; ath_hal_wait AR_CR AR_CR_RXE 0.

Definition ar5416SetRxFilter (bits : Z) : H unit :=
  iowrite32_mac AR_RX_FILTER ((bits .& 0xff) .| AR_RX_COMPR_BAR) ;;
  let phybits := ifbit (tst bits HAL_RX_FILTER_PHYRADAR) AR_PHY_ERR_RADAR
                 .| ifbit (tst bits HAL_RX_FILTER_PHYERR)
                      (AR_PHY_ERR_OFDM_TIMING .| AR_PHY_ERR_CCK_TIMING) in
  iowrite32_mac AR_PHY_ERR phybits ;;
  v ← ioread32_mac AR_RXCFG;
  if truthy phybits then iowrite32_mac AR_RXCFG (v .| AR_RXCFG_ZLFDMA)
  else iowrite32_mac AR_RXCFG (v .&~ AR_RXCFG_ZLFDMA).

Definition ar5416EnableReceive : H unit := iowrite32_mac AR_CR AR_CR_RXE.
Definition ar5416StopPcuReceive : H unit := OS_REG_SET_BIT AR_DIAG_SW AR_DIAG_RX_DIS.

(** [pa] is the address of [ds]; [nds] the next descriptor of the ring. *)
Definition ar5416ProcRxDescFast_20 (ds : ath_rx_desc) (pa : Z) (nds : ath_rx_desc)
    (rx_stats : ath_rx_status) : H (HAL_STATUS * ath_rx_status) :=
  if negb (tst (ds_rxstatus8 ds) AR_RxDone) then mret (HAL_EINPROGRESS, rx_stats) else
  busy ← (if negb (tst (ds_rxstatus8 nds) AR_RxDone)
          then rxdp ← ioread32_mac AR_RXDP; mret (rxdp =? pa) else mret false);
  if busy : bool then mret (HAL_EINPROGRESS, rx_stats)
  else mret (HAL_OK, rx_desc_status ds rx_stats).

(** *** Transmit side *)
Definition ar5416UpdateTxTrigLevel (bIncTrigLevel : bool) : H bool :=
  m ← gets ah_maskReg;
  omask ← ar5416SetInterrupts (m .&~ HAL_INT_GLOBAL);
  txcfg ← ioread32_mac AR_TXCFG;
  let curLevel := MS txcfg AR_FTRIG AR_FTRIG_S in
  let newLevel :=
    if bIncTrigLevel then
      if curLevel <? MAX_TX_FIFO_THRESHOLD then curLevel + 1 else curLevel
    else if MIN_TX_FIFO_THRESHOLD <? curLevel then curLevel - 1 else curLevel in
  unless (newLevel =? curLevel)
    (iowrite32_mac AR_TXCFG ((txcfg .&~ AR_FTRIG) .| SM newLevel AR_FTRIG AR_FTRIG_S)) ;;
  ar5416SetInterrupts omask ;;
  mret (negb (newLevel =? curLevel)).

Definition ar5416SetTxDP (q txdp : Z) : H bool :=
  iowrite32_mac (AR_QTXDP q) txdp ;; mret true.
Definition ar5416StartTxDma (q : Z) : H bool :=
  iowrite32_mac AR_Q_TXE (u32 (1 .<< q)) ;; mret true.

Definition ar5416NumTxPending (q : Z) : H Z :=
  sts ← ioread32_mac (AR_QSTS q);
  let npend := sts .& AR_Q_STS_PEND_FR_CNT in
  if npend =? 0 then
    txe ← ioread32_mac AR_Q_TXE;
    mret (if tst txe (u32 (1 .<< q)) then 1 else npend)
  else mret npend.

Fixpoint abort_queues (qs : list nat) : H bool :=
  match qs with
  | [] => mret true
  | q :: qs =>
      idle ← poll AR5416_ABORT_LOOPS
               (n ← ar5416NumTxPending (Z.of_nat q); mret (n =? 0));
      if idle : bool then abort_queues qs else mret false
  end.

Definition ar5416AbortTxDma : H bool :=
  iowrite32_mac AR_Q_TXD AR_Q_TXD_M ;;
  OS_REG_SET_BIT AR_PCU_MISC (AR_PCU_FORCE_QUIET_COLL .| AR_PCU_CLEAR_VMF) ;;
  OS_REG_SET_BIT AR_DIAG_SW AR_DIAG_FORCE_CH_IDLE_HIGH ;;
  OS_REG_SET_BIT AR_D_GBL_IFS_MISC AR_D_GBL_IFS_MISC_IGNORE_BACKOFF ;;
  ok ← abort_queues (seq 0 (Z.to_nat AR_NUM_QCU));
  if negb ok then mret false else
  OS_REG_CLR_BIT AR_PCU_MISC (AR_PCU_FORCE_QUIET_COLL .| AR_PCU_CLEAR_VMF) ;;
  OS_REG_CLR_BIT AR_DIAG_SW AR_DIAG_FORCE_CH_IDLE_HIGH ;;
  OS_REG_CLR_BIT AR_D_GBL_IFS_MISC AR_D_GBL_IFS_MISC_IGNORE_BACKOFF ;;
  iowrite32_mac AR_Q_TXD 0 ;;
  mret true.

Definition ar5416StopTxDma (q : Z) : H bool :=
  iowrite32_mac AR_Q_TXD (u32 (1 .<< q)) ;;
  idle ← poll 1000 (n ← ar5416NumTxPending q; mret (n =? 0));
  iowrite32_mac AR_Q_TXD 0 ;;
  mret idle.

(** The software status that [ar5416ProcTxDesc_20] extracts from a finished descriptor. *)
Definition tx_desc_status (ads : ath_tx_desc) : ath_tx_status :=
  let st0 := ds_txstatus0 ads in let st1 := ds_txstatus1 ads in
  let st5 := ds_txstatus5 ads in let st9 := ds_txstatus9 ads in
  let old := ds_txstat ads in
  let t := old
    <| ts_seqnum := u16 (MS st9 AR_SeqNum AR_SeqNum_S) |>
    <| ts_tstamp := ds_txstatus2 ads |>
    <| ts_status :=
         ifbit (tst st1 AR_ExcessiveRetries) HAL_TXERR_XRETRY
         .| ifbit (tst st1 AR_Filtered) HAL_TXERR_FILT
         .| ifbit (tst st1 AR_FIFOUnderrun) HAL_TXERR_FIFO
         .| ifbit (tst st9 AR_TxOpExceeded) HAL_TXERR_XTXOP
         .| ifbit (tst st1 AR_TxTimerExpired) HAL_TXERR_TIMER_EXPIRED |>
    <| ts_flags :=
         ifbit (tst st1 AR_DescCfgErr) HAL_TX_DESC_CFG_ERR
         .| ifbit (tst st1 AR_TxDataUnderrun) HAL_TX_DATA_UNDERRUN
         .| ifbit (tst st1 AR_TxDelimUnderrun) HAL_TX_DELIM_UNDERRUN
         .| ifbit (tst st0 AR_TxBaStatus) HAL_TX_BA |> in
  let t := if tst st0 AR_TxBaStatus
           then t <| ba_low := ds_txstatus3 ads |> <| ba_high := ds_txstatus4 ads |> else t in
  t <| ts_rate := u8 (MS st9 AR_FinalTxIdx AR_FinalTxIdx_S) |>
    <| ts_rssi_combined := s8 (MS st5 AR_TxRSSICombined AR_TxRSSICombined_S) |>
    <| ts_rssi_ctl0 := s8 (MS st0 AR_TxRSSIAnt00 AR_TxRSSIAnt00_S) |>
    <| ts_rssi_ctl1 := s8 (MS st0 AR_TxRSSIAnt01 AR_TxRSSIAnt01_S) |>
    <| ts_rssi_ctl2 := s8 (MS st0 AR_TxRSSIAnt02 AR_TxRSSIAnt02_S) |>
    <| ts_rssi_ext0 := s8 (MS st5 AR_TxRSSIAnt10 AR_TxRSSIAnt10_S) |>
    <| ts_rssi_ext1 := s8 (MS st5 AR_TxRSSIAnt11 AR_TxRSSIAnt11_S) |>
    <| ts_rssi_ext2 := s8 (MS st5 AR_TxRSSIAnt12 AR_TxRSSIAnt12_S) |>
    <| evm0 := st5 |> <| evm1 := ds_txstatus6 ads |> <| evm2 := ds_txstatus7 ads |>
    <| ts_shortretry := u8 (MS st1 AR_RTSFailCnt AR_RTSFailCnt_S) |>
    <| ts_longretry := u8 (MS st1 AR_DataFailCnt AR_DataFailCnt_S) |>
    <| ts_virtcol := u8 (MS st1 AR_VirtRetryCnt AR_VirtRetryCnt_S) |>
    <| ts_antenna := 0 |>.

Definition ar5416ProcTxDesc_20 (ads : ath_tx_desc) : H (HAL_STATUS * ath_tx_desc) :=
  if negb (tst (ds_txstatus9 ads) AR_TxDone) then mret (HAL_EINPROGRESS, ads) else
  let ads := ads <| ds_txstatus9 ::= λ w, w .&~ AR_TxDone |> in
  when (tst (ds_txstatus1 ads) AR_TxDataUnderrun)
    (ar5416UpdateTxTrigLevel true ;; mret tt) ;;
  when (tst (ds_txstatus1 ads) AR_TxDelimUnderrun)
    (ar5416UpdateTxTrigLevel true ;; mret tt) ;;
  mret (HAL_OK, ads <| ds_txstat := tx_desc_status ads |>).

End hal.

(** A register file that holds what was last written: the instance the witnesses run
    on, and a model of the law assumed of configuration registers. *)
#[export] Instance reg_file : Mmio (gmap Z Z) := {|
  hw_read r hw := (default 0 (hw !! r), hw);
  hw_write r v hw := <[r := v]> hw;
|}.

(** What [ar5416UpdateTxTrigLevel] relies on: the transmit configuration register keeps what
    was written to it, and neither reading it nor access to the interrupt registers changes it.
    Nothing is assumed of the interrupt registers themselves, nor of any other register (those
    that are cleared by a read, like AR_ISR_RAC, among them). *)
Definition imask_regs : list Z :=
  [AR_IER; AR_IMR; AR_INTR_ASYNC_ENABLE; AR_INTR_ASYNC_MASK; AR_INTR_SYNC_ENABLE].
Class HoldsTxCfg (HW : Type) `{Mmio HW} : Prop := {
  hold_read : ∀ r hw, r ∈ AR_TXCFG :: imask_regs →
    (hw_read AR_TXCFG (hw_read r hw).2).1 = (hw_read AR_TXCFG hw).1;
  hold_same : ∀ v hw, (hw_read AR_TXCFG (hw_write AR_TXCFG v hw)).1 = v;
  hold_other : ∀ r v hw, r ∈ imask_regs →
    (hw_read AR_TXCFG (hw_write r v hw)).1 = (hw_read AR_TXCFG hw).1;
}.
#[export] Instance reg_file_holding : HoldsTxCfg (gmap Z Z).
Proof.
  assert (AR_TXCFG ∉ imask_regs) as Ht by by apply (bool_decide_unpack _).
  split; simpl; intros; simplify_map_eq; [done..|].
  rewrite lookup_insert_ne; [done|]. by intros ->.
Qed.

(** ** Descriptor encoding *)

Definition series_in_range (s : rate_series) : Prop :=
  0 <= Tries s < 16 ∧ 0 <= Rate s < 256 ∧ 0 <= PktDuration s < 32768 ∧ 0 <= ChSel s < 8.

(** What the chip reads back from the four rate words for one series. *)
Definition series_fields (d : ath_tx_desc) (tf ts rf rs : Z) (pw : Z) (pf ps q : Z)
    (b2040 gi stbc cf cs : Z) : (Z * Z * Z * Z) * (bool * bool * bool * bool) :=
  ((MS (ds_ctl2 d) tf ts, MS (ds_ctl3 d) rf rs, MS pw pf ps, MS (ds_ctl7 d) cf cs),
   (tst pw q, tst (ds_ctl7 d) b2040, tst (ds_ctl7 d) gi, tst (ds_ctl7 d) stbc)).
Definition series_expected (s : rate_series) : (Z * Z * Z * Z) * (bool * bool * bool * bool) :=
  ((Tries s, Rate s, PktDuration s, ChSel s),
   (tst (RateFlags s) HAL_RATESERIES_RTS_CTS, tst (RateFlags s) HAL_RATESERIES_2040,
    tst (RateFlags s) HAL_RATESERIES_HALFGI, tst (RateFlags s) HAL_RATESERIES_STBC)).

Ltac read_field w := field_read; apply (MS_SM w);
  [reflexivity|lia|vm_compute; discriminate|vm_compute; discriminate|lia].
Ltac read_flag := field_read; reflexivity.

(** The multi-rate scenario written into a descriptor loses nothing: for series whose
    values fit their fields, the tries, rate code, packet duration, chain selection and
    the four flags of every series, the duration-update flag and the RTS/CTS rate read
    back exactly, and no series disturbs another. *)
Theorem set11nRateScenario_roundtrip ds dur rtsctsRate s0 s1 s2 s3 flags :
  Forall series_in_range [s0; s1; s2; s3] → 0 <= rtsctsRate < 256 →
  let d := ar5416Set11nRateScenario_20 ds dur rtsctsRate s0 s1 s2 s3 flags in
  series_fields d AR_XmitDataTries0 AR_XmitDataTries0_S AR_XmitRate0 AR_XmitRate0_S
    (ds_ctl4 d) AR_PacketDur0 AR_PacketDur0_S AR_RTSCTSQual0
    AR_2040_0 AR_GI0 AR_STBC0 AR_ChainSel0 AR_ChainSel0_S = series_expected s0 ∧
  series_fields d AR_XmitDataTries1 AR_XmitDataTries1_S AR_XmitRate1 AR_XmitRate1_S
    (ds_ctl4 d) AR_PacketDur1 AR_PacketDur1_S AR_RTSCTSQual1
    AR_2040_1 AR_GI1 AR_STBC1 AR_ChainSel1 AR_ChainSel1_S = series_expected s1 ∧
  series_fields d AR_XmitDataTries2 AR_XmitDataTries2_S AR_XmitRate2 AR_XmitRate2_S
    (ds_ctl5 d) AR_PacketDur2 AR_PacketDur2_S AR_RTSCTSQual2
    AR_2040_2 AR_GI2 AR_STBC2 AR_ChainSel2 AR_ChainSel2_S = series_expected s2 ∧
  series_fields d AR_XmitDataTries3 AR_XmitDataTries3_S AR_XmitRate3 AR_XmitRate3_S
    (ds_ctl5 d) AR_PacketDur3 AR_PacketDur3_S AR_RTSCTSQual3
    AR_2040_3 AR_GI3 AR_STBC3 AR_ChainSel3 AR_ChainSel3_S = series_expected s3 ∧
  tst (ds_ctl2 d) AR_DurUpdateEn = dur ∧
  MS (ds_ctl7 d) AR_RTSCTSRate AR_RTSCTSRate_S = rtsctsRate.
Proof.
  intros Hs Hr d. unfold series_in_range in Hs. rewrite !Forall_cons in Hs.
  destruct Hs as (?&?&?&?&_).
  unfold d, ar5416Set11nRateScenario_20, series_fields, series_expected, set11nTries,
    set11nRate, set11nPktDurRTSCTS, set11nRateFlags. cbn.
  split_and!; [repeat apply (f_equal2 pair)..|read_flag|read_field 8].
  all: first [read_field 4|read_field 8|read_field 15|read_field 3|read_flag].
Qed.

