(* ===== verification/HalProps.v ===== *)
(** * Properties of the hardware layer

    Completion of transmit descriptors, aggregate fields, the FIFO trigger level and the
    64-bit time stamp, for the definitions of [Hal]. *)

From S2P Require Import Prelude.
From S2P Require Import Hal.

(** ** Register access never faults *)
Create HintDb total.

Section total.
Context {HW : Type} `{!Mmio HW}.
Abbreviation H := (M (ath_hal HW)).

Definition total {A} (m : H A) : Prop := ∀ s, ∃ a s', m s = Ok (a, s').
Lemma total_ret {A} (a : A) : total (mret a). Proof. intros s. eauto. Qed.
Lemma total_bind {A B} (m : H A) (k : A → H B) :
  total m → (∀ a, total (k a)) → total (m ≫= k).
Proof.
  intros Hm Hk s. destruct (Hm s) as (a & s' & E). destruct (Hk a s') as (b & s'' & E').
  exists b, s''. by rewrite (bind_ok _ _ _ _ _ E).
Qed.
Lemma total_when b (m : H unit) : total m → total (when b m).
Proof. intros Hm. destruct b; [done|apply total_ret]. Qed.
Lemma total_modify f : total (modify f). Proof. intros s. eauto. Qed.
Lemma total_gets {A} (f : ath_hal HW → A) : total (gets f). Proof. intros s. eauto. Qed.
Lemma total_read r : total (ioread32_mac r).
Proof. intros s. unfold ioread32_mac. destruct (hw_read r (ah_hw s)). eauto. Qed.
Lemma total_write r v : total (iowrite32_mac r v).
Proof. apply total_modify. Qed.
End total.
#[export] Hint Resolve total_ret total_bind total_when total_modify total_gets total_read
  total_write : total.

Section hal_props.
Context {HW : Type} `{!Mmio HW}.

Lemma total_SetInterrupts i : total (ar5416SetInterrupts i).
Proof. unfold ar5416SetInterrupts. eauto 20 with total. Qed.
Lemma total_UpdateTxTrigLevel b : total (ar5416UpdateTxTrigLevel b).
Proof.
  unfold ar5416UpdateTxTrigLevel. repeat (apply total_bind; [eauto using total_SetInterrupts with total|intros]).
  eauto with total.
Qed.

(** ** Transmit completion *)

(** What a descriptor reports once it is done, as a condition on its status words. *)
Definition tx_failed (d : ath_tx_desc) : bool :=
  tst (ds_txstatus1 d) AR_ExcessiveRetries || tst (ds_txstatus1 d) AR_Filtered
  || tst (ds_txstatus1 d) AR_FIFOUnderrun || tst (ds_txstatus9 d) AR_TxOpExceeded
  || tst (ds_txstatus1 d) AR_TxTimerExpired.

Lemma lor_eqb_zero a b : (a .| b =? 0) = (a =? 0) && (b =? 0).
Proof.
  destruct (Z.eqb_spec (a .| b) 0) as [E|E].
  - apply Z.lor_eq_0_iff in E as [-> ->]. done.
  - destruct (Z.eqb_spec a 0) as [->|]; [|done].
    destruct (Z.eqb_spec b 0) as [->|]; done.
Qed.
(** The range of a field of [n] bits. *)
Lemma MS_range w f s n : 0 <= s → 0 <= n → f = Z.ones n .<< s → 0 <= MS w f s < 2 ^ n.
Proof.
  intros Hs Hn ->. unfold MS. assert ((w .& (Z.ones n .<< s)) .>> s = (w .>> s) .& Z.ones n) as ->.
  { apply Z.bits_inj'. intros k Hk.
    rewrite Z.shiftr_spec, !Z.land_spec, Z.shiftl_spec, Z.shiftr_spec by lia.
    by replace (k + s - s) with k by lia. }
  rewrite Z.land_ones by lia. by apply Z.mod_pos_bound, Z.pow_pos_nonneg.
Qed.
Lemma u8_MS w f s n : 0 <= s → 0 <= n <= 8 → f = Z.ones n .<< s → u8 (MS w f s) = MS w f s.
Proof.
  intros Hs Hn Hf. apply Z.mod_small. pose proof (MS_range w f s n Hs (proj1 Hn) Hf).
  assert (2 ^ n <= 2 ^ 8) by (apply Z.pow_le_mono_r; lia). change (2 ^ 8) with 256 in *. lia.
Qed.
Lemma ifbit_eqb_zero b m : m ≠ 0 → (ifbit b m =? 0) = negb b.
Proof. intros H. destruct b; simpl; [by apply Z.eqb_neq|done]. Qed.

(** C36: a descriptor the hardware still owns is reported in progress and left alone; a
    finished one is reported exactly once: it comes back with the done bit cleared, so
    that the next call reports progress, with the sequence number, time stamp, final rate index,
    the short (RTS), long (data) and virtual retry counts, the combined signal strength and, when
    the chip set the block-ack bit, the block-ack bitmap of its status words (the old bitmap
    otherwise), and with a software status that is 0 exactly when no error bit was set and whose
    retry-limit bit is the chip's excessive-retries bit. *)
Theorem ar5416ProcTxDesc_once (ads : ath_tx_desc) (h : ath_hal HW) :
  (tst (ds_txstatus9 ads) AR_TxDone = false →
   ar5416ProcTxDesc_20 ads h = Ok ((HAL_EINPROGRESS, ads), h)) ∧
  (tst (ds_txstatus9 ads) AR_TxDone = true →
   ∃ d h', ar5416ProcTxDesc_20 ads h = Ok ((HAL_OK, d), h') ∧
     ar5416ProcTxDesc_20 d h' = Ok ((HAL_EINPROGRESS, d), h') ∧
     (ts_status (ds_txstat d) =? 0) = negb (tx_failed ads) ∧
     ts_seqnum (ds_txstat d) = MS (ds_txstatus9 ads) AR_SeqNum AR_SeqNum_S ∧
     ts_shortretry (ds_txstat d) = MS (ds_txstatus1 ads) AR_RTSFailCnt AR_RTSFailCnt_S ∧
     ts_longretry (ds_txstat d) = MS (ds_txstatus1 ads) AR_DataFailCnt AR_DataFailCnt_S ∧
     ts_virtcol (ds_txstat d) = MS (ds_txstatus1 ads) AR_VirtRetryCnt AR_VirtRetryCnt_S ∧
     ts_tstamp (ds_txstat d) = ds_txstatus2 ads ∧
     ts_rate (ds_txstat d) = MS (ds_txstatus9 ads) AR_FinalTxIdx AR_FinalTxIdx_S ∧
     ts_rssi_combined (ds_txstat d) = s8 (MS (ds_txstatus5 ads) AR_TxRSSICombined AR_TxRSSICombined_S) ∧
     tst (ts_status (ds_txstat d)) HAL_TXERR_XRETRY = tst (ds_txstatus1 ads) AR_ExcessiveRetries ∧
     (if tst (ds_txstatus0 ads) AR_TxBaStatus
      then ba_low (ds_txstat d) = ds_txstatus3 ads ∧ ba_high (ds_txstat d) = ds_txstatus4 ads
      else ba_low (ds_txstat d) = ba_low (ds_txstat ads) ∧ ba_high (ds_txstat d) = ba_high (ds_txstat ads))).
Proof.
  split; intros Hd; unfold ar5416ProcTxDesc_20 at 1; rewrite Hd; [done|]. cbn [negb]. cbv zeta iota.
  set (u := ads <| ds_txstatus9 ::= λ w, w .&~ AR_TxDone |>).
  assert (∀ b, total (when b (ar5416UpdateTxTrigLevel true ;; mret tt))) as Ht.
  { intros b. apply total_when, total_bind; [apply total_UpdateTxTrigLevel|intros; apply total_ret]. }
  destruct (Ht (tst (ds_txstatus1 u) AR_TxDataUnderrun) h) as ([] & h1 & E1).
  destruct (Ht (tst (ds_txstatus1 u) AR_TxDelimUnderrun) h1) as ([] & h2 & E2).
  exists (u <| ds_txstat := tx_desc_status u |>), h2.
  rewrite (bind_ok _ _ _ _ _ E1), (bind_ok _ _ _ _ _ E2). split; [done|].
  assert (tst (ds_txstatus9 u) AR_TxDone = false) as Hnd
    by (unfold u; cbn; field_read; reflexivity).
  split; [unfold ar5416ProcTxDesc_20; cbn in Hnd |- *; by rewrite Hnd|].
  assert (ds_txstat (u <| ds_txstat := tx_desc_status u |>) = tx_desc_status u) as -> by done.
  unfold tx_desc_status, u.
  split_and!; cbn; destruct (tst (ds_txstatus0 ads) AR_TxBaStatus); cbn; try done.
  all: rewrite ?(MS_ldiff_keep _ AR_TxDone) by done.
  all: try (by apply (u8_MS _ _ _ 4)); try (by apply (u8_MS _ _ _ 2)).
  all: try (apply Z.mod_small; pose proof (MS_range (ds_txstatus9 ads) AR_SeqNum AR_SeqNum_S 12 ltac:(done) ltac:(done) ltac:(done));
    change (2 ^ 12) with 4096 in *; lia).
  all: first [ by rewrite !tst_lor, tst_ifbit_same, !tst_ifbit_other, !orb_false_r by done | idtac ].
  all: rewrite !lor_eqb_zero, !ifbit_eqb_zero, (tst_ldiff_keep _ AR_TxDone AR_TxOpExceeded) by done.
  all: unfold tx_failed; by rewrite !negb_orb.
Qed.

(** ** Aggregate fields *)

(** The aggregation routines write their fields without disturbing each other: the
    first descriptor of an aggregate reads back its length and delimiter count, a middle
    one keeps the aggregate length of the word it is given, both announce more to come,
    the last one does not and asks for no delimiters, and clearing takes the frame out of
    any aggregate. *)
Theorem set11nAggr_fields (ds : ath_tx_desc) (al nd : Z) :
  0 <= al < 65536 → 0 <= nd < 256 →
  (let d := ar5416Set11nAggrFirst_20 ds al nd in
   MS (ds_ctl6 d) AR_AggrLen AR_AggrLen_S = al ∧ MS (ds_ctl6 d) AR_PadDelim AR_PadDelim_S = nd ∧
   tst (ds_ctl1 d) AR_IsAggr = true ∧ tst (ds_ctl1 d) AR_MoreAggr = true ∧
   MS (ds_ctl6 d) AR_EncrType AR_EncrType_S = MS (ds_ctl6 ds) AR_EncrType AR_EncrType_S) ∧
  (let d := ar5416Set11nAggrMiddle_20 ds nd in
   MS (ds_ctl6 d) AR_AggrLen AR_AggrLen_S = MS (ds_ctl6 ds) AR_AggrLen AR_AggrLen_S ∧
   MS (ds_ctl6 d) AR_PadDelim AR_PadDelim_S = nd ∧
   tst (ds_ctl1 d) AR_IsAggr = true ∧ tst (ds_ctl1 d) AR_MoreAggr = true) ∧
  (let d := ar5416Set11nAggrLast_20 ds in
   MS (ds_ctl6 d) AR_PadDelim AR_PadDelim_S = 0 ∧
   tst (ds_ctl1 d) AR_IsAggr = true ∧ tst (ds_ctl1 d) AR_MoreAggr = false) ∧
  (let d := ar5416Clr11nAggr_20 ds in
   tst (ds_ctl1 d) AR_IsAggr = false ∧ tst (ds_ctl1 d) AR_MoreAggr = false ∧
   MS (ds_ctl1 d) AR_BufLen 0 = MS (ds_ctl1 ds) AR_BufLen 0).
Proof.
  intros Hal Hnd. assert (∀ m, m ≠ 0 → tst m m = true) as Hd.
  { intros m Hm. unfold tst. rewrite Z.land_diag. apply Z.eqb_neq in Hm. by rewrite Hm. }
  split_and!; cbn; split_and!;
    first [ read_field 16 | read_field 8
          | field_read; reflexivity
          | field_read; apply orb_true_r ].
Qed.

End hal_props.

(** ** The transmit FIFO trigger level *)

Definition reg {HW} `{Mmio HW} (r : Z) (a : ath_hal HW) : Z := (hw_read r (ah_hw a)).1.

Section holding.
Context {HW : Type} `{!Mmio HW} `{!HoldsTxCfg HW}.

(** The states that agree on the transmit configuration and the software interrupt mask. *)
Definition same_cfg (a a' : ath_hal HW) : Prop :=
  reg AR_TXCFG a' = reg AR_TXCFG a ∧ ah_maskReg a' = ah_maskReg a.
Lemma wp_mac_read r (a : ath_hal HW) (Q : Z → ath_hal HW → Prop) :
  r ∈ AR_TXCFG :: imask_regs → (∀ a', same_cfg a a' → Q (reg r a) a') → wp (ioread32_mac r) Q a.
Proof.
  intros Hr HQ. unfold wp, ioread32_mac, reg in *. pose proof (hold_read r (ah_hw a) Hr) as H.
  destruct (hw_read r (ah_hw a)) as [v hw]. by apply HQ.
Qed.
Lemma wp_mac_write r v (a : ath_hal HW) (Q : unit → ath_hal HW → Prop) :
  r ∈ imask_regs → (∀ a', same_cfg a a' → Q tt a') → wp (iowrite32_mac r v) Q a.
Proof. intros Hr HQ. apply HQ. split; [by apply hold_other|done]. Qed.
Lemma wp_txcfg v (a : ath_hal HW) (Q : unit → ath_hal HW → Prop) :
  (∀ a', reg AR_TXCFG a' = v → Q tt a') → wp (iowrite32_mac AR_TXCFG v) Q a.
Proof. intros HQ. apply HQ, hold_same. Qed.
Lemma wp_toggle b v (a : ath_hal HW) (Q : unit → ath_hal HW → Prop) :
  (∀ a', same_cfg a a' → Q tt a') → wp (when b (iowrite32_mac AR_IER v ;; ioread32_mac AR_IER ;; mret tt)) Q a.
Proof.
  intros HQ. apply wp_when; [intros _|intros _; by apply HQ].
  apply wp_bind, wp_mac_write; [left|]. intros a1 [R1 M1]. apply wp_bind, wp_mac_read; [right; left|]. intros a2 [R2 M2].
  apply wp_ret, HQ. split; congruence.
Qed.

Lemma wp_SetInterrupts ints (a : ath_hal HW) (Q : Z → ath_hal HW → Prop) :
  (∀ a', ah_maskReg a' = ints → reg AR_TXCFG a' = reg AR_TXCFG a → Q (ah_maskReg a) a') →
  wp (ar5416SetInterrupts ints) Q a.
Proof.
  intros HQ. unfold ar5416SetInterrupts. apply wp_bind, wp_gets.
  apply wp_bind, wp_toggle. intros a1 [R1 _].
  apply wp_bind, wp_mac_write; [by apply (bool_decide_unpack _)|]. intros a2 [R2 _].
  apply wp_bind, wp_mac_read; [by apply (bool_decide_unpack _)|]. intros a3 [R3 _].
  apply wp_bind, wp_modify, wp_bind, wp_toggle. intros a4 [R4 M4].
  do 3 (apply wp_bind, wp_mac_write; [by apply (bool_decide_unpack _)|]; intros ? [? ?]).
  change (reg AR_TXCFG (a3 <| ah_maskReg := ints |>)) with (reg AR_TXCFG a3) in R4.
  change (ah_maskReg (a3 <| ah_maskReg := ints |>)) with ints in M4. apply wp_ret, HQ; congruence.
Qed.

Definition next_trig_level (inc : bool) (cur : Z) : Z :=
  if inc then Z.min (cur + 1) 63 else Z.max (cur - 1) (Z.min cur 1).

Lemma FTRIG_range w : 0 <= MS w AR_FTRIG AR_FTRIG_S < 64.
Proof. by apply (MS_range w AR_FTRIG AR_FTRIG_S 6). Qed.

Lemma ldiff_lor_SM w v f s : (w .&~ f .| SM v f s) .&~ f = w .&~ f.
Proof.
  unfold SM. apply Z.bits_inj'. intros n Hn.
  rewrite !Z.ldiff_spec, Z.lor_spec, Z.ldiff_spec, Z.land_spec.
  by destruct (Z.testbit w n), (Z.testbit f n), (Z.testbit (u32 (v .<< s)) n).
Qed.

(** C40: adjusting the FIFO trigger level moves the six-bit threshold by one step, never
    above 63 nor, going down, below 1; every other bit of the configuration register
    and the interrupt mask are as before, and the result tells whether it moved. It is assumed
    of the chip that the transmit configuration register keeps what is written to it and is not
    changed by a read of it or by access to the interrupt enable and mask registers; nothing is
    assumed of any other register, nor of what the interrupt registers read. *)
Theorem ar5416UpdateTxTrigLevel_step (inc : bool) (a : ath_hal HW) :
  let cur := MS (reg AR_TXCFG a) AR_FTRIG AR_FTRIG_S in
  ∃ a', ar5416UpdateTxTrigLevel inc a = Ok (negb (next_trig_level inc cur =? cur), a') ∧
    MS (reg AR_TXCFG a') AR_FTRIG AR_FTRIG_S = next_trig_level inc cur ∧
    reg AR_TXCFG a' .&~ AR_FTRIG = reg AR_TXCFG a .&~ AR_FTRIG ∧
    ah_maskReg a' = ah_maskReg a.
Proof.
  intros cur.
  enough (wp (ar5416UpdateTxTrigLevel inc) (λ r a', r = negb (next_trig_level inc cur =? cur) ∧
    MS (reg AR_TXCFG a') AR_FTRIG AR_FTRIG_S = next_trig_level inc cur ∧
    reg AR_TXCFG a' .&~ AR_FTRIG = reg AR_TXCFG a .&~ AR_FTRIG ∧ ah_maskReg a' = ah_maskReg a) a) as H.
  { apply wp_run in H as (r & a' & E & -> & H). by exists a'. }
  unfold ar5416UpdateTxTrigLevel. apply wp_bind, wp_gets, wp_bind, wp_SetInterrupts. intros a1 _ R1.
  apply wp_bind, wp_mac_read; [left|]. intros a2 [R2 _]. rewrite R1. fold cur.
  pose proof (FTRIG_range (reg AR_TXCFG a)) as Hr. fold cur in Hr.
  assert ((if inc then if cur <? MAX_TX_FIFO_THRESHOLD then cur + 1 else cur
           else if MIN_TX_FIFO_THRESHOLD <? cur then cur - 1 else cur) = next_trig_level inc cur) as ->.
  { unfold next_trig_level. change MAX_TX_FIFO_THRESHOLD with 63. change MIN_TX_FIFO_THRESHOLD with 1.
    destruct inc; [destruct (Z.ltb_spec cur 63)|destruct (Z.ltb_spec 1 cur)]; lia. }
  assert (0 <= next_trig_level inc cur < 64) as Hn by (unfold next_trig_level; destruct inc; lia).
  cbv zeta. destruct (Z.eqb_spec (next_trig_level inc cur) cur) as [He|He]; cbn [negb when].
  - apply wp_bind, wp_ret, wp_bind, wp_SetInterrupts. intros a3 M3 R3. apply wp_ret.
    rewrite R3, R2, R1, He. done.
  - apply wp_bind, wp_txcfg. intros a3 R3. apply wp_bind, wp_SetInterrupts. intros a4 M4 R4. apply wp_ret.
    rewrite R4, R3, ?R2, ?R1. split_and!; [done| |apply ldiff_lor_SM|done]. read_field 6.
Qed.
End holding.

(** ** The time stamp *)

(** The chip's 64-bit clock, read in two halves, each read taking some time. *)
Class TsfClock (HW : Type) `{Mmio HW} (tsf : HW → Z) : Prop := {
  tsf_range : ∀ hw, 0 <= tsf hw < 18446744073709551616;
  tsf_mono : ∀ r hw, tsf hw <= tsf (hw_read r hw).2;
  tsf_low : ∀ hw, (hw_read AR_TSF_L32 hw).1 = tsf hw mod 4294967296;
  tsf_high : ∀ hw, (hw_read AR_TSF_U32 hw).1 = tsf hw `div` 4294967296;
}.

Section tsf.
Context {HW : Type} `{!Mmio HW} (tsf : HW → Z) `{!TsfClock HW tsf}.
Let upper (hw : HW) : Z := tsf hw `div` 4294967296.

Lemma upper_mono hw hw' : tsf hw <= tsf hw' → upper hw <= upper hw'.
Proof. intros. by apply Z.div_le_mono. Qed.

Lemma glue_halves t : 0 <= t < 18446744073709551616 →
  u64 ((t `div` 4294967296) .<< 32) .| (t mod 4294967296) = t.
Proof.
  intros Ht. rewrite Z.shiftl_mul_pow2 by lia. change (2 ^ 32) with 4294967296.
  assert (0 <= t `div` 4294967296 < 4294967296) by mlia.
  unfold u64. rewrite Z.mod_small by lia.
  rewrite <-(Z.lxor_lor _ (t mod 4294967296)), <-Z.add_nocarry_lxor.
  - rewrite Z.mul_comm. symmetry. by apply Z.div_mod.
  - change 4294967296 with (2 ^ 32). rewrite <-Z.shiftl_mul_pow2, <-Z.land_ones by lia.
    apply Z.bits_inj'. intros n Hn. rewrite !Z.land_spec, Z.shiftl_spec, Z.bits_0 by lia.
    destruct (Z.ltb_spec n 32).
    + by rewrite (Z.testbit_neg_r _ (n - 32)) by lia.
    + by rewrite (Z.ones_spec_high 32 n), !andb_false_r by lia.
  - change 4294967296 with (2 ^ 32). rewrite <-Z.shiftl_mul_pow2, <-Z.land_ones by lia.
    apply Z.bits_inj'. intros n Hn. rewrite !Z.land_spec, Z.shiftl_spec, Z.bits_0 by lia.
    destruct (Z.ltb_spec n 32).
    + by rewrite (Z.testbit_neg_r _ (n - 32)) by lia.
    + by rewrite (Z.ones_spec_high 32 n), !andb_false_r by lia.
Qed.

(** The loop, entered just after an upper half [up] was read at [hw0]. *)
Lemma tsf_loop_spec n lo hi hw0 (a : ath_hal HW) :
  tsf hw0 <= tsf (ah_hw a) →
  ∃ l u a', tsf_loop n lo (upper hw0) hi a = Ok ((l, u), a') ∧ tsf (ah_hw a) <= tsf (ah_hw a') ∧
    (upper (ah_hw a') - upper hw0 < Z.of_nat n →
     ∃ t, tsf hw0 <= t <= tsf (ah_hw a') ∧ u64 (u .<< 32) .| l = t).
Proof.
  revert lo hi hw0 a. induction n as [|n IH]; intros lo hi hw0 a H0; cbn [tsf_loop].
  { exists lo, hi, a. split_and!; [done|lia|]. intros Hlt. pose proof (upper_mono _ _ H0). lia. }
  unfold mbind, M_bind, ioread32_mac.
  pose proof (tsf_low (ah_hw a)) as HL. pose proof (tsf_mono AR_TSF_L32 (ah_hw a)) as HM1.
  destruct (hw_read AR_TSF_L32 (ah_hw a)) as [l hw1] eqn:E1. cbn in HL, HM1 |- *.
  pose proof (tsf_high hw1) as HH. pose proof (tsf_mono AR_TSF_U32 hw1) as HM2.
  destruct (hw_read AR_TSF_U32 hw1) as [u hw2] eqn:E2. cbn in HH, HM2 |- *.
  fold (upper hw1) in HH. rewrite HH.
  pose proof (upper_mono _ _ H0). pose proof (upper_mono _ _ HM1).
  destruct (Z.eqb_spec (upper hw1) (upper hw0)) as [He|He].
  - eexists l, _, _. split; [done|]. cbn. split; [lia|]. intros _.
    exists (tsf (ah_hw a)). split; [lia|].
    assert (upper hw1 = upper (ah_hw a)) as -> by lia. rewrite HL. apply glue_halves, tsf_range.
  - set (a2 := a <| ah_hw := hw1 |> <| ah_hw := hw2 |>).
    destruct (IH l (upper hw1) hw1 a2) as (l' & u' & a' & E & Hm & Hlt); [cbn; lia|].
    exists l', u', a'. cbn in Hm. split; [exact E|]. split; [lia|].
    intros Hn. destruct Hlt as (t & Ht & Hg); [lia|]. exists t. split; [lia|done].
Qed.

(** C38: reading the 64-bit time stamp in two halves is atomic: unless the upper half
    advances on every one of the three attempts, the value returned is a time between
    the moment the call starts and the moment it returns. *)
Theorem ar5416GetTsf64_linearizable (a : ath_hal HW) :
  ∃ v a', ar5416GetTsf64 a = Ok (v, a') ∧
    (tsf (ah_hw a') `div` 4294967296 - tsf (ah_hw a) `div` 4294967296 < 3 →
     tsf (ah_hw a) <= v <= tsf (ah_hw a')).
Proof.
  unfold ar5416GetTsf64. unfold mbind at 1, M_bind, ioread32_mac at 1.
  pose proof (tsf_high (ah_hw a)) as HH. pose proof (tsf_mono AR_TSF_U32 (ah_hw a)) as HM.
  destruct (hw_read AR_TSF_U32 (ah_hw a)) as [u hw1]. cbn in HH, HM. rewrite HH.
  fold (upper (ah_hw a)).
  destruct (tsf_loop_spec ATH9K_HTC_MAX_TSF_READ 0 0 (ah_hw a) (a <| ah_hw := hw1 |>))
    as (l & u' & a' & E & Hm & Hlt); [done|].
  exists (u64 (u' .<< 32) .| l), a'. rewrite (bind_ok _ _ _ _ _ E). split; [done|].
  intros H3. destruct Hlt as (t & Ht & ->); [exact H3|]. done.
Qed.
End tsf.

(** ** The key index of a descriptor *)

Lemma tst_above x j k : 0 <= x < 2 ^ k → 0 <= k <= j → tst x (2 ^ j) = false.
Proof.
  intros Hx Hk. unfold tst. replace (x .& 2 ^ j) with 0; [done|].
  symmetry. apply Z.bits_inj'. intros n Hn. rewrite Z.land_spec, Z.bits_0, Z.pow2_bits_eqb by lia.
  destruct (Z.eqb_spec j n) as [->|]; [|apply andb_false_r]. rewrite andb_true_r.
  destruct (decide (x = 0)) as [->|]; [apply Z.bits_0|].
  apply Z.bits_above_log2; [lia|]. apply Z.log2_lt_pow2; [lia|].
  eapply Z.lt_le_trans; [apply Hx|]. apply Z.pow_le_mono_r; lia.
Qed.

(** Setting up a descriptor marks it as using a key exactly when the key index is not
    the "no key" value 255, whatever the other arguments; it never marks it done. *)
Theorem ar5416SetupTxDesc_key (ds : ath_tx_desc) (pktLen hdrLen type txPower txRate0 txTries0
    keyIx flags rtsctsRate rtsctsDuration : Z) :
  0 <= txPower →
  let d := (ar5416SetupTxDesc_20 ds pktLen hdrLen type txPower txRate0 txTries0 keyIx flags
              rtsctsRate rtsctsDuration).1 in
  tst (ds_ctl0 d) AR_DestIdxValid = negb (keyIx =? HAL_TXKEYIX_INVALID) ∧
  tst (ds_txstatus9 d) AR_TxDone = false.
Proof.
  intros Hp d.
  assert (tst (u32 ((if 63 <? txPower then 63 else txPower) .<< AR_XmitPower_S)) AR_DestIdxValid
          = false) as Hpw.
  { change AR_DestIdxValid with (2 ^ 30). apply (tst_above _ _ 22); [|lia].
    rewrite Z.shiftl_mul_pow2 by done. change (2 ^ AR_XmitPower_S) with 65536.
    change (2 ^ 22) with 4194304. unfold u32.
    destruct (Z.ltb_spec 63 txPower); rewrite Z.mod_small by lia; lia. }
  assert (tst AR_DestIdxValid AR_DestIdxValid = true) as Hv by done.
  assert (∀ m, tst (pktLen .& AR_FrameLen) AR_DestIdxValid = false) as Hlen
    by (intros; by apply tst_land_const).
  unfold d, ar5416SetupTxDesc_20.
  destruct (keyIx =? HAL_TXKEYIX_INVALID); destruct (tst flags _); [destruct (isValidTxRate _)| |destruct (isValidTxRate _)|];
    cbn; rewrite ?tst_lor, ?Hpw, ?Hlen by exact 0; field_read; try done.
Qed.

(** ** Instances *)

Definition hal_sample (regs : gmap Z Z) : ath_hal (gmap Z Z) := {|
  ah_hw := regs; ah_intrTxqs := 0; ah_maskReg := HAL_INT_GLOBAL .| HAL_INT_TX; ah_caps := mk_caps true true |}.
Definition tx_status_zero : ath_tx_status :=
  mk_tx_status 0 0 0 0 0 0 0 0 0 0 0 0 0 0 0 0 0 0 0 0 0.
Definition desc_zero : ath_tx_desc :=
  mk_tx_desc 0 0 0 0 0 0 0 0 0 0 0 0 0 0 0 0 0 0 0 0 tx_status_zero.

(** A finished descriptor with an excessive-retries error. *)
Lemma ar5416ProcTxDesc_once_witness :
  let ads := desc_zero <| ds_txstatus1 := AR_ExcessiveRetries .| SM 3 AR_RTSFailCnt AR_RTSFailCnt_S
                                           .| SM 5 AR_DataFailCnt AR_DataFailCnt_S |>
                       <| ds_txstatus9 := AR_TxDone .| SM 77 AR_SeqNum AR_SeqNum_S |> in
  ∃ d h', ar5416ProcTxDesc_20 ads (hal_sample ∅) = Ok ((HAL_OK, d), h') ∧
    (ts_status (ds_txstat d) =? 0) = false ∧ ts_seqnum (ds_txstat d) = 77 ∧
    ts_shortretry (ds_txstat d) = 3 ∧ ts_longretry (ds_txstat d) = 5.
Proof.
  intros ads. destruct (ar5416ProcTxDesc_once ads (hal_sample ∅)) as [_ H].
  destruct H as (d & h' & E & _ & Hst & Hsq & Hs & Hl & _); [reflexivity|].
  exists d, h'. split; [exact E|]. split_and!; [rewrite Hst|rewrite Hsq|rewrite Hs|rewrite Hl]; reflexivity.
Defined.

Lemma ar5416UpdateTxTrigLevel_step_witness :
  ∃ a', ar5416UpdateTxTrigLevel true (hal_sample {[AR_TXCFG := 0x100105]}) = Ok (true, a') ∧
        MS (reg AR_TXCFG a') AR_FTRIG AR_FTRIG_S = 17.
Proof.
  destruct (ar5416UpdateTxTrigLevel_step true (hal_sample {[AR_TXCFG := 0x100105]}))
    as (a' & E & H & _). exists a'. split; [exact E|exact H].
Defined.

(** A clock that ticks at every read, about to carry into its upper half. *)
Definition clock_tsf (t : Z) : Z := Z.max 0 (Z.min t 18446744073709551615).
#[local] Instance clock : Mmio Z := {|
  hw_read r t := ((if r =? AR_TSF_L32 then clock_tsf t mod 4294967296
                   else if r =? AR_TSF_U32 then clock_tsf t `div` 4294967296 else 0), t + 1);
  hw_write r v t := t;
|}.
#[local] Instance clock_ok : TsfClock Z clock_tsf.
Proof. split; intros; cbn; unfold clock_tsf; try done; lia. Qed.

Lemma ar5416GetTsf64_linearizable_witness :
  let a := {| ah_hw := 12884901886; ah_intrTxqs := 0; ah_maskReg := 0; ah_caps := mk_caps true true |} in
  ∃ v a', ar5416GetTsf64 a = Ok (v, a') ∧ 12884901886 <= v <= 12884901891.
Proof.
  intros a. destruct (ar5416GetTsf64_linearizable clock_tsf a) as (v & a' & E & H).
  assert (Ok (v, a') = ar5416GetTsf64 a) as E' by by rewrite E.
  vm_compute in E'. injection E' as -> ->.
  eexists _, _. split; [exact E|]. apply H. reflexivity.
Defined.

