(* ===== verification/Tasklet.v ===== *)
(** * Tasklets (sboot/cmnos/tasklet/src/cmnos_tasklet.c)

    The bottom halves of the firmware: an interrupt handler schedules a tasklet, the main
    loop runs those that are scheduled. The scheduled tasklets are linked through their
    [next] fields, the most recent first. [K] names the tasklets. *)

From S2P Require Import Prelude.

Inductive A_TASKLET_STATE :=
  A_TASKLET_STATE_DISABLE | A_TASKLET_STATE_SCHEDULED | A_TASKLET_STATE_RUNNING.
#[export] Instance A_TASKLET_STATE_eq_dec : EqDecision A_TASKLET_STATE.
Proof. solve_decision. Defined.

(** [struct _tasklet], without the function and its argument: [K] stands for them. *)
Record A_tasklet_t (K : Type) := mk_tasklet { tk_state : A_TASKLET_STATE; tk_next : option K }.
Arguments mk_tasklet {K}. Arguments tk_state {K}. Arguments tk_next {K}.
#[export] Instance eta_tasklet {K} : EtaExp (A_tasklet_t K) := λ t, mk_tasklet (tk_state t) (tk_next t).

(** [g_tasklet_ctx] and the tasklets themselves. *)
Record tasklet_context (K : Type) := mk_tctx {
  schedule_tasks : option K; tasklet : K → A_tasklet_t K }.
Arguments mk_tctx {K}. Arguments schedule_tasks {K}. Arguments tasklet {K}.
#[export] Instance eta_tctx {K} : EtaExp (tasklet_context K) := λ c,
  mk_tctx (schedule_tasks c) (tasklet c).

Section tasklets.
Context {K : Type} `{!EqDecision K}.
Implicit Types (c : tasklet_context K) (k : K) (l : list K).

Definition upd_tk (k : K) (f : A_tasklet_t K → A_tasklet_t K) : tasklet_context K → tasklet_context K :=
  λ c, c <| tasklet ::= λ t j, if decide (j = k) then f (t j) else t j |>.

Definition cmnos_tasklet_init : tasklet_context K → tasklet_context K := λ c, c <| schedule_tasks := None |>.
Definition cmnos_tasklet_init_task (k : K) : tasklet_context K → tasklet_context K :=
  upd_tk k (λ _, mk_tasklet A_TASKLET_STATE_DISABLE None).

Definition cmnos_tasklet_schedule (k : K) : tasklet_context K → tasklet_context K := λ c,
  if decide (tk_state (tasklet c k) = A_TASKLET_STATE_SCHEDULED) then c else
  let c := upd_tk k (λ t, t <| tk_state := A_TASKLET_STATE_SCHEDULED |>) c in
  match schedule_tasks c with
  | None => c <| schedule_tasks := Some k |>
  | Some h => upd_tk k (λ t, t <| tk_next := Some h |>) c <| schedule_tasks := Some k |>
  end.

(** The walk along the list, cut at [fuel] links. *)
Fixpoint disable_loop (fuel : nat) (k : K) (prev tmp : option K) : M (tasklet_context K) unit :=
  match tmp with
  | None => mret tt
  | Some t =>
      match fuel with
      | O => fail OutOfFuel
      | S n =>
          c ← get;
          if decide (t = k) then
            match prev with
            | None => modify (λ c, c <| schedule_tasks := None |>)
            | Some p => modify (upd_tk p (λ x, x <| tk_next := tk_next (tasklet c t) |>))
            end ;;
            modify (upd_tk k (λ x, x <| tk_state := A_TASKLET_STATE_DISABLE |>))
          else disable_loop n k (Some t) (tk_next (tasklet c t))
      end
  end.
Definition cmnos_tasklet_disable (fuel : nat) (k : K) : M (tasklet_context K) unit :=
  c ← get;
  if decide (tk_state (tasklet c k) = A_TASKLET_STATE_SCHEDULED)
  then disable_loop fuel k None (schedule_tasks c) else mret tt.

End tasklets.

(** ** Running the tasklets of a larger state

    What a client promises: where its state keeps the context, and what each tasklet
    does. *)
Class HasTasklets (K S : Type) := {
  tq : S → tasklet_context K;
  upd_tq : (tasklet_context K → tasklet_context K) → S → S;
  func : K → M S unit;
}.
Class TaskletLaws (K S : Type) `{!HasTasklets K S} : Prop := {
  tq_upd : ∀ f (s : S), tq (upd_tq f s) = f (tq s);
}.

Section run.
Context {K S : Type} `{!EqDecision K} `{!HasTasklets K S}.

Definition upd_task (f : tasklet_context K → tasklet_context K) : M S unit := modify (upd_tq f).

(** [cmnos_tasklet_run]: takes the head off the list, runs it, until none is left; cut at
    [fuel] runs. *)
Fixpoint tasklet_run_loop (fuel : nat) (tmp : option K) : M S unit :=
  match tmp with
  | None => mret tt
  | Some k =>
      match fuel with
      | O => fail OutOfFuel
      | Datatypes.S n =>
          s ← get;
          upd_task (λ c, c <| schedule_tasks := tk_next (tasklet (tq s) k) |>) ;;
          upd_task (upd_tk k (λ t, t <| tk_next := None |>)) ;;
          upd_task (upd_tk k (λ t, t <| tk_state := A_TASKLET_STATE_RUNNING |>)) ;;
          func k ;;
          upd_task (upd_tk k (λ t, t <| tk_state := A_TASKLET_STATE_DISABLE |>)) ;;
          s ← get;
          tasklet_run_loop n (schedule_tasks (tq s))
      end
  end.
Definition cmnos_tasklet_run (fuel : nat) : M S unit :=
  s ← get;
  tasklet_run_loop fuel (schedule_tasks (tq s)) ;;
  upd_task (λ c, c <| schedule_tasks := None |>).

End run.

(** ** The list of scheduled tasklets *)
Section lists.
Context {K : Type} `{!EqDecision K}.
Implicit Types (c : tasklet_context K) (k : K) (l : list K).

(** The context holds exactly [l], in the order in which it would run them. *)
Definition tk_list (c : tasklet_context K) (l : list K) : Prop :=
  ochain (λ k, tk_next (tasklet c k)) (schedule_tasks c) l ∧ NoDup l ∧
  (∀ k, tk_state (tasklet c k) = A_TASKLET_STATE_SCHEDULED ↔ k ∈ l) ∧
  (∀ k, k ∉ l → tk_next (tasklet c k) = None).

Lemma upd_tk_same k f c : tasklet (upd_tk k f c) k = f (tasklet c k).
Proof. unfold upd_tk. cbn. by rewrite decide_True. Qed.
Lemma upd_tk_other k j f c : j ≠ k → tasklet (upd_tk k f c) j = tasklet c j.
Proof. intros. unfold upd_tk. cbn. by rewrite decide_False. Qed.

(** Scheduling puts a tasklet in front of those already scheduled, once: a tasklet
    that is on the list stays where it is. *)
Lemma cmnos_tasklet_schedule_once c l k :
  tk_list c l → tk_list (cmnos_tasklet_schedule k c) (if decide (k ∈ l) then l else k :: l).
Proof.
  intros (Hc & Hd & Hs & Hn). unfold cmnos_tasklet_schedule. case_decide as E.
  { apply Hs in E. by rewrite decide_True. }
  assert (k ∉ l) as Hk by (by rewrite <-Hs). rewrite decide_False by done.
  cbn. destruct (schedule_tasks c) as [h|] eqn:Eh.
  - split_and!; cbn.
    + split; [done|]. rewrite !decide_True by done. cbn. eapply ochain_ext; [|exact Hc].
      intros j Hj. cbn. by rewrite !decide_False by (by intros ->).
    + by constructor.
    + intros j. destruct (decide (j = k)) as [->|]; cbn; [set_solver|]. rewrite Hs. set_solver.
    + intros j. rewrite not_elem_of_cons. intros [? ?]. rewrite !decide_False by done. auto.
  - destruct l as [|? l]; [|by destruct Hc]. split_and!; cbn.
    + split; [done|]. rewrite decide_True by done. cbn. by apply Hn.
    + apply NoDup_singleton.
    + intros j. destruct (decide (j = k)) as [->|]; cbn; [set_solver|]. rewrite Hs. set_solver.
    + intros j. rewrite not_elem_of_cons. intros [? ?]. rewrite !decide_False by done. auto.
Qed.

(** Disabling the first tasklet of the list empties the list: the tasklets behind it are
    dropped, yet stay marked as scheduled, so that scheduling them again does nothing. *)
Lemma cmnos_tasklet_disable_head c k l fuel :
  tk_list c (k :: l) →
  ∃ c', cmnos_tasklet_disable (S fuel) k c = Ok (tt, c') ∧ schedule_tasks c' = None ∧
    Forall (λ j, cmnos_tasklet_schedule j c' = c') l.
Proof.
  intros ([Hh Hc] & Hd & Hs & Hn). apply NoDup_cons in Hd as [Hk Hd].
  eexists. split_and!.
  - unfold cmnos_tasklet_disable. run. rewrite decide_True by (apply Hs; by left).
    rewrite Hh. cbn. run. rewrite decide_True by done. run. reflexivity.
  - done.
  - apply Forall_forall. intros j Hj. unfold cmnos_tasklet_schedule. rewrite decide_True; [done|].
    rewrite upd_tk_other by (by intros ->). cbn. apply Hs. by right.
Qed.
End lists.

(** ** Running them all *)
Section run_all.
Context {K S : Type} `{!EqDecision K} `{!HasTasklets K S} `{!TaskletLaws K S}.
Implicit Types (s : S) (k : K) (l : list K).

Lemma run_upd_task f s : upd_task f s = Ok (tt, upd_tq f s).
Proof. done. Qed.

(** The bookkeeping before the first tasklet of the list runs. *)
Definition tk_running (k : K) (c : tasklet_context K) : tasklet_context K :=
  upd_tk k (λ t, t <| tk_state := A_TASKLET_STATE_RUNNING |>)
    (upd_tk k (λ t, t <| tk_next := None |>) (c <| schedule_tasks := tk_next (tasklet c k) |>)).
Lemma tk_list_running c k l :
  tk_list c (k :: l) →
  tk_list (upd_tk k (λ t, t <| tk_state := A_TASKLET_STATE_DISABLE |>) (tk_running k c)) l.
Proof.
  intros ([Hh Hc] & Hd & Hs & Hn). apply NoDup_cons in Hd as [Hk Hd]. unfold tk_running.
  assert (∀ j, tasklet (upd_tk k (λ t, t <| tk_state := A_TASKLET_STATE_DISABLE |>) (tk_running k c)) j =
            if decide (j = k) then mk_tasklet A_TASKLET_STATE_DISABLE None else tasklet c j) as Ht.
  { intros j. unfold tk_running, upd_tk. cbn. by case_decide. }
  split_and!; cbn.
  - eapply ochain_ext; [|exact Hc]. intros j Hj. cbn. by rewrite !decide_False by (by intros ->).
  - done.
  - intros j. specialize (Ht j). unfold tk_running, upd_tk in Ht. cbn in Ht. rewrite Ht.
    case_decide as E; [subst; cbn; set_solver|]. rewrite Hs. set_solver.
  - intros j Hj. specialize (Ht j). unfold tk_running, upd_tk in Ht. cbn in Ht. rewrite Ht.
    case_decide; [done|]. apply Hn. set_solver.
Qed.

(** A client invariant [I dn s], after the tasklets [dn] have run, that does not look at
    the scheduler, kept by tasklets that schedule nothing: then the whole list is run, in
    its order, once each, and is empty afterwards. *)
Lemma wp_tasklet_run (I : list K → S → Prop) l fuel s :
  (∀ dn f s, I dn s → I dn (upd_tq f s)) →
  (∀ dn k s, k ∈ l → I dn s → wp (func k) (λ _ s', tq s' = tq s ∧ I (dn ++ [k]) s') s) →
  tk_list (tq s) l → (length l <= fuel)%nat → I [] s →
  wp (cmnos_tasklet_run fuel) (λ _ s', I l s' ∧ tk_list (tq s') []) s.
Proof.
  intros Hu Hf Hl Hfuel HI. unfold cmnos_tasklet_run. wp_steps.
  apply wp_mono with (Q := λ _ s', I l s' ∧ tk_list (tq s') []).
  2: { intros _ s' [HI' (Hc & Hr)]. unfold upd_task. wp_steps. split; [by apply Hu|].
       rewrite tq_upd. by destruct Hr. }
  enough (∀ rest dn s fuel, l = dn ++ rest → (length rest <= fuel)%nat → tk_list (tq s) rest →
            I dn s → wp (tasklet_run_loop fuel (schedule_tasks (tq s)))
                        (λ _ s', I l s' ∧ tk_list (tq s') []) s) as H by by apply (H l []).
  clear s Hl HI Hfuel fuel. induction rest as [|k rest IH]; intros dn s fuel El Hfuel Hl HI.
  - pose proof Hl as [Hc _]. cbn in Hc. rewrite Hc. destruct fuel; cbn; rewrite El, app_nil_r; done.
  - pose proof Hl as [[Hh _] _]. rewrite Hh. destruct fuel as [|fuel]; [cbn in Hfuel; lia|].
    cbn [tasklet_run_loop]. unfold upd_task. wp_steps.
    eapply wp_mono; [apply (Hf dn k); [set_solver|by repeat apply Hu]|].
    intros _ s' [Hq HI']. wp_steps. apply (IH (dn ++ [k])).
    + by rewrite <-app_assoc.
    + cbn in Hfuel. lia.
    + rewrite tq_upd, Hq, !tq_upd. by apply tk_list_running.
    + by apply Hu.
Qed.
End run_all.
