(* ===== verification/Timer.v ===== *)
(** * Timers (sboot/cmnos/timer/src/cmnos_timer.c)

    The timers that wait are linked in the order of their expiry, as the 32-bit cycle counter
    will reach it; the main loop runs those that are due. [K] names the timers; the functions
    they call, by their addresses, and the counter are the client's. *)

From Stdlib Require Import Sorted.
From S2P Require Import Prelude.

Definition SYSTEM_FREQ : Z := 40.
Definition ONE_MSEC : Z := SYSTEM_FREQ * 1000.
Definition MILLIS_TO_TIMER_TICKS (ms : Z) : Z := u32 (ms * ONE_MSEC).
Definition TIMER_IS_EARLIER (t1 t2 : Z) : bool := s32 (t1 - t2) <=? 0.

(** [cmnos_timer_t] *)
Record cmnos_timer_t (K : Type) := mk_timer {
  timer_next : option K; timer_expire : Z; timer_period : Z; timer_function : Z; timer_arg : Z }.
Arguments mk_timer {K}. Arguments timer_next {K}. Arguments timer_expire {K}.
Arguments timer_period {K}. Arguments timer_function {K}. Arguments timer_arg {K}.
#[export] Instance eta_timer {K} : EtaExp (cmnos_timer_t K) := λ t,
  mk_timer (timer_next t) (timer_expire t) (timer_period t) (timer_function t) (timer_arg t).

(** [timer_list] and the timers themselves. *)
Record timers (K : Type) := mk_timers { timer_list : option K; timer : K → cmnos_timer_t K }.
Arguments mk_timers {K}. Arguments timer_list {K}. Arguments timer {K}.
#[export] Instance eta_timers {K} : EtaExp (timers K) := λ c, mk_timers (timer_list c) (timer c).

Section timers.
Context {K : Type} `{!EqDecision K}.
Implicit Types (c : timers K) (k : K) (l : list K).

Definition upd_tm (k : K) (f : cmnos_timer_t K → cmnos_timer_t K) : M (timers K) unit :=
  modify (λ c, c <| timer ::= λ t j, if decide (j = k) then f (t j) else t j |>).

Definition cmnos_timer_init : M (timers K) unit := modify (λ c, c <| timer_list := None |>).
Definition cmnos_timer_setfn (k : K) (pfunction parg : Z) : M (timers K) unit :=
  upd_tm k (λ t, t <| timer_next := None |> <| timer_expire := 0 |>
                   <| timer_function := pfunction |> <| timer_arg := parg |>).

(** The walk to the first timer at which [stop] holds, cut at [fuel] links: the timer before it and
    that timer. *)
Fixpoint walk_timers (fuel : nat) (stop : K → cmnos_timer_t K → bool) (prev curr : option K) :
    M (timers K) (option K * option K) :=
  match curr with
  | None => mret (prev, None)
  | Some h =>
      c ← get;
      if stop h (timer c h) then mret (prev, Some h) else
      match fuel with
      | O => fail OutOfFuel
      | S n => walk_timers n stop (Some h) (timer_next (timer c h))
      end
  end.
Definition set_link (prev next : option K) : M (timers K) unit :=
  match prev with
  | Some p => upd_tm p (λ t, t <| timer_next := next |>)
  | None => modify (λ c, c <| timer_list := next |>)
  end.

(** The part of [cmnos_timer_arm] after the expiry is known. *)
Definition timer_insert (fuel : nat) (k : K) (expire : Z) : M (timers K) unit :=
  c ← get;
  '(prev, curr) ← walk_timers fuel (λ _ t, TIMER_IS_EARLIER expire (timer_expire t)) None (timer_list c);
  upd_tm k (λ t, t <| timer_next := curr |>) ;;
  upd_tm k (λ t, t <| timer_expire := expire |>) ;;
  set_link prev (Some k).
Definition cmnos_timer_disarm (fuel : nat) (k : K) : M (timers K) unit :=
  c ← get;
  '(prev, curr) ← walk_timers fuel (λ h _, bool_decide (k = h)) None (timer_list c);
  match curr with
  | Some h => c ← get; set_link prev (timer_next (timer c h))
  | None => mret tt
  end ;;
  upd_tm k (λ t, t <| timer_next := None |> <| timer_period := 0 |>).
End timers.

(** A system with timers, a cycle counter and functions for them to call. *)
Class HasTimers (K S : Type) := {
  tms : S → timers K;
  set_tms : timers K → S → S;
  NOW : M S Z;
  call : Z → K → Z → M S unit }.
Class TimersLaws (K S : Type) `{!HasTimers K S} : Prop := {
  tms_set : ∀ c (s : S), tms (set_tms c s) = c }.

Section system.
Context {K S : Type} `{!EqDecision K} `{!HasTimers K S}.

Definition on_timers {A} (m : M (timers K) A) : M S A := λ s,
  match m (tms s) with Ok (a, c) => Ok (a, set_tms c s) | Fault f => Fault f end.

Definition cmnos_timer_arm (fuel : nat) (k : K) (milliseconds : Z) : M S unit :=
  let timer_ticks := MILLIS_TO_TIMER_TICKS milliseconds in
  now ← NOW;
  on_timers (timer_insert fuel k (u32 (now + timer_ticks))).

(** Cut at [fuel] timers. *)
Fixpoint cmnos_timer_handler (fuel : nat) : M S unit :=
  c ← gets tms;
  match timer_list c with
  | None => mret tt
  | Some h =>
      now ← NOW;
      if TIMER_IS_EARLIER (timer_expire (timer c h)) now then
        match fuel with
        | O => fail OutOfFuel
        | Datatypes.S n =>
            on_timers (modify (λ c, c <| timer_list := timer_next (timer c h) |>)) ;;
            on_timers (upd_tm h (λ t, t <| timer_next := None |>)) ;;
            call (timer_function (timer c h)) h (timer_arg (timer c h)) ;;
            cmnos_timer_handler n
        end
      else mret tt
  end.
End system.

(** ** Sorted lists *)
Section sorted.
Context {A : Type} (R : A → A → Prop).
Implicit Types l : list A.
Lemma StronglySorted_insert l1 x l2 :
  StronglySorted R (l1 ++ l2) → Forall (λ y, R y x) l1 → Forall (R x) l2 → StronglySorted R (l1 ++ x :: l2).
Proof.
  induction l1 as [|y l1 IH]; cbn; intros Hs H1 H2; [by constructor|].
  apply StronglySorted_inv in Hs as [Hs Hy]. apply Forall_cons in H1 as [Hyx H1].
  constructor; [by apply IH|]. apply Forall_app in Hy as [? ?]. apply Forall_app. split; [done|by constructor].
Qed.
Lemma StronglySorted_remove l1 x l2 :
  StronglySorted R (l1 ++ x :: l2) → StronglySorted R (l1 ++ l2).
Proof.
  induction l1 as [|y l1 IH]; cbn; intros [Hs Hy]%StronglySorted_inv; [done|].
  constructor; [by apply IH|]. apply Forall_app in Hy as [? [_ ?]%Forall_cons]. by apply Forall_app.
Qed.
Lemma StronglySorted_ext (R' : A → A → Prop) l :
  (∀ x y, x ∈ l → y ∈ l → R x y → R' x y) → StronglySorted R l → StronglySorted R' l.
Proof.
  induction l as [|x l IH]; intros Hr; [constructor|]. intros [Hs Hx]%StronglySorted_inv. constructor.
  - apply IH; [|done]. intros y z Hy Hz. apply Hr; by right.
  - rewrite Forall_forall in *. intros y Hy. apply Hr; [by left|by right|auto].
Qed.
End sorted.

Lemma filter_all {A} (P : A → Prop) `{!∀ x, Decision (P x)} l : Forall P l → filter P l = l.
Proof. induction 1; [done|]. rewrite filter_cons_True by done. by f_equal. Qed.

Lemma filter_none {A} (P : A → Prop) `{!∀ x, Decision (P x)} l : Forall (λ x, ¬ P x) l → filter P l = [].
Proof. induction 1; [done|]. by rewrite filter_cons_False. Qed.

(** ** Properties *)

(** How far the counter has to run from [base] to reach [t]. *)
Definition ahead (base t : Z) : Z := u32 (t - base).
(** Within half the range of the counter after [base]. *)
Definition near (base t : Z) : Prop := ahead base t < 2147483648.

Lemma TIMER_IS_EARLIER_near base t1 t2 :
  near base t1 → near base t2 → TIMER_IS_EARLIER t1 t2 = (ahead base t1 <=? ahead base t2).
Proof.
  unfold near, ahead, TIMER_IS_EARLIER, u32, s32. intros H1 H2.
  destruct (Z.leb_spec ((t1 - base) mod 4294967296) ((t2 - base) mod 4294967296));
    [apply Z.leb_le|apply Z.leb_gt]; mlia.
Qed.

Section lists.
Context {K : Type} `{!EqDecision K}.
Implicit Types (c : timers K) (k : K) (l : list K).

Definition expiry c k : Z := timer_expire (timer c k).
(** The list holds exactly [l], in the order of expiry as seen from [base]. *)
Record waiting (base : Z) c l : Prop := {
  w_chain : ochain (λ k, timer_next (timer c k)) (timer_list c) l;
  w_nodup : NoDup l;
  w_near : Forall (λ k, near base (expiry c k)) l;
  w_sorted : StronglySorted (λ j k, ahead base (expiry c j) <= ahead base (expiry c k)) l }.

Lemma run_upd_tm k f c :
  upd_tm k f c = Ok (tt, c <| timer ::= λ t j, if decide (j = k) then f (t j) else t j |>).
Proof. done. Qed.

(** The walk stops at the first timer of the list at which [stop] holds. *)
Lemma walk_timers_spec stop l : ∀ fuel c prev curr,
  ochain (λ k, timer_next (timer c k)) curr l → (length l <= fuel)%nat →
  ∃ l1 l2, l = l1 ++ l2 ∧ walk_timers fuel stop prev curr c = Ok (from_option Some prev (last l1), head l2, c) ∧
    Forall (λ k, stop k (timer c k) = false) l1 ∧
    from_option (λ k, stop k (timer c k) = true) True (head l2).
Proof.
  induction l as [|h l IH]; intros fuel c prev curr Hc Hf.
  - cbn in Hc. subst curr. exists [], []. by destruct fuel.
  - destruct Hc as [-> Hc]. destruct fuel as [|n]; [cbn in Hf; lia|]. cbn [walk_timers].
    rewrite (bind_ok _ _ _ _ _ (run_get _)). destruct (stop h (timer c h)) eqn:E.
    + by exists [], (h :: l).
    + destruct (IH n c (Some h) _ Hc) as (l1 & l2 & -> & Ew & Hl1 & Hl2); [cbn in Hf; lia|].
      exists (h :: l1), l2. split; [done|]. rewrite Ew. split; [|by split; [constructor|]].
      do 3 f_equal. destruct l1 as [|x l1]; [done|]. change (last (h :: x :: l1)) with (last (x :: l1)).
      by destruct (last (x :: l1)) eqn:El; [|apply last_None in El].
Qed.

(** All of a timer but its link. *)
Definition setting (t : cmnos_timer_t K) : Z * Z * Z * Z :=
  (timer_expire t, timer_period t, timer_function t, timer_arg t).
Definition next c k : option K := timer_next (timer c k).

(** Linking a list behind a segment. *)
Lemma set_link_spec c l1 l2 q q' :
  oseg (next c) (timer_list c) l1 q → NoDup l1 → ochain (next c) q' l2 → (∀ k, k ∈ l1 → k ∉ l2) →
  ∃ c', set_link (last l1) q' c = Ok (tt, c') ∧ ochain (next c') (timer_list c') (l1 ++ l2) ∧
    (∀ k, setting (timer c' k) = setting (timer c k)) ∧ (∀ k, k ∉ l1 → timer c' k = timer c k).
Proof.
  intros Hs Hnd Hc Hd. destruct l1 as [|x l1 _] using rev_ind.
  { eexists. split; [reflexivity|]. by split_and!. }
  rewrite last_snoc. eexists. split; [reflexivity|]. split_and!.
  - apply ochain_app. exists q'. split.
    + cbn. clear Hd Hc. revert Hs. generalize (timer_list c).
      induction l1 as [|y l1 IH]; intros p; cbn; [intros [-> _]; unfold next; cbn; by rewrite decide_True|].
      intros [-> Hs]. apply NoDup_cons in Hnd as [Hy Hnd]. split; [done|].
      match goal with |- oseg _ ?p _ _ => replace p with (next c y); [by apply IH|] end.
      unfold next. cbn. rewrite decide_False; [done|]. intros ->. apply Hy, elem_of_app. by right; left.
    + eapply ochain_ext; [|exact Hc]. intros k Hk. unfold next. cbn. rewrite decide_False; [done|].
      intros ->. apply (Hd x); [set_solver|done].
  - intros k. cbn. by case_decide.
  - intros k Hk. cbn. rewrite decide_False; [done|]. intros ->. set_solver.
Qed.

Lemma waiting_split base c l1 l2 :
  waiting base c (l1 ++ l2) → ∃ q, oseg (next c) (timer_list c) l1 q ∧ ochain (next c) q l2 ∧
    NoDup l1 ∧ NoDup l2 ∧ (∀ k, k ∈ l1 → k ∉ l2).
Proof.
  intros [(q & H1 & H2)%ochain_app (? & ? & ?)%NoDup_app _ _]. by exists q.
Qed.
Lemma head_chain nxt (q : option K) l : ochain nxt q l → head l = q.
Proof. destruct l; cbn; [done|]. by intros [-> _]. Qed.

Lemma timer_insert_run base fuel c l k e :
  waiting base c l → k ∉ l → near base e → (length l <= fuel)%nat →
  ∃ c' l1 l2, timer_insert fuel k e c = Ok (tt, c') ∧ l = l1 ++ l2 ∧ waiting base c' (l1 ++ k :: l2) ∧
    Forall (λ j, ahead base (expiry c j) < ahead base e) l1 ∧
    Forall (λ j, ahead base e <= ahead base (expiry c j)) l2 ∧
    expiry c' k = e ∧ (∀ j, j ≠ k → setting (timer c' j) = setting (timer c j)).
Proof.
  intros Hw Hk He Hf. pose proof Hw as [Hc Hnd Hn Hs].
  destruct (walk_timers_spec (λ _ t, TIMER_IS_EARLIER e (timer_expire t)) l fuel c None _ Hc Hf)
    as (l1 & l2 & -> & Ew & H1 & H2).
  destruct (waiting_split _ _ _ _ Hw) as (q & Hq1 & Hq2 & Hd1 & Hd2 & Hd).
  rewrite not_elem_of_app in Hk. destruct Hk as [Hk1 Hk2]. apply Forall_app in Hn as [Hn1 Hn2].
  set (c1 := c <| timer ::= λ t j, if decide (j = k) then t j <| timer_next := head l2 |> else t j |>
               <| timer ::= λ t j, if decide (j = k) then t j <| timer_expire := e |> else t j |>).
  assert (∀ j, j ≠ k → timer c1 j = timer c j) as Ho by (intros j Hj; cbn; by rewrite !decide_False).
  destruct (set_link_spec c1 l1 (k :: l2) q (Some k)) as (c' & E & Hc' & Hset & Hoth); [| done | | |].
  { eapply oseg_ext; [|exact Hq1]. intros j Hj. unfold next. rewrite Ho; [done|]. by intros ->. }
  { split; [done|]. replace (next c1 k) with q
      by (unfold next; cbn; rewrite !decide_True by done; by rewrite <-(head_chain _ _ _ Hq2)).
    eapply ochain_ext; [|exact Hq2]. intros j Hj. unfold next. rewrite Ho; [done|]. by intros ->. }
  { intros j Hj. rewrite not_elem_of_cons. split; [by intros ->|by apply Hd]. }
  assert (∀ j, j ≠ k → setting (timer c' j) = setting (timer c j)) as Hset' by (intros j Hj; by rewrite Hset, Ho).
  assert (∀ j, j ≠ k → expiry c' j = expiry c j) as Hexp by (intros j Hj; by injection (Hset' j Hj)).
  assert (expiry c' k = e) as Hek.
  { pose proof (Hset k) as Hx. unfold c1 in Hx. cbn in Hx. rewrite !decide_True in Hx by done. by injection Hx. }
  assert (Forall (λ j, ahead base (expiry c j) < ahead base e) l1) as Hl1.
  { rewrite Forall_forall in *. intros j Hj. specialize (H1 j Hj). cbn in H1.
    change (timer_expire (timer c j)) with (expiry c j) in H1.
    rewrite (TIMER_IS_EARLIER_near base _ _ He (Hn1 j Hj)) in H1. lia. }
  assert (Forall (λ j, ahead base e <= ahead base (expiry c j)) l2) as Hl2.
  { destruct l2 as [|h l2]; [constructor|]. cbn in H2.
    change (timer_expire (timer c h)) with (expiry c h) in H2.
    rewrite (TIMER_IS_EARLIER_near base _ _ He (Forall_inv Hn2)) in H2.
    assert (ahead base e <= ahead base (expiry c h)) as Hh by lia.
    constructor; [done|]. clear -Hs Hh. induction l1 as [|y l1 IH]; cbn in Hs; [|exact (IH (proj1 (StronglySorted_inv Hs)))].
    apply StronglySorted_inv in Hs as [_ Hs]. eapply Forall_impl; [exact Hs|]. cbn. intros. lia. }
  assert (∀ j, j ∈ l1 ++ l2 → expiry c' j = expiry c j) as Hexp' by (intros j Hj; apply Hexp; intros ->; set_solver).
  exists c', l1, l2. split.
  { unfold timer_insert. rewrite (bind_ok _ _ _ _ _ (run_get _)), (bind_ok _ _ _ _ _ Ew).
    rewrite (bind_ok _ _ _ _ _ (run_upd_tm _ _ _)), (bind_ok _ _ _ _ _ (run_upd_tm _ _ _)).
    rewrite <-E. by destruct (last l1). }
  split; [done|]. split; [|by split_and!]. split; [exact Hc'|..].
  - rewrite NoDup_app, NoDup_cons in *. split_and!; try done. intros j Hj. rewrite not_elem_of_cons.
    split; [by intros ->|by apply Hd].
  - apply Forall_app. split; [|constructor; [by rewrite Hek|]].
    + rewrite Forall_forall in *. intros j Hj. rewrite Hexp' by (apply elem_of_app; auto). auto.
    + rewrite Forall_forall in *. intros j Hj. rewrite Hexp' by (apply elem_of_app; auto). auto.
  - apply StronglySorted_insert.
    + eapply StronglySorted_ext; [|exact Hs]. intros x y Hx Hy. by rewrite !Hexp'.
    + rewrite Forall_forall in *. intros j Hj. rewrite Hek, Hexp' by (apply elem_of_app; auto). specialize (Hl1 j Hj). lia.
    + rewrite Forall_forall in *. intros j Hj. rewrite Hek, Hexp' by (apply elem_of_app; auto). auto.
Qed.

(** Changing a timer that does not wait keeps the list. *)
Lemma waiting_outside base c l k f :
  waiting base c l → k ∉ l →
  waiting base (c <| timer ::= λ t j, if decide (j = k) then f (t j) else t j |>) l.
Proof.
  intros [Hc Hnd Hn Hs] Hk.
  assert (∀ j, j ∈ l → timer (c <| timer ::= λ t j, if decide (j = k) then f (t j) else t j |>) j = timer c j) as Ht.
  { intros j Hj. cbn. rewrite decide_False; [done|]. by intros ->. }
  split; [|done|..].
  - eapply ochain_ext; [|exact Hc]. intros j Hj. by rewrite Ht.
  - rewrite Forall_forall in *. intros j Hj. unfold expiry. rewrite Ht by done. by apply Hn.
  - eapply StronglySorted_ext; [|exact Hs]. intros x y Hx Hy. unfold expiry. by rewrite !Ht.
Qed.

(** Taking a timer out of the list. *)
Lemma waiting_unlink base c l1 k l2 :
  waiting base c (l1 ++ k :: l2) →
  ∃ c', set_link (last l1) (next c k) c = Ok (tt, c') ∧ waiting base c' (l1 ++ l2) ∧
    ∀ j, setting (timer c' j) = setting (timer c j).
Proof.
  intros Hw. destruct (waiting_split _ _ _ _ Hw) as (q & Hq1 & [_ Hq2] & Hd1 & [Hk Hd2]%NoDup_cons & Hd).
  destruct (set_link_spec c l1 l2 q (next c k) Hq1 Hd1 Hq2) as (c' & E & Hc' & Hset & _).
  { intros j Hj ?. apply (Hd j Hj). by right. }
  destruct Hw as [_ _ Hn Hs]. exists c'. split; [done|]. split; [|done].
  assert (∀ j, expiry c' j = expiry c j) as He by (intros j; by injection (Hset j)).
  apply Forall_app in Hn as [Hn1 [_ Hn2]%Forall_cons].
  split; [done|..].
  - apply NoDup_app. split_and!; try done. intros j Hj ?. apply (Hd j Hj). by right.
  - apply Forall_app. split; eapply Forall_impl; try done; cbn; intros j; by rewrite He.
  - apply StronglySorted_remove in Hs. eapply StronglySorted_ext; [|exact Hs]. intros x y _ _. by rewrite !He.
Qed.

Lemma timer_disarm_run base fuel c l k :
  waiting base c l → (length l <= fuel)%nat →
  ∃ c', cmnos_timer_disarm fuel k c = Ok (tt, c') ∧ waiting base c' (filter (λ j, j ≠ k) l) ∧
    timer_next (timer c' k) = None ∧ (∀ j, j ≠ k → setting (timer c' j) = setting (timer c j)).
Proof.
  intros Hw Hf. pose proof Hw as [Hc Hnd _ _].
  destruct (walk_timers_spec (λ h _, bool_decide (k = h)) l fuel c None _ Hc Hf) as (l1 & l2 & -> & Ew & H1 & H2).
  assert (filter (λ j, j ≠ k) l1 = l1) as Hf1.
  { apply filter_all. eapply Forall_impl; [exact H1|]. cbn. by intros j ?%bool_decide_eq_false ->. }
  unfold cmnos_timer_disarm. rewrite (bind_ok _ _ _ _ _ (run_get _)), (bind_ok _ _ _ _ _ Ew).
  rewrite filter_app, Hf1. destruct l2 as [|h l2]; cbn [head].
  - rewrite (bind_ok _ _ _ _ _ (run_ret _ _)), run_upd_tm, filter_nil. rewrite app_nil_r in *.
    eexists. split; [reflexivity|].
    split; [|by split; [cbn; rewrite decide_True|intros j Hj; cbn; rewrite decide_False]].
    apply (waiting_outside _ _ _ _ (λ t, t <| timer_next := None |> <| timer_period := 0 |>)); [done|]. intros Hk.
    rewrite Forall_forall in H1. specialize (H1 k Hk). cbn in H1. by apply bool_decide_eq_false in H1.
  - cbn in H2. apply bool_decide_eq_true in H2 as <-.
    destruct (waiting_unlink _ _ _ _ _ Hw) as (c' & E & Hw' & Hset).
    assert (set_link (from_option Some None (last l1)) (timer_next (timer c k)) c = Ok (tt, c')) as E'
      by (rewrite <-E; by destruct (last l1)).
    erewrite bind_ok by (rewrite (bind_ok _ _ _ _ _ (run_get _)); exact E').
    apply NoDup_app in Hnd as (_ & Hd & [Hk _]%NoDup_cons).
    assert (k ∉ l1 ++ l2) as Hk'. { rewrite not_elem_of_app. split; [|done]. intros ?. apply (Hd k); [done|by left]. }
    rewrite filter_cons_False by (intros ?; done).
    assert (filter (λ j, j ≠ k) l2 = l2) as ->.
    { apply filter_all, Forall_forall. by intros j Hj ->. }
    rewrite run_upd_tm. eexists. split; [reflexivity|]. split; [by apply (waiting_outside _ _ _ _ (λ t, t <| timer_next := None |> <| timer_period := 0 |>))|].
    split; [cbn; by rewrite decide_True|]. intros j Hj. cbn. rewrite decide_False by done. apply Hset.
Qed.
End lists.

(** ** The system's timers *)
Section handler.
Context {K S : Type} `{!EqDecision K} `{!HasTimers K S} `{!TimersLaws K S}.
Implicit Types (s : S) (k : K) (l : list K).

Lemma run_on_timers {A} (m : M (timers K) A) s a c :
  m (tms s) = Ok (a, c) → on_timers m s = Ok (a, set_tms c s).
Proof. unfold on_timers. by intros ->. Qed.

(** C24: arming a timer that does not wait puts it where its expiry belongs: behind the timers
    that expire earlier, before those that do not, so that the list stays in the order in which
    the wrapping counter reaches the expiries, when they all lie within half its range of a
    common time. *)
Theorem cmnos_timer_arm_sorts base fuel k ms s now s1 l :
  NOW s = Ok (now, s1) → waiting base (tms s1) l → k ∉ l → (length l <= fuel)%nat →
  near base (u32 (now + u32 (ms * ONE_MSEC))) →
  ∃ c l1 l2, cmnos_timer_arm fuel k ms s = Ok (tt, set_tms c s1) ∧ l = l1 ++ l2 ∧
    waiting base c (l1 ++ k :: l2) ∧ expiry c k = u32 (now + u32 (ms * ONE_MSEC)) ∧
    Forall (λ j, TIMER_IS_EARLIER (expiry c k) (expiry c j) = false) l1 ∧
    Forall (λ j, TIMER_IS_EARLIER (expiry c k) (expiry c j) = true) l2 ∧
    (∀ j, j ≠ k → setting (timer c j) = setting (timer (tms s1) j)).
Proof.
  intros E Hw Hk Hf He.
  destruct (timer_insert_run _ _ _ _ _ _ Hw Hk He Hf) as (c & l1 & l2 & Ei & -> & Hw' & H1 & H2 & Hek & Hset).
  exists c, l1, l2. split.
  { unfold cmnos_timer_arm. rewrite (bind_ok _ _ _ _ _ E). by apply run_on_timers. }
  split; [done|]. split; [done|]. split; [done|].
  pose proof (w_near _ _ _ Hw') as [Hn1 [Hnk Hn2]%Forall_cons]%Forall_app.
  assert (∀ j, j ∈ l1 ++ l2 → expiry c j = expiry (tms s1) j) as Hj.
  { intros j Hj. assert (j ≠ k) as Hjk by (by intros ->). by injection (Hset j Hjk). }
  split; [|split; [|exact Hset]]; rewrite Forall_forall in *; intros j Hin.
  - rewrite (TIMER_IS_EARLIER_near base _ _ Hnk (Hn1 j Hin)), Hek, Hj by (apply elem_of_app; auto).
    specialize (H1 j Hin). lia.
  - rewrite (TIMER_IS_EARLIER_near base _ _ Hnk (Hn2 j Hin)), Hek, Hj by (apply elem_of_app; auto).
    specialize (H2 j Hin). lia.
Qed.

(** Taking the first timer off the list. *)
Lemma timer_pop base c k l :
  waiting base c (k :: l) →
  ∃ c1 c2, timer_list c = Some k ∧
    modify (λ c', c' <| timer_list := timer_next (timer c k) |>) c = Ok (tt, c1) ∧
    upd_tm k (λ t, t <| timer_next := None |>) c1 = Ok (tt, c2) ∧ waiting base c2 l ∧
    ∀ j, setting (timer c2 j) = setting (timer c j).
Proof.
  intros Hw. pose proof Hw as [[Hh _] [Hk _]%NoDup_cons _ _].
  destruct (waiting_unlink base c [] k l Hw) as (c1 & E & Hw1 & Hset).
  eexists c1, _. split; [done|]. split; [exact E|]. split; [reflexivity|]. split.
  - by apply (waiting_outside _ _ _ _ (λ t, t <| timer_next := None |>)).
  - intros j. rewrite <-Hset. cbn. by case_decide.
Qed.

(** The client: an invariant [I dn] after the timers [dn] have fired, that does not look at the
    timers, a counter that runs forward from [base] and functions that leave the timers alone. *)
Context (base : Z) (clk : S → Z) (I : list K → S → Prop).
Record timer_client l : Prop := {
  tc_set : ∀ dn c s, I dn s → I dn (set_tms c s);
  tc_clk : ∀ c s, clk (set_tms c s) = clk s;
  tc_now : ∀ dn s, I dn s → wp NOW (λ r s', tms s' = tms s ∧ I dn s' ∧ clk s' = r ∧ near base r ∧
                                    ahead base (clk s) <= ahead base r) s;
  tc_call : ∀ dn k s, k ∈ l → I dn s →
    wp (call (timer_function (timer (tms s) k)) k (timer_arg (timer (tms s) k)))
       (λ _ s', tms s' = tms s ∧ I (dn ++ [k]) s' ∧ ahead base (clk s) <= ahead base (clk s')) s }.

Lemma timer_handler_run l : timer_client l → ∀ rest dn fuel s (e : K → Z),
  l = dn ++ rest → (length rest <= fuel)%nat → waiting base (tms s) rest → I dn s →
  (∀ k, expiry (tms s) k = e k) → Forall (λ k, ahead base (e k) <= ahead base (clk s)) dn →
  wp (cmnos_timer_handler fuel) (λ _ s', ∃ d rest', rest = d ++ rest' ∧ I (dn ++ d) s' ∧
    waiting base (tms s') rest' ∧ Forall (λ k, ahead base (e k) <= ahead base (clk s')) (dn ++ d) ∧
    Forall (λ k, ahead base (clk s') < ahead base (e k)) rest') s.
Proof.
  intros [Hset Hclk Hnow Hcall]. induction rest as [|k rest IH]; intros dn fuel s e El Hf Hw HI He Hd.
  - pose proof (w_chain _ _ _ Hw) as Hc. cbn in Hc.
    apply wp_mono with (Q := λ _ s', s' = s).
    { destruct fuel; cbn [cmnos_timer_handler]; apply wp_bind, wp_gets; rewrite Hc; by apply wp_ret. }
    intros _ s' ->. exists [], []. rewrite (app_nil_r dn). do 3 (split; [done|]). split; [done|constructor].
  - destruct (timer_pop _ _ _ _ Hw) as (c1 & c2 & Hh & E1 & E2 & Hw2 & Hset2).
    destruct fuel as [|n]; [cbn in Hf; lia|]. cbn [cmnos_timer_handler].
    apply wp_bind, wp_gets. rewrite Hh. apply wp_bind.
    eapply wp_mono; [by apply (Hnow dn)|]. intros r s1 (Ht1 & HI1 & Hr & Hnr & Hfw).
    change (timer_expire (timer (tms s) k)) with (expiry (tms s) k).
    pose proof (w_near _ _ _ Hw) as [Hnk _]%Forall_cons.
    rewrite (TIMER_IS_EARLIER_near base _ _ Hnk Hnr), He.
    destruct (Z.leb_spec (ahead base (e k)) (ahead base r)) as [Hle|Hgt].
    + apply wp_bind. eapply wp_ok; [apply run_on_timers; rewrite Ht1; exact E1|].
      apply wp_bind. eapply wp_ok; [apply run_on_timers; rewrite tms_set; exact E2|].
      set (s2 := set_tms c2 (set_tms c1 s1)).
      assert (timer (tms s2) k = timer c2 k) as Htk by (unfold s2; by rewrite tms_set).
      assert (setting (timer (tms s2) k) = setting (timer (tms s) k)) as Es by (by rewrite Htk).
      injection Es as _ _ Ef Ea. rewrite <-Ef, <-Ea.
      apply wp_bind. eapply wp_mono; [apply (Hcall dn); [subst l; set_solver|by do 2 apply Hset]|].
      intros _ s3 (Ht3 & HI3 & Hc3).
      assert (clk s2 = r) as Hc2 by (unfold s2; by rewrite !Hclk).
      eapply wp_mono; [apply (IH (dn ++ [k]) n s3 e)|].
      * by rewrite El, <-app_assoc.
      * cbn in Hf. lia.
      * rewrite Ht3. unfold s2. by rewrite tms_set.
      * done.
      * intros j. rewrite Ht3. unfold s2. rewrite tms_set, <-(He j). by injection (Hset2 j).
      * rewrite Hc2 in Hc3. apply Forall_app. split; [|constructor; [lia|constructor]].
        eapply Forall_impl; [exact Hd|]. cbn. intros. lia.
      * intros _ s' (d & rest' & -> & HI' & Hw' & Hd' & Hr'). exists (k :: d), rest'.
        by rewrite <-app_assoc in *.
    + apply wp_ret. exists [], (k :: rest). rewrite (app_nil_r dn), Ht1. split; [done|]. split; [done|]. split; [done|].
      rewrite Hr. split; [eapply Forall_impl; [exact Hd|]; cbn; intros; lia|].
      pose proof (w_sorted _ _ _ Hw) as [_ Hs]%StronglySorted_inv.
      constructor; [done|]. eapply Forall_impl; [exact Hs|]. cbn. intros j. rewrite !He. lia.
Qed.

(** C23: when the functions of the timers leave the timers alone (one that arms its own timer
    again, as the repository's test_timer does, is not covered) and the counter runs forward
    without coming too far from the base the expiry times are near to, one run of the timers
    ends, and calls the functions of exactly those timers that were due
    when it last read the counter, each once and in the order of their expiry; the others go
    on waiting. *)
Theorem cmnos_timer_handler_fires_due l fuel s :
  timer_client l → waiting base (tms s) l → (length l <= fuel)%nat → I [] s →
  wp (cmnos_timer_handler fuel) (λ _ s',
    let due := filter (λ k, ahead base (expiry (tms s) k) <= ahead base (clk s')) l in
    I due s' ∧ ∃ rest, l = due ++ rest ∧ waiting base (tms s') rest) s.
Proof.
  intros Hcl Hw Hf HI.
  eapply wp_mono; [by apply (timer_handler_run l Hcl l [] fuel s (expiry (tms s)))|].
  intros _ s' (d & rest & -> & HI' & Hw' & Hd & Hr). cbn [app] in *.
  assert (filter (λ k, ahead base (expiry (tms s) k) <= ahead base (clk s')) (d ++ rest) = d) as E.
  { rewrite filter_app, (filter_all _ d Hd), (filter_none _ rest), app_nil_r; [done|].
    eapply Forall_impl; [exact Hr|]. cbn. intros. lia. }
  cbv zeta. rewrite E. split; [done|]. by exists rest.
Qed.
End handler.

Section again.
Context {K : Type} `{!EqDecision K}.
Implicit Types (c : timers K) (k : K) (l : list K).

(** Disarming takes back what arming did. *)
Lemma arm_disarm base fuel fuel' c l k e :
  waiting base c l → k ∉ l → near base e → (length l <= fuel)%nat → (length l < fuel')%nat →
  ∃ c1 c2, timer_insert fuel k e c = Ok (tt, c1) ∧ cmnos_timer_disarm fuel' k c1 = Ok (tt, c2) ∧
    waiting base c2 l.
Proof.
  intros Hw Hk He Hf Hf'.
  destruct (timer_insert_run _ _ _ _ _ _ Hw Hk He Hf) as (c1 & l1 & l2 & E1 & -> & Hw1 & _).
  destruct (timer_disarm_run base fuel' c1 (l1 ++ k :: l2) k Hw1) as (c2 & E2 & Hw2 & _).
  { rewrite length_app in *. cbn. lia. }
  exists c1, c2. split; [done|]. split; [done|].
  rewrite not_elem_of_app in Hk. destruct Hk as [Hk1 Hk2].
  rewrite filter_app, filter_cons_False, !filter_all in Hw2; [done|..];
    try (apply Forall_forall; by intros j Hj ->); by intros ?.
Qed.

(** Arming again a timer that waits alone and expires earlier than it shall now links it to
    itself: every later walk along the list that does not stop at it goes round for ever. *)
Lemma arm_again_cycles n k e c :
  timer_list c = Some k → timer_next (timer c k) = None → TIMER_IS_EARLIER e (timer_expire (timer c k)) = false →
  ∃ c', timer_insert (S n) k e c = Ok (tt, c') ∧ timer_list c' = Some k ∧ timer_next (timer c' k) = Some k.
Proof.
  intros Hl Hn He. eexists. unfold timer_insert. rewrite (bind_ok _ _ _ _ _ (run_get _)), Hl.
  cbn [walk_timers]. erewrite bind_ok by (rewrite (bind_ok _ _ _ _ _ (run_get _)), He, Hn; destruct n; reflexivity).
  split; [reflexivity|]. cbn. by rewrite !decide_True.
Qed.
Lemma walk_cycle_ends_not stop prev k c :
  timer_next (timer c k) = Some k → stop k (timer c k) = false →
  ∀ fuel, walk_timers fuel stop prev (Some k) c = Fault OutOfFuel.
Proof.
  intros Hn Hs fuel. revert prev. induction fuel as [|fuel IH]; intros prev; cbn [walk_timers];
    rewrite (bind_ok _ _ _ _ _ (run_get _)), Hs; [done|]. by rewrite Hn.
Qed.
End again.

(** ** A small system *)
Record clockwork := mk_cw { cw_timers : timers nat; cw_now : Z; cw_log : list nat }.
#[local] Instance cw_has_timers : HasTimers nat clockwork := {|
  tms := cw_timers;
  set_tms c s := mk_cw c (cw_now s) (cw_log s);
  NOW s := Ok (cw_now s, s);
  call _ k _ s := Ok (tt, mk_cw (cw_timers s) (cw_now s) (cw_log s ++ [k])) |}.
#[local] Instance cw_laws : TimersLaws nat clockwork.
Proof. done. Qed.
(** The counter is about to wrap; timers 1, 2 and 3 wait. *)
Definition cw_sample : clockwork :=
  mk_cw (mk_timers (Some 1%nat) (λ k, mk_timer (nth k [None; Some 2; Some 3; None]%nat None)
           (nth k [0; 4294967290; 10; 500000] 0) 0 0 0)) 20 [].
Lemma cw_waiting : waiting 4294967000 (tms cw_sample) [1; 2; 3]%nat.
Proof.
  split; [by vm_compute|..].
  - apply (bool_decide_unpack _). vm_compute. exact I.
  - repeat constructor.
  - repeat constructor; vm_compute; discriminate.
Qed.
Lemma cmnos_timer_handler_fires_due_witness :
  wp (cmnos_timer_handler 3) (λ _ s', cw_log s' = [1; 2]%nat ∧ waiting 4294967000 (tms s') [3%nat]) cw_sample.
Proof.
  assert (timer_client (K := nat) 4294967000 cw_now (λ dn s, cw_log s = dn ∧ cw_now s = 20) [1; 2; 3]%nat) as Hcl.
  { split.
    - done.
    - done.
    - intros dn s [HL HN]. cbn. unfold wp. cbn. rewrite HN. by vm_compute.
    - intros dn k s _ [HL HN]. unfold wp. cbn. by rewrite HL. }
  eapply wp_mono; [apply (cmnos_timer_handler_fires_due 4294967000 cw_now (λ dn s, cw_log s = dn ∧ cw_now s = 20)
    [1; 2; 3]%nat 3 cw_sample Hcl cw_waiting); [cbn; lia|done]|].
  intros _ s' [[HL HN] (rest & El & Hw)]. rewrite HN in HL, El.
  assert (cw_log s' = [1; 2]%nat) as HL' by (rewrite HL; by vm_compute). split; [exact HL'|].
  assert (rest = [3%nat]) as <-; [|exact Hw].
  vm_compute in El. by injection El.
Defined.
Lemma cmnos_timer_arm_sorts_witness :
  ∃ c l1 l2, cmnos_timer_arm 3 4%nat 1 cw_sample = Ok (tt, set_tms c cw_sample) ∧ [1; 2; 3]%nat = l1 ++ l2 ∧
    waiting 4294967000 c (l1 ++ 4%nat :: l2) ∧ expiry c 4%nat = 40020.
Proof.
  destruct (cmnos_timer_arm_sorts 4294967000 3 4%nat 1 cw_sample 20 cw_sample [1; 2; 3]%nat)
    as (c & l1 & l2 & E & El & Hw & He & _); [reflexivity|exact cw_waiting|set_solver|cbn; lia|by vm_compute|].
  exists c, l1, l2. exact (conj E (conj El (conj Hw He))).
Defined.
