(* ===== verification/Dma.v ===== *)
(** * The DMA engine's queues (sboot/dma_engine/src/desc.c, dma_engine.c)

    A queue is a chain of descriptors that the USB DMA engine walks, up to a terminator that
    stands for "nothing yet". A packet is added by copying its first descriptor into the
    terminator and making that first descriptor the new terminator, so that the engine never
    sees a half-made list. Each descriptor lies inside a VDESC, which carries the buffer: the
    two VDESCs swap their buffers with the descriptors.

    The build is the one of sboot/inc/magpie/rom_cfg.h: no loopback, and the engine swaps the
    bytes itself ([ENABLE_SWAP_DATA_MODE]). *)

From S2P Require Import Prelude.
From S2P Require Import NBuf.

Definition ZM_OWN_BITS_MASK : Z := 0x3.
Definition ZM_OWN_BITS_SW : Z := 0x0.
Definition ZM_OWN_BITS_HW : Z := 0x1.
Definition ZM_OWN_BITS_SE : Z := 0x2.
Definition ZM_LS_BIT : Z := 0x100.
Definition ZM_FS_BIT : Z := 0x200.

Record zsDmaDesc := mk_dd {
  ctrl : Z; status : Z; totalLen : Z; dataSize : Z; lastAddr : Z; dataAddr : Z; nextAddr : Z }.
#[export] Instance eta_zsDmaDesc : EtaExp zsDmaDesc := λ d,
  mk_dd (ctrl d) (status d) (totalLen d) (dataSize d) (lastAddr d) (dataAddr d) (nextAddr d).
Record zsDmaQueue := mk_dq { head : Z; terminator : Z }.
#[export] Instance eta_zsDmaQueue : EtaExp zsDmaQueue := λ q, mk_dq (head q) (terminator q).
(** A transmit queue also lists the buffers that are on their way. *)
Record zsTxDmaQueue := mk_txdq { tx_dq : zsDmaQueue; xmited_buf_head : Z; xmited_buf_tail : Z }.
#[export] Instance eta_zsTxDmaQueue : EtaExp zsTxDmaQueue := λ q,
  mk_txdq (tx_dq q) (xmited_buf_head q) (xmited_buf_tail q).

(** The buffers' heap, with the contents of [hw_desc_buf] of every VDESC as the descriptor it
    is used as, by its address. *)
Record dma := mk_dma { dm_nb : nb_state; dm_desc : gmap Z zsDmaDesc }.
#[export] Instance eta_dma : EtaExp dma := λ m, mk_dma (dm_nb m) (dm_desc m).
Abbreviation DM := (M dma).

Definition dnb {A} (m : NB A) : DM A := λ s,
  match m (dm_nb s) with Ok (a, n) => Ok (a, s <| dm_nb := n |>) | Fault f => Fault f end.
Definition rd_dd (p : Z) : DM zsDmaDesc := s ← get; deref (dm_desc s !! p).
Definition upd_dd (p : Z) (f : zsDmaDesc → zsDmaDesc) : DM unit :=
  d ← rd_dd p; modify (λ s, s <| dm_desc ::= <[p := f d]> |>).

(** [hw_desc_buf] is 16 bytes into the VDESC. *)
Definition VDESC_HW_TO_VDESC (hwdesc : Z) : Z := hwdesc - 16.
Definition VDESC_get_hw_desc (desc : Z) : Z := desc + 16.
Definition own (d : zsDmaDesc) : Z := status d .& ZM_OWN_BITS_MASK.

(** ** desc.c *)

(** The first descriptor of a packet the engine is done with, or 0. *)
Definition zfDmaGetPacket (q : zsDmaQueue) : DM (Z * zsDmaQueue) :=
  if head q =? terminator q then mret (0, q) else
  d ← rd_dd (head q);
  if (own d =? ZM_OWN_BITS_SW) || (own d =? ZM_OWN_BITS_SE) then
    l ← rd_dd (lastAddr d);
    mret (head q, q <| head := nextAddr l |>)
  else mret (0, q).

(** The descriptors of the packet [desc], from [tmpDesc] on, cut at [fuel]. *)
Fixpoint own_loop (fuel : nat) (f : zsDmaDesc → zsDmaDesc) (desc tmpDesc : Z) : DM unit :=
  match fuel with
  | O => fail OutOfFuel
  | S n =>
      upd_dd tmpDesc f ;;
      d ← rd_dd desc;
      if lastAddr d =? tmpDesc then mret tt else
      t ← rd_dd tmpDesc;
      own_loop n f desc (nextAddr t)
  end.
(** The end of both ways to add a packet: the copy of its first descriptor into the terminator,
    whose own bits are set last. *)
Definition hand_over (q : zsDmaQueue) (desc : Z) : DM zsDmaQueue :=
  tdesc ← rd_dd desc;
  upd_dd desc (λ d, d <| status ::= λ x, x .&~ ZM_OWN_BITS_MASK |>) ;;
  dnb (_vdesc_swap_vdesc (VDESC_HW_TO_VDESC (terminator q)) (VDESC_HW_TO_VDESC desc)) ;;
  upd_dd (terminator q) (λ _, tdesc <| status ::= λ x, x .&~ ZM_OWN_BITS_MASK |>) ;;
  upd_dd (terminator q) (λ d, d <| status ::= λ x, x .| ZM_OWN_BITS_HW |>) ;;
  mret (q <| terminator := desc |>).
Definition zfDmaReclaimPacket (q : zsDmaQueue) (desc : Z) : DM zsDmaQueue :=
  s ← get;
  own_loop (size (dm_desc s)) (λ d, d <| status := ZM_OWN_BITS_HW |> <| ctrl := 0 |> <| totalLen := 0 |>)
    desc desc ;;
  d ← rd_dd desc;
  upd_dd (lastAddr d) (λ l, l <| nextAddr := desc |>) ;;
  hand_over q desc.
Definition zfDmaPutPacket (q : zsDmaQueue) (desc : Z) : DM zsDmaQueue :=
  s ← get;
  own_loop (size (dm_desc s)) (λ d, d <| status ::= λ x, (x .&~ ZM_OWN_BITS_MASK) .| ZM_OWN_BITS_HW |>)
    desc desc ;;
  d ← rd_dd desc;
  upd_dd (lastAddr d) (λ l, l <| nextAddr := desc |>) ;;
  when (lastAddr d =? desc) (upd_dd desc (λ d, d <| lastAddr := terminator q |>)) ;;
  hand_over q desc.

(** ** dma_engine.c *)
Definition init_usb_desc (usbDesc : Z) : DM unit := upd_dd usbDesc (λ _, mk_dd 0 ZM_OWN_BITS_SW 0 0 0 0 0).

Definition _DMAengine_init_rx_queue (q : zsDmaQueue) : DM zsDmaQueue :=
  desc ← dnb _vdesc_alloc_desc;
  if desc =? 0 then mret q else
  init_usb_desc (VDESC_get_hw_desc desc) ;;
  mret (mk_dq (VDESC_get_hw_desc desc) (VDESC_get_hw_desc desc)).
Definition _DMAengine_init_tx_queue (q : zsTxDmaQueue) : DM zsTxDmaQueue :=
  dq ← _DMAengine_init_rx_queue (tx_dq q);
  mret (mk_txdq dq 0 0).

(** A walk along the VDESCs from [theDesc], linking their descriptors: the last and the first
    of them. [fill] sets the fields of one; [first] tells it whether it is the first. *)
Fixpoint link_descs (fuel : nat) (fill : bool → Z → DM unit) (theDesc prevUsbDesc headUsbDesc : Z) :
    DM (Z * Z) :=
  if theDesc =? 0 then mret (prevUsbDesc, headUsbDesc) else
  match fuel with
  | O => fail OutOfFuel
  | S n =>
      let usbDesc := VDESC_get_hw_desc theDesc in
      fill (prevUsbDesc =? 0) theDesc ;;
      unless (prevUsbDesc =? 0) (upd_dd prevUsbDesc (λ d, d <| nextAddr := usbDesc |>)) ;;
      v ← dnb (rd_vdesc theDesc);
      link_descs n fill (next_desc v) usbDesc (if prevUsbDesc =? 0 then usbDesc else headUsbDesc)
  end.
Definition fill_rx (first : bool) (theDesc : Z) : DM unit :=
  let usbDesc := VDESC_get_hw_desc theDesc in
  init_usb_desc usbDesc ;;
  dnb (upd_vdesc theDesc (λ v, v <| data_offset := 0 |>)) ;;
  v ← dnb (rd_vdesc theDesc);
  upd_dd usbDesc (λ d, d <| dataAddr := u32 (buf_addr v + data_offset v) |>) ;;
  upd_dd usbDesc (λ d, d <| dataSize := buf_size v |>).
(** Without a VDESC the first descriptor is never assigned. *)
Definition config_queue (q : zsDmaQueue) (desc_list : Z) : DM zsDmaQueue :=
  s ← get;
  '(prevUsbDesc, headUsbDesc) ← link_descs (size (vdescs (dm_nb s))) fill_rx desc_list 0 0;
  if prevUsbDesc =? 0 then fail UninitRead else
  upd_dd headUsbDesc (λ d, d <| lastAddr := prevUsbDesc |>) ;;
  zfDmaReclaimPacket q headUsbDesc.

Definition new_rx_desc (buf_size : Z) (hd : Z) : DM Z :=
  desc ← dnb _vdesc_alloc_desc;
  assert_ (negb (desc =? 0)) ;;
  a ← dnb (A_ALLOCRAM buf_size);
  dnb (upd_vdesc desc (λ v, v <| buf_addr := a |> <| NBuf.buf_size := u16 buf_size |> <| next_desc := 0 |>
                              <| data_offset := 0 |> <| data_size := 0 |> <| control := 0 |>)) ;;
  unless (hd =? 0) (dnb (upd_vdesc desc (λ v, v <| next_desc := hd |>))) ;;
  mret desc.
Fixpoint new_rx_descs (n : nat) (buf_size : Z) (hd : Z) : DM Z :=
  match n with
  | O => mret hd
  | S n => hd ← new_rx_desc buf_size hd; new_rx_descs n buf_size hd
  end.
Definition _DMAengine_config_rx_queue (q : zsDmaQueue) (num_desc buf_size : Z) : DM zsDmaQueue :=
  hd ← new_rx_descs (Z.to_nat num_desc) buf_size 0;
  config_queue q hd.
Definition _DMAengine_return_recv_buf (q : zsDmaQueue) (buf : Z) : DM zsDmaQueue :=
  b ← dnb (rd_vbuf buf);
  q ← config_queue q (desc_list b);
  dnb (_vbuf_free_vbuf buf) ;;
  mret q.

Definition fill_tx (buf_len : Z) (first : bool) (theDesc : Z) : DM unit :=
  let usbDesc := VDESC_get_hw_desc theDesc in
  init_usb_desc usbDesc ;;
  v ← dnb (rd_vdesc theDesc);
  upd_dd usbDesc (λ d, d <| dataSize := data_size v |>) ;;
  upd_dd usbDesc (λ d, d <| dataAddr := u32 (buf_addr v + data_offset v) |>) ;;
  upd_dd usbDesc (λ d, d <| ctrl := 0 |> <| status := 0 |>) ;;
  when first (upd_dd usbDesc (λ d, d <| ctrl ::= λ x, x .| ZM_FS_BIT |> <| totalLen := u16 buf_len |>)).
(** The list of the buffers on their way. *)
Definition xmited_add (q : zsTxDmaQueue) (buf : Z) : DM zsTxDmaQueue :=
  if (xmited_buf_head q =? 0) && (xmited_buf_tail q =? 0) then
    dnb (upd_vbuf buf (λ b, b <| next_buf := buf |>)) ;;
    mret (q <| xmited_buf_head := buf |> <| xmited_buf_tail := buf |>)
  else
    dnb (upd_vbuf (xmited_buf_tail q) (λ b, b <| next_buf := buf |>)) ;;
    mret (q <| xmited_buf_tail := buf |>).
Definition _DMAengine_xmit_buf (q : zsTxDmaQueue) (buf : Z) : DM zsTxDmaQueue :=
  s ← get;
  b ← dnb (rd_vbuf buf);
  '(usbDesc, headUsbDesc) ← link_descs (size (vdescs (dm_nb s))) (fill_tx (buf_length b)) (desc_list b) 0 0;
  if usbDesc =? 0 then fail UninitRead else
  upd_dd usbDesc (λ d, d <| ctrl ::= λ x, x .| ZM_LS_BIT |>) ;;
  upd_dd headUsbDesc (λ d, d <| lastAddr := usbDesc |>) ;;
  q ← xmited_add q buf;
  dq ← zfDmaPutPacket (tx_dq q) headUsbDesc;
  mret (q <| tx_dq := dq |>).

Definition _DMAengine_has_compl_packets (q : zsDmaQueue) : DM bool :=
  if head q =? terminator q then mret false else
  d ← rd_dd (head q);
  mret (negb (own d =? ZM_OWN_BITS_HW)).

(** The VDESCs of a packet back into a chain, cut at [fuel]. *)
Fixpoint relink_loop (fuel : nat) (currDesc prevVdesc : Z) : DM unit :=
  match fuel with
  | O => fail OutOfFuel
  | S n =>
      let vdesc := VDESC_HW_TO_VDESC currDesc in
      d ← rd_dd currDesc;
      dnb (upd_vdesc vdesc (λ v, v <| data_size := dataSize d |>)) ;;
      unless (prevVdesc =? 0) (dnb (upd_vdesc prevVdesc (λ v, v <| next_desc := vdesc |>))) ;;
      if tst (ctrl d) ZM_LS_BIT then dnb (upd_vdesc vdesc (λ v, v <| next_desc := 0 |>))
      else if nextAddr d =? 0 then mret tt else relink_loop n (nextAddr d) vdesc
  end.
Definition relinkUSBDescToVdesc (buf desc : Z) : DM unit :=
  s ← get;
  dnb (upd_vbuf buf (λ b, b <| desc_list := VDESC_HW_TO_VDESC desc |>)) ;;
  d ← rd_dd desc;
  dnb (upd_vbuf buf (λ b, b <| buf_length := totalLen d |>)) ;;
  relink_loop (size (dm_desc s)) desc 0.

Definition _DMAengine_reap_recv_buf (q : zsDmaQueue) : DM (Z * zsDmaQueue) :=
  '(desc, q) ← zfDmaGetPacket q;
  if desc =? 0 then mret (0, q) else
  buf ← dnb _vbuf_alloc_vbuf;
  assert_ (negb (buf =? 0)) ;;
  relinkUSBDescToVdesc buf desc ;;
  mret (buf, q).
Definition _DMAengine_reap_xmited_buf (q : zsTxDmaQueue) : DM (Z * zsTxDmaQueue) :=
  '(desc, dq) ← zfDmaGetPacket (tx_dq q);
  let q := q <| tx_dq := dq |> in
  if desc =? 0 then mret (0, q) else
  let sentBuf := xmited_buf_head q in
  q ← (if xmited_buf_head q =? xmited_buf_tail q then
         mret (q <| xmited_buf_head := 0 |> <| xmited_buf_tail := 0 |>)
       else b ← dnb (rd_vbuf (xmited_buf_head q)); mret (q <| xmited_buf_head := next_buf b |>));
  dnb (upd_vbuf sentBuf (λ b, b <| next_buf := 0 |>)) ;;
  relinkUSBDescToVdesc sentBuf desc ;;
  mret (sentBuf, q).
