(* ===== verification/DmaProps.v ===== *)
(** * The DMA engine's queues: what adding and taking packets does

    A queue holds the descriptors between its head and its terminator. Adding a packet appends
    its buffers, although other descriptors come to carry them; taking a packet gives its
    buffers back; the transmit queue is a queue of buffers with their contents. *)

From S2P Require Import Prelude.
From S2P Require Import NBuf.
From S2P Require Import NBufProps.
From S2P Require Import Dma.

Abbreviation vdesc_of := VDESC_HW_TO_VDESC.
Abbreviation hw_of := VDESC_get_hw_desc.

(** ** Segments of a list in memory *)
Fixpoint lseg (nxt : Z → option Z) (p : Z) (l : list Z) (q : Z) : Prop :=
  match l with
  | [] => p = q
  | a :: l' => p = a ∧ ∃ r, nxt a = Some r ∧ lseg nxt r l' q
  end.
Lemma lseg_ext nxt nxt' p l q : (∀ a, a ∈ l → nxt' a = nxt a) → lseg nxt p l q → lseg nxt' p l q.
Proof.
  revert p. induction l as [|a l IH]; intros p Hx; cbn; [done|]. intros (-> & r & Hr & Hl).
  split; [done|]. exists r. split; [rewrite Hx; [done|by left]|]. apply IH; [|done]. intros b Hb. apply Hx. by right.
Qed.
Lemma lseg_app nxt p l1 l2 q : lseg nxt p (l1 ++ l2) q ↔ ∃ r, lseg nxt p l1 r ∧ lseg nxt r l2 q.
Proof.
  revert p. induction l1 as [|a l1 IH]; intros p; cbn; [naive_solver|].
  setoid_rewrite IH. naive_solver.
Qed.

Section queue.
Implicit Types (m : dma) (q : zsDmaQueue) (ds ps : list Z).

Definition hwnext m (a : Z) : option Z := nextAddr <$> dm_desc m !! a.
Definition vd m (a : Z) : option VDESC := vdescs (dm_nb m) !! VDESC_HW_TO_VDESC a.
(** What a VDESC says of its buffer: the part that moves with a packet. *)
Definition buffer (v : VDESC) : Z * Z * Z * Z * Z :=
  (buf_addr v, buf_size v, data_offset v, data_size v, control v).
Definition payload m (a : Z) : option (Z * Z * Z * Z * Z) := buffer <$> vd m a.
Definition desc_ok m (a : Z) : Prop := is_Some (dm_desc m !! a) ∧ is_Some (vd m a).

(** The queue holds the descriptors [ds]. *)
Record ring m q ds : Prop := {
  rg_chain : lseg (hwnext m) (head q) ds (terminator q);
  rg_nodup : NoDup (ds ++ [terminator q]);
  rg_ok : Forall (desc_ok m) (ds ++ [terminator q]) }.

(** *** Steps *)
Lemma run_rd_dd m a d : dm_desc m !! a = Some d → rd_dd a m = Ok (d, m).
Proof. intros H. unfold rd_dd. rewrite (bind_ok _ _ _ _ _ (run_get _)), H. done. Qed.
Lemma run_upd_dd m a d f : dm_desc m !! a = Some d → upd_dd a f m = Ok (tt, m <| dm_desc ::= <[a := f d]> |>).
Proof. intros H. unfold upd_dd. by rewrite (bind_ok _ _ _ _ _ (run_rd_dd _ _ _ H)). Qed.
Lemma run_dnb {A} (p : NB A) m a n : p (dm_nb m) = Ok (a, n) → dnb p m = Ok (a, m <| dm_nb := n |>).
Proof. unfold dnb. by intros ->. Qed.

(** The VDESCs swap their buffers. *)
Definition set_buffer (b : VDESC) (v : VDESC) : VDESC :=
  v <| buf_addr := buf_addr b |> <| buf_size := buf_size b |> <| data_offset := data_offset b |>
    <| data_size := data_size b |> <| control := control b |>.
Definition set_pair (a b : Z) (va vb : VDESC) (n : nb_state) : nb_state :=
  n <| vdescs ::= λ vs, <[b := vb]> (<[a := va]> vs) |>.
Lemma run_upd_pair {B} f g (k : NB B) n a b va vb :
  a ≠ b → vdescs n !! a = Some va → vdescs n !! b = Some vb →
  (upd_vdesc a f ;; upd_vdesc b g ;; k) n = k (set_pair a b (f va) (g vb) n).
Proof.
  intros Hab Ha Hb. rewrite (bind_ok _ _ _ _ _ (run_upd_vdesc _ _ _ _ Ha)).
  erewrite bind_ok by (apply run_upd_vdesc; cbn; rewrite lookup_insert_ne by done; exact Hb). reflexivity.
Qed.
Lemma set_pair_at a b va vb n : a ≠ b →
  vdescs (set_pair a b va vb n) !! a = Some va ∧ vdescs (set_pair a b va vb n) !! b = Some vb.
Proof. intros Hab. cbn. by rewrite lookup_insert_ne, !lookup_insert_eq. Qed.
Lemma set_pair_pair a b va vb va' vb' n : a ≠ b →
  set_pair a b va' vb' (set_pair a b va vb n) = set_pair a b va' vb' n.
Proof.
  intros Hab. unfold set_pair. destruct n. cbn. unfold field_upd. cbn. f_equal.
  rewrite (insert_insert_ne _ a b) by done. by rewrite !insert_insert_eq.
Qed.
Lemma run_swap n a b va vb :
  a ≠ b → vdescs n !! a = Some va → vdescs n !! b = Some vb →
  _vdesc_swap_vdesc a b n = Ok (tt, set_pair a b (set_buffer vb va) (set_buffer va vb) n).
Proof.
  intros Hab Ha Hb. unfold _vdesc_swap_vdesc.
  rewrite (bind_ok _ _ _ _ _ (run_rd_vdesc _ _ _ Ha)), (bind_ok _ _ _ _ _ (run_rd_vdesc _ _ _ Hb)).
  rewrite (run_upd_pair _ _ _ n a b va vb Hab Ha Hb).
  do 3 (erewrite run_upd_pair; [|exact Hab|by apply set_pair_at|by apply set_pair_at]; rewrite set_pair_pair by done).
  destruct (set_pair_at a b (va <| buf_size := buf_size vb |> <| data_offset := data_offset vb |>
      <| data_size := data_size vb |> <| control := control vb |>)
    (vb <| buf_size := buf_size va |> <| data_offset := data_offset va |>
      <| data_size := data_size va |> <| control := control va |>) n Hab) as [Ea Eb].
  erewrite bind_ok by (apply run_upd_vdesc; exact Ea).
  erewrite run_upd_vdesc by (cbn; rewrite lookup_insert_ne by done; exact Eb).
  match goal with |- Ok (tt, ?n') = _ => change n' with (set_pair a b (set_buffer vb va) (set_buffer va vb)
    (set_pair a b (va <| buf_size := buf_size vb |> <| data_offset := data_offset vb |>
      <| data_size := data_size vb |> <| control := control vb |>)
    (vb <| buf_size := buf_size va |> <| data_offset := data_offset va |>
      <| data_size := data_size va |> <| control := control va |>) n)) end.
  by rewrite set_pair_pair.
Qed.

(** *** Marking the descriptors of a packet *)

(** [m'] is [m] with [f] applied to the descriptors [l]. *)
Record marked (f : zsDmaDesc → zsDmaDesc) (l : list Z) m m' : Prop := {
  mk_nb : dm_nb m' = dm_nb m;
  mk_in : ∀ a, a ∈ l → dm_desc m' !! a = f <$> dm_desc m !! a;
  mk_out : ∀ a, a ∉ l → dm_desc m' !! a = dm_desc m !! a }.

Lemma own_loop_spec f p z : (∀ x, lastAddr (f x) = lastAddr x) → (∀ x, nextAddr (f x) = nextAddr x) → ∀ l a m fuel r,
  lseg (hwnext m) a l r → last l = Some z → NoDup l → (length l <= fuel)%nat → l ≠ [] →
  (∃ x, dm_desc m !! p = Some x ∧ lastAddr x = z) →
  ∃ m', own_loop fuel f p a m = Ok (tt, m') ∧ marked f l m m'.
Proof.
  intros Hfl Hfn. induction l as [|b l IH]; intros a m fuel r Hl Hz Hnd Hf Hne (x & Hp & Hx); [done|].
  destruct Hl as (-> & n & Hn & Hl). destruct fuel as [|fuel]; [cbn in Hf; lia|]. cbn [own_loop].
  unfold hwnext in Hn. destruct (dm_desc m !! b) as [y|] eqn:Hb; [|done]. injection Hn as <-.
  rewrite (bind_ok _ _ _ _ _ (run_upd_dd _ _ _ f Hb)). set (m1 := m <| dm_desc ::= <[b := f y]> |>).
  assert (∃ x', dm_desc m1 !! p = Some x' ∧ lastAddr x' = z) as (x' & Hp' & Hx').
  { unfold m1. cbn. destruct (decide (p = b)) as [->|Hpb].
    - rewrite Hb in Hp. injection Hp as ->. exists (f x). rewrite lookup_insert_eq. by rewrite Hfl.
    - exists x. by rewrite lookup_insert_ne. }
  rewrite (bind_ok _ _ _ _ _ (run_rd_dd _ _ _ Hp')), Hx'.
  apply NoDup_cons in Hnd as [Hbl Hnd].
  destruct l as [|c l].
  - injection Hz as ->. rewrite Z.eqb_refl. exists m1. split; [done|]. split; [done|..]; unfold m1; cbn; intros a.
    + intros ->%list_elem_of_singleton. by rewrite lookup_insert_eq, Hb.
    + intros Ha. rewrite lookup_insert_ne; [done|]. intros ->. apply Ha. by left.
  - assert (z ≠ b) as Hzb. { intros ->. apply Hbl. rewrite last_cons_cons in Hz. by apply last_Some_elem_of. }
    rewrite (proj2 (Z.eqb_neq z b) Hzb).
    assert (dm_desc m1 !! b = Some (f y)) as Hb1 by (unfold m1; cbn; by rewrite lookup_insert_eq).
    rewrite (bind_ok _ _ _ _ _ (run_rd_dd _ _ _ Hb1)), Hfn.
    destruct (IH (nextAddr y) m1 fuel r) as (m' & E & Hm).
    + eapply lseg_ext; [|exact Hl]. intros e He. unfold hwnext, m1. cbn. rewrite lookup_insert_ne; [done|].
      by intros ->.
    + done.
    + done.
    + cbn in *. lia.
    + done.
    + by exists x'.
    + exists m'. split; [done|]. destruct Hm as [Hm1 Hm2 Hm3]. split; [done|..]; intros e.
      * intros [->|He]%elem_of_cons; [rewrite Hm3, Hb1, Hb by done; done|].
        rewrite Hm2 by done. unfold m1. cbn. rewrite lookup_insert_ne; [done|]. by intros ->.
      * rewrite not_elem_of_cons. intros [Heb He]. rewrite Hm3 by done. unfold m1. cbn. by rewrite lookup_insert_ne.
Qed.

(** *** Handing a packet over *)

(** [m'] is [m] but for the descriptors [T] and [p] and the buffers of their VDESCs: [T] has
    the record [d] and the buffer that [p] had. *)
Record moved m m' (T p : Z) (d : zsDmaDesc) : Prop := {
  mv_nb : dm_nb m' = dm_nb m <| vdescs := vdescs (dm_nb m') |>;
  mv_T : dm_desc m' !! T = Some d;
  mv_p : is_Some (dm_desc m' !! p);
  mv_desc : ∀ a, a ≠ T → a ≠ p → dm_desc m' !! a = dm_desc m !! a;
  mv_vd : ∀ a, a ≠ T → a ≠ p → vd m' a = vd m a;
  mv_next : ∀ a, next_desc <$> vd m' a = next_desc <$> vd m a;
  mv_payload : payload m' T = payload m p }.

Lemma moved_ok m m' T p d a : moved m m' T p d → desc_ok m a → desc_ok m' a.
Proof.
  intros [_ HT Hp Hd _ Hn _] [H1 [v Hv]]. split.
  - destruct (decide (a = T)) as [->|]; [by rewrite HT|]. destruct (decide (a = p)) as [->|]; [done|]. by rewrite Hd.
  - specialize (Hn a). rewrite Hv in Hn. destruct (vd m' a); [eauto|done].
Qed.
Lemma vd_other (a b : Z) : a ≠ b → VDESC_HW_TO_VDESC a ≠ VDESC_HW_TO_VDESC b.
Proof. unfold VDESC_HW_TO_VDESC. lia. Qed.

Lemma hand_over_run m q p dp :
  dm_desc m !! p = Some dp → p ≠ terminator q → desc_ok m (terminator q) → is_Some (vd m p) →
  ∃ m', hand_over q p m = Ok (q <| terminator := p |>, m') ∧
    moved m m' (terminator q) p (dp <| status := (status dp .&~ ZM_OWN_BITS_MASK) .| ZM_OWN_BITS_HW |>).
Proof.
  intros Hp Hpt [[dt Ht] [vt Hvt]] [vp Hvp]. set (T := terminator q) in *.
  unfold hand_over. fold T. rewrite (bind_ok _ _ _ _ _ (run_rd_dd _ _ _ Hp)).
  rewrite (bind_ok _ _ _ _ _ (run_upd_dd _ _ _ _ Hp)).
  set (dp' := dp <| status ::= _ |>). set (m1 := m <| dm_desc ::= <[p := dp']> |>).
  assert (VDESC_HW_TO_VDESC T ≠ VDESC_HW_TO_VDESC p) as Hne by (by apply vd_other).
  set (n2 := set_pair (VDESC_HW_TO_VDESC T) (VDESC_HW_TO_VDESC p) (set_buffer vp vt) (set_buffer vt vp) (dm_nb m)).
  rewrite (bind_ok _ _ _ tt (m1 <| dm_nb := n2 |>)) by (apply run_dnb; by apply run_swap).
  erewrite bind_ok by (apply run_upd_dd; cbn; rewrite lookup_insert_ne by done; exact Ht).
  erewrite bind_ok by (apply run_upd_dd; cbn; by rewrite lookup_insert_eq).
  eexists. split; [reflexivity|]. split; cbn.
  - done.
  - by rewrite !lookup_insert_eq.
  - rewrite !lookup_insert_ne, lookup_insert_eq by done. eauto.
  - intros a HaT Hap. by rewrite !lookup_insert_ne.
  - intros a HaT Hap. unfold vd. cbn. by rewrite !lookup_insert_ne by (by apply vd_other).
  - intros a. unfold vd. cbn. destruct (decide (a = p)) as [->|Hap].
    { rewrite lookup_insert_eq. unfold vd in Hvp. by rewrite Hvp. }
    rewrite lookup_insert_ne by (by apply vd_other). destruct (decide (a = T)) as [->|HaT].
    { rewrite lookup_insert_eq. unfold vd in Hvt. by rewrite Hvt. }
    by rewrite lookup_insert_ne by (by apply vd_other).
  - unfold payload, vd. cbn. rewrite lookup_insert_ne, lookup_insert_eq by done.
    unfold vd in Hvp. rewrite Hvp. by destruct vp.
Qed.

(** The queue with the packet [p :: ps], which now starts in the old terminator. *)
Lemma moved_ring m m' q ds p ps dp d :
  ring m q ds → NoDup (ds ++ terminator q :: p :: ps) → lseg (hwnext m) p (p :: ps) p →
  Forall (desc_ok m) (p :: ps) → dm_desc m !! p = Some dp → moved m m' (terminator q) p d →
  nextAddr d = nextAddr dp → ring m' (q <| terminator := p |>) (ds ++ terminator q :: ps).
Proof.
  intros [Hc Hnd Hok] Hnd' Hl Hps Hp Hm Hn. set (T := terminator q) in *.
  assert (p ∉ ds ∧ p ≠ T ∧ p ∉ ps ∧ T ∉ ds ∧ T ∉ ps) as (? & ? & ? & ? & ?).
  { rewrite NoDup_app, !NoDup_cons in Hnd'. set_solver. }
  assert (∀ a, a ≠ T → a ≠ p → hwnext m' a = hwnext m a) as Hx.
  { intros a HaT Hap. unfold hwnext. by rewrite (mv_desc _ _ _ _ _ Hm). }
  split; cbn.
  - apply lseg_app. exists T. split; [eapply lseg_ext; [|exact Hc]|].
    + intros a Ha. apply Hx; by intros ->.
    + split; [done|]. exists (nextAddr d). unfold hwnext at 1. rewrite (mv_T _ _ _ _ _ Hm). split; [done|].
      destruct Hl as (_ & r & Hr & Hl). unfold hwnext in Hr. rewrite Hp in Hr. injection Hr as <-. rewrite Hn.
      eapply lseg_ext; [|exact Hl]. intros a Ha. apply Hx; by intros ->.
  - rewrite <-app_assoc. cbn. assert (ds ++ T :: ps ++ [p] ≡ₚ ds ++ T :: p :: ps) as -> by solve_Permutation. done.
  - rewrite <-app_assoc. cbn. apply Forall_app in Hok as [Hok1 Hok2].
    apply Forall_cons in Hps as [Hps1 Hps2]. apply Forall_cons in Hok2 as [Hok2 _].
    eapply Forall_impl; [|intros a; by eapply moved_ok].
    apply Forall_app. split; [done|]. constructor; [done|]. apply Forall_app. by split; [|constructor].
Qed.
(** Its buffers are those of the queue with those of the packet behind them. *)
Lemma moved_payloads m m' T p d ds ps :
  moved m m' T p d → NoDup (ds ++ T :: p :: ps) →
  map (payload m') (ds ++ T :: ps) = map (payload m) (ds ++ p :: ps).
Proof.
  intros Hm Hnd. assert (p ∉ ds ∧ p ≠ T ∧ p ∉ ps ∧ T ∉ ds ∧ T ∉ ps) as (? & ? & ? & ? & ?).
  { rewrite NoDup_app, !NoDup_cons in Hnd. set_solver. }
  rewrite !map_app. cbn. rewrite (mv_payload _ _ _ _ _ Hm).
  assert (∀ a, a ≠ T → a ≠ p → payload m' a = payload m a) as Hx.
  { intros a HaT Hap. unfold payload. by rewrite (mv_vd _ _ _ _ _ Hm). }
  f_equal; [|f_equal]; apply map_ext_in; intros a Ha%list_elem_of_In; apply Hx; by intros ->.
Qed.

(** *** Adding a packet *)
Lemma lseg_close nxt nxt' z e l : ∀ p r,
  lseg nxt p l r → NoDup l → last l = Some z → nxt' z = Some e → (∀ a, a ∈ l → a ≠ z → nxt' a = nxt a) →
  lseg nxt' p l e.
Proof.
  induction l as [|a l IH]; intros p r Hl Hnd Hz He Hx; [done|].
  destruct Hl as (-> & n & Hn & Hl). apply NoDup_cons in Hnd as [Ha Hnd]. split; [done|].
  destruct l as [|b l]; [injection Hz as ->; by exists e|].
  rewrite last_cons_cons in Hz. exists n. split.
  - rewrite Hx; [done|by left|]. intros ->. apply Ha. by apply last_Some_elem_of.
  - apply (IH _ r); try done. intros c Hc. apply Hx. by right.
Qed.
Lemma ring_ext m m' q ds :
  (∀ a, a ∈ ds ++ [terminator q] → dm_desc m' !! a = dm_desc m !! a ∧ vd m' a = vd m a) →
  ring m q ds → ring m' q ds.
Proof.
  intros Hx [Hc Hnd Hok]. split; [|done|].
  - eapply lseg_ext; [|exact Hc]. intros a Ha. unfold hwnext.
    by rewrite (proj1 (Hx a ltac:(apply elem_of_app; by left))).
  - rewrite Forall_forall in *. intros a Ha. destruct (Hx a Ha) as [E1 E2]. unfold desc_ok.
    rewrite E1, E2. by apply Hok.
Qed.

(** What the chip and [relinkUSBDescToVdesc] read of a descriptor, apart from the links. *)
Definition info (d : zsDmaDesc) : Z * Z * Z * Z := (ctrl d, totalLen d, dataSize d, dataAddr d).
(** A packet from [p] through [ps]. *)
Record packet m p ps : Prop := {
  pk_chain : ∃ r, lseg (hwnext m) p (p :: ps) r;
  pk_last : ∃ d, dm_desc m !! p = Some d ∧ last (p :: ps) = Some (lastAddr d);
  pk_ok : Forall (desc_ok m) (p :: ps) }.

(** Both ways to add one. *)
Definition enqueue (f : zsDmaDesc → zsDmaDesc) (fix_last : bool) q (desc : Z) : DM zsDmaQueue :=
  s ← get;
  own_loop (size (dm_desc s)) f desc desc ;;
  d ← rd_dd desc;
  upd_dd (lastAddr d) (λ l, l <| nextAddr := desc |>) ;;
  when (fix_last && (lastAddr d =? desc)) (upd_dd desc (λ d, d <| lastAddr := terminator q |>)) ;;
  hand_over q desc.
Record enqueued f (fix_last : bool) q m m' (p : Z) (ps : list Z) : Prop := {
  en_nb : dm_nb m' = dm_nb m <| vdescs := vdescs (dm_nb m') |>;
  en_first : ∃ d d', dm_desc m !! p = Some d ∧ dm_desc m' !! terminator q = Some d' ∧ info d' = info (f d) ∧
    own d' = ZM_OWN_BITS_HW ∧
    lastAddr d' = if fix_last then default p (last (terminator q :: ps)) else lastAddr d;
  en_rest : ∀ a, a ∈ ps → info <$> dm_desc m' !! a = info ∘ f <$> dm_desc m !! a;
  en_desc : ∀ a, a ∉ terminator q :: p :: ps → dm_desc m' !! a = dm_desc m !! a;
  en_vd : ∀ a, a ≠ terminator q → a ≠ p → vd m' a = vd m a;
  en_next : ∀ a, next_desc <$> vd m' a = next_desc <$> vd m a }.

Lemma own_hw x : ((x .&~ ZM_OWN_BITS_MASK) .| ZM_OWN_BITS_HW) .& ZM_OWN_BITS_MASK = ZM_OWN_BITS_HW.
Proof.
  apply Z.bits_inj'. intros n Hn. rewrite Z.land_spec, Z.lor_spec, Z.ldiff_spec.
  destruct (Z.testbit ZM_OWN_BITS_MASK n) eqn:E.
  - by rewrite andb_false_r, andb_true_r.
  - rewrite andb_false_r. destruct (Z.testbit ZM_OWN_BITS_HW n) eqn:E'; [|done].
    unfold ZM_OWN_BITS_HW, ZM_OWN_BITS_MASK in *. destruct (decide (n = 0)) as [->|]; [done|].
    change 1 with (2 ^ 0) in E'. rewrite Z.pow2_bits_false in E' by lia. done.
Qed.
Lemma size_packet m l : NoDup l → (∀ a, a ∈ l → is_Some (dm_desc m !! a)) → (length l <= size (dm_desc m))%nat.
Proof.
  intros Hnd Hok. rewrite <-size_dom, <-(size_list_to_set (C := gset Z) l) by done.
  apply subseteq_size. intros a Ha%elem_of_list_to_set. apply elem_of_dom. auto.
Qed.

(** One descriptor of a packet before and after it is prepared: [z] is the last one. *)
Definition prepared f (p z : Z) (T : option Z) (a : Z) (x y : zsDmaDesc) : Prop :=
  info y = info (f x) ∧ nextAddr y = (if decide (a = z) then p else nextAddr x) ∧
  lastAddr y = if decide (a = p ∧ z = p) then default (lastAddr x) T else lastAddr x.
Lemma prepare_run f (fix_last : bool) m m1 p z T l d :
  (∀ x, lastAddr (f x) = lastAddr x) → (∀ x, nextAddr (f x) = nextAddr x) →
  marked f l m m1 → (∀ a, a ∈ l → is_Some (dm_desc m !! a)) → p ∈ l → z ∈ l →
  dm_desc m !! p = Some d → lastAddr d = z →
  ∃ m3, (d ← rd_dd p;
         upd_dd (lastAddr d) (λ l, l <| nextAddr := p |>) ;;
         when (fix_last && (lastAddr d =? p)) (upd_dd p (λ d, d <| lastAddr := T |>))) m1 = Ok (tt, m3) ∧
    dm_nb m3 = dm_nb m ∧ (∀ a, a ∉ l → dm_desc m3 !! a = dm_desc m !! a) ∧
    ∀ a, a ∈ l → ∃ x y, dm_desc m !! a = Some x ∧ dm_desc m3 !! a = Some y ∧
      prepared f p z (if fix_last then Some T else None) a x y.
Proof.
  intros Hfl Hfn [Hm1 Hm2 Hm3] Hin Hpl Hzl Hd Hz.
  assert (dm_desc m1 !! p = Some (f d)) as Hp1 by (rewrite Hm2 by done; by rewrite Hd).
  destruct (Hin z Hzl) as [dz Hdz].
  assert (dm_desc m1 !! z = Some (f dz)) as Hz1 by (rewrite Hm2 by done; by rewrite Hdz).
  rewrite (bind_ok _ _ _ _ _ (run_rd_dd _ _ _ Hp1)), Hfl, Hz, (bind_ok _ _ _ _ _ (run_upd_dd _ _ _ _ Hz1)).
  set (m2 := m1 <| dm_desc ::= <[z := f dz <| nextAddr := p |>]> |>).
  assert (∀ a, a ∈ l → ∃ x y, dm_desc m !! a = Some x ∧ dm_desc m2 !! a = Some y ∧ prepared f p z None a x y) as H2.
  { intros a Ha. destruct (Hin a Ha) as [x Hx]. unfold m2. cbn. destruct (decide (a = z)) as [->|Haz].
    - exists x, (f dz <| nextAddr := p |>). rewrite lookup_insert_eq. rewrite Hdz in Hx. injection Hx as ->.
      split; [done|]. split; [done|]. split; [done|]. rewrite decide_True by done. split; [done|].
      cbn. rewrite Hfl. by case_decide.
    - exists x, (f x). rewrite lookup_insert_ne, Hm2, Hx by done. split; [done|]. split; [done|]. split; [done|].
      rewrite decide_False by done. rewrite Hfn, Hfl. split; [done|]. by case_decide. }
  assert (∀ a, a ∉ l → dm_desc m2 !! a = dm_desc m !! a) as H2'.
  { intros a Ha. unfold m2. cbn. rewrite lookup_insert_ne by (by intros ->). by apply Hm3. }
  destruct (H2 p Hpl) as (x & y & Hx & Hy & Hpy). destruct (decide (fix_last = true ∧ z = p)) as [[-> Hzp]|Hno].
  - subst p. rewrite Z.eqb_refl. cbn [andb when]. rewrite (run_upd_dd _ _ _ _ Hy). eexists. split; [reflexivity|].
    split; [done|]. split.
    + intros a Ha. cbn. rewrite lookup_insert_ne; [by apply H2'|]. by intros ->.
    + intros a Ha. cbn. destruct (decide (a = z)) as [->|Haz].
      * exists x, (y <| lastAddr := T |>). rewrite lookup_insert_eq. split; [done|]. split; [done|].
        destruct Hpy as (? & ? & _). split; [done|]. split; [done|]. by rewrite decide_True.
      * rewrite lookup_insert_ne by done. destruct (H2 a Ha) as (x' & y' & ? & ? & ? & ? & E).
        exists x', y'. split; [done|]. split; [done|]. split; [done|]. split; [done|].
        rewrite E, !decide_False by naive_solver. done.
  - exists m2. split.
    + destruct fix_last; [|done]. rewrite (proj2 (Z.eqb_neq z p)) by (intros ->; by apply Hno). done.
    + split; [done|]. split; [done|]. intros a Ha. destruct (H2 a Ha) as (x' & y' & ? & ? & ? & ? & E).
      exists x', y'. split; [done|]. split; [done|]. split; [done|]. split; [done|]. rewrite E.
      destruct fix_last; [|done]. rewrite !decide_False by naive_solver. done.
Qed.

(** The packet with its descriptors marked and closed into a ring. *)
Lemma enqueue_prepare f fix_last m q p ps d :
  (∀ x, lastAddr (f x) = lastAddr x) → (∀ x, nextAddr (f x) = nextAddr x) →
  packet m p ps → NoDup (p :: ps) → dm_desc m !! p = Some d →
  ∃ m3 d3, enqueue f fix_last q p m = hand_over q p m3 ∧ dm_nb m3 = dm_nb m ∧
    dm_desc m3 !! p = Some d3 ∧ info d3 = info (f d) ∧
    lastAddr d3 = (if fix_last then default p (last (terminator q :: ps)) else lastAddr d) ∧
    (∀ a, a ∈ ps → info <$> dm_desc m3 !! a = info ∘ f <$> dm_desc m !! a) ∧
    (∀ a, a ∉ p :: ps → dm_desc m3 !! a = dm_desc m !! a) ∧
    lseg (hwnext m3) p (p :: ps) p ∧ (∀ a, a ∈ p :: ps → is_Some (dm_desc m3 !! a)).
Proof.
  intros Hfl Hfn [(r & Hc) (d0 & Hd0 & Hz) Hok] Hnd Hd. rewrite Hd in Hd0. injection Hd0 as <-.
  set (z := lastAddr d) in *.
  assert (∀ a, a ∈ p :: ps → is_Some (dm_desc m !! a)) as Hin.
  { rewrite Forall_forall in Hok. intros a Ha. by destruct (Hok a Ha). }
  destruct (own_loop_spec f p z Hfl Hfn (p :: ps) p m (size (dm_desc m)) r) as (m1 & E1 & [Hm1 Hm2 Hm3]);
    [done|done|done|by apply size_packet|done|by exists d|].
  assert (z ∈ p :: ps) as Hzin by by apply last_Some_elem_of.
  destruct (prepare_run f fix_last m m1 p z (terminator q) (p :: ps) d) as (m3 & E3 & Hnb & Hout & Hall);
    [done..|by left|done|done|done|].
  destruct (Hall p ltac:(by left)) as (x & d3 & Hx & Hd3 & Hi & _ & Hl3). rewrite Hd in Hx. injection Hx as <-.
  exists m3, d3. split.
  { unfold enqueue. rewrite (bind_ok _ _ _ _ _ (run_get _)), (bind_ok _ _ _ _ _ E1).
    apply bind_inv in E3 as (d' & s' & Ea & E3). apply bind_inv in E3 as ([] & s'' & Eb & E3).
    by rewrite (bind_ok _ _ _ _ _ Ea), (bind_ok _ _ _ _ _ Eb), (bind_ok _ _ _ _ _ E3). }
  split; [done|]. split; [done|]. split; [done|]. split.
  - rewrite Hl3. destruct fix_last; cbn [default]; [|by case_decide].
    destruct ps as [|b ps]; cbn in Hz |- *.
    + injection Hz as Hz. by rewrite decide_True.
    + rewrite decide_False, Hz; [done|]. intros [_ E]. apply NoDup_cons in Hnd as [Hnd _]. apply Hnd.
      rewrite <-E. by apply last_Some_elem_of.
  - split; [|split; [done|split]].
    + intros a Ha. destruct (Hall a ltac:(by right)) as (x & y & -> & -> & E & _). cbn. by rewrite E.
    + apply (lseg_close (hwnext m) _ z _ _ _ r); try done.
      * destruct (Hall z Hzin) as (x & y & _ & Hy & _ & E & _). unfold hwnext. rewrite Hy. cbn. by rewrite E, decide_True.
      * intros a Ha Haz. destruct (Hall a Ha) as (x & y & Hx & Hy & _ & E & _). unfold hwnext. rewrite Hx, Hy. cbn.
        by rewrite E, decide_False.
    + intros a Ha. destruct (Hall a Ha) as (x & y & _ & -> & _). eauto.
Qed.

Lemma vd_nb m m' a : dm_nb m' = dm_nb m → vd m' a = vd m a.
Proof. unfold vd. by intros ->. Qed.
Lemma enqueue_run f fix_last m q ds p ps :
  (∀ x, lastAddr (f x) = lastAddr x) → (∀ x, nextAddr (f x) = nextAddr x) →
  ring m q ds → packet m p ps → NoDup (ds ++ terminator q :: p :: ps) →
  ∃ m', enqueue f fix_last q p m = Ok (q <| terminator := p |>, m') ∧
    ring m' (q <| terminator := p |>) (ds ++ terminator q :: ps) ∧
    map (payload m') (ds ++ terminator q :: ps) = map (payload m) (ds ++ p :: ps) ∧
    enqueued f fix_last q m m' p ps.
Proof.
  intros Hfl Hfn Hr Hpk Hnd. pose proof Hnd as (Hds & Hdj & [Hti [Hpi Hps]%NoDup_cons]%NoDup_cons)%NoDup_app.
  destruct (pk_last _ _ _ Hpk) as (d & Hd & _).
  destruct (enqueue_prepare f fix_last m q p ps d Hfl Hfn Hpk) as (m3 & d3 & Een & Hnb & Hd3 & Hi & Hl & Hrest & Hout & Hc & Hin);
    [by constructor|done|].
  rewrite Een. assert (∀ a, vd m3 a = vd m a) as Hvd by (intros a; by apply vd_nb).
  assert (ring m3 q ds) as Hr3.
  { eapply ring_ext; [|exact Hr]. intros a Ha. split; [|done]. apply Hout. apply elem_of_app in Ha as [Ha|Ha%list_elem_of_singleton]; [|subst a].
    - intros Hap. apply (Hdj a Ha). by right.
    - done. }
  assert (Forall (desc_ok m3) (p :: ps)) as Hok3.
  { apply Forall_forall. intros a Ha. split; [by apply Hin|]. rewrite Hvd.
    pose proof (pk_ok _ _ _ Hpk) as Hok. rewrite Forall_forall in Hok. by destruct (Hok a Ha). }
  pose proof (rg_ok _ _ _ Hr3) as [_ [HokT _]%Forall_cons]%Forall_app.
  assert (p ≠ terminator q) as Hpt by (intros ->; apply Hti; by left).
  destruct (hand_over_run m3 q p d3 Hd3 Hpt HokT) as (m' & E & Hm).
  { by apply Forall_inv in Hok3 as [_ ?]. }
  exists m'. split; [done|]. split; [|split].
  - by eapply (moved_ring m3 m' q ds p ps d3).
  - rewrite (moved_payloads _ _ _ _ _ _ _ Hm Hnd). apply map_ext. intros a. unfold payload. by rewrite Hvd.
  - destruct Hm as [Hm1 Hm2 Hm3 Hm4 Hm5 Hm6 Hm7]. split.
    + rewrite Hm1, Hnb. done.
    + exists d, (d3 <| status := (status d3 .&~ ZM_OWN_BITS_MASK) .| ZM_OWN_BITS_HW |>).
      split; [done|]. split; [done|]. split; [done|]. split; [apply own_hw|done].
    + intros a Ha. rewrite Hm4; [by apply Hrest| |].
      * intros ->. apply Hti. by right.
      * by intros ->.
    + intros a Ha. rewrite !not_elem_of_cons in Ha. destruct Ha as (? & ? & ?). rewrite Hm4 by done.
      apply Hout. by rewrite not_elem_of_cons.
    + intros a HaT Hap. by rewrite Hm5, Hvd.
    + intros a. by rewrite Hm6, Hvd.
Qed.

(** The two ways to add a packet are instances. *)
Definition mark_put (d : zsDmaDesc) : zsDmaDesc :=
  d <| status ::= λ x, (x .&~ ZM_OWN_BITS_MASK) .| ZM_OWN_BITS_HW |>.
Definition mark_reclaim (d : zsDmaDesc) : zsDmaDesc := d <| status := ZM_OWN_BITS_HW |> <| ctrl := 0 |> <| totalLen := 0 |>.
Lemma zfDmaPutPacket_enqueue q p m : zfDmaPutPacket q p m = enqueue mark_put true q p m.
Proof. reflexivity. Qed.
Lemma zfDmaReclaimPacket_enqueue q p m : zfDmaReclaimPacket q p m = enqueue mark_reclaim false q p m.
Proof. reflexivity. Qed.

(** A packet of any number of descriptors that is put on a queue comes to stand behind the
    packets in it: the queue is well formed again and carries, in order, the buffers it had and
    those of the packet; its first descriptor is the former terminator, owned by the engine,
    and the packet's former first descriptor is the new terminator. *)
Lemma zfDmaPutPacket_enqueues m q ds p ps :
  ring m q ds → packet m p ps → NoDup (ds ++ terminator q :: p :: ps) →
  ∃ m', zfDmaPutPacket q p m = Ok (q <| terminator := p |>, m') ∧
    ring m' (q <| terminator := p |>) (ds ++ terminator q :: ps) ∧
    map (payload m') (ds ++ terminator q :: ps) = map (payload m) (ds ++ p :: ps) ∧
    enqueued mark_put true q m m' p ps.
Proof. intros. rewrite zfDmaPutPacket_enqueue. by apply enqueue_run. Qed.

(** *** Taking a packet *)
Lemma lseg_last nxt l : ∀ p r z, lseg nxt p l r → last l = Some z → nxt z = Some r.
Proof.
  induction l as [|a l IH]; intros p r z; [done|]. intros (-> & n & Hn & Hl) Hz.
  destruct l as [|b l]; [injection Hz as ->; by rewrite Hn, Hl|]. rewrite last_cons_cons in Hz. by eapply IH.
Qed.
Lemma get_packet_run m q a l ds d :
  ring m q ((a :: l) ++ ds) → dm_desc m !! a = Some d → last (a :: l) = Some (lastAddr d) →
  own d = ZM_OWN_BITS_SW ∨ own d = ZM_OWN_BITS_SE →
  ∃ r, zfDmaGetPacket q m = Ok ((a, q <| head := r |>), m) ∧ ring m (q <| head := r |>) ds ∧
    lseg (hwnext m) a (a :: l) r.
Proof.
  intros [Hc Hnd Hok] Ha Hz Ho. apply lseg_app in Hc as (r & Hc1 & Hc2). pose proof Hc1 as [Hh _].
  exists r. assert (a ≠ terminator q) as Hat.
  { rewrite <-app_assoc in Hnd. cbn in Hnd. apply NoDup_cons in Hnd as [Hnd _]. intros ->. apply Hnd.
    rewrite !elem_of_app. right. right. by left. }
  pose proof (lseg_last _ _ _ _ _ Hc1 Hz) as Hn. unfold hwnext in Hn.
  destruct (dm_desc m !! lastAddr d) as [dl|] eqn:Hdl; [|done]. injection Hn as Hn.
  split; [|split; [|by rewrite Hh in Hc1]].
  - unfold zfDmaGetPacket. rewrite Hh, (proj2 (Z.eqb_neq _ _) Hat), (bind_ok _ _ _ _ _ (run_rd_dd _ _ _ Ha)).
    assert ((own d =? ZM_OWN_BITS_SW) || (own d =? ZM_OWN_BITS_SE) = true) as ->
      by (apply orb_true_iff; rewrite !Z.eqb_eq; tauto).
    rewrite (bind_ok _ _ _ _ _ (run_rd_dd _ _ _ Hdl)), Hn. done.
  - split; [done|..]; cbn.
    + rewrite <-app_assoc in Hnd. apply NoDup_app in Hnd. tauto.
    + rewrite <-app_assoc in Hok. by apply Forall_app in Hok as [_ ?].
Qed.

(** *** The VDESCs of a packet back into a chain *)
Definition vds m : gmap Z VDESC := vdescs (dm_nb m).
Lemma lookup_vdesc_of m a : vd m a = vds m !! vdesc_of a.
Proof. done. Qed.
Lemma not_in_vdesc_of a l : a ∉ l → vdesc_of a ∉ map vdesc_of l.
Proof. intros Ha Hin. apply list_elem_of_fmap in Hin as (b & Hb & Hin). unfold vdesc_of in Hb. assert (a = b) by lia. by subst. Qed.

Lemma run_upd_vd m v w f :
  vds m !! v = Some w → dnb (upd_vdesc v f) m = Ok (tt, m <| dm_nb ::= λ n, n <| vdescs ::= <[v := f w]> |> |>).
Proof. intros H. unfold dnb. by rewrite (run_upd_vdesc _ _ _ _ H). Qed.
(** How the descriptor [d] and the next VDESC leave a VDESC. *)
Definition relinked (d : zsDmaDesc) (n : Z) (v : VDESC) : VDESC :=
  v <| data_size := dataSize d |> <| next_desc := n |>.
(** [l] is a finished packet: only its last descriptor has the bit that says so. *)
Definition finished m (l : list Z) : Prop :=
  ∀ b, b ∈ l → ∃ d, dm_desc m !! b = Some d ∧ tst (ctrl d) ZM_LS_BIT = bool_decide (last l = Some b).

(** One step of the loop. *)
Lemma relink_step m n a prev d w :
  dm_desc m !! a = Some d → vds m !! vdesc_of a = Some w → (prev = 0 ∨ is_Some (vds m !! prev)) → prev ≠ vdesc_of a →
  ∃ m1, relink_loop (S n) a prev m =
      (if tst (ctrl d) ZM_LS_BIT then dnb (upd_vdesc (vdesc_of a) (λ v, v <| next_desc := 0 |>))
       else if nextAddr d =? 0 then mret tt else relink_loop n (nextAddr d) (vdesc_of a)) m1 ∧
    dm_desc m1 = dm_desc m ∧ dm_nb m1 = dm_nb m <| vdescs := vds m1 |> ∧
    vds m1 !! vdesc_of a = Some (w <| data_size := dataSize d |>) ∧
    (prev ≠ 0 → vds m1 !! prev = (λ v, v <| next_desc := vdesc_of a |>) <$> vds m !! prev) ∧
    (∀ v, prev = 0 ∨ v ≠ prev → v ≠ vdesc_of a → vds m1 !! v = vds m !! v).
Proof.
  intros Ha Hw Hp Hpa. cbn [relink_loop]. rewrite (bind_ok _ _ _ _ _ (run_rd_dd _ _ _ Ha)).
  rewrite (bind_ok _ _ _ _ _ (run_upd_vd _ _ _ _ Hw)). set (m0 := m <| dm_nb ::= _ |>).
  assert (vds m0 = <[vdesc_of a := w <| data_size := dataSize d |>]> (vds m)) as Hm0 by done.
  destruct (Z.eqb_spec prev 0) as [->|Hp0]; cbn [negb when].
  - exists m0. rewrite (bind_ok _ _ _ _ _ (run_ret _ _)). split; [done|]. split; [done|]. split; [done|].
    rewrite Hm0. split; [by rewrite lookup_insert_eq|]. split; [done|]. intros v _ Hv. by rewrite lookup_insert_ne.
  - destruct Hp as [|[wp Hwp]]; [done|].
    assert (vds m0 !! prev = Some wp) as Hwp0 by (by rewrite Hm0, lookup_insert_ne).
    rewrite (bind_ok _ _ _ _ _ (run_upd_vd _ _ _ _ Hwp0)). eexists. split; [reflexivity|]. split; [done|].
    split; [done|]. unfold vds. cbn. fold (vds m). rewrite Hwp. split; [|split].
    + by rewrite lookup_insert_ne, lookup_insert_eq.
    + intros _. by rewrite lookup_insert_eq.
    + intros v [|Hvp] Hva; [done|]. by rewrite !lookup_insert_ne.
Qed.

(** The chain of the VDESCs [l], each with the size its descriptor says. *)
Record chained m m' (l : list Z) : Prop := {
  ch_desc : dm_desc m' = dm_desc m;
  ch_nb : dm_nb m' = dm_nb m <| vdescs := vds m' |>;
  ch_each : ∀ a, a ∈ l → ∃ d w n, dm_desc m !! a = Some d ∧ vds m !! vdesc_of a = Some w ∧
    vds m' !! vdesc_of a = Some (relinked d n w) }.

Lemma relink_loop_spec l : ∀ a prev m fuel r,
  lseg (hwnext m) a l r → l ≠ [] → NoDup l → Forall (desc_ok m) l → Forall (Z.lt 16) l → finished m l →
  (length l <= fuel)%nat → (prev = 0 ∨ is_Some (vds m !! prev)) → prev ∉ map vdesc_of l →
  ∃ m', relink_loop fuel a prev m = Ok (tt, m') ∧ chained m m' l ∧
    lchain (NBufProps.dnext (dm_nb m')) (vdesc_of a) (map vdesc_of l) ∧
    (prev ≠ 0 → vds m' !! prev = (λ v, v <| next_desc := vdesc_of a |>) <$> vds m !! prev) ∧
    (∀ v, prev = 0 ∨ v ≠ prev → v ∉ map vdesc_of l → vds m' !! v = vds m !! v).
Proof.
  induction l as [|b l IH]; intros a prev m fuel r Hc Hne Hnd Hok H16 Hfin Hf Hp Hpl; [done|].
  destruct Hc as (-> & n & Hn & Hc). apply NoDup_cons in Hnd as [Hbl Hnd].
  apply Forall_cons in Hok as [[_ [w Hw]] Hok]. apply Forall_cons in H16 as [Hb16 H16].
  destruct (Hfin b ltac:(by left)) as (d & Hd & HLS).
  unfold hwnext in Hn. rewrite Hd in Hn. injection Hn as Hn. cbn in Hpl.
  apply not_elem_of_cons in Hpl as [Hpb Hpl]. destruct fuel as [|fuel]; [cbn in Hf; lia|].
  destruct (relink_step m fuel b prev d w Hd Hw Hp Hpb) as (m1 & -> & Hm1 & Hnb1 & Hwb & Hwp & Hwo).
  assert (0 < vdesc_of b) as Hb0 by (unfold vdesc_of; lia).
  rewrite HLS. destruct l as [|c l].
  - rewrite bool_decide_true by done. rewrite (run_upd_vd _ _ _ _ Hwb).
    set (m2 := m1 <| dm_nb ::= λ n, n <| vdescs ::= <[vdesc_of b := relinked d 0 w]> |> |>).
    exists m2. split; [reflexivity|].
    assert (vds m2 = <[vdesc_of b := relinked d 0 w]> (vds m1)) as Hm2 by done.
    split; [split|split; [|split]].
    + done.
    + rewrite Hm2. unfold m2. cbn. by rewrite Hnb1.
    + intros x Hx%list_elem_of_singleton. subst x. exists d, w, 0. split; [done|]. split; [done|].
      by rewrite Hm2, lookup_insert_eq.
    + cbn [map lchain]. split; [done|]. split; [lia|]. exists 0. split; [|done]. unfold NBufProps.dnext. fold (vds m2). by rewrite Hm2, lookup_insert_eq.
    + intros Hp0. rewrite Hm2, lookup_insert_ne by done. by apply Hwp.
    + intros v Hv Hvl. cbn in Hvl. apply not_elem_of_cons in Hvl as [Hvb _]. rewrite Hm2, lookup_insert_ne by done. by apply Hwo.
  - rewrite last_cons_cons, bool_decide_false by (intros E%last_Some_elem_of; done).
    pose proof Hc as [-> _]. apply Forall_inv in H16 as Hc16.
    rewrite (proj2 (Z.eqb_neq (nextAddr d) 0)) by (rewrite Hn; lia). rewrite Hn.
    assert (∀ x, x ∈ c :: l → vds m1 !! vdesc_of x = vds m !! vdesc_of x) as Hx.
    { intros x Hx. apply Hwo.
      - right. intros <-. apply Hpl. apply list_elem_of_fmap. by exists x.
      - apply vd_other. by intros ->. }
    destruct (IH c (vdesc_of b) m1 fuel r) as (m' & E & [Hch1 Hch2 Hch3] & Hlc & Hpb' & Ho).
    + eapply lseg_ext; [|exact Hc]. intros x _. unfold hwnext. by rewrite Hm1.
    + done.
    + done.
    + apply Forall_forall. intros x Hxl. rewrite Forall_forall in Hok. destruct (Hok x Hxl) as [? ?].
      split; [by rewrite Hm1|]. rewrite lookup_vdesc_of, Hx by done. done.
    + done.
    + intros x Hxl. destruct (Hfin x ltac:(by right)) as (dx & Hdx & HLx). exists dx. rewrite Hm1. split; [done|].
      by rewrite last_cons_cons in HLx.
    + cbn in *. lia.
    + right. rewrite Hwb. eauto.
    + by apply not_in_vdesc_of.
    + exists m'. split; [done|]. assert (vdesc_of b ≠ 0) as Hb0' by lia.
      assert (vds m' !! vdesc_of b = Some (relinked d (vdesc_of c) w)) as Hb'
        by (rewrite (Hpb' Hb0'), Hwb; done).
      split; [split|split; [|split]].
      * by rewrite Hch1.
      * by rewrite Hch2, Hnb1.
      * intros x [->|Hxl]%elem_of_cons; [by exists d, w, (vdesc_of c)|].
        destruct (Hch3 x Hxl) as (dx & wx & nx & H1 & H2 & H3). exists dx, wx, nx.
        rewrite <-Hm1, <-(Hx x Hxl). done.
      * cbn [map lchain]. split; [done|]. split; [lia|]. exists (vdesc_of c). split; [|exact Hlc].
        unfold NBufProps.dnext. fold (vds m'). by rewrite Hb'.
      * intros Hp0. rewrite Ho; [by apply Hwp|by right|done].
      * intros v Hv Hvl. cbn [map] in Hvl. apply not_elem_of_cons in Hvl as [Hvb Hvl].
        rewrite Ho; [by apply Hwo|by right|done].
Qed.

Lemma relink_run m buf b a l d r :
  vbufs (dm_nb m) !! buf = Some b → lseg (hwnext m) a (a :: l) r → NoDup (a :: l) → Forall (desc_ok m) (a :: l) →
  Forall (Z.lt 16) (a :: l) → finished m (a :: l) → dm_desc m !! a = Some d →
  ∃ m', relinkUSBDescToVdesc buf a m = Ok (tt, m') ∧ dm_desc m' = dm_desc m ∧
    dm_nb m' = dm_nb m <| vbufs ::= <[buf := b <| desc_list := vdesc_of a |> <| buf_length := totalLen d |>]> |>
                       <| vdescs := vds m' |> ∧
    lchain (NBufProps.dnext (dm_nb m')) (vdesc_of a) (map vdesc_of (a :: l)) ∧
    (∀ x, x ∈ a :: l → ∃ dx w n, dm_desc m !! x = Some dx ∧ vds m !! vdesc_of x = Some w ∧
       vds m' !! vdesc_of x = Some (relinked dx n w)) ∧
    (∀ v, v ∉ map vdesc_of (a :: l) → vds m' !! v = vds m !! v).
Proof.
  intros Hb Hc Hnd Hok H16 Hfin Hd.
  set (b' := b <| desc_list := vdesc_of a |> <| buf_length := totalLen d |>).
  set (m1 := m <| dm_nb ::= λ n, n <| vbufs ::= <[buf := b']> |> |>).
  destruct (relink_loop_spec (a :: l) a 0 m1 (size (dm_desc m)) r) as (m' & E & [H1 H2 H3] & Hl & _ & Ho);
    [done|done|done|done|done|done| |by left| |].
  { apply size_packet; [done|]. intros x Hx. rewrite Forall_forall in Hok. by destruct (Hok x Hx). }
  { intros (x & Hx & Hin)%list_elem_of_fmap. rewrite Forall_forall in H16. specialize (H16 x Hin).
    unfold vdesc_of in Hx. lia. }
  exists m'. split.
  - unfold relinkUSBDescToVdesc. rewrite (bind_ok _ _ _ _ _ (run_get _)).
    erewrite bind_ok by (apply run_dnb; by apply run_upd_vbuf).
    erewrite bind_ok by (apply run_rd_dd; exact Hd).
    erewrite bind_ok by (apply run_dnb; apply run_upd_vbuf; cbn; by rewrite lookup_insert_eq).
    rewrite <-E. f_equal. unfold m1, b'. destruct m as [n ds]. cbn. unfold field_upd. cbn. by rewrite insert_insert_eq.
  - split; [done|]. split; [exact H2|]. split; [exact Hl|]. split; [exact H3|]. intros v Hv.
    rewrite Ho; [done|by left|done].
Qed.

(** *** Linking the descriptors of VDESCs *)
Lemma vdesc_of_hw v : vdesc_of (hw_of v) = v.
Proof. unfold vdesc_of, hw_of. lia. Qed.
Lemma hw_of_inj v v' : hw_of v = hw_of v' → v = v'.
Proof. unfold hw_of. lia. Qed.

(** [fill] leaves the descriptor of the VDESC [w] as [fr first w] and the VDESC as [fv w]. *)
Definition fills (fill : bool → Z → DM unit) (fr : bool → VDESC → zsDmaDesc) (fv : VDESC → VDESC) : Prop :=
  ∀ first v m w, vds m !! v = Some w → is_Some (dm_desc m !! hw_of v) →
    fill first v m = Ok (tt, m <| dm_desc ::= <[hw_of v := fr first w]> |>
                               <| dm_nb ::= λ n, n <| vdescs ::= <[v := fv w]> |> |>).
(** All but the link to the next one. *)
Definition unlinked (d : zsDmaDesc) : zsDmaDesc := d <| nextAddr := 0 |>.

(** [m'] is [m] with the VDESCs [vs] filled and linked, where those of [vs] are not the first. *)
Record linked_vds fr fv m m' (vs : list Z) : Prop := {
  lv_nb : dm_nb m' = dm_nb m <| vdescs := vds m' |>;
  lv_vd : ∀ v, vds m' !! v = (if decide (v ∈ vs) then fv else id) <$> vds m !! v;
  lv_desc : ∀ v, v ∈ vs → unlinked <$> dm_desc m' !! hw_of v = unlinked ∘ fr false <$> vds m !! v }.

Lemma link_descs_spec fill fr fv :
  fills fill fr fv → (∀ w, next_desc (fv w) = next_desc w) → (∀ b w, nextAddr (fr b w) = 0) →
  ∀ vs p prev hd m fuel dp,
  lchain (NBufProps.dnext (dm_nb m)) p vs → NoDup vs → (length vs <= fuel)%nat →
  (∀ v, v ∈ vs → is_Some (dm_desc m !! hw_of v)) → prev ≠ 0 → prev ∉ map hw_of vs → Forall (λ v, hw_of v ≠ 0) vs →
  dm_desc m !! prev = Some dp → nextAddr dp = 0 →
  ∃ m' dp' z, link_descs fuel fill p prev hd m = Ok ((z, hd), m') ∧ last (prev :: map hw_of vs) = Some z ∧
    lseg (hwnext m') prev (prev :: map hw_of vs) 0 ∧
    dm_desc m' !! prev = Some dp' ∧ unlinked dp' = unlinked dp ∧
    (∀ a, a ∉ prev :: map hw_of vs → dm_desc m' !! a = dm_desc m !! a) ∧
    linked_vds fr fv m m' vs.
Proof.
  intros Hfill Hfv Hfr. induction vs as [|v vs IH]; intros p prev hd m fuel dp Hc Hnd Hf Hin Hp0 Hpv Hnz Hdp Hn.
  - cbn in Hc. subst p. exists m, dp, prev. split; [by destruct fuel|]. split; [done|].
    split; [|split; [done|split; [done|split; [done|]]]].
    + cbn. split; [done|]. exists 0. unfold hwnext. by rewrite Hdp, <-Hn.
    + split; [by destruct m as [[]]|intros v; by destruct (vds m !! v)|by intros v ?%elem_of_nil].
  - destruct Hc as (-> & Hv0 & n & Hvn & Hc). apply NoDup_cons in Hnd as [Hvvs Hnd].
    unfold NBufProps.dnext in Hvn. destruct (vdescs (dm_nb m) !! v) as [w|] eqn:Hw; [|done]. injection Hvn as Hvn.
    cbn [map] in Hpv. apply not_elem_of_cons in Hpv as [Hpv Hpvs]. apply Forall_cons in Hnz as [Hvnz Hnz].
    destruct fuel as [|fuel]; [cbn in Hf; lia|]. cbn [link_descs].
    rewrite (proj2 (Z.eqb_neq v 0) Hv0), (proj2 (Z.eqb_neq prev 0) Hp0). cbn [negb when].
    rewrite (bind_ok _ _ _ _ _ (Hfill false v m w Hw (Hin v ltac:(by left)))).
    set (m1 := m <| dm_desc ::= _ |> <| dm_nb ::= _ |>).
    assert (dm_desc m1 !! prev = Some dp) as Hdp1 by (cbn; by rewrite lookup_insert_ne).
    rewrite (bind_ok _ _ _ _ _ (run_upd_dd _ _ _ _ Hdp1)).
    set (m2 := m1 <| dm_desc ::= <[prev := dp <| nextAddr := hw_of v |>]> |>).
    assert (vds m2 = <[v := fv w]> (vds m)) as Hvd2 by done.
    assert (dm_desc m2 = <[prev := dp <| nextAddr := hw_of v |>]> (<[hw_of v := fr false w]> (dm_desc m))) as Hdd2 by done.
    erewrite bind_ok by (apply run_dnb, run_rd_vdesc; fold (vds m2); rewrite Hvd2; apply lookup_insert_eq).
    rewrite Hfv, Hvn.
    replace (m2 <| dm_nb := dm_nb m2 |>) with m2 by (by destruct m2).
    destruct (IH n (hw_of v) hd m2 fuel (fr false w)) as (m' & dp' & z & E & Hz & Hseg & Hdp' & Hul & Ho & [Hl1 Hl2 Hl3]).
    + eapply lchain_ext; [|exact Hc]. intros x Hx. unfold NBufProps.dnext. fold (vds m2) (vds m).
      rewrite Hvd2, lookup_insert_ne; [done|]. by intros ->.
    + done.
    + cbn in Hf. lia.
    + intros x Hx. rewrite Hdd2, !lookup_insert_is_Some'. right; right. apply Hin. by right.
    + done.
    + intros (x & Hx%hw_of_inj & Hin')%list_elem_of_fmap. by subst.
    + done.
    + rewrite Hdd2, lookup_insert_ne by done. apply lookup_insert_eq.
    + apply Hfr.
    + exists m', (dp <| nextAddr := hw_of v |>), z. split; [exact E|]. cbn [map]. rewrite last_cons_cons.
      assert (dm_desc m' !! prev = Some (dp <| nextAddr := hw_of v |>)) as Hprev.
      { rewrite Ho, Hdd2; [apply lookup_insert_eq|]. by rewrite not_elem_of_cons. }
      split; [done|]. split.
      { split; [done|]. exists (hw_of v). split; [|done]. unfold hwnext. by rewrite Hprev. }
      split; [done|]. split; [done|]. split; [|split].
      * intros a Ha. rewrite !not_elem_of_cons in Ha. destruct Ha as (Hap & Hav & Ha).
        rewrite Ho, Hdd2 by (by rewrite not_elem_of_cons). by rewrite !lookup_insert_ne.
      * rewrite Hl1. by destruct m as [[]].
      * intros x. rewrite Hl2, Hvd2. destruct (decide (x = v)) as [->|Hxv].
        -- rewrite lookup_insert_eq, decide_False, decide_True by (done || by left). unfold vds. by rewrite Hw.
        -- rewrite lookup_insert_ne by done. destruct (decide (x ∈ vs)).
           ++ by rewrite decide_True by (by right).
           ++ by rewrite decide_False by (by rewrite not_elem_of_cons).
      * intros x [->|Hx]%elem_of_cons.
        -- rewrite Hdp'. unfold vds. rewrite Hw. cbn. by rewrite Hul.
        -- rewrite Hl3 by done. rewrite Hvd2, lookup_insert_ne; [done|]. by intros ->.
Qed.

(** The whole chain of VDESCs [v :: vs]: the descriptor of [v] becomes the first of a list. *)
Lemma link_all fill fr fv :
  fills fill fr fv → (∀ w, next_desc (fv w) = next_desc w) → (∀ b w, nextAddr (fr b w) = 0) →
  ∀ v vs p m fuel,
  lchain (NBufProps.dnext (dm_nb m)) p (v :: vs) → NoDup (v :: vs) → (length (v :: vs) <= fuel)%nat →
  (∀ x, x ∈ v :: vs → is_Some (dm_desc m !! hw_of x)) → Forall (λ x, hw_of x ≠ 0) (v :: vs) →
  ∃ m' z w, link_descs fuel fill p 0 0 m = Ok ((z, hw_of v), m') ∧ last (map hw_of (v :: vs)) = Some z ∧
    lseg (hwnext m') (hw_of v) (map hw_of (v :: vs)) 0 ∧ vds m !! v = Some w ∧
    unlinked <$> dm_desc m' !! hw_of v = Some (unlinked (fr true w)) ∧
    (∀ x, x ∈ vs → unlinked <$> dm_desc m' !! hw_of x = unlinked ∘ fr false <$> vds m !! x) ∧
    (∀ a, a ∉ map hw_of (v :: vs) → dm_desc m' !! a = dm_desc m !! a) ∧
    dm_nb m' = dm_nb m <| vdescs := vds m' |> ∧
    (∀ x, vds m' !! x = (if decide (x ∈ v :: vs) then fv else id) <$> vds m !! x).
Proof.
  intros Hfill Hfv Hfr v vs p m fuel (-> & Hv0 & n & Hvn & Hc) [Hvvs Hnd]%NoDup_cons Hf Hin [Hvnz Hnz]%Forall_cons.
  unfold NBufProps.dnext in Hvn. destruct (vdescs (dm_nb m) !! v) as [w|] eqn:Hw; [|done]. injection Hvn as Hvn.
  destruct fuel as [|fuel]; [cbn in Hf; lia|]. cbn [link_descs].
  rewrite (proj2 (Z.eqb_neq v 0) Hv0). cbn [Z.eqb negb when].
  rewrite (bind_ok _ _ _ _ _ (Hfill true v m w Hw (Hin v ltac:(by left)))), (bind_ok _ _ _ _ _ (run_ret _ _)).
  set (m1 := m <| dm_desc ::= _ |> <| dm_nb ::= _ |>).
  assert (vds m1 = <[v := fv w]> (vds m)) as Hvd1 by done.
  assert (dm_desc m1 = <[hw_of v := fr true w]> (dm_desc m)) as Hdd1 by done.
  erewrite bind_ok by (apply run_dnb, run_rd_vdesc; fold (vds m1); rewrite Hvd1; apply lookup_insert_eq).
  rewrite Hfv, Hvn. replace (m1 <| dm_nb := dm_nb m1 |>) with m1 by (by destruct m1).
  destruct (link_descs_spec fill fr fv Hfill Hfv Hfr vs n (hw_of v) (hw_of v) m1 fuel (fr true w))
    as (m' & dp' & z & E & Hz & Hseg & Hdp' & Hul & Ho & [Hl1 Hl2 Hl3]).
  - eapply lchain_ext; [|exact Hc]. intros x Hx. unfold NBufProps.dnext. fold (vds m1) (vds m).
    rewrite Hvd1, lookup_insert_ne; [done|]. by intros ->.
  - done.
  - cbn in Hf. lia.
  - intros x Hx. rewrite Hdd1, lookup_insert_is_Some'. right. apply Hin. by right.
  - done.
  - intros (x & Hx%hw_of_inj & Hin')%list_elem_of_fmap. by subst.
  - done.
  - rewrite Hdd1. apply lookup_insert_eq.
  - apply Hfr.
  - exists m', z, w. split; [exact E|]. split; [done|]. split; [done|]. split; [done|]. split; [by rewrite Hdp', <-Hul|].
    split; [|split; [|split]].
    + intros x Hx. rewrite Hl3 by done. rewrite Hvd1, lookup_insert_ne; [done|]. by intros ->.
    + intros a Ha. rewrite Ho, Hdd1 by done. cbn [map] in Ha. apply not_elem_of_cons in Ha as [Ha _]. by rewrite lookup_insert_ne.
    + rewrite Hl1. by destruct m as [[]].
    + intros x. rewrite Hl2, Hvd1. destruct (decide (x = v)) as [->|Hxv].
      * rewrite lookup_insert_eq, decide_False, decide_True by (done || by left). unfold vds. by rewrite Hw.
      * rewrite lookup_insert_ne by done. destruct (decide (x ∈ vs)).
        -- by rewrite decide_True by (by right).
        -- by rewrite decide_False by (by rewrite not_elem_of_cons).
Qed.

Definition tx_desc_of (len : Z) (first : bool) (w : VDESC) : zsDmaDesc :=
  mk_dd (if first then ZM_FS_BIT else 0) 0 (if first then u16 len else 0) (data_size w) 0
    (u32 (buf_addr w + data_offset w)) 0.
Lemma fill_tx_fills len : fills (fill_tx len) (tx_desc_of len) id.
Proof.
  intros first v m w Hw [d Hd]. unfold fill_tx, init_usb_desc.
  rewrite (bind_ok _ _ _ _ _ (run_upd_dd _ _ _ _ Hd)).
  erewrite bind_ok by (apply run_dnb, run_rd_vdesc; exact Hw).
  do 3 (erewrite bind_ok by (apply run_upd_dd; cbn; apply lookup_insert_eq)).
  assert (∀ n : nb_state, vdescs n !! v = Some w → n <| vdescs ::= <[v := w]> |> = n) as Hn.
  { intros [] H. unfold field_upd. cbn in *. by rewrite insert_id. }
  destruct first; cbn [when].
  - erewrite run_upd_dd by (cbn; apply lookup_insert_eq). do 2 f_equal.
    destruct m as [n ds]. unfold field_upd. cbn. rewrite !insert_insert_eq. f_equal. symmetry. by apply (Hn n).
  - rewrite run_ret. do 2 f_equal. destruct m as [n ds]. unfold field_upd. cbn. rewrite !insert_insert_eq. f_equal. symmetry. by apply (Hn n).
Qed.
End queue.
