(* ===== verification/DmaTx.v ===== *)
(** * The transmit queue of the DMA engine

    Buffers that are transmitted come back in the order they were given, each with the
    contents it had, whatever descriptors carried them. *)

From S2P Require Import Prelude.
From S2P Require Import NBuf.
From S2P Require Import NBufProps.
From S2P Require Import Dma.
From S2P Require Import DmaProps.

Abbreviation contents := (list (Z * Z * Z * Z * Z)).
(** A buffer, its length and the contents of its descriptors. *)
Record sending := mk_sending { snd_buf : Z; snd_len : Z; snd_pl : contents }.

Section tx.
Implicit Types (m : dma) (q : zsTxDmaQueue) (ds ps : list Z) (dss : list (list Z)) (pk : sending).

(** The packet of a buffer lies in the descriptors [ds]. *)
Record in_packet m (ds : list Z) pk : Prop := {
  ip_first : ∃ a l d, ds = a :: l ∧ dm_desc m !! a = Some d ∧ last ds = Some (lastAddr d) ∧ totalLen d = snd_len pk;
  ip_finished : finished m ds;
  ip_payload : map (payload m) ds = map Some (snd_pl pk);
  ip_size : ∀ a, a ∈ ds → dataSize <$> dm_desc m !! a = data_size <$> vd m a }.

(** The list of the buffers on their way. *)
Definition xmited (n : nb_state) q (bufs : list Z) : Prop :=
  NoDup bufs ∧ Forall (λ b, b ≠ 0 ∧ is_Some (vbufs n !! b)) bufs ∧
  match bufs with
  | [] => xmited_buf_head q = 0 ∧ xmited_buf_tail q = 0
  | _ => ∃ init, bufs = init ++ [xmited_buf_tail q] ∧ lseg (vnext n) (xmited_buf_head q) init (xmited_buf_tail q)
  end.

(** The queue is sending [pks], which lie in the descriptors [dss]. *)
Record tx_queue m q dss (pks : list sending) : Prop := {
  tq_ring : ring m (tx_dq q) (concat dss);
  tq_packets : Forall2 (in_packet m) dss pks;
  tq_bufs : xmited (dm_nb m) q (map snd_buf pks);
  tq_addr : Forall (Z.lt 16) (concat dss ++ [terminator (tx_dq q)]) }.

(** *** What the queue depends on *)
Lemma in_packet_ext m m' ds pk :
  (∀ a, a ∈ ds → dm_desc m' !! a = dm_desc m !! a ∧ vd m' a = vd m a) → in_packet m ds pk → in_packet m' ds pk.
Proof.
  intros Hx [(a & l & d & -> & Hd & Hl & Ht) Hfin Hpl Hsz]. split.
  - exists a, l, d. split; [done|]. by rewrite (proj1 (Hx a ltac:(by left))).
  - intros b Hb. destruct (Hfin b Hb) as (db & Hdb & HLS). exists db. by rewrite (proj1 (Hx b Hb)).
  - rewrite <-Hpl. apply map_ext_in. intros b Hb%list_elem_of_In. unfold payload. by rewrite (proj2 (Hx b Hb)).
  - intros b Hb. destruct (Hx b Hb) as [-> ->]. auto.
Qed.
Lemma vnext_ext n n' b : vbufs n' !! b = vbufs n !! b → vnext n' b = vnext n b.
Proof. unfold vnext. by intros ->. Qed.

Lemma xmited_ext n n' q q' bufs :
  (∀ b, b ∈ bufs → vbufs n' !! b = vbufs n !! b) → xmited_buf_head q' = xmited_buf_head q →
  xmited_buf_tail q' = xmited_buf_tail q → xmited n q bufs → xmited n' q' bufs.
Proof.
  intros Hx Hh Ht (H1 & H2 & H3). split; [done|]. rewrite Hh, Ht. split.
  - rewrite Forall_forall in *. intros b Hb. rewrite Hx by done. by apply H2.
  - destruct bufs as [|b0 bufs]; [done|]. destruct H3 as (init & Ei & Hs). exists init. split; [done|].
    eapply lseg_ext; [|exact Hs]. intros x Hin. apply vnext_ext, Hx. rewrite Ei. apply elem_of_app. by left.
Qed.

(** The buffer goes to the end of the list. *)
Lemma xmited_add_run m q bufs buf :
  xmited (dm_nb m) q bufs → buf ∉ bufs → buf ≠ 0 → is_Some (vbufs (dm_nb m) !! buf) →
  ∃ q' n', xmited_add q buf m = Ok (q', m <| dm_nb := n' |>) ∧ tx_dq q' = tx_dq q ∧ xmited n' q' (bufs ++ [buf]) ∧
    n' = dm_nb m <| vbufs := vbufs n' |>.
Proof.
  intros (Hnd & Hall & Hl) Hb Hb0 [vb Hvb].
  assert (NoDup (bufs ++ [buf])) as Hnd'.
  { apply NoDup_app. split; [done|]. split; [|apply NoDup_singleton]. intros x Hx ->%list_elem_of_singleton. done. }
  destruct bufs as [|b0 bufs].
  - destruct Hl as [Hh Ht]. unfold xmited_add. rewrite Hh, Ht. cbn [Z.eqb andb].
    erewrite bind_ok by (apply run_dnb; by apply run_upd_vbuf). eexists _, _. split; [reflexivity|]. split; [done|].
    split; [|done]. split; [done|]. split.
    + constructor; [|constructor]. split; [done|]. cbn. rewrite lookup_insert_eq. eauto.
    + by exists [].
  - destruct Hl as (init & Ebufs & Hseg). set (t := xmited_buf_tail q) in *.
    assert (t ∈ b0 :: bufs) as Htin by (rewrite Ebufs; set_solver).
    pose proof (proj1 (Forall_forall _ _) Hall t Htin) as [Ht0 [vt Hvt]].
    unfold xmited_add. fold t. rewrite (proj2 (Z.eqb_neq t 0) Ht0), andb_false_r.
    erewrite bind_ok by (apply run_dnb; by apply run_upd_vbuf). eexists _, _. split; [reflexivity|]. split; [done|].
    split; [|done]. split; [done|].
    assert (∀ x, is_Some (vbufs (dm_nb m) !! x) → is_Some (<[t := vt <| next_buf := buf |>]> (vbufs (dm_nb m)) !! x)) as Hsome.
    { intros x Hx. rewrite lookup_insert_is_Some'. by right. }
    split.
    + apply Forall_app. split; [|constructor; [split; [done|]; apply Hsome; eauto|constructor]].
      eapply Forall_impl; [exact Hall|]. cbn. intros x [? ?]. split; [done|]. by apply Hsome.
    + cbn [app]. exists (b0 :: bufs). split; [done|]. cbn [xmited_buf_head xmited_buf_tail]. rewrite Ebufs.
      apply lseg_app. exists t. split.
      * eapply lseg_ext; [|exact Hseg]. intros x Hx. unfold vnext. cbn. rewrite lookup_insert_ne; [done|].
        intros Etx. rewrite Ebufs in Hnd. apply NoDup_app in Hnd as (_ & Hd & _). apply (Hd x Hx). rewrite Etx. by left.
      * split; [done|]. exists buf. split; [|done]. unfold vnext. cbn. by rewrite lookup_insert_eq.
Qed.

(** *** Preparing the descriptors of a buffer *)
Record prepared_tx m m3 (v : Z) (vs : list Z) (len : Z) : Prop := {
  px_vds : vds m3 = vds m;
  px_out : ∀ a, a ∉ map hw_of (v :: vs) → dm_desc m3 !! a = dm_desc m !! a;
  px_chain : lseg (hwnext m3) (hw_of v) (map hw_of (v :: vs)) 0;
  px_first : ∃ d, dm_desc m3 !! hw_of v = Some d ∧ totalLen d = u16 len ∧
    last (map hw_of (v :: vs)) = Some (lastAddr d);
  px_each : ∀ x, x ∈ v :: vs → ∃ w d, vds m !! x = Some w ∧ dm_desc m3 !! hw_of x = Some d ∧
    dataSize d = data_size w ∧ tst (ctrl d) ZM_LS_BIT = bool_decide (last (map hw_of (v :: vs)) = Some (hw_of x)) }.

Lemma unlinked_eq d d' : unlinked d = unlinked d' →
  ctrl d = ctrl d' ∧ totalLen d = totalLen d' ∧ dataSize d = dataSize d' ∧ lastAddr d = lastAddr d'.
Proof. destruct d, d'. intros E. by injection E as -> -> -> -> -> ->. Qed.
Lemma tst_LS x : tst (x .| ZM_LS_BIT) ZM_LS_BIT = true.
Proof.
  unfold tst. assert ((x .| ZM_LS_BIT) .& ZM_LS_BIT = ZM_LS_BIT) as ->; [|done].
  apply Z.bits_inj'. intros n _. rewrite Z.land_spec, Z.lor_spec. by destruct (Z.testbit x n), (Z.testbit ZM_LS_BIT n).
Qed.
Lemma run_alter_dd m a f : is_Some (dm_desc m !! a) → upd_dd a f m = Ok (tt, m <| dm_desc ::= alter f a |>).
Proof.
  intros [d Hd]. rewrite (run_upd_dd _ _ _ _ Hd). do 2 f_equal. destruct m as [n ds]. unfold field_upd. cbn in *. f_equal.
  apply map_eq. intros i. destruct (decide (a = i)) as [<-|].
  - by rewrite lookup_insert_eq, lookup_alter_eq, Hd.
  - by rewrite lookup_insert_ne, lookup_alter_ne.
Qed.
Lemma lookup_alter_if {A} (f : A → A) (i j : Z) (ds : gmap Z A) d :
  ds !! j = Some d → alter f i ds !! j = Some (if decide (i = j) then f d else d).
Proof.
  intros H. case_decide as E; [subst; by rewrite lookup_alter_eq, H|by rewrite lookup_alter_ne].
Qed.

Lemma xmit_prepare {B} (k : Z → DM B) m len v vs p :
  lchain (NBufProps.dnext (dm_nb m)) p (v :: vs) → Forall (Z.lt 0) (v :: vs) →
  (∀ x, x ∈ v :: vs → is_Some (dm_desc m !! hw_of x)) →
  ∃ m3, ('(usbDesc, headUsbDesc) ← link_descs (size (vdescs (dm_nb m))) (fill_tx len) p 0 0;
         if usbDesc =? 0 then fail UninitRead else
         upd_dd usbDesc (λ d, d <| ctrl ::= λ x, x .| ZM_LS_BIT |>) ;;
         upd_dd headUsbDesc (λ d, d <| lastAddr := usbDesc |>) ;;
         k headUsbDesc) m = k (hw_of v) m3 ∧ dm_nb m3 = dm_nb m ∧ prepared_tx m m3 v vs len.
Proof.
  intros Hc Hpos Hin. assert (NoDup (v :: vs)) as Hnd by by eapply lchain_NoDup.
  assert (Forall (λ x, hw_of x ≠ 0) (v :: vs)) as Hnz.
  { eapply Forall_impl; [exact Hpos|]. cbn. intros x Hx. unfold VDESC_get_hw_desc. lia. }
  destruct (link_all (fill_tx len) (tx_desc_of len) id (fill_tx_fills _) ltac:(done) ltac:(by intros [])
    v vs p m (size (vdescs (dm_nb m))) Hc Hnd) as (m1 & z & w & E1 & Hz & Hseg & Hw & Hfst & Hrest & Hout & Hnb & Hvd);
    [by eapply lchain_size|done|done|].
  assert (vds m1 = vds m) as Hvds. { apply map_eq. intros x. rewrite Hvd. case_decide; by destruct (vds m !! x). }
  assert (∀ x, x ∈ v :: vs → ∃ wx d, vds m !! x = Some wx ∧ dm_desc m1 !! hw_of x = Some d ∧
    unlinked d = unlinked (tx_desc_of len (bool_decide (x = v)) wx)) as Heach.
  { intros x Hx. destruct (decide (x = v)) as [->|Hxv].
    - destruct (dm_desc m1 !! hw_of v) as [d|]; [|done]. apply (inj Some) in Hfst. exists w, d. by rewrite bool_decide_true.
    - apply elem_of_cons in Hx as [|Hx]; [done|]. specialize (Hrest x Hx).
      assert (is_Some (vds m !! x)) as [wx Hwx].
      { destruct (lchain_some _ _ _ x Hc ltac:(by right)) as [y Hy]. unfold NBufProps.dnext in Hy. fold (vds m) in Hy.
        destruct (vds m !! x); [eauto|done]. }
      rewrite Hwx in Hrest. destruct (dm_desc m1 !! hw_of x) as [d|]; [|done]. apply (inj Some) in Hrest.
      exists wx, d. by rewrite bool_decide_false. }
  assert (z ∈ map hw_of (v :: vs)) as Hzin by by apply last_Some_elem_of.
  apply list_elem_of_fmap in Hzin as (zx & -> & Hzx). destruct (Heach zx Hzx) as (wz & dz & _ & Hdz & _).
  set (m3 := m1 <| dm_desc ::= alter (λ d, d <| ctrl ::= λ x, x .| ZM_LS_BIT |>) (hw_of zx) |>
                <| dm_desc ::= alter (λ d, d <| lastAddr := hw_of zx |>) (hw_of v) |>).
  assert (∀ x, x ∈ v :: vs → ∃ wx d1, vds m !! x = Some wx ∧ dm_desc m1 !! hw_of x = Some d1 ∧
    unlinked d1 = unlinked (tx_desc_of len (bool_decide (x = v)) wx) ∧
    dm_desc m3 !! hw_of x = Some (let d2 := if decide (hw_of zx = hw_of x) then d1 <| ctrl ::= λ x, x .| ZM_LS_BIT |> else d1 in
      if decide (hw_of v = hw_of x) then d2 <| lastAddr := hw_of zx |> else d2)) as Hall.
  { intros x Hx. destruct (Heach x Hx) as (wx & d1 & Hwx & Hd1 & Hu). exists wx, d1. split; [done|]. split; [done|].
    split; [done|]. unfold m3. cbn. by do 2 apply lookup_alter_if. }
  exists m3. split.
  { rewrite (bind_ok _ _ _ _ _ E1). rewrite Forall_forall in Hnz. rewrite (proj2 (Z.eqb_neq _ _) (Hnz zx Hzx)).
    rewrite (bind_ok _ _ _ _ _ (run_alter_dd _ _ _ (ex_intro _ _ Hdz))).
    destruct (Heach v ltac:(by left)) as (? & dv & _ & Hdv & _).
    erewrite bind_ok; [reflexivity|]. apply run_alter_dd. cbn. rewrite (lookup_alter_if _ _ _ _ _ Hdv). eauto. }
  split; [change (dm_nb m1 = dm_nb m); rewrite Hnb, Hvds; by destruct m as [[]]|]. split.
  - exact Hvds.
  - intros a Ha. rewrite <-Hout by done. unfold m3. cbn. rewrite !lookup_alter_ne; [done|..].
    + intros <-. apply Ha. apply list_elem_of_fmap. by exists zx.
    + intros <-. apply Ha. by left.
  - eapply lseg_ext; [|exact Hseg]. intros a Ha. apply list_elem_of_fmap in Ha as (x & -> & Hx).
    destruct (Hall x Hx) as (wx & d1 & _ & Hd1 & _ & Hd3). unfold hwnext. rewrite Hd1, Hd3. cbn. by do 2 case_decide.
  - destruct (Hall v ltac:(by left)) as (wx & d1 & _ & _ & Hu & Hd3). eexists. split; [exact Hd3|].
    apply unlinked_eq in Hu as (_ & Ht & _). rewrite bool_decide_true in Ht by done. cbn zeta.
    rewrite (decide_True (P := hw_of v = hw_of v)) by done. split; [|by rewrite Hz].
    transitivity (totalLen d1); [by case_decide|by rewrite Ht].
  - intros x Hx. destruct (Hall x Hx) as (wx & d1 & Hwx & _ & Hu & Hd3). eexists wx, _. split; [done|].
    split; [exact Hd3|]. apply unlinked_eq in Hu as (Hct & _ & Hsz & _). cbn zeta. split; [|rewrite Hz].
    { transitivity (dataSize d1); [by do 2 case_decide|by rewrite Hsz]. }
    transitivity (tst (ctrl (if decide (hw_of zx = hw_of x) then d1 <| ctrl ::= λ x, x .| ZM_LS_BIT |> else d1)) ZM_LS_BIT).
    { by case_decide; case_decide. }
    case_decide as Ez; [rewrite bool_decide_true by congruence; apply tst_LS|].
    rewrite bool_decide_false by congruence. rewrite Hct. by destruct (bool_decide (x = v)).
Qed.

(** *** The packet on the queue *)
Lemma all_some {A B} (f : A → option B) l : (∀ x, x ∈ l → is_Some (f x)) → ∃ r, map f l = map Some r.
Proof.
  induction l as [|x l IH]; intros H; [by exists []|].
  destruct (H x ltac:(by left)) as [y Hy]. destruct IH as [r Hr]; [intros z Hz; apply H; by right|].
  exists (y :: r). cbn. by rewrite Hy, Hr.
Qed.
Lemma map_eq_at {A B} (f g : A → B) l x : map f l = map g l → x ∈ l → f x = g x.
Proof. induction l as [|y l IH]; cbn; intros E; [by intros ?%elem_of_nil|]. injection E as E1 E2. intros [->|?]%elem_of_cons; auto. Qed.
Lemma data_size_payload m a : data_size <$> vd m a = (λ b : Z * Z * Z * Z * Z, b.1.2) <$> payload m a.
Proof. unfold payload. by destruct (vd m a). Qed.
Lemma info_eq d d' : info d = info d' → ctrl d = ctrl d' ∧ totalLen d = totalLen d' ∧ dataSize d = dataSize d'.
Proof. unfold info. intros E. by injection E as -> -> -> _. Qed.

(** A prepared buffer is in its packet once that is on the queue. *)
Lemma put_in_packet m m3 m' (q : zsDmaQueue) v vs len buf pl :
  prepared_tx m m3 v vs len → NoDup (map hw_of (v :: vs)) → terminator q ∉ map hw_of (v :: vs) →
  enqueued mark_put true q m3 m' (hw_of v) (map hw_of vs) →
  map (payload m') (terminator q :: map hw_of vs) = map (payload m3) (map hw_of (v :: vs)) →
  map (λ x, buffer <$> vds m !! x) (v :: vs) = map Some pl →
  in_packet m' (terminator q :: map hw_of vs) (mk_sending buf (u16 len) pl).
Proof.
  intros [Hvds _ _ (d & Hd & Htl & Hla) Heach] Hnd HT [_ (d0 & d' & Hd0 & Hd' & Hi & _ & Hl') Hrest _ _ _] Hpl Hb.
  rewrite Hd in Hd0. injection Hd0 as <-. apply info_eq in Hi as (Hct & Htl' & Hsz).
  assert (∀ x, payload m3 (hw_of x) = buffer <$> vds m !! x) as Hp3.
  { intros x. unfold payload, vd. rewrite vdesc_of_hw. fold (vds m3). by rewrite Hvds. }
  set (T := terminator q) in *.
  assert (last (T :: map hw_of vs) = Some (if decide (vs = []) then T else lastAddr d)) as Hlast.
  { destruct vs as [|x vs]; [done|]. rewrite decide_False by done. cbn [map] in *. by rewrite last_cons_cons in *. }
  split.
  - exists T, (map hw_of vs), d'. split; [done|]. split; [done|]. rewrite Hl'. split; [|by rewrite Htl'].
    by destruct (last (T :: map hw_of vs)) eqn:E.
  - intros a [->|Ha]%elem_of_cons.
    + exists d'. split; [done|]. rewrite Hct, Hlast.
      destruct (Heach v ltac:(by left)) as (w & dv & _ & Hdv & _ & HLS). rewrite Hd in Hdv. injection Hdv as <-.
      transitivity (tst (ctrl d) ZM_LS_BIT); [done|]. rewrite HLS, Hla. apply bool_decide_ext.
      destruct (decide (vs = [])) as [->|Hvs].
      * cbn in Hla. injection Hla as <-. done.
      * split; intros E; exfalso.
        -- injection E as E. destruct vs as [|x vs]; [done|]. cbn [map] in Hla. rewrite last_cons_cons in Hla.
           apply last_Some_elem_of in Hla. rewrite E in Hla. apply NoDup_cons in Hnd as [Hnd _]. done.
        -- injection E as E. apply HT. rewrite <-E. by apply last_Some_elem_of.
    + apply list_elem_of_fmap in Ha as (x & -> & Hx).
      destruct (Heach x ltac:(by right)) as (w & dx & _ & Hdx & _ & HLS).
      specialize (Hrest (hw_of x) ltac:(apply list_elem_of_fmap; by exists x)). rewrite Hdx in Hrest. cbn in Hrest.
      destruct (dm_desc m' !! hw_of x) as [dx'|]; [|done]. apply (inj Some), info_eq in Hrest as (Hcx & _).
      exists dx'. split; [done|]. rewrite Hcx. transitivity (tst (ctrl dx) ZM_LS_BIT); [done|]. rewrite HLS.
      apply bool_decide_ext. rewrite Hla, Hlast, decide_False; [done|]. intros ->. by apply elem_of_nil in Hx.
  - cbn [snd_pl]. rewrite Hpl, <-Hb, map_map. apply map_ext. intros x. apply Hp3.
  - intros a Ha. rewrite data_size_payload.
    destruct (Heach v ltac:(by left)) as (w & dv & Hw & Hdv & Hsv & _). rewrite Hd in Hdv. injection Hdv as <-.
    cbn [map] in Hpl. injection Hpl as HplT Hplr. apply elem_of_cons in Ha as [->|Ha].
    + rewrite HplT, Hp3, Hw, Hd'. cbn. rewrite Hsz. cbn. by rewrite Hsv.
    + apply list_elem_of_fmap in Ha as (x & -> & Hx).
      destruct (Heach x ltac:(by right)) as (wx & dx & Hwx & Hdx & Hsx & _).
      assert (payload m' (hw_of x) = payload m3 (hw_of x)) as ->.
      { apply (map_eq_at _ _ _ _ Hplr). apply list_elem_of_fmap. by exists x. }
      specialize (Hrest (hw_of x) ltac:(apply list_elem_of_fmap; by exists x)). rewrite Hdx in Hrest. cbn in Hrest.
      destruct (dm_desc m' !! hw_of x) as [dx'|]; [|done]. apply (inj Some), info_eq in Hrest as (_ & _ & Hsx').
      rewrite Hp3, Hwx. cbn. rewrite Hsx'. cbn. by rewrite Hsx.
Qed.

(** C18: transmitting a buffer puts it, with its length and the contents of its descriptors, at
    the end of the queue of those on their way. *)
Theorem xmit_buf_enqueues m q dss pks buf b vs :
  tx_queue m q dss pks → vbufs (dm_nb m) !! buf = Some b → buf ≠ 0 → buf ∉ map snd_buf pks →
  lchain (NBufProps.dnext (dm_nb m)) (desc_list b) vs → vs ≠ [] → Forall (Z.lt 0) vs →
  (∀ v, v ∈ vs → is_Some (dm_desc m !! hw_of v)) →
  NoDup (concat dss ++ terminator (tx_dq q) :: map hw_of vs) →
  ∃ m' q' ds pl, _DMAengine_xmit_buf q buf m = Ok (q', m') ∧
    map (λ v, buffer <$> vds m !! v) vs = map Some pl ∧
    tx_queue m' q' (dss ++ [ds]) (pks ++ [mk_sending buf (u16 (buf_length b)) pl]).
Proof.
  intros [Hr Hpk Hx H16] Hb Hb0 Hbin Hc Hne Hpos Hin Hnd. destruct vs as [|v vs]; [done|].
  set (T := terminator (tx_dq q)) in *.
  pose proof Hnd as (Hndd & Hdj & [HTi Hndh]%NoDup_cons)%NoDup_app.
  destruct (all_some (λ x, buffer <$> vds m !! x) (v :: vs)) as [pl Hpl].
  { intros x Hxin. destruct (lchain_some _ _ _ x Hc Hxin) as [y Hy]. unfold NBufProps.dnext in Hy. fold (vds m) in Hy.
    destruct (vds m !! x); [eauto|done]. }
  destruct (xmit_prepare (λ hd, q ← xmited_add q buf; dq ← zfDmaPutPacket (tx_dq q) hd; mret (q <| tx_dq := dq |>))
    m (buf_length b) v vs (desc_list b) Hc Hpos Hin) as (m3 & E3 & Hnb3 & Hp3).
  pose proof Hp3 as [Hvds3 Hout3 Hchain3 Hfirst3 Heach3].
  destruct (xmited_add_run m3 q (map snd_buf pks) buf) as (q4 & n4 & E4 & Hq4 & Hx4 & Hn4);
    [by rewrite Hnb3|done|done|rewrite Hnb3; eauto|].
  set (m4 := m3 <| dm_nb := n4 |>) in *.
  assert (∀ a, vd m4 a = vd m a) as Hvd4 by (intros a; unfold vd, m4; cbn; by rewrite Hn4, Hnb3).
  assert (dm_desc m4 = dm_desc m3) as Hdd4 by done.
  assert (∀ a, a ∈ concat dss ++ [T] → dm_desc m4 !! a = dm_desc m !! a ∧ vd m4 a = vd m a) as Hkeep.
  { intros a Ha. split; [|done]. rewrite Hdd4. apply Hout3. intros Hm. apply elem_of_app in Ha as [Ha|Ha%list_elem_of_singleton].
    - apply (Hdj a Ha). by right.
    - by subst a. }
  destruct (enqueue_run mark_put true m4 (tx_dq q) (concat dss) (hw_of v) (map hw_of vs)) as (m' & E5 & Hr' & Hpay & Hen);
    [done|done|by eapply ring_ext| |done|].
  { destruct Hfirst3 as (d & Hd & _ & Hl). split.
    - exists 0. exact Hchain3.
    - exists d. done.
    - apply Forall_forall. intros a Ha. change (hw_of v :: map hw_of vs) with (map hw_of (v :: vs)) in Ha.
      apply list_elem_of_fmap in Ha as (x & -> & Hxin).
      destruct (Heach3 x Hxin) as (w & dx & Hw & Hdx & _). split; [rewrite Hdd4; eauto|].
      rewrite Hvd4. unfold vd. rewrite vdesc_of_hw. fold (vds m). eauto. }
  assert (map (payload m') (concat dss) = map (payload m4) (concat dss) ∧
    map (payload m') (T :: map hw_of vs) = map (payload m4) (map hw_of (v :: vs))) as [_ Hpay2].
  { rewrite !map_app in Hpay. by apply app_inj_1 in Hpay; [|by rewrite !length_map]. }
  exists m', (q4 <| tx_dq := tx_dq q <| terminator := hw_of v |> |>), (T :: map hw_of vs), pl.
  split; [|split; [done|split]].
  - unfold _DMAengine_xmit_buf. rewrite (bind_ok _ _ _ _ _ (run_get _)).
    erewrite bind_ok by (apply run_dnb, run_rd_vbuf; exact Hb).
    replace (m <| dm_nb := dm_nb m |>) with m by (by destruct m). etransitivity; [exact E3|].
    assert (zfDmaPutPacket (tx_dq q4) (hw_of v) m4 = Ok (tx_dq q <| terminator := hw_of v |>, m')) as E5'
      by (rewrite Hq4, zfDmaPutPacket_enqueue; exact E5).
    by rewrite (bind_ok _ _ _ _ _ E4), (bind_ok _ _ _ _ _ E5').
  - cbn [tx_dq]. rewrite concat_app. cbn [concat]. rewrite app_nil_r. exact Hr'.
  - apply Forall2_app; [|constructor; [|constructor]].
    + rewrite Forall2_lookup in *. intros i. specialize (Hpk i).
      destruct (dss !! i) as [ds|] eqn:Hds, (pks !! i) as [pk|]; inversion Hpk; subst; constructor.
      eapply in_packet_ext; [|done]. intros a Ha.
      assert (a ∈ concat dss) as Hac. { apply list_elem_of_In, in_concat. exists ds. split; apply list_elem_of_In; [by eapply list_elem_of_lookup_2|done]. }
      destruct (Hkeep a ltac:(apply elem_of_app; by left)) as [<- <-].
      split; [apply (en_desc _ _ _ _ _ _ _ Hen)|apply (en_vd _ _ _ _ _ _ _ Hen)].
      * intros Hin'. by apply (Hdj a Hac).
      * intros ->. apply (Hdj _ Hac). by left.
      * intros ->. apply (Hdj _ Hac). right. by left.
    + eapply (put_in_packet m m4 m' (tx_dq q)); [|done|done|exact Hen|exact Hpay2|exact Hpl].
      destruct Hp3. split; try done. unfold vds, m4. cbn. by rewrite Hn4, Hnb3.
  - rewrite map_app. eapply xmited_ext; [|done|done|exact Hx4]. intros x _. by rewrite (en_nb _ _ _ _ _ _ _ Hen).
  - rewrite concat_app. cbn [concat]. rewrite app_nil_r. apply Forall_app in H16 as [H16 [HT16 _]%Forall_cons].
    rewrite Forall_forall in Hpos.
    assert (∀ x, x ∈ v :: vs → 16 < hw_of x) as Hh by (intros x Hxin; specialize (Hpos x Hxin); unfold VDESC_get_hw_desc; lia).
    apply Forall_app. split.
    + apply Forall_app. split; [done|]. constructor; [done|]. apply Forall_map, Forall_forall. intros x Hxin. apply Hh. by right.
    + constructor; [|constructor]. apply Hh. by left.
Qed.

(** *** Taking a sent buffer back *)
Definition with_dq q (dq : zsDmaQueue) : zsTxDmaQueue := q <| tx_dq := dq |>.
Lemma xmited_take m q buf bufs :
  xmited (dm_nb m) q (buf :: bufs) →
  ∃ q' n', (q ← (if xmited_buf_head q =? xmited_buf_tail q then
                 mret (q <| xmited_buf_head := 0 |> <| xmited_buf_tail := 0 |>)
               else b ← dnb (rd_vbuf (xmited_buf_head q)); mret (q <| xmited_buf_head := next_buf b |>));
            dnb (upd_vbuf buf (λ b, b <| next_buf := 0 |>)) ;; mret q) m = Ok (q', m <| dm_nb := n' |>) ∧
    xmited_buf_head q = buf ∧ tx_dq q' = tx_dq q ∧ xmited n' q' bufs ∧ n' = dm_nb m <| vbufs := vbufs n' |> ∧
    ∃ b, vbufs n' !! buf = Some b ∧ next_buf b = 0.
Proof.
  intros ([Hb Hnd]%NoDup_cons & [[Hb0 [vb Hvb]] Hall]%Forall_cons & (init & Ei & Hseg)).
  set (n' := dm_nb m <| vbufs ::= <[buf := vb <| next_buf := 0 |>]> |>).
  assert (∀ q', dnb (upd_vbuf buf (λ b, b <| next_buf := 0 |>)) m = Ok (tt, m <| dm_nb := n' |>)) as Eu.
  { intros _. apply run_dnb. by apply run_upd_vbuf. }
  assert (∀ x, x ≠ buf → vbufs n' !! x = vbufs (dm_nb m) !! x) as Ho by (intros x Hx; cbn; by rewrite lookup_insert_ne).
  assert (vbufs n' !! buf = Some (vb <| next_buf := 0 |>)) as Hbuf by (cbn; apply lookup_insert_eq).
  assert (Forall (λ b, b ≠ 0 ∧ is_Some (vbufs n' !! b)) bufs) as Hall'.
  { rewrite Forall_forall in *. intros x Hx. rewrite Ho by (by intros ->). by apply Hall. }
  destruct init as [|c init].
  - injection Ei as Et ->. cbn in Hseg. rewrite Hseg, <-Et, Z.eqb_refl.
    eexists _, n'. rewrite (bind_ok _ _ _ _ _ (run_ret _ _)), (bind_ok _ _ _ _ _ (Eu q)).
    split; [reflexivity|]. split; [done|]. split; [done|]. split; [by split_and!|]. split; [done|]. by eexists.
  - injection Ei as <- Ei. destruct Hseg as (Hh & r & Hr & Hseg). unfold vnext in Hr. rewrite Hvb in Hr. injection Hr as Hr.
    assert (xmited_buf_tail q ∈ bufs) as Htin by (rewrite Ei; set_solver).
    assert (buf ≠ xmited_buf_tail q) as Hbt by (by intros ->).
    rewrite Hh, (proj2 (Z.eqb_neq _ _) Hbt). eexists _, n'.
    assert ((b ← dnb (rd_vbuf buf); mret (q <| xmited_buf_head := next_buf b |>)) m = Ok (q <| xmited_buf_head := r |>, m)) as E.
    { erewrite bind_ok by (apply run_dnb, run_rd_vbuf; exact Hvb). rewrite Hr. by destruct m. }
    rewrite (bind_ok _ _ _ _ _ E), (bind_ok _ _ _ _ _ (Eu q)). split; [reflexivity|]. split; [done|]. split; [done|].
    split; [|split; [done|by eexists]]. split; [done|]. split; [done|].
    destruct bufs as [|c bufs]; [by apply elem_of_nil in Htin|]. exists init. split; [done|]. cbn [xmited_buf_head].
    eapply lseg_ext; [|exact Hseg]. intros x Hx. apply vnext_ext, Ho. intros ->. apply Hb. rewrite Ei. set_solver.
Qed.

(** C19: once the engine is done with the first packet, taking a sent buffer back gives the first
    buffer of the queue, with the length and the contents it was given with, as a chain of
    its own; the queue keeps the others. *)
Theorem reap_xmited_buf_dequeues m q ds dss pk pks a d :
  tx_queue m q (ds :: dss) (pk :: pks) → head (tx_dq q) = a → dm_desc m !! a = Some d →
  own d = ZM_OWN_BITS_SW ∨ own d = ZM_OWN_BITS_SE →
  ∃ m' q' b vs, _DMAengine_reap_xmited_buf q m = Ok ((snd_buf pk, q'), m') ∧ tx_queue m' q' dss pks ∧
    vbufs (dm_nb m') !! snd_buf pk = Some b ∧ next_buf b = 0 ∧ buf_length b = snd_len pk ∧
    lchain (NBufProps.dnext (dm_nb m')) (desc_list b) vs ∧
    map (λ v, buffer <$> vds m' !! v) vs = map Some (snd_pl pk).
Proof.
  intros [Hr [Hip Hpk]%Forall2_cons Hx H16] Hh Hd Ho. pose proof Hip as [(a' & l & d' & -> & Hd' & Hl & Ht) Hfin Hpl Hsz].
  cbn [concat] in Hr, H16. pose proof (rg_chain _ _ _ Hr) as [Hha _]. rewrite Hha in Hh. subst a'.
  rewrite Hd in Hd'. injection Hd' as <-.
  destruct (get_packet_run m (tx_dq q) a l (concat dss) d Hr Hd Hl Ho) as (r & E1 & Hr1 & Hseg).
  destruct (xmited_take m (with_dq q (tx_dq q <| head := r |>)) (snd_buf pk) (map snd_buf pks) Hx)
    as (q' & n' & E2 & Hhd & Hq' & Hx' & Hn' & b & Hb & Hbn).
  set (m2 := m <| dm_nb := n' |>).
  pose proof (rg_nodup _ _ _ Hr) as Hnd. rewrite <-app_assoc in Hnd.
  pose proof Hnd as (Hnda & Hdj & _)%NoDup_app.
  pose proof (rg_ok _ _ _ Hr) as Hok. rewrite <-app_assoc in Hok, H16.
  apply Forall_app in Hok as [Hoka _]. apply Forall_app in H16 as [H16a H16b].
  assert (∀ x, vd m2 x = vd m x) as Hvd2 by (intros x; unfold vd, m2; cbn; by rewrite Hn').
  destruct (relink_run m2 (snd_buf pk) b a l d r Hb Hseg Hnda) as (m' & E3 & Hdd & Hnb & Hch & Heach & Hout);
    [|done|done|done|].
  { eapply Forall_impl; [exact Hoka|]. intros x [? ?]. split; [done|]. by rewrite Hvd2. }
  exists m', q', (b <| desc_list := vdesc_of a |> <| buf_length := totalLen d |>), (map vdesc_of (a :: l)).
  assert (∀ x, x ∈ concat dss ++ [terminator (tx_dq q)] → dm_desc m' !! x = dm_desc m !! x ∧ vd m' x = vd m x) as Hkeep.
  { intros x Hxin. split; [by rewrite Hdd|]. rewrite lookup_vdesc_of, Hout; [by rewrite <-lookup_vdesc_of|].
    apply not_in_vdesc_of. intros Hin. by apply (Hdj x Hin). }
  assert (vbufs (dm_nb m') = <[snd_buf pk := b <| desc_list := vdesc_of a |> <| buf_length := totalLen d |>]> (vbufs n')) as Hvb
    by (by rewrite Hnb).
  split; [|split; [|split; [by rewrite Hvb, lookup_insert_eq|split; [done|split; [done|split; [exact Hch|]]]]]].
  - unfold _DMAengine_reap_xmited_buf. rewrite (bind_ok _ _ _ _ _ E1).
    apply Forall_cons in H16a as [Ha16 _]. rewrite (proj2 (Z.eqb_neq a 0)) by lia.
    apply bind_inv in E2 as (q1 & s1 & Ea & E2). apply bind_inv in E2 as ([] & s2 & Eb & E2). injection E2 as <- ->.
    cbv zeta iota. etransitivity; [eapply bind_ok; exact Ea|]. cbv beta. fold (with_dq q (tx_dq q <| head := r |>)).
    change (xmited_buf_head (with_dq q (tx_dq q <| head := r |>))) with (xmited_buf_head q) in *. rewrite Hhd.
    by rewrite (bind_ok _ _ _ _ _ Eb), (bind_ok _ _ _ _ _ E3).
  - split.
    + rewrite Hq'. eapply ring_ext; [exact Hkeep|exact Hr1].
    + rewrite Forall2_lookup in *. intros i. specialize (Hpk i).
      destruct (dss !! i) as [ds|] eqn:Hds, (pks !! i) as [pk'|]; inversion Hpk; subst; constructor.
      eapply in_packet_ext; [|done]. intros x Hxin. apply Hkeep, elem_of_app. left.
      apply list_elem_of_In, in_concat. exists ds. split; apply list_elem_of_In; [by eapply list_elem_of_lookup_2|done].
    + eapply xmited_ext; [|done|done|exact Hx']. intros x Hxin. rewrite Hvb, lookup_insert_ne; [done|].
      destruct Hx as ([Hni _]%NoDup_cons & _). intros E. apply Hni. by rewrite E.
    + by rewrite Hq'.
  - rewrite <-Hpl, map_map. apply map_ext_in. intros x Hxin%list_elem_of_In.
    destruct (Heach x Hxin) as (dx & w & n & Hdx & Hwx & ->). specialize (Hsz x Hxin).
    change (dm_desc m !! x = Some dx) in Hdx. rewrite Hdx in Hsz. change (vd m2 x = Some w) in Hwx.
    unfold payload. rewrite Hvd2 in Hwx. rewrite Hwx in *. cbn in *. injection Hsz as Hsz. unfold buffer. cbn. by rewrite Hsz.
Qed.
End tx.
