(* ===== verification/DmaRx.v ===== *)
(** * The receive queues of the DMA engine

    A buffer given back goes, emptied, to the end of the queue the engine fills; a completed
    packet comes as a fresh buffer header with the buffers of its descriptors. *)

From S2P Require Import Prelude.
From S2P Require Import NBuf.
From S2P Require Import NBufProps.
From S2P Require Import Dma.
From S2P Require Import DmaProps.

Section rx.
Implicit Types (m : dma) (q : zsDmaQueue) (ds vs : list Z).

(** A VDESC as [config_queue] gives it to the engine, and its descriptor. *)
Definition emptied (w : VDESC) : VDESC := w <| data_offset := 0 |>.
Definition rx_desc_of (first : bool) (w : VDESC) : zsDmaDesc :=
  mk_dd 0 ZM_OWN_BITS_SW 0 (buf_size w) 0 (u32 (buf_addr w + 0)) 0.
Lemma fill_rx_fills : fills fill_rx rx_desc_of emptied.
Proof.
  intros first v m w Hw [d Hd]. unfold fill_rx, init_usb_desc.
  rewrite (bind_ok _ _ _ _ _ (run_upd_dd _ _ _ _ Hd)).
  erewrite bind_ok by (apply run_dnb, run_upd_vdesc; exact Hw).
  erewrite bind_ok by (apply run_dnb, run_rd_vdesc; cbn; apply lookup_insert_eq).
  erewrite bind_ok by (apply run_upd_dd; cbn; apply lookup_insert_eq).
  erewrite run_upd_dd by (cbn; apply lookup_insert_eq). do 2 f_equal.
  destruct m as [n ds]. unfold field_upd. cbn. by rewrite !insert_insert_eq.
Qed.

(** The chain of VDESCs [vs] goes to the end of the queue. *)
Lemma config_queue_run m q ds p vs :
  ring m q ds → lchain (NBufProps.dnext (dm_nb m)) p vs → vs ≠ [] → Forall (Z.lt 0) vs →
  (∀ v, v ∈ vs → is_Some (dm_desc m !! hw_of v)) → NoDup (ds ++ terminator q :: map hw_of vs) →
  ∃ m' q' ds', config_queue q p m = Ok (q', m') ∧ ring m' q' (ds ++ ds') ∧
    map (payload m') (ds ++ ds') = map (payload m) ds ++ map (λ v, buffer ∘ emptied <$> vds m !! v) vs ∧
    dm_nb m' = dm_nb m <| vdescs := vds m' |>.
Proof.
  intros Hr Hc Hne Hpos Hin Hnd. destruct vs as [|v vs]; [done|].
  pose proof Hnd as (_ & Hdj & [HTi Hndh]%NoDup_cons)%NoDup_app.
  assert (Forall (λ x, hw_of x ≠ 0) (v :: vs)) as Hnz.
  { eapply Forall_impl; [exact Hpos|]. cbn. intros x Hx. unfold VDESC_get_hw_desc. lia. }
  destruct (link_all fill_rx rx_desc_of emptied fill_rx_fills ltac:(done) ltac:(done) v vs p m
    (size (vdescs (dm_nb m))) Hc ltac:(by eapply lchain_NoDup))
    as (m1 & z & w & E1 & Hz & Hseg & Hw & Hfst & Hrest & Hout & Hnb & Hvd); [by eapply lchain_size|done|done|].
  assert (∀ x, x ∈ v :: vs → is_Some (vds m !! x)) as Hsome.
  { intros x Hx. destruct (lchain_some _ _ _ x Hc Hx) as [y Hy]. unfold NBufProps.dnext in Hy. fold (vds m) in Hy.
    destruct (vds m !! x); [eauto|done]. }
  destruct (dm_desc m1 !! hw_of v) as [d1|] eqn:Hd1; [|done].
  set (m2 := m1 <| dm_desc ::= <[hw_of v := d1 <| lastAddr := z |>]> |>).
  assert (∀ a, a ∉ map hw_of (v :: vs) → dm_desc m2 !! a = dm_desc m !! a) as Hout2.
  { intros a Ha. rewrite <-Hout by done. cbn. rewrite lookup_insert_ne; [done|]. intros <-. apply Ha. by left. }
  assert (∀ a, a ∉ map hw_of (v :: vs) → vd m2 a = vd m a) as Hvd2.
  { intros a Ha. change (vds m1 !! vdesc_of a = vds m !! vdesc_of a). rewrite Hvd, decide_False.
    - by destruct (vds m !! vdesc_of a).
    - intros Hx. apply Ha. apply list_elem_of_fmap. exists (vdesc_of a). split; [|done]. unfold VDESC_get_hw_desc, VDESC_HW_TO_VDESC. lia. }
  destruct (enqueue_run mark_reclaim false m2 q ds (hw_of v) (map hw_of vs)) as (m' & E & Hr' & Hpay & Hen);
    [done|done| | |done|].
  { eapply ring_ext; [|exact Hr]. intros a Ha.
    assert (a ∉ map hw_of (v :: vs)) as Hax.
    { intros Hx. apply elem_of_app in Ha as [Ha|Ha%list_elem_of_singleton]; [apply (Hdj a Ha); by right|by subst a]. }
    by rewrite Hout2, Hvd2. }
  { split.
    - exists 0. eapply lseg_ext; [|exact Hseg]. intros a Ha. unfold hwnext, m2. cbn.
      destruct (decide (hw_of v = a)) as [<-|]; [by rewrite lookup_insert_eq, Hd1|by rewrite lookup_insert_ne].
    - exists (d1 <| lastAddr := z |>). split; [cbn; apply lookup_insert_eq|done].
    - change (hw_of v :: map hw_of vs) with (map hw_of (v :: vs)). apply Forall_map, Forall_forall. intros x Hx.
      split.
      + cbn. rewrite lookup_insert_is_Some'. right. apply elem_of_cons in Hx as [->|Hx]; [by rewrite Hd1|].
        specialize (Hrest x Hx). destruct (Hsome x ltac:(by right)) as [wx Hwx]. rewrite Hwx in Hrest.
        destruct (dm_desc m1 !! hw_of x); [eauto|done].
      + unfold vd. rewrite vdesc_of_hw. fold (vds m2). change (is_Some (vds m1 !! x)). rewrite Hvd.
        destruct (Hsome x Hx) as [wx ->]. eauto. }
  exists m', (q <| terminator := hw_of v |>), (terminator q :: map hw_of vs). split; [|split; [done|split]].
  - unfold config_queue. rewrite (bind_ok _ _ _ _ _ (run_get _)), (bind_ok _ _ _ _ _ E1).
    assert (z ≠ 0) as Hz0.
    { apply last_Some_elem_of, list_elem_of_fmap in Hz as (x & -> & Hx). rewrite Forall_forall in Hnz. by apply Hnz. }
    rewrite (proj2 (Z.eqb_neq z 0) Hz0), (bind_ok _ _ _ _ _ (run_upd_dd _ _ _ _ Hd1)).
    by rewrite zfDmaReclaimPacket_enqueue.
  - rewrite Hpay, map_app. f_equal.
    + apply map_ext_in. intros a Ha%list_elem_of_In. unfold payload. rewrite Hvd2; [done|]. intros Hx.
      apply (Hdj a Ha). by right.
    + change (hw_of v :: map hw_of vs) with (map hw_of (v :: vs)). rewrite map_map. apply map_ext_in.
      intros x Hx%list_elem_of_In. unfold payload, vd. rewrite vdesc_of_hw. change (vdescs (dm_nb m2)) with (vds m1).
      rewrite Hvd, decide_True by done. by destruct (vds m !! x).
  - rewrite (en_nb _ _ _ _ _ _ _ Hen). change (dm_nb m2) with (dm_nb m1). by rewrite Hnb.
Qed.

(** C21: a receive buffer that is given back goes to the end of the queue: the buffers of its
    descriptors, emptied, stand behind those that were there, and its header is free. *)
Theorem return_recv_buf_enqueues m q ds buf b vs :
  ring m q ds → vbufs (dm_nb m) !! buf = Some b →
  lchain (NBufProps.dnext (dm_nb m)) (desc_list b) vs → vs ≠ [] → Forall (Z.lt 0) vs →
  (∀ v, v ∈ vs → is_Some (dm_desc m !! hw_of v)) → NoDup (ds ++ terminator q :: map hw_of vs) →
  ∃ m' q' ds', _DMAengine_return_recv_buf q buf m = Ok (q', m') ∧ ring m' q' (ds ++ ds') ∧
    map (payload m') (ds ++ ds') = map (payload m) ds ++ map (λ v, buffer ∘ emptied <$> vds m !! v) vs ∧
    free_buf_head (dm_nb m') = buf ∧
    next_buf <$> vbufs (dm_nb m') !! buf = Some (free_buf_head (dm_nb m)).
Proof.
  intros Hr Hb Hc Hne Hpos Hin Hnd.
  destruct (config_queue_run m q ds (desc_list b) vs Hr Hc Hne Hpos Hin Hnd) as (m1 & q' & ds' & E & Hr' & Hpay & Hnb).
  assert (vbufs (dm_nb m1) !! buf = Some b) as Hb1 by (by rewrite Hnb).
  set (h := free_buf_head (dm_nb m)). assert (free_buf_head (dm_nb m1) = h) as Hh by (by rewrite Hnb).
  set (n2 := dm_nb m1 <| vbufs ::= <[buf := b <| next_buf := h |>]> |> <| free_buf_head := buf |>
                      <| nVbufNum ::= λ n, s32 (n + 1) |>).
  assert (dnb (_vbuf_free_vbuf buf) m1 = Ok (tt, m1 <| dm_nb := n2 |>)) as Ef.
  { apply run_dnb. unfold _vbuf_free_vbuf. rewrite (bind_ok _ _ _ _ _ (run_gets _ _)), Hh.
    by rewrite (bind_ok _ _ _ _ _ (run_upd_vbuf _ _ _ _ Hb1)). }
  exists (m1 <| dm_nb := n2 |>), q', ds'. split; [|split; [|split; [|split; [done|]]]].
  - unfold _DMAengine_return_recv_buf. erewrite bind_ok by (apply run_dnb, run_rd_vbuf; exact Hb).
    replace (m <| dm_nb := dm_nb m |>) with m by (by destruct m).
    by rewrite (bind_ok _ _ _ _ _ E), (bind_ok _ _ _ _ _ Ef).
  - eapply ring_ext; [|exact Hr']. intros a _. done.
  - rewrite <-Hpay. done.
  - cbn. by rewrite lookup_insert_eq.
Qed.

(** C20: a completed packet comes back in a fresh buffer header with its length and, as a chain,
    the VDESCs of its descriptors with the sizes the engine wrote; the queue keeps the
    descriptors behind it, with their buffers. *)
Theorem reap_recv_buf_dequeues m q a l ds d f fb :
  ring m q ((a :: l) ++ ds) → dm_desc m !! a = Some d → last (a :: l) = Some (lastAddr d) →
  own d = ZM_OWN_BITS_SW ∨ own d = ZM_OWN_BITS_SE → finished m (a :: l) → Forall (Z.lt 16) (a :: l) →
  free_buf_head (dm_nb m) = f → f ≠ 0 → vbufs (dm_nb m) !! f = Some fb →
  ∃ m' q' b, _DMAengine_reap_recv_buf q m = Ok ((f, q'), m') ∧ ring m' q' ds ∧
    map (payload m') ds = map (payload m) ds ∧
    free_buf_head (dm_nb m') = next_buf fb ∧ vbufs (dm_nb m') !! f = Some b ∧ buf_length b = totalLen d ∧ next_buf b = 0 ∧
    lchain (NBufProps.dnext (dm_nb m')) (desc_list b) (map vdesc_of (a :: l)) ∧
    ∀ x, x ∈ a :: l → ∃ dx w n, dm_desc m !! x = Some dx ∧ vd m x = Some w ∧ vd m' x = Some (relinked dx n w).
Proof.
  intros Hr Hd Hl Ho Hfin H16 Hf Hf0 Hfb.
  destruct (get_packet_run m q a l ds d Hr Hd Hl Ho) as (r & E1 & Hr1 & Hseg).
  pose proof (vbuf_alloc_run (dm_nb m) f fb Hf Hf0 Hfb) as Ea.
  match type of Ea with _ = Ok (_, ?n) => set (n1 := n) in * end. set (m1 := m <| dm_nb := n1 |>).
  assert (dnb _vbuf_alloc_vbuf m = Ok (f, m1)) as Ea' by by apply run_dnb.
  pose proof (rg_nodup _ _ _ Hr) as Hnd. rewrite <-app_assoc in Hnd. apply NoDup_app in Hnd as (Hnda & Hdj & _).
  pose proof (rg_ok _ _ _ Hr) as Hok. rewrite <-app_assoc in Hok. apply Forall_app in Hok as [Hoka _].
  assert (vbufs n1 !! f = Some (fb <| next_buf := 0 |>)) as Hb1 by (cbn; apply lookup_insert_eq).
  destruct (relink_run m1 f (fb <| next_buf := 0 |>) a l d r Hb1 Hseg Hnda Hoka H16 Hfin Hd)
    as (m' & E3 & Hdd & Hnb & Hch & Heach & Hout).
  assert (∀ x, x ∈ ds ++ [terminator q] → dm_desc m' !! x = dm_desc m !! x ∧ vd m' x = vd m x) as Hkeep.
  { intros x Hxin. split; [by rewrite Hdd|]. rewrite lookup_vdesc_of, Hout; [done|].
    apply not_in_vdesc_of. intros Hin. by apply (Hdj x Hin). }
  eexists m', (q <| head := r |>), _. split.
  { unfold _DMAengine_reap_recv_buf. rewrite (bind_ok _ _ _ _ _ E1).
    apply Forall_cons in H16 as [Ha16 _]. rewrite (proj2 (Z.eqb_neq a 0)) by lia.
    rewrite (bind_ok _ _ _ _ _ Ea'), (proj2 (Z.eqb_neq f 0) Hf0). cbn [negb assert_].
    by rewrite (bind_ok _ _ _ _ _ (run_ret _ _)), (bind_ok _ _ _ _ _ E3). }
  split; [eapply ring_ext; [exact Hkeep|exact Hr1]|]. split.
  { apply map_ext_in. intros x Hx%list_elem_of_In. unfold payload. by rewrite (proj2 (Hkeep x ltac:(apply elem_of_app; by left))). }
  split; [by rewrite Hnb|]. split; [rewrite Hnb; cbn; apply lookup_insert_eq|]. split; [done|]. split; [done|].
  split; [exact Hch|]. intros x Hx. destruct (Heach x Hx) as (dx & w & n & ? & ? & ?). by exists dx, w, n.
Qed.
End rx.
