(* ===== verification/DmaSample.v ===== *)
(** * A small DMA engine

    The concrete states the witnesses of the DMA queues evaluate. *)

From S2P Require Import Prelude.
From S2P Require Import NBuf.
From S2P Require Import NBufProps.
From S2P Require Import Dma.
From S2P Require Import DmaProps.
From S2P Require Import DmaTx.
From S2P Require Import DmaRx.

(** Two VDESCs of a buffer, one of a buffer of its own, one free; two buffers, one free header. *)
Definition dma_nb : nb_state :=
  mk_nb_state (mk_allocram 0 0)
    (list_to_map [(1000, mk_VBUF 100 0 120 []); (1032, mk_VBUF 300 0 60 []); (1064, mk_VBUF 0 0 0 [])])
    (list_to_map [(100, mk_VDESC 200 10000 1600 4 100 0 []); (200, mk_VDESC 0 12000 1600 0 20 0 []);
                  (300, mk_VDESC 0 14000 1600 0 60 0 []); (400, mk_VDESC 0 0 0 0 0 0 [])])
    1064 1 0 [].
Definition dma_sample : dma :=
  mk_dma dma_nb (list_to_map (map (λ a, (a, mk_dd 0 0 0 0 0 0 0)) [116; 216; 316; 416])).
Definition tx_sample_q : zsTxDmaQueue := mk_txdq (mk_dq 416 416) 0 0.

(** Proves an existence that computes. *)
Ltac some_now := vm_compute; eexists; reflexivity.

Lemma dma_sample_empty : tx_queue dma_sample tx_sample_q [] [].
Proof.
  split; cbn [concat app map].
  - split; [done|repeat constructor; set_solver|]. constructor; [|constructor]. split; some_now.
  - constructor.
  - split; [constructor|]. split; [constructor|done].
  - repeat constructor.
Qed.
Lemma xmit_buf_enqueues_witness :
  ∃ m' q' ds pl, _DMAengine_xmit_buf tx_sample_q 1000 dma_sample = Ok (q', m') ∧
    map Some [(10000, 1600, 4, 100, 0); (12000, 1600, 0, 20, 0)] = map Some pl ∧
    tx_queue m' q' [ds] [mk_sending 1000 120 pl].
Proof.
  apply (xmit_buf_enqueues dma_sample tx_sample_q [] [] 1000 (mk_VBUF 100 0 120 []) [100; 200] dma_sample_empty).
  - reflexivity.
  - done.
  - apply not_elem_of_nil.
  - repeat (split_and!; [reflexivity|discriminate|eexists; split; [reflexivity|]]); reflexivity.
  - done.
  - repeat constructor.
  - intros v Hv. repeat (apply elem_of_cons in Hv as [->|Hv]; [some_now|]). by apply elem_of_nil in Hv.
  - apply (bool_decide_unpack _). vm_compute. exact I.
Defined.

(** The buffer is on its way, and the engine is done with its packet. *)
Definition tx_put : zsTxDmaQueue * dma :=
  match _DMAengine_xmit_buf tx_sample_q 1000 dma_sample with Ok r => r | Fault _ => (tx_sample_q, dma_sample) end.
Definition chip_done (a : Z) (m : dma) : dma := m <| dm_desc ::= alter (λ d, d <| status := ZM_OWN_BITS_SW |>) a |>.
Example tx_put_reaped :
  (match _DMAengine_reap_xmited_buf tx_put.1 (chip_done 416 tx_put.2) with
   | Ok ((b, q), m) => (b, desc_list <$> vbufs (dm_nb m) !! b, map (λ v, buf_addr <$> vds m !! v) [400; 200], head (tx_dq q))
   | Fault _ => (0, None, [], 0)
   end) = (1000, Some 400, [Some 10000; Some 12000], 116).
Proof. vm_compute. reflexivity. Qed.

(** Decides the walk of a concrete list. *)
Ltac walk_now := vm_compute; repeat (split; [done|eexists; split; [reflexivity|]]); try reflexivity.
(** Decides a property of the members of a concrete list. *)
Ltac each_now := let a := fresh in let H := fresh in intros a H;
  repeat (apply elem_of_cons in H as [->|H]; [first [done|some_now|vm_compute; eexists; split; reflexivity]|]); by apply elem_of_nil in H.

Definition tx_done : dma := chip_done 416 tx_put.2.
Lemma tx_done_queue :
  tx_queue tx_done tx_put.1 [[416; 216]] [mk_sending 1000 120 [(10000, 1600, 4, 100, 0); (12000, 1600, 0, 20, 0)]].
Proof.
  split.
  - split; [walk_now|apply (bool_decide_unpack _); vm_compute; exact I|].
    apply Forall_forall. intros a Ha. vm_compute in Ha.
    repeat (apply elem_of_cons in Ha as [->|Ha]; [split; some_now|]). by apply elem_of_nil in Ha.
  - constructor; [|constructor]. split.
    + eexists 416, [216], _. split; [done|]. split; [reflexivity|]. split; reflexivity.
    + each_now.
    + reflexivity.
    + each_now.
  - split; [apply NoDup_singleton|]. split; [constructor; [|constructor]; split; [done|some_now]|]. exists []. split; reflexivity.
  - apply (bool_decide_unpack _). vm_compute. exact I.
Qed.
Lemma reap_xmited_buf_dequeues_witness :
  ∃ m' q' b vs, _DMAengine_reap_xmited_buf tx_put.1 tx_done = Ok ((1000, q'), m') ∧ tx_queue m' q' [] [] ∧
    vbufs (dm_nb m') !! 1000 = Some b ∧ next_buf b = 0 ∧ buf_length b = 120 ∧
    lchain (NBufProps.dnext (dm_nb m')) (desc_list b) vs ∧
    map (λ v, buffer <$> vds m' !! v) vs = map Some [(10000, 1600, 4, 100, 0); (12000, 1600, 0, 20, 0)].
Proof.
  destruct (dm_desc tx_done !! 416) as [d|] eqn:Hd; [|by vm_compute in Hd].
  apply (reap_xmited_buf_dequeues tx_done tx_put.1 [416; 216] [] (mk_sending 1000 120 [(10000, 1600, 4, 100, 0); (12000, 1600, 0, 20, 0)]) [] 416 d tx_done_queue).
  - reflexivity.
  - exact Hd.
  - left. vm_compute in Hd. injection Hd as <-. reflexivity.
Defined.

(** An empty receive queue is given the buffer of 300. *)
Definition rx_sample_q : zsDmaQueue := mk_dq 416 416.
Lemma return_recv_buf_enqueues_witness :
  ∃ m' q' ds', _DMAengine_return_recv_buf rx_sample_q 1032 dma_sample = Ok (q', m') ∧ ring m' q' ([] ++ ds') ∧
    map (payload m') ([] ++ ds') = map (payload dma_sample) [] ++ map (λ v, buffer ∘ emptied <$> vds dma_sample !! v) [300] ∧
    free_buf_head (dm_nb m') = 1032 ∧
    next_buf <$> vbufs (dm_nb m') !! 1032 = Some (free_buf_head (dm_nb dma_sample)).
Proof.
  apply (return_recv_buf_enqueues dma_sample rx_sample_q [] 1032 (mk_VBUF 300 0 60 []) [300]).
  - split; [done|repeat constructor; set_solver|]. constructor; [|constructor]. split; some_now.
  - reflexivity.
  - split; [done|]. split; [done|]. exists 0. by vm_compute.
  - done.
  - repeat constructor.
  - each_now.
  - apply (bool_decide_unpack _). vm_compute. exact I.
Defined.

(** The engine has filled the descriptors at 116 and 216, and waits at 416. *)
Definition rx_done : dma :=
  dma_sample <| dm_desc := list_to_map
    [(116, mk_dd ZM_FS_BIT 0 120 100 216 10004 216); (216, mk_dd ZM_LS_BIT 0 0 20 0 12000 416);
     (316, mk_dd 0 0 0 0 0 0 0); (416, mk_dd 0 0 0 0 0 0 0)] |>.
Lemma reap_recv_buf_dequeues_witness :
  ∃ m' q' b, _DMAengine_reap_recv_buf (mk_dq 116 416) rx_done = Ok ((1064, q'), m') ∧ ring m' q' [] ∧
    map (payload m') [] = map (payload rx_done) [] ∧
    free_buf_head (dm_nb m') = 0 ∧ vbufs (dm_nb m') !! 1064 = Some b ∧ buf_length b = 120 ∧ next_buf b = 0 ∧
    lchain (NBufProps.dnext (dm_nb m')) (desc_list b) (map vdesc_of [116; 216]) ∧
    ∀ x, x ∈ [116; 216] → ∃ dx w n, dm_desc rx_done !! x = Some dx ∧ vd rx_done x = Some w ∧ vd m' x = Some (relinked dx n w).
Proof.
  apply (reap_recv_buf_dequeues rx_done (mk_dq 116 416) 116 [216] [] (mk_dd ZM_FS_BIT 0 120 100 216 10004 216) 1064 (mk_VBUF 0 0 0 [])).
  - split; [walk_now|apply (bool_decide_unpack _); vm_compute; exact I|].
    apply Forall_forall. intros a Ha. vm_compute in Ha.
    repeat (apply elem_of_cons in Ha as [->|Ha]; [split; some_now|]). by apply elem_of_nil in Ha.
  - reflexivity.
  - reflexivity.
  - by left.
  - each_now.
  - repeat constructor.
  - reflexivity.
  - done.
  - reflexivity.
Defined.
