(* ===== verification/HifPipes.v ===== *)
(** * The pipes of the USB layer and what it answers about them

    sboot/.../hif/usb/src/HIF_usb.c with the answer that target/rompatch/HIF_usb_patch.c
    puts in its place. *)

From S2P Require Import Prelude.

Definition HIF_USB_PIPE_TX : Z := 1.
Definition HIF_USB_PIPE_RX : Z := 2.
Definition HIF_USB_PIPE_INTERRUPT : Z := 3.
Definition HIF_USB_PIPE_COMMAND : Z := 4.
Definition HIF_USB_PIPE_HP_TX : Z := 5.
Definition HIF_USB_PIPE_MP_TX : Z := 6.
Definition HIF_is_pipe_supported (pipe : Z) : bool :=
  negb ((pipe <? HIF_USB_PIPE_TX) || (HIF_USB_PIPE_MP_TX <? pipe)).
Definition HIF_get_max_msg_len (pipe : Z) : Z :=
  if (pipe =? HIF_USB_PIPE_INTERRUPT) || (pipe =? HIF_USB_PIPE_COMMAND) then 512 else 1600.
Definition HIF_get_reserved_headroom : Z := 0.
(** The uplink and the downlink pipe. *)
Definition HIF_get_default_pipe : Z * Z := (HIF_USB_PIPE_COMMAND, HIF_USB_PIPE_INTERRUPT).
