(* ===== verification/UsbTypes.v ===== *)
(** * The USB device: registers, requests, descriptors

    The names the files of sboot/.../hif/usb/src share (usb_defs.h, usb_pre.h, usb_std.h,
    usb_type.h, usb_table.h), the descriptor tables of usb_table.c and the variables of the
    control endpoint (usb_api.c, and the copies of usb_api_main_patch.c).

    A table is an array of 16-bit words. [pu8DescriptorEX] walks through one of them, or, after
    a vendor request, is an address the host sent. *)

From S2P Require Import Prelude.

Definition BIT0 : Z := 0x1.
Definition BIT1 : Z := 0x2.
Definition BIT2 : Z := 0x4.
Definition BIT3 : Z := 0x8.
Definition BIT4 : Z := 0x10.
Definition BIT5 : Z := 0x20.
Definition BIT6 : Z := 0x40.
Definition BIT7 : Z := 0x80.
Definition BIT8 : Z := 0x100.
Definition BIT9 : Z := 0x200.
Definition BIT27 : Z := 0x08000000.

Definition ZM_MAIN_CTRL_OFFSET : Z := 0x00.
Definition ZM_DEVICE_ADDRESS_OFFSET : Z := 0x01.
Definition ZM_TEST_OFFSET : Z := 0x02.
Definition ZM_PHY_TEST_SELECT_OFFSET : Z := 0x08.
Definition ZM_VDR_SPECIFIC_MODE_OFFSET : Z := 0x0A.
Definition ZM_CX_CONFIG_STATUS_OFFSET : Z := 0x0B.
Definition ZM_EP0_DATA_OFFSET : Z := 0x0C.
Definition ZM_INTR_MASK_BYTE_0_OFFSET : Z := 0x11.
Definition ZM_INTR_MASK_BYTE_1_OFFSET : Z := 0x12.
Definition ZM_INTR_MASK_BYTE_2_OFFSET : Z := 0x13.
Definition ZM_INTR_MASK_BYTE_3_OFFSET : Z := 0x14.
Definition ZM_INTR_MASK_BYTE_4_OFFSET : Z := 0x15.
Definition ZM_INTR_MASK_BYTE_5_OFFSET : Z := 0x16.
Definition ZM_INTR_MASK_BYTE_6_OFFSET : Z := 0x17.
Definition ZM_INTR_GROUP_OFFSET : Z := 0x20.
Definition ZM_INTR_SOURCE_0_OFFSET : Z := 0x21.
Definition ZM_INTR_SOURCE_4_OFFSET : Z := 0x25.
Definition ZM_INTR_SOURCE_6_OFFSET : Z := 0x27.
Definition ZM_INTR_SOURCE_7_OFFSET : Z := 0x28.
Definition ZM_EP_IN_MAX_SIZE_HIGH_OFFSET : Z := 0x3F.
Definition ZM_EP_IN_MAX_SIZE_LOW_OFFSET : Z := 0x3E.
Definition ZM_EP_OUT_MAX_SIZE_HIGH_OFFSET : Z := 0x5F.
Definition ZM_EP3_BYTE_COUNT_HIGH_OFFSET : Z := 0xAE.
Definition ZM_EP4_BYTE_COUNT_LOW_OFFSET : Z := 0xBF.
Definition ZM_EP3_DATA_OFFSET : Z := 0xF8.
Definition ZM_EP4_DATA_OFFSET : Z := 0xFC.
Definition ZM_CBUS_FIFO_SIZE_OFFSET : Z := 0x100.
Definition ZM_SOC_USB_MODE_CTRL_OFFSET : Z := 0x108.
Definition EP0MAXPACKETSIZE : Z := 0x40.
Definition FUSB200_MAX_EP : Z := 10.

(** ** Requests *)
Inductive CommandType := CMD_VOID | CMD_GET_DESCRIPTOR | CMD_SET_DESCRIPTOR.
Inductive Action := ACT_IDLE | ACT_DONE | ACT_STALL.
#[export] Instance Action_eq_dec : EqDecision Action.
Proof. solve_decision. Defined.
#[export] Instance CommandType_eq_dec : EqDecision CommandType.
Proof. solve_decision. Defined.

Record SetupPacket := mk_SetupPacket {
  Direction : Z; Type_ : Z; Object : Z; Request : Z; Value : Z; Index : Z; Length : Z }.
#[export] Instance eta_SetupPacket : EtaExp SetupPacket := λ p,
  mk_SetupPacket (Direction p) (Type_ p) (Object p) (Request p) (Value p) (Index p) (Length p).

Definition USB_GET_STATUS : Z := 0.
Definition USB_CLEAR_FEATURE : Z := 1.
Definition USB_SET_FEATURE : Z := 3.
Definition USB_SET_ADDRESS : Z := 5.
Definition USB_GET_DESCRIPTOR : Z := 6.
Definition USB_GET_CONFIGURATION : Z := 8.
Definition USB_SET_CONFIGURATION : Z := 9.
Definition USB_GET_INTERFACE : Z := 10.
Definition USB_SET_INTERFACE : Z := 11.
Definition cUSB_REQTYPE_STD : Z := 0.
Definition cUSB_REQTYPE_VENDOR : Z := 2.
Definition cUSB_REQTYPE_ENDPOINT : Z := 2.
Definition cUSB_FEATSEL_END : Z := 1.
Definition bmREQ_TYPE : Z := 5.
Definition cUSB_REQ_DOWNLOAD : Z := 0x30.
Definition cUSB_REQ_DOWNLOAD_COMP : Z := 0x31.
Definition cUSB_REQ_FLASH_READ : Z := 0x35.
Definition cUSB_REQ_FLASH_READ_COMP : Z := 0x36.

Definition mLOW_BYTE (w : Z) : Z := u8 (w .& 0xff).
Definition mHIGH_BYTE (w : Z) : Z := u8 (u16 w .>> 8).
Definition m2BYTE (ch1L ch2H : Z) : Z := mLOW_BYTE ch1L .| (u8 ch2H .<< 8).
Definition mGetByte0 (data : Z) : Z := data .& 0xff.
Definition mGetByte1 (data : Z) : Z := (data .>> 8) .& 0xff.
Definition mGetByte2 (data : Z) : Z := (data .>> 16) .& 0xff.
Definition mGetByte3 (data : Z) : Z := (data .>> 24) .& 0xff.

(** ** The descriptor tables *)
Definition BOOTROM_VER : Z := (1 .<< 8) .| 11.
Definition USB_TOTAL_DESC_LEN : Z := 0x003C.
Definition bUSB_EP_MAX_PKT_SIZE_64 : Z := 0x0040.
Definition bUSB_EP_MAX_PKT_SIZE_512 : Z := 0x0200.
Definition UsbDeviceDescriptor : list Z := [
  m2BYTE 0x12 0x01; 0x0200; m2BYTE 0xFF 0xFF; m2BYTE 0xFF 0x40; 0x0CF3; 0x7010; BOOTROM_VER;
  m2BYTE 0x10 0x20; m2BYTE 0x30 0x01].
(** Configuration and interface, which the two speeds share. *)
Definition config_head : list Z := [
  m2BYTE 0x09 0x02; USB_TOTAL_DESC_LEN; m2BYTE 0x01 0x01; m2BYTE 0x00 0x80; m2BYTE 0xFA 0x09;
  m2BYTE 0x04 0x00; m2BYTE 0x00 0x06; m2BYTE 0xFF 0x00; m2BYTE 0x00 0x00].
(** The two words pairs of endpoint descriptors: an odd one and the even one after it. *)
Definition ep_odd (address attribute size interval : Z) : list Z := [
  m2BYTE 0x07 0x05; m2BYTE address attribute; size; m2BYTE interval 0x07].
Definition ep_even (address attribute size interval : Z) : list Z := [
  m2BYTE 0x05 address; m2BYTE attribute size; m2BYTE (mHIGH_BYTE size) interval].
Definition u8HSConfigDescriptor01 : list Z :=
  config_head ++
  ep_odd 0x01 0x02 bUSB_EP_MAX_PKT_SIZE_512 0x00 ++ ep_even 0x82 0x02 bUSB_EP_MAX_PKT_SIZE_512 0x00 ++
  ep_odd 0x83 0x03 bUSB_EP_MAX_PKT_SIZE_64 0x01 ++ ep_even 0x04 0x03 bUSB_EP_MAX_PKT_SIZE_64 0x01 ++
  ep_odd 0x05 0x02 bUSB_EP_MAX_PKT_SIZE_512 0x00 ++ ep_even 0x06 0x02 bUSB_EP_MAX_PKT_SIZE_512 0x00.
Definition u8FSConfigDescriptor01 : list Z :=
  config_head ++
  ep_odd 0x01 0x02 bUSB_EP_MAX_PKT_SIZE_64 0x00 ++ ep_even 0x82 0x02 bUSB_EP_MAX_PKT_SIZE_64 0x00 ++
  ep_odd 0x83 0x03 bUSB_EP_MAX_PKT_SIZE_64 0x01 ++ ep_even 0x04 0x02 bUSB_EP_MAX_PKT_SIZE_64 0x00 ++
  ep_odd 0x05 0x02 bUSB_EP_MAX_PKT_SIZE_64 0x00 ++ ep_even 0x06 0x02 bUSB_EP_MAX_PKT_SIZE_64 0x00.
Definition u8DeviceQualifierDescriptorEX : list Z := replicate 5 0.
Definition u8OtherSpeedConfigDescriptorEX : list Z := 0x0709 :: replicate 29 0.
Definition String00Descriptor : list Z := [0x0304; 0x0409].
Definition String10Descriptor : list Z :=
  let atheros := [0x41; 0x54; 0x48; 0x45; 0x52; 0x4f; 0x53] in
  0x0360 :: concat (replicate 5 (atheros ++ [0x2c])) ++ atheros.
Definition String20Descriptor : list Z :=
  [0x0318; 0x55; 0x53; 0x42; 0x32; 0x2E; 0x30; 0x20; 0x57; 0x4C; 0x41; 0x4E].
Definition String30Descriptor : list Z := [0x030c; 0x31; 0x32; 0x33; 0x34; 0x35].

Inductive table :=
  T_Device | T_HSConfig | T_FSConfig | T_Qualifier | T_OtherSpeed | T_String00 | T_String10 | T_String20 | T_String30
  | T_ConfigPatch | T_DevicePatch.
#[export] Instance table_eq_dec : EqDecision table.
Proof. solve_decision. Defined.
(** What they hold when the program starts. *)
Definition tables_init (t : table) : list Z :=
  match t with
  | T_Device => UsbDeviceDescriptor
  | T_HSConfig => u8HSConfigDescriptor01
  | T_FSConfig => u8FSConfigDescriptor01
  | T_Qualifier => u8DeviceQualifierDescriptorEX
  | T_OtherSpeed => u8OtherSpeedConfigDescriptorEX
  | T_String00 => String00Descriptor
  | T_String10 => String10Descriptor
  | T_String20 => String20Descriptor
  | T_String30 => String30Descriptor
  | T_ConfigPatch => replicate 30 0
  | T_DevicePatch => replicate 9 0
  end.
(** A pointer to 16-bit words: null, into a table, or an address. *)
Inductive ptr16 := NullPtr | At (t : table) (i : Z) | Raw (a : Z).
Definition padd (p : ptr16) (n : Z) : ptr16 :=
  match p with NullPtr => NullPtr | At t i => At t (i + n) | Raw a => Raw (u32 (a + 2 * n)) end.

(** ** The variables of the control endpoint *)
Record usb_ctl := mk_usb_ctl {
  ControlCmd : SetupPacket; pu8DescriptorEX : ptr16; u16TxRxCounter : Z; u8ConfigDescriptorEX : ptr16;
  eUsbCxFinishAction : Action; eUsbCxCommand : CommandType; UsbChirpFinish : bool;
  u8UsbConfigValue : Z; u8UsbInterfaceValue : Z; u8UsbInterfaceAlternateSetting : Z;
  UsbStatus : list Z; fwCheckSum : Z; download_enable : bool;
  u8UsbDeviceDescriptor : ptr16; u8String00Descriptor : ptr16; u8String10Descriptor : ptr16;
  u8String20Descriptor : ptr16; u8String30Descriptor : ptr16;
  usb_tables : table → list Z }.
#[export] Instance eta_usb_ctl : EtaExp usb_ctl := λ c,
  mk_usb_ctl (ControlCmd c) (pu8DescriptorEX c) (u16TxRxCounter c) (u8ConfigDescriptorEX c)
    (eUsbCxFinishAction c) (eUsbCxCommand c) (UsbChirpFinish c) (u8UsbConfigValue c) (u8UsbInterfaceValue c)
    (u8UsbInterfaceAlternateSetting c) (UsbStatus c) (fwCheckSum c) (download_enable c) (u8UsbDeviceDescriptor c)
    (u8String00Descriptor c) (u8String10Descriptor c) (u8String20Descriptor c) (u8String30Descriptor c) (usb_tables c).
(** At the start: static storage is zero. *)
Definition usb_ctl_init : usb_ctl :=
  mk_usb_ctl (mk_SetupPacket 0 0 0 0 0 0 0) NullPtr 0 NullPtr ACT_IDLE CMD_VOID false 0 0 0 [0; 0; 0] 0 false
    NullPtr NullPtr NullPtr NullPtr NullPtr tables_init.
Definition tab_upd (t : table) (l : list Z) (f : table → list Z) : table → list Z :=
  λ t', if decide (t' = t) then l else f t'.

Example tables_sizes :
  map (λ t, length (tables_init t)) [T_Device; T_HSConfig; T_FSConfig; T_OtherSpeed; T_String10; T_String20; T_String30]
    = [9; 30; 30; 30; 48; 12; 6]%nat.
Proof. reflexivity. Qed.
