(* ===== verification/Hif.v ===== *)
(** * The USB host interface (HIF_usb.c) and the FIFO endpoints

    sboot/.../hif/usb/src/HIF_usb.c over the DMA queues of [Dma], with what the target puts in
    place of the boot ROM's code: target/rompatch/HIF_usb_patch.c and the handlers of the
    FIFO endpoints in target/hif/usb_api_main_patch.c. Data travel in the queues; commands
    arrive on endpoint 4 and events leave on endpoint 3 through FIFOs, in packets of at most
    64 bytes, read and written by the word. The CPU is big-endian and the FIFOs little-endian,
    so the words of a buffer are swapped on the way ([swapData]).

    The chip is the class [UsbIo], the layer above the class [HifClient]. *)

From S2P Require Import Prelude.
From S2P Require Import NBuf.
From S2P Require Import Dma.
From S2P Require Import HifPipes.
From S2P Require Export UsbTypes.

Definition USB_CTRL_BASE_ADDRESS : Z := 0x10000.
Definition USB_DMA_BASE_ADDRESS : Z := 0x55000.
Definition MAGPIE_REG_USB_INTERRUPT : Z := USB_DMA_BASE_ADDRESS.
Definition MAGPIE_REG_USB_INTERRUPT_MASK : Z := USB_DMA_BASE_ADDRESS + 0x4.
Definition MAGPIE_REG_USB_RX0_DESC_START : Z := USB_DMA_BASE_ADDRESS + 0x800.
Definition MAGPIE_REG_USB_RX0_DMA_START : Z := USB_DMA_BASE_ADDRESS + 0x804.
Definition MAGPIE_REG_USB_RX1_DESC_START : Z := USB_DMA_BASE_ADDRESS + 0x900.
Definition MAGPIE_REG_USB_RX1_DMA_START : Z := USB_DMA_BASE_ADDRESS + 0x904.
Definition MAGPIE_REG_USB_RX2_DESC_START : Z := USB_DMA_BASE_ADDRESS + 0xa00.
Definition MAGPIE_REG_USB_RX2_DMA_START : Z := USB_DMA_BASE_ADDRESS + 0xa04.
Definition MAGPIE_REG_USB_TX0_DESC_START : Z := USB_DMA_BASE_ADDRESS + 0xC00.
Definition MAGPIE_REG_USB_TX0_DMA_START : Z := USB_DMA_BASE_ADDRESS + 0xC04.
Definition MAGPIE_REG_USB_INTERRUPT_TX0_COMPL : Z := 0x10000.
Definition MAGPIE_REG_USB_INTERRUPT_RX2_COMPL : Z := 0x4.
Definition MAGPIE_REG_USB_INTERRUPT_RX1_COMPL : Z := 0x2.
Definition MAGPIE_REG_USB_INTERRUPT_RX0_COMPL : Z := 0x1.
Definition USB_EP4_MAX_PKT_SIZE : Z := 64.
Definition USB_EP3_MAX_PKT_SIZE : Z := 64.

(** The device registers: an access may change the chip. *)
Class UsbIo (HW : Type) := {
  io_read8 : Z → HW → Z * HW;
  io_write8 : Z → Z → HW → HW;
  io_read32 : Z → HW → Z * HW;
  io_write32 : Z → Z → HW → HW;
}.

(** HIF_USB_CONTEXT, the heap, the bytes of the buffers, the chip; the static variables of the
    two FIFO handlers ([ro_] of [usb_reg_out_patch], [si_] of [usb_status_in_patch]); those of
    the control endpoint; and the state of the layer above. *)
Record hif_usb (HW C : Type) := mk_hif_usb {
  hf_dma : dma; hf_mem : gmap Z Z; hf_hw : HW;
  dnQ : zsDmaQueue; upQ : zsTxDmaQueue; hpdnQ : zsDmaQueue; mpdnQ : zsDmaQueue;
  cmdQueue : Z; event_head : Z; event_tail : Z;
  ro_regaddr : Z; ro_cmd_len : Z; ro_buf : Z; ro_cmd_is_new : bool;
  si_buf_len : Z; si_evntbuf : Z; si_regaddr : Z; si_cmd_is_new : bool;
  hf_ctl : usb_ctl; hf_up : C }.
Arguments mk_hif_usb {HW C}. Arguments hf_dma {HW C}. Arguments hf_mem {HW C}. Arguments hf_hw {HW C}.
Arguments dnQ {HW C}. Arguments upQ {HW C}. Arguments hpdnQ {HW C}. Arguments mpdnQ {HW C}.
Arguments cmdQueue {HW C}. Arguments event_head {HW C}. Arguments event_tail {HW C}.
Arguments ro_regaddr {HW C}. Arguments ro_cmd_len {HW C}. Arguments ro_buf {HW C}. Arguments ro_cmd_is_new {HW C}.
Arguments si_buf_len {HW C}. Arguments si_evntbuf {HW C}. Arguments si_regaddr {HW C}.
Arguments si_cmd_is_new {HW C}. Arguments hf_ctl {HW C}. Arguments hf_up {HW C}.
#[export] Instance eta_hif_usb {HW C} : EtaExp (hif_usb HW C) := λ h,
  mk_hif_usb (hf_dma h) (hf_mem h) (hf_hw h) (dnQ h) (upQ h) (hpdnQ h) (mpdnQ h) (cmdQueue h)
    (event_head h) (event_tail h) (ro_regaddr h) (ro_cmd_len h) (ro_buf h) (ro_cmd_is_new h)
    (si_buf_len h) (si_evntbuf h) (si_regaddr h) (si_cmd_is_new h) (hf_ctl h) (hf_up h).

(** The callbacks the layer above registers (HIF_CALLBACK). They may call the functions below. *)
Class HifClient (HW C : Type) := {
  recv_buf (buf : Z) : M (hif_usb HW C) unit;
  send_buf_done (buf : Z) : M (hif_usb HW C) unit;
}.

Section hif.
Context {HW C : Type} `{!UsbIo HW}.
Abbreviation HM := (M (hif_usb HW C)).

Definition hdma {A} (m : DM A) : HM A := λ s,
  match m (hf_dma s) with Ok (a, d) => Ok (a, s <| hf_dma := d |>) | Fault f => Fault f end.
Definition hfnb {A} (m : NB A) : HM A := hdma (dnb m).
Definition hw_rd {A} (f : HW → A * HW) : HM A := λ s,
  let '(v, h) := f (hf_hw s) in Ok (v, s <| hf_hw := h |>).
Definition hw_wr (f : HW → HW) : HM unit := modify (λ s, s <| hf_hw ::= f |>).
Definition ioread8_usb (addr : Z) : HM Z := hw_rd (io_read8 (USB_CTRL_BASE_ADDRESS .| Z.lxor addr 3)).
Definition iowrite8_usb (addr b : Z) : HM unit := hw_wr (io_write8 (USB_CTRL_BASE_ADDRESS .| Z.lxor addr 3) (u8 b)).
Definition ioread32_usb (addr : Z) : HM Z := hw_rd (io_read32 (USB_CTRL_BASE_ADDRESS .| addr)).
Definition iowrite32_usb (addr b : Z) : HM unit := hw_wr (io_write32 (USB_CTRL_BASE_ADDRESS .| addr) b).
(** A register that is a C variable at its address. *)
Definition reg_rd (a : Z) : HM Z := hw_rd (io_read32 a).
Definition reg_wr (a v : Z) : HM unit := hw_wr (io_write32 a v).

(** Words in memory: the CPU is big-endian. *)
Definition mem_rd (m : gmap Z Z) (a : Z) : Z := default 0 (m !! a).
Definition mem_rd32 (m : gmap Z Z) (a : Z) : Z :=
  ((mem_rd m a * 256 + mem_rd m (a + 1)) * 256 + mem_rd m (a + 2)) * 256 + mem_rd m (a + 3).
Definition mem_wr32 (a w : Z) (m : gmap Z Z) : gmap Z Z :=
  <[a + 3 := u8 w]> (<[a + 2 := u8 (w .>> 8)]> (<[a + 1 := u8 (w .>> 16)]> (<[a := u8 (w .>> 24)]> m))).
Definition rd32 (a : Z) : HM Z := gets (λ s, mem_rd32 (hf_mem s) a).
Definition wr32 (a w : Z) : HM unit := modify (λ s, s <| hf_mem ::= mem_wr32 a w |>).
Definition bswap32 (w : Z) : Z :=
  u8 w * 16777216 + u8 (w .>> 8) * 65536 + u8 (w .>> 16) * 256 + u8 (w .>> 24).

(** ** dma_engine.c: the words of a descriptor's data, swapped *)
Definition swapData (usbDesc : Z) : HM unit :=
  d ← hdma (rd_dd usbDesc);
  let len := (dataSize d .& 0xfffffffc) .>> 2 in
  let len := if negb (dataSize d .& 3 =? 0) then len + 1 else len in
  for_each (seqZ 0 len) (λ i,
    data ← rd32 (dataAddr d + 4 * i);
    wr32 (dataAddr d + 4 * i) (bswap32 data)).
(** The descriptor of a buffer's first VDESC, set up for that. *)
Definition swap_buf (buf : Z) : HM unit :=
  b ← hfnb (rd_vbuf buf);
  currVdesc ← hfnb (rd_vdesc (desc_list b));
  let usbDesc := VDESC_get_hw_desc (desc_list b) in
  hdma (upd_dd usbDesc (λ d, d <| dataSize := data_size currVdesc |>)) ;;
  hdma (upd_dd usbDesc (λ d, d <| dataAddr := u32 (buf_addr currVdesc + data_offset currVdesc) |>)) ;;
  swapData usbDesc.

(** ** HIF_usb.c *)
Definition usbfifo_get_command_buf : HM Z :=
  s ← get;
  b ← hfnb (rd_vbuf (cmdQueue s));
  modify (λ s, s <| cmdQueue := next_buf b |>) ;;
  hfnb (upd_vbuf (cmdQueue s) (λ b, b <| next_buf := 0 |>)) ;;
  mret (cmdQueue s).
(** The store through [buf] comes before any test of it. *)
Definition usbfifo_get_event_buf : HM Z :=
  s ← get;
  let buf := event_head s in
  (if event_head s =? event_tail s then
     modify (λ s, s <| event_head := 0 |>) ;; modify (λ s, s <| event_tail := 0 |>)
   else
     b ← hfnb (rd_vbuf buf);
     modify (λ s, s <| event_head := next_buf b |>)) ;;
  hfnb (upd_vbuf buf (λ b, b <| next_buf := 0 |>)) ;;
  mret buf.

Definition mUSB_STATUS_IN_INT_ENABLE : HM unit :=
  v ← ioread8_usb ZM_INTR_MASK_BYTE_6_OFFSET;
  iowrite8_usb ZM_INTR_MASK_BYTE_6_OFFSET (v .& 0xbf).
Definition mUSB_STATUS_IN_INT_DISABLE : HM unit :=
  v ← ioread8_usb ZM_INTR_MASK_BYTE_6_OFFSET;
  iowrite8_usb ZM_INTR_MASK_BYTE_6_OFFSET (v .| 0xc0).
Definition mUSB_EP3_XFER_DONE : HM unit :=
  v ← ioread8_usb ZM_EP3_BYTE_COUNT_HIGH_OFFSET;
  iowrite8_usb ZM_EP3_BYTE_COUNT_HIGH_OFFSET (v .| 0x08).
Definition USBFIFO_enable_event_isr : HM unit := mUSB_STATUS_IN_INT_ENABLE.

Definition _HIFusb_init : HM unit :=
  s ← get;
  q ← hdma (_DMAengine_init_rx_queue (dnQ s)); modify (λ s, s <| dnQ := q |>) ;;
  q ← hdma (_DMAengine_init_tx_queue (upQ s)); modify (λ s, s <| upQ := q |>) ;;
  q ← hdma (_DMAengine_init_rx_queue (hpdnQ s)); modify (λ s, s <| hpdnQ := q |>) ;;
  q ← hdma (_DMAengine_init_rx_queue (mpdnQ s)); modify (λ s, s <| mpdnQ := q |>) ;;
  modify (λ s, s <| event_head := 0 |>) ;;
  modify (λ s, s <| event_tail := 0 |>) ;;
  modify (λ s, s <| cmdQueue := 0 |>).

Definition _HIFusb_start : HM unit :=
  s ← get;
  reg_wr MAGPIE_REG_USB_RX0_DESC_START (head (dnQ s)) ;;
  reg_wr MAGPIE_REG_USB_TX0_DESC_START (head (tx_dq (upQ s))) ;;
  reg_wr MAGPIE_REG_USB_RX1_DESC_START (head (hpdnQ s)) ;;
  reg_wr MAGPIE_REG_USB_RX2_DESC_START (head (mpdnQ s)) ;;
  reg_wr MAGPIE_REG_USB_INTERRUPT_MASK 0xffffffff ;;
  reg_wr MAGPIE_REG_USB_RX0_DMA_START 1 ;;
  reg_wr MAGPIE_REG_USB_RX1_DMA_START 1 ;;
  reg_wr MAGPIE_REG_USB_RX2_DMA_START 1.
(** Waits until the four engines have stopped, looking at most [fuel] times. *)
Definition dma_starts : list Z :=
  [MAGPIE_REG_USB_TX0_DMA_START; MAGPIE_REG_USB_RX0_DMA_START; MAGPIE_REG_USB_RX1_DMA_START; MAGPIE_REG_USB_RX2_DMA_START].
Fixpoint all_stopped (l : list Z) : HM bool :=
  match l with
  | [] => mret true
  | a :: l => v ← reg_rd a; if v =? 0 then all_stopped l else mret false
  end.
Definition _HIFusb_start_patch (fuel : nat) : HM unit :=
  for_each dma_starts (λ a, reg_wr a 0) ;;
  do_while fuel (b ← all_stopped dma_starts; mret (negb b)) ;;
  for_each dma_starts (λ a, v ← reg_rd a; reg_wr a (v .| BIT4)) ;;
  _HIFusb_start.

(** Puts a buffer on the list of those for commands. *)
Definition add_command_buf (buf : Z) : HM unit :=
  s ← get;
  unless (cmdQueue s =? 0) (hfnb (upd_vbuf buf (λ b, b <| next_buf := cmdQueue s |>))) ;;
  modify (λ s, s <| cmdQueue := buf |>).
Fixpoint config_command_pipe (fuel : nat) (theDesc : Z) : HM unit :=
  if theDesc =? 0 then mret tt else
  match fuel with
  | O => fail OutOfFuel
  | S n =>
      buf ← hfnb _vbuf_alloc_vbuf;
      hfnb (upd_vbuf buf (λ b, b <| desc_list := theDesc |>)) ;;
      v ← hfnb (rd_vdesc theDesc);
      hfnb (upd_vdesc theDesc (λ v, v <| next_desc := 0 |>)) ;;
      add_command_buf buf ;;
      config_command_pipe n (next_desc v)
  end.

Definition enable_rx (pipe : Z) : HM unit :=
  if pipe =? HIF_USB_PIPE_TX then reg_wr MAGPIE_REG_USB_RX0_DMA_START 1
  else if pipe =? HIF_USB_PIPE_HP_TX then reg_wr MAGPIE_REG_USB_RX1_DMA_START 1
  else when (pipe =? HIF_USB_PIPE_MP_TX) (reg_wr MAGPIE_REG_USB_RX2_DMA_START 1).
(** Runs [f] on the queue that [get_queue_from_pipe] points to. *)
Definition get_queue_from_pipe (pipe : Z) (f : zsDmaQueue → DM zsDmaQueue) : HM unit :=
  s ← get;
  if pipe =? HIF_USB_PIPE_TX then q ← hdma (f (dnQ s)); modify (λ s, s <| dnQ := q |>)
  else if pipe =? HIF_USB_PIPE_HP_TX then q ← hdma (f (hpdnQ s)); modify (λ s, s <| hpdnQ := q |>)
  else if pipe =? HIF_USB_PIPE_MP_TX then q ← hdma (f (mpdnQ s)); modify (λ s, s <| mpdnQ := q |>)
  else fail AssertFailed.

Definition _HIFusb_config_pipe (pipe creditCount : Z) : HM unit :=
  if pipe =? HIF_USB_PIPE_COMMAND then
    hd ← hdma (new_rx_descs (Z.to_nat creditCount) (HIF_get_max_msg_len pipe) 0);
    s ← get;
    config_command_pipe (size (vdescs (dm_nb (hf_dma s)))) hd
  else
    get_queue_from_pipe pipe (λ q, _DMAengine_config_rx_queue q creditCount (HIF_get_max_msg_len pipe)) ;;
    enable_rx pipe.

Definition send_buffer_via_fifo (buf : Z) : HM unit :=
  swap_buf buf ;;
  s ← get;
  (if event_head s =? 0 then
     modify (λ s, s <| event_head := buf |>) ;; modify (λ s, s <| event_tail := buf |>)
   else
     hfnb (upd_vbuf (event_tail s) (λ b, b <| next_buf := buf |>)) ;;
     modify (λ s, s <| event_tail := buf |>)) ;;
  USBFIFO_enable_event_isr.
Definition _HIFusb_send_buffer (pipe buf : Z) : HM Z :=
  (if pipe =? HIF_USB_PIPE_INTERRUPT then send_buffer_via_fifo buf
   else
     s ← get;
     q ← hdma (_DMAengine_xmit_buf (upQ s) buf); modify (λ s, s <| upQ := q |>) ;;
     reg_wr MAGPIE_REG_USB_TX0_DMA_START 1) ;;
  mret 0.
Definition _HIFusb_return_recv_buf (pipe buf : Z) : HM unit :=
  if pipe =? HIF_USB_PIPE_COMMAND then add_command_buf buf
  else get_queue_from_pipe pipe (λ q, _DMAengine_return_recv_buf q buf) ;; enable_rx pipe.

(** ** The handlers, which call the layer above *)
Context `{!HifClient HW C}.

Definition usbfifo_recv_command (buf : Z) : HM unit := swap_buf buf ;; recv_buf buf.
Definition usbfifo_send_event_done (buf : Z) : HM unit := send_buf_done buf.

Definition handle_tx_complete_isr : HM unit :=
  s ← get;
  '(buf, q) ← hdma (_DMAengine_reap_xmited_buf (upQ s));
  modify (λ s, s <| upQ := q |>) ;;
  send_buf_done buf.
Definition handle_rx_complete_isr : HM unit :=
  s ← get;
  '(buf, q) ← hdma (_DMAengine_reap_recv_buf (dnQ s));
  modify (λ s, s <| dnQ := q |>) ;;
  recv_buf buf.
Definition handle_hp_rx_complete_isr : HM unit :=
  s ← get;
  '(buf, q) ← hdma (_DMAengine_reap_recv_buf (hpdnQ s));
  modify (λ s, s <| hpdnQ := q |>) ;;
  recv_buf buf.
Definition handle_mp_rx_complete_isr : HM unit :=
  s ← get;
  '(buf, q) ← hdma (_DMAengine_reap_recv_buf (mpdnQ s));
  modify (λ s, s <| mpdnQ := q |>) ;;
  recv_buf buf.

(** [while (has_compl_packets(q)) handle();] *)
Definition drain (fuel : nat) (q : hif_usb HW C → zsDmaQueue) (handle : HM unit) : HM unit :=
  do_while fuel (
    s ← get;
    c ← hdma (_DMAengine_has_compl_packets (q s));
    when c handle ;; mret c).
(** The last loop looks at both directions in each turn. *)
Definition drain_both (fuel : nat) : HM unit :=
  do_while fuel (
    s ← get;
    up ← hdma (_DMAengine_has_compl_packets (tx_dq (upQ s)));
    when up handle_tx_complete_isr ;;
    s ← get;
    dn ← hdma (_DMAengine_has_compl_packets (dnQ s));
    when dn handle_rx_complete_isr ;;
    mret (up || dn)).
Definition _HIFusb_isr_handler (fuel : nat) : HM unit :=
  intr ← reg_rd MAGPIE_REG_USB_INTERRUPT;
  when (tst intr (MAGPIE_REG_USB_INTERRUPT_TX0_COMPL .| MAGPIE_REG_USB_INTERRUPT_RX0_COMPL
                  .| MAGPIE_REG_USB_INTERRUPT_RX1_COMPL .| MAGPIE_REG_USB_INTERRUPT_RX2_COMPL))
    (drain fuel hpdnQ handle_hp_rx_complete_isr ;;
     drain fuel mpdnQ handle_mp_rx_complete_isr ;;
     drain_both fuel).
End hif.
