(* ===== verification/Io.v ===== *)
(** * Device registers and memory (target/inc/adf_os_io.h)

    What the services of the boot ROM and of the console work on: the registers, an access to
    which may change the chip, the bytes of the memory, and a state of their own. *)

From S2P Require Import Prelude.
From S2P Require Import NBuf.
From S2P Require Import Dma.
From S2P Require Import HifPipes.
From S2P Require Import Hif.

Class DevIo (HW : Type) := {
  dev_rd8 : Z → HW → Z * HW; dev_rd16 : Z → HW → Z * HW; dev_rd32 : Z → HW → Z * HW;
  dev_wr8 : Z → Z → HW → HW; dev_wr16 : Z → Z → HW → HW; dev_wr32 : Z → Z → HW → HW;
}.

(** The special registers of the CPU: the cycle counter, the enabled and the pending interrupts,
    and the interrupt level. *)
Class CpuIo (HW : Type) := {
  xthal_get_ccount : HW → Z * HW;
  xthal_get_intenable : HW → Z * HW; xthal_set_intenable : Z → HW → HW; xthal_get_interrupt : HW → Z * HW;
  rsil : Z → HW → Z * HW;
}.

Record svc (HW C : Type) := mk_svc { sv_hw : HW; sv_mem : gmap Z Z; sv_up : C }.
Arguments mk_svc {HW C}. Arguments sv_hw {HW C}. Arguments sv_mem {HW C}. Arguments sv_up {HW C}.
#[export] Instance eta_svc {HW C} : EtaExp (svc HW C) := λ s, mk_svc (sv_hw s) (sv_mem s) (sv_up s).

Section io.
Context {HW C : Type} `{!DevIo HW}.
Abbreviation SM := (M (svc HW C)).

Definition dev_get (f : HW → Z * HW) : SM Z := λ s, let '(v, h) := f (sv_hw s) in Ok (v, s <| sv_hw := h |>).
Definition dev_set (f : HW → HW) : SM unit := modify (λ s, s <| sv_hw ::= f |>).
Definition ioread8 (addr : Z) : SM Z := dev_get (dev_rd8 addr).
Definition ioread16 (addr : Z) : SM Z := dev_get (dev_rd16 addr).
Definition ioread32 (addr : Z) : SM Z := dev_get (dev_rd32 addr).
Definition iowrite8 (addr b : Z) : SM unit := modify (λ s, s <| sv_hw ::= dev_wr8 addr (u8 b) |>).
Definition iowrite16 (addr b : Z) : SM unit := modify (λ s, s <| sv_hw ::= dev_wr16 addr (u16 b) |>).
Definition iowrite32 (addr b : Z) : SM unit := modify (λ s, s <| sv_hw ::= dev_wr32 addr (u32 b) |>).
Definition io32_rmw (addr set clr : Z) : SM unit :=
  val ← ioread32 addr; iowrite32 addr ((val .&~ clr) .| set).
Definition io32_set (addr s : Z) : SM unit := io32_rmw addr s 0.
Definition io32_clr (addr c : Z) : SM unit := io32_rmw addr 0 c.

(** [n] bytes of the memory from [a]; the bytes [l] to there. *)
Definition mem_get (m : gmap Z Z) (a : Z) (n : nat) : list Z := map (λ i, mem_rd m (a + i)) (seqZ 0 (Z.of_nat n)).
Definition svc_mem : SM (gmap Z Z) := gets sv_mem.
Fixpoint mem_set (a : Z) (l : list Z) (m : gmap Z Z) : gmap Z Z :=
  match l with [] => m | b :: l => mem_set (a + 1) l (<[a := b]> m) end.
Definition svc_set (a : Z) (l : list Z) : SM unit := modify (λ s, s <| sv_mem ::= mem_set a l |>).
End io.

(** The bytes of a word as they lie in memory, and back: the CPU is big-endian. *)
Definition be_bytes (w : Z) : list Z := [u8 (w .>> 24); u8 (w .>> 16); u8 (w .>> 8); u8 w].
Definition be_word (l : list Z) : Z := foldl (λ w b, w * 256 + b) 0 l.
(** The place of a byte in its word, counted from the other end. *)
Definition wswap (k : Z) : Z := 4 * (k / 4) + (3 - k mod 4).

(** ** Lemmas *)
Lemma wswap_wswap k : wswap (wswap k) = k.
Proof. unfold wswap. mlia. Qed.
Lemma wswap_range k l : l mod 4 = 0 → 0 <= k < l → 0 <= wswap k < l.
Proof. unfold wswap. intros. mlia. Qed.
Lemma mem_rd_insert a b m x : mem_rd (<[a := b]> m) x = if decide (x = a) then b else mem_rd m x.
Proof. unfold mem_rd. destruct (decide (x = a)) as [->|]; [by rewrite lookup_insert_eq|by rewrite lookup_insert_ne]. Qed.
Lemma mem_rd_set l : ∀ a m x,
  mem_rd (mem_set a l m) x = if decide (a <= x < a + Z.of_nat (length l)) then nth (Z.to_nat (x - a)) l 0 else mem_rd m x.
Proof.
  induction l as [|b l IH]; intros a m x; cbn [mem_set length]; [by rewrite decide_False by lia|]. rewrite IH, mem_rd_insert.
  destruct (decide (a + 1 <= x < a + 1 + Z.of_nat (length l))).
  - rewrite decide_True by lia. replace (Z.to_nat (x - a)) with (S (Z.to_nat (x - (a + 1)))) by lia. done.
  - destruct (decide (x = a)) as [->|]; [rewrite decide_True by lia; by replace (Z.to_nat (a - a)) with 0%nat by lia|].
    by rewrite decide_False by lia.
Qed.

Section wp_io.
Context {HW C : Type} `{!DevIo HW}.
Implicit Types (s : svc HW C).
Lemma wp_ioread32 a s (Q : Z → svc HW C → Prop) :
  (∀ w hw, dev_rd32 a (sv_hw s) = (w, hw) → Q w (s <| sv_hw := hw |>)) → wp (ioread32 a) Q s.
Proof. unfold wp, ioread32, dev_get. destruct (dev_rd32 a (sv_hw s)). by auto. Qed.
Lemma wp_iowrite32 a v s (Q : unit → svc HW C → Prop) :
  Q tt (s <| sv_hw := dev_wr32 a (u32 v) (sv_hw s) |>) → wp (iowrite32 a v) Q s.
Proof. done. Qed.
End wp_io.
