(* ===== verification/Sflash.v ===== *)
(** * Serial flash (target/cmnos/cmnos_sflash.c, sboot/.../cmnos/sflash)

    The driver of the SPI flash controller. A transaction sends an operation code, three bytes
    of address and up to four of data, or receives up to four: the registers AO and D hold
    them, writing to CS starts it. A page is 256 bytes, and a program operation wraps around at
    its end, so [cmnos_sflash_program] stops at each page. *)

From S2P Require Import Prelude.
From S2P Require Import Hif.
From S2P Require Import Io.

Definition ZM_SFLASH_SECTOR_ERASE : Z := 1.
Definition ZM_SFLASH_BLOCK_ERASE : Z := 2.
Definition ZM_SFLASH_CHIP_ERASE : Z := 0.
Definition ZM_SFLASH_PAGE_SIZE : Z := 256.
Definition ZM_SFLASH_OP_READ : Z := 0x03.
Definition ZM_SFLASH_OP_FAST_READ : Z := 0x0B.
Definition ZM_SFLASH_OP_SE : Z := 0x20.
Definition ZM_SFLASH_OP_BE : Z := 0xD8.
Definition ZM_SFLASH_OP_CE : Z := 0xC7.
Definition ZM_SFLASH_OP_PP : Z := 0x02.
Definition ZM_SFLASH_OP_RDSR : Z := 0x05.
Definition ZM_SFLASH_OP_WREN : Z := 0x06.
Definition ZM_SFLASH_STATUS_REG_WIP : Z := 1 .<< 0.

Definition SPI_REG_BASE_ADDRESS : Z := 0x5B000.
Definition SPI_CS_ADDRESS : Z := SPI_REG_BASE_ADDRESS + 0x0.
Definition SPI_AO_ADDRESS : Z := SPI_REG_BASE_ADDRESS + 0x4.
Definition SPI_D_ADDRESS : Z := SPI_REG_BASE_ADDRESS + 0x8.
Definition MAGPIE_REG_CLOCK_CTRL_ADDR : Z := 0x50040.
Definition SPI_CS_TXBCNT_SET (x : Z) : Z := (x .<< 0) .& 0x0000000f.
Definition SPI_CS_RXBCNT_SET (x : Z) : Z := (x .<< 4) .& 0x000000f0.
Definition SPI_CS_XCNSTART_SET (x : Z) : Z := (x .<< 8) .& 0x00000100.
Definition SPI_CS_BUSY_GET (x : Z) : Z := (x .& 0x00010000) .>> 16.
Definition SPI_CS_AUTOSIZ_OVR_SET (x : Z) : Z := (x .<< 19) .& 0x00180000.
Definition SPI_AO_OPC_SET (x : Z) : Z := (x .<< 0) .& 0x000000ff.
Definition SPI_AO_ADDR_SET (x : Z) : Z := u32 (x .<< 8) .& 0xffffff00.
Definition SPI_D_DATA_SET (x : Z) : Z := (x .<< 0) .& 0xffffffff.

Section sflash.
Context {HW C : Type} `{!DevIo HW}.
Abbreviation SM := (M (svc HW C)).

(** [n]: how often a loop polls the controller. *)
Context (n : nat).

Definition _cmnos_sflash_WaitTillTransactionOver : SM unit :=
  do_while n (
    poldata ← ioread32 SPI_CS_ADDRESS;
    mret (negb (SPI_CS_BUSY_GET poldata =? 0))).

Definition _cmnos_sflash_WaitTillNotWriteInProcess : SM unit :=
  do_while n (
    _cmnos_sflash_WaitTillTransactionOver ;;
    iowrite32 SPI_AO_ADDRESS (SPI_AO_OPC_SET ZM_SFLASH_OP_RDSR) ;;
    iowrite32 SPI_CS_ADDRESS (SPI_CS_TXBCNT_SET 1 .| SPI_CS_RXBCNT_SET 1 .| SPI_CS_XCNSTART_SET 1) ;;
    _cmnos_sflash_WaitTillTransactionOver ;;
    d ← ioread32 SPI_D_ADDRESS;
    mret (negb (d .& ZM_SFLASH_STATUS_REG_WIP =? 0))).

Definition _cmnos_sflash_WriteEnable : SM unit :=
  _cmnos_sflash_WaitTillNotWriteInProcess ;;
  iowrite32 SPI_AO_ADDRESS (SPI_AO_OPC_SET ZM_SFLASH_OP_WREN) ;;
  iowrite32 SPI_CS_ADDRESS (SPI_CS_TXBCNT_SET 1 .| SPI_CS_RXBCNT_SET 0 .| SPI_CS_XCNSTART_SET 1) ;;
  _cmnos_sflash_WaitTillTransactionOver.

Definition cmnos_sflash_init : SM unit :=
  io32_set MAGPIE_REG_CLOCK_CTRL_ADDR 0x100 ;;
  iowrite32 SPI_CS_ADDRESS (SPI_CS_AUTOSIZ_OVR_SET 2).

Definition cmnos_sflash_erase (erase_type addr : Z) : SM unit :=
  let '(erase_opcode, tx_len) :=
    if erase_type =? ZM_SFLASH_SECTOR_ERASE then (ZM_SFLASH_OP_SE, 4)
    else if erase_type =? ZM_SFLASH_BLOCK_ERASE then (ZM_SFLASH_OP_BE, 4)
    else (ZM_SFLASH_OP_CE, 1) in
  _cmnos_sflash_WriteEnable ;;
  _cmnos_sflash_WaitTillNotWriteInProcess ;;
  iowrite32 SPI_AO_ADDRESS (SPI_AO_OPC_SET erase_opcode .| SPI_AO_ADDR_SET addr) ;;
  iowrite32 SPI_CS_ADDRESS (SPI_CS_TXBCNT_SET tx_len .| SPI_CS_RXBCNT_SET 0 .| SPI_CS_XCNSTART_SET 1) ;;
  _cmnos_sflash_WaitTillNotWriteInProcess.

(** How much is written at [s_addr]. *)
Definition program_chunk (s_addr e_addr : Z) : Z :=
  let next_page_base := u32 (s_addr - s_addr mod ZM_SFLASH_PAGE_SIZE + ZM_SFLASH_PAGE_SIZE) in
  let reminder := u32 (e_addr - s_addr) in
  let write_byte := u32 (next_page_base - s_addr) in
  let write_byte := if write_byte >=? 4 then 4 else write_byte in
  if write_byte >? reminder then reminder else write_byte.

(** [t_word_data] keeps, behind the bytes copied into it, those of the turn before. *)
Fixpoint program_loop (fuel : nat) (addr e_addr buf s_addr t_word_data : Z) : SM unit :=
  if s_addr <? e_addr then
    match fuel with
    | O => fail OutOfFuel
    | S k =>
      let write_byte := program_chunk s_addr e_addr in
      let data_offset := u32 (s_addr - addr) in
      m ← svc_mem;
      let t_word_data := be_word (mem_get m (u32 (buf + data_offset)) (Z.to_nat write_byte)
                                    ++ drop (Z.to_nat write_byte) (be_bytes t_word_data)) in
      _cmnos_sflash_WriteEnable ;;
      _cmnos_sflash_WaitTillNotWriteInProcess ;;
      iowrite32 SPI_AO_ADDRESS (SPI_AO_OPC_SET ZM_SFLASH_OP_PP .| SPI_AO_ADDR_SET s_addr) ;;
      iowrite32 SPI_D_ADDRESS (SPI_D_DATA_SET t_word_data) ;;
      iowrite32 SPI_CS_ADDRESS (SPI_CS_TXBCNT_SET (4 + write_byte) .| SPI_CS_RXBCNT_SET 0 .| SPI_CS_XCNSTART_SET 1) ;;
      _cmnos_sflash_WaitTillTransactionOver ;;
      program_loop k addr e_addr buf (u32 (s_addr + write_byte)) t_word_data
    end
  else mret tt.
(** Every turn writes a byte at least; [junk] is what the uninitialised word holds. *)
Definition cmnos_sflash_program (junk addr len buf : Z) : SM unit :=
  program_loop (Z.to_nat len) addr (u32 (addr + len)) buf addr junk.

(** [A_MEMCPY] from the data register, byte by byte. *)
Definition read_data (k : Z) : SM (list Z) :=
  (fix go (l : list Z) : SM (list Z) :=
     match l with [] => mret [] | j :: l => b ← ioread8 (SPI_D_ADDRESS + j); r ← go l; mret (b :: r) end) (seqZ 0 k).
Definition cmnos_sflash_read (fast addr len buf : Z) : SM unit :=
  let '(read_opcode, write_byte) := if truthy fast then (ZM_SFLASH_OP_FAST_READ, 5) else (ZM_SFLASH_OP_READ, 4) in
  let remainder := len mod 4 in
  let read_cnt := if truthy remainder then len / 4 + 1 else len / 4 in
  for_each (seqZ 0 read_cnt) (λ i,
    let read_byte := if (i =? read_cnt - 1) && truthy remainder then remainder else 4 in
    _cmnos_sflash_WaitTillNotWriteInProcess ;;
    iowrite32 SPI_AO_ADDRESS (SPI_AO_OPC_SET read_opcode .| SPI_AO_ADDR_SET (u32 (addr + i * 4))) ;;
    iowrite32 SPI_CS_ADDRESS (SPI_CS_TXBCNT_SET write_byte .| SPI_CS_RXBCNT_SET read_byte .| SPI_CS_XCNSTART_SET 1) ;;
    _cmnos_sflash_WaitTillTransactionOver ;;
    l ← read_data read_byte;
    svc_set (u32 (buf + i * 4)) l).

Definition cmnos_sflash_rdsr : SM Z :=
  _cmnos_sflash_WaitTillTransactionOver ;;
  iowrite32 SPI_AO_ADDRESS (SPI_AO_OPC_SET ZM_SFLASH_OP_RDSR) ;;
  iowrite32 SPI_CS_ADDRESS (SPI_CS_TXBCNT_SET 1 .| SPI_CS_RXBCNT_SET 1 .| SPI_CS_XCNSTART_SET 1) ;;
  _cmnos_sflash_WaitTillTransactionOver ;;
  w ← ioread32 SPI_D_ADDRESS;
  mret (w .& 0x000000FF).
End sflash.
