(* ===== verification/Printf.v ===== *)
(** * Formatted output (target/cmnos/k2_fw_cmnos_printf.c, sboot/.../cmnos/printf)

    The two copies differ only in the width of a shifted constant. A format is the list of its
    characters with the terminating zero; reading behind it is a fault. The arguments are the
    words [va_arg] takes, a [char *] being an address in memory. *)

From Stdlib Require Import Ascii String.
From S2P Require Import Prelude.
From S2P Require Import Hif.

Definition ch (a : ascii) : Z := Z.of_N (N_of_ascii a).
Definition chars (s : string) : list Z := map ch (list_ascii_of_string s).

(** The format and the arguments still to be read, the memory, the local buffer, what went to
    the UART. *)
Record printer := mk_printer { pf_fmt : list Z; pf_ap : list Z; pf_mem : gmap Z Z; pf_buf : list Z; pf_out : list Z }.
#[export] Instance eta_printer : EtaExp printer := λ p,
  mk_printer (pf_fmt p) (pf_ap p) (pf_mem p) (pf_buf p) (pf_out p).
Abbreviation PF := (M printer).

Definition A_PUTC (c : Z) : PF unit := modify (λ p, p <| pf_out ::= λ l, (l ++ [c])%list |>).
Definition cmnos_write_char (c : Z) : PF unit :=
  if c =? 10 then A_PUTC 13 ;; A_PUTC 10
  else if c =? 13 then mret tt
  else A_PUTC c.

(** [c = *fmt++] *)
Definition next_char : PF Z :=
  p ← get;
  match pf_fmt p with
  | [] => fail OutOfRange
  | c :: l => modify (λ p, p <| pf_fmt := l |>) ;; mret c
  end.
Definition va_arg : PF Z :=
  p ← get;
  match pf_ap p with
  | [] => fail UninitRead
  | v :: l => modify (λ p, p <| pf_ap := l |>) ;; mret v
  end.

Definition is_digit (c : Z) : bool := (ch "0" <=? c) && (c <=? ch "9").

(** The digits in [temp], the last one first; a word has at most 32. *)
Fixpoint cvt_temp (fuel : nat) (val radix : Z) (digits : list Z) : list Z :=
  match fuel with
  | O => []
  | S n => if val =? 0 then [] else nth (Z.to_nat (val mod radix)) digits 0 :: cvt_temp n (val / radix) radix digits
  end.
Definition _cvt (val radix : Z) (digits : list Z) : PF Z :=
  let temp := if val =? 0 then [ch "0"] else cvt_temp 33 val radix digits in
  let s := (rev temp ++ [0])%list in
  p ← get;
  if (length (pf_buf p) <? length s)%nat then fail OutOfRange
  else modify (λ p, p <| pf_buf ::= λ b, (s ++ drop (length s) b)%list |>) ;; mret (Z.of_nat (length temp)).

(** [while (is_digit(c)) { prec = prec * 10 + (c - '0'); c = *fmt++; }] *)
Fixpoint read_prec (fuel : nat) (prec c : Z) : PF (Z * Z) :=
  if is_digit c then
    match fuel with
    | O => fail OutOfFuel
    | S n => c' ← next_char; read_prec n (s32 (prec * 10 + (c - ch "0"))) c'
    end
  else mret (prec, c).
Definition read_number (c : Z) : PF (Z * Z) := p ← get; read_prec (S (length (pf_fmt p))) 0 c.

(** The length of the string at [a]. *)
Fixpoint str_len (fuel : nat) (m : gmap Z Z) (a : Z) : nat :=
  match fuel with
  | O => 0
  | S n => if mem_rd m a =? 0 then 0 else S (str_len n m (a + 1))
  end.
Definition mem_string (m : gmap Z Z) (a : Z) : list Z :=
  map (λ i, mem_rd m (a + i)) (seqZ 0 (Z.of_nat (str_len (S (size m)) m a))).

Section vprintf.
Context (putc : Z → PF unit).
Definition put_all (l : list Z) : PF unit := for_each l putc.

(** What follows a per cent sign. *)
Record spec := mk_spec { sp_left_prec : Z; sp_pad_on_right : bool; sp_zero_fill : bool; sp_islong : bool; sp_conv : Z }.
Definition read_spec : PF spec :=
  c ← next_char;
  '(c, pad_on_right) ← (if c =? ch "-" then c ← next_char; mret (c, true) else mret (c, false));
  '(c, zero_fill) ← (if c =? ch "0" then c ← next_char; mret (c, 1) else mret (c, 0));
  '(left_prec, c) ← read_number c;
  '(zero_fill, c) ← (if c =? ch "." then
                       c ← next_char; '(right_prec, c) ← read_number c; mret (zero_fill + 1, c)
                     else mret (zero_fill, c));
  '(islong, c) ← (if c =? ch "l" then
                    c ← next_char;
                    if c =? ch "l" then c ← next_char; mret (true, c) else mret (true, c)
                  else mret (false, c));
  mret (mk_spec left_prec pad_on_right (truthy zero_fill) islong c).

Definition numeric (c : Z) : bool := existsb (Z.eqb c) (chars "pdDxXuUbB").
(** The value with its sign. On this CPU [int] and [long] are 32 bits wide, so that the masks
    leave the word as it is. *)
Definition fetch_value (c : Z) : PF (Z * bool) :=
  v ← va_arg;
  let val := s32 v in
  if (c =? ch "d") || (c =? ch "D") then mret (if val <? 0 then (s32 (- val), true) else (val, false))
  else mret (u32 val, false).

(** The text, its length, and the fields the conversion changes: [None] for [continue]. A
    length that is kept from the conversion before is never positive, so that no text is read. *)
Definition convert (sp : spec) (val len : Z) : PF (option (spec * Z * list Z)) :=
  let c := sp_conv sp in
  let cvt radix digits sp := l ← _cvt (u32 val) radix (chars digits); p ← get; mret (Some (sp, l, pf_buf p)) in
  if c =? ch "p" then
    putc (ch "0") ;; putc (ch "x") ;;
    cvt 16 "0123456789abcdef"%string (mk_spec 8 (sp_pad_on_right sp) true (sp_islong sp) c)
  else if existsb (Z.eqb c) (chars "dDuU") then cvt 10 "0123456789"%string sp
  else if c =? ch "x" then cvt 16 "0123456789abcdef"%string sp
  else if c =? ch "X" then cvt 16 "0123456789ABCDEF"%string sp
  else if existsb (Z.eqb c) (chars "sS") then
    a ← va_arg; p ← get;
    let s := if a =? 0 then chars "<null>" else mem_string (pf_mem p) a in
    mret (Some (sp, Z.of_nat (length s), s))
  else if existsb (Z.eqb c) (chars "cC") then c ← va_arg; putc (u8 c) ;; mret None
  else if existsb (Z.eqb c) (chars "bB") then
    let len := if sp_left_prec sp =? 0 then 32 else sp_left_prec sp in
    p ← get;
    if (length (pf_buf p) <? Z.to_nat (len - 1))%nat then fail OutOfRange else
    let bits := map (λ i, if Z.testbit val i then ch "1" else ch ".") (seqZ 0 (len - 1)) in
    modify (λ p, p <| pf_buf ::= λ b, (bits ++ drop (length bits) b)%list |>) ;;
    p ← get; mret (Some (sp, len, pf_buf p))
  else if c =? ch "%" then putc (ch "%") ;; mret (Some (sp, len, []))
  else putc (ch "%") ;; putc c ;; mret (Some (sp, len, [])).
(** What [convert] has already counted. *)
Definition convert_res (c : Z) : Z :=
  if numeric c || existsb (Z.eqb c) (chars "sS%") then 0
  else if existsb (Z.eqb c) (chars "cC") then 1 else 2.

(** The text between its padding: how many characters, and the length that is left. *)
Definition emit (sp : spec) (len : Z) (sign : bool) (cp : list Z) : PF (Z * Z) :=
  let pad := s32 (sp_left_prec sp - len) in
  let pad := if sign then pad - 1 else pad in
  let c := if sp_zero_fill sp then ch "0" else ch " " in
  when (sp_zero_fill sp && sign) (putc (ch "-")) ;;
  let pads := replicate (Z.to_nat pad) c in
  unless (sp_pad_on_right sp) (put_all pads) ;;
  when (negb (sp_zero_fill sp) && sign) (putc (ch "-")) ;;
  if (length cp <? Z.to_nat len)%nat then fail OutOfRange else
  put_all (take (Z.to_nat len) cp) ;;
  when (sp_pad_on_right sp) (put_all (replicate (Z.to_nat pad) (ch " "))) ;;
  mret (b2z sign + Z.max 0 pad + Z.max 0 len, if len >? 0 then -1 else len - 1).

Fixpoint vprintf_loop (fuel : nat) (res len : Z) : PF Z :=
  c ← next_char;
  if c =? 0 then mret res
  else
    match fuel with
    | O => fail OutOfFuel
    | S n =>
      if c =? ch "%" then
        sp ← read_spec;
        '(val, sign) ← (if numeric (sp_conv sp) then fetch_value (sp_conv sp) else mret (0, false));
        r ← convert sp val len;
        let res := res + convert_res (sp_conv sp) in
        match r with
        | None => vprintf_loop n res len
        | Some (sp, len, cp) =>
          '(k, len) ← emit sp len sign cp;
          vprintf_loop n (res + k) len
        end
      else putc c ;; vprintf_loop n (res + 1) len
    end.
End vprintf.

(** The buffer is uninitialised. *)
Definition cmnos_vprintf (putc : Z → PF unit) : PF Z := p ← get; vprintf_loop putc (length (pf_fmt p)) 0 0.
Definition cmnos_printf : PF Z := cmnos_vprintf cmnos_write_char.
Definition printf_state (m : gmap Z Z) (junk : list Z) (fmt : string) (ap : list Z) : printer :=
  mk_printer (chars fmt ++ [0])%list ap m junk [].

Definition printed (fmt : string) (ap : list Z) : option (Z * string) :=
  match cmnos_printf (printf_state ∅ (replicate 32 63) fmt ap) with
  | Ok (r, p) => Some (r, string_of_list_ascii (map (λ c, ascii_of_N (Z.to_N c)) (pf_out p)))
  | Fault _ => None
  end.
Example printed_hex : printed "addr 0x%08x, %5d%c" [0x51ea0; -42; 33] = Some (23, "addr 0x00051ea0,   -42!"%string).
Proof. by vm_compute. Qed.
(** After a conversion a per cent sign is followed by a blank, the next by two. *)
Example printed_percent : printed "%d%%" [7] = Some (2, "7% "%string) ∧ printed "%d%%%%" [7] = Some (4, "7% %  "%string).
Proof. by vm_compute. Qed.
(** The last of the bits is not written. *)
Example printed_bits : printed "%4b" [5] = Some (4, "1.1?"%string).
Proof. by vm_compute. Qed.
