(* ===== verification/Cmnos.v ===== *)
(** * Services of the boot ROM (sboot/.../cmnos: wdt, clock, uart, eeprom, rompatch, intr, misc)

    The watchdog, the clock with the functions the target puts in its place
    (target/rompatch/cmnos_clock_patch.c), the UART, the EEPROM, the patches stored in it and the
    dispatch of interrupts, as built for Magpie without a post buffer of the UART. The words
    that trace the progress of the start-up are left out, and the console's messages. *)

From S2P Require Import Prelude.
From S2P Require Import Hif.
From S2P Require Export Io.

Definition RST_BASE_ADDRESS : Z := 0x50000.
Definition MAGPIE_REG_RST_WDT_TIMER_CTRL_ADDR : Z := RST_BASE_ADDRESS + 0x8.
Definition MAGPIE_REG_RST_WDT_TIMER_ADDR : Z := RST_BASE_ADDRESS + 0xC.
Definition MAGPIE_REG_RST_RESET_ADDR : Z := RST_BASE_ADDRESS + 0x10.
Definition MAGPIE_REG_AHB_ARB_ADDR : Z := RST_BASE_ADDRESS + 0x18.
Definition UART_BASE_ADDRESS : Z := 0x51000.
Definition SYS_D_RAM_REGION_0_BASE : Z := 0x500000.
Definition SYS_RAM_BLOCK_SIZE : Z := 40 * 1024.
Definition SYS_RAM_SZIE : Z := SYS_RAM_BLOCK_SIZE * 4.
Definition SYS_D_RAM_REGION_3_BASE : Z := SYS_D_RAM_REGION_0_BASE + 3 * SYS_RAM_BLOCK_SIZE.
Definition WATCH_DOG_MAGIC_PATTERN_ADDR : Z := SYS_D_RAM_REGION_0_BASE + SYS_RAM_SZIE - 0x4.
Definition ROM_PATCH_BUF_ADDR : Z := SYS_D_RAM_REGION_3_BASE + SYS_RAM_BLOCK_SIZE - (SYS_RAM_BLOCK_SIZE .>> 2).
Definition WDT_MAGIC_PATTERN : Z := 0x5F574454.
Definition SUS_MAGIC_PATTERN : Z := 0x5F535553.
Definition SYSTEM_FREQ : Z := 40.
Definition ONE_MSEC : Z := SYSTEM_FREQ * 1000.
Definition WDT_DEFAULT_TIMEOUT_VALUE : Z := 3 * ONE_MSEC * 1000.
Definition UART_DEFAULT_BAUD : Z := 115200.
Definition UART_RETRY_COUNT : nat := Z.to_nat 10000.
Definition EEPROM_CTRL_BASE : Z := 0x10ff0000.
Definition EEPROM_ADDR_BASE : Z := EEPROM_CTRL_BASE + 0x2000.
Definition EEPROM_START_OFFSET : Z := 0.
Definition EEPROM_END_OFFSET : Z := EEPROM_START_OFFSET + 0xfff.
Definition ROM_PATCH_EEPROM_OFFSET : Z := 0xfc.
Definition NUM_DIRECT_INTR : nat := 19.

(** ** State *)
Definition WDT_ACTION_NO : Z := 0.
Definition WDT_ACTION_RESET : Z := 3.
Definition WDT_ACTION_UNKNOWN : Z := 4.
Record T_WDT_CTRL := mk_wdt { wdt_state : bool; wdt_action : Z; wdt_timeout : Z }.
#[export] Instance eta_wdt : EtaExp T_WDT_CTRL := λ w, mk_wdt (wdt_state w) (wdt_action w) (wdt_timeout w).
Inductive T_WDT_CMD := WDT_TIMEOUT (timeout : Z) | WDT_ACTION (action : Z).
Inductive T_BOOT_TYPE := ENUM_WDT_BOOT | ENUM_COLD_BOOT | ENUM_SUSP_BOOT.
Inductive T_EEP_RET := RET_SUCCESS | RET_NOT_INIT | RET_NOT_EXIST | RET_EEP_CORRUPT | RET_EEP_OVERFLOW.
#[export] Instance eep_ret_dec : EqDecision T_EEP_RET.
Proof. solve_decision. Defined.

(** The clock: [clock_info] of the ROM, [ref_clk] of the patch, the ticks, and the cycles at
    which each of the two functions last counted one. *)
Record clock := mk_clock { clock_info : Z; ref_clk : Z; cticks : Z; last_tick_rom : Z; last_tick : Z }.
#[export] Instance eta_clock : EtaExp clock := λ c,
  mk_clock (clock_info c) (ref_clk c) (cticks c) (last_tick_rom c) (last_tick c).
(** The static variables of the services; the interrupt routines, by their addresses, and
    their arguments; the state of the modules above. *)
Record cmnos (C : Type) := mk_cmnos {
  wdt_ctrl : T_WDT_CTRL; cm_clock : clock; uart_debug_mode : bool; uart_overrun_err : Z;
  eep_state : bool; eep_exist : bool; patch_start : Z; patch_addr : Z * Z;
  cmnos_isr_info : list (Z * Z); cmnos_enabled_interrupts : Z; cm_up : C }.
Arguments mk_cmnos {C}. Arguments wdt_ctrl {C}. Arguments cm_clock {C}. Arguments uart_debug_mode {C}. Arguments uart_overrun_err {C}.
Arguments eep_state {C}. Arguments eep_exist {C}. Arguments patch_start {C}. Arguments patch_addr {C}.
Arguments cmnos_isr_info {C}. Arguments cmnos_enabled_interrupts {C}. Arguments cm_up {C}.
#[export] Instance eta_cmnos {C} : EtaExp (cmnos C) := λ c,
  mk_cmnos (wdt_ctrl c) (cm_clock c) (uart_debug_mode c) (uart_overrun_err c) (eep_state c) (eep_exist c) (patch_start c) (patch_addr c)
    (cmnos_isr_info c) (cmnos_enabled_interrupts c) (cm_up c).

Section services.
Context {HW C : Type} `{!DevIo HW} `{!CpuIo HW}.
Abbreviation SM := (M (svc HW (cmnos C))).

(** [n]: how many turns a loop takes. *)
Context (n : nat).
Definition cm {A} (f : cmnos C → A) : SM A := gets (λ s, f (sv_up s)).
Definition upd_cm (f : cmnos C → cmnos C) : SM unit := modify (λ s, s <| sv_up ::= f |>).
Definition HAL_WORD_REG_READ (addr : Z) : SM Z := ioread32 (addr .& 0xfffffffc).
Definition HAL_WORD_REG_WRITE (addr v : Z) : SM unit := iowrite32 (addr .& 0xfffffffc) v.
Definition NOW : SM Z := dev_get xthal_get_ccount.
(** The CPU loops until the watchdog resets it. *)
Definition wait_for_reset {A} : SM A := fail Rebooted.

(** ** wdt *)
Definition cmnos_wdt_last_boot : SM T_BOOT_TYPE :=
  m ← svc_mem;
  mret (if mem_rd32 m WATCH_DOG_MAGIC_PATTERN_ADDR =? WDT_MAGIC_PATTERN then ENUM_WDT_BOOT
        else if mem_rd32 m WATCH_DOG_MAGIC_PATTERN_ADDR =? SUS_MAGIC_PATTERN then ENUM_SUSP_BOOT
        else ENUM_COLD_BOOT).
Definition cmnos_wdt_reset : SM unit :=
  HAL_WORD_REG_WRITE MAGPIE_REG_RST_WDT_TIMER_CTRL_ADDR WDT_ACTION_RESET ;;
  HAL_WORD_REG_WRITE MAGPIE_REG_RST_WDT_TIMER_ADDR 0x100 ;;
  wait_for_reset.
Definition cmnos_wdt_set (wdt_cmd : T_WDT_CMD) : SM unit :=
  match wdt_cmd with
  | WDT_TIMEOUT timeout =>
      when (timeout >? 0) (
        upd_cm (λ c, c <| wdt_ctrl ::= λ w, w <| wdt_timeout := timeout |> |>) ;;
        HAL_WORD_REG_WRITE MAGPIE_REG_RST_WDT_TIMER_ADDR timeout)
  | WDT_ACTION action =>
      when (action <? WDT_ACTION_UNKNOWN) (
        upd_cm (λ c, c <| wdt_ctrl ::= λ w, w <| wdt_action := action |> |>) ;;
        HAL_WORD_REG_WRITE MAGPIE_REG_RST_WDT_TIMER_CTRL_ADDR action)
  end.
Definition cmnos_wdt_enable : SM unit :=
  upd_cm (λ c, c <| wdt_ctrl ::= λ w, w <| wdt_state := true |> |>) ;; cmnos_wdt_set (WDT_ACTION WDT_ACTION_RESET).
Definition cmnos_wdt_disable : SM unit :=
  upd_cm (λ c, c <| wdt_ctrl ::= λ w, w <| wdt_state := false |> |>) ;; cmnos_wdt_set (WDT_ACTION WDT_ACTION_NO).
Definition cmnos_wdt_init : SM unit :=
  upd_cm (λ c, c <| wdt_ctrl := mk_wdt false WDT_ACTION_NO WDT_DEFAULT_TIMEOUT_VALUE |>) ;;
  cmnos_wdt_enable ;;
  t ← cm (λ c, wdt_timeout (wdt_ctrl c));
  cmnos_wdt_set (WDT_TIMEOUT t).
Definition cmnos_wdt_task : SM unit :=
  w ← cm wdt_ctrl;
  when (wdt_state w) (HAL_WORD_REG_WRITE MAGPIE_REG_RST_WDT_TIMER_ADDR (wdt_timeout w)).

(** ** clock *)
Definition cmnos_clocking_table : list Z := [10000000; 20000000; 40000000; 0].
Definition A_REFCLK_DEVIATION : Z := 800000.
Definition refclk_near (ref ticks : Z) : bool :=
  (ref >? u32 (ticks - A_REFCLK_DEVIATION)) && (ref <? u32 (ticks + A_REFCLK_DEVIATION)).
(** The entry of the table, the last one when none is near. *)
Definition cmnos_clock_init (ref : Z) : SM unit :=
  let near := filter (λ i, refclk_near ref (nth i cmnos_clocking_table 0) = true) (seq 0 3) in
  upd_cm (λ c, c <| cm_clock ::= λ k, k <| clock_info := nth (default 3%nat (head near)) cmnos_clocking_table 0 |> |>).
Definition cmnos_refclk_speed_get : SM Z := cm (λ c, clock_info (cm_clock c)).
Definition cmnos_tick : SM unit :=
  current_tick ← NOW;
  k ← cm cm_clock;
  let delta_tick :=
    if current_tick <? last_tick_rom k then u32 (u32 (0xffffffff - last_tick_rom k) + current_tick + 1) / 1000
    else u32 (current_tick - last_tick_rom k) / 1000 in
  when (delta_tick >? 0) (upd_cm (λ c, c <| cm_clock ::= λ k, k <| last_tick_rom := current_tick |> |>)) ;;
  upd_cm (λ c, c <| cm_clock ::= λ k, k <| cticks ::= λ t, u32 (t + delta_tick) |> |>).
Definition cmnos_milliseconds : SM Z := cmnos_tick ;; cm (λ c, cticks (cm_clock c)).
Definition spin_until (start_time num_ticks : Z) : SM unit :=
  do_while n (now ← NOW; mret (u32 (now - start_time) <? num_ticks)).
Definition cmnos_delay_us (us : Z) : SM unit :=
  k ← cm cm_clock;
  start_time ← NOW;
  spin_until start_time (u32 (us * (clock_info k .>> 20))).

(** *** The functions of the target *)
Definition cmnos_clock_init_patch (refclk : Z) : SM unit := upd_cm (λ c, c <| cm_clock ::= λ k, k <| ref_clk := refclk |> |>).
Definition cmnos_refclk_speed_get_patch : SM Z := cm (λ c, ref_clk (cm_clock c)).
Definition cmnos_delay_us_patch (us : Z) : SM unit :=
  start_time ← NOW;
  k ← cm cm_clock;
  spin_until start_time (u32 (us * ref_clk k)).
Definition cmnos_tick_patch : SM unit :=
  current_tick ← NOW;
  k ← cm cm_clock;
  let period := u32 (ref_clk k .<< 10) in
  if period =? 0 then fail DivByZero else
  let delta_tick := u32 (current_tick - last_tick k) / period in
  when (delta_tick >? 0) (upd_cm (λ c, c <| cm_clock ::= λ k, k <| last_tick := current_tick |> |>)) ;;
  upd_cm (λ c, c <| cm_clock ::= λ k, k <| cticks ::= λ t, u32 (t + delta_tick) |> |>).
Definition cmnos_milliseconds_patch : SM Z := cmnos_tick_patch ;; cm (λ c, cticks (cm_clock c)).
Definition A_DELAY_USECS (us : Z) : SM unit := cmnos_delay_us us.

(** ** uart *)
Definition UART_REG_READ (addr : Z) : SM Z := HAL_WORD_REG_READ (UART_BASE_ADDRESS .| addr).
Definition UART_REG_WRITE (addr v : Z) : SM unit := HAL_WORD_REG_WRITE (UART_BASE_ADDRESS .| addr) v.
Definition RBR_OFFSET : Z := 0x0.
Definition THR_OFFSET : Z := 0x0.
Definition DLL_OFFSET : Z := 0x0.
Definition DLH_OFFSET : Z := 0x4.
Definition IER_OFFSET : Z := 0x4.
Definition FCR_OFFSET : Z := 0x8.
Definition LCR_OFFSET : Z := 0xc.
Definition LSR_OFFSET : Z := 0x14.
Definition LSR_TEMT_MASK : Z := 0x40.
Definition LSR_THRE_MASK : Z := 0x20.
Definition LSR_DR_MASK : Z := 0x1.
Definition LCR_DLAB_MASK : Z := 0x80.
(** At most [UART_RETRY_COUNT] reads, until the bit is set. *)
Fixpoint uart_retry (k : nat) (mask : Z) : SM unit :=
  match k with
  | O => mret tt
  | S k => lsr ← UART_REG_READ LSR_OFFSET; if tst lsr mask then mret tt else uart_retry k mask
  end.
Definition _uart_hwinit (freq baud : Z) : SM unit :=
  if baud =? 0 then fail DivByZero else
  let baud_divisor := freq / 16 / baud in
  _lcr ← UART_REG_READ LCR_OFFSET;
  let _lcr := _lcr .| LCR_DLAB_MASK in
  UART_REG_WRITE LCR_OFFSET _lcr ;;
  UART_REG_WRITE DLH_OFFSET (baud_divisor .>> 8) ;;
  UART_REG_WRITE DLL_OFFSET (baud_divisor .& 0xff) ;;
  UART_REG_WRITE LCR_OFFSET (_lcr .&~ LCR_DLAB_MASK).
(** The result is not set. *)
Definition _uart_init : SM unit :=
  UART_REG_WRITE IER_OFFSET 0 ;;
  UART_REG_WRITE LCR_OFFSET 3 ;;
  freq ← cmnos_refclk_speed_get;
  _uart_hwinit freq UART_DEFAULT_BAUD ;;
  UART_REG_WRITE IER_OFFSET 0 ;;
  UART_REG_WRITE FCR_OFFSET (1 .| 2 .| 4).
Definition _uart_char_put_nothing (c : Z) : SM unit := mret tt.
Definition _uart_char_put (c : Z) : SM unit :=
  uart_retry UART_RETRY_COUNT LSR_THRE_MASK ;;
  UART_REG_WRITE THR_OFFSET c ;;
  uart_retry UART_RETRY_COUNT LSR_TEMT_MASK.
Definition _uart_char_get : SM (option Z) :=
  lsr ← UART_REG_READ LSR_OFFSET;
  if tst lsr LSR_DR_MASK then c ← UART_REG_READ RBR_OFFSET; mret (Some (u8 c)) else mret None.
Definition _uart_status : SM Z := cm uart_overrun_err.
(** A string, its characters without the terminating zero. *)
Definition _uart_str_out (str : list Z) : SM unit :=
  b ← cm uart_debug_mode; when b (for_each str _uart_char_put).
(** The function that puts a character follows the mode. *)
Definition _uart_config (flag : Z) : SM unit :=
  b ← cm uart_debug_mode;
  when (negb (b2z b =? flag)) (upd_cm (λ c, c <| uart_debug_mode ::= negb |>)).
Definition uart_putc (c : Z) : SM unit :=
  b ← cm uart_debug_mode; if b : bool then _uart_char_put c else _uart_char_put_nothing c.

(** ** eeprom *)
Definition H_EEPROM_CTRL : Z := 0x401c.
Definition B_EEP_CTRL_NOT_PRESENT : Z := 0x100.
Definition B_EEP_CTRL_CORRUPT : Z := 0x200.
Definition H_EEPROM_STS_DATA : Z := 0x407c.
Definition B_EEP_STS_STATE_BUSY : Z := 0x10000.
Definition B_EEP_STS_IS_BUSY : Z := 0x20000.
Definition B_EEP_STS_PROTECTED : Z := 0x40000.
Definition B_EEP_STS_DATA_NOT_EXIST : Z := 0x80000.
(** Poll until the EEPROM is idle. *)
Fixpoint eep_poll (k : nat) : SM Z :=
  match k with
  | O => fail OutOfFuel
  | S k =>
    d ← HAL_WORD_REG_READ (EEPROM_CTRL_BASE + H_EEPROM_STS_DATA);
    if d .& (B_EEP_STS_STATE_BUSY .| B_EEP_STS_IS_BUSY) =? 0 then mret d else eep_poll k
  end.
Definition cmnos_eeprom_write_hword (offset data : Z) : SM bool :=
  v ← HAL_WORD_REG_READ (EEPROM_CTRL_BASE + 0x4054);
  HAL_WORD_REG_WRITE (EEPROM_CTRL_BASE + 0x4054) (v .| 0x20000) ;;
  HAL_WORD_REG_WRITE (EEPROM_CTRL_BASE + 0x4060) 0 ;;
  HAL_WORD_REG_WRITE (EEPROM_CTRL_BASE + 0x4064) 0 ;;
  HAL_WORD_REG_WRITE (EEPROM_CTRL_BASE + 0x404c) 0xc0 ;;
  HAL_WORD_REG_WRITE (EEPROM_CTRL_BASE + 0x4048) 0x0 ;;
  HAL_WORD_REG_WRITE (EEPROM_ADDR_BASE + offset * 4) data ;;
  eep_poll n ;; mret true.
Definition cmnos_eeprom_read_hword (offset : Z) : SM Z :=
  HAL_WORD_REG_READ (EEPROM_ADDR_BASE + offset * 4) ;;
  mStsData ← eep_poll n;
  mret (mStsData .& 0xffff).
Definition cmnos_eep_is_exist : SM T_EEP_RET :=
  st ← cm eep_state; ex ← cm eep_exist;
  if negb st then mret RET_NOT_INIT
  else if ex : bool then mret RET_SUCCESS
  else
    d ← HAL_WORD_REG_READ (EEPROM_CTRL_BASE + H_EEPROM_CTRL);
    let mData := u16 d in
    if tst mData B_EEP_CTRL_NOT_PRESENT then mret RET_NOT_EXIST
    else if tst mData B_EEP_CTRL_CORRUPT then mret RET_EEP_CORRUPT
    else upd_cm (λ c, c <| eep_exist := true |>) ;; mret RET_SUCCESS.
Definition eep_overflow (offset len : Z) : bool :=
  (offset <? EEPROM_START_OFFSET) || (offset >? EEPROM_END_OFFSET) || (offset + len >? EEPROM_END_OFFSET).
(** Half words are big-endian in memory; [junk] is the uninitialised result. *)
Definition cmnos_eep_write (junk : T_EEP_RET) (offset len pBuf : Z) : SM T_EEP_RET :=
  st ← cm eep_state;
  if negb st then mret RET_NOT_INIT
  else if eep_overflow offset len then mret RET_EEP_OVERFLOW
  else
    for_each (seqZ 0 len) (λ j,
      m ← svc_mem;
      cmnos_eeprom_write_hword (offset + j) (be_word (mem_get m (pBuf + 2 * j) 2)) ;; mret tt) ;;
    mret (if len >? 0 then RET_SUCCESS else junk).
Definition cmnos_eep_read (offset len pBuf : Z) : SM T_EEP_RET :=
  st ← cm eep_state;
  if negb st then mret RET_NOT_INIT
  else if eep_overflow offset len then mret RET_EEP_OVERFLOW
  else
    for_each (seqZ 0 len) (λ j,
      d ← cmnos_eeprom_read_hword (offset + j);
      svc_set (pBuf + 2 * j) [u8 (d .>> 8); u8 d]) ;;
    mret RET_SUCCESS.
Definition io_or (addr v : Z) : SM unit := w ← HAL_WORD_REG_READ addr; HAL_WORD_REG_WRITE addr (w .| v).
Definition io_andn (addr v : Z) : SM unit := w ← HAL_WORD_REG_READ addr; HAL_WORD_REG_WRITE addr (w .&~ v).
Definition PCIE_RC_ACCESS_DELAY : Z := 20.
Definition PCI_RC_RESET_BITS : Z := 0x400 .| 0x100 .| 0x80 .| 0x40.
(** Waits for the link: the counter, which is at 0 when the link came up at the last poll, and
    at -1 when it never did. *)
Fixpoint eep_link (k : nat) (i : Z) : SM Z :=
  match k with
  | O => mret (i - 1)
  | S k =>
    reg_value ← HAL_WORD_REG_READ 0x00040018;
    if tst reg_value 1 then mret (i - 1) else A_DELAY_USECS PCIE_RC_ACCESS_DELAY ;; eep_link k (i - 1)
  end.
Fixpoint eep_probe (k : nat) : SM unit :=
  match k with
  | O => fail OutOfFuel
  | S k =>
    mStsData ← HAL_WORD_REG_READ (EEPROM_CTRL_BASE + H_EEPROM_STS_DATA);
    if tst mStsData (B_EEP_STS_PROTECTED .| B_EEP_STS_DATA_NOT_EXIST) then upd_cm (λ c, c <| eep_state := false |>)
    else if mStsData .& (B_EEP_STS_STATE_BUSY .| B_EEP_STS_IS_BUSY) =? 0 then
      when (tst mStsData 0xffff) (cmnos_eeprom_write_hword 1 0 ;; mret tt)
    else A_DELAY_USECS 100 ;; eep_probe k
  end.
Definition cmnos_eep_init : SM unit :=
  st ← cm eep_state;
  up ← (if negb st then
    io_or MAGPIE_REG_RST_RESET_ADDR PCI_RC_RESET_BITS ;; A_DELAY_USECS PCIE_RC_ACCESS_DELAY ;;
    io_andn MAGPIE_REG_RST_RESET_ADDR PCI_RC_RESET_BITS ;; A_DELAY_USECS 500 ;;
    io_or MAGPIE_REG_AHB_ARB_ADDR 0x2 ;; A_DELAY_USECS PCIE_RC_ACCESS_DELAY ;;
    io_andn 0x00040018 (1 .<< 2) ;;
    io_or 0x00020004 (2 .| 4) ;; A_DELAY_USECS PCIE_RC_ACCESS_DELAY ;;
    io_or 0x00040018 (1 .<< 2) ;; A_DELAY_USECS PCIE_RC_ACCESS_DELAY ;;
    io_or 0x00040000 0xffc1 ;;
    i ← eep_link (Z.to_nat 10000) 10000;
    if i <=? 0 then mret false
    else
      io_or 0x14000004 0x116 ;; A_DELAY_USECS PCIE_RC_ACCESS_DELAY ;;
      io_or 0x14000010 EEPROM_CTRL_BASE ;;
      upd_cm (λ c, c <| eep_state := true |>) ;; mret true
  else mret true);
  when up (HAL_WORD_REG_READ (EEPROM_ADDR_BASE + 4) ;; eep_probe n).

(** ** rompatch

    A patch: a checksum, the length of the code, where it goes, its entry, and the code. *)
Definition sizeof_rom_patch_st : Z := 16.
Definition rd_patch_field (f : gmap Z Z → Z → Z) (a : Z) : SM Z := m ← svc_mem; mret (f m a).
Definition patch_len (patch : Z) : SM Z := rd_patch_field (λ m a, be_word (mem_get m a 2)) (patch + 2).
Definition copy_byte (dst src : Z) : SM unit := m ← svc_mem; svc_set (u32 dst) [mem_rd m (u32 src)].
(** The bytes of each word are turned around on the way. [i] is 16 bits wide, the length is read
    again in every turn. *)
Fixpoint patch_copy (fuel : nat) (patch i buf addr : Z) : SM unit :=
  len ← patch_len patch;
  if i <? len then
    match fuel with
    | O => fail OutOfFuel
    | S k =>
      copy_byte (addr + (i + 3)) (buf + i) ;;
      copy_byte (addr + (i + 2)) (buf + (i + 1)) ;;
      copy_byte (addr + (i + 1)) (buf + (i + 2)) ;;
      copy_byte (addr + i) (buf + (i + 3)) ;;
      patch_copy k patch (u16 (i + 4)) buf addr
    end
  else mret tt.
Definition _read_rom_patch (patch : Z) : SM bool :=
  let buf := u32 (patch + (sizeof_rom_patch_st - 4)) in
  addr ← rd_patch_field mem_rd32 (patch + 4);
  if (addr <? SYS_D_RAM_REGION_0_BASE) || (addr >=? SYS_D_RAM_REGION_0_BASE + SYS_RAM_SZIE) then mret false
  else patch_copy n patch 0 buf addr ;; mret true.
Definition patch_checksum (m : gmap Z Z) (addr size : Z) : Z :=
  foldl Z.lxor 0 (map (λ i, mem_rd32 m (addr + 4 * i)) (seqZ 0 (size / 2))).
Definition cmnos_romp_decode (addr : Z) : SM bool :=
  '(_, size) ← cm patch_addr;
  m ← svc_mem;
  if negb (patch_checksum m addr size =? 0) then mret false
  else
    func_addr ← rd_patch_field mem_rd32 (addr + 8);
    ok ← _read_rom_patch addr;
    if ok : bool then upd_cm (λ c, c <| patch_start := func_addr |>) ;; mret true else mret false.
(** [run] stands for the call of the code at an address. *)
Context (run : Z → SM unit).
Definition cmnos_romp_install : SM unit := p ← cm patch_start; run p.
(** The two half words at [offset], read to [stack]. *)
Definition cmnos_romp_download (stack offset : Z) : SM bool :=
  r ← cmnos_eep_read offset 2 stack;
  if negb (bool_decide (r = RET_SUCCESS)) then mret false
  else
    m ← svc_mem;
    let o := be_word (mem_get m stack 2) in
    let size := be_word (mem_get m (stack + 2) 2) in
    upd_cm (λ c, c <| patch_addr := (o, size) |>) ;;
    if (size =? 0) || (o <? EEPROM_START_OFFSET) || (o >? EEPROM_END_OFFSET) || (o + size >? EEPROM_END_OFFSET) then mret false
    else
      cmnos_eep_read o size ROM_PATCH_BUF_ADDR ;;
      ok ← cmnos_romp_decode ROM_PATCH_BUF_ADDR;
      if ok : bool then cmnos_romp_install ;; mret true else mret false.

(** ** intr *)
Definition XTENSA_PS_INTLEVEL_MASK : Z := 0xf.
Definition athos_block_all_intrlvl : SM Z := tmp ← dev_get (rsil 2); mret (tmp .& XTENSA_PS_INTLEVEL_MASK).
Definition athos_unblock_all_intrlvl : SM unit := dev_get (rsil 0) ;; mret tt.
Definition athos_restore_intrlvl (old_intr : Z) : SM unit := when (old_intr =? 0) athos_unblock_all_intrlvl.
(** [dummy]: the address of [cmnos_intr_dummy]. *)
Definition cmnos_intr_init (dummy : Z) : SM unit :=
  upd_cm (λ c, c <| cmnos_enabled_interrupts := 0 |> <| cmnos_isr_info ::= map (λ i, (dummy, i.2)) |>) ;;
  dev_set (xthal_set_intenable 0).
Definition change_intenable (f : Z → Z) : SM unit :=
  old_intr ← athos_block_all_intrlvl;
  oldval ← dev_get xthal_get_intenable;
  upd_cm (λ c, c <| cmnos_enabled_interrupts ::= f |>) ;;
  dev_set (xthal_set_intenable (f oldval)) ;;
  athos_restore_intrlvl old_intr.
Definition cmnos_intr_mask_inum (inum : Z) : SM unit := change_intenable (λ v, v .&~ u32 (1 .<< inum)).
Definition cmnos_intr_unmask_inum (inum : Z) : SM unit := change_intenable (λ v, v .| u32 (1 .<< inum)).
Definition cmnos_intr_attach_isr (inum : nat) (isr arg : Z) : SM unit :=
  assert_ (inum <? NUM_DIRECT_INTR)%nat ;;
  assert_ (negb (isr =? 0)) ;;
  old_intr ← athos_block_all_intrlvl;
  upd_cm (λ c, c <| cmnos_isr_info ::= <[inum := (isr, arg)]> |>) ;;
  athos_restore_intrlvl old_intr.
(** [isr_call] stands for the routine at an address. *)
Definition cmnos_intr_invoke_isr (isr_call : Z → Z → SM Z) (inum : nat) : SM Z :=
  assert_ (inum <? NUM_DIRECT_INTR)%nat ;;
  l ← cm cmnos_isr_info;
  '(isr, arg) ← in_range (l !! inum);
  assert_ (negb (isr =? 0)) ;;
  isr_call isr arg.

(** ** misc *)
Definition cmnos_system_reset : SM unit := HAL_WORD_REG_WRITE MAGPIE_REG_RST_RESET_ADDR (1 .<< 24).
End services.
