(* ===== verification/Dbg.v ===== *)
(** * The debug console (target/cmnos/dbg_api.c, dbg_api.h)

    A line editor with a history over the UART, and commands that read and write registers and
    memory, the flash, the watchdog and the clock. What is printed, and the calls of functions
    that only print or belong to other parts, are recorded in order. *)

From Stdlib Require Import Ascii String.
From S2P Require Import Prelude.
From S2P Require Import Hif.
From S2P Require Import Printf.
From S2P Require Import Cmnos.
From S2P Require Import Sflash.

Definition DB_MAX_COMMAND_LENGTH : Z := 40.
Definition COMMAND_BUFFER_SIZE : Z := 6.
Definition CMNOS_IMASK_XTTIMER : Z := 1 .<< 1.
Definition SPI_FLASH_MAX_SIZE : Z := 0x01000000.

Inductive print_arg := PNum (v : Z) | PStr (s : list Z).
Inductive dbg_event := Print (fmt : string) (args : list print_arg) | DescTraceDump | AllocramDebug | HtcReady.
Definition crlf : string := String "010" (String "013" EmptyString).
Definition lf : string := String "010" EmptyString.

(** The variables of the console and what it has put out. *)
Record dbg := mk_dbg {
  cmd_buffer : list (list Z); cmd_buf_ptr : Z; cmd_buf_full : bool; raw_cmd : list Z; cmd_str : list Z;
  cmd_not_found : bool; gvLen : Z; pressed_time : Z; delay : Z; dbg_out : list dbg_event }.
#[export] Instance eta_dbg : EtaExp dbg := λ d,
  mk_dbg (cmd_buffer d) (cmd_buf_ptr d) (cmd_buf_full d) (raw_cmd d) (cmd_str d) (cmd_not_found d) (gvLen d) (pressed_time d) (delay d) (dbg_out d).

(** The string at the start of an array. *)
Fixpoint c_str (l : list Z) : list Z := match l with [] => [] | c :: l => if c =? 0 then [] else c :: c_str l end.

(** ** Numbers *)
(** The value of a digit of base 16. *)
Definition hex_digit (c : Z) : option Z :=
  if (ch "0" <=? c) && (c <=? ch "9") then Some (c - ch "0")
  else if (ch "A" <=? c) && (c <=? ch "F") then Some (c - ch "A" + 10)
  else if (ch "a" <=? c) && (c <=? ch "f") then Some (c - ch "a" + 10)
  else None.
(** The number so far, and whether all characters were digits. *)
Fixpoint hex_loop (l : list Z) (hex_num : Z) : Z * bool :=
  match l with
  | [] => (hex_num, true)
  | c :: l => match hex_digit c with Some d => hex_loop l (u32 (u32 (hex_num .<< 4) + d)) | None => (hex_num, false) end
  end.
Definition db_ascii_to_hex (num_str : list Z) : Z * bool := hex_loop num_str 0.
Fixpoint int_loop (l : list Z) (int_num : Z) : Z * bool :=
  match l with
  | [] => (int_num, true)
  | c :: l => if is_digit c then int_loop l (u32 (u32 (int_num * 10) + (c - ch "0"))) else (int_num, false)
  end.
Definition db_ascii_to_int (num_str : list Z) : Z * bool := int_loop num_str 0.
Definition db_hex_to_ascii (hex_num : Z) : list Z :=
  map (λ i, let four_bits := (hex_num .>> (i * 4)) .& 0xf in
            if four_bits <? 10 then four_bits + ch "0" else four_bits - 10 + ch "A") (rev (seqZ 0 8)).

Section console.
Context {HW : Type} `{!DevIo HW} `{!CpuIo HW}.
Abbreviation SM := (M (svc HW (cmnos dbg))).

Definition db {A} (f : dbg → A) : SM A := cm (λ c, f (cm_up c)).
Definition upd_db (f : dbg → dbg) : SM unit := upd_cm (λ c, c <| cm_up ::= f |>).
Definition note (e : dbg_event) : SM unit := upd_db (λ d, d <| dbg_out ::= λ l, (l ++ [e])%list |>).
Definition A_PRINTF (fmt : string) (args : list print_arg) : SM unit := note (Print fmt args).
Definition index {A} (l : list A) (i : Z) : SM A := if i <? 0 then fail OutOfRange else in_range (l !! Z.to_nat i).
Definition put_index {A} (l : list A) (i : Z) (v : A) : SM (list A) :=
  if (0 <=? i) && (i <? Z.of_nat (length l)) then mret (<[Z.to_nat i := v]> l) else fail OutOfRange.
(** A string read from an array, which must hold its end; a string written to one. *)
Definition get_str (l : list Z) : SM (list Z) := if existsb (Z.eqb 0) l then mret (c_str l) else fail OutOfRange.
Definition A_STRCPY (row s : list Z) : SM (list Z) :=
  if (length s <? length row)%nat then mret (s ++ 0 :: drop (S (length s)) row)%list else fail OutOfRange.
Definition set_raw (i v : Z) : SM unit := l ← db raw_cmd; l ← put_index l i v; upd_db (λ d, d <| raw_cmd := l |>).
Definition set_cmd_str (i v : Z) : SM unit := l ← db cmd_str; l ← put_index l i v; upd_db (λ d, d <| cmd_str := l |>).

(** ** The line editor *)
Definition last_command : SM unit :=
  upd_db (λ d, d <| pressed_time ::= λ t, t + 1 |>) ;;
  t ← db pressed_time;
  when (t >=? COMMAND_BUFFER_SIZE) (upd_db (λ d, d <| pressed_time ::= λ t, t - 1 |>)) ;;
  d ← db id;
  let cmd_buf_loc := cmd_buf_ptr d - pressed_time d in
  let cmd_buf_loc :=
    if cmd_buf_loc <? 0 then (if cmd_buf_full d then cmd_buf_loc + COMMAND_BUFFER_SIZE else 0) else cmd_buf_loc in
  row ← index (cmd_buffer d) cmd_buf_loc;
  s ← get_str row;
  unless (length s =? 0)%nat (
    line ← A_STRCPY (raw_cmd d) s;
    upd_db (λ d, d <| raw_cmd := line |> <| gvLen := Z.of_nat (length s) |>) ;;
    A_PRINTF (String "013" ">") [] ;;
    A_PRINTF "%s" [PStr s]).
Definition keep_command : SM unit :=
  d ← db id;
  prev ← index (cmd_buffer d) (if cmd_buf_ptr d =? 0 then COMMAND_BUFFER_SIZE - 1 else cmd_buf_ptr d - 1);
  prev ← get_str prev;
  line ← get_str (raw_cmd d);
  unless (bool_decide (prev = line)) (
    row ← index (cmd_buffer d) (cmd_buf_ptr d);
    row ← A_STRCPY row line;
    rows ← put_index (cmd_buffer d) (cmd_buf_ptr d) row;
    upd_db (λ d, d <| cmd_buffer := rows |> <| cmd_buf_ptr ::= λ p, p + 1 |>)).
Definition end_of_line : SM unit :=
  upd_db (λ d, d <| pressed_time := 0 |>) ;;
  i ← db gvLen;
  set_raw i 0 ;;
  A_PRINTF crlf [] ;;
  unless (i =? 0) keep_command ;;
  p ← db cmd_buf_ptr;
  when (p >=? COMMAND_BUFFER_SIZE) (upd_db (λ d, d <| cmd_buf_ptr := 0 |> <| cmd_buf_full := true |>)).
Definition backspace : SM unit :=
  upd_db (λ d, d <| pressed_time := 0 |>) ;;
  i ← db gvLen;
  when (i >? 0) (
    upd_db (λ d, d <| gvLen := i - 1 |>) ;;
    A_PRINTF (String "008" (String " " (String "008" EmptyString))) []).
Definition type_char (c : Z) : SM unit :=
  upd_db (λ d, d <| pressed_time := 0 |>) ;;
  i ← db gvLen;
  when (i <? DB_MAX_COMMAND_LENGTH - 2) (
    when ((c >=? 0x11) && (c <=? 0x7e)) (
      set_raw i c ;;
      upd_db (λ d, d <| gvLen := i + 1 |>) ;;
      A_PRINTF "%c" [PNum c])).
(** Whether a line is complete. *)
Definition db_get_cmd_line (c : Z) : SM bool :=
  if c =? ch "\" then last_command ;; mret false
  else if c =? 13 then end_of_line ;; mret true
  else if c =? 8 then backspace ;; mret false
  else if c =? 0 then mret false
  else if (c >=? ch " ") && (c <=? ch "~") then type_char c ;; mret false
  else A_PRINTF "%c" [PNum 7] ;; mret false.

Definition raw_at (i : Z) : SM Z := l ← db raw_cmd; index l i.
Fixpoint skip_blanks (fuel : nat) (i : Z) : SM Z :=
  match fuel with
  | O => fail OutOfFuel
  | S n => c ← raw_at i; if c =? ch " " then skip_blanks n (i + 1) else mret i
  end.
(** The word at [i], to the row [k]; where it ends, and its length. The first is put in
    capitals, in the line as well. *)
Fixpoint copy_word (fuel : nat) (k i j : Z) : SM (Z * Z) :=
  match fuel with
  | O => fail OutOfFuel
  | S n =>
    c ← raw_at i;
    if (c =? 0) || (c =? ch " ") then mret (i, j)
    else
      when ((k =? 0) && (c <=? ch "z") && (c >=? ch "a")) (set_raw i (c - (ch "a" - ch "A"))) ;;
      c ← raw_at i;
      set_cmd_str (k * DB_MAX_COMMAND_LENGTH + j) c ;;
      copy_word n k (i + 1) (j + 1)
  end.
Definition one_word (k i : Z) : SM Z :=
  l ← db raw_cmd;
  i ← skip_blanks (S (length l)) i;
  '(i, j) ← copy_word (S (length l)) k i 0;
  set_cmd_str (k * DB_MAX_COMMAND_LENGTH + j) 0 ;;
  mret i.
Definition cmd_word (k : Z) : SM (list Z) := l ← db cmd_str; get_str (drop (Z.to_nat (k * DB_MAX_COMMAND_LENGTH)) l).
Definition db_formalize_command : SM Z :=
  i ← one_word 0 0; i ← one_word 1 i; i ← one_word 2 i; one_word 3 i ;;
  w ← cmd_word 0;
  mret (Z.of_nat (length w)).

(** ** Commands

    A command gets its name and three words; what it returns, if it does, is not used. *)
Definition db_func : Type := list Z → list Z → list Z → list Z → SM (option Z).
Definition is_str (s : list Z) (t : string) : bool := bool_decide (s = chars t).
Definition db_incorect_format : SM (option Z) := A_PRINTF ("Error! Incorrect format." ++ crlf) [] ;; mret (Some (-1)).
Definition db_unknown_command : SM (option Z) := A_PRINTF ("Error! Unknown command." ++ crlf) [] ;; mret (Some (-1)).

Definition show_result (addr val : Z) : SM (option Z) :=
  A_PRINTF ("%s : %s" ++ crlf) [PStr (db_hex_to_ascii addr); PStr (db_hex_to_ascii val)] ;; mret (Some 0).
Definition db_ldr_cmd : db_func := λ cmd param1 param2 param3,
  let '(addr, ok) := db_ascii_to_hex param1 in
  if ok then
    if addr =? 0 then A_PRINTF ("Error! bad address 0x%08x." ++ crlf) [PNum addr] ;; mret (Some (-1))
    else if is_str cmd "LDR" then
      let addr := addr .& 0xfffffffc in val ← ioread32 addr; show_result addr val
    else if is_str cmd "LDRH" then
      let addr := addr .& 0xfffffffe in val ← ioread16 addr; show_result addr val
    else show_result addr 0
  else db_incorect_format.
Definition db_str_cmd : db_func := λ cmd param1 param2 param3,
  let '(addr, ok1) := db_ascii_to_hex param1 in
  let '(val, ok2) := db_ascii_to_hex param2 in
  if (0 <? length param2)%nat && ok1 && ok2 then
    if is_str cmd "STR" then
      let addr := addr .& 0xfffffffc in iowrite32 addr val ;; show_result addr val
    else if is_str cmd "STRH" then
      let addr := addr .& 0xfffffffe in iowrite16 addr val ;; show_result addr val
    else if is_str cmd "STRB" then
      iowrite8 (if tst addr 0x00f00000 then addr else Z.lxor addr 3) val ;; show_result addr val
    else show_result addr val
  else db_incorect_format.

Definition set_timer_mask (f : Z → Z) : SM unit :=
  v ← dev_get xthal_get_intenable;
  dev_set (xthal_set_intenable (f v)) ;;
  A_PRINTF ("- intr [0x%08x]" ++ crlf) [PNum (f v)].
Definition db_intr_cmd : db_func := λ cmd param1 param2 param3,
  (if is_str param1 "read" then
     pending_intrs ← dev_get xthal_get_interrupt;
     mask ← dev_get xthal_get_intenable;
     A_PRINTF ("intr mask [0x%08x]" ++ crlf) [PNum mask] ;;
     A_PRINTF ("intr on [0x%08x]" ++ crlf) [PNum pending_intrs]
   else if is_str param1 "timer" then
     if is_str param2 "on" then set_timer_mask (λ v, v .| CMNOS_IMASK_XTTIMER)
     else if is_str param2 "off" then set_timer_mask (λ v, v .&~ CMNOS_IMASK_XTTIMER)
     else
       let '(data, ok) := db_ascii_to_hex param2 in
       when ok (
         upd_db (λ d, d <| delay := if data <=? 10 then data else 3 |>) ;;
         t ← db delay;
         A_PRINTF ("==>set cb to %d seconds " ++ crlf) [PNum t])
   else
     A_PRINTF (String "009" ("intr read - read the interrenable status" ++ crlf)) [] ;;
     A_PRINTF (String "009" ("intr timer on/off/tick - timer attach on/off/ticks" ++ crlf)) []) ;;
  mret (Some 0).
Definition db_usb_cmd : db_func := λ cmd param1 param2 param3,
  A_PRINTF ("THIS IS USB COMMAND" ++ crlf) [] ;;
  (if is_str param1 "que" then note DescTraceDump
   else
     A_PRINTF (String "009" ("usb que - dump descriptor queue" ++ crlf)) [] ;;
     A_PRINTF (String "009" ("usb fw on/off - enable/disable write fw download to ram" ++ crlf)) []) ;;
  mret (Some 0).
Definition clk_sel_of (clk : Z) : Z :=
  if clk =? 22 then 0 else if clk =? 88 then 1 else if clk =? 44 then 2 else if clk =? 117 then 4 else 6.
Definition clk_change (clk ratio baud : Z) : SM unit :=
  iowrite32 0x50040 (0x300 .| clk_sel_of clk .| ((ratio .>> 1) .<< 12)) ;;
  if ratio =? 0 then fail DivByZero else _uart_hwinit (u32 (clk * 1000 * 1000) / ratio) baud.
Definition db_clock_cmd : db_func := λ cmd param1 param2 param3,
  let '(clk, ok) := db_ascii_to_int param1 in
  when ok (A_PRINTF ("changing clock to %d" ++ lf) [PNum clk] ;; clk_change clk 1 19200) ;;
  mret None.
Definition db_info_cmd : db_func := λ cmd param1 param2 param3,
  note (if is_str param1 "ram" then AllocramDebug else DescTraceDump) ;; mret (Some 1).
Definition db_cmd_starthtc : db_func := λ cmd param1 param2 param3, note HtcReady ;; mret None.

(** Of the number given for the time there is always something: the digits before the first
    character that is none. *)
Definition wdt_timeout_of (param : list Z) : SM unit :=
  A_PRINTF " doing the wdt reseting..." [] ;;
  let time_offset := (db_ascii_to_hex param).1 in
  A_PRINTF (" (wdt tick: 0x%08x..." ++ lf ++ crlf) [PNum time_offset] ;;
  cmnos_wdt_set (WDT_TIMEOUT time_offset).
Definition usb8 (a : Z) : Z := USB_CTRL_BASE_ADDRESS .| Z.lxor a 3.
Definition wdt_event : SM unit :=
  v ← ioread8 (usb8 0x17); iowrite8 (usb8 0x17) (v .| 0xc0) ;;
  iowrite32 (USB_CTRL_BASE_ADDRESS .| 0x100) 0x0f ;;
  iowrite32 (USB_CTRL_BASE_ADDRESS .| 0xF8) 0x00123400 ;;
  v ← ioread8 (usb8 0xAE); iowrite8 (usb8 0xAE) (v .| 0x08) ;;
  v ← ioread8 (usb8 0x17); iowrite8 (usb8 0x17) (v .& 0xbf).
Definition db_wdt_cmd : db_func := λ cmd param1 param2 param3,
  (if is_str param1 "rst" then A_PRINTF (" reseting..." ++ lf ++ crlf) [] ;; cmnos_wdt_reset
   else if is_str param1 "on" then cmnos_wdt_enable
   else if is_str param1 "off" then cmnos_wdt_disable
   else if is_str param1 "boot" then
     A_PRINTF "Last BOOT is " [] ;;
     b ← cmnos_wdt_last_boot;
     A_PRINTF (match b with ENUM_WDT_BOOT => "wdt" | _ => "normal boot" end) []
   else if is_str param1 "loop" then wdt_timeout_of param2 ;; wait_for_reset
   else if is_str param1 "noloop" then wdt_timeout_of param3
   else when (is_str param1 "event") wdt_event) ;;
  mret None.

(** *** Memory *)
(** [n]: how many turns a loop takes; [memcmp] of the C library. *)
Context (n : nat) (memcmp : list Z → list Z → Z).
Definition dump_char (a : Z) : SM unit :=
  m ← svc_mem;
  let c := mem_rd m a in
  if (c >? 0x20) && (c <? 0x7e) then A_PRINTF "%c" [PNum c] else A_PRINTF "." [].
Fixpoint dump_loop (fuel : nat) (i mem1 tmp mem2 : Z) : SM unit :=
  match fuel with
  | O => fail OutOfFuel
  | S k =>
    when (i =? 0) (A_PRINTF (crlf ++ "%06x: ") [PNum mem1]) ;;
    let tmp := if i =? 0 then mem1 else tmp in
    m ← svc_mem;
    A_PRINTF "%04x " [PNum (be_word (mem_get m mem1 2))] ;;
    let mem1 := u32 (mem1 + 2) in
    let i := i + 1 in
    when (i =? 8) (A_PRINTF " " [] ;; for_each (seqZ tmp (Z.max 1 (mem1 - tmp))) dump_char) ;;
    let i := if i =? 8 then 0 else i in
    if mem1 <? mem2 then dump_loop k i mem1 tmp mem2 else mret tt
  end.
Definition db_print_dump (mem1 mem2 : Z) : SM unit := dump_loop n 0 mem1 0 mem2 ;; A_PRINTF crlf [].
Definition db_cmd_memcmp : db_func := λ cmd param1 param2 param3,
  let '(addr1, ok1) := db_ascii_to_hex param1 in
  let '(addr2, ok2) := db_ascii_to_hex param2 in
  let '(len, ok3) := db_ascii_to_hex param3 in
  if ok1 && ok2 && ok3 && negb (addr1 =? addr2) && (addr1 mod 4 =? 0) && (addr2 mod 4 =? 0) && (len mod 4 =? 0) then
    m ← svc_mem;
    A_PRINTF ("memcmp(buf1, buf2, len) = %d" ++ crlf) [PNum (memcmp (mem_get m addr1 (Z.to_nat len)) (mem_get m addr2 (Z.to_nat len)))] ;;
    mret (Some 0)
  else db_incorect_format.
Definition db_cmd_memdump : db_func := λ cmd param1 param2 param3,
  let '(addr1, ok1) := db_ascii_to_hex param1 in
  let '(addr2, ok2) := db_ascii_to_hex param2 in
  if ok1 && ok2 && (addr1 <? addr2) && (addr1 mod 4 =? 0) then db_print_dump addr1 addr2 ;; mret (Some 0)
  else db_incorect_format.

(** *** The serial flash

    [junk]: what uninitialised words hold; [stack]: where the local word is. *)
Context (junk stack : Z).
Definition db_cmd_sferase : db_func := λ cmd param1 param2 param3,
  let '(addr, ok) := db_ascii_to_hex param2 in
  let ok := ok && (addr <? SPI_FLASH_MAX_SIZE) in
  if is_str param1 "s" then
    if ok then A_PRINTF ("Sector addr : 0x%08X" ++ crlf) [PNum (addr - addr mod 0x1000)] ;; cmnos_sflash_erase n ZM_SFLASH_SECTOR_ERASE addr ;; mret (Some 0)
    else db_incorect_format
  else if is_str param2 "b" then
    if ok then A_PRINTF ("Block addr : 0x%08X" ++ crlf) [PNum (addr - addr mod 0x10000)] ;; cmnos_sflash_erase n ZM_SFLASH_BLOCK_ERASE addr ;; mret (Some 0)
    else db_incorect_format
  else if is_str param1 "c" then cmnos_sflash_erase n ZM_SFLASH_CHIP_ERASE junk ;; A_PRINTF crlf [] ;; mret (Some 0)
  else db_unknown_command.
Definition db_cmd_sfpg : db_func := λ cmd param1 param2 param3,
  let '(addr, ok1) := db_ascii_to_hex param1 in
  let '(len, ok2) := db_ascii_to_hex param2 in
  let '(buf, ok3) := db_ascii_to_hex param3 in
  if ok1 && ok2 && ok3 && (u32 (addr + len) <=? SPI_FLASH_MAX_SIZE) && (addr mod 4 =? 0) && (len mod 4 =? 0) && (buf mod 4 =? 0)
     && ((buf >=? 0x500000) && (buf <? 0x528000) || (buf >=? 0x4e0000) && (buf <? 0x4e6000)) then
    cmnos_sflash_program n junk addr len buf ;; A_PRINTF crlf [] ;; mret (Some 0)
  else db_incorect_format.
(** The rate and the range of a reading command. *)
Definition sf_range (param1 param2 param3 : list Z) (k : Z → Z → Z → SM unit) : SM (option Z) :=
  if is_str param1 "r" || is_str param1 "f" then
    let '(addr1, ok1) := db_ascii_to_hex param2 in
    let '(addr2, ok2) := db_ascii_to_hex param3 in
    if ok1 && ok2 && (addr1 <? addr2) && (addr1 <? SPI_FLASH_MAX_SIZE) && (addr2 <? SPI_FLASH_MAX_SIZE) && (addr1 mod 4 =? 0) then
      k (if is_str param1 "r" then 0 else 1) addr1 ((addr2 - addr1 + 3) / 4) ;; A_PRINTF crlf [] ;; mret (Some 0)
    else db_incorect_format
  else db_unknown_command.
Definition db_cmd_sfru : db_func := λ cmd param1 param2 param3,
  sf_range param1 param2 param3 (λ fast addr1 words,
    A_PRINTF ("addr    data     data     data     data     data     data     data     data" ++ crlf) [] ;;
    A_PRINTF "======  ======== ======== ======== ======== ======== ======== ======== ========" [] ;;
    for_each (seqZ 0 words) (λ i,
      when (i mod 8 =? 0) (A_PRINTF (crlf ++ "%06X  ") [PNum (addr1 + 4 * i)]) ;;
      cmnos_sflash_read n fast (addr1 + 4 * i) 4 stack ;;
      m ← svc_mem;
      A_PRINTF "%08X " [PNum (mem_rd32 m stack)])).
Definition db_cmd_sfrm : db_func := λ cmd param1 param2 param3,
  sf_range param1 param2 param3 (λ fast addr1 words,
    for_each (seqZ 0 words) (λ i, cmnos_sflash_read n fast (addr1 + 4 * i) 4 (0x520000 + i * 4))).
Definition db_cmd_sfrdsr : db_func := λ cmd param1 param2 param3,
  v ← cmnos_sflash_rdsr n; A_PRINTF ("0x%02X" ++ crlf) [PNum v] ;; mret (Some 0).

(** ** The table

    [sflash]: whether the commands for the flash are compiled. *)
Context (sflash : bool).
Definition ATH_VERSION_STR : string := "[D.0.0.0.3]".
Definition command_help : list (string * string) :=
  [("HELP", ", List all debug commands"); ("?", ", Equal to HELP comamnd");
   ("LDR", "<Hex addr>, Load word"); ("LDRH", "<Hex addr>, Load half word"); ("LDRB", "<Hex addr>, Load byte");
   ("STR", "<Hex addr> <Hex value>, Store word"); ("STRH", "<Hex addr> <Hex value>, Store half word"); ("STRB", "<Hex addr> <Hex value>, Store byte");
   ("INFO", ", Print debug information"); ("USB", ", usb releated command"); ("INTR", ", intr releated command");
   ("CLOCK", ", change the clock..."); ("HTCR", "Issue HTC ready to host"); ("WDT", ", wdt debug command")]%string
  ++ (if sflash then
    [("SFE", ", S<Hex>/B<Hex>/C, SPI Flash chip erase"); ("SFPG", "<Hex addr> <Hex len> <Hex buf>, SPI Flash program");
     ("SFRU", "f/r <Hex addr> <Hex addr>, SPI Flash fast read/read to UART");
     ("SFRM", "f/r <Hex addr> <Hex addr>, SPI Flash fast read/read to Memory 0x520000"); ("SFRDSR", ", SPI Flash status register read")]%string
   else [])
  ++ [("MEMCMP", "<Hex addr> <Hex addr> <Hex len>, memory comparison"); ("MEMDMP", "<Hex addr> <Hex addr>, memory dump")]%string.
Definition db_help_cmd : db_func := λ cmd param1 param2 param3,
  A_PRINTF ("%s %s" ++ lf) [PStr (chars ("Magpie Debugger: " ++ ATH_VERSION_STR)); PStr (chars (crlf ++ "===Command Listing===" ++ crlf))] ;;
  for_each command_help (λ '(c, h), A_PRINTF ("%s" ++ String "009" "%s" ++ crlf) [PStr (chars c); PStr (chars h)]) ;;
  mret (Some (Z.of_nat (length command_help))).
Definition command_funcs : list db_func :=
  [db_help_cmd; db_help_cmd; db_ldr_cmd; db_ldr_cmd; db_ldr_cmd; db_str_cmd; db_str_cmd; db_str_cmd;
   db_info_cmd; db_usb_cmd; db_intr_cmd; db_clock_cmd; db_cmd_starthtc; db_wdt_cmd]
  ++ (if sflash then [db_cmd_sferase; db_cmd_sfpg; db_cmd_sfru; db_cmd_sfrm; db_cmd_sfrdsr] else [])
  ++ [db_cmd_memcmp; db_cmd_memdump].
Definition command_table : list (list Z * db_func) := zip_with (λ c f, (chars c.1, f)) command_help command_funcs.

(** ** The task *)
Fixpoint find_command (t : list (list Z * db_func)) (name : list Z) : option db_func :=
  match t with
  | [] => None
  | (c, f) :: t => if bool_decide (c = name) then Some f else find_command t name
  end.
Definition run_command : SM unit :=
  upd_db (λ d, d <| gvLen := 0 |>) ;;
  upd_db (λ d, d <| cmd_not_found := true |>) ;;
  name ← cmd_word 0;
  match find_command command_table name with
  | Some f =>
      upd_db (λ d, d <| cmd_not_found := false |>) ;;
      w1 ← cmd_word 1; w2 ← cmd_word 2; w3 ← cmd_word 3;
      f name w1 w2 w3 ;; mret tt
  | None => mret tt
  end ;;
  b ← db cmd_not_found;
  when b (A_PRINTF ("Error, HELP for command list." ++ crlf) []).
Definition zf_debug_init : SM unit :=
  do_while n (c ← _uart_char_get; mret (bool_decide (c ≠ None))) ;;
  upd_db (λ d, d <| cmd_buf_ptr := 0 |> <| cmd_buf_full := false |> <| gvLen := 0 |> <| pressed_time := 0 |>).
Definition zf_debug_task : SM unit :=
  c ← _uart_char_get;
  match c with
  | None => mret tt
  | Some c =>
    b ← db_get_cmd_line c;
    when b (
      l ← db_formalize_command;
      when (truthy l) run_command ;;
      A_PRINTF ">" [])
  end.
End console.
