(* ===== verification/UsbFifo.v ===== *)
(** * The FIFO endpoints: commands in, events out

    target/hif/usb_api_main_patch.c: a command arrives on endpoint 4 in packets of 64 bytes and
    a shorter last one, each announced by an interrupt; an event leaves on endpoint 3 the same
    way. What a call leaves for the next one is in static variables.

    The jump to the boot code does not come back: it is the fault [Rebooted]. *)

From S2P Require Import Prelude.
From S2P Require Import NBuf.
From S2P Require Import Dma.
From S2P Require Import Hif.

Section fifo.
Context {HW C : Type} `{!UsbIo HW} `{!HifClient HW C}.
Abbreviation HM := (M (hif_usb HW C)).

Definition WATCH_DOG_MAGIC_PATTERN_ADDR : Z := 0x53fffc.
Definition _fw_usb_suspend_reboot : HM unit := fail Rebooted.
Definition cold_reboot : HM unit := wr32 WATCH_DOG_MAGIC_PATTERN_ADDR 0 ;; fail Rebooted.

(** A command that starts with four bytes of ones is the host's order to suspend. *)
Definition _fw_usbfifo_recv_command (buf : Z) : HM unit :=
  b ← hfnb (rd_vbuf buf);
  v ← hfnb (rd_vdesc (desc_list b));
  tmp ← rd32 (u32 (buf_addr v + data_offset v));
  if tmp =? 0xFFFFFFFF then _fw_usb_suspend_reboot else usbfifo_recv_command buf.

(** *** Endpoint 4 *)

(** The data of the packet is read and dropped: [n] words, where [n] counts bytes. *)
Definition ep4_drop (n : Z) : HM unit := for_each (seqZ 0 n) (λ _, ioread32_usb ZM_EP4_DATA_OFFSET ;; mret tt).
Definition ep4_word : HM unit :=
  ep4_data ← ioread32_usb ZM_EP4_DATA_OFFSET;
  s ← get;
  wr32 (ro_regaddr s) ep4_data ;;
  modify (λ s, s <| ro_regaddr ::= λ a, u32 (a + 4) |>).
(** A buffer for a new command: whether there is one. *)
Definition ep4_new : HM bool :=
  buf ← usbfifo_get_command_buf;
  modify (λ s, s <| ro_buf := buf |>) ;;
  modify (λ s, s <| ro_cmd_len := 0 |>) ;;
  if buf =? 0 then mret false else
  b ← hfnb (rd_vbuf buf);
  v ← hfnb (rd_vdesc (desc_list b));
  modify (λ s, s <| ro_regaddr := buf_addr v |>) ;;
  modify (λ s, s <| ro_cmd_is_new := false |>) ;;
  mret true.
Definition ep4_last : HM unit :=
  s ← get;
  let buf := ro_buf s in
  b ← hfnb (rd_vbuf buf);
  hfnb (upd_vdesc (desc_list b) (λ v, v <| next_desc := 0 |>)) ;;
  hfnb (upd_vdesc (desc_list b) (λ v, v <| data_offset := 0 |>)) ;;
  hfnb (upd_vdesc (desc_list b) (λ v, v <| data_size := ro_cmd_len s |>)) ;;
  hfnb (upd_vdesc (desc_list b) (λ v, v <| control := 0 |>)) ;;
  hfnb (upd_vbuf buf (λ b, b <| next_buf := 0 |>)) ;;
  hfnb (upd_vbuf buf (λ b, b <| buf_length := ro_cmd_len s |>)) ;;
  _fw_usbfifo_recv_command buf ;;
  modify (λ s, s <| ro_cmd_is_new := true |>).
Definition usb_reg_out_patch : HM unit :=
  usbfifolen ← ioread8_usb ZM_EP4_BYTE_COUNT_LOW_OFFSET;
  when (USB_EP4_MAX_PKT_SIZE <? usbfifolen) cold_reboot ;;
  s ← get;
  ok ← (if ro_cmd_is_new s then ep4_new else mret true);
  if negb ok then ep4_drop usbfifolen else
  s ← get;
  if ro_buf s =? 0 then ep4_drop usbfifolen else
  modify (λ s, s <| ro_cmd_len ::= λ n, u16 (n + usbfifolen) |>) ;;
  s ← get;
  b ← hfnb (rd_vbuf (ro_buf s));
  v ← hfnb (rd_vdesc (desc_list b));
  if buf_size v <? ro_cmd_len s then ep4_drop usbfifolen else
  let words := if negb (usbfifolen mod 4 =? 0) then (usbfifolen .>> 2) + 1 else usbfifolen .>> 2 in
  for_each (seqZ 0 words) (λ _, ep4_word) ;;
  when (usbfifolen <? USB_EP4_MAX_PKT_SIZE) ep4_last.

(** *** Endpoint 3 *)
Definition ep3_word : HM unit :=
  s ← get;
  w ← rd32 (si_regaddr s);
  iowrite32_usb ZM_EP3_DATA_OFFSET w.
(** The next event: whether there is one. *)
Definition ep3_new : HM bool :=
  evntbuf ← usbfifo_get_event_buf;
  modify (λ s, s <| si_evntbuf := evntbuf |>) ;;
  if evntbuf =? 0 then mUSB_STATUS_IN_INT_DISABLE ;; mret false else
  b ← hfnb (rd_vbuf evntbuf);
  v ← hfnb (rd_vdesc (desc_list b));
  modify (λ s, s <| si_regaddr := u32 (buf_addr v + data_offset v) |>) ;;
  modify (λ s, s <| si_buf_len := buf_length b |>) ;;
  modify (λ s, s <| si_cmd_is_new := false |>) ;;
  mret true.
Definition fifo_size_of (remainder : Z) : Z := if remainder =? 3 then 0x7 else if remainder =? 2 then 0x3 else 0x1.
(** [reg_buf_len] bytes into the FIFO, and the packet goes. *)
Definition ep3_packet (reg_buf_len : Z) : HM unit :=
  for_each (seqZ 0 (reg_buf_len .>> 2)) (λ _,
    ep3_word ;; modify (λ s, s <| si_regaddr ::= λ a, u32 (a + 4) |>)) ;;
  let remainder := reg_buf_len mod 4 in
  unless (remainder =? 0)
    (iowrite32_usb ZM_CBUS_FIFO_SIZE_OFFSET (fifo_size_of remainder) ;;
     ep3_word ;;
     iowrite32_usb ZM_CBUS_FIFO_SIZE_OFFSET 0xF) ;;
  mUSB_EP3_XFER_DONE.
Definition usb_status_in_patch : HM unit :=
  s ← get;
  ok ← (if si_cmd_is_new s then ep3_new else mret true);
  if negb ok then mret tt else
  s ← get;
  let more := USB_EP3_MAX_PKT_SIZE <? si_buf_len s in
  let reg_buf_len := if more then USB_EP3_MAX_PKT_SIZE else si_buf_len s in
  when more (modify (λ s, s <| si_buf_len ::= λ n, n - USB_EP3_MAX_PKT_SIZE |>)) ;;
  ep3_packet reg_buf_len ;;
  s ← get;
  when (negb (si_evntbuf s =? 0) && negb more)
    (usbfifo_send_event_done (si_evntbuf s) ;;
     modify (λ s, s <| si_cmd_is_new := true |>)).

(** *** The interrupt: the FIFO part of [_usb_fw_task], and the patched handler of the pipes *)
Definition usb_fw_task_fifo (usb_interrupt_level1 : Z) : HM unit :=
  when (tst usb_interrupt_level1 BIT4)
    (usb_interrupt_level2 ← ioread8_usb ZM_INTR_SOURCE_4_OFFSET;
     when (tst usb_interrupt_level2 BIT6) usb_reg_out_patch) ;;
  when (tst usb_interrupt_level1 BIT6)
    (usb_interrupt_level2 ← ioread8_usb ZM_INTR_SOURCE_6_OFFSET;
     when (tst usb_interrupt_level2 BIT6) usb_status_in_patch).
End fifo.
