(* ===== verification/UsbCfg.v ===== *)
(** * The endpoints of the USB device (usb_fifo.c)

    Each endpoint gets blocks of the device's FIFO memory, a direction, a type and a packet
    size. The source repeats the same statements for each endpoint; here they are one function
    over a list of the endpoints' parameters. Endpoint 6 at full speed comes from
    usb_api_main_patch.c. *)

From S2P Require Import Prelude.
From S2P Require Import Hif.

Section cfg.
Context {HW C : Type} `{!UsbIo HW}.
Abbreviation HM := (M (hif_usb HW C)).

Definition ctl : HM usb_ctl := gets hf_ctl.
Definition upd_ctl (f : usb_ctl → usb_ctl) : HM unit := modify (λ s, s <| hf_ctl ::= f |>).

Definition mUsbEPMap (EPn MAP : Z) : HM unit := iowrite8_usb (u8 (0x30 + (EPn - 1))) MAP.
Definition mUsbFIFOMap (FIFOn MAP : Z) : HM unit := iowrite8_usb (u8 (0x80 + FIFOn)) MAP.
Definition mUsbFIFOConfig (FIFOn cfg : Z) : HM unit := iowrite8_usb (u8 (0x90 + FIFOn)) cfg.
Definition mUsbEPMxPtSzHigh (EPn dir size : Z) : HM unit :=
  iowrite8_usb (u8 (ZM_EP_IN_MAX_SIZE_HIGH_OFFSET + (dir * 0x20 + (EPn .<< 1)))) ((size .>> 8) .& 0xff).
Definition mUsbEPMxPtSzLow (EPn dir size : Z) : HM unit :=
  iowrite8_usb (u8 (ZM_EP_IN_MAX_SIZE_LOW_OFFSET + (dir * 0x20 + (EPn .<< 1)))) (size .& 0xff).
Definition mUsbEPinHighBandSet (EPn dir size : Z) : HM unit :=
  let reg := u8 (ZM_EP_IN_MAX_SIZE_HIGH_OFFSET + (EPn .<< 1)) in
  let reg2 := u8 (((u8 (size .>> 11) + 1) .<< 5) * (1 - dir)) in
  v ← ioread8_usb reg; iowrite8_usb reg (v .&~ (BIT6 .| BIT5)) ;;
  v ← ioread8_usb reg; iowrite8_usb reg (v .| reg2).

(** The parameters of an endpoint (usb_defs.h). [ec_second] tells whether the second FIFO block
    is mapped too. *)
Record ep_cfg := mk_ep_cfg {
  ec_ep : Z; ec_start : Z; ec_second : bool; ec_blksize : Z; ec_blkno : Z; ec_dir : Z; ec_type : Z; ec_max : Z }.
Definition TF_TYPE_BULK : Z := 2.
Definition TF_TYPE_INTERRUPT : Z := 3.
Definition DIRECTION_IN : Z := 0.
Definition DIRECTION_OUT : Z := 1.
Definition FIFO_NO (e : ep_cfg) : Z := ec_blkno e * ec_blksize e.
Definition FIFO_CONFIG (e : ep_cfg) : Z :=
  0x80 .| ((ec_blksize e - 1) .<< 4) .| ((ec_blkno e - 1) .<< 2) .| ec_type e.
Definition FIFO_MAP (e : ep_cfg) : Z := ((1 - ec_dir e) .<< 4) .| ec_ep e.
Definition EP_MAP (e : ep_cfg) : Z := ec_start e .| (ec_start e .<< 4) .| (0xF0 .>> (4 * ec_dir e)).

Definition cfg_ep (e : ep_cfg) : HM unit :=
  mUsbEPMap (ec_ep e) (EP_MAP e) ;;
  mUsbFIFOMap (ec_start e) (FIFO_MAP e) ;;
  when (ec_second e) (mUsbFIFOMap (ec_start e + 1) (FIFO_MAP e)) ;;
  mUsbFIFOConfig (ec_start e) (FIFO_CONFIG e) ;;
  for_each (seqZ (ec_start e + 1) (FIFO_NO e - 1)) (λ i, mUsbFIFOConfig i (FIFO_CONFIG e .&~ BIT7)) ;;
  mUsbEPMxPtSzHigh (ec_ep e) (ec_dir e) (ec_max e .& 0x7ff) ;;
  mUsbEPMxPtSzLow (ec_ep e) (ec_dir e) (ec_max e .& 0x7ff) ;;
  mUsbEPinHighBandSet (ec_ep e) (ec_dir e) (ec_max e).

Definition hs_eps : list ep_cfg := [
  mk_ep_cfg 1 0 true 1 2 DIRECTION_OUT TF_TYPE_BULK 512;
  mk_ep_cfg 2 2 true 1 2 DIRECTION_IN TF_TYPE_BULK 512;
  mk_ep_cfg 3 14 false 1 1 DIRECTION_IN TF_TYPE_INTERRUPT 0x40;
  mk_ep_cfg 4 15 false 1 1 DIRECTION_OUT TF_TYPE_INTERRUPT 0x40;
  mk_ep_cfg 5 4 true 1 2 DIRECTION_OUT TF_TYPE_BULK 512;
  mk_ep_cfg 6 6 true 1 2 DIRECTION_OUT TF_TYPE_BULK 512].
Definition fs_eps : list ep_cfg := [
  mk_ep_cfg 1 0 false 1 2 DIRECTION_OUT TF_TYPE_BULK 64;
  mk_ep_cfg 2 2 false 1 2 DIRECTION_IN TF_TYPE_BULK 64;
  mk_ep_cfg 3 14 false 1 1 DIRECTION_IN TF_TYPE_INTERRUPT 0x40;
  mk_ep_cfg 4 15 false 1 1 DIRECTION_OUT TF_TYPE_BULK 0x40;
  mk_ep_cfg 5 4 false 1 2 DIRECTION_OUT TF_TYPE_BULK 0x40].
Definition fs_ep6 : ep_cfg := mk_ep_cfg 6 6 false 1 2 DIRECTION_OUT TF_TYPE_BULK 0x0040.

(** There is one configuration, with one interface and one setting. *)
Definition only_setting (c : usb_ctl) : bool :=
  (u8UsbConfigValue c =? 1) && (u8UsbInterfaceValue c =? 0) && (u8UsbInterfaceAlternateSetting c =? 0).
Definition vUsbFIFO_EPxCfg_HS : HM unit := c ← ctl; when (only_setting c) (for_each hs_eps cfg_ep).
Definition vUsbFIFO_EPxCfg_FS : HM unit := c ← ctl; when (only_setting c) (for_each fs_eps cfg_ep).
Definition vUSBFIFO_EP6Cfg_FS_patch : HM unit := cfg_ep fs_ep6.
Definition vUsbFIFO_EPxCfg_FS_patch : HM unit := c ← ctl; when (only_setting c) vUSBFIFO_EP6Cfg_FS_patch.

Definition toggle_ep (dir ep : Z) : HM unit :=
  let reg := (if dir =? DIRECTION_IN then ZM_EP_IN_MAX_SIZE_HIGH_OFFSET else ZM_EP_OUT_MAX_SIZE_HIGH_OFFSET) + (ep .<< 1) in
  v ← ioread8_usb reg; iowrite8_usb reg (v .| BIT4) ;;
  v ← ioread8_usb reg; iowrite8_usb reg (v .&~ BIT4).
Definition vUsbClrEPx : HM unit :=
  for_each (seqZ 1 FUSB200_MAX_EP) (toggle_ep DIRECTION_IN) ;;
  for_each (seqZ 1 FUSB200_MAX_EP) (toggle_ep DIRECTION_OUT).
End cfg.

(** The blocks that two endpoints of a speed use are different, and lie in the 16 there are. *)
Definition ep_blocks (e : ep_cfg) : list Z := seqZ (ec_start e) (FIFO_NO e).
Example blocks_disjoint :
  Forall (λ l, NoDup (concat (map ep_blocks l)) ∧ Forall (λ b, 0 <= b < 16) (concat (map ep_blocks l)))
    [hs_eps; fs_eps ++ [fs_ep6]].
Proof. repeat constructor; try (by apply (bool_decide_unpack _); vm_compute); apply Forall_forall, list.Forall_forall; repeat constructor; lia. Qed.
