(* ===== verification/UsbEp0.v ===== *)
(** * The control endpoint (usb_api.c)

    A control request is a setup packet of eight bytes, decoded by [vUsb_ep0setup]; a request
    that returns data sends it in packets of at most 64 bytes, the first at once, the others
    when the host has taken the one before ([vUsb_ep0tx]). What a handler asks to be done at the
    end of the interrupt is [eUsbCxFinishAction].

    The functions go through the table of the boot ROM ([A_USB_...]). The definitions call what
    app_start.c leaves in it: the patches of usb_api_main_patch.c ([_patch]) where there is one,
    the functions of the boot ROM elsewhere. Messages on the console and the debug word
    [CURRENT_PROGRAM] are left out. *)

From S2P Require Import Prelude.
From S2P Require Import Hif.
From S2P Require Export UsbCfg.
From S2P Require Import UsbFifo.

(** What the linker and the EEPROM decide. *)
Class UsbPlace := {
  (** [&_bss_end], where the descriptors of the EEPROM are copied. *)
  EEPROM_USB_DESCRIPTOR_ADDR : Z;
}.

Section ep0.
Context {HW C : Type} `{!UsbIo HW} `{!UsbPlace}.
Abbreviation HM := (M (hif_usb HW C)).

Definition mUsbHighSpeedST : HM bool := v ← ioread8_usb ZM_MAIN_CTRL_OFFSET; mret (tst v BIT6).
Definition mUsbCfgST : HM bool := v ← ioread8_usb ZM_DEVICE_ADDRESS_OFFSET; mret (tst v BIT7).
Definition mUsbRmWkupSet : HM unit := v ← ioread8_usb ZM_MAIN_CTRL_OFFSET; iowrite8_usb ZM_MAIN_CTRL_OFFSET (v .| BIT0).
Definition mUsbGlobIntEnable : HM unit := v ← ioread8_usb ZM_MAIN_CTRL_OFFSET; iowrite8_usb ZM_MAIN_CTRL_OFFSET (v .| BIT2).
Definition mUSB_REG_OUT_INT_ENABLE : HM unit :=
  v ← ioread8_usb ZM_INTR_MASK_BYTE_4_OFFSET; iowrite8_usb ZM_INTR_MASK_BYTE_4_OFFSET (v .& 0x3f).

Definition set_action (a : Action) : HM unit := upd_ctl (λ c, c <| eUsbCxFinishAction := a |>).
Definition req : HM SetupPacket := gets (λ s, ControlCmd (hf_ctl s)).
Definition VALUE_LOW (p : SetupPacket) : Z := mLOW_BYTE (Value p).
Definition VALUE_HIGH (p : SetupPacket) : Z := mHIGH_BYTE (Value p).

(** *** The tables *)
Definition mem_rd16 (m : gmap Z Z) (a : Z) : Z := mem_rd m a * 256 + mem_rd m (a + 1).
Definition at_ (l : list Z) (i : Z) : option Z := if i <? 0 then None else l !! Z.to_nat i.
Definition rd16 (p : ptr16) : HM Z :=
  match p with
  | NullPtr => fail NullPointer
  | At t i => c ← ctl; in_range (at_ (usb_tables c t) i)
  | Raw a => gets (λ s, mem_rd16 (hf_mem s) a)
  end.
Definition wr_table (t : table) (i v : Z) : HM unit :=
  c ← ctl;
  _ ← in_range (at_ (usb_tables c t) i);
  upd_ctl (λ c, c <| usb_tables ::= λ f, tab_upd t (<[Z.to_nat i := v]> (f t)) f |>).
(** [memcpy] of [n] words into a table. *)
Definition copy16 (t : table) (p : ptr16) (n : Z) : HM unit :=
  for_each (seqZ 0 n) (λ i, w ← rd16 (padd p i); wr_table t i w).

(** *** Data to the host *)
(** Waits for the FIFO to be empty, and clears it when that takes too long. *)
Fixpoint ep0_wait (n : nat) : HM unit :=
  match n with
  | O => v ← ioread8_usb ZM_CX_CONFIG_STATUS_OFFSET; iowrite8_usb ZM_CX_CONFIG_STATUS_OFFSET (v .| BIT3)
  | S n => v ← ioread8_usb ZM_CX_CONFIG_STATUS_OFFSET; if tst v BIT5 then mret tt else ep0_wait n
  end.
Definition EP0_WAIT : nat := Z.to_nat 0x10000.
(** [*pu8DescriptorEX++] *)
Definition next16 : HM Z :=
  c ← ctl;
  w ← rd16 (pu8DescriptorEX c);
  upd_ctl (λ c, c <| pu8DescriptorEX ::= λ p, padd p 1 |>) ;;
  mret w.
Definition next32 : HM Z := ep0_low ← next16; ep0_high ← next16; mret (u32 ((ep0_high .<< 16) + ep0_low)).
(** [n] bytes into the FIFO. *)
Definition ep0_bytes (n : Z) : HM unit :=
  for_each (seqZ 0 (n / 4)) (λ _, ep0_data ← next32; iowrite32_usb ZM_EP0_DATA_OFFSET ep0_data) ;;
  let remainder := n mod 4 in
  (if remainder =? 3 then
     ep0_data ← next32;
     iowrite32_usb ZM_CBUS_FIFO_SIZE_OFFSET 0x7 ;;
     iowrite32_usb ZM_EP0_DATA_OFFSET ep0_data
   else unless (remainder =? 0) (
     iowrite32_usb ZM_CBUS_FIFO_SIZE_OFFSET (if remainder =? 2 then 0x3 else 0x1) ;;
     c ← ctl;
     w ← rd16 (pu8DescriptorEX c);
     iowrite32_usb ZM_EP0_DATA_OFFSET w)) ;;
  iowrite32_usb ZM_CBUS_FIFO_SIZE_OFFSET 0xf.
(** The next packet's length, taken off the counter. *)
Definition ep0_take : HM Z :=
  c ← ctl;
  let u8temp := if u16TxRxCounter c <? EP0MAXPACKETSIZE then u8 (u16TxRxCounter c) else EP0MAXPACKETSIZE in
  upd_ctl (λ c, c <| u16TxRxCounter ::= λ n, u16 (n - u8temp) |>) ;;
  mret u8temp.
Definition ep0_end_of_data : HM unit :=
  c ← ctl;
  when (u16TxRxCounter c =? 0)
    (upd_ctl (λ c, c <| eUsbCxCommand := CMD_VOID |>) ;; set_action ACT_DONE).
Definition vUsbEP0TxData : HM unit :=
  ep0_wait EP0_WAIT ;;
  u8temp ← ep0_take;
  ep0_bytes u8temp ;;
  ep0_end_of_data.
Definition vUsb_ep0tx : HM unit :=
  c ← ctl;
  match eUsbCxCommand c with
  | CMD_GET_DESCRIPTOR => vUsbEP0TxData
  | _ => iowrite8_usb ZM_CX_CONFIG_STATUS_OFFSET BIT6
  end.

(** *** Data from the host: only their checksum is kept *)
Definition vUsbEP0RxData : HM unit :=
  u8temp ← ep0_take;
  let words := (u8temp + 3) .>> 2 in
  for_each (seqZ 0 words) (λ _,
    ep0_data ← ioread32_usb ZM_EP0_DATA_OFFSET;
    upd_ctl (λ c, c <| fwCheckSum ::= λ x, Z.lxor x ep0_data |>)) ;;
  upd_ctl (λ c, c <| pu8DescriptorEX ::= λ p, padd p (words .<< 1) |>) ;;
  ep0_end_of_data.
Definition vUsb_ep0rx : HM unit :=
  c ← ctl;
  match eUsbCxCommand c with CMD_SET_DESCRIPTOR => vUsbEP0RxData | _ => mret tt end ;;
  c ← ctl;
  unless (u16TxRxCounter c =? 0) (set_action ACT_IDLE).

(** *** Standard requests: whether they are served *)
(** A few bytes at once: [mask] says which of the word. *)
Definition ep0_reply (mask w : Z) : HM unit :=
  iowrite32_usb ZM_CBUS_FIFO_SIZE_OFFSET mask ;;
  iowrite32_usb ZM_EP0_DATA_OFFSET w ;;
  iowrite32_usb ZM_CBUS_FIFO_SIZE_OFFSET 0xf.
Definition bGet_status : HM bool :=
  c ← ctl;
  RecipientStatusLow ← in_range (at_ (UsbStatus c) (Object (ControlCmd c) .& 0x0F));
  ep0_reply 0x3 (u8 RecipientStatusLow) ;;
  set_action ACT_DONE ;; mret true.
Definition set_ep_status (v : Z) : HM unit := upd_ctl (λ c, c <| UsbStatus ::= <[2%nat := v]> |>).
Definition bClear_feature : HM bool :=
  p ← req;
  if cUSB_FEATSEL_END <? Value p then mret false else
  if (Value p =? 0) && negb (Object p =? cUSB_REQTYPE_ENDPOINT) then mret false else
  set_ep_status 0 ;; set_action ACT_DONE ;; mret true.
Definition TestPatn0 : list Z := [0x02; 0x04; 0x08].
Definition TestPatn1 : list Z := [
  0x00000000; 0x00000000; 0xAA00AA00; 0xAAAAAAAA; 0xEEAAAAAA; 0xEEEEEEEE; 0xFEEEEEEE;
  0xFFFFFFFF; 0xFFFFFFFF; 0x7FFFFFFF; 0xF7EFDFBF; 0x7EFCFDFB; 0xFDFBDFBF].
Definition TEST_PKY : Z := 0x10.
Definition test_packet : HM unit :=
  iowrite8_usb ZM_PHY_TEST_SELECT_OFFSET TEST_PKY ;;
  iowrite8_usb ZM_CX_CONFIG_STATUS_OFFSET BIT0 ;;
  iowrite8_usb ZM_PHY_TEST_SELECT_OFFSET TEST_PKY ;;
  iowrite32_usb ZM_CBUS_FIFO_SIZE_OFFSET 0x0f ;;
  for_each TestPatn1 (iowrite32_usb ZM_EP0_DATA_OFFSET) ;;
  iowrite32_usb ZM_CBUS_FIFO_SIZE_OFFSET 0x07 ;;
  iowrite32_usb ZM_EP0_DATA_OFFSET 0x007EFDFB ;;
  iowrite32_usb ZM_CBUS_FIFO_SIZE_OFFSET 0x0f ;;
  iowrite8_usb ZM_CX_CONFIG_STATUS_OFFSET BIT1.
Definition test_mode (selector : Z) : HM bool :=
  if (selector =? 1) || (selector =? 2) || (selector =? 3) then
    pat ← in_range (at_ TestPatn0 (selector - 1));
    iowrite8_usb ZM_PHY_TEST_SELECT_OFFSET pat ;;
    set_action ACT_DONE ;; mret true
  else if selector =? 4 then test_packet ;; mret true
  else mret (selector =? 5).
Definition bSet_feature : HM bool :=
  p ← req;
  ok ← (if Value p =? 0 then
          if Object p =? cUSB_REQTYPE_ENDPOINT then set_action ACT_DONE ;; mret true else mret false
        else if Value p =? 1 then mUsbRmWkupSet ;; set_action ACT_DONE ;; mret true
        else if Value p =? 2 then test_mode (Index p .>> 8)
        else mret false);
  if negb ok then mret false else
  c ← ctl;
  when (bool_decide (eUsbCxFinishAction c = ACT_DONE)) (set_ep_status 1) ;;
  mret true.
Definition bSet_address : HM bool :=
  p ← req;
  if 0x0100 <=? Value p then mret false else
  iowrite8_usb ZM_DEVICE_ADDRESS_OFFSET (Value p) ;;
  set_action ACT_DONE ;; mret true.

(** Points to [p] and sends the first packet of [len] bytes, or fewer if the host asks for fewer. *)
Definition descriptor_from (p : ptr16) : HM unit := upd_ctl (λ c, c <| pu8DescriptorEX := p |>).
Definition descriptor_len (len : Z) : HM unit := upd_ctl (λ c, c <| u16TxRxCounter := len |>).
Definition send_descriptor : HM unit :=
  c ← ctl;
  when (Length (ControlCmd c) <? u16TxRxCounter c) (descriptor_len (Length (ControlCmd c))) ;;
  vUsbEP0TxData.
(** The pointer and the length of a standard descriptor, if there is one. *)
Definition find_descriptor (p : SetupPacket) : HM bool :=
  c ← ctl;
  let tab q := descriptor_from q ;; w ← rd16 q; descriptor_len (mLOW_BYTE w) ;; mret true in
  let cfg q := descriptor_from q ;; w ← rd16 (padd q 1); descriptor_len w ;; mret true in
  if VALUE_HIGH p =? 1 then tab (u8UsbDeviceDescriptor c)
  else if VALUE_HIGH p =? 2 then
    if VALUE_LOW p =? 0x00 then cfg (u8ConfigDescriptorEX c) else mret false
  else if VALUE_HIGH p =? 3 then
    if VALUE_LOW p =? 0x00 then tab (u8String00Descriptor c)
    else if VALUE_LOW p =? 0x10 then tab (u8String10Descriptor c)
    else if VALUE_LOW p =? 0x20 then tab (u8String20Descriptor c)
    else if VALUE_LOW p =? 0x30 then tab (u8String30Descriptor c)
    else mret false
  else if VALUE_HIGH p =? 6 then tab (At T_Qualifier 0)
  else if VALUE_HIGH p =? 7 then cfg (At T_OtherSpeed 0)
  else mret false.
Definition bGet_descriptor : HM bool :=
  p ← req;
  ok ← find_descriptor p;
  if negb ok then mret false else
  send_descriptor ;;
  c ← ctl;
  when (0 <? u16TxRxCounter c) (upd_ctl (λ c, c <| eUsbCxCommand := CMD_GET_DESCRIPTOR |>)) ;;
  mret true.
Definition BCD_DEVICE_OFFSET : Z := 6.
Definition BCD_DEVICE_FW_SIGNATURE : Z := 0xffff.
Definition bGet_descriptor_patch : HM bool :=
  c ← ctl;
  let p := ControlCmd c in
  if VALUE_HIGH p =? 1 then
    copy16 T_DevicePatch (u8UsbDeviceDescriptor c) 9 ;;
    wr_table T_DevicePatch BCD_DEVICE_OFFSET BCD_DEVICE_FW_SIGNATURE ;;
    descriptor_from (At T_DevicePatch 0) ;;
    w ← rd16 (u8UsbDeviceDescriptor c);
    descriptor_len (mLOW_BYTE w) ;;
    send_descriptor ;; mret true
  else if VALUE_HIGH p =? 2 then
    copy16 T_ConfigPatch (u8ConfigDescriptorEX c) 30 ;;
    if VALUE_LOW p =? 0 then
      descriptor_from (At T_ConfigPatch 0) ;;
      w ← rd16 (At T_ConfigPatch 1);
      descriptor_len w ;;
      send_descriptor ;; mret true
    else mret false
  else bGet_descriptor.
Definition bGet_configuration : HM bool :=
  c ← ctl;
  ep0_reply 0x1 (u8UsbConfigValue c) ;;
  set_action ACT_DONE ;; mret true.

(** The endpoints for a speed, and the DMA's packet size. *)
Definition cfg_speed (hs : bool) : HM unit :=
  (if hs then vUsbFIFO_EPxCfg_HS else vUsbFIFO_EPxCfg_FS) ;;
  v ← ioread32_usb ZM_SOC_USB_MODE_CTRL_OFFSET;
  iowrite32_usb ZM_SOC_USB_MODE_CTRL_OFFSET (if hs then v .| BIT2 else v .&~ BIT2).
Definition CONFIGURATION_NUMBER : Z := 1.
Definition bSet_configuration : HM bool :=
  p ← req;
  if VALUE_LOW p =? 0 then
    upd_ctl (λ c, c <| u8UsbConfigValue := 0 |>) ;;
    v ← ioread8_usb ZM_DEVICE_ADDRESS_OFFSET;
    iowrite8_usb ZM_DEVICE_ADDRESS_OFFSET (v .&~ BIT7) ;;
    set_action ACT_DONE ;; mret true
  else
    hs ← mUsbHighSpeedST;
    if CONFIGURATION_NUMBER <? VALUE_LOW p then mret false else
    upd_ctl (λ c, c <| u8UsbConfigValue := VALUE_LOW p |>) ;;
    cfg_speed hs ;;
    v ← ioread8_usb ZM_DEVICE_ADDRESS_OFFSET;
    iowrite8_usb ZM_DEVICE_ADDRESS_OFFSET (v .| BIT7) ;;
    vUsbClrEPx ;;
    mUsbGlobIntEnable ;;
    mUSB_REG_OUT_INT_ENABLE ;;
    set_action ACT_DONE ;; mret true.
(** The result of the ROM's function is not looked at. *)
Definition bSet_configuration_patch : HM bool :=
  bSet_configuration ;;
  p ← req;
  (if VALUE_LOW p =? 0 then mret tt else
   hs ← mUsbHighSpeedST; unless hs vUsbFIFO_EPxCfg_FS_patch) ;;
  set_action ACT_DONE ;; mret true.
Definition bGet_interface : HM bool :=
  cfg ← mUsbCfgST;
  if negb cfg then mret false else
  c ← ctl;
  if negb (u8UsbConfigValue c =? 1) then mret false else
  if 1 <? Index (ControlCmd c) then mret false else
  ep0_reply 0x1 (u8UsbInterfaceAlternateSetting c) ;;
  descriptor_len 1 ;;
  set_action ACT_DONE ;; mret true.
Definition bSet_interface : HM bool :=
  cfg ← mUsbCfgST;
  if negb cfg then mret false else
  c ← ctl;
  let p := ControlCmd c in
  if negb (Index p =? 0) then mret false else
  alt ← rd16 (padd (u8ConfigDescriptorEX c) 6);
  if negb (VALUE_LOW p =? mLOW_BYTE alt) then mret false else
  upd_ctl (λ c, c <| u8UsbInterfaceValue := u8 (Index p) |>) ;;
  upd_ctl (λ c, c <| u8UsbInterfaceAlternateSetting := VALUE_LOW p |>) ;;
  hs ← mUsbHighSpeedST;
  cfg_speed hs ;;
  vUsbClrEPx ;;
  set_action ACT_DONE ;;
  mUsbGlobIntEnable ;;
  mUSB_REG_OUT_INT_ENABLE ;;
  mret true.

Definition MAGPIE_REG_USB_RX0_SWAP_DATA : Z := USB_DMA_BASE_ADDRESS + 0x81C.
Definition MAGPIE_REG_USB_TX0_SWAP_DATA : Z := USB_DMA_BASE_ADDRESS + 0xC18.
Definition MAGPIE_REG_USB_RX1_SWAP_DATA : Z := USB_DMA_BASE_ADDRESS + 0x91C.
Definition MAGPIE_REG_USB_RX2_SWAP_DATA : Z := USB_DMA_BASE_ADDRESS + 0xa1C.
Definition enable_swap : HM unit :=
  reg_wr MAGPIE_REG_USB_RX0_SWAP_DATA 0x1 ;;
  reg_wr MAGPIE_REG_USB_TX0_SWAP_DATA 0x1 ;;
  reg_wr MAGPIE_REG_USB_RX1_SWAP_DATA 0x1 ;;
  reg_wr MAGPIE_REG_USB_RX2_SWAP_DATA 0x1.
Definition set_mode_bit (b : Z) : HM unit :=
  v ← ioread32_usb ZM_SOC_USB_MODE_CTRL_OFFSET; iowrite32_usb ZM_SOC_USB_MODE_CTRL_OFFSET (v .| b).
Definition bStandardCommand : HM bool :=
  p ← req;
  let r := Request p in
  if r =? USB_GET_STATUS then bGet_status
  else if r =? USB_CLEAR_FEATURE then bClear_feature
  else if r =? USB_SET_FEATURE then bSet_feature
  else if r =? USB_SET_ADDRESS then bSet_address
  else if r =? USB_GET_DESCRIPTOR then bGet_descriptor_patch
  else if r =? USB_GET_CONFIGURATION then bGet_configuration
  else if r =? USB_SET_CONFIGURATION then
    bSet_configuration_patch ;; enable_swap ;;
    for_each [BIT3; BIT1; BIT0; BIT8; BIT9] set_mode_bit ;; mret true
  else if r =? USB_GET_INTERFACE then bGet_interface
  else if r =? USB_SET_INTERFACE then bSet_interface ;; mret true
  else mret false.
Definition bStandardCommand_patch : HM bool :=
  p ← req;
  if Request p =? USB_SET_CONFIGURATION then bSet_configuration_patch ;; enable_swap ;; mret true
  else bStandardCommand.

(** *** Vendor requests *)
Definition FLASH_BASE : Z := 0xf000000.
Definition DEBUG_SYSTEM_STATE_ADDR : Z := 0x53fff4.
Fixpoint flash_loop (fuel : nat) (start_addr end_addr : Z) : HM unit :=
  if start_addr <? end_addr then
    match fuel with
    | O => fail OutOfFuel
    | S n =>
        w ← rd32 (FLASH_BASE + start_addr);
        iowrite32_usb ZM_EP0_DATA_OFFSET w ;;
        flash_loop n (u16 (start_addr + 4)) end_addr
    end
  else mret tt.
Definition flash_read (fuel : nat) (len ofset : Z) : HM unit :=
  iowrite32_usb ZM_CBUS_FIFO_SIZE_OFFSET 0xF ;;
  flash_loop fuel ofset (u16 (ofset + len)) ;;
  iowrite8_usb ZM_CX_CONFIG_STATUS_OFFSET BIT0.
Definition VendorCommand (fuel : nat) : HM unit :=
  p ← req;
  let r := Request p in
  if r =? cUSB_REQ_FLASH_READ then
    descriptor_len (Length p) ;;
    descriptor_from (Raw (Value p)) ;;
    flash_read fuel (Length p) (u16 (Value p))
  else if r =? cUSB_REQ_FLASH_READ_COMP then
    ep0_data ← rd32 (FLASH_BASE + 4);
    iowrite32_usb ZM_EP0_DATA_OFFSET ep0_data ;;
    iowrite32_usb ZM_CBUS_FIFO_SIZE_OFFSET 0xF ;;
    iowrite8_usb ZM_CX_CONFIG_STATUS_OFFSET BIT0
  else if r =? cUSB_REQ_DOWNLOAD then
    descriptor_len (Length p) ;;
    descriptor_from (Raw (Value p .<< 8)) ;;
    upd_ctl (λ c, c <| eUsbCxCommand := CMD_SET_DESCRIPTOR |>)
  else when (r =? cUSB_REQ_DOWNLOAD_COMP) (
    upd_ctl (λ c, c <| fwCheckSum := 0 |>) ;;
    ep0_reply 0x1 0 ;;
    iowrite8_usb ZM_CX_CONFIG_STATUS_OFFSET BIT0 ;;
    st ← rd32 DEBUG_SYSTEM_STATE_ADDR;
    wr32 DEBUG_SYSTEM_STATE_ADDR (st .&~ BIT27) ;;
    st ← rd32 DEBUG_SYSTEM_STATE_ADDR;
    wr32 DEBUG_SYSTEM_STATE_ADDR ((st .&~ 0xff) .| 0x3f) ;;
    upd_ctl (λ c, c <| download_enable := true |>)).

(** *** Setup *)
Definition USB_DESC_IN_EEP_PATTERN : Z := 0x41544852.
Definition USB_DEVICE_DESCRIPTOR_ADDR : Z := EEPROM_USB_DESCRIPTOR_ADDR + 2 * 2.
Definition USB_STRING00_DESCRIPTOR_ADDR : Z := USB_DEVICE_DESCRIPTOR_ADDR + 16 * 2.
Definition USB_STRING10_DESCRIPTOR_ADDR : Z := USB_STRING00_DESCRIPTOR_ADDR + 6 * 2.
Definition USB_STRING20_DESCRIPTOR_ADDR : Z := USB_STRING10_DESCRIPTOR_ADDR + 12 * 2.
Definition USB_STRING30_DESCRIPTOR_ADDR : Z := USB_STRING20_DESCRIPTOR_ADDR + 16 * 2.
Definition vUsb_SetupDescriptor : HM unit :=
  flag ← rd32 EEPROM_USB_DESCRIPTOR_ADDR;
  let eep := flag =? USB_DESC_IN_EEP_PATTERN in
  upd_ctl (λ c, c <| u8UsbDeviceDescriptor := if eep then Raw USB_DEVICE_DESCRIPTOR_ADDR else At T_Device 0 |>) ;;
  upd_ctl (λ c, c <| u8String00Descriptor := if eep then Raw USB_STRING00_DESCRIPTOR_ADDR else At T_String00 0 |>) ;;
  upd_ctl (λ c, c <| u8String10Descriptor := if eep then Raw USB_STRING10_DESCRIPTOR_ADDR else At T_String10 0 |>) ;;
  upd_ctl (λ c, c <| u8String20Descriptor := if eep then Raw USB_STRING20_DESCRIPTOR_ADDR else At T_String20 0 |>) ;;
  upd_ctl (λ c, c <| u8String30Descriptor := if eep then Raw USB_STRING30_DESCRIPTOR_ADDR else At T_String30 0 |>).
(** The descriptors for the speed of the bus, when the first request after a reset comes. *)
Definition first_setup : HM unit :=
  upd_ctl (λ c, c <| UsbChirpFinish := true |>) ;;
  vUsb_SetupDescriptor ;;
  wr_table T_OtherSpeed 0 0x0709 ;;
  hs ← mUsbHighSpeedST;
  upd_ctl (λ c, c <| u8ConfigDescriptorEX := At (if (hs : bool) then T_HSConfig else T_FSConfig) 0 |>) ;;
  c ← ctl;
  let dev := u8UsbDeviceDescriptor c in
  for_each (seqZ 1 3) (λ ii, w ← rd16 (padd dev ii); wr_table T_Qualifier ii w) ;;
  w ← rd16 (padd dev 8);
  wr_table T_Qualifier 4 ((w .>> 8) .& 0x00ff) ;;
  for_each (seqZ 1 (USB_TOTAL_DESC_LEN / 2 - 1)) (λ ii,
    w ← rd16 (padd (At (if (hs : bool) then T_FSConfig else T_HSConfig) 0) ii); wr_table T_OtherSpeed ii w) ;;
  wr_table T_Qualifier 0 0x060A.
Definition decode_setup (w0 w1 : Z) : SetupPacket :=
  let ii := mGetByte0 w0 in
  {| Direction := ii .& 0x80; Type_ := ii .& 0x60; Object := ii .& 0x03;
     Request := mGetByte1 w0; Value := u16 (mGetByte2 w0 + (mGetByte3 w0 .<< 8));
     Index := u16 (mGetByte0 w1 + (mGetByte1 w1 .<< 8)); Length := u16 (mGetByte2 w1 + (mGetByte3 w1 .<< 8)) |}.
Definition vUsb_ep0setup (fuel : nat) : HM unit :=
  c ← ctl;
  unless (UsbChirpFinish c) first_setup ;;
  ioread8_usb ZM_CX_CONFIG_STATUS_OFFSET ;;
  w0 ← ioread32_usb ZM_EP0_DATA_OFFSET;
  w1 ← ioread32_usb ZM_EP0_DATA_OFFSET;
  let p := decode_setup w0 w1 in
  upd_ctl (λ c, c <| ControlCmd := p |>) ;;
  if Type_ p =? cUSB_REQTYPE_STD .<< bmREQ_TYPE then
    ok ← bStandardCommand_patch;
    unless ok (set_action ACT_STALL)
  else if Type_ p =? cUSB_REQTYPE_VENDOR .<< bmREQ_TYPE then VendorCommand fuel
  else set_action ACT_STALL.

(** *** The interrupts *)
Definition vUsb_ep0end : HM unit :=
  upd_ctl (λ c, c <| eUsbCxCommand := CMD_VOID |>) ;;
  iowrite8_usb ZM_CX_CONFIG_STATUS_OFFSET 0x01.
Definition vUsb_ep0fail : HM unit := iowrite8_usb ZM_CX_CONFIG_STATUS_OFFSET 0x04.
Definition clear_source_7 (b : Z) : HM unit :=
  v ← ioread8_usb ZM_INTR_SOURCE_7_OFFSET; iowrite8_usb ZM_INTR_SOURCE_7_OFFSET (v .&~ b).
Definition vUsb_rst : HM unit := clear_source_7 BIT1 ;; upd_ctl (λ c, c <| UsbChirpFinish := false |>).
Definition vUsb_suspend : HM unit := clear_source_7 BIT2.
Definition vUsb_resm : HM unit := clear_source_7 BIT3.
(** What the handlers asked for. *)
Definition finish_action : HM unit :=
  c ← ctl;
  match eUsbCxFinishAction c with
  | ACT_STALL => iowrite8_usb ZM_CX_CONFIG_STATUS_OFFSET 0x04
  | ACT_DONE => iowrite8_usb ZM_CX_CONFIG_STATUS_OFFSET 0x01
  | ACT_IDLE => mret tt
  end ;;
  set_action ACT_IDLE.
Definition usb_fw_task_ep0 (fuel : nat) (usb_interrupt_level2 : Z) : HM unit :=
  when (tst usb_interrupt_level2 BIT7)
    (v ← ioread8_usb ZM_INTR_SOURCE_0_OFFSET; iowrite8_usb ZM_INTR_SOURCE_0_OFFSET (v .&~ BIT7)) ;;
  when (tst usb_interrupt_level2 BIT1) vUsb_ep0tx ;;
  when (tst usb_interrupt_level2 BIT2) vUsb_ep0rx ;;
  when (tst usb_interrupt_level2 BIT0) (vUsb_ep0setup fuel) ;;
  when (tst usb_interrupt_level2 BIT3) vUsb_ep0end ;;
  when (tst usb_interrupt_level2 BIT4) vUsb_ep0fail ;;
  finish_action.
Definition SUS_MAGIC_PATTERN : Z := 0x5F535553.
(** A suspended bus: the power goes off and the boot code starts again. *)
Definition usb_fw_task_bus (usb_interrupt_level2 : Z) : HM unit :=
  when (tst usb_interrupt_level2 BIT1) vUsb_rst ;;
  when (tst usb_interrupt_level2 BIT2)
    (vUsb_suspend ;; wr32 WATCH_DOG_MAGIC_PATTERN_ADDR SUS_MAGIC_PATTERN ;; fail Rebooted) ;;
  when (tst usb_interrupt_level2 BIT3) vUsb_resm.
Context `{!HifClient HW C}.
Definition _usb_fw_task (fuel : nat) : HM unit :=
  usb_interrupt_level1 ← ioread8_usb ZM_INTR_GROUP_OFFSET;
  usb_fw_task_fifo usb_interrupt_level1 ;;
  when (tst usb_interrupt_level1 BIT0)
    (usb_interrupt_level2 ← ioread8_usb ZM_INTR_SOURCE_0_OFFSET; usb_fw_task_ep0 fuel usb_interrupt_level2) ;;
  when (tst usb_interrupt_level1 BIT7)
    (usb_interrupt_level2 ← ioread8_usb ZM_INTR_SOURCE_7_OFFSET; usb_fw_task_bus usb_interrupt_level2).
(** The handler of the pipes, with the FIFOs and the control endpoint first. *)
Definition _HIFusb_isr_handler_patch (fuel : nat) : HM unit := _usb_fw_task fuel ;; _HIFusb_isr_handler fuel.

(** *** The watchdog's event and the start of the device *)
Definition zfGenWatchDogEvent : HM unit :=
  mUSB_STATUS_IN_INT_DISABLE ;;
  iowrite32_usb ZM_CBUS_FIFO_SIZE_OFFSET 0x0f ;;
  iowrite32_usb ZM_EP3_DATA_OFFSET 0x0000C600 ;;
  mUSB_EP3_XFER_DONE.
Definition cFUSB200Init : HM unit :=
  v ← ioread8_usb ZM_INTR_SOURCE_7_OFFSET; iowrite8_usb ZM_INTR_SOURCE_7_OFFSET (v .& 0xfd) ;;
  for_each [ZM_INTR_MASK_BYTE_1_OFFSET; ZM_INTR_MASK_BYTE_2_OFFSET; ZM_INTR_MASK_BYTE_3_OFFSET;
            ZM_INTR_MASK_BYTE_5_OFFSET; ZM_INTR_MASK_BYTE_6_OFFSET] (λ a, iowrite8_usb a 0xff) ;;
  iowrite8_usb ZM_MAIN_CTRL_OFFSET 0x10 ;;
  iowrite8_usb ZM_MAIN_CTRL_OFFSET 0x0 ;;
  iowrite8_usb ZM_TEST_OFFSET BIT0 ;;
  iowrite8_usb ZM_INTR_MASK_BYTE_0_OFFSET 0 ;;
  iowrite8_usb ZM_VDR_SPECIFIC_MODE_OFFSET 0x0 ;;
  iowrite8_usb ZM_INTR_SOURCE_7_OFFSET 0x0 ;;
  iowrite8_usb ZM_MAIN_CTRL_OFFSET (BIT5 .| BIT2) ;;
  for_each [ZM_INTR_MASK_BYTE_1_OFFSET; ZM_INTR_MASK_BYTE_2_OFFSET; ZM_INTR_MASK_BYTE_3_OFFSET] (λ a, iowrite8_usb a 0x0).
End ep0.
