(* ===== verification/UsbProps.v ===== *)
(** * Words, bytes and the FIFOs of the USB chip

    How words in a big-endian memory read as bytes, what [swapData] makes of them, and what the
    theorems about the FIFO endpoints rely on of the chip ([UsbFifoLaws]): that its FIFOs keep
    the order of the bytes. *)

From S2P Require Import Prelude.
From S2P Require Import NBuf.
From S2P Require Import NBufProps.
From S2P Require Import Dma.
From S2P Require Import DmaProps.
From S2P Require Import Hif.


(** ** Words and bytes *)
Definition le_bytes (w : Z) : list Z := [u8 w; u8 (w .>> 8); u8 (w .>> 16); u8 (w .>> 24)].
Definition bytes_of (ws : list Z) : list Z := concat (map le_bytes ws).
Definition mem_words (m : gmap Z Z) (a : Z) (ws : list Z) : Prop :=
  ∀ i w, ws !! i = Some w → mem_rd32 m (a + 4 * Z.of_nat i) = w.
Definition mem_bytes (m : gmap Z Z) (a : Z) (l : list Z) : Prop :=
  ∀ i x, l !! i = Some x → mem_rd m (a + Z.of_nat i) = x.

Definition mem_read (m : gmap Z Z) (a : Z) (n : nat) : list Z := map (λ i, mem_rd m (a + Z.of_nat i)) (seq 0 n).
Lemma mem_bytes_read m a l : mem_bytes m a l → l = mem_read m a (length l).
Proof.
  intros Hm. apply list_eq. intros i. unfold mem_read. rewrite list_lookup_fmap.
  destruct (l !! i) as [x|] eqn:Hx.
  - rewrite (lookup_seq_lt 0 (length l) i) by (by apply lookup_lt_Some in Hx). cbn. by rewrite (Hm i x Hx).
  - rewrite lookup_seq_ge; [done|]. by apply lookup_ge_None in Hx.
Qed.
Lemma mem_read_bytes m a l : mem_read m a (length l) = l → mem_bytes m a l.
Proof.
  intros E i x Hx. rewrite <-E in Hx. unfold mem_read in Hx. apply list_lookup_fmap_Some in Hx as (j & -> & [-> _]%lookup_seq). done.
Qed.

Lemma shiftr_u8 w k : 0 <= k → u8 (w .>> k) = (w / 2 ^ k) mod 256.
Proof. intros. unfold u8. by rewrite Z.shiftr_div_pow2. Qed.
Lemma word_of_bytes w : in_u32 w →
  ((u8 (w .>> 24) * 256 + u8 (w .>> 16)) * 256 + u8 (w .>> 8)) * 256 + u8 w = w.
Proof.
  intros [? ?]. rewrite !shiftr_u8 by done. unfold u8.
  change (2 ^ 24) with (256 * 65536). change (2 ^ 16) with (256 * 256). change (2 ^ 8) with 256.
  rewrite <-!Z.div_div by done. change 65536 with (256 * 256). rewrite <-!Z.div_div by done.
  set (a := w / 256). assert (w = 256 * a + w mod 256) by (apply Z.div_mod; done).
  set (b := a / 256). assert (a = 256 * b + a mod 256) by (apply Z.div_mod; done).
  set (c := b / 256). assert (b = 256 * c + b mod 256) by (apply Z.div_mod; done).
  assert (0 <= c < 256) by (unfold c, b, a; mlia).
  rewrite (Z.mod_small c) by done. lia.
Qed.
Lemma mem_wr32_out a w m b : b < a ∨ a + 3 < b → mem_rd (mem_wr32 a w m) b = mem_rd m b.
Proof. intros. unfold mem_rd, mem_wr32. by rewrite !lookup_insert_ne by lia. Qed.
Lemma mem_wr32_in a w m : map (λ i, mem_rd (mem_wr32 a w m) (a + i)) [0; 1; 2; 3]
  = [u8 (w .>> 24); u8 (w .>> 16); u8 (w .>> 8); u8 w].
Proof.
  unfold mem_rd, mem_wr32. cbn [map]. rewrite Z.add_0_r.
  repeat first [rewrite lookup_insert_eq | rewrite lookup_insert_ne by lia]. done.
Qed.
Lemma mem_rd32_wr32 a w m : in_u32 w → mem_rd32 (mem_wr32 a w m) a = w.
Proof.
  intros Hw. pose proof (mem_wr32_in a w m) as E. cbn [map] in E. rewrite Z.add_0_r in E.
  injection E as E0 E1 E2 E3. unfold mem_rd32. rewrite E0, E1, E2, E3. by apply word_of_bytes.
Qed.
Lemma mem_rd32_out a w m b : b + 3 < a ∨ a + 3 < b → mem_rd32 (mem_wr32 a w m) b = mem_rd32 m b.
Proof. intros. unfold mem_rd32. by rewrite !mem_wr32_out by lia. Qed.

Lemma bswap32_bytes w : in_u32 w → [u8 (bswap32 w .>> 24); u8 (bswap32 w .>> 16); u8 (bswap32 w .>> 8); u8 (bswap32 w)] = le_bytes w.
Proof.
  intros Hw. unfold bswap32, le_bytes. rewrite !(shiftr_u8 (_ + _)) by done.
  pose proof (u8_range w). pose proof (u8_range (w .>> 8)). pose proof (u8_range (w .>> 16)). pose proof (u8_range (w .>> 24)).
  revert H H0 H1 H2. generalize (u8 w) (u8 (w .>> 8)) (u8 (w .>> 16)) (u8 (w .>> 24)). intros a b c d Ha Hb Hc Hd.
  unfold u8. change (2 ^ 24) with 16777216. change (2 ^ 16) with 65536. change (2 ^ 8) with 256.
  f_equal; [|f_equal; [|f_equal; [|f_equal]]]; mlia.
Qed.
Lemma bswap32_range w : in_u32 (bswap32 w).
Proof.
  unfold bswap32. pose proof (u8_range w). pose proof (u8_range (w .>> 8)). pose proof (u8_range (w .>> 16)).
  pose proof (u8_range (w .>> 24)). unfold in_u32. lia.
Qed.
Lemma length_bytes_of ws : length (bytes_of ws) = (4 * length ws)%nat.
Proof. unfold bytes_of. induction ws as [|w ws IH]; [done|]. cbn [map concat]. rewrite length_app, IH. cbn. lia. Qed.
Lemma bytes_of_app ws ws' : bytes_of (ws ++ ws') = bytes_of ws ++ bytes_of ws'.
Proof. unfold bytes_of. by rewrite map_app, concat_app. Qed.

Lemma bytes_of_lookup ws j r : (r < 4)%nat → bytes_of ws !! (4 * j + r)%nat = w ← ws !! j; le_bytes w !! r.
Proof.
  intros Hr. revert j. induction ws as [|w ws IH]; intros j; [by rewrite lookup_nil|].
  change (bytes_of (w :: ws)) with (le_bytes w ++ bytes_of ws). destruct j as [|j].
  - rewrite lookup_app_l by (cbn; lia). done.
  - rewrite lookup_app_r by (cbn; lia). change (length (le_bytes w)) with 4%nat.
    replace (4 * S j + r - 4)%nat with (4 * j + r)%nat by lia. apply IH.
Qed.
(** The four bytes that a swapped word leaves. *)
Lemma mem_swapped a w m r x : in_u32 w → le_bytes w !! r = Some x →
  mem_rd (mem_wr32 a (bswap32 w) m) (a + Z.of_nat r) = x.
Proof.
  intros Hw Hx. pose proof (mem_wr32_in a (bswap32 w) m) as E. rewrite bswap32_bytes in E by done. cbn [map] in E.
  rewrite <-E in Hx. do 4 (destruct r as [|r]; [by injection Hx as <-|]). by destruct r.
Qed.

(** ** The chip *)
Class UsbFifoLaws (HW : Type) `{UsbIo HW} := {
  (** What is left of the packet in the FIFO of endpoint 4. *)
  ep4_bytes : HW → list Z;
  (** The packet being made in the FIFO of endpoint 3, how much of a word goes there, and the
      packets that were completed. *)
  ep3_bytes : HW → list Z;
  ep3_size : HW → nat;
  ep3_sent : HW → list (list Z);
  ep4_count hw : (length (ep4_bytes hw) < 256)%nat →
    io_read8 (USB_CTRL_BASE_ADDRESS .| Z.lxor ZM_EP4_BYTE_COUNT_LOW_OFFSET 3) hw = (Z.of_nat (length (ep4_bytes hw)), hw);
  ep4_data hw : let '(w, hw') := io_read32 (USB_CTRL_BASE_ADDRESS .| ZM_EP4_DATA_OFFSET) hw in
    in_u32 w ∧ take 4 (ep4_bytes hw) `prefix_of` le_bytes w ∧ ep4_bytes hw' = drop 4 (ep4_bytes hw) ∧
    ep3_bytes hw' = ep3_bytes hw ∧ ep3_size hw' = ep3_size hw ∧ ep3_sent hw' = ep3_sent hw;
  ep3_data w hw : let hw' := io_write32 (USB_CTRL_BASE_ADDRESS .| ZM_EP3_DATA_OFFSET) w hw in
    ep3_bytes hw' = ep3_bytes hw ++ take (ep3_size hw) (le_bytes w) ∧ ep3_size hw' = ep3_size hw ∧ ep3_sent hw' = ep3_sent hw;
  (** The bits of the mask stand for the bytes of a word. *)
  ep3_mask n hw : n = 1%nat ∨ n = 2%nat ∨ n = 3%nat ∨ n = 4%nat →
    let hw' := io_write32 (USB_CTRL_BASE_ADDRESS .| ZM_CBUS_FIFO_SIZE_OFFSET) (Z.ones (Z.of_nat n)) hw in
    ep3_bytes hw' = ep3_bytes hw ∧ ep3_size hw' = n ∧ ep3_sent hw' = ep3_sent hw;
  ep3_done v hw : tst v 8 = true →
    let hw' := io_write8 (USB_CTRL_BASE_ADDRESS .| Z.lxor ZM_EP3_BYTE_COUNT_HIGH_OFFSET 3) v hw in
    ep3_bytes hw' = [] ∧ ep3_size hw' = ep3_size hw ∧ ep3_sent hw' = ep3_sent hw ++ [ep3_bytes hw];
  (** The other registers of the endpoint. *)
  ep3_kept a hw : a = ZM_EP3_BYTE_COUNT_HIGH_OFFSET ∨ a = ZM_INTR_MASK_BYTE_6_OFFSET →
    let hw' := (io_read8 (USB_CTRL_BASE_ADDRESS .| Z.lxor a 3) hw).2 in
    ep3_bytes hw' = ep3_bytes hw ∧ ep3_size hw' = ep3_size hw ∧ ep3_sent hw' = ep3_sent hw;
  ep3_mask_kept v hw :
    let hw' := io_write8 (USB_CTRL_BASE_ADDRESS .| Z.lxor ZM_INTR_MASK_BYTE_6_OFFSET 3) v hw in
    ep3_bytes hw' = ep3_bytes hw ∧ ep3_size hw' = ep3_size hw ∧ ep3_sent hw' = ep3_sent hw;
}.
Lemma prefix_words {A} (B l l' : list A) n :
  length l = 4%nat → take 4 B `prefix_of` l → take n (drop 4 B) `prefix_of` l' → take (4 + n) B `prefix_of` l ++ l'.
Proof.
  intros Hl H1 H2. rewrite <-(take_drop 4 B) at 1. destruct (decide (4 <= length B)%nat) as [Hb|Hb].
  - rewrite take_app_ge by (rewrite length_take; lia). rewrite length_take.
    replace (4 + n - 4 `min` length B)%nat with n by lia.
    replace (take 4 B) with l; [by apply prefix_app|]. destruct H1 as [k Hk].
    assert (length k = 0%nat) as ?%length_zero_iff_nil by (apply (f_equal length) in Hk; rewrite length_app, length_take in Hk; lia).
    subst k. by rewrite app_nil_r in Hk.
  - rewrite (drop_ge B) by lia. rewrite app_nil_r, take_ge by (rewrite length_take; lia). by apply prefix_app_r.
Qed.

Section buffers.
Context {HW C : Type} {IO : UsbIo HW} {HL : UsbFifoLaws HW} {HC : HifClient HW C}.
Implicit Types (s : hif_usb HW C) (ws : list Z).

Lemma run_hfnb {A} (p : NB A) s a n : p (dm_nb (hf_dma s)) = Ok (a, n) →
  hfnb p s = Ok (a, s <| hf_dma ::= λ d, d <| dm_nb := n |> |>).
Proof. intros E. unfold hfnb, hdma. by rewrite (run_dnb _ _ _ _ E). Qed.
Lemma run_hrd_vbuf s p b : vbufs (dm_nb (hf_dma s)) !! p = Some b → hfnb (rd_vbuf p) s = Ok (b, s).
Proof. intros E. erewrite run_hfnb by (apply run_rd_vbuf; exact E). by destruct s as [[] ]. Qed.
Lemma run_hrd_vdesc s p v : vdescs (dm_nb (hf_dma s)) !! p = Some v → hfnb (rd_vdesc p) s = Ok (v, s).
Proof. intros E. erewrite run_hfnb by (apply run_rd_vdesc; exact E). by destruct s as [[] ]. Qed.

(** Memory after writing one more word. *)
Lemma mem_words_snoc m a ws w : in_u32 w → mem_words m a ws →
  mem_words (mem_wr32 (a + 4 * Z.of_nat (length ws)) w m) a (ws ++ [w]).
Proof.
  intros Hw Hm i x [Hi|[Hi Hx]]%lookup_app_Some.
  - apply lookup_lt_Some in Hi as Hlt. rewrite mem_rd32_out by lia. by apply Hm.
  - apply list_lookup_singleton_Some in Hx as [Hx <-]. replace i with (length ws) by lia. by apply mem_rd32_wr32.
Qed.

(** Swapping the words from the [k]th on. *)
Lemma swap_words_run a ws : Forall in_u32 ws → ∀ n k s,
  (k + n = length ws)%nat →
  (∀ i w, (k <= i)%nat → ws !! i = Some w → mem_rd32 (hf_mem s) (a + 4 * Z.of_nat i) = w) →
  ∃ m, for_each (seqZ (Z.of_nat k) (Z.of_nat n)) (λ i,
      data ← rd32 (a + 4 * i); wr32 (a + 4 * i) (bswap32 data)) s = Ok (tt, s <| hf_mem := m |>) ∧
    (∀ i x, (4 * k <= i)%nat → bytes_of ws !! i = Some x → mem_rd m (a + Z.of_nat i) = x) ∧
    (∀ x, x < a + 4 * Z.of_nat k ∨ a + 4 * Z.of_nat (length ws) <= x → mem_rd m x = mem_rd (hf_mem s) x).
Proof.
  intros Hws. induction n as [|n IH]; intros k s Hk Hm.
  - exists (hf_mem s). split; [by destruct s|]. split; [|done]. intros i x Hi Hx%lookup_lt_Some.
    rewrite length_bytes_of in Hx. lia.
  - rewrite seqZ_cons by lia. cbn [for_each].
    destruct (lookup_lt_is_Some_2 ws k) as [w Hw]; [lia|].
    assert (in_u32 w) as Hw32 by (rewrite Forall_lookup in Hws; by eapply Hws).
    set (s1 := s <| hf_mem ::= mem_wr32 (a + 4 * Z.of_nat k) (bswap32 w) |>).
    rewrite (bind_ok _ _ _ tt s1); [|unfold rd32; rewrite (bind_ok _ _ _ _ _ (run_gets _ _)), (Hm k w); done].
    replace (Z.succ (Z.of_nat k)) with (Z.of_nat (S k)) by lia. replace (Z.pred (Z.of_nat (S n))) with (Z.of_nat n) by lia.
    destruct (IH (S k) s1) as (m & E & Hin & Hout); [lia| |].
    { intros i w' Hi Hw'. cbn. rewrite mem_rd32_out by lia. apply Hm; [lia|done]. }
    exists m. split; [rewrite E; by destruct s|]. split.
    + intros i x Hi Hx. destruct (decide (4 * S k <= i)%nat) as [|Hlt]; [by apply Hin|].
      rewrite Hout by lia. cbn.
      replace i with (4 * k + (i - 4 * k))%nat in Hx by lia. rewrite bytes_of_lookup, Hw in Hx by lia.
      replace (a + Z.of_nat i) with (a + 4 * Z.of_nat k + Z.of_nat (i - 4 * k)) by lia. by apply mem_swapped.
    + intros x Hx. rewrite Hout by lia. cbn. apply mem_wr32_out. lia.
Qed.

Lemma swapData_run s p d ws :
  dm_desc (hf_dma s) !! p = Some d → Forall in_u32 ws → mem_words (hf_mem s) (dataAddr d) ws →
  0 <= dataSize d < 65536 → Z.of_nat (length ws) = (dataSize d + 3) / 4 →
  ∃ m, swapData p s = Ok (tt, s <| hf_mem := m |>) ∧ mem_bytes m (dataAddr d) (bytes_of ws) ∧
    (∀ x, x < dataAddr d ∨ dataAddr d + 4 * Z.of_nat (length ws) <= x → mem_rd m x = mem_rd (hf_mem s) x).
Proof.
  intros Hd Hws Hm Hr Hlen. destruct (swap_words_run (dataAddr d) ws Hws (length ws) 0 s) as (m & E & Hin & Hout);
    [lia|intros i w _; apply Hm|].
  exists m. split; [|split; [intros i x; apply Hin; lia|intros x Hx; apply Hout; lia]].
  unfold swapData. rewrite (bind_ok _ _ _ d s).
  2:{ unfold hdma. rewrite (run_rd_dd _ _ _ Hd). by destruct s. }
  cbv zeta. etransitivity; [|exact E]. f_equal. f_equal. f_equal.
  rewrite Z.shiftr_land. change (0xfffffffc .>> 2) with (Z.ones 30). change 3 with (Z.ones 2) at 1.
  rewrite !Z.land_ones, Z.shiftr_div_pow2 by done. change (2 ^ 2) with 4. rewrite (Z.mod_small (dataSize d / 4)) by mlia.
  rewrite Hlen. destruct (Z.eqb_spec (dataSize d mod 4) 0); cbn [negb]; mlia.
Qed.

Definition set_desc (p : Z) (f : zsDmaDesc → zsDmaDesc) s : hif_usb HW C :=
  s <| hf_dma ::= λ d, d <| dm_desc ::= alter f p |> |>.
Lemma run_hupd_dd s p d f : dm_desc (hf_dma s) !! p = Some d → hdma (upd_dd p f) s = Ok (tt, set_desc p f s).
Proof.
  intros Hd. unfold hdma. rewrite (run_upd_dd _ _ _ _ Hd). do 2 f_equal. unfold set_desc.
  destruct s as [[n ds]]. unfold field_upd. cbn in *. do 2 f_equal. apply map_eq. intros i.
  destruct (decide (i = p)) as [->|]; [by rewrite lookup_insert_eq, lookup_alter_eq, Hd|by rewrite lookup_insert_ne, lookup_alter_ne].
Qed.

Lemma swap_buf_run s buf b v ws :
  vbufs (dm_nb (hf_dma s)) !! buf = Some b → vdescs (dm_nb (hf_dma s)) !! desc_list b = Some v →
  is_Some (dm_desc (hf_dma s) !! VDESC_get_hw_desc (desc_list b)) → in_u32 (buf_addr v + data_offset v) →
  Forall in_u32 ws → mem_words (hf_mem s) (buf_addr v + data_offset v) ws →
  0 <= data_size v < 65536 → Z.of_nat (length ws) = (data_size v + 3) / 4 →
  ∃ m dd, swap_buf buf s = Ok (tt, s <| hf_dma ::= λ d, d <| dm_desc := dd |> |> <| hf_mem := m |>) ∧
    mem_bytes m (buf_addr v + data_offset v) (bytes_of ws) ∧
    (∀ x, x < buf_addr v + data_offset v ∨ buf_addr v + data_offset v + 4 * Z.of_nat (length ws) <= x →
       mem_rd m x = mem_rd (hf_mem s) x) ∧
    (∀ a, a ≠ VDESC_get_hw_desc (desc_list b) → dd !! a = dm_desc (hf_dma s) !! a) ∧
    is_Some (dd !! VDESC_get_hw_desc (desc_list b)).
Proof.
  intros Hb Hv [d Hd] Ha Hws Hm Hr Hlen. set (p := VDESC_get_hw_desc (desc_list b)) in *.
  set (s1 := set_desc p (λ d, d <| dataSize := data_size v |>) s).
  set (s2 := set_desc p (λ d, d <| dataAddr := u32 (buf_addr v + data_offset v) |>) s1).
  set (d2 := d <| dataSize := data_size v |> <| dataAddr := u32 (buf_addr v + data_offset v) |>).
  assert (dm_desc (hf_dma s1) !! p = Some (d <| dataSize := data_size v |>)) as Hd1 by (cbn; by rewrite lookup_alter_eq, Hd).
  assert (dm_desc (hf_dma s2) !! p = Some d2) as Hd2 by (cbn; by rewrite !lookup_alter_eq, Hd).
  assert (dataAddr d2 = buf_addr v + data_offset v) as Hda by (by apply u32_small).
  destruct (swapData_run s2 p d2 ws Hd2 Hws) as (m & E & Hin & Hout); [by rewrite Hda|done|done|].
  rewrite Hda in Hin, Hout.
  exists m, (dm_desc (hf_dma s2)). split; [|split; [done|split; [done|split; [|by eexists]]]].
  - unfold swap_buf. rewrite (bind_ok _ _ _ _ _ (run_hrd_vbuf _ _ _ Hb)), (bind_ok _ _ _ _ _ (run_hrd_vdesc _ _ _ Hv)).
    cbv zeta. fold p. rewrite (bind_ok _ _ _ _ _ (run_hupd_dd _ _ _ _ Hd)). fold s1.
    rewrite (bind_ok _ _ _ _ _ (run_hupd_dd _ _ _ _ Hd1)). fold s2. rewrite E. by destruct s as [[]].
  - intros a Hne. cbn. by rewrite !lookup_alter_ne.
Qed.

Definition set_vb (p : Z) (b : VBUF) s : hif_usb HW C :=
  s <| hf_dma ::= λ d, d <| dm_nb ::= λ n, n <| vbufs ::= <[p := b]> |> |> |>.
Definition set_vd (p : Z) (v : VDESC) s : hif_usb HW C :=
  s <| hf_dma ::= λ d, d <| dm_nb ::= λ n, n <| vdescs ::= <[p := v]> |> |> |>.
Lemma run_hupd_vbuf s p b f : vbufs (dm_nb (hf_dma s)) !! p = Some b → hfnb (upd_vbuf p f) s = Ok (tt, set_vb p (f b) s).
Proof. intros E. by erewrite run_hfnb by (by apply run_upd_vbuf). Qed.
Lemma run_hupd_vdesc s p v f : vdescs (dm_nb (hf_dma s)) !! p = Some v → hfnb (upd_vdesc p f) s = Ok (tt, set_vd p (f v) s).
Proof. intros E. by erewrite run_hfnb by (by apply run_upd_vdesc). Qed.
Lemma set_vb_vb p b b' s : set_vb p b' (set_vb p b s) = set_vb p b' s.
Proof. unfold set_vb. destruct s as [[[]]]. unfold field_upd. cbn. by rewrite insert_insert_eq. Qed.
Lemma set_vd_vd p v v' s : set_vd p v' (set_vd p v s) = set_vd p v' s.
Proof. unfold set_vd. destruct s as [[[]]]. unfold field_upd. cbn. by rewrite insert_insert_eq. Qed.
Lemma set_vb_at p b s : vbufs (dm_nb (hf_dma (set_vb p b s))) !! p = Some b.
Proof. cbn. apply lookup_insert_eq. Qed.
Lemma set_vd_at p v s : vdescs (dm_nb (hf_dma (set_vd p v s))) !! p = Some v.
Proof. cbn. apply lookup_insert_eq. Qed.
End buffers.
