(* ===== verification/SflashProps.v ===== *)
(** * Serial flash: what is programmed can be read

    The documented behaviour of the controller and of the flash behind it ([SpiFlash]), what
    each operation of the driver does to its contents, and the round trip. *)

From S2P Require Import Prelude.
From S2P Require Import Hif.
From S2P Require Import UsbProps.
From S2P Require Import Io.
From S2P Require Import Sflash.

(** ** The device

    The bytes in the flash; the registers AO and D; how many polls the transaction under way
    and the write operation under way still take; the write enable latch. *)
Record flash_view := mk_fv { fv_mem : Z → Z; fv_ao : Z; fv_d : Z; fv_busy : nat; fv_wip : nat; fv_wel : bool }.
#[export] Instance eta_fv : EtaExp flash_view := λ v,
  mk_fv (fv_mem v) (fv_ao v) (fv_d v) (fv_busy v) (fv_wip v) (fv_wel v).

(** A write to CS that starts a transaction of [tx] bytes out and [rx] bytes in. *)
Definition spi_start (tx rx v : Z) : Prop := v .& 0xf = tx ∧ (v .& 0xf0) .>> 4 = rx ∧ tst v 0x100 = true.
Definition FLASH_SIZE : Z := 0x1000000.
(** Programming clears bits, and wraps around at the end of the page. *)
Definition page_program (f : Z → Z) (a : Z) (l : list Z) (x : Z) : Z :=
  if x / 256 =? a / 256 then match l !! Z.to_nat ((x - a) mod 256) with Some b => f x .& b | None => f x end else f x.
Definition erase_unit (op : Z) : Z :=
  if op =? ZM_SFLASH_OP_SE then 0x1000 else if op =? ZM_SFLASH_OP_BE then 0x10000 else FLASH_SIZE.
Definition erase_op (erase_type : Z) : Z :=
  if erase_type =? ZM_SFLASH_SECTOR_ERASE then ZM_SFLASH_OP_SE
  else if erase_type =? ZM_SFLASH_BLOCK_ERASE then ZM_SFLASH_OP_BE else ZM_SFLASH_OP_CE.
Definition unit_erase (u : Z) (f : Z → Z) (a x : Z) : Z := if x / u =? a / u then 0xff else f x.

Class SpiFlash (HW : Type) `{DevIo HW} := {
  flash_of : HW → flash_view;
  (** Bounds on the polls an operation takes. *)
  busy_max : nat; wip_max : nat;
  cs_read hw : let '(w, hw') := dev_rd32 SPI_CS_ADDRESS hw in
    (SPI_CS_BUSY_GET w = 0 ↔ fv_busy (flash_of hw) = 0%nat) ∧ flash_of hw' = flash_of hw <| fv_busy ::= Nat.pred |>;
  d_read hw : fv_busy (flash_of hw) = 0%nat → let '(w, hw') := dev_rd32 SPI_D_ADDRESS hw in
    w = fv_d (flash_of hw) ∧ flash_of hw' = flash_of hw;
  d_read8 j hw : fv_busy (flash_of hw) = 0%nat → 0 <= j < 4 → let '(b, hw') := dev_rd8 (SPI_D_ADDRESS + j) hw in
    be_bytes (fv_d (flash_of hw)) !! Z.to_nat j = Some b ∧ flash_of hw' = flash_of hw;
  ao_write v hw : fv_busy (flash_of hw) = 0%nat → flash_of (dev_wr32 SPI_AO_ADDRESS v hw) = flash_of hw <| fv_ao := v |>;
  d_write v hw : fv_busy (flash_of hw) = 0%nat → flash_of (dev_wr32 SPI_D_ADDRESS v hw) = flash_of hw <| fv_d := v |>;
  (** The status register comes back; its lowest bit says that a write is in progress. *)
  do_rdsr v hw : fv_busy (flash_of hw) = 0%nat → spi_start 1 1 v → fv_ao (flash_of hw) .& 0xff = ZM_SFLASH_OP_RDSR →
    ∃ st b, (b <= busy_max)%nat ∧ (st .& ZM_SFLASH_STATUS_REG_WIP = 0 ↔ fv_wip (flash_of hw) = 0%nat) ∧
      flash_of (dev_wr32 SPI_CS_ADDRESS v hw) = flash_of hw <| fv_d := st |> <| fv_wip ::= Nat.pred |> <| fv_busy := b |>;
  do_wren v hw : fv_busy (flash_of hw) = 0%nat → fv_wip (flash_of hw) = 0%nat → spi_start 1 0 v →
    fv_ao (flash_of hw) .& 0xff = ZM_SFLASH_OP_WREN →
    ∃ b, (b <= busy_max)%nat ∧ flash_of (dev_wr32 SPI_CS_ADDRESS v hw) = flash_of hw <| fv_wel := true |> <| fv_busy := b |>;
  (** The bytes come from D, the lowest first. *)
  do_pp k v hw : fv_busy (flash_of hw) = 0%nat → fv_wip (flash_of hw) = 0%nat → fv_wel (flash_of hw) = true →
    (1 <= k <= 4)%nat → spi_start (4 + Z.of_nat k) 0 v → fv_ao (flash_of hw) .& 0xff = ZM_SFLASH_OP_PP →
    ∃ b w, (b <= busy_max)%nat ∧ (w <= wip_max)%nat ∧
      flash_of (dev_wr32 SPI_CS_ADDRESS v hw)
        = flash_of hw <| fv_mem := page_program (fv_mem (flash_of hw)) (fv_ao (flash_of hw) .>> 8) (take k (le_bytes (fv_d (flash_of hw)))) |>
            <| fv_wel := false |> <| fv_wip := w |> <| fv_busy := b |>;
  do_erase op tx v hw : fv_busy (flash_of hw) = 0%nat → fv_wip (flash_of hw) = 0%nat → fv_wel (flash_of hw) = true →
    (op = ZM_SFLASH_OP_SE ∧ tx = 4 ∨ op = ZM_SFLASH_OP_BE ∧ tx = 4 ∨ op = ZM_SFLASH_OP_CE ∧ tx = 1) →
    spi_start tx 0 v → fv_ao (flash_of hw) .& 0xff = op →
    ∃ b w, (b <= busy_max)%nat ∧ (w <= wip_max)%nat ∧
      flash_of (dev_wr32 SPI_CS_ADDRESS v hw)
        = flash_of hw <| fv_mem := unit_erase (erase_unit op) (fv_mem (flash_of hw)) (fv_ao (flash_of hw) .>> 8) |>
            <| fv_wel := false |> <| fv_wip := w |> <| fv_busy := b |>;
  (** A read or a fast read, which sends a byte that does not matter. *)
  do_read op tx k v hw : fv_busy (flash_of hw) = 0%nat → fv_wip (flash_of hw) = 0%nat →
    (op = ZM_SFLASH_OP_READ ∧ tx = 4 ∨ op = ZM_SFLASH_OP_FAST_READ ∧ tx = 5) → (1 <= k <= 4)%nat →
    spi_start tx (Z.of_nat k) v → fv_ao (flash_of hw) .& 0xff = op →
    ∃ d b, (b <= busy_max)%nat ∧ in_u32 d ∧
      take k (le_bytes d) = map (λ j, u8 (fv_mem (flash_of hw) ((fv_ao (flash_of hw) .>> 8 + j) mod FLASH_SIZE))) (seqZ 0 (Z.of_nat k)) ∧
      flash_of (dev_wr32 SPI_CS_ADDRESS v hw) = flash_of hw <| fv_d := d |> <| fv_busy := b |>;
}.

Lemma ao_fields op a : 0 <= op < 256 → 0 <= a < FLASH_SIZE →
  u32 (SPI_AO_OPC_SET op .| SPI_AO_ADDR_SET a) .& 0xff = op ∧ u32 (SPI_AO_OPC_SET op .| SPI_AO_ADDR_SET a) .>> 8 = a.
Proof.
  unfold FLASH_SIZE. intros Hop Ha. assert (SPI_AO_OPC_SET op .| SPI_AO_ADDR_SET a = op + a * 2 ^ 8) as ->.
  { unfold SPI_AO_OPC_SET, SPI_AO_ADDR_SET. rewrite Z.shiftl_0_r. change 255 with (2 ^ 8 - 1). rewrite land_mask, Z.mod_small by lia.
    rewrite u32_small by (rewrite Z.shiftl_mul_pow2 by lia; lia). change 0xffffff00 with (Z.ones 24 .<< 8).
    rewrite <-Z.shiftl_land, Z.land_ones, (Z.mod_small a) by lia. apply lor_shiftl_add; lia. }
  rewrite u32_small by lia. change 0xff with (2 ^ 8 - 1). rewrite land_mask, Z.shiftr_div_pow2 by lia. split; mlia.
Qed.

Lemma le_be_word b0 b1 b2 b3 : in_u8 b0 → in_u8 b1 → in_u8 b2 → in_u8 b3 →
  in_u32 (be_word [b0; b1; b2; b3]) ∧ le_bytes (be_word [b0; b1; b2; b3]) = [b3; b2; b1; b0].
Proof.
  unfold in_u8, in_u32, be_word, le_bytes. cbn [foldl]. intros. split; [lia|]. rewrite !shiftr_u8 by done. unfold u8.
  change (2 ^ 8) with 256. change (2 ^ 16) with 65536. change (2 ^ 24) with 16777216. f_equal; [mlia|]. f_equal; [mlia|]. f_equal; [mlia|]. f_equal. mlia.
Qed.
Lemma program_chunk_word a e : 0 <= a → a mod 4 = 0 → a + 4 <= e → e <= FLASH_SIZE → program_chunk a e = 4.
Proof.
  unfold FLASH_SIZE, program_chunk, ZM_SFLASH_PAGE_SIZE, u32. intros. rewrite (Z.mod_small (a - _ + _)) by mlia.
  rewrite (Z.mod_small (e - a)), (Z.mod_small (a - _ + _ - a)) by mlia.
  rewrite (proj2 (Z.geb_le _ _)) by mlia. destruct (Z.gtb_spec 4 (e - a)); lia.
Qed.
Lemma page_program_word f a b0 b1 b2 b3 x : 0 <= a → a mod 4 = 0 →
  page_program f a [b0; b1; b2; b3] x
    = if decide (a <= x < a + 4) then f x .& nth (Z.to_nat (x - a)) [b0; b1; b2; b3] 0 else f x.
Proof.
  intros Ha Hm. unfold page_program. destruct (decide _) as [Hx|Hx].
  - rewrite (proj2 (Z.eqb_eq _ _)) by mlia. rewrite (Z.mod_small (x - a)) by lia.
    assert (x - a = 0 ∨ x - a = 1 ∨ x - a = 2 ∨ x - a = 3) as [->|[->|[->| ->]]] by lia; done.
  - destruct (Z.eqb_spec (x / 256) (a / 256)) as [E|]; [|done]. rewrite lookup_ge_None_2; [done|]. cbn [length]. mlia.
Qed.

Section props.
Context {HW C : Type} `{SpiFlash HW}.
Context (n : nat) (Hbn : (busy_max < n)%nat) (Hwn : (wip_max < n)%nat).
Implicit Types (s : svc HW C) (hw : HW) (f : Z → Z).

(** No transaction and no write is under way. *)
Definition idle f (wel : bool) hw : Prop :=
  fv_mem (flash_of hw) = f ∧ fv_wel (flash_of hw) = wel ∧ fv_busy (flash_of hw) = 0%nat ∧ fv_wip (flash_of hw) = 0%nat.
(** Both may be. *)
Definition settling f hw : Prop :=
  fv_mem (flash_of hw) = f ∧ (fv_busy (flash_of hw) <= busy_max)%nat ∧ (fv_wip (flash_of hw) <= wip_max)%nat.
Definition same_core (v v' : flash_view) : Prop := fv_mem v' = fv_mem v ∧ fv_wel v' = fv_wel v.

Lemma idle_settling f wel hw : idle f wel hw → settling f hw.
Proof. intros (? & ? & E1 & E2). unfold settling. rewrite E1, E2. split_and!; [done|lia..]. Qed.

Lemma wp_transaction_over s (Q : unit → svc HW C → Prop) :
  (fv_busy (flash_of (sv_hw s)) <= busy_max)%nat →
  (∀ hw, flash_of hw = flash_of (sv_hw s) <| fv_busy := 0%nat |> → Q tt (s <| sv_hw := hw |>)) →
  wp (_cmnos_sflash_WaitTillTransactionOver n) Q s.
Proof.
  intros Hb HQ. apply (wp_do_while (λ s', ∃ hw, s' = s <| sv_hw := hw |> ∧
      flash_of hw <| fv_busy := 0%nat |> = flash_of (sv_hw s) <| fv_busy := 0%nat |> ∧ (fv_busy (flash_of hw) <= busy_max)%nat)
    (λ s', fv_busy (flash_of (sv_hw s')))).
  - intros s' (hw & -> & E & Hle). apply wp_bind, wp_ioread32.
    intros w hw' Er. pose proof (cs_read hw) as Hr. change (sv_hw (s <| sv_hw := hw |>)) with hw in Er. rewrite Er in Hr.
    destruct Hr as [Hz Ev]. apply wp_ret. destruct (Z.eqb_spec (SPI_CS_BUSY_GET w) 0) as [E0|E0]; cbn.
    + apply HQ. rewrite Ev. apply Hz in E0. rewrite <-E. destruct (flash_of hw); fields. by rewrite E0.
    + assert (fv_busy (flash_of hw) ≠ 0%nat) as Hne by (intros H'; by apply E0, Hz).
      split; [|rewrite Ev; fields; lia]. exists hw'. split; [done|]. rewrite Ev. fields. split; [|lia]. rewrite <-E. by destruct (flash_of hw).
  - exists (sv_hw s). split; [by destruct s|]. split; [done|lia].
  - cbn. lia.
Qed.

Lemma wp_not_in_process f wel s (Q : unit → svc HW C → Prop) :
  settling f (sv_hw s) → fv_wel (flash_of (sv_hw s)) = wel →
  (∀ hw, idle f wel hw → Q tt (s <| sv_hw := hw |>)) →
  wp (_cmnos_sflash_WaitTillNotWriteInProcess n) Q s.
Proof.
  intros (Hf & Hb & Hw) Hl HQ. apply (wp_do_while (λ s', ∃ hw, s' = s <| sv_hw := hw |> ∧ settling f hw ∧ fv_wel (flash_of hw) = wel)
    (λ s', fv_wip (flash_of (sv_hw s')))).
  - intros s' (hw & -> & (Hf' & Hb' & Hw') & Hl'). apply wp_bind, wp_transaction_over; [done|]. intros hw1 E1.
    apply wp_bind, wp_iowrite32. apply wp_bind, wp_iowrite32. set (hw3 := dev_wr32 _ _ _).
    assert (∃ st b, (b <= busy_max)%nat ∧ (st .& ZM_SFLASH_STATUS_REG_WIP = 0 ↔ fv_wip (flash_of hw) = 0%nat) ∧
      flash_of hw3 = flash_of hw1 <| fv_ao := ZM_SFLASH_OP_RDSR |> <| fv_d := st |> <| fv_wip ::= Nat.pred |> <| fv_busy := b |>) as (st & b & Hbb & Hst & E3).
    { pose proof (ao_write (u32 (SPI_AO_OPC_SET ZM_SFLASH_OP_RDSR)) hw1) as E2. rewrite E1 in E2. specialize (E2 eq_refl).
      destruct (do_rdsr (u32 (SPI_CS_TXBCNT_SET 1 .| SPI_CS_RXBCNT_SET 1 .| SPI_CS_XCNSTART_SET 1))
        (dev_wr32 SPI_AO_ADDRESS (u32 (SPI_AO_OPC_SET ZM_SFLASH_OP_RDSR)) hw1)) as (st & b & Hbb & Hst & E3); [by rewrite E2|done|by rewrite E2|].
      exists st, b. split_and!; [done| |]; [by rewrite E2 in Hst|]. subst hw3. fields. rewrite E3, E2, E1. done. }
    apply wp_bind, wp_transaction_over; [cbn; rewrite E3; exact Hbb|]. intros hw4 E4. apply wp_bind, wp_ioread32. intros w hw5 Er.
    change (sv_hw (_ <| sv_hw := hw4 |>)) with hw4 in Er. pose proof (d_read hw4) as Hd. rewrite Er, E4 in Hd. destruct (Hd eq_refl) as [-> E5]. clear Hd.
    change (sv_hw (_ <| sv_hw := hw3 |>)) with hw3 in *. rewrite E3, E1 in E5. rewrite E3 in *.
    apply wp_ret. change (fv_d _) with st. destruct (Z.eqb_spec (st .& ZM_SFLASH_STATUS_REG_WIP) 0) as [E0|E0]; cbn [negb].
    + apply HQ. apply Hst in E0. unfold idle. rewrite E5. fields. by rewrite E0.
    + assert (fv_wip (flash_of hw) ≠ 0%nat) as Hne by (intros H'; by apply E0, Hst).
      split; [|cbn; rewrite E5; fields; lia]. exists hw5. split; [done|]. split; [|rewrite E5; by fields]. unfold settling. rewrite E5. fields. split_and!; [done|lia..].
  - exists (sv_hw s). split; [by destruct s|]. by split.
  - lia.
Qed.

Lemma wp_write_enable f s (Q : unit → svc HW C → Prop) :
  settling f (sv_hw s) → (∀ hw, idle f true hw → Q tt (s <| sv_hw := hw |>)) → wp (_cmnos_sflash_WriteEnable n) Q s.
Proof.
  intros Hs HQ. apply wp_bind. eapply wp_not_in_process; [done|reflexivity|]. intros hw1 (E1 & E2 & E3 & E4).
  apply wp_bind, wp_iowrite32. apply wp_bind, wp_iowrite32. set (hw3 := dev_wr32 _ _ _).
  assert (∃ b, (b <= busy_max)%nat ∧ flash_of hw3 = flash_of hw1 <| fv_ao := ZM_SFLASH_OP_WREN |> <| fv_wel := true |> <| fv_busy := b |>) as (b & Hb & E).
  { pose proof (ao_write (u32 (SPI_AO_OPC_SET ZM_SFLASH_OP_WREN)) hw1 E3) as E5.
    destruct (do_wren (u32 (SPI_CS_TXBCNT_SET 1 .| SPI_CS_RXBCNT_SET 0 .| SPI_CS_XCNSTART_SET 1))
      (dev_wr32 SPI_AO_ADDRESS (u32 (SPI_AO_OPC_SET ZM_SFLASH_OP_WREN)) hw1)) as (b & Hb & E6); [by rewrite E5|by rewrite E5|done|by rewrite E5|].
    exists b. split; [done|]. subst hw3. fields. by rewrite E6, E5. }
  apply wp_transaction_over; [cbn; by rewrite E|]. intros hw4 E6. apply HQ. unfold idle. rewrite E6. cbn. rewrite E. fields. by rewrite E1, E4.
Qed.

(** Ready for an operation on [op] at [a]. *)
Lemma wp_enabled f op a s (Q : unit → svc HW C → Prop) k :
  settling f (sv_hw s) → 0 <= op < 256 → 0 <= a < FLASH_SIZE →
  (∀ hw, idle f true hw → fv_ao (flash_of hw) .& 0xff = op → fv_ao (flash_of hw) .>> 8 = a → wp k Q (s <| sv_hw := hw |>)) →
  wp (_cmnos_sflash_WriteEnable n ;; _cmnos_sflash_WaitTillNotWriteInProcess n ;;
      iowrite32 SPI_AO_ADDRESS (SPI_AO_OPC_SET op .| SPI_AO_ADDR_SET a) ;; k) Q s.
Proof.
  intros Hs Hop Ha HQ. apply wp_bind, (wp_write_enable f); [done|]. intros hw1 H1.
  apply wp_bind, (wp_not_in_process f true); [by eapply idle_settling|apply H1|]. intros hw2 (E1 & E2 & E3 & E4).
  apply wp_bind, wp_iowrite32. set (hw3 := dev_wr32 _ _ _). destruct (ao_fields op a) as [F1 F2]; [done..|].
  pose proof (ao_write (u32 (SPI_AO_OPC_SET op .| SPI_AO_ADDR_SET a)) hw2 E3) as E5.
  apply (HQ hw3); unfold idle; subst hw3; fields; rewrite E5; by fields.
Qed.

Lemma wp_erase f t a s (Q : unit → svc HW C → Prop) : settling f (sv_hw s) → 0 <= a < FLASH_SIZE →
  (∀ hw, idle (unit_erase (erase_unit (erase_op t)) f a) false hw → Q tt (s <| sv_hw := hw |>)) →
  wp (cmnos_sflash_erase n t a) Q s.
Proof.
  intros Hs Ha HQ. unfold cmnos_sflash_erase. set (op := erase_op t) in *.
  set (tx := if t =? ZM_SFLASH_SECTOR_ERASE then 4 else if t =? ZM_SFLASH_BLOCK_ERASE then 4 else 1).
  assert (op = ZM_SFLASH_OP_SE ∧ tx = 4 ∨ op = ZM_SFLASH_OP_BE ∧ tx = 4 ∨ op = ZM_SFLASH_OP_CE ∧ tx = 1) as Hop.
  { subst op tx. unfold erase_op. destruct (t =? _); [auto|]. destruct (t =? _); auto. }
  replace (if t =? ZM_SFLASH_SECTOR_ERASE then _ else _) with (op, tx) by (subst op tx; unfold erase_op; destruct (t =? _); [done|]; by destruct (t =? _)).
  clearbody op tx. apply (wp_enabled f); [done|by destruct Hop as [[-> ->]|[[-> ->]|[-> ->]]]|done|].
  intros hw (E1 & E2 & E3 & E4) F1 F2. apply wp_bind, wp_iowrite32.
  destruct (do_erase op tx (u32 (SPI_CS_TXBCNT_SET tx .| SPI_CS_RXBCNT_SET 0 .| SPI_CS_XCNSTART_SET 1)) hw) as (b & w & Hb & Hw & E5);
    [done..|by destruct Hop as [[-> ->]|[[-> ->]|[-> ->]]]|done|].
  eapply wp_not_in_process.
  - unfold settling. fields. rewrite E5. fields. by split_and!.
  - reflexivity.
  - intros hw' Hi. fields. rewrite E5, E1, F2 in Hi. exact (HQ _ Hi).
Qed.

(** What the flash holds when the first [k] bytes have been programmed. *)
Definition programmed (f : Z → Z) (m : gmap Z Z) (addr buf k x : Z) : Z :=
  if decide (addr <= x < addr + k) then f x .& mem_rd m (buf + wswap (x - addr)) else f x.

Lemma wp_program_loop f0 addr len buf : 0 <= addr → addr mod 4 = 0 → 0 <= len → len mod 4 = 0 → addr + len <= FLASH_SIZE →
  0 <= buf → buf + len <= 0x100000000 →
  ∀ fuel i g s t (Q : unit → svc HW C → Prop),
  (∀ k, 0 <= k < len → in_u8 (mem_rd (sv_mem s) (buf + k))) →
  settling g (sv_hw s) → (∀ x, g x = programmed f0 (sv_mem s) addr buf (4 * i) x) →
  0 <= i → 4 * i <= len → len - 4 * i <= Z.of_nat fuel →
  (∀ hw g, settling g hw → (∀ x, g x = programmed f0 (sv_mem s) addr buf len x) → Q tt (s <| sv_hw := hw |>)) →
  wp (program_loop n fuel addr (addr + len) buf (addr + 4 * i) t) Q s.
Proof.
  unfold FLASH_SIZE. intros Ha Ham Hl Hlm Hsz Hb Hbl. induction fuel as [|fuel IH]; intros i g s t Q Hm Hg Hgx Hi Hil Hf HQ.
  { cbn [program_loop]. destruct (Z.ltb_spec (addr + 4 * i) (addr + len)); [lia|]. apply wp_ret.
    replace s with (s <| sv_hw := sv_hw s |>) by by destruct s. apply (HQ (sv_hw s) g); [done|]. by replace len with (4 * i) by lia. }
  cbn [program_loop]. destruct (Z.ltb_spec (addr + 4 * i) (addr + len)); cycle 1.
  { apply wp_ret. replace s with (s <| sv_hw := sv_hw s |>) by by destruct s. apply (HQ (sv_hw s) g); [done|]. by replace len with (4 * i) by lia. }
  rewrite program_chunk_word by (unfold FLASH_SIZE; mlia). change (Z.to_nat 4) with 4%nat.
  replace (addr + 4 * i - addr) with (4 * i) by lia. rewrite (u32_small (4 * i)), (u32_small (buf + 4 * i)) by lia.
  apply wp_bind, wp_gets. change (drop 4 (be_bytes t)) with (@nil Z). rewrite app_nil_r. unfold mem_get.
  change (seqZ 0 (Z.of_nat 4)) with [0; 1; 2; 3]. cbn [map].
  destruct (le_be_word (mem_rd (sv_mem s) (buf + 4 * i + 0)) (mem_rd (sv_mem s) (buf + 4 * i + 1)) (mem_rd (sv_mem s) (buf + 4 * i + 2))
    (mem_rd (sv_mem s) (buf + 4 * i + 3))) as [Hw Hle]; [rewrite <-Z.add_assoc; apply Hm; mlia..|].
  set (w := be_word _) in *.
  apply (wp_enabled g); [done|done|unfold FLASH_SIZE; lia|]. intros hw (E1 & E2 & E3 & E4) F1 F2.
  apply wp_bind, wp_iowrite32. apply wp_bind, wp_iowrite32. set (hw3 := dev_wr32 _ _ _).
  assert (∃ b w', (b <= busy_max)%nat ∧ (w' <= wip_max)%nat ∧ fv_busy (flash_of hw3) = b ∧ fv_wip (flash_of hw3) = w' ∧
    fv_mem (flash_of hw3) = page_program g (addr + 4 * i) (le_bytes w)) as (b & w' & Hbb & Hww & G1 & G2 & G3).
  { pose proof (d_write (u32 (SPI_D_DATA_SET w)) hw E3) as E5.
    destruct (do_pp 4 (u32 (SPI_CS_TXBCNT_SET (4 + 4) .| SPI_CS_RXBCNT_SET 0 .| SPI_CS_XCNSTART_SET 1)) (dev_wr32 SPI_D_ADDRESS (u32 (SPI_D_DATA_SET w)) hw))
      as (b & w' & Hbb & Hww & E6); [by rewrite E5; fields..|lia|done|by rewrite E5; fields|].
    exists b, w'. split_and!; [done..| | |]; subst hw3; fields; rewrite E6, E5; fields; [done..|]. rewrite E1, F2.
    unfold SPI_D_DATA_SET. rewrite Z.shiftl_0_r. change 4294967295 with (2 ^ 32 - 1). rewrite land_mask by done. rewrite Z.mod_small by apply Hw. by rewrite u32_small. }
  rewrite Hle in G3. clear Hle. apply wp_bind, wp_transaction_over; [cbn; by rewrite G1|]. intros hw4 E7. change (sv_hw (_ <| sv_hw := hw3 |>)) with hw3 in E7.
  rewrite u32_small by lia. replace (addr + 4 * i + 4) with (addr + 4 * (i + 1)) by lia.
  eapply IH; [exact Hm| | |lia|mlia|lia|].
  - unfold settling. fields. rewrite E7. fields. split; [exact G3|]. rewrite G2. split; [lia|done].
  - intros x. rewrite page_program_word by mlia. fields. rewrite !Hgx. unfold programmed.
    destruct (decide (addr + 4 * i <= x < addr + 4 * i + 4)) as [Hx|Hx].
    + rewrite decide_False by lia. rewrite decide_True by lia. f_equal.
      assert (x - (addr + 4 * i) = 0 ∨ x - (addr + 4 * i) = 1 ∨ x - (addr + 4 * i) = 2 ∨ x - (addr + 4 * i) = 3) as Hc by lia.
      destruct Hc as [E|[E|[E|E]]]; rewrite E; cbn; f_equal; unfold wswap; mlia.
    + destruct (decide (addr <= x < addr + 4 * i)); [by rewrite decide_True by lia|by rewrite decide_False by lia].
  - intros hw5 g' Hg' Hgx'. by apply (HQ hw5 g').
Qed.

Lemma wp_program f0 junk addr len buf s (Q : unit → svc HW C → Prop) :
  0 <= addr → addr mod 4 = 0 → 0 <= len → len mod 4 = 0 → addr + len <= FLASH_SIZE → 0 <= buf → buf + len <= 0x100000000 →
  (∀ k, 0 <= k < len → in_u8 (mem_rd (sv_mem s) (buf + k))) → settling f0 (sv_hw s) →
  (∀ hw g, settling g hw → (∀ x, g x = programmed f0 (sv_mem s) addr buf len x) → Q tt (s <| sv_hw := hw |>)) →
  wp (cmnos_sflash_program n junk addr len buf) Q s.
Proof.
  intros Ha Ham Hl Hlm Hsz Hb Hbl Hm Hf HQ. unfold cmnos_sflash_program. unfold FLASH_SIZE in *. rewrite u32_small by lia.
  replace addr with (addr + 4 * 0) at 3 by lia. apply (wp_program_loop f0 _ _ _ Ha Ham Hl Hlm Hsz Hb Hbl _ 0 f0); try done; [|lia].
  intros x. unfold programmed. by rewrite decide_False by lia.
Qed.

Lemma wp_ioread8 a s (Q : Z → svc HW C → Prop) :
  (∀ w hw, dev_rd8 a (sv_hw s) = (w, hw) → Q w (s <| sv_hw := hw |>)) → wp (ioread8 a) Q s.
Proof. unfold wp, ioread8, dev_get. destruct (dev_rd8 a (sv_hw s)). by auto. Qed.
Lemma wp_data_byte v j b s (Q : Z → svc HW C → Prop) : flash_of (sv_hw s) = v → fv_busy v = 0%nat → 0 <= j < 4 →
  be_bytes (fv_d v) !! Z.to_nat j = Some b →
  (∀ hw, flash_of hw = v → Q b (s <| sv_hw := hw |>)) → wp (ioread8 (SPI_D_ADDRESS + j)) Q s.
Proof.
  intros <- Hb Hj Hd HQ. apply wp_ioread8. intros w hw E. pose proof (d_read8 j (sv_hw s) Hb Hj) as Hr. rewrite E, Hd in Hr.
  destruct Hr as [[= ->] Hv]. by apply HQ.
Qed.
Lemma wp_read_data v s (Q : list Z → svc HW C → Prop) : flash_of (sv_hw s) = v → fv_busy v = 0%nat →
  (∀ hw, flash_of hw = v → Q (be_bytes (fv_d v)) (s <| sv_hw := hw |>)) → wp (read_data 4) Q s.
Proof.
  intros Hv Hb HQ. unfold read_data. change (seqZ 0 4) with [0; 1; 2; 3].
  apply wp_bind. eapply (wp_data_byte v); [done..|]. intros hw1 E1.
  apply wp_bind, wp_bind. eapply (wp_data_byte v); [done..|]. intros hw2 E2.
  apply wp_bind, wp_bind. eapply (wp_data_byte v); [done..|]. intros hw3 E3.
  apply wp_bind, wp_bind. eapply (wp_data_byte v); [done..|]. intros hw4 E4.
  repeat (apply wp_bind, wp_ret || apply wp_ret). by apply (HQ hw4).
Qed.

(** What the memory holds when [k] bytes have been read. *)
Definition fetched (f : Z → Z) (m : gmap Z Z) (addr dst k x : Z) : Z :=
  if decide (dst <= x < dst + k) then u8 (f (addr + wswap (x - dst))) else mem_rd m x.

Lemma fetched_word f m m0 addr dst i d x : 0 <= i →
  (∀ x, mem_rd m x = fetched f m0 addr dst (4 * i) x) → le_bytes d = map (λ j, u8 (f (addr + i * 4 + j))) [0; 1; 2; 3] →
  mem_rd (mem_set (dst + i * 4) (be_bytes d) m) x = fetched f m0 addr dst (4 * (i + 1)) x.
Proof.
  intros Hi Hm Hd. rewrite mem_rd_set. unfold be_bytes. injection Hd as -> -> -> ->. change (Z.of_nat (length [_; _; _; _])) with 4.
  unfold fetched in *. destruct (decide (dst + i * 4 <= x < dst + i * 4 + 4)) as [Hx|Hx].
  - rewrite decide_True by lia.
    assert (x - (dst + i * 4) = 0 ∨ x - (dst + i * 4) = 1 ∨ x - (dst + i * 4) = 2 ∨ x - (dst + i * 4) = 3) as Hc by lia.
    destruct Hc as [E|[E|[E|E]]]; rewrite E; cbn; do 2 f_equal; unfold wswap; mlia.
  - rewrite Hm. destruct (decide (dst <= x < dst + 4 * i)); [by rewrite decide_True by lia|by rewrite decide_False by lia].
Qed.

Lemma wp_read f fast addr len dst s (Q : unit → svc HW C → Prop) :
  0 <= addr → 0 <= len → len mod 4 = 0 → addr + len <= FLASH_SIZE → 0 <= dst → dst + len <= 0x100000000 → settling f (sv_hw s) →
  (∀ hw m, settling f hw → (∀ x, mem_rd m x = fetched f (sv_mem s) addr dst len x) → Q tt (s <| sv_hw := hw |> <| sv_mem := m |>)) →
  wp (cmnos_sflash_read n fast addr len dst) Q s.
Proof.
  intros Ha Hl Hlm Hsz Hd Hdl Hs HQ. unfold cmnos_sflash_read.
  set (op := if truthy fast then ZM_SFLASH_OP_FAST_READ else ZM_SFLASH_OP_READ). set (tx := if truthy fast then 5 else 4).
  replace (if truthy fast then _ else _) with (op, tx) by (subst op tx; by destruct (truthy fast)).
  assert (op = ZM_SFLASH_OP_READ ∧ tx = 4 ∨ op = ZM_SFLASH_OP_FAST_READ ∧ tx = 5) as Hop by (subst op tx; destruct (truthy fast); auto).
  clearbody op tx. rewrite Hlm. change (truthy 0) with false.
  set (I := λ (l : list Z) (s' : svc HW C), ∃ hw m, s' = s <| sv_hw := hw |> <| sv_mem := m |> ∧ settling f hw ∧
    (∀ x, mem_rd m x = fetched f (sv_mem s) addr dst (4 * Z.of_nat (length l)) x)).
  apply (wp_mono _ (λ _, I (seqZ 0 (len / 4)))); cycle 1.
  { intros [] s' (hw & m & -> & Hs' & Hm). rewrite length_seqZ in Hm. apply HQ; [done|]. intros x. rewrite Hm. f_equal. mlia. }
  apply wp_for_each_acc; cycle 1.
  { exists (sv_hw s), (sv_mem s). split_and!; [by destruct s|done|]. intros x. unfold fetched. by rewrite decide_False by (cbn; lia). }
  intros dn i rest s' El (hw & m & -> & Hs' & Hm).
  assert (0 <= i < len / 4 ∧ i = Z.of_nat (length dn)) as [Hi Ei].
  { assert (seqZ 0 (len / 4) !! length dn = Some i) as E by (rewrite El; by apply list_lookup_middle). apply lookup_seqZ in E. lia. }
  unfold FLASH_SIZE in *. rewrite andb_false_r. rewrite (u32_small (addr + i * 4)), (u32_small (dst + i * 4)) by mlia.
  apply wp_bind. eapply wp_not_in_process; [done|reflexivity|]. intros hw1 (E1 & E2 & E3 & E4).
  apply wp_bind, wp_iowrite32. apply wp_bind, wp_iowrite32. set (hw3 := dev_wr32 _ _ _).
  destruct (ao_fields op (addr + i * 4)) as [F1 F2]; [by destruct Hop as [[-> ->]|[-> ->]]|unfold FLASH_SIZE; mlia|].
  assert (∃ d b, (b <= busy_max)%nat ∧ le_bytes d = map (λ j, u8 (f (addr + i * 4 + j))) [0; 1; 2; 3] ∧
    flash_of hw3 = flash_of hw1 <| fv_ao := u32 (SPI_AO_OPC_SET op .| SPI_AO_ADDR_SET (addr + i * 4)) |> <| fv_d := d |> <| fv_busy := b |>)
    as (d & b & Hb & Hde & G).
  { pose proof (ao_write (u32 (SPI_AO_OPC_SET op .| SPI_AO_ADDR_SET (addr + i * 4))) hw1 E3) as E5.
    destruct (do_read op tx 4 (u32 (SPI_CS_TXBCNT_SET tx .| SPI_CS_RXBCNT_SET 4 .| SPI_CS_XCNSTART_SET 1))
      (dev_wr32 SPI_AO_ADDRESS (u32 (SPI_AO_OPC_SET op .| SPI_AO_ADDR_SET (addr + i * 4))) hw1)) as (d & b & Hb & Hdw & Hde & E6);
      [by rewrite E5|by rewrite E5|done|lia|by destruct Hop as [[-> ->]|[-> ->]]|by rewrite E5|].
    exists d, b. split_and!; [done| |].
    - change (take 4 (le_bytes d)) with (le_bytes d) in Hde. rewrite Hde, E5. change (seqZ 0 (Z.of_nat 4)) with [0; 1; 2; 3].
      change (fv_ao (flash_of hw1 <| fv_ao := ?v |>)) with v. rewrite F2. change (fv_mem (flash_of hw1 <| fv_ao := _ |>)) with (fv_mem (flash_of hw1)). rewrite E1.
      unfold FLASH_SIZE. cbn [map]. rewrite !(Z.mod_small (addr + i * 4 + _)) by mlia. done.
    - clear Hde Hdw. subst hw3. fields. by rewrite E6, E5. }
  apply wp_bind, wp_transaction_over; [change (sv_hw (_ <| sv_hw := hw3 |>)) with hw3; by rewrite G|]. intros hw4 E7.
  change (sv_hw (_ <| sv_hw := hw3 |>)) with hw3 in E7. rewrite G in E7.
  apply wp_bind. eapply wp_read_data; [exact E7|done|]. intros hw5 E8. change (fv_d _) with d.
  apply wp_modify. exists hw5, (mem_set (dst + i * 4) (be_bytes d) m). split_and!; [by destruct s| |].
  - unfold settling. rewrite E8. fields. rewrite E4. split_and!; [done|lia..].
  - intros x. rewrite length_app, Nat2Z.inj_add. change (Z.of_nat (length [i])) with 1. rewrite <-Ei.
    apply fetched_word; [lia|by rewrite Ei|done].
Qed.

(** C13: What is programmed into erased flash can be read back: erase what holds the bytes from
    [addr], program them and read them again, at the slow or the fast rate, and they are in
    memory as they were, however long the controller is busy and the flash writes; nothing else
    in memory has changed, nor anything in the flash outside what was erased. Addresses and
    lengths are multiples of four, as the console requires. *)
Theorem flash_keeps_data erase_type eaddr fast junk addr len buf dst s :
  settling (fv_mem (flash_of (sv_hw s))) (sv_hw s) →
  0 <= eaddr < FLASH_SIZE → 0 <= addr → addr mod 4 = 0 → 0 <= len → len mod 4 = 0 → addr + len <= FLASH_SIZE →
  (∀ x, addr <= x < addr + len → x / erase_unit (erase_op erase_type) = eaddr / erase_unit (erase_op erase_type)) →
  0 <= buf → buf + len <= 0x100000000 → 0 <= dst → dst + len <= 0x100000000 →
  (∀ k, 0 <= k < len → in_u8 (mem_rd (sv_mem s) (buf + k))) →
  wp (cmnos_sflash_erase n erase_type eaddr ;; cmnos_sflash_program n junk addr len buf ;; cmnos_sflash_read n fast addr len dst)
    (λ _ s', (∀ k, 0 <= k < len → mem_rd (sv_mem s') (dst + k) = mem_rd (sv_mem s) (buf + k)) ∧
      (∀ x, x < dst ∨ dst + len <= x → mem_rd (sv_mem s') x = mem_rd (sv_mem s) x) ∧
      (∀ x, x / erase_unit (erase_op erase_type) ≠ eaddr / erase_unit (erase_op erase_type) →
        fv_mem (flash_of (sv_hw s')) x = fv_mem (flash_of (sv_hw s)) x) ∧
      settling (fv_mem (flash_of (sv_hw s'))) (sv_hw s')) s.
Proof.
  intros Hs He Ha Ham Hl Hlm Hsz Hu Hb Hbl Hd Hdl Hm. set (u := erase_unit _) in *.
  apply wp_bind. eapply wp_erase; [exact Hs|done|]. fold u. intros hw1 Hi%idle_settling.
  apply wp_bind. eapply wp_program; try done. intros hw2 g Hg Hgx.
  eapply wp_read; try done. intros hw3 m Hf Hmx.
  change (sv_mem (s <| sv_hw := hw1 |>)) with (sv_mem s) in *. change (sv_mem (_ <| sv_hw := hw2 |>)) with (sv_mem s) in *.
  change (sv_mem (_ <| sv_mem := m |>)) with m. change (sv_hw (_ <| sv_mem := m |>)) with hw3. split_and!.
  - intros k Hk. rewrite Hmx. unfold fetched. rewrite decide_True by lia. replace (dst + k - dst) with k by lia.
    pose proof (wswap_range k len Hlm Hk). rewrite Hgx. unfold programmed, unit_erase. rewrite decide_True by lia.
    rewrite (proj2 (Z.eqb_eq _ _)) by (apply Hu; lia). replace (addr + wswap k - addr) with (wswap k) by lia. rewrite wswap_wswap.
    rewrite Z.land_comm. change 255 with (2 ^ 8 - 1). rewrite land_mask by done. change (2 ^ 8) with 256. unfold u8. rewrite Z.mod_mod by done. apply Z.mod_small, Hm, Hk.
  - intros x Hx. rewrite Hmx. unfold fetched. by rewrite decide_False by lia.
  - intros x Hx. destruct Hf as (-> & _). rewrite Hgx. unfold programmed, unit_erase. rewrite decide_False by (intros Hc; by apply Hx, Hu).
    by rewrite (proj2 (Z.eqb_neq _ _)).
  - destruct Hf as [_ Hr]. by split.
Qed.
End props.
