(* ===== verification/SflashSample.v ===== *)
(** * A small serial flash

    A chip that is busy for two polls after each transaction and for three after a write, and
    the round trip on it. *)

From S2P Require Import Prelude.
From S2P Require Import Hif.
From S2P Require Import UsbProps.
From S2P Require Import Io.
From S2P Require Import Sflash.
From S2P Require Import SflashProps.

Module chip.
Definition rd32 (a : Z) (c : flash_view) : Z * flash_view :=
  if a =? SPI_CS_ADDRESS then (if (fv_busy c =? 0)%nat then 0 else 0x10000, c <| fv_busy ::= Nat.pred |>)
  else if a =? SPI_D_ADDRESS then (fv_d c, c) else (0, c).
Definition rd8 (a : Z) (c : flash_view) : Z * flash_view := (nth (Z.to_nat (a - SPI_D_ADDRESS)) (be_bytes (fv_d c)) 0, c).
Definition status (c : flash_view) : Z := if (fv_wip c =? 0)%nat then 0 else 1.
(** The little-endian word of the bytes that come in. *)
Definition fetch (c : flash_view) (a : Z) (k : nat) : Z :=
  foldr (λ b w, b + 256 * w) 0 (map (λ j, u8 (fv_mem c ((a + j) mod FLASH_SIZE))) (seqZ 0 (Z.of_nat k))).
Definition written (c : flash_view) (f : Z → Z) : flash_view := c <| fv_mem := f |> <| fv_wel := false |> <| fv_wip := 3%nat |> <| fv_busy := 2%nat |>.
Definition run (tx rx : Z) (c : flash_view) : flash_view :=
  let op := fv_ao c .& 0xff in
  let a := fv_ao c .>> 8 in
  if op =? ZM_SFLASH_OP_RDSR then c <| fv_d := status c |> <| fv_wip ::= Nat.pred |> <| fv_busy := 2%nat |>
  else if op =? ZM_SFLASH_OP_WREN then c <| fv_wel := true |> <| fv_busy := 2%nat |>
  else if op =? ZM_SFLASH_OP_PP then
    written c (page_program (fv_mem c) a (take (Z.to_nat (tx - 4)) (le_bytes (fv_d c))))
  else if (op =? ZM_SFLASH_OP_SE) || (op =? ZM_SFLASH_OP_BE) || (op =? ZM_SFLASH_OP_CE) then
    written c (unit_erase (erase_unit op) (fv_mem c) a)
  else c <| fv_d := fetch c a (Z.to_nat rx) |> <| fv_busy := 2%nat |>.
Definition wr32 (a v : Z) (c : flash_view) : flash_view :=
  if a =? SPI_AO_ADDRESS then c <| fv_ao := v |>
  else if a =? SPI_D_ADDRESS then c <| fv_d := v |>
  else if (a =? SPI_CS_ADDRESS) && tst v 0x100 then run (v .& 0xf) ((v .& 0xf0) .>> 4) c else c.
End chip.

#[export] Instance chip_io : DevIo flash_view := {|
  dev_rd8 := chip.rd8; dev_rd16 _ c := (0, c); dev_rd32 := chip.rd32;
  dev_wr8 _ _ c := c; dev_wr16 _ _ c := c; dev_wr32 := chip.wr32 |}.

Lemma fetch_bytes k (l : list Z) : (k <= 4)%nat → length l = k → Forall in_u8 l →
  in_u32 (foldr (λ b w, b + 256 * w) 0 l) ∧ take k (le_bytes (foldr (λ b w, b + 256 * w) 0 l)) = l.
Proof.
  intros Hk Hl Hf. unfold le_bytes, in_u32. rewrite !shiftr_u8 by done. unfold u8, in_u8 in *.
  change (2 ^ 8) with 256. change (2 ^ 16) with 65536. change (2 ^ 24) with 16777216.
  destruct l as [|b0 [|b1 [|b2 [|b3 [|b4 l]]]]]; cbn [length] in Hl; subst k; [..|lia]; cbn [foldr take];
    repeat (apply Forall_cons in Hf as [? Hf]); (split; [lia|]); repeat (f_equal; try mlia).
Qed.

Lemma wr32_cs v c : tst v 0x100 = true → dev_wr32 SPI_CS_ADDRESS v c = chip.run (v .& 0xf) ((v .& 0xf0) .>> 4) c.
Proof.
  intros Hs. change (dev_wr32 SPI_CS_ADDRESS v c) with (if tst v 0x100 then chip.run (v .& 0xf) ((v .& 0xf0) .>> 4) c else c).
  by rewrite Hs.
Qed.

#[export] #[refine] Instance chip_flash : SpiFlash flash_view := {| flash_of c := c; busy_max := 2; wip_max := 3 |}.
Proof.
  - intros c. change (dev_rd32 SPI_CS_ADDRESS c) with (if (fv_busy c =? 0)%nat then 0 else 0x10000, c <| fv_busy ::= Nat.pred |>).
    destruct (Nat.eqb_spec (fv_busy c) 0) as [->|Hn]; [done|]. split; [|done]. split; intros E; [by vm_compute in E|by apply Hn in E].
  - by intros c _.
  - intros j c _ Hj. cbn. unfold chip.rd8. split; [|done]. replace (SPI_D_ADDRESS + j - SPI_D_ADDRESS) with j by lia.
    assert (j = 0 ∨ j = 1 ∨ j = 2 ∨ j = 3) as [->|[->|[->| ->]]] by lia; done.
  - done.
  - done.
  - intros v c Hb (Ht & Hr & Hs) Ho. exists (chip.status c), 2%nat. split; [lia|]. split.
    + unfold chip.status. destruct (Nat.eqb_spec (fv_wip c) 0) as [->|Hn]; [done|]. split; intros E; [by vm_compute in E|by apply Hn in E].
    + rewrite (wr32_cs _ _ Hs). unfold chip.run. by rewrite Ho.
  - intros v c Hb Hw (Ht & Hr & Hs) Ho. exists 2%nat. split; [lia|]. rewrite (wr32_cs _ _ Hs). unfold chip.run. by rewrite Ho.
  - intros k v c Hb Hw Hl Hk (Ht & Hr & Hs) Ho. exists 2%nat, 3%nat. split_and!; [lia..|]. rewrite (wr32_cs _ _ Hs).
    unfold chip.run. rewrite Ho, Ht. replace (Z.to_nat (4 + Z.of_nat k - 4)) with k by lia. done.
  - intros op tx v c Hb Hw Hl Hop (Ht & Hr & Hs) Ho. exists 2%nat, 3%nat. split_and!; [lia..|]. rewrite (wr32_cs _ _ Hs).
    unfold chip.run. rewrite Ho. by destruct Hop as [[-> ->]|[[-> ->]|[-> ->]]].
  - intros op tx k v c Hb Hw Hop Hk (Ht & Hr & Hs) Ho.
    set (l := map (λ j, u8 (fv_mem c ((fv_ao c .>> 8 + j) mod FLASH_SIZE))) (seqZ 0 (Z.of_nat k))).
    destruct (fetch_bytes k l) as [H1 H2]; [lia|subst l; rewrite length_map, length_seqZ; lia|apply Forall_forall; intros b; intros (j & -> & _)%list_elem_of_fmap; apply u8_range|].
    exists (chip.fetch c (fv_ao c .>> 8) k), 2%nat. split_and!; [lia|exact H1|exact H2|].
    rewrite (wr32_cs _ _ Hs). unfold chip.run. rewrite Ho, Hr, Nat2Z.id. by destruct Hop as [[-> ->]|[-> ->]].
Defined.

(** Twelve bytes, written at the end of a page. *)
Definition sample_state : svc flash_view unit :=
  mk_svc (mk_fv (λ x, x mod 256) 0 0 0 0 false) (mem_set 0x520000 [1; 2; 3; 4; 5; 6; 7; 8; 0xfe; 0xff; 0; 9] ∅) tt.
Definition sample_run : M (svc flash_view unit) unit :=
  cmnos_sflash_erase 5 ZM_SFLASH_SECTOR_ERASE 0x1234 ;; cmnos_sflash_program 5 0xdeadbeef 0x10f8 12 0x520000 ;;
  cmnos_sflash_read 5 1 0x10f8 12 0x520100.
Example round_trip : match sample_run sample_state with
  Ok (_, s) => mem_get (sv_mem s) 0x520100 12 = [1; 2; 3; 4; 5; 6; 7; 8; 0xfe; 0xff; 0; 9] ∧
    map (fv_mem (sv_hw s)) [0xfff; 0x10f7; 0x10f8; 0x10fb; 0x1104; 0x2000] = [0xff; 0xff; 4; 1; 0xff; 0] | Fault _ => False end.
Proof. vm_compute. by split. Qed.

Lemma flash_keeps_data_witness :
  wp sample_run (λ _ s', (∀ k, 0 <= k < 12 → mem_rd (sv_mem s') (0x520100 + k) = mem_rd (sv_mem sample_state) (0x520000 + k)) ∧
      (∀ x, x < 0x520100 ∨ 0x520100 + 12 <= x → mem_rd (sv_mem s') x = mem_rd (sv_mem sample_state) x) ∧
      (∀ x, x / erase_unit (erase_op ZM_SFLASH_SECTOR_ERASE) ≠ 0x1234 / erase_unit (erase_op ZM_SFLASH_SECTOR_ERASE) →
        fv_mem (flash_of (sv_hw s')) x = fv_mem (flash_of (sv_hw sample_state)) x) ∧
      settling (fv_mem (flash_of (sv_hw s'))) (sv_hw s')) sample_state.
Proof.
  unfold sample_run. refine (flash_keeps_data 5 _ _ ZM_SFLASH_SECTOR_ERASE 0x1234 1 0xdeadbeef 0x10f8 12 0x520000 0x520100 sample_state _ _ _ _ _ _ _ _ _ _ _ _ _);
    try (unfold FLASH_SIZE; lia); try done.
  - change (2 < 5)%nat. lia.
  - change (3 < 5)%nat. lia.
  - unfold settling. split_and!; [done|apply Nat.le_0_l..].
  - intros x Hx. change (erase_unit _) with 0x1000. mlia.
  - intros k Hk. assert (k ∈ seqZ 0 12) as Hin by (apply elem_of_seqZ; lia). revert k Hk Hin.
    assert (Forall (λ k, in_u8 (mem_rd (sv_mem sample_state) (0x520000 + k))) (seqZ 0 12)) as Hf; [|rewrite Forall_forall in Hf; auto].
    apply Forall_forall. change (seqZ 0 12) with [0; 1; 2; 3; 4; 5; 6; 7; 8; 9; 10; 11]. intros k Hk.
    repeat (apply elem_of_cons in Hk as [->|Hk]; [vm_compute; split; congruence|]). by apply elem_of_nil in Hk.
Defined.
