(* ===== verification/PrintfProps.v ===== *)
(** * Formatted output: what is printed

    A format made of plain characters and conversions prints the text of each, in order; the
    digits of a number are its numeral. *)

From Stdlib Require Import Ascii String.
From S2P Require Import Prelude.
From S2P Require Import Hif.
From S2P Require Import Printf.

(** ** What a format means *)
Inductive conversion := Cd | Cu | Cx | CX.
Definition conv_char (k : conversion) : Z :=
  match k with Cd => ch "d" | Cu => ch "u" | Cx => ch "x" | CX => ch "X" end.
Definition conv_radix (k : conversion) : Z := match k with Cd | Cu => 10 | Cx | CX => 16 end.
Definition conv_digits (k : conversion) : list Z :=
  chars (match k with Cd | Cu => "0123456789" | Cx => "0123456789abcdef" | CX => "0123456789ABCDEF" end).

(** The flags and the width of a conversion; [wd_text] are the digits of the width. *)
Record layout := mk_layout { wd_left : bool; wd_zero : bool; wd_text : list Z; wd_long : bool }.
(** A piece of a format: a character, a number, the string at an address, a character given as
    an argument. *)
Inductive piece :=
  | Lit (c : Z) | Num (y : layout) (k : conversion) (v : Z) | Str (y : layout) (a : Z) | Chr (y : layout) (v : Z).

Definition flags (y : layout) : list Z :=
  ((if wd_left y then [ch "-"] else []) ++ (if wd_zero y then [ch "0"] else []) ++ wd_text y ++ (if wd_long y then [ch "l"] else []))%list.
Definition piece_fmt (q : piece) : list Z :=
  match q with
  | Lit c => [c]
  | Num y k _ => (ch "%" :: flags y ++ [conv_char k])%list
  | Str y _ => (ch "%" :: flags y ++ [ch "s"])%list
  | Chr y _ => (ch "%" :: flags y ++ [ch "c"])%list
  end.
Definition piece_args (q : piece) : list Z :=
  match q with Lit _ => [] | Num _ _ v => [v] | Str _ a => [a] | Chr _ v => [v] end.

Definition decimal (l : list Z) : Z := foldl (λ n c, n * 10 + (c - ch "0")) 0 l.
Definition width (y : layout) : Z := decimal (wd_text y).
Definition layout_ok (y : layout) : Prop :=
  Forall (λ c, is_digit c = true) (wd_text y) ∧ head (wd_text y) ≠ Some (ch "0") ∧ width y < 2147483648.
Definition piece_ok (m : gmap Z Z) (q : piece) : Prop :=
  match q with
  | Lit c => c ≠ 0 ∧ c ≠ ch "%"
  | Num y _ v => layout_ok y ∧ in_u32 v
  | Str y a => layout_ok y ∧ Z.of_nat (length (mem_string m a)) < 2147483648
  | Chr y _ => layout_ok y
  end.

(** [ds] is the numeral of [v]: its digits, the first of which is zero only when it is alone. *)
Definition numeral (radix : Z) (digits : list Z) (v : Z) (ds : list Z) : Prop :=
  ∃ ns, ds = map (λ n, nth (Z.to_nat n) digits 0) ns ∧ ns ≠ [] ∧ Forall (λ n, 0 <= n < radix) ns ∧
    foldl (λ w n, w * radix + n) 0 ns = v ∧ (head ns = Some 0 → ns = [0]).
Definition padded (y : layout) (sign : bool) (body : list Z) : list Z :=
  let pad := Z.to_nat (width y - Z.of_nat (length body) - b2z sign) in
  let s := if sign then [ch "-"] else [] in
  (if wd_left y then s ++ body ++ replicate pad (ch " ")
   else if wd_zero y then s ++ replicate pad (ch "0") ++ body
   else replicate pad (ch " ") ++ s ++ body)%list.
Definition piece_text (m : gmap Z Z) (q : piece) (t : list Z) : Prop :=
  match q with
  | Lit c => t = [c]
  | Num y Cd v => ∃ ds, numeral 10 (conv_digits Cd) (Z.abs (s32 v)) ds ∧ t = padded y (s32 v <? 0) ds
  | Num y k v => ∃ ds, numeral (conv_radix k) (conv_digits k) v ds ∧ t = padded y false ds
  | Str y a => t = padded y false (if a =? 0 then chars "<null>" else mem_string m a)
  | Chr _ v => t = [u8 v]
  end.
(** On the way to the UART a line feed becomes a carriage return and a line feed; carriage
    returns are dropped. *)
Definition uart_char (c : Z) : list Z := if c =? 10 then [13; 10] else if c =? 13 then [] else [c].
Definition uart_text (l : list Z) : list Z := concat (map uart_char l).

(** ** Printing characters *)
Lemma uart_text_app l l' : uart_text (l ++ l')%list = (uart_text l ++ uart_text l')%list.
Proof. unfold uart_text. by rewrite map_app, concat_app. Qed.
Lemma run_write_char c f ap m b o :
  cmnos_write_char c (mk_printer f ap m b o) = Ok (tt, mk_printer f ap m b (o ++ uart_text [c])%list).
Proof.
  unfold cmnos_write_char, uart_text, uart_char. cbn [map concat]. destruct (c =? 10); [|destruct (c =? 13)]; rewrite ?app_nil_r; try done.
  unfold A_PUTC, mbind, M_bind, modify. fields. by rewrite <-app_assoc.
Qed.
Lemma run_put_all l : ∀ f ap m b o,
  put_all cmnos_write_char l (mk_printer f ap m b o) = Ok (tt, mk_printer f ap m b (o ++ uart_text l)%list).
Proof.
  unfold put_all. induction l as [|c l IH]; intros; cbn [for_each]; [by rewrite app_nil_r|].
  rewrite (bind_ok _ _ _ _ _ (run_write_char c f ap m b o)), IH, <-app_assoc. change (c :: l) with ([c] ++ l)%list. by rewrite <-uart_text_app.
Qed.
Lemma run_when b (mm : PF unit) p : when b mm p = if b then mm p else Ok (tt, p).
Proof. by destruct b. Qed.

Lemma bind_run {A B} (mm : PF A) (k : A → PF B) p a p' : mm p = Ok (a, p') → (mm ≫= k) p = k a p'.
Proof. apply bind_ok. Qed.

Lemma run_emit y sp len sign cp f ap m b o : sp_left_prec sp = width y → sp_pad_on_right sp = wd_left y → sp_zero_fill sp = wd_zero y →
  0 <= width y < 2147483648 → 0 <= len < 2147483648 → len <= Z.of_nat (length cp) →
  ∃ l', l' <= 0 ∧
  emit cmnos_write_char sp len sign cp (mk_printer f ap m b o)
    = Ok ((Z.of_nat (length (padded y sign (take (Z.to_nat len) cp))), l'),
          mk_printer f ap m b (o ++ uart_text (padded y sign (take (Z.to_nat len) cp)))%list).
Proof.
  intros E1 E2 E3 Hw Hl Hc. exists (if len >? 0 then -1 else len - 1). split; [destruct (Z.gtb_spec len 0); lia|].
  unfold emit, padded. rewrite E1, E2, E3, length_take. rewrite s32_small by lia.
  set (body := take (Z.to_nat len) cp). replace (Z.of_nat (Z.to_nat len `min` length cp)) with len by lia.
  set (pad := if sign then _ else _). replace (width y - len - b2z sign) with pad by (subst pad; destruct sign; cbn; lia).
  assert ((length cp <? Z.to_nat len)%nat = false) as -> by (apply Nat.ltb_ge; lia).
  assert (length body = Z.to_nat len) as Hb by (subst body; rewrite length_take; lia).
  destruct sign, (wd_zero y), (wd_left y); cbn [andb negb];
    unfold when; cbn [negb]; repeat first [erewrite bind_run by apply run_write_char | erewrite bind_run by apply run_put_all | erewrite bind_run by apply run_ret];
    rewrite run_ret; do 2 f_equal; try (f_equal; rewrite ?length_app, ?length_replicate, Hb; cbn [length b2z]; lia);
    f_equal; rewrite <-?app_assoc; rewrite ?uart_text_app; done.
Qed.

(** ** Numerals *)
Lemma cvt_temp_value radix digits : 1 < radix → ∀ fuel val, 0 <= val < radix ^ Z.of_nat fuel →
  ∃ ns, cvt_temp fuel val radix digits = map (λ n, nth (Z.to_nat n) digits 0) ns ∧ Forall (λ n, 0 <= n < radix) ns ∧
    foldr (λ n w, w * radix + n) 0 ns = val ∧ (length ns <= fuel)%nat ∧ (val ≠ 0 → ns ≠ [] ∧ last ns ≠ Some 0) ∧ (val = 0 → ns = []).
Proof.
  intros Hr. induction fuel as [|fuel IH]; intros val Hv.
  { exists []. change (radix ^ Z.of_nat 0) with 1 in Hv. replace val with 0 by lia. by split_and!. }
  cbn [cvt_temp]. destruct (Z.eqb_spec val 0) as [->|Hn]; [exists []; split_and!; [done..|cbn; lia|done|done]|].
  destruct (IH (val / radix)) as (ns & E & Hf & Hs & Hl & Hne & Hz).
  { rewrite Nat2Z.inj_succ, Z.pow_succ_r in Hv by lia. split; [apply Z.div_pos; lia|]. apply Z.div_lt_upper_bound; lia. }
  exists (val mod radix :: ns). cbn [map foldr length]. rewrite E. split_and!; [done| | |lia| |done].
  - constructor; [apply Z.mod_pos_bound; lia|done].
  - rewrite Hs. pose proof (Z.div_mod val radix ltac:(lia)). lia.
  - intros _. split; [done|]. destruct (decide (val / radix = 0)) as [E0|E0].
    + rewrite Hz by done. cbn. intros [= E1]. pose proof (Z.div_mod val radix ltac:(lia)). lia.
    + destruct (Hne E0) as [Hne' Hlast]. rewrite last_cons. destruct (last ns) eqn:El; [done|]. by apply last_None in El.
Qed.

Lemma cvt_numeral radix digits val k : 1 < radix → 0 <= val < radix ^ Z.of_nat k → (0 < k <= 33)%nat → nth 0 digits 0 = ch "0" →
  let temp := if val =? 0 then [ch "0"] else cvt_temp 33 val radix digits in
  numeral radix digits val (rev temp) ∧ (length temp <= k)%nat.
Proof.
  intros Hr Hv Hk H0 temp. subst temp. destruct (Z.eqb_spec val 0) as [->|Hn].
  { split; [|cbn; lia]. exists [0]. change (map _ [0]) with [nth 0 digits 0]. rewrite H0. split_and!; try done; repeat constructor; lia. }
  assert (∀ f, (k <= f)%nat → cvt_temp f val radix digits = cvt_temp k val radix digits) as Hfuel.
  { clear Hk Hn. revert val Hv. induction k as [|k IH]; intros val Hv f Hf; [cbn in Hv; destruct f; cbn; [done|]; by replace val with 0 by lia|].
    destruct f as [|f]; [lia|]. cbn [cvt_temp]. destruct (Z.eqb_spec val 0); [done|]. f_equal. apply IH; [|lia].
    rewrite Nat2Z.inj_succ, Z.pow_succ_r in Hv by lia. split; [apply Z.div_pos; lia|]. apply Z.div_lt_upper_bound; lia. }
  rewrite Hfuel by lia. destruct (cvt_temp_value radix digits Hr k val Hv) as (ns & -> & Hf & Hs & Hl & Hne & _).
  split; [|by rewrite length_map]. destruct (Hne Hn) as [Hnn Hlast]. exists (rev ns). split_and!.
  - by rewrite map_rev.
  - intros E. apply Hnn. by rewrite <-(rev_involutive ns), E.
  - by apply Forall_rev.
  - rewrite <-Hs. clear. induction ns as [|n ns IH]; [done|]. cbn [rev foldr]. by rewrite foldl_app, IH.
  - intros E. rewrite rev_alt in E. change (rev_append ns []) with (reverse ns) in E. rewrite head_reverse in E. done.
Qed.

(** ** Reading a conversion *)
Lemma run_next_char c f ap m b o : next_char (mk_printer (c :: f) ap m b o) = Ok (c, mk_printer f ap m b o).
Proof. done. Qed.
Lemma run_va_arg v f ap m b o : va_arg (mk_printer f (v :: ap) m b o) = Ok (v, mk_printer f ap m b o).
Proof. done. Qed.
Lemma decimal_bounds l : ∀ n, 0 <= n → Forall (λ c, is_digit c = true) l → n <= foldl (λ n c, n * 10 + (c - ch "0")) n l.
Proof.
  induction l as [|c l IH]; intros n Hn Hf; cbn [foldl]; [lia|]. apply Forall_cons in Hf as [Hc Hf].
  unfold is_digit in Hc. apply andb_true_iff in Hc as [?%Z.leb_le ?%Z.leb_le]. etrans; [|apply IH; [lia|done]]. lia.
Qed.
Lemma run_read_prec ws c' rest ap m b o : Forall (λ c, is_digit c = true) ws → is_digit c' = false →
  ∀ fuel prec c f, (c :: f = ws ++ c' :: rest)%list → (length ws <= fuel)%nat → 0 <= prec →
  foldl (λ n c, n * 10 + (c - ch "0")) prec ws < 2147483648 →
  read_prec fuel prec c (mk_printer f ap m b o) = Ok ((foldl (λ n c, n * 10 + (c - ch "0")) prec ws, c'), mk_printer rest ap m b o).
Proof.
  intros Hf Hc. induction ws as [|w ws IH]; intros fuel prec c f E Hl Hp Hb.
  { injection E as -> ->. destruct fuel; cbn [read_prec]; by rewrite Hc. }
  apply Forall_cons in Hf as [Hw Hf]. injection E as -> ->. cbn [foldl length] in *. destruct fuel as [|fuel]; [lia|]. cbn [read_prec]. rewrite Hw.
  assert (0 <= prec * 10 + (w - ch "0")) as Hp'.
  { unfold is_digit in Hw. apply andb_true_iff in Hw as [?%Z.leb_le ?%Z.leb_le]. lia. }
  pose proof (decimal_bounds ws _ Hp' Hf). rewrite s32_small by lia.
  destruct ws as [|w' ws]; cbn [app]; erewrite bind_run by apply run_next_char; apply IH; try done; cbn in *; lia.
Qed.

Lemma run_read_number y c' c f rest ap m b o : layout_ok y → is_digit c' = false → (c :: f = wd_text y ++ c' :: rest)%list →
  read_number c (mk_printer f ap m b o) = Ok ((width y, c'), mk_printer rest ap m b o).
Proof.
  intros (Hd & _ & Hw) Hc E. unfold read_number. erewrite bind_run by apply run_get.
  apply run_read_prec; try done. apply (f_equal length) in E. rewrite length_app in E. cbn in *. lia.
Qed.
Lemma run_read_spec y k rest ap m b o : layout_ok y → is_digit k = false → k ∉ chars "-0.l" →
  read_spec (mk_printer (flags y ++ k :: rest)%list ap m b o)
    = Ok (mk_spec (width y) (wd_left y) (wd_zero y) (wd_long y) k, mk_printer rest ap m b o).
Proof.
  intros Hy Hk Hnk. assert (k ≠ ch "-" ∧ k ≠ ch "0" ∧ k ≠ ch "." ∧ k ≠ ch "l") as (K1 & K2 & K3 & K4) by (repeat split; intros ->; by apply Hnk; vm_compute; set_solver).
  set (c' := if wd_long y then ch "l" else k). set (rest' := if wd_long y then k :: rest else rest).
  assert (flags y ++ k :: rest = (if wd_left y then [ch "-"] else []) ++ (if wd_zero y then [ch "0"] else []) ++ wd_text y ++ c' :: rest')%list as ->.
  { unfold flags. subst c' rest'. rewrite <-!app_assoc. by destruct (wd_long y). }
  assert (∃ c f, (c :: f = wd_text y ++ c' :: rest')%list ∧ c ≠ ch "-" ∧ c ≠ ch "0") as (c & f & E & C1 & C2).
  { destruct Hy as (Hd & Hh & _). destruct (wd_text y) as [|w ws].
    - exists c', rest'. subst c'. destruct (wd_long y); by split_and!.
    - exists w, (ws ++ c' :: rest')%list. split; [done|]. apply Forall_cons in Hd as [Hd _]. split; [by intros ->|intros ->; by apply Hh]. }
  rewrite <-E. unfold read_spec.
  assert (is_digit c' = false) as Hc' by (subst c'; by destruct (wd_long y)).
  assert (c' =? ch "." = false) as Hdot by (apply Z.eqb_neq; subst c'; by destruct (wd_long y)).
  apply Z.eqb_neq in C1, C2, K4.
  destruct (wd_left y), (wd_zero y); cbn [app]; erewrite bind_run by apply run_next_char;
    [change (ch "-" =? ch "-") with true|change (ch "-" =? ch "-") with true|change (ch "0" =? ch "-") with false|rewrite C1]; cbv iota;
    (erewrite bind_run; [|first [apply run_ret|erewrite bind_run by apply run_next_char; apply run_ret]]); cbv beta iota;
    [change (ch "0" =? ch "0") with true|rewrite C2|change (ch "0" =? ch "0") with true|rewrite C2]; cbv iota;
    (erewrite bind_run; [|first [apply run_ret|erewrite bind_run by apply run_next_char; apply run_ret]]); cbv beta iota;
    (erewrite bind_run by (eapply run_read_number; done)); cbv beta iota; rewrite Hdot; (erewrite bind_run by apply run_ret); cbv beta iota;
    subst c' rest'; (destruct (wd_long y); [change (ch "l" =? ch "l") with true|rewrite K4]); cbv iota;
    (erewrite bind_run; [|first [apply run_ret|erewrite bind_run by apply run_next_char; rewrite K4; apply run_ret]]); done.
Qed.

(** ** Converting *)
Lemma run_cvt k val f ap m b o : 0 <= val < 4294967296 → length b = 32%nat →
  ∃ ds b', numeral (conv_radix k) (conv_digits k) val ds ∧ length b' = 32%nat ∧ (length ds <= 10)%nat ∧ take (length ds) b' = ds ∧
  _cvt val (conv_radix k) (conv_digits k) (mk_printer f ap m b o) = Ok (Z.of_nat (length ds), mk_printer f ap m b' o).
Proof.
  intros Hv Hb. destruct (cvt_numeral (conv_radix k) (conv_digits k) val 10) as [Hn Hl];
    [by destruct k|destruct k; cbn; lia|lia|by destruct k|].
  set (temp := if val =? 0 then [ch "0"] else _) in *.
  exists (rev temp), ((rev temp ++ [0]) ++ drop (length (rev temp ++ [0])) b)%list.
  assert (length (rev temp ++ [0])%list = S (length temp)) as Hs by (rewrite length_app, length_rev; cbn; lia).
  split_and!; [done|rewrite length_app, length_drop, Hs; lia|by rewrite length_rev| |].
  - rewrite <-app_assoc, take_app_length'; [done|by rewrite length_rev].
  - unfold _cvt. erewrite bind_run by apply run_get. change (pf_buf (mk_printer f ap m b o)) with b. fold temp. cbv zeta.
    rewrite Hs, Hb, length_rev. assert ((32 <? S (length temp))%nat = false) as -> by (apply Nat.ltb_ge; lia). by rewrite <-Hs.
Qed.
Lemma run_fetch c v f ap m b o : fetch_value c (mk_printer f (v :: ap) m b o)
  = Ok (if (c =? ch "d") || (c =? ch "D") then (if s32 v <? 0 then (s32 (- s32 v), true) else (s32 v, false)) else (u32 (s32 v), false), mk_printer f ap m b o).
Proof. unfold fetch_value. erewrite bind_run by apply run_va_arg. by destruct (_ || _). Qed.
Lemma s32_range v : -2147483648 <= s32 v < 2147483648.
Proof. unfold s32. mlia. Qed.
Lemma u32_s32 v : u32 (s32 v) = u32 v.
Proof. unfold u32, s32. mlia. Qed.

(** Tests of one character against others. *)
Ltac decide_ifs :=
  cbn [conv_char]; cbv zeta;
  repeat match goal with
  | |- context [if ?b then _ else _] =>
      let v := eval vm_compute in b in
      lazymatch v with true => idtac | false => idtac end;
      let H := fresh in assert (b = v) as H by reflexivity; rewrite H; clear H
  end.
Lemma run_convert_num sp k val len p l p' : sp_conv sp = conv_char k →
  _cvt (u32 val) (conv_radix k) (conv_digits k) p = Ok (l, p') →
  convert cmnos_write_char sp val len p = Ok (Some (sp, l, pf_buf p'), p').
Proof.
  intros E H. unfold convert. rewrite E. destruct k; decide_ifs; unfold conv_radix, conv_digits in H; by rewrite (bind_run _ _ _ _ _ H).
Qed.
Lemma run_convert_str sp val len a f ap m b o : sp_conv sp = ch "s" →
  convert cmnos_write_char sp val len (mk_printer f (a :: ap) m b o)
    = Ok (let s := if a =? 0 then chars "<null>" else mem_string m a in Some (sp, Z.of_nat (length s), s), mk_printer f ap m b o).
Proof. intros E. unfold convert. rewrite E. decide_ifs. erewrite bind_run by apply run_va_arg. erewrite bind_run by apply run_get. reflexivity. Qed.
Lemma run_convert_chr sp val len v f ap m b o : sp_conv sp = ch "c" →
  convert cmnos_write_char sp val len (mk_printer f (v :: ap) m b o) = Ok (None, mk_printer f ap m b (o ++ uart_text [u8 v])%list).
Proof.
  intros E. unfold convert. rewrite E. decide_ifs. erewrite bind_run by apply run_va_arg. erewrite bind_run by apply run_write_char. reflexivity.
Qed.
Lemma run_piece q rest ap m b o n res len : piece_ok m q → length b = 32%nat → len <= 0 →
  ∃ t b' len', piece_text m q t ∧ length b' = 32%nat ∧ len' <= 0 ∧
  vprintf_loop cmnos_write_char (S n) res len (mk_printer (piece_fmt q ++ rest)%list (piece_args q ++ ap)%list m b o)
    = vprintf_loop cmnos_write_char n (res + Z.of_nat (length t)) len' (mk_printer rest ap m b' (o ++ uart_text t)%list).
Proof.
  intros Hq Hb Hl. destruct q as [c|y k v|y a|y v]; cbn [piece_fmt piece_args app] in *.
  - destruct Hq as [C0 C1]. exists [c], b, len. split_and!; [done..|]. cbn [vprintf_loop]. erewrite bind_run by apply run_next_char.
    apply Z.eqb_neq in C0, C1. rewrite C0, C1. erewrite bind_run by apply run_write_char. done.
  - destruct Hq as [Hy Hv]. pose proof Hy as (Hd & _ & Hw).
    pose proof (decimal_bounds (wd_text y) 0 ltac:(lia) Hd) as Hw0. change (0 <= width y) in Hw0.
    set (val := if match k with Cd => true | _ => false end then (if s32 v <? 0 then (s32 (- s32 v), true) else (s32 v, false)) else (u32 (s32 v), false)).
    destruct (run_cvt k (u32 val.1) rest ap m b o (u32_range _) Hb) as (ds & b' & Hn & Hb' & Hdl & Ht & Hrun).
    destruct (run_emit y (mk_spec (width y) (wd_left y) (wd_zero y) (wd_long y) (conv_char k)) (Z.of_nat (length ds)) val.2 b' rest ap m b' o)
      as (l' & Hl' & Hem); [done..|lia|lia|rewrite Hb'; lia|].
    exists (padded y val.2 ds), b', l'. rewrite Nat2Z.id, Ht in Hem. split_and!; [|done|done|].
    + assert (u32 val.1 = match k with Cd => Z.abs (s32 v) | _ => v end) as Ev.
      { subst val. unfold in_u32 in Hv. pose proof (s32_range v). destruct k; cbn; [destruct (Z.ltb_spec (s32 v) 0); cbn; unfold u32, s32 in *; mlia|by rewrite u32_s32, (u32_small v), u32_small..]. }
      rewrite Ev in Hn. destruct k; exists ds; (split; [exact Hn|]); [|done..]. subst val. cbn. by destruct (s32 v <? 0).
    + cbn [vprintf_loop]. erewrite bind_run by apply run_next_char. change (ch "%" =? 0) with false. change (ch "%" =? ch "%") with true. cbv iota.
      rewrite <-app_assoc. cbn [app]. erewrite bind_run by (apply run_read_spec; [done|by destruct k|destruct k; by apply (bool_decide_unpack _)]).
      change (sp_conv (mk_spec _ _ _ _ (conv_char k))) with (conv_char k). replace (numeric (conv_char k)) with true by by destruct k.
      erewrite bind_run by apply run_fetch.
      replace ((conv_char k =? ch "d") || (conv_char k =? ch "D")) with (match k with Cd => true | _ => false end) by by destruct k. fold val.
      rewrite (surjective_pairing val). cbv beta iota.
      erewrite bind_run by (apply (run_convert_num _ k); [reflexivity|exact Hrun]). cbv beta iota. change (pf_buf (mk_printer _ _ _ b' _)) with b'.
      erewrite bind_run by exact Hem. cbv beta iota. replace (convert_res (conv_char k)) with 0 by by destruct k. f_equal. cbn [fst snd]. lia.
  - destruct Hq as [Hq Hs]. pose proof Hq as (Hd & _ & Hw). pose proof (decimal_bounds (wd_text y) 0 ltac:(lia) Hd) as Hw0. change (0 <= width y) in Hw0.
    set (str := if a =? 0 then chars "<null>" else mem_string m a) in *.
    destruct (run_emit y (mk_spec (width y) (wd_left y) (wd_zero y) (wd_long y) (ch "s")) (Z.of_nat (length str)) false str rest ap m b o)
      as (l' & Hl' & Hem); [done..|lia|subst str; destruct (a =? 0); [cbn; lia|lia]|lia|].
    rewrite Nat2Z.id, take_ge in Hem by lia. exists (padded y false str), b, l'. split_and!; [done..|].
    cbn [vprintf_loop]. erewrite bind_run by apply run_next_char. change (ch "%" =? 0) with false. change (ch "%" =? ch "%") with true. cbv iota.
    rewrite <-app_assoc. cbn [app]. erewrite bind_run by (apply run_read_spec; [done|done|by apply (bool_decide_unpack _)]).
    change (sp_conv (mk_spec _ _ _ _ (ch "s"))) with (ch "s"). change (numeric (ch "s")) with false. erewrite bind_run by apply run_ret. cbv beta iota.
    erewrite bind_run by (apply run_convert_str; reflexivity). cbv beta zeta iota. fold str.
    erewrite bind_run by exact Hem. cbv beta iota. change (convert_res (ch "s")) with 0. f_equal. lia.
  - exists [u8 v], b, len. split_and!; [done..|].
    cbn [vprintf_loop]. erewrite bind_run by apply run_next_char. change (ch "%" =? 0) with false. change (ch "%" =? ch "%") with true. cbv iota.
    rewrite <-app_assoc. cbn [app]. erewrite bind_run by (apply run_read_spec; [done|done|by apply (bool_decide_unpack _)]).
    change (sp_conv (mk_spec _ _ _ _ (ch "c"))) with (ch "c"). change (numeric (ch "c")) with false. erewrite bind_run by apply run_ret. cbv beta iota.
    erewrite bind_run by (apply run_convert_chr; reflexivity). done.
Qed.

Lemma run_pieces qs m : Forall (piece_ok m) qs → ∀ n res len b o, length b = 32%nat → len <= 0 → (length qs <= n)%nat →
  ∃ ts p', Forall2 (piece_text m) qs ts ∧ pf_out p' = (o ++ uart_text (concat ts))%list ∧
  vprintf_loop cmnos_write_char n res len (mk_printer (concat (map piece_fmt qs) ++ [0])%list (concat (map piece_args qs)) m b o)
    = Ok (res + Z.of_nat (length (concat ts)), p').
Proof.
  intros Hq. induction qs as [|q qs IH]; intros n res len b o Hb Hl Hn.
  { exists [], (mk_printer [] [] m b o). split_and!; [constructor|by rewrite app_nil_r|].
    cbn [map concat app length]. destruct n; cbn [vprintf_loop]; erewrite bind_run by apply run_next_char; cbn; by rewrite Z.add_0_r. }
  apply Forall_cons in Hq as [Hq Hqs]. destruct n as [|n]; [cbn in Hn; lia|]. cbn [map concat]. rewrite <-!app_assoc.
  destruct (run_piece q (concat (map piece_fmt qs) ++ [0])%list (concat (map piece_args qs)) m b o n res len Hq Hb Hl)
    as (t & b' & len' & Ht & Hb' & Hl' & ->).
  destruct (IH Hqs n (res + Z.of_nat (length t)) len' b' (o ++ uart_text t)%list Hb' Hl') as (ts & p' & Hts & Hout & ->); [cbn in Hn; lia|].
  exists (t :: ts), p'. cbn [concat]. split_and!; [by constructor|by rewrite Hout, uart_text_app, app_assoc|].
  rewrite length_app. do 2 f_equal. lia.
Qed.
Lemma piece_fmt_length qs : (length qs <= length (concat (map piece_fmt qs)))%nat.
Proof.
  induction qs as [|q qs IH]; [done|]. cbn [map concat]. rewrite length_app. cbn [length].
  destruct q; cbn [piece_fmt length]; lia.
Qed.

(** C16: Printing follows the format. For a format made of characters and of the conversions d, u,
    x, X, s and c (not b and p), with any flags and widths, and the arguments they take,
    [cmnos_printf] prints the text of each piece, in order: a number as its numeral, in the
    base of its conversion, with its sign, padded to the width with blanks or zeros on the side
    the flags say; and it returns the number of characters. *)
Theorem cmnos_printf_follows_format qs m junk o :
  Forall (piece_ok m) qs → length junk = 32%nat →
  wp cmnos_printf (λ r p, ∃ ts, Forall2 (piece_text m) qs ts ∧ pf_out p = (o ++ uart_text (concat ts))%list ∧ r = Z.of_nat (length (concat ts)))
    (mk_printer (concat (map piece_fmt qs) ++ [0])%list (concat (map piece_args qs)) m junk o).
Proof.
  intros Hq Hj. unfold cmnos_printf, cmnos_vprintf. apply wp_bind, wp_get. cbn [pf_fmt].
  destruct (run_pieces qs m Hq (length (concat (map piece_fmt qs) ++ [0])%list) 0 0 junk o) as (ts & p' & Hts & Ho & E); [done|lia|rewrite length_app; pose proof (piece_fmt_length qs); lia|].
  apply (wp_ok _ _ _ _ _ E). by exists ts.
Qed.

Definition sample_pieces : list piece :=
  [Lit (ch "@"); Num (mk_layout false true (chars "8") false) Cx 0x51ea0; Lit (ch ":"); Num (mk_layout true false (chars "5") true) Cd (u32 (-42));
   Chr (mk_layout false false [] false) (ch "!"); Str (mk_layout false false (chars "12") false) 0; Lit 10].
Lemma cmnos_printf_follows_format_witness :
  (concat (map piece_fmt sample_pieces) = chars "@%08x:%-5ld%c%12s" ++ [10])%list ∧
  wp cmnos_printf (λ r p, ∃ ts, Forall2 (piece_text ∅) sample_pieces ts ∧ pf_out p = ([] ++ uart_text (concat ts))%list ∧ r = Z.of_nat (length (concat ts)))
    (mk_printer (concat (map piece_fmt sample_pieces) ++ [0])%list (concat (map piece_args sample_pieces)) ∅ (replicate 32 63) []).
Proof.
  split; [by vm_compute|]. apply (cmnos_printf_follows_format sample_pieces); [|done].
  assert (∀ l z w g, Forall (λ c, is_digit c = true) w → head w ≠ Some (ch "0") → decimal w < 2147483648 → layout_ok (mk_layout l z w g)) as Hy by done.
  repeat constructor; try apply Hy; try (by repeat constructor); by vm_compute.
Defined.
