(* ===== verification/CmnosProps.v ===== *)
(** * Boot-ROM services: a patch stored in the EEPROM is installed

    The documented behaviour of the EEPROM behind its window ([Eeprom]), what reading it gives,
    and what [cmnos_romp_download] makes of the image it finds there. *)

From S2P Require Import Prelude.
From S2P Require Import Hif.
From S2P Require Import UsbProps.
From S2P Require Import Cmnos.

(** ** The device

    The half words in the EEPROM, the one that was asked for last, and how many polls it still
    takes to come. *)
Record eep_view := mk_ev { ev_data : Z → Z; ev_sel : Z; ev_wait : nat }.
#[export] Instance eta_ev : EtaExp eep_view := λ v, mk_ev (ev_data v) (ev_sel v) (ev_wait v).

(** The window has room for so many half words; behind it lie the registers of the controller. *)
Definition EEP_WINDOW : Z := 0x800.
Class Eeprom (HW : Type) `{DevIo HW} := {
  eep_of : HW → eep_view;
  eep_max : nat;
  eep_select o hw : 0 <= o < EEP_WINDOW → let '(_, hw') := dev_rd32 (EEPROM_ADDR_BASE + 4 * o) hw in
    ∃ w, (w <= eep_max)%nat ∧ eep_of hw' = mk_ev (ev_data (eep_of hw)) o w;
  eep_status hw : let '(w, hw') := dev_rd32 (EEPROM_CTRL_BASE + H_EEPROM_STS_DATA) hw in
    (w .& (B_EEP_STS_STATE_BUSY .| B_EEP_STS_IS_BUSY) = 0 ↔ ev_wait (eep_of hw) = 0%nat) ∧
    (ev_wait (eep_of hw) = 0%nat → u16 w = ev_data (eep_of hw) (ev_sel (eep_of hw))) ∧
    eep_of hw' = eep_of hw <| ev_wait ::= Nat.pred |>;
}.

(** ** What the EEPROM says *)
Section image.
Context (f : Z → Z).
Definition eep_word (o : Z) : Z := f o * 65536 + f (o + 1).
Definition eep_byte (o k : Z) : Z := if Z.even k then f (o + k / 2) / 256 else f (o + k / 2) mod 256.

(** Where a patch lies in the EEPROM and how many half words it has, where its code goes, how
    long it is and where it starts. *)
Record patch := mk_patch { pt_offset : Z; pt_size : Z; pt_load : Z; pt_len : Z; pt_entry : Z }.
Definition code_size (p : patch) : Z := 4 * ((pt_len p + 3) / 4).
(** The patch that the two half words at [offset] point to, when its words cancel out and its
    code goes to the RAM. *)
Definition patch_image (offset : Z) : option patch :=
  let o := f offset in
  let p := mk_patch o (f (offset + 1)) (eep_word (o + 2)) (f (o + 1)) (eep_word (o + 4)) in
  if (0 <? pt_size p) && (o + pt_size p <=? EEPROM_END_OFFSET)
     && (foldl Z.lxor 0 (map (λ i, eep_word (o + 2 * i)) (seqZ 0 (pt_size p / 2))) =? 0)
     && (SYS_D_RAM_REGION_0_BASE <=? pt_load p) && (pt_load p <? SYS_D_RAM_REGION_0_BASE + SYS_RAM_SZIE)
  then Some p else None.
(** The code is all there, and does not land on the image it is copied from. *)
Definition patch_fits (p : patch) : Prop :=
  pt_len p <= 65532 ∧ 12 + code_size p <= 2 * pt_size p ∧
  (pt_load p + code_size p <= ROM_PATCH_BUF_ADDR ∨ ROM_PATCH_BUF_ADDR + 12 + code_size p <= pt_load p).
End image.

(** ** Reading *)
Lemma word_addr a : 0 <= a < 0x100000000 → a mod 4 = 0 → a .& 0xfffffffc = a.
Proof.
  intros Ha Hm. assert (a = (a / 4) .<< 2) as E by (rewrite Z.shiftl_mul_pow2 by lia; pose proof (Z.div_mod a 4); lia). rewrite E at 1.
  change 0xfffffffc with (Z.ones 30 .<< 2). rewrite <-Z.shiftl_land, Z.land_ones by lia. rewrite Z.mod_small by mlia. by symmetry.
Qed.

(** The bytes of [len] half words at [o] in memory from [a]. *)
Definition eep_loaded (f : Z → Z) (o len a : Z) (m m' : gmap Z Z) : Prop :=
  ∀ x, mem_rd m' x = if decide (a <= x < a + 2 * len) then eep_byte f o (x - a) else mem_rd m x.

Section loaded.
Context (f : Z → Z) (Hf : ∀ o, 0 <= f o < 65536) (o len a : Z) (m m' : gmap Z Z) (Hm : eep_loaded f o len a m m').

Lemma eep_byte_high i : eep_byte f o (2 * i) = f (o + i) / 256.
Proof. unfold eep_byte. rewrite Z.even_mul. cbn [orb Z.even]. by replace (2 * i / 2) with i by mlia. Qed.
Lemma eep_byte_low i : eep_byte f o (2 * i + 1) = f (o + i) mod 256.
Proof. unfold eep_byte. rewrite Z.add_comm, Z.even_add_mul_2. cbn [Z.even]. by replace ((1 + 2 * i) / 2) with i by mlia. Qed.

Lemma loaded_half i : 0 <= i < len → be_word (mem_get m' (a + 2 * i) 2) = f (o + i).
Proof.
  intros Hi. unfold mem_get. change (seqZ 0 (Z.of_nat 2)) with [0; 1]. cbn [map]. rewrite !Hm, !decide_True by lia.
  replace (a + 2 * i + 0 - a) with (2 * i) by lia. replace (a + 2 * i + 1 - a) with (2 * i + 1) by lia.
  rewrite eep_byte_high, eep_byte_low. unfold be_word. cbn [foldl]. specialize (Hf (o + i)). mlia.
Qed.
Lemma loaded_word i : 0 <= i → i + 1 < len → mem_rd32 m' (a + 2 * i) = eep_word f (o + i).
Proof.
  intros Hi Hl. pose proof (loaded_half i ltac:(lia)) as E1. pose proof (loaded_half (i + 1) ltac:(lia)) as E2.
  unfold mem_get, be_word in E1, E2. change (seqZ 0 (Z.of_nat 2)) with [0; 1] in E1, E2. cbn [map foldl] in E1, E2.
  unfold mem_rd32, eep_word. replace (a + 2 * (i + 1) + 0) with (a + 2 * i + 2) in E2 by lia. replace (a + 2 * (i + 1) + 1) with (a + 2 * i + 3) in E2 by lia.
  rewrite Z.add_0_r in E1. replace (o + (i + 1)) with (o + i + 1) in E2 by lia. rewrite <-E1, <-E2. lia.
Qed.
Lemma loaded_checksum : patch_checksum m' a len = foldl Z.lxor 0 (map (λ i, eep_word f (o + 2 * i)) (seqZ 0 (len / 2))).
Proof.
  unfold patch_checksum. f_equal. apply list_fmap_ext. intros k i [-> Hi]%lookup_seqZ.
  replace (a + 4 * (0 + Z.of_nat k)) with (a + 2 * (2 * (0 + Z.of_nat k))) by lia. apply loaded_word; mlia.
Qed.
End loaded.

Section props.
Context {HW C : Type} `{Eeprom HW} `{!CpuIo HW}.
Context (n : nat) (Hn : (eep_max < n)%nat).
Abbreviation SM := (M (svc HW (cmnos C))).
Implicit Types (s : svc HW (cmnos C)) (hw : HW) (f : Z → Z).

Definition contents s : Z → Z := ev_data (eep_of (sv_hw s)).

Lemma wp_reg_read a s (Q : Z → svc HW (cmnos C) → Prop) : 0 <= a < 0x100000000 → a mod 4 = 0 →
  (∀ w hw, dev_rd32 a (sv_hw s) = (w, hw) → Q w (s <| sv_hw := hw |>)) → wp (HAL_WORD_REG_READ a) Q s.
Proof. intros Ha Hm HQ. unfold HAL_WORD_REG_READ. rewrite word_addr by done. by apply wp_ioread32. Qed.

Lemma wp_eep_poll (Q : Z → svc HW (cmnos C) → Prop) : ∀ k s, (ev_wait (eep_of (sv_hw s)) < k)%nat →
  (∀ w hw, ev_data (eep_of hw) = contents s → u16 w = contents s (ev_sel (eep_of (sv_hw s))) → Q w (s <| sv_hw := hw |>)) →
  wp (eep_poll k) Q s.
Proof.
  induction k as [|k IH]; intros s Hk HQ; [lia|]. cbn [eep_poll]. apply wp_bind, wp_reg_read; [done..|]. intros w hw E.
  pose proof (eep_status (sv_hw s)) as Hs. rewrite E in Hs. destruct Hs as (Hz & Hd & Ev).
  destruct (Z.eqb_spec (w .& (B_EEP_STS_STATE_BUSY .| B_EEP_STS_IS_BUSY)) 0) as [E0|E0].
  - apply wp_ret, HQ; [by rewrite Ev|]. by apply Hd, Hz.
  - assert (ev_wait (eep_of (sv_hw s)) ≠ 0%nat) by (intros H'; by apply E0, Hz).
    apply IH; change (sv_hw (s <| sv_hw := hw |>)) with hw; rewrite Ev; [fields; lia|]. intros w' hw' E1 E2. apply (HQ w' hw').
    + rewrite E1. unfold contents. fields. by rewrite Ev.
    + rewrite E2. unfold contents. fields. by rewrite Ev.
Qed.

Lemma wp_read_hword o s (Q : Z → svc HW (cmnos C) → Prop) : 0 <= o < EEP_WINDOW →
  (∀ hw, ev_data (eep_of hw) = contents s → Q (contents s o) (s <| sv_hw := hw |>)) → wp (cmnos_eeprom_read_hword n o) Q s.
Proof.
  intros Ho HQ. unfold cmnos_eeprom_read_hword. replace (EEPROM_ADDR_BASE + o * 4) with (EEPROM_ADDR_BASE + 4 * o) by lia.
  apply wp_bind, wp_reg_read; [unfold EEP_WINDOW, EEPROM_ADDR_BASE, EEPROM_CTRL_BASE in *; lia|unfold EEPROM_ADDR_BASE, EEPROM_CTRL_BASE; mlia|].
  intros w hw E. pose proof (eep_select o (sv_hw s) Ho) as Hs. rewrite E in Hs. destruct Hs as (k & Hk & Ev).
  apply wp_bind, wp_eep_poll; change (sv_hw (s <| sv_hw := hw |>)) with hw; [rewrite Ev; cbn; lia|].
  intros w' hw' E1 E2. apply wp_ret. change 0xffff with (2 ^ 16 - 1). rewrite land_mask by done. change (w' mod 2 ^ 16) with (u16 w'). rewrite E2.
  unfold contents. fields. rewrite Ev. cbn. apply HQ. rewrite E1. unfold contents. fields. by rewrite Ev.
Qed.

Lemma wp_eep_read o len a s (Q : T_EEP_RET → svc HW (cmnos C) → Prop) :
  eep_state (sv_up s) = true → (∀ o, 0 <= contents s o < 65536) → 0 <= o → 0 <= len → o + len <= EEP_WINDOW →
  (∀ hw m, ev_data (eep_of hw) = contents s → eep_loaded (contents s) o len a (sv_mem s) m →
    Q RET_SUCCESS (s <| sv_hw := hw |> <| sv_mem := m |>)) →
  wp (cmnos_eep_read n o len a) Q s.
Proof.
  intros Hst Hf Ho Hl He HQ. unfold cmnos_eep_read. apply wp_bind, wp_gets. cbn beta. rewrite Hst. cbn [negb].
  unfold eep_overflow. unfold EEPROM_END_OFFSET, EEPROM_START_OFFSET, EEP_WINDOW in *. rewrite (proj2 (Z.ltb_ge _ _)) by lia.
  destruct (Z.gtb_spec o (0 + 0xfff)); [lia|]. destruct (Z.gtb_spec (o + len) (0 + 0xfff)); [lia|]. cbn [orb].
  set (f := contents s) in *.
  set (I := λ (l : list Z) (s' : svc HW (cmnos C)), ∃ hw m, s' = s <| sv_hw := hw |> <| sv_mem := m |> ∧
    ev_data (eep_of hw) = f ∧ eep_loaded f o (Z.of_nat (length l)) a (sv_mem s) m).
  apply wp_bind, (wp_mono _ (λ _, I (seqZ 0 len))); cycle 1.
  { intros [] s' (hw & m & -> & Hd & Hm). rewrite length_seqZ, Z2Nat.id in Hm by done. apply wp_ret. by apply HQ. }
  apply wp_for_each_acc; cycle 1.
  { exists (sv_hw s), (sv_mem s). split_and!; [by destruct s|done|]. intros x. by rewrite decide_False by (cbn; lia). }
  intros dn j rest s' El (hw & m & -> & Hd & Hm).
  assert (0 <= j < len ∧ j = Z.of_nat (length dn)) as [Hj Ej].
  { assert (seqZ 0 len !! length dn = Some j) as E by (rewrite El; by apply list_lookup_middle). apply lookup_seqZ in E. lia. }
  apply wp_bind, wp_read_hword; [unfold EEP_WINDOW; lia|]. intros hw' Hd'. unfold contents in *. fields. rewrite Hd in *.
  exists hw', (mem_set (a + 2 * j) [u8 (f (o + j) .>> 8); u8 (f (o + j))] m). split_and!; [done|done|].
  intros x. rewrite length_app, Nat2Z.inj_add. change (Z.of_nat (length [j])) with 1. rewrite <-Ej. rewrite mem_rd_set.
  change (Z.of_nat (length [_; _])) with 2. rewrite shiftr_u8 by done. specialize (Hf (o + j)).
  destruct (decide (a + 2 * j <= x < a + 2 * j + 2)) as [Hx|Hx].
  - rewrite decide_True by lia. assert (x = a + 2 * j ∨ x = a + 2 * j + 1) as [->| ->] by lia.
    + replace (a + 2 * j - (a + 2 * j)) with 0 by lia. replace (a + 2 * j - a) with (2 * j) by lia. rewrite eep_byte_high.
      change (2 ^ 8) with 256. change (Z.to_nat 0) with 0%nat. cbn [nth]. mlia.
    + replace (a + 2 * j + 1 - (a + 2 * j)) with 1 by lia. replace (a + 2 * j + 1 - a) with (2 * j + 1) by lia. by rewrite eep_byte_low.
  - rewrite Hm, <-Ej. destruct (decide (a <= x < a + 2 * j)); [by rewrite decide_True by lia|by rewrite decide_False by lia].
Qed.

(** ** Installing *)
Lemma wp_copy_byte dst src s (Q : unit → svc HW (cmnos C) → Prop) : 0 <= dst < 0x100000000 → 0 <= src < 0x100000000 →
  Q tt (mk_svc (sv_hw s) (<[dst := mem_rd (sv_mem s) src]> (sv_mem s)) (sv_up s)) → wp (copy_byte dst src) Q s.
Proof. intros Hd Hs HQ. unfold copy_byte. apply wp_bind, wp_gets. rewrite !u32_small by lia. exact HQ. Qed.

(** The first [k] bytes of the code [p] are in place. *)
Definition code_loaded f (p : patch) (k : Z) (m m' : gmap Z Z) : Prop :=
  ∀ x, mem_rd m' x = if decide (pt_load p <= x < pt_load p + k) then eep_byte f (pt_offset p) (12 + wswap (x - pt_load p)) else mem_rd m x.

Section copy.
Context (f : Z → Z) (Hf : ∀ o, 0 <= f o < 65536) (p : patch) (m m0 : gmap Z Z).
Context (Hm0 : eep_loaded f (pt_offset p) (pt_size p) ROM_PATCH_BUF_ADDR m m0) (Hfit : patch_fits p).
Context (Hlen : pt_len p = f (pt_offset p + 1)).
Context (Hload : SYS_D_RAM_REGION_0_BASE <= pt_load p < SYS_D_RAM_REGION_0_BASE + SYS_RAM_SZIE).

Lemma image_byte j m' k : code_loaded f p j m0 m' → 0 <= j <= code_size p → 0 <= k < 12 + code_size p →
  mem_rd m' (ROM_PATCH_BUF_ADDR + k) = eep_byte f (pt_offset p) k.
Proof.
  destruct Hfit as (H1 & H2 & H3). intros Hc Hj Hk. rewrite Hc, decide_False by lia. rewrite Hm0, decide_True by lia. f_equal. lia.
Qed.

Lemma image_len j m' : code_loaded f p j m0 m' → 0 <= j <= code_size p → be_word (mem_get m' (ROM_PATCH_BUF_ADDR + 2) 2) = pt_len p.
Proof.
  intros Hc Hj. assert (0 <= code_size p) by (unfold code_size in *; pose proof (Hf (pt_offset p + 1)); mlia).
  unfold mem_get. change (seqZ 0 (Z.of_nat 2)) with [0; 1]. cbn [map]. rewrite <-!Z.add_assoc. change (2 + 0) with 2. change (2 + 1) with 3.
  rewrite !(image_byte j m') by (done || lia). change 2 with (2 * 1) at 1. change 3 with (2 * 1 + 1). rewrite eep_byte_high, eep_byte_low.
  unfold be_word. cbn [foldl]. rewrite Hlen. pose proof (Hf (pt_offset p + 1)). mlia.
Qed.

(** A word of the code. *)
Lemma code_word j m1 m2 : 0 <= j → code_loaded f p (4 * j) m0 m1 →
  (∀ x, mem_rd m2 x = if decide (pt_load p + 4 * j <= x < pt_load p + 4 * j + 4)
     then eep_byte f (pt_offset p) (12 + (4 * j + (3 - (x - (pt_load p + 4 * j))))) else mem_rd m1 x) →
  code_loaded f p (4 * (j + 1)) m0 m2.
Proof.
  intros Hj Hc H2 x. rewrite H2, Hc. destruct (decide (pt_load p + 4 * j <= x < pt_load p + 4 * j + 4)).
  - rewrite decide_True by lia. f_equal. unfold wswap. mlia.
  - destruct (decide (pt_load p <= x < pt_load p + 4 * j)); [by rewrite decide_True by lia|by rewrite decide_False by lia].
Qed.

Lemma wp_patch_copy : ∀ fuel j s (Q : unit → svc HW (cmnos C) → Prop),
  0 <= j → 4 * j <= code_size p → code_size p <= 4 * j + 4 * Z.of_nat fuel → code_loaded f p (4 * j) m0 (sv_mem s) →
  (∀ m1, code_loaded f p (code_size p) m0 m1 → Q tt (s <| sv_mem := m1 |>)) →
  wp (patch_copy fuel ROM_PATCH_BUF_ADDR (4 * j) (ROM_PATCH_BUF_ADDR + 12) (pt_load p)) Q s.
Proof.
  pose proof Hfit as (H1 & H2 & H3). pose proof (Hf (pt_offset p + 1)) as Hl0. rewrite <-Hlen in Hl0.
  assert (ROM_PATCH_BUF_ADDR = 0x525800) as HB by done. assert (SYS_D_RAM_REGION_0_BASE = 0x500000 ∧ SYS_RAM_SZIE = 0x28000) as [HS HR] by done.
  assert (∀ j s (Q : unit → svc HW (cmnos C) → Prop), pt_len p <= 4 * j → 4 * j <= code_size p → code_loaded f p (4 * j) m0 (sv_mem s) →
    (∀ m1, code_loaded f p (code_size p) m0 m1 → Q tt (s <| sv_mem := m1 |>)) → Q tt s) as Hend.
  { intros j s Q Hge Hle Hc HQ. replace s with (s <| sv_mem := sv_mem s |>) by by destruct s. apply HQ.
    by replace (code_size p) with (4 * j) by (unfold code_size in *; mlia). }
  induction fuel as [|fuel IH]; intros j s Q Hj Hle Hfu Hc HQ; cbn [patch_copy]; apply wp_bind, wp_bind, wp_gets, wp_ret;
    rewrite (image_len (4 * j)) by (done || lia); destruct (Z.ltb_spec (4 * j) (pt_len p)) as [Hlt|Hge]; try by (apply wp_ret, (Hend j)).
  { unfold code_size in *. exfalso. mlia. }
  assert (4 * j + 4 <= code_size p) as Hnext by (unfold code_size; mlia).
  assert (code_size p <= 65532) as Hcs by (unfold code_size; mlia).
  set (A := pt_load p) in *. set (B := ROM_PATCH_BUF_ADDR) in *.
  do 4 (apply wp_bind, wp_copy_byte; [lia..|]; cbn [sv_mem sv_hw sv_up]). rewrite u16_small by lia.
  match goal with |- wp _ _ ?t => set (s2 := t) end. replace (4 * j + 4) with (4 * (j + 1)) by lia.
  assert (∀ k, 0 <= k < 4 → mem_rd (sv_mem s) (B + 12 + (4 * j + k)) = eep_byte f (pt_offset p) (12 + (4 * j + k))) as Hs.
  { intros k Hk. rewrite <-Z.add_assoc. apply (image_byte (4 * j)); [done|lia..]. }
  assert (∀ x, mem_rd (sv_mem s2) x = if decide (A + 4 * j <= x < A + 4 * j + 4)
     then eep_byte f (pt_offset p) (12 + (4 * j + (3 - (x - (A + 4 * j))))) else mem_rd (sv_mem s) x) as H2m.
  { intros x. subst s2. cbn [sv_mem].
    rewrite !mem_rd_insert. rewrite !(decide_False (P := B + 12 + _ = _)) by lia. 
    destruct (decide (A + 4 * j <= x < A + 4 * j + 4)); [|by rewrite !decide_False by lia].
    replace (B + 12 + 4 * j) with (B + 12 + (4 * j + 0)) by lia. rewrite !Hs by lia.
    assert (x = A + 4 * j ∨ x = A + (4 * j + 1) ∨ x = A + (4 * j + 2) ∨ x = A + (4 * j + 3)) as [->|[->|[->| ->]]] by lia;
      repeat first [rewrite decide_True by lia | rewrite decide_False by lia]; f_equal; lia. }
  eapply IH; [lia..| |].
  - eapply code_word; [done|exact Hc|exact H2m].
  - intros m1 Hm1. exact (HQ m1 Hm1).
Qed.
End copy.

(** Outside the four bytes at [stack] and the buffer, and where [P] says otherwise. *)
Definition mem_kept (stack size : Z) (P : Z → Prop) (m m' : gmap Z Z) : Prop :=
  ∀ x, ¬ (stack <= x < stack + 4) → ¬ (ROM_PATCH_BUF_ADDR <= x < ROM_PATCH_BUF_ADDR + 2 * size) → ¬ P x → mem_rd m' x = mem_rd m x.
Definition in_code (p : patch) (x : Z) : Prop := pt_load p <= x < pt_load p + code_size p.
Definition addr_noted (o size : Z) s : cmnos C := sv_up s <| patch_addr := (o, size) |>.
(** The code is in place, the entry is known. *)
Definition installed stack (p : patch) s s1 : Prop :=
  contents s1 = contents s ∧ sv_up s1 = addr_noted (pt_offset p) (pt_size p) s <| patch_start := pt_entry p |> ∧
  (∀ k, 0 <= k < code_size p → mem_rd (sv_mem s1) (pt_load p + k) = eep_byte (contents s) (pt_offset p) (12 + wswap k)) ∧
  mem_kept stack (pt_size p) (in_code p) (sv_mem s) (sv_mem s1).
Definition refused stack (o size : Z) s s1 : Prop :=
  contents s1 = contents s ∧ sv_up s1 = addr_noted o size s ∧ mem_kept stack size (λ _, False) (sv_mem s) (sv_mem s1).

Lemma wp_decode f o size m hw m2 up (Q : bool → svc HW (cmnos C) → Prop) :
  (∀ o, 0 <= f o < 65536) → 6 <= size → (patch_addr up).2 = size → eep_loaded f o size ROM_PATCH_BUF_ADDR m m2 →
  let p := mk_patch o size (eep_word f (o + 2)) (f (o + 1)) (eep_word f (o + 4)) in
  (if (foldl Z.lxor 0 (map (λ i, eep_word f (o + 2 * i)) (seqZ 0 (size / 2))) =? 0)
     && (SYS_D_RAM_REGION_0_BASE <=? pt_load p) && (pt_load p <? SYS_D_RAM_REGION_0_BASE + SYS_RAM_SZIE)
   then patch_fits p ∧ code_size p <= 4 * Z.of_nat n ∧
     ∀ m3, code_loaded f p (code_size p) m2 m3 → Q true (mk_svc hw m3 (up <| patch_start := pt_entry p |>))
   else Q false (mk_svc hw m2 up)) →
  wp (cmnos_romp_decode n ROM_PATCH_BUF_ADDR) Q (mk_svc hw m2 up).
Proof.
  intros Hf Hs Hp Hm p HQ. unfold cmnos_romp_decode. apply wp_bind, wp_gets. cbn [sv_up].
  destruct (patch_addr up) as [o' size']. cbn in Hp. subst size'. apply wp_bind, wp_gets. cbn [sv_mem].
  rewrite (loaded_checksum f Hf o size _ m m2 Hm). destruct (_ =? 0); cbn [negb andb] in *; [|by apply wp_ret].
  pose proof (loaded_word f Hf o size _ m m2 Hm 4 ltac:(lia) ltac:(lia)) as Ee. pose proof (loaded_word f Hf o size _ m m2 Hm 2 ltac:(lia) ltac:(lia)) as El.
  change (2 * 4) with 8 in Ee. change (2 * 2) with 4 in El.
  apply wp_bind, wp_bind, wp_gets, wp_ret. cbn [sv_mem]. rewrite Ee. unfold _read_rom_patch.
  apply wp_bind, wp_bind, wp_bind, wp_gets, wp_ret. cbn [sv_mem]. rewrite El. change (eep_word f (o + 2)) with (pt_load p).
  destruct (Z.ltb_spec (pt_load p) SYS_D_RAM_REGION_0_BASE) as [Hlo|Hlo]; cbn [orb].
  { apply wp_ret, wp_ret. by rewrite (proj2 (Z.leb_gt _ _)) in HQ by done. }
  rewrite (proj2 (Z.leb_le _ _)) in HQ by done. rewrite Z.geb_leb.
  destruct (Z.ltb_spec (pt_load p) (SYS_D_RAM_REGION_0_BASE + SYS_RAM_SZIE)) as [Hhi|Hhi]; cbn [andb] in HQ; cycle 1.
  { rewrite (proj2 (Z.leb_le _ _)) by done. by apply wp_ret, wp_ret. }
  rewrite (proj2 (Z.leb_gt _ _)) by done. destruct HQ as (Hfit & Hcn & HQ).
  change (u32 (ROM_PATCH_BUF_ADDR + (sizeof_rom_patch_st - 4))) with (ROM_PATCH_BUF_ADDR + 12). change 0 with (4 * 0).
  assert (0 <= code_size p) as Hc0 by (unfold code_size; change (pt_len p) with (f (o + 1)); specialize (Hf (o + 1)); mlia).
  eapply wp_bind, wp_patch_copy; [exact Hf|exact Hm|exact Hfit|done|done|lia|lia|lia| |].
  { intros x. by rewrite decide_False by lia. }
  intros m3 Hm3. apply wp_ret. apply wp_bind, wp_modify, wp_ret. by apply HQ.
Qed.

(** C14: A patch in the EEPROM is installed as the EEPROM says. The two half words at the given
    offset point to an image; when it lies in the EEPROM, its words cancel out and its code goes
    to the RAM, every byte of the code is put in its place, turned around within its word, and
    the code is entered at its entry, the download succeeding when it returns; otherwise
    nothing is entered and the download fails. Only the buffers and the place of the code are
    written, however long the EEPROM is busy. Assumed: the EEPROM is initialised; the image has
    a header and does not reach behind the window of the EEPROM; and of an image whose words
    cancel out, that its code fits in it (for a longer code the ROM copies and enters what
    follows it in the buffer) and does not land on the buffer it is copied from. *)
Theorem romp_download_installs run stack offset s (Q : bool → svc HW (cmnos C) → Prop) :
  eep_state (sv_up s) = true → (∀ o, 0 <= contents s o < 65536) → 0 <= offset → offset + 2 <= EEP_WINDOW →
  ¬ 0 < contents s (offset + 1) < 6 → ¬ EEP_WINDOW < contents s offset + contents s (offset + 1) <= EEPROM_END_OFFSET →
  match patch_image (contents s) offset with
  | None => ∀ s1, refused stack (contents s offset) (contents s (offset + 1)) s s1 → Q false s1
  | Some p => patch_fits p ∧ code_size p <= 4 * Z.of_nat n ∧
      ∀ s1, installed stack p s s1 → wp (run (pt_entry p)) (λ _, Q true) s1
  end →
  wp (cmnos_romp_download n run stack offset) Q s.
Proof.
  intros Hst Hf Ho He Hsz Hwi HQ. unfold cmnos_romp_download. apply wp_bind, wp_eep_read; [done..|lia|lia|]. intros hw1 m1 Hd1 Hm1.
  rewrite bool_decide_eq_true_2 by done. cbn [negb]. apply wp_bind, wp_gets. cbn [sv_mem].
  pose proof (loaded_half _ Hf offset 2 stack _ _ Hm1 0 ltac:(lia)) as E0. pose proof (loaded_half _ Hf offset 2 stack _ _ Hm1 1 ltac:(lia)) as E1.
  rewrite !Z.add_0_r in E0. change (2 * 1) with 2 in E1.
  change (sv_mem (_ <| sv_mem := m1 |>)) with m1. rewrite E0, E1. set (o := contents s offset) in *. set (size := contents s (offset + 1)) in *.
  apply wp_bind, wp_modify. match goal with |- wp _ _ ?t => change t with (mk_svc hw1 m1 (addr_noted o size s)) end.
  assert (∀ hw m' (P : Z → Prop), ev_data (eep_of hw) = contents s → (∀ x, ¬ (ROM_PATCH_BUF_ADDR <= x < ROM_PATCH_BUF_ADDR + 2 * size) → ¬ P x → mem_rd m' x = mem_rd m1 x) →
    mem_kept stack size P (sv_mem s) m') as Hkept.
  { intros hw m' P _ Hx x H1 H2 H3. rewrite Hx, Hm1, decide_False by (done || lia). done. }
  unfold patch_image in HQ. fold o size in HQ. cbn [pt_size pt_load] in HQ. pose proof (Hf offset) as Ho'. pose proof (Hf (offset + 1)) as Hs'. fold o in Ho'. fold size in Hs'.
  assert ((size =? 0) || (o <? EEPROM_START_OFFSET) || (o >? EEPROM_END_OFFSET) || (o + size >? EEPROM_END_OFFSET)
    = negb ((0 <? size) && (o + size <=? EEPROM_END_OFFSET))) as ->.
  { unfold EEPROM_END_OFFSET, EEPROM_START_OFFSET in *. rewrite !Z.gtb_ltb.
    destruct (Z.eqb_spec size 0), (Z.ltb_spec o 0), (Z.ltb_spec (0 + 0xfff) o), (Z.ltb_spec (0 + 0xfff) (o + size)), (Z.ltb_spec 0 size), (Z.leb_spec (o + size) (0 + 0xfff)); done || lia. }
  destruct ((0 <? size) && (o + size <=? EEPROM_END_OFFSET)) eqn:Eb; cbn [negb andb] in *; cycle 1.
  { apply wp_ret, HQ. split_and!; [done|done|]. by apply (Hkept hw1). }
  apply andb_true_iff in Eb as [E2%Z.ltb_lt E3%Z.leb_le].
  apply wp_bind, wp_eep_read; [done|unfold contents; cbn [sv_hw]; by rewrite Hd1|lia|lia|lia|]. unfold contents. cbn [sv_hw sv_mem]. rewrite Hd1. fold (contents s).
  intros hw2 m2 Hd2 Hm2. change (mk_svc hw1 m1 _ <| sv_hw := hw2 |> <| sv_mem := m2 |>) with (mk_svc hw2 m2 (addr_noted o size s)).
  eapply wp_bind, (wp_decode (contents s) o size); [exact Hf|lia|done|exact Hm2|]. cbn [pt_load]. destruct (_ && _) in HQ |- *; cycle 1.
  { apply wp_ret, HQ. split_and!; [done|done|]. apply (Hkept hw2); [done|]. intros x Hx _. by rewrite Hm2, decide_False by lia. }
  destruct HQ as (Hfit & Hcn & HQ). split_and!; [done|done|]. intros m3 Hm3.
  apply wp_bind. unfold cmnos_romp_install. apply wp_bind, wp_gets. eapply wp_mono.
  - apply HQ. split_and!; [done|done| |].
    + intros k Hk. cbn [sv_mem]. rewrite Hm3, decide_True by (cbn [pt_load] in *; lia). cbn [pt_load pt_offset]. do 2 f_equal. f_equal. lia.
    + apply (Hkept hw2); [done|]. unfold in_code. intros x Hx H2. cbn [sv_mem] in *. by rewrite Hm3, decide_False, Hm2, decide_False by (done || lia).
  - intros [] s' Hs''. by apply wp_ret.
Qed.
End props.
