(* ===== verification/CmnosSample.v ===== *)
(** * A small EEPROM

    An EEPROM that takes two polls for a half word, with a patch of one word in it, and the
    patch installed. *)

From S2P Require Import Prelude.
From S2P Require Import Hif.
From S2P Require Import Cmnos.
From S2P Require Import CmnosProps.

Module eechip.
Definition rd32 (a : Z) (c : eep_view) : Z * eep_view :=
  if a =? EEPROM_CTRL_BASE + H_EEPROM_STS_DATA then
    (if (ev_wait c =? 0)%nat then u16 (ev_data c (ev_sel c)) else B_EEP_STS_STATE_BUSY, c <| ev_wait ::= Nat.pred |>)
  else (0, mk_ev (ev_data c) ((a - EEPROM_ADDR_BASE) / 4) 2).
(** The pointer at 0xfc; a patch of a checksum, a length of four bytes, its place and its entry,
    and a word of code. *)
Definition data (o : Z) : Z :=
  if o <? 0x100 then (if o =? 0xfc then 0x100 else if o =? 0xfd then 8 else 0)
  else nth (Z.to_nat (o - 0x100)) [0xabcd; 4; 0x51; 0; 0x51; 0; 0xabcd; 4] 0xffff.
End eechip.

#[export] Instance eechip_io : DevIo eep_view := {|
  dev_rd8 _ c := (0, c); dev_rd16 _ c := (0, c); dev_rd32 := eechip.rd32;
  dev_wr8 _ _ c := c; dev_wr16 _ _ c := c; dev_wr32 _ _ c := c |}.
#[export] #[refine] Instance eechip_eeprom : Eeprom eep_view := {| eep_of c := c <| ev_data ::= λ g o, u16 (g o) |>; eep_max := 2 |}.
Proof.
  - intros o c Ho. change (dev_rd32 (EEPROM_ADDR_BASE + 4 * o) c) with (eechip.rd32 (EEPROM_ADDR_BASE + 4 * o) c). unfold eechip.rd32.
    destruct (Z.eqb_spec (EEPROM_ADDR_BASE + 4 * o) (EEPROM_CTRL_BASE + H_EEPROM_STS_DATA)) as [E|_].
    { unfold EEP_WINDOW, EEPROM_ADDR_BASE, EEPROM_CTRL_BASE, H_EEPROM_STS_DATA in *. lia. }
    exists 2%nat. split; [lia|]. replace (EEPROM_ADDR_BASE + 4 * o - EEPROM_ADDR_BASE) with (o * 4) by lia. by rewrite Z.div_mul.
  - intros c. change (dev_rd32 ?a c) with (eechip.rd32 a c). unfold eechip.rd32. rewrite Z.eqb_refl. destruct (Nat.eqb_spec (ev_wait c) 0) as [E|E]; fields.
    + split_and!; [split; [done|]|intros _; apply u16_small, u16_range|done]. intros _.
      change (B_EEP_STS_STATE_BUSY .| B_EEP_STS_IS_BUSY) with (3 .<< 16). apply Z.bits_inj'. intros i Hi. rewrite Z.land_spec, Z.bits_0.
      destruct (Z.ltb_spec i 16); [rewrite (Z.shiftl_spec_low 3 16 i), andb_false_r by done; done|].
      unfold u16. change 65536 with (2 ^ 16). by rewrite Z.mod_pow2_bits_high by lia.
    + split_and!; [|done|done]. split; [intros H; by vm_compute in H|done].
Defined.

Definition eep_sample : svc eep_view (cmnos Z) :=
  mk_svc (mk_ev eechip.data 0 0) ∅
    (mk_cmnos (mk_wdt false 0 0) (mk_clock 0 0 0 0 0) false 0 true true 0 (0, 0) [] 0 0).
(** The code of the patch notes where it was entered. *)
Definition eep_run (entry : Z) : M (svc eep_view (cmnos Z)) unit := modify (λ s, s <| sv_up ::= λ c, c <| cm_up := entry |> |>).
Example patch_comes_in : match cmnos_romp_download 10 eep_run 0x527000 0xfc eep_sample with
  Ok (ok, s) => ok = true ∧ cm_up (sv_up s) = 0x510000 ∧ mem_get (sv_mem s) 0x510000 4 = [4; 0; 0xcd; 0xab] | Fault _ => False end.
Proof. vm_compute. by split_and!. Qed.

Lemma romp_download_installs_witness :
  wp (cmnos_romp_download 10 eep_run 0x527000 0xfc)
    (λ ok s, ok = true ∧ cm_up (sv_up s) = 0x510000 ∧
       ∀ k, 0 <= k < 4 → mem_rd (sv_mem s) (0x510000 + k) = eep_byte (λ o, u16 (eechip.data o)) 0x100 (12 + wswap k)) eep_sample.
Proof.
  refine (romp_download_installs 10 _ eep_run 0x527000 0xfc eep_sample _ _ _ _ _ _ _ _); try done.
  - change (2 < 10)%nat. lia.
  - intros o. apply u16_range.
  - change (¬ 0 < 8 < 6). lia.
  - change (¬ 0x800 < 0x108 <= 0xfff). lia.
  - change (patch_image (contents eep_sample) 0xfc) with (Some (mk_patch 0x100 8 0x510000 4 0x510000)).
    split; [split_and!; [by vm_compute|by vm_compute|left; by vm_compute]|]. split; [by vm_compute|].
    intros s1 (_ & _ & Hk & _). split_and!; [done|done|]. exact Hk.
Defined.
