(* ===== verification/DbgProps.v ===== *)
(** * The debug console: a line typed runs its command

    What the UART hands over ([Uart]), what a line means, and what typing it does. *)

From Stdlib Require Import Ascii String.
From S2P Require Import Prelude.
From S2P Require Import Hif.
From S2P Require Import Printf.
From S2P Require Import Cmnos.
From S2P Require Import CmnosProps.
From S2P Require Import Dbg.

(** ** The device

    The characters that have arrived. *)
Class Uart (HW : Type) `{DevIo HW} := {
  uart_in : HW → list Z;
  lsr_read hw : let '(w, hw') := dev_rd32 (UART_BASE_ADDRESS .| LSR_OFFSET) hw in
    tst w LSR_DR_MASK = negb (bool_decide (uart_in hw = [])) ∧ uart_in hw' = uart_in hw;
  rbr_read hw c l : uart_in hw = c :: l → let '(w, hw') := dev_rd32 (UART_BASE_ADDRESS .| RBR_OFFSET) hw in
    u8 w = c ∧ uart_in hw' = l;
}.

(** The device after reads of the two registers. *)
Inductive uart_reads `{DevIo HW} (hw : HW) : HW → Prop :=
  | reads_none : uart_reads hw hw
  | reads_one a hw' : uart_reads hw hw' → a = UART_BASE_ADDRESS .| LSR_OFFSET ∨ a = UART_BASE_ADDRESS .| RBR_OFFSET →
      uart_reads hw (dev_rd32 a hw').2.
#[export] Hint Constructors uart_reads : core.
Lemma uart_reads_trans `{DevIo HW} (h1 h2 h3 : HW) : uart_reads h1 h2 → uart_reads h2 h3 → uart_reads h1 h3.
Proof. intros H1 H2. induction H2; eauto. Qed.

(** ** What a line means *)
Fixpoint blanks_off (l : list Z) : list Z := match l with c :: l' => if c =? ch " " then blanks_off l' else l | [] => [] end.
(** A word, and what follows it. *)
Fixpoint word_of (l : list Z) : list Z * list Z :=
  match l with
  | [] => ([], [])
  | c :: l' => if c =? ch " " then ([], l) else let '(w, r) := word_of l' in (c :: w, r)
  end.
Definition next_word (l : list Z) : list Z * list Z := word_of (blanks_off l).
Definition upper (c : Z) : Z := if (c <=? ch "z") && (c >=? ch "a") then c - (ch "a" - ch "A") else c.
(** The command of a line and its three words. *)
Definition line_words (l : list Z) : list Z * list Z * list Z * list Z :=
  let '(w0, l) := next_word l in let '(w1, l) := next_word l in let '(w2, l) := next_word l in
  (map upper w0, w1, w2, (next_word l).1).
Definition echo (l : list Z) : list dbg_event := map (λ c, Print "%c" [PNum c]) l.

(** The history after a line. *)
Definition history (d : dbg) : list (list Z) * Z * bool := (cmd_buffer d, cmd_buf_ptr d, cmd_buf_full d).
Definition previous (d : dbg) : Z := if cmd_buf_ptr d =? 0 then COMMAND_BUFFER_SIZE - 1 else cmd_buf_ptr d - 1.
Definition line_kept (d : dbg) (line : list Z) : bool :=
  negb (bool_decide (line = [])) && negb (bool_decide (c_str (nth (Z.to_nat (previous d)) (cmd_buffer d) []) = line)).
Definition remember (d : dbg) (line : list Z) : list (list Z) * Z * bool :=
  if line_kept d line then
    let p := cmd_buf_ptr d in
    (<[Z.to_nat p := line ++ 0 :: drop (S (length line)) (nth (Z.to_nat p) (cmd_buffer d) [])]> (cmd_buffer d),
     if p + 1 =? COMMAND_BUFFER_SIZE then 0 else p + 1, if p + 1 =? COMMAND_BUFFER_SIZE then true else cmd_buf_full d)%list
  else history d.

(** The arrays have their sizes, and every row of the history is a string. *)
Definition is_row (l : list Z) : Prop := length l = 40%nat ∧ 0 ∈ l.
Definition dbg_wf (d : dbg) : Prop :=
  length (raw_cmd d) = 40%nat ∧ length (cmd_str d) = 160%nat ∧ length (cmd_buffer d) = 6%nat ∧ Forall is_row (cmd_buffer d) ∧
  0 <= cmd_buf_ptr d < COMMAND_BUFFER_SIZE.

(** ** Strings *)
Lemma insert_between {A} (a b : list A) x y : <[length a := y]> (a ++ x :: b)%list = (a ++ y :: b)%list.
Proof. by rewrite <-(Nat.add_0_r (length a)), insert_app_r. Qed.
Definition no_end (l : list Z) : Prop := Forall (λ c, c ≠ 0) l.
Lemma c_str_app l r : no_end l → c_str (l ++ 0 :: r) = l.
Proof. induction 1 as [|c l Hc _ IH]; [done|]. cbn. rewrite (proj2 (Z.eqb_neq _ _)) by done. by rewrite IH. Qed.
Lemma has_end l : 0 ∈ l → existsb (Z.eqb 0) l = true.
Proof. intros Hl. apply existsb_exists. exists 0. split; [by apply list_elem_of_In|done]. Qed.
Lemma blanks_off_spec l : ∃ b, l = (b ++ blanks_off l)%list ∧ Forall (λ c, c = ch " ") b ∧ head (blanks_off l) ≠ Some (ch " ").
Proof.
  induction l as [|c l (b & E & Hb & Hh)]; [by exists []|]. cbn [blanks_off]. destruct (Z.eqb_spec c (ch " ")) as [->|Hc].
  - exists (ch " " :: b). split_and!; [by rewrite E at 1|by constructor|done].
  - exists []. split_and!; [done|done|]. cbn. congruence.
Qed.
Lemma word_of_spec l : l = ((word_of l).1 ++ (word_of l).2)%list ∧ Forall (λ c, c ≠ ch " ") (word_of l).1 ∧
  ((word_of l).2 = [] ∨ head (word_of l).2 = Some (ch " ")).
Proof.
  induction l as [|c l (E & Hw & Hr)]; [by auto|]. cbn [word_of]. destruct (Z.eqb_spec c (ch " ")) as [->|Hc]; [by auto|].
  destruct (word_of l) as [w r]. cbn in *. split_and!; [by rewrite E at 1|by constructor|done].
Qed.

(** ** Numbers: what is printed can be typed *)
Definition hex_char (d : Z) : Z := if d <? 10 then d + ch "0" else d - 10 + ch "A".
Lemma hex_digit_char d : 0 <= d < 16 → hex_digit (hex_char d) = Some d.
Proof.
  intros Hd. unfold hex_char, hex_digit. change (ch "0") with 48. change (ch "9") with 57. change (ch "A") with 65. change (ch "F") with 70.
  destruct (Z.ltb_spec d 10).
  - rewrite (proj2 (Z.leb_le _ _)), (proj2 (Z.leb_le _ _)) by lia. cbn [andb]. f_equal. lia.
  - rewrite (proj2 (Z.leb_le 48 _)), (proj2 (Z.leb_gt _ 57)) by lia. cbn [andb]. rewrite (proj2 (Z.leb_le _ _)), (proj2 (Z.leb_le _ _)) by lia.
    cbn [andb]. f_equal. lia.
Qed.
Lemma hex_loop_digits x (k : nat) : in_u32 x →
  hex_loop (map (λ i, hex_char ((x .>> (i * 4)) .& 0xf)) (rev (seqZ 0 (Z.of_nat k)))) (x .>> (Z.of_nat k * 4)) = (x, true).
Proof.
  unfold in_u32. intros Hx. induction k as [|k IH]; [cbn; by rewrite Z.shiftr_0_r|].
  replace (seqZ 0 (Z.of_nat (S k))) with (seqZ 0 (Z.of_nat k) ++ [Z.of_nat k])%list.
  2:{ unfold seqZ. rewrite !Nat2Z.id, seq_S, fmap_app. cbn. by rewrite Z.add_0_r. }
  rewrite rev_app_distr. cbn [rev app map hex_loop].
  change 0xf with (2 ^ 4 - 1). rewrite land_mask by done. change (2 ^ 4) with 16. rewrite hex_digit_char by (apply Z.mod_pos_bound; lia).
  set (y := x .>> (Z.of_nat k * 4)) in *.
  assert (x .>> (Z.of_nat (S k) * 4) = y / 16) as ->.
  { subst y. replace (Z.of_nat (S k) * 4) with (Z.of_nat k * 4 + 4) by lia. rewrite <-Z.shiftr_shiftr by lia. by rewrite (Z.shiftr_div_pow2 _ 4). }
  assert (0 <= y <= x) as Hy.
  { subst y. rewrite Z.shiftr_div_pow2 by lia. split; [apply Z.div_pos; lia|]. apply Z.div_le_upper_bound; nia. }
  rewrite Z.shiftl_mul_pow2 by lia. change (2 ^ 4) with 16. rewrite (u32_small (y / 16 * 16)), u32_small by mlia.
  replace (y / 16 * 16 + y mod 16) with y by mlia. exact IH.
Qed.
Lemma hex_round_trip x : in_u32 x → db_ascii_to_hex (db_hex_to_ascii x) = (x, true).
Proof.
  intros Hx. pose proof (hex_loop_digits x 8 Hx) as E. rewrite Z.shiftr_div_pow2, Z.div_small in E by (unfold in_u32 in Hx; cbn; lia). exact E.
Qed.

Section props.
Context {HW : Type} `{Uart HW} `{!CpuIo HW}.
Abbreviation state := (svc HW (cmnos dbg)).
Implicit Types (s : state) (d : dbg) (hw : HW).

Definition set_db d s : state := s <| sv_up ::= λ c, c <| cm_up := d |> |>.
Definition dbg_of s : dbg := cm_up (sv_up s).
Lemma set_db_of s : set_db (dbg_of s) s = s.
Proof. by destruct s as [? ? []]. Qed.

(** *** Steps *)
Lemma wp_db {A} (f : dbg → A) d s (Q : A → state → Prop) : Q (f d) (set_db d s) → wp (db f) Q (set_db d s).
Proof. done. Qed.
Lemma wp_upd_db f d s (Q : unit → state → Prop) : Q tt (set_db (f d) s) → wp (upd_db f) Q (set_db d s).
Proof. done. Qed.
Lemma wp_printf fmt args d s (Q : unit → state → Prop) :
  Q tt (set_db (d <| dbg_out ::= λ l, (l ++ [Print fmt args])%list |>) s) → wp (A_PRINTF fmt args) Q (set_db d s).
Proof. done. Qed.
Lemma wp_index {A} (l : list A) i x s (Q : A → state → Prop) : 0 <= i → l !! Z.to_nat i = Some x → Q x s → wp (index l i) Q s.
Proof. intros Hi E HQ. unfold index. rewrite (proj2 (Z.ltb_ge _ _)) by done. by rewrite E. Qed.
Lemma wp_put_index {A} (l : list A) i v s (Q : list A → state → Prop) :
  0 <= i < Z.of_nat (length l) → Q (<[Z.to_nat i := v]> l) s → wp (put_index l i v) Q s.
Proof. intros Hi HQ. unfold put_index. rewrite (proj2 (Z.leb_le _ _)), (proj2 (Z.ltb_lt _ _)) by lia. done. Qed.
Lemma wp_get_str l s (Q : list Z → state → Prop) : 0 ∈ l → Q (c_str l) s → wp (get_str l) Q s.
Proof. intros Hl HQ. unfold get_str. by rewrite has_end. Qed.
Lemma wp_strcpy row l s (Q : list Z → state → Prop) :
  (length l < length row)%nat → Q (l ++ 0 :: drop (S (length l)) row)%list s → wp (A_STRCPY row l) Q s.
Proof. intros Hl HQ. unfold A_STRCPY. by rewrite (proj2 (Nat.ltb_lt _ _)). Qed.
Lemma wp_set_raw a c b v d s (Q : unit → state → Prop) : raw_cmd d = (a ++ c :: b)%list →
  Q tt (set_db (d <| raw_cmd := (a ++ v :: b)%list |>) s) → wp (set_raw (Z.of_nat (length a)) v) Q (set_db d s).
Proof.
  intros E HQ. unfold set_raw. apply wp_bind, wp_db. rewrite E. apply wp_bind, wp_put_index; [rewrite length_app; cbn [length]; lia|].
  rewrite Nat2Z.id, insert_between. by apply wp_upd_db.
Qed.
Lemma wp_set_cmd_str a c b v d s (Q : unit → state → Prop) i : cmd_str d = (a ++ c :: b)%list → i = Z.of_nat (length a) →
  Q tt (set_db (d <| cmd_str := (a ++ v :: b)%list |>) s) → wp (set_cmd_str i v) Q (set_db d s).
Proof.
  intros E -> HQ. unfold set_cmd_str. apply wp_bind, wp_db. rewrite E. apply wp_bind, wp_put_index; [rewrite length_app; cbn [length]; lia|].
  rewrite Nat2Z.id, insert_between. by apply wp_upd_db.
Qed.
Lemma wp_raw_at a c b d s (Q : Z → state → Prop) : raw_cmd d = (a ++ c :: b)%list →
  Q c (set_db d s) → wp (raw_at (Z.of_nat (length a))) Q (set_db d s).
Proof.
  intros E HQ. unfold raw_at. apply wp_bind, wp_db. apply wp_index with c; [lia| |done]. rewrite Nat2Z.id, E. by apply list_lookup_middle.
Qed.

(** *** Parsing a line *)
Lemma wp_skip_blanks : ∀ b fuel a c l d s (Q : Z → state → Prop),
  raw_cmd d = (a ++ b ++ c :: l)%list → Forall (λ c, c = ch " ") b → c ≠ ch " " → (length b < fuel)%nat →
  Q (Z.of_nat (length (a ++ b)%list)) (set_db d s) → wp (skip_blanks fuel (Z.of_nat (length a))) Q (set_db d s).
Proof.
  induction b as [|b0 b IH]; intros fuel a c l d s Q E Hb Hc Hf HQ; (destruct fuel as [|fuel]; [cbn in Hf; lia|]); cbn [skip_blanks].
  - apply wp_bind, (wp_raw_at a c l); [done|]. rewrite (proj2 (Z.eqb_neq _ _)) by done. apply wp_ret. by rewrite app_nil_r in HQ.
  - apply Forall_cons in Hb as [-> Hb]. apply wp_bind, (wp_raw_at a (ch " ") (b ++ c :: l)%list); [done|]. rewrite Z.eqb_refl.
    replace (Z.of_nat (length a) + 1) with (Z.of_nat (length (a ++ [ch " "])%list)) by (rewrite length_app; cbn; lia).
    apply (IH _ _ c l); [by rewrite E, <-app_assoc|done|done|cbn in Hf; lia|]. by rewrite <-app_assoc.
Qed.

(** The capitals of the first word. *)
Definition cased (k : Z) (w : list Z) : list Z := if k =? 0 then map upper w else w.
Lemma length_cased k w : length (cased k w) = length w.
Proof. unfold cased. destruct (k =? 0); [apply length_map|done]. Qed.
Lemma wp_copy_word k : 0 <= k → ∀ w fuel a c l x y z d s (Q : Z * Z → state → Prop) j,
  raw_cmd d = (a ++ w ++ c :: l)%list → Forall (λ c, c ≠ 0 ∧ c ≠ ch " ") w → c = 0 ∨ c = ch " " → (length w < fuel)%nat →
  cmd_str d = (x ++ y ++ z)%list → length y = length w → Z.of_nat (length x) = k * DB_MAX_COMMAND_LENGTH + j →
  Q (Z.of_nat (length (a ++ w)%list), j + Z.of_nat (length w))
    (set_db (d <| raw_cmd := (a ++ cased k w ++ c :: l)%list |> <| cmd_str := (x ++ cased k w ++ z)%list |>) s) →
  wp (copy_word fuel k (Z.of_nat (length a)) j) Q (set_db d s).
Proof.
  intros Hk. induction w as [|c0 w IH]; intros fuel a c l x y z d s Q j E Hw Hc Hf Ec Hy Hx HQ; (destruct fuel as [|fuel]; [cbn in Hf; lia|]); cbn [copy_word].
  - destruct y; [|done]. apply wp_bind, (wp_raw_at a c l); [done|].
    assert ((c =? 0) || (c =? ch " ") = true) as -> by (destruct Hc as [-> | ->]; done). apply wp_ret.
    rewrite app_nil_r, Z.add_0_r in HQ. replace (d <| raw_cmd := _ |> <| cmd_str := _ |>) with d in HQ; [done|].
    unfold cased. destruct (k =? 0); cbn [map app]; cbn in E, Ec; rewrite <-E, <-Ec; by destruct d.
  - destruct y as [|y0 y]; [done|]. apply Forall_cons in Hw as [[Hz Hb] Hw].
    apply wp_bind, (wp_raw_at a c0 (w ++ c :: l)%list); [done|]. rewrite (proj2 (Z.eqb_neq _ _)), (proj2 (Z.eqb_neq _ _)) by done. cbn [orb].
    set (c1 := if k =? 0 then upper c0 else c0).
    assert (cased k (c0 :: w) = c1 :: cased k w) as Ecs by (unfold cased, c1; by destruct (k =? 0)). rewrite Ecs in HQ.
    apply wp_bind, (wp_mono _ (λ _ s', s' = set_db (d <| raw_cmd := (a ++ c1 :: w ++ c :: l)%list |>) s)).
    { assert (d = d <| raw_cmd := (a ++ c0 :: w ++ c :: l)%list |>) as Ed by (cbn in E; rewrite <-E; by destruct d).
      unfold c1, upper. destruct (k =? 0); cbn [andb]; [|apply wp_ret; by rewrite <-Ed].
      destruct ((c0 <=? ch "z") && (c0 >=? ch "a")); [|apply wp_ret; by rewrite <-Ed]. by eapply wp_set_raw. }
    intros [] s' ->. apply wp_bind, (wp_raw_at a c1 (w ++ c :: l)%list); [done|].
    apply wp_bind, (wp_set_cmd_str x y0 (y ++ z)%list); [done|lia|].
    replace (Z.of_nat (length a) + 1) with (Z.of_nat (length (a ++ [c1])%list)) by (rewrite length_app; cbn; lia).
    apply (IH _ _ c l (x ++ [c1])%list y z); [by rewrite <-app_assoc|done|done|cbn in Hf; lia|by rewrite <-app_assoc|by injection Hy|rewrite length_app; cbn; lia|].
    rewrite <-!app_assoc. cbn [app].
    replace (j + 1 + Z.of_nat (length w)) with (j + Z.of_nat (length (c0 :: w))) by (cbn [length]; lia).
    replace (length (a ++ c1 :: w)%list) with (length (a ++ c0 :: w)%list) by (by rewrite !length_app). exact HQ.
Qed.

(** The row [k] of the words. *)
Definition row_set (k : Z) (w l : list Z) : list Z :=
  (take (Z.to_nat (k * DB_MAX_COMMAND_LENGTH)) l ++ w ++ 0 :: drop (S (Z.to_nat (k * DB_MAX_COMMAND_LENGTH) + length w)) l)%list.
Lemma length_row_set k w l : length l = 160%nat → 0 <= k < 4 → (length w < 40)%nat → length (row_set k w l) = 160%nat.
Proof.
  unfold row_set, DB_MAX_COMMAND_LENGTH. intros El Hk Hw. rewrite !length_app. cbn [length]. rewrite length_take, length_drop. lia.
Qed.
Lemma wp_one_word k a l tl d s (Q : Z → state → Prop) : 0 <= k < 4 →
  raw_cmd d = (a ++ l ++ 0 :: tl)%list → no_end l → length (raw_cmd d) = 40%nat → length (cmd_str d) = 160%nat →
  (∀ a', length (a' ++ (next_word l).2 ++ 0 :: tl)%list = 40%nat →
    Q (Z.of_nat (length a')) (set_db (d <| raw_cmd := (a' ++ (next_word l).2 ++ 0 :: tl)%list |>
        <| cmd_str ::= row_set k (cased k (next_word l).1) |>) s)) →
  wp (one_word k (Z.of_nat (length a))) Q (set_db d s).
Proof.
  intros Hk E Hn Hl Hs HQ. unfold next_word in *. destruct (blanks_off_spec l) as (b & Eb & Hb & Hh).
  destruct (word_of_spec (blanks_off l)) as (Ew & Hw & Hr). set (w := (word_of (blanks_off l)).1) in *. set (r := (word_of (blanks_off l)).2) in *.
  rewrite Ew in Eb, Hh. clear Ew. assert (no_end w ∧ no_end r) as [Hnw Hnr].
  { unfold no_end in *. rewrite Eb, !Forall_app in Hn. tauto. }
  assert (∃ c t, (r ++ 0 :: tl = c :: t)%list ∧ (c = 0 ∨ c = ch " ")) as (c & t & Er & Hc).
  { destruct Hr as [->|Hr]; [by exists 0, tl; auto|]. destruct r as [|c0 r]; [done|]. injection Hr as ->. by exists (ch " "), (r ++ 0 :: tl)%list; auto. }
  assert (raw_cmd d = (a ++ b ++ w ++ c :: t)%list) as E'.
  { by rewrite E, Eb, <-Er, <-!app_assoc. }
  assert (length a + length b + length w < 40)%nat as Hlw by (rewrite E', !length_app in Hl; cbn [length] in Hl; lia).
  unfold one_word. apply wp_bind, wp_db. rewrite Hl.
  assert (∃ c1 t1, (w ++ c :: t = c1 :: t1)%list ∧ c1 ≠ ch " ") as (c1 & t1 & E1 & Hc1).
  { destruct w as [|c1 w]; [|exists c1, (w ++ c :: t)%list; split; [done|by apply Forall_cons in Hw as [? _]]].
    exists c, t. split; [done|]. destruct Hc as [-> | ->]; [done|]. destruct r as [|r0 r']; [done|]. injection Er as Er0 _. exfalso. apply Hh. cbn. by rewrite Er0. }
  apply wp_bind, (wp_skip_blanks b _ a c1 t1); [by rewrite E', <-E1|done|done|lia|].
  set (x := take (Z.to_nat (k * DB_MAX_COMMAND_LENGTH)) (cmd_str d)).
  set (y := take (length w) (drop (Z.to_nat (k * DB_MAX_COMMAND_LENGTH)) (cmd_str d))).
  set (z := drop (length w) (drop (Z.to_nat (k * DB_MAX_COMMAND_LENGTH)) (cmd_str d))).
  assert (cmd_str d = (x ++ y ++ z)%list) as Es by (subst x y z; by rewrite !take_drop).
  unfold DB_MAX_COMMAND_LENGTH in *.
  assert (length x = Z.to_nat (k * 40)) as Hx by (subst x; rewrite length_take; lia).
  assert (length y = length w) as Hy by (subst y; rewrite length_take, length_drop; lia).
  assert (∃ z0 z', z = z0 :: z') as (z0 & z' & Ez).
  { destruct z as [|z0 z'] eqn:Ez; [|by eauto]. apply (f_equal length) in Ez. subst z. rewrite !length_drop in Ez. cbn in Ez. lia. }
  apply wp_bind, (wp_copy_word k ltac:(lia) w _ (a ++ b)%list c t x y z).
  - by rewrite E', <-app_assoc.
  - unfold no_end in Hnw. rewrite Forall_forall in *. auto.
  - done.
  - lia.
  - done.
  - done.
  - unfold DB_MAX_COMMAND_LENGTH. lia.
  - apply wp_bind, (wp_set_cmd_str (x ++ cased k w)%list z0 z').
    + cbn [cmd_str]. rewrite Ez. cbn. by rewrite <-app_assoc.
    + rewrite length_app, length_cased. lia.
    + apply wp_ret. specialize (HQ ((a ++ b) ++ cased k w)%list). rewrite !length_app, length_cased in HQ. rewrite !length_app.
      replace (d <| raw_cmd := _ |> <| cmd_str := _ |> <| cmd_str := _ |>)
        with (d <| raw_cmd := (((a ++ b) ++ cased k w) ++ r ++ 0 :: tl)%list |> <| cmd_str ::= row_set k (cased k w) |>); [apply HQ|].
      { apply (f_equal length) in E'. rewrite Hl, <-Er, !length_app in E'. cbn [length] in *. lia. }
      assert (row_set k (cased k w) (cmd_str d) = (x ++ cased k w) ++ 0 :: z')%list as Erow.
      { unfold row_set, DB_MAX_COMMAND_LENGTH. rewrite <-app_assoc, length_cased. fold x. do 3 f_equal.
        change z' with (drop 1 (z0 :: z')). rewrite <-Ez. subst z. rewrite !drop_drop. f_equal. lia. }
      assert (((a ++ b) ++ cased k w) ++ r ++ 0 :: tl = (a ++ b) ++ cased k w ++ c :: t)%list as Eraw by (by rewrite Er, <-!app_assoc).
      change (d <| raw_cmd := ?u |> <| cmd_str ::= row_set k (cased k w) |>)
        with (d <| raw_cmd := u |> <| cmd_str := row_set k (cased k w) (cmd_str d) |>). by rewrite Erow, Eraw.
Qed.

Lemma next_word_no_end l : no_end l → no_end (next_word l).1 ∧ no_end (next_word l).2 ∧ (length (next_word l).1 + length (next_word l).2 <= length l)%nat.
Proof.
  intros Hn. unfold next_word, no_end in *. destruct (blanks_off_spec l) as (b & E & _). destruct (word_of_spec (blanks_off l)) as [Ew _].
  rewrite Ew in E. apply (f_equal length) in E as El. rewrite !length_app in El. rewrite E, !Forall_app in Hn. split_and!; [tauto|tauto|lia].
Qed.
Lemma row_set_rows k (w p r q : list Z) : 0 <= k → length p = Z.to_nat (k * DB_MAX_COMMAND_LENGTH) → (length w < length r)%nat →
  row_set k w (p ++ r ++ q) = (p ++ (w ++ 0 :: drop (S (length w)) r) ++ q)%list.
Proof.
  intros Hk Hp Hw. unfold row_set. rewrite <-Hp, take_app_length. rewrite <-app_assoc. cbn [app]. do 3 f_equal.
  replace (S (length p + length w)) with (length p + S (length w))%nat by lia. rewrite <-drop_drop, drop_app_length. rewrite drop_app_le by lia. done.
Qed.
(** The rows hold the words. *)
Definition words_in (cs : list Z) (ws : list (list Z)) : Prop :=
  length cs = 160%nat ∧ ∀ k w, ws !! k = Some w → ∃ p r, cs = (p ++ w ++ 0 :: r)%list ∧ length p = (40 * k)%nat ∧ no_end w.
Lemma wp_cmd_word cs ws k w d s (Q : list Z → state → Prop) : cmd_str d = cs → words_in cs ws → 0 <= k → ws !! Z.to_nat k = Some w →
  Q w (set_db d s) → wp (cmd_word k) Q (set_db d s).
Proof.
  intros <- [_ Hw] Hk E HQ. destruct (Hw _ _ E) as (p & r & Ec & Hp & Hn). unfold cmd_word. apply wp_bind, wp_db. rewrite Ec.
  replace (Z.to_nat (k * DB_MAX_COMMAND_LENGTH)) with (length p) by (unfold DB_MAX_COMMAND_LENGTH; lia). rewrite drop_app_length.
  apply wp_get_str; [set_solver|]. by rewrite c_str_app.
Qed.

Definition word_list (l : list Z) : list (list Z) := let '(w0, w1, w2, w3) := line_words l in [w0; w1; w2; w3].
Lemma wp_formalize l tl d s (Q : Z → state → Prop) :
  raw_cmd d = (l ++ 0 :: tl)%list → no_end l → length (raw_cmd d) = 40%nat → length (cmd_str d) = 160%nat →
  (∀ raw cs, length raw = 40%nat → words_in cs (word_list l) →
    Q (Z.of_nat (length (line_words l).1.1.1)) (set_db (d <| raw_cmd := raw |> <| cmd_str := cs |>) s)) →
  wp db_formalize_command Q (set_db d s).
Proof.
  intros E Hn Hl Hs HQ. assert (length l < 40)%nat as Hll by (rewrite E, length_app in Hl; cbn in Hl; lia).
  unfold word_list, line_words in HQ. unfold db_formalize_command.
  assert (∃ r0 r1 r2 r3, cmd_str d = (r0 ++ r1 ++ r2 ++ r3)%list ∧ length r0 = 40%nat ∧ length r1 = 40%nat ∧ length r2 = 40%nat ∧ length r3 = 40%nat)
    as (r0 & r1 & r2 & r3 & Er & L0 & L1 & L2 & L3).
  { set (c := cmd_str d) in *. exists (take 40 c), (take 40 (drop 40 c)), (take 40 (drop 40 (drop 40 c))), (drop 40 (drop 40 (drop 40 c))).
    rewrite !take_drop, !length_take, !length_drop. split_and!; [done|lia..]. }
  destruct (next_word_no_end l Hn) as (Hw0 & Hn0 & Hl0). destruct (next_word l) as [w0 l0] eqn:E0. cbn [fst snd] in *.
  destruct (next_word_no_end l0 Hn0) as (Hw1 & Hn1 & Hl1). destruct (next_word l0) as [w1 l1] eqn:E1. cbn [fst snd] in *.
  destruct (next_word_no_end l1 Hn1) as (Hw2 & Hn2 & Hl2). destruct (next_word l1) as [w2 l2] eqn:E2. cbn [fst snd] in *.
  destruct (next_word_no_end l2 Hn2) as (Hw3 & Hn3 & Hl3). destruct (next_word l2) as [w3 l3] eqn:E3. cbn [fst snd] in *.
  assert (length (cased 0 w0) < 40)%nat as Hc0 by (rewrite length_cased; lia).
  apply wp_bind, (wp_one_word 0 [] l tl); [lia|done|done|done|done|]. rewrite E0. intros a0 Ha0. cbn [fst snd] in *.
  apply wp_bind, (wp_one_word 1 a0 l0 tl); [lia|done|done|done|by apply length_row_set|]. rewrite E1. intros a1 Ha1. cbn [fst snd] in *.
  apply wp_bind, (wp_one_word 2 a1 l1 tl); [lia|done|done|done|cbn; do 2 (apply length_row_set; [|lia|rewrite ?length_cased, ?length_map; lia]); done|]. rewrite E2. intros a2 Ha2. cbn [fst snd] in *.
  apply wp_bind, (wp_one_word 3 a2 l2 tl); [lia|done|done|done|cbn; do 3 (apply length_row_set; [|lia|rewrite ?length_cased, ?length_map; lia]); done|]. rewrite E3. intros a3 Ha3. cbn [fst snd] in *.
  set (cs := row_set 3 w3 (row_set 2 w2 (row_set 1 w1 (row_set 0 (map upper w0) (cmd_str d))))).
  match goal with |- wp _ _ (set_db ?dd s) => change dd with (d <| raw_cmd := (a3 ++ l3 ++ 0 :: tl)%list |> <| cmd_str := cs |>) end.
  assert (no_end (map upper w0)) as Hu.
  { unfold no_end. apply Forall_map. eapply Forall_impl; [exact Hw0|]. intros c Hc. cbn. unfold upper.
    destruct (Z.leb_spec c (ch "z")), (Z.geb_spec c (ch "a")); cbn [andb]; try done. change (ch "a") with 97 in *. change (ch "A") with 65. lia. }
  assert (words_in cs [map upper w0; w1; w2; w3]) as Hcs.
  { subst cs. rewrite Er. unfold DB_MAX_COMMAND_LENGTH in *.
    rewrite (row_set_rows 0 _ [] r0 (r1 ++ r2 ++ r3)%list) by (rewrite ?length_map; cbn; lia). cbn [app].
    set (q0 := (map upper w0 ++ 0 :: _)%list).
    assert (length q0 = 40%nat) as Lq0 by (subst q0; rewrite length_app; cbn [length]; rewrite length_drop, ?length_map; lia).
    rewrite (row_set_rows 1 w1 q0 r1 (r2 ++ r3)%list) by (unfold DB_MAX_COMMAND_LENGTH; lia). set (q1 := (w1 ++ 0 :: _)%list).
    assert (length q1 = 40%nat) as Lq1 by (subst q1; rewrite length_app; cbn [length]; rewrite length_drop; lia).
    replace (q0 ++ q1 ++ r2 ++ r3)%list with ((q0 ++ q1) ++ r2 ++ r3)%list by by rewrite <-app_assoc.
    rewrite (row_set_rows 2 w2 (q0 ++ q1)%list r2 r3) by (rewrite ?length_app; unfold DB_MAX_COMMAND_LENGTH; lia). set (q2 := (w2 ++ 0 :: _)%list).
    assert (length q2 = 40%nat) as Lq2 by (subst q2; rewrite length_app; cbn [length]; rewrite length_drop; lia).
    replace ((q0 ++ q1) ++ q2 ++ r3)%list with ((q0 ++ q1 ++ q2) ++ r3 ++ [])%list by by rewrite app_nil_r, <-!app_assoc.
    rewrite (row_set_rows 3 w3 (q0 ++ q1 ++ q2)%list r3 []) by (rewrite ?length_app; unfold DB_MAX_COMMAND_LENGTH; lia).
    split; [rewrite !length_app; cbn [length]; rewrite length_drop; lia|].
    intros [|[|[|[|k]]]] w [= <-]; [eexists [], _|eexists q0, _|eexists (q0 ++ q1)%list, _|eexists (q0 ++ q1 ++ q2)%list, _]; rewrite ?length_app;
      (split; [subst q0 q1 q2; cbn [app]; rewrite <-!app_assoc; cbn [app]; reflexivity|split; [cbn [length]; lia|done]]). }
  apply wp_bind, (wp_cmd_word cs _ 0 (map upper w0)) with (2 := Hcs); [done|lia|done|]. apply wp_ret.
  rewrite length_map. specialize (HQ (a3 ++ l3 ++ 0 :: tl)%list cs Ha3 Hcs). by rewrite length_map in HQ.
Qed.

(** *** Typing *)
Lemma wp_getc c l s (Q : option Z → state → Prop) : uart_in (sv_hw s) = c :: l →
  (∀ hw, uart_in hw = l → uart_reads (sv_hw s) hw → Q (Some c) (s <| sv_hw := hw |>)) → wp _uart_char_get Q s.
Proof.
  intros E HQ. unfold _uart_char_get, UART_REG_READ. apply wp_bind, wp_reg_read; [done|done|]. intros w hw Er.
  pose proof (lsr_read (sv_hw s)) as Hr. rewrite Er, E in Hr. destruct Hr as [-> Ei]. cbn [negb].
  rewrite bool_decide_eq_false_2 by done. cbn [negb]. apply wp_bind, wp_reg_read; [done|done|]. intros w' hw' Er'.
  change (sv_hw (s <| sv_hw := hw |>)) with hw in Er'. pose proof (rbr_read hw c l Ei) as Hr. rewrite Er' in Hr. destruct Hr as [-> Ei'].
  apply wp_ret. apply HQ; [done|]. change hw' with (w', hw').2.
  rewrite <-Er'. apply reads_one; [|by right]. change hw with (w, hw).2. rewrite <-Er. apply reads_one; [done|by left].
Qed.

(** What has been typed of a line. *)
Definition typed (pre tl : list Z) (t : Z) d : dbg :=
  d <| raw_cmd := (pre ++ tl)%list |> <| gvLen := Z.of_nat (length pre) |> <| pressed_time := t |> <| dbg_out := (dbg_out d ++ echo pre)%list |>.
(** The characters that a line is made of: [\] calls the line before. *)
Definition typable (c : Z) : Prop := ch " " <= c <= ch "~" ∧ c ≠ ch "\".
Lemma wp_type_char c pre tl t d s (Q : unit → state → Prop) : typable c → length (pre ++ tl)%list = 40%nat → (length pre <= 38)%nat →
  (∀ tl t, length (take 38 (pre ++ [c]) ++ tl)%list = 40%nat → Q tt (set_db (typed (take 38 (pre ++ [c])) tl t d) s)) →
  wp (type_char c) Q (set_db (typed pre tl t d) s).
Proof.
  intros [Hc Hb] Hl Hp HQ. change (ch " ") with 32 in Hc. change (ch "~") with 126 in Hc.
  unfold type_char. apply wp_bind, wp_upd_db. apply wp_bind, wp_db. change (gvLen (typed pre tl t d <| pressed_time := 0 |>)) with (Z.of_nat (length pre)).
  unfold DB_MAX_COMMAND_LENGTH. destruct (Z.ltb_spec (Z.of_nat (length pre)) (40 - 2)) as [Hlt|Hge]; cycle 1.
  { rewrite take_app_le in HQ by lia. rewrite take_ge in HQ by lia. exact (HQ tl 0 Hl). }
  rewrite take_ge in HQ by (rewrite length_app; cbn; lia).
  rewrite (proj2 (Z.geb_le _ _)), (proj2 (Z.leb_le _ _)) by lia. cbn [andb when].
  destruct tl as [|x tl]; [rewrite length_app in Hl; cbn in Hl; lia|].
  apply wp_bind, (wp_set_raw pre x tl); [done|]. apply wp_bind, wp_upd_db, wp_printf.
  match goal with |- Q tt (set_db ?dd s) => replace dd with (typed (pre ++ [c])%list tl 0 d) end.
  { apply HQ. rewrite length_app in *. cbn [length] in *. rewrite length_app. cbn [length]. lia. }
  unfold typed, echo. rewrite length_app, map_app, <-!app_assoc. cbn [length app map]. rewrite Nat2Z.inj_add. by rewrite (app_assoc (dbg_out d)).
Qed.

Context (n : nat) (memcmp : list Z → list Z → Z) (junk stack : Z) (sflash : bool).
Abbreviation task := (zf_debug_task n memcmp junk stack sflash).

Lemma wp_typing cs : ∀ pre tl t d s l (Q : unit → state → Prop),
  Forall typable cs → uart_in (sv_hw s) = (cs ++ l)%list → length (pre ++ tl)%list = 40%nat → (length pre <= 38)%nat →
  (∀ hw tl t, uart_in hw = l → uart_reads (sv_hw s) hw → length (take 38 (pre ++ cs) ++ tl)%list = 40%nat →
     Q tt (set_db (typed (take 38 (pre ++ cs)) tl t d) (s <| sv_hw := hw |>))) →
  wp (for_each (replicate (length cs) tt) (λ _, task)) Q (set_db (typed pre tl t d) s).
Proof.
  induction cs as [|c cs IH]; intros pre tl t d s l Q Hc Hu Hl Hp HQ; cbn [length replicate for_each].
  { rewrite app_nil_r in HQ. rewrite take_ge in HQ by lia. apply wp_ret.
    replace (set_db (typed pre tl t d) s) with (set_db (typed pre tl t d) (s <| sv_hw := sv_hw s |>)) by by destruct s. by apply HQ. }
  apply Forall_cons in Hc as [Hc Hcs]. apply wp_bind. unfold zf_debug_task at 1. apply wp_bind, (wp_getc c (cs ++ l)%list); [done|].
  intros hw Hh Hrd. change (sv_hw (set_db _ s)) with (sv_hw s) in Hrd. change (set_db ?d' s <| sv_hw := hw |>) with (set_db d' (s <| sv_hw := hw |>)).
  pose proof Hc as [[Hc1 Hc2] Hc3]. change (ch " ") with 32 in *. change (ch "~") with 126 in *.
  unfold db_get_cmd_line. rewrite (proj2 (Z.eqb_neq c (ch "\"))) by done. rewrite !(proj2 (Z.eqb_neq _ _)) by lia.
  change (ch " ") with 32. change (ch "~") with 126. rewrite (proj2 (Z.geb_le _ _)), (proj2 (Z.leb_le _ _)) by lia. cbn [andb].
  apply wp_bind, wp_bind, wp_type_char; [done|done|done|]. intros tl' t' Hl'. apply wp_ret. cbn [when]. apply wp_ret.
  eapply (IH _ _ _ _ (s <| sv_hw := hw |>) l); [done|done|done|rewrite length_take; lia|]. intros hw' tl2 t2 Hh2 Hrd2 Hl2.
  assert (take 38 (take 38 (pre ++ [c]) ++ cs) = take 38 (pre ++ c :: cs))%list as Et.
  { replace (pre ++ c :: cs)%list with ((pre ++ [c]) ++ cs)%list by by rewrite <-app_assoc.
    destruct (decide (length (pre ++ [c])%list <= 38)%nat) as [Hle|Hgt]; [by rewrite (take_ge (pre ++ [c])) by done|].
    rewrite (take_app_le (pre ++ [c])) by lia. rewrite take_app_le by (rewrite length_take; lia). by rewrite take_take, Nat.min_id. }
  rewrite Et in *. apply (HQ hw' tl2 t2); [done| |done]. by eapply uart_reads_trans.
Qed.

(** *** The end of the line *)
Lemma wp_end_of_line line x tl d s (Q : unit → state → Prop) :
  raw_cmd d = (line ++ x :: tl)%list → gvLen d = Z.of_nat (length line) → no_end line → (length line <= 38)%nat → dbg_wf d →
  Q tt (set_db (d <| pressed_time := 0 |> <| raw_cmd := (line ++ 0 :: tl)%list |> <| dbg_out ::= λ l, (l ++ [Print crlf []])%list |>
      <| cmd_buffer := (remember d line).1.1 |> <| cmd_buf_ptr := (remember d line).1.2 |> <| cmd_buf_full := (remember d line).2 |>) s) →
  wp end_of_line Q (set_db d s).
Proof.
  intros Er Eg Hn Hle (Hl & _ & Hb & Hrows & Hp) HQ. unfold COMMAND_BUFFER_SIZE in *. unfold end_of_line.
  apply wp_bind, wp_upd_db. apply wp_bind, wp_db. change (gvLen (d <| pressed_time := 0 |>)) with (gvLen d). rewrite Eg.
  apply wp_bind, (wp_set_raw line x tl); [done|]. apply wp_bind, wp_printf.
  set (d1 := d <| pressed_time := 0 |> <| raw_cmd := _ |> <| dbg_out ::= _ |>) in *.
  assert (cmd_buf_ptr d1 = cmd_buf_ptr d ∧ cmd_buffer d1 = cmd_buffer d ∧ raw_cmd d1 = (line ++ 0 :: tl)%list) as (Ep & Eb & Eraw) by done.
  assert (line_kept d line = false → wp (p ← db cmd_buf_ptr;
    when (p >=? COMMAND_BUFFER_SIZE) (upd_db (λ d, d <| cmd_buf_ptr := 0 |> <| cmd_buf_full := true |>))) Q (set_db d1 s)) as Hsame.
  { intros Ek. apply wp_bind, wp_db. rewrite Ep, Z.geb_leb. unfold COMMAND_BUFFER_SIZE. rewrite (proj2 (Z.leb_gt _ _)) by lia. apply wp_ret.
    unfold remember in HQ. rewrite Ek in HQ. exact HQ. }
  unfold line_kept in Hsame. destruct (Z.eqb_spec (Z.of_nat (length line)) 0) as [E0|E0]; cbn [negb when].
  { apply wp_bind, wp_ret, Hsame. destruct line; [done|cbn in E0; lia]. }
  rewrite bool_decide_eq_false_2 in Hsame by (by intros ->). cbn [negb andb] in Hsame.
  apply wp_bind. unfold keep_command. apply wp_bind, wp_db. cbn [id]. rewrite Ep, Eb, Eraw.
  assert (0 <= previous d < 6) as Hpr by (unfold previous, COMMAND_BUFFER_SIZE; destruct (Z.eqb_spec (cmd_buf_ptr d) 0); lia).
  assert (∀ i, 0 <= i < 6 → ∃ r, cmd_buffer d !! Z.to_nat i = Some r ∧ is_row r) as Hrow.
  { intros i Hi. destruct (lookup_lt_is_Some_2 (cmd_buffer d) (Z.to_nat i)) as [r E]; [lia|]. exists r. split; [done|]. by eapply Forall_lookup_1. }
  destruct (Hrow _ Hpr) as (pr & E1 & Hpl & Hpe). destruct (Hrow _ Hp) as (r & E2 & Hrl & _).
  fold (previous d). apply wp_bind, (wp_index _ _ pr); [lia|done|]. apply wp_bind, wp_get_str; [done|]. apply wp_bind, wp_get_str; [set_solver|].
  rewrite c_str_app by done. apply nth_lookup_Some with (d := []) in E1 as E1'. rewrite E1' in Hsame.
  destruct (decide (c_str pr = line)) as [Eq|Hne]; [rewrite bool_decide_eq_true_2 in * by done; cbn [negb when]; by apply wp_ret, Hsame|].
  rewrite bool_decide_eq_false_2 by done. cbn [negb when].
  apply wp_bind, (wp_index _ _ r); [lia|done|]. apply wp_bind, wp_strcpy; [lia|]. apply wp_bind, wp_put_index; [lia|]. apply wp_upd_db.
  apply wp_bind, wp_db. unfold remember, line_kept in HQ. rewrite E1', !bool_decide_eq_false_2 in HQ by (done || by intros ->). cbn [negb andb] in HQ.
  apply nth_lookup_Some with (d := []) in E2 as E2'. rewrite E2' in HQ. unfold COMMAND_BUFFER_SIZE in *.
  change (cmd_buf_ptr (_ <| cmd_buf_ptr ::= λ p, p + 1 |>)) with (cmd_buf_ptr d + 1).
  destruct (Z.eqb_spec (cmd_buf_ptr d + 1) 6) as [E6|E6].
  - rewrite E6. apply wp_upd_db. exact HQ.
  - rewrite Z.geb_leb, (proj2 (Z.leb_gt _ _)) by lia. apply wp_ret. exact HQ.
Qed.

(** *** A line *)
Lemma remember_wf d line : dbg_wf d → (length line <= 38)%nat →
  length (remember d line).1.1 = 6%nat ∧ Forall is_row (remember d line).1.1 ∧ 0 <= (remember d line).1.2 < COMMAND_BUFFER_SIZE.
Proof.
  intros (_ & _ & Hb & Hr & Hp) Hl. unfold remember, COMMAND_BUFFER_SIZE in *. destruct (line_kept d line); cbn [fst snd]; [|done].
  rewrite length_insert. split_and!; [done| |destruct (Z.eqb_spec (cmd_buf_ptr d + 1) 6); lia..].
  apply Forall_insert; [done|]. split; [|set_solver].
  destruct (lookup_lt_is_Some_2 (cmd_buffer d) (Z.to_nat (cmd_buf_ptr d))) as [r E]; [lia|].
  rewrite (nth_lookup_Some _ _ _ _ E), length_app. cbn [length]. rewrite length_drop.
  assert (is_row r) as [-> _] by by eapply Forall_lookup_1. lia.
Qed.

Definition noted (e : dbg_event) s : state := set_db (dbg_of s <| dbg_out ::= λ l, (l ++ [e])%list |>) s.
Definition prompted s : state := noted (Print ">" []) s.
(** The console after a line: it has echoed it, and remembers it. *)
Definition console_after (line : list Z) d d' : Prop :=
  dbg_wf d' ∧ history d' = remember d line ∧ pressed_time d' = 0 ∧ delay d' = delay d ∧
  dbg_out d' = (dbg_out d ++ echo line ++ [Print crlf []])%list.

Lemma line_no_end cs : Forall typable cs → no_end (take 38 cs).
Proof.
  intros Hc. apply Forall_take. eapply Forall_impl; [exact Hc|]. intros c [[Hc1 _] _]. change (ch " ") with 32 in Hc1. lia.
Qed.

(** C15: A line typed at the console runs its command. Characters from the blank to the tilde, but
    not the one that calls the last line, followed by a return: each is echoed as long as the
    line has room for it; the line, of 38 characters at most, goes into the history unless it is
    empty or the same as the one before, the oldest giving way; its first word, in capitals,
    selects the first command of that name, which is called once with the next three words; an
    unknown word is answered with a message, a line of blanks with nothing; the console then
    prompts and is ready for the next line, but a line of blanks stays in it. *)
Theorem console_runs_line cs l s (Q : unit → state → Prop) :
  Forall typable cs → uart_in (sv_hw s) = (cs ++ 13 :: l)%list → dbg_wf (dbg_of s) → gvLen (dbg_of s) = 0 →
  let line := take 38 cs in
  let '(name, w1, w2, w3) := line_words line in
  (∀ hw d', uart_in hw = l → uart_reads (sv_hw s) hw → console_after line (dbg_of s) d' →
    let s' := set_db d' (s <| sv_hw := hw |>) in
    if bool_decide (name = []) then gvLen d' = Z.of_nat (length line) → Q tt (prompted s')
    else gvLen d' = 0 →
      match find_command (command_table n memcmp junk stack sflash) name with
      | Some f => cmd_not_found d' = false → wp (f name w1 w2 w3) (λ _ s'', cmd_not_found (dbg_of s'') = false ∧ Q tt (prompted s'')) s'
      | None => cmd_not_found d' = true → Q tt (prompted (noted (Print ("Error, HELP for command list." ++ crlf) []) s'))
      end) →
  wp (for_each (replicate (length cs) tt) (λ _, task) ;; task) Q s.
Proof.
  intros Hc Hu Hwf Hg line. destruct (line_words line) as [[[name w1] w2] w3] eqn:Ew. intros HQ.
  set (d := dbg_of s) in *.
  assert (s = set_db (typed [] (raw_cmd d) (pressed_time d) d) s) as Es.
  { rewrite <-(set_db_of s) at 1. fold d. f_equal. unfold typed, echo. cbn [length map app]. rewrite app_nil_r. replace (Z.of_nat 0) with (gvLen d) by by rewrite Hg. by destruct d. }
  pose proof Hwf as (Hl & Hs & _). apply wp_bind. rewrite Es. apply (wp_typing cs _ _ _ _ s (13 :: l)); [done|done|done|cbn; lia|].
  cbn [app]. fold line. intros hw tl t Hh Hrd Ht. assert (length line <= 38)%nat as Hll by (subst line; rewrite length_take; lia).
  destruct tl as [|x tl]; [rewrite app_nil_r in Ht; lia|]. set (d0 := typed line (x :: tl) t d).
  unfold zf_debug_task. apply wp_bind, (wp_getc 13 l); [done|]. intros hw' Hh' Hrd'. change (sv_hw (set_db _ _)) with hw in Hrd'.
  assert (uart_reads (sv_hw s) hw') as Hrds by (by eapply uart_reads_trans).
  change (set_db d0 (s <| sv_hw := hw |>) <| sv_hw := hw' |>) with (set_db d0 (s <| sv_hw := hw' |>)). set (s1 := s <| sv_hw := hw' |>) in *.
  apply wp_bind. unfold db_get_cmd_line. change (13 =? ch "\") with false. change (13 =? 13) with true. cbn iota.
  pose proof (line_no_end cs Hc) as Hn. fold line in Hn.
  apply wp_bind, (wp_end_of_line line x tl); [done|done|done|done|by split_and!; try apply Hwf|]. apply wp_ret. cbn [when].
  change (remember d0 line) with (remember d line). destruct (remember_wf d line Hwf Hll) as (Hr1 & Hr2 & Hr3).
  match goal with |- wp _ _ (set_db ?dd s1) => set (d1 := dd) end.
  apply wp_bind, (wp_formalize line tl); [done|done|cbn; by rewrite length_app in *|done|]. rewrite Ew. cbn [fst]. intros raw cs' Hraw Hcs.
  unfold word_list in Hcs. rewrite Ew in Hcs. set (d2 := d1 <| raw_cmd := raw |> <| cmd_str := cs' |>).
  assert (∀ k nf, console_after line d (d2 <| gvLen := k |> <| cmd_not_found := nf |>)) as Hafter.
  { intros k nf. unfold console_after. split; [|split; [|split; [|split]]]; [| |done|done|].
    - destruct Hcs as [Hcl _]. unfold dbg_wf. split; [done|]. split; [done|]. split; [done|]. split; done.
    - unfold history. cbn. by destruct (remember d line) as [[? ?] ?].
    - cbn. by rewrite <-app_assoc. }
  destruct (decide (name = [])) as [->|Hname].
  { cbn [when truthy length]. apply wp_bind, wp_ret, wp_printf. specialize (HQ hw' d2 Hh' Hrds). cbn zeta in HQ.
    rewrite bool_decide_eq_true_2 in HQ by done. apply HQ; [|done]. exact (Hafter (gvLen d2) (cmd_not_found d2)). }
  assert (truthy (Z.of_nat (length name)) = true) as -> by (destruct name; [done|]; unfold truthy; by rewrite (proj2 (Z.eqb_neq _ _))).
  assert (bool_decide (name = []) = false) as Hne by by apply bool_decide_eq_false_2.
  cbn [when]. apply wp_bind. unfold run_command. apply wp_bind, wp_upd_db. apply wp_bind, wp_upd_db.
  apply wp_bind, (wp_cmd_word cs' _ 0 name) with (2 := Hcs); [done|lia|done|].
  destruct (find_command _ name) as [f|] eqn:Ef.
  - apply wp_bind, wp_bind, wp_upd_db. set (d3 := _ <| cmd_not_found := false |>).
    apply wp_bind, (wp_cmd_word cs' _ 1 w1) with (2 := Hcs); [done|lia|done|]. apply wp_bind, (wp_cmd_word cs' _ 2 w2) with (2 := Hcs); [done|lia|done|].
    apply wp_bind, (wp_cmd_word cs' _ 3 w3) with (2 := Hcs); [done|lia|done|]. apply wp_bind.
    specialize (HQ hw' d3 Hh' Hrds (Hafter 0 false)). cbn zeta in HQ. rewrite Hne in HQ. specialize (HQ eq_refl eq_refl).
    eapply wp_mono; [exact HQ|]. intros r s2 [Hnf HQ2]. apply wp_ret. rewrite <-(set_db_of s2). apply wp_bind, wp_db. rewrite Hnf. cbn [when]. apply wp_ret.
    apply wp_printf. exact HQ2.
  - apply wp_bind, wp_ret, wp_bind, wp_db. cbn [when cmd_not_found]. apply wp_printf. apply wp_printf.
    set (d3 := d2 <| gvLen := 0 |> <| cmd_not_found := true |>).
    specialize (HQ hw' d3 Hh' Hrds (Hafter 0 true)). cbn zeta in HQ. rewrite Hne in HQ. exact (HQ eq_refl eq_refl).
Qed.
End props.
