(* ===== verification/DbgSample.v ===== *)
(** * A terminal

    A UART that hands over what was typed, and a line that stores a word. *)

From Stdlib Require Import Ascii String.
From S2P Require Import Prelude.
From S2P Require Import Hif.
From S2P Require Import Printf.
From S2P Require Import Cmnos.
From S2P Require Import Dbg.
From S2P Require Import DbgProps.

(** The characters that have arrived, and the words written, the last one first. *)
Record terminal := mk_terminal { tm_in : list Z; tm_words : list (Z * Z) }.
Definition tm_rd32 (a : Z) (t : terminal) : Z * terminal :=
  if a =? UART_BASE_ADDRESS .| LSR_OFFSET then (match tm_in t with [] => 0x60 | _ => 0x61 end, t)
  else if a =? UART_BASE_ADDRESS .| RBR_OFFSET then
    match tm_in t with [] => (0, t) | c :: l => (u8 c, mk_terminal l (tm_words t)) end
  else (0, t).
#[export] Instance terminal_io : DevIo terminal := {|
  dev_rd8 _ t := (0, t); dev_rd16 _ t := (0, t); dev_rd32 := tm_rd32;
  dev_wr8 _ _ t := t; dev_wr16 _ _ t := t; dev_wr32 a v t := mk_terminal (tm_in t) ((a, v) :: tm_words t) |}.
#[export] Instance terminal_cpu : CpuIo terminal := {|
  xthal_get_ccount t := (0, t); xthal_get_intenable t := (0, t); xthal_set_intenable _ t := t; xthal_get_interrupt t := (0, t);
  rsil _ t := (0, t) |}.
#[export] #[refine] Instance terminal_uart : Uart terminal := {| uart_in t := map u8 (tm_in t) |}.
Proof.
  - intros t. change (dev_rd32 ?a t) with (tm_rd32 a t). unfold tm_rd32. rewrite Z.eqb_refl. by destruct t as [[|c l] w].
  - intros [l0 w] c l E. destruct l0 as [|c0 l0]; [done|]. injection E as <- <-. split; [|done]. apply u8_small, u8_range.
Defined.

Definition sample_dbg : dbg :=
  mk_dbg (replicate 6 (replicate 40 0)) 5 false (replicate 40 0xff) (replicate 160 0xff) false 0 2 0 [].
Definition sample_console (typed : string) : svc terminal (cmnos dbg) :=
  mk_svc (mk_terminal (chars typed ++ [13])%list []) ∅
    (mk_cmnos (mk_wdt false 0 0) (mk_clock 0 0 0 0 0) true 0 false false 0 (0, 0) [] 0 sample_dbg).
Definition sample_task : M (svc terminal (cmnos dbg)) unit := zf_debug_task 100 (λ _ _, 0) 0 0 false.
Definition type_line (typed : string) : M (svc terminal (cmnos dbg)) unit :=
  for_each (replicate (length (chars typed)) tt) (λ _, sample_task) ;; sample_task.
(** The words written, the last two things printed, and where the history goes on. *)
Definition outcome_of (typed : string) : option (list (Z * Z) * list dbg_event * Z) :=
  match type_line typed (sample_console typed) with
  | Ok (_, s) => Some (tm_words (sv_hw s), take 2 (rev (dbg_out (dbg_of s))), cmd_buf_ptr (dbg_of s))
  | Fault _ => None
  end.
Example stores_a_word : outcome_of " str 50042 beef" =
  Some ([(0x50040, 0xbeef)], [Print ">" []; Print ("%s : %s" ++ crlf) [PStr (chars "00050040"); PStr (chars "0000BEEF")]], 0).
Proof. by vm_compute. Qed.
Example unknown_word : outcome_of "frob" = Some ([], [Print ">" []; Print ("Error, HELP for command list." ++ crlf) []], 0).
Proof. by vm_compute. Qed.

Lemma reads_keep_words t t' : uart_reads t t' → tm_words t' = tm_words t.
Proof.
  induction 1 as [|a t' _ IH _]; [done|]. rewrite <-IH. change (dev_rd32 a t') with (tm_rd32 a t'). unfold tm_rd32.
  destruct (a =? _); [done|]. destruct (a =? _); [|done]. by destruct (tm_in t').
Qed.

Lemma console_runs_line_witness :
  wp (type_line " str 50042 beef") (λ _ s, tm_words (sv_hw s) = [(0x50040, 0xbeef)] ∧
     history (dbg_of s) = (replicate 5 (replicate 40 0) ++ [chars " str 50042 beef" ++ replicate 25 0], 0, true)%list) (sample_console " str 50042 beef").
Proof.
  refine (console_runs_line 100 (λ _ _, 0) 0 0 false (chars " str 50042 beef") [] (sample_console " str 50042 beef") _ _ _ _ _ _).
  - unfold typable. change (ch " ") with 32. change (ch "~") with 126. change (ch "\") with 92. repeat (constructor; [cbv; by split_and!|]). constructor.
  - by vm_compute.
  - unfold dbg_wf. split_and!; [done|done|done| |done|done].
    repeat (constructor; [split; [done|]; change (replicate 40 0) with (0 :: replicate 39 0); set_solver|]). constructor.
  - done.
  - intros hw d' Hh Hrd (Hwf & Hhist & Hrest). cbn zeta. intros Hg. cbn iota. intros Hnf.
    split; [done|]. split; [|exact Hhist].
    apply reads_keep_words in Hrd. change (tm_words _ = [(0x50040, 0xbeef)]) with ((0x50040, 0xbeef) :: tm_words hw = [(0x50040, 0xbeef)]). by rewrite Hrd.
Defined.
