(* ===== verification/UsbEp0Props.v ===== *)
(** * Descriptors reach the host

    What the control endpoint's theorems rely on of the chip ([UsbEp0Laws]), the descriptors as
    the host should see them ([descriptor_of]), and how they are sent. *)

From S2P Require Import Prelude.
From S2P Require Import NBuf.
From S2P Require Import Dma.
From S2P Require Import Hif.
From S2P Require Import UsbFifo.
From S2P Require Import UsbProps.
From S2P Require Import UsbEp0.

(** ** The chip, seen from the control endpoint *)
(** The bytes of the packet from the host, those in the FIFO to the host, how much of a word
    goes there, what was written to the status register, the packets the host took, and
    whether the bus is at high speed. *)
Record ep0_view := mk_ep0_view {
  ev_rx : list Z; ev_fifo : list Z; ev_size : nat; ev_acts : list Z; ev_host : list (list Z); ev_hs : bool }.
#[export] Instance eta_ep0_view : EtaExp ep0_view := λ v,
  mk_ep0_view (ev_rx v) (ev_fifo v) (ev_size v) (ev_acts v) (ev_host v) (ev_hs v).

Class UsbEp0Laws (HW : Type) `{UsbIo HW} := {
  ep0_of : HW → ep0_view;
  (** The host takes the packet in the FIFO. *)
  ep0_drain : HW → HW;
  ep0_drained hw : ep0_of (ep0_drain hw) = ep0_of hw <| ev_host := ev_host (ep0_of hw) ++ [ev_fifo (ep0_of hw)] |> <| ev_fifo := [] |>;
  ep0_data_rd hw : let '(w, hw') := io_read32 (USB_CTRL_BASE_ADDRESS .| ZM_EP0_DATA_OFFSET) hw in
    in_u32 w ∧ take 4 (ev_rx (ep0_of hw)) `prefix_of` le_bytes w ∧ ep0_of hw' = ep0_of hw <| ev_rx ::= drop 4 |>;
  ep0_data_wr w hw :
    ep0_of (io_write32 (USB_CTRL_BASE_ADDRESS .| ZM_EP0_DATA_OFFSET) w hw)
      = ep0_of hw <| ev_fifo ::= λ l, l ++ take (ev_size (ep0_of hw)) (le_bytes w) |>;
  ep0_mask n hw : n = 1%nat ∨ n = 2%nat ∨ n = 3%nat ∨ n = 4%nat →
    ep0_of (io_write32 (USB_CTRL_BASE_ADDRESS .| ZM_CBUS_FIFO_SIZE_OFFSET) (Z.ones (Z.of_nat n)) hw) = ep0_of hw <| ev_size := n |>;
  (** Bit 3 would clear the FIFO. *)
  ep0_status_wr v hw : tst v BIT3 = false →
    ep0_of (io_write8 (USB_CTRL_BASE_ADDRESS .| Z.lxor ZM_CX_CONFIG_STATUS_OFFSET 3) v hw) = ep0_of hw <| ev_acts ::= λ l, l ++ [v] |>;
  (** Bit 5 says that the FIFO is empty. *)
  ep0_status_rd hw : ev_fifo (ep0_of hw) = [] →
    tst (io_read8 (USB_CTRL_BASE_ADDRESS .| Z.lxor ZM_CX_CONFIG_STATUS_OFFSET 3) hw).1 BIT5 = true;
  ep0_speed_rd hw : tst (io_read8 (USB_CTRL_BASE_ADDRESS .| Z.lxor ZM_MAIN_CTRL_OFFSET 3) hw).1 BIT6 = ev_hs (ep0_of hw);
  ep0_rd8 a hw : ep0_of (io_read8 a hw).2 = ep0_of hw;
}.

(** ** The descriptors *)
Definition halves (l : list Z) : list Z := concat (map (λ w, [u8 w; u8 (w .>> 8)]) l).
Definition speed_table (hs : bool) : list Z := if hs then u8HSConfigDescriptor01 else u8FSConfigDescriptor01.
(** What the host gets: the device's with the signature of the firmware, the configuration for
    the bus' speed, the four strings, the qualifier, the configuration of the other speed. *)
Definition qualifier : list Z :=
  [0x060A] ++ take 3 (drop 1 UsbDeviceDescriptor) ++ [mHIGH_BYTE (nth 8 UsbDeviceDescriptor 0)].
Definition other_speed (hs : bool) : list Z := 0x0709 :: drop 1 (speed_table (negb hs)).
Definition descriptor_of (hs : bool) (ty idx : Z) : option (list Z) :=
  if ty =? 1 then Some (halves (<[6%nat := BCD_DEVICE_FW_SIGNATURE]> UsbDeviceDescriptor))
  else if ty =? 2 then if idx =? 0 then Some (halves (speed_table hs)) else None
  else if ty =? 3 then
    if idx =? 0x00 then Some (halves String00Descriptor) else if idx =? 0x10 then Some (halves String10Descriptor)
    else if idx =? 0x20 then Some (halves String20Descriptor) else if idx =? 0x30 then Some (halves String30Descriptor) else None
  else if ty =? 6 then Some (halves qualifier)
  else if ty =? 7 then Some (halves (other_speed hs))
  else None.
(** Cut into packets, at least one. *)
Definition packets (l : list Z) : list (list Z) :=
  map (λ i, take 64 (drop (64 * i) l)) (seq 0 (Nat.max 1 ((length l + 63) / 64))).

Example device_descriptor : descriptor_of true 1 0 =
  Some [0x12; 0x01; 0x00; 0x02; 0xFF; 0xFF; 0xFF; 0x40; 0xF3; 0x0C; 0x10; 0x70; 0xFF; 0xFF; 0x10; 0x20; 0x30; 0x01].
Proof. reflexivity. Qed.
Example string_packets : map length <$> (packets <$> descriptor_of true 3 0x10) = Some [64; 32]%nat.
Proof. reflexivity. Qed.
Example config_sizes : map (λ d, (hd 0 d, length d)) (omap id [descriptor_of true 2 0; descriptor_of false 2 0; descriptor_of true 6 0; descriptor_of true 7 0])
  = [(9, 60%nat); (9, 60%nat); (10, 10%nat); (9, 60%nat)].
Proof. reflexivity. Qed.

Section control.
Context {HW C : Type} {IO : UsbIo HW} {EL : UsbEp0Laws HW} {PL : UsbPlace}.
Implicit Types (s : hif_usb HW C) (c : usb_ctl) (v : ep0_view).

(** ** Running the handlers

    [moved s0 c v s]: [s] is [s0] but for the variables [c] of the control endpoint and the
    chip, which looks like [v]. *)
Definition moved (s0 : hif_usb HW C) (c : usb_ctl) (v : ep0_view) s : Prop :=
  s = s0 <| hf_ctl := c |> <| hf_hw := hf_hw s |> ∧ ep0_of (hf_hw s) = v.

Lemma moved_refl s : moved s (hf_ctl s) (ep0_of (hf_hw s)) s.
Proof. split; [by destruct s|done]. Qed.
Lemma moved_ctl s0 c v s : moved s0 c v s → hf_ctl s = c.
Proof. by intros [-> _]. Qed.
Lemma moved_mem s0 c v s : moved s0 c v s → hf_mem s = hf_mem s0.
Proof. by intros [-> _]. Qed.
Lemma moved_upd s0 c v s f : moved s0 c v s → moved s0 (f c) v (s <| hf_ctl ::= f |>).
Proof. intros [-> Hv]. split; [by destruct s0|done]. Qed.
Lemma moved_hw s0 c v s hw v' : moved s0 c v s → ep0_of hw = v' → moved s0 c v' (s <| hf_hw := hw |>).
Proof. intros [-> Hv] Hw. split; [by destruct s0|done]. Qed.

Section steps.
Context (s0 : hif_usb HW C).
Abbreviation P := (moved s0).

Lemma wp_ctl c v s Q : P c v s → Q c s → wp ctl Q s.
Proof. intros Hp HQ. unfold ctl. apply wp_gets. by rewrite (moved_ctl _ _ _ _ Hp). Qed.
Lemma wp_req c v s Q : P c v s → Q (ControlCmd c) s → wp req Q s.
Proof. intros Hp HQ. unfold req. apply wp_gets. by rewrite (moved_ctl _ _ _ _ Hp). Qed.
Lemma wp_upd_ctl f c v s (Q : unit → _) : P c v s → (∀ s', P (f c) v s' → Q tt s') → wp (upd_ctl f) Q s.
Proof. intros Hp HQ. unfold upd_ctl. apply wp_modify, HQ. by apply moved_upd. Qed.
Lemma wp_rd32 a c v s Q : P c v s → Q (mem_rd32 (hf_mem s0) a) s → wp (rd32 a) Q s.
Proof. intros Hp HQ. unfold rd32. apply wp_gets. by rewrite (moved_mem _ _ _ _ Hp). Qed.
Lemma wp_drain c v s (Q : unit → _) : P c v s →
  (∀ s', P c (v <| ev_host := ev_host v ++ [ev_fifo v] |> <| ev_fifo := [] |>) s' → Q tt s') →
  wp (modify (λ s, s <| hf_hw ::= ep0_drain |>)) Q s.
Proof.
  intros Hp HQ. apply wp_modify, HQ. destruct Hp as [E Hv]. eapply (moved_hw _ _ _ _ _ _ (conj E Hv)).
  by rewrite ep0_drained, Hv.
Qed.

(** *** The registers *)
Lemma wp_rd8 a c v s (Q : Z → _) : P c v s → (∀ x s', P c v s' → Q x s') → wp (ioread8_usb a) Q s.
Proof.
  intros Hp HQ. unfold ioread8_usb, hw_rd, wp. pose proof (ep0_rd8 (USB_CTRL_BASE_ADDRESS .| Z.lxor a 3) (hf_hw s)) as E.
  destruct (io_read8 _ _) as [x hw]. apply HQ. eapply moved_hw; [done|]. cbn in E. by rewrite E, (proj2 Hp).
Qed.
Lemma wp_status_rd c v s (Q : Z → _) : P c v s →
  (∀ x s', (ev_fifo v = [] → tst x BIT5 = true) → P c v s' → Q x s') → wp (ioread8_usb ZM_CX_CONFIG_STATUS_OFFSET) Q s.
Proof.
  intros Hp HQ. unfold ioread8_usb, hw_rd, wp. set (a := USB_CTRL_BASE_ADDRESS .| _).
  pose proof (ep0_rd8 a (hf_hw s)) as E. pose proof (ep0_status_rd (hf_hw s)) as E5. fold a in E5.
  destruct (io_read8 _ _) as [x hw]. cbn in *. apply HQ; [by rewrite <-(proj2 Hp)|].
  eapply moved_hw; [done|]. by rewrite E, (proj2 Hp).
Qed.
Lemma wp_high_speed c v s Q : P c v s → (∀ s', P c v s' → Q (ev_hs v) s') → wp mUsbHighSpeedST Q s.
Proof.
  intros Hp HQ. unfold mUsbHighSpeedST. apply wp_bind. unfold ioread8_usb, hw_rd, wp. set (a := USB_CTRL_BASE_ADDRESS .| _).
  pose proof (ep0_rd8 a (hf_hw s)) as E. pose proof (ep0_speed_rd (hf_hw s)) as E6. fold a in E6.
  destruct (io_read8 _ _) as [x hw]. cbn in *. rewrite E6, (proj2 Hp). apply HQ.
  eapply moved_hw; [done|]. by rewrite E, (proj2 Hp).
Qed.
Lemma wp_data_rd c v s (Q : Z → _) : P c v s →
  (∀ w s', in_u32 w → take 4 (ev_rx v) `prefix_of` le_bytes w → P c (v <| ev_rx ::= drop 4 |>) s' → Q w s') →
  wp (ioread32_usb ZM_EP0_DATA_OFFSET) Q s.
Proof.
  intros Hp HQ. unfold ioread32_usb, hw_rd, wp. pose proof (ep0_data_rd (hf_hw s)) as E.
  destruct (io_read32 _ _) as [w hw]. destruct E as (Hw & Hpre & E). rewrite (proj2 Hp) in Hpre, E.
  apply HQ; [done..|]. by eapply moved_hw.
Qed.
Lemma wp_data_wr w c v s (Q : unit → _) : P c v s →
  (∀ s', P c (v <| ev_fifo ::= λ l, l ++ take (ev_size v) (le_bytes w) |>) s' → Q tt s') →
  wp (iowrite32_usb ZM_EP0_DATA_OFFSET w) Q s.
Proof.
  intros Hp HQ. unfold iowrite32_usb, hw_wr. apply wp_modify, HQ. apply (moved_hw _ _ v); [done|].
  by rewrite ep0_data_wr, (proj2 Hp).
Qed.
Lemma wp_mask n m c v s (Q : unit → _) : P c v s → m = Z.ones (Z.of_nat n) → n = 1%nat ∨ n = 2%nat ∨ n = 3%nat ∨ n = 4%nat →
  (∀ s', P c (v <| ev_size := n |>) s' → Q tt s') → wp (iowrite32_usb ZM_CBUS_FIFO_SIZE_OFFSET m) Q s.
Proof.
  intros Hp -> Hn HQ. unfold iowrite32_usb, hw_wr. apply wp_modify, HQ. apply (moved_hw _ _ v); [done|].
  by rewrite ep0_mask, (proj2 Hp).
Qed.
Lemma wp_status_wr x c v s (Q : unit → _) : P c v s → tst (u8 x) BIT3 = false →
  (∀ s', P c (v <| ev_acts ::= λ l, l ++ [u8 x] |>) s' → Q tt s') → wp (iowrite8_usb ZM_CX_CONFIG_STATUS_OFFSET x) Q s.
Proof.
  intros Hp Hx HQ. unfold iowrite8_usb, hw_wr. apply wp_modify, HQ. apply (moved_hw _ _ v); [done|].
  by rewrite ep0_status_wr, (proj2 Hp).
Qed.

(** *** The tables *)
Lemma at_of_nat (l : list Z) i : at_ l (Z.of_nat i) = l !! i.
Proof. unfold at_. rewrite (proj2 (Z.ltb_ge _ _)) by lia. by rewrite Nat2Z.id. Qed.
Lemma wp_rd16 t i w c v s Q : P c v s → usb_tables c t !! i = Some w → Q w s → wp (rd16 (At t (Z.of_nat i))) Q s.
Proof.
  intros Hp Hw HQ. cbn [rd16]. apply wp_bind. eapply wp_ctl; [done|]. eapply wp_in_range; [|done].
  by rewrite at_of_nat.
Qed.
Lemma wp_wr_table t i x c v s (Q : unit → _) : P c v s → (i < length (usb_tables c t))%nat →
  (∀ s', P (c <| usb_tables ::= λ f, tab_upd t (<[i := x]> (f t)) f |>) v s' → Q tt s') → wp (wr_table t (Z.of_nat i) x) Q s.
Proof.
  intros Hp Hi HQ. unfold wr_table. apply wp_bind. eapply wp_ctl; [done|]. apply wp_bind.
  destruct (lookup_lt_is_Some_2 _ _ Hi) as [w Hw]. eapply wp_in_range; [by rewrite at_of_nat|].
  eapply wp_upd_ctl; [done|]. by rewrite Nat2Z.id.
Qed.

(** *** Sending *)
Lemma halves_cons w l : halves (w :: l) = [u8 w; u8 (w .>> 8)] ++ halves l.
Proof. done. Qed.
Lemma length_halves l : length (halves l) = (2 * length l)%nat.
Proof. induction l as [|w l IH]; [done|]. rewrite halves_cons, length_app, IH. cbn. lia. Qed.
Lemma drop_halves i l : drop (2 * i) (halves l) = halves (drop i l).
Proof.
  revert i. induction l as [|w l IH]; intros [|i]; [done..|]. rewrite halves_cons.
  replace (2 * S i)%nat with (S (S (2 * i))) by lia. apply IH.
Qed.
Lemma word_of_halves a b : in_u16 a → in_u16 b → le_bytes (u32 ((b .<< 16) + a)) = [u8 a; u8 (a .>> 8); u8 b; u8 (b .>> 8)].
Proof.
  unfold in_u16. intros Ha Hb. rewrite u32_small.
  2:{ unfold in_u32. rewrite Z.shiftl_mul_pow2 by done. lia. }
  unfold le_bytes. rewrite !shiftr_u8 by done. rewrite Z.shiftl_mul_pow2 by done. unfold u8.
  change (2 ^ 24) with 16777216. change (2 ^ 16) with 65536. change (2 ^ 8) with 256.
  f_equal; [|f_equal; [|f_equal; [|f_equal]]]; mlia.
Qed.

Lemma wp_next16 t i w c v s Q : P c v s → pu8DescriptorEX c = At t (Z.of_nat i) → usb_tables c t !! i = Some w →
  (∀ s', P (c <| pu8DescriptorEX := At t (Z.of_nat (S i)) |>) v s' → Q w s') → wp next16 Q s.
Proof.
  intros Hp Hd Hw HQ. unfold next16. apply wp_bind. eapply wp_ctl; [done|]. apply wp_bind. rewrite Hd.
  eapply wp_rd16; [done..|]. apply wp_bind. eapply wp_upd_ctl; [done|]. intros s' Hp'. apply wp_ret, HQ.
  replace (Z.of_nat (S i)) with (Z.of_nat i + 1) by lia. revert Hp'. unfold field_upd. by rewrite Hd.
Qed.
Lemma wp_next32 t i a b c v s Q : P c v s → pu8DescriptorEX c = At t (Z.of_nat i) →
  usb_tables c t !! i = Some a → usb_tables c t !! S i = Some b →
  (∀ s', P (c <| pu8DescriptorEX := At t (Z.of_nat (S (S i))) |>) v s' → Q (u32 ((b .<< 16) + a)) s') → wp next32 Q s.
Proof.
  intros Hp Hd Ha Hb HQ. unfold next32. apply wp_bind. eapply wp_next16; [done..|]. intros s1 Hp1.
  apply wp_bind. eapply wp_next16; [done|done|done|]. intros s2 Hp2. by apply wp_ret, HQ.
Qed.

(** [k] words of four bytes. *)
Lemma wp_ep0_words k : ∀ t i c v s (Q : unit → _), P c v s → pu8DescriptorEX c = At t (Z.of_nat i) →
  Forall in_u16 (usb_tables c t) → (i + 2 * k <= length (usb_tables c t))%nat → ev_size v = 4%nat →
  (∀ s', P (c <| pu8DescriptorEX := At t (Z.of_nat (i + 2 * k)) |>)
       (v <| ev_fifo ::= λ f, f ++ take (4 * k) (halves (drop i (usb_tables c t))) |>) s' → Q tt s') →
  ∀ o, wp (for_each (seqZ o (Z.of_nat k)) (λ _, ep0_data ← next32; iowrite32_usb ZM_EP0_DATA_OFFSET ep0_data)) Q s.
Proof.
  induction k as [|k IH]; intros t i c v s Q Hp Hd Hl Hlen Hs HQ o.
  - change (seqZ o (Z.of_nat 0)) with (@nil Z). apply HQ.
    replace (i + 2 * 0)%nat with i by lia. change (4 * 0)%nat with 0%nat. destruct c, v. cbn in Hd. subst. unfold field_upd; cbn. by rewrite app_nil_r.
  - rewrite seqZ_cons by lia. cbn [for_each]. replace (Z.pred (Z.of_nat (S k))) with (Z.of_nat k) by lia.
    destruct (lookup_lt_is_Some_2 (usb_tables c t) i) as [a Ha]; [lia|].
    destruct (lookup_lt_is_Some_2 (usb_tables c t) (S i)) as [b Hb]; [lia|].
    assert (in_u16 a ∧ in_u16 b) as [Ha16 Hb16] by (rewrite Forall_lookup in Hl; split; by eapply Hl).
    apply wp_bind, wp_bind. eapply wp_next32; [done..|]. intros s1 Hp1.
    eapply wp_data_wr; [done|]. intros s2 Hp2. rewrite Hs, word_of_halves in Hp2 by done.
    eapply (IH t (S (S i))); [exact Hp2|done|done|cbn; lia|done|]. intros s3 Hp3. apply HQ.
    rewrite (drop_S _ _ _ Ha), (drop_S _ _ _ Hb), !halves_cons, app_assoc.
    replace (4 * S k)%nat with (4 + 4 * k)%nat by lia. rewrite (take_app_add' _ _ 4) by done.
    revert Hp3. destruct c, v. unfold field_upd; cbn.
    replace (i + S (k + S (k + 0)))%nat with (S (S (i + (k + (k + 0)))))%nat by lia.
    by rewrite <-app_assoc.
Qed.

(** The last bytes of a packet. *)
Lemma wp_ep0_tail r t i c v s (Q : unit → _) : P c v s → pu8DescriptorEX c = At t (Z.of_nat i) →
  Forall in_u16 (usb_tables c t) → (2 * i + r <= 2 * length (usb_tables c t))%nat → (r < 4)%nat → ev_size v = 4%nat →
  (∀ j s', (r = 0 → j = i)%nat → P (c <| pu8DescriptorEX := At t (Z.of_nat j) |>)
       (v <| ev_fifo ::= λ f, f ++ take r (halves (drop i (usb_tables c t))) |>) s' → Q tt s') →
  wp ((if Z.of_nat r =? 3 then
     ep0_data ← next32;
     iowrite32_usb ZM_CBUS_FIFO_SIZE_OFFSET 0x7 ;;
     iowrite32_usb ZM_EP0_DATA_OFFSET ep0_data
   else unless (Z.of_nat r =? 0) (
     iowrite32_usb ZM_CBUS_FIFO_SIZE_OFFSET (if Z.of_nat r =? 2 then 0x3 else 0x1) ;;
     c ← ctl;
     w ← rd16 (pu8DescriptorEX c);
     iowrite32_usb ZM_EP0_DATA_OFFSET w)) ;;
   iowrite32_usb ZM_CBUS_FIFO_SIZE_OFFSET 0xf) Q s.
Proof.
  intros Hp Hd Hl Hlen Hr Hs HQ. apply wp_bind.
  assert (∀ j v' s', (r = 0 → j = i)%nat → P (c <| pu8DescriptorEX := At t (Z.of_nat j) |>) v' s' →
    v' <| ev_size := 4%nat |> = v <| ev_fifo ::= λ f, f ++ take r (halves (drop i (usb_tables c t))) |> →
    wp (iowrite32_usb ZM_CBUS_FIFO_SIZE_OFFSET 0xf) Q s') as Hend.
  { intros j v' s' Hj Hp' Hv. eapply (wp_mask 4); [done..|by repeat right|]. rewrite Hv. intros s2 Hp2. by apply (HQ j). }
  assert (∀ k w, usb_tables c t !! k = Some w → in_u16 w) as H16 by (by apply Forall_lookup).
  assert (c <| pu8DescriptorEX := At t (Z.of_nat i) |> = c) as Hc by (destruct c; cbn in Hd; by subst).
  destruct (decide (r = 0%nat)) as [->|Hr0].
  { apply (Hend i v); [done|by rewrite Hc|]. destruct v; cbn in *; subst. unfold field_upd; cbn. by rewrite app_nil_r. }
  destruct (lookup_lt_is_Some_2 (usb_tables c t) i) as [a Ha]; [lia|].
  rewrite (drop_S _ _ _ Ha), halves_cons in Hend.
  destruct (decide (r = 3%nat)) as [->|Hr3].
  { destruct (lookup_lt_is_Some_2 (usb_tables c t) (S i)) as [b Hb]; [lia|].
    rewrite (drop_S _ _ _ Hb), halves_cons in Hend. change (Z.of_nat 3 =? 3) with true. cbv iota.
    apply wp_bind. eapply wp_next32; [done..|]. intros s1 Hp1.
    apply wp_bind. eapply (wp_mask 3); [done..|by right; right; left|]. intros s2 Hp2.
    eapply wp_data_wr; [done|]. intros s3 Hp3. eapply (Hend (S (S i))); [done|done|].
    rewrite word_of_halves by eauto. destruct v. cbn in *; subst. done. }
  rewrite (proj2 (Z.eqb_neq _ 3)), (proj2 (Z.eqb_neq _ 0)) by lia. cbn [negb when].
  apply wp_bind. eapply (wp_mask r); [done| |lia|].
  { assert (r = 1 ∨ r = 2)%nat as [-> | ->] by lia; done. }
  intros s1 Hp1. apply wp_bind. eapply wp_ctl; [done|]. rewrite Hd. apply wp_bind. eapply wp_rd16; [done..|].
  eapply wp_data_wr; [done|]. intros s2 Hp2. eapply (Hend i); [done|by rewrite Hc|].
  assert (r = 1 ∨ r = 2)%nat as [-> | ->] by lia; destruct v; cbn in *; by subst.
Qed.

(** One packet. *)
Lemma wp_ep0_bytes n t i c v s (Q : unit → _) : P c v s → pu8DescriptorEX c = At t (Z.of_nat i) →
  Forall in_u16 (usb_tables c t) → (2 * i + n <= 2 * length (usb_tables c t))%nat → ev_size v = 4%nat →
  (∀ j s', ((n mod 4 = 0)%nat → 2 * j = 2 * i + n)%nat → P (c <| pu8DescriptorEX := At t (Z.of_nat j) |>)
       (v <| ev_fifo ::= λ f, f ++ take n (drop (2 * i) (halves (usb_tables c t))) |>) s' → Q tt s') →
  wp (ep0_bytes (Z.of_nat n)) Q s.
Proof.
  intros Hp Hd Hl Hlen Hs HQ. pose proof (Nat.div_mod_eq n 4) as Hn. pose proof (Nat.mod_upper_bound n 4 ltac:(lia)) as Hr.
  set (k := (n / 4)%nat) in *. set (r := (n mod 4)%nat) in *. rewrite drop_halves in HQ.
  unfold ep0_bytes. replace (Z.of_nat n / 4) with (Z.of_nat k) by mlia.
  replace (Z.of_nat n mod 4) with (Z.of_nat r) by mlia.
  set (c1 := c <| pu8DescriptorEX := At t (Z.of_nat (i + 2 * k)) |>).
  set (v1 := v <| ev_fifo ::= λ f, f ++ take (4 * k) (halves (drop i (usb_tables c t))) |>).
  apply wp_bind. eapply wp_ep0_words; [done..|lia|done|]. intros s1 Hp1. fold c1 v1 in Hp1. cbv zeta.
  assert (ev_size v1 = 4%nat) as Hs1 by done.
  assert (∀ j s', (r = 0 → 2 * j = 2 * i + n)%nat → P (c1 <| pu8DescriptorEX := At t (Z.of_nat j) |>)
    (v1 <| ev_fifo ::= λ f, f ++ take r (halves (drop (i + 2 * k) (usb_tables c t))) |>) s' → Q tt s') as HQ1.
  { intros j s' Hj Hp'. apply (HQ j s'); [done|].
    replace (take n (halves (drop i (usb_tables c t)))) with (take (4 * k) (halves (drop i (usb_tables c t)))
      ++ take r (halves (drop (i + 2 * k) (usb_tables c t)))).
    2:{ rewrite <-drop_drop, <-(drop_halves (2 * k)). replace (2 * (2 * k))%nat with (4 * k)%nat by lia.
      by rewrite take_take_drop, <-Hn. }
    revert Hp'. unfold v1, c1. destruct c, v. unfold field_upd; cbn. by rewrite <-app_assoc. }
  eapply wp_ep0_tail; [done|done|done|change (usb_tables c1 t) with (usb_tables c t); lia|done|done|]. intros j s2 Hj Hp2. apply (HQ1 j); [lia|done].
Qed.

(** *** Packet after packet *)
(** What is still to be sent: [rest]. *)
Definition to_send c (rest : list Z) : Prop := ∃ t i,
  pu8DescriptorEX c = At t (Z.of_nat i) ∧ Forall in_u16 (usb_tables c t) ∧
  (2 * i + length rest <= 2 * length (usb_tables c t))%nat ∧
  rest = take (length rest) (drop (2 * i) (halves (usb_tables c t))) ∧
  u16TxRxCounter c = Z.of_nat (length rest) ∧ Z.of_nat (length rest) < 65536.
(** Sending changes nothing but these. *)
Definition tx_only c c' : Prop :=
  c' = c <| pu8DescriptorEX := pu8DescriptorEX c' |> <| u16TxRxCounter := u16TxRxCounter c' |>
         <| eUsbCxCommand := eUsbCxCommand c' |> <| eUsbCxFinishAction := eUsbCxFinishAction c' |>.
(** After the first 64 bytes of [rest]. *)
Definition sent_one c c' (rest : list Z) : Prop :=
  tx_only c c' ∧
  if decide (length rest <= 64)%nat then eUsbCxCommand c' = CMD_VOID ∧ eUsbCxFinishAction c' = ACT_DONE ∧ u16TxRxCounter c' = 0
  else eUsbCxCommand c' = eUsbCxCommand c ∧ eUsbCxFinishAction c' = eUsbCxFinishAction c ∧ to_send c' (drop 64 rest).

Lemma wp_ep0_wait c v s (Q : unit → _) : P c v s → ev_fifo v = [] → (∀ s', P c v s' → Q tt s') → wp (ep0_wait EP0_WAIT) Q s.
Proof.
  intros Hp Hf HQ. unfold EP0_WAIT. change 0x10000 with (Z.succ 0xffff). rewrite Z2Nat.inj_succ by done.
  cbn [ep0_wait]. apply wp_bind. eapply wp_status_rd; [done|]. intros x s1 Hx Hp1. rewrite Hx by done. by apply wp_ret, HQ.
Qed.
Lemma wp_tx rest c v s (Q : unit → _) : P c v s → to_send c rest → ev_size v = 4%nat → ev_fifo v = [] →
  (∀ c' s', sent_one c c' rest → P c' (v <| ev_fifo := take 64 rest |>) s' → Q tt s') → wp vUsbEP0TxData Q s.
Proof.
  intros Hp (t & i & Hd & Hl & Hlen & Hrest & Hc & Hlt) Hs Hf HQ. set (l := usb_tables c t) in *.
  set (k := Nat.min (length rest) 64).
  unfold vUsbEP0TxData. apply wp_bind. eapply wp_ep0_wait; [done..|]. intros s1 Hp1.
  unfold ep0_take. apply wp_bind, wp_bind. eapply wp_ctl; [done|]. apply wp_bind. rewrite Hc.
  replace (if Z.of_nat (length rest) <? EP0MAXPACKETSIZE then u8 (Z.of_nat (length rest)) else EP0MAXPACKETSIZE) with (Z.of_nat k).
  2:{ unfold EP0MAXPACKETSIZE. destruct (Z.ltb_spec (Z.of_nat (length rest)) 0x40); [|lia].
      unfold u8. rewrite Z.mod_small by lia. lia. }
  eapply wp_upd_ctl; [done|]. intros s2 Hp2. apply wp_ret, wp_bind.
  eapply (wp_ep0_bytes k t i); [done|done|done|change (usb_tables _ t) with l; lia|done|]. intros j s3 Hj Hp3.
  change (usb_tables _ t) with l in Hp3.
  replace (take k (drop (2 * i) (halves l))) with (take 64 rest) in Hp3.
  2:{ rewrite Hrest, take_take. f_equal. lia. }
  unfold ep0_end_of_data. apply wp_bind. eapply wp_ctl; [done|].
  set (c3 := c <| u16TxRxCounter ::= _ |> <| pu8DescriptorEX := _ |>) in Hp3 |- *.
  assert (u16TxRxCounter c3 = Z.of_nat (length rest - k)) as Hc3.
  { unfold c3. cbn. rewrite Hc. unfold u16. rewrite Z.mod_small by lia. lia. }
  rewrite Hc3. apply wp_when; intros Hz; [apply Z.eqb_eq in Hz|apply Z.eqb_neq in Hz].
  - apply wp_bind. eapply wp_upd_ctl; [exact Hp3|]. intros s4 Hp4. unfold set_action. eapply wp_upd_ctl; [exact Hp4|].
    intros s5 Hp5. eapply HQ; [|by (revert Hp5; destruct v; cbn in *; subst; exact id)].
    split; [by destruct c|]. rewrite decide_True by lia. split; [done|split; [done|]].
    change (u16TxRxCounter c3 = 0). rewrite Hc3. lia.
  - eapply HQ; [|by (revert Hp3; destruct v; cbn in *; subst; exact id)].
    split; [by destruct c|]. rewrite decide_False by lia. split; [done|split; [done|]].
    assert (k = 64%nat) as -> by lia. specialize (Hj eq_refl). exists t, j. change (usb_tables c3 t) with l.
    rewrite length_drop. split; [done|split; [done|split; [lia|split; [|split; [lia|lia]]]]].
    rewrite Hrest at 1. rewrite skipn_firstn_comm, drop_drop. do 2 f_equal. lia.
Qed.

(** *** Copies between tables *)
Definition tab_only c c' : Prop := c' = c <| usb_tables := usb_tables c' |>.
Lemma tab_only_trans c c' c'' : tab_only c c' → tab_only c' c'' → tab_only c c''.
Proof. unfold tab_only. intros E1 E2. rewrite E2, E1. by destruct c. Qed.
(** Words [o] to [o + n] of [l] put over those of [d]. *)
Definition overlay (o n : nat) (l d : list Z) : list Z := take o d ++ take n (drop o l) ++ drop (o + n) d.

Lemma overlay_step o n x l d : l !! o = Some x → (o < length d)%nat →
  overlay (S o) n l (<[o := x]> d) = overlay o (S n) l d.
Proof.
  intros Hx Ho. unfold overlay. rewrite (drop_S _ _ _ Hx), firstn_cons.
  rewrite (take_S_r _ _ x) by (by apply list_lookup_insert_eq). rewrite take_insert_ge, drop_insert_lt by lia.
  rewrite <-app_assoc. cbn [app]. by replace (o + S n)%nat with (S o + n)%nat by lia.
Qed.
Lemma wp_copy_loop n : ∀ o src dst c v s (Q : unit → _), P c v s → src ≠ dst →
  (o + n <= length (usb_tables c src))%nat → (o + n <= length (usb_tables c dst))%nat →
  (∀ c' s', tab_only c c' → usb_tables c' dst = overlay o n (usb_tables c src) (usb_tables c dst) →
     (∀ t, t ≠ dst → usb_tables c' t = usb_tables c t) → P c' v s' → Q tt s') →
  wp (for_each (seqZ (Z.of_nat o) (Z.of_nat n)) (λ i, w ← rd16 (padd (At src 0) i); wr_table dst i w)) Q s.
Proof.
  induction n as [|n IH]; intros o src dst c v s Q Hp Hne Hl Hd HQ.
  - apply (HQ c s); [by destruct c| |done..]. unfold overlay.
    by rewrite Nat.add_0_r, take_0, app_nil_l, take_drop.
  - rewrite seqZ_cons by lia. cbn [for_each]. replace (Z.pred (Z.of_nat (S n))) with (Z.of_nat n) by lia.
    destruct (lookup_lt_is_Some_2 (usb_tables c src) o) as [x Hx]; [lia|].
    apply wp_bind, wp_bind. cbn [padd]. replace (0 + Z.of_nat o) with (Z.of_nat o) by lia.
    eapply wp_rd16; [done..|]. eapply wp_wr_table; [done|lia|]. intros s1 Hp1.
    set (c1 := c <| usb_tables ::= _ |>) in Hp1.
    assert (usb_tables c1 dst = <[o := x]> (usb_tables c dst)) as Hdst by (cbn; unfold tab_upd; by rewrite decide_True).
    assert (∀ t, t ≠ dst → usb_tables c1 t = usb_tables c t) as Hoth by (intros t Ht; cbn; unfold tab_upd; by rewrite decide_False).
    replace (Z.succ (Z.of_nat o)) with (Z.of_nat (S o)) by lia.
    eapply (IH (S o) src dst c1 v s1); [done|done|rewrite Hoth by done; lia|rewrite Hdst, length_insert; lia|].
    intros c2 s2 Hto Hd2 Ho2 Hp2. apply (HQ c2 s2); [|..|done].
    + eapply tab_only_trans; [|done]. by destruct c.
    + rewrite Hd2, Hdst, (Hoth src) by done. apply overlay_step; [done|lia].
    + intros t Ht. by rewrite Ho2, Hoth by done.
Qed.
Lemma overlay_all n l d : (length l = n → length d = n → overlay 0 n l d = l)%nat.
Proof. intros <- Hd. unfold overlay. by rewrite take_0, drop_0, app_nil_l, take_ge, drop_ge, app_nil_r by lia. Qed.
Lemma wp_copy16 t src c v s (Q : unit → _) : P c v s → src ≠ t →
  length (usb_tables c t) = length (usb_tables c src) →
  (∀ c' s', tab_only c c' → usb_tables c' t = usb_tables c src →
     (∀ t', t' ≠ t → usb_tables c' t' = usb_tables c t') → P c' v s' → Q tt s') →
  wp (copy16 t (At src 0) (Z.of_nat (length (usb_tables c src)))) Q s.
Proof.
  intros Hp Hne Hlen HQ. unfold copy16. eapply (wp_copy_loop _ 0); [done|done|lia|lia|].
  intros c' s' Hto Hd Ho Hp'. eapply HQ; [done| |done..]. rewrite Hd. by apply overlay_all.
Qed.
End steps.
End control.
