(* ===== verification/UsbDescr.v ===== *)
(** * Enumeration: the descriptors the host asks for

    From the setup packet of a GET_DESCRIPTOR request to the last packet of the descriptor. *)

From S2P Require Import Prelude.
From S2P Require Import NBuf.
From S2P Require Import Dma.
From S2P Require Import Hif.
From S2P Require Import UsbFifo.
From S2P Require Import UsbProps.
From S2P Require Import UsbEp0.
From S2P Require Import UsbEp0Props.

(** ** The tables *)
Definition fixed (t : table) : Prop := t ≠ T_Qualifier ∧ t ≠ T_OtherSpeed ∧ t ≠ T_ConfigPatch ∧ t ≠ T_DevicePatch.
#[export] Instance fixed_dec t : Decision (fixed t) := _.
(** What the first setup after a reset prepares. *)
Record usb_ready (hs : bool) (c : usb_ctl) : Prop := {
  rdy_dev : u8UsbDeviceDescriptor c = At T_Device 0;
  rdy_s00 : u8String00Descriptor c = At T_String00 0;
  rdy_s10 : u8String10Descriptor c = At T_String10 0;
  rdy_s20 : u8String20Descriptor c = At T_String20 0;
  rdy_s30 : u8String30Descriptor c = At T_String30 0;
  rdy_cfg : u8ConfigDescriptorEX c = At (if hs then T_HSConfig else T_FSConfig) 0;
  rdy_qual : usb_tables c T_Qualifier = qualifier;
  rdy_other : usb_tables c T_OtherSpeed = other_speed hs }.
Record usb_inv (hs : bool) (c : usb_ctl) : Prop := {
  inv_fixed t : fixed t → usb_tables c t = tables_init t;
  inv_sizes t : length (usb_tables c t) = length (tables_init t);
  inv_ready : UsbChirpFinish c = true → usb_ready hs c }.

Lemma usb_inv_init hs : usb_inv hs usb_ctl_init.
Proof. by split. Qed.
Lemma usb_ready_tab hs c c' : usb_ready hs c → tab_only c c' →
  usb_tables c' T_Qualifier = usb_tables c T_Qualifier → usb_tables c' T_OtherSpeed = usb_tables c T_OtherSpeed → usb_ready hs c'.
Proof. intros [] -> Hq Ho. cbn in *. split; cbn; congruence. Qed.
(** Fields that are not the tables and their pointers do not matter. *)
Definition same_tables c c' : Prop :=
  usb_tables c' = usb_tables c ∧ UsbChirpFinish c' = UsbChirpFinish c ∧ u8UsbDeviceDescriptor c' = u8UsbDeviceDescriptor c ∧
  u8String00Descriptor c' = u8String00Descriptor c ∧ u8String10Descriptor c' = u8String10Descriptor c ∧
  u8String20Descriptor c' = u8String20Descriptor c ∧ u8String30Descriptor c' = u8String30Descriptor c ∧
  u8ConfigDescriptorEX c' = u8ConfigDescriptorEX c.
Lemma usb_inv_same hs c c' : usb_inv hs c → same_tables c c' → usb_inv hs c'.
Proof.
  intros [Hf Hs Hr] (E & Ec & E1 & E2 & E3 & E4 & E5 & E6). split; [intros t; rewrite E; apply Hf|intros t; rewrite E; apply Hs|]. intros Hc. rewrite Ec in Hc. destruct (Hr Hc). split; congruence.
Qed.
Lemma u16_list l : forallb (λ x, (0 <=? x) && (x <? 65536)) l = true → Forall in_u16 l.
Proof.
  intros Hb. apply Forall_forall. intros x Hx. rewrite forallb_forall in Hb. apply list_elem_of_In, Hb in Hx. unfold in_u16. lia.
Qed.
Lemma tables_init_u16 t : Forall in_u16 (tables_init t).
Proof. apply u16_list. by destruct t. Qed.

Section descriptors.
Context {HW C : Type} {IO : UsbIo HW} {EL : UsbEp0Laws HW} {PL : UsbPlace}.
Implicit Types (s : hif_usb HW C) (c : usb_ctl) (v : ep0_view).
Section steps.
Context (s0 : hif_usb HW C).
(** The EEPROM holds no descriptors of its own. *)
Context (Hnoeep : mem_rd32 (hf_mem s0) EEPROM_USB_DESCRIPTOR_ADDR ≠ USB_DESC_IN_EEP_PATTERN).
Abbreviation P := (moved s0).

Lemma wp_SetupDescriptor c v s (Q : unit → _) : P c v s →
  (∀ s', P (c <| u8UsbDeviceDescriptor := At T_Device 0 |> <| u8String00Descriptor := At T_String00 0 |>
      <| u8String10Descriptor := At T_String10 0 |> <| u8String20Descriptor := At T_String20 0 |>
      <| u8String30Descriptor := At T_String30 0 |>) v s' → Q tt s') → wp vUsb_SetupDescriptor Q s.
Proof using Hnoeep.
  intros Hp HQ. unfold vUsb_SetupDescriptor. apply wp_bind. eapply wp_rd32; [done|].
  rewrite (proj2 (Z.eqb_neq _ _) Hnoeep). cbv zeta iota.
  do 4 (apply wp_bind; eapply wp_upd_ctl; [eassumption|]; clear s Hp; intros s Hp). by eapply wp_upd_ctl.
Qed.

Lemma wp_first_setup c v s (Q : unit → _) : P c v s → usb_inv (ev_hs v) c →
  (∀ c' s', usb_inv (ev_hs v) c' → UsbChirpFinish c' = true → eUsbCxCommand c' = eUsbCxCommand c →
     eUsbCxFinishAction c' = eUsbCxFinishAction c → P c' v s' → Q tt s') →
  wp first_setup Q s.
Proof using Hnoeep.
  intros Hp Hi HQ. unfold first_setup.
  apply wp_bind. eapply wp_upd_ctl; [done|]. intros s1 Hp1.
  apply wp_bind. eapply wp_SetupDescriptor; [done|]. intros s2 Hp2.
  set (c2 := c <| UsbChirpFinish := true |> <| u8UsbDeviceDescriptor := _ |> <| u8String00Descriptor := _ |>
    <| u8String10Descriptor := _ |> <| u8String20Descriptor := _ |> <| u8String30Descriptor := _ |>) in Hp2.
  assert (∀ t, usb_tables c2 t = usb_tables c t) as Ht2 by done.
  assert (∀ t, (0 < length (usb_tables c t))%nat) as Hpos by (intros t; rewrite (inv_sizes _ _ Hi); destruct t; cbn; lia).
  apply wp_bind. eapply (wp_wr_table _ _ 0); [exact Hp2|apply Hpos|]. intros s3 Hp3. set (c3 := c2 <| usb_tables ::= _ |>) in Hp3.
  apply wp_bind. eapply wp_high_speed; [exact Hp3|]. intros s4 Hp4.
  apply wp_bind. eapply wp_upd_ctl; [exact Hp4|]. intros s5 Hp5. set (c5 := c3 <| u8ConfigDescriptorEX := _ |>) in Hp5.
  apply wp_bind. eapply wp_ctl; [exact Hp5|]. cbv zeta. change (u8UsbDeviceDescriptor c5) with (At T_Device 0).
  assert (∀ t, t ≠ T_OtherSpeed → usb_tables c5 t = usb_tables c t) as Ht5 by (intros t Ht; cbn; unfold tab_upd; by rewrite decide_False).
  assert (usb_tables c5 T_OtherSpeed = <[0%nat := 0x0709]> (usb_tables c T_OtherSpeed)) as Ho5 by done.
  assert (∀ c', tab_only c5 c' → usb_tables c' T_Qualifier = qualifier → usb_tables c' T_OtherSpeed = other_speed (ev_hs v) →
    usb_ready (ev_hs v) c' ∧ UsbChirpFinish c' = true ∧ eUsbCxCommand c' = eUsbCxCommand c ∧
    eUsbCxFinishAction c' = eUsbCxFinishAction c) as Hrdy by (by intros c' -> Eq Eo; split; [split|]).
  clearbody c5.
  assert (∀ t, length (usb_tables c5 t) = length (tables_init t)) as Hs5.
  { intros t. destruct (decide (t = T_OtherSpeed)) as [->|Ht]; [rewrite Ho5, length_insert|rewrite Ht5 by done]; apply (inv_sizes _ _ Hi). }
  apply wp_bind. eapply (wp_copy_loop _ 3 1); [exact Hp5|done|rewrite Hs5; cbn; lia..|].
  intros c6 s6 Hto6 Hq6 Hoth6 Hp6. cbn [padd].
  apply wp_bind. eapply (wp_rd16 _ _ 8); [exact Hp6|rewrite Hoth6, Ht5, (inv_fixed _ _ Hi) by done; reflexivity|].
  assert (length (usb_tables c6 T_Qualifier) = 5%nat) as Hl6.
  { rewrite Hq6. unfold overlay. rewrite !length_app, !length_take, !length_drop, !Hs5. done. }
  apply wp_bind. eapply (wp_wr_table _ _ 4); [exact Hp6|lia|]. intros s7 Hp7. set (c7 := c6 <| usb_tables ::= _ |>) in Hp7.
  apply wp_bind. eapply (wp_copy_loop _ 29 1 (if ev_hs v then T_FSConfig else T_HSConfig)); [exact Hp7|by destruct (ev_hs v)|..].
  { cbn. unfold tab_upd. rewrite decide_False by (by destruct (ev_hs v)). rewrite Hoth6, Hs5 by (by destruct (ev_hs v)). by destruct (ev_hs v). }
  { cbn. unfold tab_upd. rewrite decide_False by done. rewrite Hoth6, Hs5 by done. cbn. lia. }
  intros c8 s8 Hto8 Ho8 Hoth8 Hp8.
  eapply (wp_wr_table _ _ 0); [exact Hp8| |].
  { rewrite Hoth8 by done. cbn. unfold tab_upd. rewrite decide_True, length_insert by done. lia. }
  intros s9 Hp9. set (c9 := c8 <| usb_tables ::= _ |>) in Hp9.
  assert (usb_tables c5 T_Device = UsbDeviceDescriptor) as Ed by (by rewrite Ht5, (inv_fixed _ _ Hi) by done).
  assert (usb_tables c9 T_Qualifier = qualifier) as Tq.
  { cbn. unfold tab_upd. rewrite decide_True, Hoth8 by done. cbn. unfold tab_upd. rewrite decide_True, Hq6, Ed by done.
    pose proof (Hs5 T_Qualifier : length _ = 5%nat) as Hl. destruct (usb_tables c5 T_Qualifier) as [|? [|? [|? [|? [|? []]]]]]; done. }
  assert (usb_tables c9 T_OtherSpeed = other_speed (ev_hs v)) as To.
  { cbn. unfold tab_upd. rewrite decide_False, Ho8 by done. cbn. unfold tab_upd. rewrite !decide_False by (by destruct (ev_hs v)).
    rewrite !Hoth6, Ho5 by (by destruct (ev_hs v)). rewrite Ht5, (inv_fixed _ _ Hi (if ev_hs v then _ else _)) by (by destruct (ev_hs v)).
    pose proof (inv_sizes _ _ Hi T_OtherSpeed) as Hl. unfold overlay. rewrite (drop_ge (<[_ := _]> _)), app_nil_r by (rewrite length_insert, Hl; done).
    destruct (usb_tables c T_OtherSpeed); [done|]. by destruct (ev_hs v). }
  assert (∀ t, t ≠ T_Qualifier → t ≠ T_OtherSpeed → usb_tables c9 t = usb_tables c5 t) as Tr.
  { intros t H1 H2. cbn. unfold tab_upd. rewrite decide_False, Hoth8 by done. cbn. unfold tab_upd. by rewrite decide_False, Hoth6 by done. }
  assert (tab_only c5 c9) as Hto9.
  { eapply tab_only_trans; [exact Hto6|]. apply (tab_only_trans _ c7); [done|]. apply (tab_only_trans _ c8); done. }
  destruct (Hrdy c9 Hto9 Tq To) as (Hr & Hch & Hcmd & Hact).
  apply (HQ c9 s9); [|done..]. split; [| |done].
  - intros t Ht. destruct Ht as (H1 & H2 & H3 & H4). by rewrite Tr, Ht5, (inv_fixed _ _ Hi) by done.
  - intros t. destruct (decide (t = T_Qualifier)) as [->|H1]; [by rewrite Tq|]. destruct (decide (t = T_OtherSpeed)) as [->|H2].
    + rewrite To. by destruct (ev_hs v).
    + by rewrite Tr, Hs5.
Qed.

(** *** The first packet *)
(** A descriptor of bytes [d] is set up. *)
Definition found c (d : list Z) : Prop := ∃ t,
  pu8DescriptorEX c = At t 0 ∧ Forall in_u16 (usb_tables c t) ∧ d = take (length d) (halves (usb_tables c t)) ∧
  u16TxRxCounter c = Z.of_nat (length d) ∧ Z.of_nat (length d) < 65536.
Lemma found_bound c d t : d = take (length d) (halves (usb_tables c t)) → (length d <= 2 * length (usb_tables c t))%nat.
Proof. intros E%(f_equal length). rewrite length_take, length_halves in E. lia. Qed.

Lemma wp_send_descriptor d c v s (Q : unit → _) : P c v s → found c d → 0 <= Length (ControlCmd c) →
  ev_size v = 4%nat → ev_fifo v = [] →
  (∀ c' s', sent_one c c' (take (Z.to_nat (Length (ControlCmd c))) d) →
     P c' (v <| ev_fifo := take 64 (take (Z.to_nat (Length (ControlCmd c))) d) |>) s' → Q tt s') →
  wp send_descriptor Q s.
Proof.
  intros Hp (t & Hd & Hl & Ed & Hc & Hlt) HL Hs Hf HQ. set (rest := take _ d) in *.
  pose proof (found_bound _ _ _ Ed) as Hb.
  assert (length rest = Nat.min (Z.to_nat (Length (ControlCmd c))) (length d)) as Hlr by (unfold rest; by rewrite length_take).
  unfold send_descriptor. apply wp_bind. eapply wp_ctl; [done|]. rewrite Hc.
  assert (∀ c1 s1, c1 = c <| u16TxRxCounter := Z.of_nat (length rest) |> → P c1 v s1 → wp vUsbEP0TxData Q s1) as Hsend.
  { intros c1 s1 -> Hp1. eapply (wp_tx _ rest); [exact Hp1| |done|done|].
    - exists t, 0%nat. split; [done|split; [done|split; [cbn; lia|split; [|split; [done|lia]]]]].
      change (2 * 0)%nat with 0%nat. rewrite drop_0. change (usb_tables _ t) with (usb_tables c t).
      rewrite Hlr. unfold rest. rewrite Ed at 1. by rewrite take_take.
    - intros c2 s2 [Ht Ho] Hp2. apply (HQ c2 s2); [|done]. split; [by rewrite Ht; destruct c|exact Ho]. }
  apply wp_bind, wp_when; intros Hz; [apply Z.ltb_lt in Hz|apply Z.ltb_ge in Hz].
  - unfold descriptor_len. eapply wp_upd_ctl; [done|]. intros s1 Hp1. eapply Hsend; [|exact Hp1].
    by replace (Z.of_nat (length rest)) with (Length (ControlCmd c)) by lia.
  - eapply Hsend; [|exact Hp]. destruct c; cbn in *. subst. unfold field_upd; cbn. f_equal; lia.
Qed.

(** After the first packet of [rest]: done, or the command to go on with. *)
Definition progress c (rest : list Z) : Prop :=
  if decide (length rest <= 64)%nat then eUsbCxCommand c = CMD_VOID ∧ eUsbCxFinishAction c = ACT_DONE
  else eUsbCxCommand c = CMD_GET_DESCRIPTOR ∧ eUsbCxFinishAction c = ACT_IDLE ∧ to_send c (drop 64 rest).

(** The two kinds of tables: with the length in the first byte, or in the second word. *)
Lemma wp_find_tab t w d c v s (Q : bool → _) : P c v s → Forall in_u16 (usb_tables c t) →
  usb_tables c t !! 0%nat = Some w → mLOW_BYTE w = Z.of_nat (length d) → d = take (length d) (halves (usb_tables c t)) →
  Z.of_nat (length d) < 65536 →
  (∀ c' s', c' = c <| pu8DescriptorEX := At t 0 |> <| u16TxRxCounter := Z.of_nat (length d) |> → found c' d → P c' v s' → Q true s') →
  wp (descriptor_from (At t 0) ;; w ← rd16 (At t 0); descriptor_len (mLOW_BYTE w) ;; mret true) Q s.
Proof.
  intros Hp Hl Hw Hlen Hd Hlt HQ. apply wp_bind. unfold descriptor_from. eapply wp_upd_ctl; [done|]. intros s1 Hp1.
  apply wp_bind. eapply (wp_rd16 _ _ 0); [exact Hp1|exact Hw|]. apply wp_bind. unfold descriptor_len.
  eapply wp_upd_ctl; [exact Hp1|]. intros s2 Hp2. apply wp_ret. rewrite Hlen in Hp2. eapply HQ; [done| |exact Hp2].
  exists t. by split.
Qed.
Lemma wp_find_cfg t d c v s (Q : bool → _) : P c v s → Forall in_u16 (usb_tables c t) →
  usb_tables c t !! 1%nat = Some (Z.of_nat (length d)) → d = take (length d) (halves (usb_tables c t)) →
  Z.of_nat (length d) < 65536 →
  (∀ c' s', c' = c <| pu8DescriptorEX := At t 0 |> <| u16TxRxCounter := Z.of_nat (length d) |> → found c' d → P c' v s' → Q true s') →
  wp (descriptor_from (At t 0) ;; w ← rd16 (padd (At t 0) 1); descriptor_len w ;; mret true) Q s.
Proof.
  intros Hp Hl Hw Hd Hlt HQ. apply wp_bind. unfold descriptor_from. eapply wp_upd_ctl; [done|]. intros s1 Hp1.
  apply wp_bind. eapply (wp_rd16 _ _ 1); [exact Hp1|exact Hw|]. apply wp_bind. unfold descriptor_len.
  eapply wp_upd_ctl; [exact Hp1|]. intros s2 Hp2. apply wp_ret. eapply HQ; [done| |exact Hp2].
  exists t. by split.
Qed.

(** The descriptors that the patch leaves to the boot ROM. *)
Lemma wp_find_descriptor p c v s (Q : bool → _) : P c v s → usb_inv (ev_hs v) c → UsbChirpFinish c = true →
  VALUE_HIGH p ≠ 1 → VALUE_HIGH p ≠ 2 →
  match descriptor_of (ev_hs v) (VALUE_HIGH p) (VALUE_LOW p) with
  | Some d => ∀ c' s', same_tables c c' → ControlCmd c' = ControlCmd c → eUsbCxCommand c' = eUsbCxCommand c →
      eUsbCxFinishAction c' = eUsbCxFinishAction c → found c' d → P c' v s' → Q true s'
  | None => Q false s
  end → wp (find_descriptor p) Q s.
Proof.
  intros Hp Hi Hch H1 H2. destruct (inv_ready _ _ Hi Hch) as [E1 E2 E3 E4 E5 E6 Eq Eo].
  unfold find_descriptor, descriptor_of. rewrite (proj2 (Z.eqb_neq _ 1) H1), (proj2 (Z.eqb_neq _ 2) H2). intros HQ.
  apply wp_bind. eapply wp_ctl; [done|]. cbv zeta. rewrite E2, E3, E4, E5.
  destruct (VALUE_HIGH p =? 3).
  { repeat match goal with |- context [if ?b then _ else _] => destruct b end; try by apply wp_ret.
    all: match type of HQ with context [found _ ?d] => eapply (wp_find_tab _ _ d) end;
      [done|rewrite (inv_fixed _ _ Hi) by done; apply tables_init_u16|by rewrite (inv_fixed _ _ Hi)|reflexivity|
       by rewrite (inv_fixed _ _ Hi)|reflexivity|]; intros c' s' -> Hf Hp'; by eapply HQ; [..|exact Hf|exact Hp']. }
  destruct (VALUE_HIGH p =? 6).
  { eapply (wp_find_tab _ _ (halves qualifier)); [done|rewrite Eq; by apply u16_list|by rewrite Eq|reflexivity|by rewrite Eq|reflexivity|].
    intros c' s' -> Hf Hp'; by eapply HQ; [..|exact Hf|exact Hp']. }
  destruct (VALUE_HIGH p =? 7); [|by apply wp_ret].
  eapply (wp_find_cfg _ (halves (other_speed (ev_hs v)))); [done|rewrite Eo|rewrite Eo|rewrite Eo|..].
  - apply u16_list. by destruct (ev_hs v).
  - by destruct (ev_hs v).
  - by destruct (ev_hs v).
  - by destruct (ev_hs v).
  - intros c' s' -> Hf Hp'; by eapply HQ; [..|exact Hf|exact Hp'].
Qed.

(** *** GET_DESCRIPTOR *)
Lemma tx_only_tables c c' : tx_only c c' → same_tables c c'.
Proof. by intros ->. Qed.
(** A descriptor of one packet: the patch does not have to set the command. *)
Lemma wp_patched t d n c v s (Q : bool → _) : P c v s → pu8DescriptorEX c = At t 0 → Forall in_u16 (usb_tables c t) →
  d = take (length d) (halves (usb_tables c t)) → (length d <= 64)%nat → 0 <= Length (ControlCmd c) →
  n = Z.of_nat (length d) → ev_size v = 4%nat → ev_fifo v = [] →
  (∀ c' s', same_tables c c' → progress c' (take (Z.to_nat (Length (ControlCmd c))) d) →
     P c' (v <| ev_fifo := take 64 (take (Z.to_nat (Length (ControlCmd c))) d) |>) s' → Q true s') →
  wp (descriptor_len n ;; send_descriptor ;; mret true) Q s.
Proof.
  intros Hp Hd Hl Ed Hlen HL -> Hs Hf HQ. unfold descriptor_len.
  apply wp_bind. eapply wp_upd_ctl; [exact Hp|]. intros s2 Hp2.
  apply wp_bind. eapply (wp_send_descriptor d); [exact Hp2|exists t; split_and!; [done..|lia]|done|done|done|].
  intros c' s' [Ht Ho] Hp'. apply wp_ret. change (Length (ControlCmd _)) with (Length (ControlCmd c)) in Ho, Hp'.
  assert (length (take (Z.to_nat (Length (ControlCmd c))) d) <= 64)%nat as Hr by (rewrite length_take; lia).
  apply (HQ c' s'); [by rewrite Ht; destruct c| |exact Hp'].
  unfold progress. rewrite decide_True in Ho |- * by done. tauto.
Qed.

(** What a table that is no constant holds does not matter. *)
Lemma usb_inv_patch hs c c' t : usb_inv hs c → tab_only c c' → ¬ fixed t → t ≠ T_Qualifier → t ≠ T_OtherSpeed →
  (∀ t', t' ≠ t → usb_tables c' t' = usb_tables c t') → length (usb_tables c' t) = length (usb_tables c t) → usb_inv hs c'.
Proof.
  intros [Hfx Hsz Hrd] Hto Hnf Hq Ho Hoth Hlen. split.
  - intros t' Ht'. rewrite Hoth by congruence. by apply Hfx.
  - intros t'. rewrite <-Hsz. destruct (decide (t' = t)) as [->|]; [done|by rewrite Hoth].
  - intros Hc. rewrite Hto in Hc. eapply usb_ready_tab; [by apply Hrd|done|by rewrite Hoth..].
Qed.

Lemma wp_get_descriptor c v s (Q : bool → _) (p := ControlCmd c) : P c v s → usb_inv (ev_hs v) c → UsbChirpFinish c = true →
  eUsbCxFinishAction c = ACT_IDLE → 0 <= Length p → ev_size v = 4%nat → ev_fifo v = [] →
  match descriptor_of (ev_hs v) (VALUE_HIGH p) (VALUE_LOW p) with
  | Some d => ∀ c' s', usb_inv (ev_hs v) c' → progress c' (take (Z.to_nat (Length p)) d) →
      P c' (v <| ev_fifo := take 64 (take (Z.to_nat (Length p)) d) |>) s' → Q true s'
  | None => ∀ c' s', usb_inv (ev_hs v) c' → P c' v s' → Q false s'
  end → wp bGet_descriptor_patch Q s.
Proof.
  intros Hp Hi Hch Hact HL Hs Hf HQ. destruct (inv_ready _ _ Hi Hch) as [E1 _ _ _ _ E6 _ _].
  unfold bGet_descriptor_patch. apply wp_bind. eapply wp_ctl; [done|]. cbv zeta. fold p.
  destruct (decide (VALUE_HIGH p = 1)) as [H1|H1].
  { rewrite H1 in *. cbn [Z.eqb Pos.eqb]. rewrite E1.
    assert (usb_tables c T_Device = UsbDeviceDescriptor) as Ed by (by rewrite (inv_fixed _ _ Hi)).
    apply wp_bind. change 9 with (Z.of_nat (length UsbDeviceDescriptor)). rewrite <-Ed.
    eapply wp_copy16; [done|done|by rewrite !(inv_sizes _ _ Hi)|]. intros c1 s1 Hto1 Ht1 Ho1 Hp1. rewrite Ed in Ht1.
    apply wp_bind. eapply (wp_wr_table _ _ 6); [exact Hp1|rewrite Ht1; cbn; lia|]. intros s2 Hp2.
    set (c2 := c1 <| usb_tables ::= _ |>) in Hp2.
    assert (usb_tables c2 T_DevicePatch = <[6%nat := BCD_DEVICE_FW_SIGNATURE]> UsbDeviceDescriptor) as Et2.
    { cbn. unfold tab_upd. by rewrite decide_True, Ht1. }
    assert (∀ t, t ≠ T_DevicePatch → usb_tables c2 t = usb_tables c t) as Eo2.
    { intros t Ht. cbn. unfold tab_upd. by rewrite decide_False, Ho1. }
    assert (tab_only c c2) as Hto2 by (by eapply tab_only_trans).
    assert (usb_inv (ev_hs v) c2) as Hi2.
    { eapply (usb_inv_patch _ c); [done|done|by intros (_ & _ & _ & [])|done|done|done|].
      by rewrite Et2, (inv_sizes _ _ Hi). }
    apply wp_bind. unfold descriptor_from. eapply wp_upd_ctl; [exact Hp2|]. intros s3 Hp3.
    apply wp_bind. eapply (wp_rd16 _ _ 0); [exact Hp3|cbn -[c2]; rewrite Eo2, Ed by done; reflexivity|].
    eapply (wp_patched T_DevicePatch (halves (<[6%nat := BCD_DEVICE_FW_SIGNATURE]> UsbDeviceDescriptor)));
      [exact Hp3|done|cbn -[c2]; rewrite Et2; by apply u16_list|cbn -[c2]; by rewrite Et2|cbn; lia|by rewrite Hto2|reflexivity|done|done|].
    intros c4 s4 Hsame Hprog Hp4. change (ControlCmd _) with (ControlCmd c2) in Hprog, Hp4.
    replace (ControlCmd c2) with p in Hprog, Hp4 by (by rewrite Hto2).
    eapply HQ; [|exact Hprog|exact Hp4]. by eapply usb_inv_same. }
  rewrite (proj2 (Z.eqb_neq _ 1) H1). destruct (decide (VALUE_HIGH p = 2)) as [H2|H2].
  { rewrite H2 in *. cbn [Z.eqb Pos.eqb]. rewrite E6. set (src := if ev_hs v then T_HSConfig else T_FSConfig).
    assert (usb_tables c src = speed_table (ev_hs v)) as Es by (rewrite (inv_fixed _ _ Hi); by unfold src; destruct (ev_hs v)).
    assert (length (usb_tables c src) = 30%nat) as Hls by (rewrite Es; by destruct (ev_hs v)).
    apply wp_bind. change 30 with (Z.of_nat 30). rewrite <-Hls.
    eapply wp_copy16; [done|by unfold src; destruct (ev_hs v)|by rewrite Hls, (inv_sizes _ _ Hi)|]. intros c1 s1 Hto1 Ht1 Ho1 Hp1.
    rewrite Es in Ht1.
    assert (usb_inv (ev_hs v) c1) as Hi1.
    { eapply (usb_inv_patch _ c); [done|done|by intros (_ & _ & [] & _)|done|done|done|].
      rewrite Ht1, (inv_sizes _ _ Hi). by destruct (ev_hs v). }
    change (descriptor_of (ev_hs v) 2 (VALUE_LOW p)) with (if VALUE_LOW p =? 0 then Some (halves (speed_table (ev_hs v))) else None) in HQ.
    destruct (VALUE_LOW p =? 0); [|by apply wp_ret, (HQ c1)].
    apply wp_bind. unfold descriptor_from. eapply wp_upd_ctl; [exact Hp1|]. intros s3 Hp3.
    apply wp_bind. eapply (wp_rd16 _ _ 1 USB_TOTAL_DESC_LEN); [exact Hp3|cbn; rewrite Ht1; by destruct (ev_hs v)|].
    eapply (wp_patched T_ConfigPatch (halves (speed_table (ev_hs v))));
      [exact Hp3|done|cbn; rewrite Ht1; apply u16_list; by destruct (ev_hs v)|cbn; rewrite Ht1; by destruct (ev_hs v)
       |destruct (ev_hs v); cbn; lia|by rewrite Hto1|by destruct (ev_hs v)|done|done|].
    intros c4 s4 Hsame Hprog Hp4. change (ControlCmd _) with (ControlCmd c1) in Hprog, Hp4.
    replace (ControlCmd c1) with p in Hprog, Hp4 by (by rewrite Hto1).
    eapply HQ; [|exact Hprog|exact Hp4]. by eapply usb_inv_same. }
  rewrite (proj2 (Z.eqb_neq _ 2) H2). unfold bGet_descriptor. apply wp_bind. eapply wp_req; [done|]. fold p.
  apply wp_bind. eapply wp_find_descriptor; [done..|]. destruct (descriptor_of _ _ _) as [d|]; [|by apply wp_ret, (HQ c)].
  intros c1 s1 Hsame Hcc Hcmd Ha Hfd Hp1. cbn [negb]. fold p in Hcc.
  apply wp_bind. eapply (wp_send_descriptor d); [exact Hp1|done|by rewrite Hcc|done|done|]. rewrite Hcc.
  intros c2 s2 [Htx Ho] Hp2. set (rest := take _ d) in *. apply wp_bind. eapply wp_ctl; [exact Hp2|].
  assert (usb_inv (ev_hs v) c2) as Hi2.
  { eapply usb_inv_same; [eapply usb_inv_same|]; [exact Hi|exact Hsame|]. by apply tx_only_tables. }
  destruct (decide (length rest <= 64)%nat) as [Hr|Hr] eqn:Er.
  - destruct Ho as (O1 & O2 & O3). rewrite O3. cbn [Z.ltb Z.compare when]. apply wp_bind, wp_ret, wp_ret.
    eapply HQ; [exact Hi2| |exact Hp2]. unfold progress. by rewrite Er.
  - destruct Ho as (O1 & O2 & O3). assert (0 <? u16TxRxCounter c2 = true) as ->.
    { destruct O3 as (? & ? & _ & _ & _ & _ & Hcnt & _). rewrite Hcnt, length_drop. apply Z.ltb_lt. lia. }
    cbn [when]. apply wp_bind. eapply wp_upd_ctl; [exact Hp2|]. intros s3 Hp3. apply wp_ret.
    eapply HQ; [| |exact Hp3]; [by eapply usb_inv_same|]. unfold progress. rewrite Er. cbn. split; [done|split; [congruence|done]].
Qed.

(** *** The setup packet *)
Lemma get_bytes w b0 b1 b2 b3 : le_bytes w = [b0; b1; b2; b3] →
  mGetByte0 w = b0 ∧ mGetByte1 w = b1 ∧ mGetByte2 w = b2 ∧ mGetByte3 w = b3.
Proof.
  unfold le_bytes, mGetByte0, mGetByte1, mGetByte2, mGetByte3, u8. change 255 with (Z.ones 8). rewrite !Z.land_ones by done.
  change (2 ^ 8) with 256.
  by intros [= -> -> -> ->].
Qed.
Lemma decode_bytes w0 w1 b0 b1 b2 b3 b4 b5 b6 b7 : le_bytes w0 = [b0; b1; b2; b3] → le_bytes w1 = [b4; b5; b6; b7] →
  Forall in_u8 [b0; b1; b2; b3; b4; b5; b6; b7] →
  decode_setup w0 w1 = mk_SetupPacket (b0 .& 0x80) (b0 .& 0x60) (b0 .& 0x03) b1 (b2 + 256 * b3) (b4 + 256 * b5) (b6 + 256 * b7).
Proof.
  intros (E0 & E1 & E2 & E3)%get_bytes (E4 & E5 & E6 & E7)%get_bytes Hb. rewrite !Forall_cons in Hb. unfold in_u8 in Hb.
  unfold decode_setup. rewrite E0, E1, E2, E3, E4, E5, E6, E7, !Z.shiftl_mul_pow2 by done. change (2 ^ 8) with 256.
  f_equal; unfold u16; rewrite Z.mod_small; lia.
Qed.
Lemma value_bytes p lo hi : in_u8 lo → in_u8 hi → Value p = lo + 256 * hi → VALUE_LOW p = lo ∧ VALUE_HIGH p = hi.
Proof.
  unfold in_u8, VALUE_LOW, VALUE_HIGH, mLOW_BYTE, mHIGH_BYTE. intros Hl Hh ->.
  change 0xff with (Z.ones 8). rewrite Z.land_ones, Z.shiftr_div_pow2 by done. unfold u8, u16. change (2 ^ 8) with 256. split; mlia.
Qed.
Lemma prefix_four (l l' : list Z) : length l = 4%nat → length l' = 4%nat → l `prefix_of` l' → l' = l.
Proof.
  intros Hl Hl' [k ->]. rewrite length_app in Hl'. assert (k = []) as -> by (apply length_zero_iff_nil; lia). apply app_nil_r.
Qed.

Lemma wp_setup fuel b0 ty idx i0 i1 l0 l1 c v s (Q : unit → _) :
  P c v s → usb_inv (ev_hs v) c → eUsbCxFinishAction c = ACT_IDLE → ev_size v = 4%nat → ev_fifo v = [] →
  ev_rx v = [b0; USB_GET_DESCRIPTOR; idx; ty; i0; i1; l0; l1] → Forall in_u8 (ev_rx v) → b0 .& 0x60 = 0 →
  match descriptor_of (ev_hs v) ty idx with
  | Some d => ∀ c' s', usb_inv (ev_hs v) c' → progress c' (take (Z.to_nat (l0 + 256 * l1)) d) →
      P c' (v <| ev_rx := [] |> <| ev_fifo := take 64 (take (Z.to_nat (l0 + 256 * l1)) d) |>) s' → Q tt s'
  | None => ∀ c' s', usb_inv (ev_hs v) c' → eUsbCxFinishAction c' = ACT_STALL → P c' (v <| ev_rx := [] |>) s' → Q tt s'
  end → wp (vUsb_ep0setup fuel) Q s.
Proof.
  intros Hp Hi Hact Hs Hf Hrx Hb Hstd HQ. unfold vUsb_ep0setup. apply wp_bind. eapply wp_ctl; [done|].
  apply wp_bind.
  assert (∀ c1 s1, usb_inv (ev_hs v) c1 → UsbChirpFinish c1 = true → eUsbCxFinishAction c1 = ACT_IDLE → P c1 v s1 →
    wp (ioread8_usb ZM_CX_CONFIG_STATUS_OFFSET ;;
        w0 ← ioread32_usb ZM_EP0_DATA_OFFSET;
        w1 ← ioread32_usb ZM_EP0_DATA_OFFSET;
        let p := decode_setup w0 w1 in
        upd_ctl (λ c, c <| ControlCmd := p |>) ;;
        if Type_ p =? cUSB_REQTYPE_STD .<< bmREQ_TYPE then
          ok ← bStandardCommand_patch;
          unless ok (set_action ACT_STALL)
        else if Type_ p =? cUSB_REQTYPE_VENDOR .<< bmREQ_TYPE then VendorCommand fuel
        else set_action ACT_STALL) Q s1) as Hmain.
  2:{ apply wp_when; intros Hz.
      - eapply wp_first_setup; [done|done|]. intros c1 s1 Hi1 Hch1 _ Ha1 Hp1. apply (Hmain c1); [done|done|congruence|done].
      - apply (Hmain c); [done|by apply negb_false_iff in Hz|done|done]. }
  clear s Hp c Hi Hact. intros c s Hi Hch Hact Hp.
  rewrite Hrx in Hb. rewrite !Forall_cons in Hb. destruct Hb as (B0 & B1 & B2 & B3 & B4 & B5 & B6 & B7 & _).
  apply wp_bind. eapply wp_rd8; [done|]. intros _ s1 Hp1.
  apply wp_bind. eapply wp_data_rd; [done|]. intros w0 s2 _ Hw0 Hp2. rewrite Hrx in Hw0. apply prefix_four in Hw0; [|done..].
  apply wp_bind. eapply wp_data_rd; [exact Hp2|]. intros w1 s3 _ Hw1 Hp3.
  unfold field_upd in Hw1; cbn [ev_rx] in Hw1. rewrite Hrx in Hw1. apply prefix_four in Hw1; [|done..].
  cbv zeta. rewrite (decode_bytes _ _ _ _ _ _ _ _ _ _ Hw0 Hw1) by (by repeat apply Forall_cons_2).
  rewrite Hstd. set (p := mk_SetupPacket _ _ _ _ _ _ _).
  apply wp_bind. eapply wp_upd_ctl; [exact Hp3|]. intros s4 Hp4. set (c4 := c <| ControlCmd := p |>) in Hp4.
  set (v4 := v <| ev_rx ::= _ |> <| ev_rx ::= _ |>) in Hp4.
  assert (v4 = v <| ev_rx := [] |>) as Ev4 by (unfold v4; destruct v; cbn in *; by subst).
  rewrite Ev4 in Hp4. clear Ev4. clearbody v4.
  change (Type_ p =? cUSB_REQTYPE_STD .<< bmREQ_TYPE) with true. cbv iota.
  apply wp_bind. unfold bStandardCommand_patch. apply wp_bind. eapply wp_req; [exact Hp4|].
  change (Request (ControlCmd c4) =? USB_SET_CONFIGURATION) with false. cbv iota.
  unfold bStandardCommand. apply wp_bind. eapply wp_req; [exact Hp4|]. cbv zeta.
  change (Request (ControlCmd c4)) with USB_GET_DESCRIPTOR.
  match goal with |- wp ?m _ _ => change m with (bGet_descriptor_patch : M (hif_usb HW C) bool) end.
  destruct (value_bytes p idx ty) as [Elo Ehi]; [done..|].
  eapply wp_get_descriptor; [exact Hp4|by eapply usb_inv_same|done|done|unfold in_u8 in *; cbn; lia|done|done|].
  change (ControlCmd c4) with p. rewrite Elo, Ehi. change (ev_hs (v <| ev_rx := [] |>)) with (ev_hs v).
  change (Length p) with (l0 + 256 * l1). destruct (descriptor_of _ _ _) as [d|].
  - intros c5 s5 Hi5 Hpr Hp5. apply wp_ret. by apply (HQ c5).
  - intros c5 s5 Hi5 Hp5. cbn [negb when]. unfold set_action. eapply wp_upd_ctl; [exact Hp5|]. intros s6 Hp6.
    eapply HQ; [|..|exact Hp6]; [by eapply usb_inv_same|done].
Qed.

(** *** The interrupts *)
Lemma wp_finish c v s (Q : unit → _) : P c v s →
  (∀ s', P (c <| eUsbCxFinishAction := ACT_IDLE |>)
     (match eUsbCxFinishAction c with ACT_DONE => v <| ev_acts ::= λ l, l ++ [1] |> | ACT_STALL => v <| ev_acts ::= λ l, l ++ [4] |> | ACT_IDLE => v end)
     s' → Q tt s') → wp finish_action Q s.
Proof.
  intros Hp HQ. unfold finish_action. apply wp_bind. eapply wp_ctl; [done|]. unfold set_action. destruct (eUsbCxFinishAction c).
  - apply wp_bind, wp_ret. by eapply wp_upd_ctl.
  - apply wp_bind. eapply wp_status_wr; [done|done|]. intros s1 Hp1. by eapply wp_upd_ctl; [exact Hp1|].
  - apply wp_bind. eapply wp_status_wr; [done|done|]. intros s1 Hp1. by eapply wp_upd_ctl; [exact Hp1|].
Qed.
Lemma task_setup fuel s : usb_fw_task_ep0 fuel BIT0 s = (vUsb_ep0setup fuel ;; finish_action) s.
Proof. reflexivity. Qed.
Lemma task_in fuel s : usb_fw_task_ep0 fuel BIT1 s = (vUsb_ep0tx ;; finish_action) s.
Proof. reflexivity. Qed.
Lemma wp_eq {A} (m m' : M (hif_usb HW C) A) Q s : m s = m' s → wp m' Q s → wp m Q s.
Proof. unfold wp. by intros ->. Qed.

(** What is left after a packet: [rest] was to be sent, its first 64 bytes are in the FIFO. *)
Definition waiting c (rest : list Z) : Prop :=
  eUsbCxFinishAction c = ACT_IDLE ∧
  if decide (length rest <= 64)%nat then eUsbCxCommand c = CMD_VOID
  else eUsbCxCommand c = CMD_GET_DESCRIPTOR ∧ to_send c (drop 64 rest).
Definition acts_after (rest : list Z) : list Z := if decide (length rest <= 64)%nat then [1] else [].

(** The rest of the packets, each sent when the host has taken the one before. *)
Definition take_packet : M (hif_usb HW C) unit := modify (λ s, s <| hf_hw ::= ep0_drain |>).
Fixpoint in_packets (fuel n : nat) : M (hif_usb HW C) unit :=
  match n with O => mret tt | S n => take_packet ;; usb_fw_task_ep0 fuel BIT1 ;; in_packets fuel n end.
Definition n_packets (l : list Z) : nat := Nat.max 1 ((length l + 63) / 64).

Lemma packets_short l : (length l <= 64)%nat → n_packets l = 1%nat ∧ packets l = [l].
Proof.
  intros Hl. assert (n_packets l = 1%nat) as E.
  { unfold n_packets. destruct (length l) as [|k]; [done|]. pose proof (Nat.Div0.div_mod (S k + 63) 64). pose proof (Nat.mod_upper_bound (S k + 63) 64). lia. }
  split; [done|]. unfold packets. fold (n_packets l). rewrite E. cbn [seq map]. by rewrite drop_0, take_ge.
Qed.
Lemma packets_long l : (64 < length l)%nat → n_packets l = S (n_packets (drop 64 l)) ∧ packets l = take 64 l :: packets (drop 64 l).
Proof.
  intros Hl. assert (n_packets l = S (n_packets (drop 64 l))) as E.
  { unfold n_packets. rewrite length_drop. pose proof (Nat.Div0.div_mod (length l + 63) 64). pose proof (Nat.mod_upper_bound (length l + 63) 64).
    pose proof (Nat.Div0.div_mod (length l - 64 + 63) 64). pose proof (Nat.mod_upper_bound (length l - 64 + 63) 64). lia. }
  split; [done|]. unfold packets. fold (n_packets l) (n_packets (drop 64 l)). rewrite E. cbn [seq map]. rewrite drop_0. f_equal.
  rewrite <-seq_shift, map_map. apply map_ext. intros i. rewrite drop_drop. do 2 f_equal. lia.
Qed.

Lemma wp_in_packets fuel n : ∀ rest c v s (Q : unit → _), P c v s → usb_inv (ev_hs v) c → waiting c rest → ev_size v = 4%nat →
  ev_fifo v = take 64 rest → n_packets rest = S n →
  (∀ c' s', usb_inv (ev_hs v) c' → eUsbCxFinishAction c' = ACT_IDLE → eUsbCxCommand c' = CMD_VOID →
     P c' (v <| ev_fifo := [] |> <| ev_host ::= λ h, h ++ packets rest |>
       <| ev_acts ::= λ l, l ++ (if decide (length rest <= 64)%nat then [] else [1]) |>) s' → Q tt s') →
  wp (in_packets fuel n ;; take_packet) Q s.
Proof.
  induction n as [|n IH]; intros rest c v s Q Hp Hi Hw Hs Hf Hn HQ.
  - assert (length rest <= 64)%nat as Hr.
    { destruct (decide (length rest <= 64)%nat) as [|Hlong]; [done|]. destruct (packets_long rest) as [E _]; [lia|].
      rewrite E in Hn. unfold n_packets in Hn. lia. }
    destruct (packets_short rest Hr) as [_ Ep]. destruct Hw as [Ha Hc]. rewrite decide_True in Hc by done.
    apply wp_bind, wp_ret.
    eapply wp_drain; [done|]. intros s1 Hp1. eapply HQ; [done..|]. rewrite Ep, decide_True by done.
    rewrite Hf, take_ge in Hp1 by done. revert Hp1. destruct v; unfold field_upd; cbn. by rewrite app_nil_r.
  - assert (64 < length rest)%nat as Hr.
    { destruct (decide (64 < length rest)%nat) as [|Hsh]; [done|]. destruct (packets_short rest) as [E _]; [lia|]. lia. }
    destruct (packets_long rest Hr) as [En Ep]. destruct Hw as [Ha Hc]. rewrite decide_False in Hc by lia. destruct Hc as [Hc Hts].
    cbn [in_packets]. apply wp_bind, wp_bind. eapply wp_drain; [done|]. intros s1 Hp1. rewrite Hf in Hp1.
    apply wp_bind, (wp_eq _ _ _ _ (task_in fuel s1)), wp_bind. unfold vUsb_ep0tx. apply wp_bind. eapply wp_ctl; [exact Hp1|].
    rewrite Hc. eapply (wp_tx _ (drop 64 rest)); [exact Hp1|exact Hts|exact Hs|done|]. intros c2 s2 [Htx Ho] Hp2.
    eapply wp_finish; [exact Hp2|]. intros s3 Hp3. apply wp_bind_inv.
    assert (usb_inv (ev_hs v) (c2 <| eUsbCxFinishAction := ACT_IDLE |>)) as Hi3.
    { eapply usb_inv_same; [exact Hi|]. by rewrite Htx. }
    set (v3 := v <| ev_fifo := take 64 (drop 64 rest) |> <| ev_host ::= λ h, h ++ [take 64 rest] |>
      <| ev_acts ::= λ l, l ++ (if decide (length (drop 64 rest) <= 64)%nat then [1] else []) |>).
    assert (P (c2 <| eUsbCxFinishAction := ACT_IDLE |>) v3 s3) as Hp3'.
    { revert Hp3 Ho. unfold v3. destruct (decide (length (drop 64 rest) <= 64)%nat); intros Hp3 (O1 & O2 & _); rewrite O2 in Hp3; [by destruct v|].
      rewrite Ha in Hp3. revert Hp3. destruct v; unfold field_upd; cbn. by rewrite app_nil_r. }
    eapply (IH (drop 64 rest)); [exact Hp3'|exact Hi3| |exact Hs|done|congruence|].
    { split; [done|]. revert Ho. destruct (decide (length (drop 64 rest) <= 64)%nat); [by intros (? & _)|].
      intros (O1 & _ & O3). split; [change (eUsbCxCommand c2 = CMD_GET_DESCRIPTOR); congruence|exact O3]. }
    intros c4 s4 Hi4 Ha4 Hc4 Hp4. eapply HQ; [exact Hi4|done|done|].
    rewrite Ep, (decide_False (P := (length rest <= 64)%nat)) by lia. revert Hp4. unfold v3. destruct v; unfold field_upd; cbn.
    rewrite <-!app_assoc. cbn [app]. by destruct (decide (length (drop 64 rest) <= 64)%nat).
Qed.
End steps.

(** C11: when the memory at EEPROM_USB_DESCRIPTOR_ADDR does not hold USB_DESC_IN_EEP_PATTERN, so
    that the device serves its own descriptors and not those of the EEPROM
    ([vUsb_SetupDescriptor]), a host that asks for a descriptor and then takes packet after
    packet gets the bytes of the descriptor it should, as many as it asked for, cut into packets of 64 bytes, and the
    request is then marked as done, once; a descriptor that does not exist is refused and
    nothing is sent. The request may be the first one after a reset of the bus. *)
Theorem get_descriptor_served fuel s b0 ty idx i0 i1 l0 l1 rx acts host hs :
  ep0_of (hf_hw s) = mk_ep0_view rx [] 4 acts host hs →
  rx = [b0; USB_GET_DESCRIPTOR; idx; ty; i0; i1; l0; l1] → Forall in_u8 rx → b0 .& 0x60 = 0 →
  usb_inv hs (hf_ctl s) → eUsbCxFinishAction (hf_ctl s) = ACT_IDLE →
  mem_rd32 (hf_mem s) EEPROM_USB_DESCRIPTOR_ADDR ≠ USB_DESC_IN_EEP_PATTERN →
  match descriptor_of hs ty idx with
  | Some d =>
      let bytes := take (Z.to_nat (l0 + 256 * l1)) d in
      ∃ s', (usb_fw_task_ep0 fuel BIT0 ;; in_packets fuel (n_packets bytes - 1) ;; take_packet) s = Ok (tt, s') ∧
        ep0_of (hf_hw s') = mk_ep0_view [] [] 4 (acts ++ [1]) (host ++ packets bytes) hs ∧
        usb_inv hs (hf_ctl s') ∧ eUsbCxCommand (hf_ctl s') = CMD_VOID ∧ eUsbCxFinishAction (hf_ctl s') = ACT_IDLE
  | None =>
      ∃ s', usb_fw_task_ep0 fuel BIT0 s = Ok (tt, s') ∧
        ep0_of (hf_hw s') = mk_ep0_view [] [] 4 (acts ++ [4]) host hs ∧
        usb_inv hs (hf_ctl s') ∧ eUsbCxFinishAction (hf_ctl s') = ACT_IDLE
  end.
Proof.
  intros Hv Hrx Hb Hstd Hi Ha He. pose proof (moved_refl s) as Hp. rewrite Hv in Hp.
  destruct (descriptor_of hs ty idx) as [d|] eqn:Hd; [intros bytes|].
  - destruct (wp_run ((usb_fw_task_ep0 fuel BIT0 ;; in_packets fuel (n_packets bytes - 1) ;; take_packet))
      (λ _ s', ∃ c, moved s c (mk_ep0_view [] [] 4 (acts ++ [1]) (host ++ packets bytes) hs) s' ∧
         usb_inv hs c ∧ eUsbCxCommand c = CMD_VOID ∧ eUsbCxFinishAction c = ACT_IDLE) s) as ([] & s' & E & c & Hm & Hc).
    2:{ exists s'. rewrite (moved_ctl _ _ _ _ Hm). split; [done|split; [exact (proj2 Hm)|done]]. }
    apply wp_bind, (wp_eq _ _ _ _ (task_setup fuel s)), wp_bind.
    eapply (wp_setup s He); [exact Hp|exact Hi|exact Ha|done|done|exact Hrx|exact Hb|exact Hstd|].
    cbn [ev_hs]. rewrite Hd. fold bytes. intros c1 s1 Hi1 Hpr Hp1. eapply wp_finish; [exact Hp1|]. intros s2 Hp2.
    set (v2 := mk_ep0_view [] (take 64 bytes) 4 (acts ++ acts_after bytes) host hs).
    assert (moved s (c1 <| eUsbCxFinishAction := ACT_IDLE |>) v2 s2 ∧ waiting (c1 <| eUsbCxFinishAction := ACT_IDLE |>) bytes) as [Hp2' Hw].
    { revert Hp2 Hpr. unfold progress, waiting, v2, acts_after. destruct (decide (length bytes <= 64)%nat).
      - intros Hp2 [O1 O2]. by rewrite O2 in Hp2.
      - intros Hp2 (O1 & O2 & O3). rewrite O2 in Hp2. by rewrite app_nil_r. }
    eapply (wp_in_packets s fuel _ bytes); [exact Hp2'|by eapply usb_inv_same|exact Hw|done|done|unfold n_packets; lia|].
    intros c3 s3 Hi3 Ha3 Hc3 Hp3. exists c3. split_and!; [|done..]. revert Hp3. unfold v2, acts_after, field_upd; cbn.
    rewrite <-app_assoc. by destruct (decide (length bytes <= 64)%nat).
  - destruct (wp_run (usb_fw_task_ep0 fuel BIT0) (λ _ s', ∃ c, moved s c (mk_ep0_view [] [] 4 (acts ++ [4]) host hs) s' ∧
         usb_inv hs c ∧ eUsbCxFinishAction c = ACT_IDLE) s) as ([] & s' & E & c & Hm & Hc).
    2:{ exists s'. rewrite (moved_ctl _ _ _ _ Hm). split; [done|split; [exact (proj2 Hm)|done]]. }
    apply (wp_eq _ _ _ _ (task_setup fuel s)), wp_bind.
    eapply (wp_setup s He); [exact Hp|exact Hi|exact Ha|done|done|exact Hrx|exact Hb|exact Hstd|].
    cbn [ev_hs]. rewrite Hd. intros c1 s1 Hi1 Hst Hp1. eapply wp_finish; [exact Hp1|]. rewrite Hst. intros s2 Hp2.
    exists (c1 <| eUsbCxFinishAction := ACT_IDLE |>). split; [exact Hp2|split; [by eapply usb_inv_same|done]].
Qed.
End descriptors.
