(* ===== verification/Fwd.v ===== *)
(** * Firmware download (sboot/.../fwd/fwd.c)

    The boot code's client of the HIF layer: each message carries a piece of an image, which is
    copied to where the first one said; the last one also carries a checksum and an entry
    point, and the CPU jumps there when the checksum is right. [fwd_jump] notes the jump. *)

From S2P Require Import Prelude.
From S2P Require Import NBuf.
From S2P Require Import Dma.
From S2P Require Import HifPipes.
From S2P Require Import Hif.
From S2P Require Import UsbEp0.

Definition FWD_RSP_ACK : Z := 0x1.
Definition FWD_RSP_SUCCESS : Z := 0x2.
Definition FWD_RSP_FAILED : Z := 0x3.
Definition sizeof_fwd_rsp_t : Z := 8.
Definition sizeof_fwd_cmd_t : Z := 8.
Record fwd_tgt_softc_t := mk_fwd_sc { fwd_addr : Z; rx_pipe : Z; tx_pipe : Z; fwd_jump : option Z }.
#[export] Instance eta_fwd_sc : EtaExp fwd_tgt_softc_t := λ f, mk_fwd_sc (fwd_addr f) (rx_pipe f) (tx_pipe f) (fwd_jump f).

Section fwd.
Context {HW : Type} `{!UsbIo HW}.
Abbreviation HM := (M (hif_usb HW fwd_tgt_softc_t)).

Definition upd_fwd (f : fwd_tgt_softc_t → fwd_tgt_softc_t) : HM unit := modify (λ s, s <| hf_up ::= f |>).
Definition fwd_sc : HM fwd_tgt_softc_t := gets hf_up.
Definition fwd_init : HM unit :=
  upd_fwd (λ f, f <| rx_pipe := HIF_get_default_pipe.1 |> <| tx_pipe := HIF_get_default_pipe.2 |>).
Definition fwd_retbuf_handler (buf : Z) : HM unit :=
  sc ← fwd_sc; _HIFusb_return_recv_buf (rx_pipe sc) buf.

(** [image] walks along the words, [i] counts their bytes. *)
Fixpoint fwd_checksum (fuel : nat) (i size image checksum : Z) : HM Z :=
  if i <? size then
    match fuel with
    | O => fail OutOfFuel
    | S n => w ← rd32 image; fwd_checksum n (u32 (i + 4)) size (u32 (image + 4)) (Z.lxor checksum w)
    end
  else mret checksum.
Definition fwd_tgt_process_last (fuel : nat) (size cksum : Z) : HM bool :=
  sc ← fwd_sc;
  checksum ← fwd_checksum fuel 0 size (fwd_addr sc) 0;
  mret (checksum =? cksum).
(** The copy; where it stopped reading is the result. *)
Fixpoint fwd_copy (fuel : nat) (i len image daddr : Z) : HM Z :=
  if i <? len then
    match fuel with
    | O => fail OutOfFuel
    | S n => w ← rd32 image; wr32 daddr w ;; fwd_copy n (u32 (i + 4)) len (u32 (image + 4)) (u32 (daddr + 4))
    end
  else mret image.
(** The answer takes the place of the message. *)
Definition fwd_response (buf seglen : Z) : HM Z :=
  b ← hfnb (rd_vbuf buf);
  s ← get;
  desc ← hfnb (vdesc_last (size (vdescs (dm_nb (hf_dma s)))) (desc_list b));
  hfnb (upd_vdesc desc (λ d, d <| data_size ::= λ n, u16 (n - seglen) |>)) ;;
  hfnb (upd_vbuf buf (λ b, b <| buf_length ::= λ n, u16 (n - seglen) |>)) ;;
  d ← hfnb (rd_vdesc desc);
  let r := u32 (buf_addr d + data_offset d + data_size d) in
  hfnb (upd_vdesc desc (λ d, d <| data_size ::= λ n, u16 (n + sizeof_fwd_rsp_t) |>)) ;;
  hfnb (upd_vbuf buf (λ b, b <| buf_length ::= λ n, u16 (n + sizeof_fwd_rsp_t) |>)) ;;
  mret r.
Definition fwd_done (buf : Z) : HM unit := sc ← fwd_sc; _HIFusb_send_buffer (tx_pipe sc) buf ;; mret tt.
Definition fwd_tgt_recv (fuel : nat) (buf : Z) : HM unit :=
  b ← hfnb (rd_vbuf buf);
  d ← hfnb (rd_vdesc (desc_list b));
  let data := u32 (buf_addr d + data_offset d) in
  let seglen := data_size d in
  more ← gets (λ s, mem_rd16 (hf_mem s) data);
  len ← gets (λ s, mem_rd16 (hf_mem s) (u32 (data + 2)));
  offset ← rd32 (u32 (data + 4));
  let image := u32 (data + sizeof_fwd_cmd_t) in
  image ← (if offset =? 0 then
             addr ← rd32 image; upd_fwd (λ f, f <| fwd_addr := addr |>) ;; mret (u32 (image + 4))
           else mret image);
  sc ← fwd_sc;
  let daddr := u32 (fwd_addr sc + offset) in
  let len := if more =? 0 then u32 (len - 4) else len in
  image ← fwd_copy fuel 0 len image daddr;
  r ← fwd_response buf seglen;
  o ← rd32 (u32 (data + 4));
  wr32 (u32 (r + 4)) o ;;
  if negb (more =? 0) then wr32 r FWD_RSP_ACK ;; fwd_done buf
  else
    cksum ← rd32 image;
    ok ← fwd_tgt_process_last fuel (u32 (offset + len)) cksum;
    eloc ← rd32 (u32 (image + 4));
    wr32 r (if ok : bool then FWD_RSP_SUCCESS else FWD_RSP_FAILED) ;;
    fwd_done buf ;;
    when ok (upd_fwd (λ f, f <| fwd_jump := Some eloc |>)).

(** What [fwd_init] registers. *)
Definition fwd_client (fuel : nat) : HifClient HW fwd_tgt_softc_t :=
  {| recv_buf := fwd_tgt_recv fuel; send_buf_done := fwd_retbuf_handler |}.
End fwd.
