(* ===== verification/UsbIn.v ===== *)
(** * Endpoint 4: commands come in

    However a command is cut into packets, it reaches the layer above once, with the bytes the
    host sent; a command longer than its buffer blocks those that follow. *)

From S2P Require Import Prelude.
From S2P Require Import NBuf.
From S2P Require Import NBufProps.
From S2P Require Import Dma.
From S2P Require Import DmaProps.
From S2P Require Import Hif.
From S2P Require Import UsbFifo.
From S2P Require Import UsbProps.

Section commands.
Context {HW C : Type} {IO : UsbIo HW} {HL : UsbFifoLaws HW} {HC : HifClient HW C}.
Implicit Types (s : hif_usb HW C) (ws : list Z).

(** Reading the words of what is in the FIFO. *)
Lemma ep4_words_run base l : ∀ s ws,
  ro_regaddr s = base + 4 * Z.of_nat (length ws) → mem_words (hf_mem s) base ws →
  0 <= base → base + 4 * Z.of_nat (length ws + length l) < 4294967296 →
  ∃ m hw ws', for_each l (λ _ : Z, ep4_word) s =
      Ok (tt, s <| hf_mem := m |> <| hf_hw := hw |> <| ro_regaddr := base + 4 * Z.of_nat (length (ws ++ ws')) |>) ∧
    mem_words m base (ws ++ ws') ∧ length ws' = length l ∧ Forall in_u32 ws' ∧
    take (4 * length l) (ep4_bytes (hf_hw s)) `prefix_of` bytes_of ws' ∧
    (∀ x, x < base ∨ base + 4 * Z.of_nat (length (ws ++ ws')) <= x → mem_rd m x = mem_rd (hf_mem s) x).
Proof.
  induction l as [|z l IH]; intros s ws Hr Hm H0 Hlt.
  - exists (hf_mem s), (hf_hw s), []. rewrite app_nil_r. split; [|split; [done|split; [done|split; [done|split; [apply prefix_nil|done]]]]].
    rewrite <-Hr. by destruct s.
  - cbn [for_each]. cbn [length] in Hlt. pose proof (ep4_data (hf_hw s)) as Hd.
    destruct (io_read32 (USB_CTRL_BASE_ADDRESS .| ZM_EP4_DATA_OFFSET) (hf_hw s)) as [w hw'] eqn:Er.
    destruct Hd as (Hw & Hp & Hd & _).
    set (s1 := s <| hf_hw := hw' |> <| hf_mem ::= mem_wr32 (ro_regaddr s) w |> <| ro_regaddr := u32 (ro_regaddr s + 4) |>).
    assert (ep4_word s = Ok (tt, s1)) as E.
    { unfold ep4_word. rewrite (bind_ok _ _ _ w (s <| hf_hw := hw' |>)).
      - reflexivity.
      - unfold ioread32_usb, hw_rd. by rewrite Er. }
    rewrite (bind_ok _ _ _ _ _ E).
    destruct (IH s1 (ws ++ [w])) as (m & hw & ws' & E1 & Hm1 & Hl1 & Hf1 & Hp1 & Ho1).
    + cbn. rewrite Hr, length_app, u32_small by lia. cbn. lia.
    + cbn. rewrite Hr. by apply mem_words_snoc.
    + done.
    + rewrite length_app. cbn. lia.
    + exists m, hw, (w :: ws'). rewrite <-app_assoc in *. cbn [app] in *. split; [|split; [done|split; [cbn; lia|split; [by constructor|split]]]].
      * rewrite E1. by destruct s.
      * unfold bytes_of. cbn [map concat length]. replace (4 * S (length l))%nat with (4 + 4 * length l)%nat by lia.
        apply prefix_words; [done|done|]. rewrite <-Hd. exact Hp1.
      * intros x Hx. rewrite Ho1 by done. cbn. rewrite Hr. apply mem_wr32_out.
        rewrite length_app in Hx. cbn in Hx. lia.
Qed.

(** Part of a command has come: [got] lies, as words, in the buffer [buf]. *)
Record receiving s (buf : Z) (b : VBUF) (v : VDESC) (got ws : list Z) : Prop := {
  rv_new : ro_cmd_is_new s = false;
  rv_buf : ro_buf s = buf;
  rv_buf0 : buf ≠ 0;
  rv_vbuf : vbufs (dm_nb (hf_dma s)) !! buf = Some b;
  rv_vdesc : vdescs (dm_nb (hf_dma s)) !! desc_list b = Some v;
  rv_len : ro_cmd_len s = Z.of_nat (length got);
  rv_addr : ro_regaddr s = buf_addr v + 4 * Z.of_nat (length ws);
  rv_words : mem_words (hf_mem s) (buf_addr v) ws;
  rv_bytes : got = bytes_of ws;
  rv_range : Forall in_u32 ws }.
(** The buffer is where words can be written. *)
Definition good_buffer (v : VDESC) : Prop := 0 <= buf_addr v ∧ 0 <= buf_size v < 65536 ∧ buf_addr v + buf_size v + 4 < 4294967296.

Lemma reg_out_enter s p :
  ro_cmd_is_new s = false → ro_buf s ≠ 0 → ep4_bytes (hf_hw s) = p → (length p <= 64)%nat →
  ∀ b v, vbufs (dm_nb (hf_dma s)) !! ro_buf s = Some b → vdescs (dm_nb (hf_dma s)) !! desc_list b = Some v →
  usb_reg_out_patch s =
    (if buf_size v <? u16 (ro_cmd_len s + Z.of_nat (length p)) then ep4_drop (Z.of_nat (length p)) else
     for_each (seqZ 0 ((Z.of_nat (length p) + 3) / 4)) (λ _, ep4_word) ;;
     when (Z.of_nat (length p) <? 64) ep4_last) (s <| ro_cmd_len ::= λ n, u16 (n + Z.of_nat (length p)) |>).
Proof.
  intros Hnew Hbuf Hp Hl b v Hb Hv. unfold usb_reg_out_patch.
  rewrite (bind_ok _ _ _ (Z.of_nat (length p)) s).
  2:{ unfold ioread8_usb, hw_rd. rewrite ep4_count by (rewrite Hp; lia). rewrite Hp. by destruct s. }
  replace (USB_EP4_MAX_PKT_SIZE <? Z.of_nat (length p)) with false by (unfold USB_EP4_MAX_PKT_SIZE; lia).
  cbn [when]. rewrite (bind_ok _ _ _ _ _ (run_ret _ _)), (bind_ok _ _ _ _ _ (run_get _)), Hnew.
  rewrite (bind_ok _ _ _ _ _ (run_ret _ _)). cbn [negb]. rewrite (bind_ok _ _ _ _ _ (run_get _)).
  rewrite (proj2 (Z.eqb_neq _ 0) Hbuf), (bind_ok _ _ _ _ _ (run_modify _ _)).
  set (s1 := s <| ro_cmd_len ::= _ |>). rewrite (bind_ok _ _ _ _ _ (run_get _)).
  rewrite (bind_ok _ _ _ b s1) by (by apply run_hrd_vbuf). rewrite (bind_ok _ _ _ v s1) by (by apply run_hrd_vdesc).
  change (ro_cmd_len s1) with (u16 (ro_cmd_len s + Z.of_nat (length p))).
  destruct (_ <? _); [done|]. cbv zeta. f_equal. f_equal. f_equal. f_equal. unfold seqZ.
  rewrite Z.shiftr_div_pow2 by done. change (2 ^ 2) with 4.
  destruct (Z.eqb_spec (Z.of_nat (length p) mod 4) 0); cbn [negb]; mlia.
Qed.

(** Only what the FIFO handlers keep for themselves, the chip and memory change. *)
Definition fifo_only s s' : Prop :=
  s' = s <| hf_mem := hf_mem s' |> <| hf_hw := hf_hw s' |> <| ro_regaddr := ro_regaddr s' |> <| ro_cmd_len := ro_cmd_len s' |>.

(** The words of a packet, read behind those that are there. *)
Lemma reg_out_words s buf b v got ws p :
  receiving s buf b v got ws → good_buffer v → (length p <= 64)%nat → ep4_bytes (hf_hw s) = p →
  Z.of_nat (length (got ++ p)) <= buf_size v →
  ∃ s' ws', usb_reg_out_patch s = when (Z.of_nat (length p) <? 64) ep4_last s' ∧ fifo_only s s' ∧
    ro_cmd_len s' = Z.of_nat (length (got ++ p)) ∧ ro_regaddr s' = buf_addr v + 4 * Z.of_nat (length ws') ∧
    mem_words (hf_mem s') (buf_addr v) ws' ∧ Forall in_u32 ws' ∧ got ++ p `prefix_of` bytes_of ws' ∧
    Z.of_nat (length ws') = (Z.of_nat (length (got ++ p)) + 3) / 4 ∧
    (∀ x, x < buf_addr v ∨ buf_addr v + 4 * Z.of_nat (length ws') <= x → mem_rd (hf_mem s') x = mem_rd (hf_mem s) x).
Proof.
  intros [Hn Hb Hb0 Hvb Hvd Hlen Haddr Hm Hgot Hrg] (Ha & Hs & Hmax) Hp Hhw Hfit. rewrite length_app in Hfit.
  assert (length got = 4 * length ws)%nat as Hg by (by rewrite Hgot, length_bytes_of).
  subst buf. rewrite (reg_out_enter s p Hn Hb0 Hhw Hp b v Hvb Hvd).
  rewrite Hlen, u16_small by lia. replace (buf_size v <? _) with false by lia.
  set (s1 := s <| ro_cmd_len ::= _ |>). set (n := (Z.of_nat (length p) + 3) / 4).
  assert (0 <= n /\ 4 * n <= Z.of_nat (length p) + 3 < 4 * n + 4) as [Hn0 Hn4] by (unfold n; mlia).
  destruct (ep4_words_run (buf_addr v) (seqZ 0 n) s1 ws) as (m & hw & ws' & E & Hm' & Hl' & Hf & Hpre & Hout);
    [done|done|done|rewrite length_seqZ; lia|].
  rewrite length_seqZ in Hl', Hpre. rewrite (bind_ok _ _ _ _ _ E).
  eexists _, (ws ++ ws'). split; [reflexivity|]. split; [by destruct s|].
  split; [cbn; rewrite Hlen, u16_small, length_app; lia|]. split; [done|]. split; [exact Hm'|].
  split; [by apply Forall_app|]. split; [|split].
  - rewrite bytes_of_app, <-Hgot. apply prefix_app. etransitivity; [|exact Hpre].
    change (ep4_bytes (hf_hw s1)) with (ep4_bytes (hf_hw s)). rewrite Hhw, take_ge by lia. done.
  - rewrite !length_app, Hl', Hg. unfold n. rewrite !Nat2Z.inj_add, Z2Nat.id by (unfold n; mlia). mlia.
  - exact Hout.
Qed.

Lemma reg_out_full s buf b v got ws p :
  receiving s buf b v got ws → good_buffer v → length p = 64%nat → ep4_bytes (hf_hw s) = p →
  Z.of_nat (length (got ++ p)) <= buf_size v →
  ∃ s' ws', usb_reg_out_patch s = Ok (tt, s') ∧ receiving s' buf b v (got ++ p) ws' ∧ fifo_only s s' ∧
    (∀ x, x < buf_addr v ∨ buf_addr v + Z.of_nat (length (got ++ p)) + 3 < x → mem_rd (hf_mem s') x = mem_rd (hf_mem s) x).
Proof.
  intros Hr Hv Hp Hhw Hfit. destruct (reg_out_words s buf b v got ws p Hr Hv) as
    (s' & ws' & E & Hs & Hlen & Haddr & Hm & Hf & Hpre & Hws & Hout); [lia|done|done|].
  exists s', ws'. rewrite E. replace (Z.of_nat (length p) <? 64) with false by lia. split; [done|].
  destruct Hr as [Hn Hb Hb0 Hvb Hvd _ _ _ Hgot Hrg]. split; [|split; [done|]].
  - assert (length got = 4 * length ws)%nat by (by rewrite Hgot, length_bytes_of).
    split; [by rewrite Hs|by rewrite Hs|done|by rewrite Hs|by rewrite Hs|done|done|done| |done].
    destruct Hpre as [k Hk]. assert (length k = 0%nat) as ?%length_zero_iff_nil; [|subst k; by rewrite app_nil_r in Hk].
    apply (f_equal length) in Hk. rewrite !length_app, length_bytes_of in Hk. rewrite length_app in Hws. mlia.
  - intros x Hx. apply Hout. rewrite length_app in *. mlia.
Qed.

(** The state in which the layer above gets the command [data]. *)
Record delivered s s' (buf : Z) (b : VBUF) (v : VDESC) (data : list Z) : Prop := {
  dl_vbuf : vbufs (dm_nb (hf_dma s')) !! buf = Some (b <| next_buf := 0 |> <| buf_length := Z.of_nat (length data) |>);
  dl_vdesc : vdescs (dm_nb (hf_dma s')) !! desc_list b =
    Some (v <| next_desc := 0 |> <| data_offset := 0 |> <| data_size := Z.of_nat (length data) |> <| control := 0 |>);
  dl_data : mem_bytes (hf_mem s') (buf_addr v) data;
  dl_mem : ∀ x, x < buf_addr v ∨ buf_addr v + Z.of_nat (length data) + 3 < x → mem_rd (hf_mem s') x = mem_rd (hf_mem s) x;
  dl_vbufs : ∀ p, p ≠ buf → vbufs (dm_nb (hf_dma s')) !! p = vbufs (dm_nb (hf_dma s)) !! p;
  dl_vdescs : ∀ p, p ≠ desc_list b → vdescs (dm_nb (hf_dma s')) !! p = vdescs (dm_nb (hf_dma s)) !! p;
  dl_up : hf_up s' = hf_up s }.

Lemma first_word_suspend data ws m a :
  Forall in_u32 ws → data `prefix_of` bytes_of ws → mem_words m a ws → (4 <= length data)%nat →
  take 4 data ≠ [255; 255; 255; 255] → mem_rd32 m a =? 0xFFFFFFFF = false.
Proof.
  intros Hf Hp Hm Hl Hne. destruct ws as [|w ws].
  { apply prefix_length in Hp. cbn in Hp. lia. }
  rewrite <-(Hm 0%nat w eq_refl), Z.add_0_r in *. apply Z.eqb_neq. intros E. apply Hne.
  destruct Hp as [k Hk]. apply (f_equal (take 4)) in Hk. rewrite take_app_le in Hk by lia. rewrite <-Hk.
  change (bytes_of (mem_rd32 m a :: ws)) with (le_bytes (mem_rd32 m a) ++ bytes_of ws).
  rewrite take_app_le, take_ge by (cbn; lia). by rewrite E.
Qed.

Lemma recv_command_run s buf b v data ws :
  vbufs (dm_nb (hf_dma s)) !! buf = Some b → vdescs (dm_nb (hf_dma s)) !! desc_list b = Some v →
  is_Some (dm_desc (hf_dma s) !! VDESC_get_hw_desc (desc_list b)) → in_u32 (buf_addr v) → data_offset v = 0 →
  data_size v = Z.of_nat (length data) → data_size v < 65536 →
  Forall in_u32 ws → data `prefix_of` bytes_of ws → mem_words (hf_mem s) (buf_addr v) ws →
  Z.of_nat (length ws) = (Z.of_nat (length data) + 3) / 4 →
  (4 <= length data)%nat → take 4 data ≠ [255; 255; 255; 255] →
  ∃ m dd, let s' := s <| hf_dma ::= λ d, d <| dm_desc := dd |> |> <| hf_mem := m |> in
    _fw_usbfifo_recv_command buf s = recv_buf buf s' ∧ mem_bytes m (buf_addr v) data ∧
    (∀ x, x < buf_addr v ∨ buf_addr v + Z.of_nat (length data) + 3 < x → mem_rd m x = mem_rd (hf_mem s) x).
Proof.
  intros Hb Hv Hd Ha Ho Hsz Hsz' Hf Hp Hm Hlen H4 Hne.
  destruct (swap_buf_run s buf b v ws Hb Hv Hd) as (m & dd & E & Hin & Hout & _); rewrite ?Ho, ?Z.add_0_r; try done.
  { lia. } { by rewrite Hsz. }
  rewrite Ho, Z.add_0_r in Hin, Hout. exists m, dd. cbv zeta. split; [|split].
  - unfold _fw_usbfifo_recv_command.
    rewrite (bind_ok _ _ _ _ _ (run_hrd_vbuf _ _ _ Hb)), (bind_ok _ _ _ _ _ (run_hrd_vdesc _ _ _ Hv)).
    rewrite Ho, Z.add_0_r, u32_small by done. unfold rd32. rewrite (bind_ok _ _ _ _ _ (run_gets _ _)).
    rewrite (first_word_suspend data ws _ _ Hf Hp Hm H4 Hne). unfold usbfifo_recv_command. by rewrite (bind_ok _ _ _ _ _ E).
  - intros i x Hx. apply Hin. by eapply prefix_lookup_Some.
  - intros x Hx. apply Hout. mlia.
Qed.

(** The last packet: the command is complete. *)
Lemma reg_out_last s buf b v got ws p :
  receiving s buf b v got ws → good_buffer v → (length p < 64)%nat → ep4_bytes (hf_hw s) = p →
  Z.of_nat (length (got ++ p)) <= buf_size v → (4 <= length (got ++ p))%nat → take 4 (got ++ p) ≠ [255; 255; 255; 255] →
  is_Some (dm_desc (hf_dma s) !! VDESC_get_hw_desc (desc_list b)) →
  ∃ s', usb_reg_out_patch s = (recv_buf buf ;; modify (λ s, s <| ro_cmd_is_new := true |>)) s' ∧
    delivered s s' buf b v (got ++ p) ∧ cmdQueue s' = cmdQueue s.
Proof.
  intros Hr Hv Hp Hhw Hfit H4 Hne Hdd. destruct (reg_out_words s buf b v got ws p Hr Hv) as
    (s1 & ws' & E & Hs & Hlen & Haddr & Hm & Hf & Hpre & Hws & Hout); [lia|done|done|].
  replace (Z.of_nat (length p) <? 64) with true in E by lia. cbn [when] in E. rewrite E.
  destruct Hr as [_ Hb _ Hvb Hvd _ _ _ _ _]. destruct Hv as (Ha & Hsz & Hmax).
  set (n := Z.of_nat (length (got ++ p))) in *. set (data := got ++ p) in *.
  assert (hf_dma s1 = hf_dma s) as Hdma by (by rewrite Hs).
  set (b' := b <| next_buf := 0 |> <| buf_length := n |>).
  set (v' := v <| next_desc := 0 |> <| data_offset := 0 |> <| data_size := n |> <| control := 0 |>).
  set (s2 := set_vb buf b' (set_vd (desc_list b) v' s1)).
  assert (ep4_last s1 = (_fw_usbfifo_recv_command buf ;; modify (λ s, s <| ro_cmd_is_new := true |>)) s2) as ->.
  { unfold ep4_last. rewrite (bind_ok _ _ _ _ _ (run_get _)). replace (ro_buf s1) with buf by (by rewrite Hs).
    cbv zeta. rewrite (bind_ok _ _ _ b s1) by (apply run_hrd_vbuf; by rewrite Hdma).
    rewrite Hlen. rewrite (bind_ok _ _ _ tt (set_vd (desc_list b) (v <| next_desc := 0 |>) s1))
      by (apply run_hupd_vdesc; by rewrite Hdma).
    do 3 (erewrite bind_ok by (apply run_hupd_vdesc, set_vd_at); rewrite set_vd_vd).
    erewrite bind_ok by (apply run_hupd_vbuf; cbn; rewrite Hdma; exact Hvb).
    erewrite bind_ok by (apply run_hupd_vbuf, set_vb_at). by rewrite set_vb_vb. }
  destruct (recv_command_run s2 buf b' v' data ws') as (m & dd & Er & Hin & Ho); try done.
  { apply set_vb_at. } { apply lookup_insert_eq. } { cbn. by rewrite Hdma. } { cbn. unfold in_u32. lia. } { cbn. lia. }
  eexists. split; [|split].
  - unfold mbind, M_bind. by rewrite Er.
  - split; cbn.
    + by rewrite lookup_insert_eq.
    + by rewrite lookup_insert_eq.
    + exact Hin.
    + intros x Hx. rewrite (Ho x Hx). cbn. apply Hout. fold n data in Hws. mlia.
    + intros q Hq. rewrite lookup_insert_ne by done. by rewrite Hdma.
    + intros q Hq. rewrite lookup_insert_ne by done. by rewrite Hdma.
    + by rewrite Hs.
  - cbn. by rewrite Hs.
Qed.

(** The first packet takes a buffer. *)
Lemma reg_out_first s buf b v :
  ro_cmd_is_new s = true → cmdQueue s = buf → buf ≠ 0 →
  vbufs (dm_nb (hf_dma s)) !! buf = Some b → vdescs (dm_nb (hf_dma s)) !! desc_list b = Some v →
  (length (ep4_bytes (hf_hw s)) <= 64)%nat →
  ∃ s1, usb_reg_out_patch s = usb_reg_out_patch s1 ∧ receiving s1 buf (b <| next_buf := 0 |>) v [] [] ∧
    s1 = set_vb buf (b <| next_buf := 0 |>) (s <| cmdQueue := next_buf b |> <| ro_buf := buf |> <| ro_cmd_len := 0 |>
           <| ro_regaddr := buf_addr v |> <| ro_cmd_is_new := false |>).
Proof.
  intros Hn Hq Hb0 Hb Hv Hl. set (s1 := set_vb _ _ _). exists s1.
  assert (receiving s1 buf (b <| next_buf := 0 |>) v [] []) as Hr.
  { split; try done; [apply set_vb_at|cbn; lia]. }
  split; [|done].
  assert (∀ t : hif_usb HW C, hf_hw t = hf_hw s → ioread8_usb ZM_EP4_BYTE_COUNT_LOW_OFFSET t = Ok (Z.of_nat (length (ep4_bytes (hf_hw s))), t)) as Ec.
  { intros t Ht. unfold ioread8_usb, hw_rd. rewrite Ht, ep4_count by lia. rewrite <-Ht. by destruct t. }
  assert (usbfifo_get_command_buf s = Ok (buf, set_vb buf (b <| next_buf := 0 |>) (s <| cmdQueue := next_buf b |>))) as Eg.
  { unfold usbfifo_get_command_buf. rewrite (bind_ok _ _ _ _ _ (run_get _)), Hq.
    rewrite (bind_ok _ _ _ _ _ (run_hrd_vbuf _ _ _ Hb)), (bind_ok _ _ _ _ _ (run_modify _ _)).
    by erewrite bind_ok by (by apply run_hupd_vbuf). }
  assert (ep4_new s = Ok (true, s1)) as En.
  { unfold ep4_new. rewrite (bind_ok _ _ _ _ _ Eg). do 2 rewrite (bind_ok _ _ _ _ _ (run_modify _ _)).
    rewrite (proj2 (Z.eqb_neq _ 0) Hb0). erewrite bind_ok by (apply run_hrd_vbuf; cbn; apply lookup_insert_eq).
    erewrite bind_ok by (by apply run_hrd_vdesc). by destruct s as [[[]]]. }
  unfold usb_reg_out_patch. rewrite (bind_ok _ _ _ _ _ (Ec s eq_refl)), (bind_ok _ _ _ _ _ (Ec s1 eq_refl)).
  replace (USB_EP4_MAX_PKT_SIZE <? Z.of_nat _) with false by (unfold USB_EP4_MAX_PKT_SIZE; lia). cbn [when].
  repeat rewrite (bind_ok _ _ _ _ _ (run_ret _ _)), (bind_ok _ _ _ _ _ (run_get _)).
  rewrite Hn, (bind_ok _ _ _ _ _ En). change (ro_cmd_is_new s1) with false. cbv iota. by rewrite (bind_ok _ _ _ _ _ (run_ret _ _)).
Qed.

(** One interrupt for each packet, which the chip has then in its FIFO. *)
Fixpoint commands_in (hws : list HW) : M (hif_usb HW C) unit :=
  match hws with
  | [] => mret tt
  | hw :: hws => modify (λ s, s <| hf_hw := hw |>) ;; usb_reg_out_patch ;; commands_in hws
  end.
Definition holds (hw : HW) (p : list Z) : Prop := ep4_bytes hw = p.

Lemma delivered_trans s s1 s2 buf b v data :
  hf_dma s1 = hf_dma s → hf_up s1 = hf_up s →
  (∀ x, x < buf_addr v ∨ buf_addr v + Z.of_nat (length data) + 3 < x → mem_rd (hf_mem s1) x = mem_rd (hf_mem s) x) →
  delivered s1 s2 buf b v data → delivered s s2 buf b v data.
Proof.
  intros Hd Hu Hm [H1 H2 H3 H4 H5 H6 H7]. split; try done.
  - intros x Hx. by rewrite H4, Hm.
  - intros p Hp. by rewrite H5, Hd.
  - intros p Hp. by rewrite H6, Hd.
  - by rewrite H7.
Qed.

(** The rest of a command. *)
Lemma commands_rest pkts : ∀ hws s buf b v got ws lst,
  receiving s buf b v got ws → good_buffer v → Forall2 holds hws (pkts ++ [lst]) →
  Forall (λ p, length p = 64%nat) pkts → (length lst < 64)%nat →
  let data := got ++ concat pkts ++ lst in
  Z.of_nat (length data) <= buf_size v → (4 <= length data)%nat → take 4 data ≠ [255; 255; 255; 255] →
  is_Some (dm_desc (hf_dma s) !! VDESC_get_hw_desc (desc_list b)) →
  ∃ s', commands_in hws s = (recv_buf buf ;; modify (λ s, s <| ro_cmd_is_new := true |>)) s' ∧
    delivered s s' buf b v data ∧ cmdQueue s' = cmdQueue s.
Proof.
  induction pkts as [|p pkts IH]; intros hws s buf b v got ws lst Hr Hv Hh Hpk Hl data Hfit H4 Hne Hdd; cbn [app] in Hh.
  - apply Forall2_cons_inv_r in Hh as (hw & hws' & Hhw & ->%Forall2_nil_inv_r & ->). cbn [commands_in].
    rewrite (bind_ok _ _ _ _ _ (run_modify _ _)). set (s0 := s <| hf_hw := hw |>).
    assert (receiving s0 buf b v got ws) as Hr0 by (by destruct Hr).
    destruct (reg_out_last s0 buf b v got ws lst Hr0 Hv Hl Hhw Hfit H4 Hne Hdd) as (s' & E & Hd & Hc).
    exists s'. split; [|split; [|by rewrite Hc]].
    + unfold mbind, M_bind in *. rewrite E. by destruct (recv_buf buf s') as [[[] ?]|].
    + by apply (delivered_trans s s0).
  - apply Forall2_cons_inv_r in Hh as (hw & hws' & Hhw & Hh & ->). apply Forall_cons in Hpk as [Hp Hpk]. cbn [commands_in].
    rewrite (bind_ok _ _ _ _ _ (run_modify _ _)). set (s0 := s <| hf_hw := hw |>).
    assert (receiving s0 buf b v got ws) as Hr0 by (by destruct Hr).
    assert (data = (got ++ p) ++ concat pkts ++ lst) as Hdata by (unfold data; cbn [concat]; by rewrite !app_assoc).
    rewrite Hdata in *. clear data Hdata. set (data := (got ++ p) ++ concat pkts ++ lst) in *.
    assert (Z.of_nat (length (got ++ p)) <= Z.of_nat (length data)) by (unfold data; rewrite (length_app (got ++ p)); lia).
    destruct (reg_out_full s0 buf b v got ws p Hr0 Hv Hp Hhw) as (s1 & ws1 & E & Hr1 & Hs & Hout); [lia|].
    rewrite (bind_ok _ _ _ _ _ E).
    destruct (IH hws' s1 buf b v (got ++ p) ws1 lst Hr1 Hv Hh Hpk Hl Hfit H4 Hne) as (s' & E' & Hd & Hc); [by rewrite Hs|].
    exists s'. split; [exact E'|]. split; [|by rewrite Hc, Hs].
    apply (delivered_trans s s1); [by rewrite Hs|by rewrite Hs| |done]. intros x Hx. apply Hout. lia.
Qed.

(** C9: a command of at least four bytes that comes in full packets and a short last one, fits
    in its buffer and does not begin with four bytes of ones (which would be the order to
    suspend, [_fw_usbfifo_recv_command], and reboot the target), reaches the layer above once, in a buffer of the command queue, with the bytes the host
    sent, as if it had come in one piece; nothing else in memory changes. *)
Theorem command_delivered hws s buf b v pkts lst :
  ro_cmd_is_new s = true → cmdQueue s = buf → buf ≠ 0 →
  vbufs (dm_nb (hf_dma s)) !! buf = Some b → vdescs (dm_nb (hf_dma s)) !! desc_list b = Some v → good_buffer v →
  is_Some (dm_desc (hf_dma s) !! VDESC_get_hw_desc (desc_list b)) →
  Forall2 holds hws (pkts ++ [lst]) → Forall (λ p, length p = 64%nat) pkts → (length lst < 64)%nat →
  let data := concat pkts ++ lst in
  Z.of_nat (length data) <= buf_size v → (4 <= length data)%nat → take 4 data ≠ [255; 255; 255; 255] →
  ∃ s', commands_in hws s = (recv_buf buf ;; modify (λ s, s <| ro_cmd_is_new := true |>)) s' ∧
    delivered s s' buf b v data ∧ cmdQueue s' = next_buf b.
Proof.
  intros Hn Hq Hb0 Hb Hv Hgv Hdd Hh Hpk Hl data Hfit H4 Hne.
  destruct hws as [|hw hws]; [by apply Forall2_nil_inv_l, app_nil in Hh as []|].
  set (s0 := s <| hf_hw := hw |>).
  destruct (reg_out_first s0 buf b v) as (s1 & E & Hr & Hs1); try done.
  { apply Forall2_cons_inv_l in Hh as (p & r & Hp & _ & Er). change (ep4_bytes (hf_hw s0)) with (ep4_bytes hw). rewrite Hp.
    destruct pkts as [|p' pkts]; injection Er as -> _; [lia|]. apply Forall_inv in Hpk. lia. }
  assert (s1 <| hf_hw := hw |> = s1) as Es1 by (by rewrite Hs1).
  destruct (commands_rest pkts (hw :: hws) s1 buf (b <| next_buf := 0 |>) v [] [] lst Hr Hgv Hh Hpk Hl Hfit H4 Hne)
    as (s' & E' & [D1 D2 D3 D4 D5 D6 D7] & Hc); [by rewrite Hs1|].
  exists s'. split; [|split].
  - cbn [commands_in] in *. rewrite (bind_ok _ _ _ _ _ (run_modify _ _)). fold s0.
    rewrite (bind_ok _ _ _ _ _ (run_modify _ _)) in E'. cbv beta in E'. rewrite Es1 in E'.
    rewrite <-E'. unfold mbind, M_bind. by rewrite E.
  - split; try done.
    + intros x Hx. rewrite D4, Hs1; done.
    + intros p Hp. rewrite D5, Hs1 by done. cbn. by rewrite lookup_insert_ne.
    + intros p Hp. by rewrite D6, Hs1.
    + by rewrite D7, Hs1.
  - by rewrite Hc, Hs1.
Qed.

(** *** Commands that do not fit *)
Lemma ep4_drop_run n s : ∃ hw, ep4_drop n s = Ok (tt, s <| hf_hw := hw |>).
Proof.
  unfold ep4_drop. generalize (seqZ 0 n) as l. intros l. revert s. induction l as [|z l IH]; intros s.
  - exists (hf_hw s). by destruct s.
  - cbn [for_each]. destruct (io_read32 (USB_CTRL_BASE_ADDRESS .| ZM_EP4_DATA_OFFSET) (hf_hw s)) as [w hw] eqn:Er.
    assert (ioread32_usb ZM_EP4_DATA_OFFSET s = Ok (w, s <| hf_hw := hw |>)) as E by (unfold ioread32_usb, hw_rd; by rewrite Er).
    rewrite bind_assoc, (bind_ok _ _ _ _ _ E), (bind_ok _ _ _ _ _ (run_ret _ _)).
    destruct (IH (s <| hf_hw := hw |>)) as [hw' E']. exists hw'. rewrite E'. by destruct s.
Qed.

(** C17: once a command has become longer than its buffer, the packets that follow are dropped,
    those of later commands too, until 65536 bytes have gone: no command reaches the layer
    above, and the buffer is not given back. *)
Theorem overlong_command_blocks pkts : ∀ hws s b v,
  ro_cmd_is_new s = false → ro_buf s ≠ 0 →
  vbufs (dm_nb (hf_dma s)) !! ro_buf s = Some b → vdescs (dm_nb (hf_dma s)) !! desc_list b = Some v →
  Forall2 holds hws pkts → Forall (λ p, (length p <= 64)%nat) pkts →
  0 <= ro_cmd_len s → (∀ p, List.head pkts = Some p → buf_size v < ro_cmd_len s + Z.of_nat (length p)) →
  ro_cmd_len s + Z.of_nat (length (concat pkts)) < 65536 →
  ∃ hw, commands_in hws s = Ok (tt, s <| hf_hw := hw |> <| ro_cmd_len ::= Z.add (Z.of_nat (length (concat pkts))) |>).
Proof.
  induction pkts as [|p pkts IH]; intros hws s b v Hn Hb0 Hb Hv Hh Hp H0 Hover Hmax.
  - apply Forall2_nil_inv_r in Hh as ->. exists (hf_hw s). by destruct s.
  - apply Forall2_cons_inv_r in Hh as (hw & hws' & Hhw & Hh & ->). apply Forall_cons in Hp as [Hp Hps]. cbn [commands_in].
    rewrite (bind_ok _ _ _ _ _ (run_modify _ _)). set (s0 := s <| hf_hw := hw |>).
    specialize (Hover p eq_refl). cbn [concat] in *. rewrite length_app in *.
    pose proof (reg_out_enter s0 p Hn Hb0 Hhw Hp b v Hb Hv) as E. change (ro_cmd_len s0) with (ro_cmd_len s) in E.
    rewrite u16_small in E by lia. replace (buf_size v <? _) with true in E by lia.
    set (s1 := s0 <| ro_cmd_len ::= _ |>) in E. destruct (ep4_drop_run (Z.of_nat (length p)) s1) as [hw1 E1]. rewrite E1 in E.
    rewrite (bind_ok _ _ _ _ _ E). set (s2 := s1 <| hf_hw := hw1 |>).
    assert (ro_cmd_len s2 = ro_cmd_len s + Z.of_nat (length p)) as El by (cbn; apply u16_small; lia).
    destruct (IH hws' s2 b v Hn Hb0 Hb Hv Hh Hps) as [hw2 E2]; [lia| |lia|].
    { intros q Hq. lia. }
    exists hw2. rewrite E2. do 2 f_equal. unfold s2, s1, s0. destruct s. unfold field_upd. cbn in *. f_equal. rewrite u16_small; lia.
Qed.
End commands.
