(* ===== verification/UsbOut.v ===== *)
(** * Endpoint 3: events go out

    Events given to the USB layer queue up. The first of them reaches the host with the bytes
    of its buffer, in full packets and a last one, and comes back to the layer above once; the
    others stay in the queue, in order. *)

From S2P Require Import Prelude.
From S2P Require Import NBuf.
From S2P Require Import NBufProps.
From S2P Require Import Dma.
From S2P Require Import DmaProps.
From S2P Require Import HifPipes.
From S2P Require Import Hif.
From S2P Require Import UsbFifo.
From S2P Require Import UsbProps.

(** ** The words that swapping makes of a buffer's bytes *)
Definition bytes_ok (m : gmap Z Z) : Prop := ∀ x, in_u8 (mem_rd m x).
Definition words_at (m : gmap Z Z) (a : Z) (n : nat) : list Z := map (λ i, mem_rd32 m (a + 4 * Z.of_nat i)) (seq 0 n).

Lemma mem_rd32_range m a : bytes_ok m → in_u32 (mem_rd32 m a).
Proof.
  intros Hm. unfold mem_rd32, in_u32. pose proof (Hm a). pose proof (Hm (a + 1)). pose proof (Hm (a + 2)).
  pose proof (Hm (a + 3)). unfold in_u8 in *. lia.
Qed.
Lemma mem_rd32_bytes m a : bytes_ok m →
  [u8 (mem_rd32 m a .>> 24); u8 (mem_rd32 m a .>> 16); u8 (mem_rd32 m a .>> 8); u8 (mem_rd32 m a)] =
  map (λ i, mem_rd m (a + i)) [0; 1; 2; 3].
Proof.
  intros Hm. cbn [map]. rewrite Z.add_0_r. rewrite !shiftr_u8 by done. unfold mem_rd32.
  pose proof (Hm a). pose proof (Hm (a + 1)). pose proof (Hm (a + 2)). pose proof (Hm (a + 3)). unfold in_u8 in *.
  generalize dependent (mem_rd m a). generalize dependent (mem_rd m (a + 1)). generalize dependent (mem_rd m (a + 2)).
  generalize dependent (mem_rd m (a + 3)). intros d Hd c Hc b Hb x Hx. unfold u8.
  change (2 ^ 24) with 16777216. change (2 ^ 16) with 65536. change (2 ^ 8) with 256.
  f_equal; [|f_equal; [|f_equal; [|f_equal]]]; mlia.
Qed.
Lemma le_bytes_bswap w : in_u32 w → le_bytes (bswap32 w) = [u8 (w .>> 24); u8 (w .>> 16); u8 (w .>> 8); u8 w].
Proof.
  intros Hw. pose proof (bswap32_bytes w Hw) as E. unfold le_bytes in *. injection E as E1 E2 E3 E4. by rewrite E1, E2, E3, E4.
Qed.
Lemma words_at_range m a n : bytes_ok m → Forall in_u32 (words_at m a n).
Proof. intros Hm. apply Forall_map, Forall_forall. intros i _. by apply mem_rd32_range. Qed.
Lemma words_at_words m a n : mem_words m a (words_at m a n).
Proof.
  intros i w. unfold words_at. rewrite list_lookup_fmap_Some. intros (j & -> & [-> _]%lookup_seq). done.
Qed.

(** The words of the swapped buffer, and their bytes: those that were there. *)
Lemma swapped_words m m' a n : bytes_ok m → mem_bytes m' a (bytes_of (words_at m a n)) →
  mem_words m' a (map bswap32 (words_at m a n)).
Proof.
  intros Hm Hb i w. rewrite list_lookup_fmap_Some. intros (w0 & -> & Hw).
  pose proof (words_at_range m a n Hm) as Hr. rewrite Forall_lookup in Hr. specialize (Hr i w0 Hw).
  assert (∀ r x, le_bytes w0 !! r = Some x → mem_rd m' (a + 4 * Z.of_nat i + Z.of_nat r) = x) as Hx.
  { intros r x Hlr. replace (a + 4 * Z.of_nat i + Z.of_nat r) with (a + Z.of_nat (4 * i + r)) by lia. apply Hb.
    rewrite bytes_of_lookup; [by rewrite Hw|]. by apply lookup_lt_Some in Hlr. }
  unfold mem_rd32, bswap32.
  rewrite <-(Hx 0%nat (u8 w0)), <-(Hx 1%nat (u8 (w0 .>> 8))), <-(Hx 2%nat (u8 (w0 .>> 16))), <-(Hx 3%nat (u8 (w0 .>> 24))) by done.
  change (Z.of_nat 0) with 0. change (Z.of_nat 1) with 1. change (Z.of_nat 2) with 2. change (Z.of_nat 3) with 3.
  rewrite Z.add_0_r. lia.
Qed.
Lemma words_at_bytes m a n : bytes_ok m → bytes_of (map bswap32 (words_at m a n)) = mem_read m a (4 * n).
Proof.
  intros Hm. induction n as [|n IH]; [done|]. unfold words_at, mem_read in *. rewrite seq_S, !map_app, bytes_of_app, IH.
  replace (4 * S n)%nat with (4 * n + 4)%nat by lia. rewrite seq_app, map_app. f_equal.
  unfold bytes_of. cbn [map concat]. rewrite app_nil_r, le_bytes_bswap by (by apply mem_rd32_range).
  rewrite mem_rd32_bytes by done. cbn [map seq]. repeat (apply f_equal2; [apply (f_equal (mem_rd m)); lia|]). done.
Qed.
Lemma swapped_bytes m a n data : bytes_ok m → mem_bytes m a data → (length data <= 4 * n)%nat →
  data `prefix_of` bytes_of (map bswap32 (words_at m a n)).
Proof.
  intros Hm Hd%mem_bytes_read Hl. rewrite words_at_bytes by done. rewrite Hd at 1.
  exists (map (λ i, mem_rd m (a + Z.of_nat i)) (seq (length data) (4 * n - length data))).
  unfold mem_read. rewrite <-map_app, <-seq_app. f_equal. f_equal. lia.
Qed.

Section events.
Context {HW C : Type} {IO : UsbIo HW} {HL : UsbFifoLaws HW} {HC : HifClient HW C}.
Implicit Types (s : hif_usb HW C) (ws : list Z).

(** The FIFO of endpoint 3 is empty and takes whole words. *)
Definition ep3_idle (hw : HW) : Prop := ep3_bytes hw = [] ∧ ep3_size hw = 4%nat.

Lemma ep3_word_run s w : mem_rd32 (hf_mem s) (si_regaddr s) = w →
  ep3_word s = Ok (tt, s <| hf_hw ::= io_write32 (USB_CTRL_BASE_ADDRESS .| ZM_EP3_DATA_OFFSET) w |>).
Proof.
  intros Hw. unfold ep3_word. rewrite (bind_ok _ _ _ _ _ (run_get _)). unfold rd32.
  by rewrite (bind_ok _ _ _ _ _ (run_gets _ _)), Hw.
Qed.
Lemma ep3_words_run a ws l : ∀ k s,
  mem_words (hf_mem s) a ws → si_regaddr s = a + 4 * Z.of_nat k → (k + length l <= length ws)%nat →
  0 <= a → a + 4 * Z.of_nat (length ws) < 4294967296 → ep3_size (hf_hw s) = 4%nat →
  ∃ hw, for_each l (λ _ : Z, ep3_word ;; modify (λ s, s <| si_regaddr ::= λ a, u32 (a + 4) |>)) s =
      Ok (tt, s <| hf_hw := hw |> <| si_regaddr := a + 4 * Z.of_nat (k + length l) |>) ∧
    ep3_bytes hw = ep3_bytes (hf_hw s) ++ bytes_of (take (length l) (drop k ws)) ∧ ep3_size hw = 4%nat ∧
    ep3_sent hw = ep3_sent (hf_hw s).
Proof.
  induction l as [|z l IH]; intros k s Hm Hr Hk Ha Hmax Hsz; cbn [length] in *.
  - exists (hf_hw s). rewrite Nat.add_0_r, <-Hr. cbn. rewrite app_nil_r. split; [by destruct s|done].
  - cbn [for_each]. destruct (lookup_lt_is_Some_2 ws k) as [w Hw]; [lia|].
    assert (mem_rd32 (hf_mem s) (si_regaddr s) = w) as Hrd by (rewrite Hr; by apply Hm).
    pose proof (ep3_data w (hf_hw s)) as (D1 & D2 & D3). rewrite Hsz in D1.
    rewrite bind_assoc, (bind_ok _ _ _ _ _ (ep3_word_run _ _ Hrd)), (bind_ok _ _ _ _ _ (run_modify _ _)).
    set (s1 := s <| hf_hw ::= _ |> <| si_regaddr ::= _ |>).
    destruct (IH (S k) s1) as (hw & E & E1 & E2 & E3); [done| |lia|done|done|cbn; congruence|].
    { cbn. rewrite Hr, u32_small by lia. lia. }
    exists hw. rewrite E. split; [do 2 f_equal; destruct s; unfold s1, field_upd; cbn; f_equal; lia|].
    rewrite E1, E2, E3. split; [|split; [done|exact D3]]. change (ep3_bytes (hf_hw s1)) with (ep3_bytes (io_write32 (USB_CTRL_BASE_ADDRESS .| ZM_EP3_DATA_OFFSET) w (hf_hw s))).
    rewrite D1, <-app_assoc. f_equal. rewrite (drop_S _ _ _ Hw). done.
Qed.

Lemma bytes_of_drop k ws : bytes_of (drop k ws) = drop (4 * k) (bytes_of ws).
Proof.
  revert ws. induction k as [|k IH]; intros ws; [done|]. destruct ws as [|w ws]; [by rewrite !drop_nil|].
  cbn [drop]. rewrite IH. replace (4 * S k)%nat with (4 + 4 * k)%nat by lia. done.
Qed.
Lemma bytes_of_take q ws : bytes_of (take q ws) = take (4 * q) (bytes_of ws).
Proof.
  revert ws. induction q as [|q IH]; intros ws; [done|]. destruct ws as [|w ws]; [by rewrite !take_nil|].
  cbn [take]. change (bytes_of (w :: take q ws)) with (le_bytes w ++ bytes_of (take q ws)). rewrite IH.
  replace (4 * S q)%nat with (4 + 4 * q)%nat by lia. done.
Qed.
Lemma bytes_of_some k q r ws w : ws !! (k + q)%nat = Some w → (r <= 4)%nat →
  take (4 * q + r) (drop (4 * k) (bytes_of ws)) = bytes_of (take q (drop k ws)) ++ take r (le_bytes w).
Proof.
  intros Hw Hr. rewrite <-bytes_of_drop, bytes_of_take. rewrite <-(take_drop (4 * q) (bytes_of (drop k ws))) at 1.
  assert (drop q (drop k ws) = w :: drop (S (k + q)) ws) as Hd by (by rewrite drop_drop, (drop_S _ _ _ Hw)).
  assert (length (take (4 * q) (bytes_of (drop k ws))) = 4 * q)%nat as Hl.
  { rewrite length_take, length_bytes_of. apply (f_equal length) in Hd. rewrite !length_drop in *. cbn in Hd. lia. }
  rewrite take_app_ge by lia. rewrite Hl. replace (4 * q + r - 4 * q)%nat with r by lia. f_equal.
  rewrite <-bytes_of_drop, Hd. change (bytes_of (w :: ?l)) with (le_bytes w ++ bytes_of l). apply take_app_le. done.
Qed.

Lemma tst_done v : tst (u8 (v .| 0x08)) 8 = true.
Proof.
  unfold tst. destruct (Z.eqb_spec (u8 (v .| 0x08) .& 8) 0) as [E|]; [|done].
  apply (f_equal (λ x, Z.testbit x 3)) in E. rewrite Z.land_spec in E. change (Z.testbit 8 3) with true in E.
  rewrite andb_true_r in E. unfold u8 in E. change 256 with (2 ^ 8) in E.
  rewrite Z.mod_pow2_bits_low, Z.lor_spec in E by done. change (Z.testbit 8 3) with true in E. by rewrite orb_true_r in E.
Qed.
Lemma xfer_done_run s : ∃ hw, mUSB_EP3_XFER_DONE s = Ok (tt, s <| hf_hw := hw |>) ∧
  ep3_bytes hw = [] ∧ ep3_size hw = ep3_size (hf_hw s) ∧ ep3_sent hw = ep3_sent (hf_hw s) ++ [ep3_bytes (hf_hw s)].
Proof.
  unfold mUSB_EP3_XFER_DONE, ioread8_usb, hw_rd. pose proof (ep3_kept ZM_EP3_BYTE_COUNT_HIGH_OFFSET (hf_hw s) ltac:(by left)) as Hk.
  destruct (io_read8 _ (hf_hw s)) as [v h] eqn:E. destruct Hk as (K1 & K2 & K3). cbn [snd] in *.
  rewrite (bind_ok _ _ _ v (s <| hf_hw := h |>)) by (by rewrite E).
  pose proof (ep3_done (u8 (v .| 0x08)) h (tst_done v)) as (D1 & D2 & D3).
  eexists. split; [reflexivity|]. rewrite <-K1, <-K2, <-K3. split; [exact D1|split; [exact D2|exact D3]].
Qed.

Lemma ep3_packet_run s a ws k n :
  mem_words (hf_mem s) a ws → si_regaddr s = a + 4 * Z.of_nat k → (4 * k + n <= 4 * length ws)%nat →
  0 <= a → a + 4 * Z.of_nat (length ws) < 4294967296 → ep3_idle (hf_hw s) →
  ∃ hw, ep3_packet (Z.of_nat n) s =
      Ok (tt, s <| hf_hw := hw |> <| si_regaddr := a + 4 * Z.of_nat (k + n / 4) |>) ∧ ep3_idle hw ∧
    ep3_sent hw = ep3_sent (hf_hw s) ++ [take n (drop (4 * k) (bytes_of ws))].
Proof.
  intros Hm Hr Hn Ha Hmax [Hb Hsz]. set (q := (n / 4)%nat). set (r := (n mod 4)%nat).
  assert (n = 4 * q + r /\ r < 4)%nat as [Hqr Hr4] by (split; [apply Nat.div_mod_eq|apply Nat.mod_upper_bound; lia]).
  assert (Z.of_nat n .>> 2 = Z.of_nat q) as Eq by (rewrite Z.shiftr_div_pow2 by done; change (2 ^ 2) with 4; clearbody q r; mlia).
  assert (Z.of_nat n mod 4 = Z.of_nat r) as Er by (clearbody q r; mlia).
  destruct (ep3_words_run a ws (seqZ 0 (Z.of_nat q)) k s Hm Hr) as (h1 & E1 & W1 & W2 & W3);
    [rewrite length_seqZ; lia|done|done|done|].
  rewrite length_seqZ, Nat2Z.id in E1, W1. rewrite Hb in W1. cbn [app] in W1.
  unfold ep3_packet. rewrite Eq, (bind_ok _ _ _ _ _ E1). cbv zeta. rewrite Er. set (s1 := s <| hf_hw := h1 |> <| si_regaddr := _ |>).
  destruct (decide (r = 0)%nat) as [Hr0|Hr0].
  - rewrite Hr0. change (Z.of_nat 0 =? 0) with true. cbn [negb when]. rewrite (bind_ok _ _ _ _ _ (run_ret _ _)).
    destruct (xfer_done_run s1) as (h2 & -> & X1 & X2 & X3). exists h2. split; [by destruct s|].
    split; [split; [done|]; etransitivity; [exact X2|exact W2]|]. rewrite X3. change (hf_hw s1) with h1. rewrite W3, W1.
    do 3 f_equal. rewrite <-bytes_of_drop, bytes_of_take. f_equal. lia.
  - rewrite (proj2 (Z.eqb_neq (Z.of_nat r) 0)) by lia. cbn [negb when].
    destruct (lookup_lt_is_Some_2 ws (k + q)) as [w Hw]; [lia|].
    assert (fifo_size_of (Z.of_nat r) = Z.ones (Z.of_nat r)) as ->.
    { unfold fifo_size_of. destruct r as [|[|[|[|r]]]]; [lia|done..|lia]. }
    unfold iowrite32_usb, hw_wr. rewrite !bind_assoc, (bind_ok _ _ _ _ _ (run_modify _ _)). set (s2 := s1 <| hf_hw ::= _ |>).
    pose proof (ep3_mask r h1 ltac:(lia)) as (M1 & M2 & M3).
    assert (mem_rd32 (hf_mem s2) (si_regaddr s2) = w) as Hrd by (by apply Hm).
    rewrite bind_assoc, (bind_ok _ _ _ _ _ (ep3_word_run _ _ Hrd)). set (s3 := s2 <| hf_hw ::= _ |>).
    pose proof (ep3_data w (hf_hw s2)) as (D1 & D2 & D3).
    rewrite (bind_ok _ _ _ _ _ (run_modify _ _)). set (s4 := s3 <| hf_hw ::= _ |>).
    pose proof (ep3_mask 4 (hf_hw s3) ltac:(lia)) as (N1 & N2 & N3).
    destruct (xfer_done_run s4) as (h5 & -> & X1 & X2 & X3). exists h5. split; [by destruct s|].
    split; [split; [done|]; etransitivity; [exact X2|exact N2]|]. rewrite X3.
    assert (ep3_sent (hf_hw s4) = ep3_sent (hf_hw s)) as -> by (etransitivity; [exact N3|]; etransitivity; [exact D3|]; etransitivity; [exact M3|done]).
    do 2 f_equal. assert (ep3_bytes (hf_hw s4) = ep3_bytes (hf_hw s3)) as -> by exact N1.
    assert (ep3_bytes (hf_hw s3) = ep3_bytes (hf_hw s2) ++ take (ep3_size (hf_hw s2)) (le_bytes w)) as -> by exact D1.
    assert (ep3_bytes (hf_hw s2) = ep3_bytes h1) as -> by exact M1. assert (ep3_size (hf_hw s2) = r) as -> by exact M2.
    rewrite W1, Hqr. symmetry. f_equal. apply bytes_of_some; [done|lia].
Qed.

(** *** Part of an event has gone: [n] bytes, from the word [k] on, are left. *)
Record sending s (buf a : Z) (ws : list Z) (k n : nat) : Prop := {
  sd_new : si_cmd_is_new s = false;
  sd_buf : si_evntbuf s = buf;
  sd_buf0 : buf ≠ 0;
  sd_len : si_buf_len s = Z.of_nat n;
  sd_addr : si_regaddr s = a + 4 * Z.of_nat k;
  sd_words : mem_words (hf_mem s) a ws;
  sd_fits : (4 * k + n <= 4 * length ws)%nat;
  sd_range : 0 <= a ∧ a + 4 * Z.of_nat (length ws) < 4294967296;
  sd_idle : ep3_idle (hf_hw s) }.
(** Only what this handler keeps for itself and the chip change. *)
Definition ep3_only s s' : Prop :=
  s' = s <| hf_hw := hf_hw s' |> <| si_regaddr := si_regaddr s' |> <| si_buf_len := si_buf_len s' |>.

Lemma status_in_run s buf a ws k n (more := (64 <? n)%nat) (len := if more then 64%nat else n) :
  sending s buf a ws k n →
  ∃ s', usb_status_in_patch s =
      when (negb more) (send_buf_done buf ;; modify (λ s, s <| si_cmd_is_new := true |>)) s' ∧
    ep3_only s s' ∧ ep3_idle (hf_hw s') ∧ si_regaddr s' = a + 4 * Z.of_nat (k + len / 4) ∧
    si_buf_len s' = Z.of_nat (if more then n - 64 else n) ∧
    ep3_sent (hf_hw s') = ep3_sent (hf_hw s) ++ [take len (drop (4 * k) (bytes_of ws))].
Proof.
  intros [Hn Hb Hb0 Hl Ha Hm Hf [H0 Hmax] Hi].
  set (s1 := if more then s <| si_buf_len ::= λ n, n - USB_EP3_MAX_PKT_SIZE |> else s).
  assert (hf_mem s1 = hf_mem s ∧ hf_hw s1 = hf_hw s ∧ si_regaddr s1 = si_regaddr s ∧ si_evntbuf s1 = buf ∧
    si_buf_len s1 = Z.of_nat (if more then n - 64 else n) ∧
    s1 = s <| si_buf_len := si_buf_len s1 |>) as (Sm & Sh & Sr & Sb & Sl & Ss).
  { unfold s1, more. destruct (Nat.ltb_spec 64 n); [|by destruct s].
    split_and!; try done. cbn. rewrite Hl. unfold USB_EP3_MAX_PKT_SIZE. lia. }
  assert (len <= n)%nat as Hlen by (unfold len, more; destruct (Nat.ltb_spec 64 n); lia).
  destruct (ep3_packet_run s1 a ws k len) as (hw & E & Hi' & Hs); try (rewrite ?Sm, ?Sh, ?Sr; done || lia).
  exists (s1 <| hf_hw := hw |> <| si_regaddr := a + 4 * Z.of_nat (k + len / 4) |>). rewrite Sh in Hs.
  split; [|split; [rewrite Ss; by destruct s|split; [done|split; [done|split; [done|done]]]]].
  unfold usb_status_in_patch. rewrite (bind_ok _ _ _ _ _ (run_get _)), Hn, (bind_ok _ _ _ _ _ (run_ret _ _)). cbn [negb].
  rewrite (bind_ok _ _ _ _ _ (run_get _)). cbv zeta. rewrite Hl.
  replace (USB_EP3_MAX_PKT_SIZE <? Z.of_nat n) with more by (unfold USB_EP3_MAX_PKT_SIZE, more; destruct (Nat.ltb_spec 64 n); lia).
  assert (when more (modify (λ s : hif_usb HW C, s <| si_buf_len ::= λ n, n - USB_EP3_MAX_PKT_SIZE |>)) s = Ok (tt, s1)) as Ew
    by (unfold s1; by destruct more).
  rewrite (bind_ok _ _ _ _ _ Ew).
  replace (if more then USB_EP3_MAX_PKT_SIZE else Z.of_nat n) with (Z.of_nat len) by (unfold len; by destruct more).
  rewrite (bind_ok _ _ _ _ _ E), (bind_ok _ _ _ _ _ (run_get _)).
  match goal with |- context [si_evntbuf ?x] => change (si_evntbuf x) with (si_evntbuf s1) end.
  by rewrite Sb, (proj2 (Z.eqb_neq _ 0) Hb0).
Qed.

(** One interrupt for each packet. *)
Definition events_out (n : nat) : M (hif_usb HW C) unit := for_each (seq 0 n) (λ _, usb_status_in_patch).

Lemma events_rest pkts : ∀ s buf a ws k n lst,
  sending s buf a ws k n → Forall (λ p, length p = 64%nat) pkts → (length lst <= 64)%nat → (lst = [] → pkts = []) →
  take n (drop (4 * k) (bytes_of ws)) = concat pkts ++ lst → n = length (concat pkts ++ lst) →
  ∃ s', events_out (S (length pkts)) s = (send_buf_done buf ;; modify (λ s, s <| si_cmd_is_new := true |>)) s' ∧
    ep3_only s s' ∧ ep3_idle (hf_hw s') ∧ ep3_sent (hf_hw s') = ep3_sent (hf_hw s) ++ pkts ++ [lst].
Proof.
  induction pkts as [|p pkts IH]; intros s buf a ws k n lst Hs Hp Hl Hne Hd Hn.
  - cbn [concat app] in *. destruct (status_in_run s buf a ws k n Hs) as (s' & E & Ho & Hi & _ & _ & Hst).
    replace (64 <? n)%nat with false in * by (symmetry; apply Nat.ltb_ge; lia). cbn [negb when] in E. rewrite Hd in Hst.
    exists s'. split; [|done]. unfold events_out. cbn [seq length for_each].
    unfold mbind, M_bind in *. rewrite E. by destruct (send_buf_done buf s') as [[[] ?]|].
  - apply Forall_cons in Hp as [Hp Hps]. cbn [concat app] in *. rewrite <-app_assoc in Hd, Hn. rewrite length_app, Hp in Hn.
    assert (0 < length (concat pkts ++ lst))%nat as Hpos.
    { rewrite length_app. destruct lst; [by specialize (Hne eq_refl)|cbn; lia]. }
    destruct (status_in_run s buf a ws k n Hs) as (s1 & E & Ho & Hi & Ha & Hb & Hst).
    replace (64 <? n)%nat with true in * by (symmetry; apply Nat.ltb_lt; lia). cbn [negb when] in E.
    change (64 / 4)%nat with 16%nat in Ha.
    assert (take 64 (drop (4 * k) (bytes_of ws)) = p) as Hp64.
    { apply (f_equal (take 64)) in Hd. rewrite take_take, take_app_length' in Hd by done. by replace (64 `min` n)%nat with 64%nat in Hd by lia. }
    rewrite Hp64 in Hst. destruct Hs as [S1 S2 S3 S4 S5 S6 S7 S8 S9].
    destruct (IH s1 buf a ws (k + 16)%nat (n - 64)%nat lst) as (s' & E' & Ho' & Hi' & Hst').
    + split; try done; [by rewrite Ho|by rewrite Ho|by rewrite Ho|lia].
    + done.
    + done.
    + intros ->. by specialize (Hne eq_refl).
    + replace (4 * (k + 16))%nat with (4 * k + 64)%nat by lia. rewrite <-drop_drop.
      apply (f_equal (drop 64)) in Hd. rewrite drop_app_length' in Hd by done. rewrite <-Hd. by rewrite skipn_firstn_comm.
    + lia.
    + exists s'. split; [|split; [|split; [done|]]].
      * change (events_out (S (length (p :: pkts)))) with
          (usb_status_in_patch ;; for_each (seq 1 (S (length pkts))) (λ _ : nat, usb_status_in_patch)).
        rewrite (bind_ok _ _ _ tt s1 E). rewrite <-E'. unfold events_out. apply for_each_const. by rewrite !length_seq.
      * unfold ep3_only in *. rewrite Ho', Ho. by destruct s.
      * rewrite Hst', Hst, <-app_assoc. done.
Qed.

(** *** The queue of events *)

(** An event: its buffer, the address of its data, its bytes; and the words that hold them. *)
Record event := mk_event { ev_buf : Z; ev_addr : Z; ev_data : list Z }.
Definition ev_words (e : event) : nat := Z.to_nat ((Z.of_nat (length (ev_data e)) + 3) / 4).
Definition apart (e e' : event) : Prop :=
  ev_addr e + 4 * Z.of_nat (ev_words e) <= ev_addr e' ∨ ev_addr e' + 4 * Z.of_nat (ev_words e') <= ev_addr e.

(** The buffer is there, with the length of the data. *)
Definition ev_buffer s (e : event) (b : VBUF) (v : VDESC) : Prop :=
  ev_buf e ≠ 0 ∧ vbufs (dm_nb (hf_dma s)) !! ev_buf e = Some b ∧ vdescs (dm_nb (hf_dma s)) !! desc_list b = Some v ∧
  buf_addr v + data_offset v = ev_addr e ∧ buf_length b = Z.of_nat (length (ev_data e)) ∧
  0 <= ev_addr e ∧ ev_addr e + 4 * Z.of_nat (ev_words e) < 4294967296.
(** It waits: its words are in memory the way the FIFO takes them. *)
Definition queued s (e : event) : Prop :=
  ∃ b v ws, ev_buffer s e b v ∧ length ws = ev_words e ∧ mem_words (hf_mem s) (ev_addr e) ws ∧
    ev_data e `prefix_of` bytes_of ws.
(** The events that wait, from the head of the queue to its tail. *)
Record equeue s (evs : list event) : Prop := {
  eq_head : event_head s = default 0 (ev_buf <$> hd_error evs);
  eq_tail : evs = [] ∨ Some (event_tail s) = ev_buf <$> last evs;
  eq_nodup : NoDup (map ev_buf evs);
  eq_next : ∀ i e e', evs !! i = Some e → evs !! S i = Some e' → vnext (dm_nb (hf_dma s)) (ev_buf e) = Some (ev_buf e');
  eq_queued : Forall (queued s) evs }.

Lemma equeue_same s s' evs :
  event_head s' = event_head s → event_tail s' = event_tail s → hf_dma s' = hf_dma s → hf_mem s' = hf_mem s →
  equeue s evs → equeue s' evs.
Proof.
  intros E1 E2 E3 E4 [Q1 Q2 Q3 Q4 Q5]. split; [by rewrite E1|by rewrite E2|done|by rewrite E3|].
  unfold queued, ev_buffer in *. by rewrite E3, E4.
Qed.
Lemma mem_words_kept m m' a ws :
  (∀ x, a <= x < a + 4 * Z.of_nat (length ws) → mem_rd m' x = mem_rd m x) → mem_words m a ws → mem_words m' a ws.
Proof.
  intros Hm Hw i w Hi. rewrite <-(Hw i w Hi). apply lookup_lt_Some in Hi. unfold mem_rd32. by rewrite !Hm by lia.
Qed.
(** A buffer's link is not the business of its event. *)
Lemma queued_kept s s' e :
  queued s e → vdescs (dm_nb (hf_dma s')) = vdescs (dm_nb (hf_dma s)) →
  (∀ b, vbufs (dm_nb (hf_dma s)) !! ev_buf e = Some b → ∃ x, vbufs (dm_nb (hf_dma s')) !! ev_buf e = Some (b <| next_buf := x |>)) →
  (∀ x, ev_addr e <= x < ev_addr e + 4 * Z.of_nat (ev_words e) → mem_rd (hf_mem s') x = mem_rd (hf_mem s) x) →
  queued s' e.
Proof.
  intros (b & v & ws & (H0 & Hb & Hv & Ha & Hl & Hr) & Hw & Hm & Hp) Hd Hx Hmem. destruct (Hx b Hb) as [x Hb'].
  exists (b <| next_buf := x |>), v, ws. split; [|split; [done|split; [|done]]].
  - split; [done|]. split; [done|]. by rewrite Hd.
  - eapply mem_words_kept; [|exact Hm]. by rewrite Hw.
Qed.

(** *** From the buffer to the host *)
Lemma int_enable_run s : ∃ hw, USBFIFO_enable_event_isr s = Ok (tt, s <| hf_hw := hw |>) ∧
  ep3_bytes hw = ep3_bytes (hf_hw s) ∧ ep3_size hw = ep3_size (hf_hw s) ∧ ep3_sent hw = ep3_sent (hf_hw s).
Proof.
  unfold USBFIFO_enable_event_isr, mUSB_STATUS_IN_INT_ENABLE, ioread8_usb, hw_rd.
  pose proof (ep3_kept ZM_INTR_MASK_BYTE_6_OFFSET (hf_hw s) ltac:(by right)) as Hk.
  destruct (io_read8 _ (hf_hw s)) as [v h] eqn:E. destruct Hk as (K1 & K2 & K3). cbn [snd] in *.
  rewrite (bind_ok _ _ _ v (s <| hf_hw := h |>)) by (by rewrite E).
  pose proof (ep3_mask_kept (u8 (v .& 0xbf)) h) as (D1 & D2 & D3).
  eexists. split; [reflexivity|]. rewrite <-K1, <-K2, <-K3. split; [exact D1|split; [exact D2|exact D3]].
Qed.

(** Sending an event swaps its words and puts it behind the others. *)
Lemma send_event_run s evs e b v :
  equeue s evs → ev_buf e ∉ map ev_buf evs → Forall (apart e) evs → ev_buffer s e b v →
  is_Some (dm_desc (hf_dma s) !! VDESC_get_hw_desc (desc_list b)) →
  bytes_ok (hf_mem s) → mem_bytes (hf_mem s) (ev_addr e) (ev_data e) →
  data_size v = Z.of_nat (length (ev_data e)) → Z.of_nat (length (ev_data e)) < 65536 → ep3_idle (hf_hw s) →
  ∃ s', _HIFusb_send_buffer HIF_USB_PIPE_INTERRUPT (ev_buf e) s = Ok (0, s') ∧ equeue s' (evs ++ [e]) ∧
    s' = s <| hf_dma := hf_dma s' |> <| hf_mem := hf_mem s' |> <| hf_hw := hf_hw s' |>
           <| event_head := event_head s' |> <| event_tail := ev_buf e |> ∧
    ep3_idle (hf_hw s') ∧ ep3_sent (hf_hw s') = ep3_sent (hf_hw s).
Proof.
  intros Hq Hnin Hap (H0 & Hb & Hv & Ha & Hbl & Hr0 & Hr1) Hd Hm Hby Hsz Hlt [Hi1 Hi2].
  set (n := ev_words e) in *. set (ws := words_at (hf_mem s) (ev_addr e) n).
  assert (Z.of_nat n = (Z.of_nat (length (ev_data e)) + 3) / 4) as Hn by (unfold n, ev_words; mlia).
  assert (length ws = n) as Hlw by (unfold ws, words_at; by rewrite length_map, length_seq).
  destruct (swap_buf_run s (ev_buf e) b v ws Hb Hv Hd) as (m & dd & E & Hin & Hout & _);
    [rewrite Ha; unfold in_u32; lia|by apply words_at_range|rewrite Ha; apply words_at_words|lia|by rewrite Hlw, Hsz|].
  rewrite Ha in Hin, Hout. rewrite Hlw in Hout.
  set (s1 := s <| hf_dma ::= _ |> <| hf_mem := m |>) in E.
  assert (mem_words m (ev_addr e) (map bswap32 ws)) as Hw by by apply swapped_words.
  assert (ev_data e `prefix_of` bytes_of (map bswap32 ws)) as Hpre by (apply swapped_bytes; [done|done|mlia]).
  (* the links *)
  assert (∃ s2, (if event_head s1 =? 0 then modify (λ s, s <| event_head := ev_buf e |>) ;; modify (λ s, s <| event_tail := ev_buf e |>)
      else hfnb (upd_vbuf (event_tail s1) (λ b, b <| next_buf := ev_buf e |>)) ;; modify (λ s, s <| event_tail := ev_buf e |>)) s1 =
      Ok (tt, s2) ∧ equeue s2 (evs ++ [e]) ∧ hf_hw s2 = hf_hw s ∧
      s2 = s <| hf_dma := hf_dma s2 |> <| hf_mem := m |> <| event_head := event_head s2 |> <| event_tail := ev_buf e |>)
    as (s2 & E2 & Hq2 & Hhw2 & Hs2).
  { destruct Hq as [Hh Ht Hnd Hnx Hqd].
    assert (∀ s', vdescs (dm_nb (hf_dma s')) = vdescs (dm_nb (hf_dma s)) → hf_mem s' = m →
      (∀ x y, vbufs (dm_nb (hf_dma s)) !! x = Some y → ∃ z, vbufs (dm_nb (hf_dma s')) !! x = Some (y <| next_buf := z |>)) →
      Forall (queued s') (evs ++ [e])) as Hall.
    { intros s' Hvd Hm' Hvb. apply Forall_app. split.
      - rewrite Forall_forall in *. intros x Hx. eapply queued_kept; [by apply Hqd|done|by intros; apply Hvb|].
        intros y Hy. rewrite Hm', Hout; [done|]. destruct (Hap x Hx) as [Hxx|Hxx]; fold n in Hxx; lia.
      - constructor; [|constructor]. destruct (Hvb _ _ Hb) as [z Hz]. exists (b <| next_buf := z |>), v, (map bswap32 ws).
        split; [|split; [by rewrite length_map|split; [by rewrite Hm'|done]]].
        split_and!; try done. by rewrite Hvd. }
    change (event_head s1) with (event_head s). change (event_tail s1) with (event_tail s).
    destruct evs as [|e0 evs'] eqn:Eevs; cbn in Hh; rewrite Hh.
    - cbn. eexists. split; [reflexivity|]. split; [|split; [done|by destruct s]]. split.
      + done.
      + by right.
      + apply NoDup_singleton.
      + intros [|i] x y; done.
      + apply Hall; [done..|]. intros x [] Hx. eexists. cbn. exact Hx.
    - rewrite <-Eevs in *. assert (evs ≠ []) as Hne by by rewrite Eevs.
      destruct Ht as [->|Ht]; [done|]. destruct (last evs) as [el|] eqn:El; [|done]. injection Ht as Ht.
      pose proof El as El'. apply last_Some in El' as (ev1 & Ev1).
      assert (el ∈ evs) as Hel by (rewrite Ev1; set_solver).
      pose proof Hqd as Hqd'. rewrite Forall_forall in Hqd'. destruct (Hqd' el Hel) as (bl & _ & _ & (_ & Hbl' & _) & _).
      pose proof Hqd' as Hqd0. destruct (Hqd0 e0 ltac:(rewrite Eevs; set_solver)) as (_ & _ & _ & (Hne0 & _) & _).
      rewrite (proj2 (Z.eqb_neq _ 0) Hne0), Ht.
      assert (vbufs (dm_nb (hf_dma s1)) !! ev_buf el = Some bl) as Hbl1 by done.
      rewrite (bind_ok _ _ _ _ _ (run_hupd_vbuf _ _ _ _ Hbl1)), run_modify. eexists. split; [reflexivity|].
      split; [|split; [done|by destruct s as [[[]]]]].
      assert (∀ x y, vbufs (dm_nb (hf_dma s)) !! x = Some y → ∃ z,
        <[ev_buf el := bl <| next_buf := ev_buf e |>]> (vbufs (dm_nb (hf_dma s))) !! x = Some (y <| next_buf := z |>)) as Hvb.
      { intros x y Hx. destruct (decide (ev_buf el = x)) as [<-|Hne'].
        - rewrite lookup_insert_eq. assert (y = bl) as -> by congruence. by eexists.
        - rewrite lookup_insert_ne by done. exists (next_buf y). by destruct y. }
      split.
      + cbn. rewrite Hh. by rewrite Eevs.
      + right. cbn. by rewrite last_snoc.
      + rewrite map_app, NoDup_app. split; [done|]. split; [|apply NoDup_singleton].
        intros x Hx Hx'. cbn in Hx'. apply list_elem_of_singleton in Hx' as ->. done.
      + intros i x y Hx Hy. unfold vnext. cbn. apply lookup_app_Some in Hy as [Hy|[Hy1 Hy]].
        * rewrite lookup_app_l in Hx by (apply lookup_lt_Some in Hy; lia). rewrite lookup_insert_ne.
          { by apply (Hnx i). }
          intros Exy. assert (i = length ev1) as Hi.
          { eapply (NoDup_lookup (map ev_buf evs)); [done|rewrite list_lookup_fmap, Hx; reflexivity|].
            rewrite list_lookup_fmap, Ev1, lookup_app_r, Nat.sub_diag by lia. cbn. by rewrite Exy. }
          apply lookup_lt_Some in Hy. rewrite Ev1, length_app in Hy. cbn in Hy. lia.
        * assert (S i = length evs) as Hi by (apply lookup_lt_Some in Hy; cbn in Hy; lia).
          rewrite <-Hi, Nat.sub_diag in Hy. injection Hy as <-.
          rewrite lookup_app_l in Hx by lia. rewrite last_lookup, <-Hi in El. cbn in El. assert (x = el) as -> by congruence.
          by rewrite lookup_insert_eq.
      + by apply Hall. }
  destruct (int_enable_run s2) as (hw & E3 & I1 & I2 & I3). rewrite Hhw2 in I1, I2, I3.
  exists (s2 <| hf_hw := hw |>). split; [|split; [by apply (equeue_same s2)|split; [|split; [split; cbn; congruence|done]]]].
  - unfold _HIFusb_send_buffer. change (HIF_USB_PIPE_INTERRUPT =? HIF_USB_PIPE_INTERRUPT) with true. cbv iota.
    unfold send_buffer_via_fifo. rewrite bind_assoc, (bind_ok _ _ _ _ _ E), bind_assoc, (bind_ok _ _ _ _ _ (run_get _)).
    rewrite bind_assoc, (bind_ok _ _ _ _ _ E2). by rewrite (bind_ok _ _ _ _ _ E3).
  - rewrite Hs2. by destruct s.
Qed.

(** The first interrupt takes the head of the queue. *)
Lemma status_in_first s e evs b v :
  si_cmd_is_new s = true → equeue s (e :: evs) → ev_buffer s e b v →
  ∃ s1, usb_status_in_patch s = usb_status_in_patch s1 ∧ equeue s1 evs ∧
    si_cmd_is_new s1 = false ∧ si_evntbuf s1 = ev_buf e ∧ si_regaddr s1 = ev_addr e ∧
    si_buf_len s1 = Z.of_nat (length (ev_data e)) ∧ hf_mem s1 = hf_mem s ∧ hf_hw s1 = hf_hw s ∧
    vnext (dm_nb (hf_dma s1)) (ev_buf e) = Some 0 ∧ hf_up s1 = hf_up s ∧ cmdQueue s1 = cmdQueue s.
Proof.
  intros Hn [Hh Ht Hnd Hnx Hqd] (H0 & Hb & Hv & Ha & Hbl & Hr0 & Hr1).
  destruct Ht as [|Ht]; [done|]. cbn in Hh. cbn [map] in Hnd. apply NoDup_cons in Hnd as [Hnin Hnd].
  apply Forall_cons in Hqd as [_ Hqd].
  set (hd := if event_head s =? event_tail s then 0 else next_buf b). set (tl := if event_head s =? event_tail s then 0 else event_tail s).
  set (s1 := set_vb (ev_buf e) (b <| next_buf := 0 |>) (s <| event_head := hd |> <| event_tail := tl |> <| si_evntbuf := ev_buf e |>
      <| si_regaddr := ev_addr e |> <| si_buf_len := Z.of_nat (length (ev_data e)) |> <| si_cmd_is_new := false |>)).
  exists s1.
  assert (ep3_new s = Ok (true, s1)) as En.
  { unfold ep3_new, usbfifo_get_event_buf. rewrite bind_assoc, (bind_ok _ _ _ _ _ (run_get _)). cbv zeta. rewrite Hh in *.
    set (sq := s <| event_head := hd |> <| event_tail := tl |>).
    assert ((if ev_buf e =? event_tail s then modify (λ s, s <| event_head := 0 |>) ;; modify (λ s, s <| event_tail := 0 |>)
      else b ← hfnb (rd_vbuf (ev_buf e)); modify (λ s, s <| event_head := next_buf b |>)) s = Ok (tt, sq)) as Eq.
    { unfold sq, hd, tl. rewrite Hh. destruct (ev_buf e =? event_tail s); [by destruct s|].
      rewrite (bind_ok _ _ _ _ _ (run_hrd_vbuf _ _ _ Hb)), run_modify. by destruct s. }
    rewrite !bind_assoc, (bind_ok _ _ _ _ _ Eq). rewrite bind_assoc.
    assert (vbufs (dm_nb (hf_dma sq)) !! ev_buf e = Some b) as Hbq by done.
    rewrite (bind_ok _ _ _ _ _ (run_hupd_vbuf _ _ _ _ Hbq)), (bind_ok _ _ _ _ _ (run_ret _ _)), (bind_ok _ _ _ _ _ (run_modify _ _)).
    rewrite (proj2 (Z.eqb_neq _ 0) H0). erewrite bind_ok by (apply run_hrd_vbuf; cbn; apply lookup_insert_eq).
    erewrite bind_ok by (by apply run_hrd_vdesc). rewrite Ha, u32_small by lia.
    do 3 rewrite (bind_ok _ _ _ _ _ (run_modify _ _)). unfold s1. rewrite <-Hbl. by destruct s as [[[]]]. }
  split; [|split; [|do 6 (split; [done|]); split; [unfold vnext; cbn; by rewrite lookup_insert_eq|done]]].
  - unfold usb_status_in_patch. rewrite !(bind_ok _ _ _ _ _ (run_get _)). rewrite Hn, (bind_ok _ _ _ _ _ En).
    change (si_cmd_is_new s1) with false. cbv iota. by rewrite (bind_ok _ _ _ _ _ (run_ret _ _)).
  - assert (∀ x, x ≠ ev_buf e → vbufs (dm_nb (hf_dma s1)) !! x = vbufs (dm_nb (hf_dma s)) !! x) as Hvb
      by (intros x Hx; cbn; by rewrite lookup_insert_ne).
    assert (∀ x, x ∈ evs → ev_buf x ≠ ev_buf e) as Hoth.
    { intros x Hx E. apply Hnin. rewrite <-E. apply list_elem_of_In, in_map, list_elem_of_In, Hx. }
    destruct evs as [|e2 evs2] eqn:Eevs.
    { cbn in Ht. injection Ht as Ht. split; try done; [|by left]. cbn. unfold hd. by rewrite Hh, Ht, Z.eqb_refl. }
    rewrite <-Eevs in *. assert (last (e :: evs) = last evs) as Hlast by (by rewrite Eevs).
    rewrite Hlast in Ht. assert (event_head s =? event_tail s = false) as Hne.
    { apply Z.eqb_neq. rewrite Hh. destruct (last evs) as [el|] eqn:El; [|done]. injection Ht as ->.
      intros E. apply (Hoth el); [|done]. apply last_Some in El as (l & ->). set_solver. }
    split; try done.
    + change (event_head s1) with hd. unfold hd. rewrite Hne.
      pose proof (Hnx 0%nat e e2 eq_refl ltac:(by rewrite Eevs)) as Hx. unfold vnext in Hx. rewrite Hb in Hx. injection Hx as ->.
      by rewrite Eevs.
    + right. change (event_tail s1) with tl. unfold tl. by rewrite Hne.
    + intros i x y Hx Hy. unfold vnext. rewrite Hvb by (apply Hoth; by eapply list_elem_of_lookup_2).
      by apply (Hnx (S i)).
    + rewrite Forall_forall in *. intros x Hx. eapply queued_kept; [by apply Hqd|done| |done].
      intros bx Hbx. exists (next_buf bx). rewrite Hvb by by apply Hoth. rewrite Hbx. by destruct bx.
Qed.

(** The head of the queue reaches the host. *)
Lemma head_delivered s e evs pkts lst :
  si_cmd_is_new s = true → equeue s (e :: evs) → ep3_idle (hf_hw s) → ev_data e = concat pkts ++ lst →
  Forall (λ p, length p = 64%nat) pkts → (length lst <= 64)%nat → (lst = [] → pkts = []) →
  ∃ s', events_out (S (length pkts)) s = (send_buf_done (ev_buf e) ;; modify (λ s, s <| si_cmd_is_new := true |>)) s' ∧
    ep3_sent (hf_hw s') = ep3_sent (hf_hw s) ++ pkts ++ [lst] ∧ ep3_idle (hf_hw s') ∧ equeue s' evs ∧
    vnext (dm_nb (hf_dma s')) (ev_buf e) = Some 0 ∧ hf_up s' = hf_up s ∧ cmdQueue s' = cmdQueue s.
Proof.
  intros Hn Hq Hi Hdat Hp Hl Hne. pose proof (eq_queued _ _ Hq) as Hqd. apply Forall_cons in Hqd as [(b & v & ws & Hbuf & Hlw & Hm & Hpre) _].
  destruct (status_in_first s e evs b v Hn Hq Hbuf) as (s1 & Ef & Hq1 & F1 & F2 & F3 & F4 & F5 & F6 & F7 & F8 & F9).
  destruct Hbuf as (H0 & Hb & Hv & Ha & Hbl & Hr0 & Hr1).
  assert (length (ev_data e) <= 4 * length ws)%nat as Hfit by (apply prefix_length in Hpre; by rewrite length_bytes_of in Hpre).
  assert (sending s1 (ev_buf e) (ev_addr e) ws 0 (length (ev_data e))) as Hs1.
  { split; try done; [lia|by rewrite F5|by rewrite Hlw|by rewrite F6]. }
  destruct (events_rest pkts s1 _ _ ws 0 _ lst Hs1 Hp Hl Hne) as (s' & E' & Ho & Hi' & Hst').
  { change (4 * 0)%nat with 0%nat. rewrite drop_0. destruct Hpre as [k ->]. by rewrite take_app_length. }
  { by rewrite Hdat. }
  exists s'. split; [|split; [by rewrite Hst', F6|split; [done|split; [|split; [|split]]]]].
  - rewrite <-E'. unfold events_out. cbn [seq for_each]. unfold mbind, M_bind. by rewrite Ef.
  - by apply (equeue_same s1); [rewrite Ho..|].
  - by rewrite Ho.
  - by rewrite Ho.
  - by rewrite Ho.
Qed.

(** C10: the interrupt pipe is a queue. An event that is sent while others wait is put behind
    them, its bytes untouched, when its buffer is none of theirs and its words do not overlap
    theirs; and when no event is in the middle of its packets, the next interrupts bring the
    oldest event that waits to the host, with the bytes of its buffer, cut into full packets
    and a last one, one interrupt for each; then its buffer, taken out of the queue, goes back
    to the layer above, once. *)
Theorem event_delivered s evs e b v :
  equeue s evs → ev_buf e ∉ map ev_buf evs → Forall (apart e) evs → ev_buffer s e b v →
  is_Some (dm_desc (hf_dma s) !! VDESC_get_hw_desc (desc_list b)) →
  bytes_ok (hf_mem s) → mem_bytes (hf_mem s) (ev_addr e) (ev_data e) →
  data_size v = Z.of_nat (length (ev_data e)) → Z.of_nat (length (ev_data e)) < 65536 → ep3_idle (hf_hw s) →
  ∃ s1, _HIFusb_send_buffer HIF_USB_PIPE_INTERRUPT (ev_buf e) s = Ok (0, s1) ∧ equeue s1 (evs ++ [e]) ∧
    ep3_sent (hf_hw s1) = ep3_sent (hf_hw s) ∧
    ∀ e1 rest pkts lst, si_cmd_is_new s = true → evs ++ [e] = e1 :: rest → ev_data e1 = concat pkts ++ lst →
      Forall (λ p, length p = 64%nat) pkts → (length lst <= 64)%nat → (lst = [] → pkts = []) →
      ∃ s', events_out (S (length pkts)) s1 = (send_buf_done (ev_buf e1) ;; modify (λ s, s <| si_cmd_is_new := true |>)) s' ∧
        ep3_sent (hf_hw s') = ep3_sent (hf_hw s) ++ pkts ++ [lst] ∧ ep3_idle (hf_hw s') ∧ equeue s' rest ∧
        vnext (dm_nb (hf_dma s')) (ev_buf e1) = Some 0 ∧ hf_up s' = hf_up s ∧ cmdQueue s' = cmdQueue s.
Proof.
  intros Hq Hnin Hap Hbuf Hd Hby Hm Hsz Hlt Hi.
  destruct (send_event_run s evs e b v Hq Hnin Hap Hbuf Hd Hby Hm Hsz Hlt Hi) as (s1 & E & Hq1 & Hs1 & Hi1 & Hst1).
  exists s1. split; [done|]. split; [done|]. split; [done|]. intros e1 rest pkts lst Hn Hev Hdat Hp Hl Hne. rewrite Hev in Hq1.
  destruct (head_delivered s1 e1 rest pkts lst) as (s' & E' & Hst' & Hi' & Hq' & Hv' & Hu & Hc); try done; [by rewrite Hs1|].
  exists s'. split; [done|]. split; [by rewrite Hst', Hst1|]. split; [done|]. split; [done|]. split; [done|].
  rewrite Hu, Hc. by rewrite Hs1.
Qed.
End events.
