(* ===== verification/UsbSample.v ===== *)
(** * A small USB chip

    A chip whose FIFOs are lists, a layer above that notes what it gets, and the concrete
    states the witnesses of the FIFO endpoints evaluate. *)

From S2P Require Import Prelude.
From S2P Require Import NBuf.
From S2P Require Import Dma.
From S2P Require Import DmaSample.
From S2P Require Import HifPipes.
From S2P Require Import Hif.
From S2P Require Import UsbFifo.
From S2P Require Import UsbProps.
From S2P Require Import UsbIn.
From S2P Require Import UsbOut.

Record fifo_chip := mk_fifo_chip { fc_ep4 : list Z; fc_ep3 : list Z; fc_size : nat; fc_sent : list (list Z) }.
Definition le_word (l : list Z) : Z :=
  match l with
  | [] => 0 | [a] => a | [a; b] => a + 256 * b | [a; b; c] => a + 256 * b + 65536 * c
  | a :: b :: c :: d :: _ => a + 256 * b + 65536 * c + 16777216 * d
  end.
#[export] Instance fifo_io : UsbIo fifo_chip := {
  io_read8 a c := (if a =? USB_CTRL_BASE_ADDRESS .| Z.lxor ZM_EP4_BYTE_COUNT_LOW_OFFSET 3 then Z.of_nat (length (fc_ep4 c)) else 0, c);
  io_write8 a v c :=
    if (a =? USB_CTRL_BASE_ADDRESS .| Z.lxor ZM_EP3_BYTE_COUNT_HIGH_OFFSET 3) && tst v 8
    then mk_fifo_chip (fc_ep4 c) [] (fc_size c) (fc_sent c ++ [fc_ep3 c]) else c;
  io_read32 a c :=
    if a =? USB_CTRL_BASE_ADDRESS .| ZM_EP4_DATA_OFFSET
    then (le_word (take 4 (map u8 (fc_ep4 c))), mk_fifo_chip (drop 4 (fc_ep4 c)) (fc_ep3 c) (fc_size c) (fc_sent c)) else (0, c);
  io_write32 a v c :=
    if a =? USB_CTRL_BASE_ADDRESS .| ZM_EP3_DATA_OFFSET
    then mk_fifo_chip (fc_ep4 c) (fc_ep3 c ++ take (fc_size c) (le_bytes v)) (fc_size c) (fc_sent c)
    else if a =? USB_CTRL_BASE_ADDRESS .| ZM_CBUS_FIFO_SIZE_OFFSET
    then mk_fifo_chip (fc_ep4 c) (fc_ep3 c) (if v =? 1 then 1%nat else if v =? 3 then 2%nat else if v =? 7 then 3%nat else 4%nat) (fc_sent c)
    else c;
}.
Lemma le_word_bytes l : (length l <= 4)%nat → in_u32 (le_word (map u8 l)) ∧ map u8 l `prefix_of` le_bytes (le_word (map u8 l)).
Proof.
  intros Hl. assert (∀ a b c d, in_u8 a → in_u8 b → in_u8 c → in_u8 d →
    in_u32 (a + 256 * b + 65536 * c + 16777216 * d) ∧ le_bytes (a + 256 * b + 65536 * c + 16777216 * d) = [a; b; c; d]) as H.
  { intros a b c d Ha Hb Hc Hd. unfold in_u8, in_u32 in *. split; [lia|]. unfold le_bytes. rewrite !shiftr_u8 by done. unfold u8.
    change (2 ^ 24) with 16777216. change (2 ^ 16) with 65536. change (2 ^ 8) with 256.
    f_equal; [|f_equal; [|f_equal; [|f_equal]]]; mlia. }
  assert (∀ x, in_u8 (u8 x)) as Hu by apply u8_range. assert (in_u8 0) as H0 by done.
  destruct l as [|a [|b [|c [|d [|]]]]]; cbn [map le_word length] in *; [..|lia].
  - split; [done|apply prefix_nil].
  - destruct (H (u8 a) 0 0 0) as [H1 H2]; auto. replace (u8 a) with (u8 a + 256 * 0 + 65536 * 0 + 16777216 * 0) at 1 3 by lia.
    rewrite H2. split; [done|]. by exists [0; 0; 0].
  - destruct (H (u8 a) (u8 b) 0 0) as [H1 H2]; auto.
    replace (u8 a + 256 * u8 b) with (u8 a + 256 * u8 b + 65536 * 0 + 16777216 * 0) by lia. rewrite H2. split; [done|]. by exists [0; 0].
  - destruct (H (u8 a) (u8 b) (u8 c) 0) as [H1 H2]; auto.
    replace (u8 a + 256 * u8 b + 65536 * u8 c) with (u8 a + 256 * u8 b + 65536 * u8 c + 16777216 * 0) by lia.
    rewrite H2. split; [done|]. by exists [0].
  - destruct (H (u8 a) (u8 b) (u8 c) (u8 d)) as [H1 H2]; auto. rewrite H2. done.
Qed.
#[export] Instance fifo_laws : UsbFifoLaws fifo_chip.
Proof.
  refine {| ep4_bytes c := map u8 (fc_ep4 c); ep3_bytes := fc_ep3; ep3_size := fc_size; ep3_sent := fc_sent |}.
  - intros c _. cbn. by rewrite length_map.
  - intros c. cbn. rewrite firstn_map, skipn_map. destruct (le_word_bytes (take 4 (fc_ep4 c))); [rewrite length_take; lia|]. done.
  - done.
  - intros n c Hn. by destruct Hn as [->|[->|[->| ->]]].
  - intros v c Hv. cbn. by rewrite Hv.
  - intros a c _. done.
  - intros v c. done.
Defined.
#[export] Instance fifo_client : HifClient fifo_chip (list Z) := {
  recv_buf b := modify (λ s, s <| hf_up ::= λ l, l ++ [b] |>);
  send_buf_done b := modify (λ s, s <| hf_up ::= λ l, l ++ [b] |>);
}.

Definition pkt64 : list Z := map Z.of_nat (seq 1 64).
Definition chip_with (p : list Z) : fifo_chip := mk_fifo_chip p [] 4 [].
(** One buffer for commands; 68 bytes lie in the buffer of the other. *)
Definition usb_sample : hif_usb fifo_chip (list Z) :=
  mk_hif_usb dma_sample (list_to_map (zip (seqZ 14000 68) (pkt64 ++ [250; 251; 252; 253]))) (chip_with [])
    (mk_dq 0 0) (mk_txdq (mk_dq 0 0) 0 0) (mk_dq 0 0) (mk_dq 0 0) 1000 0 0 0 0 0 true 0 0 0 true usb_ctl_init [].

Lemma bytes_ok_map l : forallb (λ p : Z * Z, (0 <=? p.2) && (p.2 <? 256)) l = true → bytes_ok (list_to_map l).
Proof.
  rewrite forallb_forall. intros Hl x. unfold mem_rd. destruct (list_to_map l !! x) as [y|] eqn:Hy; cbn; [|done].
  apply elem_of_list_to_map_2, list_elem_of_In, Hl in Hy. cbn in Hy. unfold in_u8. lia.
Qed.

Lemma command_delivered_witness :
  ∃ s', commands_in [chip_with pkt64; chip_with [7; 8; 9]] usb_sample =
      (recv_buf 1000 ;; modify (λ s, s <| ro_cmd_is_new := true |>)) s' ∧
    delivered usb_sample s' 1000 (mk_VBUF 100 0 120 []) (mk_VDESC 200 10000 1600 4 100 0 []) (concat [pkt64] ++ [7; 8; 9]) ∧
    cmdQueue s' = 0.
Proof.
  apply (command_delivered [chip_with pkt64; chip_with [7; 8; 9]] usb_sample 1000 (mk_VBUF 100 0 120 [])
    (mk_VDESC 200 10000 1600 4 100 0 []) [pkt64] [7; 8; 9]).
  - reflexivity.
  - reflexivity.
  - done.
  - reflexivity.
  - reflexivity.
  - done.
  - some_now.
  - repeat constructor.
  - repeat constructor.
  - cbn. lia.
  - vm_compute. discriminate.
  - vm_compute. lia.
  - discriminate.
Defined.

Lemma overlong_command_blocks_witness :
  let s := usb_sample <| ro_cmd_is_new := false |> <| ro_buf := 1000 |> <| ro_cmd_len := 1590 |> in
  ∃ hw, commands_in [chip_with pkt64; chip_with [7; 8; 9]] s =
    Ok (tt, s <| hf_hw := hw |> <| ro_cmd_len ::= Z.add (Z.of_nat (length (concat [pkt64; [7; 8; 9]]))) |>).
Proof.
  cbv zeta. apply (overlong_command_blocks [pkt64; [7; 8; 9]] [chip_with pkt64; chip_with [7; 8; 9]] _
    (mk_VBUF 100 0 120 []) (mk_VDESC 200 10000 1600 4 100 0 [])).
  - reflexivity.
  - done.
  - reflexivity.
  - reflexivity.
  - repeat constructor.
  - repeat constructor; cbn; lia.
  - done.
  - intros p [= <-]. reflexivity.
  - reflexivity.
Defined.

(** An event of four bytes waits while one of 68 bytes is sent. *)
Definition first_event : event := mk_event 1064 15000 [0; 0; 0; 0].
Definition next_event : event := mk_event 1032 14000 (pkt64 ++ [250; 251; 252; 253]).
Definition event_sample : hif_usb fifo_chip (list Z) :=
  usb_sample <| hf_dma ::= λ d, d <| dm_nb ::= λ n, n <| vbufs ::= λ v, <[1064 := mk_VBUF 340 0 4 []]> (<[1032 := mk_VBUF 300 0 68 []]> v) |>
      <| vdescs ::= λ v, <[340 := mk_VDESC 0 15000 1600 0 4 0 []]> (<[300 := mk_VDESC 0 14000 1600 0 68 0 []]> v) |> |> |>
    <| event_head := 1064 |> <| event_tail := 1064 |>.
Lemma first_event_waits : equeue event_sample [first_event].
Proof.
  split; [done|by right|apply NoDup_singleton|by intros [|i] x y|]. constructor; [|constructor].
  exists (mk_VBUF 340 0 4 []), (mk_VDESC 0 15000 1600 0 4 0 []), (words_at (hf_mem event_sample) 15000 1).
  split; [by vm_compute|split; [done|split; [apply words_at_words|]]]. exists []. by vm_compute.
Qed.
Lemma event_delivered_witness :
  ∃ s1 s', _HIFusb_send_buffer HIF_USB_PIPE_INTERRUPT 1032 event_sample = Ok (0, s1) ∧
    equeue s1 [first_event; next_event] ∧
    events_out 1 s1 = (send_buf_done 1064 ;; modify (λ s, s <| si_cmd_is_new := true |>)) s' ∧
    ep3_sent (hf_hw s') = ep3_sent (hf_hw event_sample) ++ [] ++ [[0; 0; 0; 0]] ∧ equeue s' [next_event].
Proof.
  destruct (event_delivered event_sample [first_event] next_event (mk_VBUF 300 0 68 []) (mk_VDESC 0 14000 1600 0 68 0 []) first_event_waits)
    as (s1 & E & Hq & _ & H).
  - intros [=]%list_elem_of_singleton.
  - constructor; [|constructor]. left. by vm_compute.
  - by vm_compute.
  - some_now.
  - apply bytes_ok_map. reflexivity.
  - apply mem_read_bytes. reflexivity.
  - reflexivity.
  - reflexivity.
  - split; reflexivity.
  - destruct (H first_event [next_event] [] [0; 0; 0; 0]) as (s' & E' & Hs & _ & Hq' & _);
      [reflexivity|reflexivity|reflexivity|constructor|cbn; lia|done|].
    exists s1, s'. exact (conj E (conj Hq (conj E' (conj Hs Hq')))).
Defined.
