(* ===== verification/UsbDescrSample.v ===== *)
(** * A small USB chip for the control endpoint

    A chip whose packet from the host and FIFO are lists, and the concrete request the witness
    of the control endpoint evaluates. *)

From S2P Require Import Prelude.
From S2P Require Import NBuf.
From S2P Require Import Dma.
From S2P Require Import DmaSample.
From S2P Require Import HifPipes.
From S2P Require Import Hif.
From S2P Require Import UsbFifo.
From S2P Require Import UsbProps.
From S2P Require Import UsbSample.
From S2P Require Import UsbEp0.
From S2P Require Import UsbEp0Props.
From S2P Require Import UsbDescr.

Record ep0_chip := mk_ep0_chip { e_view : ep0_view }.
Definition ZM_BASE8 (a : Z) : Z := USB_CTRL_BASE_ADDRESS .| Z.lxor a 3.
#[export] Instance ep0_io : UsbIo ep0_chip := {
  io_read8 a c :=
    (if a =? ZM_BASE8 ZM_CX_CONFIG_STATUS_OFFSET then match ev_fifo (e_view c) with [] => BIT5 | _ => 0 end
     else if a =? ZM_BASE8 ZM_MAIN_CTRL_OFFSET then if ev_hs (e_view c) then BIT6 else 0
     else 0, c);
  io_write8 a v c :=
    if a =? ZM_BASE8 ZM_CX_CONFIG_STATUS_OFFSET then mk_ep0_chip (e_view c <| ev_acts ::= λ l, l ++ [v] |>) else c;
  io_read32 a c :=
    if a =? USB_CTRL_BASE_ADDRESS .| ZM_EP0_DATA_OFFSET
    then (le_word (map u8 (take 4 (ev_rx (e_view c)))), mk_ep0_chip (e_view c <| ev_rx ::= drop 4 |>)) else (0, c);
  io_write32 a v c :=
    if a =? USB_CTRL_BASE_ADDRESS .| ZM_EP0_DATA_OFFSET
    then mk_ep0_chip (e_view c <| ev_fifo ::= λ l, l ++ take (ev_size (e_view c)) (le_bytes v) |>)
    else if a =? USB_CTRL_BASE_ADDRESS .| ZM_CBUS_FIFO_SIZE_OFFSET
    then mk_ep0_chip (e_view c <| ev_size := if v =? 1 then 1%nat else if v =? 3 then 2%nat else if v =? 7 then 3%nat else 4%nat |>)
    else c;
}.
(** The bytes as the host sent them. *)
Definition e_seen (c : ep0_chip) : ep0_view := e_view c <| ev_rx ::= map u8 |>.
#[export] Instance ep0_laws : UsbEp0Laws ep0_chip.
Proof.
  refine {| ep0_of := e_seen;
    ep0_drain c := mk_ep0_chip (e_view c <| ev_host := ev_host (e_view c) ++ [ev_fifo (e_view c)] |> <| ev_fifo := [] |>) |}.
  - done.
  - intros c. cbn. destruct (le_word_bytes (take 4 (ev_rx (e_view c)))) as [H1 H2]; [rewrite length_take; lia|].
    rewrite firstn_map. split_and!; [done|done|]. unfold e_seen, field_upd; cbn. by rewrite skipn_map.
  - done.
  - intros n c Hn. by destruct Hn as [->|[->|[->| ->]]].
  - done.
  - intros c Hc. change (ev_fifo (e_view c) = []) in Hc. cbn. by rewrite Hc.
  - intros c. cbn. by destruct (ev_hs (e_view c)).
  - done.
Defined.
#[export] Instance ep0_place : UsbPlace := {| EEPROM_USB_DESCRIPTOR_ADDR := 0x500000 |}.

(** The host asks for the string of the product, at high speed, just after a reset. *)
Definition string_request : list Z := [0x80; USB_GET_DESCRIPTOR; 0x10; 3; 0; 0; 255; 0].
Definition ep0_sample : hif_usb ep0_chip (list Z) :=
  mk_hif_usb dma_sample ∅ (mk_ep0_chip (mk_ep0_view string_request [] 4 [] [] true))
    (mk_dq 0 0) (mk_txdq (mk_dq 0 0) 0 0) (mk_dq 0 0) (mk_dq 0 0) 1000 0 0 0 0 0 true 0 0 0 true usb_ctl_init [].

Lemma get_descriptor_served_witness :
  let d := halves String10Descriptor in
  ∃ s', (usb_fw_task_ep0 0 BIT0 ;; in_packets 0 (n_packets (take 255 d) - 1) ;; take_packet) ep0_sample = Ok (tt, s') ∧
    ep0_of (hf_hw s') = mk_ep0_view [] [] 4 [1] (packets (take 255 d)) true ∧
    usb_inv true (hf_ctl s') ∧ eUsbCxCommand (hf_ctl s') = CMD_VOID ∧ eUsbCxFinishAction (hf_ctl s') = ACT_IDLE.
Proof.
  apply (get_descriptor_served 0 ep0_sample 0x80 3 0x10 0 0 255 0 string_request [] [] true).
  - reflexivity.
  - reflexivity.
  - repeat apply Forall_cons_2; done.
  - reflexivity.
  - apply usb_inv_init.
  - reflexivity.
  - discriminate.
Defined.
