(* ===== verification/FwdProps.v ===== *)
(** * An image is downloaded

    The messages a host sends for an image, the exchange of one message, what is in memory
    after all of them, and a small image as an example. *)

From S2P Require Import Prelude.
From S2P Require Import NBuf.
From S2P Require Import NBufProps.
From S2P Require Import Dma.
From S2P Require Import HifPipes.
From S2P Require Import Hif.
From S2P Require Import UsbProps.
From S2P Require Import UsbEp0.
From S2P Require Import DmaSample.
From S2P Require Import UsbSample.
From S2P Require Import Fwd.

(** ** Words in memory *)
Fixpoint mem_put (a : Z) (ws : list Z) (m : gmap Z Z) : gmap Z Z :=
  match ws with [] => m | w :: ws => mem_put (a + 4) ws (mem_wr32 a w m) end.
Definition same_but (lo hi : Z) (m m' : gmap Z Z) : Prop := ∀ x, x < lo ∨ hi <= x → mem_rd m' x = mem_rd m x.

Lemma mem_rd32_frame m m' a : (∀ x, a <= x < a + 4 → mem_rd m' x = mem_rd m x) → mem_rd32 m' a = mem_rd32 m a.
Proof. intros H. unfold mem_rd32. rewrite !H by lia. done. Qed.
Lemma mem_words_frame m m' a ws :
  mem_words m a ws → (∀ x, a <= x < a + 4 * Z.of_nat (length ws) → mem_rd m' x = mem_rd m x) → mem_words m' a ws.
Proof.
  intros Hm Hs i w Hw. rewrite <-(Hm i w Hw). apply lookup_lt_Some in Hw. apply mem_rd32_frame. intros x Hx. apply Hs. lia.
Qed.
Lemma mem_words_app m a l l' :
  mem_words m a (l ++ l') ↔ mem_words m a l ∧ mem_words m (a + 4 * Z.of_nat (length l)) l'.
Proof.
  split.
  - intros H. split; intros i w Hw.
    + apply H. by apply lookup_app_l_Some.
    + replace (a + 4 * Z.of_nat (length l) + 4 * Z.of_nat i) with (a + 4 * Z.of_nat (length l + i)) by lia.
      apply H. rewrite lookup_app_r by lia. by replace (length l + i - length l)%nat with i by lia.
  - intros [H1 H2] i w [Hw|[Hl Hw]]%lookup_app_Some; [by apply H1|].
    rewrite <-(H2 _ _ Hw). f_equal. lia.
Qed.
Lemma mem_words_cons m a w l : mem_words m a (w :: l) ↔ mem_rd32 m a = w ∧ mem_words m (a + 4) l.
Proof.
  change (w :: l) with ([w] ++ l). rewrite mem_words_app. cbn [length]. replace (a + 4 * Z.of_nat 1) with (a + 4) by lia.
  split; intros [H1 H2]; (split; [|done]).
  - rewrite <-(H1 0%nat w eq_refl). f_equal. lia.
  - intros i x [-> <-]%list_lookup_singleton_Some. rewrite <-H1. f_equal. lia.
Qed.
Lemma mem_put_out ws : ∀ a m, same_but a (a + 4 * Z.of_nat (length ws)) m (mem_put a ws m).
Proof.
  induction ws as [|w ws IH]; intros a m x Hx; [done|]. cbn [mem_put length] in *. rewrite IH by lia. apply mem_wr32_out. lia.
Qed.
Lemma mem_put_words ws : ∀ a m, Forall in_u32 ws → mem_words (mem_put a ws m) a ws.
Proof.
  induction ws as [|w ws IH]; intros a m Hw; [by intros ? ? ?|]. apply Forall_cons in Hw as [Hw Hws]. cbn [mem_put].
  apply mem_words_cons. split; [|by apply IH].
  rewrite (mem_rd32_frame (mem_wr32 a w m)); [by apply mem_rd32_wr32|]. intros x Hx. apply mem_put_out. lia.
Qed.
(** A word as the host sends it. *)
Lemma host_word m a w : in_u32 w → mem_bytes m a (le_bytes (bswap32 w)) →
  mem_rd32 m a = w ∧ mem_rd16 m a = w / 65536 ∧ mem_rd16 m (a + 2) = w mod 65536.
Proof.
  intros Hw Hm. pose proof (bswap32_bytes w Hw) as E. unfold le_bytes in *. injection E as E1 E2 E3 E4. rewrite E1, E2, E3, E4 in Hm.
  pose proof (Hm 0%nat _ eq_refl) as M0. pose proof (Hm 1%nat _ eq_refl) as M1.
  pose proof (Hm 2%nat _ eq_refl) as M2. pose proof (Hm 3%nat _ eq_refl) as M3.
  replace (a + Z.of_nat 0) with a in M0 by lia. change (Z.of_nat 1) with 1 in M1. change (Z.of_nat 2) with 2 in M2. change (Z.of_nat 3) with 3 in M3.
  unfold mem_rd32, mem_rd16. replace (a + 2 + 1) with (a + 3) by lia. rewrite M0, M1, M2, M3. split; [by apply word_of_bytes|].
  unfold in_u32 in Hw. rewrite !shiftr_u8 by done. unfold u8. change (2 ^ 24) with 16777216. change (2 ^ 16) with 65536. change (2 ^ 8) with 256.
  split; mlia.
Qed.
Lemma host_words m a ws : Forall in_u32 ws → mem_bytes m a (bytes_of (map bswap32 ws)) → mem_words m a ws.
Proof.
  revert a. induction ws as [|w ws IH]; intros a Hw Hm; [by intros ? ? ?|]. apply Forall_cons in Hw as [Hw Hws].
  change (bytes_of (map bswap32 (w :: ws))) with (le_bytes (bswap32 w) ++ bytes_of (map bswap32 ws)) in Hm.
  apply mem_words_cons. split.
  - apply host_word; [done|]. intros i x Hx. apply Hm. by apply lookup_app_l_Some.
  - apply IH; [done|]. intros i x Hx. replace (a + 4 + Z.of_nat i) with (a + Z.of_nat (4 + i)) by lia. apply Hm. exact Hx.
Qed.

(** ** The loops *)
Section loops.
Context {HW : Type} {IO : UsbIo HW}.
Implicit Types s : hif_usb HW fwd_tgt_softc_t.

Lemma checksum_run ws : ∀ fuel i image c s, (length ws <= fuel)%nat → mem_words (hf_mem s) image ws →
  0 <= i → i + 4 * Z.of_nat (length ws) < 2 ^ 32 → 0 <= image → image + 4 * Z.of_nat (length ws) < 2 ^ 32 →
  fwd_checksum fuel i (i + 4 * Z.of_nat (length ws)) image c s = Ok (foldl Z.lxor c ws, s).
Proof.
  induction ws as [|w ws IH]; intros fuel i image c s Hf Hm Hi Hi' Ha Ha'.
  - cbn [length Z.of_nat]. rewrite Z.mul_0_r, Z.add_0_r. destruct fuel; cbn [fwd_checksum]; by rewrite Z.ltb_irrefl.
  - cbn [length] in *. destruct fuel as [|fuel]; [lia|]. cbn [fwd_checksum]. rewrite (proj2 (Z.ltb_lt _ _)) by lia. unfold rd32.
    apply mem_words_cons in Hm as [Hw Hm]. rewrite (bind_ok _ _ _ _ _ (run_gets _ _)), Hw, !u32_small by (unfold in_u32; lia).
    replace (i + 4 * Z.of_nat (S (length ws))) with (i + 4 + 4 * Z.of_nat (length ws)) by lia. by apply IH; try lia.
Qed.

Lemma copy_run ws : ∀ fuel i image daddr s, (length ws <= fuel)%nat → mem_words (hf_mem s) image ws → Forall in_u32 ws →
  0 <= i → i + 4 * Z.of_nat (length ws) < 2 ^ 32 → 0 <= image → image + 4 * Z.of_nat (length ws) < 2 ^ 32 →
  0 <= daddr → daddr + 4 * Z.of_nat (length ws) < 2 ^ 32 →
  image + 4 * Z.of_nat (length ws) <= daddr ∨ daddr + 4 * Z.of_nat (length ws) <= image →
  ∃ m, fwd_copy fuel i (i + 4 * Z.of_nat (length ws)) image daddr s = Ok (image + 4 * Z.of_nat (length ws), s <| hf_mem := m |>) ∧
    mem_words m daddr ws ∧ same_but daddr (daddr + 4 * Z.of_nat (length ws)) (hf_mem s) m.
Proof.
  induction ws as [|w ws IH]; intros fuel i image daddr s Hf Hm Hw Hi Hi' Ha Ha' Hd Hd' Hdis.
  - exists (hf_mem s). cbn [length Z.of_nat]. rewrite Z.mul_0_r, !Z.add_0_r.
    split; [destruct fuel; cbn [fwd_copy]; rewrite Z.ltb_irrefl; by destruct s|]. split; [by intros ? ? ?|done].
  - cbn [length] in *. destruct fuel as [|fuel]; [lia|]. cbn [fwd_copy]. rewrite (proj2 (Z.ltb_lt _ _)) by lia.
    unfold rd32, wr32. apply mem_words_cons in Hm as [Hw0 Hm]. apply Forall_cons in Hw as [Hw Hws].
    rewrite (bind_ok _ _ _ _ _ (run_gets _ _)), Hw0, (bind_ok _ _ _ _ _ (run_modify _ _)), !u32_small by (unfold in_u32; lia).
    set (s1 := s <| hf_mem ::= mem_wr32 daddr w |>).
    destruct (IH fuel (i + 4) (image + 4) (daddr + 4) s1) as (m & E & Hin & Hout); try lia; [|done|].
    { eapply mem_words_frame; [exact Hm|]. intros x Hx. apply mem_wr32_out. lia. }
    exists m. replace (i + 4 * Z.of_nat (S (length ws))) with (i + 4 + 4 * Z.of_nat (length ws)) by lia.
    replace (image + 4 * Z.of_nat (S (length ws))) with (image + 4 + 4 * Z.of_nat (length ws)) by lia.
    split; [rewrite E; by destruct s|]. split.
    + apply mem_words_cons. split; [|done]. rewrite (mem_rd32_frame (mem_wr32 daddr w (hf_mem s))); [by apply mem_rd32_wr32|].
      intros x Hx. apply Hout. lia.
    + intros x Hx. rewrite Hout by lia. apply mem_wr32_out. lia.
Qed.
End loops.

(** ** One message *)
(** What the host sends: whether there is more, the length and the place of the segment; before
    the first one the address of the image, after the last one its checksum and entry point. *)
Definition cmd_words (more : bool) (off addr : Z) (seg tl : list Z) : list Z :=
  [(if more then 65536 else 4) + 4 * Z.of_nat (length seg); off] ++ (if off =? 0 then [addr] else []) ++ seg ++ tl.
Fixpoint download_msgs (addr off : Z) (segs : list (list Z)) (cksum entry : Z) : list (list Z) :=
  match segs with
  | [] => []
  | [seg] => [cmd_words false off addr seg [cksum; entry]]
  | seg :: segs => cmd_words true off addr seg [] :: download_msgs addr (off + 4 * Z.of_nat (length seg)) segs cksum entry
  end.
(** The answers, as bytes. *)
Fixpoint download_answers (off : Z) (segs : list (list Z)) (ok : bool) : list (list Z) :=
  match segs with
  | [] => []
  | [seg] => [bytes_of [if ok then FWD_RSP_SUCCESS else FWD_RSP_FAILED; off]]
  | seg :: segs => bytes_of [FWD_RSP_ACK; off] :: download_answers (off + 4 * Z.of_nat (length seg)) segs ok
  end.

Section exchange.
Context {HW : Type} {IO : UsbIo HW}.
Implicit Types s : hif_usb HW fwd_tgt_softc_t.
Abbreviation HM := (M (hif_usb HW fwd_tgt_softc_t)).

(** A message arrives in the buffer for commands, the firmware takes it, the answer is read out
    of the event's buffer, which is then given back. *)
Definition arrive (buf : Z) (p : list Z) : HM unit :=
  b ← hfnb (rd_vbuf buf);
  hfnb (upd_vdesc (desc_list b) (λ v, v <| data_size := 4 * Z.of_nat (length p) |>)) ;;
  hfnb (upd_vbuf buf (λ b, b <| buf_length := 4 * Z.of_nat (length p) |>)) ;;
  v ← hfnb (rd_vdesc (desc_list b));
  modify (λ s, s <| hf_mem ::= mem_put (buf_addr v + data_offset v) (map bswap32 p) |>).
(** Reading the answer and giving the buffer back. *)
Definition collect (fuel : nat) : HM (list Z) :=
  evt ← usbfifo_get_event_buf;
  b ← hfnb (rd_vbuf evt);
  v ← hfnb (rd_vdesc (desc_list b));
  answer ← gets (λ s, mem_read (hf_mem s) (buf_addr v + data_offset v) (Z.to_nat (data_size v)));
  usbfifo_send_event_done (HifClient0 := fwd_client fuel) evt ;;
  mret answer.
Definition exchange (fuel : nat) (p : list Z) : HM (list Z) :=
  buf ← usbfifo_get_command_buf;
  arrive buf p ;;
  usbfifo_recv_command (HifClient0 := fwd_client fuel) buf ;;
  collect fuel.
Fixpoint exchanges (fuel : nat) (ps : list (list Z)) : HM (list (list Z)) :=
  match ps with [] => mret [] | p :: ps => a ← exchange fuel p; l ← exchanges fuel ps; mret (a :: l) end.

(** Between messages: one buffer for commands, no event. *)
Record fwd_ready (buf D A : Z) s : Prop := {
  fr_q : cmdQueue s = buf; fr_nz : buf ≠ 0; fr_ev : event_head s = 0;
  fr_rx : rx_pipe (hf_up s) = HIF_USB_PIPE_COMMAND; fr_tx : tx_pipe (hf_up s) = HIF_USB_PIPE_INTERRUPT;
  fr_buf : ∃ b, vbufs (dm_nb (hf_dma s)) !! buf = Some b ∧ desc_list b = D ∧ next_buf b = 0;
  fr_desc : ∃ v, vdescs (dm_nb (hf_dma s)) !! D = Some v ∧ next_desc v = 0 ∧ buf_addr v + data_offset v = A;
  fr_hw : is_Some (dm_desc (hf_dma s) !! VDESC_get_hw_desc D) }.

(** *** The steps *)
Lemma send_run s buf b v ws :
  event_head s = 0 → vbufs (dm_nb (hf_dma s)) !! buf = Some b → vdescs (dm_nb (hf_dma s)) !! desc_list b = Some v →
  is_Some (dm_desc (hf_dma s) !! VDESC_get_hw_desc (desc_list b)) → in_u32 (buf_addr v + data_offset v) →
  Forall in_u32 ws → mem_words (hf_mem s) (buf_addr v + data_offset v) ws → data_size v = 4 * Z.of_nat (length ws) → data_size v < 65536 →
  ∃ hw m dd, _HIFusb_send_buffer HIF_USB_PIPE_INTERRUPT buf s =
      Ok (0, s <| hf_dma ::= λ d, d <| dm_desc := dd |> |> <| hf_mem := m |> <| hf_hw := hw |> <| event_head := buf |> <| event_tail := buf |>) ∧
    mem_bytes m (buf_addr v + data_offset v) (bytes_of ws) ∧
    same_but (buf_addr v + data_offset v) (buf_addr v + data_offset v + data_size v) (hf_mem s) m ∧
    is_Some (dd !! VDESC_get_hw_desc (desc_list b)).
Proof.
  intros Hh Hb Hv Hd Ha Hws Hm Hsz Hlt.
  destruct (swap_buf_run s buf b v ws Hb Hv Hd Ha Hws Hm) as (m & dd & E & Hin & Hout & _ & Hdd); [lia|rewrite Hsz; mlia|].
  unfold _HIFusb_send_buffer. change (HIF_USB_PIPE_INTERRUPT =? HIF_USB_PIPE_INTERRUPT) with true. cbv iota.
  unfold send_buffer_via_fifo. rewrite bind_assoc, (bind_ok _ _ _ _ _ E), bind_assoc, (bind_ok _ _ _ _ _ (run_get _)).
  set (s1 := s <| hf_dma ::= _ |> <| hf_mem := m |>). change (event_head s1) with (event_head s). rewrite Hh. change (0 =? 0) with true. cbv iota.
  rewrite !bind_assoc. do 2 rewrite (bind_ok _ _ _ _ _ (run_modify _ _)).
  unfold USBFIFO_enable_event_isr, mUSB_STATUS_IN_INT_ENABLE, ioread8_usb, hw_rd, iowrite8_usb, hw_wr. rewrite bind_assoc.
  set (s2 := s1 <| event_head := buf |> <| event_tail := buf |>).
  destruct (io_read8 (USB_CTRL_BASE_ADDRESS .| Z.lxor ZM_INTR_MASK_BYTE_6_OFFSET 3) (hf_hw s2)) as [x h] eqn:Er.
  rewrite (bind_ok _ _ _ x (s2 <| hf_hw := h |>)) by (by rewrite Er).
  rewrite (bind_ok _ _ _ _ _ (run_modify _ _)). eexists _, m, dd. split; [reflexivity|]. split; [done|]. split; [|done].
  intros x' Hx'. apply Hout. lia.
Qed.

Lemma response_run s buf b v : vbufs (dm_nb (hf_dma s)) !! buf = Some b → vdescs (dm_nb (hf_dma s)) !! desc_list b = Some v →
  next_desc v = 0 → ∃ l, fwd_response buf (data_size v) s =
    Ok (u32 (buf_addr v + data_offset v), set_vd (desc_list b) (v <| data_size := 8 |>) (set_vb buf (b <| buf_length := l |>) s)).
Proof.
  intros Hb Hv Hn. unfold fwd_response. rewrite (bind_ok _ _ _ _ _ (run_hrd_vbuf _ _ _ Hb)), (bind_ok _ _ _ _ _ (run_get _)).
  assert (vdesc_last (size (vdescs (dm_nb (hf_dma s)))) (desc_list b) (dm_nb (hf_dma s)) = Ok (desc_list b, dm_nb (hf_dma s))) as El.
  { destruct (size _) as [|k] eqn:Hs; [by apply map_size_empty_inv in Hs; rewrite Hs in Hv|].
    cbn [vdesc_last]. rewrite (bind_ok _ _ _ _ _ (run_rd_vdesc _ _ _ Hv)), Hn. reflexivity. }
  rewrite (bind_ok _ _ _ (desc_list b) s) by (rewrite (run_hfnb _ _ _ _ El); by destruct s as [[]]).
  rewrite (bind_ok _ _ _ _ _ (run_hupd_vdesc _ _ _ _ Hv)). set (v1 := v <| data_size ::= _ |>).
  rewrite (bind_ok _ _ _ _ _ (run_hupd_vbuf (set_vd (desc_list b) v1 s) buf b _ Hb)). set (s2 := set_vb buf _ _).
  assert (vdescs (dm_nb (hf_dma s2)) !! desc_list b = Some v1) as Hv1 by (cbn; apply lookup_insert_eq).
  rewrite (bind_ok _ _ _ _ _ (run_hrd_vdesc _ _ _ Hv1)). cbv zeta.
  rewrite (bind_ok _ _ _ _ _ (run_hupd_vdesc _ _ _ _ Hv1)). set (s3 := set_vd _ _ s2).
  rewrite (bind_ok _ _ _ _ _ (run_hupd_vbuf s3 buf _ _ (set_vb_at _ _ _))).
  assert (data_size v1 = 0) as Hz by (cbn; by rewrite Z.sub_diag).
  assert (v1 <| data_size ::= λ n, u16 (n + sizeof_fwd_rsp_t) |> = v <| data_size := 8 |>) as E8.
  { unfold field_upd at 1. rewrite Hz. by unfold v1; destruct v. }
  eexists. unfold M_ret, mret. rewrite Hz, Z.add_0_r. do 2 f_equal. unfold s3, s2. rewrite E8.
  unfold set_vd, set_vb. destruct s as [[[]]]. unfold field_upd. cbn. by rewrite !insert_insert_eq.
Qed.
Lemma length_cmd more off addr seg tl :
  Z.of_nat (length (cmd_words more off addr seg tl)) = 2 + (if off =? 0 then 1 else 0) + Z.of_nat (length seg) + Z.of_nat (length tl).
Proof. unfold cmd_words. rewrite !length_app. cbn [length]. destruct (off =? 0); cbn [length]; lia. Qed.
Lemma cmd_ge more off addr seg tl : 2 + Z.of_nat (length seg) + Z.of_nat (length tl) <= Z.of_nat (length (cmd_words more off addr seg tl)).
Proof. rewrite length_cmd. destruct (off =? 0); lia. Qed.

(** *** A message taken *)
Section message.
Context (fuel : nat) (more : bool) (off addr cksum entry : Z) (pre seg : list Z) (s : hif_usb HW fwd_tgt_softc_t) (buf : Z) (b : VBUF) (v : VDESC).
Let tl : list Z := if more then [] else [cksum; entry].
Let p : list Z := cmd_words more off addr seg tl.
Let A : Z := buf_addr v + data_offset v.
Let base : Z := if off =? 0 then addr else fwd_addr (hf_up s).
Let img : Z := A + 8 + (if off =? 0 then 4 else 0) + 4 * Z.of_nat (length seg).
Context (Hb : vbufs (dm_nb (hf_dma s)) !! buf = Some b) (Hv : vdescs (dm_nb (hf_dma s)) !! desc_list b = Some v)
  (Hn : next_desc v = 0) (Hsz : data_size v = 4 * Z.of_nat (length p)) (Hlen : 4 * Z.of_nat (length p) < 65536)
  (Hp32 : Forall in_u32 p) (Hp : mem_bytes (hf_mem s) A (bytes_of (map bswap32 p)))
  (HA : 0 <= A) (HA' : A + 4 * Z.of_nat (length p) < 2 ^ 32) (Hoff : off = 4 * Z.of_nat (length pre))
  (Hpre : mem_words (hf_mem s) base pre) (Hbase : 0 <= base) (Hbase' : base + off + 4 * Z.of_nat (length seg) < 2 ^ 32)
  (Hdis : A + 4 * Z.of_nat (length p) <= base ∨ base + off + 4 * Z.of_nat (length seg) <= A)
  (Hfuel : (length (pre ++ seg) <= fuel)%nat).

Definition after_copy (m : gmap Z Z) (l : Z) : hif_usb HW fwd_tgt_softc_t :=
  set_vd (desc_list b) (v <| data_size := 8 |>) (set_vb buf (b <| buf_length := l |>)
    (s <| hf_up ::= λ f, f <| fwd_addr := base |> |>)) <| hf_mem := m |>.

Lemma recv_copies : ∃ m l, fwd_tgt_recv fuel buf s =
    (if more then wr32 A FWD_RSP_ACK ;; fwd_done buf
     else
       cksum ← rd32 img;
       ok ← fwd_tgt_process_last fuel (off + 4 * Z.of_nat (length seg)) cksum;
       eloc ← rd32 (u32 (img + 4));
       wr32 A (if ok : bool then FWD_RSP_SUCCESS else FWD_RSP_FAILED) ;;
       fwd_done buf ;;
       when ok (upd_fwd (λ f, f <| fwd_jump := Some eloc |>))) (after_copy m l) ∧
  mem_words m base (pre ++ seg) ∧ mem_rd32 m (A + 4) = off ∧ mem_words m img tl ∧
  ∀ x, x < A ∨ A + 4 * Z.of_nat (length p) <= x → x < base + off ∨ base + off + 4 * Z.of_nat (length seg) <= x → mem_rd m x = mem_rd (hf_mem s) x.
Proof.
  pose proof (length_cmd more off addr seg tl : Z.of_nat (length p) = _) as Hl. assert (Z.of_nat (length tl) = if more then 0 else 2) as Htl by (unfold tl; by destruct more).
  assert (mem_words (hf_mem s) A p) as Hw by (by apply host_words).
  set (hd := (if more then 65536 else 4) + 4 * Z.of_nat (length seg)).
  assert (0 <= hd < 131072 ∧ hd / 65536 = (if more then 1 else 0) ∧ hd mod 65536 = 4 * Z.of_nat (length seg) + (if more then 0 else 4)) as (Hhd & Hq & Hr).
  { unfold hd. revert Hl Hlen. destruct more, (off =? 0); intros; split_and!; mlia. }
  destruct (host_word (hf_mem s) A hd) as (_ & R1 & R2); [unfold in_u32; lia|intros i x Hx; apply Hp; by apply (lookup_app_l_Some _ _ i)|].
  rewrite Hq in R1. rewrite Hr in R2. fold p in Hw. unfold p, cmd_words in Hw. cbn [app] in Hw.
  apply mem_words_cons in Hw as [_ Hw]. apply mem_words_cons in Hw as [Ro Hw]. replace (A + 4 + 4) with (A + 8) in Hw by lia.
  apply mem_words_app in Hw as [Ra Hw]. apply mem_words_app in Hw as [Rs Rt].
  set (d := if off =? 0 then 4 else 0). assert (4 * Z.of_nat (length (if off =? 0 then [addr] else [])) = d) as Ed by (unfold d; by destruct (off =? 0)).
  rewrite Ed in Rs, Rt. change (mem_words (hf_mem s) img tl) in Rt.
  set (s1 := s <| hf_up ::= λ f, f <| fwd_addr := base |> |>).
  assert (4 * Z.of_nat (length p) = 8 + d + 4 * Z.of_nat (length seg) + 4 * Z.of_nat (length tl)) as Hl4 by (rewrite Hl; unfold d; destruct (off =? 0); lia).
  assert (0 <= d <= 4) as Hd by (unfold d; destruct (off =? 0); lia).
  assert (Forall in_u32 seg) as Hs32 by (unfold p, cmd_words in Hp32; by rewrite !Forall_app in Hp32; destruct Hp32 as (_ & _ & ? & _)).
  rewrite length_app in Hfuel.
  assert ((if off =? 0 then addr ← rd32 (A + 8); upd_fwd (λ f, f <| fwd_addr := addr |>) ;; mret (u32 (A + 8 + 4)) else mret (A + 8)) s
    = Ok (A + 8 + d, s1)) as E1.
  { unfold s1, d, base. revert Ra. destruct (off =? 0).
    - intros [Ra _]%mem_words_cons. unfold rd32. rewrite (bind_ok _ _ _ _ _ (run_gets _ _)), Ra. unfold upd_fwd.
      rewrite (bind_ok _ _ _ _ _ (run_modify _ _)), u32_small by (unfold in_u32; lia). done.
    - intros _. unfold mret, M_ret. rewrite Z.add_0_r. by destruct s as [? ? ? ? ? ? ? ? ? ? ? ? ? ? ? ? ? ? ? []]. }
  destruct (copy_run seg fuel 0 (A + 8 + d) (base + off) s1) as (m & Ec & Hc & Ho); try lia; try done.
  set (s2 := s1 <| hf_mem := m |>) in Ec. destruct (response_run s2 buf b v Hb Hv Hn) as [l Er].
  set (m2 := mem_wr32 (A + 4) off m). exists m2, l.
  assert (∀ x, A + 8 <= x ∨ x < A + 4 → mem_rd m2 x = mem_rd m x) as Hm2 by (intros x Hx; apply mem_wr32_out; lia).
  assert (in_u32 off) as Hoff32 by (unfold in_u32; lia).
  split; [|split_and!].
  - unfold fwd_tgt_recv. rewrite (bind_ok _ _ _ _ _ (run_hrd_vbuf _ _ _ Hb)), (bind_ok _ _ _ _ _ (run_hrd_vdesc _ _ _ Hv)). cbv zeta.
    fold A. unfold rd32, sizeof_fwd_cmd_t. rewrite (u32_small A), (u32_small (A + 2)), (u32_small (A + 4)), (u32_small (A + 8)) by (unfold in_u32; lia).
    rewrite 3!(bind_ok _ _ _ _ _ (run_gets _ _)), R1, R2, Ro.
    rewrite (bind_ok _ _ _ _ _ E1). unfold fwd_sc. rewrite (bind_ok _ _ _ _ _ (run_gets _ _)). change (fwd_addr (hf_up s1)) with base.
    rewrite (u32_small (base + off)) by (unfold in_u32; lia).
    replace (if (if more then 1 else 0) =? 0 then u32 (4 * Z.of_nat (length seg) + (if more then 0 else 4) - 4) else 4 * Z.of_nat (length seg) + (if more then 0 else 4))
      with (0 + 4 * Z.of_nat (length seg)).
    2:{ destruct more; cbn [Z.eqb]; [lia|]. rewrite u32_small by (unfold in_u32; lia). lia. }
    rewrite (bind_ok _ _ _ _ _ Ec), (bind_ok _ _ _ _ _ Er). fold A. rewrite (u32_small A) by (unfold in_u32; lia).
    rewrite (bind_ok _ _ _ _ _ (run_gets _ _)).
    change (hf_mem (set_vd _ _ _)) with m. rewrite (mem_rd32_frame (hf_mem s) m (A + 4)), Ro by (intros x Hx; apply Ho; lia).
    unfold wr32. rewrite (u32_small (A + 4)) by (unfold in_u32; lia). rewrite (bind_ok _ _ _ _ _ (run_modify _ _)).
    match goal with |- _ ?x = _ => assert (x = after_copy m2 l) as -> by (unfold after_copy, s2, s1, set_vd, set_vb, m2; by destruct s as [[[]]]) end.
    unfold img. fold d. rewrite Z.add_0_l, (u32_small (off + _)) by (unfold in_u32; lia). by destruct more.
  - apply mem_words_app. rewrite <-Hoff. split.
    + eapply mem_words_frame; [exact Hpre|]. intros x Hx. rewrite Hm2 by lia. apply Ho. lia.
    + eapply mem_words_frame; [exact Hc|]. intros x Hx. apply Hm2. lia.
  - by apply mem_rd32_wr32.
  - eapply mem_words_frame; [exact Rt|]. intros x Hx. revert Hx. unfold img. fold d. intros Hx. rewrite Hm2 by lia. apply Ho. lia.
  - intros x Hx Hx'. rewrite Hm2 by lia. apply Ho. lia.
Qed.

Context (Hev : event_head s = 0) (Htx : tx_pipe (hf_up s) = HIF_USB_PIPE_INTERRUPT)
  (Hhw : is_Some (dm_desc (hf_dma s) !! VDESC_get_hw_desc (desc_list b))).
Let ok : bool := foldl Z.lxor 0 (pre ++ seg) =? cksum.
Definition answer_code : Z := if more then FWD_RSP_ACK else if foldl Z.lxor 0 (pre ++ seg) =? cksum then FWD_RSP_SUCCESS else FWD_RSP_FAILED.
Definition jump_after : option Z :=
  if more then fwd_jump (hf_up s) else if foldl Z.lxor 0 (pre ++ seg) =? cksum then Some entry else fwd_jump (hf_up s).
Definition answered (m : gmap Z Z) (l : Z) (hw : HW) (dd : gmap Z zsDmaDesc) : hif_usb HW fwd_tgt_softc_t :=
  after_copy m l <| hf_dma ::= λ d, d <| dm_desc := dd |> |> <| hf_hw := hw |> <| event_head := buf |> <| event_tail := buf |>.

Lemma done_run m l rsp : in_u32 rsp → mem_rd32 m (A + 4) = off →
  ∃ m' hw dd, (wr32 A rsp ;; fwd_done buf) (after_copy m l) = Ok (tt, answered m' l hw dd) ∧
    mem_bytes m' A (bytes_of [rsp; off]) ∧ same_but A (A + 8) m m' ∧ is_Some (dd !! VDESC_get_hw_desc (desc_list b)).
Proof.
  intros Hr Ho. pose proof (cmd_ge more off addr seg tl : _ <= Z.of_nat (length p)) as Hl. unfold wr32. rewrite (bind_ok _ _ _ _ _ (run_modify _ _)).
  set (m1 := mem_wr32 A rsp m). set (s1 := after_copy m1 l).
  match goal with |- ∃ _ _ _, fwd_done _ ?x = _ ∧ _ => assert (x = s1) as -> by reflexivity end.
  destruct (send_run s1 buf (b <| buf_length := l |>) (v <| data_size := 8 |>) [rsp; off]) as (hw & m' & dd & E & Hm & Hs & Hd).
  - exact Hev.
  - cbn. apply lookup_insert_eq.
  - cbn. apply lookup_insert_eq.
  - exact Hhw.
  - change (in_u32 A). unfold in_u32. lia.
  - repeat apply Forall_cons_2; [done|unfold in_u32; lia|done].
  - change (mem_words m1 A [rsp; off]). apply mem_words_cons. split; [by apply mem_rd32_wr32|]. apply mem_words_cons. split; [|by intros ? ? ?].
    etransitivity; [|exact Ho]. apply mem_rd32_out. lia.
  - done.
  - done.
  - exists m', hw, dd. split; [|split; [exact Hm|split; [|exact Hd]]].
    + unfold fwd_done, fwd_sc. rewrite (bind_ok _ _ _ _ _ (run_gets _ _)). change (tx_pipe (hf_up s1)) with (tx_pipe (hf_up s)). rewrite Htx.
      rewrite (bind_ok _ _ _ _ _ E). reflexivity.
    + intros x Hx. change (same_but A (A + 8) m1 m') in Hs. rewrite Hs by done. apply mem_wr32_out. lia.
Qed.

Lemma recv_run : ∃ m l hw dd, fwd_tgt_recv fuel buf s = Ok (tt, answered m l hw dd <| hf_up ::= λ f, f <| fwd_jump := jump_after |> |>) ∧
  mem_bytes m A (bytes_of [answer_code; off]) ∧ mem_words m base (pre ++ seg) ∧ is_Some (dd !! VDESC_get_hw_desc (desc_list b)) ∧
  ∀ x, x < A ∨ A + 4 * Z.of_nat (length p) <= x → x < base + off ∨ base + off + 4 * Z.of_nat (length seg) <= x → mem_rd m x = mem_rd (hf_mem s) x.
Proof.
  destruct recv_copies as (m & l & E & Hw & Ho & Ht & Hout). pose proof (cmd_ge more off addr seg tl : _ <= Z.of_nat (length p)) as Hl.
  assert (in_u32 answer_code) as Hc by (unfold answer_code; destruct more; [done|by destruct (foldl Z.lxor 0 (pre ++ seg) =? cksum)]).
  destruct (done_run m l answer_code Hc Ho) as (m' & hw & dd & Ed & Hb' & Hs & Hdd).
  exists m', l, hw, dd. split; [|split; [exact Hb'|split; [|split; [exact Hdd|]]]].
  - rewrite E. revert Ed Ht. unfold answer_code, jump_after, tl. destruct more.
    + intros Ed _. rewrite Ed. reflexivity.
    + intros Ed Ht. apply mem_words_cons in Ht as [T1 Ht]. apply mem_words_cons in Ht as [T2 _].
      unfold rd32. rewrite (bind_ok _ _ _ _ _ (run_gets _ _)). change (hf_mem (after_copy m l)) with m. rewrite T1.
      unfold fwd_tgt_process_last, fwd_sc. rewrite bind_assoc, (bind_ok _ _ _ _ _ (run_gets _ _)). change (fwd_addr (hf_up (after_copy m l))) with base.
      replace (off + 4 * Z.of_nat (length seg)) with (0 + 4 * Z.of_nat (length (pre ++ seg))) by (rewrite length_app; lia).
      rewrite bind_assoc. erewrite bind_ok by (apply checksum_run; [exact Hfuel|exact Hw|rewrite ?length_app; lia..]).
      rewrite (bind_ok _ _ _ _ _ (run_ret _ _)), (bind_ok _ _ _ _ _ (run_gets _ _)). change (hf_mem (after_copy m l)) with m.
      rewrite u32_small, T2. 2:{ assert (img + 8 = A + 4 * Z.of_nat (length p)) as Ei; [|unfold in_u32, img; lia]. unfold p. rewrite length_cmd. unfold img, tl. clear. destruct (off =? 0); cbn; lia. }
      rewrite <-bind_assoc. rewrite (bind_ok _ _ _ _ _ Ed). destruct (foldl Z.lxor 0 (pre ++ seg) =? cksum); reflexivity.
  - eapply mem_words_frame; [exact Hw|]. intros x Hx. rewrite length_app in Hx. apply Hs. lia.
  - intros x Hx Hx'. rewrite Hs by lia. by apply Hout.
Qed.
End message.

(** The buffer with a message in it, and the one with an answer. *)
Record held (buf D A n : Z) s : Prop := {
  hd_q : cmdQueue s = 0; hd_rx : rx_pipe (hf_up s) = HIF_USB_PIPE_COMMAND; hd_tx : tx_pipe (hf_up s) = HIF_USB_PIPE_INTERRUPT;
  hd_buf : ∃ b, vbufs (dm_nb (hf_dma s)) !! buf = Some b ∧ desc_list b = D;
  hd_desc : ∃ v, vdescs (dm_nb (hf_dma s)) !! D = Some v ∧ next_desc v = 0 ∧ buf_addr v + data_offset v = A ∧ data_size v = n;
  hd_hw : is_Some (dm_desc (hf_dma s) !! VDESC_get_hw_desc D) }.

Lemma take_run buf D A p s : fwd_ready buf D A s → 4 * Z.of_nat (length p) < 65536 → 0 <= A → A + 4 * Z.of_nat (length p) < 2 ^ 32 →
  ∃ s', (buf ← usbfifo_get_command_buf; arrive buf p ;; swap_buf buf ;; mret buf) s = Ok (buf, s') ∧
    held buf D A (4 * Z.of_nat (length p)) s' ∧ event_head s' = 0 ∧ hf_up s' = hf_up s ∧
    mem_bytes (hf_mem s') A (bytes_of (map bswap32 p)) ∧ same_but A (A + 4 * Z.of_nat (length p)) (hf_mem s) (hf_mem s').
Proof.
  intros [Q1 Q2 Q3 Q4 Q5 (b & Q6 & Q7 & Q8) (v & Q9 & Q10 & Q11) Q12] Hlen HA HA'. subst D.
  set (b1 := b <| next_buf := 0 |>). set (s0 := s <| cmdQueue := 0 |>). set (s1 := set_vb buf b1 s0).
  set (v1 := v <| data_size := 4 * Z.of_nat (length p) |>). set (b2 := b1 <| buf_length := 4 * Z.of_nat (length p) |>).
  set (s2 := set_vb buf b2 (set_vd (desc_list b) v1 s1)). set (s3 := s2 <| hf_mem ::= mem_put A (map bswap32 p) |>).
  assert (usbfifo_get_command_buf s = Ok (buf, s1)) as E1.
  { unfold usbfifo_get_command_buf. rewrite (bind_ok _ _ _ _ _ (run_get _)), Q1, (bind_ok _ _ _ _ _ (run_hrd_vbuf _ _ _ Q6)), Q8.
    rewrite (bind_ok _ _ _ _ _ (run_modify _ _)). fold s0. by rewrite (bind_ok _ _ _ _ _ (run_hupd_vbuf s0 buf b _ Q6)). }
  assert (vbufs (dm_nb (hf_dma s1)) !! buf = Some b1) as B1 by apply set_vb_at.
  assert (arrive buf p s1 = Ok (tt, s3)) as E2.
  { unfold arrive. rewrite (bind_ok _ _ _ _ _ (run_hrd_vbuf _ _ _ B1)). change (desc_list b1) with (desc_list b).
    rewrite (bind_ok _ _ _ _ _ (run_hupd_vdesc s1 (desc_list b) v _ Q9)). fold v1.
    rewrite (bind_ok _ _ _ _ _ (run_hupd_vbuf (set_vd (desc_list b) v1 s1) buf b1 _ B1)). fold b2 s2.
    rewrite (bind_ok _ _ _ _ _ (run_hrd_vdesc s2 (desc_list b) v1 (set_vd_at _ _ s1))). change (buf_addr v1 + data_offset v1) with (buf_addr v + data_offset v).
    by rewrite Q11. }
  assert (vbufs (dm_nb (hf_dma s3)) !! buf = Some b2) as B3 by apply set_vb_at.
  assert (vdescs (dm_nb (hf_dma s3)) !! desc_list b2 = Some v1) as V3 by apply (set_vd_at _ _ s1).
  assert (buf_addr v1 + data_offset v1 = A) as EA by exact Q11.
  destruct (swap_buf_run s3 buf b2 v1 (map bswap32 p) B3 V3 Q12) as (m & dd & E3 & Hin & Hout & _ & Hdd).
  { rewrite EA. unfold in_u32. lia. }
  { apply Forall_map, Forall_forall. intros x _. apply bswap32_range. }
  { rewrite EA. apply mem_put_words, Forall_map, Forall_forall. intros x _. apply bswap32_range. }
  { change (data_size v1) with (4 * Z.of_nat (length p)). lia. }
  { change (data_size v1) with (4 * Z.of_nat (length p)). rewrite length_map. mlia. }
  rewrite EA in Hin, Hout. rewrite length_map in Hout.
  match type of E3 with _ = Ok (tt, ?x) => set (s4 := x) in E3 end. exists s4.
  split; [by rewrite (bind_ok _ _ _ _ _ E1), (bind_ok _ _ _ _ _ E2), (bind_ok _ _ _ _ _ E3)|]. split.
  - split; try done; [by exists b2|by exists v1].
  - split; [done|]. split; [done|]. split; [exact Hin|]. intros x Hx. change (mem_rd m x = mem_rd (hf_mem s) x).
    rewrite Hout by done. apply mem_put_out. by rewrite length_map.
Qed.

Lemma collect_run fuel buf D A n s : held buf D A n s → buf ≠ 0 → event_head s = buf → event_tail s = buf →
  ∃ s', collect fuel s = Ok (mem_read (hf_mem s) A (Z.to_nat n), s') ∧ fwd_ready buf D A s' ∧ hf_up s' = hf_up s ∧ hf_mem s' = hf_mem s.
Proof.
  intros [Q1 Q2 Q3 (b & B & Hb) (v & V & Hv & HA & Hn) Hd] Hz Eh Et. subst D A n.
  set (s0 := s <| event_head := 0 |> <| event_tail := 0 |>). set (b1 := b <| next_buf := 0 |>). set (s1 := set_vb buf b1 s0).
  assert (usbfifo_get_event_buf s = Ok (buf, s1)) as E1.
  { unfold usbfifo_get_event_buf. rewrite (bind_ok _ _ _ _ _ (run_get _)). cbv zeta. rewrite Eh, Et.
    rewrite Z.eqb_refl, bind_assoc, (bind_ok _ _ _ _ _ (run_modify _ _)), (bind_ok _ _ _ _ _ (run_modify _ _)).
    fold s0. by rewrite (bind_ok _ _ _ _ _ (run_hupd_vbuf s0 buf b _ B)). }
  exists (s1 <| cmdQueue := buf |>). split; [|split; [split; try done|done]].
  - unfold collect. rewrite (bind_ok _ _ _ _ _ E1), (bind_ok _ _ _ _ _ (run_hrd_vbuf s1 buf _ (set_vb_at _ _ _))).
    change (desc_list b1) with (desc_list b). rewrite (bind_ok _ _ _ _ _ (run_hrd_vdesc s1 (desc_list b) v V)), (bind_ok _ _ _ _ _ (run_gets _ _)).
    unfold usbfifo_send_event_done. change (send_buf_done buf) with (fwd_retbuf_handler buf). unfold fwd_retbuf_handler, fwd_sc.
    rewrite bind_assoc, (bind_ok _ _ _ _ _ (run_gets _ _)). change (rx_pipe (hf_up s1)) with (rx_pipe (hf_up s)). rewrite Q2.
    change (_HIFusb_return_recv_buf HIF_USB_PIPE_COMMAND buf) with (add_command_buf (HW := HW) (C := fwd_tgt_softc_t) buf).
    unfold add_command_buf. rewrite bind_assoc, (bind_ok _ _ _ _ _ (run_get _)). change (cmdQueue s1) with (cmdQueue s). rewrite Q1. reflexivity.
  - exists b1. split; [apply set_vb_at|done].
  - by exists v.
Qed.

Lemma exchange_steps fuel p s : exchange fuel p s =
  ((buf ← usbfifo_get_command_buf; arrive buf p ;; swap_buf buf ;; mret buf) ≫= λ buf, fwd_tgt_recv fuel buf ;; collect fuel) s.
Proof.
  unfold exchange, usbfifo_recv_command. rewrite !bind_assoc. unfold mbind, M_bind. destruct (usbfifo_get_command_buf s) as [[buf s1]|]; [|done].
  destruct (arrive buf p s1) as [[[] s2]|]; [|done]. by destruct (swap_buf buf s2) as [[[] s3]|].
Qed.

Lemma exchange_run fuel more off addr cksum entry pre seg buf D A s :
  let p := cmd_words more off addr seg (if more then [] else [cksum; entry]) in
  let base := if off =? 0 then addr else fwd_addr (hf_up s) in
  fwd_ready buf D A s → Forall in_u32 p → 4 * Z.of_nat (length p) < 65536 → 0 <= A → A + 4 * Z.of_nat (length p) < 2 ^ 32 →
  off = 4 * Z.of_nat (length pre) → mem_words (hf_mem s) base pre → 0 <= base → base + off + 4 * Z.of_nat (length seg) < 2 ^ 32 →
  A + 4 * Z.of_nat (length p) <= base ∨ base + off + 4 * Z.of_nat (length seg) <= A → (length (pre ++ seg) <= fuel)%nat →
  ∃ s', exchange fuel p s = Ok (bytes_of [answer_code more cksum pre seg; off], s') ∧ fwd_ready buf D A s' ∧
    fwd_addr (hf_up s') = base ∧ fwd_jump (hf_up s') = jump_after more cksum entry pre seg s ∧ mem_words (hf_mem s') base (pre ++ seg) ∧
    ∀ x, x < A ∨ A + 4 * Z.of_nat (length p) <= x → x < base + off ∨ base + off + 4 * Z.of_nat (length seg) <= x → mem_rd (hf_mem s') x = mem_rd (hf_mem s) x.
Proof.
  intros p base Hr Hp Hlen HA HA' Hoff Hpre Hb0 Hb1 Hdis Hfuel.
  pose proof (cmd_ge more off addr seg (if more then [] else [cksum; entry]) : _ <= Z.of_nat (length p)) as Hge.
  rewrite exchange_steps. pose proof (fr_nz _ _ _ _ Hr) as Hz.
  destruct (take_run buf D A p s Hr Hlen HA HA') as (s4 & E4 & [Q1 Q2 Q3 (b & B & Hb) (v & V & Hv & EA & Hn) Hd] & Ev & Hup & Hin & Hm). subst D A.
  destruct (recv_run fuel more off addr cksum entry pre seg s4 buf b v) as (m' & l & hw & dd' & E5 & Ha & Hw & Hd' & Hfr); rewrite ?Hup; try done.
  { eapply mem_words_frame; [exact Hpre|]. intros x Hx. apply Hm. fold base in Hx. lia. }
  { by rewrite <-Hup. }
  rewrite (bind_ok _ _ _ _ _ E4), (bind_ok _ _ _ _ _ E5). match type of E5 with _ = Ok (tt, ?x) => set (s5 := x) in * end.
  destruct (collect_run fuel buf (desc_list b) (buf_addr v + data_offset v) 8 s5) as (s' & E6 & Hr' & Hu & Hme); try done.
  { split; try done; [exists (b <| buf_length := l |>)|exists (v <| data_size := 8 |>)]; (split; [cbn; apply lookup_insert_eq|done]). }
  exists s'. rewrite E6, Hu, Hme. unfold base, jump_after. rewrite <-Hup.
  split; [|split; [exact Hr'|split; [done|split; [done|split; [exact Hw|]]]]].
  - apply mem_bytes_read in Ha. do 2 f_equal. symmetry. exact Ha.
  - intros x Hx Hx'. change (mem_rd m' x = mem_rd (hf_mem s) x). rewrite Hfr by done. by apply Hm.
Qed.
(** *** All of them *)
Section download.
Context (fuel : nat) (buf D A addr cksum entry : Z) (room : nat).
Context (HA : 0 <= A) (HA' : A + 4 * Z.of_nat room < 2 ^ 32) (Hroom : 4 * Z.of_nat room < 65536)
  (Haddr : 0 <= addr) (Hck : in_u32 cksum) (Hentry : in_u32 entry).
(** An image of [n] words that is not in the way of the buffer. *)
Definition fits (n : nat) : Prop :=
  addr + 4 * Z.of_nat n < 2 ^ 32 ∧ (A + 4 * Z.of_nat room <= addr ∨ addr + 4 * Z.of_nat n <= A) ∧ (n <= fuel)%nat.
Definition segment (seg : list Z) : Prop := (length seg + 5 <= room)%nat ∧ Forall in_u32 seg.
Definition untouched (n : nat) (m m' : gmap Z Z) : Prop :=
  ∀ x, x < A ∨ A + 4 * Z.of_nat room <= x → x < addr ∨ addr + 4 * Z.of_nat n <= x → mem_rd m' x = mem_rd m x.

Lemma one_message more pre seg n s : fwd_ready buf D A s → segment seg → fits n → (length (pre ++ seg) <= n)%nat →
  mem_words (hf_mem s) addr pre → pre = [] ∨ fwd_addr (hf_up s) = addr →
  ∃ s', exchange fuel (cmd_words more (4 * Z.of_nat (length pre)) addr seg (if more then [] else [cksum; entry])) s =
      Ok (bytes_of [answer_code more cksum pre seg; 4 * Z.of_nat (length pre)], s') ∧
    fwd_ready buf D A s' ∧ fwd_addr (hf_up s') = addr ∧ fwd_jump (hf_up s') = jump_after more cksum entry pre seg s ∧
    mem_words (hf_mem s') addr (pre ++ seg) ∧ untouched n (hf_mem s) (hf_mem s').
Proof.
  intros Hr [Hs1 Hs2] (F1 & F2 & F3) Hn Hpre Hbase. rewrite length_app in Hn.
  set (off := 4 * Z.of_nat (length pre)).
  assert ((if off =? 0 then addr else fwd_addr (hf_up s)) = addr) as Eb.
  { destruct Hbase as [->|Hb]; [done|]. rewrite Hb. by destruct (off =? 0). }
  pose proof (length_cmd more off addr seg (if more then [] else [cksum; entry])) as Hl.
  assert (Z.of_nat (length (if more then [] else [cksum; entry])) <= 2) as Ht by (by destruct more).
  assert ((if off =? 0 then 1 else 0) <= 1) as Ho by (by destruct (off =? 0)).
  destruct (exchange_run fuel more off addr cksum entry pre seg buf D A s) as (s' & E & R1 & R2 & R3 & R4 & R5); rewrite ?Eb in *; try done; try lia.
  - unfold cmd_words. rewrite !Forall_app. split_and!; [|by destruct (off =? 0); repeat constructor; unfold in_u32; lia|done|destruct more; by repeat apply Forall_cons_2].
    repeat apply Forall_cons_2; [unfold in_u32; destruct more; lia|unfold in_u32; lia|done].
  - rewrite length_app. lia.
  - exists s'. split_and!; try done. intros x Hx Hx'. apply R5; lia.
Qed.

Lemma all_messages segs : ∀ pre n s, fwd_ready buf D A s → segs ≠ [] → Forall segment segs → fits n → (length (pre ++ concat segs) <= n)%nat →
  mem_words (hf_mem s) addr pre → pre = [] ∨ fwd_addr (hf_up s) = addr →
  let ok := foldl Z.lxor 0 (pre ++ concat segs) =? cksum in
  ∃ s', exchanges fuel (download_msgs addr (4 * Z.of_nat (length pre)) segs cksum entry) s =
      Ok (download_answers (4 * Z.of_nat (length pre)) segs ok, s') ∧
    mem_words (hf_mem s') addr (pre ++ concat segs) ∧ fwd_jump (hf_up s') = (if ok then Some entry else fwd_jump (hf_up s)) ∧
    fwd_ready buf D A s' ∧ untouched n (hf_mem s) (hf_mem s').
Proof.
  induction segs as [|seg segs IH]; intros pre n s Hr Hne Hs Hf Hn Hpre Hb ok; [done|]. apply Forall_cons in Hs as [Hs Hss].
  destruct segs as [|seg2 segs].
  - cbn [concat download_msgs download_answers exchanges] in *. unfold ok. rewrite !app_nil_r in *.
    destruct (one_message false pre seg n s) as (s' & E & R1 & R2 & R3 & R4 & R5); try done.
    exists s'. rewrite (bind_ok _ _ _ _ _ E). split_and!; done.
  - unfold ok. clear ok. change (concat (seg :: seg2 :: segs)) with (seg ++ concat (seg2 :: segs)) in *. rewrite app_assoc in *.
    set (ok := foldl Z.lxor 0 ((pre ++ seg) ++ concat (seg2 :: segs)) =? cksum).
    destruct (one_message true pre seg n s) as (s1 & E & R1 & R2 & R3 & R4 & R5); try done; [rewrite length_app in Hn; lia|].
    destruct (IH (pre ++ seg) n s1) as (s' & E' & W1 & W2 & W3 & W4); try done; [by right|].
    exists s'. change (download_msgs addr (4 * Z.of_nat (length pre)) (seg :: seg2 :: segs) cksum entry) with
      (cmd_words true (4 * Z.of_nat (length pre)) addr seg [] ::
       download_msgs addr (4 * Z.of_nat (length pre) + 4 * Z.of_nat (length seg)) (seg2 :: segs) cksum entry).
    change (download_answers (4 * Z.of_nat (length pre)) (seg :: seg2 :: segs) ok) with
      (bytes_of [FWD_RSP_ACK; 4 * Z.of_nat (length pre)] ::
       download_answers (4 * Z.of_nat (length pre) + 4 * Z.of_nat (length seg)) (seg2 :: segs) ok).
    replace (4 * Z.of_nat (length pre) + 4 * Z.of_nat (length seg)) with (4 * Z.of_nat (length (pre ++ seg))) by (rewrite length_app; lia).
    cbn [exchanges]. rewrite (bind_ok _ _ _ _ _ E), (bind_ok _ _ _ _ _ E'). rewrite W2, R3. split_and!; try done.
    intros x Hx Hx'. rewrite W4 by done. by apply R5.
Qed.
End download.

(** C12: a host sends an image in segments, at the end its checksum and entry point: when the
    checksum (the exclusive or of its words) is right, the whole image is in memory where the
    host wanted it, word by word, every segment was acknowledged with its offset, the last one
    as a success, and the CPU jumps to the entry point; when it is wrong the last answer says so and
    the CPU stays. Nothing else in memory has changed but the buffer, and the next download can begin. *)
Theorem image_downloaded fuel s buf D A room addr segs cksum entry :
  fwd_ready buf D A s → 0 <= A → A + 4 * Z.of_nat room < 2 ^ 32 → 4 * Z.of_nat room < 65536 →
  segs ≠ [] → Forall (λ seg, length seg + 5 <= room)%nat segs → Forall in_u32 (concat segs) → in_u32 cksum → in_u32 entry →
  let image := concat segs in let n := Z.of_nat (length image) in
  0 <= addr → addr + 4 * n < 2 ^ 32 → A + 4 * Z.of_nat room <= addr ∨ addr + 4 * n <= A → (length image <= fuel)%nat →
  let ok := foldl Z.lxor 0 image =? cksum in
  ∃ s', exchanges fuel (download_msgs addr 0 segs cksum entry) s = Ok (download_answers 0 segs ok, s') ∧
    mem_words (hf_mem s') addr image ∧ fwd_jump (hf_up s') = (if ok then Some entry else fwd_jump (hf_up s)) ∧ fwd_ready buf D A s' ∧
    ∀ x, x < A ∨ A + 4 * Z.of_nat room <= x → x < addr ∨ addr + 4 * n <= x → mem_rd (hf_mem s') x = mem_rd (hf_mem s) x.
Proof.
  intros Hr HA HA' Hroom Hne Hs Hw Hck He image n Ha Ha' Hdis Hf ok.
  apply (all_messages fuel buf D A addr cksum entry room HA HA' Hroom Ha Hck He segs [] (length image)); try done; [|by left].
  rewrite Forall_concat in Hw. rewrite !Forall_forall in *. intros seg Hseg. split; [by apply Hs|by apply Hw].
Qed.
End exchange.

(** ** A small image

    The concrete download the witness evaluates, and one with a wrong checksum. *)

Definition fwd_dma : dma :=
  dma_sample <| dm_nb ::= λ n, n <| vbufs ::= <[1032 := mk_VBUF 300 0 0 []]> |> <| vdescs ::= <[300 := mk_VDESC 0 14000 1600 0 0 0 []]> |> |>.
Definition fwd_sample : hif_usb fifo_chip fwd_tgt_softc_t :=
  mk_hif_usb fwd_dma ∅ (chip_with []) (mk_dq 0 0) (mk_txdq (mk_dq 0 0) 0 0) (mk_dq 0 0) (mk_dq 0 0)
    1032 0 0 0 0 0 true 0 0 0 true usb_ctl_init (mk_fwd_sc 0 HIF_USB_PIPE_COMMAND HIF_USB_PIPE_INTERRUPT None).
Lemma fwd_sample_ready : fwd_ready 1032 300 14000 fwd_sample.
Proof.
  split; try done; by eexists.
Qed.

Lemma image_downloaded_witness :
  ∃ s', exchanges 3 (download_msgs 20000 0 [[1; 2]; [0xF0000003]] 0xF0000000 20008) fwd_sample =
      Ok ([bytes_of [FWD_RSP_ACK; 0]; bytes_of [FWD_RSP_SUCCESS; 8]], s') ∧
    mem_words (hf_mem s') 20000 [1; 2; 0xF0000003] ∧ fwd_jump (hf_up s') = Some 20008 ∧ fwd_ready 1032 300 14000 s' ∧
    ∀ x, x < 14000 ∨ 14000 + 4 * Z.of_nat 10 <= x → x < 20000 ∨ 20000 + 4 * 3 <= x → mem_rd (hf_mem s') x = mem_rd (hf_mem fwd_sample) x.
Proof.
  apply (image_downloaded 3 fwd_sample 1032 300 14000 10 20000 [[1; 2]; [0xF0000003]] 0xF0000000 20008).
  - apply fwd_sample_ready.
  - done.
  - done.
  - done.
  - done.
  - repeat apply Forall_cons_2; [cbn; lia|cbn; lia|done].
  - repeat apply Forall_cons_2; done.
  - done.
  - done.
  - done.
  - done.
  - left. cbn. lia.
  - cbn. lia.
Defined.
(** With another checksum the answer is a refusal. *)
Example image_refused :
  (λ r : outcome _, match r with Ok (a, s) => Some (a, fwd_jump (hf_up s)) | Fault _ => None end)
    (exchanges 3 (download_msgs 20000 0 [[1; 2]; [3]] 7 20008) fwd_sample)
  = Some ([bytes_of [FWD_RSP_ACK; 0]; bytes_of [FWD_RSP_FAILED; 8]], None).
Proof. vm_compute. reflexivity. Qed.
