(* ===== verification/RateTables.v ===== *)
(** * Rate tables (ar5416Phy.c, ar5416_phy.c)

    The table of rate control, one row per rate with its width and guard interval, and the
    HAL's table of rate codes, as the AR7010 build compiles them (MAGPIE_MERLIN and
    ATH_SUPPORT_A_MODE defined). *)

From S2P Require Import Prelude.
From S2P Require Import Hal.

Inductive phymode := IEEE80211_MODE_11NA | IEEE80211_MODE_11NG.
#[export] Instance phymode_eq_dec : EqDecision phymode.
Proof. solve_decision. Defined.

(** ** The table of rate control (ratectrl.h, ratectrl11n.h) *)

(** Validity masks: legacy, HT20, HT40. *)
Definition TRUE_20 : Z := 0x2.
Definition TRUE_40 : Z := 0x4.
Definition TRUE_ALL_11N : Z := 7.

(** [WLAN_RC_PHY_*]; [WLAN_PHY_CCK] and [WLAN_PHY_OFDM] are the values of
    [IEEE80211_T_CCK] and [IEEE80211_T_OFDM], not of [WLAN_RC_PHY_OFDM]. *)
Definition WLAN_PHY_CCK : Z := 0.
Definition WLAN_PHY_OFDM : Z := 2.
Definition WLAN_RC_PHY_HT_20_SS : Z := 4.
Definition WLAN_RC_PHY_HT_20_DS : Z := 5.
Definition WLAN_RC_PHY_HT_40_SS : Z := 6.
Definition WLAN_RC_PHY_HT_40_DS : Z := 7.
Definition WLAN_RC_PHY_HT_20_SS_HGI : Z := 8.
Definition WLAN_RC_PHY_HT_20_DS_HGI : Z := 9.
Definition WLAN_RC_PHY_HT_40_SS_HGI : Z := 10.
Definition WLAN_RC_PHY_HT_40_DS_HGI : Z := 11.
Definition WLAN_RC_PHY_MAX : Z := 12.
Definition WLAN_RC_HT_FLAG : Z := 0x08.

(** [rc11n_info_t] *)
Record rc11n_info := mk_rc11n {
  rn_valid : Z; rn_validSingleStream : Z; rn_validSTBC : Z; rn_phy : Z;
  rn_rateKbps : Z; rn_userRateKbps : Z; rn_rateCode : Z; rn_shortPreamble : Z;
  rn_dot11Rate : Z; rn_controlRate : Z; rn_rssiAckValidMin : Z; rn_rssiAckDeltaMin : Z;
  rn_baseIndex : Z; rn_cw40Index : Z; rn_sgiIndex : Z; rn_htIndex : Z;
  rn_txChainMask_2ch : Z; rn_txChainMask_3ch : Z; rn_max4msframelen : Z; rn_uapsdvalid : bool;
}.
Record RATE_TABLE_11N := mk_rt11n {
  rateCount : Z; probeInterval : Z; rssiReduceInterval : Z; initialRateMax : Z;
  rt_info : list rc11n_info;
}.

(** ** The rows *)
Definition ar5416_11ngRateTable : RATE_TABLE_11N := mk_rt11n 46 50 50 WLAN_RC_HT_FLAG [
    mk_rc11n TRUE_ALL_11N TRUE_ALL_11N TRUE_ALL_11N WLAN_PHY_CCK 1000 900 0x1b 0x00 2 0 0 1 0 0 0 0 3 7 0 true;
    mk_rc11n TRUE_ALL_11N TRUE_ALL_11N TRUE_ALL_11N WLAN_PHY_CCK 2000 1900 0x1a 0x04 4 1 1 1 1 1 1 1 3 7 0 false;
    mk_rc11n TRUE_ALL_11N TRUE_ALL_11N TRUE_ALL_11N WLAN_PHY_CCK 5500 4900 0x19 0x04 11 2 2 2 2 2 2 2 3 7 0 false;
    mk_rc11n TRUE_ALL_11N TRUE_ALL_11N TRUE_ALL_11N WLAN_PHY_CCK 11000 8100 0x18 0x04 22 3 3 2 3 3 3 3 3 7 0 true;
    mk_rc11n 0 0 0 WLAN_PHY_OFDM 6000 5400 0x0b 0x00 12 4 2 1 4 4 4 4 3 7 0 false;
    mk_rc11n 0 0 0 WLAN_PHY_OFDM 9000 7800 0x0f 0x00 18 4 3 1 5 5 5 5 3 7 0 false;
    mk_rc11n 1 1 1 WLAN_PHY_OFDM 12000 10100 0x0a 0x00 24 6 4 1 6 6 6 6 3 7 0 false;
    mk_rc11n 1 1 1 WLAN_PHY_OFDM 18000 14100 0x0e 0x00 36 6 6 2 7 7 7 7 3 7 0 false;
    mk_rc11n 1 1 1 WLAN_PHY_OFDM 24000 17700 0x09 0x00 48 8 10 3 8 8 8 8 3 7 0 true;
    mk_rc11n 1 1 1 WLAN_PHY_OFDM 36000 23700 0x0d 0x00 72 8 14 3 9 9 9 9 3 7 0 false;
    mk_rc11n 1 1 1 WLAN_PHY_OFDM 48000 27400 0x08 0x00 96 8 20 3 10 10 10 10 1 1 0 false;
    mk_rc11n 1 1 1 WLAN_PHY_OFDM 54000 30900 0x0c 0x00 108 8 23 3 11 11 11 11 1 1 0 true;
    mk_rc11n 0 0 0 WLAN_RC_PHY_HT_20_SS 6500 6400 0x80 0x00 0 4 2 3 12 28 12 28 3 7 3216 true;
    mk_rc11n TRUE_20 TRUE_20 TRUE_20 WLAN_RC_PHY_HT_20_SS 13000 12700 0x81 0x00 1 6 4 3 13 29 13 29 3 7 6434 true;
    mk_rc11n TRUE_20 TRUE_20 TRUE_20 WLAN_RC_PHY_HT_20_SS 19500 18800 0x82 0x00 2 6 6 3 14 30 14 30 3 7 9650 false;
    mk_rc11n TRUE_20 TRUE_20 TRUE_20 WLAN_RC_PHY_HT_20_SS 26000 25000 0x83 0x00 3 8 10 3 15 31 15 31 3 7 12868 false;
    mk_rc11n TRUE_20 TRUE_20 TRUE_20 WLAN_RC_PHY_HT_20_SS 39000 36700 0x84 0x00 4 8 14 3 16 32 16 32 3 7 19304 true;
    mk_rc11n 0 TRUE_20 TRUE_20 WLAN_RC_PHY_HT_20_SS 52000 48100 0x85 0x00 5 8 20 3 17 33 17 33 1 1 25740 false;
    mk_rc11n 0 TRUE_20 TRUE_20 WLAN_RC_PHY_HT_20_SS 58500 53500 0x86 0x00 6 8 23 3 18 34 18 34 1 1 28956 false;
    mk_rc11n 0 TRUE_20 0 WLAN_RC_PHY_HT_20_SS 65000 59000 0x87 0x00 7 8 25 3 19 35 19 36 1 1 32180 true;
    mk_rc11n 0 0 0 WLAN_RC_PHY_HT_20_DS 13000 12700 0x88 0x00 8 4 2 3 20 37 20 37 3 7 6430 true;
    mk_rc11n 0 0 0 WLAN_RC_PHY_HT_20_DS 26000 24800 0x89 0x00 9 6 4 3 21 38 21 38 3 7 12860 false;
    mk_rc11n 0 0 0 WLAN_RC_PHY_HT_20_DS 39000 36600 0x8a 0x00 10 6 6 3 22 39 22 39 3 7 19300 true;
    mk_rc11n TRUE_20 0 0 WLAN_RC_PHY_HT_20_DS 52000 48100 0x8b 0x00 11 8 10 3 23 40 23 40 3 7 25736 false;
    mk_rc11n TRUE_20 0 TRUE_20 WLAN_RC_PHY_HT_20_DS 78000 69500 0x8c 0x00 12 8 14 3 24 41 24 41 3 7 38600 true;
    mk_rc11n TRUE_20 0 TRUE_20 WLAN_RC_PHY_HT_20_DS 104000 89500 0x8d 0x00 13 8 20 3 25 42 25 42 3 5 51472 false;
    mk_rc11n TRUE_20 0 TRUE_20 WLAN_RC_PHY_HT_20_DS 117000 98900 0x8e 0x00 14 8 23 3 26 43 26 44 3 5 57890 false;
    mk_rc11n TRUE_20 0 TRUE_20 WLAN_RC_PHY_HT_20_DS 130000 108300 0x8f 0x00 15 8 25 3 27 44 27 45 3 5 64320 true;
    mk_rc11n TRUE_40 TRUE_40 TRUE_40 WLAN_RC_PHY_HT_40_SS 13500 13200 0x80 0x00 0 8 2 3 12 28 28 28 3 7 6684 true;
    mk_rc11n TRUE_40 TRUE_40 TRUE_40 WLAN_RC_PHY_HT_40_SS 27500 25900 0x81 0x00 1 8 4 3 13 29 29 29 3 7 13368 true;
    mk_rc11n TRUE_40 TRUE_40 TRUE_40 WLAN_RC_PHY_HT_40_SS 40500 38600 0x82 0x00 2 8 6 3 14 30 30 30 3 7 20052 false;
    mk_rc11n TRUE_40 TRUE_40 TRUE_40 WLAN_RC_PHY_HT_40_SS 54000 49800 0x83 0x00 3 8 10 3 15 31 31 31 3 7 26738 false;
    mk_rc11n TRUE_40 TRUE_40 TRUE_40 WLAN_RC_PHY_HT_40_SS 81500 72200 0x84 0x00 4 8 14 3 16 32 32 32 3 7 40104 true;
    mk_rc11n 0 TRUE_40 TRUE_40 WLAN_RC_PHY_HT_40_SS 108000 92900 0x85 0x00 5 8 20 3 17 33 33 33 1 1 53476 false;
    mk_rc11n 0 TRUE_40 TRUE_40 WLAN_RC_PHY_HT_40_SS 121500 102700 0x86 0x00 6 8 23 3 18 34 34 34 1 1 60156 false;
    mk_rc11n 0 TRUE_40 0 WLAN_RC_PHY_HT_40_SS 135000 112000 0x87 0x00 7 8 25 3 19 35 36 36 1 1 66840 true;
    mk_rc11n 0 TRUE_40 0 WLAN_RC_PHY_HT_40_SS_HGI 150000 122000 0x87 0x00 7 8 25 3 19 35 36 36 1 1 74200 true;
    mk_rc11n 0 0 0 WLAN_RC_PHY_HT_40_DS 27000 25800 0x88 0x00 8 8 2 3 20 37 37 37 3 7 13360 true;
    mk_rc11n 0 0 0 WLAN_RC_PHY_HT_40_DS 54000 49800 0x89 0x00 9 8 4 3 21 38 38 38 3 7 26720 false;
    mk_rc11n 0 0 0 WLAN_RC_PHY_HT_40_DS 81000 71900 0x8a 0x00 10 8 6 3 22 39 39 39 3 7 40080 true;
    mk_rc11n TRUE_40 0 0 WLAN_RC_PHY_HT_40_DS 108000 92500 0x8b 0x00 11 8 10 3 23 40 40 40 3 7 53440 false;
    mk_rc11n TRUE_40 0 TRUE_40 WLAN_RC_PHY_HT_40_DS 162000 130300 0x8c 0x00 12 8 14 3 24 41 41 41 3 7 80160 true;
    mk_rc11n TRUE_40 0 TRUE_40 WLAN_RC_PHY_HT_40_DS 216000 162800 0x8d 0x00 13 8 20 3 25 42 42 42 3 5 106880 false;
    mk_rc11n TRUE_40 0 TRUE_40 WLAN_RC_PHY_HT_40_DS 243000 178200 0x8e 0x00 14 8 23 3 26 43 43 43 3 5 120240 false;
    mk_rc11n TRUE_40 0 TRUE_40 WLAN_RC_PHY_HT_40_DS 270000 192100 0x8f 0x00 15 8 23 3 27 44 45 45 3 5 133600 false;
    mk_rc11n TRUE_40 0 TRUE_40 WLAN_RC_PHY_HT_40_DS_HGI 300000 207000 0x8f 0x00 15 8 25 3 27 44 45 45 3 5 148400 true].
Definition ar5416_11naRateTable : RATE_TABLE_11N := mk_rt11n 42 50 50 WLAN_RC_HT_FLAG [
    mk_rc11n 1 1 1 WLAN_PHY_OFDM 6000 5400 0x0b 0x00 12 0 2 1 0 0 0 0 3 7 0 true;
    mk_rc11n 1 1 1 WLAN_PHY_OFDM 9000 7800 0x0f 0x00 18 0 3 1 1 1 1 1 3 7 0 false;
    mk_rc11n 1 1 1 WLAN_PHY_OFDM 12000 10000 0x0a 0x00 24 2 4 2 2 2 2 2 3 7 0 true;
    mk_rc11n 1 1 1 WLAN_PHY_OFDM 18000 13900 0x0e 0x00 36 2 6 2 3 3 3 3 3 7 0 false;
    mk_rc11n 1 1 1 WLAN_PHY_OFDM 24000 17300 0x09 0x00 48 4 10 3 4 4 4 4 3 7 0 true;
    mk_rc11n 1 1 1 WLAN_PHY_OFDM 36000 23000 0x0d 0x00 72 4 14 3 5 5 5 5 3 7 0 false;
    mk_rc11n 1 1 1 WLAN_PHY_OFDM 48000 27400 0x08 0x00 96 4 20 3 6 6 6 6 1 1 0 false;
    mk_rc11n 1 1 1 WLAN_PHY_OFDM 54000 29300 0x0c 0x00 108 4 23 3 7 7 7 7 1 1 0 true;
    mk_rc11n TRUE_20 TRUE_20 TRUE_20 WLAN_RC_PHY_HT_20_SS 6500 6400 0x80 0x00 0 0 2 3 8 24 8 24 3 7 3216 true;
    mk_rc11n TRUE_20 TRUE_20 TRUE_20 WLAN_RC_PHY_HT_20_SS 13000 12700 0x81 0x00 1 2 4 3 9 25 9 25 3 7 6434 true;
    mk_rc11n TRUE_20 TRUE_20 TRUE_20 WLAN_RC_PHY_HT_20_SS 19500 18800 0x82 0x00 2 2 6 3 10 26 10 26 3 7 9650 false;
    mk_rc11n TRUE_20 TRUE_20 TRUE_20 WLAN_RC_PHY_HT_20_SS 26000 25000 0x83 0x00 3 4 10 3 11 27 11 27 3 7 12868 false;
    mk_rc11n TRUE_20 TRUE_20 TRUE_20 WLAN_RC_PHY_HT_20_SS 39000 36700 0x84 0x00 4 4 14 3 12 28 12 28 3 7 19304 true;
    mk_rc11n 0 TRUE_20 TRUE_20 WLAN_RC_PHY_HT_20_SS 52000 48100 0x85 0x00 5 4 20 3 13 29 13 29 1 1 25740 false;
    mk_rc11n 0 TRUE_20 TRUE_20 WLAN_RC_PHY_HT_20_SS 58500 53500 0x86 0x00 6 4 23 3 14 30 14 30 1 1 28956 false;
    mk_rc11n 0 TRUE_20 0 WLAN_RC_PHY_HT_20_SS 65000 59000 0x87 0x00 7 4 25 3 15 31 15 32 1 1 32180 true;
    mk_rc11n 0 0 0 WLAN_RC_PHY_HT_20_DS 13000 12700 0x88 0x00 8 0 2 3 16 33 16 33 3 7 6430 true;
    mk_rc11n 0 0 0 WLAN_RC_PHY_HT_20_DS 26000 24800 0x89 0x00 9 2 4 3 17 34 17 34 3 7 12860 false;
    mk_rc11n 0 0 0 WLAN_RC_PHY_HT_20_DS 39000 36600 0x8a 0x00 10 2 6 3 18 35 18 35 3 7 19300 true;
    mk_rc11n TRUE_20 0 0 WLAN_RC_PHY_HT_20_DS 52000 48100 0x8b 0x00 11 4 10 3 19 36 19 36 3 7 25736 false;
    mk_rc11n TRUE_20 0 TRUE_20 WLAN_RC_PHY_HT_20_DS 78000 69500 0x8c 0x00 12 4 14 3 20 37 20 37 3 7 38600 true;
    mk_rc11n TRUE_20 0 TRUE_20 WLAN_RC_PHY_HT_20_DS 104000 89500 0x8d 0x00 13 4 20 3 21 38 21 38 3 5 51472 false;
    mk_rc11n TRUE_20 0 TRUE_20 WLAN_RC_PHY_HT_20_DS 117000 98900 0x8e 0x00 14 4 23 3 22 39 22 39 3 5 57890 false;
    mk_rc11n TRUE_20 0 TRUE_20 WLAN_RC_PHY_HT_20_DS 130000 108300 0x8f 0x00 15 4 25 3 23 40 23 41 3 5 64320 true;
    mk_rc11n TRUE_40 TRUE_40 TRUE_40 WLAN_RC_PHY_HT_40_SS 13500 13200 0x80 0x00 0 0 2 3 8 24 24 24 3 7 6684 true;
    mk_rc11n TRUE_40 TRUE_40 TRUE_40 WLAN_RC_PHY_HT_40_SS 27500 25900 0x81 0x00 1 2 4 3 9 25 25 25 3 7 13368 true;
    mk_rc11n TRUE_40 TRUE_40 TRUE_40 WLAN_RC_PHY_HT_40_SS 40500 38600 0x82 0x00 2 2 6 3 10 26 26 26 3 7 20052 false;
    mk_rc11n TRUE_40 TRUE_40 TRUE_40 WLAN_RC_PHY_HT_40_SS 54000 49800 0x83 0x00 3 4 10 3 11 27 27 27 3 7 26738 false;
    mk_rc11n TRUE_40 TRUE_40 TRUE_40 WLAN_RC_PHY_HT_40_SS 81500 72200 0x84 0x00 4 4 14 3 12 28 28 28 3 7 40104 true;
    mk_rc11n 0 TRUE_40 TRUE_40 WLAN_RC_PHY_HT_40_SS 108000 92900 0x85 0x00 5 4 20 3 13 29 29 29 1 1 53476 false;
    mk_rc11n 0 TRUE_40 TRUE_40 WLAN_RC_PHY_HT_40_SS 121500 102700 0x86 0x00 6 4 23 3 14 30 30 30 1 1 60156 false;
    mk_rc11n 0 TRUE_40 0 WLAN_RC_PHY_HT_40_SS 135000 112000 0x87 0x00 7 4 25 3 15 31 32 32 1 1 66840 true;
    mk_rc11n 0 TRUE_40 0 WLAN_RC_PHY_HT_40_SS_HGI 150000 122000 0x87 0x00 7 8 25 3 15 31 32 32 1 1 65535 true;
    mk_rc11n 0 0 0 WLAN_RC_PHY_HT_40_DS 27000 25800 0x88 0x00 8 0 2 3 16 33 33 33 3 7 13360 true;
    mk_rc11n 0 0 0 WLAN_RC_PHY_HT_40_DS 54000 49800 0x89 0x00 9 2 4 3 17 34 34 34 3 7 26720 false;
    mk_rc11n 0 0 0 WLAN_RC_PHY_HT_40_DS 81000 71900 0x8a 0x00 10 2 6 3 18 35 35 35 3 7 40080 true;
    mk_rc11n TRUE_40 0 0 WLAN_RC_PHY_HT_40_DS 108000 92500 0x8b 0x00 11 4 10 3 19 36 36 36 3 7 53440 false;
    mk_rc11n TRUE_40 0 TRUE_40 WLAN_RC_PHY_HT_40_DS 162000 130300 0x8c 0x00 12 4 14 3 20 37 37 37 3 7 80160 true;
    mk_rc11n TRUE_40 0 TRUE_40 WLAN_RC_PHY_HT_40_DS 216000 162800 0x8d 0x00 13 4 20 3 21 38 38 38 3 5 106880 false;
    mk_rc11n TRUE_40 0 TRUE_40 WLAN_RC_PHY_HT_40_DS 243000 178200 0x8e 0x00 14 4 23 3 22 39 39 39 3 5 120240 false;
    mk_rc11n TRUE_40 0 TRUE_40 WLAN_RC_PHY_HT_40_DS 270000 192100 0x8f 0x00 15 4 25 3 23 40 41 41 3 5 133600 true;
    mk_rc11n TRUE_40 0 TRUE_40 WLAN_RC_PHY_HT_40_DS_HGI 300000 207000 0x8f 0x00 15 4 25 3 23 40 41 41 3 5 148400 true].

(** What [ar5416AttachRateTables] puts in [hwRateTable]. *)
Definition ar5416AttachRateTables (mode : phymode) : RATE_TABLE_11N :=
  match mode with
  | IEEE80211_MODE_11NG => ar5416_11ngRateTable
  | IEEE80211_MODE_11NA => ar5416_11naRateTable
  end.

(** ** The HAL's tables; [rateCodeToIndex] and the constant power columns are left out *)
Definition ar5416_11a_table : HAL_RATE_TABLE := [
    mk_rate_info IEEE80211_T_OFDM 6000 0x0b 0x00 0 0 0;
    mk_rate_info IEEE80211_T_OFDM 9000 0x0f 0x00 0 0 0;
    mk_rate_info IEEE80211_T_OFDM 12000 0x0a 0x00 2 0 0;
    mk_rate_info IEEE80211_T_OFDM 18000 0x0e 0x00 2 0 0;
    mk_rate_info IEEE80211_T_OFDM 24000 0x09 0x00 4 0 0;
    mk_rate_info IEEE80211_T_OFDM 36000 0x0d 0x00 4 0 0;
    mk_rate_info IEEE80211_T_OFDM 48000 0x08 0x00 4 0 0;
    mk_rate_info IEEE80211_T_OFDM 54000 0x0c 0x00 4 0 0].
Definition ar5416_11b_table : HAL_RATE_TABLE := [
    mk_rate_info IEEE80211_T_CCK 1000 0x1b 0x00 0 0 0;
    mk_rate_info IEEE80211_T_CCK 2000 0x1a 0x04 1 0 0;
    mk_rate_info IEEE80211_T_CCK 5500 0x19 0x04 1 0 0;
    mk_rate_info IEEE80211_T_CCK 11000 0x18 0x04 1 0 0].
Definition ar5416_11g_table : HAL_RATE_TABLE := [
    mk_rate_info IEEE80211_T_CCK 1000 0x1b 0x00 0 0 0;
    mk_rate_info IEEE80211_T_CCK 2000 0x1a 0x04 1 0 0;
    mk_rate_info IEEE80211_T_CCK 5500 0x19 0x04 2 0 0;
    mk_rate_info IEEE80211_T_CCK 11000 0x18 0x04 3 0 0;
    mk_rate_info IEEE80211_T_OFDM 6000 0x0b 0x00 4 0 0;
    mk_rate_info IEEE80211_T_OFDM 9000 0x0f 0x00 4 0 0;
    mk_rate_info IEEE80211_T_OFDM 12000 0x0a 0x00 6 0 0;
    mk_rate_info IEEE80211_T_OFDM 18000 0x0e 0x00 6 0 0;
    mk_rate_info IEEE80211_T_OFDM 24000 0x09 0x00 8 0 0;
    mk_rate_info IEEE80211_T_OFDM 36000 0x0d 0x00 8 0 0;
    mk_rate_info IEEE80211_T_OFDM 48000 0x08 0x00 8 0 0;
    mk_rate_info IEEE80211_T_OFDM 54000 0x0c 0x00 8 0 0].
Definition ar5416_11ng_table : HAL_RATE_TABLE := [
    mk_rate_info IEEE80211_T_CCK 1000 0x1b 0x00 0 0 0;
    mk_rate_info IEEE80211_T_CCK 2000 0x1a 0x04 1 0 0;
    mk_rate_info IEEE80211_T_CCK 5500 0x19 0x04 2 0 0;
    mk_rate_info IEEE80211_T_CCK 11000 0x18 0x04 3 0 0;
    mk_rate_info IEEE80211_T_OFDM 6000 0x0b 0x00 4 0 0;
    mk_rate_info IEEE80211_T_OFDM 9000 0x0f 0x00 4 0 0;
    mk_rate_info IEEE80211_T_OFDM 12000 0x0a 0x00 6 0 0;
    mk_rate_info IEEE80211_T_OFDM 18000 0x0e 0x00 6 0 0;
    mk_rate_info IEEE80211_T_OFDM 24000 0x09 0x00 8 0 0;
    mk_rate_info IEEE80211_T_OFDM 36000 0x0d 0x00 8 0 0;
    mk_rate_info IEEE80211_T_OFDM 48000 0x08 0x00 8 0 0;
    mk_rate_info IEEE80211_T_OFDM 54000 0x0c 0x00 8 0 0;
    mk_rate_info IEEE80211_T_HT 6500 0x80 0x00 4 0 0;
    mk_rate_info IEEE80211_T_HT 13000 0x81 0x00 6 0 0;
    mk_rate_info IEEE80211_T_HT 19500 0x82 0x00 6 0 0;
    mk_rate_info IEEE80211_T_HT 26000 0x83 0x00 8 0 0;
    mk_rate_info IEEE80211_T_HT 39000 0x84 0x00 8 0 0;
    mk_rate_info IEEE80211_T_HT 52000 0x85 0x00 8 0 0;
    mk_rate_info IEEE80211_T_HT 58500 0x86 0x00 8 0 0;
    mk_rate_info IEEE80211_T_HT 65000 0x87 0x00 8 0 0;
    mk_rate_info IEEE80211_T_HT 13000 0x88 0x00 4 0 0;
    mk_rate_info IEEE80211_T_HT 26000 0x89 0x00 6 0 0;
    mk_rate_info IEEE80211_T_HT 39000 0x8a 0x00 6 0 0;
    mk_rate_info IEEE80211_T_HT 52000 0x8b 0x00 8 0 0;
    mk_rate_info IEEE80211_T_HT 78000 0x8c 0x00 8 0 0;
    mk_rate_info IEEE80211_T_HT 104000 0x8d 0x00 8 0 0;
    mk_rate_info IEEE80211_T_HT 117000 0x8e 0x00 8 0 0;
    mk_rate_info IEEE80211_T_HT 130000 0x8f 0x00 8 0 0].
Definition ar5416_11na_table : HAL_RATE_TABLE := [
    mk_rate_info IEEE80211_T_OFDM 6000 0x0b 0x00 0 0 0;
    mk_rate_info IEEE80211_T_OFDM 9000 0x0f 0x00 0 0 0;
    mk_rate_info IEEE80211_T_OFDM 12000 0x0a 0x00 2 0 0;
    mk_rate_info IEEE80211_T_OFDM 18000 0x0e 0x00 2 0 0;
    mk_rate_info IEEE80211_T_OFDM 24000 0x09 0x00 4 0 0;
    mk_rate_info IEEE80211_T_OFDM 36000 0x0d 0x00 4 0 0;
    mk_rate_info IEEE80211_T_OFDM 48000 0x08 0x00 4 0 0;
    mk_rate_info IEEE80211_T_OFDM 54000 0x0c 0x00 4 0 0;
    mk_rate_info IEEE80211_T_HT 6500 0x80 0x00 0 0 0;
    mk_rate_info IEEE80211_T_HT 13000 0x81 0x00 2 0 0;
    mk_rate_info IEEE80211_T_HT 19500 0x82 0x00 2 0 0;
    mk_rate_info IEEE80211_T_HT 26000 0x83 0x00 4 0 0;
    mk_rate_info IEEE80211_T_HT 39000 0x84 0x00 4 0 0;
    mk_rate_info IEEE80211_T_HT 52000 0x85 0x00 4 0 0;
    mk_rate_info IEEE80211_T_HT 58500 0x86 0x00 4 0 0;
    mk_rate_info IEEE80211_T_HT 65000 0x87 0x00 4 0 0;
    mk_rate_info IEEE80211_T_HT 13000 0x88 0x00 0 0 0;
    mk_rate_info IEEE80211_T_HT 26000 0x89 0x00 2 0 0;
    mk_rate_info IEEE80211_T_HT 39000 0x8a 0x00 2 0 0;
    mk_rate_info IEEE80211_T_HT 52000 0x8b 0x00 4 0 0;
    mk_rate_info IEEE80211_T_HT 78000 0x8c 0x00 4 0 0;
    mk_rate_info IEEE80211_T_HT 104000 0x8d 0x00 4 0 0;
    mk_rate_info IEEE80211_T_HT 117000 0x8e 0x00 4 0 0;
    mk_rate_info IEEE80211_T_HT 130000 0x8f 0x00 4 0 0].

Inductive HAL_MODE := HAL_MODE_11A | HAL_MODE_11B | HAL_MODE_11G | HAL_MODE_11NG | HAL_MODE_11NA.
Definition ar5416GetRateTable (mode : HAL_MODE) : HAL_RATE_TABLE :=
  match mode with
  | HAL_MODE_11A => ar5416_11a_table
  | HAL_MODE_11B => ar5416_11b_table
  | HAL_MODE_11G => ar5416_11g_table
  | HAL_MODE_11NG => ar5416_11ng_table
  | HAL_MODE_11NA => ar5416_11na_table
  end.
(** [ath_rate_setup] (if_ath.c): the table of the current mode. *)
Definition sc_rates (mode : phymode) : HAL_RATE_TABLE :=
  ar5416GetRateTable (match mode with
                      | IEEE80211_MODE_11NA => HAL_MODE_11NA
                      | IEEE80211_MODE_11NG => HAL_MODE_11NG end).
