(* ===== verification/Htc.v ===== *)
(** * Host-target communication (target/htc/htc.c, target/init/init.c)

    HTC multiplexes the services' messages over the USB pipes and runs credit-based flow
    control: the host spends a credit per message it sends, the target gives credits back
    in trailers attached to the messages it sends. The USB layer below is the one of
    sboot/hif/usb/src/HIF_usb.c with the patch of rompatch/HIF_usb_patch.c: its queries
    are the functions of that file; buffers handed to it are recorded in [h_hif], in
    order. The services above are reached through the callbacks they registered, the class
    [HtcServices]. *)

From S2P Require Import Prelude.
From S2P Require Export NBuf.
From S2P Require Export HifPipes.

(** ** Constants (htc.h, htc_internal.h, htc_api.h) *)
Definition ENDPOINT0 : Z := 0.
Definition ENDPOINT1 : Z := 1.
Definition ENDPOINT_MAX : Z := 22.
Definition HTC_HDR_LENGTH : Z := 8.
Definition HTC_FLAGS_NEED_CREDIT_UPDATE : Z := 1.
Definition HTC_FLAGS_RECV_TRAILER : Z := 2.
Definition HTC_FLAGS_CREDIT_REDISTRIBUTION : Z := 4.
Definition HTC_MSG_READY_ID : Z := 1.
Definition HTC_MSG_CONNECT_SERVICE_ID : Z := 2.
Definition HTC_MSG_CONNECT_SERVICE_RESPONSE_ID : Z := 3.
Definition HTC_MSG_SETUP_COMPLETE_ID : Z := 4.
Definition HTC_MSG_CONFIG_PIPE_ID : Z := 5.
Definition HTC_MSG_CONFIG_PIPE_RESPONSE_ID : Z := 6.
Definition HTC_CONNECT_FLAGS_REDUCE_CREDIT_DRIBBLE : Z := 4.
Definition HTC_CONNECT_FLAGS_THRESHOLD_LEVEL_MASK : Z := 3.
Definition HTC_SERVICE_SUCCESS : Z := 0.
Definition HTC_SERVICE_NOT_FOUND : Z := 1.
Definition HTC_SERVICE_NO_RESOURCES : Z := 3.
Definition HTC_SERVICE_FLAGS_CONNECTED : Z := 1.
Definition HTC_RECORD_CREDITS : Z := 1.
Definition sizeof_RECORD_HDR : Z := 2.
Definition sizeof_CREDIT_REPORT : Z := 2.
Definition sizeof_READY_MSG : Z := 8.
Definition sizeof_CONNECT_MSG : Z := 10.
Definition sizeof_CONNECT_RESPONSE_MSG : Z := 10.
Definition sizeof_CONFIG_PIPE_RESPONSE_MSG : Z := 4.
Definition HTC_FLAGS_CRPT_EP_MASK : Z := 0x1f.
Definition HTC_FLAGS_CREDIT_RPT : Z := 32.
Definition HTC_FLAGS_BUF_HDR : Z := 64.
Definition HTC_ANY_ENDPOINT_MASK : Z := 0xffffffff.
Definition HTC_STATE_SETUP_COMPLETE : Z := 1.
Definition HTC_SEND_CREDIT_UPDATE_SOON : Z := 2.
Definition HTC_DEFAULT_MAX_EP_PENDING_CREDIT_REPORTS : Z := 3.
Definition MAX_HTC_SETUP_MSG_SIZE : Z := 64.
Definition POOL_ID_HTC_CONTROL : nat := 0.
Definition POOL_ID_WMI_SVC_CMD_REPLY : nat := 1.
Definition POOL_ID_WMI_SVC_EVENT : nat := 2.

(** ** What is asked of the USB layer *)
Inductive hif_event :=
  | HIF_send_buffer_ev (pipe buf : Z)
  | HIF_return_recv_buf_ev (pipe buf : Z)
  | HIF_config_pipe_ev (pipe credits : Z)
  | HIF_start_ev
  | WrongEpid_ev (eid : Z).   (* [zfGenWrongEpidEvent] *)

(** ** State *)

(** The service bound to an endpoint: HTC's own control service, or a registered one. *)
Inductive svc_ref := HTCControlService | Service (i : nat).

(** [HTC_SERVICE], without its callbacks. *)
Record HTC_SERVICE := mk_svc {
  ServiceID : Z; ServiceFlags : Z; MaxSvcMsgSize : Z; TrailerSpcCheckLimit : Z }.
#[export] Instance eta_svc : EtaExp HTC_SERVICE := λ v,
  mk_svc (ServiceID v) (ServiceFlags v) (MaxSvcMsgSize v) (TrailerSpcCheckLimit v).

(** [HTC_ENDPOINT] *)
Record HTC_ENDPOINT := mk_ep {
  CreditsToReturn : Z; pService : option svc_ref; CreditReturnThreshhold : Z;
  CreditsConsumed : Z; ConnectionFlags : Z; PendingCreditReports : Z;
  DownLinkPipeID : Z; UpLinkPipeID : Z }.
#[export] Instance eta_ep : EtaExp HTC_ENDPOINT := λ e,
  mk_ep (CreditsToReturn e) (pService e) (CreditReturnThreshhold e) (CreditsConsumed e)
    (ConnectionFlags e) (PendingCreditReports e) (DownLinkPipeID e) (UpLinkPipeID e).
Definition ep_zero : HTC_ENDPOINT := mk_ep 0 None 0 0 0 0 0 0.

(** [HTC_CONTEXT] with the buffer heap, the message bytes and the application's state.
    [pServiceList] lists the registered services, most recent first. *)
Record htc_state (APP : Type) := mk_htc {
  h_nb : nb_state; h_mem : gmap Z Z; h_hif : list hif_event;
  Endpoints : list HTC_ENDPOINT; EpHostNeedsCreditMap : Z; EpCreditPendingMap : Z;
  CurrentEpIndex : Z; services : list HTC_SERVICE; pServiceList : list nat;
  RecvBufferSize : Z; StateFlags : Z; TotalCredits : Z; TotalCreditsAssigned : Z;
  MaxEpPendingCreditRpts : Z; htc_complete_setup : Z; h_app : APP;
}.
Arguments mk_htc {APP}. Arguments h_nb {APP}. Arguments h_mem {APP}. Arguments h_hif {APP}.
Arguments Endpoints {APP}. Arguments EpHostNeedsCreditMap {APP}.
Arguments EpCreditPendingMap {APP}. Arguments CurrentEpIndex {APP}.
Arguments services {APP}. Arguments pServiceList {APP}. Arguments RecvBufferSize {APP}.
Arguments StateFlags {APP}. Arguments TotalCredits {APP}.
Arguments TotalCreditsAssigned {APP}. Arguments MaxEpPendingCreditRpts {APP}.
Arguments htc_complete_setup {APP}. Arguments h_app {APP}.
#[export] Instance eta_htc {APP} : EtaExp (htc_state APP) := λ h,
  mk_htc (h_nb h) (h_mem h) (h_hif h) (Endpoints h) (EpHostNeedsCreditMap h)
    (EpCreditPendingMap h) (CurrentEpIndex h) (services h) (pServiceList h)
    (RecvBufferSize h) (StateFlags h) (TotalCredits h) (TotalCreditsAssigned h)
    (MaxEpPendingCreditRpts h) (htc_complete_setup h) (h_app h).

(** What a registered service does with a message ([hdr_buf], then the buffer), with a
    buffer whose transmission completed, and with a connection request (endpoint, address
    and length of the request's data, address for the reply's), answering with a status
    and the length of the reply data; and the application's setup callback. *)
Class HtcServices (APP : Type) := {
  ProcessRecvMsg (svc : nat) (eid hdr_buf buf : Z) : M (htc_state APP) unit;
  ProcessSendBufferComplete (svc : nat) (eid buf : Z) : M (htc_state APP) unit;
  ProcessConnect (svc : nat) (eid dataIn lenIn dataOut : Z) : M (htc_state APP) (Z * Z);
  SetupCompleteCb : M (htc_state APP) unit;
}.

Section htc_core.
Context {APP : Type}.
Abbreviation HT := (M (htc_state APP)).

Definition hnb {A} (m : NB A) : HT A := λ s,
  match m (h_nb s) with
  | Ok (a, n) => Ok (a, s <| h_nb := n |>)
  | Fault f => Fault f
  end.
Definition hrd8 (a : Z) : HT Z := gets (λ s, default 0 (h_mem s !! a)).
Definition hwr8 (a v : Z) : HT unit := modify (λ s, s <| h_mem ::= <[a := u8 v]> |>).
(** 16-bit fields; the CPU is big-endian, so [htons] and [ntohs] are identities. *)
Definition hrd16 (a : Z) : HT Z := hi ← hrd8 a; lo ← hrd8 (a + 1); mret (hi * 256 + lo).
Definition hwr16 (a v : Z) : HT unit := hwr8 a (v .>> 8) ;; hwr8 (a + 1) v.
Definition hzero (a n : Z) : HT unit := for_each (seqZ a n) (λ x, hwr8 x 0).
Definition hif (e : hif_event) : HT unit := modify (λ s, s <| h_hif ::= λ l, l ++ [e] |>).

Definition rd_ep (i : Z) : HT HTC_ENDPOINT := s ← get; in_range (Endpoints s !! Z.to_nat i).
Definition upd_ep (i : Z) (f : HTC_ENDPOINT → HTC_ENDPOINT) : HT unit :=
  e ← rd_ep i; modify (λ s, s <| Endpoints ::= <[Z.to_nat i := f e]> |>).

(** [HTC_BUF_CONTEXT] in the private area of a buffer: byte 0 is [end_point], byte 1
    [htc_flags]. *)
Definition get_ctx (buf : Z) (i : nat) : HT Z :=
  c ← hnb (adf_nbuf_get_priv buf); in_range (c !! i).
Definition set_ctx (buf : Z) (i : nat) (v : Z) : HT unit :=
  get_ctx buf i ;; hnb (upd_vbuf buf (λ b, b <| ctx ::= <[i := u8 v]> |>)).

(** [AdjustCreditThreshold] and the macro that guards it *)
Definition AdjustCreditThreshold (e : HTC_ENDPOINT) : HTC_ENDPOINT :=
  let out := s16 (CreditsToReturn e + CreditsConsumed e) in
  let lvl := ConnectionFlags e .& HTC_CONNECT_FLAGS_THRESHOLD_LEVEL_MASK in
  let out := if lvl =? 0 then s16 (out .>> 2)
             else if lvl =? 1 then s16 (out .>> 1)
             else if lvl =? 2 then s16 ((out * 3) .>> 2) else out in
  e <| CreditReturnThreshhold := out |>.
Definition CHECK_AND_ADJUST_CREDIT_THRESHOLD (e : HTC_ENDPOINT) : HTC_ENDPOINT :=
  if tst (ConnectionFlags e) HTC_CONNECT_FLAGS_REDUCE_CREDIT_DRIBBLE
  then AdjustCreditThreshold e else e.

Definition _HTC_GetReservedHeadroom : Z := HTC_HDR_LENGTH + HIF_get_reserved_headroom.
Definition HTCAllocMsgBuffer : HT Z :=
  hnb (_buf_pool_static_alloc_buf POOL_ID_HTC_CONTROL _HTC_GetReservedHeadroom).
Definition HTCFreeMsgBuffer (buf : Z) : HT unit :=
  hnb (_buf_pool_static_free_buf POOL_ID_HTC_CONTROL buf).

(** *** Sending, with the credit trailer *)

(** The loop over the pending-credit map in [_HTC_SendMsg]: one report per endpoint with
    pending credits, while there is room. It returns the new map and the report bytes. *)
Fixpoint credit_reports (fuel : nat) (i : Z) (buf rec map room total : Z) : HT (Z * Z) :=
  if negb (map =? 0) && (sizeof_CREDIT_REPORT <=? room) then
    match fuel with
    | O => fail OutOfFuel
    | S n =>
        let compareMask := u32 (1 .<< i) in
        if tst compareMask map then
          rpt ← hnb (adf_nbuf_put_tail buf sizeof_CREDIT_REPORT);
          let map := map .&~ compareMask in
          hwr8 rpt i ;;
          e ← rd_ep i;
          hwr8 (rpt + 1) (CreditsToReturn e) ;;
          upd_ep i (λ e, CHECK_AND_ADJUST_CREDIT_THRESHOLD (e <| CreditsToReturn := 0 |>)) ;;
          len ← hrd8 (rec + 1);
          hwr8 (rec + 1) (len + sizeof_CREDIT_REPORT) ;;
          let room := room - sizeof_CREDIT_REPORT in
          let total := total + sizeof_CREDIT_REPORT in
          if room <? sizeof_CREDIT_REPORT then mret (map, total)
          else credit_reports n (i + 1) buf rec map room total
        else credit_reports n (i + 1) buf rec map room total
    end
  else mret (map, total).

(** The room for a trailer: what the buffer and the pipe's message length leave. The
    difference is an unsigned word, so the test against 0 in the source never fires. *)
Definition trailer_room (eid buf : Z) : HT Z :=
  e ← rd_ep eid;
  headroom ← hnb (adf_nbuf_headroom buf);
  len ← hnb (adf_nbuf_len buf);
  tail ← hnb (adf_nbuf_tailroom buf);
  let roomForPipeMaxLen := u32 (HIF_get_max_msg_len (DownLinkPipeID e) - headroom - len) in
  mret (s32 (if tail <? roomForPipeMaxLen then tail else roomForPipeMaxLen)).

(** The trailer itself; the result is the number of bytes it took. *)
Definition send_trailer (buf room : Z) : HT Z :=
  if room <? sizeof_CREDIT_REPORT + sizeof_RECORD_HDR then mret 0 else
  map ← gets EpCreditPendingMap;
  if map =? 0 then mret 0 else
  rec ← hnb (adf_nbuf_put_tail buf sizeof_RECORD_HDR);
  hwr8 rec HTC_RECORD_CREDITS ;;
  hwr8 (rec + 1) 0 ;;
  '(map, total) ← credit_reports 32 0 buf rec map (room - sizeof_RECORD_HDR) sizeof_RECORD_HDR;
  modify (λ s, s <| EpCreditPendingMap := map |>) ;;
  mret total.

Definition _HTC_SendMsg (eid buf : Z) : HT unit :=
  flags ← get_ctx buf 1;
  totsz ← hnb (adf_nbuf_len buf);
  hdr ← hnb (adf_nbuf_push_head buf HTC_HDR_LENGTH);
  set_ctx buf 1 (flags .| HTC_FLAGS_BUF_HDR) ;;
  set_ctx buf 0 eid ;;
  hwr8 (hdr + 1) 0 ;;
  hwr8 hdr eid ;;
  room ← trailer_room eid buf;
  total ← send_trailer buf room;
  when (0 <? total)
    (hwr8 (hdr + 4) total ;;
     fl ← hrd8 (hdr + 1);
     hwr8 (hdr + 1) (fl .| HTC_FLAGS_RECV_TRAILER)) ;;
  hwr16 (hdr + 2) (u16 (totsz + total)) ;;
  e ← rd_ep eid;
  hif (HIF_send_buffer_ev (DownLinkPipeID e) buf).

(** *** Returning credits *)

(** [ep] tells whether an endpoint was specified (its number is then [Eid]). *)
Definition HTCCheckAndSendCreditReport (EpMask : Z) (ep : option Z) (Eid : Z) : HT unit :=
  s ← get;
  if negb (tst (EpHostNeedsCreditMap s) EpMask) then mret tt else
  if negb (tst (EpCreditPendingMap s) EpMask) then mret tt else
  hold ← match ep with
         | None => mret false
         | Some i =>
             e ← rd_ep i;
             if negb (CreditReturnThreshhold e =? 0)
                && (CreditsToReturn e <? CreditReturnThreshhold e) then mret true
             else if PendingCreditReports e >=? MaxEpPendingCreditRpts s then
               modify (λ s, s <| StateFlags ::= λ f, f .| HTC_SEND_CREDIT_UPDATE_SOON |>) ;;
               mret true
             else mret false
         end;
  if hold : bool then mret tt else
  pCredBuffer ← HTCAllocMsgBuffer;
  if pCredBuffer =? 0 then
    modify (λ s, s <| StateFlags ::= λ f, f .| HTC_SEND_CREDIT_UPDATE_SOON |>)
  else
    match ep with
    | None => get_ctx pCredBuffer 1 ;; mret tt
    | Some i =>
        upd_ep i (λ e, e <| PendingCreditReports ::= λ n, s32 (n + 1) |>) ;;
        set_ctx pCredBuffer 1 (Eid .| HTC_FLAGS_CREDIT_RPT)
    end ;;
    _HTC_SendMsg ENDPOINT0 pCredBuffer.

Definition ReturnBuffers (eid buf : Z) (sendCreditFlag : bool) : HT unit :=
  hnb (adf_nbuf_push_head buf HTC_HDR_LENGTH) ;;
  e ← rd_ep eid;
  hif (HIF_return_recv_buf_ev (UpLinkPipeID e) buf) ;;
  s ← get;
  if tst (StateFlags s) HTC_STATE_SETUP_COMPLETE then
    let epCreditMask := u32 (1 .<< eid) in
    upd_ep eid (λ e, e <| CreditsToReturn ::= λ n, s16 (n + 1) |>
                       <| CreditsConsumed ::= λ n, s16 (n - 1) |>) ;;
    modify (λ s, s <| EpCreditPendingMap ::= λ m, m .| epCreditMask |>) ;;
    when sendCreditFlag (HTCCheckAndSendCreditReport epCreditMask (Some eid) eid)
  else modify (λ s, s <| TotalCredits ::= λ n, s32 (n + 1) |>).

Definition _HTC_ReturnBuffers (eid buf : Z) : HT unit := ReturnBuffers eid buf true.

(** [queue_next] is read before the buffer is given away; the fuel is the number of
    buffers, which a queue without repetition does not exceed. *)
Fixpoint return_list (fuel : nat) (eid netbuf : Z) : HT unit :=
  if netbuf =? 0 then mret tt else
  match fuel with
  | O => fail OutOfFuel
  | S n =>
      next ← hnb (adf_nbuf_queue_next netbuf);
      ReturnBuffers eid netbuf false ;;
      return_list n eid next
  end.
Definition _HTC_ReturnBuffersList (eid : Z) (bufHead : qhead) : HT unit :=
  s ← get;
  return_list (size (vbufs (h_nb s))) eid (adf_nbuf_queue_first bufHead) ;;
  HTCCheckAndSendCreditReport (u32 (1 .<< eid)) (Some eid) eid.

(** *** Setup *)

Definition HTC_AssembleBuffers (count size : Z) : HT unit :=
  hnb (_buf_pool_static_create_pool POOL_ID_HTC_CONTROL count size).

Definition _HTC_Init (CreditSize CreditNumber : Z) : HT unit :=
  modify (λ s, s <| Endpoints := replicate (Z.to_nat ENDPOINT_MAX) ep_zero |>
    <| EpHostNeedsCreditMap := 0 |> <| EpCreditPendingMap := 0 |> <| services := [] |>
    <| pServiceList := [] |> <| StateFlags := 0 |>
    <| MaxEpPendingCreditRpts := HTC_DEFAULT_MAX_EP_PENDING_CREDIT_REPORTS |>
    <| RecvBufferSize := CreditSize |> <| TotalCredits := CreditNumber |>
    <| TotalCreditsAssigned := 0 |>) ;;
  upd_ep ENDPOINT0 (λ e, e <| pService := Some HTCControlService |>
    <| UpLinkPipeID := HIF_USB_PIPE_COMMAND |> <| DownLinkPipeID := HIF_USB_PIPE_INTERRUPT |>) ;;
  hif (HIF_config_pipe_ev HIF_USB_PIPE_COMMAND 1) ;;
  modify (λ s, s <| CurrentEpIndex := ENDPOINT1 |>) ;;
  HTC_AssembleBuffers 4 MAX_HTC_SETUP_MSG_SIZE ;;
  hif HIF_start_ev.

Definition _HTC_RegisterService (svc : HTC_SERVICE) : HT unit :=
  modify (λ s, s <| pServiceList ::= cons (length (services s)) |>
                 <| services ::= λ l, l ++ [svc] |>).

Definition _HTC_Ready : HT unit :=
  buf ← HTCAllocMsgBuffer;
  a ← hnb (adf_nbuf_put_tail buf sizeof_READY_MSG);
  hzero a sizeof_READY_MSG ;;
  s ← get;
  hwr16 a HTC_MSG_READY_ID ;;
  hwr16 (a + 4) (u16 (RecvBufferSize s)) ;;
  hwr16 (a + 2) (u16 (TotalCredits s)) ;;
  hwr8 (a + 6) ENDPOINT_MAX ;;
  _HTC_SendMsg ENDPOINT0 buf.

End htc_core.

Section htc_services.
Context {APP : Type} `{!HtcServices APP}.
Abbreviation HT := (M (htc_state APP)).

(** *** Control messages *)

(** The walk over the registered services. The status starts as "not found". *)
Fixpoint connect_service (svcs : list nat) (serviceId msg rsp : Z) : HT Z :=
  match svcs with
  | [] => mret HTC_SERVICE_NOT_FOUND
  | i :: svcs =>
      s ← get;
      let ep := CurrentEpIndex s in
      if ep >=? ENDPOINT_MAX then mret HTC_SERVICE_NO_RESOURCES else
      svc ← in_range (services s !! i);
      if serviceId =? ServiceID svc then
        metaLen ← hrd8 (msg + 8);
        '(status, outLen) ← ProcessConnect i ep
          (if metaLen =? 0 then 0 else msg + sizeof_CONNECT_MSG) metaLen
          (rsp + sizeof_CONNECT_RESPONSE_MSG);
        when (status =? HTC_SERVICE_SUCCESS)
          (hwr8 (rsp + 8) outLen ;;
           hwr8 (rsp + 5) ep ;;
           hwr16 (rsp + 6) (MaxSvcMsgSize svc) ;;
           cflags ← hrd16 (msg + 4); down ← hrd8 (msg + 6); up ← hrd8 (msg + 7);
           upd_ep ep (λ e, e <| pService := Some (Service i) |> <| ConnectionFlags := cflags |>
                             <| DownLinkPipeID := down |> <| UpLinkPipeID := up |>) ;;
           modify (λ s, s <| services ::= alter (λ v, v <| ServiceFlags ::= λ f,
                               f .| HTC_SERVICE_FLAGS_CONNECTED |>) i |>
                          <| CurrentEpIndex := ep + 1 |>)) ;;
        mret status
      else connect_service svcs serviceId msg rsp
  end.

Definition HTCProcessConnectMsg (msg : Z) : HT unit :=
  serviceId ← hrd16 (msg + 2);
  s ← get;
  buf ← HTCAllocMsgBuffer;
  rsp ← hnb (adf_nbuf_put_tail buf sizeof_CONNECT_RESPONSE_MSG);
  hzero rsp sizeof_CONNECT_RESPONSE_MSG ;;
  hwr16 rsp HTC_MSG_CONNECT_SERVICE_RESPONSE_ID ;;
  hwr16 (rsp + 2) serviceId ;;
  status ← connect_service (pServiceList s) serviceId msg rsp;
  hwr8 (rsp + 4) status ;;
  _HTC_SendMsg ENDPOINT0 buf.

(** The three outcomes of a pipe configuration: configured, no such pipe, no credits. *)
Definition HTCProcessConfigPipeMsg (msg : Z) : HT unit :=
  buf ← HTCAllocMsgBuffer;
  rsp ← hnb (adf_nbuf_put_tail buf sizeof_CONFIG_PIPE_RESPONSE_MSG);
  hzero rsp sizeof_CONFIG_PIPE_RESPONSE_MSG ;;
  hwr16 rsp HTC_MSG_CONFIG_PIPE_RESPONSE_ID ;;
  pipe ← hrd8 (msg + 2);
  credits ← hrd8 (msg + 3);
  hwr8 (rsp + 2) pipe ;;
  (if negb (HIF_is_pipe_supported pipe) then hwr8 (rsp + 3) 1 else
   hwr8 (rsp + 3) 0 ;;
   s ← get;
   if TotalCreditsAssigned s + credits <=? TotalCredits s then
     modify (λ s, s <| TotalCreditsAssigned ::= λ n, s32 (n + credits) |>) ;;
     hif (HIF_config_pipe_ev pipe credits)
   else hwr8 (rsp + 3) 2) ;;
  _HTC_SendMsg ENDPOINT0 buf.

Definition HTCControlSvcProcessMsg (eid hdr_buf buf : Z) : HT unit :=
  assert_ (hdr_buf =? 0) ;;
  '(a, _) ← hnb (adf_nbuf_peek_header buf);
  id ← hrd16 a;
  (if id =? HTC_MSG_CONNECT_SERVICE_ID then HTCProcessConnectMsg a
   else if id =? HTC_MSG_CONFIG_PIPE_ID then HTCProcessConfigPipeMsg a
   else mret tt) ;;
  s ← get;
  (if tst (StateFlags s) HTC_STATE_SETUP_COMPLETE then _HTC_ReturnBuffers ENDPOINT0 buf
   else
     hnb (adf_nbuf_push_head buf HTC_HDR_LENGTH) ;;
     e ← rd_ep eid;
     hif (HIF_return_recv_buf_ev (UpLinkPipeID e) buf)) ;;
  when (id =? HTC_MSG_SETUP_COMPLETE_ID)
    (modify (λ s, s <| StateFlags ::= λ f, f .| HTC_STATE_SETUP_COMPLETE |>) ;;
     SetupCompleteCb).

(** [HTCControlSvcProcessMsg_patch] (init.c) *)
Definition HTCControlSvcProcessMsg_patch (eid hdr_buf buf : Z) : HT unit :=
  '(a, _) ← hnb (adf_nbuf_peek_header buf);
  id ← hrd16 a;
  when (id =? HTC_MSG_SETUP_COMPLETE_ID) (modify (λ s, s <| htc_complete_setup := 1 |>)) ;;
  HTCControlSvcProcessMsg eid hdr_buf buf.

Definition HTCControlSvcProcessSendComplete (eid buf : Z) : HT unit :=
  fl ← get_ctx buf 1;
  when (tst fl HTC_FLAGS_CREDIT_RPT)
    (upd_ep (fl .& HTC_FLAGS_CRPT_EP_MASK)
       (λ e, e <| PendingCreditReports ::= λ n, s32 (n - 1) |>)) ;;
  HTCFreeMsgBuffer buf ;;
  s ← get;
  when (tst (StateFlags s) HTC_SEND_CREDIT_UPDATE_SOON)
    (modify (λ s, s <| StateFlags ::= λ f, f .&~ HTC_SEND_CREDIT_UPDATE_SOON |>) ;;
     HTCCheckAndSendCreditReport HTC_ANY_ENDPOINT_MASK None ENDPOINT_MAX).

(** *** Callbacks from the USB layer *)

Definition HTCSendDoneHandler (buf : Z) : HT unit :=
  eid ← get_ctx buf 0;
  hnb (adf_nbuf_pull_head buf HTC_HDR_LENGTH) ;;
  e ← rd_ep eid;
  svc ← deref (pService e);
  match svc with
  | HTCControlService => HTCControlSvcProcessSendComplete eid buf
  | Service i => ProcessSendBufferComplete i eid buf
  end.

(** The credit bookkeeping of a received frame with header flags [flags]. *)
Definition recv_credits (eid flags : Z) : HT unit :=
  let eidMask := u32 (1 .<< eid) in
  s ← get;
  when (tst (StateFlags s) HTC_STATE_SETUP_COMPLETE)
    (upd_ep eid (λ e, e <| CreditsConsumed ::= λ n, s16 (n + 1) |>)) ;;
  if tst flags HTC_FLAGS_NEED_CREDIT_UPDATE then
    modify (λ s, s <| EpHostNeedsCreditMap ::= λ m, m .| eidMask |>) ;;
    upd_ep eid CHECK_AND_ADJUST_CREDIT_THRESHOLD
  else
    modify (λ s, s <| EpHostNeedsCreditMap ::= λ m, m .&~ eidMask |>) ;;
    upd_ep eid (λ e, e <| CreditReturnThreshhold := 0 |>).

Definition HTCMsgRecvHandler (hdr_buf buf : Z) : HT unit :=
  let tmp := if hdr_buf =? 0 then buf else hdr_buf in
  '(a, _) ← hnb (adf_nbuf_peek_header tmp);
  eid ← hrd8 a;
  flags ← hrd8 (a + 1);
  if tst flags HTC_FLAGS_CREDIT_REDISTRIBUTION then mret tt else
  recv_credits eid flags ;;
  hnb (adf_nbuf_pull_head tmp HTC_HDR_LENGTH) ;;
  e ← rd_ep eid;
  svc ← deref (pService e);
  match svc with
  | HTCControlService => HTCControlSvcProcessMsg_patch eid hdr_buf buf
  | Service i => ProcessRecvMsg i eid hdr_buf buf
  end ;;
  HTCCheckAndSendCreditReport (u32 (1 .<< eid)) (Some eid) eid.

(** [HTCMsgRecvHandler_patch] (init.c): the endpoint number is checked before anything is
    done with it; before the setup is complete only endpoint 0 is served. *)
Definition HTCMsgRecvHandler_patch (hdr_buf buf : Z) : HT unit :=
  let tmp := if hdr_buf =? 0 then buf else hdr_buf in
  '(a, len) ← hnb (adf_nbuf_peek_header tmp);
  eid ← hrd8 a;
  s ← get;
  if negb (eid =? 0) && (htc_complete_setup s =? 0) then
    if eid =? 1 then _HTC_ReturnBuffers 1 tmp
    else if (eid =? 5) || (eid =? 6) then _HTC_ReturnBuffers 6 tmp
    else mret tt
  else if eid >=? ENDPOINT_MAX then
    if 64 <? len then _HTC_ReturnBuffers 6 tmp
    else hif (WrongEpid_ev eid) ;; _HTC_ReturnBuffers 1 tmp
  else HTCMsgRecvHandler hdr_buf buf.

End htc_services.
