(* ===== verification/Wmi.v ===== *)
(** * The wireless module interface service (target/wmi/wmi_svc.c)

    WMI dispatches the host's commands to the handlers registered in a chain of dispatch
    tables and sends replies and events back. It is a client of [Htc]: its state is the
    application state of [htc_state], next to whatever else the firmware keeps there. *)

From S2P Require Import Prelude.
From S2P Require Export Htc.

Definition sizeof_WMI_CMD_HDR : Z := 4.
Definition WMI_SVC_MAX_BUFFERED_EVENT_SIZE : Z := 100.
Definition WMI_SVC_MSG_SIZE : Z := 1536.
(** [MAKE_SERVICE_ID(WMI_SERVICE_GROUP, 0)] *)
Definition WMI_CONTROL_SVC : Z := 0x100.
Definition WMI_EVT_CLASS_CMD_EVENT : Z := 0.
Definition WMI_EVT_CLASS_CMD_REPLY : Z := 1.

(** [WMI_DISPATCH_ENTRY]: the handler by its number, [None] for NULL. *)
Record WMI_DISPATCH_ENTRY := mk_entry { pCmdHandler : option nat; CmdID : Z; CheckLength : Z }.
(** [WMI_DISPATCH_TABLE]: the context handed to the handlers, and the entries. *)
Record WMI_DISPATCH_TABLE := mk_table { pContext : Z; pTable : list WMI_DISPATCH_ENTRY }.

(** [WMI_SVC_CONTEXT]; the chain of tables as the list from head to tail. *)
Record WMI_SVC_CONTEXT := mk_wmi {
  PendingEvents : Z; ControlEp : Z; dispatch : list WMI_DISPATCH_TABLE }.
#[export] Instance eta_wmi : EtaExp WMI_SVC_CONTEXT := λ w,
  mk_wmi (PendingEvents w) (ControlEp w) (dispatch w).

Record wmi_app (A : Type) := mk_app { wmi : WMI_SVC_CONTEXT; rest : A }.
Arguments mk_app {A}. Arguments wmi {A}. Arguments rest {A}.
#[export] Instance eta_app {A} : EtaExp (wmi_app A) := λ a, mk_app (wmi a) (rest a).

(** The command handlers the tables name: context, command, sequence number, address and
    length of the command's data. *)
Class WmiHandlers (A : Type) := {
  run_cmd (h : nat) (context cmd seq cmdBuffer len : Z) : M (htc_state (wmi_app A)) unit;
}.

Section wmi_svc.
Context {A : Type}.
Abbreviation WT := (M (htc_state (wmi_app A))).

Definition upd_wmi (f : WMI_SVC_CONTEXT → WMI_SVC_CONTEXT) : WT unit :=
  modify (λ s, s <| h_app ::= λ a, a <| wmi ::= f |> |>).

(** *** Finding the handler *)

(** The scan of one table stops at the first entry for the command, whose handler is
    dropped when the command is shorter than the entry asks. *)
Fixpoint scan_table (entries : list WMI_DISPATCH_ENTRY) (cmd len : Z) : option nat :=
  match entries with
  | [] => None
  | e :: es =>
      if CmdID e =? cmd then
        if negb (CheckLength e =? 0) && (len <? CheckLength e) then None else pCmdHandler e
      else scan_table es cmd len
  end.
Fixpoint find_handler (tables : list WMI_DISPATCH_TABLE) (cmd len : Z) : option (Z * nat) :=
  match tables with
  | [] => None
  | t :: ts => match scan_table (pTable t) cmd len with
               | Some h => Some (pContext t, h)
               | None => find_handler ts cmd len
               end
  end.

Definition WMIRecvMessageHandler `{!WmiHandlers A} (eid hdr_buf buf : Z) : WT unit :=
  assert_ (hdr_buf =? 0) ;;
  len ← hnb (adf_nbuf_len buf);
  (if len <? sizeof_WMI_CMD_HDR then mret tt else
   '(a, _) ← hnb (adf_nbuf_peek_header buf);
   s ← get;
   let len := len - sizeof_WMI_CMD_HDR in
   cmd ← hrd16 a;
   seq ← hrd16 (a + 2);
   match find_handler (dispatch (wmi (h_app s))) cmd len with
   | None => mret tt
   | Some (context, h) => run_cmd h context cmd seq (a + sizeof_WMI_CMD_HDR) len
   end) ;;
  _HTC_ReturnBuffers eid buf.

(** *** Events *)

Definition evt_pool (EventClass : Z) : nat :=
  if EventClass =? WMI_EVT_CLASS_CMD_EVENT then POOL_ID_WMI_SVC_EVENT
  else POOL_ID_WMI_SVC_CMD_REPLY.

(** [WMI_BUF_CONTEXT.EventClass]: the word at offset 4 of the private area. *)
Definition get_event_class (buf : Z) : WT Z :=
  b0 ← get_ctx buf 4; b1 ← get_ctx buf 5; b2 ← get_ctx buf 6; b3 ← get_ctx buf 7;
  mret (s32 (((b0 * 256 + b1) * 256 + b2) * 256 + b3)).
Definition set_event_class (buf v : Z) : WT unit :=
  set_ctx buf 4 (v .>> 24) ;; set_ctx buf 5 (v .>> 16) ;; set_ctx buf 6 (v .>> 8) ;; set_ctx buf 7 v.

Definition _WMI_SendCompleteHandler (eid buf : Z) : WT unit :=
  cls ← get_event_class buf;
  hnb (_buf_pool_static_free_buf (evt_pool cls) buf).

(** The reply to the connection request: status and length of the reply's data. *)
Definition WMIServiceConnect (eid : Z) : WT (Z * Z) :=
  upd_wmi (λ w, w <| ControlEp := eid |>) ;; mret (HTC_SERVICE_SUCCESS, 0).

Definition _WMI_Init (MaxCmdReplyEvts MaxEventEvts : Z) : WT unit :=
  let eventSize := WMI_SVC_MAX_BUFFERED_EVENT_SIZE + sizeof_WMI_CMD_HDR + HTC_HDR_LENGTH in
  upd_wmi (λ w, w <| dispatch := [] |>) ;;
  hnb (_buf_pool_static_create_pool POOL_ID_WMI_SVC_CMD_REPLY MaxCmdReplyEvts eventSize) ;;
  hnb (_buf_pool_static_create_pool POOL_ID_WMI_SVC_EVENT MaxEventEvts eventSize) ;;
  _HTC_RegisterService (mk_svc WMI_CONTROL_SVC 0 (WMI_SVC_MSG_SIZE + sizeof_WMI_CMD_HDR)
                          WMI_SVC_MAX_BUFFERED_EVENT_SIZE).

Definition _WMI_GetPendingEventsCount : WT Z := gets (λ s, PendingEvents (wmi (h_app s))).
Definition _WMI_GetControlEp : WT Z := gets (λ s, ControlEp (wmi (h_app s))).

Definition _WMI_RegisterDispatchTable (t : WMI_DISPATCH_TABLE) : WT unit :=
  upd_wmi (λ w, w <| dispatch ::= λ l, l ++ [t] |>).

Definition _WMI_AllocEvent (EventClass : Z) : WT Z :=
  buf ← hnb (_buf_pool_static_alloc_buf (evt_pool EventClass)
               (sizeof_WMI_CMD_HDR + _HTC_GetReservedHeadroom));
  when (negb (buf =? 0)) (set_event_class buf EventClass) ;;
  mret buf.

Definition _WMI_SendEvent (pEvt EventId SeqNo : Z) : WT unit :=
  a ← hnb (adf_nbuf_push_head pEvt sizeof_WMI_CMD_HDR);
  hwr16 a EventId ;;
  hwr16 (a + 2) SeqNo ;;
  s ← get;
  _HTC_SendMsg (ControlEp (wmi (h_app s))) pEvt.

End wmi_svc.
