(* ===== verification/TxTypes.v ===== *)
(** * State of the transmit path (if_athvar.h, ah_desc.h, wlan_hdr.h, wmi.h)

    The target's [struct ath_softc_tgt] as a record, over the buffer heap of [NBuf], the
    chip of [Hal] and the windows of [Baw], with the accessors the transmit code uses.
    Pointers to table entries are indices ([option nat], [None] for NULL); a transmit
    buffer is named by its position in the array [sc_txdma]; a descriptor by its address.
    A tail queue is the list of its elements. Calls that leave the wireless core towards
    the host (HTC, WMI) are recorded in [sc_host] in the order they are made. *)

From S2P Require Import Prelude.
From S2P Require Export NBuf.
From S2P Require Export Hal.
From S2P Require Export Baw.
From S2P Require Export RateTables.

(** ** Frame format (ieee80211.h) *)
Definition IEEE80211_FC0_TYPE_MASK : Z := 0x0c.
Definition IEEE80211_FC0_TYPE_MGT : Z := 0x00.
Definition IEEE80211_FC0_TYPE_CTL : Z := 0x04.
Definition IEEE80211_FC0_TYPE_DATA : Z := 0x08.
Definition IEEE80211_FC0_SUBTYPE_MASK : Z := 0xf0.
Definition IEEE80211_FC0_SUBTYPE_PROBE_RESP : Z := 0x50.
Definition IEEE80211_FC0_SUBTYPE_ATIM : Z := 0x90.
Definition IEEE80211_FC0_SUBTYPE_AUTH : Z := 0xb0.
Definition IEEE80211_FC0_SUBTYPE_QOS : Z := 0x80.
Definition IEEE80211_FC0_SUBTYPE_BAR : Z := 0x80.
Definition IEEE80211_FC0_SUBTYPE_CTS : Z := 0xc0.
Definition IEEE80211_FC0_SUBTYPE_ACK : Z := 0xd0.
Definition IEEE80211_FC0_VERSION_0 : Z := 0x00.
Definition IEEE80211_FC1_DIR_MASK : Z := 0x03.
Definition IEEE80211_FC1_DIR_NODS : Z := 0x00.
Definition IEEE80211_FC1_DIR_DSTODS : Z := 0x03.
Definition IEEE80211_FC1_MORE_FRAG : Z := 0x04.
Definition IEEE80211_FC1_RETRY : Z := 0x08.
Definition IEEE80211_FC1_WEP : Z := 0x40.
Definition IEEE80211_WEP_ICVLEN : Z := 4.
Definition IEEE80211_WEP_MICLEN : Z := 8.
Definition IEEE80211_CRC_LEN : Z := 4.
Definition IEEE80211_ADDR_LEN : Z := 6.
Definition IEEE80211_BAR_CTL_TID_S : Z := 12.
Definition IEEE80211_BAR_CTL_COMBA : Z := 0x0004.
Definition IEEE80211_PROT_NONE : Z := 0.
Definition IEEE80211_PROT_CTSONLY : Z := 1.
Definition IEEE80211_PROT_RTSCTS : Z := 2.
Definition IEEE80211_AMPDU_LIMIT_MAX : Z := 64 * 1024 - 1.
Definition IEEE80211_REASON_UNSPECIFIED : Z := 1.
(** Field offsets and structure sizes. *)
Definition off_fc0 : Z := 0.
Definition off_fc1 : Z := 1.
Definition off_addr1 : Z := 4.
Definition off_seq : Z := 22.
Definition off_qos4 : Z := 30.
Definition sizeof_frame : Z := 24.
Definition sizeof_frame_min : Z := 16.
Definition sizeof_frame_ack : Z := 10.
Definition sizeof_frame_bar : Z := 20.
Definition off_bar_ctl : Z := 16.
Definition off_bar_seq : Z := 18.

(** ** Constants of the transmit code *)
Definition ATH_RC_DS_FLAG : Z := 0x01.
Definition ATH_RC_CW40_FLAG : Z := 0x02.
Definition ATH_RC_HT40_SGI_FLAG : Z := 0x04.
Definition ATH_RC_HT_FLAG : Z := 0x08.
Definition ATH_RC_RTSCTS_FLAG : Z := 0x10.
Definition ATH_RC_TX_STBC_FLAG : Z := 0x20.
Definition ATH_RC_PROBE_ALLOWED : Z := 1.
Definition ATH_AGGR_DELIM_SZ : Z := 4.
Definition ATH_AGGR_MINPLEN : Z := 256.
Definition ATH_AGGR_ENCRYPTDELIM : Z := 10.
Definition ATH_AGGR_MIN_QDEPTH : Z := 1.
Definition OWLMAX_RETRIES : Z := 10.
Definition OWLMAX_BAR_RETRIES : Z := 10.
Definition ATH_TXMAXTRY : Z := 11.
Definition ATH_SHORT_PREAMBLE : Z := 1.
Definition HTC_MAX_TX_STATUS : Z := 12.
Definition ATH9K_HTC_TXSTAT_RATE : Z := 0x0f.
Definition ATH9K_HTC_TXSTAT_EPID : Z := 0xf0.
Definition TXSTAT_ACK : Z := 1.
Definition TXSTAT_FILT : Z := 2.
Definition TXSTAT_RTC_CTS : Z := 4.
Definition TXSTAT_MCS : Z := 8.
Definition TXSTAT_CW40 : Z := 16.
Definition TXSTAT_SGI : Z := 32.
Definition TARGET_NODE_MAX : Z := 8.
Definition HAL_NUM_TX_QUEUES : Z := 10.
Definition HAL_KEY_TYPE_CLEAR : Z := 0.
Definition HAL_KEY_TYPE_WEP : Z := 1.
Definition HAL_KEY_TYPE_AES : Z := 2.
Definition HAL_KEY_TYPE_TKIP : Z := 3.
Definition HAL_KEY_TYPE_WAPI : Z := 4.
Definition HAL_PKT_TYPE_NORMAL : Z := 0.
Definition HAL_PKT_TYPE_ATIM : Z := 1.
Definition HAL_PKT_TYPE_PROBE_RESP : Z := 4.
(** [sizeof(struct ath_tx_desc)] *)
Definition TX_DESC_SIZE : Z := 136.

(** [TID_TO_WME_AC] *)
Definition TID_TO_WME_AC (tid : Z) : nat :=
  if (tid =? 0) || (tid =? 3) then 0
  else if (tid =? 1) || (tid =? 2) then 1
  else if (tid =? 4) || (tid =? 5) then 2 else 3.

(** ** Rate series and the rate-control interface *)
(** [struct ath_rc_series] *)
Record rc_series := mk_rc {
  rix : Z; tries : Z; rcs_chainmask : Z; rc_flags : Z; max4msframelen : Z; txrateKbps : Z }.
#[export] Instance eta_rc_series : EtaExp rc_series := λ r,
  mk_rc (rix r) (tries r) (rcs_chainmask r) (rc_flags r) (max4msframelen r) (txrateKbps r).
Definition rc_zero : rc_series := mk_rc 0 0 0 0 0 0.

(** What the transmit path asks of rate control (ratectrl_11n_ln.c): rates for the next
    frame of a node, with the probe flag, and the digestion of a completed frame. The
    functions take the softc; of it they read the current mode. *)
Class RateControl (RC : Type) := {
  ath_rate_findrate (mode : phymode) (an : nat) (frameLen numTries numRates stepDnInc rcflag : Z)
    (series : list rc_series) : M RC (list rc_series * Z);
  ath_rate_tx_complete (mode : phymode) (an : nat) (ds : ath_tx_desc) (rcs : list rc_series)
    (nframes nbad : Z) : M RC unit;
}.

(** A rate index the HAL's table of the mode has a row for. *)
Definition rate_known (mode : phymode) (i : Z) : Prop :=
  0 <= i ∧ is_Some (sc_rates mode !! Z.to_nat i).

(** The promise the transmit path relies on: while rate control serves a node, it always
    answers, with four series of known rates, and goes on serving it. *)
Class RateControlLaws (RC : Type) `{!RateControl RC} := {
  rc_serves : phymode → nat → RC → Prop;
  findrate_answers mode an frameLen series r :
    rc_serves mode an r → length series = 4%nat →
    ∃ rcs probe r', ath_rate_findrate mode an frameLen 10 4 1 ATH_RC_PROBE_ALLOWED series r =
                      Ok ((rcs, probe), r') ∧
      rc_serves mode an r' ∧ length rcs = 4%nat ∧ Forall (λ s, rate_known mode (rix s)) rcs;
}.

(** ** Transmit buffers *)
(** The values of [bf_comp] and [bf_txq_add]. *)
Inductive comp_fn := ath_tgt_tx_comp_normal_fn | ath_tgt_tx_comp_aggr_fn | ath_bar_tx_comp_fn.
#[export] Instance comp_fn_eq_dec : EqDecision comp_fn.
Proof. solve_decision. Defined.
Inductive add_fn := ath_tgt_txq_add_ucast_fn.

(** [struct ath_buf_state] *)
Record ath_buf_state := mk_bfs {
  bfs_comp : option comp_fn; bfs_txq_add : option add_fn; bfs_pktlen : Z; bfs_seqno : Z;
  bfs_hdrlen : Z; bfs_keyix : Z; bfs_atype : Z; bfs_ndelim : Z; bfs_nframes : Z;
  bfs_tidno : Z; bfs_al : Z; bfs_rcs : list rc_series; bfs_txq : option nat;
  bfs_protmode : Z; bfs_keytype : Z; bfs_retries : Z; bfs_ismcast : bool;
  bfs_shpream : bool; bfs_isaggr : bool; bfs_isretried : bool;
}.
#[export] Instance eta_bfs : EtaExp ath_buf_state := λ b,
  mk_bfs (bfs_comp b) (bfs_txq_add b) (bfs_pktlen b) (bfs_seqno b) (bfs_hdrlen b)
    (bfs_keyix b) (bfs_atype b) (bfs_ndelim b) (bfs_nframes b) (bfs_tidno b) (bfs_al b)
    (bfs_rcs b) (bfs_txq b) (bfs_protmode b) (bfs_keytype b) (bfs_retries b)
    (bfs_ismcast b) (bfs_shpream b) (bfs_isaggr b) (bfs_isretried b).
Definition bfs_zero : ath_buf_state :=
  mk_bfs None None 0 0 0 0 0 0 0 0 0 (replicate 4 rc_zero) None 0 0 0 false false false false.

(** [struct ath_tx_buf]; [bf_dmamap] is the mapped nbuf, [bf_dmamap_info] the segments
    (address and length) of the last [adf_nbuf_dmamap_info]. *)
Record ath_tx_buf := mk_txbuf {
  bf_dmamap : Z; bf_dmamap_info : list (Z * Z); bf_node : option nat; bf_skbhead : qhead;
  bf_skb : Z; bf_next : option nat; bf_desc : Z; bf_descarr : Z; bf_lastds : Z;
  bf_state : ath_buf_state; bf_flags : Z; bf_endpt : Z; bf_cookie : Z; vap_index : Z;
}.
#[export] Instance eta_txbuf : EtaExp ath_tx_buf := λ b,
  mk_txbuf (bf_dmamap b) (bf_dmamap_info b) (bf_node b) (bf_skbhead b) (bf_skb b)
    (bf_next b) (bf_desc b) (bf_descarr b) (bf_lastds b) (bf_state b) (bf_flags b)
    (bf_endpt b) (bf_cookie b) (vap_index b).

Abbreviation bf_comp b := (bfs_comp (bf_state b)).
Abbreviation bf_pktlen b := (bfs_pktlen (bf_state b)).
Abbreviation bf_seqno b := (bfs_seqno (bf_state b)).
Abbreviation bf_tidno b := (bfs_tidno (bf_state b)).
Abbreviation bf_retries b := (bfs_retries (bf_state b)).
Abbreviation bf_isretried b := (bfs_isretried (bf_state b)).
Abbreviation bf_isaggr b := (bfs_isaggr (bf_state b)).
Abbreviation bf_ismcast b := (bfs_ismcast (bf_state b)).
Abbreviation bf_shpream b := (bfs_shpream (bf_state b)).
Abbreviation bf_nframes b := (bfs_nframes (bf_state b)).
Abbreviation bf_ndelim b := (bfs_ndelim (bf_state b)).
Abbreviation bf_al b := (bfs_al (bf_state b)).
Abbreviation bf_rcs b := (bfs_rcs (bf_state b)).
Abbreviation bf_txq b := (bfs_txq (bf_state b)).
Abbreviation bf_protmode b := (bfs_protmode (bf_state b)).
Abbreviation bf_keytype b := (bfs_keytype (bf_state b)).
Abbreviation bf_keyix b := (bfs_keyix (bf_state b)).
Abbreviation bf_atype b := (bfs_atype (bf_state b)).

(** ** Queues, nodes, interfaces *)

(** [struct ath_txq]; [axq_link] is the descriptor whose link field chains the next
    frame ([None] for NULL). *)
Record ath_txq := mk_txq {
  axq_qnum : Z; axq_link : option Z; axq_q : list nat; axq_depth : Z;
  axq_linkbuf : option nat; axq_tidq : list (nat * Z);
}.
#[export] Instance eta_txq : EtaExp ath_txq := λ q,
  mk_txq (axq_qnum q) (axq_link q) (axq_q q) (axq_depth q) (axq_linkbuf q) (axq_tidq q).

(** [struct ath_node_target] with its embedded [struct ieee80211_node_target]. *)
Record ath_node_target := mk_node {
  ni_macaddr : list Z; ni_bssid : list Z; ni_nodeindex : Z; ni_vapindex : Z;
  ni_is_vapnode : Z; ni_flags : Z; ni_htcap : Z; ni_maxampdu : Z; ni_txseqmgmt : Z;
  ni_iv16 : Z; ni_iv32 : Z; ni_vap : option nat;
  an_tid : list ath_atx_tid; an_valid : bool;
}.
#[export] Instance eta_node : EtaExp ath_node_target := λ n,
  mk_node (ni_macaddr n) (ni_bssid n) (ni_nodeindex n) (ni_vapindex n) (ni_is_vapnode n)
    (ni_flags n) (ni_htcap n) (ni_maxampdu n) (ni_txseqmgmt n) (ni_iv16 n) (ni_iv32 n)
    (ni_vap n) (an_tid n) (an_valid n).

(** [struct ath_vap_target] with its embedded [struct ieee80211vap_target]. *)
Record ath_vap_target := mk_vap {
  iv_vapindex : Z; iv_opmode : Z; iv_myaddr : list Z; iv_ath_cap : Z;
  iv_rtsthreshold : Z; iv_nodeindex : Z; iv_bss : option nat;
  av_rate_mask : Z * Z; av_minrateidx : Z * Z; av_valid : bool;
}.
#[export] Instance eta_vap : EtaExp ath_vap_target := λ v,
  mk_vap (iv_vapindex v) (iv_opmode v) (iv_myaddr v) (iv_ath_cap v) (iv_rtsthreshold v)
    (iv_nodeindex v) (iv_bss v) (av_rate_mask v) (av_minrateidx v) (av_valid v).

(** [struct ieee80211com_target] *)
Record com_target := mk_ic {
  ic_ampdu_limit : Z; ic_ampdu_subframes : Z; ic_enable_coex : Z; ic_tx_chainmask : Z }.

(** [__WMI_TXSTATUS_EVENT] and [WMI_TXSTATUS_EVENT] *)
Record txstatus := mk_txs { cookie : Z; txs_rate : Z; txs_flags : Z }.
#[export] Instance eta_txs : EtaExp txstatus := λ t, mk_txs (cookie t) (txs_rate t) (txs_flags t).
Record txstatus_event := mk_txsev { cnt : Z; txs_list : list txstatus }.
#[export] Instance eta_txsev : EtaExp txstatus_event := λ t, mk_txsev (cnt t) (txs_list t).

(** The counters of [struct ath_tx_stats] that the transmit path touches. *)
Inductive tx_stat :=
  ast_tx_xretries | ast_tx_fifoerr | ast_tx_filtered | ast_tx_timer_exp | ast_tx_shortretry
| ast_tx_longretry | ast_tx_altrate | ast_tx_protect | tx_qnull | txaggr_nframes
| tx_compunaggr | tx_compaggr | txaggr_retries | txaggr_single | txaggr_compgood
| txaggr_compretries | txaggr_prepends | txaggr_data_urun | txaggr_delim_urun
| txaggr_errlast | txaggr_longretries | txaggr_babug | txaggr_compxretry
| txaggr_shortretries | txaggr_timer_exp | txunaggr_compretries | txaggr_filtered
| txaggr_fifo | txaggr_xtxop | txaggr_desc_cfgerr | txunaggr_errlast | txunaggr_xretry
| txaggr_xretries | tx_stopfiltered | tx_noskbs | tx_nobufs | tx_bars | txbar_xretry
| txbar_compretries | txbar_errlast | tx_tgt.
#[export] Instance tx_stat_eq_dec : EqDecision tx_stat.
Proof. solve_decision. Defined.

(** Calls to the host side, in order. *)
Inductive host_event :=
  | HTC_ReturnBuffers_ev (endpt skb : Z)
  | HTC_SendMsg_ev (endpt skb : Z)
  | WMI_SendMsg_ev (pEvt : Z) (msg : list Z).   (* [HTC_SendMsg] of a reply or an event, its bytes *)

(** ** The target's state *)
Record softc (HW RC : Type) := mk_sc {
  sc_nb : nb_state;                   (* the nbuf heap *)
  sc_mem : gmap Z Z;                  (* the bytes of the frames, by address *)
  sc_hal : ath_hal HW;                (* sc_ah *)
  sc_rc : RC;                         (* rate control *)
  sc_bufs : list ath_tx_buf;          (* the array the transmit buffers live in *)
  sc_descs : gmap Z ath_tx_desc;      (* the transmit descriptors, by address *)
  sc_txbuf : list nat; sc_txbuf_held : option nat;
  sc_txqs : list ath_txq; sc_txqsetup : Z; sc_ac2q : list nat; sc_cabq : option nat;
  sc_sta : list ath_node_target; sc_vap : list ath_vap_target; sc_ic : com_target;
  sc_tx_draining : bool; sc_imask : Z; sc_curmode : phymode;
  sc_currates : HAL_RATE_TABLE; sc_rt11n : list rc11n_info; sc_protrix : Z;
  sc_tx_stats : tx_stat → Z; sc_tx_status : list txstatus_event;
  sc_host : list host_event;
}.
Arguments mk_sc {HW RC}.
Arguments sc_nb {HW RC}. Arguments sc_mem {HW RC}. Arguments sc_hal {HW RC}.
Arguments sc_rc {HW RC}. Arguments sc_bufs {HW RC}. Arguments sc_descs {HW RC}.
Arguments sc_txbuf {HW RC}. Arguments sc_txbuf_held {HW RC}. Arguments sc_txqs {HW RC}.
Arguments sc_txqsetup {HW RC}. Arguments sc_ac2q {HW RC}. Arguments sc_cabq {HW RC}.
Arguments sc_sta {HW RC}. Arguments sc_vap {HW RC}. Arguments sc_ic {HW RC}.
Arguments sc_tx_draining {HW RC}. Arguments sc_imask {HW RC}. Arguments sc_curmode {HW RC}.
Arguments sc_currates {HW RC}. Arguments sc_rt11n {HW RC}. Arguments sc_protrix {HW RC}.
Arguments sc_tx_stats {HW RC}. Arguments sc_tx_status {HW RC}. Arguments sc_host {HW RC}.
#[export] Instance eta_sc {HW RC} : EtaExp (softc HW RC) := λ s,
  mk_sc (sc_nb s) (sc_mem s) (sc_hal s) (sc_rc s) (sc_bufs s) (sc_descs s) (sc_txbuf s)
    (sc_txbuf_held s) (sc_txqs s) (sc_txqsetup s) (sc_ac2q s) (sc_cabq s) (sc_sta s)
    (sc_vap s) (sc_ic s) (sc_tx_draining s) (sc_imask s) (sc_curmode s) (sc_currates s)
    (sc_rt11n s) (sc_protrix s) (sc_tx_stats s) (sc_tx_status s) (sc_host s).

Section access.
Context {HW RC : Type}.
Abbreviation TX := (M (softc HW RC)).

(** Running a component on its part of the state. *)
Definition nb {A} (m : NB A) : TX A := λ s,
  match m (sc_nb s) with
  | Ok (a, n) => Ok (a, s <| sc_nb := n |>)
  | Fault f => Fault f
  end.
Definition hal {A} (m : M (ath_hal HW) A) : TX A := λ s,
  match m (sc_hal s) with
  | Ok (a, h) => Ok (a, s <| sc_hal := h |>)
  | Fault f => Fault f
  end.
Definition rc {A} (m : M RC A) : TX A := λ s,
  match m (sc_rc s) with
  | Ok (a, r) => Ok (a, s <| sc_rc := r |>)
  | Fault f => Fault f
  end.

(** Access through pointers to table entries. *)
Definition rd_bf (p : nat) : TX ath_tx_buf := s ← get; in_range (sc_bufs s !! p).
Definition upd_bf (p : nat) (f : ath_tx_buf → ath_tx_buf) : TX unit :=
  b ← rd_bf p; modify (λ s, s <| sc_bufs ::= <[p := f b]> |>).
Definition upd_bfs (p : nat) (f : ath_buf_state → ath_buf_state) : TX unit :=
  upd_bf p (λ b, b <| bf_state ::= f |>).
Definition rd_ds (a : Z) : TX ath_tx_desc := s ← get; deref (sc_descs s !! a).
Definition upd_ds (a : Z) (f : ath_tx_desc → ath_tx_desc) : TX unit :=
  d ← rd_ds a; modify (λ s, s <| sc_descs ::= <[a := f d]> |>).
Definition rd_txq (i : nat) : TX ath_txq := s ← get; in_range (sc_txqs s !! i).
Definition upd_txq (i : nat) (f : ath_txq → ath_txq) : TX unit :=
  q ← rd_txq i; modify (λ s, s <| sc_txqs ::= <[i := f q]> |>).
Definition rd_node (i : nat) : TX ath_node_target := s ← get; in_range (sc_sta s !! i).
Definition upd_node (i : nat) (f : ath_node_target → ath_node_target) : TX unit :=
  n ← rd_node i; modify (λ s, s <| sc_sta ::= <[i := f n]> |>).
(** [ATH_AN_2_TID(an, tidno)]: the pair names the TID; the access checks it. *)
Definition rd_tid (t : nat * Z) : TX ath_atx_tid :=
  n ← rd_node t.1; in_range (an_tid n !! Z.to_nat t.2).
Definition upd_tid (t : nat * Z) (f : ath_atx_tid → ath_atx_tid) : TX unit :=
  x ← rd_tid t; upd_node t.1 (λ n, n <| an_tid ::= <[Z.to_nat t.2 := f x]> |>).
(** The TID operations of [Baw] that can run out of fuel. *)
Definition upd_tid_o (t : nat * Z) (f : ath_atx_tid → option ath_atx_tid) : TX unit :=
  x ← rd_tid t;
  match f x with Some x' => upd_tid t (λ _, x') | None => fail OutOfFuel end.

(** The counters: [__stats] and [__statsn]. *)
Definition __statsn (x : tx_stat) (n : Z) : TX unit :=
  modify (λ s, s <| sc_tx_stats ::= λ c y, if decide (y = x) then u32 (c y + n) else c y |>).
Definition __stats (x : tx_stat) : TX unit := __statsn x 1.

(** A call to the host side. *)
Definition host (e : host_event) : TX unit := modify (λ s, s <| sc_host ::= λ l, l ++ [e] |>).

(** Frame bytes; RAM reads as 0 where nothing was written. The CPU is big-endian. *)
Definition rd8 (a : Z) : TX Z := gets (λ s, default 0 (sc_mem s !! a)).
Definition wr8 (a v : Z) : TX unit := modify (λ s, s <| sc_mem ::= <[a := u8 v]> |>).
Definition wr16 (a v : Z) : TX unit := wr8 a (v .>> 8) ;; wr8 (a + 1) v.

(** Tail queues of buffers owned by the softc. *)
Definition asf_tailq_first {A} (l : list A) : option A := head l.
Definition asf_tailq_remove {A} `{EqDecision A} (x : A) (l : list A) : list A :=
  filter (λ y, y ≠ x) l.

End access.
