(* ===== verification/TxEvent.v ===== *)
(** * Replies and events for the host

    [wmi_event] and [wmi_cmd_rsp] (wlan/if_ath.c) and what they use of the WMI service: a
    buffer of the service's pools is taken, filled, given its header and handed to HTC. The
    service itself is in [Wmi], on its own state; here its two functions run on the heap and
    the memory of the target, and agree with it. *)

From S2P Require Import Prelude.
From S2P Require Import Wmi.
From S2P Require Import TxTypes.

(** [WMI_EVENT_ID]: unlike the identifiers of commands, they have the bit 0x1000. *)
Definition WMI_SWBA_EVENTID : Z := 0x1002.
Definition WMI_FATAL_EVENTID : Z := 0x1003.
Definition WMI_BMISS_EVENTID : Z := 0x1005.
Definition WMI_DELBA_EVENTID : Z := 0x1006.
Definition WMI_TXSTATUS_EVENTID : Z := 0x1007.

(** ** The buffers of the service *)

(** A byte of the private area of a buffer. *)
Definition set_priv (buf : Z) (i : nat) (v : Z) : NB unit :=
  c ← adf_nbuf_get_priv buf; in_range (c !! i) ;; upd_vbuf buf (λ b, b <| ctx ::= <[i := u8 v]> |>).
(** [_WMI_AllocEvent] (target/wmi/wmi_svc.c): 0 when the pool of the class is empty. *)
Definition alloc_event (EventClass : Z) : NB Z :=
  buf ← _buf_pool_static_alloc_buf (evt_pool EventClass) (sizeof_WMI_CMD_HDR + _HTC_GetReservedHeadroom);
  when (negb (buf =? 0))
    (set_priv buf 4 (EventClass .>> 24) ;; set_priv buf 5 (EventClass .>> 16) ;;
     set_priv buf 6 (EventClass .>> 8) ;; set_priv buf 7 EventClass) ;;
  mret buf.

Lemma bind_same {S B C} (m m' : M S B) (k k' : B → M S C) (x : S) :
  m x = m' x → (∀ b y, k b y = k' b y) → (m ≫= k) x = (m' ≫= k') x.
Proof. intros E Hk. unfold mbind, M_bind. rewrite E. destruct (m' x) as [[b y]|]; [apply Hk|done]. Qed.
(** It is what the service does. *)
Section service.
Context {A : Type}.
Abbreviation WT := (M (htc_state (wmi_app A))).
Implicit Type s : htc_state (wmi_app A).

Lemma hnb_bind {B C} (m : NB B) (k : B → NB C) s :
  hnb (m ≫= k) s = (hnb m ≫= λ b, hnb (k b) : WT C) s.
Proof.
  unfold hnb, mbind, M_bind. destruct (m (h_nb s)) as [[b n]|]; [|done].
  change (h_nb (s <| h_nb := n |>)) with n. by destruct (k b n) as [[c n']|].
Qed.
Lemma hnb_ret {B} (b : B) s : hnb (mret b) s = (mret b : WT B) s.
Proof. by destruct s. Qed.
Lemma hnb_in_range {B} (o : option B) s : hnb (in_range o) s = (in_range o : WT B) s.
Proof. destruct o; [apply hnb_ret|done]. Qed.
Lemma hnb_set_priv buf i v s : hnb (set_priv buf i v) s = set_ctx buf i v s.
Proof.
  unfold set_priv, set_ctx, get_ctx. rewrite hnb_bind, bind_assoc. apply bind_same; [done|]. intros c s1.
  rewrite hnb_bind. apply bind_same; [apply hnb_in_range|done].
Qed.
Lemma alloc_event_service EventClass s : hnb (alloc_event EventClass) s = _WMI_AllocEvent EventClass s.
Proof.
  unfold alloc_event, _WMI_AllocEvent, set_event_class. rewrite hnb_bind. apply bind_same; [done|]. intros buf s1.
  rewrite hnb_bind. apply bind_same; [|intros; apply hnb_ret].
  destruct (negb (buf =? 0)); cbn [when]; [|apply hnb_ret].
  rewrite hnb_bind. apply bind_same; [apply hnb_set_priv|]. intros _ s2.
  rewrite hnb_bind. apply bind_same; [apply hnb_set_priv|]. intros _ s3.
  rewrite hnb_bind. apply bind_same; [apply hnb_set_priv|]. intros _ s4. apply hnb_set_priv.
Qed.
End service.

(** ** Messages *)
Section event.
Context {HW RC : Type}.
Abbreviation TX := (M (softc HW RC)).
Implicit Type s : softc HW RC.

Fixpoint rd_bytes (n : nat) (a : Z) : TX (list Z) :=
  match n with
  | O => mret []
  | S n => b ← rd8 a; l ← rd_bytes n (a + 1); mret (b :: l)
  end.
Fixpoint wr_bytes (a : Z) (l : list Z) : TX unit :=
  match l with
  | [] => mret tt
  | b :: l => wr8 a b ;; wr_bytes (a + 1) l
  end.

Definition WMI_AllocEvent (EventClass : Z) : TX Z := nb (alloc_event EventClass).
(** [HTC_SendMsg] on the control endpoint, noted with the bytes of the message: the header at
    [a] and what follows it. *)
Definition HTC_SendMsg_control (a pEvt : Z) : TX unit :=
  len ← nb (adf_nbuf_len pEvt);
  hdr ← rd_bytes 4 a;
  data ← rd_bytes (Z.to_nat (len - sizeof_WMI_CMD_HDR)) (a + sizeof_WMI_CMD_HDR);
  host (WMI_SendMsg_ev pEvt (hdr ++ data)).
Definition WMI_SendEvent (pEvt EventId SeqNo : Z) : TX unit :=
  a ← nb (adf_nbuf_push_head pEvt sizeof_WMI_CMD_HDR);
  wr16 a EventId ;;
  wr16 (a + 2) SeqNo ;;
  HTC_SendMsg_control a pEvt.

(** The bytes behind the buffer's data. *)
Definition put_data (netbuf : Z) (data : list Z) : TX unit :=
  pData ← nb (adf_nbuf_put_tail netbuf (Z.of_nat (length data))); wr_bytes pData data.

(** An event is lost when the service has no buffer for it, and its data when they are too
    long. *)
Definition wmi_event (evt_id : Z) (data : list Z) : TX unit :=
  netbuf ← WMI_AllocEvent WMI_EVT_CLASS_CMD_EVENT;
  if netbuf =? 0 then mret tt else
  let Length := Z.of_nat (length data) in
  when (negb (Length =? 0) && (Length <? WMI_SVC_MAX_BUFFERED_EVENT_SIZE)) (put_data netbuf data) ;;
  WMI_SendEvent netbuf evt_id 0.

(** There must be a buffer for a reply. *)
Definition wmi_cmd_rsp (cmd_id SeqNo : Z) (data : list Z) : TX unit :=
  netbuf ← WMI_AllocEvent WMI_EVT_CLASS_CMD_REPLY;
  if netbuf =? 0 then assert_ false else
  when (negb (Z.of_nat (length data) =? 0)) (put_data netbuf data) ;;
  WMI_SendEvent netbuf cmd_id SeqNo.

(** ** What is sent *)
Definition header (EventId SeqNo : Z) : list Z := [u8 (EventId .>> 8); u8 EventId; u8 (SeqNo .>> 8); u8 SeqNo].

Lemma header_read (m : gmap Z Z) a id seq :
  let m' := <[a + 2 + 1 := u8 seq]> (<[a + 2 := u8 (seq .>> 8)]> (<[a + 1 := u8 id]> (<[a := u8 (id .>> 8)]> m))) in
  map (λ x, default 0 (m' !! x)) [a; a + 1; a + 1 + 1; a + 1 + 1 + 1] = header id seq.
Proof.
  intros m'. replace (a + 1 + 1) with (a + 2) by lia. unfold header, m'. cbn [map].
  rewrite (lookup_insert_ne _ (a + 2 + 1) a), (lookup_insert_ne _ (a + 2) a), (lookup_insert_ne _ (a + 1) a), lookup_insert_eq by lia.
  rewrite (lookup_insert_ne _ (a + 2 + 1) (a + 1)), (lookup_insert_ne _ (a + 2) (a + 1)), lookup_insert_eq by lia.
  by rewrite (lookup_insert_ne _ (a + 2 + 1) (a + 2)), !lookup_insert_eq by lia.
Qed.
Lemma run_rd_bytes n : ∀ a s, ∃ l, rd_bytes n a s = Ok (l, s).
Proof.
  induction n as [|n IH]; intros a s; cbn [rd_bytes]; [eauto|]. erewrite bind_ok by reflexivity.
  destruct (IH (a + 1) s) as [l E]. rewrite (bind_ok _ _ _ _ _ E). eauto.
Qed.

(** Sending a message ends with handing it over, its header first. *)
Lemma SendEvent_inv pEvt id seq s s' :
  WMI_SendEvent pEvt id seq s = Ok (tt, s') →
  ∃ a s1 s2 len s3 data,
    nb (adf_nbuf_push_head pEvt sizeof_WMI_CMD_HDR) s = Ok (a, s1) ∧
    (wr16 a id ;; wr16 (a + 2) seq) s1 = Ok (tt, s2) ∧
    nb (adf_nbuf_len pEvt) s2 = Ok (len, s3) ∧
    s' = s3 <| sc_host ::= λ h, h ++ [WMI_SendMsg_ev pEvt (header id seq ++ data)] |>.
Proof.
  intros (a & s1 & E1 & E)%bind_inv.
  set (m := sc_mem s1) in *.
  set (m' := <[a + 2 + 1 := u8 seq]> (<[a + 2 := u8 (seq .>> 8)]> (<[a + 1 := u8 id]> (<[a := u8 (id .>> 8)]> m)))).
  set (s2 := s1 <| sc_mem ::= λ _, m' |>).
  assert ((wr16 a id ;; wr16 (a + 2) seq) s1 = Ok (tt, s2)) as E2 by reflexivity.
  rewrite <-(bind_assoc (wr16 a id)) in E. rewrite (bind_ok _ _ _ _ _ E2) in E.
  unfold HTC_SendMsg_control in E. apply bind_inv in E as (len & s3 & E3 & E).
  assert (sc_mem s3 = m') as Hm.
  { unfold nb in E3. destruct (adf_nbuf_len pEvt (sc_nb s2)) as [[? ?]|]; [|done]. by injection E3 as <- <-. }
  assert (rd_bytes 4 a s3 = Ok (header id seq, s3)) as E4.
  { rewrite <-(header_read m a). cbn [map]. fold m'. rewrite <-Hm. reflexivity. }
  rewrite (bind_ok _ _ _ _ _ E4) in E. destruct (run_rd_bytes (Z.to_nat (len - sizeof_WMI_CMD_HDR)) (a + sizeof_WMI_CMD_HDR) s3) as [data E5].
  rewrite (bind_ok _ _ _ _ _ E5) in E. injection E as <-. by exists a, s1, s2, len, s3, data.
Qed.

(** The identifier and the sequence number in a message. *)
Definition msg_id (msg : list Z) : Z := match msg with a :: b :: _ => a * 256 + b | _ => 0 end.
Definition msg_seq (msg : list Z) : Z := match msg with _ :: _ :: a :: b :: _ => a * 256 + b | _ => 0 end.
Lemma bytes_u16 x : u8 (x .>> 8) * 256 + u8 x = u16 x.
Proof. unfold u8, u16. rewrite Z.shiftr_div_pow2 by done. change (2 ^ 8) with 256. mlia. Qed.
Lemma msg_id_header id seq data : msg_id (header id seq ++ data) = u16 id.
Proof. apply bytes_u16. Qed.
Lemma msg_seq_header id seq data : msg_seq (header id seq ++ data) = u16 seq.
Proof. apply bytes_u16. Qed.
End event.
