(* ===== verification/TxPath.v ===== *)
(** * The transmit path (target_firmware/wlan/if_owl.c)

    From the frame the host hands over to the report that it was sent: buffer
    preparation, software queues, aggregation, the hardware queues, completion, software
    retries, block-ack requests and the transmit-status report. One definition per
    function of the source, in the order that lets each call the ones it uses. *)

From S2P Require Import Prelude.
From S2P Require Import TxTypes.
From S2P Require Import TxEvent.

Section txpath.
Context {HW RC : Type} `{!Mmio HW} `{!RateControl RC}.
Abbreviation TX := (M (softc HW RC)).

(** ** Frame access *)

(** [ATH_SKB_2_WH] and [ATH_SKB2_WH]: the address of the frame's first byte. *)
Definition ATH_SKB_2_WH (skb : Z) : TX Z := '(a, _) ← nb (adf_nbuf_peek_header skb); mret a.

(** The file's own [adf_os_cpu_to_le16] always swaps. *)
Definition adf_os_cpu_to_le16 (x : Z) : Z :=
  ((u16 x .& 0xff00) .>> 8) .| u16 ((u16 x .& 0xff) .<< 8).

Definition IEEE80211_IS_MULTICAST (b0 : Z) : bool := tst b0 1.
Definition IEEE80211_QOS_HAS_SEQ (fc0 : Z) : bool :=
  fc0 .& (IEEE80211_FC0_TYPE_MASK .| IEEE80211_FC0_SUBTYPE_QOS)
  =? (IEEE80211_FC0_TYPE_DATA .| IEEE80211_FC0_SUBTYPE_QOS).

(** [ieee80211_hdrsize], [ieee80211_anyhdrsize] (ieee80211_var.h) *)
Definition ieee80211_hdrsize (wh : Z) : TX Z :=
  fc0 ← rd8 (wh + off_fc0); fc1 ← rd8 (wh + off_fc1);
  assert_ (negb (fc0 .& IEEE80211_FC0_TYPE_MASK =? IEEE80211_FC0_TYPE_CTL)) ;;
  let size := sizeof_frame in
  let size := if fc1 .& IEEE80211_FC1_DIR_MASK =? IEEE80211_FC1_DIR_DSTODS
              then size + IEEE80211_ADDR_LEN else size in
  mret (if IEEE80211_QOS_HAS_SEQ fc0 then size + 2 else size).
Definition ieee80211_anyhdrsize (wh : Z) : TX Z :=
  fc0 ← rd8 (wh + off_fc0);
  if fc0 .& IEEE80211_FC0_TYPE_MASK =? IEEE80211_FC0_TYPE_CTL then
    let sub := fc0 .& IEEE80211_FC0_SUBTYPE_MASK in
    mret (if (sub =? IEEE80211_FC0_SUBTYPE_CTS) || (sub =? IEEE80211_FC0_SUBTYPE_ACK)
          then sizeof_frame_ack else sizeof_frame_min)
  else ieee80211_hdrsize wh.

(** [ieee80211_tgt_crypto_encap] (ieee80211_output.c): the IV of AES and TKIP frames. *)
Definition ieee80211_tgt_crypto_encap (wh : Z) (ni : nat) (keytype : Z) : TX unit :=
  fc0 ← rd8 (wh + off_fc0);
  qos1 ← rd8 (wh + off_qos4 + 1);
  let offset := if IEEE80211_QOS_HAS_SEQ fc0 then 28 else 24 in
  let offset := if tst qos1 1 then 32 else offset in
  let iv := wh + offset in
  let next_iv :=
    upd_node ni (λ n, n <| ni_iv16 ::= λ v, u16 (v + 1) |>) ;;
    n ← rd_node ni;
    when (ni_iv16 n =? 0) (upd_node ni (λ n, n <| ni_iv32 ::= λ v, u32 (v + 1) |>)) in
  let put_iv32 :=
    n ← rd_node ni;
    let lo := u16 (ni_iv32 n) in let hi := u16 (ni_iv32 n .>> 16) in
    wr8 (iv + 4) lo ;; wr8 (iv + 5) (lo .>> 8) ;;
    wr8 (iv + 6) hi ;; wr8 (iv + 7) (hi .>> 8) in
  if keytype =? 2 then
    next_iv ;;
    n ← rd_node ni;
    wr8 iv (ni_iv16 n) ;; wr8 (iv + 1) (ni_iv16 n .>> 8) ;; wr8 (iv + 2) 0 ;;
    k ← rd8 (iv + 3); wr8 (iv + 3) (k .| 0x20) ;;
    put_iv32
  else if keytype =? 3 then
    next_iv ;;
    n ← rd_node ni;
    let b1 := u8 (ni_iv16 n .>> 8) in
    wr8 iv b1 ;; wr8 (iv + 1) ((b1 .| 0x20) .& 0x7f) ;; wr8 (iv + 2) (ni_iv16 n) ;;
    k ← rd8 (iv + 3); wr8 (iv + 3) (k .| 0x20) ;;
    put_iv32
  else mret tt.

(** ** Descriptors and rates *)

Definition bits_per_symbol : list (Z * Z) :=
  [(26, 54); (52, 108); (78, 162); (104, 216); (156, 324); (208, 432); (234, 486); (260, 540);
   (52, 108); (104, 216); (156, 324); (208, 432); (312, 648); (416, 864); (468, 972); (520, 1080)].

Definition rate_entry (ix : Z) : TX rate_info :=
  s ← get; in_range (sc_currates s !! Z.to_nat ix).

Definition ath_pkt_duration (rix : Z) (bf : ath_tx_buf) (width half_gi : bool) : TX Z :=
  s ← get;
  ri ← rate_entry rix;
  let pktlen := if bf_isaggr bf then bf_al bf else bf_pktlen bf in
  let rc := ri_rateCode ri in
  if negb (tst rc 0x80) then
    match ath_hal_computetxtime (ah_caps (sc_hal s)) ri pktlen (bf_shpream bf) with
    | Some t => mret t
    | None => fail DivByZero
    end
  else
    let nbits := u32 ((pktlen .<< 3) + 22) in
    row ← in_range (bits_per_symbol !! Z.to_nat (rc .& 0x0f));
    let nsymbits := if width then row.2 else row.1 in
    let nsymbols := u32 (nbits + nsymbits - 1) `div` nsymbits in
    let duration := if half_gi then u32 (u32 (nsymbols * 18) + 4) `div` 5
                    else u32 (nsymbols .<< 2) in
    let streams := ((rc .& 0x78) .>> 3) + 1 in
    mret (u32 (duration + (8 + 8 + 4 + 8 + 4 + 4 * streams))).

Definition ath_dma_map (p : nat) : TX unit :=
  upd_bf p (λ b, b <| bf_dmamap := adf_nbuf_map (adf_nbuf_queue_first (bf_skbhead b)) |>).
Definition ath_dma_unmap (p : nat) : TX unit :=
  upd_bf p (λ b, b <| bf_dmamap := adf_nbuf_unmap |>).

Definition ath_filltxdesc (p : nat) : TX unit :=
  b ← rd_bf p;
  segs ← nb (adf_nbuf_dmamap_info (bf_dmamap b));
  upd_bf p (λ b, b <| bf_dmamap_info := segs |>) ;;
  for_each (imap (λ i seg, (Z.of_nat i, seg)) segs) (λ '(i, (paddr, len)),
    let ds := bf_desc b + i * TX_DESC_SIZE in
    let last := i =? Z.of_nat (length segs) - 1 in
    upd_ds ds (λ d, d <| ds_data := paddr |>) ;;
    (if last then upd_ds ds (λ d, d <| ds_link := 0 |>) ;; upd_bf p (λ b, b <| bf_lastds := ds |>)
     else upd_ds ds (λ d, d <| ds_link := bf_descarr b + (i + 1) * TX_DESC_SIZE |>)) ;;
    ds0 ← rd_ds (bf_desc b);
    upd_ds ds (λ d, ar5416FillTxDesc_20 d len (i =? 0) last ds0)).

Definition ath_tx_tgt_setds (p : nat) : TX unit :=
  b ← rd_bf p;
  (if bf_protmode b =? IEEE80211_PROT_RTSCTS
   then upd_bf p (λ b, b <| bf_flags ::= λ f, f .| HAL_TXDESC_RTSENA |>)
   else if bf_protmode b =? IEEE80211_PROT_CTSONLY
   then upd_bf p (λ b, b <| bf_flags ::= λ f, f .| HAL_TXDESC_CTSENA |>)
   else mret tt) ;;
  b ← rd_bf p;
  upd_ds (bf_desc b) (λ d, ar5416Set11nTxDesc_20 d (bf_pktlen b) (bf_atype b) 60
                             (bf_keyix b) (bf_keytype b) (bf_flags b .| HAL_TXDESC_INTREQ)) ;;
  ath_filltxdesc p.

(** ** Buffer recycling

    The buffer being completed is not freed: it becomes the held one, and the buffer held
    before is freed, or takes over the frame when it is to be retried, since the hardware
    may still read the last descriptor it was given. *)
Definition ath_buf_toggle (p : nat) (retry : bool) : TX nat :=
  s ← get;
  assert_ (bool_decide (sc_txbuf_held s ≠ None)) ;;
  tmp ← deref (sc_txbuf_held s);
  when retry (
    ath_dma_unmap p ;;
    upd_bf tmp (λ b, b <| bf_skbhead := adf_nbuf_queue_init |>) ;;
    b ← rd_bf p;
    '(buf, q) ← nb (adf_nbuf_queue_remove (bf_skbhead b));
    upd_bf p (λ b, b <| bf_skbhead := q |>) ;;
    assert_ (negb (buf =? 0)) ;;
    t ← rd_bf tmp;
    tq ← nb (adf_nbuf_queue_add (bf_skbhead t) buf);
    upd_bf tmp (λ b, b <| bf_skbhead := tq |>) ;;
    assert_ (adf_nbuf_queue_len q =? 0) ;;
    b ← rd_bf p;
    upd_bf tmp (λ t, t <| bf_next := bf_next b |> <| bf_endpt := bf_endpt b |>
                       <| bf_skb := bf_skb b |> <| bf_node := bf_node b |>
                       <| bf_flags := bf_flags b |> <| bf_state := bf_state b |>
                       <| bf_cookie := bf_cookie b |>) ;;
    upd_bf p (λ b, b <| bf_state ::= λ st, st <| bfs_isaggr := false |> <| bfs_comp := None |>
                                              <| bfs_retries := 0 |> <| bfs_nframes := 0 |> |>
                     <| bf_next := None |> <| bf_skb := 0 |> <| bf_node := None |>
                     <| bf_flags := 0 |>) ;;
    ath_dma_map tmp ;;
    ath_tx_tgt_setds tmp) ;;
  modify (λ s, s <| sc_txbuf_held := Some p |>) ;;
  mret tmp.

(** Every turn takes one frame off a queue whose length it tests. *)
Fixpoint skb_free_loop (fuel : nat) (p : nat) (endpt : Z) : TX unit :=
  b ← rd_bf p;
  if adf_nbuf_queue_len (bf_skbhead b) =? 0 then mret tt else
  match fuel with
  | O => fail OutOfFuel
  | S n =>
      '(tskb, q) ← nb (adf_nbuf_queue_remove (bf_skbhead b));
      upd_bf p (λ b, b <| bf_skbhead := q |>) ;;
      host (HTC_ReturnBuffers_ev endpt tskb) ;;
      skb_free_loop n p endpt
  end.
Definition ath_tgt_skb_free (p : nat) (endpt : Z) : TX unit :=
  b ← rd_bf p; skb_free_loop (Z.to_nat (q_qlen (bf_skbhead b))) p endpt.

Definition txbuf_insert_tail (p : nat) : TX unit :=
  modify (λ s, s <| sc_txbuf ::= λ l, l ++ [p] |>).

Definition ath_buf_comp (p : nat) : TX unit :=
  ath_dma_unmap p ;;
  b ← rd_bf p;
  ath_tgt_skb_free p (bf_endpt b) ;;
  upd_bf p (λ b, b <| bf_skb := 0 |> <| bf_node := None |>) ;;
  tmp ← ath_buf_toggle p false;
  txbuf_insert_tail tmp.

Definition rc_at (rcs : list rc_series) (i : nat) : TX rc_series := in_range (rcs !! i).

(** The last series in use decides the control rate ([for (i = 4; i--;)]). *)
Fixpoint last_series_rate (ixs : list nat) (rcs : list rc_series) (cix : Z) : TX Z :=
  match ixs with
  | [] => mret cix
  | i :: ixs => r ← rc_at rcs i;
               if truthy (tries r) then ri ← rate_entry (rix r); mret (ri_controlRate ri)
               else last_series_rate ixs rcs cix
  end.

(** One entry of the [series] array that [ath_buf_set_rate] builds. *)
Definition buf_rate_series (bf : ath_tx_buf) (prot_mode : bool) (r : rc_series) : TX rate_series :=
  if negb (truthy (tries r)) then mret (mk_rate_series 0 0 0 0 0) else
  s ← get;
  ri ← rate_entry (rix r);
  dur ← ath_pkt_duration (rix r) bf (tst (rc_flags r) ATH_RC_CW40_FLAG)
                         (tst (rc_flags r) ATH_RC_HT40_SGI_FLAG);
  let flags := ifbit (tst (rc_flags r) ATH_RC_RTSCTS_FLAG) HAL_RATESERIES_RTS_CTS
               .| ifbit (tst (rc_flags r) ATH_RC_CW40_FLAG) HAL_RATESERIES_2040
               .| ifbit (tst (rc_flags r) ATH_RC_HT40_SGI_FLAG) HAL_RATESERIES_HALFGI
               .| ifbit (tst (rc_flags r) ATH_RC_TX_STBC_FLAG) HAL_RATESERIES_STBC in
  mret (mk_rate_series (tries r)
          (ri_rateCode ri .| (if bf_shpream bf then ri_shortPreamble ri else 0)) dur
          (ic_tx_chainmask (sc_ic s))
          (flags .| ifbit prot_mode HAL_RATESERIES_RTS_CTS
                 .| ifbit (tst (rc_flags r) ATH_RC_DS_FLAG) HAL_RATESERIES_RTS_CTS)).

Definition ath_buf_set_rate (p : nat) : TX unit :=
  bf ← rd_bf p; s ← get;
  r0 ← rc_at (bf_rcs bf) 0;
  ri0 ← rate_entry (rix r0);
  pi ← rate_entry (sc_protrix s);
  let prot_mode :=
    negb (bf_protmode bf =? IEEE80211_PROT_NONE)
    && (bool_decide (ri_phy ri0 = IEEE80211_T_OFDM) || bool_decide (ri_phy ri0 = IEEE80211_T_HT))
    && (bf_flags bf .& HAL_TXDESC_NOACK =? 0) in
  let flags := bf_flags bf .& (HAL_TXDESC_RTSENA .| HAL_TXDESC_CTSENA) in
  let flags :=
    if prot_mode then flags
    else if truthy (HAL_STATUS_val (ath_hal_getcapability (ah_caps (sc_hal s)) HAL_CAP_HT))
            && negb (bf_ismcast bf)
    then HAL_TXDESC_RTSENA else flags in
  cix ← (if prot_mode then mret (ri_controlRate pi)
         else last_series_rate [3; 2; 1; 0]%nat (bf_rcs bf) (ri_controlRate pi));
  r1 ← rc_at (bf_rcs bf) 1; r2 ← rc_at (bf_rcs bf) 2; r3 ← rc_at (bf_rcs bf) 3;
  s0 ← buf_rate_series bf prot_mode r0; s1 ← buf_rate_series bf prot_mode r1;
  s2 ← buf_rate_series bf prot_mode r2; s3 ← buf_rate_series bf prot_mode r3;
  ci ← rate_entry cix;
  let rtsctsrate := ri_rateCode ci .| (if bf_shpream bf then ri_shortPreamble ci else 0) in
  upd_ds (bf_desc bf) (λ d, ar5416Set11nRateScenario_20 d true rtsctsrate s0 s1 s2 s3 flags).

(** [ath_tgt_rate_findrate] passes fixed arguments whatever it is given; rate control
    fills the first four entries of [series]. *)
Definition ath_tgt_rate_findrate (an : nat) (frameLen : Z) (series : list rc_series)
    : TX (list rc_series * Z) :=
  s ← get; rc (ath_rate_findrate (sc_curmode s) an frameLen 10 4 1 ATH_RC_PROBE_ALLOWED series).

Definition rate_tx_complete (an : nat) (ds : ath_tx_desc) (rcs : list rc_series) (nframes nbad : Z)
    : TX unit :=
  s ← get; rc (ath_rate_tx_complete (sc_curmode s) an ds rcs nframes nbad).

(** [ath_get_minrateidx] (if_ath.c) *)
Definition ath_get_minrateidx (mode : phymode) (avp : ath_vap_target) : Z :=
  match mode with
  | IEEE80211_MODE_11NG => (av_minrateidx avp).1
  | IEEE80211_MODE_11NA => (av_minrateidx avp).2
  end.

(** ** The transmit-status report *)

Definition ath_tx_status_clear : TX unit :=
  modify (λ s, s <| sc_tx_status ::= map (λ e, e <| cnt := 0 |>) |>).

(** The first of the two events with a free entry. *)
Definition ath_tx_status_get : TX (option nat) :=
  gets (λ s, fst <$> list_find (λ e, cnt e < HTC_MAX_TX_STATUS) (sc_tx_status s)).

(** Writing the entry [txs->txstatus[txs->cnt]] of event [i]. *)
Definition rd_txs (i : nat) : TX txstatus_event := s ← get; in_range (sc_tx_status s !! i).
Definition upd_txs_entry (i : nat) (f : txstatus → txstatus) : TX unit :=
  e ← rd_txs i;
  t ← in_range (txs_list e !! Z.to_nat (cnt e));
  modify (λ s, s <| sc_tx_status ::=
    <[i := e <| txs_list ::= <[Z.to_nat (cnt e) := f t]> |>]> |>).
Definition txs_advance (i : nat) : TX unit :=
  e ← rd_txs i;
  modify (λ s, s <| sc_tx_status ::= <[i := e <| cnt ::= λ c, u8 (c + 1) |>]> |>).

(** [ath_tx_status_update_rate] (ratectrl_11n_ln.c) *)
Definition ath_tx_status_update_rate (rcs : list rc_series) (series : Z) (i : nat) : TX unit :=
  s ← get;
  r ← in_range (rcs !! Z.to_nat series);
  ri ← in_range (sc_rt11n s !! Z.to_nat (rix r));
  upd_txs_entry i (λ t,
    let t :=
      if tst (rn_rateCode ri) 0x80 then
        t <| txs_rate ::= λ v, v .| SM (rn_dot11Rate ri) ATH9K_HTC_TXSTAT_RATE 0 |>
          <| txs_flags ::= λ f, f .| TXSTAT_MCS
               .| ifbit (tst (rc_flags r) ATH_RC_CW40_FLAG) TXSTAT_CW40
               .| ifbit (tst (rc_flags r) ATH_RC_HT40_SGI_FLAG) TXSTAT_SGI |>
      else t <| txs_rate ::= λ v, v .| SM (rix r) ATH9K_HTC_TXSTAT_RATE 0 |> in
    t <| txs_flags ::= λ f, f .| ifbit (tst (rc_flags r) ATH_RC_RTSCTS_FLAG) TXSTAT_RTC_CTS |>).

Definition ath_tx_status_update (p : nat) : TX unit :=
  s ← get; b ← rd_bf p;
  if sc_tx_draining s then mret tt else
  o ← ath_tx_status_get;
  match o with
  | None => mret tt
  | Some i =>
      upd_txs_entry i (λ t, t <| txs_flags := 0 |>) ;;
      upd_txs_entry i (λ t, t <| cookie := bf_cookie b |>
                              <| txs_rate := SM (bf_endpt b) ATH9K_HTC_TXSTAT_EPID 4 |>) ;;
      ds ← rd_ds (bf_lastds b);
      let st := ts_status (ds_txstat ds) in
      upd_txs_entry i (λ t, t <| txs_flags ::= λ f, f .| ifbit (tst st HAL_TXERR_FILT) TXSTAT_FILT |>) ;;
      upd_txs_entry i (λ t, t <| txs_flags ::= λ f, f .|
        ifbit (negb (tst st HAL_TXERR_XRETRY) && negb (tst st HAL_TXERR_FIFO)
               && negb (tst st HAL_TXERR_TIMER_EXPIRED) && negb (tst st HAL_TXERR_FILT)) TXSTAT_ACK |>) ;;
      ath_tx_status_update_rate (bf_rcs b) (ts_rate (ds_txstat ds)) i ;;
      txs_advance i
  end.

(** [rcs] is [None] for the call that passes NULL. *)
Definition ath_tx_status_update_aggr (p : nat) (ds : ath_tx_desc)
    (rcs : option (list rc_series)) (txok : bool) : TX unit :=
  s ← get; b ← rd_bf p;
  if sc_tx_draining s then mret tt else
  o ← ath_tx_status_get;
  match o with
  | None => mret tt
  | Some i =>
      upd_txs_entry i (λ t, t <| cookie := bf_cookie b |>
                              <| txs_rate := SM (bf_endpt b) ATH9K_HTC_TXSTAT_EPID 4 |>) ;;
      when txok (upd_txs_entry i (λ t, t <| txs_flags ::= λ f, f .| TXSTAT_ACK |>)) ;;
      match rcs with
      | Some r => ath_tx_status_update_rate r (ts_rate (ds_txstat ds)) i
      | None => mret tt
      end ;;
      txs_advance i
  end.

(** [WMI_TXSTATUS_EVENT] in memory. *)
Definition txstatus_bytes (e : txstatus_event) : list Z :=
  cnt e :: (t ← txs_list e; [cookie t; txs_rate t; txs_flags t]).
Definition ath_tx_status_send : TX unit :=
  s ← get;
  if sc_tx_draining s then mret tt else
  for_each [0; 1]%nat (λ i,
    e ← rd_txs i;
    when (truthy (cnt e))
      (wmi_event WMI_TXSTATUS_EVENTID (txstatus_bytes e) ;;
       modify (λ s, s <| sc_tx_status ::= alter (λ e, e <| cnt := 0 |>) i |>))).

(** ** Preparing a frame *)

(** [ath_data_hdr_t]: the fields the code reads, [keytype] and [keyix] signed. *)
Record ath_data_hdr := mk_data_hdr {
  dh_ni_index : Z; dh_tidno : Z; dh_flags : Z; dh_keytype : Z; dh_keyix : Z }.

(** The bound is compared with [>], so that the index one past the table passes. *)
Definition ath_tgt_find_node (node_index : Z) : TX (option nat) :=
  if TARGET_NODE_MAX <? node_index then mret None else
  an ← rd_node (Z.to_nat node_index);
  mret (if an_valid an then
          match ni_vap an with None => None | Some _ => Some (Z.to_nat node_index) end
        else None).

Definition ath_tx_buf_alloc : TX nat :=
  s ← get;
  match asf_tailq_first (sc_txbuf s) with
  | Some p => upd_bf p (λ b, b <| bf_state := bfs_zero |>) ;;
              modify (λ s, s <| sc_txbuf ::= asf_tailq_remove p |>) ;;
              mret p
  | None => fail AssertFailed
  end.

Definition ath_tgt_tx_seqno_normal (p : nat) : TX unit :=
  b ← rd_bf p;
  an ← deref (bf_node b);
  wh ← ATH_SKB_2_WH (bf_skb b);
  let t := (an, bf_tidno b) in
  seq0 ← rd8 (wh + off_seq);
  let fragno := seq0 .& 0xf in
  upd_node an (λ n, n <| ni_txseqmgmt ::= λ l, INCR16 l IEEE80211_SEQ_MAX |>) ;;
  tid ← rd_tid t;
  let sn := u16 (seq_next tid .<< IEEE80211_SEQ_SEQ_SHIFT) in
  upd_bfs p (λ st, st <| bfs_seqno := sn |>) ;;
  wr16 (wh + off_seq) (adf_os_cpu_to_le16 sn) ;;
  seq0 ← rd8 (wh + off_seq);
  wr8 (wh + off_seq) (seq0 .| fragno) ;;
  fc1 ← rd8 (wh + off_fc1);
  (* the [if] only guards the increment of INCR, not its masking *)
  when (negb (tst fc1 IEEE80211_FC1_MORE_FRAG))
    (upd_tid t (λ t, t <| seq_next ::= λ l, u16 (l + 1) |>)) ;;
  upd_tid t (λ t, t <| seq_next ::= λ l, l .& (IEEE80211_SEQ_MAX - 1) |>).

Definition ath_get_pktlen (p : nat) (hdrlen : Z) : TX Z :=
  b ← rd_bf p;
  n ← nb (adf_nbuf_len (adf_nbuf_queue_first (bf_skbhead b)));
  mret (n - (hdrlen .& 3) + IEEE80211_CRC_LEN).

Definition ath_key_setup (ni : option nat) (p : nat) : TX unit :=
  b ← rd_bf p;
  wh ← ATH_SKB_2_WH (bf_skb b);
  fc1 ← rd8 (wh + off_fc1);
  if negb (tst fc1 IEEE80211_FC1_WEP) then
    upd_bfs p (λ st, st <| bfs_keytype := HAL_KEY_TYPE_CLEAR |> <| bfs_keyix := HAL_TXKEYIX_INVALID |>)
  else
    let kt := bf_keytype b in
    let grow := if kt =? HAL_KEY_TYPE_WEP then IEEE80211_WEP_ICVLEN
                else if kt =? HAL_KEY_TYPE_AES then IEEE80211_WEP_MICLEN
                else if kt =? HAL_KEY_TYPE_TKIP then IEEE80211_WEP_ICVLEN else 0 in
    upd_bfs p (λ st, st <| bfs_pktlen ::= λ n, u16 (n + grow) |>) ;;
    when ((kt =? HAL_KEY_TYPE_AES) || (kt =? HAL_KEY_TYPE_TKIP))
      (an ← deref ni; ieee80211_tgt_crypto_encap wh an kt).

Definition ath_tgt_txbuf_setup (p : nat) (dh : ath_data_hdr) : TX unit :=
  b ← rd_bf p;
  wh ← ATH_SKB_2_WH (bf_skb b);
  ath_tgt_tx_seqno_normal p ;;
  upd_bfs p (λ st, st <| bfs_txq_add := Some ath_tgt_txq_add_ucast_fn |>) ;;
  hdrlen ← ieee80211_anyhdrsize wh;
  upd_bfs p (λ st, st <| bfs_hdrlen := u8 hdrlen |>) ;;
  pktlen ← ath_get_pktlen p (u8 hdrlen);
  upd_bfs p (λ st, st <| bfs_pktlen := u16 pktlen |>) ;;
  a0 ← rd8 (wh + off_addr1);
  upd_bfs p (λ st, st <| bfs_ismcast := IEEE80211_IS_MULTICAST a0 |>) ;;
  b ← rd_bf p;
  ath_key_setup (bf_node b) p ;;
  upd_bfs p (λ st, st <| bfs_shpream := tst (dh_flags dh) ATH_SHORT_PREAMBLE |>) ;;
  upd_bf p (λ b, b <| bf_flags := HAL_TXDESC_CLRDMASK |>) ;;
  upd_bfs p (λ st, st <| bfs_atype := HAL_PKT_TYPE_NORMAL |>).

Definition TID_TO_ACTXQ (tidno : Z) : TX nat :=
  s ← get; in_range (sc_ac2q s !! TID_TO_WME_AC tidno).

Definition ath_tgt_tx_prepare (skb : Z) (dh : ath_data_hdr) : TX (option nat) :=
  o ← ath_tgt_find_node (dh_ni_index dh);
  match o with
  | None => mret None
  | Some ni =>
      tid ← rd_tid (ni, dh_tidno dh);
      if tst (flag tid) TID_REINITIALIZE then mret None else
      p ← ath_tx_buf_alloc;
      txq ← TID_TO_ACTXQ (dh_tidno dh);
      upd_bf p (λ b, b <| bf_state ::= λ st,
          st <| bfs_tidno := dh_tidno dh |> <| bfs_txq := Some txq |>
             <| bfs_keytype := u8 (dh_keytype dh) |> <| bfs_keyix := u8 (dh_keyix dh) |>
             <| bfs_protmode := dh_flags dh .& (IEEE80211_PROT_RTSCTS .| IEEE80211_PROT_CTSONLY) |> |>
        <| bf_node := Some ni |>) ;;
      b ← rd_bf p;
      q ← nb (adf_nbuf_queue_add (bf_skbhead b) skb);
      upd_bf p (λ b, b <| bf_skbhead := q |>) ;;
      let skb := adf_nbuf_queue_first q in
      if adf_nbuf_queue_len q =? 0 then __stats tx_noskbs ;; mret None else
      assert_ (negb (skb =? 0)) ;;
      upd_bf p (λ b, b <| bf_skb := skb |>) ;;
      ath_tgt_txbuf_setup p dh ;;
      ath_dma_map p ;;
      ath_tx_tgt_setds p ;;
      mret (Some p)
  end.

(** ** Hardware queues *)

(** [ATH_TXQ_INSERT_TAIL] *)
Definition ATH_TXQ_INSERT_TAIL (i p : nat) : TX unit :=
  upd_txq i (λ q, q <| axq_q ::= λ l, l ++ [p] |> <| axq_depth ::= λ n, u32 (n + 1) |>
                    <| axq_linkbuf := Some p |>).

Definition ath_tgt_txq_add_ucast (p : nat) : TX unit :=
  b ← rd_bf p;
  txq ← deref (bf_txq b);
  d ← rd_ds (bf_lastds b);
  '(_, d) ← hal (ar5416ProcTxDesc_20 d);
  upd_ds (bf_lastds b) (λ _, d) ;;
  ATH_TXQ_INSERT_TAIL txq p ;;
  q ← rd_txq txq;
  match axq_link q with
  | None => hal (ar5416SetTxDP (axq_qnum q) (bf_desc b)) ;; mret tt
  | Some l =>
      upd_ds l (λ d, d <| ds_link := bf_desc b |>) ;;
      txe ← hal (ioread32_mac AR_Q_TXE);
      unless (tst txe (u32 (1 .<< axq_qnum q)))
        (hal (ar5416SetTxDP (axq_qnum q) (bf_desc b)) ;; mret tt)
  end ;;
  upd_txq txq (λ q, q <| axq_link := Some (bf_lastds b) |>) ;;
  hal (ar5416StartTxDma (axq_qnum q)) ;; mret tt.

(** The call through [bf->bf_txq_add]. *)
Definition bf_txq_add (p : nat) : TX unit :=
  b ← rd_bf p;
  f ← deref (bfs_txq_add (bf_state b));
  match f with ath_tgt_txq_add_ucast_fn => ath_tgt_txq_add_ucast p end.

Definition ath_tgt_txqaddbuf (i p : nat) (lastds : Z) : TX unit :=
  b ← rd_bf p;
  ATH_TXQ_INSERT_TAIL i p ;;
  q ← rd_txq i;
  match axq_link q with
  | None => hal (ar5416SetTxDP (axq_qnum q) (bf_desc b)) ;; mret tt
  | Some l => upd_ds l (λ d, d <| ds_link := bf_desc b |>)
  end ;;
  upd_txq i (λ q, q <| axq_link := Some lastds |>) ;;
  hal (ar5416StartTxDma (axq_qnum q)) ;; mret tt.

Definition ath_tgt_tx_send_normal (p : nat) : TX unit :=
  b ← rd_bf p;
  (if negb (bf_ismcast b) then
     an ← deref (bf_node b);
     '(rcs, _) ← ath_tgt_rate_findrate an 0 (replicate 4 rc_zero);
     upd_bfs p (λ st, st <| bfs_rcs := rcs |>)
   else
     s ← get;
     avp ← in_range (sc_vap s !! Z.to_nat (vap_index b));
     upd_bfs p (λ st, st <| bfs_rcs :=
       [mk_rc (ath_get_minrateidx (sc_curmode s) avp) 1 0 0 0 0; rc_zero; rc_zero; rc_zero] |>)) ;;
  ath_buf_set_rate p ;;
  bf_txq_add p.

(** The descriptors of a buffer, [nsegs] of them from [bf_desc] on. *)
Definition bf_seg_descs (b : ath_tx_buf) : list Z :=
  map (λ i, bf_desc b + Z.of_nat i * TX_DESC_SIZE) (seq 0 (length (bf_dmamap_info b))).
(** The descriptors from [bf_desc] up to [bf_lastds]. *)
Definition desc_range (from to : Z) : list Z :=
  if to <? from then []
  else map (λ i, from + Z.of_nat i * TX_DESC_SIZE) (seq 0 (Z.to_nat ((to - from) `div` TX_DESC_SIZE) + 1)).

(** The reset both [ath_tx_freebuf] and [ath_tx_retry_subframe] apply to each descriptor. *)
Definition desc_clr_aggr (d : ath_tx_desc) : ath_tx_desc :=
  ar5416Set11nVirtualMoreFrag_20 (ar5416Set11nBurstDuration_20 (ar5416Clr11nAggr_20 d) 0) false.

Definition ath_tx_freebuf (p : nat) : TX unit :=
  b ← rd_bf p;
  for_each (bf_seg_descs b) (λ a, upd_ds a desc_clr_aggr) ;;
  ath_dma_unmap p ;;
  ath_tgt_skb_free p (bf_endpt b) ;;
  upd_bf p (λ b, b <| bf_skb := 0 |> <| bf_state ::= λ st, st <| bfs_comp := None |> |>
                   <| bf_node := None |> <| bf_next := None |>) ;;
  tmp ← ath_buf_toggle p false;
  upd_bfs tmp (λ st, st <| bfs_retries := 0 |> <| bfs_isretried := false |>) ;;
  txbuf_insert_tail tmp.

Definition ath_update_stats (p : nat) : TX unit :=
  b ← rd_bf p;
  ds ← rd_ds (bf_desc b);
  wh ← ATH_SKB_2_WH (bf_skb b);
  a0 ← rd8 (wh + off_addr1);
  let st := ts_status (ds_txstat ds) in
  (if st =? 0 then
     when (tst (ts_rate (ds_txstat ds)) HAL_TXSTAT_ALTRATE) (__stats ast_tx_altrate)
   else
     when (tst st HAL_TXERR_XRETRY && negb (IEEE80211_IS_MULTICAST a0)) (__stats ast_tx_xretries) ;;
     when (tst st HAL_TXERR_FIFO) (__stats ast_tx_fifoerr) ;;
     when (tst st HAL_TXERR_FILT) (__stats ast_tx_filtered) ;;
     when (tst st HAL_TXERR_TIMER_EXPIRED) (__stats ast_tx_timer_exp)) ;;
  __statsn ast_tx_shortretry (ts_shortretry (ds_txstat ds)) ;;
  __statsn ast_tx_longretry (ts_longretry (ds_txstat ds)).

Definition ath_tx_uc_comp (p : nat) : TX unit :=
  ath_tx_status_update p ;;
  ath_update_stats p ;;
  b ← rd_bf p;
  an ← deref (bf_node b);
  ds ← rd_ds (bf_lastds b);
  rate_tx_complete an ds (bf_rcs b) 1 0.

(** ** Software queues and aggregation *)

Definition ath_tgt_tx_enqueue (txq : option nat) (t : nat * Z) : TX unit :=
  x ← rd_tid t;
  if paused x then mret tt else
  if sched x then mret tt else
  upd_tid t (λ x, x <| sched := true |>) ;;
  i ← deref txq;
  upd_txq i (λ q, q <| axq_tidq ::= λ l, l ++ [t] |>).

(** The loop sends at least one frame, then goes on while the hardware queue is short. *)
Fixpoint sched_normal_loop (fuel : nat) (txq : nat) (t : nat * Z) : TX unit :=
  x ← rd_tid t;
  match buf_q x with
  | [] => mret tt
  | p :: _ =>
      match fuel with
      | O => fail OutOfFuel
      | S n =>
          upd_tid t (λ x, x <| buf_q ::= asf_tailq_remove p |>) ;;
          ath_tgt_tx_send_normal p ;;
          q ← rd_txq txq;
          if axq_depth q <? ATH_AGGR_MIN_QDEPTH then sched_normal_loop n txq t else mret tt
      end
  end.
Definition ath_tgt_tx_sched_normal (t : nat * Z) : TX unit :=
  x ← rd_tid t;
  txq ← TID_TO_ACTXQ (tidno x);
  sched_normal_loop (length (buf_q x)) txq t.

Inductive ATH_AGGR_STATUS :=
  ATH_TGT_AGGR_DONE | ATH_TGT_AGGR_BAW_CLOSED | ATH_TGT_AGGR_LIMITED | ATH_AGGR_SHORTPKT
| ATH_AGGR_8K_LIMITED.
#[local] Instance ATH_AGGR_STATUS_eq_dec : EqDecision ATH_AGGR_STATUS.
Proof using. solve_decision. Defined.

Definition ATH_AGGR_GET_NDELIM (len : Z) : Z :=
  (if len + ATH_AGGR_DELIM_SZ <? ATH_AGGR_MINPLEN
   then ATH_AGGR_MINPLEN - len - ATH_AGGR_DELIM_SZ else 0) .>> 2.
Definition PADBYTES (len : Z) : Z := (4 - (len mod 4)) mod 4.

(** The loop over the series in [ath_lookup_rate]: the smallest four-millisecond frame
    length, or a legacy rate. *)
Fixpoint lookup_series (rcs : list rc_series) (maxlen : Z) : TX (Z * bool) :=
  match rcs with
  | [] => mret (maxlen, false)
  | r :: rcs =>
      if truthy (tries r) then
        ri ← rate_entry (rix r);
        if bool_decide (ri_phy ri ≠ IEEE80211_T_HT) then mret (maxlen, true)
        else lookup_series rcs (Z.min maxlen (max4msframelen r))
      else lookup_series rcs maxlen
  end.

(** [prate] is only assigned for unicast frames. *)
Definition ath_lookup_rate (an : nat) (p : nat) : TX Z :=
  b ← rd_bf p;
  prate ← (if bf_ismcast b then
     upd_bfs p (λ st, st <| bfs_rcs ::= λ r, imap (λ i x,
       if decide (i = O) then x <| rix := 0xb |> <| tries := ATH_TXMAXTRY - 1 |> <| rc_flags := 0 |>
       else if decide (i < 4)%nat then x <| tries := 0 |> else x) r |>) ;;
     mret None
   else
     '(rcs, pr) ← ath_tgt_rate_findrate an 0 (bf_rcs b);
     upd_bfs p (λ st, st <| bfs_rcs := rcs |>) ;;
     mret (Some pr));
  b ← rd_bf p;
  '(max4ms, legacy) ← lookup_series (take 4 (bf_rcs b)) IEEE80211_AMPDU_LIMIT_MAX;
  prate ← match prate with Some x => mret x | None => fail UninitRead end;
  if truthy prate || legacy then mret 0 else
  s ← get; n ← rd_node an;
  let limit := ic_ampdu_limit (sc_ic s) in
  let aggr_limit := if truthy (ic_enable_coex (sc_ic s))
                    then u16 (Z.min (u32 (max4ms * 3) `div` 8) limit)
                    else u16 (Z.min max4ms limit) in
  mret (if truthy (ni_maxampdu n) then Z.min aggr_limit (ni_maxampdu n) else aggr_limit).

(** The delimiters a cipher adds to a subframe. *)
Definition key_delims (keytype : Z) : Z :=
  if keytype =? HAL_KEY_TYPE_AES then ATH_AGGR_ENCRYPTDELIM
  else if (keytype =? HAL_KEY_TYPE_WEP) || (keytype =? HAL_KEY_TYPE_TKIP) then 64
  else if keytype =? HAL_KEY_TYPE_WAPI then 12 else 0.

(** The variables of [ath_tgt_tx_form_aggr]'s loop; [prev_al] and [prev_frames] stay 0. *)
Record aggr_vars := mk_av {
  av_q : list nat; av_nframes : Z; av_limit : option Z; av_al : Z; av_bpad : Z;
  av_prev : option nat }.
#[local] Instance eta_av : EtaExp aggr_vars := λ v,
  mk_av (av_q v) (av_nframes v) (av_limit v) (av_al v) (av_bpad v) (av_prev v).

(** [bf_first] gets the length and the number of frames when the loop stops. *)
Definition form_aggr_finish (bf_first : nat) (v : aggr_vars) (st : ATH_AGGR_STATUS)
    : TX (ATH_AGGR_STATUS * list nat) :=
  upd_bfs bf_first (λ s, s <| bfs_al := av_al v |> <| bfs_nframes := u8 (av_nframes v) |>) ;;
  mret (st, av_q v).

(** One subframe [p] joins the aggregate. *)
Definition form_aggr_add (t : nat * Z) (p : nat) (al_delta : Z) (v : aggr_vars) : TX aggr_vars :=
  b ← rd_bf p;
  upd_tid t (ath_tx_addto_baw (bf_isretried b) (bf_seqno b)) ;;
  upd_tid t (λ x, x <| buf_q ::= asf_tailq_remove p |>) ;;
  assert_ (bool_decide (bf_comp b = Some ath_tgt_tx_comp_aggr_fn)) ;;
  let ndelim := u8 (u8 (ATH_AGGR_GET_NDELIM (bf_pktlen b)) + key_delims (bf_keytype b)) in
  upd_bfs p (λ s, s <| bfs_ndelim := ndelim |>) ;;
  match av_prev v with
  | Some prev =>
      upd_bf prev (λ b, b <| bf_next := Some p |>) ;;
      pb ← rd_bf prev;
      upd_ds (bf_lastds pb) (λ d, d <| ds_link := bf_desc b |>)
  | None => mret tt
  end ;;
  for_each (desc_range (bf_desc b) (bf_lastds b)) (λ a, upd_ds a (λ d,
    ar5416Set11nAggrMiddle_20 d ndelim)) ;;
  mret (v <| av_q ::= λ l, l ++ [p] |> <| av_nframes ::= λ n, n + 1 |>
          <| av_al ::= λ a, u16 (a + (av_bpad v + al_delta)) |>
          <| av_bpad := u16 (PADBYTES al_delta + (ndelim .<< 2)) |> <| av_prev := Some p |>).

Fixpoint form_aggr_loop (fuel : nat) (t : nat * Z) (bf_first : nat) (v : aggr_vars)
    : TX (ATH_AGGR_STATUS * list nat) :=
  match fuel with
  | O => fail OutOfFuel
  | S n =>
      x ← rd_tid t;
      match asf_tailq_first (buf_q x) with
      | None => fail AssertFailed
      | Some p =>
          b ← rd_bf p;
          if negb (BAW_WITHIN (seq_start x) (baw_size x) (SEQNO_FROM_BF_SEQNO (bf_seqno b)))
          then form_aggr_finish bf_first v ATH_TGT_AGGR_BAW_CLOSED else
          limit ← match av_limit v with
                  | Some l => mret l
                  | None => l ← ath_lookup_rate (tid_an x) p; mret (u16 l)
                  end;
          let v := v <| av_limit := Some limit |> in
          let al_delta := u16 (ATH_AGGR_DELIM_SZ + bf_pktlen b) in
          if truthy (av_nframes v) && (limit <? av_al v + av_bpad v + al_delta)
          then form_aggr_finish bf_first v ATH_TGT_AGGR_LIMITED else
          if av_nframes v >=? Z.min (baw_size x `quot` 2) 22
          then form_aggr_finish bf_first v ATH_TGT_AGGR_LIMITED else
          v ← form_aggr_add t p al_delta v;
          x ← rd_tid t;
          match buf_q x with
          | [] => form_aggr_finish bf_first v ATH_TGT_AGGR_DONE
          | _ => form_aggr_loop n t bf_first v
          end
      end
  end.
Definition ath_tgt_tx_form_aggr (t : nat * Z) : TX (ATH_AGGR_STATUS * list nat) :=
  x ← rd_tid t;
  bf_first ← deref (asf_tailq_first (buf_q x));
  form_aggr_loop (length (buf_q x)) t bf_first (mk_av [] 0 None 0 0 None).

(** One frame that was alone in its aggregate goes out as an ordinary frame. *)
Definition sched_aggr_single (p : nat) : TX unit :=
  b ← rd_bf p;
  when (bf_retries b =? 0) (__stats txaggr_single) ;;
  let last := bf_descarr b + (Z.of_nat (length (bf_dmamap_info b)) - 1) * TX_DESC_SIZE in
  upd_bf p (λ b, b <| bf_state ::= λ s, s <| bfs_isaggr := false |> |> <| bf_lastds := last |>) ;;
  upd_ds last (λ d, d <| ds_link := 0 |>) ;;
  upd_bf p (λ b, b <| bf_next := None |>) ;;
  for_each (desc_range (bf_desc b) last) (λ a, upd_ds a ar5416Clr11nAggr_20) ;;
  ath_buf_set_rate p ;;
  bf_txq_add p.

Definition sched_aggr_many (p last : nat) (status : ATH_AGGR_STATUS) : TX unit :=
  upd_bf last (λ b, b <| bf_next := None |>) ;;
  lb ← rd_bf last;
  upd_ds (bf_lastds lb) (λ d, d <| ds_link := 0 |>) ;;
  upd_bfs last (λ s, s <| bfs_ndelim := 0 |>) ;;
  upd_bfs p (λ s, s <| bfs_isaggr := true |>) ;;
  ath_buf_set_rate p ;;
  b ← rd_bf p;
  upd_ds (bf_desc b) (λ d, ar5416Set11nAggrFirst_20 d (bf_al b) (bf_ndelim b)) ;;
  lb ← rd_bf last;
  upd_bf p (λ b, b <| bf_lastds := bf_lastds lb |>) ;;
  for_each (seq 0 (length (bf_dmamap_info lb))) (λ i,
    upd_ds (bf_descarr lb + Z.of_nat i * TX_DESC_SIZE) ar5416Set11nAggrLast_20) ;;
  assert_ (negb (bool_decide (status = ATH_AGGR_8K_LIMITED))) ;;
  bf_txq_add p.

Fixpoint sched_aggr_loop (fuel : nat) (txq : nat) (t : nat * Z) : TX unit :=
  x ← rd_tid t;
  match buf_q x with
  | [] => mret tt
  | _ =>
      match fuel with
      | O => fail OutOfFuel
      | S n =>
          '(status, bf_q) ← ath_tgt_tx_form_aggr t;
          match bf_q, last bf_q with
          | p :: _, Some bf_last =>
              b ← rd_bf p;
              (if bf_nframes b =? 1 then sched_aggr_single p
               else sched_aggr_many p bf_last status) ;;
              q ← rd_txq txq;
              if (axq_depth q <? ATH_AGGR_MIN_QDEPTH)
                 && negb (bool_decide (status = ATH_TGT_AGGR_BAW_CLOSED))
              then sched_aggr_loop n txq t else mret tt
          | _, _ => mret tt
          end
      end
  end.
Definition ath_tgt_tx_sched_aggr (t : nat * Z) : TX unit :=
  x ← rd_tid t;
  txq ← TID_TO_ACTXQ (tidno x);
  sched_aggr_loop (length (buf_q x)) txq t.

(** Paused TIDs are skipped; the first other TID is served and ends the loop. *)
Fixpoint txq_schedule_loop (fuel : nat) (i : nat) : TX unit :=
  q ← rd_txq i;
  match axq_tidq q with
  | [] => mret tt
  | t :: rest =>
      match fuel with
      | O => fail OutOfFuel
      | S n =>
          upd_txq i (λ q, q <| axq_tidq := rest |>) ;;
          upd_tid t (λ x, x <| sched := false |>) ;;
          x ← rd_tid t;
          bdone ← (if paused x then mret false else
            (if negb (tst (flag x) TID_AGGR_ENABLED)
             then ath_tgt_tx_sched_normal t else ath_tgt_tx_sched_aggr t) ;;
            x ← rd_tid t;
            unless (bool_decide (buf_q x = [])) (ath_tgt_tx_enqueue (Some i) t) ;;
            mret true);
          if negb bdone then txq_schedule_loop n i else mret tt
      end
  end.
Definition ath_tgt_txq_schedule (i : nat) : TX unit :=
  q ← rd_txq i; txq_schedule_loop (length (axq_tidq q)) i.

Definition ath_aggr_resume_tid (t : nat * Z) : TX unit :=
  x ← rd_tid t;
  txq ← TID_TO_ACTXQ (tidno x);
  upd_tid t (λ x, x <| paused := false |>) ;;
  if bool_decide (buf_q x = []) then mret tt else
  ath_tgt_tx_enqueue (Some txq) t ;;
  ath_tgt_txq_schedule txq.
Definition ath_aggr_pause_tid (t : nat * Z) : TX unit := upd_tid t (λ x, x <| paused := true |>).

Definition owl_tgt_tid_cleanup (t : nat * Z) : TX unit :=
  upd_tid t (λ x, x <| incomp ::= λ n, s8 (n - 1) |>) ;;
  x ← rd_tid t;
  if truthy (incomp x) then mret tt else
  upd_tid t (λ x, x <| flag ::= λ f, f .&~ TID_CLEANUP_INPROGRES |>) ;;
  if tst (flag x) TID_REINITIALIZE then
    upd_tid t (λ x, owl_tgt_tid_init (x <| flag ::= λ f, f .&~ TID_REINITIALIZE |>))
  else ath_aggr_resume_tid t.

(** [owl_tgt_node_init] on a node of the table. *)
Definition node_init (an : nat) : TX unit := upd_node an (λ n, n <| an_tid ::= owl_tgt_node_init an |>).

Fixpoint tid_drain_loop (fuel : nat) (t : nat * Z) : TX unit :=
  x ← rd_tid t;
  match buf_q x with
  | [] => mret tt
  | p :: rest =>
      match fuel with
      | O => fail OutOfFuel
      | S n => upd_tid t (λ x, x <| buf_q := rest |>) ;; ath_tx_freebuf p ;; tid_drain_loop n t
      end
  end.
Definition ath_tgt_tid_drain (t : nat * Z) : TX unit :=
  x ← rd_tid t;
  tid_drain_loop (length (buf_q x)) t ;;
  upd_tid t drain_window.

(** ** Handing a frame to its queue *)

Definition ath_tgt_handle_normal (p : nat) : TX unit :=
  b ← rd_bf p;
  an ← (match bf_node b with Some an => mret an | None => fail AssertFailed end);
  upd_bfs p (λ s, s <| bfs_comp := Some ath_tgt_tx_comp_normal_fn |>) ;;
  upd_tid (an, bf_tidno b) (λ x, x <| seq_start ::= λ l, INCR16 l IEEE80211_SEQ_MAX |>) ;;
  ath_tgt_tx_send_normal p.

Definition ath_tgt_handle_aggr (p : nat) : TX unit :=
  b ← rd_bf p;
  an ← (match bf_node b with Some an => mret an | None => fail AssertFailed end);
  let t := (an, bf_tidno b) in
  upd_bfs p (λ s, s <| bfs_comp := Some ath_tgt_tx_comp_aggr_fn |>) ;;
  x ← rd_tid t;
  let within_baw := BAW_WITHIN (seq_start x) (baw_size x) (SEQNO_FROM_BF_SEQNO (bf_seqno b)) in
  txq ← deref (bf_txq b);
  q ← rd_txq txq;
  let queue_frame := (axq_depth q >=? ATH_AGGR_MIN_QDEPTH) || negb (bool_decide (buf_q x = []))
                     || paused x || negb within_baw in
  if queue_frame then
    upd_tid t (λ x, x <| buf_q ::= λ l, l ++ [p] |>) ;;
    ath_tgt_tx_enqueue (Some txq) t
  else
    upd_tid t (ath_tx_addto_baw (bf_isretried b) (bf_seqno b)) ;;
    __stats txaggr_nframes ;;
    ath_tgt_tx_send_normal p.

(** ** Retries and block-ack requests *)

Definition ath_tx_set_retry (p : nat) : TX unit :=
  __stats txaggr_retries ;;
  upd_bfs p (λ s, s <| bfs_isretried := true |> <| bfs_retries ::= λ n, u8 (n + 1) |>) ;;
  b ← rd_bf p;
  wh ← ATH_SKB_2_WH (bf_skb b);
  fc1 ← rd8 (wh + off_fc1);
  wr8 (wh + off_fc1) (fc1 .| IEEE80211_FC1_RETRY).

(** [asf_tailq_next(bf, bf_list)] *)
Fixpoint tailq_next (p : nat) (l : list nat) : option nat :=
  match l with
  | [] => None
  | q :: l => if decide (q = p) then head l else tailq_next p l
  end.

(** The walk over the software queue. [TAILQ_DEQ] takes the head of the queue, which
    need not be the frame whose fate was decided. *)
Fixpoint tx_cleanup_loop (fuel : nat) (t : nat * Z) (discard_all : bool) (bf : option nat) : TX unit :=
  match bf with
  | None => mret tt
  | Some p =>
      match fuel with
      | O => fail OutOfFuel
      | S n =>
          b ← rd_bf p; x ← rd_tid t;
          if discard_all || bf_isretried b then
            let bf_next := tailq_next p (buf_q x) in
            bf ← deref (asf_tailq_first (buf_q x));
            upd_tid t (λ x, x <| buf_q ::= asf_tailq_remove bf |>) ;;
            fb ← rd_bf bf;
            when (bf_isretried fb)
              (upd_tid_o t (ath_tx_update_baw (SEQNO_FROM_BF_SEQNO (bf_seqno fb)))) ;;
            ath_tx_freebuf bf ;;
            tx_cleanup_loop n t discard_all bf_next
          else
            upd_bfs p (λ s, s <| bfs_comp := Some ath_tgt_tx_comp_normal_fn |>) ;;
            tx_cleanup_loop n t discard_all (tailq_next p (buf_q x))
      end
  end.
Definition ath_tgt_tx_cleanup (t : nat * Z) (discard_all : bool) : TX unit :=
  x ← rd_tid t;
  tx_cleanup_loop (length (buf_q x)) t discard_all (asf_tailq_first (buf_q x)) ;;
  ath_aggr_pause_tid t ;;
  upd_tid_o t (cleanup_window BAW_FUEL) ;;
  x ← rd_tid t;
  unless (tst (flag x) TID_CLEANUP_INPROGRES) (ath_aggr_resume_tid t).

Definition ath_tgt_delba_send (ni : nat) (tno : Z) : TX unit :=
  let t := (ni, tno) in
  upd_tid t (λ x, x <| flag ::= λ f, f .&~ TID_AGGR_ENABLED |>) ;;
  ath_tgt_tx_cleanup t true ;;
  n ← rd_node ni; x ← rd_tid t;
  __stats txbar_xretry ;;
  wmi_event WMI_DELBA_EVENTID [ni_nodeindex n; u8 (tidno x); 1; IEEE80211_REASON_UNSPECIFIED].

Definition ath_bar_retry (p : nat) : TX unit :=
  b ← rd_bf p;
  an ← deref (bf_node b);
  let t := (an, bf_tidno b) in
  if bf_retries b >=? OWLMAX_BAR_RETRIES then
    x ← rd_tid t;
    ath_tgt_delba_send an (u8 (tidno x)) ;;
    ath_tgt_tid_drain t ;;
    upd_bfs p (λ s, s <| bfs_comp := None |>) ;;
    ath_buf_comp p
  else
    __stats txbar_compretries ;;
    d ← rd_ds (bf_lastds b);
    p ← (if ds_link d =? 0 then __stats txbar_errlast ;; ath_buf_toggle p true else mret p);
    b ← rd_bf p;
    upd_ds (bf_lastds b) (λ d, d <| ds_link := 0 |>) ;;
    ath_tx_set_retry p ;;
    ath_tgt_txq_add_ucast p.

Definition ath_bar_tx_comp (p : nat) : TX unit :=
  b ← rd_bf p;
  ds ← rd_ds (bf_lastds b);
  if tst (ts_status (ds_txstat ds)) HAL_TXERR_XRETRY then ath_bar_retry p else
  an ← deref (bf_node b);
  ath_aggr_resume_tid (an, bf_tidno b) ;;
  upd_bfs p (λ s, s <| bfs_comp := None |>) ;;
  ath_buf_comp p.

(** The frame's own buffer is rewritten into a block-ack request for the TID. *)
Definition ath_bar_tx (t : nat * Z) (p : nat) : TX unit :=
  __stats tx_bars ;;
  ath_aggr_pause_tid t ;;
  b ← rd_bf p;
  '(skb, q) ← nb (adf_nbuf_queue_remove (bf_skbhead b));
  upd_bf p (λ b, b <| bf_skbhead := q |>) ;;
  '(bar, anblen) ← nb (adf_nbuf_peek_header skb);
  nb (adf_nbuf_trim_tail skb anblen) ;;
  let min_rate := 0x0b in
  ath_dma_unmap p ;;
  q ← nb (adf_nbuf_queue_add q skb);
  upd_bf p (λ b, b <| bf_skbhead := q |>) ;;
  wr8 (bar + off_fc1) IEEE80211_FC1_DIR_NODS ;;
  wr8 (bar + off_fc0) (IEEE80211_FC0_VERSION_0 .| IEEE80211_FC0_TYPE_CTL .| IEEE80211_FC0_SUBTYPE_BAR) ;;
  x ← rd_tid t;
  wr16 (bar + off_bar_ctl)
    (u16 ((tidno x .<< IEEE80211_BAR_CTL_TID_S) .| IEEE80211_BAR_CTL_COMBA)) ;;
  wr16 (bar + off_bar_seq) (adf_os_cpu_to_le16 (seq_start x .<< IEEE80211_SEQ_SEQ_SHIFT)) ;;
  upd_bfs p (λ s, s <| bfs_seqno := u16 (seq_start x .<< IEEE80211_SEQ_SEQ_SHIFT) |>) ;;
  nb (adf_nbuf_put_tail skb sizeof_frame_bar) ;;
  upd_bf p (λ b, b <| bf_state ::= λ s, s <| bfs_comp := Some ath_bar_tx_comp_fn |>
                                          <| bfs_tidno := u8 (tidno x) |> |>
                   <| bf_node := Some (tid_an x) |>) ;;
  ath_dma_map p ;;
  b ← rd_bf p;
  segs ← nb (adf_nbuf_dmamap_info (bf_dmamap b));
  upd_bf p (λ b, b <| bf_dmamap_info := segs |>) ;;
  len ← nb (adf_nbuf_len skb);
  upd_ds (bf_desc b) (λ d, (ar5416SetupTxDesc_20 d (len + IEEE80211_CRC_LEN) 0 HAL_PKT_TYPE_NORMAL
    60 min_rate ATH_TXMAXTRY (bf_keyix b) (HAL_TXDESC_INTREQ .| HAL_TXDESC_CLRDMASK) 0 0).1) ;;
  upd_bf p (λ b, b <| bf_state ::= λ s, s <| bfs_isaggr := false |> |> <| bf_next := None |>) ;;
  b ← rd_bf p;
  for_each (bf_seg_descs b) (λ a, upd_ds a ar5416Clr11nAggr_20) ;;
  ath_filltxdesc p ;;
  s ← get;
  let series := mk_rate_series ATH_TXMAXTRY min_rate 0 (ic_tx_chainmask (sc_ic s)) 0 in
  upd_ds (bf_desc b) (λ d, ar5416Set11nRateScenario_20 d false 0 series series series series 4) ;;
  ath_tgt_txq_add_ucast p.

(** A subframe that was not acknowledged: requeued in [bf_q], or given up, in which case
    the first such frame becomes the block-ack request. *)
Definition ath_tx_retry_subframe (p : nat) (acc : list nat * option nat)
    : TX (list nat * option nat) :=
  let '(bf_q, bar) := acc in
  b ← rd_bf p;
  an ← deref (bf_node b);
  __stats txaggr_compretries ;;
  for_each (bf_seg_descs b) (λ a, upd_ds a desc_clr_aggr) ;;
  if bf_retries b >=? OWLMAX_RETRIES then
    __stats txaggr_xretries ;;
    upd_tid_o (an, bf_tidno b) (ath_tx_update_baw (SEQNO_FROM_BF_SEQNO (bf_seqno b))) ;;
    ds ← rd_ds (bf_lastds b);
    ath_tx_status_update_aggr p ds None false ;;
    match bar with
    | None => mret (bf_q, Some p)
    | Some _ => ath_tx_freebuf p ;; mret (bf_q, bar)
    end
  else
    p ← (match bf_next b with
         | None => __stats txaggr_errlast ;; ath_buf_toggle p true
         | Some _ =>
             upd_bf p (λ b, b <| bf_lastds := bf_descarr b +
               (Z.of_nat (length (bf_dmamap_info b)) - 1) * TX_DESC_SIZE |>) ;;
             mret p
         end);
    ath_tx_set_retry p ;;
    mret (bf_q ++ [p], bar).

Definition ath_update_aggr_stats (ds : ath_tx_desc) : TX unit :=
  let st := ts_status (ds_txstat ds) in
  let fl := ts_flags (ds_txstat ds) in
  __statsn txaggr_longretries (ts_longretry (ds_txstat ds)) ;;
  __statsn txaggr_shortretries (ts_shortretry (ds_txstat ds)) ;;
  when (tst fl HAL_TX_DESC_CFG_ERR) (__stats txaggr_desc_cfgerr) ;;
  when (tst fl HAL_TX_DATA_UNDERRUN) (__stats txaggr_data_urun) ;;
  when (tst fl HAL_TX_DELIM_UNDERRUN) (__stats txaggr_delim_urun) ;;
  if st =? 0 then mret tt else
  when (tst st HAL_TXERR_XRETRY) (__stats txaggr_compxretry) ;;
  when (tst st HAL_TXERR_FILT) (__stats txaggr_filtered) ;;
  when (tst st HAL_TXERR_FIFO) (__stats txaggr_fifo) ;;
  when (tst st HAL_TXERR_XTXOP) (__stats txaggr_xtxop) ;;
  when (tst st HAL_TXERR_TIMER_EXPIRED) (__stats txaggr_timer_exp).

(** ** Completion *)

Definition ath_tgt_tx_comp_normal (p : nat) : TX unit :=
  b ← rd_bf p;
  an ← deref (bf_node b);
  let t := (an, bf_tidno b) in
  x ← rd_tid t;
  when (tst (flag x) TID_CLEANUP_INPROGRES) (owl_tgt_tid_cleanup t) ;;
  b ← rd_bf p;
  (match bf_node b with Some _ => ath_tx_uc_comp p | None => mret tt end) ;;
  ath_tx_freebuf p.

Definition ath_tx_retry_unaggr (p : nat) : TX unit :=
  b ← rd_bf p;
  an ← deref (bf_node b);
  let t := (an, bf_tidno b) in
  if bf_retries b >=? OWLMAX_RETRIES then
    __stats txunaggr_xretry ;;
    upd_tid_o t (ath_tx_update_baw (SEQNO_FROM_BF_SEQNO (bf_seqno b))) ;;
    ath_tx_status_update p ;;
    ath_bar_tx t p
  else
    __stats txunaggr_compretries ;;
    d ← rd_ds (bf_lastds b);
    let txq := bf_txq b in
    p ← (if ds_link d =? 0 then __stats txunaggr_errlast ;; ath_buf_toggle p true else mret p);
    ath_tx_set_retry p ;;
    upd_tid t (λ x, x <| buf_q ::= cons p |>) ;;
    ath_tgt_tx_enqueue txq t.

Definition ath_tx_comp_unaggr (p : nat) : TX unit :=
  b ← rd_bf p;
  an ← deref (bf_node b);
  let t := (an, bf_tidno b) in
  ath_update_stats p ;;
  ds ← rd_ds (bf_lastds b);
  rate_tx_complete an ds (bf_rcs b) 1 0 ;;
  if tst (ts_status (ds_txstat ds)) HAL_TXERR_XRETRY then ath_tx_retry_unaggr p else
  __stats tx_compunaggr ;;
  upd_tid_o t (ath_tx_update_baw (SEQNO_FROM_BF_SEQNO (bf_seqno b))) ;;
  ath_tx_status_update p ;;
  ath_tx_freebuf p.

(** What the two aggregate completions do once every subframe has been judged. *)
Definition comp_aggr_finish (t : nat * Z) (txq : option nat) (acc : list nat * option nat) : TX unit :=
  let '(bf_q, bar) := acc in
  (match bar with Some p => ath_bar_tx t p | None => mret tt end) ;;
  unless (bool_decide (bf_q = []))
    (__stats txaggr_prepends ;;
     upd_tid t (λ x, x <| buf_q ::= λ l, bf_q ++ l |>) ;;
     ath_tgt_tx_enqueue txq t).

(** The walk over the subframes of an aggregate along [bf_next]; [fuel] is the number of
    transmit buffers, which a chain without repetition does not exceed. *)
Fixpoint comp_chain {A} (fuel : nat) (step : nat → A → TX A) (bf : option nat) (acc : A) : TX A :=
  match bf with
  | None => mret acc
  | Some p =>
      match fuel with
      | O => fail OutOfFuel
      | S n => b ← rd_bf p; acc ← step p acc; comp_chain n step (bf_next b) acc
      end
  end.

Definition ath_tx_comp_aggr_error (p : nat) (t : nat * Z) : TX unit :=
  s ← get; b ← rd_bf p;
  ds ← rd_ds (bf_lastds b);
  acc ← comp_chain (length (sc_bufs s)) ath_tx_retry_subframe (Some p) ([], None);
  ath_update_aggr_stats ds ;;
  x ← rd_tid t;
  rate_tx_complete (tid_an x) ds (bf_rcs b) (bf_nframes b) (bf_nframes b) ;;
  comp_aggr_finish t (bf_txq b) acc.

(** [ATH_BA_ISSET] on the two bitmap words of the status. *)
Definition ATH_BA_ISSET (ba : list Z) (n : Z) : bool :=
  (n <? WME_BA_BMP_SIZE) && tst (default 0 (ba !! Z.to_nat (n .>> 5))) (u32 (1 .<< (n .& 31))).

(** The verdict on one subframe of an acknowledged aggregate; the counter is [nbad]. *)
Definition comp_aggr_step (t : nat * Z) (ds : ath_tx_desc) (rcs : list rc_series) (tx_ok : bool)
    (p : nat) (acc : Z * (list nat * option nat)) : TX (Z * (list nat * option nat)) :=
  b ← rd_bf p;
  let sn := SEQNO_FROM_BF_SEQNO (bf_seqno b) in
  let ba_index := ATH_BA_INDEX (ts_seqnum (ds_txstat ds)) sn in
  if tx_ok && ATH_BA_ISSET [ba_low (ds_txstat ds); ba_high (ds_txstat ds)] ba_index then
    __stats txaggr_compgood ;;
    upd_tid_o t (ath_tx_update_baw sn) ;;
    ath_tx_status_update_aggr p ds (Some rcs) true ;;
    ath_tx_freebuf p ;;
    mret acc
  else
    acc' ← ath_tx_retry_subframe p acc.2;
    mret (acc.1 + 1, acc').

(** One frame of an aggregate whose TID is being cleaned up; the flag tells whether the
    loop was left by [break]. *)
Fixpoint comp_cleanup_loop (fuel : nat) (t : nat * Z) (ds : ath_tx_desc) (rcs : list rc_series)
    (bf : option nat) : TX unit :=
  match bf with
  | None => mret tt
  | Some p =>
      match fuel with
      | O => fail OutOfFuel
      | S n =>
          b ← rd_bf p;
          ath_tx_status_update_aggr p ds (Some rcs) false ;;
          ath_tx_freebuf p ;;
          upd_tid t (λ x, x <| incomp ::= λ n, s8 (n - 1) |>) ;;
          x ← rd_tid t;
          if negb (truthy (incomp x)) then
            upd_tid t (λ x, x <| flag ::= λ f, f .&~ TID_CLEANUP_INPROGRES |>) ;;
            ath_aggr_resume_tid t
          else comp_cleanup_loop n t ds rcs (bf_next b)
      end
  end.

Definition ath_tx_comp_cleanup (p : nat) : TX unit :=
  s ← get; b ← rd_bf p;
  an ← deref (bf_node b);
  let t := (an, bf_tidno b) in
  ds ← rd_ds (bf_lastds b);
  if negb (bf_isaggr b) then
    ath_update_stats p ;;
    __stats tx_compunaggr ;;
    ath_tx_status_update p ;;
    ath_tx_freebuf p ;;
    x ← rd_tid t;
    when (tst (flag x) TID_CLEANUP_INPROGRES) (owl_tgt_tid_cleanup t)
  else
    comp_cleanup_loop (length (sc_bufs s)) t ds (bf_rcs b) (Some p) ;;
    ath_update_aggr_stats ds ;;
    rate_tx_complete an ds (bf_rcs b) (bf_nframes b) 0.

Definition ath_tgt_tx_comp_aggr (p : nat) : TX unit :=
  s ← get; b ← rd_bf p;
  an ← deref (bf_node b);
  let t := (an, bf_tidno b) in
  x ← rd_tid t;
  if tst (flag x) TID_CLEANUP_INPROGRES then ath_tx_comp_cleanup p else
  ds ← rd_ds (bf_lastds b);
  let st := ts_status (ds_txstat ds) in
  assert_ (negb (ts_flags (ds_txstat ds) =? HAL_TX_SW_FILTERED)) ;;
  if negb (bf_isaggr b) then ath_tx_comp_unaggr p else
  __stats tx_compaggr ;;
  let tx_ok := st =? 0 in
  if tst st HAL_TXERR_XRETRY then ath_tx_comp_aggr_error p t else
  if tx_ok && negb (tst (ts_flags (ds_txstat ds)) HAL_TX_BA) then
    __stats txaggr_babug ;; ath_tx_comp_aggr_error p t
  else
    '(nbad, acc) ← comp_chain (length (sc_bufs s)) (comp_aggr_step t ds (bf_rcs b) tx_ok)
                     (Some p) (0, ([], None));
    ath_update_aggr_stats ds ;;
    rate_tx_complete an ds (bf_rcs b) (bf_nframes b) nbad ;;
    comp_aggr_finish t (bf_txq b) acc.

(** The call through [bf->bf_comp]. *)
Definition run_comp (f : comp_fn) (p : nat) : TX unit :=
  match f with
  | ath_tgt_tx_comp_normal_fn => ath_tgt_tx_comp_normal p
  | ath_tgt_tx_comp_aggr_fn => ath_tgt_tx_comp_aggr p
  | ath_bar_tx_comp_fn => ath_bar_tx_comp p
  end.

Inductive owl_txq_state := OWL_TXQ_ACTIVE | OWL_TXQ_STOPPED | OWL_TXQ_FILTERED.

Definition txq_unlink (i : nat) : TX unit :=
  upd_txq i (λ q, q <| axq_link := None |> <| axq_linkbuf := None |>).

(** What happens to a frame the hardware has not finished: [true] to stop the loop. *)
Definition processq_in_progress (ds : Z) (txqstate : owl_txq_state) : TX bool :=
  match txqstate with
  | OWL_TXQ_ACTIVE => mret true
  | OWL_TXQ_STOPPED =>
      __stats tx_stopfiltered ;;
      upd_ds ds (λ d, d <| ds_txstat ::= λ t, t <| ts_flags := 0 |> <| ts_status := 0 |> |>) ;;
      mret false
  | OWL_TXQ_FILTERED =>
      upd_ds ds (λ d, d <| ds_txstat ::= λ t, t <| ts_flags := HAL_TX_SW_FILTERED |> |>) ;;
      mret false
  end.

(** One turn of the loop of [owltgt_tx_processq]; [false] leaves it. *)
Definition processq_step (i : nat) (txqstate : owl_txq_state) : TX bool :=
  q ← rd_txq i;
  match asf_tailq_first (axq_q q) with
  | None => txq_unlink i ;; mret false
  | Some p =>
      b ← rd_bf p;
      d ← rd_ds (bf_lastds b);
      '(status, d) ← hal (ar5416ProcTxDesc_20 d);
      upd_ds (bf_lastds b) (λ _, d) ;;
      stop ← (if bool_decide (status = HAL_EINPROGRESS)
              then processq_in_progress (bf_lastds b) txqstate else mret false);
      if stop : bool then mret false else
      upd_txq i (λ q, q <| axq_q ::= asf_tailq_remove p |> <| axq_depth ::= λ n, u32 (n - 1) |>) ;;
      q ← rd_txq i;
      when (bool_decide (axq_q q = [])) (__stats tx_qnull ;; txq_unlink i) ;;
      (match bf_comp b with
       | Some f => run_comp f p
       | None => ath_tx_status_update p ;; ath_buf_comp p
       end) ;;
      (match txqstate with OWL_TXQ_ACTIVE => ath_tgt_txq_schedule i | _ => mret tt end) ;;
      mret true
  end.
(** The loop has no bound of its own: it runs as long as the hardware has finished the
    frame at the head, so the number of turns is a parameter. *)
Definition owltgt_tx_processq (fuel : nat) (i : nat) (txqstate : owl_txq_state) : TX unit :=
  do_while fuel (processq_step i txqstate).

Definition owltgt_tx_process_cabq (fuel : nat) (i : nat) : TX unit :=
  s ← get;
  hal (ar5416SetInterrupts (sc_imask s .&~ HAL_INT_SWBA)) ;;
  owltgt_tx_processq fuel i OWL_TXQ_ACTIVE ;;
  s ← get;
  hal (ar5416SetInterrupts (sc_imask s)) ;; mret tt.

Definition owl_tgt_tx_tasklet (fuel : nat) : TX unit :=
  ath_tx_status_clear ;;
  for_each (seq 0 4) (λ i,
    s ← get;
    when (tst (sc_txqsetup s) (1 .<< Z.of_nat i))
      (if bool_decide (sc_cabq s = Some i) then owltgt_tx_process_cabq fuel i
       else owltgt_tx_processq fuel i OWL_TXQ_ACTIVE)) ;;
  ath_tx_status_send.

(** ** Management frames *)

(** [ath_mgt_hdr_t] at address [a]; [keytype] and [keyix] are signed. *)
Record ath_mgt_hdr := mk_mgt_hdr {
  mh_ni_index : Z; mh_vap_index : Z; mh_flags : Z; mh_keytype : Z; mh_keyix : Z; mh_cookie : Z }.
Definition sizeof_mgt_hdr : Z := 8.
Definition rd_mgt_hdr (a : Z) : TX ath_mgt_hdr :=
  ni ← rd8 a; vi ← rd8 (a + 1); fl ← rd8 (a + 3); kt ← rd8 (a + 4); ki ← rd8 (a + 5);
  ck ← rd8 (a + 6);
  mret (mk_mgt_hdr ni vi fl (s8 kt) (s8 ki) ck).

(** Packet type and flags from the frame-control type. *)
Definition mgt_type_flags (fc0 : Z) : Z * Z :=
  let ty := fc0 .& IEEE80211_FC0_TYPE_MASK in
  if ty =? IEEE80211_FC0_TYPE_MGT then
    let sub := fc0 .& IEEE80211_FC0_SUBTYPE_MASK in
    (if sub =? IEEE80211_FC0_SUBTYPE_PROBE_RESP then HAL_PKT_TYPE_PROBE_RESP
     else if sub =? IEEE80211_FC0_SUBTYPE_ATIM then HAL_PKT_TYPE_ATIM
     else HAL_PKT_TYPE_NORMAL, HAL_TXDESC_CLRDMASK)
  else if ty =? IEEE80211_FC0_TYPE_CTL
  then (HAL_PKT_TYPE_NORMAL, HAL_TXDESC_CLRDMASK .| HAL_TXDESC_NOACK)
  else (HAL_PKT_TYPE_NORMAL, HAL_TXDESC_CLRDMASK).

(** The duration of the protection exchange, and its rate code. *)
Definition mgt_cts (flags pktlen : Z) (ri : rate_info) (shortPreamble : bool) (cix : Z)
    : TX (Z * Z) :=
  assert_ (negb (cix =? 0xff)) ;;
  s ← get;
  ci ← rate_entry cix;
  let ack := if shortPreamble then ri_spAckDuration ci else ri_lpAckDuration ci in
  let ctsrate := if shortPreamble then ri_rateCode ci .| ri_shortPreamble ci else ri_rateCode ci in
  let dur := ifbit (tst flags HAL_TXDESC_RTSENA) ack in
  let dur := if flags .& HAL_TXDESC_NOACK =? 0 then u32 (dur + ack) else dur in
  match ath_hal_computetxtime (ah_caps (sc_hal s)) ri pktlen shortPreamble with
  | Some t => mret (u8 ctsrate, u32 (dur + t))
  | None => fail DivByZero
  end.

(** [hdr_buf] is 0 when the header precedes the frame in [skb]. *)
Definition ath_tgt_send_mgt (hdr_buf skb endpt : Z) : TX unit :=
  '(data, len) ← (if hdr_buf =? 0 then
                    r ← nb (adf_nbuf_peek_header skb);
                    nb (adf_nbuf_pull_head skb sizeof_mgt_hdr) ;; mret r
                  else nb (adf_nbuf_peek_header hdr_buf));
  assert_ (sizeof_mgt_hdr <=? len) ;;
  mh ← rd_mgt_hdr data;
  '(wh, len) ← nb (adf_nbuf_peek_header skb);
  s ← get;
  match asf_tailq_first (sc_txbuf s) with
  | None => host (HTC_ReturnBuffers_ev endpt skb)
  | Some p =>
  modify (λ s, s <| sc_txbuf ::= asf_tailq_remove p |>) ;;
  o ← ath_tgt_find_node (mh_ni_index mh);
  match o with
  | None => host (HTC_ReturnBuffers_ev endpt skb)
  | Some ni =>
  upd_bf p (λ b, b <| bf_endpt := endpt |> <| bf_cookie := mh_cookie mh |>
    <| bf_state ::= λ st, st <| bfs_protmode :=
         mh_flags mh .& (IEEE80211_PROT_RTSCTS .| IEEE80211_PROT_CTSONLY) |> |>) ;;
  fc0 ← rd8 (wh + off_fc0); fc1 ← rd8 (wh + off_fc1); a0 ← rd8 (wh + off_addr1);
  let iswep := tst fc1 IEEE80211_FC1_WEP in
  let ismcast := IEEE80211_IS_MULTICAST a0 in
  hdrlen ← ieee80211_anyhdrsize wh;
  let pktlen := len + IEEE80211_CRC_LEN in
  (* a signed char: the value 255 becomes -1 *)
  let keyix := if iswep then mh_keyix mh else s8 HAL_TXKEYIX_INVALID in
  upd_bf p (λ b, b <| bf_dmamap := adf_nbuf_map skb |> <| bf_skb := skb |>) ;;
  b ← rd_bf p;
  q ← nb (adf_nbuf_queue_add (bf_skbhead b) skb);
  upd_bf p (λ b, b <| bf_skbhead := q |>) ;;
  let shortPreamble := mh_flags mh =? ATH_SHORT_PREAMBLE in
  let '(atype, flags) := mgt_type_flags fc0 in
  avp ← in_range (sc_vap s !! Z.to_nat (mh_vap_index mh));
  let rx := ath_get_minrateidx (sc_curmode s) avp in
  upd_bf p (λ b, b <| bf_state ::= λ st, st <| bfs_rcs :=
    [mk_rc rx ATH_TXMAXTRY 0 0 0 0; rc_zero; rc_zero; rc_zero] |> |> <| bf_node := Some ni |>) ;;
  ri ← rate_entry rx;
  let txrate := u8 (ri_rateCode ri .| (if shortPreamble then ri_shortPreamble ri else 0)) in
  n ← rd_node ni;
  vix ← deref (ni_vap n);
  vap ← in_range (sc_vap s !! vix);
  let '(flags, try0, cix) :=
    if ismcast then (flags .| HAL_TXDESC_NOACK, 1, 0xff)
    else if iv_rtsthreshold vap <? pktlen
    then (flags .| HAL_TXDESC_RTSENA, ATH_TXMAXTRY, ri_controlRate ri)
    else (flags, ATH_TXMAXTRY, 0xff) in
  b ← rd_bf p;
  cix ← (if negb (bf_protmode b =? IEEE80211_PROT_NONE)
            && bool_decide (ri_phy ri = IEEE80211_T_OFDM)
            && (flags .& HAL_TXDESC_NOACK =? 0)
         then pi ← rate_entry (sc_protrix s); __stats ast_tx_protect ;; mret (ri_controlRate pi)
         else mret cix);
  wr16 (wh + off_seq) (adf_os_cpu_to_le16 (u16 (ni_txseqmgmt n .<< IEEE80211_SEQ_SEQ_SHIFT))) ;;
  upd_node ni (λ n, n <| ni_txseqmgmt ::= λ l, INCR16 l IEEE80211_SEQ_MAX |>) ;;
  '(ctsrate, ctsduration, try0) ←
    (if tst flags (HAL_TXDESC_RTSENA .| HAL_TXDESC_CTSENA)
     then r ← mgt_cts flags pktlen ri shortPreamble cix; mret (r, 1)
     else mret (0, 0, try0));
  let flags := flags .| HAL_TXDESC_INTREQ in
  upd_ds (bf_desc b) (λ d, (ar5416SetupTxDesc_20 d pktlen hdrlen atype 60 txrate try0
                              (u32 keyix) flags ctsrate ctsduration).1) ;;
  upd_bf p (λ b, b <| bf_flags := u16 flags |>) ;;
  when (iswep && negb (keyix =? HAL_TXKEYIX_INVALID)
        && (fc0 .& IEEE80211_FC0_SUBTYPE_MASK =? IEEE80211_FC0_SUBTYPE_AUTH))
    (upd_ds (bf_desc b) (λ d, ar5416FillKeyTxDesc_20 d (u32 (mh_keytype mh)))) ;;
  ath_filltxdesc p ;;
  let series := mk_rate_series 2 txrate 0 (ic_tx_chainmask (sc_ic s)) 0 in
  upd_ds (bf_desc b) (λ d, ar5416Set11nRateScenario_20 d false ctsrate series series series series 0) ;;
  b ← rd_bf p;
  ath_tgt_txqaddbuf 1 p (bf_lastds b)
  end end.

End txpath.
