(* ===== verification/TxSample.v ===== *)
(** * A small transmit state

    The concrete state that the witnesses of the transmit path evaluate: eight nodes of
    eight TIDs each, four transmit queues, six transmit buffers with one frame of 60 bytes
    each, two status events. The registers of the chip are a finite map, rate control has no state and always
    proposes rate 0. *)

From S2P Require Import Prelude.
From S2P Require Import TxTypes.
From S2P Require Import TxPath.

#[export] Instance regs_mmio : Mmio (gmap Z Z) := {|
  hw_read a m := (default 0 (m !! a), m); hw_write a v m := <[a := v]> m |}.

(** One series of rate 0 with three tries, no probing. *)
#[export] Instance const_rates : RateControl unit := {|
  ath_rate_findrate _ _ _ _ _ _ _ _ := mret ([mk_rc 0 3 1 0 4000 6500; rc_zero; rc_zero; rc_zero], 0);
  ath_rate_tx_complete _ _ _ _ _ _ := mret tt |}.

Definition ht_rate : rc11n_info :=
  mk_rc11n 0 0 0 WLAN_RC_PHY_HT_20_SS 6500 6400 0x80 0 0 4 2 3 0 0 0 0 3 7 3216 true.

Definition tx_tid (q : list nat) (no : Z) : ath_atx_tid :=
  mk_tid no 100 106 64 0 0 [0; 0; 0; 0] q false false TID_AGGR_ENABLED 0 0.
Definition tx_node (q : list nat) (i : nat) : ath_node_target :=
  mk_node [] [] (Z.of_nat i) 0 0 0 0 0 7 0 0 (Some 0%nat) (map (tx_tid q) (seqZ 0 8)) true.
Definition tx_desc : ath_tx_desc :=
  mk_tx_desc 0 0 0 0 0 0 0 0 0 0 0 0 0 0 0 0 0 0 0 0
    (mk_tx_status 0 0 0 0 0 0 0 0 0 0 0 0 0 0 0 0 0 0 0 0 0).

(** Buffer [i] holds the nbuf at [100 + 32 i], whose bytes start at [10000 + 2000 i + 64]. *)
Definition tx_buf (i : nat) : ath_tx_buf :=
  let z := Z.of_nat i in
  mk_txbuf (100 + 32 * z) [(10064 + 2000 * z, 60)] (Some 0%nat) (mk_qhead (100 + 32 * z) (100 + 32 * z) 1)
    (100 + 32 * z) None (3000 + 136 * z) (3000 + 136 * z) (3000 + 136 * z)
    (mk_bfs (Some ath_tgt_tx_comp_aggr_fn) (Some ath_tgt_txq_add_ucast_fn) 64 (16 * (100 + z)) 26 0 0 0 0 0 0
       [mk_rc 0 3 1 0 4000 6500; rc_zero; rc_zero; rc_zero] (Some 0%nat) 0 0 0 false false false false)
    0 5 (40 + z) 0.

Definition tx_nb : nb_state :=
  mk_nb_state (mk_allocram 0 0)
    (list_to_map (map (λ i, (100 + 32 * i, mk_VBUF (400 + 40 * i) 0 60 (replicate 20 0))) (seqZ 0 6)))
    (list_to_map (map (λ i, (400 + 40 * i, mk_VDESC 0 (10000 + 2000 * i) 1664 64 60 0 [])) (seqZ 0 6)))
    0 0 0 (replicate 10 0).

Definition tx_sample (q : list nat) : softc (gmap Z Z) unit :=
  mk_sc tx_nb ∅
    (mk_hal (HAL_INT_GLOBAL .| HAL_INT_TX) 0 (mk_caps true true) ∅) tt
    (map tx_buf (seq 0 6))
    (list_to_map (map (λ i, (3000 + 136 * i, tx_desc)) (seqZ 0 6)))
    [] (Some 5%nat)
    (map (λ i, mk_txq i None [] 0 None []) (seqZ 0 4)) 15 [1; 0; 2; 3]%nat None
    (map (tx_node q) (seq 0 8))
    [mk_vap 0 1 [] 0 2346 0 (Some 0%nat) (0, 0) (0, 0) true]
    (mk_ic 50000 20 0 3) false HAL_INT_GLOBAL IEEE80211_MODE_11NG
    [mk_rate_info IEEE80211_T_HT 6500 0x80 0 0 0 0] [ht_rate] 0
    (λ _, 0) (replicate 2 (mk_txsev 0 (replicate 12 (mk_txs 0 0 0)))) [].
