(* ===== verification/TxProps.v ===== *)
(** * Properties of the transmit path

    Node lookup, sequence numbers, the transmit-status report, scheduling, the shape of
    aggregates and the recycling of buffers. *)

From S2P Require Import Prelude.
From S2P Require Import NBufProps.
From S2P Require Import TxTypes.
From S2P Require Import TxPath.
From S2P Require Import TxSample.

(** ** Running the accessors *)

Lemma alter_insert_eq {A} (f : A → A) (l : list A) i x :
  l !! i = Some x → alter f i l = <[i := f x]> l.
Proof.
  revert i. induction l as [|y l IH]; intros [|i] H; try done; cbn in *.
  - by injection H as ->.
  - f_equal. by apply IH.
Qed.

Section run_tx.
Context {HW RC : Type}.
Implicit Type s : softc HW RC.

Lemma run_nb {A} (m : NB A) s a n : m (sc_nb s) = Ok (a, n) → nb m s = Ok (a, s <| sc_nb := n |>).
Proof. intros H. unfold nb. by rewrite H. Qed.
Lemma run_nb_pure {A} (m : NB A) s a : m (sc_nb s) = Ok (a, sc_nb s) → nb m s = Ok (a, s).
Proof. intros H. rewrite (run_nb _ _ _ _ H). by destruct s. Qed.
Lemma run_rd_bf s p b : sc_bufs s !! p = Some b → rd_bf p s = Ok (b, s).
Proof. intros H. unfold rd_bf. run. by rewrite H. Qed.
Lemma run_upd_bf s p b f :
  sc_bufs s !! p = Some b → upd_bf p f s = Ok (tt, s <| sc_bufs ::= <[p := f b]> |>).
Proof. intros H. unfold upd_bf. by erewrite bind_ok by by apply run_rd_bf. Qed.
Lemma run_rd_ds s a d : sc_descs s !! a = Some d → rd_ds a s = Ok (d, s).
Proof. intros H. unfold rd_ds. run. by rewrite H. Qed.
Lemma run_upd_ds s a d f :
  sc_descs s !! a = Some d → upd_ds a f s = Ok (tt, s <| sc_descs ::= <[a := f d]> |>).
Proof. intros H. unfold upd_ds. by erewrite bind_ok by by apply run_rd_ds. Qed.
Lemma run_rd_txq s i q : sc_txqs s !! i = Some q → rd_txq i s = Ok (q, s).
Proof. intros H. unfold rd_txq. run. by rewrite H. Qed.
Lemma run_upd_txq s i q f :
  sc_txqs s !! i = Some q → upd_txq i f s = Ok (tt, s <| sc_txqs ::= <[i := f q]> |>).
Proof. intros H. unfold upd_txq. by erewrite bind_ok by by apply run_rd_txq. Qed.
Lemma run_rd_node s i n : sc_sta s !! i = Some n → rd_node i s = Ok (n, s).
Proof. intros H. unfold rd_node. run. by rewrite H. Qed.
Lemma run_upd_node s i n f :
  sc_sta s !! i = Some n → upd_node i f s = Ok (tt, s <| sc_sta ::= <[i := f n]> |>).
Proof. intros H. unfold upd_node. by erewrite bind_ok by by apply run_rd_node. Qed.

(** The TID that a pair names. *)
Definition tid_at s (t : nat * Z) : option ath_atx_tid :=
  n ← sc_sta s !! t.1; an_tid n !! Z.to_nat t.2.
Definition set_tid s (t : nat * Z) (x : ath_atx_tid) : softc HW RC :=
  s <| sc_sta ::= alter (λ n, n <| an_tid ::= <[Z.to_nat t.2 := x]> |>) t.1 |>.

Lemma run_rd_tid s t x : tid_at s t = Some x → rd_tid t s = Ok (x, s).
Proof.
  unfold tid_at, rd_tid. intros (n & Hn & Hx)%bind_Some.
  erewrite bind_ok by by apply run_rd_node. by rewrite Hx.
Qed.
Lemma run_upd_tid s t x f : tid_at s t = Some x → upd_tid t f s = Ok (tt, set_tid s t (f x)).
Proof.
  intros Hx. unfold upd_tid. erewrite bind_ok by by apply run_rd_tid.
  unfold tid_at in Hx. apply bind_Some in Hx as (n & Hn & Hx).
  erewrite run_upd_node by done. unfold set_tid, field_upd. cbn.
  by erewrite alter_insert_eq.
Qed.
Lemma tid_at_set s t x y : tid_at s t = Some y → tid_at (set_tid s t x) t = Some x.
Proof.
  unfold tid_at, set_tid. intros (n & Hn & Hx)%bind_Some. cbn.
  rewrite list_lookup_alter, decide_True, Hn by done. cbn. by eapply list_lookup_insert_eq, lookup_lt_Some.
Qed.
Lemma tid_at_set_ne s t t' x :
  (t'.1, Z.to_nat t'.2) ≠ (t.1, Z.to_nat t.2) → tid_at (set_tid s t x) t' = tid_at s t'.
Proof.
  intros Hne. unfold tid_at, set_tid. cbn. rewrite list_lookup_alter.
  case_decide as Heq; [|done]. rewrite Heq. destruct (sc_sta s !! t'.1) as [n|]; [|done]. cbn.
  rewrite list_lookup_insert_ne; [done|]. intros Heq2. destruct Hne. congruence.
Qed.
Lemma run_frame s skb v d :
  vbufs (sc_nb s) !! skb = Some v → vdescs (sc_nb s) !! desc_list v = Some d →
  ATH_SKB_2_WH skb s = Ok (u32 (buf_addr d + data_offset d), s).
Proof.
  intros Hv Hd. unfold ATH_SKB_2_WH. erewrite bind_ok.
  2: { apply run_nb_pure. unfold adf_nbuf_peek_header. by nb_run. }
  reflexivity.
Qed.
End run_tx.

(** ** Looking a node up *)

(** The host names a node by its index in the table of eight. An index inside the
    table gives the node if it is valid and belongs to an interface, an index above eight
    is refused, but eight itself passes the check of [ath_tgt_find_node] and the entry
    behind the table is read. *)
Theorem ath_tgt_find_node_bound {HW RC} (s : softc HW RC) i :
  length (sc_sta s) = Z.to_nat TARGET_NODE_MAX → 0 <= i →
  ath_tgt_find_node i s =
    match sc_sta s !! Z.to_nat i with
    | Some n => Ok (if an_valid n && bool_decide (is_Some (ni_vap n)) then Some (Z.to_nat i) else None, s)
    | None => if i =? TARGET_NODE_MAX then Fault OutOfRange else Ok (None, s)
    end.
Proof.
  intros Hlen Hi. unfold ath_tgt_find_node, TARGET_NODE_MAX in *.
  destruct (Z.ltb_spec 8 i) as [Hgt|Hle].
  - rewrite lookup_ge_None_2 by lia. by destruct (Z.eqb_spec i 8); [lia|].
  - destruct (sc_sta s !! Z.to_nat i) as [n|] eqn:Hn.
    + erewrite bind_ok by (apply run_rd_node; exact Hn). rewrite run_ret.
      destruct (an_valid n), (ni_vap n); done.
    + apply lookup_ge_None_1 in Hn. assert (i = 8) as -> by lia.
      unfold rd_node. rewrite bind_assoc, (bind_ok _ _ _ _ _ (run_get _)).
      rewrite lookup_ge_None_2 by lia. done.
Qed.

(** ** Sequence numbers *)

(** The bytes of a swapped 16-bit word, as the big-endian CPU stores it: low byte first. *)
Lemma le16_value x : in_u16 x → adf_os_cpu_to_le16 x = x `div` 256 + x mod 256 * 256.
Proof.
  intros Hx. unfold adf_os_cpu_to_le16, in_u16 in *. rewrite !u16_small with (x := x) by lia.
  rewrite Z.shiftr_land. change (65280 .>> 8) with (2 ^ 8 - 1). change 255 with (2 ^ 8 - 1).
  rewrite !land_mask, Z.shiftr_div_pow2 by done. change (2 ^ 8) with 256.
  rewrite u16_small.
  - rewrite lor_shiftl_add; [|done|]; change (2 ^ 8) with 256; mlia.
  - rewrite Z.shiftl_mul_pow2 by done. change (2 ^ 8) with 256. mlia.
Qed.
Lemma le16_bytes x : in_u16 x →
  u8 (adf_os_cpu_to_le16 x .>> 8) = x mod 256 ∧ u8 (adf_os_cpu_to_le16 x) = x `div` 256.
Proof.
  intros Hx. rewrite le16_value, Z.shiftr_div_pow2 by done. change (2 ^ 8) with 256.
  unfold in_u16, u8 in *. mlia.
Qed.
Lemma lor_nibble k f : 0 <= f < 16 → 16 * k .| f = 16 * k + f.
Proof.
  intros Hf. replace (16 * k) with (k .<< 4) by (rewrite Z.shiftl_mul_pow2 by done; lia).
  rewrite Z.lor_comm, lor_shiftl_add, Z.shiftl_mul_pow2 by done. lia.
Qed.

Section seqno.
Context {HW RC : Type}.
Implicit Type s : softc HW RC.

Lemma tid_at_upd_node s i n n' t :
  sc_sta s !! i = Some n → an_tid n' = an_tid n →
  tid_at (s <| sc_sta ::= <[i := n']> |>) t = tid_at s t.
Proof.
  intros Hn Ht. unfold tid_at. cbn. destruct (decide (t.1 = i)) as [->|].
  - rewrite list_lookup_insert_eq by (by eapply lookup_lt_Some). rewrite Hn. cbn. by rewrite Ht.
  - by rewrite list_lookup_insert_ne.
Qed.

Lemma run_seq_advance s t x (more : bool) :
  tid_at s t = Some x → 0 <= seq_next x < 4096 →
  ∃ s', (unless more (upd_tid t (λ t0, t0 <| seq_next ::= λ l, u16 (l + 1) |>)) ;;
         upd_tid t (λ t0, t0 <| seq_next ::= λ l, l .& (IEEE80211_SEQ_MAX - 1) |>)) s = Ok (tt, s') ∧
    sc_mem s' = sc_mem s ∧ sc_bufs s' = sc_bufs s ∧
    tid_at s' t = Some (x <| seq_next := if more then seq_next x else (seq_next x + 1) mod 4096 |>).
Proof.
  intros Hx Hs. change (IEEE80211_SEQ_MAX - 1) with (2 ^ 12 - 1). destruct more; cbn [negb when].
  - rewrite (bind_ok _ _ _ _ _ (run_ret _ _)). rewrite (run_upd_tid _ _ _ _ Hx).
    eexists. split; [reflexivity|]. split_and!; [done..|]. rewrite (tid_at_set _ _ _ _ Hx).
    f_equal. unfold field_upd. rewrite land_mask, Z.mod_small by done. done.
  - erewrite bind_ok by (apply run_upd_tid; exact Hx).
    pose proof (tid_at_set s t (x <| seq_next ::= λ l, u16 (l + 1) |>) x Hx) as Hx1.
    rewrite (run_upd_tid _ _ _ _ Hx1). eexists. split; [reflexivity|]. split_and!; [done..|].
    rewrite (tid_at_set _ _ _ _ Hx1). f_equal. unfold field_upd. cbn [seq_next].
    rewrite land_mask, u16_small by lia. done.
Qed.

(** A data frame gets the next sequence number of its TID. The header's sequence
    control field is, in the byte order of the air, that number above the fragment number
    the frame came with; the number is recorded in the buffer's state; the counter of the
    TID advances modulo 4096 except after a fragment that has more to follow; no other
    byte of the frame changes. *)
Theorem ath_tgt_tx_seqno_normal_spec s p b an v d x :
  sc_bufs s !! p = Some b → bf_node b = Some an → is_Some (sc_sta s !! an) →
  vbufs (sc_nb s) !! bf_skb b = Some v → vdescs (sc_nb s) !! desc_list v = Some d →
  tid_at s (an, bf_tidno b) = Some x → 0 <= seq_next x < 4096 →
  let wh := u32 (buf_addr d + data_offset d) in
  let byte m a := default 0 (m !! a) in
  let frag := byte (sc_mem s) (wh + off_seq) mod 16 in
  let more := tst (byte (sc_mem s) (wh + off_fc1)) IEEE80211_FC1_MORE_FRAG in
  ∃ s', ath_tgt_tx_seqno_normal p s = Ok (tt, s') ∧
    byte (sc_mem s') (wh + off_seq) + 256 * byte (sc_mem s') (wh + off_seq + 1) = 16 * seq_next x + frag ∧
    (∀ a, a ≠ wh + off_seq → a ≠ wh + off_seq + 1 → sc_mem s' !! a = sc_mem s !! a) ∧
    sc_bufs s' = <[p := b <| bf_state ::= λ st, st <| bfs_seqno := 16 * seq_next x |> |>]> (sc_bufs s) ∧
    tid_at s' (an, bf_tidno b) =
      Some (x <| seq_next := if more then seq_next x else (seq_next x + 1) mod 4096 |>).
Proof.
  intros Hb Han [n Hn] Hv Hd Hx Hseq wh byte frag more. set (t := (an, bf_tidno b)) in *.
  unfold ath_tgt_tx_seqno_normal.
  erewrite bind_ok by (apply run_rd_bf; exact Hb). rewrite Han.
  rewrite (bind_ok _ _ _ _ _ (run_deref _ _ _ eq_refl)).
  erewrite bind_ok by (eapply run_frame; [exact Hv|exact Hd]). fold wh t.
  erewrite bind_ok by reflexivity. erewrite bind_ok by (apply run_upd_node; exact Hn).
  set (s1 := s <| sc_sta ::= _ |>).
  assert (tid_at s1 t = Some x) as Hx1 by (rewrite <-Hx; by apply (tid_at_upd_node _ _ _ _ _ Hn)).
  erewrite bind_ok by (apply run_rd_tid; exact Hx1).
  erewrite bind_ok by (apply run_upd_bf; exact Hb). set (s2 := s1 <| sc_bufs ::= _ |>).
  assert (u16 (seq_next x .<< IEEE80211_SEQ_SEQ_SHIFT) = 16 * seq_next x) as Hsn.
  { rewrite Z.shiftl_mul_pow2 by done. change (2 ^ IEEE80211_SEQ_SEQ_SHIFT) with 16.
    rewrite u16_small by lia. lia. }
  rewrite Hsn. destruct (le16_bytes (16 * seq_next x)) as [Hlo Hhi]; [unfold in_u16; lia|].
  unfold wr16, wr8. rewrite bind_assoc, (bind_ok _ _ _ _ _ (run_modify _ _)), (bind_ok _ _ _ _ _ (run_modify _ _)).
  change 15 with (2 ^ 4 - 1). unfold rd8. rewrite (bind_ok _ _ _ _ _ (run_gets _ _)), (bind_ok _ _ _ _ _ (run_modify _ _)),
    (bind_ok _ _ _ _ _ (run_gets _ _)). rewrite Hlo, Hhi, (land_mask _ 4) by done.
  set (s3 := s2 <| sc_mem ::= _ |> <| sc_mem ::= _ |> <| sc_mem ::= _ |>).
  assert (tid_at s3 t = Some x) as Hx3 by exact Hx1.
  set (m1 := default 0 _) in s3. change (default 0 _ mod 2 ^ 4) with frag in s3.
  assert (m1 = (16 * seq_next x) mod 256) as Hm1
    by (unfold m1; cbn; rewrite lookup_insert_ne by lia; by rewrite lookup_insert_eq).
  assert (u8 (m1 .| frag) = m1 + frag) as Hor.
  { rewrite Hm1. replace ((16 * seq_next x) mod 256) with (16 * (seq_next x mod 16)) by mlia.
    assert (0 <= frag < 16) by (by apply Z.mod_pos_bound). rewrite lor_nibble by done. rewrite u8_small; mlia. }
  destruct (run_seq_advance s3 t x more Hx3) as (s' & E & Hm & Hbf & Hx'); [lia|].
  assert (default 0 (sc_mem s3 !! (wh + off_fc1)) = byte (sc_mem s) (wh + off_fc1)) as Hfc.
  { unfold byte, s3, field_upd. cbn [sc_mem]. rewrite !lookup_insert_ne by (unfold off_fc1, off_seq; lia). done. }
  rewrite Hfc. fold more. exists s'. split; [exact E|]. rewrite Hm, Hbf, Hx'.
  assert (sc_mem s3 = <[wh + off_seq := m1 + frag]> (<[wh + off_seq + 1 := (16 * seq_next x) `div` 256]>
    (<[wh + off_seq := (16 * seq_next x) mod 256]> (sc_mem s)))) as -> by (rewrite <-Hor; reflexivity).
  split; [|split; [|split; [|done]]].
  - unfold byte. rewrite lookup_insert_eq, lookup_insert_ne, lookup_insert_eq by lia. cbn. rewrite Hm1. mlia.
  - intros a Ha1 Ha2. rewrite !lookup_insert_ne by lia. done.
  - unfold s3, s2, field_upd. cbn [sc_bufs]. do 3 f_equal. unfold field_upd. by rewrite Hsn.
Qed.
End seqno.

(** ** Witnesses *)

