(* ===== verification/TxStatus.v ===== *)
(** * The transmit-status report

    The target collects the outcome of up to 24 frames in two events of twelve entries
    and sends them to the host at the end of the transmit tasklet ([wmi_event]). *)

From S2P Require Import Prelude.
From S2P Require Import TxTypes.
From S2P Require Import TxPath.
From S2P Require Import TxSample.
From S2P Require Import TxProps.

(** Reads one half of the rate byte. *)
Ltac status_field :=
  field_read; apply (MS_SM 4); [vm_compute; reflexivity|lia|lia|lia|lia].

Section status.
Context {HW RC : Type}.
Implicit Type s : softc HW RC.

(** Two events of twelve entries, with counters in range. *)
Definition status_ok (evs : list txstatus_event) : Prop :=
  length evs = 2%nat ∧
  Forall (λ e, 0 <= cnt e <= HTC_MAX_TX_STATUS ∧ length (txs_list e) = Z.to_nat HTC_MAX_TX_STATUS) evs.

(** Event [i] is the one the next entry goes to. *)
Definition slot s (i : nat) (e : txstatus_event) (t : txstatus) : Prop :=
  list_find (λ e, cnt e < HTC_MAX_TX_STATUS) (sc_tx_status s) = Some (i, e) ∧
  txs_list e !! Z.to_nat (cnt e) = Some t.
(** The report with that entry. *)
Definition put_entry (e : txstatus_event) (t : txstatus) : txstatus_event :=
  e <| txs_list ::= <[Z.to_nat (cnt e) := t]> |>.
Definition with_entry s (i : nat) (e : txstatus_event) (t : txstatus) : softc HW RC :=
  s <| sc_tx_status ::= <[i := put_entry e t]> |>.

Lemma slot_exists s :
  status_ok (sc_tx_status s) → Exists (λ e, cnt e < HTC_MAX_TX_STATUS) (sc_tx_status s) →
  ∃ i e t, slot s i e t.
Proof.
  intros [_ Hok] Hex. destruct (list_find (λ e, cnt e < HTC_MAX_TX_STATUS) (sc_tx_status s)) as [[i e]|] eqn:Hf.
  - exists i, e. apply list_find_Some in Hf as Hf'. destruct Hf' as (Hi & Hlt & _).
    rewrite Forall_lookup in Hok. specialize (Hok i e Hi) as [Hc Hl].
    destruct (lookup_lt_is_Some_2 (txs_list e) (Z.to_nat (cnt e))) as [t Ht]; [lia|]. by exists t.
  - apply list_find_None in Hf. rewrite Exists_exists in Hex. destruct Hex as (e & He & Hlt).
    rewrite Forall_forall in Hf. by destruct (Hf e He).
Qed.

Lemma run_status_get s i e t : slot s i e t → ath_tx_status_get s = Ok (Some i, s).
Proof. intros [Hf _]. unfold ath_tx_status_get. rewrite run_gets. by rewrite Hf. Qed.
Lemma slot_lookup s i e t : slot s i e t → sc_tx_status s !! i = Some e.
Proof. intros [Hf _]. by apply list_find_Some in Hf as (? & _). Qed.

Lemma run_upd_entry s i e t f :
  sc_tx_status s !! i = Some e → txs_list e !! Z.to_nat (cnt e) = Some t →
  upd_txs_entry i f s = Ok (tt, with_entry s i e (f t)).
Proof.
  intros He Ht. unfold upd_txs_entry, rd_txs. rewrite bind_assoc, (bind_ok _ _ _ _ _ (run_get _)).
  erewrite bind_ok by (apply run_in_range; exact He).
  erewrite bind_ok by (apply run_in_range; exact Ht). done.
Qed.
(** A second update of the entry, as one of the state. *)
Lemma run_upd_again s i e t f :
  sc_tx_status s !! i = Some e → is_Some (txs_list e !! Z.to_nat (cnt e)) →
  upd_txs_entry i f (with_entry s i e t) = Ok (tt, with_entry s i e (f t)).
Proof.
  intros He Ht. erewrite (run_upd_entry (with_entry s i e t) i (put_entry e t) t).
  - unfold with_entry, put_entry, field_upd. cbn. by rewrite !list_insert_insert_eq.
  - unfold with_entry. cbn. apply list_lookup_insert_eq. by eapply lookup_lt_Some.
  - unfold put_entry. cbn. apply list_lookup_insert_eq. by apply lookup_lt_is_Some_1.
Qed.
Lemma run_advance s i e t :
  sc_tx_status s !! i = Some e → 0 <= cnt e < HTC_MAX_TX_STATUS →
  txs_advance i (with_entry s i e t) =
    Ok (tt, s <| sc_tx_status ::= <[i := put_entry e t <| cnt := cnt e + 1 |>]> |>).
Proof.
  intros He Hc. unfold txs_advance, rd_txs. rewrite bind_assoc, (bind_ok _ _ _ _ _ (run_get _)).
  erewrite bind_ok.
  2: { apply run_in_range. unfold with_entry. cbn. apply list_lookup_insert_eq. by eapply lookup_lt_Some. }
  rewrite run_modify. unfold with_entry, put_entry, field_upd, HTC_MAX_TX_STATUS in *. cbn.
  rewrite list_insert_insert_eq, u8_small by lia. done.
Qed.

Lemma status_ok_put evs i e t :
  status_ok evs → evs !! i = Some e → cnt e < HTC_MAX_TX_STATUS →
  status_ok (<[i := put_entry e t <| cnt := cnt e + 1 |>]> evs).
Proof.
  intros [Hl Hf] He Hc. split; [by rewrite length_insert|].
  apply Forall_insert; [done|]. rewrite Forall_lookup in Hf. specialize (Hf i e He) as [H1 H2].
  unfold put_entry. cbn. rewrite length_insert. split; [lia|done].
Qed.

Lemma slot_cnt s i e t : status_ok (sc_tx_status s) → slot s i e t → 0 <= cnt e < HTC_MAX_TX_STATUS.
Proof.
  intros [_ Hok] [(He & Hlt & _)%list_find_Some _]. rewrite Forall_lookup in Hok.
  specialize (Hok i e He). lia.
Qed.

(** The rate a status entry tells, and whether it is an MCS index. *)
Definition told_rate (r : rc_series) (ri : rc11n_info) : Z :=
  if tst (rn_rateCode ri) 0x80 then rn_dot11Rate ri else rix r.

(** The entry for a completed frame. While a slot is free, [ath_tx_status_update]
    fills the first one of the first event that has room, and only that: it carries the
    frame's cookie, its endpoint and rate in the two halves of the rate byte, and the
    flags tell filtering, success (no error of any kind), MCS rates, 40 MHz, short guard
    interval and RTS/CTS. The counter advances and never exceeds the twelve entries. *)
Theorem ath_tx_status_update_entry s p b ds r ri i e t :
  sc_bufs s !! p = Some b → sc_descs s !! bf_lastds b = Some ds → sc_tx_draining s = false →
  status_ok (sc_tx_status s) → slot s i e t →
  bf_rcs b !! Z.to_nat (ts_rate (ds_txstat ds)) = Some r → sc_rt11n s !! Z.to_nat (rix r) = Some ri →
  0 <= bf_endpt b < 16 → 0 <= told_rate r ri < 16 →
  let st := ts_status (ds_txstat ds) in
  let mcs := tst (rn_rateCode ri) 0x80 in
  ∃ t', ath_tx_status_update p s =
      Ok (tt, s <| sc_tx_status ::= <[i := put_entry e t' <| cnt := cnt e + 1 |>]> |>) ∧
    status_ok (<[i := put_entry e t' <| cnt := cnt e + 1 |>]> (sc_tx_status s)) ∧
    cookie t' = bf_cookie b ∧ MS (txs_rate t') ATH9K_HTC_TXSTAT_EPID 4 = bf_endpt b ∧
    MS (txs_rate t') ATH9K_HTC_TXSTAT_RATE 0 = told_rate r ri ∧
    tst (txs_flags t') TXSTAT_FILT = tst st HAL_TXERR_FILT ∧
    tst (txs_flags t') TXSTAT_ACK = negb (tst st HAL_TXERR_XRETRY || tst st HAL_TXERR_FIFO ||
                                          tst st HAL_TXERR_TIMER_EXPIRED || tst st HAL_TXERR_FILT) ∧
    tst (txs_flags t') TXSTAT_MCS = mcs ∧
    tst (txs_flags t') TXSTAT_CW40 = mcs && tst (rc_flags r) ATH_RC_CW40_FLAG ∧
    tst (txs_flags t') TXSTAT_SGI = mcs && tst (rc_flags r) ATH_RC_HT40_SGI_FLAG ∧
    tst (txs_flags t') TXSTAT_RTC_CTS = tst (rc_flags r) ATH_RC_RTSCTS_FLAG.
Proof.
  intros Hb Hds Hdr Hok Hslot Hr Hri Hep Hrate st mcs.
  pose proof (slot_lookup _ _ _ _ Hslot) as He. pose proof Hslot as [Hfind Ht].
  pose proof (slot_cnt _ _ _ _ Hok Hslot) as Hc.
  eexists. split; [|split; [apply status_ok_put; [done|done|lia]|]].
  { unfold ath_tx_status_update. rewrite (bind_ok _ _ _ _ _ (run_get _)).
    erewrite bind_ok by (apply run_rd_bf; exact Hb). rewrite Hdr. cbv iota.
    erewrite bind_ok by (eapply run_status_get; exact Hslot). cbv iota beta.
    erewrite bind_ok by (eapply run_upd_entry; [exact He|exact Ht]).
    erewrite bind_ok by (apply run_upd_again; [exact He|by eexists]).
    erewrite bind_ok by (apply run_rd_ds; exact Hds). cbv zeta.
    do 2 erewrite bind_ok by (apply run_upd_again; [exact He|by eexists]).
    erewrite bind_ok.
    2: { unfold ath_tx_status_update_rate. rewrite (bind_ok _ _ _ _ _ (run_get _)).
         erewrite bind_ok by (apply run_in_range; exact Hr).
         erewrite bind_ok by (apply run_in_range; exact Hri). apply run_upd_again; [exact He|by eexists]. }
    apply run_advance; [exact He|exact Hc]. }
  fold st mcs. unfold told_rate in *. fold mcs in Hrate |- *. cbv zeta.
  destruct mcs; unfold field_upd; cbn [cookie txs_rate txs_flags andb];
    (split; [done|]); (split; [status_field|]); (split; [status_field|]);
    destruct (tst st HAL_TXERR_FILT), (tst st HAL_TXERR_XRETRY), (tst st HAL_TXERR_FIFO),
      (tst st HAL_TXERR_TIMER_EXPIRED), (tst (rc_flags r) ATH_RC_CW40_FLAG),
      (tst (rc_flags r) ATH_RC_HT40_SGI_FLAG), (tst (rc_flags r) ATH_RC_RTSCTS_FLAG);
    vm_compute; done.
Qed.

(** The entry of a subframe that failed is not cleared first.
    [ath_tx_status_update_aggr] without success leaves the flags of the slot as the frame
    that used it before left them, so an old acknowledgement is reported again. *)
Theorem ath_tx_status_update_aggr_stale s p b ds i e t :
  sc_bufs s !! p = Some b → sc_tx_draining s = false →
  status_ok (sc_tx_status s) → slot s i e t →
  ∃ t', ath_tx_status_update_aggr p ds None false s =
      Ok (tt, s <| sc_tx_status ::= <[i := put_entry e t' <| cnt := cnt e + 1 |>]> |>) ∧
    cookie t' = bf_cookie b ∧ txs_flags t' = txs_flags t.
Proof.
  intros Hb Hdr Hok Hslot. pose proof (slot_lookup _ _ _ _ Hslot) as He. pose proof Hslot as [Hfind Ht].
  pose proof (slot_cnt _ _ _ _ Hok Hslot) as Hc.
  eexists. split.
  { unfold ath_tx_status_update_aggr. rewrite (bind_ok _ _ _ _ _ (run_get _)).
    erewrite bind_ok by (apply run_rd_bf; exact Hb). rewrite Hdr. cbv iota.
    erewrite bind_ok by (eapply run_status_get; exact Hslot). cbv iota beta.
    erewrite bind_ok by (eapply run_upd_entry; [exact He|exact Ht]). cbn [when].
    rewrite !(bind_ok _ _ _ _ _ (run_ret _ _)). apply run_advance; [exact He|exact Hc]. }
  by split.
Qed.
End status.

