(* ===== verification/TxAggr.v ===== *)
(** * Aggregates

    What [ath_tgt_tx_form_aggr] puts together: which frames, how many, in which order,
    and how short subframes are padded. *)

From S2P Require Import Prelude.
From S2P Require Import TxTypes.
From S2P Require Import TxPath.
From S2P Require Import TxSample.
From S2P Require Import TxProps.

(** ** Padding *)

(** Short subframes are padded to the minimum spacing. With the delimiter in front,
    the padding to four bytes and the extra delimiters behind, a subframe of less than 256
    bytes takes exactly 256 bytes of the aggregate; a longer one gets no extra delimiter. *)
Theorem ATH_AGGR_GET_NDELIM_spacing len :
  0 <= len →
  let al := len + ATH_AGGR_DELIM_SZ in
  if al <? ATH_AGGR_MINPLEN
  then al + PADBYTES al + ATH_AGGR_DELIM_SZ * ATH_AGGR_GET_NDELIM len = ATH_AGGR_MINPLEN
  else ATH_AGGR_GET_NDELIM len = 0.
Proof.
  intros Hl al. unfold al, ATH_AGGR_GET_NDELIM, ATH_AGGR_DELIM_SZ, ATH_AGGR_MINPLEN, PADBYTES.
  destruct (Z.ltb_spec (len + 4) 256); [|done].
  rewrite Z.shiftr_div_pow2 by done. change (2 ^ 2) with 4. mlia.
Qed.

(** ** What the steps leave alone *)

Section frames.
Context {HW RC : Type}.
Implicit Type s : softc HW RC.
Abbreviation TX := (M (softc HW RC)).

(** The sequence numbers of the buffers. *)
Definition seqnos s : list Z := (λ b, bf_seqno b) <$> sc_bufs s.
(** The nodes and the sequence numbers. *)
Definition aview s : list ath_node_target * list Z := (sc_sta s, seqnos s).

Lemma upd_bf_inv p f s a s' :
  upd_bf p f s = Ok (a, s') → ∃ b, sc_bufs s !! p = Some b ∧ s' = s <| sc_bufs ::= <[p := f b]> |>.
Proof.
  unfold upd_bf, rd_bf. destruct (sc_bufs s !! p) as [b|] eqn:Hb.
  - rewrite bind_assoc, (bind_ok _ _ _ _ _ (run_get _)).
    erewrite bind_ok by (apply run_in_range; exact Hb). intros [= _ <-]. eauto.
  - rewrite bind_assoc, (bind_ok _ _ _ _ _ (run_get _)). rewrite Hb. done.
Qed.
Lemma upd_tid_inv t f s a s' :
  upd_tid t f s = Ok (a, s') → ∃ x, tid_at s t = Some x ∧ s' = set_tid s t (f x).
Proof.
  intros E. destruct (tid_at s t) as [x|] eqn:Hx.
  - exists x. split; [done|]. rewrite (run_upd_tid _ _ _ _ Hx) in E. by injection E as _ <-.
  - exfalso. unfold upd_tid, rd_tid, rd_node, tid_at in *. revert E.
    rewrite !bind_assoc, (bind_ok _ _ _ _ _ (run_get _)).
    destruct (sc_sta s !! t.1) as [n|]; cbn in Hx |- *; [|done].
    rewrite (bind_ok _ _ _ _ _ (run_ret _ _)), Hx. done.
Qed.
Lemma rd_tid_inv t s x s' : rd_tid t s = Ok (x, s') → tid_at s t = Some x ∧ s' = s.
Proof.
  unfold rd_tid, rd_node, tid_at. rewrite bind_assoc, (bind_ok _ _ _ _ _ (run_get _)).
  destruct (sc_sta s !! t.1) as [n|]; cbn; [|done]. rewrite (bind_ok _ _ _ _ _ (run_ret _ _)).
  destruct (an_tid n !! Z.to_nat t.2) as [y|]; [|done]. by intros [= <- <-].
Qed.
Lemma rd_bf_inv p s b s' : rd_bf p s = Ok (b, s') → sc_bufs s !! p = Some b ∧ s' = s.
Proof.
  unfold rd_bf. rewrite (bind_ok _ _ _ _ _ (run_get _)).
  destruct (sc_bufs s !! p) as [y|]; [|done]. by intros [= <- <-].
Qed.

Lemma seqnos_upd s p b b' :
  sc_bufs s !! p = Some b → bf_seqno b' = bf_seqno b →
  seqnos (s <| sc_bufs ::= <[p := b']> |>) = seqnos s.
Proof.
  intros Hb Hs. unfold seqnos. cbn. rewrite list_fmap_insert. apply list_insert_id.
  rewrite list_lookup_fmap, Hb. cbn. by rewrite Hs.
Qed.
Lemma keeps_upd_bf p f : (∀ b, bf_seqno (f b) = bf_seqno b) → keeps aview (upd_bf p f : TX unit).
Proof.
  intros Hf s a s' (b & Hb & ->)%upd_bf_inv. unfold aview. f_equal. by apply (seqnos_upd _ _ b).
Qed.
Lemma keeps_upd_bfs p f : (∀ b, bfs_seqno (f b) = bfs_seqno b) → keeps aview (upd_bfs p f : TX unit).
Proof. intros Hf. apply keeps_upd_bf. intros b. apply Hf. Qed.
Lemma keeps_rd_bf p : keeps aview (rd_bf p : TX _).
Proof. intros s b s' [_ ->]%rd_bf_inv. done. Qed.
Lemma keeps_rd_ds a : keeps aview (rd_ds a : TX _).
Proof. unfold rd_ds. keeps_tac. Qed.
Hint Resolve keeps_rd_bf keeps_rd_ds : keeps.
Lemma keeps_upd_ds a f : keeps aview (upd_ds a f : TX unit).
Proof. unfold upd_ds. keeps_tac. Qed.
Lemma keeps_rd_node i : keeps aview (rd_node i : TX _).
Proof. unfold rd_node. keeps_tac. Qed.
Lemma keeps_rate_entry i : keeps aview (rate_entry i : TX _).
Proof. unfold rate_entry. keeps_tac. Qed.
Lemma keeps_rc {A} (m : M RC A) : keeps aview (rc m : TX A).
Proof.
  intros s a s' E. unfold rc in E. destruct (m (sc_rc s)) as [[a' r]|]; [|done]. by injection E as _ <-.
Qed.
Hint Resolve keeps_upd_ds keeps_rd_node keeps_rate_entry keeps_rc : keeps.

Lemma keeps_lookup_series rcs : ∀ m, keeps aview (lookup_series rcs m : TX _).
Proof. induction rcs as [|r rcs IH]; intros m; cbn; keeps_tac; apply IH. Qed.
Hint Resolve keeps_lookup_series : keeps.
Lemma keeps_lookup_rate `{!RateControl RC} an p : keeps aview (ath_lookup_rate an p : TX Z).
Proof.
  unfold ath_lookup_rate, ath_tgt_rate_findrate.
  keeps_tac; try (apply keeps_upd_bfs; intros ?; reflexivity).
Qed.

(** One subframe joins: it is appended, leaves the software queue, and the window's start
    and size stay. *)
Lemma form_aggr_add_inv t p al v s v' s' x :
  form_aggr_add t p al v s = Ok (v', s') → tid_at s t = Some x →
  av_q v' = av_q v ++ [p] ∧ av_nframes v' = av_nframes v + 1 ∧ av_limit v' = av_limit v ∧
  seqnos s' = seqnos s ∧
  ∃ x', tid_at s' t = Some x' ∧ seq_start x' = seq_start x ∧ baw_size x' = baw_size x ∧
        tid_an x' = tid_an x ∧ buf_q x' = asf_tailq_remove p (buf_q x).
Proof.
  intros H Hx. unfold form_aggr_add in H.
  apply bind_inv in H as (b & s0 & E & H). apply rd_bf_inv in E as [Hb ->].
  apply bind_inv in H as (u1 & s1 & E1 & H). apply upd_tid_inv in E1 as (x1 & Hx1 & ->).
  rewrite Hx in Hx1. injection Hx1 as <-. pose proof (tid_at_set s t (ath_tx_addto_baw (bf_isretried b) (bf_seqno b) x) x Hx) as Hx1.
  apply bind_inv in H as (u2 & s2 & E2 & H). apply upd_tid_inv in E2 as (x2 & Hx2 & ->).
  rewrite Hx1 in Hx2. injection Hx2 as <-. 
  set (x2 := _ <| buf_q ::= _ |>) in H. set (s1 := set_tid s t _) in *.
  pose proof (tid_at_set s1 t x2 _ Hx1) as Hx2. set (s2 := set_tid s1 t x2) in *.
  apply bind_inv in H as (u3 & s3 & E3 & H).
  assert (s3 = s2) as -> by (revert E3; destruct (bool_decide _); [by intros [= _ <-]|done]).
  apply bind_inv in H as (u4 & s4 & E4 & H). apply keeps_upd_bfs in E4; [|done].
  apply bind_inv in H as (u5 & s5 & E5 & H).
  assert (aview s5 = aview s4) as E5'.
  { revert E5. destruct (av_prev v) as [prev|]; [|by intros [= _ <-]].
    apply (keeps_bind aview); [by apply keeps_upd_bf|]. intros _. keeps_tac. }
  apply bind_inv in H as (u6 & s6 & E6 & H).
  assert (aview s6 = aview s5) as E6' by (revert E6; apply keeps_for_each; intros ?; apply keeps_upd_ds).
  injection H as <- <-. split; [done|]. split; [done|]. split; [done|].
  assert (aview s6 = aview s2) as [= Hsta Hseq] by congruence. split; [by rewrite Hseq|].
  exists x2. split; [|].
  - unfold tid_at in *. by rewrite Hsta.
  - unfold x2, ath_tx_addto_baw. destruct (bf_isretried b); [done|]. by destruct (_ >=? _).
Qed.

Definition max_subframes (x : ath_atx_tid) : Z := Z.min (baw_size x `quot` 2) 22.
(** Frame [p] lies in the block-ack window of the TID. *)
Definition in_window s (x : ath_atx_tid) (p : nat) : Prop :=
  ∃ b, sc_bufs s !! p = Some b ∧
       BAW_WITHIN (seq_start x) (baw_size x) (SEQNO_FROM_BF_SEQNO (bf_seqno b)) = true.
Lemma in_window_ext s s' x x' p :
  seqnos s' = seqnos s → seq_start x' = seq_start x → baw_size x' = baw_size x →
  in_window s x p → in_window s' x' p.
Proof.
  intros Hs H1 H2 (b & Hb & Hw). unfold in_window.
  assert (seqnos s' !! p = Some (bf_seqno b)) as H by (rewrite Hs; unfold seqnos; by rewrite list_lookup_fmap, Hb).
  unfold seqnos in H. rewrite list_lookup_fmap in H. apply fmap_Some in H as (b' & Hb' & Heq).
  exists b'. split; [done|]. by rewrite H1, H2, <-Heq.
Qed.

Lemma remove_head {A} `{EqDecision A} (p : A) l : NoDup (p :: l) → asf_tailq_remove p (p :: l) = l.
Proof.
  intros [Hp _]%NoDup_cons. unfold asf_tailq_remove. rewrite filter_cons.
  rewrite decide_False by (intros H; by apply H). induction l as [|q l IH]; [done|].
  rewrite filter_cons, decide_True by (intros ->; apply Hp; by left).
  f_equal. apply IH. intros H. apply Hp. by right.
Qed.

Lemma form_aggr_finish_inv first v st s r fs s' :
  form_aggr_finish first v st s = Ok ((r, fs), s') → fs = av_q v ∧ r = st ∧ aview s' = aview s.
Proof.
  intros (u & s1 & E & H)%bind_inv. injection H as <- <- <-. split; [done|]. split; [done|].
  revert E. by apply keeps_upd_bfs.
Qed.

Lemma aview_tid s s' t : aview s' = aview s → tid_at s' t = tid_at s t.
Proof. intros [= H _]. unfold tid_at. by rewrite H. Qed.
End frames.

Section form.
Context {HW RC : Type} `{!RateControl RC}.
Implicit Type s : softc HW RC.

(** What the loop has established about the frames [fs] it took from the queue. *)
Record aggregate s s' (t : nat * Z) (x : ath_atx_tid) (taken fs : list nat) : Prop := {
  ag_taken : ∃ rest x', fs = taken ++ rest ∧ tid_at s' t = Some x' ∧ buf_q x = rest ++ buf_q x' ∧
               seq_start x' = seq_start x ∧ baw_size x' = baw_size x;
  ag_bound : Z.of_nat (length fs) <= Z.max (Z.of_nat (length taken)) (max_subframes x);
  ag_window : Forall (in_window s x) taken → Forall (in_window s x) fs;
  ag_seqnos : seqnos s' = seqnos s;
}.

Lemma aggregate_stop s s' t x taken :
  aview s' = aview s → tid_at s t = Some x → aggregate s s' t x taken taken.
Proof.
  intros Ha Hx. split.
  - exists [], x. rewrite app_nil_r, (aview_tid _ _ t Ha). by split_and!.
  - lia.
  - done.
  - by injection Ha.
Qed.

Lemma form_aggr_loop_inv fuel : ∀ t first v s st fs s' x,
  form_aggr_loop fuel t first v s = Ok ((st, fs), s') → tid_at s t = Some x →
  NoDup (buf_q x) → av_nframes v = Z.of_nat (length (av_q v)) →
  aggregate s s' t x (av_q v) fs.
Proof.
  induction fuel as [|fuel IH]; intros t first v s st fs s' x H Hx Hnd Hn; [done|].
  cbn [form_aggr_loop] in H.
  apply bind_inv in H as (x0 & s0 & E & H). apply rd_tid_inv in E as [Hx0 ->].
  rewrite Hx in Hx0. injection Hx0 as <-.
  destruct (asf_tailq_first (buf_q x)) as [p|] eqn:Hp; [|done].
  destruct (buf_q x) as [|p' q] eqn:Hq; [done|]. injection Hp as ->.
  apply bind_inv in H as (b & s0 & E & H). apply rd_bf_inv in E as [Hb ->].
  destruct (BAW_WITHIN _ _ _) eqn:Hw; cbn [negb] in H.
  2: { apply form_aggr_finish_inv in H as (-> & _ & Ha). by apply aggregate_stop. }
  apply bind_inv in H as (limit & s1 & E & H).
  assert (aview s1 = aview s) as Ha1.
  { revert E. destruct (av_limit v); [by intros [= _ <-]|].
    apply (keeps_bind aview); [apply keeps_lookup_rate|]. intros ?. keeps_tac. }
  set (v1 := v <| av_limit := Some limit |>) in *. change (av_nframes v) with (av_nframes v1) in H.
  pose proof Hx as Hx1. rewrite <-(aview_tid _ _ t Ha1) in Hx1.
  destruct (truthy (av_nframes v1) && _).
  { apply form_aggr_finish_inv in H as (-> & _ & Ha). apply aggregate_stop; [congruence|done]. }
  rewrite Z.geb_leb in H. destruct (Z.leb_spec (Z.min (baw_size x `quot` 2) 22) (av_nframes v1)) as [|Hlt].
  { apply form_aggr_finish_inv in H as (-> & _ & Ha). apply aggregate_stop; [congruence|done]. }
  apply bind_inv in H as (v2 & s2 & E2 & H).
  destruct (form_aggr_add_inv _ _ _ _ _ _ _ _ E2 Hx1) as (Hq2 & Hn2 & _ & Hs2 & x2 & Hx2 & H1 & H2 & _ & Hbq).
  rewrite Hq, remove_head in Hbq by done.
  apply bind_inv in H as (x3 & s3 & E3 & H). apply rd_tid_inv in E3 as [Hx3 ->].
  rewrite Hx2 in Hx3. injection Hx3 as <-.
  assert (seqnos s2 = seqnos s) as Hs by (rewrite Hs2; by injection Ha1).
  assert (av_nframes v2 = Z.of_nat (length (av_q v2))) as Hn2'.
  { rewrite Hq2, Hn2, length_app. unfold v1. cbn. lia. }
  assert (aggregate s2 s' t x2 (av_q v2) fs) as [(rest & x' & Hfs & Hx' & Hrest & Hst & Hbs) Hbd Hwd Hsq].
  { destruct (buf_q x2) eqn:Hq3.
    - apply form_aggr_finish_inv in H as (-> & _ & Ha). by apply aggregate_stop.
    - eapply IH; [exact H|exact Hx2| |exact Hn2']. rewrite Hq3, Hbq. by apply NoDup_cons in Hnd as [_ Hnd]. }
  rewrite Hq2 in *. change (av_q v1) with (av_q v) in *. unfold max_subframes in *. rewrite H2 in *.
  split.
  - exists (p :: rest), x'. rewrite Hfs, <-app_assoc. split_and!; [done|done| |congruence|congruence].
    rewrite Hq. cbn. f_equal. by rewrite <-Hbq.
  - rewrite length_app in Hbd. unfold max_subframes. cbn [length] in Hbd.
    change (av_nframes v1) with (av_nframes v) in Hlt. lia.
  - intros Hin. assert (Forall (in_window s2 x2) fs) as Hf.
    { apply Hwd. apply Forall_app. split.
      - eapply Forall_impl; [exact Hin|]. intros y. by apply in_window_ext.
      - constructor; [|done]. apply (in_window_ext s s2 x x2); [done..|]. by exists b. }
    eapply Forall_impl; [exact Hf|]. intros y. by apply in_window_ext.
  - congruence.
Qed.
End form.

(** C27: an aggregate is a prefix of the TID's software queue, in its order: what
    [ath_tgt_tx_form_aggr] takes leaves the queue and the rest stays. It has at most half
    the block-ack window and never more than 22 subframes, and every one of them lies in
    the window: nothing is sent that the receiver could not acknowledge. The window does
    not move meanwhile and no frame changes its number. *)
Theorem ath_tgt_tx_form_aggr_prefix {HW RC} `{!RateControl RC} (s s' : softc HW RC) t x st fs :
  ath_tgt_tx_form_aggr t s = Ok ((st, fs), s') → tid_at s t = Some x →
  NoDup (buf_q x) → 0 <= baw_size x →
  Z.of_nat (length fs) <= Z.min (baw_size x `quot` 2) 22 ∧
  Forall (in_window s x) fs ∧ seqnos s' = seqnos s ∧
  ∃ x', tid_at s' t = Some x' ∧ buf_q x = fs ++ buf_q x' ∧
        seq_start x' = seq_start x ∧ baw_size x' = baw_size x.
Proof.
  intros H Hx Hnd Hb. unfold ath_tgt_tx_form_aggr in H.
  apply bind_inv in H as (x0 & s0 & E & H). apply rd_tid_inv in E as [Hx0 ->].
  rewrite Hx in Hx0. injection Hx0 as <-.
  apply bind_inv in H as (first & s0 & E & H).
  assert (s0 = s) as -> by (revert E; destruct (asf_tailq_first _); [by intros [= _ <-]|done]).
  apply form_aggr_loop_inv with (x := x) in H as [(rest & x' & -> & Hr) Hbd Hw Hs]; [|done..].
  pose proof (Z.quot_pos (baw_size x) 2 Hb ltac:(lia)). unfold max_subframes in Hbd. cbn in *.
  split; [lia|]. split; [by apply Hw|]. split; [done|]. exists x'. tauto.
Qed.

(** ** Witnesses *)

Lemma ath_tgt_tx_form_aggr_prefix_witness :
  ∃ st s', ath_tgt_tx_form_aggr (0%nat, 0) (tx_sample [1; 2]%nat) = Ok ((st, [1; 2]%nat), s') ∧
    Z.of_nat (length [1; 2]%nat) <= 22 ∧ ∃ x', tid_at s' (0%nat, 0) = Some x' ∧ buf_q x' = [].
Proof.
  assert (∃ st s', ath_tgt_tx_form_aggr (0%nat, 0) (tx_sample [1; 2]%nat) = Ok ((st, [1; 2]%nat), s'))
    as (st & s' & H) by (eexists _, _; vm_compute; reflexivity).
  exists st, s'. split; [exact H|].
  destruct (ath_tgt_tx_form_aggr_prefix (tx_sample [1; 2]%nat) s' (0%nat, 0) (tx_tid [1; 2]%nat 0) st [1; 2]%nat H)
    as (Hb & _ & _ & x' & Hx' & Hq & _); [reflexivity| |done|].
  - repeat constructor; set_solver.
  - split; [cbn; lia|]. exists x'. split; [exact Hx'|]. cbn in Hq. by injection Hq as <-.
Defined.
