(* ===== verification/TxSched.v ===== *)
(** * Scheduling, air time and buffer recycling *)

From S2P Require Import Prelude.
From S2P Require Import NBufProps.
From S2P Require Import TxTypes.
From S2P Require Import TxPath.
From S2P Require Import TxSample.
From S2P Require Import TxProps.

(** ** Air time *)

Definition symbol_bits (rc : Z) (width : bool) : Z :=
  match bits_per_symbol !! Z.to_nat (rc .& 15) with
  | Some row => if width then row.2 else row.1
  | None => 0
  end.
Lemma symbol_bits_pos rc width : 26 <= symbol_bits rc width <= 1080.
Proof.
  unfold symbol_bits. change 15 with (2 ^ 4 - 1). rewrite land_mask by done.
  pose proof (Z.mod_pos_bound rc (2 ^ 4) ltac:(done)) as H. change (2 ^ 4) with 16 in *.
  assert (Z.to_nat (rc mod 16) < 16)%nat as Hlt by lia. revert Hlt.
  generalize (Z.to_nat (rc mod 16)). intros n Hn.
  do 16 (destruct n as [|n]; [destruct width; cbn; lia|]). lia.
Qed.

(** The air time of an HT frame. For every rate code with the HT bit and every length
    the 16-bit length field can hold, [ath_pkt_duration] finds the rate's row, does not
    overflow, and gives the preamble for the rate's streams plus the least number of
    symbols that hold the frame with its 22 service and tail bits: four microseconds each,
    or 3.6 rounded up with the short guard interval. *)
Theorem ath_pkt_duration_ht {HW RC} (s : softc HW RC) rix bf width half_gi ri :
  sc_currates s !! Z.to_nat rix = Some ri → tst (ri_rateCode ri) 0x80 = true →
  let pktlen := if bf_isaggr bf then bf_al bf else bf_pktlen bf in
  0 <= pktlen < 65536 →
  let streams := ((ri_rateCode ri .& 0x78) .>> 3) + 1 in
  let bits := symbol_bits (ri_rateCode ri) width in
  ∃ n d, ath_pkt_duration rix bf width half_gi s = Ok (d, s) ∧
    (n - 1) * bits < 8 * pktlen + 22 <= n * bits ∧
    d = 36 + 4 * (streams - 1) + (if half_gi then (18 * n + 4) `div` 5 else 4 * n).
Proof.
  intros Hri Ht pktlen Hp streams bits. unfold ath_pkt_duration.
  rewrite (bind_ok _ _ _ _ _ (run_get _)). unfold rate_entry. rewrite bind_assoc, (bind_ok _ _ _ _ _ (run_get _)).
  erewrite bind_ok by (apply run_in_range; exact Hri). rewrite Ht. cbn [negb]. fold pktlen.
  assert (1 <= streams <= 16) as Hst.
  { unfold streams. assert (0 <= ri_rateCode ri .& 0x78 <= 0x78) as Hl.
    { split; [apply Z.land_nonneg; lia|rewrite Z.land_comm; by apply land_le]. }
    rewrite Z.shiftr_div_pow2 by done. change (2 ^ 3) with 8. mlia. }
  pose proof (symbol_bits_pos (ri_rateCode ri) width) as Hb. fold bits in Hb.
  assert (∃ row, bits_per_symbol !! Z.to_nat (ri_rateCode ri .& 15) = Some row ∧
                 bits = if width then row.2 else row.1) as (row & Hrow & Hbits).
  { unfold bits, symbol_bits in *. destruct (bits_per_symbol !! _) as [row|]; [by exists row|lia]. }
  erewrite (bind_ok _ _ _ row) by (apply run_in_range; exact Hrow). rewrite <-Hbits. cbv zeta.
  assert (u32 ((pktlen .<< 3) + 22) = 8 * pktlen + 22) as ->.
  { rewrite Z.shiftl_mul_pow2 by done. change (2 ^ 3) with 8. rewrite u32_small; lia. }
  rewrite (u32_small (8 * pktlen + 22 + bits - 1)) by lia.
  set (n := (8 * pktlen + 22 + bits - 1) `div` bits).
  assert ((n - 1) * bits < 8 * pktlen + 22 <= n * bits) as Hn.
  { unfold n. pose proof (Z.div_mod (8 * pktlen + 22 + bits - 1) bits ltac:(lia)).
    pose proof (Z.mod_pos_bound (8 * pktlen + 22 + bits - 1) bits ltac:(lia)). nia. }
  assert (0 <= n <= 21000) as Hn'.
  { split; [apply Z.div_pos; lia|]. nia. }
  fold streams. eexists n, _. split; [reflexivity|]. split; [exact Hn|].
  destruct half_gi.
  - rewrite (u32_small (n * 18)), (u32_small (n * 18 + 4)) by lia.
    assert (0 <= (n * 18 + 4) `div` 5 <= 80000) by mlia. rewrite u32_small by lia.
    replace (18 * n) with (n * 18) by lia. lia.
  - rewrite Z.shiftl_mul_pow2 by done. change (2 ^ 2) with 4. rewrite (u32_small (n * 4)) by lia.
    rewrite u32_small by lia. lia.
Qed.

(** ** Rates of aggregates *)

(** For a multicast frame [ath_lookup_rate] reads its local [prate] without ever
    having assigned it, whatever the frame's series: only unicast frames ask rate
    control. *)
Theorem ath_lookup_rate_multicast {HW RC} `{!RateControl RC} (s : softc HW RC) an p b ri :
  sc_bufs s !! p = Some b → bf_ismcast b = true → bf_rcs b ≠ [] →
  sc_currates s !! 11%nat = Some ri →
  ath_lookup_rate an p s = Fault UninitRead.
Proof.
  intros Hb Hm Hne Hri. unfold ath_lookup_rate.
  erewrite bind_ok by (apply run_rd_bf; exact Hb). rewrite Hm. cbv iota. rewrite bind_assoc.
  erewrite bind_ok by (apply run_upd_bf; exact Hb). rewrite (bind_ok _ _ _ _ _ (run_ret _ _)).
  erewrite bind_ok by (apply run_rd_bf; cbn; apply list_lookup_insert_eq; by eapply lookup_lt_Some).
  destruct (bf_rcs b) as [|r0 rs] eqn:Hr; [done|].
  set (s1 := s <| sc_bufs ::= _ |>).
  assert (∀ l m, Forall (λ r, tries r = 0) l → lookup_series l m s1 = Ok ((m, false), s1)) as Hzero.
  { induction l as [|r l IH]; intros m Hf; [done|]. apply Forall_cons_1 in Hf as [Hz Hf].
    cbn. rewrite Hz. by apply IH. }
  assert (∃ v, lookup_series (take 4 (bf_rcs (b <| bf_state ::= λ st, st <| bfs_rcs ::= λ r, imap (λ i x,
       if decide (i = O) then x <| rix := 0xb |> <| tries := ATH_TXMAXTRY - 1 |> <| rc_flags := 0 |>
       else if decide (i < 4)%nat then x <| tries := 0 |> else x) r |> |>))) IEEE80211_AMPDU_LIMIT_MAX s1 = Ok (v, s1)) as [v Hv].
  { unfold field_upd at 1 2. cbn [bf_state bfs_rcs]. rewrite Hr. set (f := λ (i : nat) (x : rc_series), _).
    change (take 4 (imap f (r0 :: rs))) with (f O r0 :: take 3 (imap (f ∘ S) rs)).
    cbn [lookup_series]. change (truthy (tries (f O r0))) with true. change (rix (f O r0)) with 0xb. cbv iota.
    unfold rate_entry. rewrite bind_assoc, (bind_ok _ _ _ _ _ (run_get _)).
    erewrite bind_ok by (apply run_in_range; exact Hri). destruct (bool_decide _); [by eexists|].
    eexists. apply Hzero. destruct rs as [|r1 [|r2 [|r3 rs]]]; repeat constructor. }
  erewrite bind_ok by exact Hv. by destruct v.
Qed.

(** ** The software scheduler *)

Section sched.
Context {HW RC : Type}.
Implicit Type s : softc HW RC.

(** The TIDs that wait on some transmit queue. *)
Definition queued s : list (nat * Z) := concat (axq_tidq <$> sc_txqs s).
(** A TID waits at most once, and its flag tells that it does. *)
Definition sched_inv s : Prop :=
  NoDup (queued s) ∧ ∀ t, t ∈ queued s → sched <$> tid_at s t = Some true.

Lemma concat_insert {A} (L : list (list A)) i l x :
  L !! i = Some l → concat (<[i := l ++ [x]]> L) ≡ₚ x :: concat L.
Proof.
  revert i. induction L as [|l0 L IH]; intros [|i] H; try done; cbn in *.
  - injection H as ->. rewrite <-app_assoc. cbn. by rewrite Permutation_middle.
  - rewrite (IH i H). by rewrite Permutation_middle.
Qed.
Lemma queued_add s i q t :
  sc_txqs s !! i = Some q →
  queued (s <| sc_txqs ::= <[i := q <| axq_tidq ::= λ l, l ++ [t] |>]> |>) ≡ₚ t :: queued s.
Proof.
  intros Hq. unfold queued. cbn. rewrite list_fmap_insert. cbn. apply concat_insert.
  by rewrite list_lookup_fmap, Hq.
Qed.
Lemma sched_set s t t' x :
  tid_at s t = Some x → sched <$> tid_at s t' = Some true →
  sched <$> tid_at (set_tid s t (x <| sched := true |>)) t' = Some true.
Proof.
  intros Hx Ht'. destruct (decide ((t'.1, Z.to_nat t'.2) = (t.1, Z.to_nat t.2))) as [Heq|Hne].
  - assert (∀ u : softc HW RC, tid_at u t' = tid_at u t) as E by (intros u; unfold tid_at; injection Heq as -> ->; done).
    rewrite E. by rewrite (tid_at_set _ _ _ _ Hx).
  - by rewrite tid_at_set_ne.
Qed.

(** A TID is put on a transmit queue once. [ath_tgt_tx_enqueue] appends a TID that is
    neither paused nor waiting yet and marks it; otherwise it does nothing. So no TID ever
    waits twice, every waiting TID is marked, and repeating the call changes nothing. *)
Theorem ath_tgt_tx_enqueue_once s i t x :
  sched_inv s → tid_at s t = Some x → is_Some (sc_txqs s !! i) →
  ∃ s', ath_tgt_tx_enqueue (Some i) t s = Ok (tt, s') ∧ sched_inv s' ∧
    (if paused x || sched x then s' = s else queued s' ≡ₚ t :: queued s) ∧
    ath_tgt_tx_enqueue (Some i) t s' = Ok (tt, s').
Proof.
  intros [Hnd Hs] Hx [q Hq]. unfold ath_tgt_tx_enqueue at 1.
  erewrite bind_ok by (apply run_rd_tid; exact Hx).
  destruct (paused x) eqn:Hp; cbn [orb].
  { exists s. split_and!; [done|done|done|]. unfold ath_tgt_tx_enqueue.
    erewrite bind_ok by (apply run_rd_tid; exact Hx). by rewrite Hp. }
  destruct (sched x) eqn:Hsch; cbn [orb].
  { exists s. split_and!; [done|done|done|]. unfold ath_tgt_tx_enqueue.
    erewrite bind_ok by (apply run_rd_tid; exact Hx). by rewrite Hp, Hsch. }
  erewrite bind_ok by (apply run_upd_tid; exact Hx). rewrite (bind_ok _ _ _ _ _ (run_deref _ _ _ eq_refl)).
  set (s1 := set_tid s t (x <| sched := true |>)).
  assert (tid_at s1 t = Some (x <| sched := true |>)) as Hx1 by (by eapply tid_at_set).
  rewrite (run_upd_txq s1 i q) by exact Hq. eexists. split; [reflexivity|].
  set (s2 := s1 <| sc_txqs ::= _ |>).
  assert (queued s2 ≡ₚ t :: queued s) as Hperm by exact (queued_add s1 i q t Hq).
  assert (t ∉ queued s) as Hnin.
  { intros Hin. specialize (Hs t Hin). rewrite Hx in Hs. cbn in Hs. congruence. }
  split; [split|split; [exact Hperm|]].
  - rewrite Hperm. by constructor.
  - intros t' Hin. rewrite Hperm in Hin. change (tid_at s2 t') with (tid_at s1 t').
    apply elem_of_cons in Hin as [->|Hin]; [by rewrite Hx1|].
    apply sched_set; [exact Hx|by apply Hs].
  - unfold ath_tgt_tx_enqueue. change (tid_at s2 t = Some (x <| sched := true |>)) in Hx1.
    erewrite bind_ok by (apply run_rd_tid; exact Hx1). cbn. by rewrite Hp.
Qed.
End sched.

(** ** Recycling *)

Section recycle.
Context {HW RC : Type}.
Implicit Type s : softc HW RC.

Lemma run_for_each_ds l f s :
  (∀ a, a ∈ l → is_Some (sc_descs s !! a)) →
  ∃ m, for_each l (λ a, upd_ds a f) s = Ok (tt, s <| sc_descs := m |>) ∧ dom m = dom (sc_descs s).
Proof.
  revert s. induction l as [|a l IH]; intros s Hl; cbn.
  { exists (sc_descs s). split; [by destruct s|done]. }
  destruct (Hl a) as [d Hd]; [by left|].
  erewrite bind_ok by (apply run_upd_ds; exact Hd).
  destruct (IH (s <| sc_descs ::= <[a := f d]> |>)) as (m & E & Hm).
  - intros a' Ha. cbn. destruct (decide (a' = a)) as [->|]; [by rewrite lookup_insert_eq|].
    rewrite lookup_insert_ne by done. apply Hl. by right.
  - exists m. split; [by rewrite E|]. rewrite Hm. cbn. rewrite dom_insert_lookup_L; [done|by exists d].
Qed.

(** The frames of a buffer go back to the host side, in order. *)
Definition skb_freed s (n : nb_state) (bufs : list ath_tx_buf) (evs : list host_event) : softc HW RC :=
  s <| sc_nb := n |> <| sc_bufs := bufs |> <| sc_host := evs |>.
Lemma skb_free_spec l : ∀ s p e b,
  sc_bufs s !! p = Some b → qrep (sc_nb s) (bf_skbhead b) l →
  ∃ n' q', skb_free_loop (length l) p e s =
      Ok (tt, skb_freed s n' (<[p := b <| bf_skbhead := q' |>]> (sc_bufs s))
                (sc_host s ++ (HTC_ReturnBuffers_ev e <$> l))) ∧ qrep n' q' [].
Proof.
  induction l as [|a l IH]; intros s p e b Hb Hq; cbn [length skb_free_loop].
  - erewrite bind_ok by (apply run_rd_bf; exact Hb). unfold adf_nbuf_queue_len.
    pose proof Hq as (_ & _ & -> & _). cbn. exists (sc_nb s), (bf_skbhead b). split; [|done].
    rewrite app_nil_r, list_insert_id by (rewrite Hb; by destruct b). by destruct s.
  - erewrite bind_ok by (apply run_rd_bf; exact Hb). unfold adf_nbuf_queue_len.
    pose proof Hq as (_ & _ & Hlen & _). rewrite Hlen. cbn [length]. rewrite (proj2 (Z.eqb_neq _ 0)) by lia.
    destruct (queue_remove_spec _ _ _ _ Hq) as (q1 & n1 & E & Hq1 & _).
    erewrite bind_ok by (apply run_nb; exact E). cbv beta iota.
    erewrite bind_ok by (apply run_upd_bf; exact Hb).
    unfold host. rewrite (bind_ok _ _ _ _ _ (run_modify _ _)). set (s1 := _ <| sc_host ::= _ |>).
    assert (sc_bufs s1 = <[p := b <| bf_skbhead := q1 |>]> (sc_bufs s)) as Hs1 by reflexivity.
    destruct (IH s1 p e (b <| bf_skbhead := q1 |>)) as (n' & q' & E' & Hq').
    + rewrite Hs1. apply list_lookup_insert_eq. by eapply lookup_lt_Some.
    + exact Hq1.
    + exists n', q'. split; [|exact Hq']. rewrite E', Hs1, list_insert_insert_eq.
      change (sc_host s1) with (sc_host s ++ [HTC_ReturnBuffers_ev e a]). by rewrite <-app_assoc.
Qed.

(** C32: finishing with a buffer. [ath_tx_freebuf] gives every frame of the buffer back to
    the host side, once and in order, and forgets its node, completion and successor. The
    buffer itself is not freed yet: it becomes the held one, whose last descriptor the
    hardware may still read, and the buffer held before joins the end of the free list
    with its retry state cleared. So no buffer is lost and none is free twice. *)
Theorem ath_tx_freebuf_recycles s p b l h hb :
  sc_bufs s !! p = Some b → qrep (sc_nb s) (bf_skbhead b) l →
  (∀ a, a ∈ bf_seg_descs b → is_Some (sc_descs s !! a)) →
  sc_txbuf_held s = Some h → sc_bufs s !! h = Some hb → h ≠ p →
  ∃ s' b', ath_tx_freebuf p s = Ok (tt, s') ∧
    sc_host s' = sc_host s ++ (HTC_ReturnBuffers_ev (bf_endpt b) <$> l) ∧
    sc_txbuf s' = sc_txbuf s ++ [h] ∧ sc_txbuf_held s' = Some p ∧
    sc_bufs s' = <[h := hb <| bf_state ::= λ st, st <| bfs_retries := 0 |> <| bfs_isretried := false |> |>]>
                   (<[p := b']> (sc_bufs s)) ∧
    bf_skb b' = 0 ∧ bf_node b' = None ∧ bf_comp b' = None ∧ bf_next b' = None ∧
    qrep (sc_nb s') (bf_skbhead b') [].
Proof.
  intros Hb Hq Hds Hheld Hhb Hne. unfold ath_tx_freebuf.
  pose proof (lookup_lt_Some _ _ _ Hb) as Hlt.
  erewrite bind_ok by (apply run_rd_bf; exact Hb).
  destruct (run_for_each_ds (bf_seg_descs b) desc_clr_aggr s Hds) as (m & E & _).
  erewrite bind_ok by exact E. unfold ath_dma_unmap.
  erewrite bind_ok by (apply run_upd_bf; exact Hb).
  set (b1 := b <| bf_dmamap := adf_nbuf_unmap |>). set (s1 := s <| sc_descs := m |> <| sc_bufs ::= _ |>).
  assert (sc_bufs s1 !! p = Some b1) as Hb1 by (unfold s1; cbn; by apply list_lookup_insert_eq).
  destruct (skb_free_spec l s1 p (bf_endpt b) b1 Hb1 Hq) as (n' & q' & E1 & Hq').
  erewrite bind_ok.
  2: { unfold ath_tgt_skb_free. erewrite bind_ok by (apply run_rd_bf; exact Hb1).
       change (bf_skbhead b1) with (bf_skbhead b). pose proof Hq as (_ & _ & -> & _).
       rewrite Nat2Z.id. exact E1. }
  set (s2 := skb_freed s1 n' _ _).
  set (b2 := b1 <| bf_skbhead := q' |>).
  assert (sc_bufs s2 !! p = Some b2) as Hb2
    by (unfold s2, s1; cbn; apply list_lookup_insert_eq; by rewrite length_insert).
  erewrite bind_ok by (apply run_upd_bf; exact Hb2).
  set (b3 := b2 <| bf_skb := 0 |> <| bf_state ::= λ st, st <| bfs_comp := None |> |>
    <| bf_node := None |> <| bf_next := None |>).
  set (s3 := s2 <| sc_bufs ::= _ |>).
  assert (sc_bufs s3 = <[p := b3]> (sc_bufs s)) as Hb3
    by (unfold s3, s2, s1; cbn; by rewrite !list_insert_insert_eq).
  erewrite bind_ok.
  2: { unfold ath_buf_toggle. rewrite (bind_ok _ _ _ _ _ (run_get _)).
       change (sc_txbuf_held s3) with (sc_txbuf_held s). rewrite Hheld.
       rewrite (bind_ok _ _ _ _ _ (run_assert _ _ eq_refl)), (bind_ok _ _ _ _ _ (run_deref _ _ _ eq_refl)).
       cbn [when]. rewrite (bind_ok _ _ _ _ _ (run_ret _ _)), (bind_ok _ _ _ _ _ (run_modify _ _)). reflexivity. }
  erewrite bind_ok.
  2: { apply run_upd_bf. match goal with |- sc_bufs ?x !! _ = _ => change (sc_bufs x) with (sc_bufs s3) end. rewrite Hb3.
       rewrite list_lookup_insert_ne by done. exact Hhb. }
  unfold txbuf_insert_tail. rewrite run_modify. eexists _, b3. split; [reflexivity|].
  split; [reflexivity|]. split; [reflexivity|]. split; [reflexivity|]. split.
  - rewrite <-Hb3. reflexivity.
  - split_and!; try done.
Qed.
End recycle.

(** ** Witnesses *)

Definition mcast_sample : softc (gmap Z Z) unit :=
  tx_sample [] <| sc_bufs := [tx_buf 0 <| bf_state ::= λ st, st <| bfs_ismcast := true |> |>] |>
    <| sc_currates := replicate 12 (mk_rate_info IEEE80211_T_HT 6500 0x80 0 0 0 0) |>.

Lemma ath_tx_freebuf_recycles_witness :
  ∃ s', ath_tx_freebuf 1 (tx_sample []) = Ok (tt, s') ∧ sc_host s' = [HTC_ReturnBuffers_ev 5 132] ∧
    sc_txbuf s' = [5%nat] ∧ sc_txbuf_held s' = Some 1%nat.
Proof.
  destruct (ath_tx_freebuf_recycles (tx_sample []) 1 (tx_buf 1) [132] 5 (tx_buf 5))
    as (s' & b' & H & Hh & Ht & Hd & _).
  - reflexivity.
  - split_and!; [|by right|done|done]. cbn. split_and!; [done..|]. by exists 0.
  - intros a [->|Ha]%elem_of_cons; [by eexists|by apply not_elem_of_nil in Ha].
  - reflexivity.
  - reflexivity.
  - discriminate.
  - exists s'. split; [exact H|]. split; [exact Hh|]. split; [exact Ht|exact Hd].
Defined.
