(* ===== verification/TxInv.v ===== *)
(** * The typing of the target's state

    The ranges that the C types and the arithmetic of the code give the state: the words of
    the block-ack bitmaps, the sequence numbers, the positions in the ring, the counters of
    the queues, the bytes of memory; and that the arrays keep their lengths. Every function of
    the transmit path keeps them, and none of them answers a command of the host. *)

From S2P Require Import Prelude.
From S2P Require Import TxTypes.
From S2P Require Import TxEvent.
From S2P Require Import TxPath.

(** ** One TID *)
Record tid_ok (x : ath_atx_tid) : Prop := {
  to_words : length (tx_buf_bitmap x) = 4%nat;
  to_bits : Forall in_u32 (tx_buf_bitmap x);
  to_start : 0 <= seq_start x < 4096;
  to_next : 0 <= seq_next x < 4096;
  to_head : 0 <= baw_head x < 128;
  to_tail : 0 <= baw_tail x < 128;
  to_incomp : -128 <= incomp x < 128 }.

Lemma INCR16_range l : 0 <= INCR16 l IEEE80211_SEQ_MAX < 4096.
Proof. unfold INCR16. change (IEEE80211_SEQ_MAX - 1) with 4095. rewrite land_4095. by apply Z.mod_pos_bound. Qed.
Lemma INCR32_range l : 0 <= INCR32 l ATH_TID_MAX_BUFS < 128.
Proof. unfold INCR32. change (ATH_TID_MAX_BUFS - 1) with 127. rewrite land_127. by apply Z.mod_pos_bound. Qed.
Lemma s8_range x : -128 <= s8 x < 128.
Proof. unfold s8. pose proof (Z.mod_pos_bound (x + 128) 256). lia. Qed.
Lemma land_4095_range x : 0 <= x .& (IEEE80211_SEQ_MAX - 1) < 4096.
Proof. change (IEEE80211_SEQ_MAX - 1) with 4095. rewrite land_4095. by apply Z.mod_pos_bound. Qed.
Lemma in_u8_u8 x : in_u8 (u8 x). Proof. apply u8_range. Qed.
Lemma in_u16_u16 x : in_u16 (u16 x). Proof. apply u16_range. Qed.
Lemma in_u32_u32 x : in_u32 (u32 x). Proof. apply u32_range. Qed.
Lemma zero_seq : 0 <= 0 < 4096. Proof. done. Qed.
Lemma in_u8_0 : in_u8 0. Proof. done. Qed.
Lemma in_u16_0 : in_u16 0. Proof. done. Qed.
Lemma in_u32_0 : in_u32 0. Proof. done. Qed.
Create HintDb typed.
#[export] Hint Resolve in_u8_u8 in_u16_u16 in_u32_u32 zero_seq in_u8_0 in_u16_0 in_u32_0 : typed.
#[export] Hint Resolve INCR16_range INCR32_range s8_range land_4095_range u8_range u16_range u32_range : typed.

(** A word stays a word when bits of words are set and cleared. *)
Lemma in_u32_bits w : in_u32 w ↔ 0 <= w ∧ ∀ k, 32 <= k → Z.testbit w k = false.
Proof.
  unfold in_u32. change 4294967296 with (2 ^ 32). split.
  - intros [Hw Hlt]. split; [done|]. intros k Hk. destruct (decide (w = 0)) as [->|]; [apply Z.bits_0|].
    apply Z.bits_above_log2; [done|]. apply Z.log2_lt_pow2 in Hlt; lia.
  - intros [Hw Hk]. split; [done|]. destruct (decide (w = 0)) as [->|]; [done|].
    apply Z.log2_lt_pow2; [lia|]. destruct (decide (32 <= Z.log2 w)) as [Hle|]; [|lia].
    specialize (Hk _ Hle). by rewrite Z.bit_log2 in Hk by lia.
Qed.
Lemma in_u32_lor a b : in_u32 a → in_u32 b → in_u32 (a .| b).
Proof.
  rewrite !in_u32_bits. intros [Ha Hka] [Hb Hkb]. split; [by apply Z.lor_nonneg|].
  intros k Hk. by rewrite Z.lor_spec, Hka, Hkb.
Qed.
Lemma in_u32_ldiff a b : in_u32 a → in_u32 (a .&~ b).
Proof.
  rewrite !in_u32_bits. intros [Ha Hka]. split; [apply Z.ldiff_nonneg; lia|].
  intros k Hk. by rewrite Z.ldiff_spec, Hka.
Qed.
Lemma in_u32_word bm i : Forall in_u32 bm → in_u32 (bitmap_word bm i).
Proof.
  intros H. unfold bitmap_word. destruct (bm !! _) as [w|] eqn:E; [|done].
  rewrite Forall_lookup in H. by eapply H.
Qed.
Lemma bits_set bm i : Forall in_u32 bm → Forall in_u32 (TX_BUF_BITMAP_SET bm i).
Proof.
  intros H. apply Forall_insert; [done|]. apply in_u32_lor; [by apply in_u32_word|apply u32_range].
Qed.
Lemma bits_clr bm i : Forall in_u32 bm → Forall in_u32 (TX_BUF_BITMAP_CLR bm i).
Proof. intros H. apply Forall_insert; [done|]. by apply in_u32_ldiff, in_u32_word. Qed.
#[export] Hint Resolve bits_set bits_clr : typed.

(** Proves [tid_ok] of an updated TID from that of the TID. *)
Ltac tid_tac :=
  intros; match goal with H : tid_ok _ |- _ => destruct H end;
  split; cbn; rewrite ?length_bitmap_set, ?length_bitmap_clr; auto with typed.

Lemma clr_all (l : list Z) : ∀ bm, length bm = 4%nat → Forall in_u32 bm →
  length (foldl TX_BUF_BITMAP_CLR bm l) = 4%nat ∧ Forall in_u32 (foldl TX_BUF_BITMAP_CLR bm l).
Proof.
  induction l as [|i l IH]; intros bm Hl Hb; cbn [foldl]; [done|].
  apply IH; [by rewrite length_bitmap_clr|by apply bits_clr].
Qed.
Lemma tid_ok_reset f ws x :
  (length (f (tx_buf_bitmap x)) = 4%nat ∧ Forall in_u32 (f (tx_buf_bitmap x))) → tid_ok x →
  tid_ok (x <| seq_start := 0 |> <| seq_next := 0 |> <| baw_size := ws |>
      <| baw_head := 0 |> <| baw_tail := 0 |> <| paused := false |> <| flag := 0 |>
      <| sched := false |> <| buf_q := [] |> <| tx_buf_bitmap ::= f |>).
Proof.
  intros [Hw Hb] [H1 H2 H3 H4 H5 H6 H7]. split; [exact Hw|exact Hb|..|exact H7].
  - change (0 <= 0 < 4096). lia.
  - change (0 <= 0 < 4096). lia.
  - change (0 <= 0 < 128). lia.
  - change (0 <= 0 < 128). lia.
Qed.
Lemma tid_ok_init x : tid_ok x → tid_ok (owl_tgt_tid_init x).
Proof.
  intros H. pose proof (clr_all (seqZ 0 ATH_TID_MAX_BUFS) _ (to_words _ H) (to_bits _ H)) as Hc.
  unfold owl_tgt_tid_init. revert Hc. generalize (seqZ 0 ATH_TID_MAX_BUFS). intros l Hc.
  exact (tid_ok_reset (λ bm, foldl TX_BUF_BITMAP_CLR bm l) _ x Hc H).
Qed.
Lemma tid_ok_node_init an no x : tid_ok x → tid_ok (node_init_tid an no x).
Proof.
  intros H. unfold node_init_tid. assert (tid_ok (x <| tidno := no |> <| tid_an := an |>)) as H' by (by destruct H).
  case_match; [|by apply tid_ok_init]. by destruct H'.
Qed.
Lemma tid_ok_addto r sn x : tid_ok x → tid_ok (ath_tx_addto_baw r sn x).
Proof. unfold ath_tx_addto_baw. destruct r; [done|]. case_match; tid_tac. Qed.
Lemma tid_ok_advance fuel : ∀ x x', baw_advance fuel x = Some x' → tid_ok x → tid_ok x'.
Proof.
  induction fuel as [|fuel IH]; intros x x' E H; cbn in E; (case_match; [|by injection E as <-]); [done|].
  eapply IH; [exact E|]. tid_tac.
Qed.
Lemma tid_ok_update sn x x' : ath_tx_update_baw sn x = Some x' → tid_ok x → tid_ok x'.
Proof. intros E H. eapply tid_ok_advance; [exact E|]. tid_tac. Qed.
Lemma tid_ok_cleanup fuel : ∀ x x', cleanup_window fuel x = Some x' → tid_ok x → tid_ok x'.
Proof.
  induction fuel as [|fuel IH]; intros x x' E H; cbn in E; (case_match; [|by injection E as <-]); [done|].
  eapply IH; [exact E|]. case_match; tid_tac.
Qed.
Lemma tid_ok_drain x : tid_ok x → tid_ok (drain_window x).
Proof. unfold drain_window. intros []. split; cbn; auto; lia. Qed.

(** ** The whole state *)
Record node_ok (n : ath_node_target) : Prop := {
  no_tids : length (an_tid n) = WME_NUM_TID;
  no_tid : Forall tid_ok (an_tid n);
  no_seq : 0 <= ni_txseqmgmt n < 4096;
  no_iv16 : in_u16 (ni_iv16 n);
  no_iv32 : in_u32 (ni_iv32 n) }.

Record sc_ok {HW RC} (s : softc HW RC) : Prop := {
  so_nodes : Forall node_ok (sc_sta s);
  so_mem : map_Forall (λ _ b, in_u8 b) (sc_mem s);
  so_queues : Forall (λ q, in_u32 (axq_depth q)) (sc_txqs s);
  so_setup : in_u8 (sc_txqsetup s);
  so_events : Forall (λ e, in_u8 (cnt e)) (sc_tx_status s);
  so_stats : ∀ x, in_u32 (sc_tx_stats s x) }.

(** Not the answer to a command: the identifiers of events have the bit 0x1000. *)
Definition no_rsp (e : host_event) : Prop :=
  match e with WMI_SendMsg_ev _ msg => tst (msg_id msg) 0x1000 = true | _ => True end.

(** The typing is kept, the arrays keep their lengths, and what the host is told since is
    not an answer. *)
Record follows {HW RC} (s s' : softc HW RC) : Prop := {
  fo_ok : sc_ok s → sc_ok s';
  fo_sta : length (sc_sta s') = length (sc_sta s);
  fo_txqs : length (sc_txqs s') = length (sc_txqs s);
  fo_bufs : length (sc_bufs s') = length (sc_bufs s);
  fo_vap : length (sc_vap s') = length (sc_vap s);
  fo_status : length (sc_tx_status s') = length (sc_tx_status s);
  fo_host : ∃ evs, sc_host s' = sc_host s ++ evs ∧ Forall no_rsp evs }.

Section follows.
Context {HW RC : Type} `{!Mmio HW} `{!RateControl RC}.
Abbreviation TX := (M (softc HW RC)).
Implicit Type s : softc HW RC.

Lemma follows_refl s : follows s s.
Proof. split; [done..|]. exists []. by rewrite app_nil_r. Qed.
Lemma follows_trans s1 s2 s3 : follows s1 s2 → follows s2 s3 → follows s1 s3.
Proof.
  intros [H1 A1 B1 C1 V1 D1 (e1 & E1 & F1)] [H2 A2 B2 C2 V2 D2 (e2 & E2 & F2)].
  split; [auto|congruence..|]. exists (e1 ++ e2). rewrite E2, E1, app_assoc. split; [done|].
  by apply Forall_app.
Qed.

(** Every run of [m] that ends keeps the typing and answers nothing. *)
Definition typed {A} (m : TX A) : Prop := ∀ s a s', m s = Ok (a, s') → follows s s'.
Lemma typed_ret {A} (a : A) : typed (mret a).
Proof. intros s b s' E. injection E as <- <-. apply follows_refl. Qed.
Lemma typed_bind {A B} (m : TX A) (k : A → TX B) : typed m → (∀ a, typed (k a)) → typed (m ≫= k).
Proof.
  intros Hm Hk s b s'' (a & s' & E1 & E2)%bind_inv. eapply follows_trans; [by eapply Hm|by eapply Hk].
Qed.
Lemma typed_get : typed get.
Proof. intros s b s' E. injection E as <- <-. apply follows_refl. Qed.
Lemma typed_gets {A} (g : softc HW RC → A) : typed (gets g).
Proof. intros s b s' E. injection E as <- <-. apply follows_refl. Qed.
Lemma typed_fail {A} e : typed (fail e : TX A).
Proof. by intros s b s'. Qed.
Lemma typed_assert b : typed (assert_ b).
Proof. destruct b; [apply typed_ret|apply typed_fail]. Qed.
Lemma typed_deref {A} (o : option A) : typed (deref o).
Proof. destruct o; [apply typed_ret|apply typed_fail]. Qed.
Lemma typed_in_range {A} (o : option A) : typed (in_range o).
Proof. destruct o; [apply typed_ret|apply typed_fail]. Qed.
Lemma typed_when b (m : TX unit) : typed m → typed (when b m).
Proof. intros H. destruct b; [done|apply typed_ret]. Qed.
Lemma typed_for_each {A} (l : list A) (body : A → TX unit) : (∀ x, typed (body x)) → typed (for_each l body).
Proof. intros H. induction l as [|x l IH]; cbn; [apply typed_ret|]. by apply typed_bind. Qed.
Lemma typed_do_while fuel (body : TX bool) : typed body → typed (do_while fuel body).
Proof.
  intros H. induction fuel as [|fuel IH]; cbn; [apply typed_fail|]. apply typed_bind; [done|].
  intros []; [done|apply typed_ret].
Qed.

(** A change of the parts that are not typed. *)
Lemma follows_same s s' :
  sc_sta s' = sc_sta s → sc_mem s' = sc_mem s → sc_txqs s' = sc_txqs s →
  sc_txqsetup s' = sc_txqsetup s → sc_tx_status s' = sc_tx_status s →
  sc_tx_stats s' = sc_tx_stats s → length (sc_bufs s') = length (sc_bufs s) →
  length (sc_vap s') = length (sc_vap s) →
  sc_host s' = sc_host s → follows s s'.
Proof.
  intros H1 H2 H3 H4 H5 H6 H7 Hv H8. split; [|congruence..|].
  - intros []. split; rewrite ?H1, ?H2, ?H3, ?H4, ?H5, ?H6; done.
  - exists []. by rewrite app_nil_r.
Qed.
Lemma typed_modify (g : softc HW RC → softc HW RC) : (∀ s, follows s (g s)) → typed (modify g).
Proof. intros H s b s' E. injection E as <- <-. apply H. Qed.
Lemma typed_nb {A} (m : NB A) : typed (nb m).
Proof.
  intros s a s' E. unfold nb in E. destruct (m (sc_nb s)) as [[? ?]|]; [|done].
  injection E as <- <-. by apply follows_same.
Qed.
Lemma typed_hal {A} (m : M (ath_hal HW) A) : typed (hal m).
Proof.
  intros s a s' E. unfold hal in E. destruct (m (sc_hal s)) as [[? ?]|]; [|done].
  injection E as <- <-. by apply follows_same.
Qed.
Lemma typed_rc {A} (m : M RC A) : typed (rc m).
Proof.
  intros s a s' E. unfold rc in E. destruct (m (sc_rc s)) as [[? ?]|]; [|done].
  injection E as <- <-. by apply follows_same.
Qed.
End follows.
