(* ===== verification/TxTyped.v ===== *)
(** * The transmit path keeps the typing

    One lemma per function of the transmit path, in the order of its definitions: the
    functions that touch a typed part by hand, the others from the lemmas on what they call. *)

From S2P Require Import Prelude.
From S2P Require Import TxTypes.
From S2P Require Import TxEvent.
From S2P Require Import TxPath.
From S2P Require Import TxInv.

Section typed.
Context {HW RC : Type} `{!Mmio HW} `{!RateControl RC}.
Abbreviation TX := (M (softc HW RC)).
Implicit Type s : softc HW RC.

(** ** The parts of the state *)
Lemma typed_rd_bf p : typed (rd_bf p : TX _).
Proof. apply typed_bind; [apply typed_get|intros; apply typed_in_range]. Qed.
Lemma typed_rd_ds a : typed (rd_ds a : TX _).
Proof. apply typed_bind; [apply typed_get|intros; apply typed_deref]. Qed.
Lemma typed_rd_txq i : typed (rd_txq i : TX _).
Proof. apply typed_bind; [apply typed_get|intros; apply typed_in_range]. Qed.
Lemma typed_rd_node i : typed (rd_node i : TX _).
Proof. apply typed_bind; [apply typed_get|intros; apply typed_in_range]. Qed.
Lemma typed_rd_tid t : typed (rd_tid t : TX _).
Proof. apply typed_bind; [apply typed_rd_node|intros; apply typed_in_range]. Qed.
Lemma typed_rd8 a : typed (rd8 a : TX _).
Proof. apply typed_gets. Qed.
Lemma typed_upd_bf p f : typed (upd_bf p f : TX _).
Proof.
  apply typed_bind; [apply typed_rd_bf|]. intros b. apply typed_modify. intros s.
  apply follows_same; try done. cbn. by rewrite length_insert.
Qed.
Lemma typed_upd_bfs p f : typed (upd_bfs p f : TX _).
Proof. apply typed_upd_bf. Qed.
Lemma typed_upd_ds a f : typed (upd_ds a f : TX _).
Proof. apply typed_bind; [apply typed_rd_ds|]. intros b. apply typed_modify. intros s. by apply follows_same. Qed.

Lemma typed_wr8 a v : typed (wr8 a v : TX _).
Proof.
  apply typed_modify. intros s. split; try done; [|exists []; by rewrite app_nil_r].
  intros []. split; try done. cbn. apply map_Forall_insert_2; [apply u8_range|done].
Qed.
Lemma typed_wr16 a v : typed (wr16 a v : TX _).
Proof. apply typed_bind; [apply typed_wr8|intros; apply typed_wr8]. Qed.
Lemma typed_statsn x n : typed (__statsn x n : TX _).
Proof.
  apply typed_modify. intros s. split; try done; [|exists []; by rewrite app_nil_r].
  intros []. split; try done. intros y. cbn. case_decide; [apply u32_range|done].
Qed.
Lemma typed_stats x : typed (__stats x : TX _).
Proof. apply typed_statsn. Qed.
Lemma typed_host e : no_rsp e → typed (host e : TX _).
Proof.
  intros He. apply typed_modify. intros s. split; try done; [by intros []|].
  exists [e]. split; [done|]. by constructor.
Qed.

(** A node, a TID, a queue, with a change that keeps its type. *)
Lemma typed_upd_node i f : (∀ n, node_ok n → node_ok (f n)) → typed (upd_node i f : TX _).
Proof.
  intros Hf s a s' E. unfold upd_node, rd_node in E.
  apply bind_inv in E as (n & s1 & E & E2). unfold mbind, M_bind in E. cbn in E.
  destruct (sc_sta s !! i) as [x|] eqn:Hx; [|done]. injection E as <- <-. injection E2 as <- <-.
  split; try done; [|cbn; by rewrite length_insert|exists []; by rewrite app_nil_r].
  intros []. split; try done. cbn. apply Forall_insert; [done|]. apply Hf.
  rewrite Forall_lookup in so_nodes. by eapply so_nodes.
Qed.
Lemma node_ok_tid n k f x :
  an_tid n !! k = Some x → tid_ok (f x) → node_ok n → node_ok (n <| an_tid ::= <[k := f x]> |>).
Proof. intros Hx Hf []. split; cbn; try done; [by rewrite length_insert|by apply Forall_insert]. Qed.
Lemma rd_node_inv i s n s' : rd_node i s = Ok (n, s') → s' = s ∧ sc_sta s !! i = Some n.
Proof.
  unfold rd_node, mbind, M_bind. cbn. destruct (sc_sta s !! i); cbn; [|done]. by intros [= -> ->].
Qed.
Lemma run_rd_tid_inv t s x s' : rd_tid t s = Ok (x, s') →
  s' = s ∧ ∃ n, sc_sta s !! t.1 = Some n ∧ an_tid n !! Z.to_nat t.2 = Some x.
Proof.
  intros (n & s1 & [-> Hn]%rd_node_inv & E)%bind_inv.
  destruct (an_tid n !! Z.to_nat t.2) eqn:Hx; [|done]. injection E as -> ->. eauto.
Qed.
(** The node with one TID changed. *)
Lemma typed_set_tid t n k (x y : ath_atx_tid) :
  an_tid n !! k = Some x → (tid_ok x → tid_ok y) → 
  ∀ s s', sc_sta s !! t = Some n → upd_node t (λ n, n <| an_tid ::= <[k := y]> |>) s = Ok (tt, s') → follows s s'.
Proof.
  intros Hx Hy s s' Hn E. unfold upd_node in E. apply bind_inv in E as (n' & s1 & E1 & E2).
  apply rd_node_inv in E1 as [-> Hn']. rewrite Hn in Hn'. injection Hn' as <-. injection E2 as <-.
  split; try done; [|cbn; by rewrite length_insert|exists []; by rewrite app_nil_r].
  intros []. split; try done. cbn. rewrite Forall_lookup in so_nodes. pose proof (so_nodes _ _ Hn) as Hok.
  apply Forall_insert; [by apply Forall_lookup|]. apply (node_ok_tid _ _ (λ _, y) _ Hx); [|done].
  apply Hy. destruct Hok. rewrite Forall_lookup in no_tid. by eapply no_tid.
Qed.
Lemma typed_upd_tid t f : (∀ x, tid_ok x → tid_ok (f x)) → typed (upd_tid t f : TX _).
Proof.
  intros Hf s [] s' E. unfold upd_tid in E. apply bind_inv in E as (x & s1 & E1 & E2).
  apply run_rd_tid_inv in E1 as (-> & n & Hn & Hx). eapply typed_set_tid; [exact Hx|apply Hf|done|exact E2].
Qed.
Lemma typed_upd_tid_o t f : (∀ x x', f x = Some x' → tid_ok x → tid_ok x') → typed (upd_tid_o t f : TX _).
Proof.
  intros Hf s [] s' E. unfold upd_tid_o in E. apply bind_inv in E as (x & s1 & E1 & E2).
  apply run_rd_tid_inv in E1 as (-> & n & Hn & Hx). destruct (f x) as [x'|] eqn:Hfx; [|done].
  apply bind_inv in E2 as (y & s2 & E2 & E3). apply run_rd_tid_inv in E2 as (-> & n' & Hn' & Hy).
  assert (n' = n) as -> by congruence. assert (y = x) as -> by congruence.
  eapply typed_set_tid; [exact Hx|by apply Hf|done|exact E3].
Qed.
Lemma typed_upd_txq i f : (∀ q, in_u32 (axq_depth q) → in_u32 (axq_depth (f q))) → typed (upd_txq i f : TX _).
Proof.
  intros Hf s a s' E. unfold upd_txq, rd_txq in E.
  apply bind_inv in E as (n & s1 & E & E2). unfold mbind, M_bind in E. cbn in E.
  destruct (sc_txqs s !! i) as [x|] eqn:Hx; [|done]. injection E as <- <-. injection E2 as <- <-.
  split; try done; [|cbn; by rewrite length_insert|exists []; by rewrite app_nil_r].
  intros []. split; try done. cbn. apply Forall_insert; [done|]. apply Hf.
  rewrite Forall_lookup in so_queues. by eapply so_queues.
Qed.
End typed.

#[export] Hint Resolve typed_ret typed_get typed_gets typed_fail typed_assert typed_deref typed_in_range
  typed_nb typed_hal typed_rc typed_rd_bf typed_rd_ds typed_rd_txq typed_rd_node typed_rd_tid typed_rd8
  typed_upd_bf typed_upd_bfs typed_upd_ds typed_wr8 typed_wr16 typed_statsn typed_stats : typed.
#[export] Hint Resolve tid_ok_init tid_ok_node_init tid_ok_addto tid_ok_update tid_ok_cleanup tid_ok_drain : typed.

(** Proves [typed] of straight-line code from the [typed] hints on what it calls. *)
Ltac typed_step :=
  match goal with
  | |- typed (_ ≫= _) => apply typed_bind; [|intros ?]
  | |- typed (when _ _) => apply typed_when
  | |- typed (for_each _ _) => apply typed_for_each; intros ?
  | |- typed (do_while _ _) => apply typed_do_while
  | |- typed (host _) => apply typed_host; exact I
  | |- typed (upd_node _ _) => apply typed_upd_node; intros ? []; split; cbn; auto with typed
  | |- typed (upd_tid _ _) => apply typed_upd_tid; solve [auto with typed nocore|tid_tac|intros; apply tid_ok_init; tid_tac]
  | |- typed (upd_tid_o _ _) => apply typed_upd_tid_o; intros ? ? ? ?; eauto with typed nocore
  | |- typed (upd_txq _ _) => apply typed_upd_txq; intros ? ?; cbn; auto with typed
  | |- typed (modify _) => apply typed_modify; intros ?; by apply follows_same
  | |- typed (match ?x with _ => _ end) => destruct x
  | |- typed _ => solve [auto with typed nocore]
  end.
Ltac typed_tac := repeat typed_step.

(** ** Messages for the host *)
Section messages.
Context {HW RC : Type}.
Abbreviation TX := (M (softc HW RC)).

Lemma typed_wr_bytes l : ∀ a, typed (wr_bytes a l : TX _).
Proof. induction l; intros; cbn [wr_bytes]; typed_tac. Qed.
#[local] Hint Resolve typed_wr_bytes : typed.
Lemma typed_put_data buf data : typed (put_data buf data : TX _).
Proof. unfold put_data. typed_tac. Qed.
#[local] Hint Resolve typed_put_data : typed.
Lemma typed_WMI_AllocEvent c : typed (WMI_AllocEvent c : TX _).
Proof. apply typed_nb. Qed.
#[local] Hint Resolve typed_WMI_AllocEvent : typed.
(** Up to the message itself. *)
Lemma follows_SendEvent buf id seq (s s' : softc HW RC) :
  WMI_SendEvent buf id seq s = Ok (tt, s') →
  ∃ s1 data, follows s s1 ∧ s' = s1 <| sc_host ::= λ h, h ++ [WMI_SendMsg_ev buf (header id seq ++ data)] |>.
Proof.
  intros (a & s1 & s2 & len & s3 & data & E1 & E2 & E3 & ->)%SendEvent_inv. exists s3, data. split; [|done].
  eapply follows_trans; [by eapply (typed_nb _ _ _ _ E1)|].
  eapply follows_trans; [|by eapply (typed_nb _ _ _ _ E3)].
  eapply (typed_bind (wr16 a id) (λ _, wr16 (a + 2) seq)); [apply typed_wr16|intros; apply typed_wr16|exact E2].
Qed.
Lemma typed_wmi_event id data : tst (u16 id) 0x1000 = true → typed (wmi_event id data : TX _).
Proof.
  intros Hid. unfold wmi_event. typed_tac. intros s [] s' (s1 & d & F & ->)%follows_SendEvent.
  eapply follows_trans; [exact F|]. apply (typed_host (WMI_SendMsg_ev a (header id 0 ++ d))) with (a := tt); [|done].
  unfold no_rsp. by rewrite msg_id_header.
Qed.
(** A reply is sent, or the command ends with an assertion. *)
Lemma follows_rsp id seq data (s s' : softc HW RC) :
  wmi_cmd_rsp id seq data s = Ok (tt, s') →
  ∃ buf s1 d, follows s s1 ∧ s' = s1 <| sc_host ::= λ h, h ++ [WMI_SendMsg_ev buf (header id seq ++ d)] |>.
Proof.
  intros (buf & s1 & E1 & E)%bind_inv. destruct (buf =? 0); [done|].
  apply bind_inv in E as ([] & s2 & E2 & (s3 & d & F & ->)%follows_SendEvent). exists buf, s3, d. split; [|done].
  eapply follows_trans; [by eapply (typed_WMI_AllocEvent _ _ _ _ E1)|]. eapply follows_trans; [|exact F].
  eapply (typed_when _ (put_data buf data)); [auto with typed|exact E2].
Qed.
End messages.

Section ops.
Context {HW RC : Type} `{!Mmio HW} `{!RateControl RC}.
Abbreviation TX := (M (softc HW RC)).
Implicit Type s : softc HW RC.

Lemma rd_txs_inv i s e s' : rd_txs i s = Ok (e, s') → s' = s ∧ sc_tx_status s !! i = Some e.
Proof.
  unfold rd_txs, mbind, M_bind. cbn. destruct (sc_tx_status s !! i); cbn; [|done]. by intros [= -> ->].
Qed.
Lemma follows_event s i (e e' : txstatus_event) :
  sc_tx_status s !! i = Some e → (in_u8 (cnt e) → in_u8 (cnt e')) →
  follows s (s <| sc_tx_status ::= <[i := e']> |>).
Proof.
  intros He Hc. split; try done; [|cbn; by rewrite length_insert|exists []; by rewrite app_nil_r].
  intros []. split; try done. cbn. apply Forall_insert; [done|]. apply Hc.
  rewrite Forall_lookup in so_events. by eapply so_events.
Qed.

Lemma typed_ATH_SKB_2_WH skb : typed (ATH_SKB_2_WH skb : TX _). Proof. unfold ATH_SKB_2_WH. typed_tac. Qed.
#[local] Hint Resolve typed_ATH_SKB_2_WH : typed.
Lemma typed_ieee80211_hdrsize wh : typed (ieee80211_hdrsize wh : TX _). Proof. unfold ieee80211_hdrsize. typed_tac. Qed.
#[local] Hint Resolve typed_ieee80211_hdrsize : typed.
Lemma typed_ieee80211_anyhdrsize wh : typed (ieee80211_anyhdrsize wh : TX _). Proof. unfold ieee80211_anyhdrsize. typed_tac. Qed.
#[local] Hint Resolve typed_ieee80211_anyhdrsize : typed.
Lemma typed_ieee80211_tgt_crypto_encap wh ni keytype : typed (ieee80211_tgt_crypto_encap wh ni keytype : TX _). Proof. unfold ieee80211_tgt_crypto_encap. typed_tac. Qed.
#[local] Hint Resolve typed_ieee80211_tgt_crypto_encap : typed.
Lemma typed_rate_entry ix : typed (rate_entry ix : TX _). Proof. unfold rate_entry. typed_tac. Qed.
#[local] Hint Resolve typed_rate_entry : typed.
Lemma typed_ath_pkt_duration rix bf width half_gi : typed (ath_pkt_duration rix bf width half_gi : TX _). Proof. unfold ath_pkt_duration. typed_tac. Qed.
#[local] Hint Resolve typed_ath_pkt_duration : typed.
Lemma typed_ath_dma_map p : typed (ath_dma_map p : TX _). Proof. unfold ath_dma_map. typed_tac. Qed.
#[local] Hint Resolve typed_ath_dma_map : typed.
Lemma typed_ath_dma_unmap p : typed (ath_dma_unmap p : TX _). Proof. unfold ath_dma_unmap. typed_tac. Qed.
#[local] Hint Resolve typed_ath_dma_unmap : typed.
Lemma typed_ath_filltxdesc p : typed (ath_filltxdesc p : TX _). Proof. unfold ath_filltxdesc. typed_tac. Qed.
#[local] Hint Resolve typed_ath_filltxdesc : typed.
Lemma typed_ath_tx_tgt_setds p : typed (ath_tx_tgt_setds p : TX _). Proof. unfold ath_tx_tgt_setds. typed_tac. Qed.
#[local] Hint Resolve typed_ath_tx_tgt_setds : typed.
Lemma typed_ath_buf_toggle p retry : typed (ath_buf_toggle p retry : TX _). Proof. unfold ath_buf_toggle. typed_tac. Qed.
#[local] Hint Resolve typed_ath_buf_toggle : typed.
Lemma typed_skb_free_loop fuel : ∀ p endpt, typed (skb_free_loop fuel p endpt : TX _). Proof. induction fuel; intros; cbn [skb_free_loop]; typed_tac. Qed.
#[local] Hint Resolve typed_skb_free_loop : typed.
Lemma typed_ath_tgt_skb_free p endpt : typed (ath_tgt_skb_free p endpt : TX _). Proof. unfold ath_tgt_skb_free. typed_tac. Qed.
#[local] Hint Resolve typed_ath_tgt_skb_free : typed.
Lemma typed_txbuf_insert_tail p : typed (txbuf_insert_tail p : TX _). Proof. unfold txbuf_insert_tail. typed_tac. Qed.
#[local] Hint Resolve typed_txbuf_insert_tail : typed.
Lemma typed_ath_buf_comp p : typed (ath_buf_comp p : TX _). Proof. unfold ath_buf_comp. typed_tac. Qed.
#[local] Hint Resolve typed_ath_buf_comp : typed.
Lemma typed_rc_at rcs i : typed (rc_at rcs i : TX _). Proof. unfold rc_at. typed_tac. Qed.
#[local] Hint Resolve typed_rc_at : typed.
Lemma typed_last_series_rate ixs : ∀ rcs cix, typed (last_series_rate ixs rcs cix : TX _). Proof. induction ixs; intros; cbn [last_series_rate]; typed_tac. Qed.
#[local] Hint Resolve typed_last_series_rate : typed.
Lemma typed_buf_rate_series bf prot_mode r : typed (buf_rate_series bf prot_mode r : TX _). Proof. unfold buf_rate_series. typed_tac. Qed.
#[local] Hint Resolve typed_buf_rate_series : typed.
Lemma typed_ath_buf_set_rate p : typed (ath_buf_set_rate p : TX _). Proof. unfold ath_buf_set_rate. typed_tac. Qed.
#[local] Hint Resolve typed_ath_buf_set_rate : typed.
Lemma typed_ath_tgt_rate_findrate an frameLen series : typed (ath_tgt_rate_findrate an frameLen series : TX _). Proof. unfold ath_tgt_rate_findrate. typed_tac. Qed.
#[local] Hint Resolve typed_ath_tgt_rate_findrate : typed.
Lemma typed_rate_tx_complete an ds rcs nframes nbad : typed (rate_tx_complete an ds rcs nframes nbad : TX _). Proof. unfold rate_tx_complete. typed_tac. Qed.
#[local] Hint Resolve typed_rate_tx_complete : typed.
Lemma typed_ath_tx_status_clear : typed (ath_tx_status_clear : TX _).
Proof.
  apply typed_modify. intros s. split; try done; [|cbn; by rewrite length_map|exists []; by rewrite app_nil_r].
  intros []. split; try done. cbn. by apply Forall_map, Forall_true.
Qed.
#[local] Hint Resolve typed_ath_tx_status_clear : typed.
Lemma typed_ath_tx_status_get : typed (ath_tx_status_get : TX _). Proof. unfold ath_tx_status_get. typed_tac. Qed.
#[local] Hint Resolve typed_ath_tx_status_get : typed.
Lemma typed_rd_txs i : typed (rd_txs i : TX _). Proof. unfold rd_txs. typed_tac. Qed.
#[local] Hint Resolve typed_rd_txs : typed.
Lemma typed_upd_txs_entry i f : typed (upd_txs_entry i f : TX _).
Proof.
  intros s [] s' E. apply bind_inv in E as (e & s1 & E & E2). apply rd_txs_inv in E as [-> He].
  apply bind_inv in E2 as (t & s1 & E & E2).
  destruct (txs_list e !! Z.to_nat (cnt e)); [|done]. injection E as <- <-. injection E2 as <-.
  by apply follows_event with (e := e).
Qed.
#[local] Hint Resolve typed_upd_txs_entry : typed.
Lemma typed_txs_advance i : typed (txs_advance i : TX _).
Proof.
  intros s [] s' E. apply bind_inv in E as (e & s1 & E & E2). apply rd_txs_inv in E as [-> He].
  injection E2 as <-. apply follows_event with (e := e); [done|]. intros _. apply u8_range.
Qed.
#[local] Hint Resolve typed_txs_advance : typed.
Lemma typed_ath_tx_status_update_rate rcs series i : typed (ath_tx_status_update_rate rcs series i : TX _). Proof. unfold ath_tx_status_update_rate. typed_tac. Qed.
#[local] Hint Resolve typed_ath_tx_status_update_rate : typed.
Lemma typed_ath_tx_status_update p : typed (ath_tx_status_update p : TX _). Proof. unfold ath_tx_status_update. typed_tac. Qed.
#[local] Hint Resolve typed_ath_tx_status_update : typed.
Lemma typed_ath_tx_status_update_aggr p ds rcs txok : typed (ath_tx_status_update_aggr p ds rcs txok : TX _). Proof. unfold ath_tx_status_update_aggr. typed_tac. Qed.
#[local] Hint Resolve typed_ath_tx_status_update_aggr : typed.
Lemma typed_ath_tx_status_send : typed (ath_tx_status_send : TX _).
Proof.
  unfold ath_tx_status_send. typed_tac; [by apply typed_wmi_event|]. apply typed_modify. intros s.
  split; try done; [|cbn; by rewrite length_alter|exists []; by rewrite app_nil_r].
  intros []. split; try done. cbn. by apply Forall_alter.
Qed.
#[local] Hint Resolve typed_ath_tx_status_send : typed.
Lemma typed_ath_tgt_find_node node_index : typed (ath_tgt_find_node node_index : TX _). Proof. unfold ath_tgt_find_node. typed_tac. Qed.
#[local] Hint Resolve typed_ath_tgt_find_node : typed.
Lemma typed_ath_tx_buf_alloc : typed (ath_tx_buf_alloc : TX _). Proof. unfold ath_tx_buf_alloc. typed_tac. Qed.
#[local] Hint Resolve typed_ath_tx_buf_alloc : typed.
(** The next sequence number: between its two steps it may be 4096, afterwards it is masked. *)
Lemma upd_tid_twice t f g s : (upd_tid t f ;; upd_tid t g) s = upd_tid t (λ x, g (f x)) s.
Proof.
  unfold upd_tid, upd_node, rd_tid, rd_node, mbind, M_bind. cbn.
  destruct (sc_sta s !! t.1) as [n|] eqn:Hn; [|done]. cbn.
  destruct (an_tid n !! Z.to_nat t.2) as [x|] eqn:Hx; [|done]. cbn. rewrite Hn. cbn.
  rewrite list_lookup_insert_eq by (by eapply lookup_lt_Some). cbn.
  rewrite list_lookup_insert_eq by (by eapply lookup_lt_Some). cbn.
  rewrite list_lookup_insert_eq by (by eapply lookup_lt_Some). unfold modify, field_upd. cbn.
  by rewrite !list_insert_insert_eq.
Qed.
Lemma typed_next_seq t b :
  typed (when b (upd_tid t (λ x, x <| seq_next ::= λ l, u16 (l + 1) |>)) ;;
         upd_tid t (λ x, x <| seq_next ::= λ l, l .& (IEEE80211_SEQ_MAX - 1) |>) : TX _).
Proof.
  destruct b; cbn [when].
  - intros s a s'. rewrite upd_tid_twice. apply typed_upd_tid. tid_tac.
  - apply typed_bind; [auto with typed|intros]. apply typed_upd_tid. tid_tac.
Qed.
Lemma typed_ath_tgt_tx_seqno_normal p : typed (ath_tgt_tx_seqno_normal p : TX _).
Proof. unfold ath_tgt_tx_seqno_normal. repeat first [apply typed_next_seq | typed_step]; auto with typed. Qed.
#[local] Hint Resolve typed_ath_tgt_tx_seqno_normal : typed.
Lemma typed_ath_get_pktlen p hdrlen : typed (ath_get_pktlen p hdrlen : TX _). Proof. unfold ath_get_pktlen. typed_tac. Qed.
#[local] Hint Resolve typed_ath_get_pktlen : typed.
Lemma typed_ath_key_setup ni p : typed (ath_key_setup ni p : TX _). Proof. unfold ath_key_setup. typed_tac. Qed.
#[local] Hint Resolve typed_ath_key_setup : typed.
Lemma typed_ath_tgt_txbuf_setup p dh : typed (ath_tgt_txbuf_setup p dh : TX _). Proof. unfold ath_tgt_txbuf_setup. typed_tac. Qed.
#[local] Hint Resolve typed_ath_tgt_txbuf_setup : typed.
Lemma typed_TID_TO_ACTXQ tidno : typed (TID_TO_ACTXQ tidno : TX _). Proof. unfold TID_TO_ACTXQ. typed_tac. Qed.
#[local] Hint Resolve typed_TID_TO_ACTXQ : typed.
Lemma typed_ath_tgt_tx_prepare skb dh : typed (ath_tgt_tx_prepare skb dh : TX _). Proof. unfold ath_tgt_tx_prepare. typed_tac. Qed.
#[local] Hint Resolve typed_ath_tgt_tx_prepare : typed.
Lemma typed_ATH_TXQ_INSERT_TAIL i p : typed (ATH_TXQ_INSERT_TAIL i p : TX _). Proof. unfold ATH_TXQ_INSERT_TAIL. typed_tac. Qed.
#[local] Hint Resolve typed_ATH_TXQ_INSERT_TAIL : typed.
Lemma typed_ath_tgt_txq_add_ucast p : typed (ath_tgt_txq_add_ucast p : TX _). Proof. unfold ath_tgt_txq_add_ucast. typed_tac. Qed.
#[local] Hint Resolve typed_ath_tgt_txq_add_ucast : typed.
Lemma typed_bf_txq_add p : typed (bf_txq_add p : TX _). Proof. unfold bf_txq_add. typed_tac. Qed.
#[local] Hint Resolve typed_bf_txq_add : typed.
Lemma typed_ath_tgt_txqaddbuf i p lastds : typed (ath_tgt_txqaddbuf i p lastds : TX _). Proof. unfold ath_tgt_txqaddbuf. typed_tac. Qed.
#[local] Hint Resolve typed_ath_tgt_txqaddbuf : typed.
Lemma typed_ath_tgt_tx_send_normal p : typed (ath_tgt_tx_send_normal p : TX _). Proof. unfold ath_tgt_tx_send_normal. typed_tac. Qed.
#[local] Hint Resolve typed_ath_tgt_tx_send_normal : typed.
Lemma typed_ath_tx_freebuf p : typed (ath_tx_freebuf p : TX _). Proof. unfold ath_tx_freebuf. typed_tac. Qed.
#[local] Hint Resolve typed_ath_tx_freebuf : typed.
Lemma typed_ath_update_stats p : typed (ath_update_stats p : TX _). Proof. unfold ath_update_stats. typed_tac. Qed.
#[local] Hint Resolve typed_ath_update_stats : typed.
Lemma typed_ath_tx_uc_comp p : typed (ath_tx_uc_comp p : TX _). Proof. unfold ath_tx_uc_comp. typed_tac. Qed.
#[local] Hint Resolve typed_ath_tx_uc_comp : typed.
Lemma typed_ath_tgt_tx_enqueue txq t : typed (ath_tgt_tx_enqueue txq t : TX _). Proof. unfold ath_tgt_tx_enqueue. typed_tac. Qed.
#[local] Hint Resolve typed_ath_tgt_tx_enqueue : typed.
Lemma typed_sched_normal_loop fuel : ∀ txq t, typed (sched_normal_loop fuel txq t : TX _). Proof. induction fuel; intros; cbn [sched_normal_loop]; typed_tac. Qed.
#[local] Hint Resolve typed_sched_normal_loop : typed.
Lemma typed_ath_tgt_tx_sched_normal t : typed (ath_tgt_tx_sched_normal t : TX _). Proof. unfold ath_tgt_tx_sched_normal. typed_tac. Qed.
#[local] Hint Resolve typed_ath_tgt_tx_sched_normal : typed.
Lemma typed_lookup_series rcs : ∀ maxlen, typed (lookup_series rcs maxlen : TX _). Proof. induction rcs; intros; cbn [lookup_series]; typed_tac. Qed.
#[local] Hint Resolve typed_lookup_series : typed.
Lemma typed_ath_lookup_rate an p : typed (ath_lookup_rate an p : TX _). Proof. unfold ath_lookup_rate. typed_tac. Qed.
#[local] Hint Resolve typed_ath_lookup_rate : typed.
Lemma typed_form_aggr_finish bf_first v st : typed (form_aggr_finish bf_first v st : TX _). Proof. unfold form_aggr_finish. typed_tac. Qed.
#[local] Hint Resolve typed_form_aggr_finish : typed.
Lemma typed_form_aggr_add t p al_delta v : typed (form_aggr_add t p al_delta v : TX _). Proof. unfold form_aggr_add. typed_tac. Qed.
#[local] Hint Resolve typed_form_aggr_add : typed.
Lemma typed_form_aggr_loop fuel : ∀ t bf_first v, typed (form_aggr_loop fuel t bf_first v : TX _). Proof. induction fuel; intros; cbn [form_aggr_loop]; typed_tac. Qed.
#[local] Hint Resolve typed_form_aggr_loop : typed.
Lemma typed_ath_tgt_tx_form_aggr t : typed (ath_tgt_tx_form_aggr t : TX _). Proof. unfold ath_tgt_tx_form_aggr. typed_tac. Qed.
#[local] Hint Resolve typed_ath_tgt_tx_form_aggr : typed.
Lemma typed_sched_aggr_single p : typed (sched_aggr_single p : TX _). Proof. unfold sched_aggr_single. typed_tac. Qed.
#[local] Hint Resolve typed_sched_aggr_single : typed.
Lemma typed_sched_aggr_many p last status : typed (sched_aggr_many p last status : TX _). Proof. unfold sched_aggr_many. typed_tac. Qed.
#[local] Hint Resolve typed_sched_aggr_many : typed.
Lemma typed_sched_aggr_loop fuel : ∀ txq t, typed (sched_aggr_loop fuel txq t : TX _). Proof. induction fuel; intros; cbn [sched_aggr_loop]; typed_tac. Qed.
#[local] Hint Resolve typed_sched_aggr_loop : typed.
Lemma typed_ath_tgt_tx_sched_aggr t : typed (ath_tgt_tx_sched_aggr t : TX _). Proof. unfold ath_tgt_tx_sched_aggr. typed_tac. Qed.
#[local] Hint Resolve typed_ath_tgt_tx_sched_aggr : typed.
Lemma typed_txq_schedule_loop fuel : ∀ i, typed (txq_schedule_loop fuel i : TX _). Proof. induction fuel; intros; cbn [txq_schedule_loop]; typed_tac. Qed.
#[local] Hint Resolve typed_txq_schedule_loop : typed.
Lemma typed_ath_tgt_txq_schedule i : typed (ath_tgt_txq_schedule i : TX _). Proof. unfold ath_tgt_txq_schedule. typed_tac. Qed.
#[local] Hint Resolve typed_ath_tgt_txq_schedule : typed.
Lemma typed_ath_aggr_resume_tid t : typed (ath_aggr_resume_tid t : TX _). Proof. unfold ath_aggr_resume_tid. typed_tac. Qed.
#[local] Hint Resolve typed_ath_aggr_resume_tid : typed.
Lemma typed_ath_aggr_pause_tid t : typed (ath_aggr_pause_tid t : TX _). Proof. unfold ath_aggr_pause_tid. typed_tac. Qed.
#[local] Hint Resolve typed_ath_aggr_pause_tid : typed.
Lemma typed_owl_tgt_tid_cleanup t : typed (owl_tgt_tid_cleanup t : TX _). Proof. unfold owl_tgt_tid_cleanup. typed_tac. Qed.
#[local] Hint Resolve typed_owl_tgt_tid_cleanup : typed.
Lemma typed_node_init an : typed (node_init an : TX _).
Proof.
  apply typed_upd_node. intros n []. split; cbn; try done; unfold owl_tgt_node_init.
  - by rewrite length_imap.
  - apply Forall_lookup. intros i x. rewrite list_lookup_imap. intros (y & Hy & ->)%fmap_Some.
    apply tid_ok_node_init. rewrite Forall_lookup in no_tid. by eapply no_tid.
Qed.
#[local] Hint Resolve typed_node_init : typed.
Lemma typed_tid_drain_loop fuel : ∀ t, typed (tid_drain_loop fuel t : TX _). Proof. induction fuel; intros; cbn [tid_drain_loop]; typed_tac. Qed.
#[local] Hint Resolve typed_tid_drain_loop : typed.
Lemma typed_ath_tgt_tid_drain t : typed (ath_tgt_tid_drain t : TX _). Proof. unfold ath_tgt_tid_drain. typed_tac. Qed.
#[local] Hint Resolve typed_ath_tgt_tid_drain : typed.
Lemma typed_ath_tgt_handle_normal p : typed (ath_tgt_handle_normal p : TX _). Proof. unfold ath_tgt_handle_normal. typed_tac. Qed.
#[local] Hint Resolve typed_ath_tgt_handle_normal : typed.
Lemma typed_ath_tgt_handle_aggr p : typed (ath_tgt_handle_aggr p : TX _). Proof. unfold ath_tgt_handle_aggr. typed_tac. Qed.
#[local] Hint Resolve typed_ath_tgt_handle_aggr : typed.
Lemma typed_ath_tx_set_retry p : typed (ath_tx_set_retry p : TX _). Proof. unfold ath_tx_set_retry. typed_tac. Qed.
#[local] Hint Resolve typed_ath_tx_set_retry : typed.
Lemma typed_tx_cleanup_loop fuel : ∀ t discard_all bf, typed (tx_cleanup_loop fuel t discard_all bf : TX _). Proof. induction fuel; intros; cbn [tx_cleanup_loop]; typed_tac. Qed.
#[local] Hint Resolve typed_tx_cleanup_loop : typed.
Lemma typed_ath_tgt_tx_cleanup t discard_all : typed (ath_tgt_tx_cleanup t discard_all : TX _). Proof. unfold ath_tgt_tx_cleanup. typed_tac. Qed.
#[local] Hint Resolve typed_ath_tgt_tx_cleanup : typed.
Lemma typed_ath_tgt_delba_send ni tno : typed (ath_tgt_delba_send ni tno : TX _). Proof. unfold ath_tgt_delba_send. typed_tac. by apply typed_wmi_event. Qed.
#[local] Hint Resolve typed_ath_tgt_delba_send : typed.
Lemma typed_ath_bar_retry p : typed (ath_bar_retry p : TX _). Proof. unfold ath_bar_retry. typed_tac. Qed.
#[local] Hint Resolve typed_ath_bar_retry : typed.
Lemma typed_ath_bar_tx_comp p : typed (ath_bar_tx_comp p : TX _). Proof. unfold ath_bar_tx_comp. typed_tac. Qed.
#[local] Hint Resolve typed_ath_bar_tx_comp : typed.
Lemma typed_ath_bar_tx t p : typed (ath_bar_tx t p : TX _). Proof. unfold ath_bar_tx. typed_tac. Qed.
#[local] Hint Resolve typed_ath_bar_tx : typed.
Lemma typed_ath_tx_retry_subframe p acc : typed (ath_tx_retry_subframe p acc : TX _). Proof. unfold ath_tx_retry_subframe. typed_tac. Qed.
#[local] Hint Resolve typed_ath_tx_retry_subframe : typed.
Lemma typed_ath_update_aggr_stats ds : typed (ath_update_aggr_stats ds : TX _). Proof. unfold ath_update_aggr_stats. typed_tac. Qed.
#[local] Hint Resolve typed_ath_update_aggr_stats : typed.
Lemma typed_ath_tgt_tx_comp_normal p : typed (ath_tgt_tx_comp_normal p : TX _). Proof. unfold ath_tgt_tx_comp_normal. typed_tac. Qed.
#[local] Hint Resolve typed_ath_tgt_tx_comp_normal : typed.
Lemma typed_ath_tx_retry_unaggr p : typed (ath_tx_retry_unaggr p : TX _). Proof. unfold ath_tx_retry_unaggr. typed_tac. Qed.
#[local] Hint Resolve typed_ath_tx_retry_unaggr : typed.
Lemma typed_ath_tx_comp_unaggr p : typed (ath_tx_comp_unaggr p : TX _). Proof. unfold ath_tx_comp_unaggr. typed_tac. Qed.
#[local] Hint Resolve typed_ath_tx_comp_unaggr : typed.
Lemma typed_comp_aggr_finish t txq acc : typed (comp_aggr_finish t txq acc : TX _). Proof. unfold comp_aggr_finish. typed_tac. Qed.
#[local] Hint Resolve typed_comp_aggr_finish : typed.
Lemma typed_comp_chain {A} fuel (step : nat → A → TX A) bf acc :
  (∀ p acc, typed (step p acc)) → typed (comp_chain fuel step bf acc).
Proof. intros Hs. revert bf acc. induction fuel as [|fuel IH]; intros [p|] acc; cbn; typed_tac; auto. Qed.
Lemma typed_ath_tx_comp_aggr_error p t : typed (ath_tx_comp_aggr_error p t : TX _). Proof. unfold ath_tx_comp_aggr_error. typed_tac; apply typed_comp_chain; intros; typed_tac. Qed.
#[local] Hint Resolve typed_ath_tx_comp_aggr_error : typed.
Lemma typed_comp_aggr_step t ds rcs tx_ok p acc : typed (comp_aggr_step t ds rcs tx_ok p acc : TX _). Proof. unfold comp_aggr_step. typed_tac. Qed.
#[local] Hint Resolve typed_comp_aggr_step : typed.
Lemma typed_comp_cleanup_loop fuel : ∀ t ds rcs bf, typed (comp_cleanup_loop fuel t ds rcs bf : TX _). Proof. induction fuel; intros; cbn [comp_cleanup_loop]; typed_tac. Qed.
#[local] Hint Resolve typed_comp_cleanup_loop : typed.
Lemma typed_ath_tx_comp_cleanup p : typed (ath_tx_comp_cleanup p : TX _). Proof. unfold ath_tx_comp_cleanup. typed_tac. Qed.
#[local] Hint Resolve typed_ath_tx_comp_cleanup : typed.
Lemma typed_ath_tgt_tx_comp_aggr p : typed (ath_tgt_tx_comp_aggr p : TX _). Proof. unfold ath_tgt_tx_comp_aggr. typed_tac; apply typed_comp_chain; intros; typed_tac. Qed.
#[local] Hint Resolve typed_ath_tgt_tx_comp_aggr : typed.
Lemma typed_run_comp f p : typed (run_comp f p : TX _). Proof. unfold run_comp. typed_tac. Qed.
#[local] Hint Resolve typed_run_comp : typed.
Lemma typed_txq_unlink i : typed (txq_unlink i : TX _). Proof. unfold txq_unlink. typed_tac. Qed.
#[local] Hint Resolve typed_txq_unlink : typed.
Lemma typed_processq_in_progress ds txqstate : typed (processq_in_progress ds txqstate : TX _). Proof. unfold processq_in_progress. typed_tac. Qed.
#[local] Hint Resolve typed_processq_in_progress : typed.
Lemma typed_processq_step i txqstate : typed (processq_step i txqstate : TX _). Proof. unfold processq_step. typed_tac. Qed.
#[local] Hint Resolve typed_processq_step : typed.
Lemma typed_owltgt_tx_processq fuel i txqstate : typed (owltgt_tx_processq fuel i txqstate : TX _). Proof. unfold owltgt_tx_processq. typed_tac. Qed.
#[local] Hint Resolve typed_owltgt_tx_processq : typed.
Lemma typed_owltgt_tx_process_cabq fuel i : typed (owltgt_tx_process_cabq fuel i : TX _). Proof. unfold owltgt_tx_process_cabq. typed_tac. Qed.
#[local] Hint Resolve typed_owltgt_tx_process_cabq : typed.
Lemma typed_owl_tgt_tx_tasklet fuel : typed (owl_tgt_tx_tasklet fuel : TX _). Proof. unfold owl_tgt_tx_tasklet. typed_tac. Qed.
#[local] Hint Resolve typed_owl_tgt_tx_tasklet : typed.
Lemma typed_rd_mgt_hdr a : typed (rd_mgt_hdr a : TX _). Proof. unfold rd_mgt_hdr. typed_tac. Qed.
#[local] Hint Resolve typed_rd_mgt_hdr : typed.
Lemma typed_mgt_cts flags pktlen ri shortPreamble cix : typed (mgt_cts flags pktlen ri shortPreamble cix : TX _). Proof. unfold mgt_cts. typed_tac. Qed.
#[local] Hint Resolve typed_mgt_cts : typed.
Lemma typed_ath_tgt_send_mgt hdr_buf skb endpt : typed (ath_tgt_send_mgt hdr_buf skb endpt : TX _). Proof. unfold ath_tgt_send_mgt. typed_tac. Qed.
#[local] Hint Resolve typed_ath_tgt_send_mgt : typed.

End ops.
#[export] Hint Resolve typed_ATH_SKB_2_WH typed_ieee80211_hdrsize typed_ieee80211_anyhdrsize
  typed_ieee80211_tgt_crypto_encap typed_rate_entry typed_ath_pkt_duration typed_ath_dma_map
  typed_ath_dma_unmap typed_ath_filltxdesc typed_ath_tx_tgt_setds typed_ath_buf_toggle
  typed_skb_free_loop typed_ath_tgt_skb_free typed_txbuf_insert_tail typed_ath_buf_comp
  typed_rc_at typed_last_series_rate typed_buf_rate_series typed_ath_buf_set_rate
  typed_ath_tgt_rate_findrate typed_rate_tx_complete typed_ath_tx_status_clear
  typed_ath_tx_status_get typed_rd_txs typed_upd_txs_entry typed_txs_advance
  typed_ath_tx_status_update_rate typed_ath_tx_status_update typed_ath_tx_status_update_aggr
  typed_ath_tx_status_send typed_ath_tgt_find_node typed_ath_tx_buf_alloc
  typed_ath_tgt_tx_seqno_normal typed_ath_get_pktlen typed_ath_key_setup
  typed_ath_tgt_txbuf_setup typed_TID_TO_ACTXQ typed_ath_tgt_tx_prepare
  typed_ATH_TXQ_INSERT_TAIL typed_ath_tgt_txq_add_ucast typed_bf_txq_add
  typed_ath_tgt_txqaddbuf typed_ath_tgt_tx_send_normal typed_ath_tx_freebuf
  typed_ath_update_stats typed_ath_tx_uc_comp typed_ath_tgt_tx_enqueue typed_sched_normal_loop
  typed_ath_tgt_tx_sched_normal typed_lookup_series typed_ath_lookup_rate
  typed_form_aggr_finish typed_form_aggr_add typed_form_aggr_loop typed_ath_tgt_tx_form_aggr
  typed_sched_aggr_single typed_sched_aggr_many typed_sched_aggr_loop
  typed_ath_tgt_tx_sched_aggr typed_txq_schedule_loop typed_ath_tgt_txq_schedule
  typed_ath_aggr_resume_tid typed_ath_aggr_pause_tid typed_owl_tgt_tid_cleanup typed_node_init
  typed_tid_drain_loop typed_ath_tgt_tid_drain typed_ath_tgt_handle_normal
  typed_ath_tgt_handle_aggr typed_ath_tx_set_retry typed_tx_cleanup_loop
  typed_ath_tgt_tx_cleanup typed_ath_tgt_delba_send typed_ath_bar_retry typed_ath_bar_tx_comp
  typed_ath_bar_tx typed_ath_tx_retry_subframe typed_ath_update_aggr_stats
  typed_ath_tgt_tx_comp_normal typed_ath_tx_retry_unaggr typed_ath_tx_comp_unaggr
  typed_comp_aggr_finish typed_ath_tx_comp_aggr_error typed_comp_aggr_step
  typed_comp_cleanup_loop typed_ath_tx_comp_cleanup typed_ath_tgt_tx_comp_aggr typed_run_comp
  typed_txq_unlink typed_processq_in_progress typed_processq_step typed_owltgt_tx_processq
  typed_owltgt_tx_process_cabq typed_owl_tgt_tx_tasklet typed_rd_mgt_hdr typed_mgt_cts
  typed_ath_tgt_send_mgt : typed.
