(* ===== verification/RateCtl.v ===== *)
(** * Rate control (target_firmware/wlan/ratectrl_11n_ln.c, ratectrl.h, ratectrl11n.h)

    For every node, rate control keeps an estimate of the packet error rate of each row of
    the rate table, the list of the rows that the node may use, ordered by speed, and the
    highest row it currently trusts. It proposes four (rate, tries) pairs for a frame and
    digests the report of a completed one. The state is [struct atheros_softc] with the
    [struct atheros_node] of every entry of the node table; the millisecond clock of the
    platform is a parameter. [ASSERT] is empty in this build. *)

From S2P Require Import Prelude.
From S2P Require Import TxTypes.

Definition MAX_TX_RATE_TBL : Z := 46.
Definition RATE_TABLE_11N_SIZE : nat := 64.
Definition WLAN_RC_DS_FLAG : Z := 0x01.
Definition WLAN_RC_40_FLAG : Z := 0x02.
Definition WLAN_RC_HT40_SGI_FLAG : Z := 0x04.
Definition WLAN_RC_WEP_TKIP_FLAG : Z := 0x100.
Definition ATH_RC_MINRATE_LASTRATE : Z := 2.
Definition IEEE80211_RATE_MAXSIZE : nat := 30.

(** ** State *)

(** [TX_RATE_CTRL]; [rc_per] holds the [per] field of [state]. *)
Record TX_RATE_CTRL := mk_trc {
  rc_per : list Z; rateTableSize : Z; probeRate : Z; probeTime : Z; hwMaxRetryPktCnt : Z;
  maxValidRate : Z; validRateIndex : list Z; perDownTime : Z; rcPhyMode : Z; rateMaxPhy : Z;
}.
#[export] Instance eta_trc : EtaExp TX_RATE_CTRL := λ p,
  mk_trc (rc_per p) (rateTableSize p) (probeRate p) (probeTime p) (hwMaxRetryPktCnt p)
    (maxValidRate p) (validRateIndex p) (perDownTime p) (rcPhyMode p) (rateMaxPhy p).

(** [struct atheros_node]; [singleStream] is never used. *)
Record atheros_node := mk_anode { txRateCtrl : TX_RATE_CTRL; lastRateKbps : Z; stbc : Z }.
#[export] Instance eta_anode : EtaExp atheros_node := λ n,
  mk_anode (txRateCtrl n) (lastRateKbps n) (stbc n).

(** [struct atheros_softc], the nodes' [an_rcnode], and the clock. *)
Record atheros_softc (T : Type) := mk_asc {
  hwRateTable : phymode → RATE_TABLE_11N;
  asc_tx_chainmask : Z; currentTxRateKbps : Z; currentTxRateIndex : Z;
  an_rcnode : list atheros_node; asc_clock : T;
}.
Arguments mk_asc {T}.
Arguments hwRateTable {T}. Arguments asc_tx_chainmask {T}. Arguments currentTxRateKbps {T}.
Arguments currentTxRateIndex {T}. Arguments an_rcnode {T}. Arguments asc_clock {T}.
#[export] Instance eta_asc {T} : EtaExp (atheros_softc T) := λ a,
  mk_asc (hwRateTable a) (asc_tx_chainmask a) (currentTxRateKbps a) (currentTxRateIndex a)
    (an_rcnode a) (asc_clock a).

(** The platform's uptime in milliseconds, a 32-bit counter. *)
Class MsClock (T : Type) := { ms_tick : T → Z * T }.

(** [PHY_STATE_CTRL]: per phy, how many rates are valid and which. *)
Record PHY_STATE_CTRL := mk_psc {
  validPhyRateCount : list Z; validPhyRateIndex : list (list Z) }.
#[export] Instance eta_psc : EtaExp PHY_STATE_CTRL := λ p,
  mk_psc (validPhyRateCount p) (validPhyRateIndex p).

(** [struct ieee80211_rateset] and [struct ieee80211_rate], from the host's messages. *)
Record ieee80211_rateset := mk_rateset { rs_nrates : Z; rs_rates : list Z }.
Record ieee80211_rate := mk_rate { rates : ieee80211_rateset; htrates : ieee80211_rateset }.

(** ** One node's control record *)
Abbreviation RCM := (M TX_RATE_CTRL).

Definition rd_valid (i : Z) : RCM Z :=
  p ← get; if i <? 0 then fail OutOfRange else in_range (validRateIndex p !! Z.to_nat i).
Definition wr_valid (i v : Z) : RCM unit :=
  rd_valid i ;; modify (λ p, p <| validRateIndex ::= <[Z.to_nat i := v]> |>).
Definition rd_per (i : Z) : RCM Z :=
  p ← get; if i <? 0 then fail OutOfRange else in_range (rc_per p !! Z.to_nat i).
Definition wr_per (i v : Z) : RCM unit :=
  rd_per i ;; modify (λ p, p <| rc_per ::= <[Z.to_nat i := u8 v]> |>).
Definition rd_info {S} (t : RATE_TABLE_11N) (i : Z) : M S rc11n_info :=
  if i <? 0 then fail OutOfRange else in_range (rt_info t !! Z.to_nat i).

(** *** Sorting the valid rates: the inner and the outer loop of the bubble sort *)
Definition sort_step (t : RATE_TABLE_11N) (j : Z) : RCM unit :=
  a ← rd_valid j; b ← rd_valid (j + 1);
  ia ← rd_info t a; ib ← rd_info t b;
  when (rn_rateKbps ib <? rn_rateKbps ia) (wr_valid j b ;; wr_valid (j + 1) a).
Definition rcSortValidRates (t : RATE_TABLE_11N) : RCM unit :=
  p ← get;
  for_each (rev (seqZ 1 (u8 (maxValidRate p - 1)))) (λ i, for_each (seqZ 0 i) (sort_step t)).

Definition rcInitValidTxMask : RCM unit :=
  p ← get; for_each (seqZ 0 (rateTableSize p)) (λ i, wr_valid i 0).
Definition rcSetValidTxMask (index : Z) (validTxRate : bool) : RCM unit :=
  wr_valid index (if validTxRate then 1 else 0).

(** *** The neighbours of a rate among the valid ones *)
Fixpoint next_valid (l : list Z) (cur : Z) : RCM (option Z) :=
  match l with
  | [] => mret None
  | i :: l => v ← rd_valid i; if v =? cur then n ← rd_valid (i + 1); mret (Some n)
              else next_valid l cur
  end.
Definition rcGetNextValidTxRate (cur : Z) : RCM (option Z) :=
  p ← get; next_valid (seqZ 0 (maxValidRate p - 1)) cur.
Fixpoint lower_valid (l : list Z) (cur : Z) : RCM (option Z) :=
  match l with
  | [] => mret None
  | i :: l => v ← rd_valid i; if v =? cur then n ← rd_valid (i - 1); mret (Some n)
              else lower_valid l cur
  end.
Definition rcGetNextLowerValidTxRate (cur : Z) : RCM (option Z) :=
  p ← get; lower_valid (seqZ 1 (maxValidRate p - 1)) cur.

(** *** Which phys a node may use *)
Definition WLAN_RC_PHY_DS (p : Z) : bool :=
  (p =? WLAN_RC_PHY_HT_20_DS) || (p =? WLAN_RC_PHY_HT_40_DS)
  || (p =? WLAN_RC_PHY_HT_20_DS_HGI) || (p =? WLAN_RC_PHY_HT_40_DS_HGI).
Definition WLAN_RC_PHY_40 (p : Z) : bool :=
  (p =? WLAN_RC_PHY_HT_40_SS) || (p =? WLAN_RC_PHY_HT_40_DS)
  || (p =? WLAN_RC_PHY_HT_40_SS_HGI) || (p =? WLAN_RC_PHY_HT_40_DS_HGI).
Definition WLAN_RC_PHY_SGI (p : Z) : bool :=
  (p =? WLAN_RC_PHY_HT_20_SS_HGI) || (p =? WLAN_RC_PHY_HT_20_DS_HGI)
  || (p =? WLAN_RC_PHY_HT_40_SS_HGI) || (p =? WLAN_RC_PHY_HT_40_DS_HGI).
Definition WLAN_RC_PHY_HT (p : Z) : bool := WLAN_RC_PHY_HT_20_SS <=? p.
Definition WLAN_RC_CAP_MODE (capflag : Z) : Z :=
  if tst capflag WLAN_RC_HT_FLAG then if tst capflag WLAN_RC_40_FLAG then TRUE_40 else TRUE_20
  else 1.
Definition WLAN_RC_PHY_HT_VALID (flag capflag : Z) : bool :=
  (tst flag TRUE_20 && negb (tst capflag WLAN_RC_40_FLAG))
  || (tst flag TRUE_40 && tst capflag WLAN_RC_40_FLAG).

Definition rcIsValidPhyRate (phy capflag : Z) (ignoreCW : bool) : bool :=
  if WLAN_RC_PHY_HT phy && negb (tst capflag WLAN_RC_HT_FLAG) then false
  else if WLAN_RC_PHY_DS phy && negb (tst capflag WLAN_RC_DS_FLAG) then false
  else if WLAN_RC_PHY_SGI phy && negb (tst capflag WLAN_RC_HT40_SGI_FLAG) then false
  else if negb ignoreCW && WLAN_RC_PHY_HT phy then
    if WLAN_RC_PHY_40 phy && negb (tst capflag WLAN_RC_40_FLAG) then false
    else if negb (WLAN_RC_PHY_40 phy) && tst capflag WLAN_RC_40_FLAG then false
    else true
  else true.

(** ** The rates a node may use *)

(** The control record, the table of valid rates per phy under construction, and the
    local [hi] of the function that fills it. *)
Record sib := mk_sib { sib_rc : TX_RATE_CTRL; sib_phy : PHY_STATE_CTRL; sib_hi : Z }.
#[export] Instance eta_sib : EtaExp sib := λ s, mk_sib (sib_rc s) (sib_phy s) (sib_hi s).
Abbreviation SIB := (M sib).

Definition on_rc {A} (m : RCM A) : SIB A := λ s,
  match m (sib_rc s) with
  | Ok (a, p) => Ok (a, s <| sib_rc := p |>)
  | Fault f => Fault f
  end.
Definition rd_count (phy : Z) : SIB Z :=
  s ← get; in_range (validPhyRateCount (sib_phy s) !! Z.to_nat phy).
Definition rd_phyrate (phy i : Z) : SIB Z :=
  s ← get; l ← in_range (validPhyRateIndex (sib_phy s) !! Z.to_nat phy);
  if i <? 0 then fail OutOfRange else in_range (l !! Z.to_nat i).

(** Row [j] joins the valid rates of its phy. *)
Definition add_valid_rate (phy j : Z) : SIB unit :=
  n ← rd_count phy;
  rd_phyrate phy n ;;
  modify (λ s, s <| sib_phy ::= λ c,
    c <| validPhyRateIndex ::= alter <[Z.to_nat n := j]> (Z.to_nat phy) |>
      <| validPhyRateCount ::= <[Z.to_nat phy := u8 (n + 1)]> |> |>) ;;
  on_rc (rcSetValidTxMask j true) ;;
  modify (λ s, s <| sib_hi ::= Z.max j |>).

Definition rcSibInitValidRates (t : RATE_TABLE_11N) (capflag : Z) : SIB Z :=
  let singleStream := negb (tst capflag WLAN_RC_DS_FLAG) in
  modify (λ s, s <| sib_hi := 0 |>) ;;
  for_each (seqZ 0 (rateCount t)) (λ i,
    r ← rd_info t i;
    let valid := if singleStream then rn_validSingleStream r else rn_valid r in
    when ((valid =? 1) && rcIsValidPhyRate (rn_phy r) capflag false)
      (add_valid_rate (rn_phy r) i)) ;;
  s ← get; mret (sib_hi s).

(** The validity mask that applies to a node. *)
Definition valid_mask (capflag nstbc : Z) (r : rc11n_info) : Z :=
  if truthy nstbc then rn_validSTBC r
  else if negb (tst capflag WLAN_RC_DS_FLAG) then rn_validSingleStream r
  else rn_valid r.

Definition rcSibSetValidRates (t : RATE_TABLE_11N) (rs : ieee80211_rateset)
    (capflag nstbc : Z) : SIB Z :=
  modify (λ s, s <| sib_hi := 0 |>) ;;
  for_each (seqZ 0 (rs_nrates rs)) (λ i, for_each (seqZ 0 (rateCount t)) (λ j,
    r ← rd_info t j;
    let valid := valid_mask capflag nstbc r in
    rate ← in_range (rs_rates rs !! Z.to_nat i);
    let mode := WLAN_RC_CAP_MODE capflag in
    when ((rate .& 0x7F =? rn_dot11Rate r .& 0x7F) && (valid .& mode =? mode)
          && negb (WLAN_RC_PHY_HT (rn_phy r)) && rcIsValidPhyRate (rn_phy r) capflag false)
      (add_valid_rate (rn_phy r) j))) ;;
  s ← get; mret (sib_hi s).

Definition rcSibSetValidHtRates (t : RATE_TABLE_11N) (rs : ieee80211_rateset)
    (capflag nstbc : Z) : SIB Z :=
  modify (λ s, s <| sib_hi := 0 |>) ;;
  for_each (seqZ 0 (rs_nrates rs)) (λ i, for_each (seqZ 0 (rateCount t)) (λ j,
    r ← rd_info t j;
    let valid := u8 (valid_mask capflag nstbc r) in
    rate ← in_range (rs_rates rs !! Z.to_nat i);
    when (negb (negb (rate .& 0x7F =? rn_dot11Rate r .& 0x7F) || negb (WLAN_RC_PHY_HT (rn_phy r))
                || negb (WLAN_RC_PHY_HT_VALID valid capflag)
                || ((rn_dot11Rate r =? 15) && tst valid TRUE_20 && tst capflag WLAN_RC_WEP_TKIP_FLAG))
          && rcIsValidPhyRate (rn_phy r) capflag false)
      (add_valid_rate (rn_phy r) j))) ;;
  s ← get; mret (sib_hi s).

(** The loops that lay the rates of all phys out one after the other; [k] is the number of
    entries written so far. *)
Fixpoint lay_out_phy (js : list Z) (phy k : Z) : SIB Z :=
  match js with
  | [] => mret k
  | j :: js => x ← rd_phyrate phy j; on_rc (wr_valid k x) ;; lay_out_phy js phy (u8 (k + 1))
  end.
Fixpoint lay_out (phys : list Z) (t : RATE_TABLE_11N) (k : Z) : SIB Z :=
  match phys with
  | [] => mret k
  | i :: phys =>
      n ← rd_count i;
      k ← lay_out_phy (seqZ 0 n) i k;
      when (rcIsValidPhyRate i (initialRateMax t) true && negb (n =? 0))
        (x ← rd_phyrate i (n - 1);
         on_rc (modify (λ p, p <| rateMaxPhy := x |>))) ;;
      lay_out phys t k
  end.

(** The choice of the rates a station announced, in [rcSibUpdate_ht]; [rs] is [None] for a
    null pointer. The result is the highest row. *)
Definition sib_rates (t : RATE_TABLE_11N) (nstbc capflag : Z) (rs : option ieee80211_rate) : SIB Z :=
  match rs with
  | Some r =>
      if rs_nrates (rates r) =? 0 then rcSibInitValidRates t capflag else
      hi ← rcSibSetValidRates t (rates r) capflag nstbc;
      htHi ← (if tst capflag WLAN_RC_HT_FLAG
              then rcSibSetValidHtRates t (htrates r) capflag nstbc else mret 0);
      mret (Z.max hi htHi)
  | None => rcSibInitValidRates t capflag
  end.

(** [rcSibUpdate_ht]; the local table is cleared first. *)
Definition sib_update (t : RATE_TABLE_11N) (nstbc capflag : Z) (keepState : bool)
    (rs : option ieee80211_rate) : SIB unit :=
  on_rc (modify (λ p, p <| rateTableSize := MAX_TX_RATE_TBL |>)) ;;
  unless keepState (for_each (seqZ 0 MAX_TX_RATE_TBL) (λ i, on_rc (wr_per i 0))) ;;
  on_rc rcInitValidTxMask ;;
  on_rc (modify (λ p, p <| rcPhyMode := u8 (capflag .& WLAN_RC_40_FLAG) |>)) ;;
  hi ← sib_rates t nstbc capflag rs;
  on_rc (modify (λ p, p <| rateTableSize := u8 (hi + 1) |> <| rateMaxPhy := 0 |>)) ;;
  k ← lay_out (seqZ 0 WLAN_RC_PHY_MAX) t 0;
  on_rc (x ← rd_valid (k - 4);
         modify (λ p, p <| rateMaxPhy := x |> <| maxValidRate := k |>)) ;;
  on_rc (rcSortValidRates t).

Definition psc_zero : PHY_STATE_CTRL :=
  mk_psc (replicate (Z.to_nat WLAN_RC_PHY_MAX) 0)
    (replicate (Z.to_nat WLAN_RC_PHY_MAX) (replicate (Z.to_nat MAX_TX_RATE_TBL) 0)).
Definition rcSibUpdate_ht (t : RATE_TABLE_11N) (nstbc capflag : Z) (keepState : bool)
    (rs : option ieee80211_rate) : RCM unit := λ p,
  match sib_update t nstbc capflag keepState rs (mk_sib p psc_zero 0) with
  | Ok (_, s) => Ok (tt, sib_rc s)
  | Fault f => Fault f
  end.

(** ** Choosing the rates of a frame *)
Section ratectl.
Context {T : Type} `{!MsClock T}.
Abbreviation AM := (M (atheros_softc T)).

Definition A_MS_TICKGET : AM Z := λ a,
  let (now, c) := ms_tick (asc_clock a) in Ok (u32 now, a <| asc_clock := c |>).
Definition rd_anode (an : nat) : AM atheros_node := a ← get; in_range (an_rcnode a !! an).
(** Running a function on the control record of a node. *)
Definition on_node {A} (an : nat) (m : RCM A) : AM A :=
  n ← rd_anode an;
  match m (txRateCtrl n) with
  | Ok (x, p) => modify (λ a, a <| an_rcnode ::= <[an := n <| txRateCtrl := p |>]> |>) ;; mret x
  | Fault f => fail f
  end.

(** The loop over the valid rates from the fastest down. The estimate of a rate is its
    throughput times the percentage of frames that get through, at least 12 percent of
    which are taken as lost. *)
Fixpoint best_rate (t : RATE_TABLE_11N) (l : list Z) (bestThruput bestRate : Z) : RCM Z :=
  match l with
  | [] => mret bestRate
  | index :: l =>
      rate ← rd_valid index;
      p ← get;
      if rateMaxPhy p <? rate then best_rate t l bestThruput bestRate else
      r ← rd_info t rate;
      if rn_userRateKbps r <=? bestThruput then mret bestRate else
      per ← rd_per rate;
      let perThres := if per <? 12 then 12 else per in
      let thisThruput := u32 (rn_userRateKbps r * (100 - perThres)) in
      if bestThruput <=? thisThruput then best_rate t l thisThruput rate
      else best_rate t l bestThruput bestRate
  end.

(** The part of [rcRateFind_ht] that works on the node's record: the rate and whether it
    probes. *)
Definition rate_find (t : RATE_TABLE_11N) (nowMsec : Z) (probeAllowed : bool) : RCM (Z * bool) :=
  p ← get;
  rate ← best_rate t (rev (seqZ 0 (s8 (u8 (maxValidRate p - 1)) + 1))) 0 0;
  p ← get;
  '(rate, isProbing) ← (if (rateMaxPhy p <=? rate) && probeAllowed then
     let rate := rateMaxPhy p in
     next ← rcGetNextValidTxRate rate;
     p ← get;
     match next with
     | Some nextRate =>
         if (probeInterval t <? u32 (nowMsec - probeTime p)) && (1 <=? hwMaxRetryPktCnt p) then
           modify (λ p, p <| probeRate := nextRate |> <| probeTime := nowMsec |>
                          <| hwMaxRetryPktCnt := 0 |>) ;;
           mret (nextRate, true)
         else mret (rate, false)
     | None => mret (rate, false)
     end
   else mret (rate, false));
  p ← get;
  mret (if rateTableSize p - 1 <? rate then u8 (rateTableSize p - 1) else rate, isProbing).

Definition rcRateFind_ht (t : RATE_TABLE_11N) (an : nat) (probeAllowed : bool) : AM (Z * bool) :=
  now ← A_MS_TICKGET;
  '(rate, isProbing) ← on_node an (rate_find t now probeAllowed);
  unless isProbing
    (r ← rd_info t rate;
     n ← rd_anode an;
     modify (λ a, a <| an_rcnode ::= <[an := n <| lastRateKbps := rn_rateKbps r |>]> |>
                    <| currentTxRateKbps := rn_rateKbps r |> <| currentTxRateIndex := rate |>)) ;;
  mret (rate, isProbing).

(** [rcRateSetseries]: the series for row [rix] of the table. *)
Definition series_of (r : rc11n_info) (tries : Z) (rtsctsenable : bool) (chainmask nstbc : Z)
    : rc_series :=
  mk_rc (rn_baseIndex r) tries
    (if chainmask =? 7 then rn_txChainMask_3ch r else if chainmask =? 1 then 1
     else rn_txChainMask_2ch r)
    (ifbit rtsctsenable ATH_RC_RTSCTS_FLAG
     .| ifbit (WLAN_RC_PHY_DS (rn_phy r)) ATH_RC_DS_FLAG
     .| ifbit (WLAN_RC_PHY_40 (rn_phy r)) ATH_RC_CW40_FLAG
     .| ifbit (WLAN_RC_PHY_SGI (rn_phy r)) ATH_RC_HT40_SGI_FLAG
     .| ifbit (truthy nstbc && (0x80 <=? rn_rateCode r) && (rn_rateCode r <=? 0x87))
          ATH_RC_TX_STBC_FLAG)
    (rn_max4msframelen r) (rn_rateKbps r).
Definition rcRateSetseries (t : RATE_TABLE_11N) (series : list rc_series) (i : Z) (tries rix : Z)
    (rtsctsenable : bool) (chainmask nstbc : Z) : AM (list rc_series) :=
  r ← rd_info t rix;
  in_range (series !! Z.to_nat i) ;;
  mret (<[Z.to_nat i := series_of r tries rtsctsenable chainmask nstbc]> series).

Fixpoint step_down (n : nat) (rix : Z) : RCM Z :=
  match n with
  | O => mret rix
  | S n => o ← rcGetNextLowerValidTxRate rix;
           match o with Some nextIndex => step_down n nextIndex | None => mret rix end
  end.
Definition rcRateGetIndex (an : nat) (rix stepDown : Z) (minRate : bool) : AM Z :=
  on_node an (step_down (if minRate then RATE_TABLE_11N_SIZE else Z.to_nat stepDown) rix).

(** The loop over the series after the first one that is not a probe. *)
Fixpoint fill_series (idxs : list Z) (t : RATE_TABLE_11N) (an : nat)
    (numTries numRates stepDnInc rcflag tryPerRate : Z) (series : list rc_series) (nrix : Z)
    : AM (list rc_series) :=
  match idxs with
  | [] => mret series
  | i :: idxs =>
      let tryNum := if i + 1 =? numRates then u8 (numTries - tryPerRate * i) else tryPerRate in
      let minRate := (i + 1 =? numRates) && tst rcflag ATH_RC_MINRATE_LASTRATE in
      nrix ← rcRateGetIndex an nrix (u16 stepDnInc) minRate;
      a ← get; n ← rd_anode an;
      series ← rcRateSetseries t series i tryNum nrix true (asc_tx_chainmask a) (stbc n);
      fill_series idxs t an numTries numRates stepDnInc rcflag tryPerRate series nrix
  end.

(** The two adjustments at the end of [rcRateFind_11n], for the 2.4 GHz mode. *)
Definition adjust_ng (r : rc11n_info) (n : Z) (series : list rc_series) : AM (list rc_series) :=
  series ← (if (n =? 4) && (((rn_dot11Rate r =? 2) && (rn_phy r =? WLAN_RC_PHY_HT_40_SS))
                            || ((rn_dot11Rate r =? 3) && (rn_phy r =? WLAN_RC_PHY_HT_20_SS)))
    then s2 ← in_range (series !! 2%nat); in_range (series !! 3%nat) ;;
         mret (alter (λ s, s <| rix := rix s2 |> <| rc_flags := rc_flags s2 |>
                             <| max4msframelen := max4msframelen s2 |>) 3%nat series)
    else mret series);
  if rn_dot11Rate r <=? 3 then
    in_range (series !! 0%nat) ;;
    mret (alter (λ s, s <| rc_flags ::= λ f, f .| ATH_RC_RTSCTS_FLAG |>) 0%nat series)
  else mret series.

Definition rcRateFind_11n (mode : phymode) (an : nat) (numTries numRates stepDnInc rcflag : Z)
    (series : list rc_series) : AM (list rc_series * Z) :=
  a ← get;
  let t := hwRateTable a mode in
  '(rix, isProbe) ← rcRateFind_ht t an (tst rcflag ATH_RC_PROBE_ALLOWED);
  a ← get; n ← rd_anode an;
  '(series, i, nrix) ← (if tst rcflag ATH_RC_PROBE_ALLOWED && isProbe then
     series ← rcRateSetseries t series 0 1 rix false (asc_tx_chainmask a) (stbc n);
     nrix ← rcRateGetIndex an rix 1 false;
     mret (series, 1, nrix)
   else mret (series, 0, rix));
  let tryPerRate := u8 (numTries `quot` numRates) in
  series ← rcRateSetseries t series i tryPerRate nrix false (asc_tx_chainmask a) (stbc n);
  series ← fill_series (seqZ (i + 1) (numRates - (i + 1))) t an numTries numRates stepDnInc rcflag
             tryPerRate series nrix;
  series ← match mode with
           | IEEE80211_MODE_11NG =>
               r ← rd_info t rix; adjust_ng r (Z.max (i + 1) numRates) series
           | IEEE80211_MODE_11NA => mret series
           end;
  mret (series, if isProbe : bool then 1 else 0).

Definition rc_findrate (mode : phymode) (an : nat) (frameLen numTries numRates stepDnInc rcflag : Z)
    (series : list rc_series) : AM (list rc_series * Z) :=
  if negb (truthy numRates) || negb (truthy numTries) then mret (series, 0)
  else rcRateFind_11n mode an numTries numRates stepDnInc rcflag series.

(** ** Digesting a completed frame *)

Definition nRetry2PerLookup : list Z := [0; 25; 50; 75; 80; 83; 85; 87; 88; 90].

(** The new estimate: 7/8 of the old one and 1/8 of what the report shows. *)
Definition update_per (txRate Xretries retries nFrames nBad : Z) : RCM unit :=
  per ← rd_per txRate;
  let clamped := if 10 <=? retries then 9 else retries in
  if Xretries =? 1 then
    wr_per txRate (per + 30) ;;
    per ← rd_per txRate;
    when (100 <? per) (wr_per txRate 100)
  else if truthy Xretries then wr_per txRate (per - per `quot` 8 + 12)
  else if truthy nBad then
    when (0 <? nFrames)
      (wr_per txRate (per - per `quot` 8 +
         ((100 * (clamped * nFrames + nBad)) `quot` (nFrames * (clamped + 1))) `quot` 8))
  else
    l ← in_range (nRetry2PerLookup !! Z.to_nat clamped);
    wr_per txRate (per - per `quot` 8 + l `quot` 8).

(** What a report without excessive retries says about a probe and about the top rate. *)
Definition digest_probe (t : RATE_TABLE_11N) (nowMsec txRate retries nFrames nBad : Z) : RCM unit :=
  p ← get;
  when (truthy (probeRate p) && (probeRate p =? txRate))
    (if (0 <? retries) || (nFrames <? 2 * nBad) then
       modify (λ p, p <| probeRate := 0 |>)
     else
       modify (λ p, p <| rateMaxPhy := probeRate p |>) ;;
       per ← rd_per (probeRate p);
       when (30 <? per) (wr_per (probeRate p) 20) ;;
       modify (λ p, p <| probeRate := 0 |>
                      <| probeTime := u32 (nowMsec - probeInterval t `quot` 2) |>)) ;;
  p ← get;
  if 0 <? retries then modify (λ p, p <| hwMaxRetryPktCnt := 0 |>)
  else when ((txRate =? rateMaxPhy p) && (hwMaxRetryPktCnt p <? 255))
         (modify (λ p, p <| hwMaxRetryPktCnt ::= λ n, u8 (n + 1) |>)).

(** A rate that loses too much is no longer trusted. *)
Definition lower_max (t : RATE_TABLE_11N) (nowMsec txRate : Z) : RCM unit :=
  per ← rd_per txRate;
  when ((55 <=? per) && (0 <? txRate))
    (p ← get;
     a ← rd_info t txRate; b ← rd_info t (rateMaxPhy p);
     when (rn_rateKbps a <=? rn_rateKbps b)
       (o ← rcGetNextLowerValidTxRate (u8 txRate);
        (match o with
         | Some n => modify (λ p, p <| rateMaxPhy := n |>)
         | None => mret tt
         end) ;;
        modify (λ p, p <| probeTime := nowMsec |>))).

(** Slower rows of the same phy lose no more than faster ones... *)
Fixpoint lower_below (t : RATE_TABLE_11N) (l : list Z) (phy : Z) : RCM unit :=
  match l with
  | [] => mret tt
  | rate :: l =>
      r ← rd_info t rate;
      if negb (rn_phy r =? phy) then mret tt else
      a ← rd_per rate; b ← rd_per (rate + 1);
      when (b <? a) (wr_per rate b) ;;
      lower_below t l phy
  end.
(** ... and later rows of the table no less than earlier ones. *)
Definition raise_step (rate : Z) : RCM unit :=
  a ← rd_per rate; b ← rd_per (rate + 1);
  when (b <? a) (wr_per (rate + 1) a).

Definition age_per (t : RATE_TABLE_11N) (nowMsec : Z) : RCM unit :=
  p ← get;
  when (rssiReduceInterval t <=? u32 (nowMsec - perDownTime p))
    (for_each (seqZ 0 (rateTableSize p)) (λ rate,
       per ← rd_per rate; wr_per rate ((7 * per) `quot` 8)) ;;
     modify (λ p, p <| perDownTime := nowMsec |>)).

Definition rcUpdate_ht (t : RATE_TABLE_11N) (nowMsec txRate Xretries retries nFrames nBad : Z)
    : RCM unit :=
  if txRate <? 0 then mret tt else
  lastPer ← rd_per txRate;
  update_per txRate Xretries retries nFrames nBad ;;
  (if truthy Xretries then
     modify (λ p, if probeRate p =? txRate then p <| probeRate := 0 |> else p)
   else digest_probe t nowMsec txRate retries nFrames nBad) ;;
  lower_max t nowMsec txRate ;;
  per ← rd_per txRate;
  when (per <? lastPer)
    (r ← rd_info t txRate; lower_below t (rev (seqZ 0 txRate)) (rn_phy r)) ;;
  p ← get;
  for_each (seqZ txRate (rateTableSize p - 1 - txRate)) raise_step ;;
  age_per t nowMsec.

(** The row a series stands for: the base row's index for its width and guard interval. *)
Definition series_index (t : RATE_TABLE_11N) (s : rc_series) : AM Z :=
  b ← rd_info t (rix s);
  let flags := rc_flags s in
  mret (if tst flags ATH_RC_CW40_FLAG && tst flags ATH_RC_HT40_SGI_FLAG then rn_htIndex b
        else if tst flags ATH_RC_HT40_SGI_FLAG then rn_sgiIndex b
        else if tst flags ATH_RC_CW40_FLAG then rn_cw40Index b
        else rn_baseIndex b).
(** A 40 MHz series is ignored when the node has gone back to 20 MHz. *)
Definition stale_width (s : rc_series) (p : TX_RATE_CTRL) : bool :=
  tst (rc_flags s) ATH_RC_CW40_FLAG && negb (rcPhyMode p =? rc_flags s .& ATH_RC_CW40_FLAG).

Definition update_ht (t : RATE_TABLE_11N) (an : nat) (rix Xretries retries nFrames nBad : Z) : AM unit :=
  now ← A_MS_TICKGET; on_node an (rcUpdate_ht t now rix Xretries retries nFrames nBad).

(** The series before the final one failed; [false] tells that the function returned early. *)
Fixpoint update_failed (idxs : list nat) (t : RATE_TABLE_11N) (an : nat) (Xretries : Z)
    (rcs : list rc_series) (nFrames : Z) : AM bool :=
  match idxs with
  | [] => mret true
  | i :: idxs =>
      s ← in_range (rcs !! i);
      if negb (truthy (tries s)) then update_failed idxs t an Xretries rcs nFrames else
      n ← rd_anode an;
      if stale_width s (txRateCtrl n) then mret false else
      rix ← series_index t s;
      update_ht t an rix (if truthy Xretries then 1 else 2) (tries s) nFrames nFrames ;;
      update_failed idxs t an Xretries rcs nFrames
  end.

Definition rcUpdate_11n (mode : phymode) (an : nat) (finalTSIdx Xretries : Z)
    (rcs : list rc_series) (nFrames nBad long_retry : Z) : AM unit :=
  a ← get;
  let t := hwRateTable a mode in
  '(Xretries, go) ← (if truthy finalTSIdx then
     go ← update_failed (seq 0 (Z.to_nat finalTSIdx)) t an Xretries rcs nFrames;
     mret (Xretries, go)
   else
     s ← in_range (rcs !! 0%nat);
     mret (if (tries s =? 1) && (Xretries =? 1) then 2 else Xretries, true));
  if negb go then mret tt else
  s ← in_range (rcs !! Z.to_nat finalTSIdx);
  n ← rd_anode an;
  if stale_width s (txRateCtrl n) then mret tt else
  rix ← series_index t s;
  update_ht t an rix Xretries long_retry nFrames nBad.

Definition rc_tx_complete (mode : phymode) (an : nat) (ds : ath_tx_desc) (rcs : list rc_series)
    (nframes nbad : Z) : AM unit :=
  let st := ds_txstat ds in
  let tx_status := ifbit (tst (ts_status st) HAL_TXERR_XRETRY || tst (ts_status st) HAL_TXERR_FIFO
                          || tst (ts_flags st) HAL_TX_DATA_UNDERRUN
                          || tst (ts_flags st) HAL_TX_DELIM_UNDERRUN) 1 in
  rcUpdate_11n mode an (ts_rate st) tx_status rcs (u16 nframes) (u16 nbad) (ts_longretry st).

(** ** Association *)
Definition ath_rate_newassoc (mode : phymode) (an : nat) (isnew capflag : Z)
    (rs : option ieee80211_rate) : AM unit :=
  when (truthy isnew)
    (n ← rd_anode an;
     modify (λ a, a <| an_rcnode ::=
       <[an := n <| stbc := ifbit (tst capflag ATH_RC_TX_STBC_FLAG) 1 |>]> |>) ;;
     a ← get; n ← rd_anode an;
     on_node an (rcSibUpdate_ht (hwRateTable a mode) (stbc n) capflag false rs)).
Definition ath_rate_node_update := ath_rate_newassoc.
Definition ath_rate_newstate (mode : phymode) (ic_tx_chainmask : Z) (iv_bss : option nat)
    (capflag : Z) (rs : option ieee80211_rate) : AM unit :=
  modify (λ a, a <| asc_tx_chainmask := ic_tx_chainmask |>) ;;
  an ← deref iv_bss;
  ath_rate_newassoc mode an 1 capflag rs.

End ratectl.

(** [ath_rate_attach]: everything zero but the tables and the chain mask. *)
Definition trc_zero : TX_RATE_CTRL :=
  mk_trc (replicate 46 0) 0 0 0 0 0 (replicate 46 0) 0 0 0.
Definition ath_rate_attach {T} (nodes : nat) (clk : T) : atheros_softc T :=
  mk_asc ar5416AttachRateTables 1 0 0 (replicate nodes (mk_anode trc_zero 0 0)) clk.

(** The real rate control behind the transmit path's interface. *)
#[export] Instance ratectl_11n {T} `{!MsClock T} : RateControl (atheros_softc T) := {|
  ath_rate_findrate := rc_findrate; ath_rate_tx_complete := rc_tx_complete |}.
