(* ===== verification/IfTypes.v ===== *)
(** * State of the WLAN target (if_athvar.h, wlan_hdr.h, ah_desc.h)

    The part of [struct ath_softc_tgt] that wlan/if_ath.c adds to the transmit path: the
    receive ring, the receive buffers, the beacon buffers, the interrupt bookkeeping, and
    the schedule of the tasklets. Buffers and descriptors are named by their positions in
    the arrays they are allocated in; a tail queue is the list of its elements. *)

From S2P Require Import Prelude.
From S2P Require Export TxTypes.
From S2P Require Export TxEvent.
From S2P Require Export TxPath.
From S2P Require Export RateCtl.
From S2P Require Export Tasklet.

(** ** Constants *)
Definition RX_ENDPOINT_ID : Z := 3.
Definition ATH_RXDESC : Z := 20.
Definition ATH_RXBUF : Z := 20.
Definition ATH_TXBUF : Z := 45.
Definition ATH_BCBUF : Z := 1.
Definition TARGET_VAP_MAX : Z := 2.
Definition RATE_TABLE_SIZE : Z := 32.
Definition ATH_BUFSTATUS_DONE : Z := 1.
Definition MAX_RATE_POWER : Z := 63.
Definition UAPSDQ_NUM : nat := 9.
Definition CABQ_NUM : nat := 8.
Definition HAL_PKT_TYPE_BEACON : Z := 3.
Definition HAL_INT_FATAL : Z := 0x40000000.
Definition ENOMEM : Z := -1.
Definition POOL_ID_WLAN_RX_BUF : nat := 3.
(** [HTC_HDR_LENGTH + sizeof(struct rx_frame_header)] *)
Definition RX_FRAME_HEADER_SIZE : Z := 40.
Definition RX_HEADER_SPACE : Z := 8 + RX_FRAME_HEADER_SIZE.
(** [sizeof(struct ath_rx_desc)] *)
Definition RX_DESC_SIZE : Z := 84.
Definition NODE_TARGET_SIZE : Z := 22.
Definition VAP_TARGET_SIZE : Z := 12.
Definition ATH_VERSION_MAJOR : Z := 1.
Definition ATH_VERSION_MINOR : Z := 4.
Definition WLAN_BASE_ADDRESS : Z := 0x10ff0000.

(** ** Receive descriptors and buffers *)

(** [struct ath_rx_desc]: the link and data words, the words the chip writes ([rd_hw]),
    the buffer, the buffer its map points at, its own bus address. *)
Record rx_desc := mk_rxd {
  rd_link : Z; rd_data : Z; rd_hw : ath_rx_desc; rd_nbuf : Z; rd_dmap : Z; rd_daddr : Z }.
#[export] Instance eta_rxd : EtaExp rx_desc := λ d,
  mk_rxd (rd_link d) (rd_data d) (rd_hw d) (rd_nbuf d) (rd_dmap d) (rd_daddr d).

(** [struct ath_rx_buf]: the fields the receive path uses. *)
Record ath_rx_buf := mk_rxbuf {
  rb_skb : Z; rb_skbhead : qhead; rb_dmamap : Z; rb_status : Z; rb_rx_status : ath_rx_status }.
#[export] Instance eta_rxbuf : EtaExp ath_rx_buf := λ b,
  mk_rxbuf (rb_skb b) (rb_skbhead b) (rb_dmamap b) (rb_status b) (rb_rx_status b).

(** [struct ath_interrupt_stats] and [struct ath_rx_stats] *)
Record interrupt_stats := mk_ints {
  ast_rx : Z; ast_rxorn : Z; ast_rxeol : Z; ast_txurn : Z; ast_txto : Z; ast_cst : Z }.
#[export] Instance eta_ints : EtaExp interrupt_stats := λ i,
  mk_ints (ast_rx i) (ast_rxorn i) (ast_rxeol i) (ast_txurn i) (ast_txto i) (ast_cst i).
Record ath_rx_stats := mk_rxs { ast_rx_nobuf : Z; ast_rx_send : Z; ast_rx_done : Z }.
#[export] Instance eta_rxs : EtaExp ath_rx_stats := λ r,
  mk_rxs (ast_rx_nobuf r) (ast_rx_send r) (ast_rx_done r).

(** The endpoints of the target's services. *)
Record svc_eps := mk_eps {
  wmi_command_ep : Z; beacon_ep : Z; cab_ep : Z; uapsd_ep : Z; mgmt_ep : Z;
  data_VO_ep : Z; data_VI_ep : Z; data_BE_ep : Z; data_BK_ep : Z }.
#[export] Instance eta_eps : EtaExp svc_eps := λ e,
  mk_eps (wmi_command_ep e) (beacon_ep e) (cab_ep e) (uapsd_ep e) (mgmt_ep e)
    (data_VO_ep e) (data_VI_ep e) (data_BE_ep e) (data_BK_ep e).

(** The tasklets of the target. *)
Inductive ath_tq := sc_rxtq | sc_txtq | sc_bmisstq | sc_fataltq.
#[export] Instance ath_tq_eq_dec : EqDecision ath_tq.
Proof. solve_decision. Defined.

(** ** The target's state *)
Record tgt (HW RC : Type) := mk_tgt {
  tg_sc : softc HW RC;                     (* what the transmit path uses *)
  sc_invalid : bool; sc_bhalq : Z; sc_rxbufsize : Z; sc_cachelsz : Z;
  sc_int_stats : interrupt_stats; sc_rx_stats : ath_rx_stats;
  sc_rixmap : list Z;
  rx_bufs : list ath_rx_buf; sc_rxbuf : list nat;
  rx_descs : list rx_desc; rx_desc_paddr : Z;
  sc_rxdesc : list nat; sc_rxdesc_idle : list nat; sc_rxdesc_held : option nat;
  sc_rxlink : option nat;                  (* the descriptor whose link field it points at *)
  sc_bbuf : list nat;                      (* positions in [sc_bufs] *)
  av_bcbuf : list (option nat);            (* of each interface *)
  txdma_len : Z; rxdma_len : Z;            (* [dd_desc_len] *)
  sc_uapsdq : option nat; sc_swba_tsf : Z; svc_ep : svc_eps;
  g_wlan_intr : bool;                      (* whether [ath_intr] is installed *)
  reset_pll : Z;                           (* the static of [ath_pll_reset_ones] *)
  tg_tq : tasklet_context ath_tq;
}.
Arguments mk_tgt {HW RC}. Arguments tg_sc {HW RC}. Arguments sc_invalid {HW RC}.
Arguments sc_bhalq {HW RC}. Arguments sc_rxbufsize {HW RC}. Arguments sc_cachelsz {HW RC}.
Arguments sc_int_stats {HW RC}. Arguments sc_rx_stats {HW RC}. Arguments sc_rixmap {HW RC}.
Arguments rx_bufs {HW RC}. Arguments sc_rxbuf {HW RC}. Arguments rx_descs {HW RC}.
Arguments rx_desc_paddr {HW RC}. Arguments sc_rxdesc {HW RC}. Arguments sc_rxdesc_idle {HW RC}.
Arguments sc_rxdesc_held {HW RC}. Arguments sc_rxlink {HW RC}. Arguments sc_bbuf {HW RC}.
Arguments av_bcbuf {HW RC}. Arguments txdma_len {HW RC}. Arguments rxdma_len {HW RC}.
Arguments sc_uapsdq {HW RC}. Arguments sc_swba_tsf {HW RC}. Arguments svc_ep {HW RC}.
Arguments g_wlan_intr {HW RC}. Arguments reset_pll {HW RC}. Arguments tg_tq {HW RC}.
#[export] Instance eta_tgt {HW RC} : EtaExp (tgt HW RC) := λ t,
  mk_tgt (tg_sc t) (sc_invalid t) (sc_bhalq t) (sc_rxbufsize t) (sc_cachelsz t)
    (sc_int_stats t) (sc_rx_stats t) (sc_rixmap t) (rx_bufs t) (sc_rxbuf t) (rx_descs t)
    (rx_desc_paddr t) (sc_rxdesc t) (sc_rxdesc_idle t) (sc_rxdesc_held t) (sc_rxlink t)
    (sc_bbuf t) (av_bcbuf t) (txdma_len t) (rxdma_len t) (sc_uapsdq t) (sc_swba_tsf t)
    (svc_ep t) (g_wlan_intr t) (reset_pll t) (tg_tq t).

(** What the command handlers ask of rate control: the rates of a new association, for
    an interface's own node or for a given node. *)
Class RateAdmin (RC : Type) := {
  rate_newstate (mode : phymode) (ic_tx_chainmask : Z) (iv_bss : option nat) (capflag : Z)
    (rs : option ieee80211_rate) : M RC unit;
  rate_node_update (mode : phymode) (an : nat) (isnew capflag : Z)
    (rs : option ieee80211_rate) : M RC unit;
}.
#[export] Instance rateadmin_11n {T} `{!MsClock T} : RateAdmin (atheros_softc T) := {|
  rate_newstate := ath_rate_newstate; rate_node_update := ath_rate_node_update |}.

Section access.
Context {HW RC : Type}.
Abbreviation TG := (M (tgt HW RC)).

(** Running the transmit path, the chip, the buffers, rate control on their parts. *)
Definition tx {A} (m : M (softc HW RC) A) : TG A := λ t,
  match m (tg_sc t) with
  | Ok (a, s) => Ok (a, t <| tg_sc := s |>)
  | Fault f => Fault f
  end.
Definition tnb {A} (m : NB A) : TG A := tx (nb m).
Definition thal {A} (m : M (ath_hal HW) A) : TG A := tx (hal m).
Definition trc {A} (m : M RC A) : TG A := tx (rc m).
Definition upd_sc (f : softc HW RC → softc HW RC) : TG unit := tx (modify f).
Definition sc {A} (f : softc HW RC → A) : TG A := gets (λ t, f (tg_sc t)).

(** Memory; the CPU is big-endian. *)
Definition trd8 (a : Z) : TG Z := tx (rd8 a).
Definition trd16 (a : Z) : TG Z := hi ← trd8 a; lo ← trd8 (a + 1); mret (hi * 256 + lo).
Definition trd32 (a : Z) : TG Z := hi ← trd16 a; lo ← trd16 (a + 2); mret (hi * 65536 + lo).
Fixpoint trd_bytes (n : nat) (a : Z) : TG (list Z) :=
  match n with
  | O => mret []
  | S n => b ← trd8 a; l ← trd_bytes n (a + 1); mret (b :: l)
  end.
Fixpoint twr_bytes (a : Z) (l : list Z) : TG unit :=
  match l with
  | [] => mret tt
  | b :: l => tx (wr8 a b) ;; twr_bytes (a + 1) l
  end.
(** A word of [n] bytes, most significant first. *)
Fixpoint be_bytes (n : nat) (v : Z) : list Z :=
  match n with
  | O => []
  | S n => u8 (v .>> (8 * Z.of_nat n)) :: be_bytes n v
  end.

(** Access through pointers to array elements. *)
Definition rd_rxd (i : nat) : TG rx_desc := t ← get; in_range (rx_descs t !! i).
Definition upd_rxd (i : nat) (f : rx_desc → rx_desc) : TG unit :=
  d ← rd_rxd i; modify (λ t, t <| rx_descs ::= <[i := f d]> |>).
Definition rd_rxb (i : nat) : TG ath_rx_buf := t ← get; in_range (rx_bufs t !! i).
Definition upd_rxb (i : nat) (f : ath_rx_buf → ath_rx_buf) : TG unit :=
  b ← rd_rxb i; modify (λ t, t <| rx_bufs ::= <[i := f b]> |>).
(** An interface, by the index the host gives. *)
Definition rd_vap (i : Z) : TG ath_vap_target := v ← sc sc_vap; in_range (v !! Z.to_nat i).
Definition upd_vap (i : Z) (f : ath_vap_target → ath_vap_target) : TG unit :=
  v ← rd_vap i; upd_sc (λ s, s <| sc_vap ::= <[Z.to_nat i := f v]> |>).

Definition ath_free_rx_skb (skb : Z) : TG unit :=
  tnb (_buf_pool_static_free_buf POOL_ID_WLAN_RX_BUF skb).
Definition ath_free_tx_skb (endpt skb : Z) : TG unit := tx (host (HTC_ReturnBuffers_ev endpt skb)).
Definition ATH_TXQ_SETUP (s : softc HW RC) (i : nat) : bool :=
  tst (sc_txqsetup s) (u32 (1 .<< Z.of_nat i)).
Definition ATH_SCHEDULE_TQUEUE (k : ath_tq) : TG unit :=
  modify (λ t, t <| tg_tq ::= cmnos_tasklet_schedule k |>).
Definition ath_hal_setInterrupts `{!Mmio HW} (ints : Z) : TG unit := thal (ar5416SetInterrupts ints) ;; mret tt.

(** An event and a reply, of [TxEvent]. *)
Definition tevent (evt_id : Z) (data : list Z) : TG unit := tx (wmi_event evt_id data).
Definition trsp (cmd_id SeqNo : Z) (data : list Z) : TG unit := tx (wmi_cmd_rsp cmd_id SeqNo data).

End access.
