(* ===== verification/IfRecv.v ===== *)
(** * The receive path (wlan/if_ath.c)

    Frames travel from the descriptors of the receive ring ([sc_rxdesc]) into the receive
    buffers ([sc_rxbuf]) when the interrupt handler finds them complete, and from there to
    the host in the tasklet; when the host has taken them their buffers come back. *)

From S2P Require Import Prelude.
From S2P Require Import IfTypes.

Section recv.
Context {HW RC : Type} `{!Mmio HW}.
Abbreviation TG := (M (tgt HW RC)).
Implicit Type t : tgt HW RC.

(** The 64-bit time stamp nearest to the chip's whose low half is [rstamp]. *)
Definition ath_extend_tsf (rstamp : Z) : TG Z :=
  tsf ← thal ar5416GetTsf64;
  let tsf_low := tsf .& 0xffffffff in
  let tsf_delta := s32 (u32 (rstamp - tsf_low) .& 0xffffffff) in
  mret (u64 (tsf + u64 tsf_delta)).

(** ** The ring *)

(** The static pool gives buffers of its own size and does not align them. *)
Definition ath_alloc_skb_align (size align : Z) : TG Z :=
  tnb (_buf_pool_static_alloc_buf_align POOL_ID_WLAN_RX_BUF RX_HEADER_SPACE align).

(** A buffer for descriptor [ds], when it has none; [false] when there is none left. *)
Definition rxdesc_buffer (ds : nat) : TG bool :=
  d ← rd_rxd ds;
  if negb (rd_nbuf d =? 0) then mret true else
  t ← get;
  skb ← ath_alloc_skb_align (sc_rxbufsize t) (sc_cachelsz t);
  upd_rxd ds (λ d, d <| rd_nbuf := skb |>) ;;
  if skb =? 0 then mret false else
  upd_rxd ds (λ d, d <| rd_dmap := adf_nbuf_map skb |>) ;;
  segs ← tnb (adf_nbuf_dmamap_info skb);
  '(paddr, _) ← in_range (segs !! 0%nat);
  upd_rxd ds (λ d, d <| rd_data := paddr |>) ;;
  mret true.

(** Hands the held descriptor to the chip, at the end of its list, and holds [ds]. *)
Definition ath_rxdesc_init (ds : nat) : TG Z :=
  t ← get;
  match sc_rxdesc_held t with
  | None => modify (λ t, t <| sc_rxdesc_held := Some ds |>) ;; mret 0
  | Some ds_held =>
      modify (λ t, t <| sc_rxdesc_held := Some ds |>) ;;
      ok ← rxdesc_buffer ds_held;
      if negb ok then
        modify (λ t, t <| sc_rxdesc_held := Some ds_held |>
                       <| sc_rx_stats ::= λ r, r <| ast_rx_nobuf ::= λ n, u32 (n + 1) |> |>) ;;
        mret ENOMEM
      else
      upd_rxd ds_held (λ d, d <| rd_link := 0 |>) ;;
      d ← rd_rxd ds_held;
      tnb (adf_nbuf_peek_header (rd_nbuf d)) ;;
      room ← tnb (adf_nbuf_tailroom (rd_nbuf d));
      upd_rxd ds_held (λ d, d <| rd_hw ::= λ w, ar5416SetupRxDesc_20 w room 0 |>) ;;
      t ← get;
      match sc_rxlink t with
      | None => thal (ar5416SetRxDP (rd_daddr d))
      | Some l => upd_rxd l (λ x, x <| rd_link := rd_daddr d |>)
      end ;;
      modify (λ t, t <| sc_rxlink := Some ds_held |>) ;;
      thal ar5416EnableReceive ;;
      mret 0
  end.

(** Each buffer of a frame the host has taken re-arms one idle descriptor. *)
Fixpoint rx_complete_loop (fuel : nat) (ds : option nat) (nbuf_head : qhead) : TG unit :=
  match ds with
  | None => mret tt
  | Some ds_tmp =>
      match fuel with
      | O => fail OutOfFuel
      | S n =>
          '(buf_tmp, nbuf_head) ← tnb (adf_nbuf_queue_remove nbuf_head);
          if buf_tmp =? 0 then mret tt else
          ath_free_rx_skb buf_tmp ;;
          t ← get;
          let ds := tailq_next ds_tmp (sc_rxdesc_idle t) in
          ath_rxdesc_init ds_tmp ;;
          modify (λ t, t <| sc_rxdesc_idle ::= asf_tailq_remove ds_tmp |>
                         <| sc_rxdesc ::= λ l, l ++ [ds_tmp] |>) ;;
          rx_complete_loop n ds nbuf_head
      end
  end.
Definition ath_rx_complete (buf : Z) : TG unit :=
  nbuf_head ← tnb (adf_nbuf_split_to_frag buf);
  t ← get;
  rx_complete_loop (length (sc_rxdesc_idle t)) (asf_tailq_first (sc_rxdesc_idle t)) nbuf_head.

Definition tgt_HTCSendCompleteHandler (Endpt buf : Z) : TG unit :=
  when (Endpt =? RX_ENDPOINT_ID)
    (modify (λ t, t <| sc_rx_stats ::= λ r, r <| ast_rx_done ::= λ n, u32 (n + 1) |> |>) ;;
     ath_rx_complete buf).

(** ** Collecting complete frames *)

(** [PA2DESC]: the descriptor at bus address [pa]. *)
Definition PA2DESC (pa : Z) : TG nat :=
  t ← get;
  let o := pa - rx_desc_paddr t in
  if (o <? 0) || negb (o mod RX_DESC_SIZE =? 0) then fail OutOfRange
  else mret (Z.to_nat (o / RX_DESC_SIZE)).

(** A used descriptor goes to the end of the ring, or aside when the ring could not take
    the one held before it. *)
Definition rxdesc_requeue (ds : nat) : TG unit :=
  e ← ath_rxdesc_init ds;
  if e =? 0 then modify (λ t, t <| sc_rxdesc ::= λ l, asf_tailq_remove ds l ++ [ds] |>)
  else modify (λ t, t <| sc_rxdesc ::= asf_tailq_remove ds |>
                      <| sc_rxdesc_idle ::= λ l, l ++ [ds] |>).

(** The descriptors from [ds_tmp] to [ds_tail], whose buffers are freed. *)
Fixpoint discard_loop (fuel : nat) (ds_tmp : option nat) (ds_tail : nat) : TG unit :=
  match ds_tmp with
  | None => mret tt
  | Some ds_rmv =>
      match fuel with
      | O => fail OutOfFuel
      | S n =>
          upd_rxd ds_rmv (λ d, d <| rd_dmap := adf_nbuf_unmap |>) ;;
          t ← get;
          let ds_tmp := tailq_next ds_rmv (sc_rxdesc t) in
          assert_ (bool_decide (is_Some ds_tmp)) ;;
          d ← rd_rxd ds_rmv;
          ath_free_rx_skb (rd_nbuf d) ;;
          upd_rxd ds_rmv (λ d, d <| rd_nbuf := 0 |>) ;;
          rxdesc_requeue ds_rmv ;;
          if decide (ds_rmv = ds_tail) then mret tt else discard_loop n ds_tmp ds_tail
      end
  end.
(** The same descriptors, whose buffers are collected in a queue. *)
Fixpoint collect_loop (fuel : nat) (ds_tmp : option nat) (ds_tail : nat) (nbuf_head : qhead)
    : TG qhead :=
  match ds_tmp with
  | None => mret nbuf_head
  | Some ds_rmv =>
      match fuel with
      | O => fail OutOfFuel
      | S n =>
          upd_rxd ds_rmv (λ d, d <| rd_dmap := adf_nbuf_unmap |>) ;;
          d ← rd_rxd ds_rmv;
          nbuf_head ← tnb (adf_nbuf_queue_add nbuf_head (rd_nbuf d));
          upd_rxd ds_rmv (λ d, d <| rd_nbuf := 0 |>) ;;
          t ← get;
          let ds_tmp := tailq_next ds_rmv (sc_rxdesc t) in
          assert_ (bool_decide (is_Some ds_tmp)) ;;
          rxdesc_requeue ds_rmv ;;
          if decide (ds_rmv = ds_tail) then mret nbuf_head
          else collect_loop n ds_tmp ds_tail nbuf_head
      end
  end.

(** The local variables of [ath_uapsd_processtriggers]. *)
Record trigger_vars := mk_tv {
  tv_bf : option nat; tv_ds : option nat; tv_head : option nat; tv_cnt : Z; tv_len : Z }.
#[local] Instance eta_tv : EtaExp trigger_vars := λ v,
  mk_tv (tv_bf v) (tv_ds v) (tv_head v) (tv_cnt v) (tv_len v).

(** The last descriptor [ds] of a frame: its buffers become one receive buffer. *)
Definition frame_done (v : trigger_vars) (bf ds : nat) : TG trigger_vars :=
  t ← get;
  let next := tailq_next ds (sc_rxdesc t) in
  nbuf_head ← collect_loop (length (sc_rxdesc t)) (tv_head v) ds adf_nbuf_queue_init;
  upd_rxb bf (λ b, b <| rb_rx_status ::= λ r, r <| rs_datalen := tv_len v |> |>) ;;
  '(skb, _) ← tnb (adf_nbuf_create_frm_frag nbuf_head);
  upd_rxb bf (λ b, b <| rb_skb := skb |> <| rb_status ::= λ st, st .| ATH_BUFSTATUS_DONE |>) ;;
  t ← get;
  mret (mk_tv (tailq_next bf (sc_rxbuf t)) next next 0 0).

Fixpoint triggers_loop (fuel : nat) (v : trigger_vars) : TG unit :=
  match tv_ds v with
  | None => mret tt
  | Some ds =>
      match fuel with
      | O => fail OutOfFuel
      | S n =>
          let v := v <| tv_cnt ::= λ c, u32 (c + 1) |> in
          t ← get;
          if tv_cnt v =? ATH_RXBUF - 1 then discard_loop (length (sc_rxdesc t)) (tv_head v) ds else
          d ← rd_rxd ds;
          if rd_link d =? 0 then mret tt else
          bf ← deref (tv_bf v);
          b ← rd_rxb bf;
          if tst (rb_status b) ATH_BUFSTATUS_DONE then triggers_loop n v else
          nds ← PA2DESC (rd_link d);
          nd ← rd_rxd nds;
          '(retval, st) ← thal (ar5416ProcRxDescFast_20 (rd_hw d) (rd_daddr d) (rd_hw nd)
                                  (rb_rx_status b));
          upd_rxb bf (λ b, b <| rb_rx_status := st |>) ;;
          if decide (retval = HAL_EINPROGRESS) then mret tt else
          len ← tnb (adf_nbuf_len (rd_nbuf d));
          when (len =? 0) (tnb (adf_nbuf_put_tail (rd_nbuf d) (rs_datalen st)) ;; mret tt) ;;
          let v := v <| tv_len ::= λ l, u16 (l + rs_datalen st) |> in
          if rs_more st =? 0 then v ← frame_done v bf ds; triggers_loop n v
          else triggers_loop n (v <| tv_ds := tailq_next ds (sc_rxdesc t) |>)
      end
  end.
(** Every turn but those that spin on a buffer still in use moves along the ring. *)
Definition ath_uapsd_processtriggers : TG unit :=
  t ← get;
  let ds := asf_tailq_first (sc_rxdesc t) in
  triggers_loop (length (sc_rxdesc t) + Z.to_nat ATH_RXBUF)
    (mk_tv (asf_tailq_first (sc_rxbuf t)) ds ds 0 0).

(** ** Starting, and the tasklet *)
Fixpoint startrecv_loop (l : list nat) : TG Z :=
  match l with
  | [] =>
      t ← get;
      ds ← deref (asf_tailq_first (sc_rxdesc t));
      d ← rd_rxd ds;
      thal (ar5416SetRxDP (rd_daddr d)) ;; mret 0
  | ds :: l =>
      error ← ath_rxdesc_init ds;
      if negb (error =? 0) then mret error else startrecv_loop l
  end.
Definition ath_startrecv : TG Z :=
  modify (λ t, t <| sc_rxbufsize := 1024 + 512 + 128 |> <| sc_rxlink := None |>
                 <| sc_rxdesc_held := None |>) ;;
  t ← get;
  startrecv_loop (sc_rxdesc t).

(** The 40 bytes of [struct ath_rx_status]; the antenna, the delimiter count and the
    dummy byte are never written. *)
Definition rx_status_bytes (r : ath_rx_status) : list Z :=
  be_bytes 8 (rs_tstamp r) ++ be_bytes 2 (rs_datalen r) ++
  map u8 [rs_status r; rs_phyerr r; rs_rssi_combined r; rs_rssi_ctl0 r; rs_rssi_ctl1 r;
          rs_rssi_ctl2 r; rs_rssi_ext0 r; rs_rssi_ext1 r; rs_rssi_ext2 r; rs_keyix r;
          rs_rate r; 0; rs_more r; rs_isaggr r; rs_moreaggr r; 0; rs_flags r; 0] ++
  be_bytes 4 (rs_evm0 r) ++ be_bytes 4 (rs_evm1 r) ++ be_bytes 4 (rs_evm2 r).

(** One turn of the tasklet's loop; the answer is whether it goes on. *)
Definition rx_step : TG bool :=
  t ← get;
  match asf_tailq_first (sc_rxbuf t) with
  | None => mret false
  | Some bf =>
      b ← rd_rxb bf;
      if negb (tst (rb_status b) ATH_BUFSTATUS_DONE) then mret false else
      let skb := rb_skb b in
      if skb =? 0 then mret true else
      modify (λ t, t <| sc_rxbuf ::= asf_tailq_remove bf |>) ;;
      upd_rxb bf (λ b, b <| rb_skb := 0 |>) ;;
      rxhdr ← tnb (adf_nbuf_push_head skb RX_FRAME_HEADER_SIZE);
      twr_bytes rxhdr (rx_status_bytes (rb_rx_status b)) ;;
      tsf ← ath_extend_tsf (u32 (rs_tstamp (rb_rx_status b)));
      twr_bytes rxhdr (be_bytes 8 tsf) ;;
      tx (host (HTC_SendMsg_ev RX_ENDPOINT_ID skb)) ;;
      modify (λ t, t <| sc_rx_stats ::= λ r, r <| ast_rx_send ::= λ n, u32 (n + 1) |> |>) ;;
      upd_rxb bf (λ b, b <| rb_status ::= λ st, st .&~ ATH_BUFSTATUS_DONE |>) ;;
      modify (λ t, t <| sc_rxbuf ::= λ l, l ++ [bf] |>) ;;
      mret true
  end.
Definition ath_tgt_rx_tasklet : TG unit :=
  t ← get;
  do_while (S (length (sc_rxbuf t))) rx_step ;;
  upd_sc (λ s, s <| sc_imask ::= λ m, m .| HAL_INT_RX |>) ;;
  m ← sc sc_imask;
  ath_hal_setInterrupts m.

End recv.
