(* ===== verification/IfCmd.v ===== *)
(** * Command handlers, beacons, queues and interrupts (wlan/if_ath.c)

    One definition per function of wlan/if_ath.c that is not part of the receive path. A
    command handler takes the command, its sequence number, the address of its data and
    their length, as WMI calls it. *)

From S2P Require Import Prelude.
From S2P Require Import IfTypes.
From S2P Require Import IfRecv.

(** ** Header formats *)
Definition sizeof_data_hdr : Z := 12.
Definition sizeof_beacon_hdr : Z := 4.
(** [sizeof(struct register_rmw)] *)
Definition sizeof_register_rmw : Z := 12.

(** A host-order rate set: the count and the thirty rates of the packed structure. *)
Definition sizeof_rateset : Z := 31.

Section cmd.
Context {HW RC : Type} `{!Mmio HW} `{!RateControl RC} `{!RateAdmin RC}.
(** How many frames the chip may complete while a queue is being processed. *)
Context (fuel : nat).
Abbreviation TG := (M (tgt HW RC)).
Implicit Type t : tgt HW RC.

(** ** Modes *)

(** The map from rate codes to indices, 0xff where a code has none. *)
Definition rixmap_of (rt : HAL_RATE_TABLE) : list Z :=
  foldl (λ m '(i, ri), <[Z.to_nat (ri_rateCode ri) := u8 i]> m) (replicate 256 0xff)
    (zip (seqZ 0 (Z.of_nat (length rt))) rt).
(** [sc_rates] has an entry for each of the two modes; its index is not checked. *)
Definition phymode_of (mode : Z) : option phymode :=
  if mode =? 0 then Some IEEE80211_MODE_11NA
  else if mode =? 1 then Some IEEE80211_MODE_11NG else None.
Definition ath_setcurmode (mode : Z) : TG unit :=
  modify (λ t, t <| sc_rixmap := replicate 256 0xff |>) ;;
  m ← in_range (phymode_of mode);
  let rt := sc_rates m in
  modify (λ t, t <| sc_rixmap := rixmap_of rt |>) ;;
  upd_sc (λ s, s <| sc_currates := rt |> <| sc_curmode := m |>
                 <| sc_protrix := match m with IEEE80211_MODE_11NG => 3 | _ => 0 end |>).

(** ** Beacons *)

Definition ath_beacon_setup (p : nat) (avp : ath_vap_target) : TG unit :=
  b ← tx (rd_bf p);
  let ds := bf_desc b in
  tx (upd_ds ds (λ d, d <| ds_link := 0 |>)) ;;
  '(paddr, _) ← in_range (bf_dmamap_info b !! 0%nat);
  tx (upd_ds ds (λ d, d <| ds_data := paddr |>)) ;;
  mode ← sc sc_curmode;
  ri ← tx (rate_entry (ath_get_minrateidx mode avp));
  let rate := u8 (ri_rateCode ri) in
  len ← tnb (adf_nbuf_len (bf_skb b));
  tx (upd_ds ds (λ d, (ar5416SetupTxDesc_20 d (u32 (len + IEEE80211_CRC_LEN)) sizeof_frame
                         HAL_PKT_TYPE_BEACON MAX_RATE_POWER rate 1 HAL_TXKEYIX_INVALID
                         HAL_TXDESC_NOACK 0 0).1)) ;;
  ds0 ← tx (rd_ds ds);
  tx (upd_ds ds (λ d, ar5416FillTxDesc_20 d ((len + 3) `div` 4 * 4) true true ds0)) ;;
  ic ← sc sc_ic;
  let zero := mk_rate_series 0 0 0 0 0 in
  tx (upd_ds ds (λ d, ar5416Set11nRateScenario_20 d false 0
        (mk_rate_series 1 rate 0 (ic_tx_chainmask ic) 0) zero zero zero 0)).

Definition ath_tgt_send_beacon (bc_hdr nbuf EndPt : Z) : TG unit :=
  assert_ (bc_hdr =? 0) ;;
  '(bhdr, _) ← tnb (adf_nbuf_peek_header nbuf);
  vap_index ← trd8 bhdr;
  assert_ (vap_index <? TARGET_VAP_MAX) ;;
  tnb (adf_nbuf_pull_head nbuf sizeof_beacon_hdr) ;;
  t ← get;
  bc ← in_range (av_bcbuf t !! Z.to_nat vap_index);
  match bc with
  | None => fail AssertFailed
  | Some p =>
      tx (upd_bf p (λ b, b <| bf_endpt := EndPt |>)) ;;
      b ← tx (rd_bf p);
      when (negb (bf_skb b =? 0))
        (tx (upd_bf p (λ b, b <| bf_dmamap := adf_nbuf_unmap |>)) ;;
         tnb (adf_nbuf_push_head (bf_skb b) sizeof_beacon_hdr) ;;
         ath_free_tx_skb (bf_endpt b) (bf_skb b)) ;;
      tx (upd_bf p (λ b, b <| bf_skb := nbuf |> <| bf_dmamap := adf_nbuf_map nbuf |>)) ;;
      segs ← tnb (adf_nbuf_dmamap_info nbuf);
      tx (upd_bf p (λ b, b <| bf_dmamap_info := segs |>)) ;;
      avp ← rd_vap vap_index;
      ath_beacon_setup p avp ;;
      b ← tx (rd_bf p);
      thal (ar5416StopTxDma (sc_bhalq t)) ;;
      thal (ar5416SetTxDP (sc_bhalq t) (bf_desc b)) ;;
      thal (ar5416StartTxDma (sc_bhalq t)) ;; mret tt
  end.
Definition tgt_HTCRecv_beaconhandler (EndPt hdr_buf buf : Z) : TG unit :=
  ath_tgt_send_beacon hdr_buf buf EndPt.

(** ** Draining the transmit queues *)

Definition ath_tx_stopdma (i : nat) : TG unit :=
  q ← tx (rd_txq i); thal (ar5416StopTxDma (axq_qnum q)) ;; mret tt.
Definition owltgt_txq_drain (i : nat) : TG unit := tx (owltgt_tx_processq fuel i OWL_TXQ_STOPPED).
Definition ath_tx_draintxq (i : nat) : TG unit := owltgt_txq_drain i.
(** Each TID waiting for queue [i] is taken off it and emptied. *)
Fixpoint drain_tids (n : nat) (i : nat) : TG unit :=
  q ← tx (rd_txq i);
  match axq_tidq q with
  | [] => mret tt
  | tid :: rest =>
      match n with
      | O => fail OutOfFuel
      | S n =>
          tx (upd_txq i (λ q, q <| axq_tidq := rest |>)) ;;
          tx (upd_tid tid (λ x, x <| sched := false |>)) ;;
          tx (ath_tgt_tid_drain tid) ;;
          drain_tids n i
      end
  end.
Definition all_queues : list nat := seq 0 (Z.to_nat HAL_NUM_TX_QUEUES).
Definition ath_draintxq (drain_softq : bool) : TG unit :=
  tx ath_tx_status_clear ;;
  upd_sc (λ s, s <| sc_tx_draining := true |>) ;;
  t ← get;
  thal (ar5416StopTxDma (sc_bhalq t)) ;;
  for_each all_queues (λ i, t ← get; when (ATH_TXQ_SETUP (tg_sc t) i) (ath_tx_stopdma i)) ;;
  for_each all_queues (λ i, t ← get;
    when (ATH_TXQ_SETUP (tg_sc t) i)
      (tx (owltgt_tx_processq fuel i OWL_TXQ_STOPPED) ;;
       q ← tx (rd_txq i);
       drain_tids (length (axq_tidq q)) i)) ;;
  upd_sc (λ s, s <| sc_tx_draining := false |>).

(** [sc_txqsetup] is a byte: what the bits above it are set to is lost. *)
Definition ath_tgt_txq_setup : TG unit :=
  upd_sc (λ s, s <| sc_txqsetup := 0 |>) ;;
  for_each all_queues (λ i,
    tx (upd_txq i (λ q, q <| axq_qnum := Z.of_nat i |> <| axq_link := None |> <| axq_q := [] |>
                          <| axq_depth := 0 |> <| axq_linkbuf := None |> <| axq_tidq := [] |>)) ;;
    upd_sc (λ s, s <| sc_txqsetup ::= λ m, u8 (m .| 1 .<< Z.of_nat i) |>)) ;;
  modify (λ t, t <| sc_uapsdq := Some UAPSDQ_NUM |>) ;;
  upd_sc (λ s, s <| sc_cabq := Some CABQ_NUM |> <| sc_ac2q := [0; 1; 2; 3]%nat |>).

(** ** Frames from the host *)

Definition tgt_HTCRecv_mgmthandler (EndPt hdr_buf buf : Z) : TG unit :=
  tx (ath_tgt_send_mgt hdr_buf buf EndPt).
Definition tgt_HTCRecv_uapsdhandler (EndPt hdr_buf buf : Z) : TG unit := mret tt.
(** The body is compiled only with ATH_ENABLE_CABQ, which no build defines. *)
Definition tgt_HTCRecv_cabhandler (EndPt hdr_buf buf : Z) : TG unit := mret tt.

(** [ath_data_hdr_t] at address [a]; [keytype] and [keyix] are signed characters. *)
Definition rd_data_hdr (a : Z) : TG (ath_data_hdr * Z * Z) :=
  ni ← trd8 (a + 1); vi ← trd8 (a + 2); tno ← trd8 (a + 3); fl ← trd32 (a + 4);
  kt ← trd8 (a + 8); ki ← trd8 (a + 9); ck ← trd8 (a + 10);
  mret (mk_data_hdr ni tno fl (s8 kt) (s8 ki), vi, ck).
Definition tgt_HTCRecvMessageHandler (EndPt hdr_buf buf : Z) : TG unit :=
  '(data, len) ← (if hdr_buf =? 0 then
                    r ← tnb (adf_nbuf_peek_header buf);
                    tnb (adf_nbuf_pull_head buf sizeof_data_hdr) ;; mret r
                  else tnb (adf_nbuf_peek_header hdr_buf));
  assert_ (sizeof_data_hdr <=? len) ;;
  '(dh, vap_ix, cookie) ← rd_data_hdr data;
  tx (__stats tx_tgt) ;;
  bf ← tx (ath_tgt_tx_prepare buf dh);
  match bf with
  | None => ath_free_tx_skb EndPt buf
  | Some p =>
      tx (upd_bf p (λ b, b <| bf_endpt := EndPt |> <| bf_cookie := cookie |>
                           <| vap_index := vap_ix |>)) ;;
      tid ← tx (rd_tid (Z.to_nat (dh_ni_index dh), dh_tidno dh));
      if tst (flag tid) TID_AGGR_ENABLED then tx (ath_tgt_handle_aggr p)
      else tx (ath_tgt_handle_normal p)
  end.

(** ** Interrupts *)

Definition swba_event (tsf pending : Z) : list Z := be_bytes 8 tsf ++ be_bytes 1 pending.

(** The beacon alert: the time and the beacons still queued go to the host, and what is
    left of the last interval's multicast queue is flushed. *)
Definition intr_swba : TG unit :=
  t ← get;
  tsf ← thal ar5416GetTsf64;
  pending ← thal (ar5416NumTxPending (sc_bhalq t));
  swba ← thal ar5416GetTsf64;
  modify (λ t, t <| sc_swba_tsf := swba |>) ;;
  tevent WMI_SWBA_EVENTID (swba_event tsf pending) ;;
  ath_tx_draintxq CABQ_NUM.

(** What [ath_intr] does about a masked status that is not fatal. *)
Definition intr_status (status : Z) : TG unit :=
  let count f := modify (λ t, t <| sc_int_stats ::= f |>) in
  when (tst status HAL_INT_SWBA) intr_swba ;;
  when (tst status HAL_INT_RXORN) (count (λ i, i <| ast_rxorn ::= λ n, u32 (n + 1) |>)) ;;
  when (tst status HAL_INT_RXEOL) (count (λ i, i <| ast_rxeol ::= λ n, u32 (n + 1) |>)) ;;
  when (tst status (HAL_INT_RX .| HAL_INT_RXEOL .| HAL_INT_RXORN))
    (when (tst status HAL_INT_RX) (count (λ i, i <| ast_rx ::= λ n, u32 (n + 1) |>)) ;;
     ath_uapsd_processtriggers ;;
     upd_sc (λ s, s <| sc_imask ::= λ m, m .&~ HAL_INT_RX |>) ;;
     m ← sc sc_imask;
     ath_hal_setInterrupts m ;;
     ATH_SCHEDULE_TQUEUE sc_rxtq) ;;
  when (tst status HAL_INT_TXURN)
    (count (λ i, i <| ast_txurn ::= λ n, u32 (n + 1) |>) ;;
     thal (ar5416UpdateTxTrigLevel true) ;; mret tt) ;;
  ATH_SCHEDULE_TQUEUE sc_txtq ;;
  when (tst status HAL_INT_BMISS) (ATH_SCHEDULE_TQUEUE sc_bmisstq) ;;
  when (tst status HAL_INT_GTT) (count (λ i, i <| ast_txto ::= λ n, u32 (n + 1) |>)) ;;
  when (tst status HAL_INT_CST) (count (λ i, i <| ast_cst ::= λ n, u32 (n + 1) |>)).

(** The answer is whether the interrupt was the chip's. *)
Definition ath_intr : TG bool :=
  t ← get;
  if sc_invalid t then mret false else
  pend ← thal ar5416IsInterruptPending;
  if negb pend then mret false else
  '(_, status) ← thal ar5416GetPendingInterrupts;
  m ← sc sc_imask;
  let status := status .& m in
  (if tst status HAL_INT_FATAL then
     ath_hal_setInterrupts 0 ;; ATH_SCHEDULE_TQUEUE sc_fataltq
   else intr_status status) ;;
  mret true.

Definition ath_fatal_tasklet : TG unit := tevent WMI_FATAL_EVENTID [].
Definition ath_bmiss_tasklet : TG unit := tevent WMI_BMISS_EVENTID [].

End cmd.

(** ** The schedule of the tasklets, and a turn of the main loop *)
Section loop.
Context {HW RC : Type} `{!Mmio HW} `{!RateControl RC} `{!RateAdmin RC}.
Context (fuel : nat).
Abbreviation TG := (M (tgt HW RC)).

(** [ATH_INIT_TQUEUE] in [ath_tgt_attach] binds these functions. *)
#[local] Instance tgt_tasklets : HasTasklets ath_tq (tgt HW RC) := {|
  tq := tg_tq;
  upd_tq f t := t <| tg_tq ::= f |>;
  func k := match k with
            | sc_rxtq => ath_tgt_rx_tasklet
            | sc_txtq => tx (owl_tgt_tx_tasklet fuel)
            | sc_bmisstq => ath_bmiss_tasklet
            | sc_fataltq => ath_fatal_tasklet
            end |}.
#[local] Instance tgt_tasklet_laws : TaskletLaws ath_tq (tgt HW RC).
Proof using. by split. Qed.

(** [wlan_pci_isr] calls the handler when one is installed. *)
Definition wlan_pci_isr : TG unit :=
  t ← get; when (g_wlan_intr t) (ath_intr fuel ;; mret tt).
(** There are four tasklets and none schedules another. *)
Definition A_TASKLET_RUN : TG unit := cmnos_tasklet_run 4.
(** The wireless part of one turn of [wlan_task]. *)
Definition wlan_turn : TG unit := wlan_pci_isr ;; A_TASKLET_RUN.

End loop.
