(* ===== verification/IfWmi.v ===== *)
(** * The WMI command handlers (wlan/if_ath.c)

    One definition per handler. A handler takes the command, its sequence number, the
    address of the command's data and their length; every handler but one ends by sending
    the reply with the command's own sequence number. *)

From S2P Require Import Prelude.
From S2P Require Import IfTypes.
From S2P Require Import IfRecv.
From S2P Require Import IfCmd.

Section handlers.
Context {HW RC : Type} `{!Mmio HW} `{!RateControl RC} `{!RateAdmin RC}.
Context (fuel : nat).
Abbreviation TG := (M (tgt HW RC)).
Abbreviation handler := (Z → Z → Z → Z → M (tgt HW RC) unit).
Implicit Type t : tgt HW RC.

(** ** Interrupts and statistics *)

Definition ath_enable_intr_tgt : handler := λ Command SeqNo data datalen,
  intr ← (if datalen =? 4 then trd32 data else mret 0);
  upd_sc (λ s, s <| sc_imask ::= λ m,
    if tst intr HAL_INT_SWBA then m .| HAL_INT_SWBA else m .&~ HAL_INT_SWBA |>) ;;
  when (tst intr HAL_INT_BMISS) (upd_sc (λ s, s <| sc_imask ::= λ m, m .| HAL_INT_BMISS |>)) ;;
  m ← sc sc_imask;
  ath_hal_setInterrupts m ;;
  trsp Command SeqNo [].

(** The capability call answers with a status, so that what has no support is "true". *)
Definition init_imask (caps : HAL_CAPABILITIES) : Z :=
  HAL_INT_RX .| HAL_INT_TX .| HAL_INT_RXEOL .| HAL_INT_RXORN .| HAL_INT_FATAL
  .| HAL_INT_GLOBAL .| HAL_INT_GTT
  .| ifbit (truthy (HAL_STATUS_val (ath_hal_getcapability caps HAL_CAP_HT))) HAL_INT_CST.
Definition ath_init_tgt : handler := λ Command SeqNo data datalen,
  caps ← thal (gets ah_caps);
  upd_sc (λ s, s <| sc_imask := init_imask caps |>) ;;
  modify (λ t, t <| g_wlan_intr := true |>) ;;
  ath_hal_setInterrupts (init_imask caps) ;;
  trsp Command SeqNo [].

Definition ath_disable_intr_tgt : handler := λ Command SeqNo data datalen,
  ath_hal_setInterrupts 0 ;; trsp Command SeqNo [].

Definition words (l : list Z) : list Z := l ≫= be_bytes 4.
Definition ath_int_stats_tgt : handler := λ Command SeqNo data datalen,
  t ← get;
  let i := sc_int_stats t in
  trsp Command SeqNo
    (words [ast_rx i; ast_rxorn i; ast_rxeol i; ast_txurn i; ast_txto i; ast_cst i]).
Definition ath_tx_stats_tgt : handler := λ Command SeqNo data datalen,
  st ← sc sc_tx_stats;
  trsp Command SeqNo
    (words (map st [ast_tx_xretries; ast_tx_fifoerr; ast_tx_filtered; ast_tx_timer_exp;
                    ast_tx_shortretry; ast_tx_longretry; tx_qnull; tx_noskbs; tx_nobufs])).
Definition ath_rx_stats_tgt : handler := λ Command SeqNo data datalen,
  t ← get;
  let r := sc_rx_stats t in
  trsp Command SeqNo (words [ast_rx_nobuf r; ast_rx_send r; ast_rx_done r]).
Definition ath_get_tgt_version : handler := λ Command SeqNo data datalen,
  trsp Command SeqNo (be_bytes 2 ATH_VERSION_MAJOR ++ be_bytes 2 ATH_VERSION_MINOR).

(** ** Nodes, interfaces, aggregation *)

(** The message is [struct ath_aggr_info]: node, TID, whether to enable. *)
Definition ath_enable_aggr_tgt : handler := λ Command SeqNo data datalen,
  nodeindex ← trd8 data;
  tidno ← trd8 (data + 1);
  (if TARGET_NODE_MAX <=? nodeindex then mret tt else
   an ← tx (rd_node (Z.to_nat nodeindex));
   if negb (an_valid an) then mret tt else
   if Z.of_nat WME_NUM_TID <=? tidno then mret tt else
   let t := (Z.to_nat nodeindex, tidno) in
   enable ← trd8 (data + 2);
   if truthy enable then tx (upd_tid t (λ x, x <| flag ::= λ f, f .| TID_AGGR_ENABLED |>))
   else
     tid ← tx (rd_tid t);
     when (tst (flag tid) TID_AGGR_ENABLED)
       (tx (upd_tid t (λ x, x <| flag ::= λ f, f .&~ TID_AGGR_ENABLED |>)) ;;
        tx (ath_tgt_tx_cleanup t true))) ;;
  trsp Command SeqNo [].

Definition ath_ic_update_tgt : handler := λ Command SeqNo data datalen,
  limit ← trd32 data; subframes ← trd8 (data + 4); coex ← trd8 (data + 5);
  chainmask ← trd8 (data + 6);
  upd_sc (λ s, s <| sc_ic := mk_ic limit subframes coex chainmask |>) ;;
  trsp Command SeqNo [].

(** The first [VAP_TARGET_SIZE] bytes of [struct ieee80211vap_target]. *)
Definition copy_vap (data : Z) (v : ath_vap_target) : TG ath_vap_target :=
  index ← trd8 data; opmode ← trd8 (data + 1); addr ← trd_bytes 6 (data + 2);
  cap ← trd8 (data + 8); rts ← trd16 (data + 10);
  mret (v <| iv_vapindex := index |> <| iv_opmode := opmode |> <| iv_myaddr := addr |>
          <| iv_ath_cap := cap |> <| iv_rtsthreshold := rts |>).
Definition wr_bcbuf (vap_index : Z) (p : option nat) : TG unit :=
  t ← get;
  in_range (av_bcbuf t !! Z.to_nat vap_index) ;;
  modify (λ t, t <| av_bcbuf ::= <[Z.to_nat vap_index := p]> |>).
Definition ath_vap_create_tgt : handler := λ Command SeqNo data datalen,
  vap_index ← trd8 data;
  v ← rd_vap vap_index;
  assert_ (negb (av_valid v)) ;;
  v ← copy_vap data v;
  upd_vap vap_index (λ _, v) ;;
  t ← get;
  wr_bcbuf vap_index (asf_tailq_first (sc_bbuf t)) ;;
  upd_vap vap_index (λ v, v <| av_valid := true |>) ;;
  trsp Command SeqNo [].

(** The nodes of an interface are dropped with it. *)
Definition ath_node_vdelete_tgt (vap_index : Z) : TG unit :=
  for_each (seq 0 (Z.to_nat TARGET_NODE_MAX)) (λ i,
    n ← tx (rd_node i);
    when (ni_vapindex n =? vap_index) (tx (upd_node i (λ n, n <| an_valid := false |>)))).
Definition ath_vap_delete_tgt : handler := λ Command SeqNo data datalen,
  vap_index ← trd8 data;
  upd_vap vap_index (λ v, v <| av_valid := false |>) ;;
  wr_bcbuf vap_index None ;;
  ath_node_vdelete_tgt vap_index ;;
  trsp Command SeqNo [].

(** The first [NODE_TARGET_SIZE] bytes of [struct ieee80211_node_target]. *)
Definition copy_node (data : Z) (n : ath_node_target) : TG ath_node_target :=
  mac ← trd_bytes 6 data; bssid ← trd_bytes 6 (data + 6); index ← trd8 (data + 12);
  vapindex ← trd8 (data + 13); isvap ← trd8 (data + 14); flags ← trd16 (data + 16);
  htcap ← trd16 (data + 18); maxampdu ← trd16 (data + 20);
  mret (n <| ni_macaddr := mac |> <| ni_bssid := bssid |> <| ni_nodeindex := index |>
          <| ni_vapindex := vapindex |> <| ni_is_vapnode := isvap |> <| ni_flags := flags |>
          <| ni_htcap := htcap |> <| ni_maxampdu := maxampdu |>).
(** The copy, the link to the interface, and the reset of the sequence counters; the
    index of the interface is stored without a check. *)
Definition load_node (data : Z) : TG (Z * ath_node_target) :=
  node_index ← trd8 (data + 12);
  n ← tx (rd_node (Z.to_nat node_index));
  n ← copy_node data n;
  tx (upd_node (Z.to_nat node_index) (λ _, n <| ni_vap := Some (Z.to_nat (ni_vapindex n)) |>)) ;;
  mret (node_index, n).
Definition reset_counters (n : ath_node_target) : ath_node_target :=
  n <| ni_txseqmgmt := 0 |> <| ni_iv16 := 0 |> <| ni_iv32 := 0 |>.
Definition ath_node_create_tgt : handler := λ Command SeqNo data datalen,
  '(node_index, n) ← load_node data;
  when (ni_is_vapnode n =? 1) (upd_vap (ni_vapindex n) (λ v, v <| iv_nodeindex := node_index |>)) ;;
  tx (upd_node (Z.to_nat node_index) (λ n, reset_counters (n <| an_valid := true |>))) ;;
  tx (node_init (Z.to_nat node_index)) ;;
  trsp Command SeqNo [].
Definition ath_node_cleanup_tgt : handler := λ Command SeqNo data datalen,
  node_index ← trd8 data;
  tx (upd_node (Z.to_nat node_index) (λ n, n <| an_valid := false |>)) ;;
  trsp Command SeqNo [].
Definition ath_node_update_tgt : handler := λ Command SeqNo data datalen,
  '(node_index, n) ← load_node data;
  tx (upd_node (Z.to_nat node_index) reset_counters) ;;
  trsp Command SeqNo [].

(** ** Registers *)

Definition ioread32 (a : Z) : TG Z := thal (ioread32_mac (u32 (a - WLAN_BASE_ADDRESS))).
Definition iowrite32 (a v : Z) : TG unit := thal (iowrite32_mac (u32 (a - WLAN_BASE_ADDRESS)) v).

(** [addr] is compared as a signed word. *)
Definition ath_reg_read_filter (addr : Z) : TG Z :=
  if u32 addr .& 0xffffe000 =? 0x2000 then
    thal (ioread32_mac (u32 addr)) ;;
    thal (ath_hal_wait 0x407c 0x00030000 0) ;;
    v ← thal (ioread32_mac 0x407c);
    mret (v .& 0x0000ffff)
  else if 0xffff <? s32 addr then ioread32 (u32 addr)
  else thal (ioread32_mac (u32 addr)).

Definition ath_pll_reset_ones : TG unit :=
  t ← get;
  when (reset_pll t =? 0)
    (v ← thal (ioread32_mac 0x7890);
     thal (iowrite32_mac 0x7890 (v .| 0x1800000)) ;;
     v ← thal (ioread32_mac 0x7890);
     thal (iowrite32_mac 0x7890 (v .&~ 0x1800000)) ;;
     modify (λ t, t <| reset_pll := 1 |>)).
Definition ath_hal_reg_write_filter (reg val : Z) : TG unit :=
  if 0xffff <? reg then iowrite32 reg val
  else
    when (reg =? 0x7014) ath_pll_reset_ones ;;
    thal (iowrite32_mac reg val).

(** The turns of [for (i = 0; i < datalen; i += size)]. *)
Definition chunks (datalen size : Z) : list Z :=
  map (λ k, Z.of_nat k * size) (seq 0 (Z.to_nat ((datalen + size - 1) / size))).

(** The answers are gathered in an array of 32 words. *)
Fixpoint reg_read_loop (is_ : list Z) (data : Z) (val : list Z) : TG (list Z) :=
  match is_ with
  | [] => mret val
  | i :: is_ =>
      addr ← trd32 (data + i);
      v ← ath_reg_read_filter addr;
      in_range (val !! Z.to_nat (i / 4)) ;;
      reg_read_loop is_ data (<[Z.to_nat (i / 4) := v]> val)
  end.
Definition ath_hal_reg_read_tgt : handler := λ Command SeqNo data datalen,
  val ← reg_read_loop (chunks datalen 4) data (replicate 32 0);
  trsp Command SeqNo (take (Z.to_nat datalen) (words val)).
Definition ath_hal_reg_write_tgt : handler := λ Command SeqNo data datalen,
  for_each (chunks datalen 8) (λ i,
    reg ← trd32 (data + i); val ← trd32 (data + i + 4);
    ath_hal_reg_write_filter reg val) ;;
  trsp Command SeqNo [].
Definition ath_hal_reg_rmw_tgt : handler := λ Command SeqNo data datalen,
  for_each (chunks datalen sizeof_register_rmw) (λ i,
    reg ← trd32 (data + i); set ← trd32 (data + i + 4); clr ← trd32 (data + i + 8);
    val ← ath_reg_read_filter reg;
    ath_hal_reg_write_filter reg ((val .&~ clr) .| set)) ;;
  trsp Command SeqNo [].

(** ** Queues and receiving *)

(** The queue of buffers [rb_skbhead] is the one that is emptied, one buffer per receive
    buffer, though frames are kept in [rb_skb]. *)
Definition ath_flushrecv_tgt : handler := λ Command SeqNo data datalen,
  t ← get;
  for_each (sc_rxbuf t) (λ bf,
    b ← rd_rxb bf;
    when (negb (rb_skb b =? 0))
      (upd_rxb bf (λ b, b <| rb_dmamap := adf_nbuf_unmap |>) ;;
       '(skb, q) ← tnb (adf_nbuf_queue_remove (rb_skbhead b));
       upd_rxb bf (λ b, b <| rb_skbhead := q |>) ;;
       ath_free_rx_skb skb ;;
       upd_rxb bf (λ b, b <| rb_skb := 0 |>))) ;;
  trsp Command SeqNo [].

Definition ath_tx_draintxq_tgt : handler := λ Command SeqNo data datalen,
  q ← trd32 data;
  ath_tx_draintxq fuel (Z.to_nat q) ;;
  trsp Command SeqNo [].
Definition ath_draintxq_tgt : handler := λ Command SeqNo data datalen,
  b ← trd32 data;
  ath_draintxq fuel (truthy b) ;;
  trsp Command SeqNo [].
Definition ath_aborttx_dma_tgt : handler := λ Command SeqNo data datalen,
  thal ar5416AbortTxDma ;; trsp Command SeqNo [].
Definition ath_aborttxq_tgt : handler := λ Command SeqNo data datalen,
  for_each all_queues (λ i,
    t ← get; when (ATH_TXQ_SETUP (tg_sc t) i) (ath_tx_draintxq fuel i)) ;;
  trsp Command SeqNo [].
Definition ath_stop_tx_dma_tgt : handler := λ Command SeqNo data datalen,
  when (negb (datalen =? 0)) (q ← trd32 data; thal (ar5416StopTxDma q) ;; mret tt) ;;
  trsp Command SeqNo [].
(** The error of [ath_startrecv] is not reported. *)
Definition ath_startrecv_tgt : handler := λ Command SeqNo data datalen,
  ath_startrecv ;; trsp Command SeqNo [].
Definition ath_stoprecv_tgt : handler := λ Command SeqNo data datalen,
  thal ar5416StopPcuReceive ;;
  thal (ar5416SetRxFilter 0) ;;
  thal ar5416StopDmaReceive ;;
  modify (λ t, t <| sc_rxlink := None |>) ;;
  trsp Command SeqNo [].
Definition ath_setcurmode_tgt : handler := λ Command SeqNo data datalen,
  mode ← trd16 data;
  ath_setcurmode mode ;;
  trsp Command SeqNo [].

(** ** Rate control *)

(** A [struct ieee80211_rate] of the message: two sets of a count and thirty rates. *)
Definition rd_rateset (a : Z) : TG ieee80211_rateset :=
  n ← trd8 a; l ← trd_bytes 30 (a + 1); mret (mk_rateset n l).
Definition rd_rate (a : Z) : TG ieee80211_rate :=
  r ← rd_rateset a; h ← rd_rateset (a + sizeof_rateset); mret (mk_rate r h).

Definition handle_rc_state_change_cmd : handler := λ Command SeqNo data datalen,
  vap_index ← trd8 data;
  capflag ← trd32 (data + 4);
  rs ← rd_rate (data + 8);
  v ← rd_vap vap_index;
  s ← sc id;
  trc (rate_newstate (sc_curmode s) (ic_tx_chainmask (sc_ic s)) (iv_bss v) capflag (Some rs)) ;;
  trsp Command SeqNo [].
Definition handle_rc_rate_update_cmd : handler := λ Command SeqNo data datalen,
  node_index ← trd8 data;
  isNew ← trd8 (data + 1);
  capflag ← trd32 (data + 4);
  rs ← rd_rate (data + 8);
  s ← sc id;
  trc (rate_node_update (sc_curmode s) (Z.to_nat node_index) isNew capflag (Some rs)) ;;
  trsp Command SeqNo [].

(** An element of the two-element arrays of an interface. *)
Definition band_upd (band v : Z) (p : Z * Z) : TG (Z * Z) :=
  if band =? 0 then mret (v, p.2) else if band =? 1 then mret (p.1, v) else fail OutOfRange.
(** The first bit of [mask] among the rates from [i] on. *)
Fixpoint first_bit (n : nat) (i mask : Z) : option Z :=
  match n with
  | O => None
  | S n => if tst (1 .<< i) mask then Some i else first_bit n (i + 1) mask
  end.
Definition ath_rc_mask_tgt : handler := λ Command SeqNo data datalen,
  idx ← trd8 data;
  band ← trd8 (data + 1);
  mask ← trd32 (data + 2);
  v ← rd_vap idx;
  masks ← band_upd band mask (av_rate_mask v);
  upd_vap idx (λ v, v <| av_rate_mask := masks |>) ;;
  match (if truthy mask then first_bit (Z.to_nat RATE_TABLE_SIZE) 0 mask else Some 0) with
  | Some i =>
      mins ← band_upd band (u8 i) (av_minrateidx v);
      upd_vap idx (λ v, v <| av_minrateidx := mins |>)
  | None => mret tt
  end ;;
  trsp Command SeqNo [].

(** ** Detaching *)

(** The buffers of a list give back what they hold, always to the receive pool. *)
Fixpoint free_skbhead (n : nat) (q : qhead) : TG qhead :=
  if adf_nbuf_queue_len q =? 0 then mret q else
  match n with
  | O => fail OutOfFuel
  | S n =>
      '(skb, q) ← tnb (adf_nbuf_queue_remove q);
      ath_free_rx_skb skb ;;
      free_skbhead n q
  end.
Definition cleanup_txbuf (p : nat) : TG unit :=
  b ← tx (rd_bf p);
  (if negb (adf_nbuf_queue_len (bf_skbhead b) =? 0) then
     q ← free_skbhead (Z.to_nat (adf_nbuf_queue_len (bf_skbhead b))) (bf_skbhead b);
     tx (upd_bf p (λ b, b <| bf_skbhead := q |> <| bf_skb := 0 |>))
   else when (negb (bf_skb b =? 0))
          (ath_free_rx_skb (bf_skb b) ;; tx (upd_bf p (λ b, b <| bf_skb := 0 |>)))) ;;
  tx (upd_bf p (λ b, b <| bf_dmamap := adf_nbuf_unmap |> <| bf_node := None |>)).
Definition cleanup_rxbuf (i : nat) : TG unit :=
  b ← rd_rxb i;
  (if negb (adf_nbuf_queue_len (rb_skbhead b) =? 0) then
     q ← free_skbhead (Z.to_nat (adf_nbuf_queue_len (rb_skbhead b))) (rb_skbhead b);
     upd_rxb i (λ b, b <| rb_skbhead := q |> <| rb_skb := 0 |>)
   else when (negb (rb_skb b =? 0))
          (ath_free_rx_skb (rb_skb b) ;; upd_rxb i (λ b, b <| rb_skb := 0 |>))) ;;
  upd_rxb i (λ b, b <| rb_dmamap := adf_nbuf_unmap |>).
Definition ath_desc_free : TG unit :=
  s ← sc id;
  held ← deref (sc_txbuf_held s);
  upd_sc (λ s, s <| sc_txbuf ::= λ l, l ++ [held] |> <| sc_txbuf_held := None |>) ;;
  t ← get;
  when (negb (txdma_len t =? 0))
    (for_each (sc_txbuf (tg_sc t)) cleanup_txbuf ;;
     upd_sc (λ s, s <| sc_txbuf := [] |>) ;;
     modify (λ t, t <| txdma_len := 0 |>)) ;;
  t ← get;
  when (negb (rxdma_len t =? 0))
    (for_each (sc_rxbuf t) cleanup_rxbuf ;;
     modify (λ t, t <| sc_rxbuf := [] |> <| rxdma_len := 0 |>)).
(** [ath_hal_free] and [adf_os_mem_free] do nothing: the allocator never frees. *)
Definition ath_detach_tgt : handler := λ Command SeqNo data datalen,
  ath_desc_free ;; trsp Command SeqNo [].

(** ** The remaining entries of the table *)

(** The context handed to the handlers is the softc; taken for the handle of WMI, as here,
    it is a wild pointer. *)
Definition handle_echo_command : handler := λ Command SeqNo data datalen, fail NullPointer.
Definition dispatch_magpie_sys_cmds : handler := λ Command SeqNo data datalen, assert_ false.

(** [Magpie_Sys_DispatchEntries]: command and handler. *)
Definition magpie_sys_table : list (Z * handler) := [
  (0x01, handle_echo_command); (0x02, dispatch_magpie_sys_cmds);
  (0x03, ath_get_tgt_version); (0x04, ath_disable_intr_tgt);
  (0x05, ath_enable_intr_tgt); (0x06, ath_init_tgt);
  (0x07, ath_aborttxq_tgt); (0x08, ath_stop_tx_dma_tgt);
  (0x09, ath_aborttx_dma_tgt); (0x0a, ath_tx_draintxq_tgt);
  (0x0b, ath_draintxq_tgt); (0x0c, ath_startrecv_tgt);
  (0x0d, ath_stoprecv_tgt); (0x0e, ath_flushrecv_tgt);
  (0x0f, ath_setcurmode_tgt); (0x10, ath_node_create_tgt);
  (0x11, ath_node_cleanup_tgt); (0x12, ath_vap_delete_tgt);
  (0x13, ath_vap_create_tgt); (0x14, ath_hal_reg_read_tgt);
  (0x15, ath_hal_reg_write_tgt); (0x16, handle_rc_state_change_cmd);
  (0x17, handle_rc_rate_update_cmd); (0x18, ath_ic_update_tgt);
  (0x19, ath_enable_aggr_tgt); (0x1a, ath_detach_tgt);
  (0x1b, ath_node_update_tgt); (0x1c, ath_int_stats_tgt);
  (0x1d, ath_tx_stats_tgt); (0x1e, ath_rx_stats_tgt);
  (0x1f, ath_rc_mask_tgt); (0x20, ath_hal_reg_rmw_tgt)].

End handlers.
