(* ===== verification/IfInit.v ===== *)
(** * Attaching the target (wlan/if_ath.c)

    Start-up: the descriptors and buffers of the receive, transmit and beacon lists are
    allocated from the boot arena and put on their lists, the pool of receive buffers is
    filled, the queues are set up; and the services are registered with HTC. What fresh
    memory holds is an argument. *)

From S2P Require Import Prelude.
From S2P Require Import IfTypes.
From S2P Require Import IfRecv.
From S2P Require Import IfCmd.

Definition ATH_TXDESC : Z := 1.
(** [sizeof(struct __adf_dma_map)] *)
Definition sizeof_dma_map : Z := 12.
(** [sizeof(struct ath_rx_buf)], [sizeof(struct ath_tx_buf)] *)
Definition sizeof_rx_buf : Z := 104.
Definition sizeof_tx_buf : Z := 148.

(** *** adf_os_dma.c, adf_os_mem.h, adf_nbuf.c: all memory comes from the arena

    Without memory for its map [adf_os_dmamem_alloc] answers NULL, but the address is then
    read from the map. *)
Definition adf_os_dmamem_alloc (size : Z) : NB Z :=
  dmap ← A_ALLOCRAM sizeof_dma_map;
  if dmap =? 0 then fail NullPointer else A_ALLOCRAM size.
Definition adf_os_mem_alloc (size : Z) : NB Z := A_ALLOCRAM size.
(** The map refers to no buffer yet. *)
Definition adf_nbuf_dmamap_create : NB bool := dmap ← A_ALLOCRAM sizeof_dma_map; mret (negb (dmap =? 0)).

(** A list of [nbuf] buffers of [bfSize] bytes with [ndesc] descriptors each: the address of
    the descriptors. Every failure ends in the assertion at label [fail]. *)
Definition ath_descdma_setup (nbuf : nat) (ndesc bfSize descSize : Z) : NB Z :=
  ds ← adf_os_dmamem_alloc (descSize * Z.of_nat nbuf * ndesc);
  assert_ (negb (ds =? 0)) ;;
  bf ← adf_os_mem_alloc (bfSize * Z.of_nat nbuf);
  assert_ (negb (bf =? 0)) ;;
  for_each (seq 0 nbuf) (λ _, ok ← adf_nbuf_dmamap_create; assert_ ok) ;;
  mret ds.

Definition rx_status_zero : ath_rx_status :=
  mk_rx_status 0 0 0 0 0 0 0 0 0 0 0 0 0 0 0 0 0 0 0 0.
Definition rx_buf_zero : ath_rx_buf := mk_rxbuf 0 adf_nbuf_queue_init 0 0 rx_status_zero.
(** A transmit buffer whose descriptor is at [ds]. *)
Definition tx_buf_zero (ds : Z) : ath_tx_buf :=
  mk_txbuf adf_nbuf_unmap [] None adf_nbuf_queue_init 0 None ds ds ds bfs_zero 0 0 0 0.

Section init.
Context {HW RC : Type} `{!Mmio HW}.
Context (junk_rxd : nat → rx_desc) (junk_txd : ath_tx_desc).
Abbreviation TG := (M (tgt HW RC)).
Implicit Type t : tgt HW RC.

(** One turn of the loop over the receive descriptors, the last first being number [i]. *)
Definition rxdesc_setup (paddr : Z) (i : nat) : TG unit :=
  let daddr := paddr + RX_DESC_SIZE * Z.of_nat i in
  upd_rxd i (λ d, d <| rd_nbuf := 0 |>) ;;
  ok ← tnb adf_nbuf_dmamap_create;
  assert_ ok ;;
  upd_rxd i (λ d, d <| rd_dmap := adf_nbuf_unmap |>) ;;
  upd_rxd i (λ d, d <| rd_daddr := daddr |>) ;;
  when (negb (i =? 0)%nat) (upd_rxd (i - 1)%nat (λ d, d <| rd_link := daddr |>)) ;;
  upd_rxd i (λ d, d <| rd_link := 0 |>) ;;
  modify (λ t, t <| sc_rxdesc ::= λ l, l ++ [i] |>).

(** The descriptors at [ds] and on, one per buffer. *)
Definition ds_addr (ds : Z) (i : nat) : Z := ds + TX_DESC_SIZE * ATH_TXDESC * Z.of_nat i.
Definition alloc_rx : TG unit :=
  let n := Z.to_nat ATH_RXDESC in
  ds ← tnb (ath_descdma_setup n 1 sizeof_rx_buf RX_DESC_SIZE);
  modify (λ t, t <| rx_bufs := replicate n rx_buf_zero |> <| sc_rxbuf := seq 0 n |>
                 <| rx_desc_paddr := ds |> <| rxdma_len := RX_DESC_SIZE * ATH_RXDESC |>
                 <| rx_descs := map junk_rxd (seq 0 n) |>
                 <| sc_rxdesc := [] |> <| sc_rxdesc_idle := [] |>) ;;
  for_each (seq 0 n) (rxdesc_setup ds).
(** The buffers of the transmit and of the beacon list share one array. *)
Definition alloc_tx (nbuf : nat) : TG (list nat) :=
  ds ← tnb (ath_descdma_setup nbuf ATH_TXDESC sizeof_tx_buf TX_DESC_SIZE);
  s ← sc id;
  upd_sc (λ s, s <| sc_bufs ::= λ l, l ++ map (λ i, tx_buf_zero (ds_addr ds i)) (seq 0 nbuf) |>
                 <| sc_descs ::= λ m, foldr (λ i, <[ds_addr ds i := junk_txd]>) m (seq 0 nbuf) |>) ;;
  mret (seq (length (sc_bufs s)) nbuf).
Definition ath_desc_alloc : TG Z :=
  alloc_rx ;;
  tl ← alloc_tx (Z.to_nat (ATH_TXBUF + 1));
  modify (λ t, t <| txdma_len := TX_DESC_SIZE * (ATH_TXBUF + 1) * ATH_TXDESC |>) ;;
  bl ← alloc_tx (Z.to_nat ATH_BCBUF);
  modify (λ t, t <| sc_bbuf := bl |>) ;;
  bf ← deref (head tl);
  tx (upd_bfs bf (λ st, st <| bfs_retries := 0 |> <| bfs_isretried := false |> <| bfs_isaggr := false |>)) ;;
  upd_sc (λ s, s <| sc_txbuf := tail tl |> <| sc_txbuf_held := Some bf |>) ;;
  mret 0.

(** ** Services *)
Inductive service :=
  WMI_CONTROL_SVC | WMI_BEACON_SVC | WMI_CAB_SVC | WMI_UAPSD_SVC | WMI_MGMT_SVC
  | WMI_DATA_VO_SVC | WMI_DATA_VI_SVC | WMI_DATA_BE_SVC | WMI_DATA_BK_SVC.
(** [MAKE_SERVICE_ID(WMI_SERVICE_GROUP, n)] *)
Definition service_id (s : service) : Z :=
  0x100 + match s with
          | WMI_CONTROL_SVC => 0 | WMI_BEACON_SVC => 1 | WMI_CAB_SVC => 2 | WMI_UAPSD_SVC => 3
          | WMI_MGMT_SVC => 4 | WMI_DATA_VO_SVC => 5 | WMI_DATA_VI_SVC => 6 | WMI_DATA_BE_SVC => 7
          | WMI_DATA_BK_SVC => 8
          end.
Definition service_of (id : Z) : option service :=
  find (λ s, service_id s =? id)
    [WMI_CONTROL_SVC; WMI_BEACON_SVC; WMI_CAB_SVC; WMI_UAPSD_SVC; WMI_MGMT_SVC;
     WMI_DATA_VO_SVC; WMI_DATA_VI_SVC; WMI_DATA_BE_SVC; WMI_DATA_BK_SVC].
Definition set_ep (s : service) (eid : Z) (e : svc_eps) : svc_eps :=
  match s with
  | WMI_CONTROL_SVC => e <| wmi_command_ep := eid |>
  | WMI_BEACON_SVC => e <| beacon_ep := eid |>
  | WMI_CAB_SVC => e <| cab_ep := eid |>
  | WMI_UAPSD_SVC => e <| uapsd_ep := eid |>
  | WMI_MGMT_SVC => e <| mgmt_ep := eid |>
  | WMI_DATA_VO_SVC => e <| data_VO_ep := eid |>
  | WMI_DATA_VI_SVC => e <| data_VI_ep := eid |>
  | WMI_DATA_BE_SVC => e <| data_BE_ep := eid |>
  | WMI_DATA_BK_SVC => e <| data_BK_ep := eid |>
  end.
(** The answer is [HTC_SERVICE_SUCCESS]. *)
Definition tgt_ServiceConnect (ServiceID eid : Z) : TG Z :=
  match service_of ServiceID with
  | Some s => modify (λ t, t <| svc_ep ::= set_ep s eid |>)
  | None => assert_ false
  end ;;
  mret 0.

(** [HTC_SERVICE], as [tgt_reg_service] fills it: every service has the same callbacks for
    connecting and for sent buffers. *)
Record tgt_service := mk_tsvc {
  svc_id : Z; svc_recv : Z → Z → Z → TG unit; svc_done : Z → Z → TG unit;
  svc_connect : Z → Z → TG Z; MaxSvcMsgSize : Z; TrailerSpcCheckLimit : Z }.
Definition tgt_reg_service (s : service) (recvMsg : Z → Z → Z → TG unit) : tgt_service :=
  mk_tsvc (service_id s) recvMsg tgt_HTCSendCompleteHandler tgt_ServiceConnect 1600 0.

End init.

Section attach.
Context {HW RC : Type} `{!Mmio HW} `{!RateControl RC}.
Context (junk_rxd : nat → rx_desc) (junk_txd : ath_tx_desc).
Abbreviation TG := (M (tgt HW RC)).

(** In the order of their registration. *)
Definition tgt_services : list tgt_service := [
  tgt_reg_service WMI_BEACON_SVC (tgt_HTCRecv_beaconhandler (HW := HW) (RC := RC));
  tgt_reg_service WMI_CAB_SVC tgt_HTCRecv_cabhandler;
  tgt_reg_service WMI_UAPSD_SVC tgt_HTCRecv_uapsdhandler;
  tgt_reg_service WMI_MGMT_SVC tgt_HTCRecv_mgmthandler;
  tgt_reg_service WMI_DATA_BE_SVC tgt_HTCRecvMessageHandler;
  tgt_reg_service WMI_DATA_BK_SVC tgt_HTCRecvMessageHandler;
  tgt_reg_service WMI_DATA_VI_SVC tgt_HTCRecvMessageHandler;
  tgt_reg_service WMI_DATA_VO_SVC tgt_HTCRecvMessageHandler].

(** The start-up of the parts with a state of their own: the HAL's attachment and rate
    control's (whether they got their memory), [tgt_hif_htc_wmi_init], and the size of the
    rate-control state of a node. *)
Context (hal_attach rate_attach : TG bool) (tgt_hif_htc_wmi_init : TG unit) (arc_space : Z).

Definition ATH_INIT_TQUEUE (k : ath_tq) : TG unit :=
  modify (λ t, t <| tg_tq ::= cmnos_tasklet_init_task k |>).
(** The failure paths end without a value after [ath_desc_free], which puts the buffer held
    back, then still NULL, on a list: they do not return. The rate tables that the source fills
    in here are the constants of [RateTables]. *)
Definition ath_tgt_attach (csz : Z) : TG Z :=
  let csz := if csz =? 0 then 16 else csz in
  modify (λ t, t <| sc_cachelsz := u16 (csz .<< 2) |>) ;;
  for_each [sc_rxtq; sc_txtq; sc_bmisstq; sc_fataltq] ATH_INIT_TQUEUE ;;
  ok ← hal_attach;
  if negb ok then fail NullPointer else
  tgt_hif_htc_wmi_init ;;
  modify (λ t, t <| sc_bhalq := HAL_NUM_TX_QUEUES - 1 |>) ;;
  ok ← rate_attach;
  if negb ok then fail NullPointer else
  for_each (seq 0 (Z.to_nat TARGET_NODE_MAX)) (λ _, tnb (adf_os_mem_alloc arc_space) ;; mret tt) ;;
  error ← ath_desc_alloc junk_rxd junk_txd;
  if negb (error =? 0) then fail NullPointer else
  tnb (_buf_pool_static_create_pool POOL_ID_WLAN_RX_BUF ATH_RXDESC 1664) ;;
  ath_tgt_txq_setup ;;
  upd_sc (λ s, s <| sc_imask := 0 |>) ;;
  ath_hal_setInterrupts 0 ;;
  mret 0.
End attach.
