(* ===== verification/IfTyped.v ===== *)
(** * The target keeps the typing, and answers each command once

    The typing of [TxInv] for the whole target: every function of wlan/if_ath.c keeps it and
    answers no command, except the command handlers, which answer theirs, once. *)

From S2P Require Import Prelude.
From S2P Require Import TxInv.
From S2P Require Import TxTyped.
From S2P Require Import Tasklet.
From S2P Require Import IfTypes.
From S2P Require Import IfRecv.
From S2P Require Import IfCmd.
From S2P Require Import IfWmi.

(** The typing of the transmit state, and arrays that keep their lengths. *)
Record tfollows {HW RC} (t t' : tgt HW RC) : Prop := {
  tf_sc : follows (tg_sc t) (tg_sc t');
  tf_bufs : length (rx_bufs t') = length (rx_bufs t);
  tf_descs : length (rx_descs t') = length (rx_descs t);
  tf_bcbuf : length (av_bcbuf t') = length (av_bcbuf t) }.

Section rules.
Context {HW RC : Type}.
Abbreviation TG := (M (tgt HW RC)).
Implicit Type t : tgt HW RC.

Lemma tfollows_refl t : tfollows t t.
Proof. split; [apply follows_refl|done..]. Qed.
Lemma tfollows_trans t1 t2 t3 : tfollows t1 t2 → tfollows t2 t3 → tfollows t1 t3.
Proof. intros [H1 A1 B1 C1] [H2 A2 B2 C2]. split; [by eapply follows_trans|congruence..]. Qed.

(** Every run of [m] that ends keeps the typing and answers nothing. *)
Definition ttyped {A} (m : TG A) : Prop := ∀ t a t', m t = Ok (a, t') → tfollows t t'.
Lemma ttyped_ret {A} (a : A) : ttyped (mret a).
Proof. intros s b s' E. injection E as <- <-. apply tfollows_refl. Qed.
Lemma ttyped_bind {A B} (m : TG A) (k : A → TG B) : ttyped m → (∀ a, ttyped (k a)) → ttyped (m ≫= k).
Proof.
  intros Hm Hk s b s'' (a & s' & E1 & E2)%bind_inv. eapply tfollows_trans; [by eapply Hm|by eapply Hk].
Qed.
Lemma ttyped_get : ttyped get.
Proof. intros s b s' E. injection E as <- <-. apply tfollows_refl. Qed.
Lemma ttyped_sc {A} (g : softc HW RC → A) : ttyped (sc g).
Proof. intros s b s' E. injection E as <- <-. apply tfollows_refl. Qed.
Lemma ttyped_fail {A} e : ttyped (fail e : TG A).
Proof. by intros s b s'. Qed.
Lemma ttyped_assert b : ttyped (assert_ b).
Proof. destruct b; [apply ttyped_ret|apply ttyped_fail]. Qed.
Lemma ttyped_deref {A} (o : option A) : ttyped (deref o).
Proof. destruct o; [apply ttyped_ret|apply ttyped_fail]. Qed.
Lemma ttyped_in_range {A} (o : option A) : ttyped (in_range o).
Proof. destruct o; [apply ttyped_ret|apply ttyped_fail]. Qed.
Lemma ttyped_when b (m : TG unit) : ttyped m → ttyped (when b m).
Proof. intros H. destruct b; [done|apply ttyped_ret]. Qed.
Lemma ttyped_for_each {A} (l : list A) (body : A → TG unit) : (∀ x, ttyped (body x)) → ttyped (for_each l body).
Proof. intros H. induction l as [|x l IH]; cbn; [apply ttyped_ret|]. by apply ttyped_bind. Qed.
Lemma ttyped_do_while fuel (body : TG bool) : ttyped body → ttyped (do_while fuel body).
Proof.
  intros H. induction fuel as [|fuel IH]; cbn; [apply ttyped_fail|]. apply ttyped_bind; [done|].
  intros []; [done|apply ttyped_ret].
Qed.
Lemma ttyped_tx {A} (m : M (softc HW RC) A) : typed m → ttyped (tx m).
Proof.
  intros Hm t a t' E. unfold tx in E. destruct (m (tg_sc t)) as [[? s']|] eqn:Em; [|done].
  injection E as <- <-. split; try done. by eapply Hm.
Qed.
Lemma ttyped_tnb {A} (m : NB A) : ttyped (tnb m).
Proof. apply ttyped_tx, typed_nb. Qed.
Lemma ttyped_thal {A} (m : M (ath_hal HW) A) : ttyped (thal m).
Proof. apply ttyped_tx, typed_hal. Qed.
Lemma ttyped_trc {A} (m : M RC A) : ttyped (trc m).
Proof. apply ttyped_tx, typed_rc. Qed.
Lemma ttyped_upd_sc f : (∀ s, follows s (f s)) → ttyped (upd_sc f).
Proof. intros Hf. by apply ttyped_tx, typed_modify. Qed.
Lemma ttyped_modify (g : tgt HW RC → tgt HW RC) : (∀ t, tfollows t (g t)) → ttyped (modify g).
Proof. intros H s b s' E. injection E as <- <-. apply H. Qed.
Lemma tfollows_same t t' :
  tg_sc t' = tg_sc t → length (rx_bufs t') = length (rx_bufs t) →
  length (rx_descs t') = length (rx_descs t) → length (av_bcbuf t') = length (av_bcbuf t) → tfollows t t'.
Proof. intros E ? ? ?. split; try done. rewrite E. apply follows_refl. Qed.
Lemma follows_setup (s : softc HW RC) f : (∀ x, in_u8 (f x)) → follows s (s <| sc_txqsetup ::= f |>).
Proof.
  intros Hf. split; try done; [|exists []; by rewrite app_nil_r]. intros []. split; try done. apply Hf.
Qed.
Lemma ttyped_trd8 a : ttyped (trd8 a : TG Z).
Proof. apply ttyped_tx, typed_rd8. Qed.
Lemma ttyped_rd_rxd i : ttyped (rd_rxd i : TG _).
Proof. apply ttyped_bind; [apply ttyped_get|intros; apply ttyped_in_range]. Qed.
Lemma ttyped_rd_rxb i : ttyped (rd_rxb i : TG _).
Proof. apply ttyped_bind; [apply ttyped_get|intros; apply ttyped_in_range]. Qed.
Lemma ttyped_upd_rxd i f : ttyped (upd_rxd i f : TG _).
Proof.
  apply ttyped_bind; [apply ttyped_rd_rxd|]. intros d. apply ttyped_modify. intros t.
  apply tfollows_same; try done. cbn. by rewrite length_insert.
Qed.
Lemma ttyped_upd_rxb i f : ttyped (upd_rxb i f : TG _).
Proof.
  apply ttyped_bind; [apply ttyped_rd_rxb|]. intros d. apply ttyped_modify. intros t.
  apply tfollows_same; try done. cbn. by rewrite length_insert.
Qed.
Lemma ttyped_rd_vap i : ttyped (rd_vap i : TG _).
Proof. apply ttyped_bind; [apply ttyped_sc|intros; apply ttyped_in_range]. Qed.
Lemma ttyped_upd_vap i f : ttyped (upd_vap i f : TG _).
Proof.
  apply ttyped_bind; [apply ttyped_rd_vap|]. intros v. apply ttyped_upd_sc. intros s.
  apply follows_same; try done. cbn. by rewrite length_insert.
Qed.
Lemma ttyped_wr_bcbuf v p : ttyped (wr_bcbuf v p : TG _).
Proof.
  apply ttyped_bind; [apply ttyped_get|]. intros t. apply ttyped_bind; [apply ttyped_in_range|]. intros _.
  apply ttyped_modify. intros t'. apply tfollows_same; try done. cbn. by rewrite length_insert.
Qed.
End rules.
#[export] Hint Resolve ttyped_ret ttyped_get ttyped_sc ttyped_fail ttyped_assert ttyped_deref ttyped_in_range
  ttyped_tnb ttyped_thal ttyped_trc ttyped_trd8 ttyped_rd_rxd ttyped_rd_rxb ttyped_upd_rxd ttyped_upd_rxb
  ttyped_rd_vap ttyped_upd_vap ttyped_wr_bcbuf : typed.

(** Proves [ttyped] of straight-line code from the hints on what it calls. *)
Ltac ttyped_step :=
  match goal with
  | |- ttyped (_ ≫= _) => apply ttyped_bind; [|intros ?]
  | |- ttyped (when _ _) => apply ttyped_when
  | |- ttyped (for_each _ _) => apply ttyped_for_each; intros ?
  | |- ttyped (do_while _ _) => apply ttyped_do_while
  | |- ttyped (tx _) => apply ttyped_tx; typed_tac
  | |- ttyped (upd_sc _) => apply ttyped_upd_sc; intros ?; first
      [by apply follows_same|apply follows_setup; intros ?; auto with typed]
  | |- ttyped (modify _) => apply ttyped_modify; intros ?; by apply tfollows_same
  | |- ttyped (match ?x with _ => _ end) => destruct x
  | |- ttyped _ => solve [auto with typed nocore]
  end.
Ltac ttyped_tac := repeat ttyped_step.

Section ops.
Context {HW RC : Type} `{!Mmio HW} `{!RateControl RC} `{!RateAdmin RC}.
Abbreviation TG := (M (tgt HW RC)).
Implicit Type t : tgt HW RC.

Lemma ttyped_trd16 a : ttyped (trd16 a : TG _). Proof. unfold trd16. ttyped_tac. Qed.
#[local] Hint Resolve ttyped_trd16 : typed.
Lemma ttyped_trd32 a : ttyped (trd32 a : TG _). Proof. unfold trd32. ttyped_tac. Qed.
#[local] Hint Resolve ttyped_trd32 : typed.
Lemma ttyped_trd_bytes n : ∀ a, ttyped (trd_bytes n a : TG _). Proof. induction n; intros; cbn [trd_bytes]; ttyped_tac. Qed.
#[local] Hint Resolve ttyped_trd_bytes : typed.
Lemma ttyped_twr_bytes l : ∀ a, ttyped (twr_bytes a l : TG _). Proof. induction l; intros; cbn [twr_bytes]; ttyped_tac. Qed.
#[local] Hint Resolve ttyped_twr_bytes : typed.
Lemma ttyped_ath_free_rx_skb skb : ttyped (ath_free_rx_skb skb : TG _). Proof. unfold ath_free_rx_skb. ttyped_tac. Qed.
#[local] Hint Resolve ttyped_ath_free_rx_skb : typed.
Lemma ttyped_ath_free_tx_skb endpt skb : ttyped (ath_free_tx_skb endpt skb : TG _). Proof. unfold ath_free_tx_skb. ttyped_tac. Qed.
#[local] Hint Resolve ttyped_ath_free_tx_skb : typed.
Lemma ttyped_ATH_SCHEDULE_TQUEUE k : ttyped (ATH_SCHEDULE_TQUEUE k : TG _). Proof. unfold ATH_SCHEDULE_TQUEUE. ttyped_tac. Qed.
#[local] Hint Resolve ttyped_ATH_SCHEDULE_TQUEUE : typed.
Lemma ttyped_ath_hal_setInterrupts ints : ttyped (ath_hal_setInterrupts ints : TG _). Proof. unfold ath_hal_setInterrupts. ttyped_tac. Qed.
#[local] Hint Resolve ttyped_ath_hal_setInterrupts : typed.
Lemma ttyped_tevent id data : tst (u16 id) 0x1000 = true → ttyped (tevent id data : TG _).
Proof. intros Hid. by apply ttyped_tx, typed_wmi_event. Qed.
#[local] Hint Extern 1 (ttyped (tevent _ _)) => apply ttyped_tevent; reflexivity : typed.
Lemma ttyped_ath_extend_tsf rstamp : ttyped (ath_extend_tsf rstamp : TG _). Proof. unfold ath_extend_tsf. ttyped_tac. Qed.
#[local] Hint Resolve ttyped_ath_extend_tsf : typed.
Lemma ttyped_ath_alloc_skb_align size align : ttyped (ath_alloc_skb_align size align : TG _). Proof. unfold ath_alloc_skb_align. ttyped_tac. Qed.
#[local] Hint Resolve ttyped_ath_alloc_skb_align : typed.
Lemma ttyped_rxdesc_buffer ds : ttyped (rxdesc_buffer ds : TG _). Proof. unfold rxdesc_buffer. ttyped_tac. Qed.
#[local] Hint Resolve ttyped_rxdesc_buffer : typed.
Lemma ttyped_ath_rxdesc_init ds : ttyped (ath_rxdesc_init ds : TG _). Proof. unfold ath_rxdesc_init. ttyped_tac. Qed.
#[local] Hint Resolve ttyped_ath_rxdesc_init : typed.
Lemma ttyped_rx_complete_loop fuel : ∀ ds nbuf_head, ttyped (rx_complete_loop fuel ds nbuf_head : TG _). Proof. induction fuel; intros; cbn [rx_complete_loop]; ttyped_tac. Qed.
#[local] Hint Resolve ttyped_rx_complete_loop : typed.
Lemma ttyped_ath_rx_complete buf : ttyped (ath_rx_complete buf : TG _). Proof. unfold ath_rx_complete. ttyped_tac. Qed.
#[local] Hint Resolve ttyped_ath_rx_complete : typed.
Lemma ttyped_tgt_HTCSendCompleteHandler Endpt buf : ttyped (tgt_HTCSendCompleteHandler Endpt buf : TG _). Proof. unfold tgt_HTCSendCompleteHandler. ttyped_tac. Qed.
#[local] Hint Resolve ttyped_tgt_HTCSendCompleteHandler : typed.
Lemma ttyped_PA2DESC pa : ttyped (PA2DESC pa : TG _). Proof. unfold PA2DESC. ttyped_tac. Qed.
#[local] Hint Resolve ttyped_PA2DESC : typed.
Lemma ttyped_rxdesc_requeue ds : ttyped (rxdesc_requeue ds : TG _). Proof. unfold rxdesc_requeue. ttyped_tac. Qed.
#[local] Hint Resolve ttyped_rxdesc_requeue : typed.
Lemma ttyped_discard_loop fuel : ∀ ds_tmp ds_tail, ttyped (discard_loop fuel ds_tmp ds_tail : TG _). Proof. induction fuel; intros; cbn [discard_loop]; ttyped_tac. Qed.
#[local] Hint Resolve ttyped_discard_loop : typed.
Lemma ttyped_collect_loop fuel : ∀ ds_tmp ds_tail nbuf_head, ttyped (collect_loop fuel ds_tmp ds_tail nbuf_head : TG _). Proof. induction fuel; intros; cbn [collect_loop]; ttyped_tac. Qed.
#[local] Hint Resolve ttyped_collect_loop : typed.
Lemma ttyped_frame_done v bf ds : ttyped (frame_done v bf ds : TG _). Proof. unfold frame_done. ttyped_tac. Qed.
#[local] Hint Resolve ttyped_frame_done : typed.
Lemma ttyped_triggers_loop fuel : ∀ v, ttyped (triggers_loop fuel v : TG _). Proof. induction fuel; intros; cbn [triggers_loop]; ttyped_tac. Qed.
#[local] Hint Resolve ttyped_triggers_loop : typed.
Lemma ttyped_ath_uapsd_processtriggers : ttyped (ath_uapsd_processtriggers : TG _). Proof. unfold ath_uapsd_processtriggers. ttyped_tac. Qed.
#[local] Hint Resolve ttyped_ath_uapsd_processtriggers : typed.
Lemma ttyped_startrecv_loop l : ttyped (startrecv_loop l : TG _). Proof. induction l; intros; cbn [startrecv_loop]; ttyped_tac. Qed.
#[local] Hint Resolve ttyped_startrecv_loop : typed.
Lemma ttyped_ath_startrecv : ttyped (ath_startrecv : TG _). Proof. unfold ath_startrecv. ttyped_tac. Qed.
#[local] Hint Resolve ttyped_ath_startrecv : typed.
Lemma ttyped_rx_step : ttyped (rx_step : TG _). Proof. unfold rx_step. ttyped_tac. Qed.
#[local] Hint Resolve ttyped_rx_step : typed.
Lemma ttyped_ath_tgt_rx_tasklet : ttyped (ath_tgt_rx_tasklet : TG _). Proof. unfold ath_tgt_rx_tasklet. ttyped_tac. Qed.
#[local] Hint Resolve ttyped_ath_tgt_rx_tasklet : typed.
Lemma ttyped_ath_setcurmode mode : ttyped (ath_setcurmode mode : TG _). Proof. unfold ath_setcurmode. ttyped_tac. Qed.
#[local] Hint Resolve ttyped_ath_setcurmode : typed.
Lemma ttyped_ath_beacon_setup p avp : ttyped (ath_beacon_setup p avp : TG _). Proof. unfold ath_beacon_setup. ttyped_tac. Qed.
#[local] Hint Resolve ttyped_ath_beacon_setup : typed.
Lemma ttyped_ath_tgt_send_beacon bc_hdr nbuf EndPt : ttyped (ath_tgt_send_beacon bc_hdr nbuf EndPt : TG _). Proof. unfold ath_tgt_send_beacon. ttyped_tac. Qed.
#[local] Hint Resolve ttyped_ath_tgt_send_beacon : typed.
Lemma ttyped_tgt_HTCRecv_beaconhandler EndPt hdr_buf buf : ttyped (tgt_HTCRecv_beaconhandler EndPt hdr_buf buf : TG _). Proof. unfold tgt_HTCRecv_beaconhandler. ttyped_tac. Qed.
#[local] Hint Resolve ttyped_tgt_HTCRecv_beaconhandler : typed.
Lemma ttyped_ath_tx_stopdma i : ttyped (ath_tx_stopdma i : TG _). Proof. unfold ath_tx_stopdma. ttyped_tac. Qed.
#[local] Hint Resolve ttyped_ath_tx_stopdma : typed.
Lemma ttyped_owltgt_txq_drain fuel i : ttyped (owltgt_txq_drain fuel i : TG _). Proof. unfold owltgt_txq_drain. ttyped_tac. Qed.
#[local] Hint Resolve ttyped_owltgt_txq_drain : typed.
Lemma ttyped_ath_tx_draintxq fuel i : ttyped (ath_tx_draintxq fuel i : TG _). Proof. unfold ath_tx_draintxq. ttyped_tac. Qed.
#[local] Hint Resolve ttyped_ath_tx_draintxq : typed.
Lemma ttyped_drain_tids n : ∀ i, ttyped (drain_tids n i : TG _). Proof. induction n; intros; cbn [drain_tids]; ttyped_tac. Qed.
#[local] Hint Resolve ttyped_drain_tids : typed.
Lemma ttyped_ath_draintxq fuel drain_softq : ttyped (ath_draintxq fuel drain_softq : TG _). Proof. unfold ath_draintxq. ttyped_tac. Qed.
#[local] Hint Resolve ttyped_ath_draintxq : typed.
Lemma ttyped_ath_tgt_txq_setup : ttyped (ath_tgt_txq_setup : TG _). Proof. unfold ath_tgt_txq_setup. ttyped_tac. Qed.
#[local] Hint Resolve ttyped_ath_tgt_txq_setup : typed.
Lemma ttyped_tgt_HTCRecv_mgmthandler EndPt hdr_buf buf : ttyped (tgt_HTCRecv_mgmthandler EndPt hdr_buf buf : TG _). Proof. unfold tgt_HTCRecv_mgmthandler. ttyped_tac. Qed.
#[local] Hint Resolve ttyped_tgt_HTCRecv_mgmthandler : typed.
Lemma ttyped_tgt_HTCRecv_uapsdhandler EndPt hdr_buf buf : ttyped (tgt_HTCRecv_uapsdhandler EndPt hdr_buf buf : TG _). Proof. unfold tgt_HTCRecv_uapsdhandler. ttyped_tac. Qed.
#[local] Hint Resolve ttyped_tgt_HTCRecv_uapsdhandler : typed.
Lemma ttyped_tgt_HTCRecv_cabhandler EndPt hdr_buf buf : ttyped (tgt_HTCRecv_cabhandler EndPt hdr_buf buf : TG _). Proof. unfold tgt_HTCRecv_cabhandler. ttyped_tac. Qed.
#[local] Hint Resolve ttyped_tgt_HTCRecv_cabhandler : typed.
Lemma ttyped_rd_data_hdr a : ttyped (rd_data_hdr a : TG _). Proof. unfold rd_data_hdr. ttyped_tac. Qed.
#[local] Hint Resolve ttyped_rd_data_hdr : typed.
Lemma ttyped_tgt_HTCRecvMessageHandler EndPt hdr_buf buf : ttyped (tgt_HTCRecvMessageHandler EndPt hdr_buf buf : TG _). Proof. unfold tgt_HTCRecvMessageHandler. ttyped_tac. Qed.
#[local] Hint Resolve ttyped_tgt_HTCRecvMessageHandler : typed.
Lemma ttyped_intr_swba fuel : ttyped (intr_swba fuel : TG _). Proof. unfold intr_swba. ttyped_tac. Qed.
#[local] Hint Resolve ttyped_intr_swba : typed.
Lemma ttyped_intr_status fuel status : ttyped (intr_status fuel status : TG _). Proof. unfold intr_status. ttyped_tac. Qed.
#[local] Hint Resolve ttyped_intr_status : typed.
Lemma ttyped_ath_intr fuel : ttyped (ath_intr fuel : TG _). Proof. unfold ath_intr. ttyped_tac. Qed.
#[local] Hint Resolve ttyped_ath_intr : typed.
Lemma ttyped_ath_fatal_tasklet : ttyped (ath_fatal_tasklet : TG _). Proof. unfold ath_fatal_tasklet. ttyped_tac. Qed.
#[local] Hint Resolve ttyped_ath_fatal_tasklet : typed.
Lemma ttyped_ath_bmiss_tasklet : ttyped (ath_bmiss_tasklet : TG _). Proof. unfold ath_bmiss_tasklet. ttyped_tac. Qed.
#[local] Hint Resolve ttyped_ath_bmiss_tasklet : typed.
Lemma ttyped_copy_vap data v : ttyped (copy_vap data v : TG _). Proof. unfold copy_vap. ttyped_tac. Qed.
#[local] Hint Resolve ttyped_copy_vap : typed.
Lemma ttyped_ath_node_vdelete_tgt vap_index : ttyped (ath_node_vdelete_tgt vap_index : TG _). Proof. unfold ath_node_vdelete_tgt. ttyped_tac. Qed.
#[local] Hint Resolve ttyped_ath_node_vdelete_tgt : typed.
Lemma ttyped_copy_node data n : ttyped (copy_node data n : TG _). Proof. unfold copy_node. ttyped_tac. Qed.
#[local] Hint Resolve ttyped_copy_node : typed.
Lemma ttyped_ioread32 a : ttyped (ioread32 a : TG _). Proof. unfold ioread32. ttyped_tac. Qed.
#[local] Hint Resolve ttyped_ioread32 : typed.
Lemma ttyped_iowrite32 a v : ttyped (iowrite32 a v : TG _). Proof. unfold iowrite32. ttyped_tac. Qed.
#[local] Hint Resolve ttyped_iowrite32 : typed.
Lemma ttyped_ath_reg_read_filter addr : ttyped (ath_reg_read_filter addr : TG _). Proof. unfold ath_reg_read_filter. ttyped_tac. Qed.
#[local] Hint Resolve ttyped_ath_reg_read_filter : typed.
Lemma ttyped_ath_pll_reset_ones : ttyped (ath_pll_reset_ones : TG _). Proof. unfold ath_pll_reset_ones. ttyped_tac. Qed.
#[local] Hint Resolve ttyped_ath_pll_reset_ones : typed.
Lemma ttyped_ath_hal_reg_write_filter reg val : ttyped (ath_hal_reg_write_filter reg val : TG _). Proof. unfold ath_hal_reg_write_filter. ttyped_tac. Qed.
#[local] Hint Resolve ttyped_ath_hal_reg_write_filter : typed.
Lemma ttyped_reg_read_loop is_ : ∀ data val, ttyped (reg_read_loop is_ data val : TG _). Proof. induction is_; intros; cbn [reg_read_loop]; ttyped_tac. Qed.
#[local] Hint Resolve ttyped_reg_read_loop : typed.
Lemma ttyped_rd_rateset a : ttyped (rd_rateset a : TG _). Proof. unfold rd_rateset. ttyped_tac. Qed.
#[local] Hint Resolve ttyped_rd_rateset : typed.
Lemma ttyped_rd_rate a : ttyped (rd_rate a : TG _). Proof. unfold rd_rate. ttyped_tac. Qed.
#[local] Hint Resolve ttyped_rd_rate : typed.
Lemma ttyped_band_upd band v p : ttyped (band_upd band v p : TG _). Proof. unfold band_upd. ttyped_tac. Qed.
#[local] Hint Resolve ttyped_band_upd : typed.
Lemma ttyped_free_skbhead n : ∀ q, ttyped (free_skbhead n q : TG _). Proof. induction n; intros; cbn [free_skbhead]; ttyped_tac. Qed.
#[local] Hint Resolve ttyped_free_skbhead : typed.
Lemma ttyped_cleanup_txbuf p : ttyped (cleanup_txbuf p : TG _). Proof. unfold cleanup_txbuf. ttyped_tac. Qed.
#[local] Hint Resolve ttyped_cleanup_txbuf : typed.
Lemma ttyped_cleanup_rxbuf i : ttyped (cleanup_rxbuf i : TG _). Proof. unfold cleanup_rxbuf. ttyped_tac. Qed.
#[local] Hint Resolve ttyped_cleanup_rxbuf : typed.
Lemma ttyped_ath_desc_free : ttyped (ath_desc_free : TG _). Proof. unfold ath_desc_free. ttyped_tac. Qed.
#[local] Hint Resolve ttyped_ath_desc_free : typed.

(** ** Loading a node from a message: the record is copied, then stored whole. *)
Lemma reads_trd8 a : keeps id (trd8 a : TG Z).
Proof. intros t v t' E. unfold trd8, tx, rd8, gets in E. injection E as <- <-. by destruct t as [[]]. Qed.
Lemma reads_trd16 a : keeps id (trd16 a : TG Z).
Proof.
  unfold trd16. do 2 (apply keeps_bind; [apply reads_trd8|intros ?]). apply keeps_ret.
Qed.
Lemma reads_trd_bytes n : ∀ a, keeps id (trd_bytes n a : TG _).
Proof.
  induction n as [|n IH]; intros a; cbn; [apply keeps_ret|].
  apply keeps_bind; [apply reads_trd8|intros ?]. apply keeps_bind; [apply IH|intros ?]. apply keeps_ret.
Qed.
Lemma copy_node_spec data n t n' t' : copy_node data n t = Ok (n', t') → t' = t ∧ (node_ok n → node_ok n').
Proof.
  unfold copy_node. intros E. split.
  - revert E. match goal with |- ?m t = _ → _ => assert (keeps id m) as K; [|apply K] end.
    do 8 (apply keeps_bind; [first [apply reads_trd8|apply reads_trd16|apply reads_trd_bytes]|intros ?]).
    apply keeps_ret.
  - intros [H1 H2 H3 H4 H5]. do 8 apply bind_inv in E as (? & ? & _ & E). injection E as <- <-.
    split; [exact H1|exact H2|exact H3|exact H4|exact H5].
Qed.
Lemma ttyped_load_node data : ttyped (load_node data : TG _).
Proof.
  intros t r t' E. unfold load_node in E. apply bind_inv in E as (i & t1 & E1 & E).
  apply reads_trd8 in E1. unfold id in E1. subst t1. apply bind_inv in E as (n & t2 & E2 & E).
  unfold tx in E2. destruct (rd_node (Z.to_nat i) (tg_sc t)) as [[x s]|] eqn:Er; [|done].
  apply rd_node_inv in Er as [-> Hn]. injection E2 as <- <-. apply bind_inv in E as (n' & t3 & E3 & E).
  apply copy_node_spec in E3 as [-> Hok]. apply bind_inv in E as ([] & t4 & E4 & E). injection E as _ <-.
  unfold tx in E4. cbn in E4.
  unfold upd_node, rd_node, mbind, M_bind in E4. cbn in E4. rewrite Hn in E4. injection E4 as <-.
  split; try done. split; try done; cbn; [|by rewrite length_insert|exists []; by rewrite app_nil_r].
  intros []. split; try done. cbn. apply Forall_insert; [done|].
  assert (node_ok n') as [? ? ? ? ?] by (apply Hok; rewrite Forall_lookup in so_nodes; by eapply so_nodes).
  by split.
Qed.
#[local] Hint Resolve ttyped_load_node : typed.
(** ** The command handlers *)

(** [m] keeps the typing and answers nothing, until it ends by answering the command. *)
Definition answers (c s : Z) (m : TG unit) : Prop := ∀ t t', m t = Ok (tt, t') →
  ∃ t1 data, tfollows t t1 ∧ trsp c s data t1 = Ok (tt, t').
Lemma answers_rsp c s data : answers c s (trsp c s data).
Proof. intros t t' E. exists t, data. split; [apply tfollows_refl|done]. Qed.
Lemma answers_bind {A} c s (m : TG A) k : ttyped m → (∀ a, answers c s (k a)) → answers c s (m ≫= k).
Proof.
  intros Hm Hk t t' (a & t1 & E1 & E2)%bind_inv. destruct (Hk _ _ _ E2) as (t2 & data & H & E).
  exists t2, data. split; [|done]. eapply tfollows_trans; [by eapply Hm|done].
Qed.
Lemma answers_fail c s e : answers c s (fail e).
Proof. by intros t t'. Qed.
Ltac answers_step :=
  match goal with
  | |- answers _ _ (_ ≫= _) => apply answers_bind; [ttyped_tac|intros ?]
  | |- answers _ _ (trsp _ _ _) => apply answers_rsp
  | |- answers _ _ (fail _) => apply answers_fail
  | |- answers _ _ (match ?x with _ => _ end) => destruct x
  end.
Ltac answers_tac := repeat answers_step.

Context (fuel : nat).
Create HintDb answers.
Lemma answers_ath_enable_intr_tgt c s d n : answers c s (ath_enable_intr_tgt c s d n : TG _).
Proof. unfold ath_enable_intr_tgt. answers_tac. Qed.
Lemma answers_ath_init_tgt c s d n : answers c s (ath_init_tgt c s d n : TG _).
Proof. unfold ath_init_tgt. answers_tac. Qed.
Lemma answers_ath_disable_intr_tgt c s d n : answers c s (ath_disable_intr_tgt c s d n : TG _).
Proof. unfold ath_disable_intr_tgt. answers_tac. Qed.
Lemma answers_ath_int_stats_tgt c s d n : answers c s (ath_int_stats_tgt c s d n : TG _).
Proof. unfold ath_int_stats_tgt. answers_tac. Qed.
Lemma answers_ath_tx_stats_tgt c s d n : answers c s (ath_tx_stats_tgt c s d n : TG _).
Proof. unfold ath_tx_stats_tgt. answers_tac. Qed.
Lemma answers_ath_rx_stats_tgt c s d n : answers c s (ath_rx_stats_tgt c s d n : TG _).
Proof. unfold ath_rx_stats_tgt. answers_tac. Qed.
Lemma answers_ath_get_tgt_version c s d n : answers c s (ath_get_tgt_version c s d n : TG _).
Proof. unfold ath_get_tgt_version. answers_tac. Qed.
Lemma answers_ath_enable_aggr_tgt c s d n : answers c s (ath_enable_aggr_tgt c s d n : TG _).
Proof. unfold ath_enable_aggr_tgt. answers_tac. Qed.
Lemma answers_ath_ic_update_tgt c s d n : answers c s (ath_ic_update_tgt c s d n : TG _).
Proof. unfold ath_ic_update_tgt. answers_tac. Qed.
Lemma answers_ath_vap_create_tgt c s d n : answers c s (ath_vap_create_tgt c s d n : TG _).
Proof. unfold ath_vap_create_tgt. answers_tac. Qed.
Lemma answers_ath_vap_delete_tgt c s d n : answers c s (ath_vap_delete_tgt c s d n : TG _).
Proof. unfold ath_vap_delete_tgt. answers_tac. Qed.
Lemma answers_ath_node_create_tgt c s d n : answers c s (ath_node_create_tgt c s d n : TG _).
Proof. unfold ath_node_create_tgt. answers_tac. Qed.
Lemma answers_ath_node_cleanup_tgt c s d n : answers c s (ath_node_cleanup_tgt c s d n : TG _).
Proof. unfold ath_node_cleanup_tgt. answers_tac. Qed.
Lemma answers_ath_node_update_tgt c s d n : answers c s (ath_node_update_tgt c s d n : TG _).
Proof. unfold ath_node_update_tgt. answers_tac. Qed.
Lemma answers_ath_hal_reg_read_tgt c s d n : answers c s (ath_hal_reg_read_tgt c s d n : TG _).
Proof. unfold ath_hal_reg_read_tgt. answers_tac. Qed.
Lemma answers_ath_hal_reg_write_tgt c s d n : answers c s (ath_hal_reg_write_tgt c s d n : TG _).
Proof. unfold ath_hal_reg_write_tgt. answers_tac. Qed.
Lemma answers_ath_hal_reg_rmw_tgt c s d n : answers c s (ath_hal_reg_rmw_tgt c s d n : TG _).
Proof. unfold ath_hal_reg_rmw_tgt. answers_tac. Qed.
Lemma answers_ath_flushrecv_tgt c s d n : answers c s (ath_flushrecv_tgt c s d n : TG _).
Proof. unfold ath_flushrecv_tgt. answers_tac. Qed.
Lemma answers_ath_tx_draintxq_tgt c s d n : answers c s (ath_tx_draintxq_tgt fuel c s d n : TG _).
Proof. unfold ath_tx_draintxq_tgt. answers_tac. Qed.
Lemma answers_ath_draintxq_tgt c s d n : answers c s (ath_draintxq_tgt fuel c s d n : TG _).
Proof. unfold ath_draintxq_tgt. answers_tac. Qed.
Lemma answers_ath_aborttx_dma_tgt c s d n : answers c s (ath_aborttx_dma_tgt c s d n : TG _).
Proof. unfold ath_aborttx_dma_tgt. answers_tac. Qed.
Lemma answers_ath_aborttxq_tgt c s d n : answers c s (ath_aborttxq_tgt fuel c s d n : TG _).
Proof. unfold ath_aborttxq_tgt. answers_tac. Qed.
Lemma answers_ath_stop_tx_dma_tgt c s d n : answers c s (ath_stop_tx_dma_tgt c s d n : TG _).
Proof. unfold ath_stop_tx_dma_tgt. answers_tac. Qed.
Lemma answers_ath_startrecv_tgt c s d n : answers c s (ath_startrecv_tgt c s d n : TG _).
Proof. unfold ath_startrecv_tgt. answers_tac. Qed.
Lemma answers_ath_stoprecv_tgt c s d n : answers c s (ath_stoprecv_tgt c s d n : TG _).
Proof. unfold ath_stoprecv_tgt. answers_tac. Qed.
Lemma answers_ath_setcurmode_tgt c s d n : answers c s (ath_setcurmode_tgt c s d n : TG _).
Proof. unfold ath_setcurmode_tgt. answers_tac. Qed.
Lemma answers_handle_rc_state_change_cmd c s d n : answers c s (handle_rc_state_change_cmd c s d n : TG _).
Proof. unfold handle_rc_state_change_cmd. answers_tac. Qed.
Lemma answers_handle_rc_rate_update_cmd c s d n : answers c s (handle_rc_rate_update_cmd c s d n : TG _).
Proof. unfold handle_rc_rate_update_cmd. answers_tac. Qed.
Lemma answers_ath_rc_mask_tgt c s d n : answers c s (ath_rc_mask_tgt c s d n : TG _).
Proof. unfold ath_rc_mask_tgt. answers_tac. Qed.
Lemma answers_ath_detach_tgt c s d n : answers c s (ath_detach_tgt c s d n : TG _).
Proof. unfold ath_detach_tgt. answers_tac. Qed.
Lemma answers_handle_echo_command c s d n : answers c s (handle_echo_command c s d n : TG _).
Proof. by intros t t' E. Qed.
Lemma answers_dispatch_magpie_sys_cmds c s d n : answers c s (dispatch_magpie_sys_cmds c s d n : TG _).
Proof. by intros t t' E. Qed.
#[local] Hint Resolve answers_ath_enable_intr_tgt answers_ath_init_tgt answers_ath_disable_intr_tgt answers_ath_int_stats_tgt answers_ath_tx_stats_tgt answers_ath_rx_stats_tgt answers_ath_get_tgt_version answers_ath_enable_aggr_tgt answers_ath_ic_update_tgt answers_ath_vap_create_tgt answers_ath_vap_delete_tgt answers_ath_node_create_tgt answers_ath_node_cleanup_tgt answers_ath_node_update_tgt answers_ath_hal_reg_read_tgt answers_ath_hal_reg_write_tgt answers_ath_hal_reg_rmw_tgt answers_ath_flushrecv_tgt answers_ath_tx_draintxq_tgt answers_ath_draintxq_tgt answers_ath_aborttx_dma_tgt answers_ath_aborttxq_tgt answers_ath_stop_tx_dma_tgt answers_ath_startrecv_tgt answers_ath_stoprecv_tgt answers_ath_setcurmode_tgt answers_handle_rc_state_change_cmd answers_handle_rc_rate_update_cmd answers_ath_rc_mask_tgt answers_ath_detach_tgt answers_handle_echo_command answers_dispatch_magpie_sys_cmds : answers.
Definition answering (e : Z * (Z → Z → Z → Z → TG unit)) : Prop :=
  ∀ c s data len, answers c s (e.2 c s data len).
Lemma handlers_answer : Forall answering (magpie_sys_table fuel).
Proof.
  unfold magpie_sys_table.
  repeat (apply List.Forall_cons; [intros c s data len; cbn [snd]; auto with answers nocore|]).
  apply List.Forall_nil.
Qed.
End ops.
