(* ===== verification/IfSteps.v ===== *)
(** * The target as a transition system

    The steps of the running target: what WMI, HTC and the main loop call, and what the chip,
    the bus and the host do to it in between (nothing preempts a call). Along every run the
    typing is kept, and the replies handed to HTC are those of the commands that were run, in
    their order. *)

From S2P Require Import Prelude.
From S2P Require Import NBuf.
From S2P Require Import Hal.
From S2P Require Import TxSample.
From S2P Require Import TxTypes.
From S2P Require Import TxEvent.
From S2P Require Import TxInv.
From S2P Require Import TxTyped.
From S2P Require Import Tasklet.
From S2P Require Import IfTypes.
From S2P Require Import IfRecv.
From S2P Require Import IfCmd.
From S2P Require Import IfWmi.
From S2P Require Import IfTyped.

Section steps.
Context {HW RC : Type} `{!Mmio HW} `{!RateControl RC} `{!RateAdmin RC}.
Context (fuel : nat).
Abbreviation TG := (M (tgt HW RC)).
Implicit Type t : tgt HW RC.

(** ** Running the tasklets *)
#[local] Instance fueled_tasklets : HasTasklets ath_tq (tgt HW RC) := tgt_tasklets fuel.

Lemma ttyped_func k : ttyped (func k : TG unit).
Proof.
  destruct k; cbn; [apply ttyped_ath_tgt_rx_tasklet|apply ttyped_tx, typed_owl_tgt_tx_tasklet
    |apply ttyped_ath_bmiss_tasklet|apply ttyped_ath_fatal_tasklet].
Qed.
Lemma ttyped_upd_task f : ttyped (upd_task f : TG unit).
Proof. apply ttyped_modify. intros t. by apply tfollows_same. Qed.
#[local] Hint Resolve ttyped_func ttyped_upd_task ttyped_ath_intr : typed.
Lemma ttyped_tasklet_run_loop n : ∀ k, ttyped (tasklet_run_loop n k : TG unit).
Proof. induction n; intros []; cbn [tasklet_run_loop]; ttyped_tac. Qed.
#[local] Hint Resolve ttyped_tasklet_run_loop : typed.
Lemma ttyped_A_TASKLET_RUN : ttyped (A_TASKLET_RUN fuel : TG unit).
Proof. unfold A_TASKLET_RUN, cmnos_tasklet_run. ttyped_tac. Qed.
Lemma ttyped_wlan_pci_isr : ttyped (wlan_pci_isr fuel : TG unit).
Proof. unfold wlan_pci_isr. ttyped_tac. Qed.

(** ** Steps *)

(** What the rest of the machine may change between two calls: the chip's registers and
    descriptors, the buffers, the memory. *)
Definition devices (h : ath_hal HW) (n : nb_state) (mem : gmap Z Z) (ds : gmap Z ath_tx_desc)
    (rxd : list rx_desc) (t : tgt HW RC) : tgt HW RC :=
  t <| tg_sc ::= λ s, s <| sc_hal := h |> <| sc_nb := n |> <| sc_mem := mem |> <| sc_descs := ds |> |>
    <| rx_descs := rxd |>.

(** The entry points; a step is labelled with the command and the sequence number it runs. *)
Inductive tgt_step : list (Z * Z) → tgt HW RC → tgt HW RC → Prop :=
  | step_command e SeqNo data len t t' :
      e ∈ magpie_sys_table fuel → in_u16 SeqNo → e.2 e.1 SeqNo data len t = Ok (tt, t') → tgt_step [(e.1, SeqNo)] t t'
  | step_data ep hdr buf t t' : tgt_HTCRecvMessageHandler ep hdr buf t = Ok (tt, t') → tgt_step [] t t'
  | step_mgmt ep hdr buf t t' : tgt_HTCRecv_mgmthandler ep hdr buf t = Ok (tt, t') → tgt_step [] t t'
  | step_beacon ep hdr buf t t' : tgt_HTCRecv_beaconhandler ep hdr buf t = Ok (tt, t') → tgt_step [] t t'
  | step_uapsd ep hdr buf t t' : tgt_HTCRecv_uapsdhandler ep hdr buf t = Ok (tt, t') → tgt_step [] t t'
  | step_cab ep hdr buf t t' : tgt_HTCRecv_cabhandler ep hdr buf t = Ok (tt, t') → tgt_step [] t t'
  | step_complete ep buf t t' : tgt_HTCSendCompleteHandler ep buf t = Ok (tt, t') → tgt_step [] t t'
  | step_interrupt t t' : wlan_pci_isr fuel t = Ok (tt, t') → tgt_step [] t t'
  | step_tasklets t t' : A_TASKLET_RUN fuel t = Ok (tt, t') → tgt_step [] t t'
  | step_devices h n mem ds rxd t :
      map_Forall (λ _ b, in_u8 b) mem → length rxd = length (rx_descs t) →
      tgt_step [] t (devices h n mem ds rxd t).

(** Runs, with the commands they run. *)
Inductive tgt_run : list (Z * Z) → tgt HW RC → tgt HW RC → Prop :=
  | run_none t : tgt_run [] t t
  | run_more cs l t1 t2 t3 : tgt_run cs t1 t2 → tgt_step l t2 t3 → tgt_run (cs ++ l) t1 t3.

(** The answers among the messages for the host, as it reads their bytes: an identifier without
    the bit of the events, and the sequence number. *)
Definition answer_of (e : host_event) : list (Z * Z) :=
  match e with
  | WMI_SendMsg_ev _ msg => if tst (msg_id msg) 0x1000 then [] else [(msg_id msg, msg_seq msg)]
  | _ => []
  end.
Definition answers_to (evs : list host_event) : list (Z * Z) := evs ≫= answer_of.

Lemma answers_to_app l1 l2 : answers_to (l1 ++ l2) = answers_to l1 ++ answers_to l2.
Proof. apply bind_app. Qed.
Lemma answers_to_none l : Forall no_rsp l → answers_to l = [].
Proof. induction 1 as [|e l He _ IH]; [done|]. unfold answers_to in *. cbn. rewrite IH. destruct e; cbn in *; try done. by rewrite He. Qed.
Lemma follows_answers (s s' : softc HW RC) : follows s s' → answers_to (sc_host s') = answers_to (sc_host s).
Proof.
  intros H. destruct (fo_host _ _ H) as (evs & -> & Hn).
  by rewrite answers_to_app, (answers_to_none evs), app_nil_r by done.
Qed.

(** What a step promises: the typing, the lengths of the arrays, the answers it adds. *)
Record served (l : list (Z * Z)) (t t' : tgt HW RC) : Prop := {
  sv_ok : sc_ok (tg_sc t) → sc_ok (tg_sc t');
  sv_sta : length (sc_sta (tg_sc t')) = length (sc_sta (tg_sc t));
  sv_vap : length (sc_vap (tg_sc t')) = length (sc_vap (tg_sc t));
  sv_bufs : length (sc_bufs (tg_sc t')) = length (sc_bufs (tg_sc t));
  sv_rxb : length (rx_bufs t') = length (rx_bufs t);
  sv_rxd : length (rx_descs t') = length (rx_descs t);
  sv_answers : answers_to (sc_host (tg_sc t')) = answers_to (sc_host (tg_sc t)) ++ l }.

Lemma served_tfollows t t' : tfollows t t' → served [] t t'.
Proof. intros [F ? ? ?]. pose proof (follows_answers _ _ F). destruct F. split; try done. by rewrite app_nil_r. Qed.
(** The identifiers of the commands. *)
Definition is_command (c : Z) : Prop := in_u16 c ∧ tst c 0x1000 = false.
Lemma table_commands : Forall (λ e, is_command e.1) (magpie_sys_table fuel : list (Z * (Z → Z → Z → Z → TG unit))).
Proof. unfold magpie_sys_table. repeat (apply List.Forall_cons; [by vm_compute|]). apply List.Forall_nil. Qed.
Lemma answer_of_reply buf c s d : is_command c → in_u16 s → answer_of (WMI_SendMsg_ev buf (header c s ++ d)) = [(c, s)].
Proof.
  intros [Hc Hb] Hs. unfold answer_of. rewrite msg_id_header, msg_seq_header, !u16_small by done. by rewrite Hb.
Qed.
Lemma served_rsp c s data t t' :
  is_command c → in_u16 s → trsp c s data t = Ok (tt, t') → served [(c, s)] t t'.
Proof.
  intros Hc Hs E. unfold trsp, tx in E.
  destruct (wmi_cmd_rsp c s data (tg_sc t)) as [[[] s']|] eqn:E1; [|done]. injection E as <-.
  apply follows_rsp in E1 as (buf & s1 & d & F & ->). pose proof (follows_answers _ _ F). destruct F.
  split; cbn; try done; [by intros []%fo_ok; split|].
  rewrite answers_to_app, H. f_equal. unfold answers_to. rewrite bind_singleton.
  by apply (answer_of_reply buf c s d).
Qed.
Lemma served_trans l1 l2 t1 t2 t3 : served l1 t1 t2 → served l2 t2 t3 → served (l1 ++ l2) t1 t3.
Proof.
  intros [A1 B1 C1 D1 E1 F1 G1] [A2 B2 C2 D2 E2 F2 G2]. split; [auto|congruence..|].
  by rewrite G2, G1, app_assoc.
Qed.
Lemma served_ttyped (m : TG unit) t t' : ttyped m → m t = Ok (tt, t') → served [] t t'.
Proof. intros Hm E. by apply served_tfollows, (Hm _ _ _ E). Qed.

Lemma step_served l t t' : tgt_step l t t' → served l t t'.
Proof.
  destruct 1 as [e s data len t t' He Hs E| | | | | | | | |h n mem ds rxd t Hm Hl]; try (eapply served_ttyped; [|eassumption]).
  - pose proof (handlers_answer fuel) as H. rewrite Forall_forall in H.
    destruct (H e He e.1 s data len t t' E) as (t1 & rsp & Hf & Hr).
    apply (served_trans [] [(e.1, s)] _ t1); [by apply served_tfollows|eapply served_rsp; [|done|exact Hr]].
    pose proof table_commands as Hc. rewrite Forall_forall in Hc. by apply Hc.
  - apply ttyped_tgt_HTCRecvMessageHandler.
  - apply ttyped_tgt_HTCRecv_mgmthandler.
  - apply ttyped_tgt_HTCRecv_beaconhandler.
  - apply ttyped_tgt_HTCRecv_uapsdhandler.
  - apply ttyped_tgt_HTCRecv_cabhandler.
  - apply ttyped_tgt_HTCSendCompleteHandler.
  - apply ttyped_wlan_pci_isr.
  - apply ttyped_A_TASKLET_RUN.
  - split; try done; [|by rewrite app_nil_r]. intros []. by split.
Qed.
Lemma run_served cs t t' : tgt_run cs t t' → served cs t t'.
Proof.
  induction 1 as [t|cs l t1 t2 t3 _ IH Hs]; [apply served_tfollows, tfollows_refl|].
  eapply served_trans; [exact IH|by apply step_served].
Qed.

(** C5: The typing of the target's state is an invariant of every run, whatever the host sends
    and the chip does: the sequence numbers stay below 4096, the positions in the block-ack
    ring below 128, the words of the bitmaps, the counters, the queue depths and the bytes of
    memory in their widths, eight TIDs in each node; and no array changes its length. *)
Theorem run_keeps_types cs t t' :
  tgt_run cs t t' → sc_ok (tg_sc t) →
  sc_ok (tg_sc t') ∧ length (sc_sta (tg_sc t')) = length (sc_sta (tg_sc t)) ∧
  length (sc_vap (tg_sc t')) = length (sc_vap (tg_sc t)) ∧
  length (sc_bufs (tg_sc t')) = length (sc_bufs (tg_sc t)) ∧
  length (rx_bufs t') = length (rx_bufs t) ∧ length (rx_descs t') = length (rx_descs t).
Proof. intros H. destruct (run_served _ _ _ H). auto 10. Qed.

(** C4: One answer is sent for each command that runs to its end, with the command's own
    identifier and sequence number, in the order of the commands, and no other answer: along
    every run, interleaved with frames, completions, events, interrupts and tasklets in any
    way, the answers among the messages given to HTC are the commands that were run. A message
    is the bytes in the buffer of the WMI service, which the host reads as an answer when its
    identifier lacks the bit 0x1000 of the events. A command that finds no free reply buffer
    ends in an assertion: it is no step of a run. *)
Theorem run_answers_commands cs t t' :
  tgt_run cs t t' → answers_to (sc_host (tg_sc t')) = answers_to (sc_host (tg_sc t)) ++ cs.
Proof. intros H. apply (sv_answers _ _ _ (run_served _ _ _ H)). Qed.

End steps.
