(* ===== verification/IfHeap.v ===== *)
(** * The buffers of the receive path

    Who owns which buffer: the armed descriptors, the frame being collected, the receive
    pool, the free buffer headers, the frames on their way to the host. The predicate
    [rx_heap] says that these lists are disjoint and that the buffers in them have the
    shape the receive path relies on; each buffer operation moves one buffer from one list
    to another. *)

From S2P Require Import Prelude.
From S2P Require Import NBufProps.
From S2P Require Import IfTypes.

(** ** What ownership depends on

    The links of the heap, without the sizes. *)
Record heap_view := mk_hv {
  hv_next : gmap Z Z; hv_desc : gmap Z Z; hv_dnext : gmap Z Z; hv_bufQ : list Z; hv_free : Z }.
#[export] Instance eta_hv : EtaExp heap_view := λ v,
  mk_hv (hv_next v) (hv_desc v) (hv_dnext v) (hv_bufQ v) (hv_free v).
Definition view (n : nb_state) : heap_view :=
  mk_hv (next_buf <$> vbufs n) (desc_list <$> vbufs n) (next_desc <$> vdescs n) (bufQ n)
    (free_buf_head n).

(** A buffer of one descriptor, and one that has at least one. *)
Definition frag (v : heap_view) (a : Z) : Prop :=
  a ≠ 0 ∧ ∃ d, hv_desc v !! a = Some d ∧ d ≠ 0 ∧ hv_dnext v !! d = Some 0.
Definition framed (v : heap_view) (a : Z) : Prop :=
  a ≠ 0 ∧ ∃ d, hv_desc v !! a = Some d ∧ is_Some (hv_dnext v !! d).
Definition desc_of (v : heap_view) (a : Z) : Z := default 0 (hv_desc v !! a).
(** The descriptors that make up a buffer, in their order. *)
Definition consists_of (v : heap_view) (a : Z) (ds : list Z) : Prop :=
  lchain (λ d, hv_dnext v !! d) (desc_of v a) ds.
(** No buffer has gained or lost a descriptor. *)
Definition same_chains (v v' : heap_view) : Prop := hv_desc v' = hv_desc v ∧ hv_dnext v' = hv_dnext v.
Lemma same_chains_trans v1 v2 v3 : same_chains v1 v2 → same_chains v2 v3 → same_chains v1 v3.
Proof. intros [H1 H2] [H3 H4]. split; congruence. Qed.
Lemma consists_kept v v' a ds : same_chains v v' → consists_of v a ds → consists_of v' a ds.
Proof. intros [H1 H2]. unfold consists_of, desc_of. by rewrite H1, H2. Qed.

Record rx_heap (v : heap_view) (live coll pool free frames : list Z) : Prop := {
  rh_pool : ∃ h, hv_bufQ v !! POOL_ID_WLAN_RX_BUF = Some h ∧ lchain (λ a, hv_next v !! a) h pool;
  rh_free : lchain (λ a, hv_next v !! a) (hv_free v) free;
  rh_nodup : NoDup (live ++ coll ++ pool ++ free ++ frames);
  rh_descs : NoDup (map (desc_of v) (live ++ coll ++ pool));
  rh_frag : Forall (frag v) (live ++ coll ++ pool);
  rh_lone : Forall (λ a, hv_next v !! a = Some 0) live;
  rh_frames : Forall (framed v) frames;
}.

Lemma view_next n a : hv_next (view n) !! a = vnext n a.
Proof. cbn. by rewrite lookup_fmap. Qed.
Lemma view_desc n a d :
  hv_desc (view n) !! a = Some d → ∃ b, vbufs n !! a = Some b ∧ desc_list b = d.
Proof. cbn. rewrite lookup_fmap. intros (b & ? & ->)%fmap_Some. eauto. Qed.
Lemma view_dnext n d x :
  hv_dnext (view n) !! d = Some x → ∃ e, vdescs n !! d = Some e ∧ next_desc e = x.
Proof. cbn. rewrite lookup_fmap. intros (b & ? & ->)%fmap_Some. eauto. Qed.
Lemma frag_at n a : frag (view n) a →
  ∃ b d, vbufs n !! a = Some b ∧ vdescs n !! desc_list b = Some d ∧ next_desc d = 0 ∧
         desc_list b ≠ 0 ∧ a ≠ 0.
Proof.
  intros (Ha & d & (b & Hb & <-)%view_desc & Hd & (e & He & Hn)%view_dnext). by exists b, e.
Qed.

Section heap.
Implicit Types (v : heap_view) (n : nb_state) (live coll pool free frames : list Z).

Lemma rx_heap_perm v live live' coll pool free frames :
  live ≡ₚ live' → rx_heap v live coll pool free frames → rx_heap v live' coll pool free frames.
Proof.
  intros Hp [? ? ? ? ? ? ?]. split; try done.
  - by rewrite <-Hp.
  - by rewrite <-Hp.
  - by rewrite <-Hp.
  - by rewrite <-Hp.
Qed.

(** Two views that differ only in the links of buffers outside the lists. *)
Lemma rx_heap_next v v' live coll pool free frames :
  (∀ a, a ∈ live ++ pool ++ free → hv_next v' !! a = hv_next v !! a) →
  hv_desc v' = hv_desc v → hv_dnext v' = hv_dnext v → hv_bufQ v' = hv_bufQ v →
  hv_free v' = hv_free v →
  rx_heap v live coll pool free frames → rx_heap v' live coll pool free frames.
Proof.
  intros Hn Hd He Hq Hf [(h & Hh & Hp) Hfr Hnd Hds Hfg Hl Hfm]. split; try done.
  - exists h. rewrite Hq. split; [done|]. eapply lchain_ext; [|exact Hp].
    intros a Ha. apply Hn. set_solver.
  - rewrite Hf. eapply lchain_ext; [|exact Hfr]. intros a Ha. apply Hn. set_solver.
  - unfold desc_of. by rewrite Hd.
  - unfold frag. by rewrite Hd, He.
  - rewrite Forall_forall in *. intros a Ha. rewrite Hn by set_solver. auto.
  - unfold framed. by rewrite Hd, He.
Qed.

(** *** Taking a buffer from the pool and giving one back *)

Lemma pool_of n live coll pool free frames :
  rx_heap (view n) live coll pool free frames → poolrep n POOL_ID_WLAN_RX_BUF pool.
Proof.
  intros H. destruct (rh_pool _ _ _ _ _ _ H) as (h & Hh & Hl). exists h. split; [done|].
  eapply lchain_ext; [|exact Hl]. intros a _. cbv beta. by rewrite view_next.
Qed.

Lemma rx_pool_empty n live coll free frames r :
  rx_heap (view n) live coll [] free frames →
  _buf_pool_static_alloc_buf POOL_ID_WLAN_RX_BUF r n = Ok (0, n).
Proof.
  intros (h & Hh & Hl)%pool_of. cbn in Hl. subst h.
  unfold _buf_pool_static_alloc_buf. by erewrite bind_ok by by apply run_rd_bufQ.
Qed.

(** The free buffer headers are not the pools' business. *)
Lemma keeps_free_upd_vbuf p f : keeps free_buf_head (upd_vbuf p f).
Proof. unfold upd_vbuf, rd_vbuf. keeps_tac. Qed.
Lemma keeps_free_upd_vdesc p f : keeps free_buf_head (upd_vdesc p f).
Proof. unfold upd_vdesc, rd_vdesc. keeps_tac. Qed.
Lemma keeps_free_wr_bufQ id h : keeps free_buf_head (wr_bufQ id h).
Proof. unfold wr_bufQ, rd_bufQ. keeps_tac. Qed.
#[local] Hint Resolve keeps_free_upd_vbuf keeps_free_upd_vdesc keeps_free_wr_bufQ : keeps.
Lemma keeps_free_pool_alloc id r : keeps free_buf_head (_buf_pool_static_alloc_buf id r).
Proof. unfold _buf_pool_static_alloc_buf, rd_bufQ, rd_vbuf. keeps_tac. Qed.
Lemma keeps_free_pool_free id b : keeps free_buf_head (_buf_pool_static_free_buf id b).
Proof. unfold _buf_pool_static_free_buf, rd_bufQ. keeps_tac. Qed.
Lemma keeps_free_queue_add q b : keeps free_buf_head (adf_nbuf_queue_add q b).
Proof. unfold adf_nbuf_queue_add. keeps_tac. Qed.

(** Changing a field of one entry leaves the projection of the map that does not show it. *)
Lemma fmap_insert_same {A B} (f : A → B) (m : gmap Z A) k x y :
  m !! k = Some x → f y = f x → f <$> <[k := y]> m = f <$> m.
Proof. intros Hx Hf. rewrite fmap_insert, Hf. apply insert_id. by rewrite lookup_fmap, Hx. Qed.

Lemma rx_pool_alloc n live coll pool free frames a r :
  rx_heap (view n) live coll (a :: pool) free frames →
  ∃ n', _buf_pool_static_alloc_buf POOL_ID_WLAN_RX_BUF r n = Ok (a, n') ∧
    rx_heap (view n') (a :: live) coll pool free frames ∧
    (∀ q, qrep n q coll → qrep n' q coll) ∧ same_chains (view n) (view n').
Proof.
  intros H. pose proof (pool_of _ _ _ _ _ _ H) as Hp.
  assert (live ++ coll ++ a :: pool ≡ₚ a :: live ++ coll ++ pool) as Hperm by solve_Permutation.
  pose proof (rh_frag _ _ _ _ _ _ H) as Hfg. rewrite Hperm in Hfg.
  assert (frag (view n) a) as (b & d & Hb & Hd & Hnd & Hdn & Ha)%frag_at by by inversion Hfg.
  destruct (pool_alloc_spec n _ a pool b d r Hp Hb Hd) as (n' & E & (h & Hh & Hl) & Hv & Hvd).
  exists n'. split; [done|].
  assert (hv_desc (view n') = hv_desc (view n)) as Ed
    by (cbn; rewrite Hv; by eapply fmap_insert_same).
  assert (hv_dnext (view n') = hv_dnext (view n)) as Edn
    by (cbn; rewrite Hvd; by eapply fmap_insert_same).
  assert (hv_next (view n') = <[a := 0]> (hv_next (view n))) as En
    by (cbn; by rewrite Hv, fmap_insert).
  pose proof (keeps_free_pool_alloc _ _ _ _ _ E) as Ef.
  destruct H as [_ Hfr Hnd' Hds _ Hlo Hfm].
  assert (live ++ coll ++ (a :: pool) ++ free ++ frames ≡ₚ a :: live ++ coll ++ pool ++ free ++ frames)
    as Hperm' by solve_Permutation.
  rewrite Hperm' in Hnd'. pose proof Hnd' as [Hnin _]%NoDup_cons.
  split; [|split; [|done]; intros q [Hc Hr]; split; [|done]; eapply lchain_ext; [|exact Hc]; intros x Hx; cbv beta;
    rewrite <-!view_next, En, lookup_insert_ne; [done|]; intros ->; set_solver].
  split.
  - exists h. split; [done|]. eapply lchain_ext; [|exact Hl]. intros x _. cbv beta. by rewrite view_next.
  - rewrite En. cbn [view hv_free]. rewrite Ef. eapply lchain_ext; [|exact Hfr].
    intros x Hx. cbv beta. rewrite lookup_insert_ne; [done|]. intros ->. set_solver.
  - done.
  - unfold desc_of. rewrite Ed. by rewrite Hperm in Hds.
  - unfold frag. rewrite Ed, Edn. done.
  - rewrite En. constructor; [by rewrite lookup_insert_eq|]. rewrite Forall_forall in *.
    intros x Hx. rewrite lookup_insert_ne; [auto|]. intros ->. set_solver.
  - unfold framed. rewrite Ed, Edn. done.
Qed.

Lemma rx_pool_free n live coll pool free frames a :
  rx_heap (view n) (a :: live) coll pool free frames →
  ∃ n', _buf_pool_static_free_buf POOL_ID_WLAN_RX_BUF a n = Ok (tt, n') ∧
    rx_heap (view n') live coll (a :: pool) free frames ∧ (∀ q, qrep n q coll → qrep n' q coll) ∧
    same_chains (view n) (view n').
Proof.
  intros H. pose proof (pool_of _ _ _ _ _ _ H) as Hp.
  assert (live ++ coll ++ a :: pool ≡ₚ a :: live ++ coll ++ pool) as Hperm by solve_Permutation.
  destruct H as [_ Hfr Hnd Hds Hfg Hlo Hfm]. inversion Hlo as [|? ? Hz Hlo']; subst.
  assert (frag (view n) a) as (b & d & Hb & Hd & Hndx & Hdn & Ha)%frag_at by by inversion Hfg.
  rewrite view_next, (vnext_some _ _ _ Hb) in Hz. injection Hz as Hz.
  pose proof Hnd as [Hnin _]%NoDup_cons.
  destruct (pool_free_spec n _ pool a b Hp Hb Hz) as (n' & E & (h & Hh & Hl) & (x & Hv) & Hvd);
    [set_solver|done|].
  exists n'. split; [done|].
  assert (hv_desc (view n') = hv_desc (view n)) as Ed
    by (cbn; rewrite Hv; by eapply fmap_insert_same).
  assert (hv_dnext (view n') = hv_dnext (view n)) as Edn by (cbn; by rewrite Hvd).
  assert (hv_next (view n') = <[a := x]> (hv_next (view n))) as En
    by (cbn; by rewrite Hv, fmap_insert).
  pose proof (keeps_free_pool_free _ _ _ _ _ E) as Ef.
  split; [|split; [|done]; intros q [Hc Hr]; split; [|done]; eapply lchain_ext; [|exact Hc]; intros y Hy; cbv beta;
    rewrite <-!view_next, En, lookup_insert_ne; [done|]; intros ->; set_solver].
  split.
  - exists h. split; [done|]. eapply lchain_ext; [|exact Hl]. intros y _. cbv beta. by rewrite view_next.
  - rewrite En. cbn [view hv_free]. rewrite Ef. eapply lchain_ext; [|exact Hfr].
    intros y Hy. cbv beta. rewrite lookup_insert_ne; [done|]. intros ->. set_solver.
  - assert (live ++ coll ++ (a :: pool) ++ free ++ frames ≡ₚ a :: live ++ coll ++ pool ++ free ++ frames)
      as -> by solve_Permutation. done.
  - unfold desc_of. rewrite Ed. by rewrite Hperm.
  - unfold frag. rewrite Ed, Edn. by rewrite Hperm.
  - rewrite En. rewrite Forall_forall in *. intros y Hy. rewrite lookup_insert_ne; [auto|].
    intros ->. set_solver.
  - unfold framed. rewrite Ed, Edn. done.
Qed.

(** *** Collecting a frame *)
Lemma keeps_desc_next p f : (∀ b, desc_list (f b) = desc_list b) →
  keeps (λ n, desc_list <$> vbufs n) (upd_vbuf p f).
Proof.
  intros Hf n [] n' E. unfold upd_vbuf, rd_vbuf in E.
  destruct (vbufs n !! p) as [b|] eqn:Hb.
  - rewrite bind_assoc, (bind_ok _ _ _ _ _ (run_get n)), Hb in E. injection E as <-. cbn.
    by eapply fmap_insert_same.
  - rewrite bind_assoc, (bind_ok _ _ _ _ _ (run_get n)), Hb in E. done.
Qed.
Lemma keeps_desc_queue_add q b : keeps (λ n, desc_list <$> vbufs n) (adf_nbuf_queue_add q b).
Proof.
  unfold adf_nbuf_queue_add. apply keeps_bind; [by apply keeps_desc_next|]. intros _.
  apply keeps_bind; [|intros ?; apply keeps_ret].
  destruct (q_head q =? 0); [apply keeps_ret|].
  apply keeps_bind; [by apply keeps_desc_next|]. intros _. apply keeps_ret.
Qed.

Lemma rx_queue_add n live coll pool free frames q a :
  rx_heap (view n) (a :: live) coll pool free frames → qrep n q coll →
  Z.of_nat (length coll) < 4294967294 →
  ∃ q' n', adf_nbuf_queue_add q a n = Ok (q', n') ∧ qrep n' q' (coll ++ [a]) ∧
    rx_heap (view n') live (coll ++ [a]) pool free frames ∧ same_chains (view n) (view n').
Proof.
  intros H Hq Hlen. pose proof H as [Hp Hfr Hnd Hds Hfg Hlo Hfm].
  assert (frag (view n) a) as (b & d & Hb & Hd & Hndx & Hdn & Ha)%frag_at by by inversion Hfg.
  pose proof Hnd as [Hnin _]%NoDup_cons.
  destruct (queue_add_spec n q coll a b Hq Hb) as (q' & n' & E & Hq' & Hv & Hvd & HbQ);
    [set_solver|done..|].
  pose proof (keeps_free_queue_add _ _ _ _ _ E) as Ef.
  pose proof (keeps_desc_queue_add _ _ _ _ _ E) as Ed. cbv beta in Ed.
  exists q', n'. split_and!; [done..| |split; [exact Ed|cbn; by rewrite Hvd]].
  assert (live ++ (coll ++ [a]) ++ pool ≡ₚ a :: live ++ coll ++ pool) as Hperm by solve_Permutation.
  assert (live ++ (coll ++ [a]) ++ pool ++ free ++ frames ≡ₚ a :: live ++ coll ++ pool ++ free ++ frames)
    as Hperm' by solve_Permutation.
  apply (rx_heap_next (view n)).
  - intros x Hx. rewrite !view_next. unfold vnext. rewrite Hv; [done|].
    cbn in Hnd. apply NoDup_cons in Hnd as [? Hnd]. rewrite !NoDup_app in Hnd. set_solver.
  - done.
  - cbn. by rewrite Hvd.
  - done.
  - done.
  - split; try done.
    + by rewrite Hperm'.
    + by rewrite Hperm.
    + by rewrite Hperm.
    + by inversion Hlo.
Qed.

(** *** Joining the collected buffers

    A buffer whose descriptor has been taken over goes to the free headers. *)
Lemma rx_heap_retire v v' live a coll pool free frames :
  rx_heap v live (a :: coll) pool free frames →
  (∀ x, x ≠ a → hv_next v' !! x = hv_next v !! x) → hv_next v' !! a = Some (hv_free v) →
  (∀ x, x ≠ a → hv_desc v' !! x = hv_desc v !! x) →
  (∀ d, d ∈ map (desc_of v) (live ++ coll ++ pool) → hv_dnext v' !! d = hv_dnext v !! d) →
  (∀ d, is_Some (hv_dnext v !! d) → is_Some (hv_dnext v' !! d)) →
  hv_bufQ v' = hv_bufQ v → hv_free v' = a →
  rx_heap v' live coll pool (a :: free) frames.
Proof.
  intros [(h & Hh & Hp) Hfr Hnd Hds Hfg Hlo Hfm] Hn Ha Hd He Hes Hq Hf.
  assert (live ++ (a :: coll) ++ pool ++ free ++ frames ≡ₚ a :: live ++ coll ++ pool ++ free ++ frames)
    as Hperm by solve_Permutation.
  assert (live ++ (a :: coll) ++ pool ≡ₚ a :: live ++ coll ++ pool) as Hperm' by solve_Permutation.
  rewrite Hperm in Hnd. rewrite Hperm' in Hds, Hfg. pose proof Hnd as [Hnin _]%NoDup_cons.
  assert (∀ l, l ⊆ live ++ coll ++ pool ++ free ++ frames → a ∉ l) as Hout by set_solver.
  assert (∀ x, x ∈ live ++ coll ++ pool → desc_of v' x = desc_of v x) as Hdof.
  { intros x Hx. unfold desc_of. rewrite Hd; [done|]. intros ->. set_solver. }
  split.
  - exists h. rewrite Hq. split; [done|]. eapply lchain_ext; [|exact Hp].
    intros x Hx. apply Hn. intros ->. set_solver.
  - rewrite Hf. cbn. split_and!; [done|by inversion Hfg as [|? ? [? ?]]|]. exists (hv_free v).
    split; [done|]. eapply lchain_ext; [|exact Hfr]. intros x Hx. apply Hn. intros ->. set_solver.
  - assert (live ++ coll ++ pool ++ (a :: free) ++ frames ≡ₚ a :: live ++ coll ++ pool ++ free ++ frames)
      as -> by solve_Permutation. done.
  - cbn in Hds. apply NoDup_cons in Hds as [_ Hds].
    rewrite (map_ext_in (desc_of v') (desc_of v)); [done|]. intros x Hx%list_elem_of_In. auto.
  - apply Forall_cons in Hfg as [_ Hfg]. rewrite Forall_forall in *. intros x Hx.
    destruct (Hfg x Hx) as (? & d & Hxd & ? & Hdd). split; [done|]. exists d. split_and!; [|done|].
    + rewrite Hd; [done|]. intros ->. set_solver.
    + rewrite He; [done|]. apply list_elem_of_In, in_map_iff. exists x. split; [|by apply list_elem_of_In].
      unfold desc_of. by rewrite Hxd.
  - rewrite Forall_forall in *. intros x Hx. rewrite Hn; [auto|]. intros ->. set_solver.
  - rewrite Forall_forall in *. intros x Hx. destruct (Hfm x Hx) as (? & d & Hxd & ?).
    split; [done|]. exists d. rewrite Hd; [by auto|]. intros ->. set_solver.
Qed.

Lemma keeps_desc_queue_remove q : keeps (λ n, desc_list <$> vbufs n) (adf_nbuf_queue_remove q).
Proof.
  unfold adf_nbuf_queue_remove. destruct (q_head q =? 0); [apply keeps_ret|].
  apply keeps_bind; [unfold rd_vbuf; keeps_tac|]. intros b.
  apply keeps_bind; [by apply keeps_desc_next|]. intros _. apply keeps_ret.
Qed.
Lemma keeps_free_queue_remove q : keeps free_buf_head (adf_nbuf_queue_remove q).
Proof. unfold adf_nbuf_queue_remove, rd_vbuf. keeps_tac. Qed.

(** One turn of the loop: the oldest collected buffer. *)
Lemma frm_step n live a coll pool free frames q cnt tot dp fuel :
  rx_heap (view n) live (a :: coll) pool free frames → qrep n q (a :: coll) →
  (dp = 0 ∨ (dp ∉ map (desc_of (view n)) (live ++ (a :: coll) ++ pool) ∧ hv_dnext (view n) !! dp = Some 0)) →
  let da := desc_of (view n) a in
  ∃ q' tot' n', frm_frag_loop (S fuel) q cnt tot dp n =
      frm_frag_loop fuel q' (u32 (cnt + 1)) tot' da n' ∧
    rx_heap (view n') live coll pool (a :: free) frames ∧ qrep n' q' coll ∧
    da ∉ map (desc_of (view n')) (live ++ coll ++ pool) ∧ hv_dnext (view n') !! da = Some 0 ∧ da ≠ 0 ∧
    (∀ x, x ≠ a → hv_desc (view n') !! x = hv_desc (view n) !! x) ∧
    (∀ x, x ≠ dp ∨ dp = 0 → hv_dnext (view n') !! x = hv_dnext (view n) !! x) ∧
    (dp ≠ 0 → hv_dnext (view n') !! dp = Some da).
Proof.
  intros H Hq Hdp da. pose proof H as [Hp Hfr Hnd Hds Hfg Hlo Hfm].
  assert (live ++ (a :: coll) ++ pool ≡ₚ a :: live ++ coll ++ pool) as Hperm by solve_Permutation.
  rewrite Hperm in Hds, Hfg. cbn in Hds. apply NoDup_cons in Hds as [Hda Hds].
  assert (frag (view n) a) as (b & d & Hb & Hd & Hndx & Hdn & Ha)%frag_at by by inversion Hfg.
  assert (da = desc_list b) as Hdb by (unfold da, desc_of; cbn; by rewrite lookup_fmap, Hb).
  destruct (queue_remove_spec n q a coll Hq) as (q' & n1 & E & Hq' & (Hv & Hvd & HbQ) & Hz).
  pose proof (keeps_desc_queue_remove _ _ _ _ E) as Ed. pose proof (keeps_free_queue_remove _ _ _ _ E) as Ef.
  cbv beta in Ed.
  assert (is_Some (vbufs n1 !! a)) as [b1 Hb1].
  { unfold vnext in Hz. destruct (vbufs n1 !! a); [eauto|done]. }
  assert (desc_list b1 = desc_list b) as Hdb1.
  { assert ((desc_list <$> vbufs n1) !! a = (desc_list <$> vbufs n) !! a) as Hx by by rewrite Ed.
    rewrite !lookup_fmap, Hb, Hb1 in Hx. by injection Hx. }
  (* the link from the previous descriptor *)
  assert (∃ n2, (if dp =? 0 then mret tt else upd_vdesc dp (λ d, d <| next_desc := desc_list b1 |>)) n1 =
      Ok (tt, n2) ∧ vbufs n2 = vbufs n1 ∧ bufQ n2 = bufQ n1 ∧ free_buf_head n2 = free_buf_head n1 ∧
      (∀ x, x ≠ dp ∨ dp = 0 → vdescs n2 !! x = vdescs n !! x) ∧
      (∀ x, is_Some (vdescs n !! x) → is_Some (vdescs n2 !! x)) ∧
      (dp ≠ 0 → next_desc <$> vdescs n2 !! dp = Some (desc_list b1))) as (n2 & E2 & Hv2 & HQ2 & Hf2 & Hx2 & Hs2 & Hl2).
  { destruct (Z.eqb_spec dp 0) as [->|Hdp0].
    - exists n1. split_and!; try done; intros; by rewrite Hvd.
    - destruct Hdp as [|[_ (e & He & _)%view_dnext]]; [done|]. rewrite <-Hvd in He.
      eexists. rewrite (run_upd_vdesc _ _ _ _ He). split_and!; try done; cbn; [intros x; rewrite Hvd..|].
      + intros [?|?]; [|done]. by rewrite lookup_insert_ne.
      + intros ?. destruct (decide (x = dp)) as [->|]; [rewrite lookup_insert_eq; eauto|].
        by rewrite lookup_insert_ne.
      + intros _. by rewrite lookup_insert_eq. }
  assert (vdescs n2 !! desc_list b = Some d) as Hd2.
  { rewrite Hx2; [done|]. destruct Hdp as [|[Hout _]]; [by right|]. left. intros E'. apply Hout.
    apply list_elem_of_In, in_map_iff. exists a. split; [unfold da in Hdb; congruence|]. apply list_elem_of_In. set_solver. }
  assert (vdesc_last (size (vdescs n2)) (desc_list b1) n2 = Ok (desc_list b, n2)) as E3.
  { rewrite Hdb1. apply (vdesc_last_spec n2 _ [] (desc_list b)); cbn.
    - split_and!; [done..|]. exists 0. unfold dnext. by rewrite Hd2, <-Hndx.
    - destruct (size (vdescs n2)) eqn:Hsz; [|lia]. apply map_size_empty_inv in Hsz.
      by rewrite Hsz, lookup_empty in Hd2. }
  fold da in Hda. rewrite Hdb in *. eexists q', _, _. split; [|split].
  - cbn [frm_frag_loop]. rewrite (bind_ok _ _ _ _ _ E). cbn. apply Z.eqb_neq in Ha as ->.
    rewrite (bind_ok _ _ _ _ _ (run_rd_vbuf _ _ _ Hb1)), (bind_ok _ _ _ _ _ E2).
    rewrite (bind_ok _ _ _ _ _ (run_get _)), (bind_ok _ _ _ _ _ E3).
    erewrite bind_ok by (apply run_upd_vbuf; rewrite Hv2; exact Hb1).
    unfold _vbuf_free_vbuf. rewrite bind_assoc, (bind_ok _ _ _ _ _ (run_gets _ _)).
    rewrite bind_assoc. erewrite bind_ok by (apply run_upd_vbuf; cbn; by rewrite lookup_insert_eq).
    rewrite bind_assoc, (bind_ok _ _ _ _ _ (run_modify _ _)), (bind_ok _ _ _ _ _ (run_modify _ _)).
    reflexivity.
  - eapply (rx_heap_retire (view n)); cbn; [exact H|..].
    + intros x Hx. rewrite !lookup_fmap, Hv2, !lookup_insert_ne by done. by rewrite Hv by set_solver.
    + by rewrite lookup_fmap, lookup_insert_eq, Hf2, Ef.
    + intros x Hx. rewrite !lookup_fmap, Hv2, !lookup_insert_ne by done. by rewrite Hv by set_solver.
    + intros x Hx. rewrite !lookup_fmap, Hx2; [done|]. destruct Hdp as [|[Hout _]]; [by right|]. left.
      intros ->. apply Hout. rewrite Hperm. by right.
    + intros x [y Hy]. rewrite lookup_fmap in *. apply fmap_Some in Hy as (e & He & _).
      destruct (Hs2 x) as [e' He']; [eauto|]. rewrite He'. eauto.
    + by rewrite HQ2, HbQ.
    + done.
  - assert (a ∉ live ++ coll ++ pool) as Hnin.
    { assert (live ++ (a :: coll) ++ pool ++ free ++ frames ≡ₚ a :: live ++ coll ++ pool ++ free ++ frames)
        as Hp' by solve_Permutation. rewrite Hp' in Hnd. apply NoDup_cons in Hnd as [? _]. set_solver. }
    split_and!; cbn.
    + destruct Hq' as (Hc & Hl & ? & ?). split_and!; [|done..]. eapply lchain_ext; [|exact Hc].
      intros x Hx. unfold vnext. cbn. rewrite Hv2, !lookup_insert_ne; [done|..]; intros ->; set_solver.
    + rewrite (map_ext_in _ (desc_of (view n))); [done|].
      intros x Hx%list_elem_of_In. unfold desc_of. cbn.
      rewrite !lookup_fmap, Hv2, !lookup_insert_ne by (intros ->; set_solver).
      rewrite Hv; [done|]. intros ->%list_elem_of_singleton. set_solver.
    + by rewrite lookup_fmap, Hd2, <-Hndx.
    + done.
    + intros x Hx. rewrite !lookup_fmap, Hv2, !lookup_insert_ne by done. by rewrite Hv by set_solver.
    + intros x Hx. by rewrite !lookup_fmap, Hx2.
    + intros Hx. rewrite lookup_fmap, Hl2 by done. by rewrite Hdb1.
Qed.

Lemma frm_loop coll : ∀ n live pool free frames q cnt tot dp fuel,
  rx_heap (view n) live coll pool free frames → qrep n q coll →
  (dp = 0 ∨ (dp ∉ map (desc_of (view n)) (live ++ coll ++ pool) ∧ hv_dnext (view n) !! dp = Some 0)) →
  (length coll < fuel)%nat → 0 <= cnt → cnt + Z.of_nat (length coll) < 4294967296 →
  let ds := map (desc_of (view n)) coll in
  ∃ q' tot' n', frm_frag_loop fuel q cnt tot dp n =
      Ok ((q', cnt + Z.of_nat (length coll), tot'), n') ∧
    rx_heap (view n') live [] pool (rev coll ++ free) frames ∧
    lchain (λ d, hv_dnext (view n') !! d) (default 0 (head ds)) ds ∧
    (dp ≠ 0 → hv_dnext (view n') !! dp = Some (default 0 (head ds))) ∧
    (∀ x, x ∉ coll → hv_desc (view n') !! x = hv_desc (view n) !! x) ∧
    (∀ d, d ≠ dp ∨ dp = 0 → d ∉ ds → hv_dnext (view n') !! d = hv_dnext (view n) !! d).
Proof.
  induction coll as [|a coll IH]; intros n live pool free frames q cnt tot dp fuel H Hq Hdp Hf Hc1 Hc2 ds.
  - destruct fuel as [|fuel]; [lia|]. cbn [frm_frag_loop]. destruct Hq as (Hl & _). cbn in Hl.
    unfold adf_nbuf_queue_remove. rewrite Hl. cbn. rewrite Z.add_0_r. eexists q, tot, n.
    split_and!; try done. intros Hd. by destruct Hdp as [|[_ ?]].
  - destruct fuel as [|fuel]; [lia|].
    destruct (frm_step n live a coll pool free frames q cnt tot dp fuel H Hq Hdp)
      as (q1 & tot1 & n1 & -> & H1 & Hq1 & Hout1 & Hlast1 & Hnz & Hdesc1 & Hdn1 & Hlink1).
    set (da := desc_of (view n) a) in *. cbn [length] in *. rewrite u32_small by lia.
    destruct (IH n1 live pool (a :: free) frames q1 (cnt + 1) tot1 da fuel H1 Hq1)
      as (q2 & tot2 & n2 & -> & H2 & Hc2' & Hl2 & Hdesc2 & Hdn2); [by right|lia..|].
    assert (a ∉ coll) as Hac.
    { pose proof (rh_nodup _ _ _ _ _ _ H) as Hnd. apply NoDup_app in Hnd as (_ & _ & Hnd).
      cbn [app] in Hnd. apply NoDup_cons in Hnd as [Hnd _]. set_solver. }
    assert (map (desc_of (view n1)) coll = map (desc_of (view n)) coll) as Eds.
    { apply map_ext_in. intros x Hx%list_elem_of_In. unfold desc_of. rewrite Hdesc1; [done|]. by intros ->. }
    rewrite Eds in *. change ds with (da :: map (desc_of (view n)) coll). cbn [head default].
    assert (dp ≠ 0 → dp ≠ da ∧ dp ∉ map (desc_of (view n)) coll) as Hdpo.
    { intros Hdp0. destruct Hdp as [|[Hout _]]; [done|]. rewrite !map_app, !elem_of_app in Hout. cbn [map] in Hout.
      set_solver. }
    eexists q2, tot2, n2. split_and!; [|cbn [rev]; by rewrite <-app_assoc|..].
    + by replace (cnt + 1 + Z.of_nat (length coll)) with (cnt + Z.of_nat (S (length coll))) by lia.
    + cbn [lchain]. split_and!; [done..|]. eexists. split; [by apply Hl2|done].
    + intros Hdp0. destruct (Hdpo Hdp0) as [? ?]. rewrite Hdn2 by (done || by left). by apply Hlink1.
    + intros x Hx. rewrite Hdesc2, Hdesc1; [done|set_solver..].
    + intros d Hd Hds. apply not_elem_of_cons in Hds as [? ?]. rewrite Hdn2 by (done || by left). by apply Hdn1.
Qed.

(** A header taken from the free ones and given a first descriptor is a frame. *)
Lemma rx_heap_header v v' live coll pool free frames f d :
  rx_heap v live coll pool (f :: free) frames → is_Some (hv_dnext v !! d) →
  (∀ x, x ≠ f → hv_next v' !! x = hv_next v !! x) → Some (hv_free v') = hv_next v !! f →
  hv_desc v' = <[f := d]> (hv_desc v) → hv_dnext v' = hv_dnext v → hv_bufQ v' = hv_bufQ v →
  rx_heap v' live coll pool free (f :: frames).
Proof.
  intros [(h & Hh & Hp) Hfr Hnd Hds Hfg Hlo Hfm] Hd Hn Hf Hde He Hq.
  assert (live ++ coll ++ pool ++ (f :: free) ++ frames ≡ₚ f :: live ++ coll ++ pool ++ free ++ frames)
    as Hperm by solve_Permutation.
  rewrite Hperm in Hnd. pose proof Hnd as [Hnin _]%NoDup_cons.
  assert (∀ x, x ≠ f → hv_desc v' !! x = hv_desc v !! x) as Hdx.
  { intros x Hx. by rewrite Hde, lookup_insert_ne. }
  destruct Hfr as (Hhd & Hf0 & y & Hy & Hfr).
  split.
  - exists h. rewrite Hq. split; [done|]. eapply lchain_ext; [|exact Hp].
    intros x Hx. apply Hn. intros ->. set_solver.
  - rewrite Hy in Hf. injection Hf as ->. eapply lchain_ext; [|exact Hfr].
    intros x Hx. apply Hn. intros ->. set_solver.
  - assert (live ++ coll ++ pool ++ free ++ f :: frames ≡ₚ f :: live ++ coll ++ pool ++ free ++ frames)
      as -> by solve_Permutation. done.
  - rewrite (map_ext_in (desc_of v') (desc_of v)); [done|]. intros x Hx%list_elem_of_In.
    unfold desc_of. rewrite Hdx; [done|]. intros ->. set_solver.
  - rewrite Forall_forall in *. intros x Hx. destruct (Hfg x Hx) as (? & e & ? & ? & ?).
    split; [done|]. exists e. rewrite He, Hdx; [done|]. intros ->. set_solver.
  - rewrite Forall_forall in *. intros x Hx. rewrite Hn; [auto|]. intros ->. set_solver.
  - constructor.
    + split; [done|]. exists d. by rewrite Hde, lookup_insert_eq, He.
    + rewrite Forall_forall in *. intros x Hx. destruct (Hfm x Hx) as (? & e & ? & ?).
      split; [done|]. exists e. rewrite He, Hdx; [done|]. intros ->. set_solver.
Qed.

Lemma rx_join n live coll pool f free frames q :
  rx_heap (view n) live coll pool (f :: free) frames → qrep n q coll → coll ≠ [] →
  ∃ q' n', adf_nbuf_create_frm_frag q n = Ok ((f, q'), n') ∧
    rx_heap (view n') live [] pool (rev coll ++ free) (f :: frames) ∧
    consists_of (view n') f (map (desc_of (view n)) coll) ∧
    (∀ x, x ∉ f :: coll → hv_desc (view n') !! x = hv_desc (view n) !! x) ∧
    (∀ d, d ∉ map (desc_of (view n)) coll → hv_dnext (view n') !! d = hv_dnext (view n) !! d).
Proof.
  intros H Hq Hne. destruct coll as [|a coll]; [done|].
  assert (frag (view n) a) as (b & d & Hb & Hd & Hndx & Hdn & Ha)%frag_at.
  { pose proof (rh_frag _ _ _ _ _ _ H) as Hf. rewrite Forall_forall in Hf. apply Hf. set_solver. }
  pose proof (rh_free _ _ _ _ _ _ H) as (Hhd & Hf0 & y & Hy & _). cbn in Hhd.
  rewrite view_next in Hy. unfold vnext in Hy.
  destruct (vbufs n !! f) as [fb|] eqn:Hfb; [|done]. injection Hy as Hy.
  pose proof (rh_nodup _ _ _ _ _ _ H) as Hnd.
  assert (live ++ (a :: coll) ++ pool ++ (f :: free) ++ frames ≡ₚ
          f :: a :: live ++ coll ++ pool ++ free ++ frames) as Hperm by solve_Permutation.
  rewrite Hperm in Hnd. apply NoDup_cons in Hnd as [Hfin Hnd].
  assert (f ≠ a) as Hfa by set_solver.
  pose proof Hq as (Hqc & Hql & Hqn & Hqm). destruct Hqc as (Hqh & _).
  set (fb' := fb <| next_buf := 0 |>).
  set (n1 := n <| nVbufNum ::= λ x, s32 (x - 1) |> <| free_buf_head := y |> <| vbufs ::= <[f := fb']> |>).
  assert (_vbuf_alloc_vbuf n = Ok (f, n1)) as E1 by (unfold n1; rewrite <-Hy; by apply vbuf_alloc_run).
  set (n2 := n1 <| vbufs ::= <[f := fb' <| desc_list := desc_list b |>]> |>).
  assert (rx_heap (view n2) live (a :: coll) pool free (f :: frames)) as H2.
  { eapply (rx_heap_header (view n)); [exact H|..].
    - cbn. rewrite lookup_fmap, Hd. cbn. eauto.
    - intros x Hx. cbn. by rewrite !lookup_fmap, !lookup_insert_ne.
    - cbn. by rewrite lookup_fmap, Hfb, <-Hy.
    - cbn. by rewrite insert_insert_eq, fmap_insert.
    - done.
    - done. }
  assert (qrep n2 q (a :: coll)) as Hq2.
  { destruct Hq as (Hc & Hr). split; [|done]. eapply lchain_ext; [|exact Hc].
    intros x Hx. unfold vnext. cbn. rewrite !lookup_insert_ne; [done|..]; intros <-; set_solver. }
  assert ((length (a :: coll) < S (size (vbufs n2)))%nat) as Hlen.
  { pose proof (lchain_size (vbufs n2) next_buf (q_head q) (a :: coll)) as Hs. destruct Hq2 as (Hc & _).
    specialize (Hs Hc). lia. }
  destruct (frm_loop (a :: coll) n2 live pool free (f :: frames) q 0 0 0 (S (size (vbufs n2))) H2 Hq2)
    as (q' & tot' & n3 & E3 & H3 & Hch & _ & Hdesc & Hdnx); [by left|done|lia|lia|].
  assert (f ∉ a :: coll) as Hfc by set_solver.
  assert (map (desc_of (view n2)) (a :: coll) = map (desc_of (view n)) (a :: coll)) as Eds.
  { apply map_ext_in. intros x Hx%list_elem_of_In. unfold desc_of. cbn.
    rewrite !lookup_fmap, !lookup_insert_ne by (intros ->; done). done. }
  rewrite Eds in Hch, Hdnx.
  assert (∃ b3, vbufs n3 !! f = Some b3) as [b3 Hb3].
  { pose proof (rh_frames _ _ _ _ _ _ H3) as Hfm. rewrite Forall_cons in Hfm.
    destruct Hfm as [(_ & e & (b3 & ? & _)%view_desc & _) _]. eauto. }
  exists q'. eexists. split.
  - unfold adf_nbuf_create_frm_frag. rewrite (bind_ok _ _ _ _ _ E1).
    apply Z.eqb_neq in Hf0 as Hf0'. rewrite Hf0'. cbn [negb assert_].
    rewrite (bind_ok _ _ _ _ _ (run_ret _ _)). unfold adf_nbuf_queue_first. rewrite Hqh.
    apply Z.eqb_neq in Ha as Ha'. rewrite Ha'. cbn [negb assert_].
    rewrite (bind_ok _ _ _ _ _ (run_ret _ _)).
    erewrite bind_ok by (apply run_rd_vbuf; unfold n1; cbn; rewrite lookup_insert_ne by done; exact Hb).
    erewrite bind_ok by (apply run_upd_vbuf; unfold n1; cbn; by rewrite lookup_insert_eq).
    rewrite (bind_ok _ _ _ _ _ (run_get _)).
    change (n1 <| vbufs ::= <[f := _]> |>) with n2. rewrite (bind_ok _ _ _ _ _ E3).
    unfold adf_nbuf_queue_len. rewrite Hqn, Z.eqb_refl. cbn [assert_].
    rewrite (bind_ok _ _ _ _ _ (run_ret _ _)).
    erewrite bind_ok by (apply run_upd_vbuf; exact Hb3). reflexivity.
  - match goal with |- rx_heap (view ?x) _ _ _ _ _ ∧ _ => assert (view x = view n3) as -> end.
    { unfold view. cbn. f_equal; by eapply fmap_insert_same. }
    split_and!; [done|..].
    + unfold consists_of. assert (desc_of (view n3) f = desc_of (view n) a) as ->; [|exact Hch].
      unfold desc_of. rewrite Hdesc by done. cbn. by rewrite lookup_fmap, !lookup_insert_eq, lookup_fmap, Hb.
    + intros x Hx. rewrite Hdesc by set_solver. cbn.
      rewrite !lookup_fmap, !lookup_insert_ne by (intros ->; set_solver). done.
    + intros d0 Hd0. rewrite Hdnx; [done|by right|done].
Qed.

(** *** Looking at a buffer of one descriptor, and filling it *)

Lemma frag_chain n a : frag (view n) a →
  ∃ b d, nbuf_chain n a b [desc_list b] ∧ vdescs n !! desc_list b = Some d ∧ next_desc d = 0.
Proof.
  intros (b & d & Hb & Hd & Hn & Hz & Ha)%frag_at. exists b, d. split_and!; [|done..].
  split; [done|]. cbn. split_and!; [done..|]. exists 0. unfold dnext. by rewrite Hd, <-Hn.
Qed.
Lemma frag_peek n a : frag (view n) a → ∃ r, adf_nbuf_peek_header a n = Ok (r, n).
Proof.
  intros (b & d & Hb & Hd & _)%frag_at. eexists. unfold adf_nbuf_peek_header. nb_run. reflexivity.
Qed.
Lemma frag_len n a : frag (view n) a → ∃ r, adf_nbuf_len a n = Ok (r, n).
Proof. intros (b & d & Hb & _)%frag_at. eexists. unfold adf_nbuf_len. nb_run. reflexivity. Qed.
Lemma frag_tailroom n a : frag (view n) a → ∃ r, adf_nbuf_tailroom a n = Ok (r, n).
Proof.
  intros (b & d & Hc & Hd & _)%frag_chain. eexists. unfold adf_nbuf_tailroom.
  rewrite (bind_ok _ _ _ _ _ (adf_nbuf_last_spec _ _ _ [] _ Hc)). nb_run. reflexivity.
Qed.
Lemma frag_dmamap n a : frag (view n) a → ∃ p l, adf_nbuf_dmamap_info a n = Ok ([(p, l)], n).
Proof.
  intros (b & d & Hb & Hd & Hn & Hz & Ha)%frag_at. do 2 eexists. unfold adf_nbuf_dmamap_info.
  nb_run. destruct (size (vdescs n)) as [|m] eqn:Hsz.
  { apply map_size_empty_inv in Hsz. by rewrite Hsz, lookup_empty in Hd. }
  cbn. apply Z.eqb_neq in Hz as ->. nb_run. rewrite Hn. destruct m; reflexivity.
Qed.
Lemma frag_put_tail n a len : frag (view n) a →
  ∃ r n', adf_nbuf_put_tail a len n = Ok (r, n') ∧ view n' = view n.
Proof.
  intros H. pose proof (frag_at _ _ H) as (b & d & Hb & Hd & _).
  apply frag_chain in H as (b' & d' & Hc & _). pose proof Hc as [Hb' _].
  assert (b' = b) as -> by congruence. do 2 eexists. split.
  - unfold adf_nbuf_put_tail. rewrite (bind_ok _ _ _ _ _ (adf_nbuf_last_spec _ _ _ [] _ Hc)).
    nb_run. reflexivity.
  - unfold view. cbn. f_equal; by eapply fmap_insert_same.
Qed.
End heap.
