(* ===== verification/IfRing.v ===== *)
(** * The receive ring

    The invariant of the ring: the descriptors handed to the chip form one chain in the
    order of the list, the last of them ends the chain and is where the next one will be
    linked, one more descriptor is held back, and each handed-out descriptor has a buffer
    of its own. Arming, requeueing, starting and collecting keep it. *)

From S2P Require Import Prelude.
From S2P Require Import NBufProps.
From S2P Require Import IfTypes.
From S2P Require Import IfRecv.
From S2P Require Import IfHeap.

(** What the ring depends on. *)
Record ring_view := mk_rv {
  rv_held : option nat; rv_link : option nat; rv_descs : list rx_desc; rv_paddr : Z;
  rv_heap : heap_view }.
#[export] Instance eta_rv : EtaExp ring_view := λ v,
  mk_rv (rv_held v) (rv_link v) (rv_descs v) (rv_paddr v) (rv_heap v).
Definition rview {HW RC} (t : tgt HW RC) : ring_view :=
  mk_rv (sc_rxdesc_held t) (sc_rxlink t) (rx_descs t) (rx_desc_paddr t) (view (sc_nb (tg_sc t))).

Definition desc_nbuf (ds : list rx_desc) (i : nat) : Z := default 0 (rd_nbuf <$> ds !! i).
Definition desc_link (ds : list rx_desc) (i : nat) : Z := default 0 (rd_link <$> ds !! i).
Definition desc_addr (paddr : Z) (i : nat) : Z := paddr + RX_DESC_SIZE * Z.of_nat i.

(** Each descriptor of [l] is linked to the next, the last to none. *)
Fixpoint linked (paddr : Z) (ds : list rx_desc) (l : list nat) : Prop :=
  match l with
  | [] => True
  | i :: l' => desc_link ds i = match l' with [] => 0 | j :: _ => desc_addr paddr j end ∧
               linked paddr ds l'
  end.

(** [armed] are with the chip, [held] is held back, the [others] wait without buffers. *)
Record ring (v : ring_view) (armed : list nat) (held : nat) (others : list nat)
    (coll pool free frames : list Z) : Prop := {
  rg_held : rv_held v = Some held;
  rg_nodup : NoDup (armed ++ held :: others);
  rg_range : Forall (λ i, (i < length (rv_descs v))%nat) (armed ++ held :: others);
  rg_paddr : 0 < rv_paddr v;
  rg_addr : ∀ i d, rv_descs v !! i = Some d → rd_daddr d = desc_addr (rv_paddr v) i;
  rg_linked : linked (rv_paddr v) (rv_descs v) armed;
  rg_link : rv_link v = last armed;
  rg_empty : Forall (λ i, desc_nbuf (rv_descs v) i = 0) (held :: others);
  rg_heap : rx_heap (rv_heap v) (map (desc_nbuf (rv_descs v)) armed) coll pool free frames;
}.

Lemma linked_ext p ds ds' l :
  (∀ i, i ∈ l → desc_link ds' i = desc_link ds i) → linked p ds l → linked p ds' l.
Proof.
  induction l as [|i l IH]; intros Hext; cbn; [done|]. intros [Hi Hl]. split.
  - rewrite Hext by set_solver. done.
  - apply IH; [|done]. set_solver.
Qed.
Lemma linked_snoc p ds ds' l i h :
  linked p ds (l ++ [i]) → (∀ j, j ∈ l → desc_link ds' j = desc_link ds j) →
  desc_link ds' i = desc_addr p h → desc_link ds' h = 0 → linked p ds' (l ++ [i; h]).
Proof.
  intros Hl Hext Hi Hh. induction l as [|j l IH]; cbn in *; [done|]. destruct Hl as [Hj Hl]. split.
  - rewrite Hext by set_solver. destruct l; done.
  - apply IH; [done|]. set_solver.
Qed.
Lemma desc_at {B} (f : rx_desc → B) ds i j d :
  (i < length ds)%nat → f <$> (<[i := d]> ds) !! j = if decide (i = j) then Some (f d) else f <$> ds !! j.
Proof.
  intros Hi. case_decide as E; [subst; by rewrite list_lookup_insert_eq|].
  by rewrite list_lookup_insert_ne.
Qed.

(** ** Lenses *)
Section lenses.
Context {HW RC : Type}.
Implicit Type t : tgt HW RC.
Definition set_nb (n : nb_state) t : tgt HW RC := t <| tg_sc ::= λ s, s <| sc_nb := n |> |>.
Definition set_hal (h : ath_hal HW) t : tgt HW RC := t <| tg_sc ::= λ s, s <| sc_hal := h |> |>.
Lemma run_tnb {A} (m : NB A) t a n : m (sc_nb (tg_sc t)) = Ok (a, n) → tnb m t = Ok (a, set_nb n t).
Proof. intros E. unfold tnb, tx, nb. by rewrite E. Qed.
Lemma run_tnb_same {A} (m : NB A) t a : m (sc_nb (tg_sc t)) = Ok (a, sc_nb (tg_sc t)) → tnb m t = Ok (a, t).
Proof. intros E. rewrite (run_tnb _ _ _ _ E). unfold set_nb. destruct t as [[]]. done. Qed.
Lemma run_thal {A} (m : M (ath_hal HW) A) t a h :
  m (sc_hal (tg_sc t)) = Ok (a, h) → thal m t = Ok (a, set_hal h t).
Proof. intros E. unfold thal, tx, hal. by rewrite E. Qed.
Lemma run_rd_rxd i d t : rx_descs t !! i = Some d → rd_rxd i t = Ok (d, t).
Proof. intros E. unfold rd_rxd. run. by rewrite E. Qed.
Lemma run_upd_rxd i d f t :
  rx_descs t !! i = Some d → upd_rxd i f t = Ok (tt, t <| rx_descs ::= <[i := f d]> |>).
Proof. intros E. unfold upd_rxd. by rewrite (bind_ok _ _ _ _ _ (run_rd_rxd _ _ _ E)). Qed.
Lemma run_rd_rxb i b t : rx_bufs t !! i = Some b → rd_rxb i t = Ok (b, t).
Proof. intros E. unfold rd_rxb. run. by rewrite E. Qed.
Lemma run_upd_rxb i b f t :
  rx_bufs t !! i = Some b → upd_rxb i f t = Ok (tt, t <| rx_bufs ::= <[i := f b]> |>).
Proof. intros E. unfold upd_rxb. by rewrite (bind_ok _ _ _ _ _ (run_rd_rxb _ _ _ E)). Qed.
End lenses.

(** ** Frames *)
Section frames.
Context {HW RC : Type}.
Implicit Type t : tgt HW RC.

(** [t'] differs from [t] at most in the ring, the buffers, the chip and the receive
    statistics. *)
Definition ring_only t t' : Prop :=
  t' = t <| rx_descs := rx_descs t' |> <| sc_rxdesc := sc_rxdesc t' |>
         <| sc_rxdesc_idle := sc_rxdesc_idle t' |> <| sc_rxdesc_held := sc_rxdesc_held t' |>
         <| sc_rxlink := sc_rxlink t' |> <| sc_rx_stats := sc_rx_stats t' |>
         <| tg_sc ::= λ s, s <| sc_nb := sc_nb (tg_sc t') |> <| sc_hal := sc_hal (tg_sc t') |> |>.
Lemma ring_only_refl t : ring_only t t.
Proof. unfold ring_only. by destruct t as [[]]. Qed.
Lemma ring_only_trans t t1 t2 : ring_only t t1 → ring_only t1 t2 → ring_only t t2.
Proof.
  unfold ring_only. intros E1 E2. etrans; [exact E2|]. clear E2. rewrite E1. reflexivity.
Qed.

(** A descriptor the chip has not completed. *)
Definition pending (ds : list rx_desc) (i : nat) : Prop :=
  ∃ d, ds !! i = Some d ∧ tst (ds_rxstatus8 (rd_hw d)) AR_RxDone = false.
(** The chip's words of the descriptors outside [l] are kept, those of [l] are pending. *)
Record rearmed (ds ds' : list rx_desc) (l : list nat) : Prop := {
  re_len : length ds' = length ds;
  re_kept : ∀ i, i ∉ l → rd_hw <$> ds' !! i = rd_hw <$> ds !! i;
  re_pending : Forall (pending ds') l }.
Lemma rearmed_refl ds : rearmed ds ds [].
Proof. by split. Qed.
Lemma pending_kept ds ds' i : rd_hw <$> ds' !! i = rd_hw <$> ds !! i → pending ds i → pending ds' i.
Proof.
  intros E (d & Hd & Hp). rewrite Hd in E. destruct (ds' !! i) as [d'|] eqn:Hd'; [|done].
  injection E as E. exists d'. by rewrite E.
Qed.
Lemma rearmed_trans ds ds1 ds2 l1 l2 :
  rearmed ds ds1 l1 → rearmed ds1 ds2 l2 → rearmed ds ds2 (l1 ++ l2).
Proof.
  intros [L1 H1 P1] [L2 H2 P2]. split.
  - by rewrite L2.
  - intros i Hi. rewrite H2, H1; [done|set_solver..].
  - apply Forall_app. split; [|done]. rewrite Forall_forall in *. intros i Hi.
    destruct (decide (i ∈ l2)); [auto|]. eapply pending_kept; [by apply H2|auto].
Qed.

Lemma pending_rearmed ds ds' l suf :
  rearmed ds ds' suf → Forall (pending ds) l → Forall (pending ds') (l ++ suf).
Proof.
  intros [_ Hk Hs] Hl. apply Forall_app. split; [|done]. rewrite Forall_forall in *. intros i Hi.
  destruct (decide (i ∈ suf)); [auto|]. eapply pending_kept; [by apply Hk|auto].
Qed.

Lemma not_done_after_setup w size flags : tst (ds_rxstatus8 (ar5416SetupRxDesc_20 w size flags)) AR_RxDone = false.
Proof.
  unfold ar5416SetupRxDesc_20, tst. cbn. apply negb_false_iff, Z.eqb_eq.
  assert (∀ x, (x .&~ AR_RxDone) .& AR_RxDone = 0) as H.
  { intros x. apply Z.bits_inj'. intros i Hi. rewrite Z.land_spec, Z.ldiff_spec, Z.bits_0.
    by destruct (Z.testbit x i), (Z.testbit AR_RxDone i). }
  case_match; apply H.
Qed.
End frames.

(** ** Arming a descriptor *)
Section arm.
Context {HW RC : Type} `{!Mmio HW}.
Implicit Type t : tgt HW RC.

Lemma rxdesc_buffer_none ds d t live coll free frames :
  rx_descs t !! ds = Some d → rd_nbuf d = 0 →
  rx_heap (view (sc_nb (tg_sc t))) live coll [] free frames → rxdesc_buffer ds t = Ok (false, t).
Proof.
  intros Hd Hn Hh. unfold rxdesc_buffer. rewrite (bind_ok _ _ _ _ _ (run_rd_rxd _ _ _ Hd)), Hn.
  cbn [negb Z.eqb]. rewrite (bind_ok _ _ _ _ _ (run_get _)).
  assert (ath_alloc_skb_align (sc_rxbufsize t) (sc_cachelsz t) t = Ok (0, t)) as E
    by (apply run_tnb_same; by eapply rx_pool_empty).
  rewrite (bind_ok _ _ _ _ _ E), (bind_ok _ _ _ _ _ (run_upd_rxd _ _ _ _ Hd)).
  cbn [Z.eqb]. rewrite run_ret. do 2 f_equal. clear E Hh. destruct t, d. cbn in Hd, Hn. subst. unfold field_upd. cbn.
  f_equal. by apply list_insert_id.
Qed.

Lemma rxdesc_buffer_some ds d t live coll b pool free frames :
  rx_descs t !! ds = Some d → rd_nbuf d = 0 →
  rx_heap (view (sc_nb (tg_sc t))) live coll (b :: pool) free frames →
  ∃ n' p, rxdesc_buffer ds t = Ok (true, set_nb n' (t <| rx_descs ::=
      <[ds := d <| rd_nbuf := b |> <| rd_dmap := b |> <| rd_data := p |>]> |>)) ∧
    rx_heap (view n') (b :: live) coll pool free frames ∧
    (∀ q, qrep (sc_nb (tg_sc t)) q coll → qrep n' q coll) ∧
    same_chains (view (sc_nb (tg_sc t))) (view n').
Proof.
  intros Hd Hn Hh. pose proof (lookup_lt_Some _ _ _ Hd) as Hlt.
  destruct (rx_pool_alloc _ _ _ _ _ _ _ RX_HEADER_SPACE Hh) as (n' & En & Hh' & Hq' & Hsc).
  pose proof (rh_frag _ _ _ _ _ _ Hh') as Hf. rewrite Forall_app in Hf. destruct Hf as [Hf _].
  rewrite Forall_cons in Hf. destruct Hf as [Hf _].
  destruct (frag_dmamap _ _ Hf) as (p & l & Ep). exists n', p. split; [|done].
  destruct Hf as [Hb0 _]. apply Z.eqb_neq in Hb0.
  unfold rxdesc_buffer. rewrite (bind_ok _ _ _ _ _ (run_rd_rxd _ _ _ Hd)), Hn.
  cbn [negb Z.eqb]. rewrite (bind_ok _ _ _ _ _ (run_get _)).
  assert (ath_alloc_skb_align (sc_rxbufsize t) (sc_cachelsz t) t = Ok (b, set_nb n' t)) as E
    by by apply run_tnb.
  rewrite (bind_ok _ _ _ _ _ E). erewrite bind_ok by (apply run_upd_rxd; exact Hd). rewrite Hb0.
  erewrite bind_ok by (apply run_upd_rxd; cbn; by rewrite list_lookup_insert_eq).
  erewrite bind_ok by (apply run_tnb_same; exact Ep). cbn [lookup list_lookup in_range].
  rewrite (bind_ok _ _ _ _ _ (run_ret _ _)). cbv beta iota.
  erewrite bind_ok by (apply run_upd_rxd; cbn; rewrite list_lookup_insert_eq; [reflexivity|]; by rewrite length_insert).
  unfold mret, M_ret, set_nb, field_upd. cbn. by rewrite !list_insert_insert_eq.
Qed.

(** What arming does to the descriptors: [held] gets its new contents [d], and the end of
    the chain is linked to it. *)
Definition relink (o : option nat) (addr : Z) (ds : list rx_desc) : list rx_desc :=
  match o with None => ds | Some l => alter (λ x, x <| rd_link := addr |>) l ds end.
Definition arm_descs (ds : list rx_desc) (last : option nat) (held : nat) (d : rx_desc) : list rx_desc :=
  relink last (rd_daddr d) (<[held := d]> ds).

Lemma length_arm ds o h d : length (arm_descs ds o h d) = length ds.
Proof. unfold arm_descs, relink. by destruct o; rewrite ?length_alter, length_insert. Qed.
(** A field other than the link changes only at [h]. *)
Lemma arm_proj {B} (f : rx_desc → B) ds o h d i :
  (∀ x k, f (x <| rd_link := k |>) = f x) → (h < length ds)%nat →
  f <$> arm_descs ds o h d !! i = if decide (h = i) then Some (f d) else f <$> ds !! i.
Proof.
  intros Hf Hh. unfold arm_descs, relink. destruct o as [l|]; [|by apply desc_at].
  destruct (decide (l = i)) as [->|Hl].
  - rewrite list_lookup_alter_eq, <-(desc_at f ds h i d Hh). destruct (<[h:=d]> ds !! i); cbn; [|done].
    by rewrite Hf.
  - rewrite list_lookup_alter_ne by done. by apply desc_at.
Qed.
Lemma arm_link ds o h d i : (h < length ds)%nat → o ≠ Some h →
  rd_link <$> arm_descs ds o h d !! i =
    if decide (h = i) then Some (rd_link d)
    else if decide (o = Some i) then (λ _, rd_daddr d) <$> ds !! i else rd_link <$> ds !! i.
Proof.
  intros Hh Ho. unfold arm_descs, relink. destruct o as [l|].
  - destruct (decide (l = i)) as [->|Hl].
    + rewrite list_lookup_alter_eq, list_lookup_insert_ne by congruence.
      rewrite decide_False by congruence. rewrite decide_True by done. by destruct (ds !! i).
    + rewrite list_lookup_alter_ne by done. rewrite desc_at by done.
      case_decide; [done|]. rewrite decide_False by congruence. done.
  - rewrite desc_at by done. by case_decide.
Qed.

Lemma ring_arm v armed held a others coll pool pool' free frames d heap' :
  ring v armed held (a :: others) coll pool free frames →
  rd_link d = 0 → rd_daddr d = desc_addr (rv_paddr v) held →
  rx_heap heap' (rd_nbuf d :: map (desc_nbuf (rv_descs v)) armed) coll pool' free frames →
  ring (mk_rv (Some a) (Some held) (arm_descs (rv_descs v) (last armed) held d) (rv_paddr v) heap')
    (armed ++ [held]) a others coll pool' free frames.
Proof.
  intros [Hheld Hnd Hrange Hp Haddr Hlk Hl Hemp Hheap] Hd0 Hda Hheap'.
  rewrite Forall_app, Forall_cons in Hrange. destruct Hrange as (Hra & Hrh & Hro).
  pose proof Hnd as (Hnd1 & Hnd2 & Hnd3)%NoDup_app. apply NoDup_cons in Hnd3 as [Hnh Hnd3].
  assert (held ∉ armed) as Hha by (intros ?; eapply Hnd2; [done|set_solver]).
  assert (last armed ≠ Some held) as Hlast.
  { intros E. apply Hha. apply last_Some in E as (l' & ->). set_solver. }
  assert (∀ i, i ≠ held → desc_nbuf (arm_descs (rv_descs v) (last armed) held d) i = desc_nbuf (rv_descs v) i)
    as Hnb.
  { intros i Hi. unfold desc_nbuf. rewrite (arm_proj rd_nbuf) by done. by rewrite decide_False by done. }
  split; cbn.
  - done.
  - by rewrite <-app_assoc.
  - rewrite <-app_assoc. cbn. rewrite length_arm. by rewrite Forall_app, !Forall_cons in *.
  - done.
  - intros i x Hx. pose proof (arm_proj rd_daddr (rv_descs v) (last armed) held d i) as Hpr.
    rewrite Hx in Hpr. specialize (Hpr (λ _ _, eq_refl) Hrh). cbn in Hpr.
    case_decide as Ei; [subst i; by injection Hpr as ->|].
    destruct (rv_descs v !! i) as [y|] eqn:Hy; [|done]. injection Hpr as ->. by apply Haddr.
  - destruct (last armed) as [l|] eqn:El.
    + apply last_Some in El as (l' & ->). rewrite <-app_assoc. cbn [app].
      assert ((l < length (rv_descs v))%nat) as Hll by (rewrite Forall_app, Forall_cons in Hra; tauto).
      apply (linked_snoc _ (rv_descs v)); [done|..].
      * intros j Hj. unfold desc_link. rewrite arm_link by done.
        rewrite decide_False by (intros ->; set_solver).
        rewrite decide_False; [done|]. intros [= ->]. apply NoDup_app in Hnd1 as (_ & Hx & _). set_solver.
      * unfold desc_link. rewrite arm_link by done. rewrite decide_False by (intros ->; set_solver).
        rewrite decide_True by done. rewrite Hda. apply lookup_lt_is_Some_2 in Hll as [x ->]. done.
      * unfold desc_link. rewrite arm_link by done. by rewrite decide_True.
    + apply last_None in El as ->. cbn. split; [|done]. unfold desc_link. rewrite desc_at by done.
      by rewrite decide_True.
  - by rewrite last_snoc.
  - rewrite Forall_cons in Hemp. destruct Hemp as [_ Hemp]. rewrite Forall_forall in *. intros i Hi.
    rewrite Hnb; [auto|]. intros ->. done.
  - rewrite map_app. cbn [map]. eapply rx_heap_perm; [|exact Hheap'].
    rewrite (map_ext_in (desc_nbuf (arm_descs _ _ _ _)) (desc_nbuf (rv_descs v)) armed)
      by (intros i Hi%list_elem_of_In; apply Hnb; by intros ->).
    assert (desc_nbuf (arm_descs (rv_descs v) (last armed) held d) held = rd_nbuf d) as ->
      by (unfold desc_nbuf; rewrite (arm_proj rd_nbuf) by done; by rewrite decide_True).
    by rewrite Permutation_app_comm.
Qed.

(** What arming leaves alone, besides what [ring_only] says. *)
Definition lists_kept t t' : Prop := sc_rxdesc t' = sc_rxdesc t ∧ sc_rxdesc_idle t' = sc_rxdesc_idle t.

Lemma ring_desc v armed held others coll pool free frames i :
  ring v armed held others coll pool free frames → i ∈ armed ++ held :: others →
  ∃ d, rv_descs v !! i = Some d ∧ rd_daddr d = desc_addr (rv_paddr v) i.
Proof.
  intros H Hi. pose proof (rg_range _ _ _ _ _ _ _ _ H) as Hr. rewrite Forall_forall in Hr.
  apply Hr, lookup_lt_is_Some_2 in Hi as [d Hd]. exists d. split; [done|].
  by apply (rg_addr _ _ _ _ _ _ _ _ H).
Qed.

Lemma rxdesc_init_none t a armed held others coll free frames :
  ring (rview t) armed held (a :: others) coll [] free frames →
  ∃ t', ath_rxdesc_init a t = Ok (ENOMEM, t') ∧ rview t' = rview t ∧ ring_only t t' ∧ lists_kept t t' ∧
    tg_sc t' = tg_sc t.
Proof.
  intros H. pose proof (rg_held _ _ _ _ _ _ _ _ H) as Hh. cbn in Hh.
  destruct (ring_desc _ _ _ _ _ _ _ _ held H) as (d & Hd & _); [set_solver|]. cbn in Hd.
  assert (rd_nbuf d = 0) as Hn.
  { pose proof (rg_empty _ _ _ _ _ _ _ _ H) as He. rewrite Forall_cons in He. destruct He as [He _].
    unfold desc_nbuf in He. cbn in He. by rewrite Hd in He. }
  eexists. split; [|split; [|split; [|split]]].
  - unfold ath_rxdesc_init. rewrite (bind_ok _ _ _ _ _ (run_get _)), Hh.
    rewrite (bind_ok _ _ _ _ _ (run_modify _ _)). erewrite bind_ok.
    2: { eapply rxdesc_buffer_none; [exact Hd|done|]. exact (rg_heap _ _ _ _ _ _ _ _ H). }
    cbn [negb]. rewrite (bind_ok _ _ _ _ _ (run_modify _ _)). rewrite run_ret. reflexivity.
  - unfold rview. cbn. by rewrite Hh.
  - unfold ring_only. destruct t as [[]]. reflexivity.
  - by split.
  - done.
Qed.

Lemma insert_as_alter {A} (f : A → A) (l : list A) i x : l !! i = Some x → <[i := f x]> l = alter f i l.
Proof.
  intros Hx. apply list_eq. intros j. destruct (decide (i = j)) as [<-|Hj].
  - rewrite list_lookup_insert_eq by (by eapply lookup_lt_Some). by rewrite list_lookup_alter_eq, Hx.
  - by rewrite list_lookup_insert_ne, list_lookup_alter_ne by done.
Qed.

Lemma set_descs t g ds :
  g (rx_descs t) = ds → t <| rx_descs ::= g |> = set_hal (sc_hal (tg_sc t)) (t <| rx_descs := ds |>).
Proof. intros <-. by destruct t as [[]]. Qed.

(** What the chip is told of a descriptor: its address, when it has none before it, and to
    receive. *)
Definition arm_hw (o : option nat) (addr : Z) (hw : HW) : HW :=
  hw_write AR_CR AR_CR_RXE (match o with None => hw_write AR_RXDP addr hw | Some _ => hw end).

Lemma rxdesc_init_some t a armed held others coll b pool free frames :
  ring (rview t) armed held (a :: others) coll (b :: pool) free frames →
  ∃ t', ath_rxdesc_init a t = Ok (0, t') ∧
    ring (rview t') (armed ++ [held]) a others coll pool free frames ∧ ring_only t t' ∧
    lists_kept t t' ∧ rearmed (rx_descs t) (rx_descs t') [held] ∧
    (∀ q, qrep (sc_nb (tg_sc t)) q coll → qrep (sc_nb (tg_sc t')) q coll) ∧
    (∀ i, i ≠ held → desc_nbuf (rx_descs t') i = desc_nbuf (rx_descs t) i) ∧
    desc_nbuf (rx_descs t') held = b ∧ same_chains (view (sc_nb (tg_sc t))) (view (sc_nb (tg_sc t'))) ∧
    ah_hw (sc_hal (tg_sc t')) = arm_hw (last armed) (desc_addr (rx_desc_paddr t) held) (ah_hw (sc_hal (tg_sc t))).
Proof.
  intros H. pose proof (rg_held _ _ _ _ _ _ _ _ H) as Hh. cbn in Hh.
  destruct (ring_desc _ _ _ _ _ _ _ _ held H) as (d & Hd & Hda); [set_solver|]. cbn in Hd, Hda.
  pose proof (lookup_lt_Some _ _ _ Hd) as Hlt.
  assert (rd_nbuf d = 0) as Hn.
  { pose proof (rg_empty _ _ _ _ _ _ _ _ H) as He. rewrite Forall_cons in He. destruct He as [He _].
    unfold desc_nbuf in He. cbn in He. by rewrite Hd in He. }
  set (t1 := t <| sc_rxdesc_held := Some a |>).
  destruct (rxdesc_buffer_some held d t1 _ _ _ _ _ _ Hd Hn (rg_heap _ _ _ _ _ _ _ _ H))
    as (n' & p & E & Hheap' & Hq' & Hsc).
  assert (frag (view n') b) as Hf.
  { pose proof (rh_frag _ _ _ _ _ _ Hheap') as Hf. rewrite Forall_forall in Hf. apply Hf. by left. }
  destruct (frag_peek _ _ Hf) as (pk & Epk). destruct (frag_tailroom _ _ Hf) as (room & Erm).
  set (d1 := d <| rd_nbuf := b |> <| rd_dmap := b |> <| rd_data := p |>) in *.
  set (d2 := d1 <| rd_link := 0 |>).
  set (d3 := d2 <| rd_hw ::= λ w, ar5416SetupRxDesc_20 w room 0 |>).
  set (t3 := set_nb n' (t1 <| rx_descs ::= <[held := d3]> |>)).
  assert (∃ h, (match sc_rxlink t3 with
     | None => thal (ar5416SetRxDP (rd_daddr d2))
     | Some l => upd_rxd l (λ x, x <| rd_link := rd_daddr d2 |>)
     end) t3 = Ok (tt, set_hal h (t3 <| rx_descs := arm_descs (rx_descs t) (last armed) held d3 |>)) ∧
     ah_hw h = match last armed with
       None => hw_write AR_RXDP (rd_daddr d2) (ah_hw (sc_hal (tg_sc t3))) | Some _ => ah_hw (sc_hal (tg_sc t3)) end)
     as (h & Eh & Hhw).
  { pose proof (rg_link _ _ _ _ _ _ _ _ H) as Hl. cbn in Hl.
    change (sc_rxlink t3) with (sc_rxlink t). rewrite Hl. destruct (last armed) as [l|] eqn:El.
    - exists (sc_hal (tg_sc t3)). split; [|done].
      assert (l ∈ armed ++ held :: a :: others) as Hin.
      { apply last_Some in El as (l' & ->). set_solver. }
      destruct (ring_desc _ _ _ _ _ _ _ _ l H Hin) as (x & Hx & _). cbn in Hx.
      assert (l ≠ held) as Hlh.
      { intros ->. pose proof (rg_nodup _ _ _ _ _ _ _ _ H) as Hnd. apply last_Some in El as (l' & ->).
        rewrite <-app_assoc in Hnd. apply NoDup_app in Hnd as (_ & _ & Hnd). apply NoDup_cons in Hnd as [Hnd _].
        set_solver. }
      erewrite run_upd_rxd by (cbn; rewrite list_lookup_insert_ne by done; exact Hx).
      assert ((<[held := d3]> (rx_descs t)) !! l = Some x) as Hx' by (by rewrite list_lookup_insert_ne).
      do 2 f_equal. apply set_descs. unfold arm_descs, relink.
      exact (insert_as_alter (λ x, x <| rd_link := rd_daddr d2 |>) _ _ _ Hx').
    - exists (match ar5416SetRxDP (rd_daddr d2) (sc_hal (tg_sc t3)) with Ok (_, h) => h | _ => sc_hal (tg_sc t3) end).
      split; [|done].
      unfold ar5416SetRxDP, iowrite32_mac. erewrite run_thal by reflexivity. 
      clear. destruct t as [[]]. reflexivity. }
  set (t4 := set_hal h (t3 <| rx_descs := arm_descs (rx_descs t) (last armed) held d3 |>)) in *.
  destruct (ar5416EnableReceive (sc_hal (tg_sc t4))) as [[[] h5]|f] eqn:E5; [|by unfold ar5416EnableReceive, iowrite32_mac in E5].
  set (t5 := set_hal h5 (t4 <| sc_rxlink := Some held |>)).
  exists t5. split; [|split; [|split; [|split; [|split; [|split; [exact Hq'|split; [|split; [|split; [exact Hsc|]]]]]]]]].
  - unfold ath_rxdesc_init. rewrite (bind_ok _ _ _ _ _ (run_get _)), Hh.
    rewrite (bind_ok _ _ _ _ _ (run_modify _ _)). fold t1. rewrite (bind_ok _ _ _ _ _ E). cbn [negb].
    set (u1 := set_nb n' (t1 <| rx_descs ::= <[held := d1]> |>)).
    set (u2 := set_nb n' (t1 <| rx_descs ::= <[held := d2]> |>)).
    assert (rx_descs u1 !! held = Some d1) as Hu1 by (cbn; by rewrite list_lookup_insert_eq).
    assert (rx_descs u2 !! held = Some d2) as Hu2 by (cbn; by rewrite list_lookup_insert_eq).
    assert (∀ f x y, <[held := f]> (<[held := x]> y) = <[held := f]> y :> list rx_desc) as Hii
      by (intros; apply list_insert_insert_eq).
    erewrite bind_ok by (erewrite run_upd_rxd by exact Hu1; instantiate (1 := u2); unfold u2, u1, set_nb, field_upd; cbn; rewrite Hii; reflexivity).
    rewrite (bind_ok _ _ _ _ _ (run_rd_rxd _ _ _ Hu2)).
    erewrite bind_ok by (apply run_tnb_same; exact Epk).
    erewrite bind_ok by (apply run_tnb_same; exact Erm).
    erewrite bind_ok by (erewrite run_upd_rxd by exact Hu2; instantiate (1 := t3); unfold u2, t3, set_nb, field_upd; cbn; rewrite Hii; reflexivity).
    rewrite (bind_ok _ _ _ _ _ (run_get _)), (bind_ok _ _ _ _ _ Eh), (bind_ok _ _ _ _ _ (run_modify _ _)).
    erewrite bind_ok by (apply run_thal; exact E5). by rewrite run_ret.
  - change (rview t5) with (mk_rv (Some a) (Some held) (arm_descs (rx_descs t) (last armed) held d3)
      (rx_desc_paddr t) (view n')).
    eapply (ring_arm (rview t)); [exact H|done|exact Hda|exact Hheap'].
  - unfold ring_only. clear. destruct t as [[]]. reflexivity.
  - by split.
  - assert (held ∈ [held]) as Hin by set_solver. split.
    + apply length_arm.
    + intros i Hi. change (rx_descs t5) with (arm_descs (rx_descs t) (last armed) held d3).
      rewrite (arm_proj rd_hw) by done. rewrite decide_False; [done|]. intros ->. done.
    + rewrite Forall_singleton. exists (default d3 (rx_descs t5 !! held)).
      pose proof (arm_proj rd_hw (rx_descs t) (last armed) held d3 held (λ _ _, eq_refl) Hlt) as Hp.
      rewrite decide_True in Hp by done.
      change (rx_descs t5) with (arm_descs (rx_descs t) (last armed) held d3).
      destruct (arm_descs (rx_descs t) (last armed) held d3 !! held) as [x|]; [|done].
      injection Hp as Hp. split; [done|]. cbn -[tst ar5416SetupRxDesc_20 d3]. change (id x) with x. rewrite Hp. apply not_done_after_setup.
  - intros i Hi. unfold desc_nbuf. change (rx_descs t5) with (arm_descs (rx_descs t) (last armed) held d3).
    rewrite (arm_proj rd_nbuf) by done. by rewrite decide_False by done.
  - unfold desc_nbuf. change (rx_descs t5) with (arm_descs (rx_descs t) (last armed) held d3).
    rewrite (arm_proj rd_nbuf) by done. by rewrite decide_True by done.
  - unfold arm_hw. change (sc_hal (tg_sc t5)) with h5.
    unfold ar5416EnableReceive, iowrite32_mac, modify in E5. injection E5 as <-.
    change (rd_daddr d2) with (rd_daddr d) in Hhw. rewrite Hda in Hhw.
    change (sc_hal (tg_sc t3)) with (sc_hal (tg_sc t)) in Hhw. rewrite <-Hhw. done.
Qed.
End arm.
