(* ===== verification/IfTrig.v ===== *)
(** * Collecting received frames

    The handler that walks the ring, gathers the buffers of each complete frame into one
    and hands their descriptors back to the chip. It never faults on a well-formed ring, and
    every buffer it takes is accounted for. *)

From S2P Require Import Prelude.
From S2P Require Import NBufProps.
From S2P Require Import IfTypes.
From S2P Require Import IfRecv.
From S2P Require Import IfHeap.
From S2P Require Import IfRing.

(** ** Walking a list *)
Lemma tailq_remove_head (a : nat) l : a ∉ l → asf_tailq_remove a (a :: l) = l.
Proof.
  intros Ha. unfold asf_tailq_remove. rewrite filter_cons_False by (by intros []).
  induction l as [|b l IH]; [done|]. rewrite filter_cons_True by set_solver. f_equal. apply IH. set_solver.
Qed.
Lemma tailq_next_mid l1 a l2 : a ∉ l1 → tailq_next a (l1 ++ a :: l2) = head l2.
Proof.
  induction l1 as [|b l1 IH]; intros Ha; cbn; [by rewrite decide_True|].
  rewrite decide_False by set_solver. apply IH. set_solver.
Qed.
Lemma tailq_next_head a l : tailq_next a (a :: l) = head l.
Proof. apply (tailq_next_mid []). set_solver. Qed.

(** ** One descriptor leaves the chain and comes back *)

(** The descriptors not armed may be listed in any order. *)
Lemma ring_others v armed held others others' coll pool free frames :
  others ≡ₚ others' → ring v armed held others coll pool free frames →
  ring v armed held others' coll pool free frames.
Proof. intros Hp [? ? ? ? ? ? ? ? ?]. split; try done; by rewrite <-Hp. Qed.

(** At least one descriptor is not with the chip. *)
Lemma ring_length v armed held others coll pool free frames :
  ring v armed held others coll pool free frames → (length armed < length (rv_descs v))%nat.
Proof.
  intros H. pose proof (rg_nodup _ _ _ _ _ _ _ _ H) as Hnd. pose proof (rg_range _ _ _ _ _ _ _ _ H) as Hr.
  assert ((length (armed ++ held :: others) ≤ length (seq 0 (length (rv_descs v))))%nat) as Hle.
  { apply submseteq_length, NoDup_submseteq; [done|]. intros i Hi. rewrite Forall_forall in Hr.
    apply elem_of_seq. specialize (Hr i Hi). lia. }
  rewrite length_app, length_seq in Hle. cbn in Hle. lia.
Qed.

(** The descriptor at the head of the chain leaves it when its buffer has been taken. *)
Lemma ring_detach v a b armed held others coll coll' pool pool' free frames d d' heap' :
  ring v (a :: b :: armed) held others coll pool free frames →
  rv_descs v !! a = Some d → rd_nbuf d' = 0 → rd_link d' = rd_link d → rd_daddr d' = rd_daddr d →
  rx_heap heap' (map (desc_nbuf (rv_descs v)) (b :: armed)) coll' pool' free frames →
  ring (mk_rv (rv_held v) (rv_link v) (<[a := d']> (rv_descs v)) (rv_paddr v) heap')
    (b :: armed) held (a :: others) coll' pool' free frames.
Proof.
  intros [Hheld Hnd Hrange Hp Haddr Hlk Hl Hemp Hheap] Hd Hd1 Hd2 Hd3 Hh'.
  pose proof (lookup_lt_Some _ _ _ Hd) as Hlt.
  assert ((b :: armed) ++ held :: a :: others ≡ₚ (a :: b :: armed) ++ held :: others) as Hperm by solve_Permutation.
  assert (a ∉ b :: armed) as Ha by (apply NoDup_cons in Hnd as [Hnd _]; set_solver).
  assert (∀ i, i ≠ a → desc_nbuf (<[a := d']> (rv_descs v)) i = desc_nbuf (rv_descs v) i) as Hnb
    by (intros i Hi; unfold desc_nbuf; by rewrite list_lookup_insert_ne by done).
  split; cbn -[linked map].
  - done.
  - by rewrite Hperm.
  - rewrite Hperm, length_insert. done.
  - done.
  - intros i x Hx. destruct (decide (a = i)) as [<-|Hi].
    + rewrite list_lookup_insert_eq in Hx by done. injection Hx as <-. rewrite Hd3. by apply Haddr.
    + rewrite list_lookup_insert_ne in Hx by done. by apply Haddr.
  - destruct Hlk as [_ Hlk]. eapply linked_ext; [|exact Hlk]. intros i Hi. unfold desc_link.
    rewrite list_lookup_insert_ne; [done|]. by intros ->.
  - by rewrite Hl.
  - rewrite !Forall_cons in *. destruct Hemp as [Hh Ho]. split_and!.
    + rewrite Hnb; [done|]. intros ->. apply NoDup_cons in Hnd as [Hnd _]. set_solver.
    + unfold desc_nbuf. by rewrite list_lookup_insert_eq.
    + rewrite Forall_forall in *. intros i Hi. rewrite Hnb; [auto|]. intros ->.
      apply NoDup_cons in Hnd as [Hnd _]. set_solver.
  - rewrite (map_ext_in (desc_nbuf (<[a := d']> (rv_descs v))) (desc_nbuf (rv_descs v)) (b :: armed));
      [done|]. intros i Hi%list_elem_of_In. apply Hnb. by intros ->.
Qed.

Section trig.
Context {HW RC : Type} `{!Mmio HW}.
Implicit Type t : tgt HW RC.

(** The ring and the lists it hangs in. *)
Record rring t armed held idle coll pool free frames : Prop := {
  rr_ring : ring (rview t) armed held idle coll pool free frames;
  rr_desc : sc_rxdesc t = armed ++ [held];
  rr_idle : sc_rxdesc_idle t = idle }.

(** *** What a walk over the chain moves *)

(** Where the descriptors and the buffers of the receive path are. *)
Record stock := mk_stock {
  k_armed : list nat; k_held : nat; k_idle : list nat;
  k_coll : list Z; k_pool : list Z; k_free : list Z; k_frames : list Z }.
Definition hview t : heap_view := view (sc_nb (tg_sc t)).
(** The buffers that carry a descriptor of memory. *)
Definition own t (k : stock) : list Z := map (desc_nbuf (rx_descs t)) (k_armed k) ++ k_coll k ++ k_pool k.
(** The frame [f] is made of the memory [ds], which no other buffer has. *)
Definition sealed t (k : stock) (f : Z) (ds : list Z) : Prop :=
  f ∈ k_frames k ∧ consists_of (hview t) f ds ∧ ∀ a, a ∈ own t k → desc_of (hview t) a ∉ ds.

(** The descriptors [out] have left the chain at its head, those of [suf] have come in at its
    end, and no descriptor and no buffer is lost. *)
Record moved t (k : stock) t' (k' : stock) (out suf : list nat) : Prop := {
  mv_ring : k_armed k ++ suf = out ++ k_armed k';
  mv_descs : suf ++ k_held k' :: k_idle k' ≡ₚ k_held k :: k_idle k ++ out;
  mv_bufs : own t' k' ++ k_free k' ++ k_frames k' ≡ₚ own t k ++ k_free k ++ k_frames k;
  mv_rearmed : rearmed (rx_descs t) (rx_descs t') suf;
  mv_nbuf : ∀ i, i ∉ out → i ∉ suf → desc_nbuf (rx_descs t') i = desc_nbuf (rx_descs t) i;
  mv_own : ∀ a, a ∈ own t' k' → a ∈ own t k ∧ desc_of (hview t') a = desc_of (hview t) a;
  mv_sealed : ∀ f ds, sealed t k f ds → sealed t' k' f ds }.

Lemma moved_trans t1 k1 t2 k2 t3 k3 out1 out2 suf1 suf2 :
  moved t1 k1 t2 k2 out1 suf1 → moved t2 k2 t3 k3 out2 suf2 →
  moved t1 k1 t3 k3 (out1 ++ out2) (suf1 ++ suf2).
Proof.
  intros [R1 D1 B1 H1 N1 O1 S1] [R2 D2 B2 H2 N2 O2 S2]. split.
  - rewrite app_assoc, R1, <-!app_assoc. by rewrite R2.
  - rewrite <-app_assoc, D2, (app_assoc (k_idle k1)).
    change (k_held k1 :: (k_idle k1 ++ out1) ++ out2) with ((k_held k1 :: k_idle k1 ++ out1) ++ out2).
    rewrite <-D1, <-app_assoc. done.
  - by rewrite B2.
  - by eapply rearmed_trans.
  - intros i Ho Hs. rewrite not_elem_of_app in *. rewrite N2, N1 by tauto. done.
  - intros a Ha. destruct (O2 a Ha) as [Ha2 ->]. by apply O1.
  - intros f ds Hf. by apply S2, S1.
Qed.
(** While no frame is made, only the lists change. *)
Lemma moved_lists t k t' k' out suf :
  k_armed k ++ suf = out ++ k_armed k' → suf ++ k_held k' :: k_idle k' ≡ₚ k_held k :: k_idle k ++ out →
  own t' k' ≡ₚ own t k → rearmed (rx_descs t) (rx_descs t') suf →
  (∀ i, i ∉ out → i ∉ suf → desc_nbuf (rx_descs t') i = desc_nbuf (rx_descs t) i) →
  same_chains (hview t) (hview t') → k_free k' = k_free k → k_frames k' = k_frames k →
  moved t k t' k' out suf.
Proof.
  intros HR HD Hp Hre Hn Hc Hf Hfr.
  assert (∀ a, desc_of (hview t') a = desc_of (hview t) a) as Hd
    by (intros a; destruct Hc as [E _]; unfold desc_of; by rewrite E).
  split; try done.
  - by rewrite Hp, Hf, Hfr.
  - intros a Ha. rewrite Hp in Ha. done.
  - intros f ds (H1 & H2 & H3). split; [by rewrite Hfr|]. split; [by eapply consists_kept|].
    intros a Ha. rewrite Hd. apply H3. by rewrite <-Hp.
Qed.
Lemma moved_look t k t' :
  rx_descs t' = rx_descs t → hview t' = hview t → moved t k t' k [] [].
Proof.
  intros Hd Hv. apply moved_lists; try done.
  - by rewrite app_nil_r.
  - by rewrite app_nil_r.
  - unfold own. by rewrite Hd.
  - rewrite Hd. apply rearmed_refl.
  - intros i _ _. by rewrite Hd.
  - by rewrite Hv.
Qed.

(** What the collecting steps keep, and how they hand descriptors back: those of [suf]. *)
Record handed t t' (suf : list nat) (coll : list Z) : Prop := {
  hd_only : ring_only t t';
  hd_rearmed : rearmed (rx_descs t) (rx_descs t') suf;
  hd_coll : ∀ q, qrep (sc_nb (tg_sc t)) q coll → qrep (sc_nb (tg_sc t')) q coll;
  hd_nbuf : ∀ i, i ∉ suf → desc_nbuf (rx_descs t') i = desc_nbuf (rx_descs t) i }.

Lemma requeue_spec t a armed held idle coll pool free frames :
  ring (rview t) armed held (a :: idle) coll pool free frames →
  sc_rxdesc t = a :: armed ++ [held] → sc_rxdesc_idle t = idle →
  ∃ t' suf held' idle' pool', rxdesc_requeue a t = Ok (tt, t') ∧
    rring t' (armed ++ suf) held' idle' coll pool' free frames ∧ handed t t' suf coll ∧
    suf ++ held' :: idle' ≡ₚ held :: idle ++ [a] ∧
    map (desc_nbuf (rx_descs t')) suf ++ pool' = pool ∧ same_chains (hview t) (hview t') ∧
    suf = (if pool is [] then [] else [held]).
Proof.
  intros H Hd Hi.
  assert (a ∉ armed ++ [held]) as Ha.
  { pose proof (rg_nodup _ _ _ _ _ _ _ _ H) as Hnd. intros Hin. rewrite elem_of_app in Hin.
    rewrite NoDup_app, NoDup_cons in Hnd. destruct Hnd as (_ & Hn1 & Hn2 & _).
    destruct Hin as [Hin|Hin%list_elem_of_singleton]; [by apply Hn1 in Hin; set_solver|set_solver]. }
  destruct pool as [|b pool].
  - destruct (rxdesc_init_none _ _ _ _ _ _ _ _ H) as (t' & E & Hv & Ho & [Hl1 Hl2] & _).
    set (t'' := t' <| sc_rxdesc ::= asf_tailq_remove a |> <| sc_rxdesc_idle ::= λ l, l ++ [a] |>).
    exists t'', [], held, (idle ++ [a]), []. split; [|split; [|split; [|split]]].
    + unfold rxdesc_requeue. rewrite (bind_ok _ _ _ _ _ E). reflexivity.
    + rewrite app_nil_r. split; cbn.
      * change (rview t'') with (rview t'). rewrite Hv. eapply ring_others; [|exact H]. apply Permutation_cons_append.
      * by rewrite Hl1, Hd, tailq_remove_head.
      * by rewrite Hl2, Hi.
    + assert (rx_descs t' = rx_descs t ∧ view (sc_nb (tg_sc t')) = view (sc_nb (tg_sc t))) as [Hds Hvw]
        by (split; [exact (f_equal rv_descs Hv)|exact (f_equal rv_heap Hv)]).
      split.
      * eapply ring_only_trans; [exact Ho|]. unfold ring_only. clear. by destruct t' as [[]].
      * cbn. rewrite Hds. apply rearmed_refl.
      * cbn. intros q [Hc Hr]. split; [|done]. eapply lchain_ext; [|exact Hc]. intros x _. cbv beta.
        by rewrite <-!view_next, Hvw.
      * intros i _. cbn. by rewrite Hds.
    + done.
    + split; [done|]. assert (hview t'' = hview t) as -> by exact (f_equal rv_heap Hv). done.
  - destruct (rxdesc_init_some _ _ _ _ _ _ _ _ _ _ H) as (t' & E & Hr & Ho & [Hl1 Hl2] & Hre & Hq & Hnb & Hb & Hc & _).
    set (t'' := t' <| sc_rxdesc ::= λ l, asf_tailq_remove a l ++ [a] |>).
    exists t'', [held], a, idle, pool. split; [|split; [|split; [|split]]].
    + unfold rxdesc_requeue. rewrite (bind_ok _ _ _ _ _ E). reflexivity.
    + split; cbn; [done| |by rewrite Hl2, Hi]. by rewrite Hl1, Hd, tailq_remove_head.
    + split; [|done|done|intros i Hx; apply Hnb; set_solver].
      eapply ring_only_trans; [exact Ho|]. unfold ring_only. clear. by destruct t' as [[]].
    + solve_Permutation.
    + split; [|by split]. cbn [map app]. by rewrite <-Hb.
Qed.

(** The head of the chain, [t1] when its buffer has been taken, goes round. *)
Lemma give_back t a b armed held idle coll coll' pool pool' free frames d n' :
  rring t (a :: b :: armed) held idle coll pool free frames →
  rx_descs t !! a = Some d →
  rx_heap (view n') (map (desc_nbuf (rx_descs t)) (b :: armed)) coll' pool' free frames →
  let t1 := set_nb n' (t <| rx_descs ::= <[a := d <| rd_dmap := adf_nbuf_unmap |> <| rd_nbuf := 0 |>]> |>) in
  ∃ t' suf held' idle' pool2, rxdesc_requeue a t1 = Ok (tt, t') ∧
    rring t' ((b :: armed) ++ suf) held' idle' coll' pool2 free frames ∧
    ring_only t t' ∧ rearmed (rx_descs t) (rx_descs t') suf ∧
    (∀ q, qrep n' q coll' → qrep (sc_nb (tg_sc t')) q coll') ∧
    (∀ i, i ∉ [a] → i ∉ suf → desc_nbuf (rx_descs t') i = desc_nbuf (rx_descs t) i) ∧
    suf ++ held' :: idle' ≡ₚ held :: idle ++ [a] ∧
    map (desc_nbuf (rx_descs t')) ((b :: armed) ++ suf) ++ pool2 = map (desc_nbuf (rx_descs t)) (b :: armed) ++ pool' ∧
    same_chains (view n') (hview t') ∧ suf = (if pool' is [] then [] else [held]).
Proof.
  intros [Hr Hd Hi] Ha Hh t1.
  assert (ring (rview t1) (b :: armed) held (a :: idle) coll' pool' free frames) as Hr1
    by exact (ring_detach _ _ _ _ _ _ _ _ _ _ _ _ _ (d <| rd_dmap := adf_nbuf_unmap |> <| rd_nbuf := 0 |>) _
                Hr Ha eq_refl eq_refl eq_refl Hh).
  destruct (requeue_spec t1 a (b :: armed) held idle coll' pool' free frames Hr1)
    as (t' & suf & held' & idle' & pool2 & E & Hr' & [Ho Hre Hq Hnb] & Hperm & Hpool & Hc & Hs); [done..|].
  assert (∀ i, i ∉ [a] → i ∉ suf → desc_nbuf (rx_descs t') i = desc_nbuf (rx_descs t) i) as Hnb'.
  { intros i Hi1 Hi2. rewrite (Hnb i Hi2). unfold t1, desc_nbuf. cbn.
    rewrite list_lookup_insert_ne; [done|]. intros ->. by apply Hi1, list_elem_of_singleton. }
  exists t', suf, held', idle', pool2. refine (conj E (conj Hr' (conj _ (conj _ (conj _ (conj Hnb' (conj Hperm (conj _ (conj Hc Hs))))))))).
  - eapply ring_only_trans; [|exact Ho]. unfold ring_only, t1. clear. by destruct t as [[]].
  - split; [rewrite (re_len _ _ _ Hre); apply length_insert| |exact (re_pending _ _ _ Hre)].
    intros i Hi'. rewrite (re_kept _ _ _ Hre i Hi'). unfold t1. cbn.
    destruct (decide (a = i)) as [<-|Hne]; [|by rewrite list_lookup_insert_ne].
    rewrite list_lookup_insert_eq by (by eapply lookup_lt_Some). by rewrite Ha.
  - exact Hq.
  - rewrite map_app, <-app_assoc, Hpool. f_equal. apply map_ext_in. intros i Hin%list_elem_of_In.
    pose proof (rg_nodup _ _ _ _ _ _ _ _ Hr) as Hnd. cbn in Hnd. apply NoDup_cons in Hnd as [Hna _].
    pose proof (rg_nodup _ _ _ _ _ _ _ _ (rr_ring _ _ _ _ _ _ _ _ Hr')) as Hnd'.
    rewrite <-app_assoc in Hnd'. apply NoDup_app in Hnd' as (_ & Hns & _).
    apply Hnb'; [intros ->%list_elem_of_singleton; set_solver|]. intros Hx. apply (Hns i Hin). set_solver.
Qed.

(** An update of a descriptor undone by the next one. *)
Lemma set_nb_descs t n' a f g d :
  rx_descs t !! a = Some d →
  upd_rxd a g (set_nb n' (t <| rx_descs ::= <[a := f d]> |>)) =
  Ok (tt, set_nb n' (t <| rx_descs ::= <[a := g (f d)]> |>)).
Proof.
  intros Ha. assert ((<[a := f d]> (rx_descs t)) !! a = Some (f d)) as E
    by (apply list_lookup_insert_eq; by eapply lookup_lt_Some).
  erewrite run_upd_rxd by exact E. unfold set_nb, field_upd. cbn. by rewrite list_insert_insert_eq.
Qed.

(** The lemma for one turn of the collecting loop. *)
Lemma collect_step n tail t a b armed held idle coll pool free frames q :
  rring t (a :: b :: armed) held idle coll pool free frames →
  qrep (sc_nb (tg_sc t)) q coll → Z.of_nat (length coll) < 4294967294 →
  ∃ t' q' suf held' idle' pool',
    collect_loop (S n) (Some a) tail q t =
      (if decide (a = tail) then mret q' else collect_loop n (Some b) tail q') t' ∧
    rring t' ((b :: armed) ++ suf) held' idle' (coll ++ [desc_nbuf (rx_descs t) a]) pool' free frames ∧
    qrep (sc_nb (tg_sc t')) q' (coll ++ [desc_nbuf (rx_descs t) a]) ∧
    ring_only t t' ∧
    moved t (mk_stock (a :: b :: armed) held idle coll pool free frames)
      t' (mk_stock ((b :: armed) ++ suf) held' idle' (coll ++ [desc_nbuf (rx_descs t) a]) pool' free frames) [a] suf.
Proof.
  intros HR Hq Hlen. pose proof HR as [Hr Hd Hi].
  destruct (ring_desc _ _ _ _ _ _ _ _ a Hr) as (d & Ha & _); [set_solver|]. cbn in Ha.
  assert (desc_nbuf (rx_descs t) a = rd_nbuf d) as Hn by (unfold desc_nbuf; by rewrite Ha). rewrite Hn.
  pose proof (rg_heap _ _ _ _ _ _ _ _ Hr) as Hh. cbn [map rview rv_descs rv_heap] in Hh.
  rewrite Hn in Hh. destruct (rx_queue_add _ _ _ _ _ _ _ _ Hh Hq Hlen) as (q' & n' & E & Hq' & Hh' & Hc).
  destruct (give_back t a b armed held idle coll _ pool pool free frames d n' HR Ha Hh')
    as (t' & suf & held' & idle' & pool2 & E' & HR' & Ho & Hre & Hqq & Hnb & Hperm & Hown & Hc' & _).
  exists t', q', suf, held', idle', pool2. refine (conj _ (conj HR' (conj (Hqq _ Hq') (conj Ho _)))).
  2: { apply moved_lists; cbn; try done; [|by eapply same_chains_trans].
    unfold own. cbn [k_armed k_coll k_pool map]. rewrite Hn. 
    trans ((coll ++ [rd_nbuf d]) ++ map (desc_nbuf (rx_descs t')) ((b :: armed) ++ suf) ++ pool2);
      [solve_Permutation|rewrite Hown; cbn [map]; solve_Permutation]. }
  cbn [collect_loop]. set (f := λ d, d <| rd_dmap := adf_nbuf_unmap |>).
  set (u := t <| rx_descs ::= <[a := f d]> |>).
  assert (rx_descs u !! a = Some (f d)) as Hu
    by (cbn; apply list_lookup_insert_eq; by eapply lookup_lt_Some).
  erewrite bind_ok by (apply run_upd_rxd; exact Ha).
  change (t <| rx_descs ::= _ |>) with u. rewrite (bind_ok _ _ _ _ _ (run_rd_rxd _ _ _ Hu)).
  erewrite bind_ok by (apply (run_tnb _ u); exact E).
  erewrite bind_ok by (apply (set_nb_descs _ _ _ f _ _ Ha)).
  rewrite (bind_ok _ _ _ _ _ (run_get _)). cbn [sc_rxdesc set_nb field_upd].
  rewrite Hd. cbn [app]. rewrite tailq_next_head. cbn [head assert_ bool_decide is_Some_dec]. rewrite (bind_ok _ _ _ _ _ (run_ret _ _)).
  by rewrite (bind_ok _ _ _ _ _ E').
Qed.

Lemma rring_nodup t armed held idle coll pool free frames :
  rring t armed held idle coll pool free frames → NoDup (armed ++ held :: idle).
Proof. intros [H _ _]. exact (rg_nodup _ _ _ _ _ _ _ _ H). Qed.

Lemma collect_loop_spec ds free frames cur : ∀ t q coll armed b held idle pool fuel,
  rring t (cur ++ ds :: b :: armed) held idle coll pool free frames →
  qrep (sc_nb (tg_sc t)) q coll → Z.of_nat (length coll + length cur) < 4294967294 →
  (length cur < fuel)%nat →
  ∃ t' q' suf held' idle' pool',
    collect_loop fuel (head (cur ++ [ds])) ds q t = Ok (q', t') ∧
    rring t' ((b :: armed) ++ suf) held' idle' (coll ++ map (desc_nbuf (rx_descs t)) (cur ++ [ds]))
      pool' free frames ∧
    qrep (sc_nb (tg_sc t')) q' (coll ++ map (desc_nbuf (rx_descs t)) (cur ++ [ds])) ∧
    ring_only t t' ∧
    moved t (mk_stock (cur ++ ds :: b :: armed) held idle coll pool free frames)
      t' (mk_stock ((b :: armed) ++ suf) held' idle' (coll ++ map (desc_nbuf (rx_descs t)) (cur ++ [ds]))
            pool' free frames) (cur ++ [ds]) suf.
Proof.
  induction cur as [|c cur IH]; intros t q coll armed b held idle pool fuel HR Hq Hlen Hfuel;
    (destruct fuel as [|fuel]; [cbn in Hfuel; lia|]).
  - destruct (collect_step fuel ds _ _ _ _ _ _ _ _ _ _ _ HR Hq) as
      (t' & q' & suf & held' & idle' & pool' & E & HR' & Hq' & Ho & Hm); [cbn in Hlen; lia|].
    exists t', q', suf, held', idle', pool'. refine (conj _ (conj HR' (conj Hq' (conj Ho Hm)))).
    cbn [head app]. rewrite E. by rewrite decide_True.
  - pose proof (rring_nodup _ _ _ _ _ _ _ _ HR) as Hnd. cbn in Hnd. apply NoDup_cons in Hnd as [Hc Hnd].
    assert (∃ x l, cur ++ ds :: b :: armed = x :: l) as (x & l & Exl) by (destruct cur; cbn; eauto).
    cbn [app] in HR. rewrite Exl in HR.
    destruct (collect_step fuel ds _ _ _ _ _ _ _ _ _ _ _ HR Hq) as
      (t1 & q1 & suf1 & held1 & idle1 & pool1 & E1 & HR1 & Hq1 & Ho1 & Hm1); [lia|].
    rewrite <-Exl in HR1, Hm1. rewrite <-app_assoc in HR1, Hm1. cbn [app] in HR1, Hm1.
    cbn [length] in *.
    destruct (IH t1 q1 _ _ b held1 idle1 pool1 fuel HR1 Hq1) as
      (t2 & q2 & suf2 & held2 & idle2 & pool2 & E2 & HR2 & Hq2 & Ho2 & Hm2).
    { rewrite length_app. cbn. lia. }
    { lia. }
    assert (map (desc_nbuf (rx_descs t1)) (cur ++ [ds]) = map (desc_nbuf (rx_descs t)) (cur ++ [ds])) as Em.
    { apply map_ext_in. intros i Hi%list_elem_of_In. apply (mv_nbuf _ _ _ _ _ _ Hm1).
      - intros ->%list_elem_of_singleton. apply Hc. set_solver.
      - pose proof (rring_nodup _ _ _ _ _ _ _ _ HR1) as Hnd1. intros Hs.
        replace (cur ++ ds :: b :: armed ++ suf1) with ((cur ++ [ds]) ++ b :: armed ++ suf1) in Hnd1
          by by rewrite <-app_assoc.
        rewrite <-app_assoc in Hnd1. apply NoDup_app in Hnd1 as (_ & Hn & _). apply (Hn i Hi). set_solver. }
    rewrite Em in HR2, Hq2, Hm2. cbn [map app]. rewrite <-(app_assoc coll) in HR2, Hq2, Hm2. cbn [app] in HR2, Hq2, Hm2.
    exists t2, q2, (suf1 ++ suf2), held2, idle2, pool2. split; [|split; [|split; [|split]]].
    + cbn [head]. rewrite E1. rewrite decide_False by (intros ->; apply Hc; set_solver).
      assert (head (cur ++ [ds]) = Some x) as Eh by (destruct cur; cbn in *; congruence).
      by rewrite <-Eh.
    + by rewrite app_assoc.
    + done.
    + by eapply ring_only_trans.
    + rewrite (app_assoc armed suf1 suf2). exact (moved_trans _ _ _ _ _ _ [c] _ _ _ Hm1 Hm2).
Qed.

(** The same for the loop that throws a frame away: the freed buffer is at once that of
    the held descriptor, so no descriptor goes idle. *)
Lemma discard_step n tail t a b armed held idle coll pool free frames :
  rring t (a :: b :: armed) held idle coll pool free frames →
  ∃ t' held' idle' pool',
    discard_loop (S n) (Some a) tail t =
      (if decide (a = tail) then mret tt else discard_loop n (Some b) tail) t' ∧
    rring t' ((b :: armed) ++ [held]) held' idle' coll pool' free frames ∧
    ring_only t t' ∧
    moved t (mk_stock (a :: b :: armed) held idle coll pool free frames)
      t' (mk_stock ((b :: armed) ++ [held]) held' idle' coll pool' free frames) [a] [held].
Proof.
  intros HR. pose proof HR as [Hr Hd Hi].
  destruct (ring_desc _ _ _ _ _ _ _ _ a Hr) as (d & Ha & _); [set_solver|]. cbn in Ha.
  assert (desc_nbuf (rx_descs t) a = rd_nbuf d) as Hn by (unfold desc_nbuf; by rewrite Ha).
  pose proof (rg_heap _ _ _ _ _ _ _ _ Hr) as Hh. cbn [map rview rv_descs rv_heap] in Hh.
  rewrite Hn in Hh. destruct (rx_pool_free _ _ _ _ _ _ _ Hh) as (n' & E & Hh' & _ & Hc).
  destruct (give_back t a b armed held idle coll coll pool _ free frames d n' HR Ha Hh')
    as (t' & suf & held' & idle' & pool2 & E' & HR' & Ho & Hre & _ & Hnb & Hperm & Hown & Hc' & ->).
  exists t', held', idle', pool2. refine (conj _ (conj HR' (conj Ho _))).
  2: { apply moved_lists; cbn; try done; [|by eapply same_chains_trans].
    unfold own. cbn [k_armed k_coll k_pool map].
    trans (coll ++ map (desc_nbuf (rx_descs t')) ((b :: armed) ++ [held]) ++ pool2);
      [solve_Permutation|rewrite Hown, Hn; cbn [map]; solve_Permutation]. }
  cbn [discard_loop]. set (f := λ d, d <| rd_dmap := adf_nbuf_unmap |>).
  set (u := t <| rx_descs ::= <[a := f d]> |>).
  assert (rx_descs u !! a = Some (f d)) as Hu
    by (cbn; apply list_lookup_insert_eq; by eapply lookup_lt_Some).
  erewrite bind_ok by (apply run_upd_rxd; exact Ha).
  change (t <| rx_descs ::= _ |>) with u. rewrite (bind_ok _ _ _ _ _ (run_get _)).
  change (sc_rxdesc u) with (sc_rxdesc t).
  rewrite Hd. cbn [app]. rewrite tailq_next_head. cbn [head assert_ bool_decide is_Some_dec].
  rewrite (bind_ok _ _ _ _ _ (run_ret _ _)), (bind_ok _ _ _ _ _ (run_rd_rxd _ _ _ Hu)).
  erewrite bind_ok by (apply (run_tnb _ u); exact E).
  erewrite bind_ok by (apply (set_nb_descs _ _ _ f _ _ Ha)).
  by rewrite (bind_ok _ _ _ _ _ E').
Qed.

Lemma discard_loop_spec ds free frames coll cur : ∀ t rest held idle pool fuel,
  rring t (cur ++ ds :: rest) held idle coll pool free frames → cur ≠ [] ∨ rest ≠ [] →
  (length cur < fuel)%nat →
  ∃ t' suf held' idle' pool',
    discard_loop fuel (head (cur ++ [ds])) ds t = Ok (tt, t') ∧
    rring t' (rest ++ suf) held' idle' coll pool' free frames ∧ ring_only t t' ∧
    moved t (mk_stock (cur ++ ds :: rest) held idle coll pool free frames)
      t' (mk_stock (rest ++ suf) held' idle' coll pool' free frames) (cur ++ [ds]) suf ∧
    length suf = S (length cur).
Proof.
  induction cur as [|c cur IH]; intros t rest held idle pool fuel HR Hne Hfuel;
    (destruct fuel as [|fuel]; [cbn in Hfuel; lia|]).
  - destruct rest as [|b rest]; [by destruct Hne|].
    destruct (discard_step fuel ds _ _ _ _ _ _ _ _ _ _ HR) as
      (t' & held' & idle' & pool' & E & HR' & Ho & Hm).
    exists t', [held], held', idle', pool'. refine (conj _ (conj HR' (conj Ho (conj Hm eq_refl)))).
    cbn [head app]. rewrite E. by rewrite decide_True.
  - pose proof (rring_nodup _ _ _ _ _ _ _ _ HR) as Hnd. cbn in Hnd. apply NoDup_cons in Hnd as [Hc Hnd].
    assert (∃ x l, cur ++ ds :: rest = x :: l) as (x & l & Exl) by (destruct cur; cbn; eauto).
    cbn [app] in HR. rewrite Exl in HR.
    destruct (discard_step fuel ds _ _ _ _ _ _ _ _ _ _ HR) as
      (t1 & held1 & idle1 & pool1 & E1 & HR1 & Ho1 & Hm1).
    rewrite <-Exl in HR1, Hm1. rewrite <-app_assoc in HR1, Hm1. cbn [app] in HR1, Hm1. cbn [length] in *.
    destruct (IH t1 (rest ++ [held]) held1 idle1 pool1 fuel HR1) as
      (t2 & suf2 & held2 & idle2 & pool2 & E2 & HR2 & Ho2 & Hm2 & Hs2); [right; by destruct rest|lia|].
    rewrite <-app_assoc in HR2, Hm2.
    exists t2, ([held] ++ suf2), held2, idle2, pool2. split; [|split; [|split; [|split]]].
    + cbn [head app]. rewrite E1. rewrite decide_False by (intros ->; apply Hc; set_solver).
      assert (head (cur ++ [ds]) = Some x) as Eh by (destruct cur; cbn in *; congruence). by rewrite <-Eh.
    + done.
    + by eapply ring_only_trans.
    + exact (moved_trans _ _ _ _ _ _ [c] _ _ _ Hm1 Hm2).
    + cbn. lia.
Qed.
End trig.
