(* ===== verification/IfFrames.v ===== *)
(** * From the ring to the receive buffers

    The whole state of the receive path: the ring, and the receive buffers, those with a
    frame before those without. Walking the ring never faults and keeps it. *)

From S2P Require Import Prelude.
From S2P Require Import NBufProps.
From S2P Require Import IfTypes.
From S2P Require Import IfRecv.
From S2P Require Import IfHeap.
From S2P Require Import IfRing.
From S2P Require Import IfTrig.

(** The frames of the heap may be listed in any order. *)
Lemma rx_heap_frames v live coll pool free frames frames' :
  frames ≡ₚ frames' → rx_heap v live coll pool free frames → rx_heap v live coll pool free frames'.
Proof. intros Hp [? ? ? ? ? ? ?]. split; try done; by rewrite <-Hp. Qed.
Lemma ring_heap v heap' armed held others coll coll' pool pool' free free' frames frames' :
  ring v armed held others coll pool free frames →
  rx_heap heap' (map (desc_nbuf (rv_descs v)) armed) coll' pool' free' frames' →
  ring (v <| rv_heap := heap' |>) armed held others coll' pool' free' frames'.
Proof. intros [? ? ? ? ? ? ? ? ?] H. by split. Qed.

Section frames.
Context {HW RC : Type} `{!Mmio HW}.
Implicit Type t : tgt HW RC.

(** [t'] differs from [t] at most in the receive path. *)
Definition rx_only t t' : Prop :=
  t' = t <| rx_descs := rx_descs t' |> <| sc_rxdesc := sc_rxdesc t' |>
         <| sc_rxdesc_idle := sc_rxdesc_idle t' |> <| sc_rxdesc_held := sc_rxdesc_held t' |>
         <| sc_rxlink := sc_rxlink t' |> <| sc_rx_stats := sc_rx_stats t' |>
         <| tg_sc ::= λ s, s <| sc_nb := sc_nb (tg_sc t') |> <| sc_hal := sc_hal (tg_sc t') |> |>
         <| rx_bufs := rx_bufs t' |>.
Lemma ring_rx_only t t' : ring_only t t' → rx_only t t'.
Proof.
  unfold rx_only. intros E. assert (rx_bufs t' = rx_bufs t) as -> by by rewrite E.
  etrans; [exact E|]. clear E. by destruct t as [[]].
Qed.
Lemma rx_only_trans t t1 t2 : rx_only t t1 → rx_only t1 t2 → rx_only t t2.
Proof. unfold rx_only. intros E1 E2. etrans; [exact E2|]. clear E2. rewrite E1. reflexivity. Qed.

Definition skb_at t (i : nat) : Z := default 0 (rb_skb <$> rx_bufs t !! i).
Definition done_at t (i : nat) : bool :=
  default false ((λ b, tst (rb_status b) ATH_BUFSTATUS_DONE) <$> rx_bufs t !! i).

(** [done] have frames for the host, [todo] are empty; the host has the frames [sent]. *)
Record rx_state t armed held idle pool free done todo sent : Prop := {
  rx_ring : rring t armed held idle [] pool free (map (skb_at t) done ++ sent);
  rx_armed : armed ≠ [];
  rx_list : sc_rxbuf t = done ++ todo;
  rx_nodup : NoDup (done ++ todo);
  rx_room : (length (rx_descs t) ≤ length (done ++ todo))%nat;
  rx_range : Forall (λ i, (i < length (rx_bufs t))%nat) (done ++ todo);
  rx_done : Forall (λ i, done_at t i = true) done;
  rx_todo : Forall (λ i, done_at t i = false) todo }.

Lemma rring_nb t n' armed held idle coll coll' pool pool' free free' frames frames' :
  rring t armed held idle coll pool free frames →
  rx_heap (view n') (map (desc_nbuf (rx_descs t)) armed) coll' pool' free' frames' →
  rring (set_nb n' t) armed held idle coll' pool' free' frames'.
Proof. intros [H ? ?] Hh. split; [|done..]. by apply (ring_heap (rview t) (view n') armed held idle coll coll' pool pool' free free' frames frames'). Qed.
Lemma rring_hal t h armed held idle coll pool free frames :
  rring t armed held idle coll pool free frames → rring (set_hal h t) armed held idle coll pool free frames.
Proof. by intros [? ? ?]. Qed.
Lemma rring_bufs t f armed held idle coll pool free frames :
  rring t armed held idle coll pool free frames →
  rring (t <| rx_bufs ::= f |>) armed held idle coll pool free frames.
Proof. by intros [? ? ?]. Qed.
Lemma rring_frames t armed held idle coll pool free frames frames' :
  frames ≡ₚ frames' → rring t armed held idle coll pool free frames →
  rring t armed held idle coll pool free frames'.
Proof.
  intros Hp [H ? ?]. split; [|done..]. destruct H. split; try done. by eapply rx_heap_frames.
Qed.

(** A descriptor the chip has not completed, or that may be read only when the chip's pointer
    has moved on. *)
Lemma run_proc ds pa nds st t :
  ∃ r st' h, thal (ar5416ProcRxDescFast_20 ds pa nds st) t = Ok ((r, st'), set_hal h t) ∧
    (if decide (r = HAL_EINPROGRESS) then
       tst (ds_rxstatus8 ds) AR_RxDone = false ∨
       (tst (ds_rxstatus8 nds) AR_RxDone = false ∧ hw_read AR_RXDP (ah_hw (sc_hal (tg_sc t))) = (pa, ah_hw h))
     else tst (ds_rxstatus8 ds) AR_RxDone = true ∧ st' = rx_desc_status ds st).
Proof.
  unfold thal, tx, hal, ar5416ProcRxDescFast_20.
  destruct (tst (ds_rxstatus8 ds) AR_RxDone); cbn [negb].
  2: { do 3 eexists. split; [reflexivity|]. by left. }
  unfold ioread32_mac, mbind, M_bind, mret, M_ret. destruct (tst (ds_rxstatus8 nds) AR_RxDone) eqn:Hn; cbn -[rx_desc_status].
  - do 3 eexists. split; [reflexivity|done].
  - destruct (hw_read AR_RXDP (ah_hw (sc_hal (tg_sc t)))) as [v hw]. destruct (Z.eqb_spec v pa) as [->|].
    + do 3 eexists. split; [reflexivity|]. by right.
    + do 3 eexists. split; [reflexivity|done].
Qed.

(** *** What the chip has written *)

(** A descriptor of a frame, and whether more of the frame follows. *)
Definition segment t (more : bool) (i : nat) : Prop :=
  ∃ w, rd_hw <$> rx_descs t !! i = Some w ∧ tst (ds_rxstatus8 w) AR_RxDone = true ∧
       tst (ds_rxstatus1 w) AR_RxMore = more.
(** The descriptors of one complete frame. *)
Definition whole t (fr : list nat) : Prop :=
  ∃ l i, fr = l ++ [i] ∧ Forall (segment t true) l ∧ segment t false i.
Definition seg_len t (i : nat) : Z :=
  default 0 ((λ d, u16 (ds_rxstatus1 (rd_hw d) .& AR_DataLen)) <$> rx_descs t !! i).
Definition frame_len t (fr : list nat) : Z := foldl (λ n i, u16 (n + seg_len t i)) 0 fr.
(** The memory behind the buffer of a descriptor. *)
Definition memory t (i : nat) : Z := desc_of (hview t) (desc_nbuf (rx_descs t) i).

(** The frame of the descriptors [fr] of [t] is in the receive buffer [g] of [t']: its one
    buffer is made of the memory the chip wrote, in the order of the chain, and its status is
    that of its last descriptor, with the length of the whole. *)
Record collected_frame t t' (k' : stock) (g : nat) (fr : list nat) : Prop := {
  cf_whole : whole t fr;
  cf_memory : sealed t' k' (skb_at t' g) (map (memory t) fr);
  cf_status : ∃ b i w old, rx_bufs t' !! g = Some b ∧ last fr = Some i ∧
    rd_hw <$> rx_descs t !! i = Some w ∧
    rb_rx_status b = rx_desc_status w old <| rs_datalen := frame_len t fr |> }.

Lemma segment_kept t t' more i :
  rd_hw <$> rx_descs t' !! i = rd_hw <$> rx_descs t !! i → segment t' more i → segment t more i.
Proof. intros E (w & Hw & H). exists w. by rewrite <-E. Qed.
Lemma segment_pending t more i : segment t more i → ¬ pending (rx_descs t) i.
Proof.
  intros (w & Hw & Hd & _) (d & Hd' & Hp). rewrite Hd' in Hw. injection Hw as <-. congruence.
Qed.
Lemma whole_segments t fr i : whole t fr → i ∈ fr → ∃ more, segment t more i.
Proof.
  intros (l & j & -> & Hl & Hj) Hin. apply elem_of_app in Hin as [Hi|Hi]; [|apply list_elem_of_singleton in Hi as ->; eauto].
  rewrite Forall_forall in Hl. eauto.
Qed.
(** Descriptors of a frame seen later, which have not been used in between. *)
Lemma segment_before t k t1 k1 out suf more i :
  moved t k t1 k1 out suf → segment t1 more i → i ∉ suf ∧ segment t more i.
Proof.
  intros Hm Hs. pose proof (mv_rearmed _ _ _ _ _ _ Hm) as Hre.
  assert (i ∉ suf) as Hi.
  { intros Hi. pose proof (re_pending _ _ _ Hre) as Hp. rewrite Forall_forall in Hp.
    by eapply segment_pending, Hp. }
  split; [done|]. eapply segment_kept; [|done]. by apply (re_kept _ _ _ Hre).
Qed.
Lemma whole_before t k t1 k1 out suf fr :
  moved t k t1 k1 out suf → whole t1 fr → whole t fr.
Proof.
  intros Hm (l & i & -> & Hl & Hi). exists l, i. split; [done|]. split; [|by eapply segment_before].
  eapply Forall_impl; [exact Hl|]. intros j Hj. by eapply segment_before.
Qed.
Lemma collected_before t k t1 k1 out rest suf t' k' g fr :
  moved t k t1 k1 out suf → k_armed k = out ++ rest → k_armed k1 = rest ++ suf → NoDup (k_armed k) →
  fr ⊆ k_armed k1 →
  collected_frame t1 t' k' g fr → collected_frame t t' k' g fr.
Proof.
  intros Hm Ek Ek1 Hnd Hin [Hw Hs (b & i & w & old & Hb & Hi & Hwi & Hst)].
  pose proof (mv_rearmed _ _ _ _ _ _ Hm) as Hre.
  assert (∀ j, j ∈ fr → j ∉ suf ∧ j ∉ out) as Hout.
  { intros j Hj. destruct (whole_segments _ _ _ Hw Hj) as (more & Hsj).
    destruct (segment_before _ _ _ _ _ _ _ _ Hm Hsj) as [Hjs _]. split; [done|]. rewrite Ek in Hnd.
    apply NoDup_app in Hnd as (_ & Hn & _). intros Ho. apply (Hn j Ho).
    apply Hin in Hj. rewrite Ek1 in Hj. set_solver. }
  assert (∀ j, j ∈ fr → rd_hw <$> rx_descs t1 !! j = rd_hw <$> rx_descs t !! j) as Hk
    by (intros j Hj; apply (re_kept _ _ _ Hre), Hout, Hj).
  assert (frame_len t1 fr = frame_len t fr) as El.
  { unfold frame_len. assert (∀ n, foldl (λ n i, u16 (n + seg_len t1 i)) n fr = foldl (λ n i, u16 (n + seg_len t i)) n fr); [|done].
    clear -Hk. induction fr as [|j fr IH]; intros n; [done|]. cbn. rewrite IH by (intros; apply Hk; by right).
    do 3 f_equal. unfold seg_len. pose proof (Hk j ltac:(by left)) as E.
    destruct (rx_descs t1 !! j), (rx_descs t !! j); try done. cbn in *. by injection E as ->. }
  split.
  - by eapply whole_before.
  - assert (map (memory t1) fr = map (memory t) fr) as <-; [|done].
    apply map_ext_in. intros j Hj%list_elem_of_In. destruct (Hout j Hj) as [H1 H2]. unfold memory.
    rewrite <-(mv_nbuf _ _ _ _ _ _ Hm j H2 H1). apply (mv_own _ _ _ _ _ _ Hm). unfold own.
    apply elem_of_app. left. apply list_elem_of_In, in_map, list_elem_of_In, Hin, Hj.
  - exists b, i, w, old. rewrite <-El, <-Hk; [done|]. apply last_Some in Hi as (l & ->). set_solver.
Qed.

(** The receive buffers under an update of one of them. *)
Lemma bufs_upd {A} (g : A → A) (l : list A) i j x : l !! i = Some x →
  <[i := g x]> l !! j = if decide (i = j) then Some (g x) else l !! j.
Proof.
  intros Hi. case_decide as E; [subst; apply list_lookup_insert_eq; by eapply lookup_lt_Some|].
  by apply list_lookup_insert_ne.
Qed.

(** An update of a buffer without frame that leaves it without one. *)
Lemma rx_state_status t armed held idle pool free done todo sent bf b st :
  rx_state t armed held idle pool free done todo sent → rx_bufs t !! bf = Some b →
  rx_state (t <| rx_bufs ::= <[bf := b <| rb_rx_status := st |>]> |>) armed held idle pool free done todo sent.
Proof.
  intros [Hr Ha Hl Hnd Hrm Hrg Hd Ht] Hb.
  set (b' := b <| rb_rx_status := st |>). set (t' := t <| rx_bufs ::= <[bf := b']> |>).
  assert (∀ i, skb_at t' i = skb_at t i) as Hs.
  { intros i. unfold skb_at. cbn. rewrite (bufs_upd (λ _, b') _ _ _ _ Hb). case_decide; [|done].
    subst. by rewrite Hb. }
  assert (∀ i, done_at t' i = done_at t i) as Hdn.
  { intros i. unfold done_at. cbn. rewrite (bufs_upd (λ _, b') _ _ _ _ Hb). case_decide; [|done].
    subst. by rewrite Hb. }
  split; try done.
  - rewrite (map_ext (skb_at t') (skb_at t)) by done. by apply rring_bufs.
  - cbn. by rewrite length_insert.
  - eapply Forall_impl; [exact Hd|]. intros i Hi. by rewrite Hdn.
  - eapply Forall_impl; [exact Ht|]. intros i Hi. by rewrite Hdn.
Qed.

Lemma qrep_init n : qrep n adf_nbuf_queue_init [].
Proof. by split_and!; [|left|..]. Qed.

(** The buffer [bf] gets the frame [f]. *)
Lemma rx_state_done t armed held idle pool free done bf todo sent f b st :
  rring t armed held idle [] pool free (f :: map (skb_at t) done ++ sent) →
  armed ≠ [] → sc_rxbuf t = done ++ bf :: todo → NoDup (done ++ bf :: todo) →
  (length (rx_descs t) ≤ length (done ++ bf :: todo))%nat →
  Forall (λ i, (i < length (rx_bufs t))%nat) (done ++ bf :: todo) →
  Forall (λ i, done_at t i = true) done → Forall (λ i, done_at t i = false) todo →
  rx_bufs t !! bf = Some b → tst st ATH_BUFSTATUS_DONE = true →
  rx_state (t <| rx_bufs ::= <[bf := b <| rb_skb := f |> <| rb_status := st |>]> |>)
    armed held idle pool free (done ++ [bf]) todo sent.
Proof.
  intros Hr Ha Hl Hnd Hrm Hrg Hd Ht Hb Hst.
  set (b' := b <| rb_skb := f |> <| rb_status := st |>). set (t1 := t <| rx_bufs ::= <[bf := b']> |>).
  assert (bf ∉ done ∧ bf ∉ todo) as [Hbd Hbt].
  { apply NoDup_app in Hnd as (_ & Hn & [Hn' _]%NoDup_cons). split; [|done].
    intros Hin. apply (Hn bf Hin). set_solver. }
  assert (∀ i, i ≠ bf → skb_at t1 i = skb_at t i ∧ done_at t1 i = done_at t i) as Hk.
  { intros i Hi. unfold skb_at, done_at. cbn. by rewrite list_lookup_insert_ne. }
  assert (skb_at t1 bf = f ∧ done_at t1 bf = true) as [Hs1 Hd1].
  { unfold skb_at, done_at. cbn. by rewrite list_lookup_insert_eq by (by eapply lookup_lt_Some). }
  split; try done; rewrite <-?app_assoc; try done.
  - eapply rring_frames; [|by apply rring_bufs]. rewrite map_app. cbn [map]. rewrite Hs1.
    rewrite (map_ext_in (skb_at t1) (skb_at t) done).
    { rewrite <-app_assoc. cbn [app]. by rewrite Permutation_middle. }
    intros i Hi%list_elem_of_In. apply Hk. by intros ->.
  - cbn. by rewrite length_insert.
  - apply Forall_app. split; [|by constructor]. rewrite Forall_forall in *. intros i Hi.
    rewrite (proj2 (Hk i ltac:(by intros ->))). auto.
  - rewrite Forall_forall in *. intros i Hi. rewrite (proj2 (Hk i ltac:(by intros ->))). auto.
Qed.

(** Joining the collected buffers makes a frame and gives their headers back. *)
Lemma moved_join t n' armed held idle coll pool f free frames :
  rx_heap (hview t) (map (desc_nbuf (rx_descs t)) armed) coll pool (f :: free) frames →
  consists_of (view n') f (map (desc_of (hview t)) coll) →
  (∀ x, x ∉ f :: coll → hv_desc (view n') !! x = hv_desc (hview t) !! x) →
  (∀ d, d ∉ map (desc_of (hview t)) coll → hv_dnext (view n') !! d = hv_dnext (hview t) !! d) →
  ∀ t', rx_descs t' = rx_descs t → hview t' = view n' →
  let k' := mk_stock armed held idle [] pool (rev coll ++ free) (f :: frames) in
  moved t (mk_stock armed held idle coll pool (f :: free) frames) t' k' [] [] ∧
  sealed t' k' f (map (desc_of (hview t)) coll).
Proof.
  intros Hh Hcs Hd Hn t' Hds Hv k'. pose proof (rh_nodup _ _ _ _ _ _ Hh) as Hnd.
  pose proof (rh_descs _ _ _ _ _ _ Hh) as Hdd. set (live := map (desc_nbuf (rx_descs t)) armed) in *.
  assert (live ++ coll ++ pool ++ (f :: free) ++ frames ≡ₚ (f :: coll) ++ (live ++ pool ++ free ++ frames)) as Hp
    by solve_Permutation.
  rewrite Hp in Hnd. apply NoDup_app in Hnd as (_ & Hnd & _).
  assert (∀ a, a ∈ live ++ pool ++ free ++ frames → desc_of (view n') a = desc_of (hview t) a) as Hda.
  { intros a Ha. unfold desc_of. rewrite Hd; [done|]. intros Hin. by apply (Hnd a Hin). }
  assert (∀ a, a ∈ own t' k' → a ∈ live ++ pool) as Ho by (unfold own; cbn; by rewrite Hds).
  split; [split|split_and!]; cbn.
  - by rewrite app_nil_r.
  - by rewrite app_nil_r.
  - unfold own. cbn. rewrite Hds. fold live. rewrite <-Permutation_rev. solve_Permutation.
  - rewrite Hds. apply rearmed_refl.
  - intros i _ _. by rewrite Hds.
  - intros a Ha%Ho. rewrite Hv. split; [|apply Hda; set_solver]. unfold own. cbn. fold live. set_solver.
  - intros g ds (Hg & Hc & Hout). unfold own in Hout. cbn in Hg, Hout. fold live in Hout.
    assert (desc_of (view n') g = desc_of (hview t) g) as Eg by (apply Hda; set_solver).
    split; [by right|]. rewrite Hv. split.
    + unfold consists_of in *. rewrite Eg. eapply lchain_ext; [|exact Hc]. intros d Hdin. cbv beta.
      rewrite Hn; [done|]. intros (a & <- & Ha)%list_elem_of_In%in_map_iff.
      apply (Hout a); [|done]. apply list_elem_of_In in Ha. set_solver.
    + intros a Ha%Ho. rewrite Hda by set_solver. apply Hout. set_solver.
  - by left.
  - by rewrite Hv.
  - intros a Ha%Ho. rewrite Hv, Hda by set_solver.
    assert (live ++ coll ++ pool ≡ₚ (live ++ pool) ++ coll) as Hp2 by solve_Permutation.
    rewrite Hp2, map_app in Hdd. apply NoDup_app in Hdd as (_ & Hdd & _). apply Hdd.
    apply list_elem_of_In, in_map, list_elem_of_In, Ha.
Qed.
Lemma moved_frames t armed held idle coll pool free frames frames' t0 k0 out suf :
  frames ≡ₚ frames' →
  moved t0 k0 t (mk_stock armed held idle coll pool free frames) out suf →
  moved t0 k0 t (mk_stock armed held idle coll pool free frames') out suf.
Proof.
  intros Hp [R D B H N O S]. split; try done.
  - cbn in *. by rewrite <-Hp.
  - intros f ds Hf. destruct (S f ds Hf) as (H1 & H2 & H3). split; [|done]. cbn in *. by rewrite <-Hp.
Qed.

(** What the receive state owns. *)
Definition rx_stock t armed held idle pool free done sent : stock :=
  mk_stock armed held idle [] pool free (map (skb_at t) done ++ sent).

(** The last descriptor of a frame: the frame is in [bf], its descriptors go round. *)
Lemma frame_done_spec v ds t cur rest held idle pool f free done bf b todo sent :
  rx_state t (cur ++ ds :: rest) held idle pool (f :: free) done (bf :: todo) sent →
  rx_bufs t !! bf = Some b →
  rest ≠ [] → (length cur < 20)%nat → tv_head v = head (cur ++ [ds]) →
  ∃ t' suf held' idle' pool' f' free',
    frame_done v bf ds t = Ok (mk_tv (head todo) (head rest) (head rest) 0 0, t') ∧
    rx_state t' (rest ++ suf) held' idle' pool' (f' :: free') (done ++ [bf]) todo sent ∧
    rx_only t t' ∧ 
    let k' := rx_stock t' (rest ++ suf) held' idle' pool' (f' :: free') (done ++ [bf]) sent in
    moved t (rx_stock t (cur ++ ds :: rest) held idle pool (f :: free) done sent) t' k' (cur ++ [ds]) suf ∧
    sealed t' k' (skb_at t' bf) (map (memory t) (cur ++ [ds])) ∧
    rb_rx_status <$> rx_bufs t' !! bf = Some (rb_rx_status b <| rs_datalen := tv_len v |>) ∧
    (∀ i, i ≠ bf → rx_bufs t' !! i = rx_bufs t !! i).
Proof.
  intros HS Hbt Hne Hc Hv. destruct rest as [|x rest]; [done|].
  destruct HS as [Hr Ha Hl Hnd Hrm Hrg Hd Ht].
  assert (ds ∉ cur) as Hds.
  { pose proof (rring_nodup _ _ _ _ _ _ _ _ Hr) as Hn. rewrite <-app_assoc in Hn.
    apply NoDup_app in Hn as (_ & Hn & _). intros Hin. apply (Hn ds Hin). set_solver. }
  destruct (collect_loop_spec ds (f :: free) (map (skb_at t) done ++ sent) cur t adf_nbuf_queue_init []
    rest x held idle pool (length (sc_rxdesc t)) Hr (qrep_init _)) as
    (t1 & q & suf & held' & idle' & pool' & E & HR & Hq & Ho & Hm).
  { cbn. lia. }
  { rewrite (rr_desc _ _ _ _ _ _ _ _ Hr), !length_app. cbn. lia. }
  cbn [app map] in HR, Hq.
  pose proof (ring_rx_only _ _ Ho) as Ho'. assert (rx_bufs t1 = rx_bufs t) as Eb by by rewrite Ho.
  rename Hbt into Hb. pose proof Hb as Hb1. rewrite <-Eb in Hb1.
  set (b1 := b <| rb_rx_status ::= λ r, r <| rs_datalen := tv_len v |> |>).
  set (t2 := t1 <| rx_bufs ::= <[bf := b1]> |>).
  pose proof (rg_heap _ _ _ _ _ _ _ _ (rr_ring _ _ _ _ _ _ _ _ HR)) as Hh.
  destruct (rx_join _ _ _ _ _ _ _ _ Hh Hq) as (q' & n' & E' & Hh' & Hcs & Hdx & Hnx); [by destruct cur|].
  assert (∃ f' free', rev (map (desc_nbuf (rx_descs t)) (cur ++ [ds])) ++ free = f' :: free') as (f' & free' & Ef).
  { rewrite map_app, rev_app_distr. cbn. eauto. }
  rewrite Ef in Hh'.
  assert (rring (set_nb n' t2) (x :: rest ++ suf) held' idle' [] pool' (f' :: free')
            (f :: map (skb_at t) done ++ sent)) as HR2.
  { eapply rring_nb; [by apply rring_bufs|exact Hh']. }
  assert (rx_bufs (set_nb n' t2) !! bf = Some b1) as Hb2
    by (cbn; apply list_lookup_insert_eq; by eapply lookup_lt_Some).
  set (t3 := set_nb n' t2 <| rx_bufs ::= <[bf := b1 <| rb_skb := f |>
               <| rb_status ::= λ st, st .| ATH_BUFSTATUS_DONE |>]> |>).
  assert (∀ i, i ≠ bf → rx_bufs (set_nb n' t2) !! i = rx_bufs t !! i) as Hk
    by (intros i Hi; cbn; rewrite list_lookup_insert_ne by done; by rewrite Eb).
  assert (bf ∉ done ∧ bf ∉ todo) as [Hbd Hbt].
  { apply NoDup_app in Hnd as (_ & Hn & [Hn' _]%NoDup_cons). split; [|done].
    intros Hin. apply (Hn bf Hin). set_solver. }
  assert (∀ i, i ≠ bf → rx_bufs t3 !! i = rx_bufs t !! i) as Hk3
    by (intros i Hi; unfold t3; cbn -[set_nb]; rewrite list_lookup_insert_ne by done; by apply Hk).
  assert (rx_bufs t3 !! bf = Some (b1 <| rb_skb := f |> <| rb_status ::= λ st, st .| ATH_BUFSTATUS_DONE |>)) as Hb3
    by (unfold t3; cbn; apply list_lookup_insert_eq; rewrite length_insert; by eapply lookup_lt_Some).
  assert (map (skb_at t3) (done ++ [bf]) = map (skb_at t) done ++ [f]) as Eskb.
  { rewrite map_app. cbn [map]. f_equal; [|unfold skb_at; by rewrite Hb3].
    apply map_ext_in. intros i Hi%list_elem_of_In. unfold skb_at. rewrite Hk3; [done|]. by intros ->. }
  assert (skb_at t3 bf = f) as Esk by (unfold skb_at; by rewrite Hb3).
  destruct (moved_join t1 n' (x :: rest ++ suf) held' idle' _ pool' f free _ Hh Hcs Hdx Hnx t3 eq_refl eq_refl) as [Hj Hsl].
  rewrite Ef in Hj, Hsl.
  assert (f :: map (skb_at t) done ++ sent ≡ₚ map (skb_at t3) (done ++ [bf]) ++ sent) as Hpf
    by (rewrite Eskb; solve_Permutation).
  exists t3, suf, held', idle', pool', f', free'. split; [|split; [|split; [|split; [|split; [|split]]]]].
  - unfold frame_done. rewrite (bind_ok _ _ _ _ _ (run_get _)), Hv, (bind_ok _ _ _ _ _ E).
    erewrite bind_ok by (apply run_upd_rxb; exact Hb1).
    erewrite bind_ok by (apply (run_tnb _ t2); exact E').
    cbv beta iota. erewrite bind_ok by (apply run_upd_rxb; exact Hb2).
    rewrite (bind_ok _ _ _ _ _ (run_get _)), run_ret. rewrite (rr_desc _ _ _ _ _ _ _ _ Hr), <-app_assoc.
    cbn [app]. rewrite (tailq_next_mid cur ds _ Hds). cbn [app head].
    assert (tailq_next bf (sc_rxbuf t1) = head todo) as En; [|by rewrite <-En].
    assert (sc_rxbuf t1 = sc_rxbuf t) as -> by by rewrite Ho. rewrite Hl. apply tailq_next_mid.
    apply NoDup_app in Hnd as (_ & Hn & _). intros Hin. apply (Hn bf Hin). set_solver.
  - apply (rx_state_done (set_nb n' t2)); try done.
    + rewrite (map_ext_in (skb_at (set_nb n' t2)) (skb_at t) done); [done|].
      intros i Hi%list_elem_of_In. unfold skb_at. rewrite Hk; [done|]. by intros ->.
    + cbn. assert (sc_rxbuf t1 = sc_rxbuf t) as -> by by rewrite Ho. done.
    + change (rx_descs (set_nb n' t2)) with (rx_descs t1). by rewrite (re_len _ _ _ (mv_rearmed _ _ _ _ _ _ Hm)).
    + cbn. rewrite length_insert, Eb. done.
    + rewrite Forall_forall in *. intros i Hi. unfold done_at. rewrite Hk by by intros ->. by apply Hd.
    + rewrite Forall_cons in Ht. destruct Ht as [_ Ht].
      rewrite Forall_forall in *. intros i Hi. unfold done_at. rewrite Hk by by intros ->. by apply Ht.
    + cbn. rewrite tst_lor. apply orb_true_r.
  - eapply rx_only_trans; [by apply ring_rx_only|]. unfold rx_only, t3, t2. clear. by destruct t1 as [[]].
  - unfold rx_stock. eapply moved_frames; [exact Hpf|].
    pose proof (moved_trans _ _ _ _ _ _ _ _ _ _ Hm Hj) as Hmj. rewrite !app_nil_r in Hmj. exact Hmj.
  - rewrite Esk. destruct Hsl as (_ & H2 & H3).
    assert (map (memory t) (cur ++ [ds]) = map (desc_of (hview t1)) (map (desc_nbuf (rx_descs t)) (cur ++ [ds]))) as ->.
    { rewrite map_map. apply map_ext_in. intros i Hi%list_elem_of_In. symmetry.
      apply (mv_own _ _ _ _ _ _ Hm). unfold own. cbn [k_coll]. apply elem_of_app. right. apply elem_of_app. left.
      apply list_elem_of_In. apply (in_map (desc_nbuf (rx_descs t))), list_elem_of_In, Hi. }
    split; [|split; [done|exact H3]]. cbn. rewrite <-Hpf. by left.
  - by rewrite Hb3.
  - exact Hk3.
Qed.

Lemma linked_mid p descs l1 i l2 :
  linked p descs (l1 ++ i :: l2) → desc_link descs i = match l2 with [] => 0 | j :: _ => desc_addr p j end.
Proof. induction l1 as [|x l1 IH]; cbn [app linked]; [by intros [? _]|]. intros [_ H]. auto. Qed.

Lemma run_PA2DESC t j : PA2DESC (desc_addr (rx_desc_paddr t) j) t = Ok (j, t).
Proof.
  unfold PA2DESC, desc_addr, RX_DESC_SIZE. rewrite (bind_ok _ _ _ _ _ (run_get _)). cbv zeta.
  replace (rx_desc_paddr t + _ - _) with (84 * Z.of_nat j) by lia.
  assert (84 * Z.of_nat j <? 0 = false) as -> by (apply Z.ltb_ge; lia).
  rewrite Z.mul_comm, Z.mod_mul, Z.div_mul, Nat2Z.id by done. done.
Qed.

(** Looking at descriptor [ds]: nothing, or the receive status of [bf] and, when the chip
    is done, the length of the buffer. *)
Lemma rx_state_look t armed held idle pool free done todo sent h n' bf b st :
  rx_state t armed held idle pool free done todo sent → rx_bufs t !! bf = Some b →
  view n' = view (sc_nb (tg_sc t)) →
  rx_state (set_nb n' (set_hal h t <| rx_bufs ::= <[bf := b <| rb_rx_status := st |>]> |>))
    armed held idle pool free done todo sent.
Proof.
  intros HS Hb Hv. pose proof (rx_state_status _ _ _ _ _ _ _ _ _ _ _ st HS Hb) as [Hr Ha Hl Hnd Hrm Hrg Hd Ht].
  split; try done. eapply rring_nb; [exact (rring_hal _ h _ _ _ _ _ _ _ Hr)|]. rewrite Hv.
  exact (rg_heap _ _ _ _ _ _ _ _ (rr_ring _ _ _ _ _ _ _ _ Hr)).
Qed.

Lemma rx_free_buf t armed held idle pool free done bf todo sent :
  rx_state t armed held idle pool free done (bf :: todo) sent →
  ∃ b, rx_bufs t !! bf = Some b ∧ tst (rb_status b) ATH_BUFSTATUS_DONE = false.
Proof.
  intros [_ _ _ _ _ Hrg _ Ht]. rewrite Forall_app, Forall_cons in Hrg. destruct Hrg as (_ & Hb & _).
  apply lookup_lt_is_Some_2 in Hb as [b Hb]. exists b. split; [done|].
  rewrite Forall_cons in Ht. destruct Ht as [Ht _]. unfold done_at in Ht. by rewrite Hb in Ht.
Qed.

Lemma rs_datalen_status w old : rs_datalen (rx_desc_status w old) = u16 (ds_rxstatus1 w .& AR_DataLen).
Proof. unfold rx_desc_status. cbv zeta. repeat case_match; reflexivity. Qed.
Lemma rs_more_status w old : rs_more (rx_desc_status w old) = b2z (tst (ds_rxstatus1 w) AR_RxMore).
Proof. unfold rx_desc_status. cbv zeta. repeat case_match; reflexivity. Qed.

(** Why the walk stops at descriptor [i], before [tail]: the chain ends there, the chip has not
    completed it, or the chip's pointer is still on it and the next one is not complete. *)
Definition stops t (i : nat) (tail : list nat) : Prop :=
  tail = [] ∨ pending (rx_descs t) i ∨
  ∃ j, head tail = Some j ∧ pending (rx_descs t) j ∧
    ∃ hw, hw_read AR_RXDP hw = (desc_addr (rx_desc_paddr t) i, ah_hw (sc_hal (tg_sc t))).

Lemma trigger_look n v t pre ds x rest held idle pool free done bf todo sent :
  rx_state t (pre ++ ds :: x :: rest) held idle pool free done (bf :: todo) sent →
  tv_ds v = Some ds → tv_bf v = Some bf → tv_cnt v = Z.of_nat (length pre) → (length pre < 18)%nat →
  ∃ t2, rx_state t2 (pre ++ ds :: x :: rest) held idle pool free done (bf :: todo) sent ∧
    rx_only t t2 ∧ rx_descs t2 = rx_descs t ∧ hview t2 = hview t ∧
    (∀ i, i ≠ bf → rx_bufs t2 !! i = rx_bufs t !! i) ∧ (∀ i, skb_at t2 i = skb_at t i) ∧
    ((triggers_loop (S n) v t = Ok (tt, t2) ∧ stops t2 ds (x :: rest)) ∨
     ∃ (more : bool) w b old, segment t more ds ∧ rd_hw <$> rx_descs t !! ds = Some w ∧
       rx_bufs t2 !! bf = Some b ∧ rb_rx_status b = rx_desc_status w old ∧
       let len := u16 (tv_len v + seg_len t ds) in
       let v' := mk_tv (Some bf) (Some ds) (tv_head v) (Z.of_nat (S (length pre))) len in
       triggers_loop (S n) v t =
         (if more then triggers_loop n (mk_tv (Some bf) (Some x) (tv_head v) (Z.of_nat (S (length pre))) len) t2
          else (v'' ← frame_done v' bf ds; triggers_loop n v'') t2)).
Proof.
  intros HS Hds Hbf Hcnt Hpre. pose proof (rr_ring _ _ _ _ _ _ _ _ (rx_ring _ _ _ _ _ _ _ _ _ HS)) as Hr.
  destruct (ring_desc _ _ _ _ _ _ _ _ ds Hr) as (d & Hd & Hda); [set_solver|].
  destruct (ring_desc _ _ _ _ _ _ _ _ x Hr) as (nd & Hnd & _); [set_solver|]. cbn in Hd, Hda, Hnd.
  assert (ds ∉ pre) as Hnin.
  { pose proof (rg_nodup _ _ _ _ _ _ _ _ Hr) as Hn. rewrite <-app_assoc in Hn.
    apply NoDup_app in Hn as (_ & Hn & _). intros Hin. apply (Hn ds Hin). set_solver. }
  assert (rd_link d = desc_addr (rx_desc_paddr t) x) as Hlk.
  { pose proof (linked_mid _ _ _ _ _ (rg_linked _ _ _ _ _ _ _ _ Hr)) as H. cbn in H.
    unfold desc_link in H. by rewrite Hd in H. }
  assert (rd_link d =? 0 = false) as Hl0.
  { apply Z.eqb_neq. rewrite Hlk. pose proof (rg_paddr _ _ _ _ _ _ _ _ Hr) as Hp. cbn in Hp.
    unfold desc_addr, RX_DESC_SIZE. lia. }
  assert (u32 (Z.of_nat (length pre) + 1) = Z.of_nat (S (length pre))) as Hu
    by (rewrite u32_small; lia).
  destruct (rx_free_buf _ _ _ _ _ _ _ _ _ _ HS) as (b & Hb & Hst).
  destruct (run_proc (rd_hw d) (rd_daddr d) (rd_hw nd) (rb_rx_status b) t) as (r & st & h & Ep & Hpend).
  set (t1 := set_hal h t <| rx_bufs ::= <[bf := b <| rb_rx_status := st |>]> |>).
  set (b' := b <| rb_rx_status := st |>) in *.
  assert (rx_bufs t1 !! bf = Some b') as Hb'
    by (apply list_lookup_insert_eq; by eapply lookup_lt_Some).
  assert (∀ i, i ≠ bf → rx_bufs t1 !! i = rx_bufs t !! i) as Hk1
    by (intros i Hi; unfold t1; cbn; by rewrite list_lookup_insert_ne).
  assert (∀ i, skb_at t1 i = skb_at t i) as Hk2.
  { intros i. unfold skb_at. destruct (decide (i = bf)) as [->|Hi]; [by rewrite Hb', Hb|by rewrite Hk1]. }
  assert (∀ n', view n' = view (sc_nb (tg_sc t)) → rx_only t (set_nb n' t1)) as Ho
    by (intros n' _; unfold rx_only, t1; clear; by destruct t as [[]]).
  pose proof (λ n' Hv, rx_state_look _ _ _ _ _ _ _ _ _ h n' _ _ st HS Hb Hv) as HS1.
  assert (t1 = set_nb (sc_nb (tg_sc t)) t1) as Et1 by (unfold t1; clear; by destruct t as [[]]).
  assert (frag (view (sc_nb (tg_sc t))) (rd_nbuf d)) as Hf.
  { pose proof (rh_frag _ _ _ _ _ _ (rg_heap _ _ _ _ _ _ _ _ Hr)) as H. rewrite Forall_forall in H.
    apply H. rewrite !map_app. cbn [map]. unfold desc_nbuf at 2. cbn. rewrite Hd. cbn. set_solver. }
  assert (∃ n', view n' = view (sc_nb (tg_sc t)) ∧ ∀ A (k : unit → M (tgt HW RC) A),
    (tnb (adf_nbuf_len (rd_nbuf d)) ≫= λ len,
     when (len =? 0) (tnb (adf_nbuf_put_tail (rd_nbuf d) (rs_datalen st)) ;; mret tt) ≫= k) t1 = k tt (set_nb n' t1))
    as (n' & Hv & Hput).
  { destruct (frag_len _ _ Hf) as (len & El).
    destruct (frag_put_tail _ _ (rs_datalen st) Hf) as (r' & n' & Et & Hv).
    destruct (len =? 0) eqn:E0.
    - exists n'. split; [done|]. intros A k. rewrite (bind_ok _ _ _ _ _ (run_tnb_same _ t1 _ El)), E0.
      cbn [when]. erewrite bind_ok; [reflexivity|]. by rewrite (bind_ok _ _ _ _ _ (run_tnb _ t1 _ _ Et)).
    - exists (sc_nb (tg_sc t)). split; [done|]. intros A k.
      rewrite (bind_ok _ _ _ _ _ (run_tnb_same _ t1 _ El)), E0. cbn [when]. by rewrite <-Et1. }
  assert (triggers_loop (S n) v t = (if decide (r = HAL_EINPROGRESS) then Ok (tt, t1) else
    (let v' := mk_tv (Some bf) (Some ds) (tv_head v) (Z.of_nat (S (length pre))) (u16 (tv_len v + rs_datalen st)) in
     if rs_more st =? 0 then v'' ← frame_done v' bf ds; triggers_loop n v''
     else triggers_loop n (mk_tv (Some bf) (Some x) (tv_head v) (Z.of_nat (S (length pre)))
       (u16 (tv_len v + rs_datalen st))) : M (tgt HW RC) unit) (set_nb n' t1))) as E.
  { destruct v as [vbf vds vhead vcnt vlen]. cbn in Hds, Hbf, Hcnt |- *. subst vbf vds vcnt.
    unfold field_upd. cbn. rewrite Hu, (bind_ok _ _ _ _ _ (run_get _)).
    assert (Z.of_nat (S (length pre)) =? ATH_RXBUF - 1 = false) as -> by (apply Z.eqb_neq; unfold ATH_RXBUF; lia).
    rewrite (bind_ok _ _ _ _ _ (run_rd_rxd _ _ _ Hd)), Hl0, (bind_ok _ _ _ _ _ (run_ret _ _)).
    rewrite (bind_ok _ _ _ _ _ (run_rd_rxb _ _ _ Hb)), Hst, Hlk, (bind_ok _ _ _ _ _ (run_PA2DESC _ _)).
    rewrite (bind_ok _ _ _ _ _ (run_rd_rxd _ _ _ Hnd)), (bind_ok _ _ _ _ _ Ep). cbv beta iota.
    erewrite bind_ok by (apply run_upd_rxb; exact Hb).
    change (set_hal h t <| rx_bufs ::= <[bf := _]> |>) with t1.
    destruct (decide (r = HAL_EINPROGRESS)); [done|]. rewrite Hput.
    rewrite (rr_desc _ _ _ _ _ _ _ _ (rx_ring _ _ _ _ _ _ _ _ _ HS)), <-app_assoc.
    cbn [app]. rewrite (tailq_next_mid pre ds _ Hnin). cbn [head]. done. }
  rewrite E. clear E Hput Ep. destruct (decide (r = HAL_EINPROGRESS)) as [|Hr'].
  - exists t1. rewrite Et1. split; [by apply HS1|]. split; [by apply Ho|]. split; [done|]. split; [done|].
    split; [exact Hk1|]. split; [exact Hk2|]. left. split; [done|]. right.
    destruct Hpend as [Hp|[Hp Hrd]]; [left; by exists d|]. right. exists x. split; [done|]. split; [by exists nd|].
    exists (ah_hw (sc_hal (tg_sc t))). rewrite Hrd. by rewrite Hda.
  - destruct Hpend as [Hp ->]. exists (set_nb n' t1). split; [by apply HS1|]. split; [by apply Ho|]. split; [done|].
    split; [done|]. split; [exact Hk1|]. split; [exact Hk2|]. right.
    exists (tst (ds_rxstatus1 (rd_hw d)) AR_RxMore), (rd_hw d), b', (rb_rx_status b).
    assert (seg_len t ds = rs_datalen (rx_desc_status (rd_hw d) (rb_rx_status b))) as ->
      by (unfold seg_len; rewrite Hd; symmetry; apply rs_datalen_status).
    rewrite Hd. split; [exists (rd_hw d); by rewrite Hd|]. split; [done|]. split; [exact Hb'|]. split; [done|].
    cbv zeta. rewrite rs_more_status. by destruct (tst (ds_rxstatus1 (rd_hw d)) AR_RxMore).
Qed.

(** How the walk over the chain of [t] ends: at the descriptor [i], after the beginning [part]
    of a frame that stays where it is; or it throws away a frame longer than eighteen
    descriptors. *)
Inductive walk_end t t' : list nat → list nat → Prop :=
  | walk_waits part i tail :
      Forall (segment t true) part → (length part < 18)%nat → stops t' i tail →
      walk_end t t' (part ++ i :: tail) []
  | walk_drops part i armed' :
      Forall (segment t true) part → length part = 18%nat → walk_end t t' armed' (part ++ [i]).

(** The walk from [t] to [t']: the complete frames at the head of the chain are in the receive
    buffers [got], their descriptors and those of a frame thrown away have gone round. *)
Record collected t (k : stock) t' (k' : stock) (frames : list (list nat)) (dropped suf : list nat)
    (got : list nat) : Prop := {
  cl_moved : moved t k t' k' (concat frames ++ dropped) suf;
  cl_head : ∃ rest, k_armed k = concat frames ++ rest;
  cl_frames : Forall2 (collected_frame t t' k') got frames;
  cl_end : walk_end t t' (k_armed k') dropped }.

Lemma collected_after t t1 k1 t' k' out suf g fr :
  collected_frame t t1 k1 g fr → moved t1 k1 t' k' out suf → rx_bufs t' !! g = rx_bufs t1 !! g →
  collected_frame t t' k' g fr.
Proof.
  intros [Hw Hs Hb] Hm E. split; [done| |by rewrite E]. unfold skb_at. rewrite E.
  by apply (mv_sealed _ _ _ _ _ _ Hm).
Qed.
Lemma walk_end_before t k t1 k1 out suf t' armed' dropped :
  moved t k t1 k1 out suf → walk_end t1 t' armed' dropped → walk_end t t' armed' dropped.
Proof.
  assert (∀ part, moved t k t1 k1 out suf → Forall (segment t1 true) part → Forall (segment t true) part) as H.
  { intros part Hm Hp. eapply Forall_impl; [exact Hp|]. intros i Hi. by eapply segment_before. }
  intros Hm [part i tail Hp Hl Hs|part i armed Hp Hl]; by constructor; [apply H|..].
Qed.
Lemma elem_of_frames (fr : list nat) (frames : list (list nat)) i : fr ∈ frames → i ∈ fr → i ∈ concat frames.
Proof. intros Hf Hi. apply list_elem_of_In, in_concat. exists fr. by rewrite <-!list_elem_of_In. Qed.
(** The complete frames are those of the old chain. *)
Lemma frames_head t t' k' rest suf1 frames rest2 got :
  Forall2 (collected_frame t t' k') got frames → Forall (pending (rx_descs t)) suf1 →
  rest ++ suf1 = concat frames ++ rest2 → ∃ rest', rest = concat frames ++ rest'.
Proof.
  intros Hf Hp [(l & E & E2)|(l & E & E2)]%app_eq_inv; [by exists l|].
  destruct l as [|i l]; [exists []; by rewrite E, !app_nil_r|].
  assert (i ∈ concat frames) as Hi by (rewrite E; set_solver).
  apply list_elem_of_In, in_concat in Hi as (fr & Hfr & Hi). apply list_elem_of_In in Hfr, Hi.
  rewrite E2, Forall_app, Forall_cons in Hp. destruct Hp as [[Hp _] _].
  apply list_elem_of_lookup in Hfr as [n Hn]. destruct (Forall2_lookup_r _ _ _ _ _ Hf Hn) as (g & _ & [Hw _ _]).
  destruct (whole_segments _ _ _ Hw Hi) as (more & Hs). by apply segment_pending in Hs.
Qed.
(** A walk that goes on from [t1], where the frames [fr1] have been collected. *)
Lemma collected_cons t k t1 k1 t' k' fr1 got1 rest suf1 frames dropped suf got :
  moved t k t1 k1 (concat fr1) suf1 → Forall2 (collected_frame t t1 k1) got1 fr1 →
  (∀ g, g ∈ got1 → rx_bufs t' !! g = rx_bufs t1 !! g) →
  k_armed k = concat fr1 ++ rest → k_armed k1 = rest ++ suf1 → NoDup (k_armed k) →
  collected t1 k1 t' k' frames dropped suf got →
  collected t k t' k' (fr1 ++ frames) dropped (suf1 ++ suf) (got1 ++ got).
Proof.
  intros Hm Hf Hb Ek Ek1 Hnd [Hm2 [rest2 Hh] Hf2 He].
  destruct (frames_head _ _ _ rest suf1 _ rest2 _ Hf2) as [rest' Er];
    [apply (re_pending _ _ _ (mv_rearmed _ _ _ _ _ _ Hm))|congruence|]. split.
  - rewrite concat_app, <-app_assoc. by eapply moved_trans.
  - exists rest'. by rewrite concat_app, Ek, <-app_assoc, Er.
  - apply Forall2_app.
    + rewrite Forall2_same_length_lookup in Hf |- *. destruct Hf as [Hl Hf]. split; [done|]. intros i g fr Hg Hfr.
      eapply collected_after; [by eapply Hf|exact Hm2|]. apply Hb. by eapply list_elem_of_lookup_2.
    + rewrite Forall2_same_length_lookup in Hf2 |- *. destruct Hf2 as [Hl Hf2]. split; [done|]. intros i g fr Hg Hfr.
      eapply collected_before; [exact Hm|exact Ek|exact Ek1|exact Hnd| |by eapply Hf2].
      intros j Hj. rewrite Ek1, Er, !elem_of_app. left. left.
      eapply elem_of_frames; [by eapply list_elem_of_lookup_2|done].
  - by eapply walk_end_before.
Qed.

(** What the walk may change, and what it leaves: [got] buffers more have frames. *)
Definition walked (m : M (tgt HW RC) unit) t armed held idle pool free done todo sent : Prop :=
  ∃ t' armed' held' idle' pool' free' frames dropped suf got todo',
    m t = Ok (tt, t') ∧ rx_state t' armed' held' idle' pool' free' (done ++ got) todo' sent ∧
    free' ≠ [] ∧ rx_only t t' ∧ todo = got ++ todo' ∧ (∀ i, i ∉ todo → rx_bufs t' !! i = rx_bufs t !! i) ∧
    collected t (rx_stock t armed held idle pool free done sent)
      t' (rx_stock t' armed' held' idle' pool' free' (done ++ got) sent) frames dropped suf got.
Lemma walked_stop (m : M (tgt HW RC) unit) t t' armed armed' held held' idle idle' pool pool' free done todo sent
    dropped suf :
  m t = Ok (tt, t') → rx_state t' armed' held' idle' pool' free done todo sent → free ≠ [] →
  rx_only t t' → (∀ i, i ∉ todo → rx_bufs t' !! i = rx_bufs t !! i) →
  moved t (rx_stock t armed held idle pool free done sent)
    t' (rx_stock t' armed' held' idle' pool' free done sent) dropped suf →
  walk_end t t' armed' dropped →
  walked m t armed held idle pool free done todo sent.
Proof.
  intros E HS Hf Ho Hb Hm He. exists t', armed', held', idle', pool', free, [], dropped, suf, [], todo.
  rewrite app_nil_r. split_and!; try done. split; [done|by exists armed|constructor|done].
Qed.
Lemma walked_from (m m' : M (tgt HW RC) unit) t t1 armed held idle pool free done todo sent
    fr1 got1 rest suf1 held1 idle1 pool1 free1 todo1 :
  let k := rx_stock t armed held idle pool free done sent in
  let k1 := rx_stock t1 (rest ++ suf1) held1 idle1 pool1 free1 (done ++ got1) sent in
  m t = m' t1 → rx_only t t1 → todo = got1 ++ todo1 → NoDup todo → NoDup armed → 
  (∀ i, i ∉ todo → rx_bufs t1 !! i = rx_bufs t !! i) →
  armed = concat fr1 ++ rest → moved t k t1 k1 (concat fr1) suf1 → Forall2 (collected_frame t t1 k1) got1 fr1 →
  walked m' t1 (rest ++ suf1) held1 idle1 pool1 free1 (done ++ got1) todo1 sent →
  walked m t armed held idle pool free done todo sent.
Proof.
  intros k k1 E Ho -> Hndt Hnd Hb Ea Hm Hf
    (t' & armed' & held' & idle' & pool' & free' & frames & dropped & suf & got & todo' & E' & HS & Hf' & Ho' & -> & Hb' & Hc).
  exists t', armed', held', idle', pool', free', (fr1 ++ frames), dropped, (suf1 ++ suf), (got1 ++ got), todo'.
  rewrite E, E'. rewrite <-app_assoc in HS, Hc.
  refine (conj eq_refl (conj HS (conj Hf' (conj _ (conj (app_assoc _ _ _) (conj _ _)))))).
  - by eapply rx_only_trans.
  - intros i Hi. rewrite Hb', Hb; set_solver.
  - eapply (collected_cons _ _ t1 k1); try done.
    intros g Hg. apply Hb'. apply NoDup_app in Hndt as (_ & Hn & _). by apply Hn.
Qed.

(** The receive buffers are as they were when only the ring has changed. *)
Lemma rx_state_ring t t' armed armed' held held' idle idle' pool pool' free free' done todo sent :
  rx_state t armed held idle pool free done todo sent → ring_only t t' →
  length (rx_descs t') = length (rx_descs t) →
  rring t' armed' held' idle' [] pool' free' (map (skb_at t) done ++ sent) → armed' ≠ [] →
  rx_state t' armed' held' idle' pool' free' done todo sent.
Proof.
  intros [Hr Ha Hl Hnd Hrm Hrg Hd Ht] Ho Hn Hr' Ha'.
  assert (rx_bufs t' = rx_bufs t) as Eb by by rewrite Ho.
  assert (sc_rxbuf t' = sc_rxbuf t) as El by by rewrite Ho.
  split; try done; unfold skb_at, done_at; rewrite ?Eb, ?El, ?Hn; done.
Qed.

Lemma rx_stock_ext t t' armed held idle pool free done sent :
  (∀ i, i ∈ done → skb_at t' i = skb_at t i) →
  rx_stock t' armed held idle pool free done sent = rx_stock t armed held idle pool free done sent.
Proof.
  intros H. unfold rx_stock. do 2 f_equal. apply map_ext_in. intros i Hi%list_elem_of_In. auto.
Qed.
Lemma frame_len_snoc t l i : frame_len t (l ++ [i]) = u16 (frame_len t l + seg_len t i).
Proof. unfold frame_len. by rewrite foldl_app. Qed.

Lemma walked_look (m m' : M (tgt HW RC) unit) t t2 armed held idle pool free done todo sent :
  m t = m' t2 → rx_only t t2 → rx_descs t2 = rx_descs t → hview t2 = hview t →
  (∀ i, i ∉ todo → rx_bufs t2 !! i = rx_bufs t !! i) → (∀ i, skb_at t2 i = skb_at t i) →
  NoDup todo → NoDup armed →
  walked m' t2 armed held idle pool free done todo sent → walked m t armed held idle pool free done todo sent.
Proof.
  intros E Ho Hd Hv Hb Hs Hndt Hnd Hw.
  eapply (walked_from m m' t t2 armed held idle pool free done todo sent [] [] armed [] held idle pool free todo);
    rewrite ?app_nil_r; try done.
  rewrite (rx_stock_ext t t2) by done. by apply moved_look.
Qed.

(** At descriptor [ds] after eighteen others of a frame: the frame goes. *)
Lemma triggers_drop fuel v t cur ds rest held idle pool free done todo sent :
  rx_state t (cur ++ ds :: rest) held idle pool free done todo sent → free ≠ [] →
  Forall (segment t true) cur → length cur = 18%nat → tv_ds v = Some ds →
  tv_head v = head (cur ++ ds :: rest) → u32 (tv_cnt v + 1) = 19 →
  walked (triggers_loop (S fuel) v) t (cur ++ ds :: rest) held idle pool free done todo sent.
Proof.
  intros HS Hfree Hseg E18 Hds Hhead Hu.
  destruct (discard_loop_spec ds free (map (skb_at t) done ++ sent) [] cur t rest held idle pool
    (length (sc_rxdesc t)) (rx_ring _ _ _ _ _ _ _ _ _ HS)) as
    (t' & suf & held' & idle' & pool' & E & HR & Ho & Hm & Hs).
  { left. by destruct cur. }
  { rewrite (rr_desc _ _ _ _ _ _ _ _ (rx_ring _ _ _ _ _ _ _ _ _ HS)), !length_app. cbn. lia. }
  assert (rx_bufs t' = rx_bufs t) as Eb by by rewrite Ho.
  eapply (walked_stop _ t t').
  - assert (tv_head v = head (cur ++ [ds])) as Hh by (rewrite Hhead; by destruct cur).
    destruct v as [vbf vds vhead vcnt vlen]. cbn in Hds, Hh, Hu |- *. subst vds vhead.
    rewrite (bind_ok _ _ _ _ _ (run_get _)). unfold field_upd. cbn. by rewrite Hu.
  - eapply rx_state_ring; [exact HS|exact Ho|exact (re_len _ _ _ (mv_rearmed _ _ _ _ _ _ Hm))|exact HR|].
    by intros [_ ->]%app_nil.
  - done.
  - by apply ring_rx_only.
  - intros i _. by rewrite Eb.
  - rewrite (rx_stock_ext t t') by (intros; unfold skb_at; by rewrite Eb). exact Hm.
  - by constructor.
Qed.
(** At the last descriptor of the chain. *)
Lemma triggers_last fuel v t cur ds held idle pool free done todo sent :
  rx_state t (cur ++ [ds]) held idle pool free done todo sent → free ≠ [] →
  Forall (segment t true) cur → (length cur < 18)%nat → tv_ds v = Some ds →
  u32 (tv_cnt v + 1) =? ATH_RXBUF - 1 = false →
  walked (triggers_loop (S fuel) v) t (cur ++ [ds]) held idle pool free done todo sent.
Proof.
  intros HS Hfree Hseg Hl Hds Hn.
  pose proof (rr_ring _ _ _ _ _ _ _ _ (rx_ring _ _ _ _ _ _ _ _ _ HS)) as Hr.
  destruct (ring_desc _ _ _ _ _ _ _ _ ds Hr) as (d & Hd & _); [set_solver|]. cbn in Hd.
  pose proof (linked_mid _ _ _ _ _ (rg_linked _ _ _ _ _ _ _ _ Hr)) as Hlk. cbn in Hlk.
  unfold desc_link in Hlk. rewrite Hd in Hlk. cbn in Hlk.
  eapply (walked_stop _ t t); [|exact HS|done|apply ring_rx_only, ring_only_refl|done|by apply moved_look|].
  - destruct v as [vbf vds vhead vcnt vlen]. cbn in Hds, Hn |- *. subst vds.
    rewrite (bind_ok _ _ _ _ _ (run_get _)). unfold field_upd. cbn.
    by rewrite Hn, (bind_ok _ _ _ _ _ (run_rd_rxd _ _ _ Hd)), Hlk.
  - constructor; [done|done|by left].
Qed.

(** The walk has passed [cur], the beginning of a frame; [old] are ahead of it, and [new]
    were handed back on the way. *)
Lemma triggers_loop_spec fuel : ∀ v t cur old new held idle pool free done todo sent,
  rx_state t (cur ++ old ++ new) held idle pool free done todo sent → free ≠ [] → old ++ new ≠ [] →
  Forall (pending (rx_descs t)) new → Forall (segment t true) cur → (length cur < 19)%nat →
  (length cur + length old < length todo)%nat → (length old < fuel)%nat →
  tv_ds v = head (old ++ new) → tv_head v = head (cur ++ old ++ new) → tv_bf v = head todo →
  tv_cnt v = Z.of_nat (length cur) → tv_len v = frame_len t cur →
  walked (triggers_loop fuel v) t (cur ++ old ++ new) held idle pool free done todo sent.
Proof.
  induction fuel as [|fuel IH]; intros v t cur old new held idle pool free done todo sent
    HS Hfree Hne Hnew Hseg Hcur Htodo Hfuel Hds Hhead Hbf Hcnt Hvl; [lia|].
  destruct (old ++ new) as [|ds rest] eqn:Eon; [done|]. cbn [head] in Hds.
  assert (u32 (tv_cnt v + 1) = Z.of_nat (S (length cur))) as Hu by (rewrite Hcnt, u32_small; lia).
  destruct (decide (length cur = 18)%nat) as [E18|N18].
  { apply triggers_drop; try done. by rewrite Hu, E18. }
  destruct rest as [|x rest].
  { apply triggers_last; try done; [lia|]. rewrite Hu. apply Z.eqb_neq. unfold ATH_RXBUF. lia. }
  destruct todo as [|bf todo]; [cbn in Htodo; lia|].
  destruct free as [|f free]; [done|].
  pose proof (rg_nodup _ _ _ _ _ _ _ _ (rr_ring _ _ _ _ _ _ _ _ (rx_ring _ _ _ _ _ _ _ _ _ HS))) as Hnd.
  apply NoDup_app in Hnd as (Hnd & _ & _).
  pose proof (rx_nodup _ _ _ _ _ _ _ _ _ HS) as Hndt. apply NoDup_app in Hndt as (_ & _ & Hndt).
  destruct (trigger_look fuel v t cur ds x rest held idle pool (f :: free) done bf todo sent HS Hds Hbf Hcnt)
    as (t2 & HS2 & Ho2 & Hd2 & Hv2 & Hk2 & Hs2 & [[E Hst]|(more & w & b & old_st & Hsg & Hw & Hb & Est & E)]); [lia|..].
  { eapply walked_stop; [exact E|exact HS2|done|done|intros i Hi; apply Hk2; set_solver| |].
    - rewrite (rx_stock_ext t t2) by done. by apply moved_look.
    - by constructor; [|lia|]. }
  assert (∀ k, moved t k t2 k [] []) as Hm2 by (intros k; by apply moved_look).
  destruct old as [|ds' old].
  { cbn in Eon. subst new. rewrite Forall_cons in Hnew. destruct Hnew as [Hp _]. by apply segment_pending in Hsg. }
  cbn in Eon. injection Eon as -> Eon. cbn [length] in *. rewrite <-Hd2 in Hnew.
  assert (∀ l, frame_len t2 l = frame_len t l) as Hfl by (intros l; unfold frame_len, seg_len; by rewrite Hd2).
  assert (∀ m l, Forall (segment t m) l → Forall (segment t2 m) l) as Hsg2
    by (intros m l Hl; unfold segment; by rewrite Hd2).
  destruct more.
  - eapply (walked_look _ _ t t2); [exact E|done|done|done|intros i Hi; apply Hk2; set_solver|done|done|done|].
    assert (cur ++ ds :: x :: rest = (cur ++ [ds]) ++ old ++ new) as Ec by by rewrite Eon, <-app_assoc.
    rewrite Ec in HS2, Hhead |- *.
    apply (IH _ t2 (cur ++ [ds]) old new held idle pool (f :: free) done (bf :: todo) sent);
      rewrite ?Eon, ?length_app; cbn [length]; try done; try lia.
    + by rewrite <-Eon.
    + apply Hsg2, Forall_app. split; [done|]. by constructor.
    + by rewrite <-Eon.
    + cbn. lia.
    + cbn. by rewrite Hfl, frame_len_snoc, Hvl.
  - edestruct (frame_done_spec (mk_tv (Some bf) (Some ds) (tv_head v) (Z.of_nat (S (length cur)))
      (u16 (tv_len v + seg_len t ds))) ds t2 cur (x :: rest)) as
      (t3 & suf & held' & idle' & pool' & f' & free' & E3 & HS3 & Ho3 & Hm3 & Hsl3 & Hst3 & Hk3);
      [exact HS2|exact Hb|done|lia|cbn; rewrite Hhead; by destruct cur|].
    rewrite (rx_stock_ext t t2) in Hm3 by done.
    eapply (walked_from _ _ t t3 _ _ _ _ _ _ _ _ [cur ++ [ds]] [bf] (x :: rest) suf held' idle' pool' (f' :: free') todo);
      [rewrite E; cbv zeta; rewrite (bind_ok _ _ _ _ _ E3); reflexivity|by eapply rx_only_trans|done|done|done|..].
    + intros i Hi. rewrite Hk3, Hk2 by set_solver. done.
    + cbn. by rewrite app_nil_r, <-app_assoc.
    + cbn [concat]. rewrite app_nil_r. exact (moved_trans _ _ _ _ _ _ _ _ _ _ (Hm2 _) Hm3).
    + constructor; [|constructor]. split.
      * exists cur, ds. by split_and!.
      * unfold memory in Hsl3 |- *. by rewrite Hd2, Hv2 in Hsl3.
      * destruct (rx_bufs t3 !! bf) as [b3|]; [|done]. injection Hst3 as Hst3.
        exists b3, ds, w, old_st. split; [done|]. split; [apply last_snoc|]. split; [done|].
        by rewrite Hst3, Est, frame_len_snoc, Hvl.
    + assert ((x :: rest) ++ suf = [] ++ old ++ new ++ suf) as Ec by (cbn [app]; by rewrite app_assoc, Eon).
      rewrite Ec in HS3 |- *.
      apply (IH _ t3 [] old (new ++ suf) held' idle' pool' (f' :: free') (done ++ [bf]) todo sent);
        cbn [length app]; try done; try lia.
      * by rewrite app_assoc, Eon.
      * exact (pending_rearmed _ _ _ _ (mv_rearmed _ _ _ _ _ _ Hm3) Hnew).
      * by rewrite app_assoc, Eon.
      * by rewrite app_assoc, Eon.
Qed.

(** From interrupt to interrupt: the walk over a well-formed receive state. *)
Lemma processtriggers_walked t armed held idle pool free todo sent :
  rx_state t armed held idle pool free [] todo sent → free ≠ [] →
  walked ath_uapsd_processtriggers t armed held idle pool free [] todo sent.
Proof.
  intros HS Hf. pose proof HS as [Hr Ha Hl _ Hrm _ _ _].
  pose proof (ring_length _ _ _ _ _ _ _ _ (rr_ring _ _ _ _ _ _ _ _ Hr)) as Hlen. cbn in Hlen, Hrm.
  pose proof (triggers_loop_spec (length (sc_rxdesc t) + Z.to_nat ATH_RXBUF)
    (mk_tv (asf_tailq_first (sc_rxbuf t)) (asf_tailq_first (sc_rxdesc t)) (asf_tailq_first (sc_rxdesc t)) 0 0)
    t [] armed [] held idle pool free [] todo sent) as H.
  cbn [app length] in H. rewrite app_nil_r in H. unfold walked in *. unfold ath_uapsd_processtriggers.
  rewrite (bind_ok _ _ _ _ _ (run_get _)). apply H; try done; try lia.
  - rewrite (rr_desc _ _ _ _ _ _ _ _ Hr), length_app. cbn. lia.
  - cbn. rewrite (rr_desc _ _ _ _ _ _ _ _ Hr). by destruct armed.
  - cbn. rewrite (rr_desc _ _ _ _ _ _ _ _ Hr). by destruct armed.
  - by rewrite Hl.
Qed.

(** *** The chip's part: it writes the status words of descriptors, nothing else. *)
Definition chip_wrote (ds ds' : list rx_desc) : Prop :=
  Forall2 (λ d d', d' = d <| rd_hw := rd_hw d' |>) ds ds'.
Lemma chip_proj {B} (f : rx_desc → B) ds ds' i :
  (∀ d w, f (d <| rd_hw := w |>) = f d) → chip_wrote ds ds' → f <$> ds' !! i = f <$> ds !! i.
Proof.
  intros Hf H. destruct (ds' !! i) as [d'|] eqn:Hd'.
  - destruct (Forall2_lookup_r _ _ _ _ _ H Hd') as (d & Hd & E). rewrite Hd, E. cbn. by rewrite Hf.
  - apply lookup_ge_None in Hd'. rewrite <-(Forall2_length _ _ _ H) in Hd'.
    by apply lookup_ge_None in Hd' as ->.
Qed.
Lemma rx_state_chip t ds' armed held idle pool free done todo sent :
  rx_state t armed held idle pool free done todo sent → chip_wrote (rx_descs t) ds' →
  rx_state (t <| rx_descs := ds' |>) armed held idle pool free done todo sent.
Proof.
  intros [[Hring Hl1 Hl2] Ha Hl Hnd Hrm Hrg Hd Ht] Hc.
  assert (∀ i, desc_nbuf ds' i = desc_nbuf (rx_descs t) i) as Hn
    by (intros i; unfold desc_nbuf; by rewrite (chip_proj rd_nbuf _ _ i (λ _ _, eq_refl) Hc)).
  assert (∀ i, desc_link ds' i = desc_link (rx_descs t) i) as Hk
    by (intros i; unfold desc_link; by rewrite (chip_proj rd_link _ _ i (λ _ _, eq_refl) Hc)).
  pose proof (Forall2_length _ _ _ Hc) as Hlen.
  destruct Hring as [H1 H2 H3 H4 H5 H6 H7 H8 H9]. split; try done.
  - split; [|done..]. split; try done; cbn in *.
    + by rewrite <-Hlen.
    + intros i d Hi. pose proof (chip_proj rd_daddr _ _ i (λ _ _, eq_refl) Hc) as E. rewrite Hi in E.
      destruct (rx_descs t !! i) as [x|] eqn:Hx; [|done]. injection E as ->. by apply H5.
    + eapply linked_ext; [|exact H6]. done.
    + eapply Forall_impl; [exact H8|]. intros i Hi. by rewrite Hn.
    + rewrite (map_ext (desc_nbuf ds') (desc_nbuf (rx_descs t))) by done. exact H9.
  - cbn. by rewrite <-Hlen.
Qed.

End frames.
