(* ===== verification/IfSend.v ===== *)
(** * Sending received frames to the host

    The receive tasklet puts the receive status in front of each complete frame, extends its
    time stamp, hands it to the host and gives the buffer back to the interrupt handler. *)

From S2P Require Import Prelude.
From S2P Require Import NBufProps.
From S2P Require Import Hal.
From S2P Require Import HalProps.
From S2P Require Import IfTypes.
From S2P Require Import IfRecv.
From S2P Require Import IfHeap.
From S2P Require Import IfRing.
From S2P Require Import IfTrig.
From S2P Require Import IfFrames.

(** Bytes in memory. *)
Fixpoint mem_put (a : Z) (l : list Z) (m : gmap Z Z) : gmap Z Z :=
  match l with [] => m | b :: l => mem_put (a + 1) l (<[a := u8 b]> m) end.
Lemma mem_put_outside a l m x : x < a ∨ a + Z.of_nat (length l) <= x → mem_put a l m !! x = m !! x.
Proof.
  revert a m. induction l as [|b l IH]; intros a m Hx; cbn [mem_put length] in *; [done|].
  rewrite IH by lia. rewrite lookup_insert_ne; [done|lia].
Qed.
Lemma mem_put_inside a l m k b : l !! k = Some b → mem_put a l m !! (a + Z.of_nat k) = Some (u8 b).
Proof.
  revert a m k. induction l as [|b' l IH]; intros a m [|k] Hk; cbn [mem_put lookup list_lookup] in *; [done..| |].
  - injection Hk as ->. rewrite Z.add_0_r, mem_put_outside by lia. by rewrite lookup_insert_eq.
  - replace (a + Z.of_nat (S k)) with (a + 1 + Z.of_nat k) by lia. by apply IH.
Qed.

(** Pushing a header is no business of the rings. *)
Lemma framed_push n a len : framed (view n) a →
  ∃ r n', adf_nbuf_push_head a len n = Ok (r, n') ∧ view n' = view n.
Proof.
  intros (_ & d & (b & Hb & <-)%view_desc & (x & (e & He & _)%view_dnext)).
  do 2 eexists. split.
  - unfold adf_nbuf_push_head. nb_run. reflexivity.
  - unfold view. cbn. f_equal; by eapply fmap_insert_same.
Qed.

Section chip.
Context {HW : Type} `{!Mmio HW}.
Lemma total_tsf_loop n l u v : total (tsf_loop n l u v).
Proof.
  revert l u v. induction n as [|n IH]; intros l u v; cbn [tsf_loop]; [apply total_ret|].
  apply total_bind; [apply total_read|]. intros x. apply total_bind; [apply total_read|]. intros y.
  case_match; [apply total_ret|apply IH].
Qed.
Lemma total_GetTsf64 : total (ar5416GetTsf64 (HW := HW)).
Proof.
  apply total_bind; [apply total_read|]. intros u. apply total_bind; [apply total_tsf_loop|].
  intros [x y]. apply total_ret.
Qed.

(** The interrupt mask is what was last set. *)
Lemma keeps_mask_read r : Prelude.keeps ah_maskReg (ioread32_mac (HW := HW) r).
Proof.
  intros s x s' E. unfold ioread32_mac in E. destruct (hw_read r (ah_hw s)). by injection E as <- <-.
Qed.
Lemma keeps_mask_write r v : Prelude.keeps ah_maskReg (iowrite32_mac (HW := HW) r v).
Proof. by apply keeps_modify. Qed.
Definition ends_in {A} (P : ath_hal HW → Prop) (m : M (ath_hal HW) A) : Prop :=
  ∀ s b s', m s = Ok (b, s') → P s'.
Lemma ends_bind {A B} P (m : M (ath_hal HW) A) (k : A → M (ath_hal HW) B) :
  (∀ a, ends_in P (k a)) → ends_in P (m ≫= k).
Proof.
  intros Hk s b s' E. unfold mbind, M_bind in E. destruct (m s) as [[a s1]|]; [|done]. by eapply Hk.
Qed.
Lemma ends_set {A} ints (m : M (ath_hal HW) A) :
  Prelude.keeps ah_maskReg m →
  ends_in (λ a, ah_maskReg a = ints) (modify (λ a, a <| ah_maskReg := ints |>) ;; m).
Proof. intros K s b s' E. rewrite (bind_ok _ _ _ _ _ (run_modify _ _)) in E. by rewrite (K _ _ _ E). Qed.
Lemma mask_SetInterrupts ints (a : ath_hal HW) :
  ∃ x a', ar5416SetInterrupts ints a = Ok (x, a') ∧ ah_maskReg a' = ints.
Proof.
  destruct (total_SetInterrupts ints a) as (x & a' & E). exists x, a'. split; [done|]. revert E.
  assert (ends_in (λ a, ah_maskReg a = ints) (ar5416SetInterrupts ints)) as H; [|apply H].
  do 4 (apply ends_bind; intros ?). apply ends_set.
  assert (∀ r v, Prelude.keeps ah_maskReg (iowrite32_mac (HW := HW) r v ;; ioread32_mac r ;; mret tt)) as Hw.
  { intros r v. apply keeps_bind; [apply keeps_mask_write|]. intros _.
    apply keeps_bind; [apply keeps_mask_read|]. intros _. apply keeps_ret. }
  apply keeps_bind; [apply keeps_when, Hw|]. intros _.
  repeat (apply keeps_bind; [apply keeps_mask_write|]; intros _). apply keeps_ret.
Qed.
End chip.

Section send.
Context {HW RC : Type} `{!Mmio HW}.
Implicit Type t : tgt HW RC.

Definition set_mem (m : gmap Z Z) t : tgt HW RC := t <| tg_sc ::= λ s, s <| sc_mem := m |> |>.
Lemma run_twr l : ∀ a t, twr_bytes a l t = Ok (tt, set_mem (mem_put a l (sc_mem (tg_sc t))) t).
Proof.
  induction l as [|b l IH]; intros a t.
  - unfold set_mem. cbn. by destruct t as [[]].
  - cbn [twr_bytes]. erewrite bind_ok by reflexivity. rewrite IH. reflexivity.
Qed.
Lemma run_extend_tsf r t : ∃ tsf h, ath_extend_tsf r t = Ok (tsf, set_hal h t).
Proof.
  destruct (total_GetTsf64 (sc_hal (tg_sc t))) as (tsf & h & E). unfold ath_extend_tsf.
  rewrite (bind_ok _ _ _ _ _ (run_thal _ _ _ _ E)). do 2 eexists. reflexivity.
Qed.

(** A buffer with a frame becomes the last one without. *)
Lemma rx_state_sent t t' n' armed held idle pool free bf b b' done todo sent :
  rx_state t armed held idle pool free (bf :: done) todo sent → rx_bufs t !! bf = Some b →
  view n' = view (sc_nb (tg_sc t)) → tst (rb_status b') ATH_BUFSTATUS_DONE = false →
  rview t' = rview (set_nb n' t) → sc_rxdesc t' = sc_rxdesc t → sc_rxdesc_idle t' = sc_rxdesc_idle t →
  sc_rxbuf t' = done ++ todo ++ [bf] → rx_bufs t' = <[bf := b']> (rx_bufs t) →
  rx_state t' armed held idle pool free done (todo ++ [bf]) (rb_skb b :: sent).
Proof.
  intros [Hr Ha Hl Hnd Hrm Hrg Hd Ht] Hb Hv Hb' Erv El1 El2 Erb Ebufs.
  pose proof (lookup_lt_Some _ _ _ Hb) as Hlt.
  assert (bf ∉ done ∧ bf ∉ todo) as [Hbd Hbt] by (apply NoDup_cons in Hnd as [Hn _]; set_solver).
  assert (∀ i, i ≠ bf → rx_bufs t' !! i = rx_bufs t !! i) as Hk
    by (intros i Hi; rewrite Ebufs; by rewrite list_lookup_insert_ne).
  assert (done ++ todo ++ [bf] ≡ₚ bf :: done ++ todo) as Hp by solve_Permutation.
  assert (skb_at t bf = rb_skb b) as Es by (unfold skb_at; by rewrite Hb).
  split; try done.
  - assert (map (skb_at t') done = map (skb_at t) done) as ->.
    { apply map_ext_in. intros i Hi%list_elem_of_In. unfold skb_at. rewrite Hk; [done|]. by intros ->. }
    assert (rring (set_nb n' t) armed held idle [] pool free (map (skb_at t) (bf :: done) ++ sent)) as HR.
    { eapply rring_nb; [exact Hr|]. rewrite Hv. exact (rg_heap _ _ _ _ _ _ _ _ (rr_ring _ _ _ _ _ _ _ _ Hr)). }
    eapply rring_frames; [|destruct HR as [H1 H2 H3]; split; [by rewrite Erv|by rewrite El1|by rewrite El2]].
    cbn [map app]. rewrite Es. solve_Permutation.
  - by rewrite Hp.
  - rewrite Hp. assert (rx_descs t' = rx_descs t) as -> by exact (f_equal rv_descs Erv). done.
  - rewrite Hp, Ebufs, length_insert. done.
  - rewrite Forall_cons in Hd. destruct Hd as [_ Hd]. rewrite Forall_forall in *. intros i Hi.
    unfold done_at. rewrite Hk by (by intros ->). by apply Hd.
  - apply Forall_app. split.
    + rewrite Forall_forall in *. intros i Hi. unfold done_at. rewrite Hk by (by intros ->). by apply Ht.
    + rewrite Forall_singleton. unfold done_at. by rewrite Ebufs, list_lookup_insert_eq.
Qed.

(** One frame goes to the host, its receive status and extended time stamp in front. *)
Definition sent_one t t' (bf : nat) : Prop :=
  ∃ b hdr tsf, rx_bufs t !! bf = Some b ∧
    sc_host (tg_sc t') = sc_host (tg_sc t) ++ [HTC_SendMsg_ev RX_ENDPOINT_ID (rb_skb b)] ∧
    sc_mem (tg_sc t') = mem_put hdr (be_bytes 8 tsf)
      (mem_put hdr (rx_status_bytes (rb_rx_status b)) (sc_mem (tg_sc t))) ∧
    sc_imask (tg_sc t') = sc_imask (tg_sc t) ∧ tg_tq t' = tg_tq t ∧
    (∀ i, i ≠ bf → rx_bufs t' !! i = rx_bufs t !! i).

Lemma rx_step_spec t armed held idle pool free bf done todo sent :
  rx_state t armed held idle pool free (bf :: done) todo sent →
  ∃ t', rx_step t = Ok (true, t') ∧
    rx_state t' armed held idle pool free done (todo ++ [bf]) (skb_at t bf :: sent) ∧ sent_one t t' bf.
Proof.
  intros HS. pose proof HS as [Hr Ha Hl Hnd Hrm Hrg Hd Ht].
  cbn [app] in Hrg, Hnd; rewrite Forall_cons in Hrg, Hd. destruct Hrg as [Hlt _], Hd as [Hd _].
  apply lookup_lt_is_Some_2 in Hlt as [b Hb].
  unfold done_at in Hd. rewrite Hb in Hd. cbn in Hd.
  assert (skb_at t bf = rb_skb b) as Es by (unfold skb_at; by rewrite Hb).
  assert (framed (view (sc_nb (tg_sc t))) (rb_skb b)) as Hf.
  { pose proof (rh_frames _ _ _ _ _ _ (rg_heap _ _ _ _ _ _ _ _ (rr_ring _ _ _ _ _ _ _ _ Hr))) as Hf.
    cbn [map app] in Hf. rewrite Es, Forall_cons in Hf. by destruct Hf. }
  destruct (framed_push _ _ RX_FRAME_HEADER_SIZE Hf) as (hdr & n' & Ep & Hv). destruct Hf as [Hz _].
  set (b1 := b <| rb_skb := 0 |>).
  set (t1 := t <| sc_rxbuf ::= asf_tailq_remove bf |>).
  set (t2 := t1 <| rx_bufs ::= <[bf := b1]> |>).
  set (t3 := set_mem (mem_put hdr (rx_status_bytes (rb_rx_status b)) (sc_mem (tg_sc t))) (set_nb n' t2)).
  destruct (run_extend_tsf (u32 (rs_tstamp (rb_rx_status b))) t3) as (tsf & h & Et).
  set (t4 := set_mem (mem_put hdr (be_bytes 8 tsf) (sc_mem (tg_sc t3))) (set_hal h t3)).
  set (t5 := t4 <| tg_sc ::= λ s, s <| sc_host ::= λ l, l ++ [HTC_SendMsg_ev RX_ENDPOINT_ID (rb_skb b)] |> |>
    <| sc_rx_stats ::= λ r, r <| ast_rx_send ::= λ n, u32 (n + 1) |> |>).
  set (b2 := b1 <| rb_status ::= λ st, st .&~ ATH_BUFSTATUS_DONE |>).
  set (t6 := t5 <| rx_bufs ::= <[bf := b2]> |> <| sc_rxbuf ::= λ l, l ++ [bf] |>).
  assert (rx_bufs t2 !! bf = Some b1) as Hb2 by (cbn; apply list_lookup_insert_eq; by eapply lookup_lt_Some).
  assert (rx_bufs t6 = <[bf := b2]> (rx_bufs t)) as Eb6 by (cbn; by rewrite list_insert_insert_eq).
  exists t6. split; [|split].
  - unfold rx_step. rewrite (bind_ok _ _ _ _ _ (run_get _)), Hl. cbn [asf_tailq_first head app].
    rewrite (bind_ok _ _ _ _ _ (run_rd_rxb _ _ _ Hb)), Hd. cbn [negb].
    apply Z.eqb_neq in Hz as ->. rewrite (bind_ok _ _ _ _ _ (run_modify _ _)).
    erewrite bind_ok by (apply (run_upd_rxb bf b _ t1); exact Hb).
    erewrite bind_ok by (apply (run_tnb _ t2); exact Ep).
    rewrite (bind_ok _ _ _ _ _ (run_twr _ _ _)). change (sc_mem (tg_sc (set_nb n' t2))) with (sc_mem (tg_sc t)).
    rewrite (bind_ok _ _ _ _ _ Et), (bind_ok _ _ _ _ _ (run_twr _ _ _)).
    erewrite bind_ok by reflexivity. rewrite (bind_ok _ _ _ _ _ (run_modify _ _)).
    erewrite bind_ok by (apply run_upd_rxb; exact Hb2). rewrite (bind_ok _ _ _ _ _ (run_modify _ _)).
    reflexivity.
  - rewrite Es. eapply (rx_state_sent t t6 n'); [exact HS|exact Hb|exact Hv| | | | | |exact Eb6]; try done.
    + cbn. rewrite tst_ldiff_drop; done.
    + cbn. rewrite Hl. cbn [app]. rewrite tailq_remove_head, <-app_assoc; [done|].
      by apply NoDup_cons in Hnd as [Hn _].
  - exists b, hdr, tsf. split_and!; try done. intros i Hi. rewrite Eb6. by rewrite list_lookup_insert_ne.
Qed.

Lemma rx_step_last t armed held idle pool free todo sent :
  rx_state t armed held idle pool free [] todo sent → rx_step t = Ok (false, t).
Proof.
  intros HS. pose proof HS as [_ _ Hl _ _ _ _ _]. unfold rx_step.
  rewrite (bind_ok _ _ _ _ _ (run_get _)), Hl. destruct todo as [|bf todo]; [done|].
  destruct (rx_free_buf _ _ _ _ _ _ _ _ _ _ HS) as (b & Hb & Hst). cbn [asf_tailq_first head app].
  by rewrite (bind_ok _ _ _ _ _ (run_rd_rxb _ _ _ Hb)), Hst.
Qed.

Definition RX_EVENT (skb : Z) : host_event := HTC_SendMsg_ev RX_ENDPOINT_ID skb.
Lemma rx_loop done : ∀ fuel t armed held idle pool free todo sent,
  rx_state t armed held idle pool free done todo sent → (length done < fuel)%nat →
  ∃ t', do_while fuel rx_step t = Ok (tt, t') ∧
    rx_state t' armed held idle pool free [] (todo ++ done) (rev (map (skb_at t) done) ++ sent) ∧
    sc_host (tg_sc t') = sc_host (tg_sc t) ++ map RX_EVENT (map (skb_at t) done) ∧
    sc_imask (tg_sc t') = sc_imask (tg_sc t) ∧ tg_tq t' = tg_tq t.
Proof.
  induction done as [|bf done IH]; intros [|fuel] t armed held idle pool free todo sent HS Hfuel;
    cbn [length] in Hfuel; try lia.
  - exists t. rewrite !app_nil_r. split_and!; [|done..].
    cbn [do_while]. by rewrite (bind_ok _ _ _ _ _ (rx_step_last _ _ _ _ _ _ _ _ HS)).
  - destruct (rx_step_spec _ _ _ _ _ _ _ _ _ _ HS) as (t1 & E & HS1 & (b & hdr & tsf & Hb & Hh & _ & Hm & Hq & Hk)).
    destruct (IH fuel _ _ _ _ _ _ _ _ HS1) as (t2 & E2 & HS2 & Hh2 & Hm2 & Hq2); [lia|].
    assert (map (skb_at t1) done = map (skb_at t) done) as Em.
    { apply map_ext_in. intros i Hi%list_elem_of_In. unfold skb_at. rewrite Hk; [done|].
      intros ->. pose proof (rx_nodup _ _ _ _ _ _ _ _ _ HS) as Hnd. cbn in Hnd.
      apply NoDup_cons in Hnd as [Hn _]. set_solver. }
    rewrite Em in HS2, Hh2. exists t2. split; [|split; [|split; [|split]]].
    + cbn [do_while]. by rewrite (bind_ok _ _ _ _ _ E).
    + cbn [map rev]. rewrite <-!app_assoc in *. done.
    + rewrite Hh2, Hh, <-app_assoc. cbn [map app]. unfold RX_EVENT, skb_at at 2. by rewrite Hb.
    + by rewrite Hm2.
    + by rewrite Hq2.
Qed.

Lemma rx_tasklet_run t armed held idle pool free done todo sent :
  rx_state t armed held idle pool free done todo sent →
  ∃ t', ath_tgt_rx_tasklet t = Ok (tt, t') ∧
    rx_state t' armed held idle pool free [] (todo ++ done) (rev (map (skb_at t) done) ++ sent) ∧
    sc_host (tg_sc t') = sc_host (tg_sc t) ++ map RX_EVENT (map (skb_at t) done) ∧
    sc_imask (tg_sc t') = sc_imask (tg_sc t) .| HAL_INT_RX ∧
    ah_maskReg (sc_hal (tg_sc t')) = sc_imask (tg_sc t') ∧ tg_tq t' = tg_tq t.
Proof.
  intros HS. unfold ath_tgt_rx_tasklet. rewrite (bind_ok _ _ _ _ _ (run_get _)).
  destruct (rx_loop done (S (length (sc_rxbuf t))) _ _ _ _ _ _ _ _ HS) as (t1 & E & HS1 & Hh & Hm & Hq).
  { rewrite (rx_list _ _ _ _ _ _ _ _ _ HS), length_app. lia. }
  rewrite (bind_ok _ _ _ _ _ E).
  destruct (mask_SetInterrupts (sc_imask (tg_sc t) .| HAL_INT_RX) (sc_hal (tg_sc t1))) as (x & h & E2 & Hm2).
  set (t2 := t1 <| tg_sc ::= λ s, s <| sc_imask ::= λ m, m .| HAL_INT_RX |> |>).
  exists (set_hal h t2). split_and!.
  - erewrite bind_ok by reflexivity. erewrite bind_ok by reflexivity. cbn. rewrite Hm.
    unfold ath_hal_setInterrupts. erewrite bind_ok by (apply run_thal; exact E2). done.
  - destruct HS1 as [[? ? ?] ? ? ? ? ? ? ?]. by split.
  - done.
  - cbn. by rewrite Hm.
  - cbn. by rewrite Hm2, Hm.
  - done.
Qed.

(** C8: the receive tasklet hands every complete frame to the host, in the order in which
    they were received and each once, clears the buffers they were in, unmasks the receive
    interrupt and keeps the receive state well-formed; its loop ends. *)
Theorem ath_tgt_rx_tasklet_sends_all t armed held idle pool free done todo sent :
  rx_state t armed held idle pool free done todo sent →
  ∃ t', ath_tgt_rx_tasklet t = Ok (tt, t') ∧
    rx_state t' armed held idle pool free [] (todo ++ done) (rev (map (skb_at t) done) ++ sent) ∧
    sc_host (tg_sc t') = sc_host (tg_sc t) ++ map RX_EVENT (map (skb_at t) done) ∧
    sc_imask (tg_sc t') = sc_imask (tg_sc t) .| HAL_INT_RX ∧
    ah_maskReg (sc_hal (tg_sc t')) = sc_imask (tg_sc t') ∧ tg_tq t' = tg_tq t.
Proof. apply rx_tasklet_run. Qed.


Lemma land_32 x : x .& 0xffffffff = u32 x.
Proof. exact (Z.land_ones x 32 ltac:(lia)). Qed.
(** The signed difference of two 32-bit stamps. *)
Lemma s32_u32 x : ∃ k, s32 (u32 x) = x + k * 4294967296 ∧ -2147483648 ≤ s32 (u32 x) < 2147483648.
Proof.
  unfold s32, u32. pose proof (Z.mod_pos_bound (x mod 4294967296 + 2147483648) 4294967296 ltac:(lia)).
  pose proof (Z.div_mod x 4294967296 ltac:(lia)).
  pose proof (Z.div_mod (x mod 4294967296 + 2147483648) 4294967296 ltac:(lia)).
  exists (- (x / 4294967296) - (x mod 4294967296 + 2147483648) / 4294967296). lia.
Qed.

(** C22: when the chip's clock is between 2^31 and 2^64 - 2^31, the extended time stamp is the
    64-bit time nearest to the clock whose low half is the descriptor's stamp, and the only
    such time. *)
Theorem ath_extend_tsf_nearest t rstamp tsf h :
  ar5416GetTsf64 (sc_hal (tg_sc t)) = Ok (tsf, h) →
  2147483648 ≤ tsf < 18446744071562067968 → 0 ≤ rstamp < 4294967296 →
  ∃ r, ath_extend_tsf rstamp t = Ok (r, set_hal h t) ∧
    u32 r = rstamp ∧ -2147483648 ≤ r - tsf < 2147483648 ∧
    ∀ r', u32 r' = rstamp → -2147483648 ≤ r' - tsf < 2147483648 → r' = r.
Proof.
  intros E Ht Hr. destruct (s32_u32 (rstamp - tsf)) as (k & Hk & Hd). set (d := s32 (u32 (rstamp - tsf))) in *.
  assert (u32 (tsf + d) = rstamp) as Hm.
  { rewrite Hk. replace (tsf + (rstamp - tsf + k * 4294967296)) with (rstamp + k * 4294967296) by lia.
    unfold u32. rewrite Z.mod_add by lia. by apply Z.mod_small. }
  exists (tsf + d). split; [|split; [done|split; [lia|]]].
  - unfold ath_extend_tsf. rewrite (bind_ok _ _ _ _ _ (run_thal _ _ _ _ E)). cbv zeta.
    rewrite !land_32. assert (u32 (u32 (rstamp - u32 tsf)) = u32 (rstamp - tsf)) as ->.
    { unfold u32. by rewrite Zmod_mod, Zminus_mod_idemp_r. }
    fold d. rewrite run_ret. do 2 f_equal. unfold u64. rewrite Zplus_mod_idemp_r. apply Z.mod_small. lia.
  - intros r' Hr' Hn. unfold u32 in Hm, Hr'.
    pose proof (Z.div_mod (tsf + d) 4294967296 ltac:(lia)) as E1. pose proof (Z.div_mod r' 4294967296 ltac:(lia)) as E2.
    rewrite Hm in E1. rewrite Hr' in E2. nia.
Qed.
End send.
