(* ===== verification/IfStart.v ===== *)
(** * Starting reception

    Handing the whole list of receive descriptors to the chip gives a well-formed ring, all of
    whose descriptors but the last have a buffer; with too few buffers it says so. *)

From S2P Require Import Prelude.
From S2P Require Import NBufProps.
From S2P Require Import IfTypes.
From S2P Require Import IfRecv.
From S2P Require Import IfHeap.
From S2P Require Import IfRing.
From S2P Require Import IfTrig.
From S2P Require Import IfFrames.

Section start.
Context {HW RC : Type} `{!Mmio HW}.
Implicit Type t : tgt HW RC.

Lemma run_SetRxDP a t :
  ∃ h, thal (ar5416SetRxDP a) t = Ok (tt, set_hal h t) ∧ ah_hw h = hw_write AR_RXDP a (ah_hw (sc_hal (tg_sc t))).
Proof. eexists. unfold ar5416SetRxDP, iowrite32_mac. erewrite run_thal by reflexivity. by split. Qed.

(** What the chip is told when [suf] are handed to it after [armed]: the address of the very
    first descriptor, and to receive, for each of them. *)
Fixpoint armed_hw (p : Z) (armed suf : list nat) (hw : HW) : HW :=
  match suf with
  | [] => hw
  | i :: suf => armed_hw p (armed ++ [i]) suf (arm_hw (last armed) (desc_addr p i) hw)
  end.
(** And at the end, when all have buffers, the address of the first of the list again. *)
Definition started_hw (all : bool) (p : Z) (first : nat) (hw : HW) : HW :=
  if all then hw_write AR_RXDP (desc_addr p first) hw else hw.

(** What [startrecv_loop] leaves: [suf] are handed to the chip too, [held'] is held back. *)
Lemma startrecv_loop_spec free frames coll first l : ∀ t armed held pool,
  ring (rview t) armed held l coll pool free frames →
  sc_rxdesc t = armed ++ held :: l → head (armed ++ [held]) = Some first →
  ∃ t' suf held' rest' pool',
    startrecv_loop l t = Ok (if decide (length l ≤ length pool)%nat then 0 else ENOMEM, t') ∧
    suf ++ held' :: rest' = held :: l ∧ length suf = (length l `min` length pool)%nat ∧
    ring (rview t') (armed ++ suf) held' rest' coll pool' free frames ∧
    ring_only t t' ∧ lists_kept t t' ∧ rearmed (rx_descs t) (rx_descs t') suf ∧
    (map (desc_nbuf (rx_descs t')) suf ++ pool' = pool ∧ ∀ i, i ∉ held :: l → desc_nbuf (rx_descs t') i = desc_nbuf (rx_descs t) i) ∧
    ah_hw (sc_hal (tg_sc t')) = started_hw (bool_decide (length l ≤ length pool)%nat) (rx_desc_paddr t) first
      (armed_hw (rx_desc_paddr t) armed suf (ah_hw (sc_hal (tg_sc t)))).
Proof.
  induction l as [|a l IH]; intros t armed held pool Hr Hl Hfst.
  - assert (∃ l', sc_rxdesc t = first :: l' ∧ first ∈ armed ++ [held]) as (l' & Eds & Hin).
    { rewrite Hl. destruct armed as [|x armed]; injection Hfst as ->; eexists; (split; [reflexivity|set_solver]). }
    destruct (ring_desc _ _ _ _ _ _ _ _ first Hr Hin) as (d & Hd & Hda). cbn in Hd, Hda.
    destruct (run_SetRxDP (rd_daddr d) t) as (h & E & Eh).
    exists (set_hal h t), [], held, [], pool. rewrite decide_True, app_nil_r by (cbn; lia).
    split; [|split; [done|split; [done|split; [done|split; [|split; [by split|split; [apply rearmed_refl|split; [by split|]]]]]]]].
    + cbn [startrecv_loop]. rewrite (bind_ok _ _ _ _ _ (run_get _)), Eds. cbn [asf_tailq_first head deref].
      rewrite (bind_ok _ _ _ _ _ (run_ret _ _)), (bind_ok _ _ _ _ _ (run_rd_rxd _ _ _ Hd)).
      by rewrite (bind_ok _ _ _ _ _ E).
    + unfold ring_only. clear. by destruct t as [[]].
    + cbn. by rewrite Eh, Hda.
  - destruct pool as [|b pool].
    + destruct (rxdesc_init_none _ _ _ _ _ _ _ _ Hr) as (t' & E & Hv & Ho & Hk & Et).
      exists t', [], held, (a :: l), []. rewrite decide_False, app_nil_r by (cbn; lia).
      assert (rx_descs t' = rx_descs t) as Hds by exact (f_equal rv_descs Hv).
      split; [|split; [done|split; [cbn; lia|split; [by rewrite Hv|split; [done|split; [done|split; [|split]]]]]]].
      * cbn [startrecv_loop]. by rewrite (bind_ok _ _ _ _ _ E).
      * rewrite Hds. apply rearmed_refl.
      * by rewrite Hds.
      * by rewrite Et.
    + destruct (rxdesc_init_some _ _ _ _ _ _ _ _ _ _ Hr) as (t1 & E & Hr1 & Ho1 & [Hk1 Hk2] & Hre1 & _ & Hnb1 & Hb1 & _ & Hhw1).
      destruct (IH t1 _ _ _ Hr1) as (t2 & suf & held' & rest' & pool' & E2 & Ea & Hn & Hr2 & Ho2 & [Hk3 Hk4] & Hre2 & [Hp2 Hnb2] & Hhw2).
      { rewrite Hk1, Hl. by rewrite <-app_assoc. }
      { rewrite <-Hfst. by destruct armed. }
      exists t2, (held :: suf), held', rest', pool'.
      split; [|split; [cbn; by rewrite Ea|split; [cbn; by rewrite Hn|split]]].
      * cbn [startrecv_loop]. rewrite (bind_ok _ _ _ _ _ E). cbn [negb Z.eqb]. rewrite E2.
        do 2 f_equal. clear Hhw2. by case_decide; case_decide; cbn [length] in *; try lia.
      * by rewrite <-app_assoc in Hr2.
      * split; [by eapply ring_only_trans|]. split; [split; [by rewrite Hk3|by rewrite Hk4]|].
        split; [by apply (rearmed_trans _ _ _ [held] suf Hre1)|].
        pose proof (rg_nodup _ _ _ _ _ _ _ _ Hr) as Hnd. apply NoDup_app in Hnd as (_ & _ & [Hnh _]%NoDup_cons).
        split; [split|].
        { cbn [map app]. rewrite Hp2, Hnb2, Hb1; done. }
        { intros i Hi. apply not_elem_of_cons in Hi as [Hi1 Hi2]. by rewrite Hnb2, Hnb1. }
        rewrite Hhw2, Hhw1. assert (rx_desc_paddr t1 = rx_desc_paddr t) as -> by by rewrite Ho1.
        cbn [armed_hw length]. f_equal. apply bool_decide_ext. lia.
Qed.

(** All descriptors, none with the chip and none with a buffer. *)
Record rx_cold t (ds : nat) (l : list nat) (pool free frames : list Z) : Prop := {
  rc_desc : sc_rxdesc t = ds :: l;
  rc_nodup : NoDup (ds :: l);
  rc_range : Forall (λ i, (i < length (rx_descs t))%nat) (ds :: l);
  rc_paddr : 0 < rx_desc_paddr t;
  rc_addr : ∀ i d, rx_descs t !! i = Some d → rd_daddr d = desc_addr (rx_desc_paddr t) i;
  rc_empty : Forall (λ i, desc_nbuf (rx_descs t) i = 0) (ds :: l);
  rc_heap : rx_heap (view (sc_nb (tg_sc t))) [] [] pool free frames }.

(** The buffers for the host and their list are untouched, and no descriptor comes or goes. *)
Definition rx_store_kept t t' : Prop :=
  rx_bufs t' = rx_bufs t ∧ sc_rxbuf t' = sc_rxbuf t ∧ length (rx_descs t') = length (rx_descs t).

Lemma startrecv_run t ds l pool free frames :
  rx_cold t ds l pool free frames →
  ∃ t' armed held rest pool',
    ath_startrecv t = Ok (if decide (length l ≤ length pool)%nat then 0 else ENOMEM, t') ∧
    armed ++ held :: rest = ds :: l ∧ length armed = (length l `min` length pool)%nat ∧
    ring (rview t') armed held rest [] pool' free frames ∧
    Forall (pending (rx_descs t')) armed ∧ lists_kept t t' ∧ rx_store_kept t t' ∧
    map (desc_nbuf (rx_descs t')) armed ++ pool' = pool ∧
    ah_hw (sc_hal (tg_sc t')) = started_hw (bool_decide (length l ≤ length pool)%nat) (rx_desc_paddr t) ds
      (armed_hw (rx_desc_paddr t) [] armed (ah_hw (sc_hal (tg_sc t)))).
Proof.
  intros [Hl Hnd Hrg Hp Ha He Hh].
  set (t1 := t <| sc_rxbufsize := 1024 + 512 + 128 |> <| sc_rxlink := None |> <| sc_rxdesc_held := Some ds |>).
  assert (ring (rview t1) [] ds l [] pool free frames) as Hr by by split.
  destruct (startrecv_loop_spec _ _ _ ds _ t1 [] ds pool Hr Hl eq_refl) as
    (t' & suf & held & rest & pool' & E & Ea & Hn & Hr' & Ho & Hk & [Hlen _ Hre] & [Hp' _] & Hhw).
  exists t', suf, held, rest, pool'. split; [|split_and!; try done; by rewrite Ho].
  unfold ath_startrecv. rewrite (bind_ok _ _ _ _ _ (run_modify _ _)), (bind_ok _ _ _ _ _ (run_get _)).
  match goal with |- startrecv_loop ?x _ = _ => change x with (sc_rxdesc t) end.
  rewrite Hl. cbn [startrecv_loop]. exact E.
Qed.

(** C6: starting reception from cold, when no descriptor has a buffer yet (after boot; not a
    second start after [ath_stoprecv_tgt]), hands the descriptors to the chip in the order of their
    list, each with the next buffer of the pool and none of them complete, all but the last,
    which is held back, as a chain that ends there; when there are fewer buffers it answers
    ENOMEM and the chain holds as many descriptors as there were buffers. The chip is given
    the address of the first descriptor, is told to receive after each of them, and at the
    end, unless buffers were missing, is given that address again. *)
Theorem ath_startrecv_arms t ds l pool free frames :
  rx_cold t ds l pool free frames →
  ∃ t' armed held rest pool',
    ath_startrecv t = Ok (if decide (length l ≤ length pool)%nat then 0 else ENOMEM, t') ∧
    armed ++ held :: rest = ds :: l ∧ length armed = (length l `min` length pool)%nat ∧
    ring (rview t') armed held rest [] pool' free frames ∧
    Forall (pending (rx_descs t')) armed ∧ lists_kept t t' ∧
    map (desc_nbuf (rx_descs t')) armed ++ pool' = pool ∧
    ah_hw (sc_hal (tg_sc t')) = started_hw (bool_decide (length l ≤ length pool)%nat) (rx_desc_paddr t) ds
      (armed_hw (rx_desc_paddr t) [] armed (ah_hw (sc_hal (tg_sc t)))).
Proof.
  intros Hc. destruct (startrecv_run _ _ _ _ _ _ Hc) as
    (t' & armed & held & rest & pool' & ? & ? & ? & ? & ? & ? & _ & ? & ?).
  by exists t', armed, held, rest, pool'.
Qed.
End start.
