(* ===== verification/IfReturn.v ===== *)
(** * Received frames come back

    When the host has taken a frame, each buffer it was made of goes back to the receive
    pool and re-arms one of the descriptors that wait for a buffer; when more buffers come
    back than descriptors wait, the others are lost. *)

From S2P Require Import Prelude.
From S2P Require Import NBufProps.
From S2P Require Import IfTypes.
From S2P Require Import IfRecv.
From S2P Require Import IfHeap.
From S2P Require Import IfRing.
From S2P Require Import IfTrig.
From S2P Require Import IfFrames.

(** ** Splitting a frame into buffers of one descriptor *)

Section split.
Implicit Types (v : heap_view) (n : nb_state) (live coll pool free frames ds : list Z).

(** A free header becomes a buffer of the descriptor [d], cut from its chain. *)
Lemma rx_heap_adopt v v' live coll pool f free frames d :
  rx_heap v live coll pool (f :: free) frames → is_Some (hv_dnext v !! d) → d ≠ 0 →
  d ∉ map (desc_of v) (live ++ coll ++ pool) →
  (∀ x, x ∈ live ++ pool ++ free → hv_next v' !! x = hv_next v !! x) →
  Some (hv_free v') = hv_next v !! f → hv_desc v' = <[f := d]> (hv_desc v) →
  hv_dnext v' = <[d := 0]> (hv_dnext v) → hv_bufQ v' = hv_bufQ v →
  rx_heap v' live (coll ++ [f]) pool free frames.
Proof.
  intros [(h & Hh & Hp) Hfr Hnd Hds Hfg Hlo Hfm] [e He] Hd0 Hd Hn Hf Hde Hdn Hq.
  assert (live ++ coll ++ pool ++ (f :: free) ++ frames ≡ₚ f :: live ++ coll ++ pool ++ free ++ frames)
    as Hperm by solve_Permutation.
  assert (live ++ (coll ++ [f]) ++ pool ++ free ++ frames ≡ₚ f :: live ++ coll ++ pool ++ free ++ frames)
    as Hperm1 by solve_Permutation.
  assert (live ++ (coll ++ [f]) ++ pool ≡ₚ f :: live ++ coll ++ pool) as Hperm2 by solve_Permutation.
  rewrite Hperm in Hnd. pose proof Hnd as [Hnin _]%NoDup_cons.
  destruct Hfr as (Hhd & Hf0 & y & Hy & Hfr).
  assert (∀ x, x ∈ live ++ coll ++ pool → x ≠ f) as Hxf by (intros x Hx ->; set_solver).
  assert (∀ x, x ∈ live ++ coll ++ pool → desc_of v' x = desc_of v x) as Hdof.
  { intros x Hx. unfold desc_of. rewrite Hde, lookup_insert_ne; [done|]. intros ->. by apply (Hxf x). }
  assert (desc_of v' f = d) as Hdf by (unfold desc_of; by rewrite Hde, lookup_insert_eq).
  assert (∀ x, x ∈ live ++ coll ++ pool → desc_of v x ≠ d) as Hxd.
  { intros x Hx <-. apply Hd. by apply list_elem_of_fmap_2. }
  split.
  - exists h. rewrite Hq. split; [done|]. eapply lchain_ext; [|exact Hp]. intros x Hx. apply Hn. set_solver.
  - rewrite Hy in Hf. injection Hf as ->. eapply lchain_ext; [|exact Hfr]. intros x Hx. apply Hn. set_solver.
  - by rewrite Hperm1.
  - rewrite Hperm2. cbn. rewrite Hdf. apply NoDup_cons.
    rewrite (map_ext_in (desc_of v') (desc_of v)); [done|]. intros x Hx%list_elem_of_In. by apply Hdof.
  - rewrite Hperm2, Forall_cons. split.
    + split; [done|]. exists d. by rewrite Hde, Hdn, !lookup_insert_eq.
    + rewrite Forall_forall in *. intros x Hx. destruct (Hfg x Hx) as (? & k & Hk & ? & Hkk).
      split; [done|]. exists k. rewrite Hde, Hdn, !lookup_insert_ne; [done|..].
      * intros <-. apply (Hxd x Hx). unfold desc_of. by rewrite Hk.
      * intros ->. by apply (Hxf x).
  - rewrite Forall_forall in *. intros x Hx. rewrite Hn by set_solver. auto.
  - rewrite Forall_forall in *. intros x Hx. destruct (Hfm x Hx) as (? & k & Hk & Hkk). split; [done|].
    exists k. rewrite Hde, Hdn. split; [rewrite lookup_insert_ne; [done|]; intros ->; set_solver|].
    destruct (decide (k = d)) as [->|]; [rewrite lookup_insert_eq; eauto|by rewrite lookup_insert_ne].
Qed.

Lemma split_step n live coll pool f free frames q d ds fuel :
  rx_heap (view n) live coll pool (f :: free) frames → qrep n q coll →
  lchain (dnext n) d (d :: ds) →
  (∀ x, x ∈ d :: ds → x ∉ map (desc_of (view n)) (live ++ coll ++ pool)) →
  Z.of_nat (length coll) < 4294967294 →
  ∃ q' n' d', split_loop (S fuel) d q n = split_loop fuel d' q' n' ∧ lchain (dnext n') d' ds ∧
    rx_heap (view n') live (coll ++ [f]) pool free frames ∧ qrep n' q' (coll ++ [f]) ∧
    (∀ x, x ∈ ds → x ∉ map (desc_of (view n')) (live ++ (coll ++ [f]) ++ pool)).
Proof.
  intros H Hq Hc Hdis Hlen. pose proof (lchain_NoDup _ _ _ Hc) as [Hnd _]%NoDup_cons.
  destruct Hc as (_ & Hd0 & d' & Hd & Hc). unfold dnext in Hd.
  destruct (vdescs n !! d) as [e|] eqn:He; [|done]. injection Hd as <-.
  pose proof (rh_nodup _ _ _ _ _ _ H) as Hnd'.
  assert (live ++ coll ++ pool ++ (f :: free) ++ frames ≡ₚ f :: live ++ coll ++ pool ++ free ++ frames)
    as Hperm by solve_Permutation.
  rewrite Hperm in Hnd'. apply NoDup_cons in Hnd' as [Hfin Hnd'].
  pose proof (rh_free _ _ _ _ _ _ H) as (Hhd & Hf0 & y & Hy & _). cbn in Hhd.
  rewrite view_next in Hy. unfold vnext in Hy.
  destruct (vbufs n !! f) as [fb|] eqn:Hfb; [|done]. injection Hy as Hy.
  set (fb' := fb <| next_buf := 0 |>).
  set (n1 := n <| nVbufNum ::= λ x, s32 (x - 1) |> <| free_buf_head := y |> <| vbufs ::= <[f := fb']> |>).
  assert (_vbuf_alloc_vbuf n = Ok (f, n1)) as E1 by (unfold n1; rewrite <-Hy; by apply vbuf_alloc_run).
  set (fb2 := fb' <| desc_list := d |> <| buf_length := data_size e |> <| next_buf := 0 |>).
  set (n2 := n1 <| vbufs ::= <[f := fb2]> |>).
  assert (qrep n2 q coll) as Hq2.
  { destruct Hq as (Hl & Hr). split; [|done]. eapply lchain_ext; [|exact Hl].
    intros x Hx. unfold vnext. cbn. rewrite !lookup_insert_ne; [done|..]; intros <-; set_solver. }
  destruct (queue_add_spec n2 q coll f fb2 Hq2) as (q' & n3 & E3 & Hq3 & Hv3 & Hvd3 & HQ3);
    [cbn; by rewrite lookup_insert_eq|set_solver|done|done|].
  pose proof (keeps_desc_queue_add _ _ _ _ _ E3) as Ed3. pose proof (keeps_free_queue_add _ _ _ _ _ E3) as Ef3.
  cbv beta in Ed3.
  assert (desc_list <$> vbufs n3 = <[f := d]> (desc_list <$> vbufs n)) as Ed.
  { rewrite Ed3. cbn. by rewrite insert_insert_eq, fmap_insert. }
  assert (∃ b3, vbufs n3 !! f = Some b3 ∧ desc_list b3 = d) as (b3 & Hb3 & Hb3d).
  { assert ((desc_list <$> vbufs n3) !! f = Some d) as Hx by (by rewrite Ed, lookup_insert_eq).
    rewrite lookup_fmap in Hx. apply fmap_Some in Hx as (b3 & ? & ->). by exists b3. }
  assert (vdescs n3 = vdescs n) as Hvd by (by rewrite Hvd3).
  set (n4 := n3 <| vdescs ::= <[d := e <| next_desc := 0 |>]> |>).
  exists q', n4, (next_desc e).
  assert (rx_heap (view n4) live (coll ++ [f]) pool free frames) as H4.
  { eapply (rx_heap_adopt (view n) _ _ _ _ _ _ _ d); [exact H|..].
    - cbn. rewrite lookup_fmap, He. cbn. eauto.
    - done.
    - apply Hdis. by left.
    - intros x Hx. cbn. rewrite !lookup_fmap, Hv3.
      + cbn. rewrite !lookup_insert_ne; [done|..]; intros ->; set_solver.
      + rewrite not_elem_of_cons. split; [intros ->; set_solver|]. intros Hxc.
        rewrite !NoDup_app in Hnd'. set_solver.
    - cbn. rewrite Ef3, lookup_fmap, Hfb. cbn. by rewrite Hy.
    - cbn. done.
    - cbn. by rewrite fmap_insert, Hvd.
    - cbn. by rewrite HQ3. }
  split; [|split; [|split; [exact H4|split]]].
  - cbn [split_loop]. apply Z.eqb_neq in Hd0 as Hd0'. rewrite Hd0', (bind_ok _ _ _ _ _ E1).
    apply Z.eqb_neq in Hf0 as Hf0'. rewrite Hf0'. cbn [negb assert_].
    rewrite (bind_ok _ _ _ _ _ (run_ret _ _)).
    erewrite bind_ok by (apply run_rd_vdesc; exact He).
    erewrite bind_ok by (apply run_upd_vbuf; unfold n1; cbn; by rewrite lookup_insert_eq).
    change (n1 <| vbufs ::= _ |>) with n2. rewrite (bind_ok _ _ _ _ _ E3).
    erewrite bind_ok by (apply run_rd_vdesc; rewrite Hvd; exact He).
    erewrite bind_ok by (apply run_rd_vbuf; exact Hb3). rewrite Hb3d.
    erewrite bind_ok by (apply run_upd_vdesc; rewrite Hvd; exact He). reflexivity.
  - eapply lchain_ext; [|exact Hc]. intros x Hx. unfold dnext. cbn.
    rewrite lookup_insert_ne by (intros ->; done). by rewrite Hvd.
  - destruct Hq3 as (Hl & Hr). split; [|done]. eapply lchain_ext; [|exact Hl]. done.
  - intros x Hx. assert (live ++ (coll ++ [f]) ++ pool ≡ₚ f :: live ++ coll ++ pool) as Hperm2 by solve_Permutation.
    rewrite Hperm2. cbn. apply not_elem_of_cons. split.
    + unfold desc_of. cbn. rewrite Ed, lookup_insert_eq. cbn. by intros ->.
    + rewrite (map_ext_in _ (desc_of (view n))); [apply Hdis; by right|].
      intros z Hz%list_elem_of_In. unfold desc_of. cbn. rewrite Ed, lookup_insert_ne; [done|].
      intros ->. set_solver.
Qed.

Lemma split_loop_spec ds : ∀ n live coll pool fs free frames q d fuel,
  rx_heap (view n) live coll pool (fs ++ free) frames → qrep n q coll →
  lchain (dnext n) d ds → length fs = length ds →
  (∀ x, x ∈ ds → x ∉ map (desc_of (view n)) (live ++ coll ++ pool)) →
  Z.of_nat (length coll + length ds) < 4294967295 → (length ds ≤ fuel)%nat →
  ∃ q' n', split_loop fuel d q n = Ok (q', n') ∧
    rx_heap (view n') live (coll ++ fs) pool free frames ∧ qrep n' q' (coll ++ fs).
Proof.
  induction ds as [|x ds IH]; intros n live coll pool fs free frames q d fuel H Hq Hc Hfs Hdis Hlen Hf.
  - destruct fs; [|done]. cbn in Hc. subst d. exists q, n. rewrite app_nil_r.
    split; [|done]. by destruct fuel.
  - destruct fs as [|f fs]; [done|]. destruct fuel as [|fuel]; [cbn in Hf; lia|].
    assert (d = x) as -> by apply Hc. cbn [length app] in *.
    destruct (split_step n live coll pool f (fs ++ free) frames q x ds fuel H Hq Hc Hdis)
      as (q1 & n1 & d1 & -> & Hc1 & H1 & Hq1 & Hdis1); [lia|].
    destruct (IH n1 live (coll ++ [f]) pool fs free frames q1 d1 fuel H1 Hq1 Hc1)
      as (q2 & n2 & E2 & H2); [lia|done|rewrite length_app; cbn; lia|lia|].
    exists q2, n2. split; [done|]. by rewrite <-app_assoc in H2.
Qed.

(** The header of a frame goes to the free ones. *)
Lemma rx_heap_release v v' live coll pool free frames a :
  rx_heap v live coll pool free (a :: frames) →
  (∀ x, x ≠ a → hv_next v' !! x = hv_next v !! x) → hv_next v' !! a = Some (hv_free v) →
  (∀ x, x ≠ a → hv_desc v' !! x = hv_desc v !! x) → hv_dnext v' = hv_dnext v →
  hv_bufQ v' = hv_bufQ v → hv_free v' = a →
  rx_heap v' live coll pool (a :: free) frames.
Proof.
  intros [(h & Hh & Hp) Hfr Hnd Hds Hfg Hlo Hfm] Hn Ha Hd He Hq Hf.
  assert (live ++ coll ++ pool ++ free ++ a :: frames ≡ₚ a :: live ++ coll ++ pool ++ free ++ frames)
    as Hperm by solve_Permutation.
  rewrite Hperm in Hnd. pose proof Hnd as [Hnin _]%NoDup_cons. rewrite Forall_cons in Hfm.
  destruct Hfm as [[Ha0 _] Hfm].
  assert (∀ x, x ∈ live ++ coll ++ pool → hv_desc v' !! x = hv_desc v !! x) as Hdx
    by (intros x Hx; apply Hd; intros ->; set_solver).
  split.
  - exists h. rewrite Hq. split; [done|]. eapply lchain_ext; [|exact Hp].
    intros x Hx. apply Hn. intros ->. set_solver.
  - rewrite Hf. cbn. split_and!; [done..|]. exists (hv_free v). split; [done|].
    eapply lchain_ext; [|exact Hfr]. intros x Hx. apply Hn. intros ->. set_solver.
  - assert (live ++ coll ++ pool ++ (a :: free) ++ frames ≡ₚ a :: live ++ coll ++ pool ++ free ++ frames)
      as -> by solve_Permutation. done.
  - rewrite (map_ext_in (desc_of v') (desc_of v)); [done|]. intros x Hx%list_elem_of_In.
    unfold desc_of. by rewrite Hdx.
  - rewrite Forall_forall in *. intros x Hx. destruct (Hfg x Hx) as (? & k & ? & ? & ?).
    split; [done|]. exists k. by rewrite He, Hdx.
  - rewrite Forall_forall in *. intros x Hx. rewrite Hn; [auto|]. intros ->. set_solver.
  - rewrite Forall_forall in *. intros x Hx. destruct (Hfm x Hx) as (? & k & ? & ?).
    split; [done|]. exists k. rewrite He, Hd; [done|]. intros ->. set_solver.
Qed.

(** The frame [buf] is made of the descriptors [ds], which no other buffer of the lists has. *)
Record made_of n (others : list Z) (buf : Z) ds : Prop := {
  mo_chain : ∃ b, vbufs n !! buf = Some b ∧ lchain (dnext n) (desc_list b) ds;
  mo_own : ∀ x, x ∈ ds → x ∉ map (desc_of (view n)) others }.

Lemma split_to_frag_spec n live pool fs free frames buf ds :
  rx_heap (view n) live [] pool (fs ++ free) (buf :: frames) → made_of n (live ++ pool) buf ds →
  length fs = length ds → Z.of_nat (length ds) < 4294967295 →
  ∃ q n', adf_nbuf_split_to_frag buf n = Ok (q, n') ∧
    rx_heap (view n') live fs pool (buf :: free) frames ∧ qrep n' q fs.
Proof.
  intros H [(b & Hb & Hc) Hown] Hfs Hlen.
  assert ((length ds ≤ size (vdescs n))%nat) as Hsz by (by apply (lchain_size _ next_desc (desc_list b))).
  destruct (split_loop_spec ds n live [] pool fs free (buf :: frames) adf_nbuf_queue_init (desc_list b)
    (size (vdescs n)) H (qrep_init n) Hc Hfs Hown) as (q & n1 & E1 & H1 & Hq1); [done|done|].
  cbn [app] in *.
  assert (∃ b1, vbufs n1 !! buf = Some b1) as [b1 Hb1].
  { pose proof (rh_frames _ _ _ _ _ _ H1) as Hfm. rewrite Forall_cons in Hfm.
    destruct Hfm as [(_ & e & (b1 & ? & _)%view_desc & _) _]. eauto. }
  pose proof (rh_nodup _ _ _ _ _ _ H1) as Hnd.
  assert (live ++ fs ++ pool ++ free ++ buf :: frames ≡ₚ buf :: live ++ fs ++ pool ++ free ++ frames)
    as Hperm by solve_Permutation.
  rewrite Hperm in Hnd. apply NoDup_cons in Hnd as [Hnin _].
  exists q. eexists. split; [|split].
  - unfold adf_nbuf_split_to_frag. erewrite bind_ok by (apply run_rd_vbuf; exact Hb).
    rewrite (bind_ok _ _ _ _ _ (run_get _)), (bind_ok _ _ _ _ _ E1).
    erewrite bind_ok by (apply run_upd_vbuf; exact Hb1). unfold _vbuf_free_vbuf.
    rewrite bind_assoc, (bind_ok _ _ _ _ _ (run_gets _ _)).
    rewrite bind_assoc. erewrite bind_ok by (apply run_upd_vbuf; cbn; by rewrite lookup_insert_eq).
    rewrite bind_assoc, (bind_ok _ _ _ _ _ (run_modify _ _)), (bind_ok _ _ _ _ _ (run_modify _ _)).
    reflexivity.
  - eapply (rx_heap_release (view n1)); [exact H1|..]; try done.
    + intros x Hx. cbn. by rewrite !lookup_fmap, !lookup_insert_ne.
    + cbn. by rewrite lookup_fmap, lookup_insert_eq.
    + intros x Hx. cbn. by rewrite !lookup_fmap, !lookup_insert_ne.
  - destruct Hq1 as (Hl & Hr). split; [|done]. eapply lchain_ext; [|exact Hl].
    intros x Hx. unfold vnext. cbn. rewrite !lookup_insert_ne; [done|..]; intros ->; set_solver.
Qed.

(** The oldest buffer of the queue, alone. *)
Lemma rx_queue_remove n live c coll pool free frames q :
  rx_heap (view n) live (c :: coll) pool free frames → qrep n q (c :: coll) →
  ∃ q' n', adf_nbuf_queue_remove q n = Ok ((c, q'), n') ∧
    rx_heap (view n') (c :: live) coll pool free frames ∧ qrep n' q' coll ∧ c ≠ 0.
Proof.
  intros H Hq. pose proof H as [Hp Hfr Hnd Hds Hfg Hlo Hfm].
  destruct (queue_remove_spec n q c coll Hq) as (q' & n1 & E & Hq' & (Hv & Hvd & HbQ) & Hz).
  pose proof (keeps_desc_queue_remove _ _ _ _ E) as Ed. pose proof (keeps_free_queue_remove _ _ _ _ E) as Ef.
  cbv beta in Ed.
  assert (live ++ (c :: coll) ++ pool ≡ₚ c :: live ++ coll ++ pool) as Hperm by solve_Permutation.
  assert (live ++ (c :: coll) ++ pool ++ free ++ frames ≡ₚ c :: live ++ coll ++ pool ++ free ++ frames)
    as Hperm' by solve_Permutation.
  assert (c ≠ 0) as Hc0 by (destruct Hq as [(_ & ? & _) _]; done).
  exists q', n1. split; [done|]. split; [|done].
  rewrite Hperm' in Hnd. pose proof Hnd as [Hnin _]%NoDup_cons.
  assert (rx_heap (view n1) live (c :: coll) pool free frames) as [Hp1 Hfr1 _ Hds1 Hfg1 Hlo1 Hfm1].
  { apply (rx_heap_next (view n)); [|done|cbn; by rewrite Hvd|done|done|done].
    intros x Hx. cbn. rewrite !lookup_fmap, Hv; [done|]. intros ->%list_elem_of_singleton. set_solver. }
  split; try done.
  - by rewrite Hperm in Hds1.
  - by rewrite Hperm in Hfg1.
  - rewrite Forall_cons. split; [|done]. by rewrite view_next.
Qed.
End split.

(** ** Re-arming *)

Section complete.
Context {HW RC : Type} `{!Mmio HW}.
Implicit Type t : tgt HW RC.

(** One buffer back: descriptor [i], the first that waits, is handed out next. *)
Lemma complete_step t armed held i idle c coll pool free frames q fuel :
  rring t armed held (i :: idle) (c :: coll) pool free frames → qrep (sc_nb (tg_sc t)) q (c :: coll) →
  ∃ t' q', rx_complete_loop (S fuel) (Some i) q t = rx_complete_loop fuel (head idle) q' t' ∧
    rring t' (armed ++ [held]) i idle coll pool free frames ∧ qrep (sc_nb (tg_sc t')) q' coll ∧
    ring_only t t' ∧ rearmed (rx_descs t) (rx_descs t') [held].
Proof.
  intros [Hr Hd Hi] Hq.
  destruct (rx_queue_remove _ _ _ _ _ _ _ _ (rg_heap _ _ _ _ _ _ _ _ Hr) Hq) as (q1 & n1 & E1 & H1 & Hq1 & Hc0).
  destruct (rx_pool_free _ _ _ _ _ _ _ H1) as (n2 & E2 & H2 & Hq2 & _).
  set (t2 := set_nb n2 t).
  assert (ring (rview t2) armed held (i :: idle) coll (c :: pool) free frames) as Hr2
    by (eapply (ring_heap (rview t)); [exact Hr|exact H2]).
  destruct (rxdesc_init_some _ _ _ _ _ _ _ _ _ _ Hr2) as (t3 & E3 & Hr3 & Ho & [Hl1 Hl2] & Hre & Hqk & _).
  set (t4 := t3 <| sc_rxdesc_idle ::= asf_tailq_remove i |> <| sc_rxdesc ::= λ l, l ++ [i] |>).
  assert (i ∉ idle) as Hin.
  { pose proof (rg_nodup _ _ _ _ _ _ _ _ Hr) as Hnd. rewrite NoDup_app, !NoDup_cons in Hnd. tauto. }
  exists t4, q1. split; [|split; [|split; [|split]]].
  - cbn [rx_complete_loop]. erewrite bind_ok by (apply run_tnb; exact E1).
    apply Z.eqb_neq in Hc0. cbv beta iota. rewrite Hc0. erewrite bind_ok by (unfold ath_free_rx_skb; apply run_tnb; exact E2).
    change (set_nb n2 (set_nb n1 t)) with t2. rewrite (bind_ok _ _ _ _ _ (run_get _)).
    change (sc_rxdesc_idle t2) with (sc_rxdesc_idle t). rewrite Hi, tailq_next_head.
    rewrite (bind_ok _ _ _ _ _ E3), (bind_ok _ _ _ _ _ (run_modify _ _)). reflexivity.
  - split; [exact Hr3|..]; cbn.
    + rewrite Hl1. change (sc_rxdesc t2) with (sc_rxdesc t). by rewrite Hd.
    + rewrite Hl2. change (sc_rxdesc_idle t2) with (sc_rxdesc_idle t). by rewrite Hi, tailq_remove_head.
  - apply Hqk. by apply Hq2.
  - eapply ring_only_trans; [|eapply ring_only_trans; [exact Ho|]]; unfold ring_only, t2, t4; clear.
    + by destruct t as [[]].
    + by destruct t3 as [[]].
  - exact Hre.
Qed.

(** The whole loop, whose turns stop at the first of: no more buffers, no more descriptors. *)
Lemma complete_loop_spec idle : ∀ t armed held coll pool free frames q,
  rring t armed held idle coll pool free frames → qrep (sc_nb (tg_sc t)) q coll →
  ∃ t' suf held', rx_complete_loop (length idle) (head idle) q t = Ok (tt, t') ∧
    rring t' (armed ++ suf) held' (drop (length coll) idle) (drop (length idle) coll) pool free frames ∧
    suf ++ [held'] = held :: take (length coll) idle ∧ ring_only t t' ∧ rearmed (rx_descs t) (rx_descs t') suf.
Proof.
  induction idle as [|i idle IH]; intros t armed held coll pool free frames q H Hq.
  - exists t, [], held. rewrite app_nil_r, drop_nil, take_nil. cbn.
    split; [done|]. split; [done|]. split; [done|]. split; [apply ring_only_refl|apply rearmed_refl].
  - destruct coll as [|c coll].
    + assert (adf_nbuf_queue_remove q (sc_nb (tg_sc t)) = Ok ((0, q), sc_nb (tg_sc t))) as E.
      { destruct Hq as (Hl & _). cbn in Hl. unfold adf_nbuf_queue_remove. by rewrite Hl. }
      exists t, [], held. rewrite app_nil_r. cbn [length drop take head rx_complete_loop app].
      erewrite bind_ok by (apply run_tnb_same; exact E).
      split; [done|]. split; [done|]. split; [done|]. split; [apply ring_only_refl|apply rearmed_refl].
    + destruct (complete_step t armed held i idle c coll pool free frames q (length idle) H Hq)
        as (t1 & q1 & E1 & H1 & Hq1 & Ho1 & Hre1).
      destruct (IH t1 (armed ++ [held]) i coll pool free frames q1 H1 Hq1) as (t2 & suf & held' & E2 & H2 & Hs & Ho2 & Hre2).
      exists t2, (held :: suf), held'. cbn [length head drop take app]. rewrite E1.
      split; [exact E2|]. split; [by rewrite <-app_assoc in H2|]. split; [by rewrite Hs|].
      split; [by eapply ring_only_trans|exact (rearmed_trans _ _ _ _ _ Hre1 Hre2)].
Qed.

(** C3: The buffers of a frame the host has taken re-arm descriptors: when there is a free buffer
    header for each of the [k] buffers of the frame [buf], [ath_rx_complete] takes it apart and
    ends without a fault (with fewer headers it ends in an assertion); the first [k] descriptors that wait for a
    buffer, or all of them when they are fewer, join the list of the ring, in their order, and all
    of the list but its last descriptor are armed again; the pool has what it had, and the
    frame's header and those of its buffers balance. Only the buffers beyond the number of
    waiting descriptors are lost: they are in no list any more. *)
Theorem ath_rx_complete_rearms t armed held idle pool fs free frames buf ds :
  rring t armed held idle [] pool (fs ++ free) (buf :: frames) →
  made_of (sc_nb (tg_sc t)) (map (desc_nbuf (rx_descs t)) armed ++ pool) buf ds →
  length fs = length ds → Z.of_nat (length ds) < 4294967295 →
  ∃ t' armed' held', ath_rx_complete buf t = Ok (tt, t') ∧
    armed' ++ [held'] = armed ++ held :: take (length ds) idle ∧
    rring t' armed' held' (drop (length ds) idle) (drop (length idle) fs) pool (buf :: free) frames ∧
    ring_only t t' ∧
    (length armed' = length armed + length ds `min` length idle)%nat.
Proof.
  intros [Hr Hd Hi] Hm Hfs Hlen.
  destruct (split_to_frag_spec _ _ _ _ _ _ _ _ (rg_heap _ _ _ _ _ _ _ _ Hr) Hm Hfs Hlen) as (q & n' & E & H' & Hq).
  assert (rring (set_nb n' t) armed held idle fs pool (buf :: free) frames) as H1
    by (split; [eapply (ring_heap (rview t)); [exact Hr|exact H']|done|done]).
  destruct (complete_loop_spec idle _ _ _ _ _ _ _ q H1 Hq) as (t' & suf & held' & E2 & H2 & Hs & Ho & _).
  rewrite Hfs in *. exists t', (armed ++ suf), held'. split; [|split; [|split; [exact H2|split]]].
  - unfold ath_rx_complete. erewrite bind_ok by (apply run_tnb; exact E).
    rewrite (bind_ok _ _ _ _ _ (run_get _)). change (sc_rxdesc_idle (set_nb n' t)) with (sc_rxdesc_idle t).
    by rewrite Hi.
  - by rewrite <-app_assoc, Hs.
  - eapply ring_only_trans; [|exact Ho]. unfold ring_only. clear. by destruct t as [[]].
  - apply (f_equal length) in Hs. rewrite length_app in *. cbn in Hs. rewrite length_take in Hs. lia.
Qed.
End complete.
