(* ===== verification/IfBoot.v ===== *)
(** * From start-up to reception

    The memory that attaching the target takes from the boot arena, the pool of receive
    buffers it fills, the lists it builds: when the arena and the free lists have room, they
    are what starting reception needs, so that the invariant of the receive path holds from
    its first interrupt on. *)

From S2P Require Import Prelude.
From S2P Require Import Allocram.
From S2P Require Import TxProps.
From S2P Require Import NBufProps.
From S2P Require Import IfTypes.
From S2P Require Import IfRecv.
From S2P Require Import IfInit.
From S2P Require Import IfHeap.
From S2P Require Import IfRing.
From S2P Require Import IfTrig.
From S2P Require Import IfFrames.
From S2P Require Import IfStart.

(** ** Room in the arena *)

(** The arena does not start at address 0 and has [k] bytes left. *)
Record room (r : allocram) (k : Z) : Prop := {
  rm_wf : arena_wf r;
  rm_pos : 0 < allocram_current_addr r;
  rm_left : k <= allocram_remaining_bytes r }.
Definition with_ram (r : allocram) (n : nb_state) : nb_state := n <| nb_ram := r |>.

Section room.
Implicit Types (n : nb_state) (r : allocram).

Lemma room_le r k k' : k' <= k → room r k → room r k'.
Proof. intros ? []. split; [done..|lia]. Qed.
Lemma ALLOCRAM_room m n k : 0 <= m < 4294967293 → 0 <= k → room (nb_ram n) (A_ROUND_UP m 4 + k) →
  ∃ a r, A_ALLOCRAM m n = Ok (a, with_ram r n) ∧ 0 < a ∧ room r k.
Proof.
  intros Hm Hk [Hwf Hp Hl]. destruct (A_ROUND_UP_4 m Hm) as [Hr _].
  assert (cmnos_allocram m (nb_ram n) = Ok (allocram_current_addr (nb_ram n),
    mk_allocram (allocram_current_addr (nb_ram n) + A_ROUND_UP m 4)
      (allocram_remaining_bytes (nb_ram n) - A_ROUND_UP m 4))) as E
    by (apply cmnos_allocram_ok; [done|done|lia]).
  eexists _, _. unfold A_ALLOCRAM. rewrite E. split; [reflexivity|]. split; [done|].
  destruct Hwf as (? & ? & ?). split; [repeat split|..]; cbn; lia.
Qed.
Lemma dmamap_room n k : 0 <= k → room (nb_ram n) (12 + k) →
  ∃ r, adf_nbuf_dmamap_create n = Ok (true, with_ram r n) ∧ room r k.
Proof.
  intros Hk H. destruct (ALLOCRAM_room 12 n k) as (a & r & E & Ha & Hr); [lia|done|done|].
  exists r. split; [|done]. unfold adf_nbuf_dmamap_create, sizeof_dma_map. rewrite (bind_ok _ _ _ _ _ E), run_ret.
  do 2 f_equal. apply negb_true_iff, Z.eqb_neq. lia.
Qed.
Lemma dmamaps_room l : ∀ n k, 0 <= k → room (nb_ram n) (12 * Z.of_nat (length l) + k) →
  ∃ r, for_each l (λ _ : nat, ok ← adf_nbuf_dmamap_create; assert_ ok) n = Ok (tt, with_ram r n) ∧ room r k.
Proof.
  induction l as [|x l IH]; intros n k Hk H.
  - exists (nb_ram n). split; [by destruct n|]. by eapply room_le; [|exact H].
  - cbn [length] in H. destruct (dmamap_room n (12 * Z.of_nat (length l) + k)) as (r & E & Hr);
      [lia|eapply room_le; [|exact H]; lia|].
    destruct (IH (with_ram r n) k Hk Hr) as (r' & E' & Hr'). exists r'. split; [|done].
    cbn [for_each]. erewrite bind_ok by (rewrite (bind_ok _ _ _ _ _ E); reflexivity). exact E'.
Qed.
(** What [ath_descdma_setup] takes. *)
Definition setup_demand (nbuf : nat) (ndesc bfSize descSize : Z) : Z :=
  12 + (A_ROUND_UP (descSize * Z.of_nat nbuf * ndesc) 4 +
        (A_ROUND_UP (bfSize * Z.of_nat nbuf) 4 + 12 * Z.of_nat nbuf)).
Lemma setup_room nbuf ndesc bfSize descSize n k :
  0 <= k → 0 <= descSize * Z.of_nat nbuf * ndesc < 4294967293 → 0 <= bfSize * Z.of_nat nbuf < 4294967293 →
  room (nb_ram n) (setup_demand nbuf ndesc bfSize descSize + k) →
  ∃ a r, ath_descdma_setup nbuf ndesc bfSize descSize n = Ok (a, with_ram r n) ∧ 0 < a ∧ room r k.
Proof.
  unfold setup_demand. intros Hk Hd Hb H. destruct (A_ROUND_UP_4 _ Hd) as [Hrd _]. destruct (A_ROUND_UP_4 _ Hb) as [Hrb _].
  destruct (ALLOCRAM_room 12 n (A_ROUND_UP (descSize * Z.of_nat nbuf * ndesc) 4 +
    (A_ROUND_UP (bfSize * Z.of_nat nbuf) 4 + (12 * Z.of_nat nbuf + k)))) as (a1 & r1 & E1 & Ha1 & H1);
    [lia|lia|eapply room_le; [|exact H]; change (A_ROUND_UP 12 4) with 12; lia|].
  destruct (ALLOCRAM_room _ (with_ram r1 n) (A_ROUND_UP (bfSize * Z.of_nat nbuf) 4 + (12 * Z.of_nat nbuf + k)) Hd)
    as (a2 & r2 & E2 & Ha2 & H2); [lia|exact H1|].
  destruct (ALLOCRAM_room _ (with_ram r2 n) (12 * Z.of_nat nbuf + k) Hb) as (a3 & r3 & E3 & Ha3 & H3); [lia|exact H2|].
  destruct (dmamaps_room (seq 0 nbuf) (with_ram r3 n) k Hk) as (r4 & E4 & H4); [by rewrite length_seq|].
  exists a2, r4. split; [|done]. unfold ath_descdma_setup.
  assert (adf_os_dmamem_alloc (descSize * Z.of_nat nbuf * ndesc) n = Ok (a2, with_ram r2 n)) as E12.
  { unfold adf_os_dmamem_alloc, sizeof_dma_map. rewrite (bind_ok _ _ _ _ _ E1).
    assert (a1 =? 0 = false) as -> by (apply Z.eqb_neq; lia). exact E2. }
  rewrite (bind_ok _ _ _ _ _ E12). assert (a2 =? 0 = false) as -> by (apply Z.eqb_neq; lia).
  cbn [negb assert_]. rewrite (bind_ok _ _ _ _ _ (run_ret _ _)). unfold adf_os_mem_alloc.
  change (with_ram r3 (with_ram r2 n)) with (with_ram r3 n) in *. rewrite (bind_ok _ _ _ _ _ E3).
  assert (a3 =? 0 = false) as -> by (apply Z.eqb_neq; lia).
  cbn [negb assert_]. rewrite (bind_ok _ _ _ _ _ (run_ret _ _)), (bind_ok _ _ _ _ _ E4). reflexivity.
Qed.
End room.

(** ** Filling the pool *)
Section pool.
Implicit Types (v : heap_view) (n : nb_state) (pool free frames ds : list Z).

(** A free header with the free descriptor [d] goes on top of the pool. *)
Lemma rx_heap_stock v v' pool f free frames d h :
  rx_heap v [] [] pool (f :: free) frames → is_Some (hv_dnext v !! d) → d ≠ 0 →
  d ∉ map (desc_of v) pool → hv_bufQ v !! POOL_ID_WLAN_RX_BUF = Some h →
  (∀ x, x ≠ f → hv_next v' !! x = hv_next v !! x) → hv_next v' !! f = Some h →
  Some (hv_free v') = hv_next v !! f → hv_desc v' = <[f := d]> (hv_desc v) →
  hv_dnext v' = <[d := 0]> (hv_dnext v) → hv_bufQ v' = <[POOL_ID_WLAN_RX_BUF := f]> (hv_bufQ v) →
  rx_heap v' [] [] (f :: pool) free frames.
Proof.
  intros [(h' & Hh' & Hp) Hfr Hnd Hds Hfg _ Hfm] [e He] Hd0 Hd Hh Hn Hnf Hf Hde Hdn Hq.
  rewrite Hh in Hh'. injection Hh' as <-. cbn [app] in *.
  assert (pool ++ (f :: free) ++ frames ≡ₚ f :: pool ++ free ++ frames) as Hperm by solve_Permutation.
  rewrite Hperm in Hnd. pose proof Hnd as [Hnin _]%NoDup_cons.
  destruct Hfr as (_ & Hf0 & y & Hy & Hfr).
  assert (∀ x, x ∈ pool → hv_desc v' !! x = hv_desc v !! x) as Hdx.
  { intros x Hx. rewrite Hde, lookup_insert_ne; [done|]. intros ->. set_solver. }
  split; cbn [app].
  - exists f. rewrite Hq. split; [apply list_lookup_insert_eq; by eapply lookup_lt_Some|].
    split; [done|]. split; [done|]. exists h. split; [done|]. eapply lchain_ext; [|exact Hp].
    intros x Hx. apply Hn. intros ->. set_solver.
  - rewrite Hy in Hf. injection Hf as ->. eapply lchain_ext; [|exact Hfr].
    intros x Hx. apply Hn. intros ->. set_solver.
  - done.
  - cbn [map]. apply NoDup_cons.
    rewrite (map_ext_in (desc_of v') (desc_of v)); [|intros x Hx%list_elem_of_In; unfold desc_of; by rewrite Hdx].
    split; [|done]. unfold desc_of at 1. by rewrite Hde, lookup_insert_eq.
  - constructor.
    + split; [done|]. exists d. by rewrite Hde, Hdn, !lookup_insert_eq.
    + rewrite Forall_forall in *. intros x Hx. destruct (Hfg x Hx) as (? & k & Hk & ? & Hkk).
      split; [done|]. exists k. rewrite Hdx by done. split; [done|]. split; [done|].
      rewrite Hdn, lookup_insert_ne; [done|]. intros <-. apply Hd. apply list_elem_of_In, in_map_iff.
      exists x. split; [unfold desc_of; by rewrite Hk|by apply list_elem_of_In].
  - constructor.
  - rewrite Forall_forall in *. intros x Hx. destruct (Hfm x Hx) as (? & k & Hk & Hkk). split; [done|].
    exists k. rewrite Hde, Hdn. split; [rewrite lookup_insert_ne; [done|]; intros ->; set_solver|].
    destruct (decide (k = d)) as [->|]; [rewrite lookup_insert_eq; eauto|by rewrite lookup_insert_ne].
Qed.

(** The free descriptors [ds], none of which is in use in the pool. *)
Record free_descs n ds pool : Prop := {
  fd_chain : lchain (dnext n) (free_vdesc_head n) ds;
  fd_free : ∀ x, x ∈ ds → x ∉ map (desc_of (view n)) pool }.

Lemma pool_item_spec n nSize k pool f free frames d ds :
  rx_heap (view n) [] [] pool (f :: free) frames → free_descs n (d :: ds) pool →
  0 <= nSize < 4294967293 → 0 <= k → room (nb_ram n) (A_ROUND_UP nSize 4 + k) →
  ∃ n', pool_item POOL_ID_WLAN_RX_BUF nSize n = Ok (tt, n') ∧
    rx_heap (view n') [] [] (f :: pool) free frames ∧ free_descs n' ds (f :: pool) ∧ room (nb_ram n') k.
Proof.
  intros H [Hc Hown] Hs Hk Hr. pose proof (lchain_NoDup _ _ _ Hc) as [Hnd _]%NoDup_cons.
  destruct Hc as (Hhd & Hd0 & d' & Hd & Hc). unfold dnext in Hd.
  destruct (vdescs n !! d) as [e|] eqn:He; [|done]. injection Hd as <-.
  pose proof (rh_free _ _ _ _ _ _ H) as (Hhf & Hf0 & y & Hy & _). cbn in Hhf.
  rewrite view_next in Hy. unfold vnext in Hy.
  destruct (vbufs n !! f) as [fb|] eqn:Hfb; [|done]. injection Hy as Hy.
  destruct (rh_pool _ _ _ _ _ _ H) as (h & Hh & _). cbn in Hh.
  set (n1 := n <| nVbufNum ::= λ x, s32 (x - 1) |> <| free_buf_head := next_buf fb |>
               <| vbufs ::= <[f := fb <| next_buf := 0 |>]> |>).
  assert (_vbuf_alloc_vbuf n = Ok (f, n1)) as E1 by by apply vbuf_alloc_run.
  set (n2 := n1 <| free_vdesc_head := next_desc e |> <| vdescs ::= <[d := e <| next_desc := 0 |>]> |>).
  assert (_vdesc_alloc_desc n1 = Ok (d, n2)) as E2 by by apply vdesc_alloc_run.
  destruct (ALLOCRAM_room nSize n2 k Hs Hk Hr) as (a & r & E3 & Ha & Hr3).
  set (e3 := e <| next_desc := 0 |> <| buf_addr := a |> <| buf_size := u16 nSize |> <| data_offset := 0 |> <| data_size := 0 |>).
  set (n4 := with_ram r n2 <| vdescs ::= <[d := e3]> |>).
  set (fb5 := fb <| next_buf := 0 |> <| buf_length := 0 |> <| desc_list := d |>).
  set (n5 := n4 <| vbufs ::= <[f := fb5]> |>).
  set (n6 := n5 <| vbufs ::= <[f := fb5 <| next_buf := h |>]> |> <| bufQ ::= <[POOL_ID_WLAN_RX_BUF := f]> |>).
  exists (if h =? 0 then n5 <| bufQ ::= <[POOL_ID_WLAN_RX_BUF := f]> |> else n6).
  assert (∀ m, (m = n6 ∨ h = 0 ∧ m = n5 <| bufQ ::= <[POOL_ID_WLAN_RX_BUF := f]> |>) →
    rx_heap (view m) [] [] (f :: pool) free frames ∧ free_descs m ds (f :: pool) ∧ nb_ram m = r) as Hm.
  { intros m Hm.
    assert (vdescs m = <[d := e3]> (vdescs n) ∧ bufQ m = <[POOL_ID_WLAN_RX_BUF := f]> (bufQ n) ∧
      free_buf_head m = next_buf fb ∧ free_vdesc_head m = next_desc e ∧ nb_ram m = r ∧
      vbufs m = <[f := fb5 <| next_buf := h |>]> (vbufs n)) as (Hvd & HQ & Hfh & Hvh & Hra & Hvb).
    { destruct Hm as [->|[-> ->]]; cbn; by rewrite !insert_insert_eq. }
    assert (hv_desc (view m) = <[f := d]> (hv_desc (view n))) as Hde by (cbn; by rewrite Hvb, fmap_insert).
    split; [|split; [split|done]].
    - eapply (rx_heap_stock (view n) _ _ _ _ _ d h); [exact H|..].
      + cbn. rewrite lookup_fmap, He. eauto.
      + done.
      + apply Hown. by left.
      + done.
      + intros x Hx. cbn. by rewrite !lookup_fmap, Hvb, lookup_insert_ne.
      + cbn. by rewrite lookup_fmap, Hvb, lookup_insert_eq.
      + cbn. by rewrite Hfh, lookup_fmap, Hfb.
      + done.
      + cbn. by rewrite Hvd, fmap_insert.
      + done.
    - rewrite Hvh. eapply lchain_ext; [|exact Hc]. intros x Hx. unfold dnext. rewrite Hvd, lookup_insert_ne; [done|].
      by intros ->.
    - intros x Hx. cbn [map]. rewrite not_elem_of_cons. split.
      + unfold desc_of. rewrite Hde, lookup_insert_eq. cbn. by intros ->.
      + rewrite (map_ext_in _ (desc_of (view n))); [apply Hown; by right|].
        intros z Hz%list_elem_of_In. unfold desc_of. rewrite Hde, lookup_insert_ne; [done|].
        intros ->. pose proof (rh_nodup _ _ _ _ _ _ H) as Hnd'. cbn in Hnd'. rewrite NoDup_app in Hnd'. set_solver. }
  split.
  - unfold pool_item. rewrite (bind_ok _ _ _ _ _ E1), (bind_ok _ _ _ _ _ E2), (bind_ok _ _ _ _ _ E3).
    erewrite bind_ok by (apply run_upd_vdesc; cbn; by rewrite lookup_insert_eq).
    change (with_ram r n2 <| vdescs ::= _ |>) with n4.
    erewrite bind_ok by (apply run_upd_vbuf; cbn; by rewrite lookup_insert_eq).
    change (n4 <| vbufs ::= _ |>) with n5.
    erewrite bind_ok by (apply run_rd_bufQ; exact Hh).
    destruct (h =? 0); [by erewrite run_wr_bufQ by exact Hh|].
    erewrite bind_ok by (apply run_upd_vbuf; cbn; by rewrite lookup_insert_eq).
    erewrite run_wr_bufQ by exact Hh. reflexivity.
  - destruct (Z.eqb_spec h 0) as [Hz|_].
    + destruct (Hm _ (or_intror (conj Hz eq_refl))) as (? & ? & ->). done.
    + destruct (Hm _ (or_introl eq_refl)) as (? & ? & ->). done.
Qed.

Lemma create_pool_spec fs nSize : ∀ (l : list nat) n k pool free frames ds dfree,
  rx_heap (view n) [] [] pool (fs ++ free) frames → free_descs n (ds ++ dfree) pool →
  length fs = length l → length ds = length l → 0 <= nSize < 4294967293 → 0 <= k →
  room (nb_ram n) (A_ROUND_UP nSize 4 * Z.of_nat (length l) + k) →
  ∃ n', for_each l (λ _, pool_item POOL_ID_WLAN_RX_BUF nSize) n = Ok (tt, n') ∧
    rx_heap (view n') [] [] (rev fs ++ pool) free frames ∧ free_descs n' dfree (rev fs ++ pool) ∧
    room (nb_ram n') k.
Proof.
  induction fs as [|f fs IH]; intros [|x l] n k pool free frames ds dfree H Hd Hf Hl Hs Hk Hr; try done.
  - destruct ds; [|done]. exists n. split; [done|]. split; [done|]. split; [done|]. eapply room_le; [|exact Hr]; cbn; lia.
  - destruct ds as [|d ds]; [done|]. cbn [length app] in *.
    destruct (A_ROUND_UP_4 nSize Hs) as [Hru _].
    destruct (pool_item_spec n nSize (A_ROUND_UP nSize 4 * Z.of_nat (length l) + k) pool f (fs ++ free) frames
      d (ds ++ dfree) H Hd Hs) as (n1 & E1 & H1 & Hd1 & Hr1); [nia|eapply room_le; [|exact Hr]; lia|].
    destruct (IH l n1 k (f :: pool) free frames ds dfree H1 Hd1) as (n2 & E2 & H2 & Hd2 & Hr2); [lia|lia|done..|].
    exists n2. cbn [for_each rev]. rewrite (bind_ok _ _ _ _ _ E1), <-app_assoc. done.
Qed.
End pool.

(** ** The lists *)
Section lists.
Context {HW RC : Type} `{!Mmio HW}.
Context (junk_rxd : nat → rx_desc) (junk_txd : ath_tx_desc).
Implicit Type t : tgt HW RC.

Lemma wp_tnb_ok {A} (m : NB A) (Q : A → tgt HW RC → Prop) t a n :
  m (sc_nb (tg_sc t)) = Ok (a, n) → Q a (set_nb n t) → wp (tnb m) Q t.
Proof. intros E HQ. eapply wp_ok; [by apply run_tnb|done]. Qed.
Lemma wp_upd_rxd i f (Q : unit → tgt HW RC → Prop) t :
  (i < length (rx_descs t))%nat → Q tt (t <| rx_descs := alter f i (rx_descs t) |>) → wp (upd_rxd i f) Q t.
Proof.
  intros [d Hd]%lookup_lt_is_Some_2 HQ. eapply wp_ok; [by apply run_upd_rxd|].
  replace (t <| rx_descs ::= <[i := f d]> |>) with (t <| rx_descs := alter f i (rx_descs t) |>); [done|].
  by rewrite <-(insert_as_alter f _ _ _ Hd).
Qed.

(** What the receive path reads of a descriptor before it is armed. *)
Definition fresh (d : rx_desc) : Z * Z := (rd_nbuf d, rd_daddr d).
Lemma fresh_alter f (i j : nat) (l : list rx_desc) : (∀ d, fresh (f d) = fresh d) → fresh <$> alter f i l !! j = fresh <$> l !! j.
Proof.
  intros Hf. destruct (decide (i = j)) as [->|Hij]; [|by rewrite list_lookup_alter_ne].
  rewrite list_lookup_alter_eq. destruct (l !! j); cbn; [by rewrite Hf|done].
Qed.

Lemma rxdesc_setup_spec paddr i n0 r0 k t :
  (i < length (rx_descs t))%nat → sc_nb (tg_sc t) = with_ram r0 n0 → 0 <= k → room r0 (12 + k) →
  wp (rxdesc_setup paddr i) (λ _ t', ∃ r descs, room r k ∧
    t' = set_nb (with_ram r n0) t <| rx_descs := descs |> <| sc_rxdesc ::= λ l, l ++ [i] |> ∧
    length descs = length (rx_descs t) ∧
    ∀ j, fresh <$> descs !! j = if decide (i = j) then Some (0, paddr + RX_DESC_SIZE * Z.of_nat i) else fresh <$> rx_descs t !! j) t.
Proof.
  intros Hi Hn Hk Hr. assert (room (nb_ram (sc_nb (tg_sc t))) (12 + k)) as Hr' by (by rewrite Hn).
  destruct (dmamap_room _ _ Hk Hr') as (r & E & Hrk). rewrite Hn in E.
  set (daddr := paddr + RX_DESC_SIZE * Z.of_nat i).
  set (d1 := alter (λ d, d <| rd_nbuf := 0 |>) i (rx_descs t)).
  set (d2 := alter (λ d, d <| rd_dmap := adf_nbuf_unmap |>) i d1).
  set (d3 := alter (λ d, d <| rd_daddr := daddr |>) i d2).
  set (d4 := if negb (i =? 0)%nat then alter (λ d, d <| rd_link := daddr |>) (i - 1)%nat d3 else d3).
  set (d5 := alter (λ d, d <| rd_link := 0 |>) i d4).
  assert (length d1 = length (rx_descs t) ∧ length d2 = length (rx_descs t) ∧ length d3 = length (rx_descs t) ∧
    length d4 = length (rx_descs t) ∧ length d5 = length (rx_descs t)) as (L1 & L2 & L3 & L4 & L5).
  { unfold d5, d4, d3, d2, d1. destruct (negb _); by rewrite ?length_alter. }
  unfold rxdesc_setup. fold daddr. apply wp_bind, wp_upd_rxd; [done|]. fold d1.
  apply wp_bind. eapply wp_tnb_ok; [cbn; rewrite Hn; exact E|].
  apply wp_bind, wp_assert; [done|]. apply wp_bind, wp_upd_rxd; [cbn; lia|].
  apply wp_bind, wp_upd_rxd; [cbn; rewrite length_alter; lia|].
  apply wp_bind, wp_mono with (Q := λ _ t', t' = set_nb (with_ram r (with_ram r0 n0)) t <| rx_descs := d4 |>).
  { unfold d4. apply wp_when; intros Hz.
    - apply wp_upd_rxd; [cbn; rewrite !length_alter; lia|]. rewrite Hz. by destruct t as [[]].
    - rewrite Hz. by destruct t as [[]]. }
  intros _ t4 ->. apply wp_bind, wp_upd_rxd; [cbn; lia|]. apply wp_modify. exists r, d5.
  split; [done|]. split; [by destruct t as [[]]|]. split; [done|]. intros j.
  unfold d5. rewrite fresh_alter by done.
  assert (fresh <$> d4 !! j = fresh <$> d3 !! j) as -> by (unfold d4; destruct (negb _); [by apply fresh_alter|done]).
  case_decide as Hij.
  - subst j. unfold d3, d2, d1. rewrite !list_lookup_alter_eq. apply lookup_lt_is_Some_2 in Hi as [x ->]. done.
  - unfold d3, d2, d1. by rewrite !list_lookup_alter_ne.
Qed.

(** The receive descriptors and buffers as they are before reception starts. *)
Record rx_lists t : Prop := {
  rl_desc : sc_rxdesc t = seq 0 (Z.to_nat ATH_RXDESC);
  rl_idle : sc_rxdesc_idle t = [];
  rl_paddr : 0 < rx_desc_paddr t;
  rl_len : length (rx_descs t) = Z.to_nat ATH_RXDESC;
  rl_fresh : ∀ i d, rx_descs t !! i = Some d → fresh d = (0, desc_addr (rx_desc_paddr t) i);
  rl_bufs : rx_bufs t = replicate (Z.to_nat ATH_RXDESC) rx_buf_zero;
  rl_list : sc_rxbuf t = seq 0 (Z.to_nat ATH_RXDESC) }.

(** Only the arena of the buffers' heap has changed, and [k] bytes of it are left. *)
Definition ram_left t t' (k : Z) : Prop :=
  ∃ r, sc_nb (tg_sc t') = with_ram r (sc_nb (tg_sc t)) ∧ room r k.

Lemma rx_loop_spec paddr t k :
  0 <= k → length (rx_descs t) = Z.to_nat ATH_RXDESC → sc_rxdesc t = [] → 0 < paddr → rx_desc_paddr t = paddr →
  room (nb_ram (sc_nb (tg_sc t))) (12 * ATH_RXDESC + k) →
  wp (for_each (seq 0 (Z.to_nat ATH_RXDESC)) (rxdesc_setup paddr))
    (λ _ t', ∃ r descs, room r k ∧
       t' = set_nb (with_ram r (sc_nb (tg_sc t))) t <| rx_descs := descs |> <| sc_rxdesc := seq 0 (Z.to_nat ATH_RXDESC) |> ∧
       length descs = Z.to_nat ATH_RXDESC ∧
       ∀ i d, descs !! i = Some d → fresh d = (0, desc_addr paddr i)) t.
Proof.
  intros Hk Hl Hd Hp Hpt Hr. set (n := Z.to_nat ATH_RXDESC) in *.
  eapply wp_mono; [apply (wp_for_each_acc (λ dn t', ∃ r descs, room r (12 * (ATH_RXDESC - Z.of_nat (length dn)) + k) ∧
    t' = set_nb (with_ram r (sc_nb (tg_sc t))) t <| rx_descs := descs |> <| sc_rxdesc := dn |> ∧
    length descs = n ∧ ∀ i d, i ∈ dn → descs !! i = Some d → fresh d = (0, desc_addr paddr i)))|].
  - intros dn i rest t1 Es (r & descs & Hr1 & -> & Hlen & Hfr).
    assert ((i < n)%nat ∧ Z.of_nat (length dn) < ATH_RXDESC) as [Hi Hdn].
    { assert (i ∈ seq 0 n) as Hin by (rewrite Es; set_solver). apply elem_of_seq in Hin. split; [lia|].
      apply (f_equal length) in Es. rewrite length_seq, length_app in Es. cbn in Es. unfold n, ATH_RXDESC in *. lia. }
    eapply wp_mono; [eapply (rxdesc_setup_spec paddr i (sc_nb (tg_sc t)) r
      (12 * (ATH_RXDESC - Z.of_nat (length (dn ++ [i]))) + k)); [cbn; by rewrite Hlen|done| |]|].
    + rewrite length_app. cbn. lia.
    + eapply room_le; [|exact Hr1]. rewrite length_app. cbn. lia.
    + intros _ t2 (r' & descs' & Hr' & -> & Hlen' & Hfr'). exists r', descs'. split; [done|]. split; [|split].
      * by destruct t as [[]].
      * rewrite Hlen'. cbn. done.
      * intros j d Hj Hjd. specialize (Hfr' j). rewrite Hjd in Hfr'. cbn in Hfr'. case_decide as Hij.
        { subst j. by apply (inj Some) in Hfr'. }
        cbn in Hfr'. destruct (descs !! j) as [d0|] eqn:Hd0; [|done]. apply (inj Some) in Hfr' as ->.
        apply (Hfr j); [set_solver|done].
  - exists (nb_ram (sc_nb (tg_sc t))), (rx_descs t). split; [eapply room_le; [|exact Hr]; cbn; lia|].
    split; [|split; [done|set_solver]]. rewrite <-Hd. by destruct t as [[[]]].
  - intros _ t' (r & descs & Hr' & -> & Hlen & Hfr). exists r, descs. split; [|split; [done|split; [done|]]].
    + eapply room_le; [|exact Hr']. rewrite length_seq. unfold n, ATH_RXDESC. lia.
    + intros i d Hid. apply (Hfr i); [|done]. apply elem_of_seq. apply lookup_lt_Some in Hid. lia.
Qed.

Lemma alloc_rx_spec t k :
  0 <= k → room (nb_ram (sc_nb (tg_sc t))) (setup_demand 20 1 sizeof_rx_buf RX_DESC_SIZE + (240 + k)) →
  wp (alloc_rx junk_rxd) (λ _ t', rx_lists t' ∧ ram_left t t' k) t.
Proof.
  intros Hk Hr.
  destruct (setup_room 20 1 sizeof_rx_buf RX_DESC_SIZE (sc_nb (tg_sc t)) (240 + k)) as (a & r & E & Ha & Hr1);
    [lia|done|done|exact Hr|].
  unfold alloc_rx. apply wp_bind. eapply wp_tnb_ok; [exact E|]. apply wp_bind, wp_modify.
  eapply wp_mono; [apply (rx_loop_spec a _ k); [done|reflexivity|done|done|done|exact Hr1]|].
  intros _ t' (r' & descs & Hr' & -> & Hlen & Hfr). split; [by split|].
  exists r'. by split.
Qed.

(** The transmit side leaves the receive side alone. *)
Definition rx_side t := (rx_bufs t, sc_rxbuf t, rx_descs t, rx_desc_paddr t, sc_rxdesc t, sc_rxdesc_idle t).
Lemma rx_side_lists t t' : rx_side t' = rx_side t → rx_lists t → rx_lists t'.
Proof.
  intros E [H1 H2 H3 H4 H5 H6 H7]. injection E as E1 E2 E3 E4 E5 E6. split; rewrite ?E1, ?E2, ?E3, ?E4, ?E5, ?E6; done.
Qed.
Lemma alloc_tx_spec nbuf t k :
  0 <= k → Z.of_nat nbuf < 1000 → (0 < nbuf)%nat →
  room (nb_ram (sc_nb (tg_sc t))) (setup_demand nbuf ATH_TXDESC sizeof_tx_buf TX_DESC_SIZE + k) →
  wp (alloc_tx junk_txd nbuf) (λ l t', l = seq (length (sc_bufs (tg_sc t))) nbuf ∧ rx_side t' = rx_side t ∧
    length (sc_bufs (tg_sc t')) = (length (sc_bufs (tg_sc t)) + nbuf)%nat ∧ ram_left t t' k) t.
Proof.
  intros Hk Hn Hpos Hr.
  destruct (setup_room nbuf ATH_TXDESC sizeof_tx_buf TX_DESC_SIZE (sc_nb (tg_sc t)) k) as (a & r & E & Ha & Hr1);
    [lia|unfold ATH_TXDESC, TX_DESC_SIZE; lia|unfold sizeof_tx_buf; lia|exact Hr|].
  unfold alloc_tx. apply wp_bind. eapply wp_tnb_ok; [exact E|]. apply wp_bind, wp_gets. apply wp_bind, wp_modify.
  apply wp_ret. split; [done|]. split; [done|]. split; [|by exists r].
  cbn. by rewrite length_app, length_map, length_seq.
Qed.
Lemma ram_left_trans t1 t2 t3 k1 k2 : ram_left t1 t2 k1 → ram_left t2 t3 k2 → ram_left t1 t3 k2.
Proof. intros (r1 & E1 & _) (r2 & E2 & H2). exists r2. split; [by rewrite E2, E1|done]. Qed.

Lemma ath_desc_alloc_spec t k :
  0 <= k →
  room (nb_ram (sc_nb (tg_sc t)))
    (setup_demand 20 1 sizeof_rx_buf RX_DESC_SIZE + (240 +
     (setup_demand 46 ATH_TXDESC sizeof_tx_buf TX_DESC_SIZE +
      (setup_demand 1 ATH_TXDESC sizeof_tx_buf TX_DESC_SIZE + k)))) →
  wp (ath_desc_alloc junk_rxd junk_txd) (λ r t', r = 0 ∧ rx_lists t' ∧ ram_left t t' k) t.
Proof.
  intros Hk Hr. unfold ath_desc_alloc.
  set (d1 := setup_demand 1 ATH_TXDESC sizeof_tx_buf TX_DESC_SIZE) in *.
  set (d46 := setup_demand 46 ATH_TXDESC sizeof_tx_buf TX_DESC_SIZE) in *.
  assert (0 <= d1 ∧ 0 <= d46) as [Hd1 Hd46] by done.
  apply wp_bind. eapply wp_mono; [apply (alloc_rx_spec t (d46 + (d1 + k))); [lia|exact Hr]|].
  intros _ t1 [Hl1 (r1 & E1 & Hr1)].
  apply wp_bind. eapply wp_mono; [apply (alloc_tx_spec 46 t1 (d1 + k)); [lia|lia|lia|by rewrite E1]|].
  intros tl t2 (-> & Hs2 & Hlen2 & (r2 & E2 & Hr2)). apply wp_bind, wp_modify.
  apply wp_bind. eapply wp_mono; [apply (alloc_tx_spec 1 _ k); [lia|lia|lia|cbn; by rewrite E2]|].
  intros bl t3 (-> & Hs3 & Hlen3 & (r3 & E3 & Hr3)). apply wp_bind, wp_modify. cbn in Hlen3.
  cbn [seq head tail]. apply wp_bind, (wp_deref _ _ _ _ eq_refl).
  destruct (lookup_lt_is_Some_2 (sc_bufs (tg_sc t3)) (length (sc_bufs (tg_sc t1)))) as [b Hb]; [lia|].
  apply wp_bind. eapply wp_ok; [by unfold tx, upd_bfs; rewrite (run_upd_bf _ _ _ _ Hb)|].
  apply wp_bind, wp_modify, wp_ret. split; [done|]. split.
  - eapply rx_side_lists; [|exact Hl1]. rewrite <-Hs2. transitivity (rx_side t3); [by destruct t3 as [[]]|].
    rewrite Hs3. by destruct t2 as [[]].
  - exists r3. split; [|done]. transitivity (sc_nb (tg_sc t3)); [by destruct t3 as [[]]|]. rewrite E3. cbn. rewrite E2, E1. done.
Qed.

(** What the lists and the pool take of the arena. *)
Definition reception_demand : Z :=
  setup_demand 20 1 sizeof_rx_buf RX_DESC_SIZE + (240 +
  (setup_demand 46 ATH_TXDESC sizeof_tx_buf TX_DESC_SIZE +
  (setup_demand 1 ATH_TXDESC sizeof_tx_buf TX_DESC_SIZE + A_ROUND_UP 1664 4 * ATH_RXBUF))).
(** The part of [ath_tgt_attach] that sets the lists and the pool up, then the command that
    starts reception. *)
Definition attach_and_start : M (tgt HW RC) Z :=
  ath_desc_alloc junk_rxd junk_txd ;;
  tnb (_buf_pool_static_create_pool POOL_ID_WLAN_RX_BUF ATH_RXDESC 1664) ;;
  ath_startrecv.

Lemma rx_lists_cold t pool free :
  rx_lists t → rx_heap (view (sc_nb (tg_sc t))) [] [] pool free [] → rx_cold t 0 (seq 1 19) pool free [].
Proof.
  intros [H1 H2 H3 H4 H5 H6 H7] Hh. split; [done| |rewrite H4|done| |..|done].
  - change (NoDup (seq 0 20)). apply NoDup_seq.
  - by repeat constructor.
  - intros i d Hd. by apply H5 in Hd as [= _ ?].
  - apply Forall_forall. intros i _. unfold desc_nbuf. destruct (rx_descs t !! i) as [d|] eqn:Hd; [|done].
    by apply H5 in Hd as [= ? _].
Qed.

Lemma seq_split_19 armed held rest :
  armed ++ held :: rest = seq 0 20 → length armed = 19%nat → armed = seq 0 19 ∧ held = 19%nat ∧ rest = [].
Proof.
  change (seq 0 20) with (seq 0 19 ++ [19%nat]). intros E Hl.
  apply app_inj_1 in E as [-> [= -> ->]]; [done|by rewrite Hl].
Qed.
Lemma started_state t t' armed held pool free :
  rx_lists t → ring (rview t') armed held [] [] pool free [] → Forall (pending (rx_descs t')) armed →
  armed ++ [held] = seq 0 20 → lists_kept t t' → rx_store_kept t t' →
  rx_state t' armed held [] pool free [] (seq 0 20) [].
Proof.
  intros [H1 H2 H3 H4 H5 H6 H7] Hr Hp Ha [Hd Hi] (Hb & Hl & Hn). split; cbn [app].
  - split; [done|by rewrite Hd, H1|by rewrite Hi].
  - by destruct armed.
  - by rewrite Hl.
  - apply NoDup_seq.
  - by rewrite Hn, H4.
  - rewrite Hb, H6. by repeat constructor.
  - constructor.
  - apply Forall_forall. intros i _. unfold done_at. rewrite Hb, H6.
    destruct (replicate _ _ !! i) as [b|] eqn:E; [|done]. by apply lookup_replicate in E as [-> _].
Qed.

(** C7: with the vbufs, vdescs and the room in the boot arena that they take, setting up the
    lists and the pool of receive buffers and then starting reception succeeds, and leaves the
    receive path in the state its interrupt handler keeps: the first 19 descriptors with the
    chip in order, each with a buffer of its own and none complete, the last one held back,
    and all 20 buffers for the host empty. *)
Theorem reception_from_boot t fs free ds dfree :
  room (nb_ram (sc_nb (tg_sc t))) reception_demand →
  rx_heap (view (sc_nb (tg_sc t))) [] [] [] (fs ++ free) [] →
  free_descs (sc_nb (tg_sc t)) (ds ++ dfree) [] →
  length fs = Z.to_nat ATH_RXBUF → length ds = Z.to_nat ATH_RXBUF →
  ∃ t' pool, attach_and_start t = Ok (0, t') ∧
    rx_state t' (seq 0 19) 19 [] pool free [] (seq 0 20) [] ∧
    Forall (pending (rx_descs t')) (seq 0 19).
Proof.
  intros Hr Hh Hd Hf Hds. set (n := sc_nb (tg_sc t)) in *.
  destruct (wp_run _ _ _ (ath_desc_alloc_spec t (A_ROUND_UP 1664 4 * ATH_RXBUF) ltac:(done) Hr))
    as (z & t1 & E1 & -> & Hl & r & En & Hr1).
  destruct (create_pool_spec fs 1664 (seq 0 20) (with_ram r n) 0 [] free [] ds dfree) as (n2 & E2 & Hh2 & _);
    [done|by destruct Hd|by rewrite Hf|by rewrite Hds|done..| |].
  { eapply room_le; [|exact Hr1]. by vm_compute. }
  assert (tnb (_buf_pool_static_create_pool POOL_ID_WLAN_RX_BUF ATH_RXDESC 1664) t1 = Ok (tt, set_nb n2 t1)) as E2'
    by (apply run_tnb; rewrite En; exact E2).
  assert (rx_lists (set_nb n2 t1)) as Hl2 by by destruct Hl.
  destruct (startrecv_run _ _ _ _ _ _ (rx_lists_cold _ _ _ Hl2 Hh2))
    as (t' & armed & held & rest & pool' & E3 & Ea & Hn & Hr3 & Hp & Hk & Hst & _).
  assert (length (rev fs ++ []) = 20%nat) as Hlen by by rewrite length_app, length_rev, Hf.
  rewrite Hlen in E3, Hn. cbn in Hn.
  destruct (seq_split_19 armed held rest) as (-> & -> & ->); [done|done|].
  exists t', pool'. split; [|split; [by eapply started_state|done]].
  unfold attach_and_start. by rewrite (bind_ok _ _ _ _ _ E1), (bind_ok _ _ _ _ _ E2').
Qed.
End lists.
