(* ===== verification/IfSample.v ===== *)
(** * A small receive state

    The concrete state the witnesses of the receive path evaluate: four descriptors and four
    receive buffers, a pool of four, two free buffer headers, two buffers for replies. *)

From S2P Require Import Prelude.
From S2P Require Import NBufProps.
From S2P Require Import TxTypes.
From S2P Require Import TxSample.
From S2P Require Import Tasklet.
From S2P Require Import TxInv.
From S2P Require Import IfTypes.
From S2P Require Import IfRecv.
From S2P Require Import IfCmd.
From S2P Require Import IfWmi.
From S2P Require Import IfSteps.
From S2P Require Import IfHeap.
From S2P Require Import IfRing.
From S2P Require Import IfTrig.
From S2P Require Import IfFrames.
From S2P Require Import IfSend.
From S2P Require Import IfStart.
From S2P Require Import IfReturn.
From S2P Require Import IfInit.
From S2P Require Import IfBoot.

Definition rx_nb : nb_state :=
  mk_nb_state (mk_allocram 0 0)
    (list_to_map [(100, mk_VBUF 400 132 0 []); (132, mk_VBUF 440 164 0 []);
                  (164, mk_VBUF 480 196 0 []); (196, mk_VBUF 520 0 0 []);
                  (228, mk_VBUF 0 260 0 []); (260, mk_VBUF 0 0 0 []);
                  (292, mk_VBUF 560 324 0 (replicate 8 0)); (324, mk_VBUF 600 0 0 (replicate 8 0))])
    (list_to_map (map (λ i, (400 + 40 * i, mk_VDESC 0 (10000 + 2000 * i) 1664 0 0 0 [])) (seqZ 0 6)))
    228 2 0 [0; 292; 0; 100; 0; 0; 0; 0; 0; 0].
Definition rx_hw0 : ath_rx_desc := mk_rx_desc 0 0 0 0 0 0 0 0 0 0.
Definition rx_st0 : ath_rx_status := mk_rx_status 0 0 0 0 0 0 0 0 0 0 0 0 0 0 0 0 0 0 0 0.
Definition rx_desc0 (i : Z) : rx_desc := mk_rxd 0 0 rx_hw0 0 0 (50000 + 84 * i).

Definition cold_sample : tgt (gmap Z Z) unit :=
  mk_tgt (tx_sample [] <| sc_nb := rx_nb |>) false 9 0 4 (mk_ints 0 0 0 0 0 0) (mk_rxs 0 0 0)
    (replicate 256 0xff) (replicate 4 (mk_rxbuf 0 adf_nbuf_queue_init 0 0 rx_st0)) [0; 1; 2; 3]%nat
    (map rx_desc0 (seqZ 0 4)) 50000 [0; 1; 2; 3]%nat [] None None [] [] 0 0 None 0
    (mk_eps 1 2 3 4 5 6 7 8 9) true 0 (mk_tctx None (λ _, mk_tasklet A_TASKLET_STATE_DISABLE None)).
(** The chain of a concrete list, link by link. *)
Ltac lchain_now := repeat (split_and!; [reflexivity|discriminate|eexists; split; [reflexivity|]]); reflexivity.

Lemma rx_cold_sample : rx_cold cold_sample 0%nat [1; 2; 3]%nat [100; 132; 164; 196] [228; 260] [].
Proof.
  split.
  - reflexivity.
  - apply (bool_decide_unpack _). vm_compute. exact I.
  - apply (bool_decide_unpack _). vm_compute. exact I.
  - done.
  - intros i d Hi. do 4 (destruct i as [|i]; [injection Hi as <-; reflexivity|]). done.
  - apply (bool_decide_unpack _). vm_compute. exact I.
  - split.
    + exists 100. split; [reflexivity|]. cbn [lchain]. lchain_now.
    + cbn [lchain]. lchain_now.
    + apply (bool_decide_unpack _). vm_compute. exact I.
    + apply (bool_decide_unpack _). vm_compute. exact I.
    + cbn. repeat constructor; try discriminate; eexists; (split; [reflexivity|split; [discriminate|reflexivity]]).
    + constructor.
    + constructor.
Qed.

Lemma ath_startrecv_arms_witness :
  ∃ t' armed held rest pool', ath_startrecv cold_sample = Ok (0, t') ∧
    armed ++ held :: rest = [0; 1; 2; 3]%nat ∧ length armed = 3%nat ∧
    ring (rview t') armed held rest [] pool' [228; 260] [] ∧
    ah_hw (sc_hal (tg_sc t')) = started_hw true 50000 0 (armed_hw 50000 [] armed (ah_hw (sc_hal (tg_sc cold_sample)))).
Proof.
  destruct (ath_startrecv_arms _ _ _ _ _ _ rx_cold_sample) as
    (t' & armed & held & rest & pool' & E & Ea & Hn & Hr & _ & _ & _ & Hw).
  exists t', armed, held, rest, pool'. exact (conj E (conj Ea (conj Hn (conj Hr Hw)))).
Defined.

(** Reception started: three descriptors are with the chip, the fourth is held back. *)
Definition ready_sample : tgt (gmap Z Z) unit :=
  match ath_startrecv cold_sample with Ok (_, t) => t | Fault _ => cold_sample end.
Lemma rx_ready_sample :
  ∃ pool, rx_state ready_sample [0; 1; 2]%nat 3%nat [] pool [228; 260] [] [0; 1; 2; 3]%nat [].
Proof.
  destruct (startrecv_run _ _ _ _ _ _ rx_cold_sample)
    as (t' & armed & held & rest & pool' & E & Ea & Hn & Hr & _ & [Hl1 Hl2]).
  assert (t' = ready_sample) as -> by (unfold ready_sample; by rewrite E).
  assert (armed = [0; 1; 2]%nat ∧ held = 3%nat ∧ rest = []) as (-> & -> & ->).
  { clear -Ea Hn. destruct armed as [|x [|y [|z [|? ?]]]]; try discriminate Hn. by injection Ea as -> -> -> -> ->. }
  clear E. exists pool'. split.
  - split; [exact Hr|by vm_compute|by vm_compute].
  - discriminate.
  - by vm_compute.
  - apply (bool_decide_unpack _). vm_compute. exact I.
  - apply (bool_decide_unpack _). vm_compute. exact I.
  - apply (bool_decide_unpack _). vm_compute. exact I.
  - constructor.
  - apply (bool_decide_unpack _). vm_compute. exact I.
Qed.

(** The chip completes a frame of one buffer in descriptor 0 and one of two in 1 and 2. *)
Definition complete (more : Z) (d : rx_desc) : rx_desc :=
  d <| rd_hw ::= λ w, w <| ds_rxstatus1 := more .| 60 |> <| ds_rxstatus8 := AR_RxDone .| AR_RxFrameOK |> |>.
Definition chip_sample : list rx_desc :=
  alter (complete 0) 0%nat (alter (complete AR_RxMore) 1%nat (alter (complete 0) 2%nat (rx_descs ready_sample))).
Lemma chip_wrote_sample : chip_wrote (rx_descs ready_sample) chip_sample.
Proof. unfold chip_wrote. vm_compute. repeat constructor. Qed.


(** Both frames go to the host; there was one buffer left, so two descriptors wait for
    buffers. *)
Example rx_round_sends :
  match ath_uapsd_processtriggers (ready_sample <| rx_descs := chip_sample |>) with
  | Ok (_, t1) =>
      match ath_tgt_rx_tasklet t1 with
      | Ok (_, t2) => (sc_host (tg_sc t2), sc_rxdesc t2, sc_rxdesc_idle t2, sc_rxbuf t2)
      | Fault _ => ([], [], [], [])
      end
  | Fault _ => ([], [], [], [])
  end = ([RX_EVENT 228; RX_EVENT 100], [3; 0]%nat, [1; 2]%nat, [2; 3; 0; 1]%nat).
Proof. vm_compute. reflexivity. Qed.

(** The state between: two frames in receive buffers. *)
Definition busy_sample : tgt (gmap Z Z) unit :=
  match ath_uapsd_processtriggers (ready_sample <| rx_descs := chip_sample |>) with
  | Ok (_, t) => t | Fault _ => cold_sample end.
Lemma rx_busy_sample :
  ∃ armed held idle pool free, rx_state busy_sample armed held idle pool free [0; 1]%nat [2; 3]%nat [].
Proof.
  destruct rx_ready_sample as (pool & HS).
  destruct (processtriggers_walked _ _ _ _ _ _ _ _ (rx_state_chip _ _ _ _ _ _ _ _ _ _ HS chip_wrote_sample))
    as (t' & armed & held & idle & pool' & free & ? & ? & ? & got & todo & E & HS' & _ & _ & Ht & _); [discriminate|].
  assert (t' = busy_sample) as -> by (unfold busy_sample; by rewrite E).
  exists armed, held, idle, pool', free. pose proof (rx_done _ _ _ _ _ _ _ _ _ HS') as Hd.
  pose proof (rx_todo _ _ _ _ _ _ _ _ _ HS') as Hn. clear E HS.
  assert (got = [0; 1]%nat ∧ todo = [2; 3]%nat) as [-> ->]; [|exact HS'].
  assert (∀ i, i ∈ todo → done_at busy_sample i = false) as Hn' by (by rewrite <-Forall_forall).
  assert (∀ i, i ∈ got → done_at busy_sample i = true) as Hd' by (by rewrite <-Forall_forall).
  assert (done_at busy_sample 0 = true ∧ done_at busy_sample 1 = true ∧ done_at busy_sample 2 = false)
    as (H0 & H1 & H2) by by vm_compute.
  clear -Ht Hn' Hd' H0 H1 H2. revert Hn' Hd' H0 H1 H2. generalize (done_at busy_sample). intros d Hn Hd H0 H1 H2.
  destruct got as [|i [|j [|k got]]]; cbn in Ht.
  - subst todo. specialize (Hn 0%nat ltac:(left)). congruence.
  - injection Ht as <- <-. specialize (Hn 1%nat ltac:(left)). congruence.
  - by injection Ht as <- <- <-.
  - injection Ht as <- <- <- _. specialize (Hd 2%nat ltac:(right; right; left)). congruence.
Qed.
Lemma ath_tgt_rx_tasklet_sends_all_witness :
  ∃ t', ath_tgt_rx_tasklet busy_sample = Ok (tt, t') ∧ sc_host (tg_sc t') = [RX_EVENT 228; RX_EVENT 100].
Proof.
  destruct rx_busy_sample as (armed & held & idle & pool & free & HS).
  destruct (ath_tgt_rx_tasklet_sends_all _ _ _ _ _ _ _ _ _ HS) as (t' & E & _ & Hh & _).
  exists t'. split; [exact E|]. rewrite Hh. vm_compute. reflexivity.
Defined.

Lemma ath_extend_tsf_nearest_witness :
  ∃ r, ath_extend_tsf 5 (cold_sample <| tg_sc ::= λ s, s <| sc_hal ::= λ h, h <| ah_hw := <[AR_TSF_U32 := 1]> ∅ |> |> |>)
       = Ok (r, cold_sample <| tg_sc ::= λ s, s <| sc_hal ::= λ h, h <| ah_hw := <[AR_TSF_U32 := 1]> ∅ |> |> |>) ∧
    u32 r = 5.
Proof.
  destruct (ath_extend_tsf_nearest (cold_sample <| tg_sc ::= λ s, s <| sc_hal ::= λ h, h <| ah_hw := <[AR_TSF_U32 := 1]> ∅ |> |> |>)
    5 4294967296 (sc_hal (tg_sc (cold_sample <| tg_sc ::= λ s, s <| sc_hal ::= λ h, h <| ah_hw := <[AR_TSF_U32 := 1]> ∅ |> |> |>))))
    as (r & E & Hm & _); [by vm_compute|lia|lia|].
  exists r. split; [|exact Hm]. rewrite E. reflexivity.
Defined.

(** ** Frames taken by the host *)

(** The state after both frames of [chip_sample] were sent. *)
Definition sent_sample : tgt (gmap Z Z) unit :=
  match (ath_uapsd_processtriggers ;; ath_tgt_rx_tasklet) (ready_sample <| rx_descs := chip_sample |>) with
  | Ok (_, t) => t | Fault _ => cold_sample end.
Definition sent_view : ring_view := Eval vm_compute in rview sent_sample.
Lemma rview_sent : rview sent_sample = sent_view.
Proof. vm_compute. reflexivity. Qed.
Lemma ring_sent_view : ring sent_view [3]%nat 0%nat [1; 2]%nat [] [] [164; 132; 260] [100; 228].
Proof.
  split.
  - reflexivity.
  - apply (bool_decide_unpack _). vm_compute. exact I.
  - apply (bool_decide_unpack _). vm_compute. exact I.
  - reflexivity.
  - intros i d Hi. do 4 (destruct i as [|i]; [injection Hi as <-; reflexivity|]). done.
  - cbn. done.
  - reflexivity.
  - apply (bool_decide_unpack _). vm_compute. exact I.
  - split.
    + exists 0. done.
    + cbn [lchain]. lchain_now.
    + apply (bool_decide_unpack _). vm_compute. exact I.
    + apply (bool_decide_unpack _). vm_compute. exact I.
    + apply List.Forall_cons; [|constructor]. split; [discriminate|].
      eexists. split; [reflexivity|split; [discriminate|reflexivity]].
    + apply List.Forall_cons; [reflexivity|constructor].
    + repeat (apply List.Forall_cons; [split; [discriminate|]; eexists; split; [reflexivity|by eexists]|]). constructor.
Qed.
Lemma rring_sent_sample : rring sent_sample [3]%nat 0%nat [1; 2]%nat [] [] [164; 132; 260] [100; 228].
Proof.
  split; [rewrite rview_sent; exact ring_sent_view|..]; vm_compute; reflexivity.
Qed.
Lemma made_of_sample :
  made_of (sc_nb (tg_sc sent_sample)) (map (desc_nbuf (rx_descs sent_sample)) [3%nat] ++ []) 100 [440; 480].
Proof.
  split.
  - eexists. split; [vm_compute; reflexivity|]. cbn [lchain desc_list].
    repeat (split_and!; [reflexivity|discriminate|eexists; split; [vm_compute; reflexivity|]]). reflexivity.
  - assert (map (desc_of (view (sc_nb (tg_sc sent_sample)))) (map (desc_nbuf (rx_descs sent_sample)) [3%nat] ++ [])
            = [520]) as -> by (vm_compute; reflexivity).
    intros x Hx Hin. set_unfold in Hin. set_unfold in Hx. lia.
Qed.
(** The frame of two buffers comes back: the two descriptors that waited join the list. *)
Lemma ath_rx_complete_rearms_witness :
  ∃ t' armed' held', ath_rx_complete 100 sent_sample = Ok (tt, t') ∧
    armed' ++ [held'] = [3; 0; 1; 2]%nat ∧ rring t' armed' held' [] [] [] [100; 260] [228].
Proof.
  destruct (ath_rx_complete_rearms _ _ _ _ _ [164; 132] [260] _ _ _ rring_sent_sample made_of_sample)
    as (t' & armed' & held' & E & Ha & Hr & _); [reflexivity|done|].
  exists t', armed', held'. exact (conj E (conj Ha Hr)).
Defined.
(** Then the other frame of the host: no descriptor waits any more, its buffer is lost. *)
Example last_frame_lost :
  match (ath_rx_complete 100 ;; ath_rx_complete 228) sent_sample with
  | Ok (_, t) => (bufQ (sc_nb (tg_sc t)) !! POOL_ID_WLAN_RX_BUF, sc_rxdesc t, sc_rxdesc_idle t, sc_rxdesc_held t)
  | Fault _ => (None, [], [], None)
  end = (Some 0, [3; 0; 1; 2]%nat, [], Some 2%nat).
Proof. vm_compute. reflexivity. Qed.

(** ** A run *)

#[export] Instance const_admin : RateAdmin unit := {|
  rate_newstate _ _ _ _ _ := mret tt; rate_node_update _ _ _ _ _ := mret tt |}.

Lemma cold_typed : sc_ok (tg_sc cold_sample).
Proof.
  assert (∀ q i, tid_ok (tx_tid q i)) as Ht by (intros q i; split; [done| |cbn; lia..];
    cbn; repeat (apply List.Forall_cons; [done|]); apply List.Forall_nil).
  split.
  - apply Forall_forall. intros n (i & -> & _)%list_elem_of_fmap. split; try done.
    apply Forall_forall. intros x (j & -> & _)%list_elem_of_fmap. apply Ht.
  - apply map_Forall_empty.
  - cbn. repeat (apply List.Forall_cons; [done|]). apply List.Forall_nil.
  - done.
  - cbn. repeat (apply List.Forall_cons; [done|]). apply List.Forall_nil.
  - done.
Qed.

(** The host asks for the version, starts reception, asks for the version again. *)
Definition version_cmd : Z * (Z → Z → Z → Z → M (tgt (gmap Z Z) unit) unit) := (0x03, ath_get_tgt_version).
Definition start_cmd : Z * (Z → Z → Z → Z → M (tgt (gmap Z Z) unit) unit) := (0x0c, ath_startrecv_tgt).
Definition end_of (m : M (tgt (gmap Z Z) unit) unit) (t : tgt (gmap Z Z) unit) : tgt (gmap Z Z) unit :=
  match m t with Ok (_, t') => t' | Fault _ => t end.
Definition ends (m : M (tgt (gmap Z Z) unit) unit) (t : tgt (gmap Z Z) unit) : bool :=
  match m t with Ok _ => true | Fault _ => false end.
Lemma ends_ok m t : ends m t = true → m t = Ok (tt, end_of m t).
Proof. unfold ends, end_of. by destruct (m t) as [[[] t']|]. Qed.
Definition run_1 : tgt (gmap Z Z) unit := end_of (version_cmd.2 3 7 0 0) cold_sample.
Definition run_2 : tgt (gmap Z Z) unit := end_of (start_cmd.2 12 8 0 0) run_1.
(** The host has taken the first answer: its buffer is back. *)
Definition run_3 : tgt (gmap Z Z) unit :=
  devices (sc_hal (tg_sc run_2)) (sc_nb (tg_sc run_2) <| bufQ ::= <[1%nat := 292]> |>) ∅ ∅ (rx_descs run_2) run_2.
Lemma run_sample_runs : ∃ t', tgt_run 5 [(3, 7); (12, 8); (3, 9)] cold_sample t'.
Proof.
  exists (end_of (version_cmd.2 3 9 0 0) run_3).
  apply (run_more _ [(3, 7); (12, 8)] [(3, 9)] _ run_3).
  { apply (run_more _ [(3, 7); (12, 8)] [] _ run_2).
    { apply (run_more _ [(3, 7)] [(12, 8)] _ run_1).
      - apply (run_more _ [] [(3, 7)] _ cold_sample); [constructor|].
        apply (step_command _ version_cmd _ 0 0);
          [do 2 apply list_elem_of_further; apply list_elem_of_here|done|apply ends_ok; by vm_compute].
      - apply (step_command _ start_cmd _ 0 0);
          [do 11 apply list_elem_of_further; apply list_elem_of_here|done|apply ends_ok; by vm_compute]. }
    apply step_devices; [apply map_Forall_empty|done]. }
  apply (step_command _ version_cmd _ 0 0);
    [do 2 apply list_elem_of_further; apply list_elem_of_here|done|apply ends_ok; by vm_compute].
Qed.
Lemma run_keeps_types_witness : ∃ t', tgt_run 5 [(3, 7); (12, 8); (3, 9)] cold_sample t' ∧ sc_ok (tg_sc t').
Proof.
  destruct run_sample_runs as [t' H]. exists t'. split; [exact H|].
  exact (proj1 (run_keeps_types 5 _ _ _ H cold_typed)).
Defined.
Lemma run_answers_commands_witness :
  ∃ t', tgt_run 5 [(3, 7); (12, 8); (3, 9)] cold_sample t' ∧ answers_to (sc_host (tg_sc t')) = [(3, 7); (12, 8); (3, 9)].
Proof.
  destruct run_sample_runs as [t' H]. exists t'. split; [exact H|].
  exact (run_answers_commands 5 _ _ _ H).
Defined.

(** A heap as start-up makes it: 22 buffer headers and 21 descriptors out of an arena of
    64 KB. *)
Definition boot_nb : nb_state :=
  match (_vbuf_init (mk_VBUF 0 0 0 []) 22 ;; _vdesc_init (mk_VDESC 0 0 0 0 0 0 []) 21)
    (mk_nb_state (mk_allocram 0x500000 0x10000) ∅ ∅ 0 0 0 (replicate 10 0)) with
  | Ok (_, n) => n
  | Fault _ => rx_nb
  end.
Fixpoint walk (nxt : Z → option Z) (p : Z) (k : nat) : list Z :=
  match k with
  | O => []
  | S k => p :: match nxt p with Some q => walk nxt q k | None => [] end
  end.
Fixpoint lchainb (nxt : Z → option Z) (p : Z) (l : list Z) : bool :=
  match l with
  | [] => p =? 0
  | a :: l' => (p =? a) && negb (a =? 0) && match nxt a with Some q => lchainb nxt q l' | None => false end
  end.
Lemma lchainb_ok nxt l : ∀ p, lchainb nxt p l = true → lchain nxt p l.
Proof.
  induction l as [|a l IH]; intros p; cbn; [by intros ?%Z.eqb_eq|].
  rewrite !andb_true_iff, negb_true_iff, Z.eqb_eq, Z.eqb_neq. intros [[-> Ha] Hl].
  destruct (nxt a) as [q|]; [eauto 6|done].
Qed.
Definition boot_vbufs : list Z := walk (vnext boot_nb) (free_buf_head boot_nb) 22.
Definition boot_vdescs : list Z := walk (dnext boot_nb) (free_vdesc_head boot_nb) 21.
Definition boot_sample : tgt (gmap Z Z) unit := cold_sample <| tg_sc := tx_sample [] <| sc_nb := boot_nb |> |>.

Lemma boot_heap : rx_heap (view boot_nb) [] [] [] (take 20 boot_vbufs ++ drop 20 boot_vbufs) [].
Proof.
  rewrite take_drop. split; cbn [app map].
  - exists 0. by vm_compute.
  - apply lchainb_ok. by vm_compute.
  - apply (bool_decide_unpack _). vm_compute. exact I.
  - constructor.
  - constructor.
  - constructor.
  - constructor.
Qed.
Lemma reception_from_boot_witness :
  ∃ t' pool, attach_and_start (λ i, rx_desc0 (Z.of_nat i)) tx_desc boot_sample = Ok (0, t') ∧
    rx_state t' (seq 0 19) 19 [] pool (drop 20 boot_vbufs) [] (seq 0 20) [] ∧
    Forall (pending (rx_descs t')) (seq 0 19).
Proof.
  apply (reception_from_boot _ _ boot_sample (take 20 boot_vbufs) _ (take 20 boot_vdescs) (drop 20 boot_vdescs)).
  - split; [by vm_compute|by vm_compute|by vm_compute].
  - exact boot_heap.
  - rewrite take_drop. split; [apply lchainb_ok; by vm_compute|]. intros x _. apply not_elem_of_nil.
  - by vm_compute.
  - by vm_compute.
Defined.
