(* ===== verification/RateSort.v ===== *)
(** * Rate control: the order of the valid rates

    The rules for the accessors of a node's control record, and the sort of its valid
    rates: a bubble sort on the prefix in use. *)

From Stdlib Require Import Sorted.
From S2P Require Import Prelude.
From S2P Require Import TxTypes.
From S2P Require Import RateCtl.

(** ** Running the accessors *)
Section access.
Implicit Type p : TX_RATE_CTRL.

Lemma wp_rd_valid i v (Q : Z → TX_RATE_CTRL → Prop) p :
  0 <= i → validRateIndex p !! Z.to_nat i = Some v → Q v p → wp (rd_valid i) Q p.
Proof.
  intros Hi Hv HQ. unfold rd_valid. wp_steps. destruct (Z.ltb_spec i 0); [lia|].
  by eapply wp_in_range.
Qed.
Lemma wp_wr_valid i v (Q : unit → TX_RATE_CTRL → Prop) p :
  0 <= i < Z.of_nat (length (validRateIndex p)) →
  Q tt (p <| validRateIndex ::= <[Z.to_nat i := v]> |>) → wp (wr_valid i v) Q p.
Proof.
  intros Hi HQ. unfold wr_valid. wp_step.
  destruct (lookup_lt_is_Some_2 (validRateIndex p) (Z.to_nat i)) as [x Hx]; [lia|].
  apply (wp_rd_valid _ x); [lia|done|]. by wp_steps.
Qed.
Lemma wp_rd_per i v (Q : Z → TX_RATE_CTRL → Prop) p :
  0 <= i → rc_per p !! Z.to_nat i = Some v → Q v p → wp (rd_per i) Q p.
Proof.
  intros Hi Hv HQ. unfold rd_per. wp_steps. destruct (Z.ltb_spec i 0); [lia|].
  by eapply wp_in_range.
Qed.
Lemma wp_wr_per i v (Q : unit → TX_RATE_CTRL → Prop) p :
  0 <= i < Z.of_nat (length (rc_per p)) →
  Q tt (p <| rc_per ::= <[Z.to_nat i := u8 v]> |>) → wp (wr_per i v) Q p.
Proof.
  intros Hi HQ. unfold wr_per. wp_step.
  destruct (lookup_lt_is_Some_2 (rc_per p) (Z.to_nat i)) as [x Hx]; [lia|].
  apply (wp_rd_per _ x); [lia|done|]. by wp_steps.
Qed.
Lemma wp_rd_info {S} t i r (Q : rc11n_info → S → Prop) s :
  0 <= i → rt_info t !! Z.to_nat i = Some r → Q r s → wp (rd_info t i) Q s.
Proof.
  intros Hi Hr HQ. unfold rd_info. destruct (Z.ltb_spec i 0); [lia|]. by eapply wp_in_range.
Qed.
End access.

Definition in_table (t : RATE_TABLE_11N) (i : Z) : Prop := 0 <= i < Z.of_nat (length (rt_info t)).
(** The speed of row [i]. *)
Definition kbps (t : RATE_TABLE_11N) (i : Z) : Z :=
  match rt_info t !! Z.to_nat i with Some r => rn_rateKbps r | None => 0 end.
Definition slower (t : RATE_TABLE_11N) (a b : Z) : Prop := kbps t a <= kbps t b.
#[export] Instance slower_trans t : Transitive (slower t).
Proof. intros a b c. unfold slower. lia. Qed.

Lemma in_table_row t i : in_table t i → ∃ r, rt_info t !! Z.to_nat i = Some r ∧ rn_rateKbps r = kbps t i.
Proof.
  intros Hi. destruct (lookup_lt_is_Some_2 (rt_info t) (Z.to_nat i)) as [r Hr];
    [unfold in_table in Hi; lia|].
  exists r. split; [done|]. unfold kbps. by rewrite Hr.
Qed.

(** ** One pass carries the fastest rate to the end *)
Fixpoint bubble (t : RATE_TABLE_11N) (x : Z) (l : list Z) : list Z :=
  match l with
  | [] => [x]
  | y :: l => if kbps t y <? kbps t x then y :: bubble t x l else x :: bubble t y l
  end.

Lemma bubble_perm t x l : bubble t x l ≡ₚ x :: l.
Proof.
  revert x. induction l as [|y l IH]; intros x; cbn; [done|].
  destruct (_ <? _); rewrite IH; [apply Permutation_swap|done].
Qed.
Lemma bubble_last t x l :
  ∃ l' m, bubble t x l = l' ++ [m] ∧ length l' = length l ∧ Forall (λ y, slower t y m) (x :: l).
Proof.
  revert x. induction l as [|y l IH]; intros x; cbn [bubble].
  { exists [], x. split_and!; [done..|]. repeat constructor. unfold slower. lia. }
  assert (∀ a b, slower t a b → ∃ l' m, a :: bubble t b l = l' ++ [m] ∧
    length l' = length (y :: l) ∧ Forall (λ z, slower t z m) (a :: b :: l)) as H.
  { intros a b Hab. destruct (IH b) as (l' & m & -> & Hl & Hm).
    exists (a :: l'), m. split_and!; [done|cbn; lia|]. constructor; [|done].
    apply Forall_cons in Hm as [Hb _]. by transitivity b. }
  destruct (Z.ltb_spec (kbps t y) (kbps t x)).
  - destruct (H y x) as (l' & m & -> & Hl & Hm); [unfold slower; lia|].
    exists l', m. split_and!; [done..|]. rewrite !Forall_cons in *. tauto.
  - apply H. done.
Qed.

Section sort.
Context (t : RATE_TABLE_11N).
Implicit Type p : TX_RATE_CTRL.

(** The inner loop, on the part [x :: l] of the array that starts at [j]. *)
Lemma sort_inner_spec l pre post x (Q : unit → TX_RATE_CTRL → Prop) p :
  Forall (in_table t) (x :: l) →
  validRateIndex p = pre ++ x :: l ++ post →
  Q tt (p <| validRateIndex := pre ++ bubble t x l ++ post |>) →
  wp (for_each (seqZ (Z.of_nat (length pre)) (Z.of_nat (length l))) (sort_step t)) Q p.
Proof.
  revert pre x p. induction l as [|y l IH]; intros pre x p Hin Hv HQ.
  { cbn in *. by rewrite <-Hv in HQ; destruct p. }
  apply Forall_cons in Hin as [Hx Hin]. pose proof Hin as [Hy Hl]%Forall_cons.
  destruct (in_table_row _ _ Hx) as (rx & Hrx & Ekx), (in_table_row _ _ Hy) as (ry & Hry & Eky).
  cbn [length]. rewrite Nat2Z.inj_succ, seqZ_cons by lia. cbn [for_each]. wp_step.
  assert (validRateIndex p !! length pre = Some x) as Hvx by (rewrite Hv; by apply list_lookup_middle).
  assert (validRateIndex p !! S (length pre) = Some y) as Hvy.
  { rewrite Hv. replace (S (length pre)) with (length pre + 1)%nat by lia.
    rewrite lookup_app_r by lia. by replace (length pre + 1 - length pre)%nat with 1%nat by lia. }
  assert (length pre + 1 < length (validRateIndex p))%nat as Hlen
    by (rewrite Hv, length_app; cbn; lia).
  unfold sort_step at 1. wp_step. apply (wp_rd_valid _ x); [lia|by rewrite Nat2Z.id|].
  wp_step. apply (wp_rd_valid _ y); [lia|by rewrite Z2Nat.inj_add, Nat2Z.id, Nat.add_1_r by lia|].
  wp_step. apply (wp_rd_info _ _ rx); [unfold in_table in Hx; lia|done|].
  wp_step. apply (wp_rd_info _ _ ry); [unfold in_table in Hy; lia|done|].
  rewrite Ekx, Eky. cbn [bubble] in HQ.
  replace (Z.succ (Z.of_nat (length pre))) with (Z.of_nat (length (pre ++ [x])))
    by (rewrite length_app; cbn; lia).
  rewrite Z.pred_succ. destruct (kbps t y <? kbps t x); cbn [when].
  - wp_step. apply wp_wr_valid; [lia|]. apply wp_wr_valid; [cbn; rewrite length_insert; lia|].
    replace (length (pre ++ [x])) with (length (pre ++ [y])) by (by rewrite !length_app).
    apply (IH (pre ++ [y]) x).
    + by constructor.
    + cbn. rewrite Hv. rewrite Z2Nat.inj_add, !Nat2Z.id by lia. cbn [app].
      rewrite insert_app_r_alt, Nat.sub_diag by lia. cbn.
      rewrite insert_app_r_alt by lia. replace (length pre + Z.to_nat 1 - length pre)%nat with 1%nat by lia.
      cbn. by rewrite <-app_assoc.
    + rewrite <-app_assoc. exact HQ.
  - wp_step. apply (IH (pre ++ [x]) y).
    + done.
    + rewrite Hv. by rewrite <-app_assoc.
    + rewrite <-app_assoc. exact HQ.
Qed.

(** The outer loop: the prefix [u] is still to be sorted, [v] is sorted and faster. *)
Lemma sort_outer_spec n u v post (Q : unit → TX_RATE_CTRL → Prop) p :
  length u = S n → Forall (in_table t) u →
  Sorted (slower t) v → Forall (λ b, Forall (λ a, slower t a b) u) v →
  validRateIndex p = u ++ v ++ post →
  (∀ l, l ≡ₚ u ++ v → Sorted (slower t) l → Q tt (p <| validRateIndex := l ++ post |>)) →
  wp (for_each (rev (seqZ 1 (Z.of_nat n))) (λ i, for_each (seqZ 0 i) (sort_step t))) Q p.
Proof.
  revert u v p. induction n as [|n IH]; intros u v p Hu Hin Hs Hf Hv HQ.
  - destruct u as [|x [|]]; try done. cbn.
    specialize (HQ (x :: v) ltac:(done)). destruct p; cbn in *. subst. apply HQ.
    constructor; [done|]. destruct v as [|b v]; constructor.
    apply Forall_cons in Hf as [Hf _]. by apply Forall_cons in Hf as [? _].
  - rewrite Nat2Z.inj_succ, <-Z.add_1_r, seqZ_app by lia. rewrite rev_app_distr. cbn [rev app].
    destruct u as [|x l]; [done|]. injection Hu as Hl.
    rewrite (seqZ_cons _ 1), (seqZ_nil _ (Z.pred 1)) by lia.
    replace (1 + Z.of_nat n) with (Z.of_nat (length l)) by lia.
    cbn [rev app for_each]. wp_step.
    apply (sort_inner_spec l [] (v ++ post) x); [done|exact Hv|].
    destruct (bubble_last t x l) as (l' & m & Hb & Hlen & Hm).
    pose proof (bubble_perm t x l) as Hp. rewrite Hb in Hp.
    cbn [app]. rewrite Hb. apply (IH l' (m :: v)).
    + lia.
    + rewrite <-Hp in Hin. by apply Forall_app in Hin as [? _].
    + constructor; [done|]. destruct v as [|b v]; constructor.
      apply Forall_cons in Hf as [Hf _]. rewrite <-Hp in Hf. apply Forall_app in Hf as [_ Hf].
      by apply Forall_cons in Hf as [? _].
    + constructor.
      * rewrite <-Hp in Hm. by apply Forall_app in Hm as [? _].
      * eapply Forall_impl; [exact Hf|]. intros b Hb'. cbv beta in Hb' |- *. rewrite <-Hp in Hb'. by apply Forall_app in Hb' as [? _].
    + cbn. by rewrite <-app_assoc.
    + intros l0 Hl0 Hs0. apply HQ; [|done]. rewrite Hl0.
      transitivity ((l' ++ [m]) ++ v); [by rewrite <-app_assoc|by rewrite Hp].
Qed.
End sort.

(** ** The whole sort *)

(** The rates in use: the first [maxValidRate] entries of the array. *)
Definition valid_rates (p : TX_RATE_CTRL) : list Z :=
  take (Z.to_nat (maxValidRate p)) (validRateIndex p).

Lemma valid_rates_put p l :
  length l = length (valid_rates p) → maxValidRate p <= Z.of_nat (length (validRateIndex p)) →
  valid_rates (p <| validRateIndex := l ++ drop (Z.to_nat (maxValidRate p)) (validRateIndex p) |>) = l.
Proof.
  intros Hl Hm. unfold valid_rates in *. cbn. rewrite length_take in Hl. apply take_app_length'. lia.
Qed.

Lemma sort_spec t p :
  1 <= maxValidRate p <= 46 → maxValidRate p <= Z.of_nat (length (validRateIndex p)) →
  Forall (in_table t) (valid_rates p) →
  ∃ l, rcSortValidRates t p = Ok (tt, p <| validRateIndex := l ++ drop (Z.to_nat (maxValidRate p)) (validRateIndex p) |>) ∧
    l ≡ₚ valid_rates p ∧ Sorted (slower t) l.
Proof.
  intros Hm Hlen Hin.
  assert (wp (rcSortValidRates t) (λ _ p', ∃ l,
    p' = p <| validRateIndex := l ++ drop (Z.to_nat (maxValidRate p)) (validRateIndex p) |> ∧
    l ≡ₚ valid_rates p ∧ Sorted (slower t) l) p) as ([] & p' & H & l & -> & Hl)%wp_run.
  { unfold rcSortValidRates. wp_steps. rewrite u8_small by lia.
    replace (maxValidRate p - 1) with (Z.of_nat (Z.to_nat (maxValidRate p - 1))) by lia.
    apply (sort_outer_spec t _ (valid_rates p) [] (drop (Z.to_nat (maxValidRate p)) (validRateIndex p))).
    - unfold valid_rates. rewrite length_take. lia.
    - done.
    - constructor.
    - constructor.
    - cbn. unfold valid_rates. by rewrite take_drop.
    - intros l Hl Hs. exists l. rewrite app_nil_r in Hl. done. }
  by exists l.
Qed.

(** C37: [rcSortValidRates] sorts. For a node with at least one valid rate, all of them
    rows of the table, the sort stops, and leaves the same rates in the order of their
    speed; the rest of the array and of the record are as before. *)
Theorem rcSortValidRates_sorts t p :
  1 <= maxValidRate p <= 46 → maxValidRate p <= Z.of_nat (length (validRateIndex p)) →
  Forall (in_table t) (valid_rates p) →
  ∃ p', rcSortValidRates t p = Ok (tt, p') ∧
    valid_rates p' ≡ₚ valid_rates p ∧ Sorted (slower t) (valid_rates p') ∧
    drop (Z.to_nat (maxValidRate p)) (validRateIndex p') = drop (Z.to_nat (maxValidRate p)) (validRateIndex p) ∧
    p' <| validRateIndex := validRateIndex p |> = p.
Proof.
  intros Hm Hlen Hin. destruct (sort_spec t p Hm Hlen Hin) as (l & E & Hl & Hs).
  assert (length l = length (valid_rates p)) as Hll by by rewrite Hl.
  eexists. split; [exact E|]. rewrite valid_rates_put by done. split_and!; [done..| |].
  - cbn. rewrite drop_app_length'; [done|]. rewrite Hll. unfold valid_rates. rewrite length_take. lia.
  - by destruct p.
Qed.

Lemma rcSortValidRates_sorts_witness :
  let p := trc_zero <| validRateIndex := [14; 13; 1; 3] ++ replicate 42 0 |> <| maxValidRate := 4 |> in
  ∃ p', rcSortValidRates ar5416_11ngRateTable p = Ok (tt, p') ∧
    Sorted (slower ar5416_11ngRateTable) (valid_rates p').
Proof.
  intros p. destruct (rcSortValidRates_sorts ar5416_11ngRateTable p) as (p' & E & _ & Hs & _).
  - by vm_compute.
  - by vm_compute.
  - repeat constructor; vm_compute; congruence.
  - by exists p'.
Defined.
