(* ===== verification/RateProps.v ===== *)
(** * Rate control: the record of a node stays well formed

    The invariant of a node's control record, and what the digestion of a report does to
    the estimates of its rates. *)

From Stdlib Require Import Sorted.
From S2P Require Import Prelude.
From S2P Require Import TxTypes.
From S2P Require Import RateCtl.
From S2P Require Import RateSort.

(** ** The invariant *)
Record trc_wf (t : RATE_TABLE_11N) (p : TX_RATE_CTRL) : Prop := {
  wf_per_len : length (rc_per p) = 46%nat;
  wf_per : Forall (λ x, 0 <= x <= 100) (rc_per p);
  wf_valid_len : length (validRateIndex p) = 46%nat;
  wf_valid_n : 1 <= maxValidRate p <= 46;
  wf_size : 1 <= rateTableSize p <= 46;
  wf_table : rateTableSize p <= Z.of_nat (length (rt_info t));
  wf_valid : Forall (λ i, 0 <= i < rateTableSize p) (valid_rates p);
  wf_sorted : Sorted (slower t) (valid_rates p);
  wf_max : rateMaxPhy p ∈ valid_rates p;
  wf_probe : probeRate p = 0 ∨ probeRate p ∈ valid_rates p;
  wf_cnt : 0 <= hwMaxRetryPktCnt p <= 255;
}.
(** What the digestion of reports never touches. *)
Definition kept (p p' : TX_RATE_CTRL) : Prop :=
  rateTableSize p' = rateTableSize p ∧ maxValidRate p' = maxValidRate p ∧
  validRateIndex p' = validRateIndex p.

Section wf.
Context (t : RATE_TABLE_11N).
Implicit Type p : TX_RATE_CTRL.

Lemma kept_valid p p' : kept p p' → valid_rates p' = valid_rates p.
Proof. intros (_ & H1 & H2). unfold valid_rates. by rewrite H1, H2. Qed.

Lemma per_lookup p i :
  trc_wf t p → 0 <= i < 46 → ∃ x, rc_per p !! Z.to_nat i = Some x ∧ 0 <= x <= 100.
Proof.
  intros Hwf Hi. destruct (lookup_lt_is_Some_2 (rc_per p) (Z.to_nat i)) as [x Hx];
    [rewrite (wf_per_len _ _ Hwf); lia|].
  exists x. split; [done|]. by apply (Forall_lookup_1 _ _ _ _ (wf_per _ _ Hwf) Hx).
Qed.
Lemma info_lookup p i :
  trc_wf t p → 0 <= i < rateTableSize p → ∃ r, rt_info t !! Z.to_nat i = Some r.
Proof.
  intros Hwf Hi. apply lookup_lt_is_Some_2. pose proof (wf_table _ _ Hwf). lia.
Qed.
Lemma valid_range p i : trc_wf t p → i ∈ valid_rates p → 0 <= i < rateTableSize p.
Proof. intros Hwf Hi. pose proof (wf_valid _ _ Hwf) as H. by apply (proj1 (Forall_forall _ _) H). Qed.
Lemma valid_lookup p i x :
  trc_wf t p → 0 <= i < maxValidRate p → validRateIndex p !! Z.to_nat i = Some x → x ∈ valid_rates p.
Proof.
  intros Hwf Hi Hx. apply list_elem_of_lookup_2 with (Z.to_nat i). unfold valid_rates.
  rewrite lookup_take_lt by lia. done.
Qed.
Lemma valid_some p i :
  trc_wf t p → 0 <= i < maxValidRate p → ∃ x, validRateIndex p !! Z.to_nat i = Some x.
Proof.
  intros Hwf Hi. apply lookup_lt_is_Some_2. rewrite (wf_valid_len _ _ Hwf).
  pose proof (wf_valid_n _ _ Hwf). lia.
Qed.

Lemma wf_put_per p i v :
  trc_wf t p → 0 <= v <= 100 → trc_wf t (p <| rc_per ::= <[i := v]> |>).
Proof.
  intros [] Hv. split; try done. - cbn. by rewrite length_insert. - cbn. by apply Forall_insert.
Qed.

(** The state after a piece of the digestion that started in [p0]. *)
Definition good p0 p : Prop := trc_wf t p ∧ kept p0 p.
Lemma good_trans p0 p p' : good p0 p → good p p' → good p0 p'.
Proof. intros (_ & H1 & H2 & H3) (? & H4 & H5 & H6). split; [done|]. repeat split; congruence. Qed.
Lemma good_refl p : trc_wf t p → good p p.
Proof. done. Qed.
Lemma good_per p0 p i v : good p0 p → 0 <= v <= 100 → good p0 (p <| rc_per ::= <[i := v]> |>).
Proof. intros [Hwf Hk] Hv. split; [by apply wf_put_per|done]. Qed.

Lemma wp_put_per p0 p i v :
  good p0 p → 0 <= i < 46 → 0 <= v <= 100 → wp (wr_per i v) (λ _, good p0) p.
Proof.
  intros Hg Hi Hv. apply wp_wr_per; [rewrite (wf_per_len _ _ (proj1 Hg)); lia|].
  rewrite u8_small by lia. by apply good_per.
Qed.

(** *** The new estimate *)
Lemma mixed_ratio r n b : 0 <= r <= 9 → 0 <= b <= n → 0 < n →
  0 <= (100 * (r * n + b)) `quot` (n * (r + 1)) <= 100.
Proof.
  intros Hr Hb Hn. rewrite Z.quot_div_nonneg by nia. split.
  - apply Z.div_pos; nia.
  - apply Z.div_le_upper_bound; nia.
Qed.

Lemma update_per_spec p0 p txRate X retries nFrames nBad :
  good p0 p → 0 <= txRate < 46 → 0 <= retries → 0 <= nBad <= nFrames →
  wp (update_per txRate X retries nFrames nBad) (λ _, good p0) p.
Proof.
  intros Hg Hi Hr Hb. unfold update_per.
  destruct (per_lookup p txRate (proj1 Hg) Hi) as (per & Hper & Hp).
  wp_step. apply (wp_rd_per _ per); [lia|done|].
  assert (0 <= per `quot` 8 <= 12 ∧ 0 <= per - per `quot` 8 <= 88) as [Hq Hd]
    by (rewrite Z.quot_div_nonneg by lia; mlia).
  set (c := if 10 <=? retries then 9 else retries).
  assert (0 <= c <= 9) as Hc by (unfold c; destruct (Z.leb_spec 10 retries); lia).
  destruct (X =? 1).
  { wp_step. apply wp_wr_per; [rewrite (wf_per_len _ _ (proj1 Hg)); lia|]. rewrite u8_small by lia.
    wp_step. apply (wp_rd_per _ (per + 30)); [lia| |].
    { cbn. apply list_lookup_insert_eq. rewrite (wf_per_len _ _ (proj1 Hg)). lia. }
    apply wp_when.
    - intros _. apply wp_wr_per; [cbn; rewrite length_insert, (wf_per_len _ _ (proj1 Hg)); lia|].
      change (u8 100) with 100. 
      replace (_ <| rc_per ::= _ |>) with (p <| rc_per ::= <[Z.to_nat txRate := 100]> |>).
      + by apply good_per.
      + unfold field_upd; cbn. by rewrite list_insert_insert_eq.
    - intros Hle%Z.ltb_ge. apply good_per; [done|lia]. }
  destruct (truthy X); [apply wp_put_per; [done|done|lia]|].
  destruct (truthy nBad) eqn:Hnb.
  - apply wp_when; [|done]. intros Hn%Z.ltb_lt. apply wp_put_per; [done|done|].
    pose proof (mixed_ratio c nFrames nBad Hc Hb Hn) as Hm.
    revert Hm. generalize ((100 * (c * nFrames + nBad)) `quot` (nFrames * (c + 1))). intros m Hm.
    rewrite (Z.quot_div_nonneg m) by lia. mlia.
  - wp_step. assert (∃ l, nRetry2PerLookup !! Z.to_nat c = Some l ∧ 0 <= l <= 90) as (l & Hl & Hlr).
    { assert (c ∈ seqZ 0 10) as Hin by (apply elem_of_seqZ; lia). revert Hin. generalize c.
      apply Forall_forall. repeat constructor; cbn; eexists; (split; [reflexivity|lia]). }
    apply (wp_in_range _ l); [done|]. apply wp_put_per; [done|done|].
    rewrite (Z.quot_div_nonneg l) by lia. mlia.
Qed.

(** *** The neighbours of a rate *)
Lemma sorted_adjacent l i x y :
  Sorted (slower t) l → l !! i = Some x → l !! S i = Some y → slower t x y.
Proof.
  intros Hs. revert i. induction Hs as [|z l Hs IH Hd]; intros [|i]; cbn; try done.
  - intros [= ->]. destruct Hd as [|w l Hw]; [done|]. by intros [= ->].
  - apply IH.
Qed.
Lemma valid_adjacent p i x y :
  trc_wf t p → 0 <= i < maxValidRate p - 1 →
  validRateIndex p !! Z.to_nat i = Some x → validRateIndex p !! Z.to_nat (i + 1) = Some y → slower t x y.
Proof.
  intros Hwf Hi Hx Hy. apply (sorted_adjacent _ (Z.to_nat i) _ _ (wf_sorted _ _ Hwf)); unfold valid_rates.
  - by rewrite lookup_take_lt by lia.
  - rewrite lookup_take_lt by lia. by replace (S (Z.to_nat i)) with (Z.to_nat (i + 1)) by lia.
Qed.

Lemma lower_valid_spec p l cur :
  trc_wf t p → Forall (λ i, 1 <= i < maxValidRate p) l →
  wp (lower_valid l cur) (λ o p', p' = p ∧ ∀ n, o = Some n → n ∈ valid_rates p ∧ slower t n cur) p.
Proof.
  intros Hwf. induction l as [|i l IH]; intros Hl; [by apply wp_ret|].
  apply Forall_cons in Hl as [Hi Hl]. cbn [lower_valid]. wp_step.
  destruct (valid_some p i Hwf) as [v Hv]; [lia|]. apply (wp_rd_valid _ v); [lia|done|].
  destruct (Z.eqb_spec v cur) as [->|]; [|by apply IH].
  destruct (valid_some p (i - 1) Hwf) as [n Hn]; [lia|].
  wp_step. apply (wp_rd_valid _ n); [lia|done|]. apply wp_ret. split; [done|].
  intros ? [= <-]. split; [apply (valid_lookup p (i - 1)); [done|lia|done]|].
  apply (valid_adjacent p (i - 1)); [done|lia|done|]. by rewrite Z.sub_add.
Qed.
Lemma rcGetNextLowerValidTxRate_spec p cur :
  trc_wf t p →
  wp (rcGetNextLowerValidTxRate cur)
    (λ o p', p' = p ∧ ∀ n, o = Some n → n ∈ valid_rates p ∧ slower t n cur) p.
Proof.
  intros Hwf. unfold rcGetNextLowerValidTxRate. wp_steps. apply lower_valid_spec; [done|].
  apply Forall_forall. intros i Hi%elem_of_seqZ. lia.
Qed.
Lemma next_valid_spec p l cur :
  trc_wf t p → Forall (λ i, 0 <= i < maxValidRate p - 1) l →
  wp (next_valid l cur) (λ o p', p' = p ∧ ∀ n, o = Some n → n ∈ valid_rates p ∧ slower t cur n) p.
Proof.
  intros Hwf. induction l as [|i l IH]; intros Hl; [by apply wp_ret|].
  apply Forall_cons in Hl as [Hi Hl]. cbn [next_valid]. wp_step.
  destruct (valid_some p i Hwf) as [v Hv]; [lia|]. apply (wp_rd_valid _ v); [lia|done|].
  destruct (Z.eqb_spec v cur) as [->|]; [|by apply IH].
  destruct (valid_some p (i + 1) Hwf) as [n Hn]; [lia|].
  wp_step. apply (wp_rd_valid _ n); [lia|done|]. apply wp_ret. split; [done|].
  intros ? [= <-]. split; [apply (valid_lookup p (i + 1)); [done|lia|done]|].
  by apply (valid_adjacent p i); [done|lia|..].
Qed.
Lemma rcGetNextValidTxRate_spec p cur :
  trc_wf t p →
  wp (rcGetNextValidTxRate cur)
    (λ o p', p' = p ∧ ∀ n, o = Some n → n ∈ valid_rates p ∧ slower t cur n) p.
Proof.
  intros Hwf. unfold rcGetNextValidTxRate. wp_steps. apply next_valid_spec; [done|].
  apply Forall_forall. intros i Hi%elem_of_seqZ. lia.
Qed.

(** *** Probes and the top rate *)
Lemma good_upd p0 p p' :
  good p0 p → kept p p' → rc_per p' = rc_per p → rateMaxPhy p' ∈ valid_rates p →
  probeRate p' = 0 ∨ probeRate p' ∈ valid_rates p → 0 <= hwMaxRetryPktCnt p' <= 255 → good p0 p'.
Proof.
  intros [Hwf Hk] Hk' Hp Hm Hpr Hc. apply (good_trans p0 p); [done|]. split; [|done].
  pose proof (kept_valid _ _ Hk') as Hv. destruct Hk' as (H1 & H2 & H3). destruct Hwf.
  split; rewrite ?Hp, ?H1, ?H2, ?H3, ?Hv; done.
Qed.
Lemma digest_probe_spec p0 p now txRate retries nFrames nBad :
  good p0 p → wp (digest_probe t now txRate retries nFrames nBad) (λ _, good p0) p.
Proof.
  intros Hg. unfold digest_probe. wp_steps.
  assert (∀ q, good p0 q →
    wp (p ← get; if 0 <? retries then modify (λ p, p <| hwMaxRetryPktCnt := 0 |>)
       else when ((txRate =? rateMaxPhy p) && (hwMaxRetryPktCnt p <? 255))
              (modify (λ p, p <| hwMaxRetryPktCnt ::= λ n, u8 (n + 1) |>))) (λ _, good p0) q) as Hrest.
  { intros q Hq. wp_steps. destruct (0 <? retries).
    - wp_step. apply (good_upd p0 q); [done|done|done|apply Hq|apply Hq|done].
    - apply wp_when; [|done]. intros [_ Hc%Z.ltb_lt]%andb_prop. pose proof (wf_cnt _ _ (proj1 Hq)).
      wp_step. apply (good_upd p0 q); [done|done|done|apply Hq|apply Hq|].
      cbn. rewrite u8_small by lia. lia. }
  apply wp_when; [|intros _; by apply Hrest].
  intros [Hpr _]%andb_prop. unfold truthy in Hpr. apply negb_true_iff, Z.eqb_neq in Hpr.
  destruct (wf_probe _ _ (proj1 Hg)) as [|Hin]; [done|].
  destruct ((0 <? retries) || _).
  { wp_step. apply Hrest. apply (good_upd p0 p); [done|done|done|apply Hg|by left|apply Hg]. }
  wp_steps. set (q := p <| rateMaxPhy := probeRate p |>).
  assert (good p0 q) as Hq by (apply (good_upd p0 p); [done|done|done|done|apply Hg|apply Hg]).
  pose proof (valid_range _ _ (proj1 Hg) Hin) as Hr. pose proof (wf_size _ _ (proj1 Hg)).
  destruct (per_lookup q (probeRate p) (proj1 Hq)) as (per & Hper & _); [lia|].
  apply (wp_rd_per _ per); [lia|done|]. wp_step. apply wp_mono with (λ _, good p0).
  - apply wp_when; [|done]. intros _. apply wp_put_per; [done|lia|done].
  - intros [] q' Hq'. wp_steps. apply Hrest.
    apply (good_upd p0 q'); [done|done|done|apply Hq'|by left|apply Hq'].
Qed.
Lemma lower_max_spec p0 p now txRate :
  good p0 p → 0 <= txRate < rateTableSize p → wp (lower_max t now txRate) (λ _, good p0) p.
Proof.
  intros Hg Hi. pose proof (wf_size _ _ (proj1 Hg)). unfold lower_max.
  destruct (per_lookup p txRate (proj1 Hg)) as (per & Hper & _); [lia|].
  wp_step. apply (wp_rd_per _ per); [lia|done|]. apply wp_when; [|done]. intros _. wp_steps.
  destruct (info_lookup p txRate (proj1 Hg)) as [a Ha]; [lia|].
  destruct (info_lookup p (rateMaxPhy p) (proj1 Hg)) as [b Hb]; [apply valid_range; [|]; apply Hg|].
  apply (wp_rd_info _ _ a); [lia|done|]. wp_step.
  apply (wp_rd_info _ _ b); [apply (valid_range p); apply Hg|done|].
  apply wp_when; [|done]. intros _. wp_step.
  apply wp_mono with (1 := rcGetNextLowerValidTxRate_spec p (u8 txRate) (proj1 Hg)).
  intros o q (-> & Ho). wp_step. destruct o as [n|]; wp_step; wp_step.
  - apply (good_upd p0 p); [done|done|done|by apply Ho|apply Hg|apply Hg].
  - apply (good_upd p0 p); [done|done|done|apply Hg|apply Hg|apply Hg].
Qed.

(** *** Keeping the estimates in order *)
Lemma lower_below_spec p0 p l phy :
  good p0 p → Forall (λ i, 0 <= i < rateTableSize p0 - 1) l →
  wp (lower_below t l phy) (λ _, good p0) p.
Proof.
  revert p. induction l as [|i l IH]; intros p Hg Hl; [by apply wp_ret|].
  pose proof (wf_size _ _ (proj1 Hg)) as Hs. pose proof (proj1 (proj2 Hg)) as Hsz.
  apply Forall_cons in Hl as [Hi Hl]. cbn [lower_below].
  destruct (info_lookup p i (proj1 Hg)) as [r Hr]; [lia|].
  wp_step. apply (wp_rd_info _ _ r); [lia|done|]. destruct (negb _); [by apply wp_ret|].
  destruct (per_lookup p i (proj1 Hg)) as (a & Ha & Har); [lia|].
  destruct (per_lookup p (i + 1) (proj1 Hg)) as (b & Hb & Hbr); [lia|].
  wp_step. apply (wp_rd_per _ a); [lia|done|]. wp_step. apply (wp_rd_per _ b); [lia|done|].
  wp_step. apply wp_mono with (λ _, good p0); [|intros [] q Hq; by apply IH].
  apply wp_when; [|done]. intros _. apply wp_put_per; [done|lia|done].
Qed.

(** Rows [lo] to [hi] have estimates in ascending order. *)
Definition ascending (p : TX_RATE_CTRL) (lo hi : Z) : Prop :=
  ∀ i a b, lo <= i < hi → rc_per p !! Z.to_nat i = Some a → rc_per p !! Z.to_nat (i + 1) = Some b →
  a <= b.

Lemma raise_spec p0 p n lo :
  good p0 p → 0 <= lo → lo + Z.of_nat n < rateTableSize p0 →
  wp (for_each (seqZ lo (Z.of_nat n)) raise_step)
    (λ _ q, good p0 q ∧ ascending q lo (lo + Z.of_nat n)) p.
Proof.
  intros Hg Hlo Hn.
  enough (∀ m, (m <= n)%nat → ∀ q k, good p0 q → k = lo + Z.of_nat (n - m) → ascending q lo k →
    wp (for_each (seqZ k (Z.of_nat m)) raise_step)
      (λ _ q, good p0 q ∧ ascending q lo (lo + Z.of_nat n)) q) as H.
  { apply (H n); [done|done|lia|]. intros i a b Hi. lia. }
  induction m as [|m IH]; intros Hm q k Hq Hk Ha.
  { cbn. apply wp_ret. split; [done|]. by replace (lo + Z.of_nat n) with k by lia. }
  rewrite Nat2Z.inj_succ, seqZ_cons by lia. cbn [for_each]. wp_step. unfold raise_step at 1.
  pose proof (wf_size _ _ (proj1 Hq)) as Hs. pose proof (proj1 (proj2 Hq)) as Hsz.
  destruct (per_lookup q k (proj1 Hq)) as (a & Hka & Har); [lia|].
  destruct (per_lookup q (k + 1) (proj1 Hq)) as (b & Hkb & Hbr); [lia|].
  wp_step. apply (wp_rd_per _ a); [lia|done|]. wp_step. apply (wp_rd_per _ b); [lia|done|].
  rewrite Z.pred_succ.
  apply wp_mono with (λ _ q', good p0 q' ∧ ascending q' lo (k + 1)).
  2: { intros [] q' [Hq' Ha']. apply IH; [lia|done|lia|]. by replace (Z.succ k) with (k + 1) by lia. }
  apply wp_when.
  - intros Hlt%Z.ltb_lt. apply wp_wr_per; [rewrite (wf_per_len _ _ (proj1 Hq)); lia|].
    rewrite u8_small by lia. split; [by apply good_per|].
    intros i x y Hi. cbn.
    destruct (decide (i = k)) as [->|Hik].
    + rewrite list_lookup_insert_ne by lia. rewrite list_lookup_insert_eq by
        (rewrite (wf_per_len _ _ (proj1 Hq)); lia). rewrite Hka. intros [= <-] [= <-]. lia.
    + rewrite !list_lookup_insert_ne by lia. apply Ha. lia.
  - intros Hge%Z.ltb_ge. split; [done|]. intros i x y Hi.
    destruct (decide (i = k)) as [->|Hik]; [|apply Ha; lia].
    rewrite Hka, Hkb. intros [= <-] [= <-]. lia.
Qed.

Lemma age_spec p0 p now lo hi :
  good p0 p → 0 <= lo → hi < rateTableSize p0 → ascending p lo hi →
  wp (age_per t now) (λ _ q, good p0 q ∧ ascending q lo hi) p.
Proof.
  intros Hg Hlo Hhi Ha. unfold age_per. wp_steps. apply wp_when; [|done]. intros _. wp_step.
  pose proof (proj1 (proj2 Hg)) as Hsz. pose proof (wf_size _ _ (proj1 Hg)) as Hs. rewrite Hsz.
  set (I := λ (dn : list Z) q, good p0 q ∧ ∀ j x, 0 <= j → rc_per p !! Z.to_nat j = Some x →
    rc_per q !! Z.to_nat j = Some (if j <? Z.of_nat (length dn) then (7 * x) `quot` 8 else x)).
  apply wp_mono with (λ _, I (seqZ 0 (rateTableSize p0))).
  - apply wp_for_each_acc.
    + intros dn k rest q Hl [Hq Hv].
      assert (k = Z.of_nat (length dn)) as ->.
      { assert (seqZ 0 (rateTableSize p0) !! length dn = Some k) as Hk
          by (rewrite Hl; by apply list_lookup_middle). apply lookup_seqZ in Hk. lia. }
      assert (Z.of_nat (length dn) < rateTableSize p0) as Hlt.
      { apply (f_equal length) in Hl. rewrite length_seqZ, length_app in Hl. cbn in Hl. lia. }
      destruct (per_lookup p (Z.of_nat (length dn)) (proj1 Hg)) as (x & Hx & Hxr); [lia|].
      pose proof (Hv (Z.of_nat (length dn)) x ltac:(lia) Hx) as Hx'. rewrite Z.ltb_irrefl in Hx'.
      wp_step. apply (wp_rd_per _ x); [lia|done|].
      assert (0 <= (7 * x) `quot` 8 <= 100) by (rewrite Z.quot_div_nonneg by lia; mlia).
      apply wp_wr_per; [rewrite (wf_per_len _ _ (proj1 Hq)); lia|]. rewrite u8_small by lia.
      split; [by apply good_per|]. intros j y Hj Hy. cbn. rewrite length_app. cbn [length].
      destruct (decide (j = Z.of_nat (length dn))) as [->|Hne].
      * rewrite list_lookup_insert_eq by (rewrite (wf_per_len _ _ (proj1 Hq)); lia).
        rewrite Hx in Hy. injection Hy as <-. rewrite (proj2 (Z.ltb_lt _ _)) by lia. done.
      * rewrite list_lookup_insert_ne by lia. rewrite (Hv _ _ Hj Hy).
        do 2 f_equal. destruct (Z.ltb_spec j (Z.of_nat (length dn))), (Z.ltb_spec j (Z.of_nat (length dn + 1))); lia || done.
    + split; [done|]. intros j x Hj Hx. cbn [length]. rewrite (proj2 (Z.ltb_ge _ _)) by lia. done.
  - intros [] q [Hq Hv]. wp_step. split.
    { apply (good_upd p0 q); [done|done|done|apply Hq|apply Hq|apply Hq]. }
    intros i a b Hi. cbn. rewrite length_seqZ in Hv.
    destruct (per_lookup p i (proj1 Hg)) as (x & Hx & Hxr); [lia|].
    destruct (per_lookup p (i + 1) (proj1 Hg)) as (y & Hy & Hyr); [lia|].
    rewrite (Hv i x ltac:(lia) Hx), (Hv (i + 1) y ltac:(lia) Hy).
    rewrite !(proj2 (Z.ltb_lt _ _)) by lia. intros [= <-] [= <-].
    specialize (Ha i x y Hi Hx Hy). rewrite !Z.quot_div_nonneg by lia. apply Z.div_le_mono; lia.
Qed.
End wf.

(** The whole digestion. *)
Lemma rcUpdate_ht_spec t p now txRate X retries nFrames nBad :
  trc_wf t p → 0 <= txRate < rateTableSize p → 0 <= retries → 0 <= nBad <= nFrames →
  wp (rcUpdate_ht t now txRate X retries nFrames nBad)
    (λ _ q, good t p q ∧ ascending q txRate (rateTableSize p - 1)) p.
Proof.
  intros Hwf Hi Hr Hb. pose proof (wf_size _ _ Hwf) as Hs.
  unfold rcUpdate_ht. destruct (Z.ltb_spec txRate 0); [lia|].
  destruct (per_lookup t p txRate Hwf) as (last & Hlast & _); [lia|].
  wp_step. apply (wp_rd_per _ last); [lia|done|].
  wp_step. apply wp_mono with (λ _, good t p); [apply update_per_spec; [done|lia|done|done]|].
  intros [] q Hq. wp_step. apply wp_mono with (λ _, good t p).
  { destruct (truthy X); [|by apply digest_probe_spec]. wp_step.
    destruct (probeRate q =? txRate); [|done].
    apply (good_upd t p q); [done|done|done|apply Hq|by left|apply Hq]. }
  clear q Hq. intros [] q Hq. wp_step.
  apply wp_mono with (1 := lower_max_spec t p q now txRate Hq ltac:(destruct Hq as [_ [-> _]]; lia)).
  clear q Hq. intros [] q Hq. wp_step.
  destruct (per_lookup t q txRate (proj1 Hq)) as (per & Hper & _); [lia|].
  apply (wp_rd_per _ per); [lia|done|]. wp_step. apply wp_mono with (λ _, good t p).
  { apply wp_when; [|done]. intros _.
    destruct (info_lookup t q txRate (proj1 Hq)) as [r Hri]; [destruct Hq as [_ [-> _]]; lia|].
    wp_step. apply (wp_rd_info _ _ r); [lia|done|]. apply lower_below_spec; [done|].
    apply List.Forall_rev, Forall_forall. intros i Hin%elem_of_seqZ. lia. }
  clear q Hq per Hper. intros [] q Hq. wp_steps. rewrite (proj1 (proj2 Hq)).
  replace (rateTableSize p - 1 - txRate) with (Z.of_nat (Z.to_nat (rateTableSize p - 1 - txRate))) by lia.
  apply wp_mono with (1 := raise_spec t p q (Z.to_nat (rateTableSize p - 1 - txRate)) txRate Hq ltac:(lia) ltac:(lia)).
  intros [] q' [Hq' Ha]. replace (txRate + _) with (rateTableSize p - 1) in Ha by lia.
  apply age_spec; [done|lia|lia|done].
Qed.

(** C30: the digestion of a report. Whatever a well-formed report says about a rate of the
    node, [rcUpdate_ht] returns, the record stays well formed (every estimate is a
    percentage, the top rate is a valid rate), the valid rates stay the same, and from the
    rate reported on upwards the estimates are in ascending order. *)
Theorem rcUpdate_ht_wf t p now txRate X retries nFrames nBad :
  trc_wf t p → 0 <= txRate < rateTableSize p → 0 <= retries → 0 <= nBad <= nFrames →
  ∃ p', rcUpdate_ht t now txRate X retries nFrames nBad p = Ok (tt, p') ∧
    trc_wf t p' ∧ valid_rates p' = valid_rates p ∧ rateTableSize p' = rateTableSize p ∧
    ascending p' txRate (rateTableSize p - 1).
Proof.
  intros Hwf Hi Hr Hb.
  destruct (wp_run _ _ _ (rcUpdate_ht_spec t p now txRate X retries nFrames nBad Hwf Hi Hr Hb))
    as ([] & p' & E & [Hwf' Hk] & Ha).
  exists p'. split_and!; [done..|by apply kept_valid|apply Hk|done].
Qed.

(** A node that may use the four CCK rates. *)
Definition cck_node : TX_RATE_CTRL :=
  trc_zero <| validRateIndex := [0; 1; 2; 3] ++ replicate 42 0 |> <| maxValidRate := 4 |>
           <| rateTableSize := 4 |> <| rateMaxPhy := 3 |>.
Lemma cck_node_wf : trc_wf ar5416_11ngRateTable cck_node.
Proof.
  split.
  all: first [reflexivity | by left | by apply (bool_decide_unpack _); vm_compute
             | repeat constructor; by vm_compute].
Qed.
Lemma rcUpdate_ht_wf_witness :
  ∃ p', rcUpdate_ht ar5416_11ngRateTable 1000 2 1 3 1 1 cck_node = Ok (tt, p') ∧
    Forall (λ x, 0 <= x <= 100) (rc_per p') ∧ ascending p' 2 3.
Proof.
  destruct (rcUpdate_ht_wf ar5416_11ngRateTable cck_node 1000 2 1 3 1 1) as (p' & E & Hwf & _ & _ & Ha).
  - apply cck_node_wf.
  - by vm_compute.
  - done.
  - done.
  - exists p'. split; [exact E|]. split; [apply Hwf|exact Ha].
Defined.
