(* ===== verification/RateFind.v ===== *)
(** * Rate control: the rates proposed for a frame

    The choice of a rate, the four series of a frame, and the promise the transmit path
    relies on. *)

From Stdlib Require Import Sorted.
From S2P Require Import Prelude.
From S2P Require Import TxTypes.
From S2P Require Import RateCtl.
From S2P Require Import RateSort.
From S2P Require Import RateProps.

(** ** The search *)
Section find.
Context (t : RATE_TABLE_11N).
Implicit Type p : TX_RATE_CTRL.

Lemma best_rate_spec p l best rate :
  trc_wf t p → Forall (λ i, 0 <= i < maxValidRate p) l →
  (rate = 0 ∨ rate ∈ valid_rates p) →
  wp (best_rate t l best rate) (λ r p', p' = p ∧ (r = 0 ∨ r ∈ valid_rates p)) p.
Proof.
  intros Hwf. revert best rate. induction l as [|i l IH]; intros best rate Hl Hr; [by apply wp_ret|].
  apply Forall_cons in Hl as [Hi Hl]. cbn [best_rate]. wp_step.
  destruct (valid_some t p i Hwf Hi) as [v Hv]. apply (wp_rd_valid _ v); [lia|done|].
  pose proof (valid_lookup t p i v Hwf Hi Hv) as Hin. pose proof (valid_range t p v Hwf Hin) as Hvr.
  pose proof (wf_size _ _ Hwf) as Hs. wp_steps. destruct (_ <? v); [by apply IH|].
  destruct (info_lookup t p v Hwf Hvr) as [r Hri]. wp_step. apply (wp_rd_info _ _ r); [lia|done|].
  destruct (_ <=? best); [by apply wp_ret|].
  destruct (per_lookup t p v Hwf) as (per & Hper & _); [lia|].
  wp_step. apply (wp_rd_per _ per); [lia|done|]. destruct (best <=? _); apply IH; auto.
Qed.

Lemma rate_find_spec p now pa :
  trc_wf t p →
  wp (rate_find t now pa)
    (λ '(rate, probing) q, good t p q ∧ 0 <= rate < rateTableSize p ∧ (probing = true → pa = true)) p.
Proof.
  intros Hwf. pose proof (wf_valid_n _ _ Hwf) as Hn. pose proof (wf_size _ _ Hwf) as Hs.
  unfold rate_find. wp_steps. rewrite u8_small, s8_small by lia.
  eapply wp_mono; [apply best_rate_spec; [done| |by left]|].
  { apply List.Forall_rev, Forall_forall. intros i Hi%elem_of_seqZ. lia. }
  intros rate q (-> & Hr). wp_steps.
  assert (0 <= rate < rateTableSize p) as Hrr
    by (destruct Hr as [->|Hr]; [lia|by apply (valid_range t)]).
  set (Q := λ (o : Z * bool) q, good t p q ∧ 0 <= o.1 < rateTableSize p ∧ (o.2 = true → pa = true)).
  apply wp_mono with Q.
  - destruct ((rateMaxPhy p <=? rate) && pa) eqn:Hc; [|by apply wp_ret].
    apply andb_prop in Hc as [_ ->].
    wp_step. apply wp_mono with (1 := rcGetNextValidTxRate_spec t p (rateMaxPhy p) Hwf).
    intros o q (-> & Ho). wp_steps.
    pose proof (valid_range t p _ Hwf (wf_max _ _ Hwf)) as Hm.
    destruct o as [n|]; [|by apply wp_ret]. destruct (Ho n eq_refl) as [Hin _].
    destruct (_ && _); [|by apply wp_ret]. wp_steps.
    pose proof (valid_range t p n Hwf Hin). split; [|by split].
    apply (good_upd t p p); [done|done|done|apply Hwf|by right|done].
  - intros [r pr] q (Hq & Hr' & Hp). cbn in Hr', Hp. wp_steps. rewrite (proj1 (proj2 Hq)).
    rewrite (proj2 (Z.ltb_ge _ _)) by lia. done.
Qed.

Lemma step_down_spec p n rate :
  trc_wf t p → 0 <= rate < rateTableSize p →
  wp (step_down n rate) (λ r p', p' = p ∧ 0 <= r < rateTableSize p ∧ slower t r rate) p.
Proof.
  intros Hwf. revert rate. induction n as [|n IH]; intros rate Hr; cbn [step_down].
  { apply wp_ret. split_and!; [done|lia..|]. unfold slower. lia. }
  wp_step. apply wp_mono with (1 := rcGetNextLowerValidTxRate_spec t p rate Hwf).
  intros [x|] q (-> & Ho).
  - destruct (Ho x eq_refl) as [Hin Hsl]. pose proof (valid_range t p x Hwf Hin).
    apply wp_mono with (1 := IH x ltac:(lia)). intros r q (-> & ? & ?). split_and!; [done|lia..|].
    by transitivity x.
  - apply wp_ret. split_and!; [done|lia..|]. unfold slower. lia.
Qed.
End find.

(** ** On the device's state *)
Section device.
Context {T : Type} `{!MsClock T}.
Implicit Type a : atheros_softc T.

Lemma wp_on_node {A} an (m : RCM A) (Q : A → atheros_softc T → Prop) a nd :
  an_rcnode a !! an = Some nd →
  wp m (λ x p, Q x (a <| an_rcnode ::= <[an := nd <| txRateCtrl := p |>]> |>)) (txRateCtrl nd) →
  wp (on_node an m) Q a.
Proof.
  intros Hn H. unfold on_node, rd_anode. wp_steps. eapply wp_in_range; [done|].
  unfold wp in *. destruct (m (txRateCtrl nd)) as [[x p]|]; done.
Qed.
Lemma wp_rd_anode an (Q : atheros_node → atheros_softc T → Prop) a nd :
  an_rcnode a !! an = Some nd → Q nd a → wp (rd_anode an) Q a.
Proof. intros Hn HQ. unfold rd_anode. wp_steps. by eapply wp_in_range. Qed.
Lemma put_same_node a an nd :
  an_rcnode a !! an = Some nd →
  a <| an_rcnode ::= <[an := nd <| txRateCtrl := txRateCtrl nd |>]> |> = a.
Proof.
  intros H. destruct a as [h c k i l x]. unfold field_upd. cbn in *. f_equal.
  apply list_insert_id. rewrite H. by destruct nd.
Qed.

(** Rate control works for node [an]: its record is well formed for the table in use. *)
Definition node_ok (mode : phymode) (an : nat) a (nd : atheros_node) : Prop :=
  hwRateTable a mode = ar5416AttachRateTables mode ∧ an_rcnode a !! an = Some nd ∧
  trc_wf (ar5416AttachRateTables mode) (txRateCtrl nd).
(** What a run for node [an] leaves alone. *)
Definition others (an : nat) a a' : Prop :=
  hwRateTable a' = hwRateTable a ∧ asc_tx_chainmask a' = asc_tx_chainmask a ∧
  ∀ j, j ≠ an → an_rcnode a' !! j = an_rcnode a !! j.

Context (mode : phymode) (an : nat).
Abbreviation t := (ar5416AttachRateTables mode).

Lemma rcRateFind_ht_spec a nd pa :
  node_ok mode an a nd →
  wp (rcRateFind_ht t an pa) (λ '(rate, probing) a', others an a a' ∧
    (probing = true → pa = true) ∧
    ∃ nd', node_ok mode an a' nd' ∧ stbc nd' = stbc nd ∧ good t (txRateCtrl nd) (txRateCtrl nd') ∧
           0 <= rate < rateTableSize (txRateCtrl nd')) a.
Proof.
  intros (Ht & Hn & Hwf). unfold rcRateFind_ht, A_MS_TICKGET. wp_step. unfold wp at 1.
  destruct (ms_tick (asc_clock a)) as [now c]. wp_step.
  eapply wp_on_node; [exact Hn|].
  apply wp_mono with (1 := rate_find_spec t (txRateCtrl nd) (u32 now) pa Hwf).
  intros [rate pr] q (Hq & Hr & Hp). wp_step.
  set (a1 := _ <| an_rcnode ::= _ |>). set (nd1 := nd <| txRateCtrl := q |>).
  assert (an_rcnode a1 !! an = Some nd1) as Hn1.
  { cbn. apply list_lookup_insert_eq. by eapply lookup_lt_Some. }
  assert (node_ok mode an a1 nd1) as Hok1 by (split; [exact Ht|split; [done|apply Hq]]).
  assert (others an a a1) as Ho1.
  { split_and!; [done..|]. intros j Hj. cbn. by rewrite list_lookup_insert_ne. }
  assert (0 <= rate < rateTableSize q) as Hrq by (rewrite (proj1 (proj2 Hq)); lia).
  apply wp_mono with (λ _ a', others an a a' ∧ ∃ nd', node_ok mode an a' nd' ∧ stbc nd' = stbc nd ∧
    good t (txRateCtrl nd) (txRateCtrl nd') ∧ 0 <= rate < rateTableSize (txRateCtrl nd')).
  2: { intros _ a' (Ho & H). wp_step. split; [done|]. split; [done|]. exact H. }
  apply wp_when; [|intros _; split; [done|]; by exists nd1].
  intros _. destruct (info_lookup t q rate (proj1 Hq) Hrq) as [r Hri].
  wp_step. apply (wp_rd_info _ _ r); [lia|done|]. wp_step. eapply wp_rd_anode; [exact Hn1|]. wp_step.
  split.
  - split_and!; [done..|]. intros j Hj. cbn. by rewrite !list_lookup_insert_ne.
  - exists (nd1 <| lastRateKbps := rn_rateKbps r |>). split_and!; [|done|exact Hq|apply Hrq|apply Hrq].
    split; [exact Ht|]. split; [|apply Hq]. cbn. apply list_lookup_insert_eq.
    rewrite length_insert. by eapply lookup_lt_Some.
Qed.

(** Moving down from a rate of the node. *)
Lemma rcRateGetIndex_spec a nd rate n mr (Q : Z → atheros_softc T → Prop) :
  node_ok mode an a nd → 0 <= rate < rateTableSize (txRateCtrl nd) →
  (∀ x, 0 <= x < rateTableSize (txRateCtrl nd) → slower t x rate → Q x a) →
  wp (rcRateGetIndex an rate n mr) Q a.
Proof.
  intros (Ht & Hn & Hwf) Hr HQ. unfold rcRateGetIndex. eapply wp_on_node; [exact Hn|].
  apply wp_mono with (1 := step_down_spec t _ _ rate Hwf Hr). intros x q (-> & Hx & Hs).
  rewrite put_same_node by done. by apply HQ.
Qed.

(** A series made from a row of the table. *)
Definition series_for (s : rc_series) (rate n : Z) : Prop :=
  ∃ r rts cm st, rt_info t !! Z.to_nat rate = Some r ∧ s = series_of r n rts cm st.
Lemma wp_setseries a nd series i n rate rts cm st (Q : list rc_series → atheros_softc T → Prop) :
  node_ok mode an a nd → 0 <= rate < rateTableSize (txRateCtrl nd) →
  is_Some (series !! Z.to_nat i) →
  (∀ s, series_for s rate n → Q (<[Z.to_nat i := s]> series) a) →
  wp (rcRateSetseries t series i n rate rts cm st) Q a.
Proof.
  intros (Ht & Hn & Hwf) Hr [s0 Hs0] HQ. unfold rcRateSetseries.
  destruct (info_lookup t _ rate Hwf Hr) as [r Hri].
  wp_step. apply (wp_rd_info _ _ r); [lia|done|]. wp_step. eapply wp_in_range; [done|]. wp_step.
  apply HQ. by exists r, rts, cm, st.
Qed.

Lemma wp_fill_cons a nd i idxs nT nR sd flag tpr series x (Q : list rc_series → atheros_softc T → Prop) :
  node_ok mode an a nd → 0 <= x < rateTableSize (txRateCtrl nd) → is_Some (series !! Z.to_nat i) →
  (∀ y s, 0 <= y < rateTableSize (txRateCtrl nd) → slower t y x →
     series_for s y (if i + 1 =? nR then u8 (nT - tpr * i) else tpr) →
     wp (fill_series idxs t an nT nR sd flag tpr (<[Z.to_nat i := s]> series) y) Q a) →
  wp (fill_series (i :: idxs) t an nT nR sd flag tpr series x) Q a.
Proof.
  intros Hok Hx Hi HQ. cbn [fill_series]. wp_step. eapply rcRateGetIndex_spec; [exact Hok|done|].
  intros y Hy Hsl. wp_steps. eapply wp_rd_anode; [apply Hok|]. wp_step.
  eapply wp_setseries; [exact Hok|done|done|]. intros s Hs. by apply (HQ y).
Qed.
End device.

(** ** Rows and series *)

(** Series [s] stands for row [y] of the table: its base rate with the row's width and
    guard interval. *)
Definition names (mode : phymode) (s : rc_series) (y : Z) : Prop :=
  ∃ r, rt_info (ar5416AttachRateTables mode) !! Z.to_nat y = Some r ∧ rix s = rn_baseIndex r ∧
    tst (rc_flags s) ATH_RC_CW40_FLAG = WLAN_RC_PHY_40 (rn_phy r) ∧
    tst (rc_flags s) ATH_RC_HT40_SGI_FLAG = WLAN_RC_PHY_SGI (rn_phy r).

(** What the tables promise about row [y]: its base row leads back to it, and the HAL's
    table has the base row's rate code. *)
Definition row_ok (mode : phymode) (y : nat) (r : rc11n_info) : bool :=
  let sgi := WLAN_RC_PHY_SGI (rn_phy r) in
  let w40 := WLAN_RC_PHY_40 (rn_phy r) in
  (0 <=? rn_baseIndex r) &&
  match rt_info (ar5416AttachRateTables mode) !! Z.to_nat (rn_baseIndex r) with
  | Some b => (if w40 && sgi then rn_htIndex b else if sgi then rn_sgiIndex b
               else if w40 then rn_cw40Index b else rn_baseIndex b) =? Z.of_nat y
  | None => false
  end &&
  match sc_rates mode !! Z.to_nat (rn_baseIndex r) with
  | Some h => ri_rateCode h =? rn_rateCode r
  | None => false
  end.
Definition rows_ok (mode : phymode) : bool :=
  forallb (λ x : nat * rc11n_info, row_ok mode x.1 x.2)
    (imap pair (rt_info (ar5416AttachRateTables mode))).
Lemma tables_ok mode : rows_ok mode = true.
Proof. by destruct mode; vm_compute. Qed.
Lemma row_ok_at mode y r :
  rt_info (ar5416AttachRateTables mode) !! y = Some r → row_ok mode y r = true.
Proof.
  intros Hr. pose proof (tables_ok mode) as H. unfold rows_ok in H.
  rewrite List.forallb_forall in H. apply (H (y, r)). apply list_elem_of_In.
  apply list_elem_of_lookup. exists y. rewrite list_lookup_imap. by rewrite Hr.
Qed.

Lemma series_index_names {T} mode s y (a : atheros_softc T) :
  names mode s y → 0 <= y → series_index (ar5416AttachRateTables mode) s a = Ok (y, a).
Proof.
  intros (r & Hr & Hx & H40 & Hsgi) Hy. pose proof (row_ok_at _ _ _ Hr) as Hok.
  unfold row_ok in Hok. unfold series_index. rewrite Hx, H40, Hsgi. unfold rd_info.
  apply andb_prop in Hok as [[Hb Hok]%andb_prop _]. apply Z.leb_le in Hb.
  destruct (Z.ltb_spec (rn_baseIndex r) 0); [lia|].
  destruct (rt_info _ !! Z.to_nat (rn_baseIndex r)) as [b|]; [|done].
  rewrite (bind_ok _ _ _ _ _ (run_in_range (Some b) b a eq_refl)). apply Z.eqb_eq in Hok.
  rewrite Z2Nat.id in Hok by done. rewrite Hok. done.
Qed.

Lemma series_for_facts mode s y n :
  series_for mode s y n →
  tries s = n ∧ txrateKbps s = kbps (ar5416AttachRateTables mode) y ∧
  names mode s y ∧ rate_known mode (rix s).
Proof.
  intros (r & rts & cm & st & Hr & ->). cbn. split; [done|].
  split; [unfold kbps; by rewrite Hr|].
  split.
  - exists r. split; [done|]. split; [done|]. cbn [rc_flags series_of].
    split; destruct rts, (WLAN_RC_PHY_DS _), (WLAN_RC_PHY_40 _), (WLAN_RC_PHY_SGI _), (_ && _);
      reflexivity.
  - pose proof (row_ok_at _ _ _ Hr) as Hok. unfold row_ok in Hok.
    apply andb_prop in Hok as [[Hb _]%andb_prop Hk]. apply Z.leb_le in Hb. split; [done|].
    destruct (sc_rates mode !! _); [done|discriminate].
Qed.

(** The rate a series stands for. The pair of base rate and flags that rate control puts
    in a series for a row of its table is read back as that very row when the frame's
    report comes in, and the HAL's table, which the frame is sent by, has a row with the
    same rate code at the base rate. *)
Theorem rcRateSetseries_roundtrip {T} mode y r tries rts cm st (a : atheros_softc T) :
  rt_info (ar5416AttachRateTables mode) !! Z.to_nat y = Some r → 0 <= y →
  let s := series_of r tries rts cm st in
  series_index (ar5416AttachRateTables mode) s a = Ok (y, a) ∧
  ∃ h, sc_rates mode !! Z.to_nat (rix s) = Some h ∧ ri_rateCode h = rn_rateCode r.
Proof.
  intros Hr Hy s. split.
  - apply series_index_names; [|done]. apply (series_for_facts mode s y tries).
    by exists r, rts, cm, st.
  - pose proof (row_ok_at _ _ _ Hr) as Hok. unfold row_ok in Hok.
    apply andb_prop in Hok as [_ Hk]. cbn [rix series_of s].
    destruct (sc_rates mode !! _) as [h|]; [|discriminate]. exists h. split; [done|]. by apply Z.eqb_eq.
Qed.

(** ** The four series of a frame *)
Definition probe_tries (probe : Z) : list Z := if truthy probe then [1; 2; 2; 4] else [2; 2; 2; 4].
Definition descending (l : list Z) : Prop := Sorted (λ a b, b <= a) l.

(** What rate control proposes: the tries, speeds that do not grow, and rows of the table
    below [size]. *)
Definition good_series (mode : phymode) (size : Z) (rcs : list rc_series) (probe : Z) : Prop :=
  map tries rcs = probe_tries probe ∧ descending (map txrateKbps rcs) ∧
  Forall (λ s, rate_known mode (rix s) ∧ ∃ y, names mode s y ∧ 0 <= y < size) rcs.

Lemma names_same mode s s' y :
  rix s' = rix s → tst (rc_flags s') ATH_RC_CW40_FLAG = tst (rc_flags s) ATH_RC_CW40_FLAG →
  tst (rc_flags s') ATH_RC_HT40_SGI_FLAG = tst (rc_flags s) ATH_RC_HT40_SGI_FLAG →
  names mode s y → names mode s' y.
Proof. intros H1 H2 H3 (r & ? & ? & ? & ?). exists r. by rewrite H1, H2, H3. Qed.
Lemma tst_lor_rtscts f m :
  tst ATH_RC_RTSCTS_FLAG m = false → tst (f .| ATH_RC_RTSCTS_FLAG) m = tst f m.
Proof. intros H. by rewrite tst_lor, H, orb_false_r. Qed.

Section series.
Context {T : Type} `{!MsClock T} (mode : phymode) (an : nat).
Implicit Type a : atheros_softc T.
Abbreviation t := (ar5416AttachRateTables mode).

Lemma adjust_ng_spec a size rcs probe r n :
  good_series mode size rcs probe → length rcs = 4%nat →
  wp (adjust_ng r n rcs) (λ rcs' a', a' = a ∧ good_series mode size rcs' probe ∧ length rcs' = 4%nat) a.
Proof.
  intros (Ht & Hd & Hf) Hl. destruct rcs as [|s0 [|s1 [|s2 [|s3 [|]]]]]; try done.
  apply Forall_cons in Hf as [H0 [H1 [H2 [H3 _]%Forall_cons]%Forall_cons]%Forall_cons].
  unfold adjust_ng. wp_step.
  apply wp_mono with (λ l a', a' = a ∧ ∃ s3', l = [s0; s1; s2; s3'] ∧ tries s3' = tries s3 ∧
    txrateKbps s3' = txrateKbps s3 ∧ rate_known mode (rix s3') ∧ ∃ y, names mode s3' y ∧ 0 <= y < size).
  - destruct (_ && _); wp_steps; (split; [done|]).
    + eexists. split; [reflexivity|]. split_and!; [done..|apply H2|].
      destruct H2 as (_ & y & Hy & ?). exists y. split; [|done]. by eapply names_same.
    + exists s3. split_and!; [done..|apply H3|apply H3].
  - intros l a' (-> & s3' & -> & Ht3 & Hk3 & H3').
    assert (∀ s0', tries s0' = tries s0 → txrateKbps s0' = txrateKbps s0 →
      (rate_known mode (rix s0') ∧ ∃ y, names mode s0' y ∧ 0 <= y < size) →
      good_series mode size [s0'; s1; s2; s3'] probe) as Hg.
    { intros s0' E1 E2 H0'. split; [cbn in *; by rewrite E1, Ht3|]. split; [cbn in *; by rewrite E2, Hk3|].
      do 4 (apply Forall_cons_2; [done|]). done. }
    destruct (_ <=? 3); wp_steps; (split; [done|split; [|done]]).
    + apply Hg; [done..|]. destruct H0 as (Hk & y & Hy & ?). split; [done|]. exists y. split; [|done].
      eapply names_same; [..|exact Hy]; [done|by apply tst_lor_rtscts..].
    + by apply Hg.
Qed.

Lemma good_four size probe x0 x1 x2 x3 s0 s1 s2 s3 n0 :
  [n0; 2; 2; 4] = probe_tries probe →
  series_for mode s0 x0 n0 → series_for mode s1 x1 2 → series_for mode s2 x2 2 → series_for mode s3 x3 4 →
  0 <= x0 < size → 0 <= x1 < size → 0 <= x2 < size → 0 <= x3 < size →
  slower t x1 x0 → slower t x2 x1 → slower t x3 x2 →
  good_series mode size [s0; s1; s2; s3] probe.
Proof.
  intros Hn (E0 & K0 & N0 & R0)%series_for_facts (E1 & K1 & N1 & R1)%series_for_facts
    (E2 & K2 & N2 & R2)%series_for_facts (E3 & K3 & N3 & R3)%series_for_facts ? ? ? ? ? ? ?.
  split; [by cbn; rewrite E0, E1, E2, E3, Hn|]. split.
  - unfold descending. cbn [map]. rewrite K0, K1, K2, K3. repeat constructor; done.
  - do 4 (apply Forall_cons_2; [eauto|]). done.
Qed.

Lemma findrate_spec a nd frameLen series :
  node_ok mode an a nd → length series = 4%nat →
  wp (rc_findrate mode an frameLen 10 4 1 ATH_RC_PROBE_ALLOWED series)
    (λ '(rcs, probe) a', others an a a' ∧ length rcs = 4%nat ∧
      ∃ nd', node_ok mode an a' nd' ∧ good t (txRateCtrl nd) (txRateCtrl nd') ∧
        good_series mode (rateTableSize (txRateCtrl nd)) rcs probe) a.
Proof.
  intros Hok Hl. destruct series as [|z0 [|z1 [|z2 [|z3 [|]]]]]; try done.
  unfold rc_findrate. change (negb (truthy 4) || negb (truthy 10)) with false. cbv iota.
  unfold rcRateFind_11n. wp_steps. rewrite (proj1 Hok).
  change (tst ATH_RC_PROBE_ALLOWED ATH_RC_PROBE_ALLOWED) with true.
  apply wp_mono with (1 := rcRateFind_ht_spec mode an a nd true Hok).
  intros [rate pr] a' (Ho & _ & nd' & Hok' & _ & Hg & Hr). wp_steps.
  eapply wp_rd_anode; [apply Hok'|]. change (u8 (10 `quot` 4)) with 2.
  assert (rateTableSize (txRateCtrl nd') = rateTableSize (txRateCtrl nd)) as Hsz by apply Hg.
  (* the state no longer changes; what remains is the fourth series and the adjustment *)
  assert (∀ rcs, good_series mode (rateTableSize (txRateCtrl nd)) rcs (if pr then 1 else 0) → length rcs = 4%nat →
    wp (series ← match mode with
                 | IEEE80211_MODE_11NG => r ← rd_info t rate; adjust_ng r 4 rcs
                 | IEEE80211_MODE_11NA => mret rcs end;
        mret (series, if pr then 1 else 0))
      (λ '(rcs, probe) a', others an a a' ∧ length rcs = 4%nat ∧
        ∃ nd', node_ok mode an a' nd' ∧ good t (txRateCtrl nd) (txRateCtrl nd') ∧
          good_series mode (rateTableSize (txRateCtrl nd)) rcs probe) a') as Hend.
  { intros rcs Hgs Hlen. wp_step.
    apply wp_mono with (λ rcs' b, b = a' ∧ good_series mode (rateTableSize (txRateCtrl nd)) rcs' (if pr then 1 else 0) ∧ length rcs' = 4%nat).
    - pose proof (λ r, adjust_ng_spec a' _ rcs _ r 4 Hgs Hlen) as Hadj.
      destruct mode; [by apply wp_ret|]. destruct (info_lookup _ _ rate (proj2 (proj2 Hok')) Hr) as [r Hri].
      wp_step. apply (wp_rd_info _ _ r); [lia|done|]. apply Hadj.
    - intros rcs' b (-> & ? & ?). wp_step. split; [done|]. split; [done|]. by exists nd'. }
  destruct pr; cbn [andb]; wp_steps.
  - eapply wp_setseries; [exact Hok'|exact Hr|done|]. intros s0 Hs0.
    wp_step. eapply rcRateGetIndex_spec; [exact Hok'|exact Hr|]. intros x1 Hx1 Hl1. wp_steps.
    eapply wp_setseries; [exact Hok'|exact Hx1|done|]. intros s1 Hs1. cbv beta iota. wp_step.
    change (seqZ (1 + 1) (4 - (1 + 1))) with [2; 3].
    eapply wp_fill_cons; [exact Hok'|exact Hx1|done|]. intros x2 s2 Hx2 Hl2 Hs2.
    eapply wp_fill_cons; [exact Hok'|exact Hx2|done|]. intros x3 s3 Hx3 Hl3 Hs3. cbn [fill_series]. wp_step.
    apply Hend; [|done]. rewrite Hsz in *. by eapply (good_four _ 1 rate x1 x2 x3).
  - eapply wp_setseries; [exact Hok'|exact Hr|done|]. intros s0 Hs0. cbv beta iota. wp_step.
    change (seqZ (0 + 1) (4 - (0 + 1))) with [1; 2; 3].
    eapply wp_fill_cons; [exact Hok'|exact Hr|done|]. intros x1 s1 Hx1 Hl1 Hs1.
    eapply wp_fill_cons; [exact Hok'|exact Hx1|done|]. intros x2 s2 Hx2 Hl2 Hs2.
    eapply wp_fill_cons; [exact Hok'|exact Hx2|done|]. intros x3 s3 Hx3 Hl3 Hs3. cbn [fill_series]. wp_step.
    apply Hend; [|done]. rewrite Hsz in *. by eapply (good_four _ 0 rate x1 x2 x3).
Qed.
End series.

(** The real rate control keeps the promise of the interface, for the nodes it has
    well-formed records of. *)
#[export] Instance ratectl_laws {T} `{!MsClock T} : RateControlLaws (atheros_softc T).
Proof.
  refine {| rc_serves mode an a := ∃ nd, node_ok mode an a nd |}.
  intros mode an frameLen series a (nd & Hok) Hl.
  destruct (wp_run _ _ _ (findrate_spec mode an a nd frameLen series Hok Hl))
    as ([rcs probe] & a' & E & _ & Hlen & nd' & Hok' & _ & _ & _ & Hf).
  exists rcs, probe, a'. split_and!; [exact E|by exists nd'|done|].
  eapply Forall_impl; [exact Hf|]. by intros s [? _].
Defined.

(** ** Digesting the report of such a frame *)
Section digest.
Context {T : Type} `{!MsClock T} (mode : phymode) (an : nat).
Implicit Type a : atheros_softc T.
Abbreviation t := (ar5416AttachRateTables mode).

(** The state after digesting something about node [an] from [a] on. *)
Definition digested a (size : Z) a' : Prop :=
  others an a a' ∧ ∃ nd, node_ok mode an a' nd ∧ rateTableSize (txRateCtrl nd) = size.

Lemma others_trans a a' a'' : others an a a' → others an a' a'' → others an a a''.
Proof. intros (H1 & H2 & H3) (H4 & H5 & H6). split_and!; [congruence..|]. intros j Hj. by rewrite H6, H3. Qed.

Lemma update_ht_spec a0 a size rate X retries nF nB :
  digested a0 size a → 0 <= rate < size → 0 <= retries → 0 <= nB <= nF →
  wp (update_ht t an rate X retries nF nB) (λ _, digested a0 size) a.
Proof.
  intros (Ho & nd & (Ht & Hn & Hwf) & Hs) Hr Hre Hb. unfold update_ht, A_MS_TICKGET. wp_step.
  unfold wp at 1. destruct (ms_tick (asc_clock a)) as [now c].
  eapply wp_on_node; [exact Hn|].
  apply wp_mono with (1 := rcUpdate_ht_spec t _ (u32 now) rate X retries nF nB Hwf ltac:(lia) Hre Hb).
  intros [] q [[Hq Hk] _]. split.
  - eapply others_trans; [exact Ho|]. split_and!; [done..|]. intros j Hj. cbn. by rewrite list_lookup_insert_ne.
  - exists (nd <| txRateCtrl := q |>). split; [|cbn; rewrite (proj1 Hk); exact Hs].
    split; [exact Ht|]. split; [|exact Hq]. cbn. apply list_lookup_insert_eq. by eapply lookup_lt_Some.
Qed.

(** Every series names a row below [size] and has tries to count. *)
Definition reportable (size : Z) (rcs : list rc_series) : Prop :=
  Forall (λ s, 0 <= tries s ∧ ∃ y, names mode s y ∧ 0 <= y < size) rcs.

Lemma wp_series_index s y (Q : Z → atheros_softc T → Prop) a :
  names mode s y → 0 <= y → Q y a → wp (series_index t s) Q a.
Proof. intros Hn Hy HQ. by apply (wp_ok _ _ _ _ _ (series_index_names mode s y a Hn Hy)). Qed.

Lemma update_failed_spec a0 a size idxs X rcs nF :
  digested a0 size a → reportable size rcs → Forall (λ i, (i < length rcs)%nat) idxs → 0 <= nF →
  wp (update_failed idxs t an X rcs nF) (λ _, digested a0 size) a.
Proof.
  intros Ha Hrep Hidx HnF. revert a Ha. induction idxs as [|i idxs IH]; intros a Ha; [by apply wp_ret|].
  apply Forall_cons in Hidx as [Hi Hidx]. cbn [update_failed]. wp_step.
  destruct (lookup_lt_is_Some_2 rcs i Hi) as [s Hs]. eapply wp_in_range; [exact Hs|].
  destruct (proj1 (Forall_lookup _ _) Hrep i s Hs) as (Htr & y & Hy & Hyr).
  destruct (negb _); [by apply IH|]. pose proof Ha as (_ & nd & (_ & Hn & _) & _).
  wp_step. eapply wp_rd_anode; [exact Hn|]. destruct (stale_width _ _); [by apply wp_ret|].
  wp_step. eapply wp_series_index; [exact Hy|lia|]. wp_step.
  apply wp_mono with (λ _, digested a0 size); [by apply update_ht_spec|]. intros [] a' Ha'. by apply IH.
Qed.

Lemma rcUpdate_11n_spec a0 a size final X rcs nF nB retry :
  digested a0 size a → reportable size rcs → length rcs = 4%nat → 0 <= final < 4 →
  0 <= nB <= nF → 0 <= retry →
  wp (rcUpdate_11n mode an final X rcs nF nB retry) (λ _, digested a0 size) a.
Proof.
  intros Ha Hrep Hl Hf Hb Hr. unfold rcUpdate_11n. wp_steps.
  pose proof Ha as (_ & nd & (Ht & _ & _) & _). rewrite Ht.
  apply wp_mono with (λ _, digested a0 size).
  { destruct (truthy final).
    - wp_step. apply wp_mono with (λ _, digested a0 size); [|intros go a' Ha'; by wp_step].
      apply update_failed_spec; [done..| |lia]. apply Forall_forall. intros i Hi%elem_of_seq. lia.
    - destruct rcs as [|s rcs]; [done|]. wp_steps. done. }
  clear a Ha nd Ht. intros [X' go] a Ha. destruct (negb go); [by apply wp_ret|]. wp_step.
  destruct (lookup_lt_is_Some_2 rcs (Z.to_nat final)) as [s Hs]; [lia|].
  eapply wp_in_range; [exact Hs|].
  destruct (proj1 (Forall_lookup _ _) Hrep _ s Hs) as (Htr & y & Hy & Hyr).
  pose proof Ha as (_ & nd & (_ & Hn & _) & _).
  wp_step. eapply wp_rd_anode; [exact Hn|]. destruct (stale_width _ _); [by apply wp_ret|].
  wp_step. eapply wp_series_index; [exact Hy|lia|]. by apply update_ht_spec.
Qed.
End digest.

Lemma good_series_reportable mode size rcs probe :
  good_series mode size rcs probe → reportable mode size rcs.
Proof.
  intros (Ht & _ & Hf). apply Forall_forall. intros s Hs. split.
  - assert (tries s ∈ probe_tries probe) as Hin by (rewrite <-Ht; by apply list_elem_of_fmap_2).
    unfold probe_tries in Hin. destruct (truthy probe); set_solver by lia.
  - by destruct (proj1 (Forall_forall _ _) Hf s Hs) as [_ ?].
Qed.

(** C28: one round of rate control. For a node in service, asking for the rates of a frame
    always answers: four series of 2, 2, 2 and 4 tries, or 1, 2, 2 and 4 when the first one
    probes, of rates the hardware's table knows, at speeds that do not grow. And whatever
    the report of that frame says, digesting it returns and the node stays in service. *)
Theorem rate_control_round {T} `{!MsClock T} mode an nd (a : atheros_softc T) frameLen series :
  node_ok mode an a nd → length series = 4%nat →
  ∃ rcs probe a', ath_rate_findrate mode an frameLen 10 4 1 ATH_RC_PROBE_ALLOWED series a = Ok ((rcs, probe), a') ∧
    map tries rcs = probe_tries probe ∧ descending (map txrateKbps rcs) ∧
    Forall (λ s, rate_known mode (rix s)) rcs ∧
    ∀ ds nframes nbad, 0 <= ts_rate (ds_txstat ds) < 4 → 0 <= ts_longretry (ds_txstat ds) →
      0 <= nbad <= nframes → nframes < 65536 →
      ∃ a'' nd'', ath_rate_tx_complete mode an ds rcs nframes nbad a' = Ok (tt, a'') ∧ node_ok mode an a'' nd''.
Proof.
  intros Hok Hl.
  destruct (wp_run _ _ _ (findrate_spec mode an a nd frameLen series Hok Hl))
    as ([rcs probe] & a' & E & Ho & Hlen & nd' & Hok' & Hg & Hgs).
  exists rcs, probe, a'. pose proof Hgs as (Ht & Hd & Hf). split_and!; [exact E|done..| |].
  - eapply Forall_impl; [exact Hf|]. by intros s [? _].
  - intros ds nF nB Hts Hlr Hb HnF.
    assert (digested mode an a' (rateTableSize (txRateCtrl nd)) a') as Hdig.
    { split; [done|]. exists nd'. split; [done|apply Hg]. }
    destruct (wp_run _ _ _ (rcUpdate_11n_spec mode an a' a' _ (ts_rate (ds_txstat ds))
      (ifbit (tst (ts_status (ds_txstat ds)) HAL_TXERR_XRETRY || tst (ts_status (ds_txstat ds)) HAL_TXERR_FIFO
              || tst (ts_flags (ds_txstat ds)) HAL_TX_DATA_UNDERRUN
              || tst (ts_flags (ds_txstat ds)) HAL_TX_DELIM_UNDERRUN) 1) rcs nF nB (ts_longretry (ds_txstat ds))
      Hdig (good_series_reportable _ _ _ _ Hgs) Hlen Hts Hb Hlr)) as ([] & a'' & E' & _ & nd'' & Hok'' & _).
    exists a'', nd''. split; [|done]. cbn [ath_rate_tx_complete ratectl_11n]. unfold rc_tx_complete.
    rewrite !u16_small by lia. exact E'.
Qed.

(** A clock that ticks once per reading, and a device with one node in service. *)
#[export] Instance tick_clock : MsClock Z := {| ms_tick c := (c, c + 1) |}.
Definition rc_sample : atheros_softc Z :=
  mk_asc ar5416AttachRateTables 1 0 0 [mk_anode cck_node 0 0] 1000.
Lemma rc_sample_ok : node_ok IEEE80211_MODE_11NG 0 rc_sample (mk_anode cck_node 0 0).
Proof. split; [done|]. split; [done|]. apply cck_node_wf. Qed.

Lemma rate_control_round_witness :
  ∃ rcs probe a', ath_rate_findrate IEEE80211_MODE_11NG 0 0 10 4 1 ATH_RC_PROBE_ALLOWED (replicate 4 rc_zero) rc_sample =
      Ok ((rcs, probe), a') ∧ map tries rcs = probe_tries probe.
Proof.
  destruct (rate_control_round IEEE80211_MODE_11NG 0 _ rc_sample 0 (replicate 4 rc_zero) rc_sample_ok eq_refl)
    as (rcs & probe & a' & E & Ht & _).
  exists rcs, probe, a'. split; [exact E|exact Ht].
Defined.

