(* ===== verification/RateSearch.v ===== *)
(** * Rate control: what the search for the best rate finds *)

From Stdlib Require Import Sorted.
From S2P Require Import Prelude.
From S2P Require Import TxTypes.
From S2P Require Import RateCtl.
From S2P Require Import RateSort.
From S2P Require Import RateProps.

(** The throughput a row is listed with. *)
Definition user_kbps (t : RATE_TABLE_11N) (i : Z) : Z :=
  match rt_info t !! Z.to_nat i with Some r => rn_userRateKbps r | None => 0 end.

(** In both tables a row that is not faster is listed with less than twice the throughput. *)
Definition user_kbps_ok (mode : phymode) : bool :=
  let rows := rt_info (ar5416AttachRateTables mode) in
  forallb (λ x, (0 <? rn_userRateKbps x) && (rn_userRateKbps x <? 1000000) &&
    forallb (λ y, negb (rn_rateKbps x <=? rn_rateKbps y) ||
                  (rn_userRateKbps x <=? 2 * rn_userRateKbps y)) rows) rows.
Lemma user_tables_ok mode : user_kbps_ok mode = true.
Proof. by destruct mode; vm_compute. Qed.
Lemma user_kbps_facts mode x y rx ry :
  rt_info (ar5416AttachRateTables mode) !! x = Some rx →
  rt_info (ar5416AttachRateTables mode) !! y = Some ry →
  0 < rn_userRateKbps rx < 1000000 ∧
  (rn_rateKbps rx <= rn_rateKbps ry → rn_userRateKbps rx <= 2 * rn_userRateKbps ry).
Proof.
  intros Hx%list_elem_of_lookup_2%list_elem_of_In Hy%list_elem_of_lookup_2%list_elem_of_In.
  pose proof (user_tables_ok mode) as H. unfold user_kbps_ok in H. rewrite List.forallb_forall in H.
  specialize (H _ Hx). apply andb_prop in H as [[H1%Z.ltb_lt H2%Z.ltb_lt]%andb_prop H].
  split; [lia|]. rewrite List.forallb_forall in H. specialize (H _ Hy). intros Hle%Z.leb_le.
  rewrite Hle in H. cbn in H. by apply Z.leb_le in H.
Qed.

Section search.
Context (mode : phymode).
Abbreviation t := (ar5416AttachRateTables mode).
Implicit Type p : TX_RATE_CTRL.

(** Entries above the top rate are passed over. *)
Lemma best_rate_skip p l l' best rate :
  Forall (λ i, 0 <= i ∧ ∃ v, validRateIndex p !! Z.to_nat i = Some v ∧ rateMaxPhy p < v) l →
  best_rate t (l ++ l') best rate p = best_rate t l' best rate p.
Proof.
  induction 1 as [|i l (Hi & v & Hv & Hm) _ IH]; [done|]. cbn [app best_rate]. unfold rd_valid.
  rewrite bind_assoc, (bind_ok _ _ _ _ _ (run_get _)). rewrite (proj2 (Z.ltb_ge _ _)) by lia.
  rewrite (bind_ok _ _ _ _ _ (run_in_range _ _ _ Hv)), (bind_ok _ _ _ _ _ (run_get _)).
  by rewrite (proj2 (Z.ltb_lt _ _)) by lia.
Qed.

(** Entries whose listed throughput the best one reaches end the search. *)
Lemma best_rate_stop p l best rate :
  trc_wf t p →
  Forall (λ i, 0 <= i < maxValidRate p ∧ ∀ v, validRateIndex p !! Z.to_nat i = Some v → user_kbps t v <= best) l →
  best_rate t l best rate p = Ok (rate, p).
Proof.
  intros Hwf. induction 1 as [|i l (Hi & Hu) _ IH]; [done|]. cbn [best_rate]. unfold rd_valid.
  destruct (valid_some t p i Hwf Hi) as [v Hv]. specialize (Hu v Hv).
  pose proof (valid_range t p v Hwf (valid_lookup t p i v Hwf Hi Hv)) as Hvr.
  rewrite bind_assoc, (bind_ok _ _ _ _ _ (run_get _)). rewrite (proj2 (Z.ltb_ge _ _)) by lia.
  rewrite (bind_ok _ _ _ _ _ (run_in_range _ _ _ Hv)), (bind_ok _ _ _ _ _ (run_get _)).
  destruct (_ <? v); [done|]. destruct (info_lookup t p v Hwf Hvr) as [r Hr].
  unfold rd_info. rewrite (proj2 (Z.ltb_ge v 0)) by lia.
  rewrite (bind_ok _ _ _ _ _ (run_in_range _ _ _ Hr)). unfold user_kbps in Hu. rewrite Hr in Hu.
  by rewrite (proj2 (Z.leb_le _ _)).
Qed.

Lemma below_fastest p lo r hi i v :
  trc_wf t p → valid_rates p = lo ++ r :: hi → 0 <= i < Z.of_nat (length lo) →
  validRateIndex p !! Z.to_nat i = Some v → slower t v r.
Proof.
  intros Hwf Hv Hi Hl. pose proof (wf_sorted _ _ Hwf) as Hs. rewrite Hv in Hs.
  apply Sorted_StronglySorted in Hs; [|intros a b c; unfold slower; lia].
  assert (lo !! Z.to_nat i = Some v) as Hlo.
  { assert (valid_rates p !! Z.to_nat i = Some v) as H.
    { unfold valid_rates. pose proof (f_equal length Hv) as Hlen. unfold valid_rates in Hlen.
      rewrite length_take, length_app in Hlen. cbn in Hlen. by rewrite lookup_take_lt by lia. }
    rewrite Hv, lookup_app_l in H by lia. done. }
  clear -Hs Hlo. revert Hlo. generalize (Z.to_nat i). revert Hs.
  induction lo as [|x lo IH]; intros Hs [|n]; cbn in *; try done.
  - intros [= ->]. apply StronglySorted_inv in Hs as [_ Hf]. rewrite Forall_app, Forall_cons in Hf. tauto.
  - apply StronglySorted_inv in Hs as [Hs _]. by apply IH.
Qed.
End search.

(** The search for the best rate looks at one rate. The estimate it compares is a
    throughput times a percentage, what it compares it with is a plain throughput: so the
    fastest valid rate that does not exceed the top rate ends the search, whatever the
    estimates of the slower rates, unless 99 or more percent of its frames are lost. *)
Theorem best_rate_takes_fastest mode p lo r hi e :
  trc_wf (ar5416AttachRateTables mode) p →
  valid_rates p = lo ++ r :: hi → Forall (λ x, rateMaxPhy p < x) hi → r <= rateMaxPhy p →
  rc_per p !! Z.to_nat r = Some e → e <= 98 →
  best_rate (ar5416AttachRateTables mode) (rev (seqZ 0 (maxValidRate p))) 0 0 p = Ok (r, p).
Proof.
  intros Hwf Hv Hhi Hr He Hle. pose proof (wf_valid_n _ _ Hwf) as Hn.
  assert (maxValidRate p = Z.of_nat (length lo) + (1 + Z.of_nat (length hi))) as Hlen.
  { pose proof (f_equal length Hv) as H. unfold valid_rates in H.
    rewrite length_take, (wf_valid_len _ _ Hwf), length_app in H. cbn in H. lia. }
  assert (∀ k x, (lo ++ r :: hi) !! k = Some x → validRateIndex p !! k = Some x) as Hidx.
  { intros k x Hk. rewrite <-Hv in Hk. unfold valid_rates in Hk.
    apply lookup_take_Some in Hk as [Hk _]. done. }
  rewrite Hlen, seqZ_app, seqZ_app by lia. rewrite !rev_app_distr, <-app_assoc.
  rewrite best_rate_skip.
  2: { apply List.Forall_rev, Forall_forall. intros i Hi%elem_of_seqZ. split; [lia|].
       destruct (lookup_lt_is_Some_2 hi (Z.to_nat i - length lo - 1)) as [x Hx]; [lia|].
       exists x. split; [|by apply (proj1 (Forall_lookup _ _) Hhi _ _ Hx)]. apply Hidx.
       rewrite lookup_app_r by lia. replace (Z.to_nat i - length lo)%nat with (S (Z.to_nat i - length lo - 1)) by lia. done. }
  rewrite (seqZ_cons _ 1), (seqZ_nil _ (Z.pred 1)) by lia. cbn [rev app best_rate].
  assert (r ∈ valid_rates p) as Hin by (rewrite Hv; set_solver).
  pose proof (valid_range _ _ _ Hwf Hin) as Hrr.
  destruct (info_lookup _ _ r Hwf Hrr) as [row Hrow].
  unfold rd_valid, rd_info, rd_per. rewrite bind_assoc, (bind_ok _ _ _ _ _ (run_get _)).
  rewrite (proj2 (Z.ltb_ge _ 0)) by lia.
  rewrite (bind_ok _ _ p r p); [|apply run_in_range, Hidx; replace (Z.to_nat _) with (length lo) by lia; by apply list_lookup_middle].
  rewrite (bind_ok _ _ _ _ _ (run_get _)). rewrite (proj2 (Z.ltb_ge _ r)) by lia.
  rewrite (proj2 (Z.ltb_ge r 0)) by lia. rewrite (bind_ok _ _ _ _ _ (run_in_range _ _ _ Hrow)).
  destruct (user_kbps_facts mode _ _ _ _ Hrow Hrow) as [Hu _].
  rewrite (proj2 (Z.leb_gt _ 0)) by lia. rewrite bind_assoc, (bind_ok _ _ _ _ _ (run_get _)).
  rewrite (bind_ok _ _ _ _ _ (run_in_range _ _ _ He)).
  assert (0 <= e) as He0 by (pose proof (proj1 (Forall_lookup _ _) (wf_per _ _ Hwf) _ _ He); cbn in *; lia).
  set (pt := if e <? 12 then 12 else e). assert (12 <= pt <= 98) as Hpt by (unfold pt; destruct (Z.ltb_spec e 12); lia).
  rewrite u32_small by nia. rewrite (proj2 (Z.leb_le 0 _)) by nia.
  apply best_rate_stop; [done|]. apply List.Forall_rev, Forall_forall. intros i Hi%elem_of_seqZ.
  split; [lia|]. intros v Hvi. pose proof (below_fastest mode p lo r hi i v Hwf Hv ltac:(lia) Hvi) as Hs.
  unfold user_kbps. destruct (rt_info _ !! Z.to_nat v) as [rv|] eqn:Hrv; [|nia].
  destruct (user_kbps_facts mode _ _ _ _ Hrv Hrow) as [_ H2]. unfold slower, kbps in Hs. rewrite Hrv, Hrow in Hs.
  specialize (H2 Hs). nia.
Qed.

(** Rate 3 loses 98 percent of its frames, the rates below it none. *)
Definition lossy_node : TX_RATE_CTRL := cck_node <| rc_per ::= <[3%nat := 98]> |>.
