(* ===== verification/RateAssoc.v ===== *)
(** * Rate control: the rates of a new station

    What [rcSibUpdate_ht] makes of the rate sets a station announces: the rows of the table
    they select, how many of them the node's record can hold, and the record it leaves. *)

From Stdlib Require Import Sorted.
From S2P Require Import Prelude.
From S2P Require Import TxTypes.
From S2P Require Import RateCtl.
From S2P Require Import RateSort.
From S2P Require Import RateProps.

(** ** The rows a station may use, in the order they are found *)
Definition row_phy (t : RATE_TABLE_11N) (j : Z) : Z :=
  match rt_info t !! Z.to_nat j with Some r => rn_phy r | None => 0 end.
Definition rows_where (t : RATE_TABLE_11N) (c : rc11n_info → bool) : list Z :=
  filter (λ j, match rt_info t !! Z.to_nat j with Some r => c r | None => false end = true)
    (seqZ 0 (rateCount t)).
Definition legacy_cond (capflag nstbc rate : Z) (r : rc11n_info) : bool :=
  let mode := WLAN_RC_CAP_MODE capflag in
  (rate .& 0x7F =? rn_dot11Rate r .& 0x7F) && (valid_mask capflag nstbc r .& mode =? mode)
  && negb (WLAN_RC_PHY_HT (rn_phy r)) && rcIsValidPhyRate (rn_phy r) capflag false.
Definition ht_cond (capflag nstbc rate : Z) (r : rc11n_info) : bool :=
  let valid := u8 (valid_mask capflag nstbc r) in
  negb (negb (rate .& 0x7F =? rn_dot11Rate r .& 0x7F) || negb (WLAN_RC_PHY_HT (rn_phy r))
        || negb (WLAN_RC_PHY_HT_VALID valid capflag)
        || ((rn_dot11Rate r =? 15) && tst valid TRUE_20 && tst capflag WLAN_RC_WEP_TKIP_FLAG))
  && rcIsValidPhyRate (rn_phy r) capflag false.
Definition init_cond (capflag : Z) (r : rc11n_info) : bool :=
  ((if negb (tst capflag WLAN_RC_DS_FLAG) then rn_validSingleStream r else rn_valid r) =? 1)
  && rcIsValidPhyRate (rn_phy r) capflag false.
Definition announced (rs : ieee80211_rateset) : list Z := take (Z.to_nat (rs_nrates rs)) (rs_rates rs).
Definition selected_by (t : RATE_TABLE_11N) (c : Z → rc11n_info → bool) (rs : ieee80211_rateset) : list Z :=
  concat (map (λ rate, rows_where t (c rate)) (announced rs)).
Definition selected (t : RATE_TABLE_11N) (nstbc capflag : Z) (rs : option ieee80211_rate) : list Z :=
  match rs with
  | Some r =>
      if rs_nrates (rates r) =? 0 then rows_where t (init_cond capflag) else
      selected_by t (legacy_cond capflag nstbc) (rates r) ++
      (if tst capflag WLAN_RC_HT_FLAG then selected_by t (ht_cond capflag nstbc) (htrates r) else [])
  | None => rows_where t (init_cond capflag)
  end.

(** ** The table under construction *)
Section build.
Context (t : RATE_TABLE_11N).
Implicit Types (s : sib) (l : list Z).

(** The rows of [l] with phy [i]. *)
Definition of_phy (i : Z) (l : list Z) : list Z := filter (λ j, row_phy t j = i) l.
Definition top_row (l : list Z) : Z := foldr Z.max 0 l.

(** The part of the record that the construction does not touch. *)
Definition untouched (p : TX_RATE_CTRL) := (rc_per p, rateTableSize p, probeRate p, hwMaxRetryPktCnt p).

(** The rows [l] have been found, those of [l'] since [hi] was reset. *)
Record found s (u : list Z * Z * Z * Z) (l l' : list Z) : Prop := {
  fd_counts : length (validPhyRateCount (sib_phy s)) = 12%nat;
  fd_count i : 0 <= i < 12 → validPhyRateCount (sib_phy s) !! Z.to_nat i = Some (Z.of_nat (length (of_phy i l)));
  fd_index i : 0 <= i < 12 → ∃ pad, validPhyRateIndex (sib_phy s) !! Z.to_nat i = Some (of_phy i l ++ pad) ∧
                 length (of_phy i l ++ pad) = 46%nat;
  fd_hi : sib_hi s = top_row l';
  fd_mask : length (validRateIndex (sib_rc s)) = 46%nat;
  fd_rest : untouched (sib_rc s) = u;
}.

(** Running [m] finds the rows [ls], or there are more rows than the record can hold. *)
Definition finds (m : SIB unit) s u l l' (ls : list Z) : Prop :=
  match m s with
  | Ok (_, s') => found s' u (l ++ ls) (l' ++ ls)
  | Fault f => f = OutOfRange ∧ 46 < Z.of_nat (length (l ++ ls))
  end.

Lemma top_row_snoc l j : 0 <= j → top_row (l ++ [j]) = Z.max j (top_row l).
Proof. intros Hj. unfold top_row. induction l as [|x l IH]; cbn in *; lia. Qed.
Lemma of_phy_app i l l' : of_phy i (l ++ l') = of_phy i l ++ of_phy i l'.
Proof. apply filter_app. Qed.
Lemma of_phy_one i j : of_phy i [j] = if decide (row_phy t j = i) then [j] else [].
Proof. done. Qed.
Lemma of_phy_le i l : (length (of_phy i l) <= length l)%nat.
Proof. apply length_filter. Qed.

Lemma add_valid_rate_finds s u l l' j :
  found s u l l' → 0 <= j < 46 → 0 <= row_phy t j < 12 →
  finds (add_valid_rate (row_phy t j) j) s u l l' [j].
Proof.
  intros Hf Hj Hp. set (i := row_phy t j) in *. unfold finds, add_valid_rate, rd_count, rd_phyrate.
  destruct (fd_index _ _ _ _ Hf i Hp) as (pad & Hx & Hlen).
  rewrite bind_assoc, (bind_ok _ _ _ _ _ (run_get _)).
  rewrite (bind_ok _ _ _ _ _ (run_in_range _ _ _ (fd_count _ _ _ _ Hf i Hp))).
  rewrite bind_assoc, (bind_ok _ _ _ _ _ (run_get _)), bind_assoc.
  rewrite (bind_ok _ _ _ _ _ (run_in_range _ _ _ Hx)).
  rewrite (proj2 (Z.ltb_ge _ 0)) by lia. rewrite Nat2Z.id.
  rewrite length_app in Hlen. destruct pad as [|x pad].
  { cbn in Hlen. rewrite (bind_fault _ _ _ OutOfRange); [|by rewrite lookup_ge_None_2 by (rewrite length_app; cbn; lia)].
    split; [done|]. pose proof (of_phy_le i l). rewrite length_app. cbn. lia. }
  rewrite (bind_ok _ _ _ x s) by (apply run_in_range; by apply list_lookup_middle).
  rewrite (bind_ok _ _ _ _ _ (run_modify _ _)).
  assert (wp (rcSetValidTxMask j true) (λ _ p, p = sib_rc s <| validRateIndex ::= <[Z.to_nat j := 1]> |>) (sib_rc s))
    as ([] & p & E & ->)%wp_run.
  { unfold rcSetValidTxMask. apply wp_wr_valid; [rewrite (fd_mask _ _ _ _ Hf); lia|done]. }
  rewrite (bind_ok _ _ _ tt (s <| sib_rc := sib_rc s <| validRateIndex ::= <[Z.to_nat j := 1]> |> |>
    <| sib_phy ::= λ c, c <| validPhyRateIndex ::= alter <[length (of_phy i l) := j]> (Z.to_nat i) |>
                          <| validPhyRateCount ::= <[Z.to_nat i := u8 (Z.of_nat (length (of_phy i l)) + 1)]> |> |>)).
  2: { unfold on_rc. cbn [sib_rc]. unfold field_upd at 1. cbn [sib_rc]. rewrite E. by destruct s. }
  cbn in Hlen. rewrite run_modify. split; cbn.
  - rewrite length_insert. apply Hf.
  - intros i' Hi'. rewrite of_phy_app, length_app, of_phy_one. fold i.
    destruct (decide (i = i')) as [<-|Hne].
    + rewrite list_lookup_insert_eq by (rewrite (fd_counts _ _ _ _ Hf); lia).
      rewrite u8_small by lia. cbn. f_equal. lia.
    + rewrite list_lookup_insert_ne by lia. rewrite (fd_count _ _ _ _ Hf i' Hi').
      cbn. f_equal. lia.
  - intros i' Hi'. rewrite of_phy_app, of_phy_one. fold i.
    destruct (decide (i = i')) as [<-|Hne].
    + exists pad. rewrite list_lookup_alter_eq, Hx. cbn. rewrite insert_app_r_alt by lia.
      rewrite Nat.sub_diag. cbn. rewrite <-app_assoc, !length_app. cbn. split; [done|lia].
    + rewrite list_lookup_alter_ne by lia. cbn. rewrite app_nil_r. by apply Hf.
  - rewrite top_row_snoc by lia. rewrite (fd_hi _ _ _ _ Hf). done.
  - rewrite length_insert. apply Hf.
  - apply Hf.
Qed.

(** *** Loops *)
Lemma finds_bind m1 m2 s u l l' ls1 ls2 :
  finds m1 s u l l' ls1 →
  (∀ s', found s' u (l ++ ls1) (l' ++ ls1) → finds m2 s' u (l ++ ls1) (l' ++ ls1) ls2) →
  finds (m1 ;; m2) s u l l' (ls1 ++ ls2).
Proof.
  unfold finds, mbind, M_bind. intros H1 H2. destruct (m1 s) as [[[] s']|f].
  - specialize (H2 s' H1). rewrite !app_assoc. exact H2.
  - destruct H1 as [-> H1]. split; [done|]. rewrite app_assoc, length_app. lia.
Qed.
Lemma finds_nil s u l l' : found s u l l' → finds (mret tt) s u l l' [].
Proof. intros H. unfold finds. cbn. by rewrite !app_nil_r. Qed.
Lemma finds_for_each {A} (xs : list A) body (g : A → list Z) u s l l' :
  (∀ x s l l', x ∈ xs → found s u l l' → finds (body x) s u l l' (g x)) →
  found s u l l' → finds (for_each xs body) s u l l' (concat (map g xs)).
Proof.
  revert s l l'. induction xs as [|x xs IH]; intros s l l' Hb Hf; cbn [for_each map concat].
  - by apply finds_nil.
  - apply finds_bind; [apply Hb; [by left|done]|]. intros s' Hf'. apply IH; [|done].
    intros y s0 l0 l0' Hy. apply Hb. by right.
Qed.

Lemma filter_concat {A} (P : A → Prop) `{∀ x, Decision (P x)} (xs : list A) :
  filter P xs = concat (map (λ x, if decide (P x) then [x] else []) xs).
Proof. induction xs as [|x xs IH]; [done|]. rewrite filter_cons. cbn. rewrite <-IH. by case_decide. Qed.

(** Reading an array by an index that runs over its first [n] places. *)
Lemma map_seqZ_lookup {A B} (f : option A → B) n (xs : list A) :
  (n <= length xs)%nat →
  map (λ i, f (xs !! Z.to_nat i)) (seqZ 0 (Z.of_nat n)) = map (λ x, f (Some x)) (take n xs).
Proof.
  intros Hn. unfold seqZ. rewrite Nat2Z.id. etransitivity; [apply map_map|].
  rewrite (map_ext _ (λ i, f (xs !! i))) by (intros i; do 2 f_equal; lia).
  revert xs Hn. induction n as [|n IH]; intros [|x xs] Hn; cbn in *; [done..|lia|].
  f_equal. rewrite <-seq_shift, map_map. apply IH. lia.
Qed.

Definition table_ok : Prop :=
  rateCount t = Z.of_nat (length (rt_info t)) ∧ rateCount t <= 46 ∧
  Forall (λ r, 0 <= rn_phy r < 12) (rt_info t).
Context (Ht : table_ok).

(** A pass over the table that keeps the rows that satisfy [c]. *)
Lemma pass_finds (c : rc11n_info → bool) body s u l l' :
  (∀ j r s, 0 <= j → rt_info t !! Z.to_nat j = Some r →
     body j s = (when (c r) (add_valid_rate (rn_phy r) j)) s) →
  found s u l l' → finds (for_each (seqZ 0 (rateCount t)) body) s u l l' (rows_where t c).
Proof.
  intros Hb Hf. destruct Ht as (Hn & Hle & Hphy). unfold rows_where. rewrite filter_concat.
  apply finds_for_each; [|done]. intros j s0 l0 l0' Hj Hf0. apply elem_of_seqZ in Hj.
  destruct (lookup_lt_is_Some_2 (rt_info t) (Z.to_nat j)) as [r Hr]; [lia|].
  assert (row_phy t j = rn_phy r) as Hrow by (unfold row_phy; by rewrite Hr).
  rewrite Hr. unfold finds. rewrite (Hb j r) by (done || lia).
  destruct (c r); cbn [when].
  - rewrite decide_True by done. rewrite <-Hrow. apply add_valid_rate_finds; [done|lia|].
    rewrite Hrow. by apply (Forall_lookup_1 _ _ _ _ Hphy Hr).
  - rewrite decide_False by done. by apply finds_nil.
Qed.

(** *** The three ways to choose rates *)
Definition finds_hi (m : SIB Z) s u l (ls : list Z) : Prop :=
  match m s with
  | Ok (hi, s') => found s' u (l ++ ls) ls ∧ hi = top_row ls
  | Fault f => f = OutOfRange ∧ 46 < Z.of_nat (length (l ++ ls))
  end.

Lemma finds_hi_intro (m : SIB unit) s u l l' ls :
  found s u l l' →
  (∀ s', found s' u l [] → finds m s' u l [] ls) →
  finds_hi (modify (λ s, s <| sib_hi := 0 |>) ;; m ;; s ← get; mret (sib_hi s)) s u l ls.
Proof.
  intros Hf H. unfold finds_hi, finds in *. rewrite (bind_ok _ _ _ _ _ (run_modify _ _)).
  specialize (H (s <| sib_hi := 0 |>) ltac:(by destruct Hf)).
  unfold mbind at 1, M_bind at 1. destruct (m _) as [[[] s']|f]; [|done].
  split; [done|]. exact (fd_hi _ _ _ _ H).
Qed.

Lemma set_rates_finds (c : Z → rc11n_info → bool) rs body s u l l' :
  0 <= rs_nrates rs <= Z.of_nat (length (rs_rates rs)) →
  (∀ i j r rate s, 0 <= j → rt_info t !! Z.to_nat j = Some r → rs_rates rs !! Z.to_nat i = Some rate →
     body i j s = (when (c rate r) (add_valid_rate (rn_phy r) j)) s) →
  found s u l l' →
  finds_hi (modify (λ s, s <| sib_hi := 0 |>) ;;
            for_each (seqZ 0 (rs_nrates rs)) (λ i, for_each (seqZ 0 (rateCount t)) (body i)) ;;
            s ← get; mret (sib_hi s)) s u l (selected_by t c rs).
Proof.
  intros Hn Hb Hf. eapply finds_hi_intro; [done|]. intros s' Hf'.
  replace (selected_by t c rs) with
    (concat (map (λ i, match rs_rates rs !! Z.to_nat i with Some rate => rows_where t (c rate) | None => [] end)
       (seqZ 0 (rs_nrates rs)))).
  - apply finds_for_each; [|done]. intros i s0 l0 l0' Hi%elem_of_seqZ Hf0.
    destruct (lookup_lt_is_Some_2 (rs_rates rs) (Z.to_nat i)) as [rate Hrate]; [lia|].
    rewrite Hrate. apply pass_finds; [|done]. intros j r s1 Hj Hr. by apply Hb.
  - unfold selected_by, announced. f_equal. clear Hb Hf Hf'.
    replace (rs_nrates rs) with (Z.of_nat (Z.to_nat (rs_nrates rs))) at 1 by lia.
    apply (map_seqZ_lookup (λ o, match o with Some rate => rows_where t (c rate) | None => [] end)). lia.
Qed.

Definition rates_ok (rs : option ieee80211_rate) : Prop :=
  match rs with
  | Some r => 0 <= rs_nrates (rates r) <= Z.of_nat (length (rs_rates (rates r))) ∧
              0 <= rs_nrates (htrates r) <= Z.of_nat (length (rs_rates (htrates r)))
  | None => True
  end.

Lemma init_finds capflag s u l l' :
  found s u l l' → finds_hi (rcSibInitValidRates t capflag) s u l (rows_where t (init_cond capflag)).
Proof.
  intros Hf. eapply finds_hi_intro; [done|]. intros s' Hf'. apply pass_finds; [|done].
  intros j r s0 Hj Hr. unfold rd_info. destruct (Z.ltb_spec j 0); [lia|].
  by rewrite (bind_ok _ _ _ _ _ (run_in_range _ _ _ Hr)).
Qed.
Lemma rd_info_run {S} j r (s : S) :
  0 <= j → rt_info t !! Z.to_nat j = Some r → rd_info t j s = Ok (r, s).
Proof.
  intros Hj Hr. unfold rd_info. destruct (Z.ltb_spec j 0); [lia|]. by rewrite Hr.
Qed.
Lemma legacy_finds rs capflag nstbc s u l l' :
  0 <= rs_nrates rs <= Z.of_nat (length (rs_rates rs)) → found s u l l' →
  finds_hi (rcSibSetValidRates t rs capflag nstbc) s u l (selected_by t (legacy_cond capflag nstbc) rs).
Proof.
  intros Hn Hf. eapply set_rates_finds; [done| |done]. intros i j r rate s0 Hj Hr Hrate.
  rewrite (bind_ok _ _ _ _ _ (rd_info_run _ _ _ Hj Hr)).
  by rewrite (bind_ok _ _ _ _ _ (run_in_range _ _ _ Hrate)).
Qed.
Lemma ht_finds rs capflag nstbc s u l l' :
  0 <= rs_nrates rs <= Z.of_nat (length (rs_rates rs)) → found s u l l' →
  finds_hi (rcSibSetValidHtRates t rs capflag nstbc) s u l (selected_by t (ht_cond capflag nstbc) rs).
Proof.
  intros Hn Hf. eapply set_rates_finds; [done| |done]. intros i j r rate s0 Hj Hr Hrate.
  rewrite (bind_ok _ _ _ _ _ (rd_info_run _ _ _ Hj Hr)).
  by rewrite (bind_ok _ _ _ _ _ (run_in_range _ _ _ Hrate)).
Qed.

Lemma top_row_app l1 l2 : top_row (l1 ++ l2) = Z.max (top_row l1) (top_row l2).
Proof.
  unfold top_row. induction l1 as [|x l1 IH]; cbn; [|lia].
  induction l2; cbn; lia.
Qed.

(** The rows found are the ones [selected] names, and the result is the highest. *)
Lemma sib_rates_finds nstbc capflag rs s u :
  rates_ok rs → found s u [] [] →
  match sib_rates t nstbc capflag rs s with
  | Ok (hi, s') => (∃ l', found s' u (selected t nstbc capflag rs) l') ∧
                   hi = top_row (selected t nstbc capflag rs)
  | Fault f => f = OutOfRange ∧ 46 < Z.of_nat (length (selected t nstbc capflag rs))
  end.
Proof.
  intros Hrs Hf. unfold sib_rates, selected. destruct rs as [r|].
  2: { pose proof (init_finds capflag s u [] [] Hf) as H. unfold finds_hi in H.
       destruct (rcSibInitValidRates _ _ _) as [[hi s']|]; [|done]. split; [|apply H]. eexists. apply H. }
  destruct Hrs as [H1 H2]. destruct (rs_nrates (rates r) =? 0).
  { pose proof (init_finds capflag s u [] [] Hf) as H. unfold finds_hi in H.
    destruct (rcSibInitValidRates _ _ _) as [[hi s']|]; [|done]. split; [|apply H]. eexists. apply H. }
  pose proof (legacy_finds (rates r) capflag nstbc s u [] [] H1 Hf) as H. unfold finds_hi in H.
  unfold mbind at 1, M_bind at 1. destruct (rcSibSetValidRates _ _ _ _ _) as [[hi s']|].
  2: { cbn in H. rewrite length_app. split; [apply H|lia]. }
  destruct H as [Hf' ->]. destruct (tst capflag WLAN_RC_HT_FLAG).
  - pose proof (ht_finds (htrates r) capflag nstbc s' u _ _ H2 Hf') as H. unfold finds_hi in H.
    unfold mbind at 1, M_bind at 1. destruct (rcSibSetValidHtRates _ _ _ _ _) as [[hi s'']|]; [|done].
    destruct H as [Hf'' ->]. split; [by eexists|]. by rewrite top_row_app.
  - rewrite app_nil_r. split; [by eexists|]. cbn. unfold top_row. 
    generalize (selected_by t (legacy_cond capflag nstbc) (rates r)). intros l. induction l; cbn; lia.
Qed.
(** *** Laying the rates out *)

(** [s] with the rates [r] and the highest rate [m] in the node's record. *)
Definition laid (s : sib) (r : list Z) (m : Z) : sib :=
  s <| sib_rc ::= λ p, p <| validRateIndex := r |> <| rateMaxPhy := m |> |>.

Lemma insert_laid dn (y x : Z) pad : <[length dn := x]> (dn ++ y :: pad) = dn ++ [x] ++ pad.
Proof. by rewrite insert_app_r_alt, Nat.sub_diag by lia. Qed.
Lemma lay_out_phy_spec phy row js xs s dn pad m :
  validPhyRateIndex (sib_phy s) !! Z.to_nat phy = Some row →
  Forall2 (λ j x, 0 <= j ∧ row !! Z.to_nat j = Some x) js xs →
  length (dn ++ pad) = 46%nat →
  match lay_out_phy js phy (Z.of_nat (length dn)) (laid s (dn ++ pad) m) with
  | Ok (k, s') => ∃ pad', s' = laid s ((dn ++ xs) ++ pad') m ∧ k = Z.of_nat (length (dn ++ xs)) ∧
                    length ((dn ++ xs) ++ pad') = 46%nat
  | Fault f => f = OutOfRange ∧ 46 < Z.of_nat (length (dn ++ xs))
  end.
Proof.
  intros Hrow Hjs. revert dn pad.
  induction Hjs as [|j x js xs [Hj Hx] Hjs IH]; intros dn pad Hlen; cbn [lay_out_phy].
  { exists pad. by rewrite app_nil_r. }
  rewrite (bind_ok _ _ _ x (laid s (dn ++ pad) m)).
  2: { unfold rd_phyrate. rewrite (bind_ok _ _ _ _ _ (run_get _)).
       rewrite (bind_ok _ _ _ _ _ (run_in_range _ _ _ (Hrow : validPhyRateIndex (sib_phy (laid s _ _)) !! _ = _))).
       destruct (Z.ltb_spec j 0); [lia|]. by apply run_in_range. }
  destruct pad as [|y pad].
  { rewrite (bind_fault _ _ _ OutOfRange).
    - split; [done|]. rewrite app_nil_r in Hlen. rewrite length_app. cbn. lia.
    - unfold on_rc, wr_valid, rd_valid. rewrite (bind_fault _ _ _ OutOfRange); [done|].
      rewrite (bind_ok _ _ _ _ _ (run_get _)). destruct (Z.ltb_spec (Z.of_nat (length dn)) 0); [lia|].
      rewrite Nat2Z.id. cbn. by rewrite app_nil_r, lookup_ge_None_2 by lia. }
  rewrite length_app in Hlen. cbn in Hlen.
  rewrite (bind_ok _ _ _ tt (laid s ((dn ++ [x]) ++ pad) m)).
  - rewrite u8_small by lia.
    replace (Z.of_nat (length dn) + 1) with (Z.of_nat (length (dn ++ [x]))) by (rewrite length_app; cbn; lia).
    specialize (IH (dn ++ [x]) pad). rewrite <-!(app_assoc dn [x]) in *. cbn [app] in *. apply IH.
    rewrite length_app. cbn. lia.
  - unfold on_rc. assert (wp (wr_valid (Z.of_nat (length dn)) x)
      (λ _ p, p = sib_rc (laid s ((dn ++ [x]) ++ pad) m)) (sib_rc (laid s (dn ++ y :: pad) m)))
      as ([] & p & -> & ->)%wp_run.
    { apply wp_wr_valid; [cbn; rewrite length_app; cbn; lia|]. rewrite Nat2Z.id.
      rewrite <-app_assoc, <-(insert_laid _ y). reflexivity. }
    done.
Qed.

Lemma lay_out_spec (l : list Z) phys s dn pad m :
  (∀ i, i ∈ phys → validPhyRateCount (sib_phy s) !! Z.to_nat i = Some (Z.of_nat (length (of_phy i l))) ∧
     ∃ pad, validPhyRateIndex (sib_phy s) !! Z.to_nat i = Some (of_phy i l ++ pad)) →
  length (dn ++ pad) = 46%nat →
  match lay_out phys t (Z.of_nat (length dn)) (laid s (dn ++ pad) m) with
  | Ok (k, s') => ∃ pad' m', let r := dn ++ concat (map (λ i, of_phy i l) phys) in
      s' = laid s (r ++ pad') m' ∧ k = Z.of_nat (length r) ∧ length (r ++ pad') = 46%nat
  | Fault f => f = OutOfRange ∧ 46 < Z.of_nat (length (dn ++ concat (map (λ i, of_phy i l) phys)))
  end.
Proof.
  revert dn pad m. induction phys as [|i phys IH]; intros dn pad m Hph Hlen; cbn [lay_out map concat].
  { exists pad, m. by rewrite app_nil_r. }
  destruct (Hph i ltac:(by left)) as (Hc & row & Hr).
  rewrite (bind_ok _ _ _ (Z.of_nat (length (of_phy i l))) (laid s (dn ++ pad) m)).
  2: { unfold rd_count. rewrite (bind_ok _ _ _ _ _ (run_get _)). by apply run_in_range. }
  assert (Forall2 (λ j x, 0 <= j ∧ (of_phy i l ++ row) !! Z.to_nat j = Some x)
    (seqZ 0 (Z.of_nat (length (of_phy i l)))) (of_phy i l)) as Hrows.
  { apply Forall2_same_length_lookup_2; [rewrite length_seqZ; lia|].
    intros k j x [-> Hk]%lookup_seqZ Hx. split; [lia|]. rewrite Z.add_0_l, Nat2Z.id.
    by apply lookup_app_l_Some. }
  pose proof (lay_out_phy_spec i _ _ _ s dn pad m Hr Hrows Hlen) as H.
  unfold mbind at 1, M_bind at 1. destruct (lay_out_phy _ _ _ _) as [[k s']|f].
  2: { destruct H as [-> H]. split; [done|]. rewrite app_assoc, length_app. lia. }
  destruct H as (pad' & -> & -> & Hlen').
  assert (∃ m', (when (rcIsValidPhyRate i (initialRateMax t) true && negb (Z.of_nat (length (of_phy i l)) =? 0))
    (x ← rd_phyrate i (Z.of_nat (length (of_phy i l)) - 1); on_rc (modify (λ p, p <| rateMaxPhy := x |>))))
    (laid s ((dn ++ of_phy i l) ++ pad') m) = Ok (tt, laid s ((dn ++ of_phy i l) ++ pad') m')) as [m' E].
  { destruct (_ && _) eqn:Hb; [|by exists m]. apply andb_true_iff in Hb as [_ Hb%negb_true_iff%Z.eqb_neq].
    destruct (lookup_lt_is_Some_2 (of_phy i l) (Z.to_nat (Z.of_nat (length (of_phy i l)) - 1))) as [x Hx]; [lia|].
    exists x. cbn [when]. rewrite (bind_ok _ _ _ x (laid s ((dn ++ of_phy i l) ++ pad') m)); [done|].
    unfold rd_phyrate. rewrite (bind_ok _ _ _ _ _ (run_get _)).
    rewrite (bind_ok _ _ _ _ _ (run_in_range _ _ _ (Hr : validPhyRateIndex (sib_phy (laid s _ _)) !! _ = _))).
    destruct (Z.ltb_spec (Z.of_nat (length (of_phy i l)) - 1) 0); [lia|].
    apply run_in_range. by apply lookup_app_l_Some. }
  rewrite (bind_ok _ _ _ _ _ E). rewrite app_assoc. apply IH; [|done].
  intros i' Hi'. apply Hph. by right.
Qed.

(** The rows found are laid out phy by phy: the same rows in another order. *)
Lemma by_phy_perm l :
  Forall (λ j, 0 <= row_phy t j < 12) l → concat (map (λ i, of_phy i l) (seqZ 0 12)) ≡ₚ l.
Proof.
  intros Hl. assert (∀ phys, NoDup phys →
    concat (map (λ i, of_phy i l) phys) ≡ₚ filter (λ j, row_phy t j ∈ phys) l) as H.
  { induction 1 as [|i phys Hi Hnd IH]; cbn.
    - induction l as [|j l IHl]; [done|]. rewrite filter_cons, decide_False by set_solver.
      apply IHl. by inversion Hl.
    - rewrite IH. clear IH Hl. induction l as [|j l IHl]; [done|].
      unfold of_phy in *. rewrite !filter_cons. destruct (decide (row_phy t j = i)) as [E|E].
      + rewrite (decide_False (P := row_phy t j ∈ phys)) by congruence.
        rewrite (decide_True (P := row_phy t j ∈ i :: phys)) by (rewrite E; by left).
        cbn. by rewrite IHl.
      + destruct (decide (row_phy t j ∈ phys)) as [E'|E'].
        * rewrite (decide_True (P := row_phy t j ∈ i :: phys)) by (by right).
          by rewrite <-IHl, Permutation_middle.
        * rewrite (decide_False (P := row_phy t j ∈ i :: phys)) by (by intros [?|?]%elem_of_cons).
          done. }
  rewrite H by apply NoDup_seqZ. clear H.
  induction Hl as [|j l Hj Hl IHl]; [done|]. rewrite filter_cons, decide_True by (apply elem_of_seqZ; lia).
  by rewrite IHl.
Qed.
(** *** The whole function *)

(** The record before the rates are chosen: all the array cleared. *)
Lemma clear_valid n p :
  length (validRateIndex p) = n → 
  ∃ p', for_each (seqZ 0 (Z.of_nat n)) (λ i, wr_valid i 0) p = Ok (tt, p') ∧
    length (validRateIndex p') = n ∧ untouched p' = untouched p ∧ rcPhyMode p' = rcPhyMode p.
Proof.
  intros Hn. assert (wp (for_each (seqZ 0 (Z.of_nat n)) (λ i, wr_valid i 0))
    (λ _ p', length (validRateIndex p') = n ∧ untouched p' = untouched p ∧ rcPhyMode p' = rcPhyMode p) p)
    as ([] & p' & E & H)%wp_run; [|by exists p'].
  apply (wp_for_each (λ p', length (validRateIndex p') = n ∧ untouched p' = untouched p ∧ rcPhyMode p' = rcPhyMode p)).
  - intros i p' Hi%elem_of_seqZ (Hl & Hu & Hm). apply wp_wr_valid; [lia|]. split_and!; [|done..].
    cbn. by rewrite length_insert.
  - done.
Qed.
Lemma clear_per p :
  length (rc_per p) = 46%nat →
  ∃ p', for_each (seqZ 0 46) (λ i, wr_per i 0) p = Ok (tt, p') ∧ rc_per p' = replicate 46 0 ∧ p' <| rc_per := rc_per p |> = p.
Proof.
  intros Hn. assert (wp (for_each (seqZ 0 46) (λ i, wr_per i 0))
    (λ _ p', length (rc_per p') = 46%nat ∧ p' <| rc_per := rc_per p |> = p ∧
       ∀ i, i ∈ seqZ 0 46 → rc_per p' !! Z.to_nat i = Some 0) p)
    as ([] & p' & E & Hl & Hp & H)%wp_run.
  { apply (wp_for_each_acc (λ dn p', length (rc_per p') = 46%nat ∧ p' <| rc_per := rc_per p |> = p ∧
      ∀ i, i ∈ dn → rc_per p' !! Z.to_nat i = Some 0)).
    - intros dn i rest p' Hdn (Hl & Hp & H). assert (i ∈ seqZ 0 46) as Hi%elem_of_seqZ by (rewrite Hdn; set_solver).
      apply wp_wr_per; [lia|]. split_and!; [cbn; by rewrite length_insert|done|].
      intros i' Hi'. cbn. destruct (decide (i' = i)) as [->|Hne].
      + apply list_lookup_insert_eq. lia.
      + assert (i' ∈ dn) as Hdn' by set_solver. 
        assert (i' ∈ seqZ 0 46) as Hr%elem_of_seqZ by (rewrite Hdn; set_solver).
        rewrite list_lookup_insert_ne by lia. by apply H.
    - split_and!; [done|by destruct p|set_solver]. }
  exists p'. split_and!; [done| |done]. symmetry. apply replicate_as_elem_of. split; [done|]. intros x [i Hx]%list_elem_of_lookup.
  pose proof (lookup_lt_Some _ _ _ Hx) as Hi.
  specialize (H (Z.of_nat i)). rewrite Nat2Z.id, Hx in H.
  assert (Some x = Some 0) as [= ->]; [|done]. apply H. apply elem_of_seqZ. lia.
Qed.
Lemma on_rc_ok {A} (m : RCM A) s a p : m (sib_rc s) = Ok (a, p) → on_rc m s = Ok (a, s <| sib_rc := p |>).
Proof. unfold on_rc. by intros ->. Qed.
Lemma on_rc_fault {A} (m : RCM A) s f : m (sib_rc s) = Fault f → on_rc m s = Fault f.
Proof. unfold on_rc. by intros ->. Qed.
Lemma on_rc_for_each {A} (l : list A) (body : A → RCM unit) s :
  for_each l (λ i, on_rc (body i)) s = on_rc (for_each l body) s.
Proof.
  revert s. induction l as [|x l IH]; intros s; cbn [for_each]; [by destruct s|].
  unfold mbind, M_bind. unfold on_rc at 1 3. destruct (body x (sib_rc s)) as [[[] p]|]; [|done].
  rewrite IH. unfold on_rc. cbn. destruct (for_each l body p) as [[[] p']|]; [|done]. by destruct s.
Qed.

Lemma selected_rows nstbc capflag rs :
  Forall (λ j, 0 <= j < rateCount t ∧ 0 <= row_phy t j < 12) (selected t nstbc capflag rs).
Proof.
  assert (∀ c, Forall (λ j, 0 <= j < rateCount t ∧ 0 <= row_phy t j < 12) (rows_where t c)) as H.
  { intros c. unfold rows_where. apply Forall_forall. intros j [Hc Hj%elem_of_seqZ]%list_elem_of_filter.
    split; [lia|]. unfold row_phy. destruct (rt_info t !! Z.to_nat j) as [r|] eqn:Hr; [|done].
    destruct Ht as (_ & _ & Hphy). by apply (Forall_lookup_1 _ _ _ _ Hphy Hr). }
  assert (∀ c rs, Forall (λ j, 0 <= j < rateCount t ∧ 0 <= row_phy t j < 12) (selected_by t c rs)) as H'.
  { intros c rs'. unfold selected_by. induction (announced rs'); cbn; [constructor|].
    by apply Forall_app. }
  unfold selected. destruct rs as [r|]; [|done]. destruct (_ =? 0); [done|].
  apply Forall_app. split; [done|]. by destruct (tst _ _).
Qed.
Lemma top_row_ge l j : j ∈ l → j <= top_row l.
Proof. unfold top_row. induction 1; cbn; lia. Qed.
Lemma top_row_lt l b : Forall (λ j, 0 <= j < b) l → 0 < b → 0 <= top_row l < b.
Proof. unfold top_row. induction 1; cbn; lia. Qed.

(** The start: everything cleared, nothing found. *)
Lemma found_start p :
  length (validRateIndex p) = 46%nat → found (mk_sib p psc_zero 0) (untouched p) [] [].
Proof.
  intros Hp. split; [done| | |done|done|done].
  - intros i Hi. change (validPhyRateCount (sib_phy (mk_sib p psc_zero 0))) with (replicate 12 0).
    apply lookup_replicate_2. lia.
  - intros i Hi. exists (replicate 46 0). split; [|done].
    change (validPhyRateIndex (sib_phy (mk_sib p psc_zero 0))) with (replicate 12 (replicate 46 0)).
    apply lookup_replicate_2. lia.
Qed.

(** From the rates found to the finished record. *)
Lemma sib_finish l hi s u l' :
  found s u l l' → hi = top_row l → u = untouched (sib_rc s) →
  Forall (λ j, 0 <= j < rateCount t ∧ 0 <= row_phy t j < 12) l →
  let m := (on_rc (modify (λ p, p <| rateTableSize := u8 (hi + 1) |> <| rateMaxPhy := 0 |>)) ;;
    k ← lay_out (seqZ 0 WLAN_RC_PHY_MAX) t 0;
    on_rc (x ← rd_valid (k - 4); modify (λ p, p <| rateMaxPhy := x |> <| maxValidRate := k |>)) ;;
    on_rc (rcSortValidRates t)) in
  (4 <= Z.of_nat (length l) <= 46 →
   ∃ s', m s = Ok (tt, s') ∧ let p := sib_rc s in let p' := sib_rc s' in
     valid_rates p' ≡ₚ l ∧ Sorted (slower t) (valid_rates p') ∧
     maxValidRate p' = Z.of_nat (length l) ∧ rateMaxPhy p' ∈ l ∧ rateTableSize p' = top_row l + 1 ∧
     length (validRateIndex p') = 46%nat ∧
     rc_per p' = rc_per p ∧ probeRate p' = probeRate p ∧ hwMaxRetryPktCnt p' = hwMaxRetryPktCnt p) ∧
  (Z.of_nat (length l) < 4 ∨ 46 < Z.of_nat (length l) → m s = Fault OutOfRange).
Proof.
  intros Hf -> -> Hl m. destruct Ht as (Hn & Hle & _).
  set (s1 := s <| sib_rc ::= λ p, p <| rateTableSize := u8 (top_row l + 1) |> |>).
  assert (m s = (k ← lay_out (seqZ 0 WLAN_RC_PHY_MAX) t 0;
    on_rc (x ← rd_valid (k - 4); modify (λ p, p <| rateMaxPhy := x |> <| maxValidRate := k |>)) ;;
    on_rc (rcSortValidRates t)) (laid s1 (validRateIndex (sib_rc s1)) 0)) as Em by (subst m s1; clear; by destruct s as [[] ? ?]).
  rewrite Em. clear Em m.
  pose proof (lay_out_spec l (seqZ 0 12) s1 [] (validRateIndex (sib_rc s1)) 0) as H.
  cbn [app length] in H. specialize (H ltac:(
    intros i Hi%elem_of_seqZ; split; [apply (fd_count _ _ _ _ Hf); lia|];
    destruct (fd_index _ _ _ _ Hf i) as (pad & Hx & _); [lia|]; by exists pad) (fd_mask _ _ _ _ Hf)).
  assert (concat (map (λ i, of_phy i l) (seqZ 0 12)) ≡ₚ l) as Hperm.
  { apply by_phy_perm. eapply Forall_impl; [exact Hl|]. by intros j [_ ?]. }
  revert H Hperm. generalize (concat (map (λ i, of_phy i l) (seqZ 0 12))) as r. intros r H Hperm.
  assert (length r = length l) as Hlen by (by rewrite Hperm).
  change (seqZ 0 WLAN_RC_PHY_MAX) with (seqZ 0 12). change (Z.of_nat 0) with 0 in H.
  destruct (lay_out _ _ _ _) as [[k s2]|f] eqn:E0.
  2: { destruct H as [-> H]. rewrite (bind_fault _ _ _ _ E0). split; [lia|done]. }
  rewrite (bind_ok _ _ _ _ _ E0).
  destruct H as (pad & m' & -> & -> & H46). rewrite length_app in H46. split; [|intros [Hs|]; [|lia]].
  2: { rewrite (bind_fault _ _ _ OutOfRange); [done|]. apply on_rc_fault, bind_fault. unfold rd_valid.
       rewrite (bind_ok _ _ _ _ _ (run_get _)). destruct (Z.ltb_spec (Z.of_nat (length r) - 4) 0); [done|lia]. }
  intros Hr. set (p2 := sib_rc (laid s1 (r ++ pad) m')).
  destruct (lookup_lt_is_Some_2 r (Z.to_nat (Z.of_nat (length r) - 4))) as [x Hx]; [lia|].
  set (p3 := p2 <| rateMaxPhy := x |> <| maxValidRate := Z.of_nat (length r) |>).
  assert ((x ← rd_valid (Z.of_nat (length r) - 4);
     modify (λ p, p <| rateMaxPhy := x |> <| maxValidRate := Z.of_nat (length r) |>)) p2 = Ok (tt, p3)) as E.
  { rewrite (bind_ok _ _ _ x p2); [done|]. unfold rd_valid. rewrite (bind_ok _ _ _ _ _ (run_get _)).
    destruct (Z.ltb_spec (Z.of_nat (length r) - 4) 0); [lia|]. apply run_in_range. by apply lookup_app_l_Some. }
  rewrite (bind_ok _ _ _ _ _ (on_rc_ok _ _ _ _ E)).
  assert (valid_rates p3 = r) as Hv.
  { change (take (Z.to_nat (Z.of_nat (length r))) (r ++ pad) = r). by rewrite Nat2Z.id, take_app_length. }
  destruct (sort_spec t p3) as (l1 & E1 & Hp1 & Hs1).
  - change (1 <= Z.of_nat (length r) <= 46). lia.
  - change (Z.of_nat (length r) <= Z.of_nat (length (r ++ pad))). rewrite length_app. lia.
  - rewrite Hv, Hperm. eapply Forall_impl; [exact Hl|]. intros j Hj. cbv beta in Hj. unfold in_table. lia.
  - set (p4 := p3 <| validRateIndex := _ |>) in E1.
    exists (laid s1 (r ++ pad) m' <| sib_rc := p3 |> <| sib_rc := p4 |>).
    split; [by apply on_rc_ok|]. cbv zeta.
    change (sib_rc (laid s1 (r ++ pad) m' <| sib_rc := p3 |> <| sib_rc := p4 |>)) with p4.
    assert (length l1 = length r) as Hl1 by (by rewrite Hp1, Hv).
    assert (valid_rates p4 = l1) as ->.
    { apply valid_rates_put; [by rewrite Hv|].
      change (Z.of_nat (length r) <= Z.of_nat (length (r ++ pad))). rewrite length_app. lia. }
    rewrite Hv in Hp1. split_and!; [by rewrite Hp1|done|by rewrite <-Hlen| | | |done..].
    + change (x ∈ l). rewrite <-Hperm. by apply list_elem_of_lookup_2 in Hx.
    + change (u8 (top_row l + 1) = top_row l + 1). apply u8_small.
      assert (0 <= top_row l < rateCount t); [|lia]. apply top_row_lt; [|].
      * eapply Forall_impl; [exact Hl|]. by intros j [? _].
      * destruct l as [|j l0]; [cbn in *; lia|]. apply Forall_cons in Hl as [? _]. lia.
    + cbn [validRateIndex]. change (length (l1 ++ drop (Z.to_nat (Z.of_nat (length r))) (r ++ pad)) = 46%nat).
      rewrite Nat2Z.id, drop_app_length, length_app. lia.
Qed.
(** The record as the rates are chosen: the estimates and the array cleared. *)
Lemma sib_start nstbc capflag rs p :
  length (rc_per p) = 46%nat → length (validRateIndex p) = 46%nat →
  ∃ p1, rc_per p1 = replicate 46 0 ∧
    length (validRateIndex p1) = 46%nat ∧ probeRate p1 = probeRate p ∧
    hwMaxRetryPktCnt p1 = hwMaxRetryPktCnt p ∧
    sib_update t nstbc capflag false rs (mk_sib p psc_zero 0) =
    (hi ← sib_rates t nstbc capflag rs;
     on_rc (modify (λ p, p <| rateTableSize := u8 (hi + 1) |> <| rateMaxPhy := 0 |>)) ;;
     k ← lay_out (seqZ 0 WLAN_RC_PHY_MAX) t 0;
     on_rc (x ← rd_valid (k - 4);
            modify (λ p, p <| rateMaxPhy := x |> <| maxValidRate := k |>)) ;;
     on_rc (rcSortValidRates t)) (mk_sib p1 psc_zero 0).
Proof.
  intros Hp Hv. unfold sib_update.
  destruct (clear_per (p <| rateTableSize := MAX_TX_RATE_TBL |>)) as (p1 & E1 & Hz1 & H1); [done|].
  destruct (clear_valid 46 p1) as (p2 & E2 & Hl2 & Hu2 & _).
  { rewrite <-Hv. by rewrite (f_equal validRateIndex H1 : validRateIndex p1 = validRateIndex p). }
  injection Hu2 as Hper Hsz Hpr Hcnt.
  exists (p2 <| rcPhyMode := u8 (capflag .& WLAN_RC_40_FLAG) |>).
  split_and!; [cbn; by rewrite Hper|done
    |cbn; rewrite Hpr; exact (f_equal probeRate H1)|cbn; rewrite Hcnt; exact (f_equal hwMaxRetryPktCnt H1)|].
  rewrite (bind_ok _ _ _ tt (mk_sib (p <| rateTableSize := MAX_TX_RATE_TBL |>) psc_zero 0)) by done.
  rewrite (bind_ok _ _ _ tt (mk_sib p1 psc_zero 0)).
  2: { cbn [negb when]. rewrite on_rc_for_each.
       exact (on_rc_ok _ (mk_sib _ psc_zero 0) _ _ E1). }
  rewrite (bind_ok _ _ _ tt (mk_sib p2 psc_zero 0)); [done|].
  assert (rcInitValidTxMask p1 = Ok (tt, p2)) as E.
  { unfold rcInitValidTxMask. rewrite (bind_ok _ _ _ _ _ (run_get _)).
    by rewrite (f_equal rateTableSize H1 : rateTableSize p1 = 46). }
  unfold on_rc. cbn [sib_rc]. by rewrite E.
Qed.
End build.

(** The two tables of the program satisfy the assumption. *)
Lemma rate_tables_ok mode : table_ok (ar5416AttachRateTables mode).
Proof.
  assert (table_ok ar5416_11ngRateTable ∧ table_ok ar5416_11naRateTable) as [Hg Ha].
  { split; (split; [done|split; [by vm_compute|]]); eapply bool_decide_unpack; vm_compute; exact I. }
  by destruct mode.
Qed.

(** C29: a new station. Whatever rates the station announced, [rcSibUpdate_ht] leaves a
    well-formed record whose valid rates are exactly the rows of the table that the
    announcement selects, with the highest of them as its size and every error estimate
    (per) 0; but if the announcement selects fewer than four rows, or more than the array holds
    (the station may repeat a rate), the function leaves the array: it faults. The table is one
    of the program's kind ([table_ok]), the counts of the announced rate sets do not pass the end
    of their arrays ([rates_ok]), and no probe is under way ([probeRate] is 0). *)
Theorem rcSibUpdate_ht_new t nstbc capflag rs p :
  table_ok t → rates_ok rs →
  length (rc_per p) = 46%nat → length (validRateIndex p) = 46%nat →
  probeRate p = 0 → 0 <= hwMaxRetryPktCnt p <= 255 →
  let l := selected t nstbc capflag rs in
  (4 <= Z.of_nat (length l) <= 46 →
   ∃ p', rcSibUpdate_ht t nstbc capflag false rs p = Ok (tt, p') ∧ trc_wf t p' ∧
     valid_rates p' ≡ₚ l ∧ rateTableSize p' = foldr Z.max 0 l + 1 ∧ rc_per p' = replicate 46 0 ∧
     probeRate p' = 0) ∧
  (Z.of_nat (length l) < 4 ∨ 46 < Z.of_nat (length l) →
   rcSibUpdate_ht t nstbc capflag false rs p = Fault OutOfRange).
Proof.
  intros Ht Hrs Hp Hv Hpr Hcnt l.
  destruct (sib_start t Ht nstbc capflag rs p Hp Hv) as (p1 & Hz1 & Hv1 & Hpr1 & Hcnt1 & E).
  pose proof (selected_rows t Ht nstbc capflag rs) as Hl. fold l in Hl.
  pose proof (sib_rates_finds t Ht nstbc capflag rs _ _ Hrs (found_start t p1 Hv1)) as H. fold l in H.
  unfold rcSibUpdate_ht. rewrite E. clear E.
  destruct (sib_rates _ _ _ _ _) as [[hi s']|f] eqn:E1.
  2: { destruct H as [-> H]. rewrite (bind_fault _ _ _ _ E1). split; [lia|done]. }
  destruct H as [[l' Hf] Hhi]. rewrite (bind_ok _ _ _ _ _ E1).
  pose proof (fd_rest _ _ _ _ _ Hf) as Hu. injection Hu as Hper Hsz Hpr2 Hcnt2.
  destruct (sib_finish t Ht l hi s' _ l' Hf Hhi) as [Hok Hbad]; [symmetry; apply Hf|done|].
  split.
  - intros Hn. destruct (Hok Hn) as (s2 & E2 & Hval & Hsort & Hmax & Hmx & Hsize & Hlen & Hper2 & Hpr3 & Hcnt3).
    rewrite E2. exists (sib_rc s2). split; [done|]. destruct Ht as (Hrc & Hle & _).
    assert (0 <= top_row l < rateCount t) as Htop.
    { apply top_row_lt; [eapply Forall_impl; [exact Hl|]; by intros j [? _]|].
      destruct l as [|j l0]; [cbn in *; lia|]. apply Forall_cons in Hl as [? _]. lia. }
    assert (rc_per (sib_rc s2) = replicate 46 0) as Hz by congruence.
    split_and!; [|done|done|done|congruence]. split; try congruence; try lia.
    + by rewrite Hz.
    + rewrite Hz. by apply Forall_replicate.
    + rewrite Hval. apply Forall_forall. intros j Hj. pose proof (top_row_ge _ _ Hj).
      rewrite (Forall_forall _ l) in Hl. destruct (Hl j Hj). lia.
    + by rewrite Hval.
  - intros Hn. by rewrite Hbad.
Qed.

(** An access point of the 2.4 GHz band that announces the twelve legacy rates, and one
    that announces three. *)
Definition legacy_rates : list Z := [2; 4; 11; 22; 12; 18; 24; 36; 48; 72; 96; 108].
Definition legacy_station (n : Z) : ieee80211_rate :=
  mk_rate (mk_rateset n (legacy_rates ++ replicate 18 0)) (mk_rateset 0 (replicate 30 0)).
Lemma rcSibUpdate_ht_new_witness :
  (∃ p', rcSibUpdate_ht ar5416_11ngRateTable 0 0 false (Some (legacy_station 12)) trc_zero = Ok (tt, p') ∧
     trc_wf ar5416_11ngRateTable p' ∧ valid_rates p' ≡ₚ [0; 1; 2; 3; 6; 7; 8; 9; 10; 11]) ∧
  rcSibUpdate_ht ar5416_11ngRateTable 0 0 false (Some (legacy_station 3)) trc_zero = Fault OutOfRange.
Proof.
  assert (table_ok ar5416_11ngRateTable) as Ht.
  { apply (rate_tables_ok IEEE80211_MODE_11NG). }
  split.
  - destruct (rcSibUpdate_ht_new ar5416_11ngRateTable 0 0 (Some (legacy_station 12)) trc_zero)
      as [H _]; [done|by vm_compute|done..|].
    destruct H as (p' & E & Hwf & Hv & _); [by vm_compute|]. exists p'. split; [exact E|]. split; [exact Hwf|].
    vm_compute (selected _ _ _ _) in Hv. exact Hv.
  - apply (rcSibUpdate_ht_new ar5416_11ngRateTable 0 0 (Some (legacy_station 3)) trc_zero);
      [done|by vm_compute|done..|]. left. by vm_compute.
Defined.
