(* ===== verification/HtcProps.v ===== *)
(** * Properties of HTC: credits and their trailers *)

From S2P Require Import Prelude.
From S2P Require Import NBufProps.
From S2P Require Import Htc.

(** ** Thresholds *)

(** ** The trailer *)

(** [buf] takes [k] more pieces of two bytes, the first at address [a]; the heap becomes
    [n']. *)
Fixpoint puts (n : nb_state) (buf a : Z) (k : nat) (n' : nb_state) : Prop :=
  match k with
  | O => n' = n
  | S k => ∃ n1, adf_nbuf_put_tail buf 2 n = Ok (a, n1) ∧ puts n1 buf (a + 2) k n'
  end.

Lemma puts_fun n buf a k n1 n2 : puts n buf a k n1 → puts n buf a k n2 → n1 = n2.
Proof.
  revert n a. induction k as [|k IH]; intros n a; cbn [puts]; [by intros -> ->|].
  intros (m & E & H) (m' & E' & H'). rewrite E in E'. injection E' as <-. eauto.
Qed.

(** An nbuf takes what its last descriptor has addresses for. *)
Lemma puts_chain k s buf b l d dd :
  nbuf_chain s buf b (l ++ [d]) → vdescs s !! d = Some dd →
  let a := buf_addr dd + data_offset dd + data_size dd in
  0 <= a → a + 2 * Z.of_nat k < 4294967296 → 0 <= data_size dd →
  data_size dd + 2 * Z.of_nat k < 65536 →
  ∃ s' b', puts s buf a k s' ∧ nbuf_chain s' buf b' (l ++ [d]) ∧
    u16 (buf_length b') = u16 (buf_length b + 2 * Z.of_nat k).
Proof.
  revert s b dd. induction k as [|k IH]; intros s b dd Hc Hd a Ha Hmax Hsz Hsm; cbn [puts].
  { exists s, b. split_and!; [done|done|]. f_equal. lia. }
  pose proof Hc as [Hb Hl].
  set (s1 := s <| vdescs ::= <[d := dd <| data_size ::= λ n, u16 (n + 2) |>]> |>
               <| vbufs ::= <[buf := b <| buf_length ::= λ n, u16 (n + 2) |>]> |>).
  assert (adf_nbuf_put_tail buf 2 s = Ok (a, s1)) as Hput.
  { unfold adf_nbuf_put_tail.
    erewrite bind_ok by by eapply adf_nbuf_last_spec.
    erewrite bind_ok by by apply run_rd_vdesc. erewrite bind_ok by by apply run_upd_vdesc.
    erewrite bind_ok by (apply run_upd_vbuf; exact Hb).
    rewrite u32_small by lia. reflexivity. }
  set (dd' := dd <| data_size ::= λ n, u16 (n + 2) |>).
  assert (data_size dd' = data_size dd + 2) as Hs' by (unfold dd'; cbn; apply u16_small; lia).
  destruct (IH s1 (b <| buf_length ::= λ n, u16 (n + 2) |>) dd') as (s' & b' & Hp & Hc' & Hlen).
  - split; [cbn; by rewrite lookup_insert_eq|]. eapply lchain_ext; [|exact Hl].
    intros x _. unfold dnext, s1. cbn. destruct (decide (x = d)) as [->|].
    + by rewrite lookup_insert_eq, Hd.
    + by rewrite lookup_insert_ne.
  - unfold s1. cbn. by rewrite lookup_insert_eq.
  - rewrite Hs'. cbn. lia.
  - rewrite Hs'. cbn. lia.
  - rewrite Hs'. lia.
  - rewrite Hs'. lia.
  - exists s', b'. split_and!; [|done|].
    + exists s1. split; [done|]. replace (a + 2) with (buf_addr dd' + data_offset dd' + data_size dd')
        by (rewrite Hs'; cbn; lia). done.
    + rewrite Hlen. cbn. unfold u16. rewrite Zplus_mod_idemp_l. f_equal. lia.
Qed.

Section trailer.
Context {APP : Type}.
Abbreviation HT := (M (htc_state APP)).
Implicit Type s : htc_state APP.

Lemma run_hnb {A} (m : NB A) s a n :
  m (h_nb s) = Ok (a, n) → hnb m s = Ok (a, s <| h_nb := n |>).
Proof. intros H. unfold hnb. by rewrite H. Qed.
Lemma run_hwr8 a v s : hwr8 a v s = Ok (tt, s <| h_mem ::= <[a := u8 v]> |>).
Proof. done. Qed.
Lemma run_hrd8 a s : hrd8 a s = Ok (default 0 (h_mem s !! a), s).
Proof. done. Qed.
Lemma run_rd_ep i e s : Endpoints s !! Z.to_nat i = Some e → rd_ep i s = Ok (e, s).
Proof. intros H. unfold rd_ep. run. by rewrite H. Qed.
Lemma run_upd_ep i f e s :
  Endpoints s !! Z.to_nat i = Some e →
  upd_ep i f s = Ok (tt, s <| Endpoints ::= <[Z.to_nat i := f e]> |>).
Proof. intros H. unfold upd_ep. by erewrite bind_ok by by apply run_rd_ep. Qed.

(** The endpoints with pending credits, from number [i] on. *)
Definition pending_eps (map i : Z) : list Z := filter (λ j, Z.testbit map j = true) (seqZ i (32 - i)).
Definition credit_of (eps : list HTC_ENDPOINT) (i : Z) : Z :=
  default 0 (CreditsToReturn <$> eps !! Z.to_nat i).
(** What a report does to its endpoint. *)
Definition reported (e : HTC_ENDPOINT) : HTC_ENDPOINT :=
  CHECK_AND_ADJUST_CREDIT_THRESHOLD (e <| CreditsToReturn := 0 |>).

(** Reports of [ids] at address [a]: two bytes each, endpoint number and credits. *)
Fixpoint reports_at (mem : gmap Z Z) (a : Z) (ids : list Z) (eps : list HTC_ENDPOINT) : Prop :=
  match ids with
  | [] => True
  | i :: ids => mem !! a = Some (u8 i) ∧ mem !! (a + 1) = Some (u8 (credit_of eps i)) ∧
                reports_at mem (a + 2) ids eps
  end.

(** The outcome of reporting [ids] in [buf], with the reports at [a] and the record header
    at [a - 2] or earlier, at [rec]. *)
Record reported_ids s s' (buf map map' a rec : Z) (ids : list Z) : Prop := {
  ri_mem : reports_at (h_mem s') a ids (Endpoints s);
  ri_frame : ∀ x, x ≠ rec + 1 → x < a ∨ a + 2 * Z.of_nat (length ids) <= x →
             h_mem s' !! x = h_mem s !! x;
  ri_len : h_mem s' !! (rec + 1) =
           if decide (ids = []) then h_mem s !! (rec + 1)
           else Some (u8 (default 0 (h_mem s !! (rec + 1)) + 2 * Z.of_nat (length ids)));
  ri_eps : ∀ j : nat, Endpoints s' !! j =
           (if decide (Z.of_nat j ∈ ids) then reported else id) <$> Endpoints s !! j;
  ri_map : ∀ j, 0 <= j → Z.testbit map' j = Z.testbit map j && negb (bool_decide (j ∈ ids));
  ri_nb : puts (h_nb s) buf a (length ids) (h_nb s');
  ri_rest : EpCreditPendingMap s' = EpCreditPendingMap s ∧ StateFlags s' = StateFlags s ∧
            h_hif s' = h_hif s;
}.

Lemma reported_nil s buf map a rec : reported_ids s s buf map map a rec [].
Proof.
  split; try done.
  - intros j. rewrite decide_False by set_solver. by destruct (Endpoints s !! j).
  - intros j Hj. rewrite bool_decide_false by set_solver. by rewrite andb_true_r.
Qed.

Lemma pending_eps_0 i : pending_eps 0 i = [].
Proof. unfold pending_eps. induction (seqZ i (32 - i)) as [|x l IH]; [done|]. cbn. by rewrite Z.bits_0. Qed.
Lemma pending_eps_end map : pending_eps map 32 = [].
Proof. done. Qed.
Lemma pending_eps_step map i : 0 <= i < 32 →
  pending_eps map i = if Z.testbit map i then i :: pending_eps map (i + 1) else pending_eps map (i + 1).
Proof.
  intros Hi. unfold pending_eps. rewrite (seqZ_cons i) by lia.
  replace (Z.pred (32 - i)) with (32 - (i + 1)) by lia.
  replace (Z.succ i) with (i + 1) by lia. cbn.
  by destruct (Z.testbit map i).
Qed.
Lemma elem_of_pending map i j : j ∈ pending_eps map i → i <= j < 32 ∧ Z.testbit map j = true.
Proof. unfold pending_eps. rewrite list_elem_of_filter, elem_of_seqZ. intros [? ?]. split; [lia|done]. Qed.
Lemma filter_ext_in {A} (P Q : A → Prop) `{!∀ x, Decision (P x), !∀ x, Decision (Q x)} (l : list A) :
  (∀ x, x ∈ l → P x ↔ Q x) → filter P l = filter Q l.
Proof.
  induction l as [|x l IH]; intros Hl; [done|]. rewrite !filter_cons.
  rewrite IH by (intros y Hy; apply Hl; by right).
  assert (P x ↔ Q x) by (apply Hl; by left). by repeat case_decide; try tauto.
Qed.
Lemma pending_eps_clear map i : 0 <= i < 32 →
  pending_eps (map .&~ 2 ^ i) (i + 1) = pending_eps map (i + 1).
Proof.
  intros Hi. apply filter_ext_in. intros j Hj%elem_of_seqZ.
  rewrite testbit_ldiff_pow2, bool_decide_false by lia. by rewrite andb_true_r.
Qed.

(** The loop state: no pending endpoint below [i], endpoints that exist. *)
Definition loop_ok s (map i : Z) : Prop :=
  0 <= i <= 32 ∧ 0 <= map < 2 ^ 32 ∧ (∀ j, 0 <= j < i → Z.testbit map j = false) ∧
  (∀ j, Z.testbit map j = true → (Z.to_nat j < length (Endpoints s))%nat).

Lemma loop_ok_nonzero s map i : loop_ok s map i → map ≠ 0 → i < 32.
Proof.
  intros (Hi & Hm & Hlow & _) Hnz. destruct (Z.eq_dec i 32) as [->|]; [|lia].
  destruct Hnz. apply Z.bits_inj'. intros n Hn. rewrite Z.bits_0.
  destruct (Z.ltb_spec n 32); [apply Hlow; lia|].
  rewrite Z.testbit_eqb by lia. rewrite Z.div_small; [done|]. split; [lia|].
  eapply Z.lt_le_trans; [apply Hm|]. apply Z.pow_le_mono_r; lia.
Qed.
Lemma loop_ok_skip s map i : loop_ok s map i → map ≠ 0 → Z.testbit map i = false → loop_ok s map (i + 1).
Proof.
  intros Hl Hnz Hb. pose proof (loop_ok_nonzero _ _ _ Hl Hnz). destruct Hl as (Hi & Hm & Hlow & He).
  split; [lia|]. split; [lia|]. split; [|done]. intros j Hj.
  destruct (Z.eq_dec j i) as [->|]; [done|apply Hlow; lia].
Qed.
Lemma loop_ok_take s s' map i :
  loop_ok s map i → map ≠ 0 → length (Endpoints s') = length (Endpoints s) →
  loop_ok s' (map .&~ 2 ^ i) (i + 1).
Proof.
  intros Hl Hnz Hlen. pose proof (loop_ok_nonzero _ _ _ Hl Hnz). destruct Hl as (Hi & Hm & Hlow & He).
  assert (0 <= map .&~ 2 ^ i <= map) as Hle.
  { split; [apply Z.ldiff_nonneg; lia|apply Z.ldiff_le; [lia|]].
    apply Z.bits_inj'. intros n Hn. rewrite !Z.ldiff_spec, Z.bits_0. by destruct (Z.testbit map n), (Z.testbit _ n). }
  split; [lia|]. split; [lia|]. split.
  - intros j Hj. rewrite testbit_ldiff_pow2 by lia.
    destruct (Z.eq_dec j i) as [->|]; [by rewrite bool_decide_true, andb_false_r|].
    rewrite Hlow by lia. done.
  - intros j Hj. rewrite Hlen. apply He. rewrite Z.ldiff_spec in Hj. by apply andb_true_iff in Hj as [? _].
Qed.
(** One report: the state after it. *)
Definition after_report s (n1 : nb_state) (a rec i : Z) (e : HTC_ENDPOINT) : htc_state APP :=
  let m := <[a + 1 := u8 (CreditsToReturn e)]> (<[a := u8 i]> (h_mem s)) in
  s <| h_nb := n1 |> <| h_mem := <[rec + 1 := u8 (default 0 (m !! (rec + 1)) + 2)]> m |>
    <| Endpoints ::= <[Z.to_nat i := reported e]> |>.

Lemma reports_at_ext mem a ids eps eps' :
  (∀ j, j ∈ ids → credit_of eps' j = credit_of eps j) →
  reports_at mem a ids eps' → reports_at mem a ids eps.
Proof.
  revert a. induction ids as [|j ids IH]; intros a Hc; cbn; [done|].
  intros (H1 & H2 & H3). split; [done|]. split.
  - rewrite <-Hc by (by left). done.
  - apply IH; [|done]. intros k Hk. apply Hc. by right.
Qed.

Lemma reported_cons s s' n1 buf map map' a rec i e ids :
  0 <= i < 32 → Forall (λ j, i < j) ids → rec + 1 < a →
  Endpoints s !! Z.to_nat i = Some e → adf_nbuf_put_tail buf 2 (h_nb s) = Ok (a, n1) →
  Z.testbit map i = true →
  reported_ids (after_report s n1 a rec i e) s' buf (map .&~ 2 ^ i) map' (a + 2) rec ids →
  reported_ids s s' buf map map' a rec (i :: ids).
Proof.
  intros Hi Hids Hrec He Hput Hbit [Hmem Hfr Hlen Heps Hmap Hnb Hrest].
  assert (i ∉ ids) as Hnin by (intros Hin; rewrite Forall_forall in Hids; specialize (Hids i Hin); lia).
  unfold after_report, field_upd in *.
  cbn [h_nb h_mem Endpoints h_hif EpCreditPendingMap StateFlags] in *.
  split.
  - assert (credit_of (Endpoints s) i = CreditsToReturn e) as Hc by (unfold credit_of; by rewrite He).
    cbn. rewrite Hc. split_and!.
    + rewrite Hfr by lia. rewrite lookup_insert_ne by lia. rewrite lookup_insert_ne by lia.
      by rewrite lookup_insert_eq.
    + rewrite Hfr by lia. rewrite lookup_insert_ne by lia. by rewrite lookup_insert_eq.
    + eapply reports_at_ext; [|exact Hmem].
      intros j Hj. rewrite Forall_forall in Hids. specialize (Hids j Hj). unfold credit_of.
      rewrite list_lookup_insert_ne by lia. done.
  - intros x Hx Hx'. rewrite Hfr by (cbn [length] in *; lia).
    rewrite !lookup_insert_ne by (cbn [length] in *; lia). done.
  - rewrite decide_False by done. rewrite Hlen, lookup_insert_eq.
    rewrite (lookup_insert_ne _ (a + 1)), (lookup_insert_ne _ a) by lia. case_decide; [by subst|].
    f_equal. cbn. unfold u8. rewrite Zplus_mod_idemp_l. f_equal. lia.
  - intros j. rewrite Heps. destruct (decide (j = Z.to_nat i)) as [->|Hj].
    + rewrite list_lookup_insert_eq by (by eapply lookup_lt_Some). rewrite He.
      rewrite Z2Nat.id by lia. rewrite decide_False by done. by rewrite decide_True by (by left).
    + rewrite list_lookup_insert_ne by done. f_equal.
      destruct (decide (Z.of_nat j ∈ ids)) as [Hin|Hin], (decide (Z.of_nat j ∈ i :: ids)) as [Hin'|Hin'];
        try done.
      * destruct Hin'. by right.
      * apply elem_of_cons in Hin' as [?|?]; [lia|done].
  - intros j Hj. rewrite Hmap by done. rewrite testbit_ldiff_pow2 by lia.
    rewrite <-andb_assoc. f_equal. rewrite <-negb_orb. f_equal.
    rewrite <-bool_decide_or. apply bool_decide_ext. by rewrite elem_of_cons.
  - cbn. eauto.
  - done.
Qed.
Lemma report_step s n1 (buf a rec i : Z) e :
  0 <= i < 32 → rec + 1 < a → Endpoints s !! Z.to_nat i = Some e →
  adf_nbuf_put_tail buf 2 (h_nb s) = Ok (a, n1) →
  ∀ {A} (k : HT A),
  (rpt ← hnb (adf_nbuf_put_tail buf sizeof_CREDIT_REPORT);
   hwr8 rpt i ;;
   e ← rd_ep i;
   hwr8 (rpt + 1) (CreditsToReturn e) ;;
   upd_ep i (λ e, CHECK_AND_ADJUST_CREDIT_THRESHOLD (e <| CreditsToReturn := 0 |>)) ;;
   len ← hrd8 (rec + 1);
   hwr8 (rec + 1) (len + sizeof_CREDIT_REPORT) ;; k) s = k (after_report s n1 a rec i e).
Proof.
  intros Hi Hrec He Hput A k.
  erewrite bind_ok by (apply run_hnb; exact Hput). rewrite (bind_ok _ _ _ _ _ (run_hwr8 _ _ _)).
  erewrite bind_ok by (apply run_rd_ep; exact He). rewrite (bind_ok _ _ _ _ _ (run_hwr8 _ _ _)).
  erewrite bind_ok by (apply run_upd_ep; exact He). rewrite (bind_ok _ _ _ _ _ (run_hrd8 _ _)).
  rewrite (bind_ok _ _ _ _ _ (run_hwr8 _ _ _)). reflexivity.
Qed.

Lemma credit_reports_spec fuel i s map room total a buf rec n' :
  loop_ok s map i → fuel = Z.to_nat (32 - i) → rec + 1 < a → 0 <= room →
  puts (h_nb s) buf a (length (take (Z.to_nat (room `div` 2)) (pending_eps map i))) n' →
  let ids := take (Z.to_nat (room `div` 2)) (pending_eps map i) in
  ∃ s' map', credit_reports fuel i buf rec map room total s =
               Ok ((map', total + 2 * Z.of_nat (length ids)), s') ∧
             reported_ids s s' buf map map' a rec ids.
Proof.
  revert i s map room total a. induction fuel as [|fuel IH];
    intros i s map room total a Hl Hf Hrec Hroom Hput ids; cbn [credit_reports].
  all: assert (∀ t, ids = [] → t = total →
      ∃ s' map', (mret (map, t) : HT (Z * Z)) s = Ok ((map', total + 2 * Z.of_nat (length ids)), s') ∧
             reported_ids s s' buf map map' a rec ids) as Hstop
    by (intros t -> ->; exists s, map; split; [rewrite run_ret; do 3 f_equal; cbn; lia|apply reported_nil]).
  all: destruct (Z.eqb_spec map 0) as [->|Hnz]; cbn [negb andb];
    [apply Hstop; [|done]; unfold ids; by rewrite pending_eps_0, take_nil|].
  all: pose proof (loop_ok_nonzero _ _ _ Hl Hnz); pose proof Hl as (Hi & _ & _ & Hep).
  { lia. }
  change sizeof_CREDIT_REPORT with 2. destruct (Z.leb_spec 2 room) as [Hr|Hr].
  2: { apply Hstop; [|done]. unfold ids. by rewrite Z.div_small by lia. }
  rewrite u32_bit, tst_comm, tst_pow2 by lia.
  unfold ids in *. rewrite pending_eps_step in * by lia.
  destruct (Z.testbit map i) eqn:Hbit.
  2: { apply IH; [by apply loop_ok_skip|lia|done|done|done]. }
  destruct (lookup_lt_is_Some_2 _ _ (Hep i Hbit)) as [e He].
  assert (Z.to_nat (room `div` 2) = S (Z.to_nat ((room - 2) `div` 2))) as Hdiv
    by (replace room with (room - 2 + 1 * 2) at 1 by lia; rewrite Z.div_add by lia;
        pose proof (Z.div_pos (room - 2) 2); lia).
  rewrite Hdiv in *. cbn [take] in *. cbn [length puts] in Hput. destruct Hput as (n1 & Hput1 & Hput).
  rewrite (report_step s n1 buf a rec i e) by (done || lia).
  set (s1 := after_report s n1 a rec i e).
  assert (loop_ok s1 (map .&~ 2 ^ i) (i + 1)) as Hl1.
  { eapply loop_ok_take; [done|done|]. unfold s1, after_report. cbn. by rewrite length_insert. }
  set (ids' := take (Z.to_nat ((room - 2) `div` 2)) (pending_eps map (i + 1))) in *.
  assert (Forall (λ j, i < j) ids') as Hids.
  { apply Forall_take, Forall_forall. intros j [? ?]%elem_of_pending. lia. }
  assert (∃ s' map', (if room - 2 <? 2 then mret (map .&~ 2 ^ i, total + 2)
            else credit_reports fuel (i + 1) buf rec (map .&~ 2 ^ i) (room - 2) (total + 2)) s1 =
            Ok (map', total + 2 + 2 * Z.of_nat (length ids'), s') ∧
          reported_ids s1 s' buf (map .&~ 2 ^ i) map' (a + 2) rec ids') as (s' & map' & Hrun & Hrep).
  { destruct (Z.ltb_spec (room - 2) 2) as [Hlt|Hge].
    - assert (ids' = []) as -> by (unfold ids'; by rewrite Z.div_small by lia).
      exists s1, (map .&~ 2 ^ i). split; [rewrite run_ret; do 3 f_equal; cbn; lia|apply reported_nil].
    - pose proof (IH (i + 1) s1 (map .&~ 2 ^ i) (room - 2) (total + 2) (a + 2) Hl1) as IH'.
      rewrite pending_eps_clear in IH' by lia. apply IH'; [lia|lia|lia|exact Hput]. }
  exists s', map'. split.
  - etrans; [exact Hrun|]. do 3 f_equal. cbn [length]. lia.
  - eapply reported_cons; [lia|exact Hids|done|exact He|exact Hput1|done|exact Hrep].
Qed.
Lemma reported_credits e : CreditsToReturn (reported e) = 0.
Proof. unfold reported, CHECK_AND_ADJUST_CREDIT_THRESHOLD, AdjustCreditThreshold. by destruct (tst _ _). Qed.

Lemma pending_eps_length map i : 0 <= i <= 32 → Z.of_nat (length (pending_eps map i)) <= 32.
Proof.
  intros Hi. unfold pending_eps.
  pose proof (length_filter (λ j, Z.testbit map j = true) (seqZ i (32 - i))) as H.
  rewrite length_seqZ in H. lia.
Qed.
Lemma pending_eps_nonempty map : 0 < map < 2 ^ 32 → pending_eps map 0 ≠ [].
Proof.
  intros Hm E. assert (Z.log2 map ∈ pending_eps map 0) as Hin; [|rewrite E in Hin; by apply not_elem_of_nil in Hin].
  unfold pending_eps. rewrite list_elem_of_filter, elem_of_seqZ. split; [apply Z.bit_log2; lia|].
  split; [apply Z.log2_nonneg|]. pose proof (Z.log2_lt_pow2 map 32). lia.
Qed.

(** What [send_trailer] leaves behind: the record [ids] at address [rec] of the buffer
    whose descriptors are [ds] (the length byte, the reports, nothing else written), the
    reported endpoints without credits, the others as they were, and the pending map
    without the reported ones. *)
Record trailer_written s s' (buf rec : Z) (ids ds : list Z) (len : Z) : Prop := {
  tw_id : h_mem s' !! rec = Some HTC_RECORD_CREDITS;
  tw_len : h_mem s' !! (rec + 1) = Some (2 * Z.of_nat (length ids));
  tw_reports : reports_at (h_mem s') (rec + 2) ids (Endpoints s);
  tw_frame : ∀ x, x < rec ∨ rec + 2 + 2 * Z.of_nat (length ids) <= x → h_mem s' !! x = h_mem s !! x;
  tw_eps : ∀ j : nat, Endpoints s' !! j =
           (if decide (Z.of_nat j ∈ ids) then reported else id) <$> Endpoints s !! j;
  tw_map : ∀ j, 0 <= j → Z.testbit (EpCreditPendingMap s') j =
           Z.testbit (EpCreditPendingMap s) j && negb (bool_decide (j ∈ ids));
  tw_nb : ∃ b', nbuf_chain (h_nb s') buf b' ds ∧
          u16 (buf_length b') = u16 (len + 2 + 2 * Z.of_nat (length ids));
  tw_hif : h_hif s' = h_hif s;
}.
End trailer.

(** C31: the credit trailer. With credits pending and room for at least one report,
    [_HTC_SendMsg] appends one credit record that reports the pending endpoints in
    ascending order, as many as fit: each report carries the endpoint's number and its
    credits, whose count is then zero; the endpoints that did not fit stay pending with
    their credits. The loop over the map terminates, what is appended fits the room and
    is what the buffer grew by. *)
Theorem send_trailer_reports {APP} (s : htc_state APP) buf room b ds d dd :
  nbuf_chain (h_nb s) buf b (ds ++ [d]) → vdescs (h_nb s) !! d = Some dd →
  0 < EpCreditPendingMap s < 2 ^ 32 →
  (∀ j, Z.testbit (EpCreditPendingMap s) j = true → (Z.to_nat j < length (Endpoints s))%nat) →
  let rec := buf_addr dd + data_offset dd + data_size dd in
  let ids := take (Z.to_nat ((room - 2) `div` 2)) (pending_eps (EpCreditPendingMap s) 0) in
  let total := 2 + 2 * Z.of_nat (length ids) in
  4 <= room → 0 <= rec → rec + total < 4294967296 →
  0 <= data_size dd → data_size dd + total < 65536 →
  ∃ s', send_trailer buf room s = Ok (total, s') ∧ 4 <= total <= room ∧
        trailer_written s s' buf rec ids (ds ++ [d]) (buf_length b).
Proof.
  intros Hc Hd Hmap Hep rec ids total Hroom Hrec Hmax Hsz Hsm.
  destruct (puts_chain (S (length ids)) (h_nb s) buf b ds d dd Hc Hd) as (n' & b' & Hput & Hc' & Hlen');
    [done|lia|done|lia|].
  fold rec in Hput. cbn [puts] in Hput. destruct Hput as (n1 & Hput1 & Hput).
  set (s0 := s <| h_nb := n1 |> <| h_mem ::= <[rec := u8 HTC_RECORD_CREDITS]> |>
               <| h_mem ::= <[rec + 1 := u8 0]> |>).
  destruct (credit_reports_spec 32 0 s0 (EpCreditPendingMap s) (room - 2) 2 (rec + 2) buf rec n')
    as (s' & map' & Hrun & Hri); [|done|lia|lia|exact Hput|].
  { split; [lia|]. split; [lia|]. split; [lia|exact Hep]. }
  assert (ids ≠ []) as Hne.
  { unfold ids. pose proof (pending_eps_nonempty (EpCreditPendingMap s) Hmap).
    pose proof (Z.div_le_mono 2 (room - 2) 2). change (2 `div` 2) with 1 in *.
    destruct (pending_eps _ _); [done|]. destruct (Z.to_nat _) eqn:E; [lia|done]. }
  assert (0 < Z.of_nat (length ids) <= 32 ∧ Z.of_nat (length ids) <= (room - 2) `div` 2) as Hids.
  { split; [split|].
    - destruct ids; [done|]. cbn. lia.
    - unfold ids. rewrite length_take. pose proof (pending_eps_length (EpCreditPendingMap s) 0). lia.
    - unfold ids. rewrite length_take. pose proof (Z.div_pos (room - 2) 2). lia. }
  fold ids in Hrun, Hri. destruct Hri as [Hmem Hfr Hlen Heps Hbits Hnb (Hr1 & Hr2 & Hr3)].
  exists (s' <| EpCreditPendingMap := map' |>). split; [|split; [mlia|]].
  { unfold send_trailer. change (sizeof_CREDIT_REPORT + sizeof_RECORD_HDR) with 4.
    destruct (Z.ltb_spec room 4); [lia|]. run.
    destruct (Z.eqb_spec (EpCreditPendingMap s) 0); [lia|].
    erewrite bind_ok by (apply run_hnb; exact Hput1).
    rewrite (bind_ok _ _ _ _ _ (run_hwr8 _ _ _)), (bind_ok _ _ _ _ _ (run_hwr8 _ _ _)).
    erewrite bind_ok by exact Hrun. reflexivity. }
  assert (h_nb s' = n') as Hn' by (eapply puts_fun; [exact Hnb|exact Hput]).
  split; [| |exact Hmem| |exact Heps|exact Hbits| |exact Hr3].
  - cbn. rewrite Hfr by lia. cbn. rewrite lookup_insert_ne by lia. by rewrite lookup_insert_eq.
  - cbn. rewrite Hlen, decide_False by done. cbn. rewrite lookup_insert_eq. cbn.
    f_equal. apply u8_small. lia.
  - intros x Hx. cbn. rewrite Hfr by lia. cbn. by rewrite !lookup_insert_ne by lia.
  - exists b'. cbn. rewrite Hn'. split; [exact Hc'|]. rewrite Hlen'. f_equal. lia.
Qed.

(** ** Witnesses *)

Definition wt_b : VBUF := mk_VBUF 200 0 0 [0; 0].
Definition wt_d : VDESC := mk_VDESC 0 1000 64 8 0 0 [].
Definition wt_nb : nb_state :=
  mk_nb_state (mk_allocram 0 0) {[100 := wt_b]} {[200 := wt_d]} 0 0 0 (replicate POOL_ID_MAX 0).
Definition wt_ep (credits : Z) : HTC_ENDPOINT := mk_ep credits (Some HTCControlService) 0 4 0 0 3 4.
Definition wt_htc : htc_state unit :=
  mk_htc wt_nb ∅ [] (<[1%nat := wt_ep 3]> (<[5%nat := wt_ep 7]> (replicate 22 (wt_ep 0))))
    0 34 1 [] [] 1600 HTC_STATE_SETUP_COMPLETE 10 0 3 1 tt.

Lemma send_trailer_reports_witness :
  ∃ s', send_trailer 100 10 wt_htc = Ok (6, s') ∧ 4 <= 6 <= 10 ∧
        trailer_written wt_htc s' 100 1008 [1; 5] [200] 0.
Proof.
  refine (send_trailer_reports wt_htc 100 10 wt_b [] 200 wt_d _ _ _ _ _ _ _ _ _).
  - split; [done|]. cbn. split; [done|]. split; [done|]. by exists 0.
  - done.
  - done.
  - intros j Hj. destruct (Z.ltb_spec j 22) as [|Hge].
    + change (length (Endpoints wt_htc)) with 22%nat. lia.
    + rewrite Z.bits_above_log2 in Hj; [done|done|]. change (Z.log2 (EpCreditPendingMap wt_htc)) with 5. lia.
  - done.
  - done.
  - done.
  - done.
  - done.
Defined.
