(* ===== verification/HtcFlow.v ===== *)
(** * Properties of HTC: flow control and the receive path

    Credits given back buffer by buffer, the conditions under which a report is sent, the
    room for a trailer, the endpoint checks of the receive path and the credits that the
    host assigns to pipes. *)

From S2P Require Import Prelude.
From S2P Require Import NBufProps.
From S2P Require Import Htc.
From S2P Require Import HtcProps.

(** ** Returning buffers *)

(** What one returned buffer does to its endpoint. *)
Definition give_back (e : HTC_ENDPOINT) : HTC_ENDPOINT :=
  e <| CreditsToReturn ::= λ n, s16 (n + 1) |> <| CreditsConsumed ::= λ n, s16 (n - 1) |>.

Lemma give_back_iter n e :
  -32768 <= CreditsToReturn e → CreditsToReturn e + Z.of_nat n < 32768 →
  -32768 <= CreditsConsumed e - Z.of_nat n → CreditsConsumed e < 32768 →
  let e' := Nat.iter n give_back e in
  CreditsToReturn e' = CreditsToReturn e + Z.of_nat n ∧
  CreditsConsumed e' = CreditsConsumed e - Z.of_nat n ∧
  UpLinkPipeID e' = UpLinkPipeID e.
Proof.
  intros H1 H2 H3 H4. induction n as [|n IH].
  { cbn. lia. }
  destruct IH as (IH1 & IH2 & IH3); [lia|lia|]. rewrite Nat.iter_succ.
  set (e1 := Nat.iter n give_back e) in *. unfold give_back. cbn.
  rewrite IH1, IH2, !s16_small by lia. split_and!; [lia|lia|done].
Qed.
Lemma give_back_pipe n e : UpLinkPipeID (Nat.iter n give_back e) = UpLinkPipeID e.
Proof. induction n as [|n IH]; [done|]. rewrite Nat.iter_succ. cbn. exact IH. Qed.
Lemma give_back_rest n e :
  PendingCreditReports (Nat.iter n give_back e) = PendingCreditReports e ∧
  CreditReturnThreshhold (Nat.iter n give_back e) = CreditReturnThreshhold e.
Proof. induction n as [|n IH]; [done|]. rewrite Nat.iter_succ. cbn. exact IH. Qed.

(** Every buffer of [l] has a first descriptor. *)
Definition with_desc (n : nb_state) (l : list Z) : Prop :=
  ∀ x, x ∈ l → ∃ b d, vbufs n !! x = Some b ∧ vdescs n !! desc_list b = Some d.

Section return_buffers.
Context {APP : Type}.
Implicit Type s : htc_state APP.

Definition returned s s' (eid : Z) (e : HTC_ENDPOINT) (l : list Z) : Prop :=
  h_hif s' = h_hif s ++ (HIF_return_recv_buf_ev (UpLinkPipeID e) <$> l) ∧
  Endpoints s' = <[Z.to_nat eid := Nat.iter (length l) give_back e]> (Endpoints s) ∧
  EpCreditPendingMap s' = (if decide (l = []) then EpCreditPendingMap s
                           else EpCreditPendingMap s .| u32 (1 .<< eid)) ∧
  EpHostNeedsCreditMap s' = EpHostNeedsCreditMap s ∧ StateFlags s' = StateFlags s ∧
  TotalCredits s' = TotalCredits s ∧ MaxEpPendingCreditRpts s' = MaxEpPendingCreditRpts s.

Lemma push_head_keeps n buf l len :
  with_desc n l → buf ∈ l →
  ∃ a n', adf_nbuf_push_head buf len n = Ok (a, n') ∧ (∀ x, vnext n' x = vnext n x) ∧
          with_desc n' l ∧ size (vbufs n') = size (vbufs n).
Proof.
  intros Hl Hb. destruct (Hl _ Hb) as (b & d & Eb & Ed). unfold adf_nbuf_push_head. nb_run.
  eexists _, _. split; [reflexivity|]. unfold vnext, with_desc. cbn. split_and!.
  - intros x. destruct (decide (x = buf)) as [->|]; [by rewrite lookup_insert_eq, Eb|by rewrite lookup_insert_ne].
  - intros x Hx. destruct (Hl _ Hx) as (b' & d' & Eb' & Ed').
    destruct (decide (x = buf)) as [->|].
    + simplify_eq. eexists _, _. rewrite lookup_insert_eq. split; [done|]. cbn. by rewrite lookup_insert_eq.
    + exists b'. rewrite lookup_insert_ne by done.
      destruct (decide (desc_list b' = desc_list b)) as [->|].
      * eexists. by rewrite lookup_insert_eq.
      * exists d'. by rewrite lookup_insert_ne.
  - apply map_size_insert_Some. by exists b.
Qed.

Definition after_return s n' (eid buf : Z) (e : HTC_ENDPOINT) : htc_state APP :=
  s <| h_nb := n' |> <| h_hif ::= λ h, h ++ [HIF_return_recv_buf_ev (UpLinkPipeID e) buf] |>
    <| Endpoints ::= <[Z.to_nat eid := give_back e]> |>
    <| EpCreditPendingMap ::= λ m, m .| u32 (1 .<< eid) |>.

Lemma ReturnBuffers_run s eid buf e l fl :
  with_desc (h_nb s) l → buf ∈ l → Endpoints s !! Z.to_nat eid = Some e →
  tst (StateFlags s) HTC_STATE_SETUP_COMPLETE = true →
  ∃ n', ReturnBuffers eid buf fl s =
        when fl (HTCCheckAndSendCreditReport (u32 (1 .<< eid)) (Some eid) eid) (after_return s n' eid buf e) ∧
    (∀ x, vnext n' x = vnext (h_nb s) x) ∧ with_desc n' l ∧
    size (vbufs n') = size (vbufs (h_nb s)).
Proof.
  intros Hl Hb He Hf. destruct (push_head_keeps _ _ _ HTC_HDR_LENGTH Hl Hb) as (a & n' & E & Hk).
  exists n'. split; [|exact Hk]. unfold ReturnBuffers.
  erewrite bind_ok by (apply run_hnb; exact E).
  erewrite bind_ok by (apply run_rd_ep; exact He). run.
  match goal with |- context [tst ?x _] => change x with (StateFlags s) end. rewrite Hf.
  erewrite bind_ok by (apply run_upd_ep; exact He). reflexivity.
Qed.

Lemma return_list_spec l : ∀ s fuel eid netbuf e,
  lchain (vnext (h_nb s)) netbuf l → with_desc (h_nb s) l → (length l <= fuel)%nat →
  Endpoints s !! Z.to_nat eid = Some e → tst (StateFlags s) HTC_STATE_SETUP_COMPLETE = true →
  ∃ s', return_list fuel eid netbuf s = Ok (tt, s') ∧ returned s s' eid e l.
Proof.
  induction l as [|x l IH]; intros s fuel eid netbuf e Hc Hl Hfuel He Hf.
  - cbn in Hc. subst. exists s. split; [by destruct fuel|]. unfold returned. cbn.
    rewrite app_nil_r, list_insert_id by done. split_and!; done.
  - destruct Hc as (-> & Hnz & q & Hq & Hc). destruct fuel as [|fuel]; [cbn in Hfuel; lia|].
    cbn [return_list]. apply Z.eqb_neq in Hnz as ->.
    destruct (Hl x) as (b & d & Eb & Ed); [by left|].
    erewrite bind_ok by (apply run_hnb; unfold adf_nbuf_queue_next; by nb_run).
    assert (next_buf b = q) as -> by (unfold vnext in Hq; rewrite Eb in Hq; by injection Hq).
    replace (s <| h_nb := h_nb s |>) with s by (by destruct s).
    destruct (ReturnBuffers_run s eid x e (x :: l) false) as (n' & E & Hv & Hd & _); [done|by left|done|done|].
    erewrite bind_ok by exact E. clear E.
    set (s1 := after_return s n' eid x e).
    destruct (IH s1 fuel eid q (give_back e)) as (s' & E & H1 & H2 & H3 & H4 & H5 & H6 & H7).
    + eapply lchain_ext; [|exact Hc]. intros y _. apply Hv.
    + intros y Hy. apply Hd. by right.
    + cbn in Hfuel. lia.
    + unfold s1, after_return. cbn. apply list_lookup_insert_eq. by eapply lookup_lt_Some.
    + exact Hf.
    + exists s'. split; [exact E|]. split_and!.
      * rewrite H1. unfold s1, after_return. cbn. by rewrite <-app_assoc.
      * rewrite H2. unfold s1, after_return. cbn [Endpoints length field_upd]. rewrite list_insert_insert_eq.
        f_equal. by rewrite <-Nat.iter_succ_r.
      * rewrite H3. unfold s1, after_return. cbn. rewrite (decide_False (P := x :: l = [])) by done. case_decide; [done|].
        by rewrite <-Z.lor_assoc, Z.lor_diag.
      * by rewrite H4.
      * by rewrite H5.
      * by rewrite H6.
      * by rewrite H7.
Qed.
End return_buffers.

(** C33: giving a list of buffers back. Once the setup is complete and while the host does
    not ask for credit updates on the endpoint, [_HTC_ReturnBuffersList] hands every
    buffer of the list to the endpoint's uplink pipe, once and in order, moves as many
    credits from "consumed" to "to return" (their sum is unchanged), marks the endpoint
    pending and touches no other endpoint; it terminates on every list of buffers. *)
Theorem ReturnBuffersList_credits {APP} (s : htc_state APP) eid q l e :
  qrep (h_nb s) q l → with_desc (h_nb s) l → l ≠ [] →
  Endpoints s !! Z.to_nat eid = Some e →
  tst (StateFlags s) HTC_STATE_SETUP_COMPLETE = true →
  tst (EpHostNeedsCreditMap s) (u32 (1 .<< eid)) = false →
  let n := Z.of_nat (length l) in
  0 <= CreditsToReturn e → CreditsToReturn e + n < 32768 → n <= CreditsConsumed e < 32768 →
  ∃ s' e', _HTC_ReturnBuffersList eid q s = Ok (tt, s') ∧
    h_hif s' = h_hif s ++ (HIF_return_recv_buf_ev (UpLinkPipeID e) <$> l) ∧
    Endpoints s' = <[Z.to_nat eid := e']> (Endpoints s) ∧
    CreditsToReturn e' = CreditsToReturn e + n ∧ CreditsConsumed e' = CreditsConsumed e - n ∧
    EpCreditPendingMap s' = EpCreditPendingMap s .| u32 (1 .<< eid).
Proof.
  intros (Hc & _ & _) Hl Hne He Hf Hn n H1 H2 H3.
  assert (length l <= size (vbufs (h_nb s)))%nat as Hsz by (eapply lchain_size; exact Hc).
  destruct (return_list_spec l s _ eid (q_head q) e Hc Hl Hsz He Hf)
    as (s' & E & R1 & R2 & R3 & R4 & R5 & R6).
  destruct (give_back_iter (length l) e) as (G1 & G2 & _); [lia..|].
  rewrite decide_False in R3 by done.
  exists s', (Nat.iter (length l) give_back e). split; [|done].
  unfold _HTC_ReturnBuffersList. unfold adf_nbuf_queue_first. run.
  unfold HTCCheckAndSendCreditReport. run. by rewrite R4, Hn.
Qed.

(** ** When a credit report is sent *)

Lemma HTCAllocMsgBuffer_none {APP} (s : htc_state APP) :
  bufQ (h_nb s) !! POOL_ID_HTC_CONTROL ≠ None →
  default 0 (bufQ (h_nb s) !! POOL_ID_HTC_CONTROL) =? 0 = true →
  HTCAllocMsgBuffer s = Ok (0, s).
Proof.
  intros Hq Hz. unfold HTCAllocMsgBuffer. erewrite run_hnb.
  2: { unfold _buf_pool_static_alloc_buf. destruct (bufQ (h_nb s) !! POOL_ID_HTC_CONTROL) as [v|] eqn:E; [|done].
       erewrite bind_ok by (apply run_rd_bufQ; exact E). cbn in Hz. rewrite Hz. reflexivity. }
  by destruct s.
Qed.

(** The conditions that hold a credit report back. [HTCCheckAndSendCreditReport] on an
    endpoint does nothing when the host does not need its credits, when none are pending,
    or while they are below the threshold; when the credits are due but three reports are
    on their way, or when no message buffer is free, it only records that an update is to
    be sent soon. In all these cases nothing is sent and no credit is lost. *)
Theorem credit_report_held {APP} (s : htc_state APP) eid e :
  Endpoints s !! Z.to_nat eid = Some e → bufQ (h_nb s) !! POOL_ID_HTC_CONTROL ≠ None →
  let mask := u32 (1 .<< eid) in
  let due := tst (EpHostNeedsCreditMap s) mask && tst (EpCreditPendingMap s) mask &&
             ((CreditReturnThreshhold e =? 0) || (CreditReturnThreshhold e <=? CreditsToReturn e)) in
  let busy := MaxEpPendingCreditRpts s <=? PendingCreditReports e in
  let no_buffer := default 0 (bufQ (h_nb s) !! POOL_ID_HTC_CONTROL) =? 0 in
  negb due || busy || no_buffer = true →
  HTCCheckAndSendCreditReport mask (Some eid) eid s =
    Ok (tt, if due then s <| StateFlags ::= λ f, f .| HTC_SEND_CREDIT_UPDATE_SOON |> else s).
Proof.
  intros He Hq mask due busy no_buffer H. unfold HTCCheckAndSendCreditReport. run.
  fold mask. unfold due in *. clear due.
  destruct (tst (EpHostNeedsCreditMap s) mask); [|done]. cbn [negb andb] in *.
  destruct (tst (EpCreditPendingMap s) mask); [|done]. cbn [negb andb] in *.
  rewrite bind_assoc. erewrite bind_ok by (apply run_rd_ep; exact He).
  rewrite (Z.leb_antisym (CreditsToReturn e)) in *. rewrite Z.geb_leb. fold busy.
  assert (¬ (CreditReturnThreshhold e =? 0 = false ∧ CreditsToReturn e <? CreditReturnThreshhold e = true) →
    busy || no_buffer = true →
    ((if busy then modify (λ s0, s0 <| StateFlags ::= λ f, f .| HTC_SEND_CREDIT_UPDATE_SOON |>) ;; mret true
      else mret false) ≫= λ hold : bool, if hold then mret () else HTCAllocMsgBuffer ≫= λ b,
        if b =? 0 then modify (λ s0, s0 <| StateFlags ::= λ f, f .| HTC_SEND_CREDIT_UPDATE_SOON |>)
        else (upd_ep eid (λ e0, e0 <| PendingCreditReports ::= λ n, s32 (n + 1) |>) ;;
              set_ctx b 1 (eid .| HTC_FLAGS_CREDIT_RPT)) ;; _HTC_SendMsg ENDPOINT0 b) s =
    Ok (tt, s <| StateFlags ::= λ f, f .| HTC_SEND_CREDIT_UPDATE_SOON |>)) as Hdue.
  { intros _ Hh. destruct busy; [by run|]. run. cbv iota.
    erewrite bind_ok by (by apply HTCAllocMsgBuffer_none). done. }
  destruct (CreditReturnThreshhold e =? 0) eqn:E1, (CreditsToReturn e <? CreditReturnThreshhold e) eqn:E2;
    cbn [negb andb orb] in *; [by apply Hdue; [intros []|]..| |by apply Hdue; [intros []|]]. by run.
Qed.

(** The message that carries a credit report of an endpoint: an empty message on endpoint 0. *)
Definition credit_report_message {APP} (eid b : Z) : M (htc_state APP) unit :=
  (upd_ep eid (λ e, e <| PendingCreditReports ::= λ n, s32 (n + 1) |>) ;;
   set_ctx b 1 (eid .| HTC_FLAGS_CREDIT_RPT)) ;;
  _HTC_SendMsg ENDPOINT0 b.

(** The threshold in quarters of the credits outstanding. *)
Definition quarters (e : HTC_ENDPOINT) : Z := (ConnectionFlags e .& HTC_CONNECT_FLAGS_THRESHOLD_LEVEL_MASK) + 1.
Definition outstanding (e : HTC_ENDPOINT) : Z := CreditsToReturn e + CreditsConsumed e.

Lemma AdjustCreditThreshold_fraction e :
  0 <= outstanding e < 32768 →
  1 <= quarters e <= 4 ∧
  AdjustCreditThreshold e = e <| CreditReturnThreshhold := outstanding e * quarters e / 4 |>.
Proof.
  intros Ho. unfold AdjustCreditThreshold, quarters, outstanding in *.
  set (o := CreditsToReturn e + CreditsConsumed e) in *. rewrite (s16_small o) by lia.
  assert (0 <= ConnectionFlags e .& HTC_CONNECT_FLAGS_THRESHOLD_LEVEL_MASK < 4) as Hl.
  { change HTC_CONNECT_FLAGS_THRESHOLD_LEVEL_MASK with (Z.ones 2). rewrite Z.land_ones by lia. by apply Z.mod_pos_bound. }
  set (lvl := ConnectionFlags e .& _) in *. split; [lia|].
  rewrite !Z.shiftr_div_pow2 by done. change (2 ^ 2) with 4. change (2 ^ 1) with 2.
  assert ((if lvl =? 0 then s16 (o / 4) else if lvl =? 1 then s16 (o / 2)
           else if lvl =? 2 then s16 (o * 3 / 4) else o) = o * (lvl + 1) / 4) as ->; [|done].
  assert (lvl = 0 ∨ lvl = 1 ∨ lvl = 2 ∨ lvl = 3) as [->|[->|[->| ->]]] by lia; cbn; rewrite ?s16_small; mlia.
Qed.

(** C39: credits are held back by a fraction of the credits outstanding, and released when it is
    reached. On an endpoint that reduces dribbling and whose credits the host asks for, with
    the threshold that [AdjustCreditThreshold] set when [o] credits were outstanding (a
    quarter, half, three quarters or all of [o], rounded down, by the level of the connection),
    giving [n] of the consumed buffers back makes their credits pending; while all that are to be
    returned are fewer than the threshold, nothing more happens; from there on the report is
    sent in a message buffer, or, when as many reports as may be are on their way or no message
    buffer is free, it is marked as due soon. When the last consumed buffer comes back the
    threshold has been reached, at every level. *)
Theorem threshold_releases_credits {APP} (s : htc_state APP) eid q l e :
  qrep (h_nb s) q l → with_desc (h_nb s) l → l ≠ [] → 0 <= eid < 32 →
  tst (ConnectionFlags e) HTC_CONNECT_FLAGS_REDUCE_CREDIT_DRIBBLE = true →
  Endpoints s !! Z.to_nat eid = Some (CHECK_AND_ADJUST_CREDIT_THRESHOLD e) →
  tst (StateFlags s) HTC_STATE_SETUP_COMPLETE = true →
  tst (EpHostNeedsCreditMap s) (u32 (1 .<< eid)) = true →
  let n := Z.of_nat (length l) in let o := outstanding e in let threshold := o * quarters e / 4 in
  0 <= CreditsToReturn e → o < 32768 → n <= CreditsConsumed e →
  ∃ s1 e1, Endpoints s1 = <[Z.to_nat eid := e1]> (Endpoints s) ∧
    h_hif s1 = h_hif s ++ (HIF_return_recv_buf_ev (UpLinkPipeID e) <$> l) ∧
    CreditsToReturn e1 = CreditsToReturn e + n ∧ CreditsConsumed e1 = CreditsConsumed e - n ∧
    EpCreditPendingMap s1 = EpCreditPendingMap s .| u32 (1 .<< eid) ∧
    (CreditsToReturn e + n < threshold → _HTC_ReturnBuffersList eid q s = Ok (tt, s1)) ∧
    (threshold <= CreditsToReturn e + n → _HTC_ReturnBuffersList eid q s =
       if MaxEpPendingCreditRpts s <=? PendingCreditReports e
       then Ok (tt, s1 <| StateFlags ::= λ f, f .| HTC_SEND_CREDIT_UPDATE_SOON |>)
       else (b ← HTCAllocMsgBuffer;
             if b =? 0 then modify (λ s, s <| StateFlags ::= λ f, f .| HTC_SEND_CREDIT_UPDATE_SOON |>)
             else credit_report_message eid b) s1) ∧
    (n = CreditsConsumed e → threshold <= CreditsToReturn e + n).
Proof.
  intros (Hc & _ & _) Hl Hne He0 Hr He Hf Hn n o threshold H1 H2 H3.
  assert (0 <= o) as Ho by (unfold o, outstanding in *; lia).
  destruct (AdjustCreditThreshold_fraction e) as [Hq Ea]; [fold o; lia|].
  unfold CHECK_AND_ADJUST_CREDIT_THRESHOLD in He. rewrite Hr, Ea in He. fold o threshold in He.
  set (e0 := e <| CreditReturnThreshhold := threshold |>) in He.
  assert (length l <= size (vbufs (h_nb s)))%nat as Hsz by (eapply lchain_size; exact Hc).
  destruct (return_list_spec l s _ eid (q_head q) e0 Hc Hl Hsz He Hf)
    as (s1 & E & R1 & R2 & R3 & R4 & R5 & R6 & R7). rewrite decide_False in R3 by done.
  destruct (give_back_iter (length l) e0) as (G1 & G2 & _); [unfold o, outstanding in *; cbn; lia..|].
  destruct (give_back_rest (length l) e0) as [G3 G4]. cbn [e0] in G1, G2, G3, G4.
  set (e1 := Nat.iter (length l) give_back e0) in *.
  assert (Endpoints s1 !! Z.to_nat eid = Some e1) as He1
    by (rewrite R2; apply list_lookup_insert_eq; by eapply lookup_lt_Some).
  exists s1, e1. change (CreditsToReturn e0) with (CreditsToReturn e) in G1. change (CreditsConsumed e0) with (CreditsConsumed e) in G2.
  change (PendingCreditReports e0) with (PendingCreditReports e) in G3. change (CreditReturnThreshhold e0) with threshold in G4.
  assert (_HTC_ReturnBuffersList eid q s = HTCCheckAndSendCreditReport (u32 (1 .<< eid)) (Some eid) eid s1) as Er.
  { unfold _HTC_ReturnBuffersList, adf_nbuf_queue_first. run. done. }
  assert (tst (EpCreditPendingMap s1) (u32 (1 .<< eid)) = true) as Hp.
  { rewrite R3, tst_lor. unfold tst at 2. rewrite Z.land_diag, (u32_bit eid) by done.
    destruct (Z.eqb_spec (2 ^ eid) 0) as [E0|]; [|by rewrite orb_true_r]. pose proof (Z.pow_pos_nonneg 2 eid). lia. }
  split_and!; [done..|fold n in G1; done|fold n in G2; done|done| | |].
  - intros Hlt. rewrite Er. unfold HTCCheckAndSendCreditReport. run. rewrite R4, Hn, Hp. cbn [negb].
    rewrite bind_assoc. erewrite bind_ok by (apply run_rd_ep; exact He1). rewrite G1, G4. fold n.
    destruct (Z.eqb_spec threshold 0); [lia|]. destruct (Z.ltb_spec (CreditsToReturn e + n) threshold); [|lia]. by cbn.
  - intros Hge. rewrite Er. unfold HTCCheckAndSendCreditReport. run. rewrite R4, Hn, Hp. cbn [negb].
    rewrite bind_assoc. erewrite bind_ok by (apply run_rd_ep; exact He1). rewrite G1, G4, G3, R7, Z.geb_leb. fold n.
    assert (negb (threshold =? 0) && (CreditsToReturn e + n <? threshold) = false) as ->.
    { destruct (Z.ltb_spec (CreditsToReturn e + n) threshold); [lia|]. by rewrite andb_false_r. }
    destruct (MaxEpPendingCreditRpts s <=? PendingCreditReports e); run; done.
  - intros Hn'. assert (CreditsToReturn e + n = o) as -> by (unfold o, outstanding; lia).
    apply Z.div_le_upper_bound; [done|]. nia.
Qed.

(** ** The room for a trailer *)

(** The room for a trailer is the smaller of the buffer's tail room and of what the
    pipe's message length leaves, as long as the message fits the pipe. When it does not
    fit, the difference wraps around as an unsigned word, the clamp to 0 in the source
    never applies, and the whole tail room is taken as room for a trailer. *)
Theorem trailer_room_unclamped {APP} (s : htc_state APP) eid buf b ds d e d0 dd :
  nbuf_chain (h_nb s) buf b (ds ++ [d]) → Endpoints s !! Z.to_nat eid = Some e →
  vdescs (h_nb s) !! desc_list b = Some d0 → vdescs (h_nb s) !! d = Some dd →
  let used := data_offset d0 + buf_length b in
  let max := HIF_get_max_msg_len (DownLinkPipeID e) in
  let tail := buf_size dd - data_offset dd - data_size dd in
  0 <= used < 131072 → 0 <= tail < 65536 →
  trailer_room eid buf s = Ok (if used <=? max then Z.min tail (max - used) else tail, s).
Proof.
  intros Hc He Hd0 Hd used max tail Hu Ht. destruct Hc as [Hb Hl] eqn:Hc'. unfold trailer_room.
  erewrite bind_ok by (apply run_rd_ep; exact He).
  erewrite bind_ok by (apply run_hnb; unfold adf_nbuf_headroom; by nb_run).
  change (s <| h_nb := h_nb s |>) with (id s <| h_nb := h_nb s |>).
  replace (id s <| h_nb := h_nb s |>) with s by (by destruct s).
  erewrite bind_ok by (apply run_hnb; unfold adf_nbuf_len; by nb_run).
  replace (s <| h_nb := h_nb s |>) with s by (by destruct s).
  erewrite bind_ok.
  2: { apply run_hnb. unfold adf_nbuf_tailroom. erewrite bind_ok by by eapply adf_nbuf_last_spec.
       by nb_run. }
  replace (s <| h_nb := h_nb s |>) with s by (by destruct s).
  rewrite run_ret. do 2 f_equal. fold tail. rewrite (u32_small tail) by lia.
  replace (HIF_get_max_msg_len (DownLinkPipeID e) - data_offset d0 - buf_length b) with (max - used)
    by (unfold max, used; lia).
  assert (max = 512 ∨ max = 1600) as Hmax
    by (unfold max, HIF_get_max_msg_len; destruct (_ || _); lia).
  destruct (Z.leb_spec used max).
  - rewrite (u32_small (max - used)) by lia. destruct (Z.ltb_spec tail (max - used)).
    + rewrite Z.min_l, s32_small by lia. done.
    + rewrite Z.min_r, s32_small by lia. done.
  - assert (u32 (max - used) = 4294967296 + (max - used)) as ->.
    { unfold u32. rewrite <-(Z.mod_add _ 1), Z.mod_small by lia. lia. }
    destruct (Z.ltb_spec tail (4294967296 + (max - used))); [|lia]. by rewrite s32_small by lia.
Qed.

(** ** The receive path *)

Section receive.
Context {APP : Type} `{!HtcServices APP}.
Implicit Type s : htc_state APP.

Lemma run_hnb_peek s buf b d :
  vbufs (h_nb s) !! buf = Some b → vdescs (h_nb s) !! desc_list b = Some d →
  hnb (adf_nbuf_peek_header buf) s = Ok ((u32 (buf_addr d + data_offset d), data_size d), s).
Proof.
  intros Hb Hd. erewrite run_hnb by (unfold adf_nbuf_peek_header; by nb_run). by destruct s.
Qed.

(** Before the setup is complete, a frame for an endpoint other than 0, 1, 5 and 6 is
    dropped without giving its buffer back: nothing at all happens, the receive buffer is
    neither returned to a pipe nor kept in any queue. *)
Theorem recv_before_setup_drops s buf b d :
  vbufs (h_nb s) !! buf = Some b → vdescs (h_nb s) !! desc_list b = Some d →
  let eid := default 0 (h_mem s !! u32 (buf_addr d + data_offset d)) in
  htc_complete_setup s = 0 → eid ∉ [0; 1; 5; 6] →
  HTCMsgRecvHandler_patch 0 buf s = Ok (tt, s).
Proof.
  intros Hb Hd eid Hs Hin. unfold HTCMsgRecvHandler_patch.
  erewrite bind_ok by (by eapply run_hnb_peek).
  cbv beta iota. rewrite (bind_ok _ _ _ _ _ (run_hrd8 _ _)). run.
  fold eid. rewrite Hs. rewrite !not_elem_of_cons in Hin. destruct Hin as (H0 & H1 & H5 & H6 & _).
  apply Z.eqb_neq in H0 as ->, H1 as ->, H5 as ->, H6 as ->. done.
Qed.

(** After the setup, a frame with an endpoint number outside the table never reaches
    the table or a service: its buffer, header restored, goes back to the uplink pipe of
    endpoint 6 if the frame is longer than 64 bytes, of endpoint 1 otherwise, in that case
    after a wrong-endpoint event, and that endpoint's credit is returned. *)
Theorem recv_unknown_endpoint s buf b d e :
  vbufs (h_nb s) !! buf = Some b → vdescs (h_nb s) !! desc_list b = Some d →
  let eid := default 0 (h_mem s !! u32 (buf_addr d + data_offset d)) in
  let big := 64 <? data_size d in
  let back := if big then 6 else 1 in
  htc_complete_setup s ≠ 0 → ENDPOINT_MAX <= eid →
  tst (StateFlags s) HTC_STATE_SETUP_COMPLETE = true →
  Endpoints s !! Z.to_nat back = Some e → tst (EpHostNeedsCreditMap s) (u32 (1 .<< back)) = false →
  ∃ s', HTCMsgRecvHandler_patch 0 buf s = Ok (tt, s') ∧
    h_hif s' = h_hif s ++ (if big then [] else [WrongEpid_ev eid]) ++
               [HIF_return_recv_buf_ev (UpLinkPipeID e) buf] ∧
    Endpoints s' = <[Z.to_nat back := give_back e]> (Endpoints s).
Proof.
  intros Hb Hd eid big back Hs Hin Hf He Hn. unfold HTCMsgRecvHandler_patch.
  erewrite bind_ok by (by eapply run_hnb_peek).
  cbv beta iota. rewrite (bind_ok _ _ _ _ _ (run_hrd8 _ _)). run.
  fold eid. apply Z.eqb_neq in Hs as ->. rewrite andb_false_r. rewrite Z.geb_leb.
  destruct (Z.leb_spec ENDPOINT_MAX eid); [|lia].
  set (s1 := if big then s else s <| h_hif ::= λ l, l ++ [WrongEpid_ev eid] |>).
  destruct (ReturnBuffers_run s1 back buf e [buf] true) as (n' & E & _).
  { intros x ->%list_elem_of_singleton. exists b, d. unfold s1. by destruct big. }
  { by left. }
  { unfold s1. by destruct big. }
  { unfold s1. by destruct big. }
  exists (after_return s1 n' back buf e). split; [|unfold after_return, s1; destruct big; cbn;
    rewrite <-?app_assoc; done].
  assert (_HTC_ReturnBuffers back buf s1 = Ok (tt, after_return s1 n' back buf e)) as Hret.
  { unfold _HTC_ReturnBuffers. rewrite E. cbn [when]. unfold HTCCheckAndSendCreditReport. run.
    assert (EpHostNeedsCreditMap (after_return s1 n' back buf e) = EpHostNeedsCreditMap s) as ->
      by (unfold s1, after_return; by destruct big). by rewrite Hn. }
  fold big. unfold back, s1 in *. destruct big; exact Hret.
Qed.
End receive.

(** ** Credits assigned to pipes *)

Section pipes.
Context {APP : Type}.
Abbreviation HT := (M (htc_state APP)).

Definition pipe_credits (s : htc_state APP) : Z * Z := (TotalCredits s, TotalCreditsAssigned s).
Definition config_events (s : htc_state APP) : Z :=
  foldr (λ e n, match e with HIF_config_pipe_ev _ c => c + n | _ => n end) 0 (h_hif s).
(** The credits configured so far, all told, and the message memory. *)
Definition pipe_view (s : htc_state APP) : Z * Z * Z := (pipe_credits s, config_events s).

Lemma keeps_hnb {A} (m : NB A) : keeps pipe_view (hnb m).
Proof.
  intros s a s' E. unfold hnb in E. destruct (m (h_nb s)) as [[a' n]|]; [|done].
  by injection E as <- <-.
Qed.
Lemma keeps_hwr8 a v : keeps pipe_view (hwr8 a v : HT unit).
Proof. unfold hwr8. keeps_tac. Qed.
Lemma keeps_hrd8 a : keeps pipe_view (hrd8 a : HT Z).
Proof. unfold hrd8. keeps_tac. Qed.
Lemma keeps_rd_ep i : keeps pipe_view (rd_ep i : HT _).
Proof. unfold rd_ep. keeps_tac. Qed.
Hint Resolve keeps_hnb keeps_hwr8 keeps_hrd8 keeps_rd_ep : keeps.
Lemma keeps_hwr16 a v : keeps pipe_view (hwr16 a v : HT unit).
Proof. unfold hwr16. keeps_tac. Qed.
Lemma keeps_hzero a n : keeps pipe_view (hzero a n : HT unit).
Proof. unfold hzero. keeps_tac. Qed.
Lemma keeps_upd_ep i f : keeps pipe_view (upd_ep i f : HT unit).
Proof. unfold upd_ep. keeps_tac. Qed.
Lemma keeps_get_ctx b i : keeps pipe_view (get_ctx b i : HT Z).
Proof. unfold get_ctx. keeps_tac. Qed.
Hint Resolve keeps_hwr16 keeps_hzero keeps_upd_ep keeps_get_ctx : keeps.
Lemma keeps_set_ctx b i v : keeps pipe_view (set_ctx b i v : HT unit).
Proof. unfold set_ctx. keeps_tac. Qed.
Lemma keeps_credit_reports fuel : ∀ i b rec map room total,
  keeps pipe_view (credit_reports fuel i b rec map room total : HT _).
Proof. induction fuel as [|fuel IH]; intros; cbn [credit_reports]; keeps_tac; apply IH. Qed.
Lemma keeps_alloc : keeps pipe_view (HTCAllocMsgBuffer : HT Z).
Proof. apply keeps_hnb. Qed.
Hint Resolve keeps_set_ctx keeps_credit_reports keeps_alloc : keeps.
Lemma keeps_trailer_room i b : keeps pipe_view (trailer_room i b : HT Z).
Proof. unfold trailer_room. keeps_tac. Qed.
Lemma keeps_send_trailer b r : keeps pipe_view (send_trailer b r : HT Z).
Proof. unfold send_trailer. keeps_tac. Qed.
Hint Resolve keeps_trailer_room keeps_send_trailer : keeps.
Lemma config_events_send (s : htc_state APP) p b :
  pipe_view (s <| h_hif ::= λ l, l ++ [HIF_send_buffer_ev p b] |>) = pipe_view s.
Proof. unfold pipe_view, config_events. cbn. f_equal. by rewrite foldr_app. Qed.
Lemma keeps_SendMsg i b : keeps pipe_view (_HTC_SendMsg i b : HT unit).
Proof.
  unfold _HTC_SendMsg. keeps_tac. unfold hif. apply keeps_modify. intros s. apply config_events_send.
Qed.
Hint Resolve keeps_SendMsg : keeps.

Lemma config_events_config (s : htc_state APP) p c :
  config_events (s <| h_hif ::= λ l, l ++ [HIF_config_pipe_ev p c] |>) = config_events s + c.
Proof.
  unfold config_events. cbn. rewrite foldr_app. cbn.
  set (f := λ (e : hif_event) n, _). assert (∀ l z, foldr f z l = foldr f 0 l + z) as H.
  { induction l as [|x l IH]; intros z; cbn; [lia|]. rewrite IH. unfold f at 1 3. destruct x; lia. }
  rewrite H. lia.
Qed.

(** The message memory holds bytes, whatever is written to it. *)
Definition bytes_mem (s : htc_state APP) : Prop := ∀ a, 0 <= default 0 (h_mem s !! a) < 256.
Definition stays {A} (m : HT A) : Prop := ∀ s a s', m s = Ok (a, s') → bytes_mem s → bytes_mem s'.
Lemma stays_hnb {A} (m : NB A) : stays (hnb m).
Proof.
  intros s a s' E. unfold hnb in E. destruct (m (h_nb s)) as [[a' n]|]; [|done].
  by injection E as <- <-.
Qed.
Lemma stays_hwr8 a v : stays (hwr8 a v).
Proof.
  intros s [] s' E Hs. injection E as <-. intros x. cbn. destruct (decide (x = a)) as [->|].
  - rewrite lookup_insert_eq. apply u8_range.
  - rewrite lookup_insert_ne by done. apply Hs.
Qed.
Lemma stays_bind {A B} (m : HT A) (k : A → HT B) : stays m → (∀ a, stays (k a)) → stays (m ≫= k).
Proof. intros Hm Hk s b s'' (a & s' & E1 & E2)%bind_inv Hs. eapply Hk, Hm; eauto. Qed.
Lemma stays_hwr16 a v : stays (hwr16 a v).
Proof. apply stays_bind; [|intros _]; apply stays_hwr8. Qed.
Lemma stays_hzero a n : stays (hzero a n).
Proof.
  unfold hzero. induction (seqZ a n) as [|x l IH]; cbn.
  - intros s b s' E. by injection E as <- <-.
  - by apply stays_bind; [apply stays_hwr8|].
Qed.

(** Up to the two requests the message's handling is preparation. *)
Lemma config_prepare {A} (k : Z → Z → HT A) s r s' :
  (buf ← HTCAllocMsgBuffer;
   rsp ← hnb (adf_nbuf_put_tail buf sizeof_CONFIG_PIPE_RESPONSE_MSG);
   hzero rsp sizeof_CONFIG_PIPE_RESPONSE_MSG ;;
   hwr16 rsp HTC_MSG_CONFIG_PIPE_RESPONSE_ID ;;
   k buf rsp) s = Ok (r, s') → bytes_mem s →
  ∃ buf rsp s1, k buf rsp s1 = Ok (r, s') ∧ bytes_mem s1 ∧ pipe_view s1 = pipe_view s.
Proof.
  intros (buf & s1 & E1 & (rsp & s2 & E2 & (u & s3 & E3 & (u' & s4 & E4 & E)%bind_inv)%bind_inv)%bind_inv)%bind_inv Hs.
  exists buf, rsp, s4. split; [exact E|]. split.
  - eapply stays_hwr16, stays_hzero, stays_hnb, stays_hnb; [exact E4|exact E3|exact E2|exact E1|exact Hs].
  - rewrite (keeps_hwr16 _ _ _ _ _ E4), (keeps_hzero _ _ _ _ _ E3), (keeps_hnb _ _ _ _ E2).
    apply (keeps_hnb _ _ _ _ E1).
Qed.

(** C34: the host cannot hand out more credits than the target announced. Whatever the
    pipe configuration message asks for, the credits assigned stay within the total, and
    the pipe layer is given exactly the credits that were added to the assignment. *)
Theorem ConfigPipe_within_total msg (s s' : htc_state APP) :
  HTCProcessConfigPipeMsg msg s = Ok (tt, s') → bytes_mem s →
  0 <= TotalCreditsAssigned s <= TotalCredits s → TotalCredits s < 2147483648 →
  0 <= TotalCreditsAssigned s' <= TotalCredits s' ∧ TotalCredits s' = TotalCredits s ∧
  config_events s' - config_events s = TotalCreditsAssigned s' - TotalCreditsAssigned s.
Proof.
  intros Hrun Hmem Ha Hmax. apply config_prepare in Hrun; [|done].
  destruct Hrun as (buf & rsp & s1 & Hrun & Hmem1 & Hv).
  assert (∀ t : htc_state APP, pipe_view t = pipe_view s → 0 <= TotalCreditsAssigned t <= TotalCredits t ∧
    TotalCredits t = TotalCredits s ∧
    config_events t - config_events s = TotalCreditsAssigned t - TotalCreditsAssigned s) as Hsame.
  { intros t. unfold pipe_view, pipe_credits. intros [= -> -> ->]. lia. }
  apply bind_inv in Hrun as (pipe & s2 & [= <- <-] & Hrun).
  apply bind_inv in Hrun as (credits & s2 & [= <- <-] & Hrun).
  apply bind_inv in Hrun as ([] & s2 & E2 & Hrun).
  apply bind_inv in Hrun as ([] & s3 & E3 & Hrun). 
  pose proof (keeps_SendMsg _ _ _ _ _ Hrun) as Hv'. pose proof (keeps_hwr8 _ _ _ _ _ E2) as Hv2.
  destruct (negb _).
  { apply Hsame. rewrite Hv', (keeps_hwr8 _ _ _ _ _ E3). congruence. }
  apply bind_inv in E3 as ([] & s4 & E4 & E3). pose proof (keeps_hwr8 _ _ _ _ _ E4) as Hv4.
  apply bind_inv in E3 as (s5 & s6 & [= <- <-] & E3).
  pose proof (Hmem1 (msg + 3)) as Hc. set (credits := default 0 (h_mem s1 !! (msg + 3))) in *.
  destruct (Z.leb_spec (TotalCreditsAssigned s4 + credits) (TotalCredits s4)) as [Hle|Hgt].
  2: { apply Hsame. rewrite Hv', (keeps_hwr8 _ _ _ _ _ E3). congruence. }
  rewrite Hv2, Hv in Hv4. injection Hv4 as Ht4 Ha4 Hc4.
  injection E3 as <-. injection Hv' as Ht Has Hce. rewrite Ht, Has, Hce.
  pose proof (config_events_config (s4 <| TotalCreditsAssigned ::= λ n, s32 (n + credits) |>)
    (default 0 (h_mem s1 !! (msg + 2))) credits) as Hev.
  change (config_events (s4 <| TotalCreditsAssigned ::= _ |>)) with (config_events s4) in Hev.
  rewrite Hev, s32_small by lia. lia.
Qed.
End pipes.

(** ** Witnesses *)

(** Two receive buffers of endpoint 6 and an idle control buffer pool. *)
Definition wf_nb : nb_state :=
  mk_nb_state (mk_allocram 0 0)
    {[100 := mk_VBUF 200 101 20 [0; 0]; 101 := mk_VBUF 201 0 20 [0; 0]; 110 := mk_VBUF 210 0 0 [0; 0]]}
    {[200 := mk_VDESC 0 1000 64 8 20 0 []; 201 := mk_VDESC 0 1100 64 8 20 0 [];
      210 := mk_VDESC 0 1200 64 0 0 0 []]} 0 0 0
    (<[POOL_ID_HTC_CONTROL := 110]> (replicate POOL_ID_MAX 0)).
Definition wf_ep (threshold : Z) : HTC_ENDPOINT := mk_ep 2 (Some HTCControlService) threshold 4 0 0 3 4.
Definition wf_htc (complete flags need : Z) (mem : gmap Z Z) : htc_state unit :=
  mk_htc wf_nb mem [] (replicate 22 (wf_ep 3)) need 34 1 [] [] 1600 flags 10 0 3 complete tt.
#[local] Instance wf_services : HtcServices unit := {
  ProcessRecvMsg _ _ _ _ := mret tt; ProcessSendBufferComplete _ _ _ := mret tt;
  ProcessConnect _ _ _ _ _ := mret (0, 0); SetupCompleteCb := mret tt }.

Lemma ReturnBuffersList_credits_witness :
  ∃ s' e', _HTC_ReturnBuffersList 6 (mk_qhead 100 101 2) (wf_htc 1 1 0 ∅) = Ok (tt, s') ∧
    h_hif s' = [HIF_return_recv_buf_ev 4 100; HIF_return_recv_buf_ev 4 101] ∧
    Endpoints s' = <[6%nat := e']> (replicate 22 (wf_ep 3)) ∧
    CreditsToReturn e' = 4 ∧ CreditsConsumed e' = 2 ∧ EpCreditPendingMap s' = 34 .| 64.
Proof.
  apply (ReturnBuffersList_credits (wf_htc 1 1 0 ∅) 6 (mk_qhead 100 101 2) [100; 101] (wf_ep 3)).
  - split_and!; [|by right|done|done]. cbn. split_and!; [done..|]. exists 101.
    split_and!; [done..|]. by exists 0.
  - intros x Hx. rewrite !elem_of_cons in Hx. destruct Hx as [->|[->|Hx]]; [by eexists _, _..|].
    by apply not_elem_of_nil in Hx.
  - done.
  - done.
  - done.
  - done.
  - done.
  - done.
  - done.
Defined.

(** Two of six credits come back: at level 3 they are held, at level 2 the report is due. *)
Definition wf_dribble (level : Z) : HTC_ENDPOINT :=
  wf_ep 0 <| ConnectionFlags := HTC_CONNECT_FLAGS_REDUCE_CREDIT_DRIBBLE .| level |> <| PendingCreditReports := 3 |>.
Definition wf_asking (level : Z) : htc_state unit :=
  wf_htc 1 1 64 ∅ <| Endpoints ::= <[6%nat := CHECK_AND_ADJUST_CREDIT_THRESHOLD (wf_dribble level)]> |>.
Lemma threshold_releases_credits_witness :
  (∃ s1 e1, _HTC_ReturnBuffersList 6 (mk_qhead 100 101 2) (wf_asking 3) = Ok (tt, s1) ∧
     CreditsToReturn e1 = 4 ∧ CreditsConsumed e1 = 2 ∧ 4 < 6) ∧
  (∃ s1 e1, _HTC_ReturnBuffersList 6 (mk_qhead 100 101 2) (wf_asking 2) =
       Ok (tt, s1 <| StateFlags ::= λ f, f .| HTC_SEND_CREDIT_UPDATE_SOON |>) ∧
     CreditsToReturn e1 = 4 ∧ CreditsConsumed e1 = 2).
Proof.
  assert (qrep wf_nb (mk_qhead 100 101 2) [100; 101]) as Hq.
  { split_and!; [|by right|done|done]. cbn. split_and!; [done..|]. exists 101.
    split_and!; [done..|]. by exists 0. }
  assert (with_desc wf_nb [100; 101]) as Hd.
  { intros x Hx. rewrite !elem_of_cons in Hx. destruct Hx as [->|[->|Hx]]; [by eexists _, _..|].
    by apply not_elem_of_nil in Hx. }
  split.
  - destruct (threshold_releases_credits (wf_asking 3) 6 (mk_qhead 100 101 2) [100; 101] (wf_dribble 3) Hq Hd)
      as (s1 & e1 & He & _ & H1 & H2 & _ & Hheld & _); try done.
    exists s1, e1. split_and!; [apply Hheld; by vm_compute|done..].
  - destruct (threshold_releases_credits (wf_asking 2) 6 (mk_qhead 100 101 2) [100; 101] (wf_dribble 2) Hq Hd)
      as (s1 & e1 & He & _ & H1 & H2 & _ & _ & Hdue & _); try done.
    exists s1, e1. split_and!; [|done..]. etransitivity; [apply Hdue; by vm_compute|].
    by replace (MaxEpPendingCreditRpts (wf_asking 2) <=? PendingCreditReports (wf_dribble 2)) with true by by vm_compute.
Defined.

Lemma ConfigPipe_within_total_witness :
  ∃ s', HTCProcessConfigPipeMsg 2000 (wf_htc 1 1 0 {[2002 := 1; 2003 := 5]}) = Ok (tt, s') ∧
    0 <= TotalCreditsAssigned s' <= TotalCredits s' ∧ TotalCredits s' = 10 ∧
    config_events s' - 0 = TotalCreditsAssigned s' - 0.
Proof.
  assert (∃ s', HTCProcessConfigPipeMsg 2000 (wf_htc 1 1 0 {[2002 := 1; 2003 := 5]}) = Ok (tt, s'))
    as [s' H] by (eexists; vm_compute; reflexivity).
  exists s'. split; [exact H|].
  apply (ConfigPipe_within_total 2000 (wf_htc 1 1 0 {[2002 := 1; 2003 := 5]}) s' H).
  - intros a. unfold wf_htc. cbn [h_mem]. rewrite lookup_insert, lookup_singleton.
    repeat case_decide; cbn; lia.
  - cbn. lia.
  - cbn. lia.
Defined.
