(* ===== verification/WmiProps.v ===== *)
(** * Properties of WMI: dispatch and event buffers *)

From S2P Require Import Prelude.
From S2P Require Import NBufProps.
From S2P Require Import HtcProps.
From S2P Require Import HtcFlow.
From S2P Require Import Wmi.

(** ** Dispatch *)

(** Table [t] serves command [cmd] of [len] data bytes with handler [h]: its first entry
    for the command has that handler and asks for no more data. *)
Definition serves (t : WMI_DISPATCH_TABLE) (cmd len : Z) (h : nat) : Prop :=
  ∃ es1 e es2, pTable t = es1 ++ e :: es2 ∧ Forall (λ e', CmdID e' ≠ cmd) es1 ∧
    CmdID e = cmd ∧ pCmdHandler e = Some h ∧ (CheckLength e = 0 ∨ CheckLength e <= len).

Lemma scan_table_serves t cmd len h :
  scan_table (pTable t) cmd len = Some h ↔ serves t cmd len h.
Proof.
  unfold serves. induction (pTable t) as [|e es IH]; cbn.
  { split; [done|]. intros ([|] & ? & ? & [=] & _). }
  destruct (Z.eqb_spec (CmdID e) cmd) as [Hc|Hc].
  - split.
    + destruct (negb _ && _) eqn:Hl; [done|]. intros Hh. exists [], e, es. split_and!; try done.
      apply andb_false_iff in Hl as [Hl|Hl]; lia.
    + intros ([|e1 es1] & e' & es2 & Heq & Hf & H1 & H2 & H3).
      * injection Heq as <- _. destruct (negb _ && _) eqn:Hl; [|done].
        apply andb_true_iff in Hl as [Hl1 Hl2]. lia.
      * injection Heq as <- _. by apply Forall_cons_1 in Hf as [? _].
  - rewrite IH. split; intros (es1 & e' & es2 & Heq & Hf & H1 & H2 & H3).
    + exists (e :: es1), e', es2. rewrite Heq. split_and!; try done. by constructor.
    + destruct es1 as [|e1 es1]; [by injection Heq as -> _|].
      injection Heq as <- Heq. apply Forall_cons_1 in Hf as [_ Hf]. by exists es1, e', es2.
Qed.

Lemma find_handler_none tables cmd len :
  (∀ t, t ∈ tables → ∀ h, ¬ serves t cmd len h) → find_handler tables cmd len = None.
Proof.
  induction tables as [|t ts IH]; intros H; cbn; [done|].
  destruct (scan_table (pTable t) cmd len) as [h|] eqn:Hs.
  - apply scan_table_serves in Hs. destruct (H t ltac:(by left) h Hs).
  - apply IH. intros t' Ht. apply H. by right.
Qed.

(** The search through the chain of dispatch tables finds a handler exactly when one
    of them serves the command, and then it is the one of the first table that does,
    called with that table's context: a table whose entry has no handler, or asks for
    more data than the command carries, does not hide the tables after it. *)
Theorem find_handler_first tables cmd len c h :
  find_handler tables cmd len = Some (c, h) ↔
  ∃ ts1 t ts2, tables = ts1 ++ t :: ts2 ∧ Forall (λ t', ∀ h', ¬ serves t' cmd len h') ts1 ∧
    serves t cmd len h ∧ c = pContext t.
Proof.
  induction tables as [|t ts IH]; cbn.
  { split; [done|]. intros ([|] & ? & ? & [=] & _). }
  destruct (scan_table (pTable t) cmd len) as [h0|] eqn:Hs.
  - apply scan_table_serves in Hs as Hs'. split.
    + intros [= <- <-]. exists [], t, ts. by split_and!.
    + intros ([|t1 ts1] & t' & ts2 & Heq & Hf & Hh & ->).
      * injection Heq as <- _. apply scan_table_serves in Hh. congruence.
      * injection Heq as <- _. apply Forall_cons_1 in Hf as [Hf _]. by destruct (Hf h0).
  - assert (∀ h', ¬ serves t cmd len h') as Hn
      by (intros h' Hh'%scan_table_serves; congruence).
    rewrite IH. split; intros (ts1 & t' & ts2 & Heq & Hf & Hh & ->).
    + exists (t :: ts1), t', ts2. rewrite Heq. split_and!; try done. by constructor.
    + destruct ts1 as [|t1 ts1]; [injection Heq as -> _; by destruct (Hn h)|].
      injection Heq as <- Heq. apply Forall_cons_1 in Hf as [_ Hf]. by exists ts1, t', ts2.
Qed.

(** ** Event buffers *)

Section events.
Context {A : Type}.
Implicit Type s : htc_state (wmi_app A).

Lemma run_get_ctx {APP} (s : htc_state APP) buf b i v :
  buf ≠ 0 → vbufs (h_nb s) !! buf = Some b → ctx b !! i = Some v → get_ctx buf i s = Ok (v, s).
Proof.
  intros Hnz Hb Hi. unfold get_ctx. erewrite bind_ok.
  2: { apply run_hnb. unfold adf_nbuf_get_priv. apply Z.eqb_neq in Hnz as ->.
       rewrite (bind_ok _ _ _ _ _ (run_assert _ _ eq_refl)). nb_run. reflexivity. }
  rewrite Hi. by destruct s.
Qed.
Definition put_vbuf {APP} (s : htc_state APP) (buf : Z) (b : VBUF) : htc_state APP :=
  s <| h_nb ::= λ n, n <| vbufs ::= <[buf := b]> |> |>.
Lemma run_set_ctx {APP} (s : htc_state APP) buf b i v :
  buf ≠ 0 → vbufs (h_nb s) !! buf = Some b → (i < length (ctx b))%nat →
  set_ctx buf i v s = Ok (tt, put_vbuf s buf (b <| ctx ::= <[i := u8 v]> |>)).
Proof.
  intros Hnz Hb Hi. apply lookup_lt_is_Some_2 in Hi as [x Hx]. unfold set_ctx.
  erewrite bind_ok by (eapply run_get_ctx; [exact Hnz|exact Hb|exact Hx]). by rewrite (run_hnb _ _ _ _ (run_upd_vbuf _ _ _ _ Hb)).
Qed.

Lemma class_bytes v : -2147483648 <= v < 2147483648 →
  s32 (((u8 (v .>> 24) * 256 + u8 (v .>> 16)) * 256 + u8 (v .>> 8)) * 256 + u8 v) = v.
Proof.
  intros Hv. rewrite !Z.shiftr_div_pow2 by lia.
  change (2 ^ 24) with 16777216. change (2 ^ 16) with 65536. change (2 ^ 8) with 256.
  unfold s32, u8. mlia.
Qed.

Lemma put_vbuf_twice {APP} (s : htc_state APP) buf b b' :
  put_vbuf (put_vbuf s buf b) buf b' = put_vbuf s buf b'.
Proof. unfold put_vbuf, field_upd. cbn. by rewrite insert_insert_eq. Qed.

Lemma set_get_class s buf b v :
  buf ≠ 0 → vbufs (h_nb s) !! buf = Some b → (8 <= length (ctx b))%nat → -2147483648 <= v < 2147483648 →
  ∃ b', set_event_class buf v s = Ok (tt, put_vbuf s buf b') ∧ next_buf b' = next_buf b ∧
        desc_list b' = desc_list b ∧ get_event_class buf (put_vbuf s buf b') = Ok (v, put_vbuf s buf b').
Proof.
  intros Hnz Hb Hc Hv. destruct b as [bd bn bl c]. cbn in Hc.
  do 8 (destruct c as [|? c]; [cbn in Hc; lia|]).
  eexists (mk_VBUF bd bn bl _). split_and!.
  - unfold set_event_class.
    erewrite bind_ok by (eapply run_set_ctx; [done|exact Hb|cbn; lia]).
    do 2 erewrite bind_ok by (eapply run_set_ctx; [done|cbn; by rewrite lookup_insert_eq|cbn; lia]).
    erewrite run_set_ctx; [|done|cbn; by rewrite lookup_insert_eq|cbn; lia].
    rewrite !put_vbuf_twice. reflexivity.
  - done.
  - done.
  - unfold get_event_class.
    do 4 erewrite bind_ok by (eapply run_get_ctx; [done|cbn; by rewrite lookup_insert_eq|reflexivity]).
    by rewrite class_bytes.
Qed.
Lemma poolrep_put {APP} (s : htc_state APP) id l buf b :
  poolrep (h_nb s) id l → buf ∉ l → poolrep (h_nb (put_vbuf s buf b)) id l.
Proof.
  intros (h & Hh & Hl) Hin. exists h. split; [done|]. eapply lchain_ext; [|exact Hl].
  intros x Hx. unfold put_vbuf, vnext. cbn. rewrite lookup_insert_ne; [done|]. intros ->. done.
Qed.
End events.

(** An event buffer goes back to the pool it came from. [_WMI_AllocEvent] takes the
    top buffer of the pool of the event's class and writes the class into its private
    area; when the buffer has been sent, [_WMI_SendCompleteHandler] reads the class back
    and puts the buffer on top of that same pool. *)
Theorem WMI_event_roundtrip {A} (s : htc_state (wmi_app A)) cls buf l b d eid :
  poolrep (h_nb s) (evt_pool cls) (buf :: l) →
  vbufs (h_nb s) !! buf = Some b → vdescs (h_nb s) !! desc_list b = Some d →
  (8 <= length (ctx b))%nat → -2147483648 <= cls < 2147483648 →
  ∃ s1 s2, _WMI_AllocEvent cls s = Ok (buf, s1) ∧ poolrep (h_nb s1) (evt_pool cls) l ∧
    get_event_class buf s1 = Ok (cls, s1) ∧
    _WMI_SendCompleteHandler eid buf s1 = Ok (tt, s2) ∧
    poolrep (h_nb s2) (evt_pool cls) (buf :: l) ∧ h_hif s2 = h_hif s.
Proof.
  intros Hp Hb Hd Hc Hcls.
  destruct (pool_alloc_spec _ _ _ _ _ _ (sizeof_WMI_CMD_HDR + _HTC_GetReservedHeadroom) Hp Hb Hd)
    as (n1 & E1 & Hp1 & Hv1 & _).
  assert (buf ≠ 0 ∧ buf ∉ l) as [Hnz Hin].
  { destruct Hp as (h & _ & Hl). pose proof (lchain_NoDup _ _ _ Hl) as [? _]%NoDup_cons.
    destruct Hl as (-> & ? & _). done. }
  set (s0 := s <| h_nb := n1 |>). set (b1 := b <| next_buf := 0 |> <| buf_length := 0 |>) in *.
  assert (vbufs (h_nb s0) !! buf = Some b1) as Hb1 by (unfold s0; cbn; by rewrite Hv1, lookup_insert_eq).
  destruct (set_get_class s0 buf b1 cls Hnz Hb1) as (b2 & E2 & Hn2 & Hd2 & Eg); [done|done|].
  set (s1 := put_vbuf s0 buf b2) in *.
  destruct (pool_free_spec (h_nb s1) (evt_pool cls) l buf b2) as (n2 & E3 & Hp2 & _).
  { by apply poolrep_put. }
  { unfold s1. cbn. by rewrite lookup_insert_eq. }
  { by rewrite Hn2. }
  { done. }
  { done. }
  exists s1, (s1 <| h_nb := n2 |>). split_and!; [| |exact Eg| |exact Hp2|done].
  - unfold _WMI_AllocEvent. erewrite bind_ok by (apply run_hnb; exact E1).
    apply Z.eqb_neq in Hnz as ->. cbn [negb when]. erewrite bind_ok by exact E2. done.
  - by apply poolrep_put.
  - unfold _WMI_SendCompleteHandler. erewrite bind_ok by exact Eg. by apply run_hnb.
Qed.

(** A message too short for a command, or whose command no table serves for its
    length, has no effect but that its buffer is returned. *)
Theorem WMI_unknown_command_ignored {A} `{!WmiHandlers A} (s : htc_state (wmi_app A)) eid buf b d :
  vbufs (h_nb s) !! buf = Some b → vdescs (h_nb s) !! desc_list b = Some d →
  let a := u32 (buf_addr d + data_offset d) in
  let byte x := default 0 (h_mem s !! x) in
  let cmd := byte a * 256 + byte (a + 1) in
  buf_length b < sizeof_WMI_CMD_HDR ∨
    (∀ t, t ∈ dispatch (wmi (h_app s)) → ∀ h, ¬ serves t cmd (buf_length b - sizeof_WMI_CMD_HDR) h) →
  WMIRecvMessageHandler eid 0 buf s = _HTC_ReturnBuffers eid buf s.
Proof.
  intros Hb Hd a byte cmd H. unfold WMIRecvMessageHandler.
  rewrite (bind_ok _ _ _ _ _ (run_assert _ _ eq_refl)).
  erewrite bind_ok by (apply run_hnb; unfold adf_nbuf_len; by nb_run).
  replace (s <| h_nb := h_nb s |>) with s by (by destruct s).
  destruct (Z.ltb_spec (buf_length b) sizeof_WMI_CMD_HDR) as [|Hlen]; [done|].
  destruct H as [|H]; [lia|]. rewrite bind_assoc.
  erewrite bind_ok by (by eapply run_hnb_peek). cbv beta iota. rewrite bind_assoc, (bind_ok _ _ _ _ _ (run_get _)).
  cbv beta. rewrite bind_assoc. erewrite bind_ok by reflexivity. fold a. rewrite bind_assoc.
  erewrite bind_ok by reflexivity. fold cmd.
  rewrite find_handler_none; [done|exact H].
Qed.

(** ** Witnesses *)

Definition ww_nb : nb_state :=
  mk_nb_state (mk_allocram 0 0)
    {[100 := mk_VBUF 200 101 3 (replicate 20 0); 101 := mk_VBUF 201 0 0 (replicate 20 0)]}
    {[200 := mk_VDESC 0 1000 64 8 3 0 []; 201 := mk_VDESC 0 1100 64 8 0 0 []]} 0 0 0
    [0; 0; 100; 0; 0; 0; 0; 0; 0; 0].
Definition ww_htc : htc_state (wmi_app unit) :=
  mk_htc ww_nb ∅ [] (replicate 22 (wf_ep 0)) 0 0 1 [] [] 1600 1 10 0 3 1
    (mk_app (mk_wmi 0 1 []) tt).
#[local] Instance ww_handlers : WmiHandlers unit := { run_cmd _ _ _ _ _ _ := mret tt }.

